(* ===== verification/_CoqProject ===== *)
-Q . S2P
Prelude.v
GoIO.v
GoStrings.v
Decimal.v
GoNet.v
Read.v
Counted.v
NetFlow5.v
NetFlow1.v
NetFlow6.v
NetFlow7.v
KT.v
RingBuffer.v
Stitch.v
Filter.v
GoFloat.v
Rollup.v
Aggregate.v
SumRollup.v
StatRollup.v
UniqueRollup.v
CacheRollup.v
Session.v
Translate.v
InformationElements.v
Sets.v
NetFlow9.v
IPFIX.v
Decoder.v
GoAddr.v
IC.v
NetflowFormat.v
Rule.v
Customs.v
KM.v
Enrich.v
Agent.v
Pipeline.v
CDN.v
ToJCHF.v
Alpha.v
FlowInput.v
VpcAws.v
VpcGcp.v
SnmpTypes.v
SnmpConfig.v
Scanner.v
Profiles.v
MibDB.v
MibFiles.v
Disco.v
Counters.v
SnmpUtil.v
SnmpConv.v
InterfaceMetrics.v
InterfaceMetadata.v
DeviceMetrics.v
Poller.v
FormatUtil.v
Utf8.v
DeviceMetadata.v
MetadataPoller.v
Traps.v
Nrm.v
Influx.v
Carbon.v
Prom.v
Kflow.v
Events.v
Otel.v
Remote.v
