(* ===== verification/Prelude.v ===== *)
(** * Verification of the network agent: telemetry codecs, stores, rollups and pipeline

    The agent takes flows from routers (NetFlow, IPFIX, sFlow), from Kentik and from clouds,
    and metrics from SNMP devices, brings them into one form, the record [JCHF] of package
    [kt], enriches, filters, stitches, samples and aggregates the records, and writes them in
    the format of a sink.  This development is a library in the order of that path.  Every
    definition is translated from the Go function or type it is named after; code of other
    repositories is an argument, or a type class with the laws its documentation states.

    ** Foundations

    - Prelude.v: integers at their width ([uint32 z], [int64 z], ...), bytes, sums.
    - GoIO.v: results of Go code ([outcome]: a value, an error, a panic, or no fuel left), the
      readers and the monad of decoders, [fold_out] for loops that can fail.
    - GoStrings.v, GoNet.v, GoAddr.v, GoFloat.v: what the program uses of [strings], [strconv],
      [net], [netip] and of floats, with the lemmas about them.
    - Customs.v: the custom maps of a record, Go's range over a map that its own body changes
      ([range]), and the tactic [gentle] for steps that keep a record's maps made.

    ** Decoders of datagrams (src/pkg/util/netflow)

    - Read.v, Counted.v, Sets.v: reads of fields, packets of a counted run of records, and sets
      of records with their data loops.
    - NetFlow1.v, NetFlow5.v, NetFlow6.v, NetFlow7.v: the versions of a fixed layout.
    - Session.v, Translate.v, InformationElements.v: templates by source, values by type, and
      the dictionary of elements with the reverse pass of RFC 5103.
    - NetFlow9.v, IPFIX.v: templates, options templates and data sets with session updates.
    - Decoder.v: the dispatcher.  What packets spell is what is decoded (round trips); the
      decoder ends without a panic unless a template of size zero is known, and then it hangs;
      a source's packets leave the templates of others alone.
    The loops over data sets take fuel, because they need not end: the theorems say how much is
    enough (the bytes of the datagram), and that none is in the case of a hang.

    ** Records and what is done with them

    - KT.v: the record, its map ([ToMap], with its cache), its flat form, its stitching key.
    - RingBuffer.v, Stitch.v: the buffer of recent flows, as a bounded queue, and the pairing of
      the two directions of a flow.
    - Filter.v: the filter language and what filters accept, or panic on.
    - Rollup.v, Aggregate.v, SumRollup.v, StatRollup.v, UniqueRollup.v, CacheRollup.v: the keys
      of rollups, the goroutine that sums and unique counts share as a step relation, and the
      four kinds of rollups.  What is exported is what came in, in every interleaving.
    - IC.v, CDN.v, Rule.v: tables of protocols, interface classes and delivery networks, and the
      rules for internal addresses and applications.
    - KM.v, Enrich.v: Kentik's metric definitions and the enrichment of records.
    - ToJCHF.v, FlowInput.v: the two conversions to records, from a Kentik flow and from the
      message of the goflow2 library, with the batches of the latter.
    - VpcAws.v, VpcGcp.v: flow logs of Amazon's and Google's clouds: lines by the columns of a
      header, documents, the topology's tags, the queue of objects and the rate of sampling.
    - NetflowFormat.v: records as IPFIX or NetFlow 9 and back.

    ** The agent (src/pkg/cat)

    - Agent.v: a batch from input to the queue of outputs: filters, rollups, sampling, messages
      of bounded size, and the signals that they are too big.
    - Alpha.v: the threads for Kentik flows, with the pool of records they share.
    - Pipeline.v: the agent with netflow output, read back by the decoder.

    ** SNMP (src/pkg/inputs/snmp and kt/snmp.go)

    - SnmpTypes.v, Counters.v: objects of MIBs with conditions and enumerations, values with
      scripts, and counters that become deltas.
    - SnmpConfig.v, Disco.v: the configuration with its references to secrets and its tags, which
      come from devices, providers and the global section; a discovery adds devices, removes
      duplicates and unseen ones, and what it writes of the tags is what was read.
    - Profiles.v, MibDB.v, MibFiles.v, with Scanner.v and Decimal.v: profiles that extend one
      another, found by identifiers with wildcards; the database of objects and traps, whose
      identifiers may have variables; and the loading of both from a tree of files.
    - SnmpUtil.v, SnmpConv.v: object identifiers, the readings and conversions of values.
    - InterfaceMetrics.v, DeviceMetrics.v: the polls of interfaces and of devices, as functions
      of what the walks of the gosnmp library give; the records of the latter are exactly those
      of its failed walks and of the results whose conditions hold.
    - Poller.v: the loop of polls; whatever fails, it goes on and each record it sends is
      accounted for.
    - InterfaceMetadata.v, DeviceMetadata.v, MetadataPoller.v: what a device says of its
      interfaces, if every walk of them is answered, and of itself, whatever walks fail, and the
      loop that makes records of it, whose cache is the history of the texts and tables said.
    - Traps.v: traps as records.

    ** Formats of sinks (src/pkg/formats)

    - FormatUtil.v: what is known of a device, the attributes of a metric and the filters.
    - Utf8.v: runes and the sanitizing of texts.
    - Nrm.v, Influx.v, Carbon.v, Prom.v, Remote.v, Otel.v: metrics for New Relic, InfluxDB,
      Carbon, Prometheus (registered gauges and remote writes) and OpenTelemetry, where
      any number of senders, under a lock that is modelled, and the exporter interleave.
    - Kflow.v: Kentik's own messages, and back.
    - Events.v: JSON, Elasticsearch, SNMP traps and Redis.

    ** Conventions

    A nil map is [None], and a write to it panics.  A loop over a map takes the order of the
    keys as an argument, or is a relation when its body changes the map; where the order does
    not matter the lemmas say so.  Channels are lists with their capacity, goroutines are step
    relations ([Aggregate.step], [alpha_step]) and a run is any sequence of their steps.
    Each section "Properties" or "Witnesses" of a file holds its main theorems and concrete
    inputs on which their hypotheses hold.

    ** Not modelled

    Locks (each operation under one is a step) and the blocking of full channels, but for those
    of Otel.v, log lines, meters' rates, and sockets, files and HTTP.  The table of services (util/service) is 12,000
    lines of data and an argument of the rules. The clients of cloud queues and stores, of
    vendor APIs and of the Kentik API, the router and server of the process (eggs, a copy of a
    third-party router), the encoders that only call JSON, Avro, Prometheus or OpenTelemetry
    libraries, the sinks, the reporting of the process and the start of the program are I/O and
    glue around what is modelled. The SNMP walks are the gosnmp library's. *)
From stdpp Require Export prelude gmap strings list.
From Stdlib Require Export ZArith Lia.

#[global] Open Scope Z_scope.

Declare Scope go_scope.
Delimit Scope go_scope with go.

(** ** Machine integers

    A Go unsigned integer of [w] bits is a [Z] in [[0, 2^w)], a signed one a [Z] in
    [[-2^(w-1), 2^(w-1))]; a conversion or an overflowing operation wraps. *)

Definition wrap (w z : Z) : Z := z mod 2 ^ w.
Definition swrap (w z : Z) : Z := (z + 2 ^ (w - 1)) mod 2 ^ w - 2 ^ (w - 1).

Notation "'uint8' z" := (wrap 8 z) (at level 10, z at level 9) : go_scope.
Notation "'uint16' z" := (wrap 16 z) (at level 10, z at level 9) : go_scope.
Notation "'uint32' z" := (wrap 32 z) (at level 10, z at level 9) : go_scope.
Notation "'uint64' z" := (wrap 64 z) (at level 10, z at level 9) : go_scope.
Notation "'int32' z" := (swrap 32 z) (at level 10, z at level 9) : go_scope.
Notation "'int64' z" := (swrap 64 z) (at level 10, z at level 9) : go_scope.

Definition in_range (w z : Z) : Prop := 0 <= z < 2 ^ w.
Definition in_srange (w z : Z) : Prop := - 2 ^ (w - 1) <= z < 2 ^ (w - 1).

#[export] Instance in_range_dec w z : Decision (in_range w z).
Proof. unfold in_range. apply _. Defined.
#[export] Instance in_srange_dec w z : Decision (in_srange w z).
Proof. unfold in_srange. apply _. Defined.

Section Machine.
  Context (w : Z) (Hw : 0 < w).

Lemma pow_w_pos : 0 < 2 ^ w.
Proof using Hw. apply Z.pow_pos_nonneg; lia. Qed.

Lemma wrap_range z : in_range w (wrap w z).
Proof using Hw. unfold in_range, wrap. apply Z.mod_pos_bound, pow_w_pos. Qed.

Lemma wrap_id z : in_range w z -> wrap w z = z.
Proof using Type. intros H. unfold wrap. by apply Z.mod_small. Qed.

Lemma wrap_wrap z : wrap w (wrap w z) = wrap w z.
Proof using Hw. apply wrap_id, wrap_range. Qed.

Lemma wrap_add a b : wrap w (wrap w a + wrap w b) = wrap w (a + b).
Proof using Type. unfold wrap. by rewrite <- Zplus_mod. Qed.

Lemma wrap_add_l a b : wrap w (wrap w a + b) = wrap w (a + b).
Proof using Type. unfold wrap. by rewrite Zplus_mod_idemp_l. Qed.

Lemma wrap_add_r a b : wrap w (a + wrap w b) = wrap w (a + b).
Proof using Type. unfold wrap. by rewrite Zplus_mod_idemp_r. Qed.

Lemma swrap_range z : in_srange w (swrap w z).
Proof using Hw.
  unfold in_srange, swrap.
  pose proof (Z.mod_pos_bound (z + 2 ^ (w - 1)) (2 ^ w) pow_w_pos).
  assert (2 ^ w = 2 * 2 ^ (w - 1)) by (rewrite <- Z.pow_succ_r; [f_equal|]; lia). lia.
Qed.

Lemma swrap_id z : in_srange w z -> swrap w z = z.
Proof using Hw.
  unfold in_srange, swrap. intros H.
  assert (2 ^ w = 2 * 2 ^ (w - 1)) by (rewrite <- Z.pow_succ_r; [f_equal|]; lia).
  rewrite Z.mod_small; lia.
Qed.
End Machine.

(** ** Bytes and big-endian integers *)

Abbreviation bytes := (list Z).
Abbreviation bytes_ok := (Forall (in_range 8)).

(** [binary.BigEndian.UintN]: the number a byte string spells. *)
Definition be_step (acc b : Z) : Z := acc * 256 + b.
Definition be_combine (bs : bytes) : Z := foldl be_step 0 bs.

(** [binary.BigEndian.PutUintN]: the [n] low-order bytes of [z], most significant first. *)
Fixpoint be_split (n : nat) (z : Z) : bytes :=
  match n with
  | O => []
  | S n' => be_split n' (z / 256) ++ [z mod 256]
  end.

Lemma length_be_split n z : length (be_split n z) = n.
Proof. revert z; induction n; intros z; simpl; [done|]. rewrite length_app, IHn. simpl. lia. Qed.

Lemma be_split_ok n z : bytes_ok (be_split n z).
Proof.
  revert z; induction n; intros z; simpl; [constructor|].
  apply Forall_app; split; [apply IHn|]. constructor; [|constructor].
  unfold in_range. change (2 ^ 8) with 256. apply Z.mod_pos_bound. lia.
Qed.

Lemma be_combine_snoc bs b : be_combine (bs ++ [b]) = be_combine bs * 256 + b.
Proof. unfold be_combine. by rewrite foldl_app. Qed.

Lemma be_combine_split n z : be_combine (be_split n z) = z mod 256 ^ Z.of_nat n.
Proof.
  revert z; induction n; intros z; simpl be_split.
  - by rewrite Z.mod_1_r.
  - rewrite be_combine_snoc, IHn, Nat2Z.inj_succ, Z.pow_succ_r by lia.
    rewrite (Z.rem_mul_r z 256) by (lia || (apply Z.pow_pos_nonneg; lia)). ring.
Qed.

Lemma be_combine_split_id n z :
  0 <= z < 256 ^ Z.of_nat n -> be_combine (be_split n z) = z.
Proof. intros H. rewrite be_combine_split. by apply Z.mod_small. Qed.

Lemma be_combine_range bs :
  bytes_ok bs -> 0 <= be_combine bs < 256 ^ Z.of_nat (length bs).
Proof.
  induction bs as [|b bs IH] using rev_ind; intros H; [done|].
  apply Forall_app in H as [Hbs Hb]. rewrite Forall_singleton in Hb.
  unfold in_range in Hb. change (2 ^ 8) with 256 in Hb. specialize (IH Hbs).
  rewrite be_combine_snoc, length_app, Nat2Z.inj_add, Z.pow_add_r by lia.
  change (256 ^ Z.of_nat (length [b])) with 256.
  lia.
Qed.

Lemma be_split_combine bs :
  bytes_ok bs -> be_split (length bs) (be_combine bs) = bs.
Proof.
  induction bs as [|b bs IH] using rev_ind; intros H; [done|].
  apply Forall_app in H as [Hbs Hb]. rewrite Forall_singleton in Hb.
  unfold in_range in Hb. change (2 ^ 8) with 256 in Hb.
  rewrite length_app, Nat.add_1_r, be_combine_snoc. simpl be_split.
  rewrite Z.div_add_l, (Z.div_small b), Z.add_0_r, IH by (done || lia).
  f_equal. rewrite Z.add_comm, Z.mod_add, Z.mod_small by lia. done.
Qed.

#[global] Opaque be_split.

(** [make([]byte, n)] after a read delivered only the prefix [bs]. *)
Definition pad (n : nat) (bs : bytes) : bytes := bs ++ replicate (n - length bs) 0.

Lemma length_pad n bs : (length bs <= n)%nat -> length (pad n bs) = n.
Proof. intros H. unfold pad. rewrite length_app, length_replicate. lia. Qed.

Lemma pad_id n bs : length bs = n -> pad n bs = bs.
Proof. intros <-. unfold pad. by rewrite Nat.sub_diag, app_nil_r. Qed.

Lemma pad_ok n bs : bytes_ok bs -> bytes_ok (pad n bs).
Proof.
  intros H. unfold pad. apply Forall_app; split; [done|].
  apply Forall_replicate. unfold in_range. lia.
Qed.

(** ** Lists *)

Lemma take_drop_app {A} (k : nat) (l1 l2 : list A) :
  length l1 = k -> take k (l1 ++ l2) = l1 /\ drop k (l1 ++ l2) = l2.
Proof. intros <-. split; [apply take_app_length|apply drop_app_length]. Qed.

Lemma length_concat_const {A} (k : nat) (ls : list (list A)) :
  Forall (fun l => length l = k) ls -> length (concat ls) = (k * length ls)%nat.
Proof. induction 1; simpl; rewrite ?length_app; lia. Qed.

(** Non-empty pieces are at most as many as their bytes. *)
Lemma length_concat_ge {A B} (wire : B -> list A) (ys : list B) :
  Forall (fun y => 0 < length (wire y))%nat ys ->
  (length ys <= length (concat (wire <$> ys)))%nat.
Proof. induction 1; csimpl; rewrite ?length_app; simpl in *; lia. Qed.

Lemma filter_all {A} (P : A -> Prop) `{forall x, Decision (P x)} (l : list A) :
  Forall P l -> filter P l = l.
Proof. induction 1 as [|x l Hx Hl IH]; [done|]. by rewrite filter_cons, decide_True, IH. Qed.

(** The sum of a list. *)
Definition Zsum (l : list Z) : Z := foldr Z.add 0 l.

Lemma Zsum_snoc l x : Zsum (l ++ [x]) = Zsum l + x.
Proof. unfold Zsum. induction l as [|y l IH]; simpl; lia. Qed.

(** ** Automation shared by the development *)

Create HintDb go discriminated.
Create Rewrite HintDb go.
#[export] Hint Resolve be_split_ok pad_ok : go.
#[export] Hint Rewrite length_be_split @length_app @length_replicate : go.

(** Decide a goal on concrete data by evaluation. *)
Ltac eval_done := vm_compute; first [reflexivity | repeat split; congruence].

(** Decide a decidable proposition about concrete data. *)
Ltac decide_done := apply (bool_decide_eq_true_1 _); vm_compute; reflexivity.

(** Case analysis on the boolean tests of a definition, with the arithmetic facts. *)
Ltac zcases :=
  repeat match goal with
  | |- context [Z.eqb ?a ?b] => destruct (Z.eqb_spec a b)
  | |- context [Z.leb ?a ?b] => destruct (Z.leb_spec a b)
  | |- context [Z.ltb ?a ?b] => destruct (Z.ltb_spec a b)
  | |- context [Nat.eqb ?a ?b] => destruct (Nat.eqb_spec a b)
  | |- context [Nat.leb ?a ?b] => destruct (Nat.leb_spec a b)
  | |- context [Nat.ltb ?a ?b] => destruct (Nat.ltb_spec a b)
  end; simpl; try lia.
