(* ===== verification/GoIO.v ===== *)
(** * Go errors, panics and byte readers

    The part of Go's standard library that the wire decoders use: [error] values,
    [io.Reader] with its implementations [bytes.Buffer] and [io.MultiReader],
    [io.ReadFull], [bytes.Buffer.ReadFrom], and [time.Unix]. *)
From S2P Require Import Prelude.

(** ** Errors and outcomes *)

Inductive error :=
| EOF
| ErrUnexpectedEOF
| ErrShortBuffer
| Errorf (format : string) (args : list Z)
| Wrapf (format : string) (args : list Z) (inner : error).

#[export] Instance error_eq_dec : EqDecision error.
Proof. solve_decision. Defined.

(** What a call does: return, return a non-nil error, panic, or (for a loop that is given
    fuel) run longer than the fuel allows. *)
Inductive outcome (A : Type) : Type :=
| Ok (a : A)
| Err (e : error)
| Panic (why : string)
| OutOfFuel.
Arguments Ok {A} a.
Arguments Err {A} e.
Arguments Panic {A} why.
Arguments OutOfFuel {A}.

#[export] Instance outcome_ret : MRet outcome := fun A a => Ok a.
#[export] Instance outcome_bind : MBind outcome := fun A B f o =>
  match o with
  | Ok a => f a
  | Err e => Err e
  | Panic why => Panic why
  | OutOfFuel => OutOfFuel
  end.

(** One step after the other. *)
Fixpoint fold_out {S A} (f : S -> A -> outcome S) (s : S) (l : list A) : outcome S :=
  match l with
  | [] => Ok s
  | x :: l' => s ← f s x; fold_out f s l'
  end.

Lemma fold_out_app {S A} (f : S -> A -> outcome S) l l' s :
  fold_out f s (l ++ l') = s ← fold_out f s l; fold_out f s l'.
Proof.
  revert s. induction l as [|x l IH]; intros s; [done|]. cbn. by destruct (f s x) as [s'| | |]; cbn.
Qed.

#[export] Instance outcome_eq_dec {A} `{EqDecision A} : EqDecision (outcome A).
Proof. solve_decision. Defined.

(** A computation that consumes a reader of type [R]: [if err := f(r); err != nil { return err }]
    is the monadic bind. *)
Definition M (R A : Type) : Type := R -> outcome (A * R).

#[export] Instance M_ret R : MRet (M R) := fun A a r => Ok (a, r).
#[export] Instance M_bind R : MBind (M R) := fun A B f m r =>
  match m r with
  | Ok (a, r') => f a r'
  | Err e => Err e
  | Panic why => Panic why
  | OutOfFuel => OutOfFuel
  end.

Definition fail {R A} (e : error) : M R A := fun _ => Err e.

(** [fmt.Errorf("...: %v", err)] around a failing call. *)
Definition wrapf {R A} (format : string) (m : M R A) : M R A := fun r =>
  match m r with
  | Err e => Err (Wrapf format [] e)
  | o => o
  end.

(** A computation that does not touch the reader. *)
Definition lift {R A} (o : outcome A) : M R A := fun r => a ← o; Ok (a, r).

(** Reading from another reader, whose rest is dropped. *)
Definition from {R A} (m : M R A) (r : R) : outcome A := '(a, _) ← m r; Ok a.

Fixpoint repeatM {R A} (n : nat) (m : M R A) : M R (list A) :=
  match n with
  | O => mret []
  | S n' => x ← m; xs ← repeatM n' m; mret (x :: xs)
  end.

(** ** io.Reader *)

(** [io_Read n r] is [r.Read(p)] with [len(p) = n]: the bytes stored at the front of [p] and
    the reader afterwards. [io_data r] is what the reader still holds. *)
Class IoReader (R : Type) := {
  io_Read : nat -> M R bytes;
  io_data : R -> bytes
}.

(** The contract of [io.Reader] the decoders rely on: a non-empty read delivers at least one
    byte and a prefix of the data, or reports [EOF] when there is none left. *)
Class IoReaderLaws (R : Type) `{IoReader R} := {
  io_Read_spec n r :
    (0 < n)%nat ->
    match io_Read n r with
    | Ok (bs, r') => (0 < length bs <= n)%nat /\ io_data r = bs ++ io_data r'
    | Err e => e = EOF /\ io_data r = []
    | Panic _ | OutOfFuel => False
    end
}.

(** [bytes.Buffer]. *)
Abbreviation Buffer := bytes.

Definition Buffer_Read (n : nat) : M Buffer bytes := fun b =>
  match b with
  | [] => if (n =? 0)%nat then Ok ([], []) else Err EOF
  | _ => Ok (take n b, drop n b)
  end.

#[export] Instance Buffer_reader : IoReader Buffer := {
  io_Read := Buffer_Read;
  io_data b := b
}.

#[export] Instance Buffer_laws : IoReaderLaws Buffer.
Proof.
  constructor. intros n [|x b] Hn; simpl.
  - destruct n; [lia|done].
  - destruct n; [lia|]. simpl. rewrite length_take, take_drop. split; [lia|done].
Qed.

(** [io.MultiReader]: the concatenation of its readers; an exhausted one is dropped. *)
Abbreviation MultiReader := (list Buffer).

Fixpoint MultiReader_Read (n : nat) (rs : MultiReader) : outcome (bytes * MultiReader) :=
  match rs with
  | [] => Err EOF
  | b :: rs' =>
      match Buffer_Read n b with
      | Ok (bs, b') => Ok (bs, b' :: rs')
      | Err EOF => MultiReader_Read n rs'
      | Err e => Err e
      | Panic why => Panic why
      | OutOfFuel => OutOfFuel
      end
  end.

#[export] Instance MultiReader_reader : IoReader MultiReader := {
  io_Read := MultiReader_Read;
  io_data := @concat Z
}.

#[export] Instance MultiReader_laws : IoReaderLaws MultiReader.
Proof.
  constructor. intros n rs Hn. induction rs as [|[|x b] rs IH]; simpl.
  - done.
  - destruct n; [lia|]. simpl in *. exact IH.
  - destruct n; [lia|]. simpl. rewrite length_take.
    split; [lia|]. by rewrite app_assoc, take_drop.
Qed.

Section Readers.
  Context {R : Type} `{IoReader R}.

(** [p := make([]byte, n); r.Read(p)]: one read, the rest of [p] stays zero. *)
Definition Read_make (n : nat) : M R bytes := bs ← io_Read n; mret (pad n bs).

(** [io.ReadFull(r, make([]byte, n))]. *)
Fixpoint ReadFull_loop (fuel : nat) (acc : bytes) (n : nat) (r : R) : outcome (bytes * R) :=
  match n with
  | O => Ok (acc, r)
  | S _ =>
      match fuel with
      | O => OutOfFuel
      | S fuel' =>
          match io_Read n r with
          | Ok (bs, r') => ReadFull_loop fuel' (acc ++ bs) (n - length bs) r'
          | Err EOF => Err (match acc with [] => EOF | _ => ErrUnexpectedEOF end)
          | Err e => Err e
          | Panic why => Panic why
          | OutOfFuel => OutOfFuel
          end
      end
  end.
Definition ReadFull (n : nat) : M R bytes := ReadFull_loop n [] n.

(** [buffer.ReadFrom(r)] on an empty [bytes.Buffer]: read until [EOF]. *)
Fixpoint ReadFrom_loop (fuel : nat) (acc : bytes) (r : R) : outcome (bytes * R) :=
  match fuel with
  | O => OutOfFuel
  | S fuel' =>
      match io_Read 512 r with
      | Ok (bs, r') => ReadFrom_loop fuel' (acc ++ bs) r'
      | Err EOF => Ok (acc, r)
      | Err e => Err e
      | Panic why => Panic why
      | OutOfFuel => OutOfFuel
      end
  end.
Definition ReadFrom : M R Buffer := fun r => ReadFrom_loop (S (length (io_data r))) [] r.

  Context `{!IoReaderLaws R}.

Lemma ReadFull_loop_spec fuel acc n r :
  (n <= fuel)%nat ->
  match ReadFull_loop fuel acc n r with
  | Ok (bs, r') =>
      (n <= length (io_data r))%nat /\ bs = acc ++ take n (io_data r) /\
      io_data r' = drop n (io_data r)
  | Err e =>
      (length (io_data r) < n)%nat /\
      e = (if decide (acc ++ io_data r = []) then EOF else ErrUnexpectedEOF)
  | Panic _ | OutOfFuel => False
  end.
Proof using Type*.
  revert acc n r; induction fuel as [|fuel IH]; intros acc n r Hn.
  { destruct n; [|lia]. simpl. rewrite take_0, drop_0, app_nil_r. auto with lia. }
  destruct n as [|n]; [simpl; rewrite take_0, drop_0, app_nil_r; auto with lia|].
  simpl. pose proof (io_Read_spec (S n) r ltac:(lia)) as Hs.
  destruct (io_Read (S n) r) as [[bs r']|e| |]; [|destruct Hs as [-> Hd]|done|done].
  - destruct Hs as [Hl Hd].
    specialize (IH (acc ++ bs) (S n - length bs)%nat r' ltac:(lia)). rewrite Hd.
    destruct (ReadFull_loop _ _ _ _) as [[bs2 r2]|e| |]; [| |done|done].
    + destruct IH as (Hle & -> & ->). rewrite length_app.
      rewrite take_app_ge, drop_app_ge by lia.
      split; [lia|]. split; [by rewrite <- app_assoc|done].
    + destruct IH as [Hlt ->]. rewrite length_app. split; [lia|]. by rewrite app_assoc.
  - rewrite Hd. split; [simpl; lia|]. rewrite app_nil_r.
    destruct acc; by case_decide.
Qed.

Lemma ReadFrom_loop_spec fuel acc r :
  (length (io_data r) < fuel)%nat ->
  exists r', ReadFrom_loop fuel acc r = Ok (acc ++ io_data r, r') /\ io_data r' = [].
Proof using Type*.
  revert acc r; induction fuel as [|fuel IH]; intros acc r Hf; [lia|]. simpl.
  pose proof (io_Read_spec 512 r ltac:(lia)) as Hs.
  destruct (io_Read 512 r) as [[bs r']|e| |]; [|destruct Hs as [-> Hd]|done|done].
  - destruct Hs as [Hl Hd]. rewrite Hd, length_app in Hf.
    destruct (IH (acc ++ bs) r' ltac:(lia)) as (r2 & -> & ?).
    exists r2. by rewrite Hd, app_assoc.
  - exists r. by rewrite Hd, app_nil_r.
Qed.
End Readers.

Lemma ReadFull_Buffer n (b : Buffer) :
  ReadFull n b =
    if (n <=? length b)%nat then Ok (take n b, drop n b)
    else Err (match b with [] => EOF | _ => ErrUnexpectedEOF end).
Proof.
  pose proof (ReadFull_loop_spec n [] n b ltac:(lia)) as Hs. unfold ReadFull in *.
  destruct (ReadFull_loop n [] n b) as [[bs b']|e| |]; simpl in Hs; [| |done|done].
  - destruct Hs as (Hl & -> & ->). by destruct (Nat.leb_spec n (length b)); [|lia].
  - destruct Hs as (Hl & ->). destruct (Nat.leb_spec n (length b)); [lia|].
    by destruct b.
Qed.

Lemma ReadFrom_Buffer (b : Buffer) : ReadFrom b = Ok (b, []).
Proof.
  destruct (ReadFrom_loop_spec (S (length b)) [] b) as (b' & Heq & Hb'); [simpl; lia|].
  unfold ReadFrom. simpl in *. rewrite Heq. by subst.
Qed.

Lemma ReadFull_app n (bs rest : bytes) :
  length bs = n -> ReadFull n (bs ++ rest) = Ok (bs, rest).
Proof.
  intros Hl. rewrite ReadFull_Buffer, length_app.
  destruct (take_drop_app n bs rest Hl) as [-> ->].
  by destruct (Nat.leb_spec n (length bs + length rest)); [|lia].
Qed.

Lemma Read_make_app n (bs rest : bytes) :
  length bs = n -> Read_make n (bs ++ rest) = Ok (bs, rest).
Proof.
  intros Hl. unfold Read_make, mbind, M_bind, io_Read. simpl. unfold Buffer_Read.
  destruct (take_drop_app n bs rest Hl) as [Ht Hd].
  destruct (bs ++ rest) eqn:E.
  - apply app_eq_nil in E as [-> ->]. simpl in Hl. subst n. done.
  - rewrite Ht, Hd. unfold mret, M_ret. by rewrite pad_id.
Qed.

(** A read that finds fewer bytes than it asks for, but some, is no error. *)
Lemma Read_make_short n (a : bytes) :
  (0 < length a <= n)%nat -> Read_make n a = Ok (pad n a, []).
Proof.
  intros Ha. assert (Buffer_Read n a = Ok (take n a, drop n a)) as Hr by (by destruct a; [simpl in Ha; lia|]).
  unfold Read_make, mbind, M_bind, io_Read. simpl. rewrite Hr.
  by rewrite take_ge, drop_ge by lia.
Qed.

Arguments ReadFull : simpl never.
Arguments ReadFrom : simpl never.
Arguments Read_make : simpl never.

(** ** Time *)

(** [time.Time] as seconds and nanoseconds since the epoch. *)
Record Time := mkTime { t_sec : Z; t_nsec : Z }.

Definition Nanosecond : Z := 1.
Definition Microsecond : Z := 1000.
Definition Millisecond : Z := 1000000.
Definition Second : Z := 1000000000.

(** [time.Unix(sec, nsec)]: excess nanoseconds carry into the seconds. *)
Definition time_Unix (sec nsec : Z) : Time :=
  mkTime (sec + nsec / Second) (nsec mod Second).

Lemma time_Unix_id t : 0 <= t_nsec t < Second -> time_Unix (t_sec t) (t_nsec t) = t.
Proof.
  destruct t as [s n]. simpl. intros H. unfold time_Unix.
  rewrite Z.div_small, Z.mod_small by done. by rewrite Z.add_0_r.
Qed.
