(* ===== verification/GoStrings.v ===== *)
(** * Go strings

    What the modelled code uses of the packages [strings] and [strconv], on byte strings: a Go
    string is a [String.string] of bytes. *)
From Stdlib Require Import Ascii.
From S2P Require Import Prelude GoIO.

(** The byte of a character. *)
Definition byte_of (c : ascii) : Z := Z.of_N (N_of_ascii c).

Fixpoint sdrop (n : nat) (s : string) : string :=
  match n, s with
  | S n', String _ s' => sdrop n' s'
  | _, _ => s
  end.

(** [strings.HasPrefix(s, p)]. *)
Definition HasPrefix (s p : string) : bool := String.prefix p s.

Fixpoint strings_Contains (s sub : string) : bool :=
  HasPrefix s sub || match s with "" => false | String _ s' => strings_Contains s' sub end.

(** [strings.Join]. *)
Fixpoint strings_Join (l : list string) (sep : string) : string :=
  match l with
  | [] => ""
  | [s] => s
  | s :: l' => s +:+ sep +:+ strings_Join l' sep
  end.

(** [strings.SplitN(s, sep, cuts + 1)] for a non-empty [sep], [skip] bytes of a separator
    being left to drop. *)
Fixpoint split_from (cuts skip : nat) (sep s : string) : list string :=
  match s with
  | "" => [""]
  | String c s' =>
      match skip with
      | S k => split_from cuts k sep s'
      | O =>
          match cuts with
          | O => [s]
          | S cuts' =>
              if String.prefix sep s then "" :: split_from cuts' (String.length sep - 1) sep s'
              else match split_from cuts 0 sep s' with
                   | h :: t => String c h :: t
                   | [] => [String c ""]
                   end
          end
      end
  end.
Definition strings_Split (s sep : string) : list string := split_from (S (String.length s)) 0 sep s.
Definition strings_SplitN (s sep : string) (n : nat) : list string := split_from (n - 1) 0 sep s.

(** [strings.Replace(s, old, new, 1)] for a non-empty [old]. *)
Fixpoint strings_Replace1 (s old new : string) : string :=
  if String.prefix old s then new +:+ sdrop (String.length old) s
  else match s with
       | "" => ""
       | String c s' => String c (strings_Replace1 s' old new)
       end.

(** [strings.ReplaceAll] of one byte by another string. *)
Fixpoint strings_ReplaceByte (s : string) (old : ascii) (new : string) : string :=
  match s with
  | "" => ""
  | String c s' => (if Ascii.eqb c old then new else String c "") +:+ strings_ReplaceByte s' old new
  end.

(** ** TrimSpace *)

Definition chr (n : Z) : ascii := ascii_of_N (Z.to_N n).
Definition str_of (bs : list Z) : string := foldr (fun b s => String (chr b) s) "" bs.

(** The UTF-8 encodings of the runes of [unicode.IsSpace]. *)
Definition spaces : list string :=
  map str_of ([[9]; [10]; [11]; [12]; [13]; [32]; [194; 133]; [194; 160]; [225; 154; 128]] ++
    map (fun n => [226; 128; n]) [128; 129; 130; 131; 132; 133; 134; 135; 136; 137; 138; 168; 169; 175] ++
    [[226; 129; 159]; [227; 128; 128]]).

Definition srev (s : string) : string := String.string_of_list_ascii (rev (String.list_ascii_of_string s)).

(** Drop leading spaces; [fuel] of the length of the string is enough, a space has a byte. *)
Fixpoint trim_left (fuel : nat) (sp : list string) (s : string) : string :=
  match fuel with
  | O => s
  | S fuel' =>
      match List.find (fun p => String.prefix p s) sp with
      | Some p => trim_left fuel' sp (sdrop (String.length p) s)
      | None => s
      end
  end.
Definition strings_TrimSpace (s : string) : string :=
  let s := trim_left (String.length s) spaces s in
  srev (trim_left (String.length s) (map srev spaces) (srev s)).

(** ** strconv *)

Definition digit (c : ascii) : option Z :=
  let b := byte_of c in
  if (48 <=? b) && (b <=? 57) then Some (b - 48) else None.

(** A non-empty string of digits. *)
Fixpoint digits_from (acc : Z) (s : string) : option Z :=
  match s with
  | "" => Some acc
  | String c s' => d ← digit c; digits_from (acc * 10 + d) s'
  end.
Definition digits (s : string) : option Z :=
  match s with "" => None | _ => digits_from 0 s end.

(** [strconv.Atoi] on a 64-bit machine; the kind of error does not matter to its callers. *)
Definition Atoi (s : string) : option Z :=
  n ← (match s with
       | String "+" s' => digits s'
       | String "-" s' => Z.opp <$> digits s'
       | _ => digits s
       end);
  if decide (in_srange 64 n) then Some n else None.

(** The integer that [strconv.Atoi] returns also with an error: zero on a bad digit, the
    nearest integer when the digits before any bad one leave the range of 64 bits. *)
Fixpoint parse_uint (acc : Z) (s : string) : option Z :=
  match s with
  | "" => Some acc
  | String c s' =>
      d ← digit c;
      if 2 ^ 64 - 1 <? acc * 10 + d then Some (2 ^ 64 - 1) else parse_uint (acc * 10 + d) s'
  end.
Definition Atoi_value (s : string) : Z :=
  let value s := match s with "" => 0 | _ => default 0 (parse_uint 0 s) end in
  match s with
  | String "+" s' => Z.min (value s') (2 ^ 63 - 1)
  | String "-" s' => - Z.min (value s') (2 ^ 63)
  | _ => Z.min (value s) (2 ^ 63 - 1)
  end.

(** [strings.HasSuffix] and [strings.TrimSuffix]. *)
Definition HasSuffix (s p : string) : bool := String.prefix (srev p) (srev s).
Definition strings_TrimSuffix (s p : string) : string :=
  if HasSuffix s p then String.substring 0 (String.length s - String.length p) s else s.

(** [strings.Index]: [-1] when it does not occur. *)
Fixpoint strings_Index (s sub : string) : Z :=
  if String.prefix sub s then 0 else
  match s with
  | "" => -1
  | String _ s' => let i := strings_Index s' sub in if i =? -1 then -1 else i + 1
  end.

(** [strconv.Itoa]. *)
Fixpoint dec_digits (fuel : nat) (n : Z) (acc : string) : string :=
  match fuel with
  | O => acc
  | S fuel' =>
      let acc := String (chr (48 + n mod 10)) acc in
      if n <? 10 then acc else dec_digits fuel' (n / 10) acc
  end.
Definition Itoa (n : Z) : string :=
  if n <? 0 then String "-" (dec_digits 20 (- n) "") else dec_digits 20 n "".

Example Split1 : strings_Split "a or b or c" " or " = ["a"; "b"; "c"]%string.
Proof. reflexivity. Qed.
Example Split2 : strings_SplitN "a$$-$$b$$c" "$$" 3 = ["a"; "-"; "b$$c"]%string.
Proof. reflexivity. Qed.
Example Trim1 : strings_TrimSpace (" a b " +:+ str_of [194; 160; 10]) = "a b"%string.
Proof. vm_compute. reflexivity. Qed.
Example Atoi1 : map Atoi ["12"; "-7"; "+3"; ""; "-"; "1_0"; "9223372036854775808"]%string
  = [Some 12; Some (-7); Some 3; None; None; None; None].
Proof. vm_compute. reflexivity. Qed.
Example Atoi_value1 : map Atoi_value ["12"; "-7"; "1.5"; "9223372036854775808"; "-99999999999999999999x"; "x"]%string
  = [12; -7; 0; 2 ^ 63 - 1; - 2 ^ 63; 0].
Proof. vm_compute. reflexivity. Qed.
Example TrimSuffix1 : map (fun s => strings_TrimSuffix s "_c") ["x_c"; "_c"; "x_c_c"; "c"; ""]%string
  = ["x"; ""; "x_c"; "c"; ""]%string.
Proof. vm_compute. reflexivity. Qed.
Example Index1 : map (strings_Index "abcbc") ["bc"; ""; "x"; "abcbcb"] = [1; 0; -1; -1].
Proof. vm_compute. reflexivity. Qed.
Example Itoa1 : map Itoa [0; 10; -450; -9223372036854775808] = ["0"; "10"; "-450"; "-9223372036854775808"]%string.
Proof. vm_compute. reflexivity. Qed.

(** ** Splitting what was joined *)

#[local] Arguments String.append !_ _ : simpl nomatch.

Lemma slength_app a b : String.length (a +:+ b) = (String.length a + String.length b)%nat.
Proof. induction a as [|c a IH]; [done|]. cbn. f_equal. exact IH. Qed.

Lemma sapp_nil_r a : a +:+ "" = a.
Proof. induction a as [|c a IH]; [done|]. cbn. f_equal. exact IH. Qed.

Lemma sapp_assoc a b c : (a +:+ b) +:+ c = a +:+ (b +:+ c).
Proof. induction a as [|x a IH]; simpl; [done|]. by rewrite IH. Qed.

Lemma prefix_app_long a b r :
  (String.length a <= String.length b)%nat -> String.prefix a (b +:+ r) = String.prefix a b.
Proof.
  revert b; induction a as [|x a IH]; intros [|y b] Hl; simpl in *; try done; try lia.
  - by destruct r.
  - destruct (Ascii.ascii_dec x y); [|done]. apply IH. lia.
Qed.

Lemma prefix_self a r : String.prefix a (a +:+ r) = true.
Proof.
  induction a as [|x a IH]; simpl; [by destruct r|].
  destruct (Ascii.ascii_dec x x); [done|congruence].
Qed.

Lemma prefix_spec a s : String.prefix a s = true -> exists r, s = a +:+ r.
Proof.
  revert s; induction a as [|x a IH]; intros s Hp; [by exists s|].
  destruct s as [|y s]; [done|]. simpl in Hp. destruct (Ascii.ascii_dec x y) as [->|]; [|done].
  destruct (IH s Hp) as [r ->]. by exists r.
Qed.

Lemma sdrop_app a r : sdrop (String.length a) (a +:+ r) = r.
Proof. induction a as [|x a IH]; simpl; [by destruct r|done]. Qed.

(** No separator starts inside [p], not even one that ends after it. *)
Fixpoint clean (sep p : string) : bool :=
  match p with
  | "" => true
  | String _ p' => negb (String.prefix sep (p +:+ sep)) && clean sep p'
  end.

Lemma split_skip cuts sep a r : split_from cuts (String.length a) sep (a +:+ r) = split_from cuts 0 sep r.
Proof. induction a as [|x a IH]; simpl; [done|]. done. Qed.

Lemma split_last cuts sep p : clean sep p = true -> split_from cuts 0 sep p = [p].
Proof.
  induction p as [|c p IH]; [done|]. cbn [clean]. intros [Hn Hc]%andb_prop.
  cbn [split_from]. destruct cuts as [|cuts]; [done|].
  assert (String.prefix sep (String c p) = false) as ->.
  { destruct (String.prefix sep (String c p)) eqn:E; [|done].
    apply prefix_spec in E as [r E]. rewrite E, sapp_assoc, prefix_self in Hn. done. }
  by rewrite IH.
Qed.

Lemma split_piece cuts sep p r :
  sep <> "" -> clean sep p = true ->
  split_from (S cuts) 0 sep (p +:+ sep +:+ r) = p :: split_from cuts 0 sep r.
Proof.
  intros Hs. induction p as [|c p IH].
  - intros _. change ("" +:+ sep +:+ r) with (sep +:+ r). destruct sep as [|x sep]; [done|]. cbn [String.append split_from].
    change (String x (sep +:+ r)) with (String x sep +:+ r). rewrite prefix_self.
    cbn [String.length]. rewrite Nat.sub_0_r || replace (S (String.length sep) - 1)%nat with (String.length sep) by lia.
    by rewrite split_skip.
  - cbn [clean]. intros [Hn Hc]%andb_prop. cbn [String.append split_from].
    change (String c (p +:+ sep +:+ r)) with (String c p +:+ sep +:+ r).
    rewrite <- sapp_assoc, prefix_app_long by (rewrite slength_app; lia).
    apply negb_true_iff in Hn. by rewrite Hn, IH.
Qed.

Lemma split_join cuts sep ps :
  sep <> "" -> ps <> [] -> Forall (fun p => clean sep p = true) ps -> (length ps <= S cuts)%nat ->
  split_from cuts 0 sep (strings_Join ps sep) = ps.
Proof.
  intros Hs. revert cuts. induction ps as [|p [|q ps] IH]; intros cuts Hne Hc Hl; [done| |].
  - inversion_clear Hc. by apply split_last.
  - inversion_clear Hc. destruct cuts as [|cuts]; [simpl in Hl; lia|].
    change (strings_Join (p :: q :: ps) sep) with (p +:+ sep +:+ strings_Join (q :: ps) sep).
    rewrite split_piece by done. f_equal. apply IH; [done|done|]. simpl in *. lia.
Qed.

Lemma join_length sep ps :
  sep <> "" -> (length ps <= S (String.length (strings_Join ps sep)))%nat.
Proof.
  intros Hs. induction ps as [|p [|q ps] IH]; [simpl; lia..|].
  change (strings_Join (p :: q :: ps) sep) with (p +:+ sep +:+ strings_Join (q :: ps) sep).
  rewrite !slength_app. destruct sep; [done|]. simpl in *. lia.
Qed.

Lemma Split_Join sep ps :
  sep <> "" -> ps <> [] -> Forall (fun p => clean sep p = true) ps ->
  strings_Split (strings_Join ps sep) sep = ps.
Proof.
  intros Hs Hne Hc. unfold strings_Split. apply split_join; [done..|].
  pose proof (join_length sep ps Hs). lia.
Qed.

Lemma Split_ne s sep : strings_Split s sep <> [].
Proof.
  unfold strings_Split. generalize (S (String.length s)) as n, 0%nat as k.
  induction s as [|c s IH]; intros n k; cbn [split_from]; [done|].
  destruct k; [|apply IH]. destruct n; [done|]. destruct (String.prefix sep _); [done|].
  by destruct (split_from _ 0 sep s).
Qed.

(** A separator whose first byte is not in the piece. *)
Fixpoint lacks (c : ascii) (s : string) : bool :=
  match s with
  | "" => true
  | String x s' => negb (Ascii.eqb x c) && lacks c s'
  end.

Lemma lacks_app c a b : lacks c (a +:+ b) = lacks c a && lacks c b.
Proof.
  induction a as [|x a IH]; [done|]. change (String x a +:+ b) with (String x (a +:+ b)). cbn [lacks].
  by rewrite IH, andb_assoc.
Qed.

Lemma lacks_clean c sep p : lacks c p = true -> clean (String c sep) p = true.
Proof.
  induction p as [|x p IH]; cbn [lacks clean]; [done|]. intros [Hx Hp]%andb_prop.
  rewrite IH, andb_true_r by done. cbn [String.append String.prefix].
  destruct (Ascii.ascii_dec c x) as [->|]; [|done]. by rewrite Ascii.eqb_refl in Hx.
Qed.

Lemma Split_lacks c s : lacks c s = true -> strings_Split s (String c "") = [s].
Proof. intros Hl. by apply split_last, lacks_clean. Qed.

Lemma Replace1_clean s old new :
  old <> "" -> clean old s = true -> strings_Replace1 s old new = s.
Proof.
  intros Ho. induction s as [|c s IH].
  - intros _. cbn [strings_Replace1]. by destruct old.
  - cbn [clean]. intros [Hn Hc]%andb_prop. cbn [strings_Replace1].
    assert (String.prefix old (String c s) = false) as ->; [|by rewrite IH].
    destruct (String.prefix old (String c s)) eqn:E; [|done].
    apply prefix_spec in E as [r E]. rewrite E, sapp_assoc, prefix_self in Hn. done.
Qed.

(** ** Text without spaces *)

Definition graphic (c : ascii) : bool := (33 <=? byte_of c) && (byte_of c <=? 126).
Fixpoint sforall (P : ascii -> bool) (s : string) : bool :=
  match s with
  | "" => true
  | String c s' => P c && sforall P s'
  end.

Lemma sforall_app P a b : sforall P (a +:+ b) = sforall P a && sforall P b.
Proof. induction a as [|c a IH]; simpl; [done|]. by rewrite IH, andb_assoc. Qed.

Lemma srev_String c s : srev (String c s) = srev s +:+ String c "".
Proof.
  unfold srev. cbn [String.list_ascii_of_string rev].
  generalize (rev (String.list_ascii_of_string s)) as l. intros l.
  induction l as [|x l IH]; simpl; [done|]. by rewrite IH.
Qed.

Lemma sforall_srev P s : sforall P (srev s) = sforall P s.
Proof.
  induction s as [|c s IH]; [done|]. rewrite srev_String, sforall_app, IH. simpl.
  rewrite andb_true_r. apply andb_comm.
Qed.

Lemma srev_app a b : srev (a +:+ b) = srev b +:+ srev a.
Proof.
  induction a as [|c a IH]; [by rewrite sapp_nil_r|].
  cbn [String.append]. by rewrite !srev_String, IH, sapp_assoc.
Qed.

Lemma srev_involutive s : srev (srev s) = s.
Proof. induction s as [|c s IH]; [done|]. by rewrite srev_String, srev_app, IH. Qed.

(** No space starts with a graphic byte, nor ends with one. *)
Lemma trim_left_graphic fuel sp s :
  forallb (fun p => match p with "" => false | String c _ => negb (graphic c) end) sp = true ->
  sforall graphic s = true -> trim_left fuel sp s = s.
Proof.
  intros Hsp Hs. destruct fuel as [|fuel]; [done|]. cbn [trim_left].
  assert (List.find (fun p => String.prefix p s) sp = None) as ->; [|done].
  induction sp as [|p sp IH]; [done|]. cbn [forallb] in Hsp. apply andb_prop in Hsp as [Hp Hsp].
  cbn [List.find]. destruct p as [|x p]; [done|]. destruct s as [|c s]; [by apply IH|].
  cbn [String.prefix]. destruct (Ascii.ascii_dec x c) as [->|]; [|by apply IH].
  simpl in Hs. apply andb_prop in Hs as [Hc _]. by rewrite Hc in Hp.
Qed.

Lemma TrimSpace_graphic s : sforall graphic s = true -> strings_TrimSpace s = s.
Proof.
  intros Hs. unfold strings_TrimSpace.
  rewrite (trim_left_graphic _ spaces s) by done.
  rewrite (trim_left_graphic _ (map srev spaces)); [apply srev_involutive|reflexivity|].
  by rewrite sforall_srev.
Qed.
