(* ===== verification/Decimal.v ===== *)
(** * Decimal text

    [strconv.Atoi] reads back what [strconv.Itoa] prints. *)
From S2P Require Import Prelude GoStrings.

Lemma digit_chr d : 0 <= d < 10 -> digit (chr (48 + d)) = Some d.
Proof.
  intros H. assert (forallb (fun d => bool_decide (digit (chr (48 + Z.of_nat d)) = Some (Z.of_nat d))) (seq 0 10) = true)
    as Hall by (vm_compute; reflexivity).
  rewrite forallb_forall in Hall. specialize (Hall (Z.to_nat d) ltac:(apply in_seq; lia)).
  rewrite Z2Nat.id in Hall by lia. by apply bool_decide_eq_true in Hall.
Qed.

Lemma digits_from_dec fuel : forall n acc,
  0 <= n < 10 ^ Z.of_nat fuel -> exists k, forall a, digits_from a (dec_digits fuel n acc) = digits_from (a * 10 ^ k + n) acc.
Proof.
  induction fuel as [|fuel IH]; intros n acc Hn.
  - exists 0. intros a. cbn in *. f_equal. lia.
  - cbn [dec_digits]. rewrite Nat2Z.inj_succ, Z.pow_succ_r in Hn by lia.
    pose proof (Z.mod_pos_bound n 10 ltac:(lia)) as Hm. destruct (Z.ltb_spec n 10) as [Hl|Hl].
    + exists 1. intros a. cbn [digits_from]. rewrite digit_chr by lia. cbn. f_equal. rewrite Z.mod_small by lia. lia.
    + destruct (IH (n / 10) (String (chr (48 + n mod 10)) acc)) as [k Hk].
      { split; [apply Z.div_pos; lia|apply Z.div_lt_upper_bound; lia]. }
      destruct (Z_lt_le_dec k 0) as [Hneg|Hpos].
      * exists k. intros a. rewrite Hk. cbn [digits_from]. rewrite digit_chr by lia. cbn.
        rewrite !Z.pow_neg_r by lia. f_equal. pose proof (Z.div_mod n 10 ltac:(lia)). lia.
      * exists (k + 1). intros a. rewrite Hk. cbn [digits_from]. rewrite digit_chr by lia. cbn. f_equal.
        rewrite Z.pow_add_r by lia. pose proof (Z.div_mod n 10 ltac:(lia)). change (10 ^ 1) with 10. lia.
Qed.

(** A number is what its digits spell. *)
Lemma digits_Itoa n : 0 <= n < 10 ^ 20 -> digits_from 0 (Itoa n) = Some n.
Proof.
  intros Hn. unfold Itoa. destruct (Z.ltb_spec n 0); [lia|]. destruct (digits_from_dec 20 n "" ltac:(done)) as [k Hk].
  by rewrite Hk.
Qed.

Lemma dec_digits_ne fuel n acc : acc <> ""%string \/ fuel <> 0%nat -> dec_digits fuel n acc <> ""%string.
Proof.
  revert n acc. induction fuel as [|fuel IH]; intros n acc [Ha|Hf]; cbn [dec_digits]; try done.
  all: destruct (n <? 10); [done|]; apply IH; by left.
Qed.

Lemma Atoi_digits c s : is_Some (digit c) ->
  Atoi (String c s) = (n ← digits_from 0 (String c s); if decide (in_srange 64 n) then Some n else None).
Proof. destruct c as [[] [] [] [] [] [] [] []]; intros [d H]; try discriminate H; reflexivity. Qed.

Lemma Atoi_Itoa n : 0 <= n < 2 ^ 63 -> Atoi (Itoa n) = Some n.
Proof.
  intros Hn. pose proof (digits_Itoa n ltac:(lia)) as Hd.
  assert (Itoa n <> ""%string) as Hne.
  { unfold Itoa. destruct (Z.ltb_spec n 0); [lia|]. apply dec_digits_ne. by right. }
  destruct (Itoa n) as [|c s]; [done|].
  rewrite Atoi_digits, Hd.
  - cbn. rewrite decide_True; [done|]. unfold in_srange. change (2 ^ (64 - 1)) with (2 ^ 63). lia.
  - cbn [digits_from] in Hd. destruct (digit c); [by eexists|done].
Qed.

(** Only digits are in it. *)
Lemma digits_lack c s : digit c = None -> forall a v, digits_from a s = Some v -> lacks c s = true.
Proof.
  intros Hc. induction s as [|x s IH]; intros a v; [done|]. cbn [digits_from lacks].
  destruct (digit x) as [d|] eqn:Ex; [|done]. cbn. intros H. rewrite (IH _ _ H), andb_true_r.
  destruct (Ascii.eqb_spec x c) as [->|]; [congruence|done].
Qed.
Lemma Itoa_lacks c n : digit c = None -> 0 <= n < 10 ^ 20 -> lacks c (Itoa n) = true.
Proof. intros Hc Hn. by eapply digits_lack, digits_Itoa. Qed.
