(* ===== verification/GoNet.v ===== *)
(** * Go network addresses

    What the modelled code uses of the package [net]: [ParseIP], [ParseCIDR],
    [IPNet.Contains].  An [IP] is its bytes, 4 or 16 of them, or none when it is nil. *)
From Stdlib Require Import Ascii.
From S2P Require Import Prelude GoIO GoStrings.

Definition IP : Type := bytes.

Definition v4InV6Prefix : bytes := [0; 0; 0; 0; 0; 0; 0; 0; 0; 0; 255; 255].

Definition To4 (ip : IP) : option IP :=
  if decide (length ip = 4%nat) then Some ip
  else if decide (length ip = 16%nat /\ take 12 ip = v4InV6Prefix) then Some (drop 12 ip)
  else None.

(** ** Parsing *)

(** One octet of an IPv4 address: digits without a leading zero, at most 255. *)
Definition octet (s : string) : option Z :=
  match s with
  | "" => None
  | String "0" (String _ _) => None
  | _ => n ← digits s; if n <=? 255 then Some n else None
  end.

Definition parseIPv4 (s : string) : option bytes :=
  match strings_Split s "." with
  | [a; b; c; d] => a ← octet a; b ← octet b; c ← octet c; d ← octet d; Some [a; b; c; d]
  | _ => None
  end.

Definition hexdigit (c : ascii) : option Z :=
  let b := byte_of c in
  if (48 <=? b) && (b <=? 57) then Some (b - 48)
  else if (97 <=? b) && (b <=? 102) then Some (b - 87)
  else if (65 <=? b) && (b <=? 70) then Some (b - 55)
  else None.

(** The leading hexadecimal digits: their number, their value and the rest. *)
Fixpoint hexgroup (off : nat) (acc : Z) (s : string) : nat * Z * string :=
  match s with
  | "" => (off, acc, s)
  | String c s' =>
      match hexdigit c with
      | Some d => hexgroup (S off) (acc * 16 + d) s'
      | None => (off, acc, s)
      end
  end.

(** The loop of [netip.parseIPv6]: [ip] are the bytes so far, [ellipsis] the place of "::".
    Each round but the last takes two bytes, so eight rounds are enough. *)
Fixpoint v6_groups (rounds : nat) (ip : bytes) (ellipsis : option nat) (s : string) :
    option (bytes * option nat * string) :=
  match rounds with
  | O => Some (ip, ellipsis, s)
  | S rounds' =>
      let '(off, acc, s1) := hexgroup 0 0 s in
      if (off =? 0)%nat || (4 <? off)%nat then None
      else
        match s1 with
        | String "." _ =>
            if match ellipsis with None => negb (length ip =? 12)%nat | Some _ => false end then None
            else if (16 <? length ip + 4)%nat then None
            else v4 ← parseIPv4 s; Some (ip ++ v4, ellipsis, ""%string)
        | _ =>
            let ip := ip ++ [acc / 256; acc mod 256] in
            match s1 with
            | "" => Some (ip, ellipsis, s1)
            | String ":" "" => None
            | String ":" (String ":" s3) =>
                match ellipsis with
                | Some _ => None
                | None =>
                    if String.eqb s3 "" then Some (ip, Some (length ip), s3)
                    else v6_groups rounds' ip (Some (length ip)) s3
                end
            | String ":" s2 => v6_groups rounds' ip ellipsis s2
            | _ => None
            end
        end
  end.

Definition parseIPv6 (s : string) : option bytes :=
  let '(ellipsis, s) :=
    match s with
    | String ":" (String ":" s') => (Some 0%nat, s')
    | _ => (None, s)
    end in
  match ellipsis, s with
  | Some _, "" => Some (replicate 16 0)
  | _, _ =>
      '(ip, ellipsis, rest) ← v6_groups 8 [] ellipsis s;
      if negb (String.eqb rest "") then None
      else if (length ip <? 16)%nat then
        e ← ellipsis;
        Some (take e ip ++ replicate (16 - length ip) 0 ++ drop e ip)
      else match ellipsis with Some _ => None | None => Some ip end
  end.

(** [netip.ParseAddr] without a zone: the first of '.', ':' and '%' decides; a zone is an error
    for all callers. *)
Fixpoint addr_kind (s : string) : option ascii :=
  match s with
  | "" => None
  | String c s' => if existsb (Ascii.eqb c) ["."; ":"; "%"]%char then Some c else addr_kind s'
  end.

Definition ParseAddr (s : string) : option bytes :=
  match addr_kind s with
  | Some "."%char => parseIPv4 s
  | Some ":"%char => if strings_Contains s "%" then None else parseIPv6 s
  | _ => None
  end.

(** [As16]. *)
Definition As16 (b : bytes) : bytes := if (length b =? 4)%nat then v4InV6Prefix ++ b else b.

(** nil is the empty list. *)
Definition ParseIP (s : string) : IP :=
  match ParseAddr s with
  | Some b => As16 b
  | None => []
  end.

Record IPNet := mkIPNet { net_IP : IP; net_Mask : bytes }.

(** [net.CIDRMask(ones, 8 * len)]. *)
Fixpoint CIDRMask (len : nat) (ones : Z) : bytes :=
  match len with
  | O => []
  | S len' =>
      (if 8 <=? ones then 255 else 255 - (2 ^ (8 - Z.max 0 ones) - 1)) :: CIDRMask len' (ones - 8)
  end.

Definition and_bytes (a b : bytes) : bytes := zip_with Z.land a b.

(** [net.ParseCIDR]; the address of the pair is not used.  The masked address has the length
    of the mask: 4 bytes when the text is an IPv4 address. *)
Definition ParseCIDR (s : string) : option IPNet :=
  match strings_SplitN s "/" 2 with
  | [addr; mask] =>
      a ← ParseAddr addr;
      n ← digits mask;
      if n <=? 8 * Z.of_nat (length a)
      then let m := CIDRMask (length a) n in Some (mkIPNet (and_bytes a m) m)
      else None
  | _ => None
  end.

Definition networkNumberAndMask (n : IPNet) : option (bytes * bytes) :=
  let ip := default (net_IP n) (To4 (net_IP n)) in
  if decide (length ip = 4%nat \/ length ip = 16%nat) then
    let m := net_Mask n in
    if (length m =? length ip)%nat then Some (ip, m)
    else if decide (length m = 16%nat) then Some (ip, drop 12 m)
    else None
  else None.

Definition IPNet_Contains (n : IPNet) (ip : IP) : bool :=
  match networkNumberAndMask n with
  | None => (length ip =? 0)%nat
  | Some (nn, m) =>
      let ip := default ip (To4 ip) in
      (length ip =? length nn)%nat && bool_decide (and_bytes nn m = and_bytes ip m)
  end.

Example ParseIP1 : ParseIP "10.2.2.1" = v4InV6Prefix ++ [10; 2; 2; 1].
Proof. vm_compute. reflexivity. Qed.
Example ParseIP2 : map ParseIP ["10.02.2.1"; "256.1.1.1"; "1.2.3"; "1.2.3.4.5"; "1..2.3"; ""; "1"; "::1%eth0";
    ":1"; "1:2:3:4:5:6:7"; "1:2:3:4:5:6:7:8:9"; "1::2::3"; "12345::"; "1:"; "1:2:3:4:5:6:7::8"; "::g"; "1.2.3.4/8"]%string
  = replicate 17 [].
Proof. vm_compute. reflexivity. Qed.
Example ParseIP3 : map ParseIP ["2001:db8::1"; "::"; "::ffff:1.2.3.4"; "1:2:3:4:5:6:7::"]%string
  = [[32; 1; 13; 184; 0; 0; 0; 0; 0; 0; 0; 0; 0; 0; 0; 1]; replicate 16 0;
     v4InV6Prefix ++ [1; 2; 3; 4]; [0; 1; 0; 2; 0; 3; 0; 4; 0; 5; 0; 6; 0; 7; 0; 0]].
Proof. vm_compute. reflexivity. Qed.
Example ParseCIDR1 : ParseCIDR "10.2.3.4/22" = Some (mkIPNet [10; 2; 0; 0] [255; 255; 252; 0]).
Proof. vm_compute. reflexivity. Qed.

(** ** The text of an IPv4 address *)

Definition v4_text (b : bytes) : string := strings_Join (map Itoa b) ".".

Definition octet_ok (a : Z) : bool :=
  bool_decide (octet (Itoa a) = Some a) && lacks "." (Itoa a) && lacks "/" (Itoa a) &&
  sforall graphic (Itoa a) && bool_decide (digits (Itoa a) = Some a) && lacks "," (Itoa a) &&
  match addr_kind (Itoa a) with None => true | Some _ => false end.

Lemma octets_ok a : in_range 8 a -> octet_ok a = true.
Proof.
  intros Ha. assert (forallb octet_ok (seqZ 0 256) = true) as Hall by (vm_compute; reflexivity).
  rewrite forallb_forall in Hall. apply Hall, list_elem_of_In, elem_of_seqZ. unfold in_range in Ha. lia.
Qed.

Record octet_facts (a : Z) : Prop := {
  oct_octet : octet (Itoa a) = Some a;
  oct_dot : lacks "." (Itoa a) = true;
  oct_slash : lacks "/" (Itoa a) = true;
  oct_graphic : sforall graphic (Itoa a) = true;
  oct_digits : digits (Itoa a) = Some a;
  oct_comma : lacks "," (Itoa a) = true;
  oct_kind : addr_kind (Itoa a) = None
}.

Lemma octet_fact a : in_range 8 a -> octet_facts a.
Proof.
  intros Ha%octets_ok. unfold octet_ok in Ha.
  repeat (apply andb_prop in Ha as [Ha ?]). apply bool_decide_eq_true in Ha.
  constructor; try done; [by eapply bool_decide_eq_true|].
  by destruct (addr_kind (Itoa a)).
Qed.

Lemma addr_kind_app s r :
  addr_kind s = None -> addr_kind (s +:+ String "." r) = Some "."%char.
Proof.
  induction s as [|c s IH]; [done|]. cbn [addr_kind]. intros Hk.
  change (String c s +:+ String "." r) with (String c (s +:+ String "." r)). cbn [addr_kind].
  destruct (existsb _ _); [done|]. by apply IH.
Qed.

Lemma ParseAddr_v4 b : length b = 4%nat -> bytes_ok b -> ParseAddr (v4_text b) = Some b.
Proof.
  intros Hl Hb. destruct b as [|a0 [|a1 [|a2 [|a3 [|]]]]]; try done.
  rewrite !Forall_cons in Hb. destruct Hb as (H0 & H1 & H2 & H3 & _).
  apply octet_fact in H0 as [], H1 as [], H2 as [], H3 as [].
  unfold ParseAddr. assert (addr_kind (v4_text [a0; a1; a2; a3]) = Some "."%char) as ->.
  { unfold v4_text. cbn [map strings_Join]. by apply addr_kind_app. }
  unfold parseIPv4, v4_text. rewrite Split_Join; [|done|done|].
  - cbn [map]. rewrite oct_octet0, oct_octet1, oct_octet2, oct_octet3. done.
  - cbn [map]. repeat constructor; by apply lacks_clean.
Qed.

Lemma ParseIP_v4 b : length b = 4%nat -> bytes_ok b -> ParseIP (v4_text b) = v4InV6Prefix ++ b.
Proof. intros Hl Hb. unfold ParseIP. rewrite ParseAddr_v4 by done. unfold As16. by rewrite Hl. Qed.

Lemma sforall_Join P l sep :
  sforall P sep = true -> Forall (fun s => sforall P s = true) l -> sforall P (strings_Join l sep) = true.
Proof.
  intros Hs Hl. induction Hl as [|s l H Hl IH]; [done|]. destruct l as [|t l]; [done|].
  change (strings_Join (s :: t :: l) sep) with (s +:+ sep +:+ strings_Join (t :: l) sep).
  by rewrite !sforall_app, H, Hs, IH.
Qed.

Lemma lacks_sforall c s : lacks c s = sforall (fun x => negb (Ascii.eqb x c)) s.
Proof. induction s as [|x s IH]; [done|]. cbn [lacks sforall]. by rewrite IH. Qed.

Lemma v4_text_chars P b :
  P "."%char = true -> bytes_ok b ->
  (forall a, in_range 8 a -> sforall P (Itoa a) = true) -> sforall P (v4_text b) = true.
Proof.
  intros Hd Hb HP. apply sforall_Join; [cbn; by rewrite Hd|]. apply Forall_map.
  eapply Forall_impl; [exact Hb|]. intros a Ha. by apply HP.
Qed.

Definition cidr_text (b : bytes) (n : Z) : string := v4_text b +:+ "/" +:+ Itoa n.

Lemma ParseCIDR_v4 b n :
  length b = 4%nat -> bytes_ok b -> 0 <= n <= 32 ->
  ParseCIDR (cidr_text b n) = Some (mkIPNet (and_bytes b (CIDRMask 4 n)) (CIDRMask 4 n)).
Proof.
  intros Hl Hb Hn. assert (in_range 8 n) as Hn8 by (unfold in_range; lia).
  apply octet_fact in Hn8 as []. unfold ParseCIDR, cidr_text, strings_SplitN. cbn [Nat.sub].
  rewrite split_piece; [|done|].
  2: { apply lacks_clean. rewrite lacks_sforall. apply v4_text_chars; [done|done|].
    intros a Ha. rewrite <- lacks_sforall. by apply oct_slash, octet_fact. }
  rewrite split_last by (by apply lacks_clean). cbn [mbind].
  rewrite ParseAddr_v4 by done. simpl. rewrite oct_digits0. simpl. rewrite Hl.
  by rewrite (proj2 (Z.leb_le n (8 * Z.of_nat 4))) by lia.
Qed.

(** ** Membership of an IPv4 network is a comparison of leading bits *)

Lemma length_CIDRMask len n : length (CIDRMask len n) = len.
Proof. revert n; induction len; intros n; simpl; [done|]. by rewrite IHlen. Qed.

Lemma length_and_bytes a b : length a = length b -> length (and_bytes a b) = length b.
Proof. intros H. unfold and_bytes. rewrite length_zip_with. lia. Qed.

Lemma CIDRMask_none len n : n <= 0 -> CIDRMask len n = replicate len 0.
Proof.
  revert n; induction len as [|len IH]; intros n Hn; [done|]. cbn [CIDRMask replicate].
  destruct (Z.leb_spec 8 n); [lia|]. rewrite Z.max_l, IH by lia. done.
Qed.

Lemma CIDRMask_ok len n : bytes_ok (CIDRMask len n).
Proof.
  revert n; induction len as [|len IH]; intros n; constructor; [|apply IH].
  unfold in_range. destruct (Z.leb_spec 8 n); [lia|].
  assert (0 < 2 ^ (8 - Z.max 0 n) <= 2 ^ 8).
  { split; [apply Z.pow_pos_nonneg; lia|]. apply Z.pow_le_mono_r; lia. }
  lia.
Qed.

Lemma and_zeros b len : and_bytes b (replicate len 0) = replicate (length (and_bytes b (replicate len 0))) 0.
Proof.
  revert b; induction len as [|len IH]; intros [|x b]; try done. unfold and_bytes in *. simpl.
  rewrite Z.land_0_r. f_equal. apply IH.
Qed.

Lemma be_combine_zeros len : be_combine (replicate len 0) = 0.
Proof. induction len as [|len IH]; [done|]. by rewrite replicate_S_end, be_combine_snoc, IH. Qed.

Lemma be_combine_cons x b : be_combine (x :: b) = x * 256 ^ Z.of_nat (length b) + be_combine b.
Proof.
  induction b as [|y b IH] using rev_ind; [unfold be_combine; simpl; unfold be_step; lia|].
  rewrite app_comm_cons, !be_combine_snoc, IH, length_app, Nat2Z.inj_add, Z.pow_add_r by lia.
  change (256 ^ Z.of_nat (length [y])) with 256. ring.
Qed.

(** The leading bits of one byte. *)
Lemma land_byte x n :
  in_range 8 x -> 0 <= n <= 8 ->
  Z.land x (255 - (2 ^ (8 - n) - 1)) = x / 2 ^ (8 - n) * 2 ^ (8 - n).
Proof.
  intros Hx Hn.
  assert (forallb (fun x => forallb (fun n => Z.land x (255 - (2 ^ (8 - n) - 1)) =? x / 2 ^ (8 - n) * 2 ^ (8 - n))
    (seqZ 0 9)) (seqZ 0 256) = true) as Hall by (vm_compute; reflexivity).
  rewrite forallb_forall in Hall. unfold in_range in Hx.
  specialize (Hall x). rewrite <- list_elem_of_In, elem_of_seqZ in Hall. specialize (Hall ltac:(lia)).
  rewrite forallb_forall in Hall. specialize (Hall n).
  rewrite <- list_elem_of_In, elem_of_seqZ in Hall. apply Z.eqb_eq, Hall. lia.
Qed.

Lemma mask_combine b n :
  bytes_ok b -> 0 <= n <= 8 * Z.of_nat (length b) ->
  let w := 2 ^ (8 * Z.of_nat (length b) - n) in
  be_combine (and_bytes b (CIDRMask (length b) n)) = be_combine b / w * w.
Proof.
  intros Hb. revert n. induction Hb as [|x b Hx Hb IH]; intros n Hn; cbv zeta in *.
  - change (Z.of_nat (length [])) with 0 in *. assert (n = 0) as -> by lia. done.
  - cbn [length] in Hn |- *. cbn [CIDRMask]. rewrite Nat2Z.inj_succ in *.
    set (k := Z.of_nat (length b)) in *. assert (0 <= k) as Hk by lia.
    assert (256 ^ k = 2 ^ (8 * k)) as H256 by (change 256 with (2 ^ 8); rewrite <- Z.pow_mul_r; lia).
    change (and_bytes (x :: b) (?m :: ?ms)) with (Z.land x m :: and_bytes b ms).
    rewrite !be_combine_cons, length_and_bytes, length_CIDRMask by (by rewrite length_CIDRMask).
    fold k. destruct (Z.leb_spec 8 n) as [H8|H8].
    + replace 255 with (255 - (2 ^ (8 - 8) - 1)) by done. rewrite land_byte by (done || lia).
      change (2 ^ (8 - 8)) with 1. rewrite Z.div_1_r, Z.mul_1_r.
      specialize (IH (n - 8) ltac:(lia)). rewrite IH.
      replace (8 * Z.succ k - n) with (8 * k - (n - 8)) by lia.
      set (w := 2 ^ (8 * k - (n - 8))).
      assert (256 ^ k = 2 ^ (n - 8) * w) as ->.
      { unfold w. rewrite H256, <- Z.pow_add_r by lia. f_equal. lia. }
      assert (0 < w) by (unfold w; apply Z.pow_pos_nonneg; lia).
      rewrite Z.mul_assoc, Z.div_add_l by lia. ring.
    + rewrite (CIDRMask_none _ (n - 8)) by lia. rewrite and_zeros, be_combine_zeros.
      rewrite Z.max_r by lia. rewrite land_byte by (done || lia).
      replace (8 * Z.succ k - n) with (8 * k + (8 - n)) by lia.
      rewrite Z.pow_add_r, <- H256 by lia.
      pose proof (be_combine_range b Hb) as Hr. fold k in Hr.
      rewrite <- Z.div_div by (try apply Z.pow_pos_nonneg; try apply Z.pow_nonzero; lia).
      rewrite Z.div_add_l, (Z.div_small (be_combine b)), !Z.add_0_r by lia. ring.
Qed.

Lemma land_byte_range x m : in_range 8 x -> in_range 8 m -> in_range 8 (Z.land x m).
Proof.
  unfold in_range. intros [Hx0 Hx] [Hm0 Hm]. split; [by apply Z.land_nonneg; left|].
  destruct (decide (Z.land x m = 0)) as [->|Hz]; [lia|].
  assert (0 <= Z.land x m) by (apply Z.land_nonneg; by left).
  apply Z.log2_lt_pow2; [lia|]. eapply Z.le_lt_trans; [apply Z.log2_land; lia|].
  apply Z.min_lt_iff. left. destruct (decide (x = 0)) as [->|]; [by rewrite Z.land_0_l in Hz|].
  apply Z.log2_lt_pow2; lia.
Qed.

Lemma and_bytes_ok a b : bytes_ok a -> bytes_ok b -> bytes_ok (and_bytes a b).
Proof.
  intros Ha. revert b. induction Ha as [|x a Hx Ha IH]; intros [|y b] Hb; try constructor.
  - inversion_clear Hb. by apply land_byte_range.
  - inversion_clear Hb. by apply IH.
Qed.

Lemma be_combine_inj a b :
  bytes_ok a -> bytes_ok b -> length a = length b -> be_combine a = be_combine b -> a = b.
Proof.
  intros Ha Hb Hl He. rewrite <- (be_split_combine a), <- (be_split_combine b) by done.
  by rewrite Hl, He.
Qed.

(** An address is in the network exactly when its leading [n] bits are those of the network. *)
Lemma Contains_v4 b n ip :
  length b = 4%nat -> bytes_ok b -> 0 <= n <= 32 -> length ip = 4%nat -> bytes_ok ip ->
  IPNet_Contains (mkIPNet (and_bytes b (CIDRMask 4 n)) (CIDRMask 4 n)) (v4InV6Prefix ++ ip) =
    (be_combine ip / 2 ^ (32 - n) =? be_combine b / 2 ^ (32 - n)).
Proof.
  intros Hl Hb Hn Hli Hip. unfold IPNet_Contains, networkNumberAndMask. cbn [net_IP net_Mask].
  assert (forall a : bytes, length a = 4%nat -> To4 a = Some a) as H4.
  { intros a Ha. unfold To4. by rewrite decide_True. }
  assert (length (and_bytes b (CIDRMask 4 n)) = 4%nat) as Hm.
  { rewrite length_and_bytes by (by rewrite length_CIDRMask). apply length_CIDRMask. }
  set (nn := and_bytes b (CIDRMask 4 n)) in *.
  rewrite (H4 nn) by done. change (default nn (Some nn)) with nn. rewrite decide_True by (by left).
  rewrite Hm, length_CIDRMask. cbn [Nat.eqb].
  assert (To4 (v4InV6Prefix ++ ip) = Some ip) as ->.
  { unfold To4. rewrite decide_False by (rewrite length_app; simpl; lia).
    rewrite decide_True by (split; [rewrite length_app; simpl; lia|done]). done. }
  change (default (v4InV6Prefix ++ ip) (Some ip)) with ip. rewrite Hli, Hm. cbn [Nat.eqb andb].
  assert (and_bytes nn (CIDRMask 4 n) = nn) as ->.
  { unfold nn, and_bytes. destruct b as [|b0 [|b1 [|b2 [|b3 [|]]]]]; try done. simpl.
    by rewrite <- !Z.land_assoc, !Z.land_diag. }
  pose proof (mask_combine b n Hb) as Hcb. pose proof (mask_combine ip n Hip) as Hci.
  rewrite Hl in Hcb. rewrite Hli in Hci. change (8 * Z.of_nat 4) with 32 in *.
  specialize (Hcb Hn). specialize (Hci Hn). cbv zeta in Hcb, Hci. fold nn in Hcb.
  set (w := 2 ^ (32 - n)) in *. assert (0 < w) as Hw by (apply Z.pow_pos_nonneg; lia).
  apply eq_true_iff_eq. rewrite bool_decide_eq_true, Z.eqb_eq. split.
  - intros He. rewrite He in Hcb. rewrite Hci in Hcb. nia.
  - intros He. apply be_combine_inj.
    + apply and_bytes_ok; [done|apply CIDRMask_ok].
    + apply and_bytes_ok; [done|apply CIDRMask_ok].
    + rewrite Hm, length_and_bytes, length_CIDRMask by (by rewrite length_CIDRMask). done.
    + by rewrite Hcb, Hci, He.
Qed.
