(* ===== verification/Read.v ===== *)
(** * Package read (src/pkg/util/netflow/read)

    The integer and variable-length reads every decoder is written with, and the three
    ways the decoders are reasoned about:
    - [Parses m x w]: on input [w] followed by anything, [m] returns [x] and stops after [w];
    - [Fixed n m] and [Strict n m]: [m] takes [n] bytes, and fails only on shorter input;
    - [Simulates m1 m2]: [m1] on an [io.MultiReader] behaves as [m2] on the concatenated
      buffer. *)
From S2P Require Import Prelude GoIO.

Section Read.
  Context {R : Type} `{IoReader R}.

Definition Uint8 : M R Z := b ← ReadFull 1; mret (be_combine b).
Definition Uint16 : M R Z := b ← ReadFull 2; mret (be_combine b).
Definition Uint32 : M R Z := b ← ReadFull 4; mret (be_combine b).
Definition Uint64 : M R Z := b ← ReadFull 8; mret (be_combine b).

(** The slice [p] a caller passes: its bytes and its capacity. *)
Definition VariableLength (p : bytes) (cap : nat) : M R bytes :=
  l0 ← Uint8;
  l ← (if l0 <? 255 then mret l0 else Uint16);
  let l := Z.to_nat l in
  let b :=
    if (cap <? l)%nat then replicate l 0
    else if (length p <? l)%nat then p ++ replicate (l - length p) 0
    else p in
  bs ← io_Read (length b);
  mret (bs ++ drop (length bs) b).
End Read.

(** [TCPFlags]: the flags of the low byte, lowest bit first. *)
Definition tcpFlags : string := "NCEUAPRSF".

Definition tcpFlags_at (i : nat) : string := String.substring i 1 tcpFlags.

Fixpoint TCPFlags_loop (n : nat) (i : nat) (f : Z) : string :=
  match n with
  | O => ""
  | S n' =>
      (if 0 <? Z.land f 1 then tcpFlags_at (8 - i) else "."%string) +:+
      TCPFlags_loop n' (S i) (Z.shiftr f 1)
  end.
Definition TCPFlags (f : Z) : string := "[" +:+ TCPFlags_loop 8 0 f +:+ "]".

(** ** Parsing exactly a byte string *)

Definition Parses {A} (m : M Buffer A) (x : A) (w : bytes) : Prop :=
  forall rest, m (w ++ rest) = Ok (x, rest).

Lemma Parses_ret {A} (x : A) : Parses (mret x) x [].
Proof. by intros rest. Qed.

Lemma Parses_bind {A B} (m : M Buffer A) (f : A -> M Buffer B) x y w1 w2 :
  Parses m x w1 -> Parses (f x) y w2 -> Parses (m ≫= f) y (w1 ++ w2).
Proof.
  intros H1 H2 rest. unfold mbind, M_bind. rewrite <- app_assoc, H1. apply H2.
Qed.

(** The last read of a record is followed by [mret]. *)
Lemma Parses_bind_ret {A B} (m : M Buffer A) (f : A -> M Buffer B) x y w :
  Parses m x w -> Parses (f x) y [] -> Parses (m ≫= f) y w.
Proof. intros H1 H2. rewrite <- (app_nil_r w). eapply Parses_bind; eauto. Qed.

Lemma Parses_ret_bind {A B} (x : A) (f : A -> M Buffer B) y w :
  Parses (f x) y w -> Parses (mret x ≫= f) y w.
Proof. intros Hf rest. apply Hf. Qed.

Lemma Parses_nil {A} (m : M Buffer A) x b :
  Parses m x b -> m b = Ok (x, []).
Proof. intros H. rewrite <- (app_nil_r b) at 1. apply H. Qed.

Lemma Parses_uint n z :
  0 <= z < 256 ^ Z.of_nat n ->
  Parses (b ← ReadFull n; mret (be_combine b)) z (be_split n z).
Proof.
  intros Hz rest. unfold mbind, M_bind.
  rewrite ReadFull_app by apply length_be_split. unfold mret, M_ret.
  by rewrite be_combine_split_id.
Qed.

Lemma Parses_Uint8 z : in_range 8 z -> Parses Uint8 z (be_split 1 z).
Proof. intros. by apply Parses_uint. Qed.
Lemma Parses_Uint16 z : in_range 16 z -> Parses Uint16 z (be_split 2 z).
Proof. intros. by apply Parses_uint. Qed.
Lemma Parses_Uint32 z : in_range 32 z -> Parses Uint32 z (be_split 4 z).
Proof. intros. by apply Parses_uint. Qed.
Lemma Parses_Uint64 z : in_range 64 z -> Parses Uint64 z (be_split 8 z).
Proof. intros. by apply Parses_uint. Qed.

Lemma Parses_Read_make n bs : length bs = n -> Parses (Read_make n) bs bs.
Proof. intros Hl rest. by apply Read_make_app. Qed.

Lemma Parses_ReadFull n bs : length bs = n -> Parses (ReadFull n) bs bs.
Proof. intros Hl rest. by apply ReadFull_app. Qed.

Lemma Parses_repeatM {A} (m : M Buffer A) xs (wire : A -> bytes) :
  Forall (fun x => Parses m x (wire x)) xs ->
  Parses (repeatM (length xs) m) xs (concat (wire <$> xs)).
Proof.
  induction 1 as [|x xs Hx Hxs IH]; simpl; [apply Parses_ret|].
  eapply Parses_bind; [done|]. eapply Parses_bind_ret; [done|]. apply Parses_ret.
Qed.

(** One step of a decoder, when what follows is not parsed exactly. *)
Lemma run_bind {A B} (m : M Buffer A) (f : A -> M Buffer B) x w rest res :
  Parses m x w -> f x rest = res -> (m ≫= f) (w ++ rest) = res.
Proof. intros Hm Hf. unfold mbind, M_bind. by rewrite Hm. Qed.

Lemma repeatM_S {A} n (m : M Buffer A) :
  repeatM (S n) m = (x ← m; xs ← repeatM n m; mret (x :: xs)).
Proof. reflexivity. Qed.

Lemma run_repeatM_snoc {A} (m : M Buffer A) xs x (wire : A -> bytes) w :
  Forall (fun x => Parses m x (wire x)) xs -> m w = Ok (x, []) ->
  repeatM (S (length xs)) m (concat (wire <$> xs) ++ w) = Ok (xs ++ [x], []).
Proof.
  intros Hxs Hw. induction Hxs as [|y ys Hy Hys IH].
  - simpl. unfold mbind, M_bind. by rewrite Hw.
  - rewrite repeatM_S. cbn [length fmap list_fmap concat]. rewrite <- app_assoc.
    eapply run_bind; [done|]. unfold mbind at 1, M_bind at 1. by rewrite IH.
Qed.

Create HintDb wire discriminated.
#[export] Hint Resolve Parses_Uint8 Parses_Uint16 Parses_Uint32 Parses_Uint64
  Parses_Read_make Parses_ReadFull Parses_ret : wire.

(** Follow a record decoder field by field. *)
Ltac parse_fields :=
  repeat (eapply Parses_bind; [solve [eauto with wire]|]; cbv beta);
  eapply Parses_bind_ret; [solve [eauto with wire]|]; cbv beta.

(** ** Decoders that take a fixed number of bytes *)

Definition Fixed {A} (n : nat) (m : M Buffer A) : Prop :=
  forall b, match m b with
            | Ok (_, b') => b' = drop n b
            | Err _ => (length b < n)%nat
            | Panic _ | OutOfFuel => False
            end.

Definition Strict {A} (n : nat) (m : M Buffer A) : Prop :=
  forall b, match m b with
            | Ok (_, b') => b' = drop n b /\ (n <= length b)%nat
            | Err _ => (length b < n)%nat
            | Panic _ | OutOfFuel => False
            end.

Lemma Strict_Fixed {A} n (m : M Buffer A) : Strict n m -> Fixed n m.
Proof. intros Hs b. specialize (Hs b). destruct (m b) as [[x b']| | |]; [by destruct Hs|done..]. Qed.

Lemma Strict_ret {A} (x : A) : Strict 0 (mret x).
Proof. intros b. simpl. rewrite drop_0. split; [done|lia]. Qed.

Lemma Strict_ReadFull n : Strict n (ReadFull n).
Proof. intros b. rewrite ReadFull_Buffer. by destruct (Nat.leb_spec n (length b)). Qed.

Lemma Fixed_Read_make n : Fixed n (Read_make n).
Proof.
  intros b. unfold Read_make, mbind, M_bind. simpl. unfold Buffer_Read.
  destruct b as [|x b]; simpl.
  - destruct (Nat.eqb_spec n 0); simpl; [by rewrite drop_nil|lia].
  - done.
Qed.

Lemma Strict_bind {A B} n1 n2 (m : M Buffer A) (f : A -> M Buffer B) :
  Strict n1 m -> (forall x, Strict n2 (f x)) -> Strict (n1 + n2) (m ≫= f).
Proof.
  intros H1 H2 b. unfold mbind, M_bind. specialize (H1 b).
  destruct (m b) as [[x b1]| | |]; [|lia|done|done]. destruct H1 as [-> Hl].
  specialize (H2 x (drop n1 b)). rewrite length_drop, drop_drop in H2.
  destruct (f x (drop n1 b)) as [[y b2]| | |]; [|lia|done|done]. destruct H2. split; [done|lia].
Qed.

(** A short read of an address field is caught by the next full read. *)
Lemma Fixed_Strict_bind {A B} n1 n2 (m : M Buffer A) (f : A -> M Buffer B) :
  Fixed n1 m -> (forall x, Strict (S n2) (f x)) -> Strict (n1 + S n2) (m ≫= f).
Proof.
  intros H1 H2 b. unfold mbind, M_bind. specialize (H1 b).
  destruct (m b) as [[x b1]| | |]; [|lia|done|done]. subst b1.
  specialize (H2 x (drop n1 b)). rewrite length_drop, drop_drop in H2.
  destruct (f x (drop n1 b)) as [[y b2]| | |]; [|lia|done|done]. destruct H2. split; [done|lia].
Qed.

Lemma Strict_repeatM {A} n k (m : M Buffer A) : Strict n m -> Strict (k * n) (repeatM k m).
Proof.
  intros H. induction k as [|k IH]; simpl; [apply Strict_ret|].
  apply Strict_bind; [done|]. intros x. rewrite <- (Nat.add_0_r (k * n)).
  apply Strict_bind; [done|]. intros xs. apply Strict_ret.
Qed.

Lemma Strict_uint n : Strict n (b ← ReadFull n; mret (be_combine b)).
Proof.
  rewrite <- (Nat.add_0_r n) at 1. apply Strict_bind; [apply Strict_ReadFull|].
  intros; apply Strict_ret.
Qed.

Lemma Strict_Uint8 : Strict 1 Uint8. Proof. apply Strict_uint. Qed.
Lemma Strict_Uint16 : Strict 2 Uint16. Proof. apply Strict_uint. Qed.
Lemma Strict_Uint32 : Strict 4 Uint32. Proof. apply Strict_uint. Qed.
Lemma Strict_Uint64 : Strict 8 Uint64. Proof. apply Strict_uint. Qed.

#[export] Hint Resolve Strict_Uint8 Strict_Uint16 Strict_Uint32 Strict_Uint64
  Strict_ReadFull Strict_ret Fixed_Read_make : wire.

Lemma Strict_bind_sum {A B} n n1 n2 (m : M Buffer A) (f : A -> M Buffer B) :
  Strict n1 m -> (forall x, Strict n2 (f x)) -> n = (n1 + n2)%nat -> Strict n (m ≫= f).
Proof. intros H1 H2 ->. by apply Strict_bind. Qed.

Lemma Fixed_Strict_bind_sum {A B} n n1 n2 (m : M Buffer A) (f : A -> M Buffer B) :
  Fixed n1 m -> (forall x, Strict (S n2) (f x)) -> n = (n1 + S n2)%nat -> Strict n (m ≫= f).
Proof. intros H1 H2 ->. by apply Fixed_Strict_bind. Qed.

(** Sum up the sizes of a record decoder's reads. *)
Ltac strict_fields :=
  first
    [ apply Strict_ret
    | eapply Strict_bind_sum; [solve [eauto with wire]|intros ?; strict_fields|reflexivity]
    | eapply Fixed_Strict_bind_sum;
        [solve [eauto with wire]|intros ?; strict_fields|reflexivity] ].

(** A decoder that is [Strict n] succeeds exactly when [n] bytes are there. *)
Lemma Strict_Ok_iff {A} n (m : M Buffer A) b :
  Strict n m -> (exists x b', m b = Ok (x, b')) <-> (n <= length b)%nat.
Proof.
  intros H. specialize (H b). split.
  - intros (x & b' & Hm). rewrite Hm in H. tauto.
  - intros Hl. destruct (m b) as [[x b']| | |]; [by eauto|lia|done|done].
Qed.

(** ** io.MultiReader against the concatenated buffer *)

(** The reader after (or before) its first part has been used up. *)
Inductive aligned : MultiReader -> Buffer -> Prop :=
| aligned_last b : aligned [b] b
| aligned_empty b : aligned [[]; b] b.

Definition Simulates {A} (m1 : M MultiReader A) (m2 : M Buffer A) : Prop :=
  forall r1 r2, aligned r1 r2 ->
  match m1 r1, m2 r2 with
  | Ok (x1, r1'), Ok (x2, r2') => x1 = x2 /\ aligned r1' r2'
  | Err e1, Err e2 => e1 = e2
  | Panic w1, Panic w2 => w1 = w2
  | OutOfFuel, OutOfFuel => True
  | _, _ => False
  end.

Lemma Simulates_ret {A} (x : A) : Simulates (mret x) (mret x).
Proof. intros r1 r2 Ha. simpl. auto. Qed.

Lemma Simulates_fail {A} e : Simulates (A := A) (fail e) (fail e).
Proof. intros r1 r2 Ha. done. Qed.

Lemma Simulates_wrapf {A} s (m1 : M MultiReader A) m2 :
  Simulates m1 m2 -> Simulates (wrapf s m1) (wrapf s m2).
Proof.
  intros Hs r1 r2 Ha. specialize (Hs r1 r2 Ha). unfold wrapf.
  destruct (m1 r1) as [[??]|e1| |], (m2 r2) as [[??]|e2| |]; naive_solver.
Qed.

Lemma Simulates_bind {A B} (m1 : M MultiReader A) m2 (f1 : A -> M MultiReader B) f2 :
  Simulates m1 m2 -> (forall x, Simulates (f1 x) (f2 x)) -> Simulates (m1 ≫= f1) (m2 ≫= f2).
Proof.
  intros Hm Hf r1 r2 Ha. unfold mbind, M_bind. specialize (Hm r1 r2 Ha).
  destruct (m1 r1) as [[x1 r1']|e1| |], (m2 r2) as [[x2 r2']|e2| |]; try done.
  destruct Hm as [-> Ha']. by apply Hf.
Qed.

Lemma Simulates_Read n : Simulates (io_Read n) (io_Read n).
Proof.
  intros r1 r2 Ha. destruct Ha as [b|b]; simpl.
  - destruct b as [|x b]; simpl; [|split; [done|constructor]].
    destruct (n =? 0)%nat; [split; [done|constructor]|done].
  - destruct (Nat.eqb_spec n 0) as [->|Hn].
    + destruct b; simpl; (split; [done|constructor]).
    + destruct n; [done|]. destruct b as [|x b]; simpl; [done|split; [done|constructor]].
Qed.

Lemma Simulates_Read_make n : Simulates (Read_make n) (Read_make n).
Proof. apply Simulates_bind; [apply Simulates_Read|intros; apply Simulates_ret]. Qed.

Lemma Simulates_ReadFull_loop fuel acc n :
  Simulates (ReadFull_loop fuel acc n) (ReadFull_loop fuel acc n).
Proof.
  revert acc n; induction fuel as [|fuel IH]; intros acc n r1 r2 Ha; destruct n as [|n];
    cbn [ReadFull_loop]; auto.
  pose proof (Simulates_Read (S n) r1 r2 Ha) as Hr.
  destruct (io_Read (S n) r1) as [[x1 r1']|e1| |], (io_Read (S n) r2) as [[x2 r2']|e2| |];
    try done.
  - destruct Hr as [-> Ha']. by apply IH.
  - subst. by destruct e2.
Qed.

Lemma Simulates_ReadFull n : Simulates (ReadFull n) (ReadFull n).
Proof. apply Simulates_ReadFull_loop. Qed.

Lemma Simulates_ReadFrom_loop fuel acc :
  Simulates (ReadFrom_loop fuel acc) (ReadFrom_loop fuel acc).
Proof.
  revert acc; induction fuel as [|fuel IH]; intros acc r1 r2 Ha; cbn [ReadFrom_loop]; [done|].
  pose proof (Simulates_Read 512 r1 r2 Ha) as Hr.
  destruct (io_Read 512 r1) as [[x1 r1']|e1| |], (io_Read 512 r2) as [[x2 r2']|e2| |];
    try done.
  - destruct Hr as [-> Ha']. by apply IH.
  - subst. by destruct e2.
Qed.

Lemma Simulates_ReadFrom : Simulates ReadFrom ReadFrom.
Proof.
  intros r1 r2 Ha. unfold ReadFrom.
  assert (io_data r1 = io_data r2) as -> by (destruct Ha; simpl; by rewrite ?app_nil_r).
  by apply Simulates_ReadFrom_loop.
Qed.

Lemma Simulates_repeatM {A} n (m1 : M MultiReader A) m2 :
  Simulates m1 m2 -> Simulates (repeatM n m1) (repeatM n m2).
Proof.
  intros Hm. induction n; simpl; [apply Simulates_ret|].
  apply Simulates_bind; [done|intros x]. apply Simulates_bind; [done|intros xs].
  apply Simulates_ret.
Qed.

Lemma Simulates_uint n :
  Simulates (b ← ReadFull n; mret (be_combine b)) (b ← ReadFull n; mret (be_combine b)).
Proof. apply Simulates_bind; [apply Simulates_ReadFull|intros; apply Simulates_ret]. Qed.

Lemma Simulates_Uint8 : Simulates Uint8 Uint8. Proof. apply Simulates_uint. Qed.
Lemma Simulates_Uint16 : Simulates Uint16 Uint16. Proof. apply Simulates_uint. Qed.
Lemma Simulates_Uint32 : Simulates Uint32 Uint32. Proof. apply Simulates_uint. Qed.
Lemma Simulates_Uint64 : Simulates Uint64 Uint64. Proof. apply Simulates_uint. Qed.

Lemma Simulates_if {A} (c : bool) (m1 m1' : M MultiReader A) m2 m2' :
  Simulates m1 m2 -> Simulates m1' m2' ->
  Simulates (if c then m1 else m1') (if c then m2 else m2').
Proof. by destruct c. Qed.

Create HintDb sim discriminated.
#[export] Hint Resolve Simulates_Uint8 Simulates_Uint16 Simulates_Uint32 Simulates_Uint64
  Simulates_ret Simulates_fail Simulates_Read_make Simulates_ReadFull Simulates_ReadFrom
  Simulates_repeatM : sim.

(** Decompose a decoder along its binds, tests and wrapped errors. *)
Ltac simulate :=
  repeat first
    [ solve [eauto with sim]
    | apply Simulates_bind; [|intros ?]
    | apply Simulates_if
    | apply Simulates_wrapf ].

(** Reading the whole first part of a [MultiReader] leaves an [aligned] reader. *)
Lemma ReadFull_first (d b : Buffer) :
  (0 < length d)%nat ->
  exists r, ReadFull (length d) [d; b] = Ok (d, r) /\ aligned r b.
Proof.
  intros Hd. exists [[]; b]. split; [|constructor].
  unfold ReadFull. destruct d as [|x d]; [simpl in Hd; lia|].
  cbn [length ReadFull_loop io_Read MultiReader_reader MultiReader_Read Buffer_Read].
  rewrite (take_ge (x :: d)), (drop_ge (x :: d)) by (simpl; lia).
  cbn [length app]. rewrite Nat.sub_diag. by destruct (length d).
Qed.
