(* ===== verification/Counted.v ===== *)
(** * Datagrams of a header and a counted run of fixed-size records

    NetFlow versions 1, 5, 6 and 7 share one layout: a header whose second word is the number
    of records, then that many records of one size. What the four decoders have in common is
    proved here once, over the reads of Read.v. *)
From S2P Require Import Prelude GoIO Read.

(** The [Count] word of a datagram. *)
Definition count_word (b : bytes) : Z := be_combine (take 2 (drop 2 b)).

(** [h.Unix = time.Unix(int64(t>>32), int64(t&0xffffffff))]. *)
Definition unix_of_word (t : Z) : Time :=
  time_Unix (swrap 64 (Z.shiftr t 32)) (swrap 64 (Z.land t 0xffffffff)).

(** The 64-bit word a time is sent as. *)
Definition word_of_time (t : Time) : Z := t_sec t * 2 ^ 32 + t_nsec t.

Definition time_ok (t : Time) : Prop := in_range 32 (t_sec t) /\ 0 <= t_nsec t < Second.

Lemma word_of_time_range t : time_ok t -> in_range 64 (word_of_time t).
Proof. unfold time_ok, in_range, word_of_time, Second. lia. Qed.

Lemma unix_of_word_of_time t : time_ok t -> unix_of_word (word_of_time t) = t.
Proof.
  intros [Hs Hn]. unfold unix_of_word, word_of_time. unfold in_range, Second in *.
  assert (Z.shiftr (t_sec t * 2 ^ 32 + t_nsec t) 32 = t_sec t) as ->.
  { rewrite Z.shiftr_div_pow2, Z.div_add_l, (Z.div_small (t_nsec t)) by lia. lia. }
  assert (Z.land (t_sec t * 2 ^ 32 + t_nsec t) 0xffffffff = t_nsec t) as ->.
  { change 0xffffffff with (Z.ones 32).
    rewrite Z.land_ones, (Z.add_comm (_ * _)), Z.mod_add, Z.mod_small by lia. done. }
  rewrite !swrap_id by (unfold in_srange; lia).
  apply time_Unix_id. unfold Second. lia.
Qed.

(** What a decoder returns, whatever it reads. *)
Definition Returns {A} (P : A -> Prop) (m : M Buffer A) : Prop :=
  forall b x b', m b = Ok (x, b') -> P x.

Lemma Returns_ret {A} (P : A -> Prop) x : P x -> Returns P (mret x).
Proof. intros HP b y b' [= <- <-]. done. Qed.

Lemma Returns_bind {A B} (P : B -> Prop) (m : M Buffer A) (f : A -> M Buffer B) :
  (forall x, Returns P (f x)) -> Returns P (m ≫= f).
Proof.
  intros Hf b y b'. unfold mbind, M_bind.
  destruct (m b) as [[x b1]| | |]; [|done..]. apply Hf.
Qed.

Ltac returns := repeat (apply Returns_bind; intros ?); apply Returns_ret; try done.

Lemma length_repeatM {A} n (m : M Buffer A) : Returns (fun l => length l = n) (repeatM n m).
Proof.
  induction n as [|n IH]; [by apply Returns_ret|]. simpl. apply Returns_bind. intros x b l b'.
  unfold mbind, M_bind. destruct (repeatM n m b) as [[xs b1]| | |] eqn:E; [|done..].
  intros [= <- <-]. simpl. f_equal. by eapply IH.
Qed.

Section Counted.
  Context {Header Record Packet : Type}.
  Context (count : Header -> Z) (rest : Z -> Z -> M Buffer Header) (rec : M Buffer Record).
  Context (mk : Header -> list Record -> Packet).
  Context (hsz rsz : nat) (e : Z -> error).

Definition counted_header : M Buffer Header :=
  version ← Uint16;
  c ← Uint16;
  if (c <? 1) || (32 <? c) then fail (e c) else rest version c.

Definition counted_packet : M Buffer Packet :=
  h ← counted_header;
  rs ← repeatM (Z.to_nat (count h)) rec;
  mret (mk h rs).

  Hypothesis Hrest : forall v c, Strict hsz (rest v c).
  Hypothesis Hcount : forall v c, Returns (fun h => count h = c) (rest v c).

Lemma counted_header_spec b :
  match counted_header b with
  | Ok (h, b') =>
      b' = drop (4 + hsz) b /\ (4 + hsz <= length b)%nat /\
      count h = count_word b /\ 1 <= count h <= 32
  | Err _ =>
      (length b < 4 + hsz)%nat \/ ~ (1 <= count_word b <= 32)
  | Panic _ | OutOfFuel => False
  end.
Proof using Type*.
  unfold counted_header, Uint16, mbind, M_bind, mret, M_ret. rewrite ReadFull_Buffer.
  destruct (Nat.leb_spec 2 (length b)) as [H2|]; [|left; lia].
  rewrite ReadFull_Buffer, length_drop, drop_drop.
  destruct (Nat.leb_spec 2 (length b - 2)) as [H4|]; [|left; lia].
  change (be_combine (take 2 (drop 2 b))) with (count_word b).
  destruct ((count_word b <? 1) || (32 <? count_word b)) eqn:Hg; cbn.
  - right. apply orb_true_iff in Hg. lia.
  - apply orb_false_iff in Hg.
    specialize (Hrest (be_combine (take 2 b)) (count_word b) (drop 4 b)).
    destruct (rest _ _ (drop 4 b)) as [[h b']| | |] eqn:E;
      [|left; rewrite length_drop in Hrest; lia|done..].
    apply Hcount in E. rewrite length_drop, drop_drop in Hrest.
    split_and!; [tauto|lia..].
Qed.

(** Records of one size, every short read caught: the datagram decodes exactly when its
    count is in bounds and all the records are there. *)
Lemma counted_packet_spec b :
  Strict rsz rec ->
  match counted_packet b with
  | Ok (p, b') =>
      exists h rs, p = mk h rs /\ Z.of_nat (length rs) = count_word b /\
      1 <= count_word b <= 32 /\
      b' = drop (4 + hsz + Z.to_nat (count_word b) * rsz) b /\
      (4 + hsz + Z.to_nat (count_word b) * rsz <= length b)%nat
  | Err _ =>
      ~ (1 <= count_word b <= 32) \/
      (length b < 4 + hsz + Z.to_nat (count_word b) * rsz)%nat
  | Panic _ | OutOfFuel => False
  end.
Proof using Type*.
  intros Hrec. unfold counted_packet, mbind, M_bind. pose proof (counted_header_spec b) as Hh.
  destruct (counted_header b) as [[h b']| | |]; [|destruct Hh; [right; lia|by left]|done..].
  destruct Hh as (-> & Hl & Hc & Hr). rewrite <- Hc.
  pose proof (Strict_repeatM rsz (Z.to_nat (count h)) rec Hrec (drop (4 + hsz) b)) as Hs.
  rewrite length_drop, drop_drop in Hs.
  destruct (repeatM _ _ _) as [[rs b2]| | |] eqn:E; [|right; lia|done..].
  apply length_repeatM in E. destruct Hs. exists h, rs. split_and!; [done|lia..|done|lia].
Qed.

Lemma Parses_counted v h rs w (wire : Record -> bytes) :
  in_range 16 v -> 1 <= count h <= 32 -> Z.of_nat (length rs) = count h ->
  Parses (rest v (count h)) h w -> Forall (fun r => Parses rec r (wire r)) rs ->
  Parses counted_packet (mk h rs)
    ((be_split 2 v ++ be_split 2 (count h) ++ w) ++ concat (wire <$> rs)).
Proof using Type.
  intros Hv Hc Hl Hw Hrs. unfold counted_packet. eapply Parses_bind.
  - unfold counted_header. eapply Parses_bind; [by apply Parses_Uint16|].
    eapply Parses_bind; [apply Parses_Uint16; unfold in_range; lia|].
    destruct (Z.ltb_spec (count h) 1), (Z.ltb_spec 32 (count h)); [lia..|]. exact Hw.
  - eapply Parses_bind_ret; [|apply Parses_ret].
    replace (Z.to_nat (count h)) with (length rs) by lia. by apply Parses_repeatM.
Qed.
End Counted.
