(* ===== verification/NetFlow5.v ===== *)
(** * NetFlow version 5 packets (src/pkg/util/netflow/netflow5/packet.go)

    The 32-bit uptime is in milliseconds. *)
From S2P Require Import Prelude GoIO Read Counted.

Definition Version : Z := 5.

Record PacketHeader := mkPacketHeader {
  Version' : Z;
  Count : Z;
  SysUptime : Z;
  Unix : Time;
  FlowSequence : Z;
  EngineType : Z;
  EngineID : Z;
  SamplingInterval : Z
}.

Record FlowRecord := mkFlowRecord {
  SrcAddr : bytes;
  DstAddr : bytes;
  NextHop : bytes;
  Input : Z;
  Output : Z;
  Packets : Z;
  Bytes : Z;
  First : Z;
  Last : Z;
  SrcPort : Z;
  DstPort : Z;
  Pad1 : Z;
  TCPFlags : Z;
  Protocol : Z;
  ToS : Z;
  SrcAS : Z;
  DstAS : Z;
  SrcMask : Z;
  DstMask : Z;
  Pad2 : Z
}.

Record Packet := mkPacket { Header : PacketHeader; Records : list FlowRecord }.

(** [fmt.Errorf("protocol error: %d flows out of bounds", h.Count)]. *)
Definition errCount (c : Z) : error := Errorf "protocol error: %d flows out of bounds" [c].

Section Decoder.
  Context {R : Type} `{IoReader R}.

Definition PacketHeader_Unmarshal : M R PacketHeader :=
  version ← Uint16;
  count ← Uint16;
  if (count <? 1) || (32 <? count) then fail (errCount count) else
  u ← Uint32;
  t ← Uint64;
  flowsequence ← Uint32;
  enginetype ← Uint8;
  engineid ← Uint8;
  samplinginterval ← Uint16;
  mret (mkPacketHeader version count (swrap 64 (u * Millisecond)) (unix_of_word t) flowsequence enginetype engineid samplinginterval).

Definition FlowRecord_Unmarshal : M R FlowRecord :=
  srcaddr ← Read_make 4;
  dstaddr ← Read_make 4;
  nexthop ← Read_make 4;
  input ← Uint16;
  output ← Uint16;
  packets ← Uint32;
  bytes ← Uint32;
  first ← Uint32;
  last ← Uint32;
  srcport ← Uint16;
  dstport ← Uint16;
  pad1 ← Uint8;
  tcpflags ← Uint8;
  protocol ← Uint8;
  tos ← Uint8;
  srcas ← Uint16;
  dstas ← Uint16;
  srcmask ← Uint8;
  dstmask ← Uint8;
  pad2 ← Uint16;
  mret (mkFlowRecord srcaddr dstaddr nexthop input output packets bytes first last srcport dstport pad1 tcpflags protocol tos srcas dstas srcmask dstmask pad2).

Definition Packet_Unmarshal : M R Packet :=
  h ← PacketHeader_Unmarshal;
  rs ← repeatM (Z.to_nat (Count h)) FlowRecord_Unmarshal;
  mret (mkPacket h rs).

Definition Read : M R Packet := Packet_Unmarshal.
End Decoder.

(** ** The wire format, as a specification of the decoder *)

Definition header_wire (h : PacketHeader) : bytes :=
  be_split 4 (SysUptime h / Millisecond) ++ be_split 8 (word_of_time (Unix h)) ++
  be_split 4 (FlowSequence h) ++
  be_split 1 (EngineType h) ++
  be_split 1 (EngineID h) ++
  be_split 2 (SamplingInterval h).

Definition record_wire (r : FlowRecord) : bytes :=
  SrcAddr r ++
  DstAddr r ++
  NextHop r ++
  be_split 2 (Input r) ++
  be_split 2 (Output r) ++
  be_split 4 (Packets r) ++
  be_split 4 (Bytes r) ++
  be_split 4 (First r) ++
  be_split 4 (Last r) ++
  be_split 2 (SrcPort r) ++
  be_split 2 (DstPort r) ++
  be_split 1 (Pad1 r) ++
  be_split 1 (TCPFlags r) ++
  be_split 1 (Protocol r) ++
  be_split 1 (ToS r) ++
  be_split 2 (SrcAS r) ++
  be_split 2 (DstAS r) ++
  be_split 1 (SrcMask r) ++
  be_split 1 (DstMask r) ++
  be_split 2 (Pad2 r).

Definition packet_wire (p : Packet) : bytes :=
  (be_split 2 (Version' (Header p)) ++ be_split 2 (Count (Header p)) ++ header_wire (Header p)) ++
  concat (record_wire <$> Records p).

Record header_ok (h : PacketHeader) : Prop := {
  ok_version : in_range 16 (Version' h);
  ok_count : 1 <= Count h <= 32;
  ok_uptime : exists u, in_range 32 u /\ SysUptime h = u * Millisecond;
  ok_unix : time_ok (Unix h);
  ok_FlowSequence : in_range 32 (FlowSequence h);
  ok_EngineType : in_range 8 (EngineType h);
  ok_EngineID : in_range 8 (EngineID h);
  ok_SamplingInterval : in_range 16 (SamplingInterval h)
}.

Record record_ok (r : FlowRecord) : Prop := {
  ok_r_SrcAddr : length (SrcAddr r) = 4%nat;
  ok_r_DstAddr : length (DstAddr r) = 4%nat;
  ok_r_NextHop : length (NextHop r) = 4%nat;
  ok_r_Input : in_range 16 (Input r);
  ok_r_Output : in_range 16 (Output r);
  ok_r_Packets : in_range 32 (Packets r);
  ok_r_Bytes : in_range 32 (Bytes r);
  ok_r_First : in_range 32 (First r);
  ok_r_Last : in_range 32 (Last r);
  ok_r_SrcPort : in_range 16 (SrcPort r);
  ok_r_DstPort : in_range 16 (DstPort r);
  ok_r_Pad1 : in_range 8 (Pad1 r);
  ok_r_TCPFlags : in_range 8 (TCPFlags r);
  ok_r_Protocol : in_range 8 (Protocol r);
  ok_r_ToS : in_range 8 (ToS r);
  ok_r_SrcAS : in_range 16 (SrcAS r);
  ok_r_DstAS : in_range 16 (DstAS r);
  ok_r_SrcMask : in_range 8 (SrcMask r);
  ok_r_DstMask : in_range 8 (DstMask r);
  ok_r_Pad2 : in_range 16 (Pad2 r)
}.

Definition packet_ok (p : Packet) : Prop :=
  header_ok (Header p) /\ Z.of_nat (length (Records p)) = Count (Header p) /\
  Forall record_ok (Records p).

(** ** The decoder reads that format and nothing else *)

Definition header_rest (version count : Z) : M Buffer PacketHeader :=
  u ← Uint32;
  t ← Uint64;
  flowsequence ← Uint32;
  enginetype ← Uint8;
  engineid ← Uint8;
  samplinginterval ← Uint16;
  mret (mkPacketHeader version count (swrap 64 (u * Millisecond)) (unix_of_word t) flowsequence enginetype engineid samplinginterval).

Lemma v5_packet_counted :
  Packet_Unmarshal = counted_packet Count header_rest FlowRecord_Unmarshal mkPacket errCount.
Proof. reflexivity. Qed.

Lemma v5_header_parses h :
  header_ok h -> Parses (header_rest (Version' h) (Count h)) h (header_wire h).
Proof.
  intros []. unfold header_rest, header_wire.
  destruct ok_uptime0 as (u & Hu & Hup). rewrite Hup, Z.div_mul by (unfold Millisecond; lia).
  eapply Parses_bind; [by eauto with wire|]. cbv beta.
  eapply Parses_bind; [by apply Parses_Uint64, word_of_time_range|]. cbv beta.
  parse_fields.
  rewrite unix_of_word_of_time by done.
  rewrite swrap_id by (unfold in_srange, in_range, Millisecond in *; lia). rewrite <- Hup.
  destruct h; apply Parses_ret.
Qed.

Lemma v5_header_strict v c : Strict 20 (header_rest v c).
Proof. unfold header_rest. strict_fields. Qed.

Lemma v5_header_count v c : Returns (fun h => Count h = c) (header_rest v c).
Proof. unfold header_rest. returns. Qed.

Lemma v5_record_parses r :
  record_ok r -> Parses FlowRecord_Unmarshal r (record_wire r).
Proof.
  intros []. unfold FlowRecord_Unmarshal, record_wire. parse_fields.
  destruct r; apply Parses_ret.
Qed.

Lemma v5_record_strict : Strict 48 FlowRecord_Unmarshal.
Proof. unfold FlowRecord_Unmarshal. strict_fields. Qed.

Lemma v5_record_simulates : Simulates FlowRecord_Unmarshal FlowRecord_Unmarshal.
Proof. unfold FlowRecord_Unmarshal. simulate. Qed.
#[export] Hint Resolve v5_record_simulates : sim.

Lemma v5_roundtrip p rest : packet_ok p -> Read (packet_wire p ++ rest) = Ok (p, rest).
Proof.
  intros (Hh & Hl & Hrs). unfold Read. rewrite v5_packet_counted. unfold packet_wire.
  pose proof (Parses_counted Count header_rest FlowRecord_Unmarshal mkPacket errCount
    (Version' (Header p)) (Header p) (Records p) (header_wire (Header p)) record_wire) as Hp.
  destruct p as [h rs]; simpl in *. apply Hp.
  - apply (ok_version _ Hh).
  - apply (ok_count _ Hh).
  - done.
  - by apply v5_header_parses.
  - eapply Forall_impl; [exact Hrs|]. intros r. apply v5_record_parses.
Qed.

(** Decoding succeeds exactly when the count is in bounds and every byte is there. *)
Lemma v5_decode_spec b :
  match Read b with
  | Ok (p, b') =>
      Z.of_nat (length (Records p)) = count_word b /\ 1 <= count_word b <= 32 /\
      b' = drop (24 + Z.to_nat (count_word b) * 48) b /\
      (24 + Z.to_nat (count_word b) * 48 <= length b)%nat
  | Err _ =>
      ~ (1 <= count_word b <= 32) \/
      (length b < 24 + Z.to_nat (count_word b) * 48)%nat
  | Panic _ | OutOfFuel => False
  end.
Proof.
  unfold Read. rewrite v5_packet_counted.
  pose proof (counted_packet_spec Count header_rest FlowRecord_Unmarshal mkPacket 20 48
    errCount v5_header_strict v5_header_count b v5_record_strict) as Hs.
  destruct (counted_packet _ _ _ _ _ b) as [[p b']| | |]; try exact Hs.
  destruct Hs as (h & rs & -> & Hs). exact Hs.
Qed.
