(* ===== verification/NetFlow7.v ===== *)
(** * NetFlow version 7 packets (src/pkg/util/netflow/netflow7/packet.go)

    The record ends with an address, read by a single [Read]: a record cut inside that address is accepted. *)
From S2P Require Import Prelude GoIO Read Counted.

Definition Version : Z := 7.

Record PacketHeader := mkPacketHeader {
  Version' : Z;
  Count : Z;
  SysUptime : Z;
  Unix : Time;
  FlowSequence : Z;
  HeaderReserved : Z
}.

Record FlowRecord := mkFlowRecord {
  SrcAddr : bytes;
  DstAddr : bytes;
  NextHop : bytes;
  Input : Z;
  Output : Z;
  Packets : Z;
  Bytes : Z;
  First : Z;
  Last : Z;
  SrcPort : Z;
  DstPort : Z;
  Pad1 : Z;
  TCPFlags : Z;
  Protocol : Z;
  ToS : Z;
  SrcAS : Z;
  DstAS : Z;
  SrcMask : Z;
  DstMask : Z;
  Flags : Z;
  RouterSC : bytes
}.

Record Packet := mkPacket { Header : PacketHeader; Records : list FlowRecord }.

(** [fmt.Errorf("protocol error: %d flows out of bounds", h.Count)]. *)
Definition errCount (c : Z) : error := Errorf "protocol error: %d flows out of bounds" [c].

Section Decoder.
  Context {R : Type} `{IoReader R}.

Definition PacketHeader_Unmarshal : M R PacketHeader :=
  version ← Uint16;
  count ← Uint16;
  if (count <? 1) || (32 <? count) then fail (errCount count) else
  u ← Uint32;
  t ← Uint64;
  flowsequence ← Uint32;
  reserved ← Uint32;
  mret (mkPacketHeader version count (swrap 64 (u * Millisecond)) (unix_of_word t) flowsequence reserved).

Definition FlowRecord_Unmarshal : M R FlowRecord :=
  srcaddr ← Read_make 4;
  dstaddr ← Read_make 4;
  nexthop ← Read_make 4;
  input ← Uint16;
  output ← Uint16;
  packets ← Uint32;
  bytes ← Uint32;
  first ← Uint32;
  last ← Uint32;
  srcport ← Uint16;
  dstport ← Uint16;
  pad1 ← Uint8;
  tcpflags ← Uint8;
  protocol ← Uint8;
  tos ← Uint8;
  srcas ← Uint16;
  dstas ← Uint16;
  srcmask ← Uint8;
  dstmask ← Uint8;
  flags ← Uint16;
  routersc ← Read_make 4;
  mret (mkFlowRecord srcaddr dstaddr nexthop input output packets bytes first last srcport dstport pad1 tcpflags protocol tos srcas dstas srcmask dstmask flags routersc).

Definition Packet_Unmarshal : M R Packet :=
  h ← PacketHeader_Unmarshal;
  rs ← repeatM (Z.to_nat (Count h)) FlowRecord_Unmarshal;
  mret (mkPacket h rs).

Definition Read : M R Packet := Packet_Unmarshal.
End Decoder.

(** ** The wire format, as a specification of the decoder *)

Definition header_wire (h : PacketHeader) : bytes :=
  be_split 4 (SysUptime h / Millisecond) ++ be_split 8 (word_of_time (Unix h)) ++
  be_split 4 (FlowSequence h) ++
  be_split 4 (HeaderReserved h).

Definition record_wire (r : FlowRecord) : bytes :=
  SrcAddr r ++
  DstAddr r ++
  NextHop r ++
  be_split 2 (Input r) ++
  be_split 2 (Output r) ++
  be_split 4 (Packets r) ++
  be_split 4 (Bytes r) ++
  be_split 4 (First r) ++
  be_split 4 (Last r) ++
  be_split 2 (SrcPort r) ++
  be_split 2 (DstPort r) ++
  be_split 1 (Pad1 r) ++
  be_split 1 (TCPFlags r) ++
  be_split 1 (Protocol r) ++
  be_split 1 (ToS r) ++
  be_split 2 (SrcAS r) ++
  be_split 2 (DstAS r) ++
  be_split 1 (SrcMask r) ++
  be_split 1 (DstMask r) ++
  be_split 2 (Flags r) ++
  RouterSC r.

Definition packet_wire (p : Packet) : bytes :=
  (be_split 2 (Version' (Header p)) ++ be_split 2 (Count (Header p)) ++ header_wire (Header p)) ++
  concat (record_wire <$> Records p).

Record header_ok (h : PacketHeader) : Prop := {
  ok_version : in_range 16 (Version' h);
  ok_count : 1 <= Count h <= 32;
  ok_uptime : exists u, in_range 32 u /\ SysUptime h = u * Millisecond;
  ok_unix : time_ok (Unix h);
  ok_FlowSequence : in_range 32 (FlowSequence h);
  ok_HeaderReserved : in_range 32 (HeaderReserved h)
}.

Record record_ok (r : FlowRecord) : Prop := {
  ok_r_SrcAddr : length (SrcAddr r) = 4%nat;
  ok_r_DstAddr : length (DstAddr r) = 4%nat;
  ok_r_NextHop : length (NextHop r) = 4%nat;
  ok_r_Input : in_range 16 (Input r);
  ok_r_Output : in_range 16 (Output r);
  ok_r_Packets : in_range 32 (Packets r);
  ok_r_Bytes : in_range 32 (Bytes r);
  ok_r_First : in_range 32 (First r);
  ok_r_Last : in_range 32 (Last r);
  ok_r_SrcPort : in_range 16 (SrcPort r);
  ok_r_DstPort : in_range 16 (DstPort r);
  ok_r_Pad1 : in_range 8 (Pad1 r);
  ok_r_TCPFlags : in_range 8 (TCPFlags r);
  ok_r_Protocol : in_range 8 (Protocol r);
  ok_r_ToS : in_range 8 (ToS r);
  ok_r_SrcAS : in_range 16 (SrcAS r);
  ok_r_DstAS : in_range 16 (DstAS r);
  ok_r_SrcMask : in_range 8 (SrcMask r);
  ok_r_DstMask : in_range 8 (DstMask r);
  ok_r_Flags : in_range 16 (Flags r);
  ok_r_RouterSC : length (RouterSC r) = 4%nat
}.

Definition packet_ok (p : Packet) : Prop :=
  header_ok (Header p) /\ Z.of_nat (length (Records p)) = Count (Header p) /\
  Forall record_ok (Records p).

(** ** The decoder reads that format and nothing else *)

Definition header_rest (version count : Z) : M Buffer PacketHeader :=
  u ← Uint32;
  t ← Uint64;
  flowsequence ← Uint32;
  reserved ← Uint32;
  mret (mkPacketHeader version count (swrap 64 (u * Millisecond)) (unix_of_word t) flowsequence reserved).

Lemma v7_packet_counted :
  Packet_Unmarshal = counted_packet Count header_rest FlowRecord_Unmarshal mkPacket errCount.
Proof. reflexivity. Qed.

Lemma v7_header_parses h :
  header_ok h -> Parses (header_rest (Version' h) (Count h)) h (header_wire h).
Proof.
  intros []. unfold header_rest, header_wire.
  destruct ok_uptime0 as (u & Hu & Hup). rewrite Hup, Z.div_mul by (unfold Millisecond; lia).
  eapply Parses_bind; [by eauto with wire|]. cbv beta.
  eapply Parses_bind; [by apply Parses_Uint64, word_of_time_range|]. cbv beta.
  parse_fields.
  rewrite unix_of_word_of_time by done.
  rewrite swrap_id by (unfold in_srange, in_range, Millisecond in *; lia). rewrite <- Hup.
  destruct h; apply Parses_ret.
Qed.

Lemma v7_header_strict v c : Strict 20 (header_rest v c).
Proof. unfold header_rest. strict_fields. Qed.

Lemma v7_header_count v c : Returns (fun h => Count h = c) (header_rest v c).
Proof. unfold header_rest. returns. Qed.

Lemma v7_record_parses r :
  record_ok r -> Parses FlowRecord_Unmarshal r (record_wire r).
Proof.
  intros []. unfold FlowRecord_Unmarshal, record_wire. parse_fields.
  destruct r; apply Parses_ret.
Qed.

Lemma v7_record_simulates : Simulates FlowRecord_Unmarshal FlowRecord_Unmarshal.
Proof. unfold FlowRecord_Unmarshal. simulate. Qed.
#[export] Hint Resolve v7_record_simulates : sim.

Lemma v7_roundtrip p rest : packet_ok p -> Read (packet_wire p ++ rest) = Ok (p, rest).
Proof.
  intros (Hh & Hl & Hrs). unfold Read. rewrite v7_packet_counted. unfold packet_wire.
  pose proof (Parses_counted Count header_rest FlowRecord_Unmarshal mkPacket errCount
    (Version' (Header p)) (Header p) (Records p) (header_wire (Header p)) record_wire) as Hp.
  destruct p as [h rs]; simpl in *. apply Hp.
  - apply (ok_version _ Hh).
  - apply (ok_count _ Hh).
  - done.
  - by apply v7_header_parses.
  - eapply Forall_impl; [exact Hrs|]. intros r. apply v7_record_parses.
Qed.

(** [r] with its last field replaced. *)
Definition with_RouterSC (r : FlowRecord) (a : bytes) : FlowRecord :=
  let 'mkFlowRecord x1 x2 x3 x4 x5 x6 x7 x8 x9 x10 x11 x12 x13 x14 x15 x16 x17 x18 x19 x20 _ := r in
  mkFlowRecord x1 x2 x3 x4 x5 x6 x7 x8 x9 x10 x11 x12 x13 x14 x15 x16 x17 x18 x19 x20 a.

Lemma v7_record_short r a :
  record_ok r -> (0 < length a <= 4)%nat ->
  FlowRecord_Unmarshal (record_wire (with_RouterSC r a)) = Ok (with_RouterSC r (pad 4 a), []).
Proof.
  intros [] Ha. unfold FlowRecord_Unmarshal, record_wire.
  destruct r; cbn [with_RouterSC SrcAddr DstAddr NextHop Input Output Packets Bytes First Last
    SrcPort DstPort Pad1 TCPFlags Protocol ToS SrcAS DstAS SrcMask DstMask Flags RouterSC] in *.
  repeat (eapply run_bind; [solve [eauto with wire]|]; cbv beta).
  unfold mbind, M_bind. by rewrite Read_make_short.
Qed.

(** A version 7 datagram that is cut inside the router address of its last record is
    accepted: no error is reported and the missing bytes of the address are read as zeros. *)
Lemma netflow7_short_last_address h rs r a :
  packet_ok (mkPacket h (rs ++ [r])) -> (0 < length a <= 4)%nat ->
  Read (packet_wire (mkPacket h (rs ++ [with_RouterSC r a]))) =
    Ok (mkPacket h (rs ++ [with_RouterSC r (pad 4 a)]), []).
Proof.
  intros (Hh & Hl & Hrs) Ha. simpl in *. apply Forall_app in Hrs as [Hrs Hr].
  rewrite Forall_singleton in Hr. rewrite length_app in Hl. simpl in Hl.
  unfold Read. rewrite v7_packet_counted. unfold packet_wire, counted_packet. simpl.
  pose proof (ok_count _ Hh). eapply run_bind.
  - unfold counted_header. eapply Parses_bind; [apply Parses_Uint16, (ok_version _ Hh)|].
    eapply Parses_bind; [apply Parses_Uint16; unfold in_range; lia|].
    destruct (Z.ltb_spec (Count h) 1), (Z.ltb_spec 32 (Count h)); [lia..|].
    by apply v7_header_parses.
  - replace (Z.to_nat (Count h)) with (S (length rs)) by lia.
    rewrite fmap_app, concat_app. cbn [fmap list_fmap concat]. rewrite app_nil_r.
    unfold mbind, M_bind. rewrite (run_repeatM_snoc _ rs (with_RouterSC r (pad 4 a))).
    + done.
    + eapply Forall_impl; [exact Hrs|]. intros x. apply v7_record_parses.
    + by apply v7_record_short.
Qed.

(** A header and a record to evaluate the theorem on. *)
Definition sample_header : PacketHeader :=
  mkPacketHeader 7 1 (1000 * Millisecond) (mkTime 1700000000 5) 9 0.
Definition sample_record : FlowRecord :=
  mkFlowRecord [10;0;0;1] [10;0;0;2] [10;0;0;254] 1 2 3 4 5 6 7 8 0 9 6 0 11 12 24 24 0
    [192;168;1;1].

Lemma sample_packet_ok : packet_ok (mkPacket sample_header [sample_record]).
Proof.
  split_and!; simpl.
  - constructor; unfold in_range; simpl; try lia.
    + exists 1000. lia.
    + unfold time_ok, in_range, Second. simpl. lia.
  - done.
  - constructor; [|constructor]. constructor; unfold in_range; simpl; lia.
Qed.

Lemma netflow7_short_last_address_witness :
  Read (packet_wire (mkPacket sample_header ([] ++ [with_RouterSC sample_record [192;168]]))) =
    Ok (mkPacket sample_header ([] ++ [with_RouterSC sample_record [192;168;0;0]]), []).
Proof.
  apply (netflow7_short_last_address sample_header [] sample_record [192;168]);
    [exact sample_packet_ok|simpl; lia].
Defined.
