(* ===== verification/KT.v ===== *)
(** * Records of the agent (src/pkg/kt/types.go)

    [JCHF], the record of one flow or one set of metrics that every stage works on, and
    [Output], what is handed to a sink.  A Go map that may be nil is an [option] of a [gmap]:
    reading a nil map gives the zero value, writing to one panics.  The fields that hold
    compiled regular expressions, SNMP tables and HAR files are not used by the modelled code
    and are left out. *)
From S2P Require Import Prelude GoIO GoStrings.

(** ** Maps that may be nil *)

Section GoMap.
  Context {A : Type}.

Definition gomap_get (zero : A) (m : option (gmap string A)) (k : string) : A :=
  match m with
  | Some m => default zero (m !! k)
  | None => zero
  end.

Definition gomap_set (m : option (gmap string A)) (k : string) (v : A) :
    outcome (option (gmap string A)) :=
  match m with
  | Some m => Ok (Some (<[k := v]> m))
  | None => Panic "assignment to entry in nil map"
  end.
End GoMap.

Record MetricInfo := mkMetricInfo {
  mi_Oid : string;
  mi_Mib : string;
  mi_Name : string;
  mi_Profile : string;
  mi_Table : string;
  mi_Format : string;
  mi_Type : string;
  mi_PollDur : Z;
  mi_Tables : option (gmap string bool)
}.

Definition GetType (m : MetricInfo) : string :=
  if String.eqb (mi_Type m) "" then "snmp" else mi_Type m.

(** The dynamic values of a flattened record: integers are [int64] except where they come from
    a map of [int32]; a [float32] is its bit pattern. *)
Inductive Avro :=
| AInt (z : Z)
| AInt32 (z : Z)
| AFloat32 (bits : Z)
| AStr (s : string)
| AProvider (s : string)
| AMapStr (m : option (gmap string string))
| AMapInt32 (m : option (gmap string Z))
| AMapInt64 (m : option (gmap string Z))
| AMapFloat32 (m : option (gmap string Z)).

Record JCHF := mkJCHF {
  Timestamp : Z;
  DstAs : Z;
  DstGeo : string;
  HeaderLen : Z;
  InBytes : Z;
  InPkts : Z;
  InputPort : Z;
  IpSize : Z;
  DstAddr : string;
  SrcAddr : string;
  L4DstPort : Z;
  L4SrcPort : Z;
  OutputPort : Z;
  Protocol : string;
  SampledPacketSize : Z;
  SrcAs : Z;
  SrcGeo : string;
  TcpFlags : Z;
  Tos : Z;
  VlanIn : Z;
  VlanOut : Z;
  NextHop : string;
  MplsType : Z;
  OutBytes : Z;
  OutPkts : Z;
  TcpRetransmit : Z;
  SrcFlowTags : string;
  DstFlowTags : string;
  SampleRate : Z;
  DeviceId : Z;
  DeviceName : string;
  CompanyId : Z;
  DstBgpAsPath : string;
  DstBgpCommunity : string;
  SrcBgpAsPath : string;
  SrcBgpCommunity : string;
  SrcNextHopAs : Z;
  DstNextHopAs : Z;
  SrcGeoRegion : string;
  DstGeoRegion : string;
  SrcGeoCity : string;
  DstGeoCity : string;
  DstNextHop : string;
  SrcNextHop : string;
  SrcRoutePrefix : string;
  DstRoutePrefix : string;
  SrcSecondAsn : Z;
  DstSecondAsn : Z;
  SrcThirdAsn : Z;
  DstThirdAsn : Z;
  SrcEthMac : string;
  DstEthMac : string;
  InputIntDesc : string;
  OutputIntDesc : string;
  InputIntAlias : string;
  OutputIntAlias : string;
  InputInterfaceCapacity : Z;
  OutputInterfaceCapacity : Z;
  InputInterfaceIP : string;
  OutputInterfaceIP : string;
  CustomStr : option (gmap string string);
  CustomInt : option (gmap string Z);
  CustomBigInt : option (gmap string Z);
  CustomFloat : option (gmap string Z);
  EventType : string;
  Provider : string;
  avroSet : option (gmap string Avro);
  hasSetAvro : bool;
  CustomMetrics : option (gmap string MetricInfo);
  ApplySample : bool
}.

(** [&JCHF{}]. *)
Definition zero_JCHF : JCHF :=
  mkJCHF 0 0 "" 0 0 0 0 0 "" "" 0 0 0 "" 0 0 "" 0 0 0 0 "" 0 0 0 0 "" "" 0 0 "" 0 "" "" "" "" 0 0 "" "" "" "" "" "" "" "" 0 0 0 0 "" "" "" "" "" "" 0 0 "" "" None None None None "" "" None false None false.

Definition set_avroSet (v : option (gmap string Avro)) (j : JCHF) : JCHF :=
  let 'mkJCHF x0 x1 x2 x3 x4 x5 x6 x7 x8 x9 x10 x11 x12 x13 x14 x15 x16 x17 x18 x19 x20 x21 x22
    x23 x24 x25 x26 x27 x28 x29 x30 x31 x32 x33 x34 x35 x36 x37 x38 x39 x40 x41 x42 x43 x44 x45
    x46 x47 x48 x49 x50 x51 x52 x53 x54 x55 x56 x57 x58 x59 x60 x61 x62 x63 x64 x65 _ x67 x68
    x69 := j in
  mkJCHF x0 x1 x2 x3 x4 x5 x6 x7 x8 x9 x10 x11 x12 x13 x14 x15 x16 x17 x18 x19 x20 x21 x22 x23
    x24 x25 x26 x27 x28 x29 x30 x31 x32 x33 x34 x35 x36 x37 x38 x39 x40 x41 x42 x43 x44 x45 x46
    x47 x48 x49 x50 x51 x52 x53 x54 x55 x56 x57 x58 x59 x60 x61 x62 x63 x64 x65 v x67 x68 x69.

Definition set_hasSetAvro (v : bool) (j : JCHF) : JCHF :=
  let 'mkJCHF x0 x1 x2 x3 x4 x5 x6 x7 x8 x9 x10 x11 x12 x13 x14 x15 x16 x17 x18 x19 x20 x21 x22
    x23 x24 x25 x26 x27 x28 x29 x30 x31 x32 x33 x34 x35 x36 x37 x38 x39 x40 x41 x42 x43 x44 x45
    x46 x47 x48 x49 x50 x51 x52 x53 x54 x55 x56 x57 x58 x59 x60 x61 x62 x63 x64 x65 x66 _ x68
    x69 := j in
  mkJCHF x0 x1 x2 x3 x4 x5 x6 x7 x8 x9 x10 x11 x12 x13 x14 x15 x16 x17 x18 x19 x20 x21 x22 x23
    x24 x25 x26 x27 x28 x29 x30 x31 x32 x33 x34 x35 x36 x37 x38 x39 x40 x41 x42 x43 x44 x45 x46
    x47 x48 x49 x50 x51 x52 x53 x54 x55 x56 x57 x58 x59 x60 x61 x62 x63 x64 x65 x66 v x68 x69.

Definition set_CustomStr (v : option (gmap string string)) (j : JCHF) : JCHF :=
  let 'mkJCHF x0 x1 x2 x3 x4 x5 x6 x7 x8 x9 x10 x11 x12 x13 x14 x15 x16 x17 x18 x19 x20 x21 x22
    x23 x24 x25 x26 x27 x28 x29 x30 x31 x32 x33 x34 x35 x36 x37 x38 x39 x40 x41 x42 x43 x44 x45
    x46 x47 x48 x49 x50 x51 x52 x53 x54 x55 x56 x57 x58 x59 _ x61 x62 x63 x64 x65 x66 x67 x68
    x69 := j in
  mkJCHF x0 x1 x2 x3 x4 x5 x6 x7 x8 x9 x10 x11 x12 x13 x14 x15 x16 x17 x18 x19 x20 x21 x22 x23
    x24 x25 x26 x27 x28 x29 x30 x31 x32 x33 x34 x35 x36 x37 x38 x39 x40 x41 x42 x43 x44 x45 x46
    x47 x48 x49 x50 x51 x52 x53 x54 x55 x56 x57 x58 x59 v x61 x62 x63 x64 x65 x66 x67 x68 x69.

Definition set_CustomInt (v : option (gmap string Z)) (j : JCHF) : JCHF :=
  let 'mkJCHF x0 x1 x2 x3 x4 x5 x6 x7 x8 x9 x10 x11 x12 x13 x14 x15 x16 x17 x18 x19 x20 x21 x22
    x23 x24 x25 x26 x27 x28 x29 x30 x31 x32 x33 x34 x35 x36 x37 x38 x39 x40 x41 x42 x43 x44 x45
    x46 x47 x48 x49 x50 x51 x52 x53 x54 x55 x56 x57 x58 x59 x60 _ x62 x63 x64 x65 x66 x67 x68
    x69 := j in
  mkJCHF x0 x1 x2 x3 x4 x5 x6 x7 x8 x9 x10 x11 x12 x13 x14 x15 x16 x17 x18 x19 x20 x21 x22 x23
    x24 x25 x26 x27 x28 x29 x30 x31 x32 x33 x34 x35 x36 x37 x38 x39 x40 x41 x42 x43 x44 x45 x46
    x47 x48 x49 x50 x51 x52 x53 x54 x55 x56 x57 x58 x59 x60 v x62 x63 x64 x65 x66 x67 x68 x69.

Definition set_CustomBigInt (v : option (gmap string Z)) (j : JCHF) : JCHF :=
  let 'mkJCHF x0 x1 x2 x3 x4 x5 x6 x7 x8 x9 x10 x11 x12 x13 x14 x15 x16 x17 x18 x19 x20 x21 x22
    x23 x24 x25 x26 x27 x28 x29 x30 x31 x32 x33 x34 x35 x36 x37 x38 x39 x40 x41 x42 x43 x44 x45
    x46 x47 x48 x49 x50 x51 x52 x53 x54 x55 x56 x57 x58 x59 x60 x61 _ x63 x64 x65 x66 x67 x68
    x69 := j in
  mkJCHF x0 x1 x2 x3 x4 x5 x6 x7 x8 x9 x10 x11 x12 x13 x14 x15 x16 x17 x18 x19 x20 x21 x22 x23
    x24 x25 x26 x27 x28 x29 x30 x31 x32 x33 x34 x35 x36 x37 x38 x39 x40 x41 x42 x43 x44 x45 x46
    x47 x48 x49 x50 x51 x52 x53 x54 x55 x56 x57 x58 x59 x60 x61 v x63 x64 x65 x66 x67 x68 x69.

Definition set_CustomFloat (v : option (gmap string Z)) (j : JCHF) : JCHF :=
  let 'mkJCHF x0 x1 x2 x3 x4 x5 x6 x7 x8 x9 x10 x11 x12 x13 x14 x15 x16 x17 x18 x19 x20 x21 x22
    x23 x24 x25 x26 x27 x28 x29 x30 x31 x32 x33 x34 x35 x36 x37 x38 x39 x40 x41 x42 x43 x44 x45
    x46 x47 x48 x49 x50 x51 x52 x53 x54 x55 x56 x57 x58 x59 x60 x61 x62 _ x64 x65 x66 x67 x68
    x69 := j in
  mkJCHF x0 x1 x2 x3 x4 x5 x6 x7 x8 x9 x10 x11 x12 x13 x14 x15 x16 x17 x18 x19 x20 x21 x22 x23
    x24 x25 x26 x27 x28 x29 x30 x31 x32 x33 x34 x35 x36 x37 x38 x39 x40 x41 x42 x43 x44 x45 x46
    x47 x48 x49 x50 x51 x52 x53 x54 x55 x56 x57 x58 x59 x60 x61 x62 v x64 x65 x66 x67 x68 x69.

Definition set_CustomMetrics (v : option (gmap string MetricInfo)) (j : JCHF) : JCHF :=
  let 'mkJCHF x0 x1 x2 x3 x4 x5 x6 x7 x8 x9 x10 x11 x12 x13 x14 x15 x16 x17 x18 x19 x20 x21 x22
    x23 x24 x25 x26 x27 x28 x29 x30 x31 x32 x33 x34 x35 x36 x37 x38 x39 x40 x41 x42 x43 x44 x45
    x46 x47 x48 x49 x50 x51 x52 x53 x54 x55 x56 x57 x58 x59 x60 x61 x62 x63 x64 x65 x66 x67 _
    x69 := j in
  mkJCHF x0 x1 x2 x3 x4 x5 x6 x7 x8 x9 x10 x11 x12 x13 x14 x15 x16 x17 x18 x19 x20 x21 x22 x23
    x24 x25 x26 x27 x28 x29 x30 x31 x32 x33 x34 x35 x36 x37 x38 x39 x40 x41 x42 x43 x44 x45 x46
    x47 x48 x49 x50 x51 x52 x53 x54 x55 x56 x57 x58 x59 x60 x61 x62 x63 x64 x65 x66 x67 v x69.

Definition set_InputPort (v : Z) (j : JCHF) : JCHF :=
  let 'mkJCHF x0 x1 x2 x3 x4 x5 _ x7 x8 x9 x10 x11 x12 x13 x14 x15 x16 x17 x18 x19 x20 x21 x22
    x23 x24 x25 x26 x27 x28 x29 x30 x31 x32 x33 x34 x35 x36 x37 x38 x39 x40 x41 x42 x43 x44 x45
    x46 x47 x48 x49 x50 x51 x52 x53 x54 x55 x56 x57 x58 x59 x60 x61 x62 x63 x64 x65 x66 x67 x68
    x69 := j in
  mkJCHF x0 x1 x2 x3 x4 x5 v x7 x8 x9 x10 x11 x12 x13 x14 x15 x16 x17 x18 x19 x20 x21 x22 x23
    x24 x25 x26 x27 x28 x29 x30 x31 x32 x33 x34 x35 x36 x37 x38 x39 x40 x41 x42 x43 x44 x45 x46
    x47 x48 x49 x50 x51 x52 x53 x54 x55 x56 x57 x58 x59 x60 x61 x62 x63 x64 x65 x66 x67 x68 x69.

Definition set_OutputPort (v : Z) (j : JCHF) : JCHF :=
  let 'mkJCHF x0 x1 x2 x3 x4 x5 x6 x7 x8 x9 x10 x11 _ x13 x14 x15 x16 x17 x18 x19 x20 x21 x22
    x23 x24 x25 x26 x27 x28 x29 x30 x31 x32 x33 x34 x35 x36 x37 x38 x39 x40 x41 x42 x43 x44 x45
    x46 x47 x48 x49 x50 x51 x52 x53 x54 x55 x56 x57 x58 x59 x60 x61 x62 x63 x64 x65 x66 x67 x68
    x69 := j in
  mkJCHF x0 x1 x2 x3 x4 x5 x6 x7 x8 x9 x10 x11 v x13 x14 x15 x16 x17 x18 x19 x20 x21 x22 x23 x24
    x25 x26 x27 x28 x29 x30 x31 x32 x33 x34 x35 x36 x37 x38 x39 x40 x41 x42 x43 x44 x45 x46 x47
    x48 x49 x50 x51 x52 x53 x54 x55 x56 x57 x58 x59 x60 x61 x62 x63 x64 x65 x66 x67 x68 x69.

Definition set_Protocol (v : string) (j : JCHF) : JCHF :=
  let 'mkJCHF x0 x1 x2 x3 x4 x5 x6 x7 x8 x9 x10 x11 x12 _ x14 x15 x16 x17 x18 x19 x20 x21 x22
    x23 x24 x25 x26 x27 x28 x29 x30 x31 x32 x33 x34 x35 x36 x37 x38 x39 x40 x41 x42 x43 x44 x45
    x46 x47 x48 x49 x50 x51 x52 x53 x54 x55 x56 x57 x58 x59 x60 x61 x62 x63 x64 x65 x66 x67 x68
    x69 := j in
  mkJCHF x0 x1 x2 x3 x4 x5 x6 x7 x8 x9 x10 x11 x12 v x14 x15 x16 x17 x18 x19 x20 x21 x22 x23 x24
    x25 x26 x27 x28 x29 x30 x31 x32 x33 x34 x35 x36 x37 x38 x39 x40 x41 x42 x43 x44 x45 x46 x47
    x48 x49 x50 x51 x52 x53 x54 x55 x56 x57 x58 x59 x60 x61 x62 x63 x64 x65 x66 x67 x68 x69.

Definition set_Tos (v : Z) (j : JCHF) : JCHF :=
  let 'mkJCHF x0 x1 x2 x3 x4 x5 x6 x7 x8 x9 x10 x11 x12 x13 x14 x15 x16 x17 _ x19 x20 x21 x22
    x23 x24 x25 x26 x27 x28 x29 x30 x31 x32 x33 x34 x35 x36 x37 x38 x39 x40 x41 x42 x43 x44 x45
    x46 x47 x48 x49 x50 x51 x52 x53 x54 x55 x56 x57 x58 x59 x60 x61 x62 x63 x64 x65 x66 x67 x68
    x69 := j in
  mkJCHF x0 x1 x2 x3 x4 x5 x6 x7 x8 x9 x10 x11 x12 x13 x14 x15 x16 x17 v x19 x20 x21 x22 x23 x24
    x25 x26 x27 x28 x29 x30 x31 x32 x33 x34 x35 x36 x37 x38 x39 x40 x41 x42 x43 x44 x45 x46 x47
    x48 x49 x50 x51 x52 x53 x54 x55 x56 x57 x58 x59 x60 x61 x62 x63 x64 x65 x66 x67 x68 x69.

Definition set_TcpFlags (v : Z) (j : JCHF) : JCHF :=
  let 'mkJCHF x0 x1 x2 x3 x4 x5 x6 x7 x8 x9 x10 x11 x12 x13 x14 x15 x16 _ x18 x19 x20 x21 x22
    x23 x24 x25 x26 x27 x28 x29 x30 x31 x32 x33 x34 x35 x36 x37 x38 x39 x40 x41 x42 x43 x44 x45
    x46 x47 x48 x49 x50 x51 x52 x53 x54 x55 x56 x57 x58 x59 x60 x61 x62 x63 x64 x65 x66 x67 x68
    x69 := j in
  mkJCHF x0 x1 x2 x3 x4 x5 x6 x7 x8 x9 x10 x11 x12 x13 x14 x15 x16 v x18 x19 x20 x21 x22 x23 x24
    x25 x26 x27 x28 x29 x30 x31 x32 x33 x34 x35 x36 x37 x38 x39 x40 x41 x42 x43 x44 x45 x46 x47
    x48 x49 x50 x51 x52 x53 x54 x55 x56 x57 x58 x59 x60 x61 x62 x63 x64 x65 x66 x67 x68 x69.

Definition set_L4SrcPort (v : Z) (j : JCHF) : JCHF :=
  let 'mkJCHF x0 x1 x2 x3 x4 x5 x6 x7 x8 x9 x10 _ x12 x13 x14 x15 x16 x17 x18 x19 x20 x21 x22
    x23 x24 x25 x26 x27 x28 x29 x30 x31 x32 x33 x34 x35 x36 x37 x38 x39 x40 x41 x42 x43 x44 x45
    x46 x47 x48 x49 x50 x51 x52 x53 x54 x55 x56 x57 x58 x59 x60 x61 x62 x63 x64 x65 x66 x67 x68
    x69 := j in
  mkJCHF x0 x1 x2 x3 x4 x5 x6 x7 x8 x9 x10 v x12 x13 x14 x15 x16 x17 x18 x19 x20 x21 x22 x23 x24
    x25 x26 x27 x28 x29 x30 x31 x32 x33 x34 x35 x36 x37 x38 x39 x40 x41 x42 x43 x44 x45 x46 x47
    x48 x49 x50 x51 x52 x53 x54 x55 x56 x57 x58 x59 x60 x61 x62 x63 x64 x65 x66 x67 x68 x69.

Definition set_L4DstPort (v : Z) (j : JCHF) : JCHF :=
  let 'mkJCHF x0 x1 x2 x3 x4 x5 x6 x7 x8 x9 _ x11 x12 x13 x14 x15 x16 x17 x18 x19 x20 x21 x22
    x23 x24 x25 x26 x27 x28 x29 x30 x31 x32 x33 x34 x35 x36 x37 x38 x39 x40 x41 x42 x43 x44 x45
    x46 x47 x48 x49 x50 x51 x52 x53 x54 x55 x56 x57 x58 x59 x60 x61 x62 x63 x64 x65 x66 x67 x68
    x69 := j in
  mkJCHF x0 x1 x2 x3 x4 x5 x6 x7 x8 x9 v x11 x12 x13 x14 x15 x16 x17 x18 x19 x20 x21 x22 x23 x24
    x25 x26 x27 x28 x29 x30 x31 x32 x33 x34 x35 x36 x37 x38 x39 x40 x41 x42 x43 x44 x45 x46 x47
    x48 x49 x50 x51 x52 x53 x54 x55 x56 x57 x58 x59 x60 x61 x62 x63 x64 x65 x66 x67 x68 x69.

Definition set_SrcAddr (v : string) (j : JCHF) : JCHF :=
  let 'mkJCHF x0 x1 x2 x3 x4 x5 x6 x7 x8 _ x10 x11 x12 x13 x14 x15 x16 x17 x18 x19 x20 x21 x22
    x23 x24 x25 x26 x27 x28 x29 x30 x31 x32 x33 x34 x35 x36 x37 x38 x39 x40 x41 x42 x43 x44 x45
    x46 x47 x48 x49 x50 x51 x52 x53 x54 x55 x56 x57 x58 x59 x60 x61 x62 x63 x64 x65 x66 x67 x68
    x69 := j in
  mkJCHF x0 x1 x2 x3 x4 x5 x6 x7 x8 v x10 x11 x12 x13 x14 x15 x16 x17 x18 x19 x20 x21 x22 x23
    x24 x25 x26 x27 x28 x29 x30 x31 x32 x33 x34 x35 x36 x37 x38 x39 x40 x41 x42 x43 x44 x45 x46
    x47 x48 x49 x50 x51 x52 x53 x54 x55 x56 x57 x58 x59 x60 x61 x62 x63 x64 x65 x66 x67 x68 x69.

Definition set_DstAddr (v : string) (j : JCHF) : JCHF :=
  let 'mkJCHF x0 x1 x2 x3 x4 x5 x6 x7 _ x9 x10 x11 x12 x13 x14 x15 x16 x17 x18 x19 x20 x21 x22
    x23 x24 x25 x26 x27 x28 x29 x30 x31 x32 x33 x34 x35 x36 x37 x38 x39 x40 x41 x42 x43 x44 x45
    x46 x47 x48 x49 x50 x51 x52 x53 x54 x55 x56 x57 x58 x59 x60 x61 x62 x63 x64 x65 x66 x67 x68
    x69 := j in
  mkJCHF x0 x1 x2 x3 x4 x5 x6 x7 v x9 x10 x11 x12 x13 x14 x15 x16 x17 x18 x19 x20 x21 x22 x23
    x24 x25 x26 x27 x28 x29 x30 x31 x32 x33 x34 x35 x36 x37 x38 x39 x40 x41 x42 x43 x44 x45 x46
    x47 x48 x49 x50 x51 x52 x53 x54 x55 x56 x57 x58 x59 x60 x61 x62 x63 x64 x65 x66 x67 x68 x69.

Definition set_SrcAs (v : Z) (j : JCHF) : JCHF :=
  let 'mkJCHF x0 x1 x2 x3 x4 x5 x6 x7 x8 x9 x10 x11 x12 x13 x14 _ x16 x17 x18 x19 x20 x21 x22
    x23 x24 x25 x26 x27 x28 x29 x30 x31 x32 x33 x34 x35 x36 x37 x38 x39 x40 x41 x42 x43 x44 x45
    x46 x47 x48 x49 x50 x51 x52 x53 x54 x55 x56 x57 x58 x59 x60 x61 x62 x63 x64 x65 x66 x67 x68
    x69 := j in
  mkJCHF x0 x1 x2 x3 x4 x5 x6 x7 x8 x9 x10 x11 x12 x13 x14 v x16 x17 x18 x19 x20 x21 x22 x23 x24
    x25 x26 x27 x28 x29 x30 x31 x32 x33 x34 x35 x36 x37 x38 x39 x40 x41 x42 x43 x44 x45 x46 x47
    x48 x49 x50 x51 x52 x53 x54 x55 x56 x57 x58 x59 x60 x61 x62 x63 x64 x65 x66 x67 x68 x69.

Definition set_DstAs (v : Z) (j : JCHF) : JCHF :=
  let 'mkJCHF x0 _ x2 x3 x4 x5 x6 x7 x8 x9 x10 x11 x12 x13 x14 x15 x16 x17 x18 x19 x20 x21 x22
    x23 x24 x25 x26 x27 x28 x29 x30 x31 x32 x33 x34 x35 x36 x37 x38 x39 x40 x41 x42 x43 x44 x45
    x46 x47 x48 x49 x50 x51 x52 x53 x54 x55 x56 x57 x58 x59 x60 x61 x62 x63 x64 x65 x66 x67 x68
    x69 := j in
  mkJCHF x0 v x2 x3 x4 x5 x6 x7 x8 x9 x10 x11 x12 x13 x14 x15 x16 x17 x18 x19 x20 x21 x22 x23
    x24 x25 x26 x27 x28 x29 x30 x31 x32 x33 x34 x35 x36 x37 x38 x39 x40 x41 x42 x43 x44 x45 x46
    x47 x48 x49 x50 x51 x52 x53 x54 x55 x56 x57 x58 x59 x60 x61 x62 x63 x64 x65 x66 x67 x68 x69.

Definition set_InPkts (v : Z) (j : JCHF) : JCHF :=
  let 'mkJCHF x0 x1 x2 x3 x4 _ x6 x7 x8 x9 x10 x11 x12 x13 x14 x15 x16 x17 x18 x19 x20 x21 x22
    x23 x24 x25 x26 x27 x28 x29 x30 x31 x32 x33 x34 x35 x36 x37 x38 x39 x40 x41 x42 x43 x44 x45
    x46 x47 x48 x49 x50 x51 x52 x53 x54 x55 x56 x57 x58 x59 x60 x61 x62 x63 x64 x65 x66 x67 x68
    x69 := j in
  mkJCHF x0 x1 x2 x3 x4 v x6 x7 x8 x9 x10 x11 x12 x13 x14 x15 x16 x17 x18 x19 x20 x21 x22 x23
    x24 x25 x26 x27 x28 x29 x30 x31 x32 x33 x34 x35 x36 x37 x38 x39 x40 x41 x42 x43 x44 x45 x46
    x47 x48 x49 x50 x51 x52 x53 x54 x55 x56 x57 x58 x59 x60 x61 x62 x63 x64 x65 x66 x67 x68 x69.

Definition set_InBytes (v : Z) (j : JCHF) : JCHF :=
  let 'mkJCHF x0 x1 x2 x3 _ x5 x6 x7 x8 x9 x10 x11 x12 x13 x14 x15 x16 x17 x18 x19 x20 x21 x22
    x23 x24 x25 x26 x27 x28 x29 x30 x31 x32 x33 x34 x35 x36 x37 x38 x39 x40 x41 x42 x43 x44 x45
    x46 x47 x48 x49 x50 x51 x52 x53 x54 x55 x56 x57 x58 x59 x60 x61 x62 x63 x64 x65 x66 x67 x68
    x69 := j in
  mkJCHF x0 x1 x2 x3 v x5 x6 x7 x8 x9 x10 x11 x12 x13 x14 x15 x16 x17 x18 x19 x20 x21 x22 x23
    x24 x25 x26 x27 x28 x29 x30 x31 x32 x33 x34 x35 x36 x37 x38 x39 x40 x41 x42 x43 x44 x45 x46
    x47 x48 x49 x50 x51 x52 x53 x54 x55 x56 x57 x58 x59 x60 x61 x62 x63 x64 x65 x66 x67 x68 x69.

Definition set_OutPkts (v : Z) (j : JCHF) : JCHF :=
  let 'mkJCHF x0 x1 x2 x3 x4 x5 x6 x7 x8 x9 x10 x11 x12 x13 x14 x15 x16 x17 x18 x19 x20 x21 x22
    x23 _ x25 x26 x27 x28 x29 x30 x31 x32 x33 x34 x35 x36 x37 x38 x39 x40 x41 x42 x43 x44 x45
    x46 x47 x48 x49 x50 x51 x52 x53 x54 x55 x56 x57 x58 x59 x60 x61 x62 x63 x64 x65 x66 x67 x68
    x69 := j in
  mkJCHF x0 x1 x2 x3 x4 x5 x6 x7 x8 x9 x10 x11 x12 x13 x14 x15 x16 x17 x18 x19 x20 x21 x22 x23 v
    x25 x26 x27 x28 x29 x30 x31 x32 x33 x34 x35 x36 x37 x38 x39 x40 x41 x42 x43 x44 x45 x46 x47
    x48 x49 x50 x51 x52 x53 x54 x55 x56 x57 x58 x59 x60 x61 x62 x63 x64 x65 x66 x67 x68 x69.

Definition set_OutBytes (v : Z) (j : JCHF) : JCHF :=
  let 'mkJCHF x0 x1 x2 x3 x4 x5 x6 x7 x8 x9 x10 x11 x12 x13 x14 x15 x16 x17 x18 x19 x20 x21 x22
    _ x24 x25 x26 x27 x28 x29 x30 x31 x32 x33 x34 x35 x36 x37 x38 x39 x40 x41 x42 x43 x44 x45
    x46 x47 x48 x49 x50 x51 x52 x53 x54 x55 x56 x57 x58 x59 x60 x61 x62 x63 x64 x65 x66 x67 x68
    x69 := j in
  mkJCHF x0 x1 x2 x3 x4 x5 x6 x7 x8 x9 x10 x11 x12 x13 x14 x15 x16 x17 x18 x19 x20 x21 x22 v x24
    x25 x26 x27 x28 x29 x30 x31 x32 x33 x34 x35 x36 x37 x38 x39 x40 x41 x42 x43 x44 x45 x46 x47
    x48 x49 x50 x51 x52 x53 x54 x55 x56 x57 x58 x59 x60 x61 x62 x63 x64 x65 x66 x67 x68 x69.

Definition set_SrcEthMac (v : string) (j : JCHF) : JCHF :=
  let 'mkJCHF x0 x1 x2 x3 x4 x5 x6 x7 x8 x9 x10 x11 x12 x13 x14 x15 x16 x17 x18 x19 x20 x21 x22
    x23 x24 x25 x26 x27 x28 x29 x30 x31 x32 x33 x34 x35 x36 x37 x38 x39 x40 x41 x42 x43 x44 x45
    x46 x47 x48 x49 _ x51 x52 x53 x54 x55 x56 x57 x58 x59 x60 x61 x62 x63 x64 x65 x66 x67 x68
    x69 := j in
  mkJCHF x0 x1 x2 x3 x4 x5 x6 x7 x8 x9 x10 x11 x12 x13 x14 x15 x16 x17 x18 x19 x20 x21 x22 x23
    x24 x25 x26 x27 x28 x29 x30 x31 x32 x33 x34 x35 x36 x37 x38 x39 x40 x41 x42 x43 x44 x45 x46
    x47 x48 x49 v x51 x52 x53 x54 x55 x56 x57 x58 x59 x60 x61 x62 x63 x64 x65 x66 x67 x68 x69.

Definition set_DstEthMac (v : string) (j : JCHF) : JCHF :=
  let 'mkJCHF x0 x1 x2 x3 x4 x5 x6 x7 x8 x9 x10 x11 x12 x13 x14 x15 x16 x17 x18 x19 x20 x21 x22
    x23 x24 x25 x26 x27 x28 x29 x30 x31 x32 x33 x34 x35 x36 x37 x38 x39 x40 x41 x42 x43 x44 x45
    x46 x47 x48 x49 x50 _ x52 x53 x54 x55 x56 x57 x58 x59 x60 x61 x62 x63 x64 x65 x66 x67 x68
    x69 := j in
  mkJCHF x0 x1 x2 x3 x4 x5 x6 x7 x8 x9 x10 x11 x12 x13 x14 x15 x16 x17 x18 x19 x20 x21 x22 x23
    x24 x25 x26 x27 x28 x29 x30 x31 x32 x33 x34 x35 x36 x37 x38 x39 x40 x41 x42 x43 x44 x45 x46
    x47 x48 x49 x50 v x52 x53 x54 x55 x56 x57 x58 x59 x60 x61 x62 x63 x64 x65 x66 x67 x68 x69.

Definition set_Timestamp (v : Z) (j : JCHF) : JCHF :=
  let 'mkJCHF _ x1 x2 x3 x4 x5 x6 x7 x8 x9 x10 x11 x12 x13 x14 x15 x16 x17 x18 x19 x20 x21 x22
    x23 x24 x25 x26 x27 x28 x29 x30 x31 x32 x33 x34 x35 x36 x37 x38 x39 x40 x41 x42 x43 x44 x45
    x46 x47 x48 x49 x50 x51 x52 x53 x54 x55 x56 x57 x58 x59 x60 x61 x62 x63 x64 x65 x66 x67 x68
    x69 := j in
  mkJCHF v x1 x2 x3 x4 x5 x6 x7 x8 x9 x10 x11 x12 x13 x14 x15 x16 x17 x18 x19 x20 x21 x22 x23
    x24 x25 x26 x27 x28 x29 x30 x31 x32 x33 x34 x35 x36 x37 x38 x39 x40 x41 x42 x43 x44 x45 x46
    x47 x48 x49 x50 x51 x52 x53 x54 x55 x56 x57 x58 x59 x60 x61 x62 x63 x64 x65 x66 x67 x68 x69.

Definition set_SampleRate (v : Z) (j : JCHF) : JCHF :=
  let 'mkJCHF x0 x1 x2 x3 x4 x5 x6 x7 x8 x9 x10 x11 x12 x13 x14 x15 x16 x17 x18 x19 x20 x21 x22
    x23 x24 x25 x26 x27 _ x29 x30 x31 x32 x33 x34 x35 x36 x37 x38 x39 x40 x41 x42 x43 x44 x45
    x46 x47 x48 x49 x50 x51 x52 x53 x54 x55 x56 x57 x58 x59 x60 x61 x62 x63 x64 x65 x66 x67 x68
    x69 := j in
  mkJCHF x0 x1 x2 x3 x4 x5 x6 x7 x8 x9 x10 x11 x12 x13 x14 x15 x16 x17 x18 x19 x20 x21 x22 x23
    x24 x25 x26 x27 v x29 x30 x31 x32 x33 x34 x35 x36 x37 x38 x39 x40 x41 x42 x43 x44 x45 x46
    x47 x48 x49 x50 x51 x52 x53 x54 x55 x56 x57 x58 x59 x60 x61 x62 x63 x64 x65 x66 x67 x68 x69.

Definition set_DstGeo (v : string) (j : JCHF) : JCHF :=
  let 'mkJCHF x0 x1 _ x3 x4 x5 x6 x7 x8 x9 x10 x11 x12 x13 x14 x15 x16 x17 x18 x19 x20 x21 x22
    x23 x24 x25 x26 x27 x28 x29 x30 x31 x32 x33 x34 x35 x36 x37 x38 x39 x40 x41 x42 x43 x44 x45
    x46 x47 x48 x49 x50 x51 x52 x53 x54 x55 x56 x57 x58 x59 x60 x61 x62 x63 x64 x65 x66 x67 x68
    x69 := j in
  mkJCHF x0 x1 v x3 x4 x5 x6 x7 x8 x9 x10 x11 x12 x13 x14 x15 x16 x17 x18 x19 x20 x21 x22 x23
    x24 x25 x26 x27 x28 x29 x30 x31 x32 x33 x34 x35 x36 x37 x38 x39 x40 x41 x42 x43 x44 x45 x46
    x47 x48 x49 x50 x51 x52 x53 x54 x55 x56 x57 x58 x59 x60 x61 x62 x63 x64 x65 x66 x67 x68 x69.

Definition set_SrcGeo (v : string) (j : JCHF) : JCHF :=
  let 'mkJCHF x0 x1 x2 x3 x4 x5 x6 x7 x8 x9 x10 x11 x12 x13 x14 x15 _ x17 x18 x19 x20 x21 x22
    x23 x24 x25 x26 x27 x28 x29 x30 x31 x32 x33 x34 x35 x36 x37 x38 x39 x40 x41 x42 x43 x44 x45
    x46 x47 x48 x49 x50 x51 x52 x53 x54 x55 x56 x57 x58 x59 x60 x61 x62 x63 x64 x65 x66 x67 x68
    x69 := j in
  mkJCHF x0 x1 x2 x3 x4 x5 x6 x7 x8 x9 x10 x11 x12 x13 x14 x15 v x17 x18 x19 x20 x21 x22 x23 x24
    x25 x26 x27 x28 x29 x30 x31 x32 x33 x34 x35 x36 x37 x38 x39 x40 x41 x42 x43 x44 x45 x46 x47
    x48 x49 x50 x51 x52 x53 x54 x55 x56 x57 x58 x59 x60 x61 x62 x63 x64 x65 x66 x67 x68 x69.

Definition set_DstGeoRegion (v : string) (j : JCHF) : JCHF :=
  let 'mkJCHF x0 x1 x2 x3 x4 x5 x6 x7 x8 x9 x10 x11 x12 x13 x14 x15 x16 x17 x18 x19 x20 x21 x22
    x23 x24 x25 x26 x27 x28 x29 x30 x31 x32 x33 x34 x35 x36 x37 x38 _ x40 x41 x42 x43 x44 x45
    x46 x47 x48 x49 x50 x51 x52 x53 x54 x55 x56 x57 x58 x59 x60 x61 x62 x63 x64 x65 x66 x67 x68
    x69 := j in
  mkJCHF x0 x1 x2 x3 x4 x5 x6 x7 x8 x9 x10 x11 x12 x13 x14 x15 x16 x17 x18 x19 x20 x21 x22 x23
    x24 x25 x26 x27 x28 x29 x30 x31 x32 x33 x34 x35 x36 x37 x38 v x40 x41 x42 x43 x44 x45 x46
    x47 x48 x49 x50 x51 x52 x53 x54 x55 x56 x57 x58 x59 x60 x61 x62 x63 x64 x65 x66 x67 x68 x69.

Definition set_SrcGeoRegion (v : string) (j : JCHF) : JCHF :=
  let 'mkJCHF x0 x1 x2 x3 x4 x5 x6 x7 x8 x9 x10 x11 x12 x13 x14 x15 x16 x17 x18 x19 x20 x21 x22
    x23 x24 x25 x26 x27 x28 x29 x30 x31 x32 x33 x34 x35 x36 x37 _ x39 x40 x41 x42 x43 x44 x45
    x46 x47 x48 x49 x50 x51 x52 x53 x54 x55 x56 x57 x58 x59 x60 x61 x62 x63 x64 x65 x66 x67 x68
    x69 := j in
  mkJCHF x0 x1 x2 x3 x4 x5 x6 x7 x8 x9 x10 x11 x12 x13 x14 x15 x16 x17 x18 x19 x20 x21 x22 x23
    x24 x25 x26 x27 x28 x29 x30 x31 x32 x33 x34 x35 x36 x37 v x39 x40 x41 x42 x43 x44 x45 x46
    x47 x48 x49 x50 x51 x52 x53 x54 x55 x56 x57 x58 x59 x60 x61 x62 x63 x64 x65 x66 x67 x68 x69.

Definition set_DstGeoCity (v : string) (j : JCHF) : JCHF :=
  let 'mkJCHF x0 x1 x2 x3 x4 x5 x6 x7 x8 x9 x10 x11 x12 x13 x14 x15 x16 x17 x18 x19 x20 x21 x22
    x23 x24 x25 x26 x27 x28 x29 x30 x31 x32 x33 x34 x35 x36 x37 x38 x39 x40 _ x42 x43 x44 x45
    x46 x47 x48 x49 x50 x51 x52 x53 x54 x55 x56 x57 x58 x59 x60 x61 x62 x63 x64 x65 x66 x67 x68
    x69 := j in
  mkJCHF x0 x1 x2 x3 x4 x5 x6 x7 x8 x9 x10 x11 x12 x13 x14 x15 x16 x17 x18 x19 x20 x21 x22 x23
    x24 x25 x26 x27 x28 x29 x30 x31 x32 x33 x34 x35 x36 x37 x38 x39 x40 v x42 x43 x44 x45 x46
    x47 x48 x49 x50 x51 x52 x53 x54 x55 x56 x57 x58 x59 x60 x61 x62 x63 x64 x65 x66 x67 x68 x69.

Definition set_SrcGeoCity (v : string) (j : JCHF) : JCHF :=
  let 'mkJCHF x0 x1 x2 x3 x4 x5 x6 x7 x8 x9 x10 x11 x12 x13 x14 x15 x16 x17 x18 x19 x20 x21 x22
    x23 x24 x25 x26 x27 x28 x29 x30 x31 x32 x33 x34 x35 x36 x37 x38 x39 _ x41 x42 x43 x44 x45
    x46 x47 x48 x49 x50 x51 x52 x53 x54 x55 x56 x57 x58 x59 x60 x61 x62 x63 x64 x65 x66 x67 x68
    x69 := j in
  mkJCHF x0 x1 x2 x3 x4 x5 x6 x7 x8 x9 x10 x11 x12 x13 x14 x15 x16 x17 x18 x19 x20 x21 x22 x23
    x24 x25 x26 x27 x28 x29 x30 x31 x32 x33 x34 x35 x36 x37 x38 x39 v x41 x42 x43 x44 x45 x46
    x47 x48 x49 x50 x51 x52 x53 x54 x55 x56 x57 x58 x59 x60 x61 x62 x63 x64 x65 x66 x67 x68 x69.

Definition set_HeaderLen (v : Z) (j : JCHF) : JCHF :=
  let 'mkJCHF x0 x1 x2 _ x4 x5 x6 x7 x8 x9 x10 x11 x12 x13 x14 x15 x16 x17 x18 x19 x20 x21 x22
    x23 x24 x25 x26 x27 x28 x29 x30 x31 x32 x33 x34 x35 x36 x37 x38 x39 x40 x41 x42 x43 x44 x45
    x46 x47 x48 x49 x50 x51 x52 x53 x54 x55 x56 x57 x58 x59 x60 x61 x62 x63 x64 x65 x66 x67 x68
    x69 := j in
  mkJCHF x0 x1 x2 v x4 x5 x6 x7 x8 x9 x10 x11 x12 x13 x14 x15 x16 x17 x18 x19 x20 x21 x22 x23
    x24 x25 x26 x27 x28 x29 x30 x31 x32 x33 x34 x35 x36 x37 x38 x39 x40 x41 x42 x43 x44 x45 x46
    x47 x48 x49 x50 x51 x52 x53 x54 x55 x56 x57 x58 x59 x60 x61 x62 x63 x64 x65 x66 x67 x68 x69.

Definition set_IpSize (v : Z) (j : JCHF) : JCHF :=
  let 'mkJCHF x0 x1 x2 x3 x4 x5 x6 _ x8 x9 x10 x11 x12 x13 x14 x15 x16 x17 x18 x19 x20 x21 x22
    x23 x24 x25 x26 x27 x28 x29 x30 x31 x32 x33 x34 x35 x36 x37 x38 x39 x40 x41 x42 x43 x44 x45
    x46 x47 x48 x49 x50 x51 x52 x53 x54 x55 x56 x57 x58 x59 x60 x61 x62 x63 x64 x65 x66 x67 x68
    x69 := j in
  mkJCHF x0 x1 x2 x3 x4 x5 x6 v x8 x9 x10 x11 x12 x13 x14 x15 x16 x17 x18 x19 x20 x21 x22 x23
    x24 x25 x26 x27 x28 x29 x30 x31 x32 x33 x34 x35 x36 x37 x38 x39 x40 x41 x42 x43 x44 x45 x46
    x47 x48 x49 x50 x51 x52 x53 x54 x55 x56 x57 x58 x59 x60 x61 x62 x63 x64 x65 x66 x67 x68 x69.

Definition set_SampledPacketSize (v : Z) (j : JCHF) : JCHF :=
  let 'mkJCHF x0 x1 x2 x3 x4 x5 x6 x7 x8 x9 x10 x11 x12 x13 _ x15 x16 x17 x18 x19 x20 x21 x22
    x23 x24 x25 x26 x27 x28 x29 x30 x31 x32 x33 x34 x35 x36 x37 x38 x39 x40 x41 x42 x43 x44 x45
    x46 x47 x48 x49 x50 x51 x52 x53 x54 x55 x56 x57 x58 x59 x60 x61 x62 x63 x64 x65 x66 x67 x68
    x69 := j in
  mkJCHF x0 x1 x2 x3 x4 x5 x6 x7 x8 x9 x10 x11 x12 x13 v x15 x16 x17 x18 x19 x20 x21 x22 x23 x24
    x25 x26 x27 x28 x29 x30 x31 x32 x33 x34 x35 x36 x37 x38 x39 x40 x41 x42 x43 x44 x45 x46 x47
    x48 x49 x50 x51 x52 x53 x54 x55 x56 x57 x58 x59 x60 x61 x62 x63 x64 x65 x66 x67 x68 x69.

Definition set_VlanIn (v : Z) (j : JCHF) : JCHF :=
  let 'mkJCHF x0 x1 x2 x3 x4 x5 x6 x7 x8 x9 x10 x11 x12 x13 x14 x15 x16 x17 x18 _ x20 x21 x22
    x23 x24 x25 x26 x27 x28 x29 x30 x31 x32 x33 x34 x35 x36 x37 x38 x39 x40 x41 x42 x43 x44 x45
    x46 x47 x48 x49 x50 x51 x52 x53 x54 x55 x56 x57 x58 x59 x60 x61 x62 x63 x64 x65 x66 x67 x68
    x69 := j in
  mkJCHF x0 x1 x2 x3 x4 x5 x6 x7 x8 x9 x10 x11 x12 x13 x14 x15 x16 x17 x18 v x20 x21 x22 x23 x24
    x25 x26 x27 x28 x29 x30 x31 x32 x33 x34 x35 x36 x37 x38 x39 x40 x41 x42 x43 x44 x45 x46 x47
    x48 x49 x50 x51 x52 x53 x54 x55 x56 x57 x58 x59 x60 x61 x62 x63 x64 x65 x66 x67 x68 x69.

Definition set_VlanOut (v : Z) (j : JCHF) : JCHF :=
  let 'mkJCHF x0 x1 x2 x3 x4 x5 x6 x7 x8 x9 x10 x11 x12 x13 x14 x15 x16 x17 x18 x19 _ x21 x22
    x23 x24 x25 x26 x27 x28 x29 x30 x31 x32 x33 x34 x35 x36 x37 x38 x39 x40 x41 x42 x43 x44 x45
    x46 x47 x48 x49 x50 x51 x52 x53 x54 x55 x56 x57 x58 x59 x60 x61 x62 x63 x64 x65 x66 x67 x68
    x69 := j in
  mkJCHF x0 x1 x2 x3 x4 x5 x6 x7 x8 x9 x10 x11 x12 x13 x14 x15 x16 x17 x18 x19 v x21 x22 x23 x24
    x25 x26 x27 x28 x29 x30 x31 x32 x33 x34 x35 x36 x37 x38 x39 x40 x41 x42 x43 x44 x45 x46 x47
    x48 x49 x50 x51 x52 x53 x54 x55 x56 x57 x58 x59 x60 x61 x62 x63 x64 x65 x66 x67 x68 x69.

Definition set_MplsType (v : Z) (j : JCHF) : JCHF :=
  let 'mkJCHF x0 x1 x2 x3 x4 x5 x6 x7 x8 x9 x10 x11 x12 x13 x14 x15 x16 x17 x18 x19 x20 x21 _
    x23 x24 x25 x26 x27 x28 x29 x30 x31 x32 x33 x34 x35 x36 x37 x38 x39 x40 x41 x42 x43 x44 x45
    x46 x47 x48 x49 x50 x51 x52 x53 x54 x55 x56 x57 x58 x59 x60 x61 x62 x63 x64 x65 x66 x67 x68
    x69 := j in
  mkJCHF x0 x1 x2 x3 x4 x5 x6 x7 x8 x9 x10 x11 x12 x13 x14 x15 x16 x17 x18 x19 x20 x21 v x23 x24
    x25 x26 x27 x28 x29 x30 x31 x32 x33 x34 x35 x36 x37 x38 x39 x40 x41 x42 x43 x44 x45 x46 x47
    x48 x49 x50 x51 x52 x53 x54 x55 x56 x57 x58 x59 x60 x61 x62 x63 x64 x65 x66 x67 x68 x69.

Definition set_TcpRetransmit (v : Z) (j : JCHF) : JCHF :=
  let 'mkJCHF x0 x1 x2 x3 x4 x5 x6 x7 x8 x9 x10 x11 x12 x13 x14 x15 x16 x17 x18 x19 x20 x21 x22
    x23 x24 _ x26 x27 x28 x29 x30 x31 x32 x33 x34 x35 x36 x37 x38 x39 x40 x41 x42 x43 x44 x45
    x46 x47 x48 x49 x50 x51 x52 x53 x54 x55 x56 x57 x58 x59 x60 x61 x62 x63 x64 x65 x66 x67 x68
    x69 := j in
  mkJCHF x0 x1 x2 x3 x4 x5 x6 x7 x8 x9 x10 x11 x12 x13 x14 x15 x16 x17 x18 x19 x20 x21 x22 x23
    x24 v x26 x27 x28 x29 x30 x31 x32 x33 x34 x35 x36 x37 x38 x39 x40 x41 x42 x43 x44 x45 x46
    x47 x48 x49 x50 x51 x52 x53 x54 x55 x56 x57 x58 x59 x60 x61 x62 x63 x64 x65 x66 x67 x68 x69.

Definition set_DeviceId (v : Z) (j : JCHF) : JCHF :=
  let 'mkJCHF x0 x1 x2 x3 x4 x5 x6 x7 x8 x9 x10 x11 x12 x13 x14 x15 x16 x17 x18 x19 x20 x21 x22
    x23 x24 x25 x26 x27 x28 _ x30 x31 x32 x33 x34 x35 x36 x37 x38 x39 x40 x41 x42 x43 x44 x45
    x46 x47 x48 x49 x50 x51 x52 x53 x54 x55 x56 x57 x58 x59 x60 x61 x62 x63 x64 x65 x66 x67 x68
    x69 := j in
  mkJCHF x0 x1 x2 x3 x4 x5 x6 x7 x8 x9 x10 x11 x12 x13 x14 x15 x16 x17 x18 x19 x20 x21 x22 x23
    x24 x25 x26 x27 x28 v x30 x31 x32 x33 x34 x35 x36 x37 x38 x39 x40 x41 x42 x43 x44 x45 x46
    x47 x48 x49 x50 x51 x52 x53 x54 x55 x56 x57 x58 x59 x60 x61 x62 x63 x64 x65 x66 x67 x68 x69.

Definition set_DeviceName (v : string) (j : JCHF) : JCHF :=
  let 'mkJCHF x0 x1 x2 x3 x4 x5 x6 x7 x8 x9 x10 x11 x12 x13 x14 x15 x16 x17 x18 x19 x20 x21 x22
    x23 x24 x25 x26 x27 x28 x29 _ x31 x32 x33 x34 x35 x36 x37 x38 x39 x40 x41 x42 x43 x44 x45
    x46 x47 x48 x49 x50 x51 x52 x53 x54 x55 x56 x57 x58 x59 x60 x61 x62 x63 x64 x65 x66 x67 x68
    x69 := j in
  mkJCHF x0 x1 x2 x3 x4 x5 x6 x7 x8 x9 x10 x11 x12 x13 x14 x15 x16 x17 x18 x19 x20 x21 x22 x23
    x24 x25 x26 x27 x28 x29 v x31 x32 x33 x34 x35 x36 x37 x38 x39 x40 x41 x42 x43 x44 x45 x46
    x47 x48 x49 x50 x51 x52 x53 x54 x55 x56 x57 x58 x59 x60 x61 x62 x63 x64 x65 x66 x67 x68 x69.

Definition set_CompanyId (v : Z) (j : JCHF) : JCHF :=
  let 'mkJCHF x0 x1 x2 x3 x4 x5 x6 x7 x8 x9 x10 x11 x12 x13 x14 x15 x16 x17 x18 x19 x20 x21 x22
    x23 x24 x25 x26 x27 x28 x29 x30 _ x32 x33 x34 x35 x36 x37 x38 x39 x40 x41 x42 x43 x44 x45
    x46 x47 x48 x49 x50 x51 x52 x53 x54 x55 x56 x57 x58 x59 x60 x61 x62 x63 x64 x65 x66 x67 x68
    x69 := j in
  mkJCHF x0 x1 x2 x3 x4 x5 x6 x7 x8 x9 x10 x11 x12 x13 x14 x15 x16 x17 x18 x19 x20 x21 x22 x23
    x24 x25 x26 x27 x28 x29 x30 v x32 x33 x34 x35 x36 x37 x38 x39 x40 x41 x42 x43 x44 x45 x46
    x47 x48 x49 x50 x51 x52 x53 x54 x55 x56 x57 x58 x59 x60 x61 x62 x63 x64 x65 x66 x67 x68 x69.

Definition set_SrcNextHopAs (v : Z) (j : JCHF) : JCHF :=
  let 'mkJCHF x0 x1 x2 x3 x4 x5 x6 x7 x8 x9 x10 x11 x12 x13 x14 x15 x16 x17 x18 x19 x20 x21 x22
    x23 x24 x25 x26 x27 x28 x29 x30 x31 x32 x33 x34 x35 _ x37 x38 x39 x40 x41 x42 x43 x44 x45
    x46 x47 x48 x49 x50 x51 x52 x53 x54 x55 x56 x57 x58 x59 x60 x61 x62 x63 x64 x65 x66 x67 x68
    x69 := j in
  mkJCHF x0 x1 x2 x3 x4 x5 x6 x7 x8 x9 x10 x11 x12 x13 x14 x15 x16 x17 x18 x19 x20 x21 x22 x23
    x24 x25 x26 x27 x28 x29 x30 x31 x32 x33 x34 x35 v x37 x38 x39 x40 x41 x42 x43 x44 x45 x46
    x47 x48 x49 x50 x51 x52 x53 x54 x55 x56 x57 x58 x59 x60 x61 x62 x63 x64 x65 x66 x67 x68 x69.

Definition set_DstNextHopAs (v : Z) (j : JCHF) : JCHF :=
  let 'mkJCHF x0 x1 x2 x3 x4 x5 x6 x7 x8 x9 x10 x11 x12 x13 x14 x15 x16 x17 x18 x19 x20 x21 x22
    x23 x24 x25 x26 x27 x28 x29 x30 x31 x32 x33 x34 x35 x36 _ x38 x39 x40 x41 x42 x43 x44 x45
    x46 x47 x48 x49 x50 x51 x52 x53 x54 x55 x56 x57 x58 x59 x60 x61 x62 x63 x64 x65 x66 x67 x68
    x69 := j in
  mkJCHF x0 x1 x2 x3 x4 x5 x6 x7 x8 x9 x10 x11 x12 x13 x14 x15 x16 x17 x18 x19 x20 x21 x22 x23
    x24 x25 x26 x27 x28 x29 x30 x31 x32 x33 x34 x35 x36 v x38 x39 x40 x41 x42 x43 x44 x45 x46
    x47 x48 x49 x50 x51 x52 x53 x54 x55 x56 x57 x58 x59 x60 x61 x62 x63 x64 x65 x66 x67 x68 x69.

Definition set_SrcSecondAsn (v : Z) (j : JCHF) : JCHF :=
  let 'mkJCHF x0 x1 x2 x3 x4 x5 x6 x7 x8 x9 x10 x11 x12 x13 x14 x15 x16 x17 x18 x19 x20 x21 x22
    x23 x24 x25 x26 x27 x28 x29 x30 x31 x32 x33 x34 x35 x36 x37 x38 x39 x40 x41 x42 x43 x44 x45
    _ x47 x48 x49 x50 x51 x52 x53 x54 x55 x56 x57 x58 x59 x60 x61 x62 x63 x64 x65 x66 x67 x68
    x69 := j in
  mkJCHF x0 x1 x2 x3 x4 x5 x6 x7 x8 x9 x10 x11 x12 x13 x14 x15 x16 x17 x18 x19 x20 x21 x22 x23
    x24 x25 x26 x27 x28 x29 x30 x31 x32 x33 x34 x35 x36 x37 x38 x39 x40 x41 x42 x43 x44 x45 v
    x47 x48 x49 x50 x51 x52 x53 x54 x55 x56 x57 x58 x59 x60 x61 x62 x63 x64 x65 x66 x67 x68 x69.

Definition set_DstSecondAsn (v : Z) (j : JCHF) : JCHF :=
  let 'mkJCHF x0 x1 x2 x3 x4 x5 x6 x7 x8 x9 x10 x11 x12 x13 x14 x15 x16 x17 x18 x19 x20 x21 x22
    x23 x24 x25 x26 x27 x28 x29 x30 x31 x32 x33 x34 x35 x36 x37 x38 x39 x40 x41 x42 x43 x44 x45
    x46 _ x48 x49 x50 x51 x52 x53 x54 x55 x56 x57 x58 x59 x60 x61 x62 x63 x64 x65 x66 x67 x68
    x69 := j in
  mkJCHF x0 x1 x2 x3 x4 x5 x6 x7 x8 x9 x10 x11 x12 x13 x14 x15 x16 x17 x18 x19 x20 x21 x22 x23
    x24 x25 x26 x27 x28 x29 x30 x31 x32 x33 x34 x35 x36 x37 x38 x39 x40 x41 x42 x43 x44 x45 x46
    v x48 x49 x50 x51 x52 x53 x54 x55 x56 x57 x58 x59 x60 x61 x62 x63 x64 x65 x66 x67 x68 x69.

Definition set_SrcThirdAsn (v : Z) (j : JCHF) : JCHF :=
  let 'mkJCHF x0 x1 x2 x3 x4 x5 x6 x7 x8 x9 x10 x11 x12 x13 x14 x15 x16 x17 x18 x19 x20 x21 x22
    x23 x24 x25 x26 x27 x28 x29 x30 x31 x32 x33 x34 x35 x36 x37 x38 x39 x40 x41 x42 x43 x44 x45
    x46 x47 _ x49 x50 x51 x52 x53 x54 x55 x56 x57 x58 x59 x60 x61 x62 x63 x64 x65 x66 x67 x68
    x69 := j in
  mkJCHF x0 x1 x2 x3 x4 x5 x6 x7 x8 x9 x10 x11 x12 x13 x14 x15 x16 x17 x18 x19 x20 x21 x22 x23
    x24 x25 x26 x27 x28 x29 x30 x31 x32 x33 x34 x35 x36 x37 x38 x39 x40 x41 x42 x43 x44 x45 x46
    x47 v x49 x50 x51 x52 x53 x54 x55 x56 x57 x58 x59 x60 x61 x62 x63 x64 x65 x66 x67 x68 x69.

Definition set_DstThirdAsn (v : Z) (j : JCHF) : JCHF :=
  let 'mkJCHF x0 x1 x2 x3 x4 x5 x6 x7 x8 x9 x10 x11 x12 x13 x14 x15 x16 x17 x18 x19 x20 x21 x22
    x23 x24 x25 x26 x27 x28 x29 x30 x31 x32 x33 x34 x35 x36 x37 x38 x39 x40 x41 x42 x43 x44 x45
    x46 x47 x48 _ x50 x51 x52 x53 x54 x55 x56 x57 x58 x59 x60 x61 x62 x63 x64 x65 x66 x67 x68
    x69 := j in
  mkJCHF x0 x1 x2 x3 x4 x5 x6 x7 x8 x9 x10 x11 x12 x13 x14 x15 x16 x17 x18 x19 x20 x21 x22 x23
    x24 x25 x26 x27 x28 x29 x30 x31 x32 x33 x34 x35 x36 x37 x38 x39 x40 x41 x42 x43 x44 x45 x46
    x47 x48 v x50 x51 x52 x53 x54 x55 x56 x57 x58 x59 x60 x61 x62 x63 x64 x65 x66 x67 x68 x69.

Definition set_InputIntDesc (v : string) (j : JCHF) : JCHF :=
  let 'mkJCHF x0 x1 x2 x3 x4 x5 x6 x7 x8 x9 x10 x11 x12 x13 x14 x15 x16 x17 x18 x19 x20 x21 x22
    x23 x24 x25 x26 x27 x28 x29 x30 x31 x32 x33 x34 x35 x36 x37 x38 x39 x40 x41 x42 x43 x44 x45
    x46 x47 x48 x49 x50 x51 _ x53 x54 x55 x56 x57 x58 x59 x60 x61 x62 x63 x64 x65 x66 x67 x68
    x69 := j in
  mkJCHF x0 x1 x2 x3 x4 x5 x6 x7 x8 x9 x10 x11 x12 x13 x14 x15 x16 x17 x18 x19 x20 x21 x22 x23
    x24 x25 x26 x27 x28 x29 x30 x31 x32 x33 x34 x35 x36 x37 x38 x39 x40 x41 x42 x43 x44 x45 x46
    x47 x48 x49 x50 x51 v x53 x54 x55 x56 x57 x58 x59 x60 x61 x62 x63 x64 x65 x66 x67 x68 x69.

Definition set_OutputIntDesc (v : string) (j : JCHF) : JCHF :=
  let 'mkJCHF x0 x1 x2 x3 x4 x5 x6 x7 x8 x9 x10 x11 x12 x13 x14 x15 x16 x17 x18 x19 x20 x21 x22
    x23 x24 x25 x26 x27 x28 x29 x30 x31 x32 x33 x34 x35 x36 x37 x38 x39 x40 x41 x42 x43 x44 x45
    x46 x47 x48 x49 x50 x51 x52 _ x54 x55 x56 x57 x58 x59 x60 x61 x62 x63 x64 x65 x66 x67 x68
    x69 := j in
  mkJCHF x0 x1 x2 x3 x4 x5 x6 x7 x8 x9 x10 x11 x12 x13 x14 x15 x16 x17 x18 x19 x20 x21 x22 x23
    x24 x25 x26 x27 x28 x29 x30 x31 x32 x33 x34 x35 x36 x37 x38 x39 x40 x41 x42 x43 x44 x45 x46
    x47 x48 x49 x50 x51 x52 v x54 x55 x56 x57 x58 x59 x60 x61 x62 x63 x64 x65 x66 x67 x68 x69.

Definition set_InputIntAlias (v : string) (j : JCHF) : JCHF :=
  let 'mkJCHF x0 x1 x2 x3 x4 x5 x6 x7 x8 x9 x10 x11 x12 x13 x14 x15 x16 x17 x18 x19 x20 x21 x22
    x23 x24 x25 x26 x27 x28 x29 x30 x31 x32 x33 x34 x35 x36 x37 x38 x39 x40 x41 x42 x43 x44 x45
    x46 x47 x48 x49 x50 x51 x52 x53 _ x55 x56 x57 x58 x59 x60 x61 x62 x63 x64 x65 x66 x67 x68
    x69 := j in
  mkJCHF x0 x1 x2 x3 x4 x5 x6 x7 x8 x9 x10 x11 x12 x13 x14 x15 x16 x17 x18 x19 x20 x21 x22 x23
    x24 x25 x26 x27 x28 x29 x30 x31 x32 x33 x34 x35 x36 x37 x38 x39 x40 x41 x42 x43 x44 x45 x46
    x47 x48 x49 x50 x51 x52 x53 v x55 x56 x57 x58 x59 x60 x61 x62 x63 x64 x65 x66 x67 x68 x69.

Definition set_OutputIntAlias (v : string) (j : JCHF) : JCHF :=
  let 'mkJCHF x0 x1 x2 x3 x4 x5 x6 x7 x8 x9 x10 x11 x12 x13 x14 x15 x16 x17 x18 x19 x20 x21 x22
    x23 x24 x25 x26 x27 x28 x29 x30 x31 x32 x33 x34 x35 x36 x37 x38 x39 x40 x41 x42 x43 x44 x45
    x46 x47 x48 x49 x50 x51 x52 x53 x54 _ x56 x57 x58 x59 x60 x61 x62 x63 x64 x65 x66 x67 x68
    x69 := j in
  mkJCHF x0 x1 x2 x3 x4 x5 x6 x7 x8 x9 x10 x11 x12 x13 x14 x15 x16 x17 x18 x19 x20 x21 x22 x23
    x24 x25 x26 x27 x28 x29 x30 x31 x32 x33 x34 x35 x36 x37 x38 x39 x40 x41 x42 x43 x44 x45 x46
    x47 x48 x49 x50 x51 x52 x53 x54 v x56 x57 x58 x59 x60 x61 x62 x63 x64 x65 x66 x67 x68 x69.

Definition set_InputInterfaceCapacity (v : Z) (j : JCHF) : JCHF :=
  let 'mkJCHF x0 x1 x2 x3 x4 x5 x6 x7 x8 x9 x10 x11 x12 x13 x14 x15 x16 x17 x18 x19 x20 x21 x22
    x23 x24 x25 x26 x27 x28 x29 x30 x31 x32 x33 x34 x35 x36 x37 x38 x39 x40 x41 x42 x43 x44 x45
    x46 x47 x48 x49 x50 x51 x52 x53 x54 x55 _ x57 x58 x59 x60 x61 x62 x63 x64 x65 x66 x67 x68
    x69 := j in
  mkJCHF x0 x1 x2 x3 x4 x5 x6 x7 x8 x9 x10 x11 x12 x13 x14 x15 x16 x17 x18 x19 x20 x21 x22 x23
    x24 x25 x26 x27 x28 x29 x30 x31 x32 x33 x34 x35 x36 x37 x38 x39 x40 x41 x42 x43 x44 x45 x46
    x47 x48 x49 x50 x51 x52 x53 x54 x55 v x57 x58 x59 x60 x61 x62 x63 x64 x65 x66 x67 x68 x69.

Definition set_OutputInterfaceCapacity (v : Z) (j : JCHF) : JCHF :=
  let 'mkJCHF x0 x1 x2 x3 x4 x5 x6 x7 x8 x9 x10 x11 x12 x13 x14 x15 x16 x17 x18 x19 x20 x21 x22
    x23 x24 x25 x26 x27 x28 x29 x30 x31 x32 x33 x34 x35 x36 x37 x38 x39 x40 x41 x42 x43 x44 x45
    x46 x47 x48 x49 x50 x51 x52 x53 x54 x55 x56 _ x58 x59 x60 x61 x62 x63 x64 x65 x66 x67 x68
    x69 := j in
  mkJCHF x0 x1 x2 x3 x4 x5 x6 x7 x8 x9 x10 x11 x12 x13 x14 x15 x16 x17 x18 x19 x20 x21 x22 x23
    x24 x25 x26 x27 x28 x29 x30 x31 x32 x33 x34 x35 x36 x37 x38 x39 x40 x41 x42 x43 x44 x45 x46
    x47 x48 x49 x50 x51 x52 x53 x54 x55 x56 v x58 x59 x60 x61 x62 x63 x64 x65 x66 x67 x68 x69.

Definition set_InputInterfaceIP (v : string) (j : JCHF) : JCHF :=
  let 'mkJCHF x0 x1 x2 x3 x4 x5 x6 x7 x8 x9 x10 x11 x12 x13 x14 x15 x16 x17 x18 x19 x20 x21 x22
    x23 x24 x25 x26 x27 x28 x29 x30 x31 x32 x33 x34 x35 x36 x37 x38 x39 x40 x41 x42 x43 x44 x45
    x46 x47 x48 x49 x50 x51 x52 x53 x54 x55 x56 x57 _ x59 x60 x61 x62 x63 x64 x65 x66 x67 x68
    x69 := j in
  mkJCHF x0 x1 x2 x3 x4 x5 x6 x7 x8 x9 x10 x11 x12 x13 x14 x15 x16 x17 x18 x19 x20 x21 x22 x23
    x24 x25 x26 x27 x28 x29 x30 x31 x32 x33 x34 x35 x36 x37 x38 x39 x40 x41 x42 x43 x44 x45 x46
    x47 x48 x49 x50 x51 x52 x53 x54 x55 x56 x57 v x59 x60 x61 x62 x63 x64 x65 x66 x67 x68 x69.

Definition set_OutputInterfaceIP (v : string) (j : JCHF) : JCHF :=
  let 'mkJCHF x0 x1 x2 x3 x4 x5 x6 x7 x8 x9 x10 x11 x12 x13 x14 x15 x16 x17 x18 x19 x20 x21 x22
    x23 x24 x25 x26 x27 x28 x29 x30 x31 x32 x33 x34 x35 x36 x37 x38 x39 x40 x41 x42 x43 x44 x45
    x46 x47 x48 x49 x50 x51 x52 x53 x54 x55 x56 x57 x58 _ x60 x61 x62 x63 x64 x65 x66 x67 x68
    x69 := j in
  mkJCHF x0 x1 x2 x3 x4 x5 x6 x7 x8 x9 x10 x11 x12 x13 x14 x15 x16 x17 x18 x19 x20 x21 x22 x23
    x24 x25 x26 x27 x28 x29 x30 x31 x32 x33 x34 x35 x36 x37 x38 x39 x40 x41 x42 x43 x44 x45 x46
    x47 x48 x49 x50 x51 x52 x53 x54 x55 x56 x57 x58 v x60 x61 x62 x63 x64 x65 x66 x67 x68 x69.

Definition set_SrcFlowTags (v : string) (j : JCHF) : JCHF :=
  let 'mkJCHF x0 x1 x2 x3 x4 x5 x6 x7 x8 x9 x10 x11 x12 x13 x14 x15 x16 x17 x18 x19 x20 x21 x22
    x23 x24 x25 _ x27 x28 x29 x30 x31 x32 x33 x34 x35 x36 x37 x38 x39 x40 x41 x42 x43 x44 x45
    x46 x47 x48 x49 x50 x51 x52 x53 x54 x55 x56 x57 x58 x59 x60 x61 x62 x63 x64 x65 x66 x67 x68
    x69 := j in
  mkJCHF x0 x1 x2 x3 x4 x5 x6 x7 x8 x9 x10 x11 x12 x13 x14 x15 x16 x17 x18 x19 x20 x21 x22 x23
    x24 x25 v x27 x28 x29 x30 x31 x32 x33 x34 x35 x36 x37 x38 x39 x40 x41 x42 x43 x44 x45 x46
    x47 x48 x49 x50 x51 x52 x53 x54 x55 x56 x57 x58 x59 x60 x61 x62 x63 x64 x65 x66 x67 x68 x69.

Definition set_DstFlowTags (v : string) (j : JCHF) : JCHF :=
  let 'mkJCHF x0 x1 x2 x3 x4 x5 x6 x7 x8 x9 x10 x11 x12 x13 x14 x15 x16 x17 x18 x19 x20 x21 x22
    x23 x24 x25 x26 _ x28 x29 x30 x31 x32 x33 x34 x35 x36 x37 x38 x39 x40 x41 x42 x43 x44 x45
    x46 x47 x48 x49 x50 x51 x52 x53 x54 x55 x56 x57 x58 x59 x60 x61 x62 x63 x64 x65 x66 x67 x68
    x69 := j in
  mkJCHF x0 x1 x2 x3 x4 x5 x6 x7 x8 x9 x10 x11 x12 x13 x14 x15 x16 x17 x18 x19 x20 x21 x22 x23
    x24 x25 x26 v x28 x29 x30 x31 x32 x33 x34 x35 x36 x37 x38 x39 x40 x41 x42 x43 x44 x45 x46
    x47 x48 x49 x50 x51 x52 x53 x54 x55 x56 x57 x58 x59 x60 x61 x62 x63 x64 x65 x66 x67 x68 x69.

Definition set_SrcBgpAsPath (v : string) (j : JCHF) : JCHF :=
  let 'mkJCHF x0 x1 x2 x3 x4 x5 x6 x7 x8 x9 x10 x11 x12 x13 x14 x15 x16 x17 x18 x19 x20 x21 x22
    x23 x24 x25 x26 x27 x28 x29 x30 x31 x32 x33 _ x35 x36 x37 x38 x39 x40 x41 x42 x43 x44 x45
    x46 x47 x48 x49 x50 x51 x52 x53 x54 x55 x56 x57 x58 x59 x60 x61 x62 x63 x64 x65 x66 x67 x68
    x69 := j in
  mkJCHF x0 x1 x2 x3 x4 x5 x6 x7 x8 x9 x10 x11 x12 x13 x14 x15 x16 x17 x18 x19 x20 x21 x22 x23
    x24 x25 x26 x27 x28 x29 x30 x31 x32 x33 v x35 x36 x37 x38 x39 x40 x41 x42 x43 x44 x45 x46
    x47 x48 x49 x50 x51 x52 x53 x54 x55 x56 x57 x58 x59 x60 x61 x62 x63 x64 x65 x66 x67 x68 x69.

Definition set_DstBgpAsPath (v : string) (j : JCHF) : JCHF :=
  let 'mkJCHF x0 x1 x2 x3 x4 x5 x6 x7 x8 x9 x10 x11 x12 x13 x14 x15 x16 x17 x18 x19 x20 x21 x22
    x23 x24 x25 x26 x27 x28 x29 x30 x31 _ x33 x34 x35 x36 x37 x38 x39 x40 x41 x42 x43 x44 x45
    x46 x47 x48 x49 x50 x51 x52 x53 x54 x55 x56 x57 x58 x59 x60 x61 x62 x63 x64 x65 x66 x67 x68
    x69 := j in
  mkJCHF x0 x1 x2 x3 x4 x5 x6 x7 x8 x9 x10 x11 x12 x13 x14 x15 x16 x17 x18 x19 x20 x21 x22 x23
    x24 x25 x26 x27 x28 x29 x30 x31 v x33 x34 x35 x36 x37 x38 x39 x40 x41 x42 x43 x44 x45 x46
    x47 x48 x49 x50 x51 x52 x53 x54 x55 x56 x57 x58 x59 x60 x61 x62 x63 x64 x65 x66 x67 x68 x69.

Definition set_SrcBgpCommunity (v : string) (j : JCHF) : JCHF :=
  let 'mkJCHF x0 x1 x2 x3 x4 x5 x6 x7 x8 x9 x10 x11 x12 x13 x14 x15 x16 x17 x18 x19 x20 x21 x22
    x23 x24 x25 x26 x27 x28 x29 x30 x31 x32 x33 x34 _ x36 x37 x38 x39 x40 x41 x42 x43 x44 x45
    x46 x47 x48 x49 x50 x51 x52 x53 x54 x55 x56 x57 x58 x59 x60 x61 x62 x63 x64 x65 x66 x67 x68
    x69 := j in
  mkJCHF x0 x1 x2 x3 x4 x5 x6 x7 x8 x9 x10 x11 x12 x13 x14 x15 x16 x17 x18 x19 x20 x21 x22 x23
    x24 x25 x26 x27 x28 x29 x30 x31 x32 x33 x34 v x36 x37 x38 x39 x40 x41 x42 x43 x44 x45 x46
    x47 x48 x49 x50 x51 x52 x53 x54 x55 x56 x57 x58 x59 x60 x61 x62 x63 x64 x65 x66 x67 x68 x69.

Definition set_DstBgpCommunity (v : string) (j : JCHF) : JCHF :=
  let 'mkJCHF x0 x1 x2 x3 x4 x5 x6 x7 x8 x9 x10 x11 x12 x13 x14 x15 x16 x17 x18 x19 x20 x21 x22
    x23 x24 x25 x26 x27 x28 x29 x30 x31 x32 _ x34 x35 x36 x37 x38 x39 x40 x41 x42 x43 x44 x45
    x46 x47 x48 x49 x50 x51 x52 x53 x54 x55 x56 x57 x58 x59 x60 x61 x62 x63 x64 x65 x66 x67 x68
    x69 := j in
  mkJCHF x0 x1 x2 x3 x4 x5 x6 x7 x8 x9 x10 x11 x12 x13 x14 x15 x16 x17 x18 x19 x20 x21 x22 x23
    x24 x25 x26 x27 x28 x29 x30 x31 x32 v x34 x35 x36 x37 x38 x39 x40 x41 x42 x43 x44 x45 x46
    x47 x48 x49 x50 x51 x52 x53 x54 x55 x56 x57 x58 x59 x60 x61 x62 x63 x64 x65 x66 x67 x68 x69.

Definition set_SrcRoutePrefix (v : string) (j : JCHF) : JCHF :=
  let 'mkJCHF x0 x1 x2 x3 x4 x5 x6 x7 x8 x9 x10 x11 x12 x13 x14 x15 x16 x17 x18 x19 x20 x21 x22
    x23 x24 x25 x26 x27 x28 x29 x30 x31 x32 x33 x34 x35 x36 x37 x38 x39 x40 x41 x42 x43 _ x45
    x46 x47 x48 x49 x50 x51 x52 x53 x54 x55 x56 x57 x58 x59 x60 x61 x62 x63 x64 x65 x66 x67 x68
    x69 := j in
  mkJCHF x0 x1 x2 x3 x4 x5 x6 x7 x8 x9 x10 x11 x12 x13 x14 x15 x16 x17 x18 x19 x20 x21 x22 x23
    x24 x25 x26 x27 x28 x29 x30 x31 x32 x33 x34 x35 x36 x37 x38 x39 x40 x41 x42 x43 v x45 x46
    x47 x48 x49 x50 x51 x52 x53 x54 x55 x56 x57 x58 x59 x60 x61 x62 x63 x64 x65 x66 x67 x68 x69.

Definition set_DstRoutePrefix (v : string) (j : JCHF) : JCHF :=
  let 'mkJCHF x0 x1 x2 x3 x4 x5 x6 x7 x8 x9 x10 x11 x12 x13 x14 x15 x16 x17 x18 x19 x20 x21 x22
    x23 x24 x25 x26 x27 x28 x29 x30 x31 x32 x33 x34 x35 x36 x37 x38 x39 x40 x41 x42 x43 x44 _
    x46 x47 x48 x49 x50 x51 x52 x53 x54 x55 x56 x57 x58 x59 x60 x61 x62 x63 x64 x65 x66 x67 x68
    x69 := j in
  mkJCHF x0 x1 x2 x3 x4 x5 x6 x7 x8 x9 x10 x11 x12 x13 x14 x15 x16 x17 x18 x19 x20 x21 x22 x23
    x24 x25 x26 x27 x28 x29 x30 x31 x32 x33 x34 x35 x36 x37 x38 x39 x40 x41 x42 x43 x44 v x46
    x47 x48 x49 x50 x51 x52 x53 x54 x55 x56 x57 x58 x59 x60 x61 x62 x63 x64 x65 x66 x67 x68 x69.

Definition set_SrcNextHop (v : string) (j : JCHF) : JCHF :=
  let 'mkJCHF x0 x1 x2 x3 x4 x5 x6 x7 x8 x9 x10 x11 x12 x13 x14 x15 x16 x17 x18 x19 x20 x21 x22
    x23 x24 x25 x26 x27 x28 x29 x30 x31 x32 x33 x34 x35 x36 x37 x38 x39 x40 x41 x42 _ x44 x45
    x46 x47 x48 x49 x50 x51 x52 x53 x54 x55 x56 x57 x58 x59 x60 x61 x62 x63 x64 x65 x66 x67 x68
    x69 := j in
  mkJCHF x0 x1 x2 x3 x4 x5 x6 x7 x8 x9 x10 x11 x12 x13 x14 x15 x16 x17 x18 x19 x20 x21 x22 x23
    x24 x25 x26 x27 x28 x29 x30 x31 x32 x33 x34 x35 x36 x37 x38 x39 x40 x41 x42 v x44 x45 x46
    x47 x48 x49 x50 x51 x52 x53 x54 x55 x56 x57 x58 x59 x60 x61 x62 x63 x64 x65 x66 x67 x68 x69.

Definition set_DstNextHop (v : string) (j : JCHF) : JCHF :=
  let 'mkJCHF x0 x1 x2 x3 x4 x5 x6 x7 x8 x9 x10 x11 x12 x13 x14 x15 x16 x17 x18 x19 x20 x21 x22
    x23 x24 x25 x26 x27 x28 x29 x30 x31 x32 x33 x34 x35 x36 x37 x38 x39 x40 x41 _ x43 x44 x45
    x46 x47 x48 x49 x50 x51 x52 x53 x54 x55 x56 x57 x58 x59 x60 x61 x62 x63 x64 x65 x66 x67 x68
    x69 := j in
  mkJCHF x0 x1 x2 x3 x4 x5 x6 x7 x8 x9 x10 x11 x12 x13 x14 x15 x16 x17 x18 x19 x20 x21 x22 x23
    x24 x25 x26 x27 x28 x29 x30 x31 x32 x33 x34 x35 x36 x37 x38 x39 x40 x41 v x43 x44 x45 x46
    x47 x48 x49 x50 x51 x52 x53 x54 x55 x56 x57 x58 x59 x60 x61 x62 x63 x64 x65 x66 x67 x68 x69.

Definition set_EventType (v : string) (j : JCHF) : JCHF :=
  let 'mkJCHF x0 x1 x2 x3 x4 x5 x6 x7 x8 x9 x10 x11 x12 x13 x14 x15 x16 x17 x18 x19 x20 x21 x22
    x23 x24 x25 x26 x27 x28 x29 x30 x31 x32 x33 x34 x35 x36 x37 x38 x39 x40 x41 x42 x43 x44 x45
    x46 x47 x48 x49 x50 x51 x52 x53 x54 x55 x56 x57 x58 x59 x60 x61 x62 x63 _ x65 x66 x67 x68
    x69 := j in
  mkJCHF x0 x1 x2 x3 x4 x5 x6 x7 x8 x9 x10 x11 x12 x13 x14 x15 x16 x17 x18 x19 x20 x21 x22 x23
    x24 x25 x26 x27 x28 x29 x30 x31 x32 x33 x34 x35 x36 x37 x38 x39 x40 x41 x42 x43 x44 x45 x46
    x47 x48 x49 x50 x51 x52 x53 x54 x55 x56 x57 x58 x59 x60 x61 x62 x63 v x65 x66 x67 x68 x69.

Definition set_Provider (v : string) (j : JCHF) : JCHF :=
  let 'mkJCHF x0 x1 x2 x3 x4 x5 x6 x7 x8 x9 x10 x11 x12 x13 x14 x15 x16 x17 x18 x19 x20 x21 x22
    x23 x24 x25 x26 x27 x28 x29 x30 x31 x32 x33 x34 x35 x36 x37 x38 x39 x40 x41 x42 x43 x44 x45
    x46 x47 x48 x49 x50 x51 x52 x53 x54 x55 x56 x57 x58 x59 x60 x61 x62 x63 x64 _ x66 x67 x68
    x69 := j in
  mkJCHF x0 x1 x2 x3 x4 x5 x6 x7 x8 x9 x10 x11 x12 x13 x14 x15 x16 x17 x18 x19 x20 x21 x22 x23
    x24 x25 x26 x27 x28 x29 x30 x31 x32 x33 x34 x35 x36 x37 x38 x39 x40 x41 x42 x43 x44 x45 x46
    x47 x48 x49 x50 x51 x52 x53 x54 x55 x56 x57 x58 x59 x60 x61 x62 x63 x64 v x66 x67 x68 x69.

Definition set_ApplySample (v : bool) (j : JCHF) : JCHF :=
  let 'mkJCHF x0 x1 x2 x3 x4 x5 x6 x7 x8 x9 x10 x11 x12 x13 x14 x15 x16 x17 x18 x19 x20 x21 x22
    x23 x24 x25 x26 x27 x28 x29 x30 x31 x32 x33 x34 x35 x36 x37 x38 x39 x40 x41 x42 x43 x44 x45
    x46 x47 x48 x49 x50 x51 x52 x53 x54 x55 x56 x57 x58 x59 x60 x61 x62 x63 x64 x65 x66 x67 x68
    _ := j in
  mkJCHF x0 x1 x2 x3 x4 x5 x6 x7 x8 x9 x10 x11 x12 x13 x14 x15 x16 x17 x18 x19 x20 x21 x22 x23
    x24 x25 x26 x27 x28 x29 x30 x31 x32 x33 x34 x35 x36 x37 x38 x39 x40 x41 x42 x43 x44 x45 x46
    x47 x48 x49 x50 x51 x52 x53 x54 x55 x56 x57 x58 x59 x60 x61 x62 x63 x64 x65 x66 x67 x68 v.

Definition set_NextHop (v : string) (j : JCHF) : JCHF :=
  let 'mkJCHF x0 x1 x2 x3 x4 x5 x6 x7 x8 x9 x10 x11 x12 x13 x14 x15 x16 x17 x18 x19 x20 _ x22
    x23 x24 x25 x26 x27 x28 x29 x30 x31 x32 x33 x34 x35 x36 x37 x38 x39 x40 x41 x42 x43 x44 x45
    x46 x47 x48 x49 x50 x51 x52 x53 x54 x55 x56 x57 x58 x59 x60 x61 x62 x63 x64 x65 x66 x67 x68
    x69 := j in
  mkJCHF x0 x1 x2 x3 x4 x5 x6 x7 x8 x9 x10 x11 x12 x13 x14 x15 x16 x17 x18 x19 x20 v x22 x23 x24
    x25 x26 x27 x28 x29 x30 x31 x32 x33 x34 x35 x36 x37 x38 x39 x40 x41 x42 x43 x44 x45 x46 x47
    x48 x49 x50 x51 x52 x53 x54 x55 x56 x57 x58 x59 x60 x61 x62 x63 x64 x65 x66 x67 x68 x69.

(** The assignments of [ToMap], in order. *)
Definition ToMap_entries (j : JCHF) : list (string * Avro) :=
  [
   ("timestamp", AInt (Timestamp j));
   ("dst_as", AInt (DstAs j));
   ("dst_geo", AStr (DstGeo j));
   ("header_len", AInt (HeaderLen j));
   ("in_bytes", AInt (swrap 64 (InBytes j)));
   ("in_pkts", AInt (swrap 64 (InPkts j)));
   ("input_port", AInt (swrap 64 (InputPort j)));
   ("dst_addr", AStr (DstAddr j));
   ("src_addr", AStr (SrcAddr j));
   ("l4_dst_port", AInt (L4DstPort j));
   ("l4_src_port", AInt (L4SrcPort j));
   ("output_port", AInt (swrap 64 (OutputPort j)));
   ("protocol", AStr (Protocol j));
   ("sampled_packet_size", AInt (SampledPacketSize j));
   ("src_as", AInt (SrcAs j));
   ("src_geo", AStr (SrcGeo j));
   ("tcp_flags", AInt (TcpFlags j));
   ("tos", AInt (Tos j));
   ("vlan_in", AInt (VlanIn j));
   ("vlan_out", AInt (VlanOut j));
   ("out_bytes", AInt (swrap 64 (OutBytes j)));
   ("out_pkts", AInt (swrap 64 (OutPkts j)));
   ("tcp_rx", AInt (TcpRetransmit j));
   ("src_flow_tags", AStr (SrcFlowTags j));
   ("dst_flow_tags", AStr (DstFlowTags j));
   ("sample_rate", AInt (SampleRate j));
   ("device_id", AInt (swrap 64 (DeviceId j)));
   ("device_name", AStr (DeviceName j));
   ("company_id", AInt (swrap 64 (CompanyId j)));
   ("dst_bgp_as_path", AStr (DstBgpAsPath j));
   ("dst_bgp_comm", AStr (DstBgpCommunity j));
   ("src_bpg_as_path", AStr (SrcBgpAsPath j));
   ("src_bgp_comm", AStr (SrcBgpCommunity j));
   ("src_nexthop_as", AInt (SrcNextHopAs j));
   ("dst_nexthop_as", AInt (DstNextHopAs j));
   ("src_geo_region", AStr (SrcGeoRegion j));
   ("dst_geo_region", AStr (DstGeoRegion j));
   ("src_geo_city", AStr (SrcGeoCity j));
   ("dst_geo_city", AStr (DstGeoCity j));
   ("dst_nexthop", AStr (DstNextHop j));
   ("src_nexthop", AStr (SrcNextHop j));
   ("src_route_prefix", AStr (SrcRoutePrefix j));
   ("dst_route_prefix", AStr (DstRoutePrefix j));
   ("src_second_asn", AInt (SrcSecondAsn j));
   ("dst_second_asn", AInt (DstSecondAsn j));
   ("src_third_asn", AInt (SrcThirdAsn j));
   ("dst_third_asn", AInt (DstThirdAsn j));
   ("src_eth_mac", AStr (SrcEthMac j));
   ("dst_eth_mac", AStr (DstEthMac j));
   ("input_int_desc", AStr (InputIntDesc j));
   ("output_int_desc", AStr (OutputIntDesc j));
   ("input_int_alias", AStr (InputIntAlias j));
   ("output_int_alias", AStr (OutputIntAlias j));
   ("input_interface_capacity", AInt (InputInterfaceCapacity j));
   ("output_interface_capacity", AInt (OutputInterfaceCapacity j));
   ("input_interface_ip", AStr (InputInterfaceIP j));
   ("output_interface_ip", AStr (OutputInterfaceIP j));
   ("custom_str", AMapStr (CustomStr j));
   ("custom_int", AMapInt32 (CustomInt j));
   ("custom_bigint", AMapInt64 (CustomBigInt j));
   ("custom_float", AMapFloat32 (CustomFloat j));
   ("eventType", AStr (EventType j));
   ("provider", AProvider (Provider j))
  ].

(** ** Operations *)

Definition NewJCHF : JCHF := set_avroSet (Some ∅) zero_JCHF.

Definition Reset (j : JCHF) : JCHF := set_hasSetAvro false j.

Definition SetMap (j : JCHF) : JCHF :=
  set_CustomMetrics (Some ∅) (set_CustomFloat (Some ∅) (set_CustomBigInt (Some ∅)
    (set_CustomInt (Some ∅) (set_CustomStr (Some ∅) (set_avroSet (Some ∅) j))))).

Definition SetIFPorts (p : Z) (j : JCHF) : JCHF := set_InputPort p (set_OutputPort p j).

(** [j.avroSet[k] = v] for each entry; the map is cached. *)
Definition ToMap (j : JCHF) : outcome (option (gmap string Avro) * JCHF) :=
  if hasSetAvro j then Ok (avroSet j, j)
  else
    m ← foldl (fun m kv => m ← m; gomap_set m kv.1 kv.2) (Ok (avroSet j)) (ToMap_entries j);
    let j' := set_hasSetAvro true (set_avroSet m j) in
    Ok (m, j').

(** One iteration of the loop of [Flatten], at key [k]. *)
Definition Flatten_key (m : gmap string Avro) (k : string) : gmap string Avro :=
  let add {A} (c : A -> Avro) (mv : option (gmap string A)) :=
    delete k (map_fold (fun ki vi m => <[ki := c vi]> m) m (default ∅ mv)) in
  match m !! k with
  | Some (AMapStr mv) => add AStr mv
  | Some (AMapInt32 mv) => add AInt32 mv
  | Some (AMapInt64 mv) => add AInt mv
  | Some (AMapFloat32 mv) => add AFloat32 mv
  | Some (AStr s) => if String.eqb s "<nil>" then <[k := AStr ""]> m else m
  | _ => m
  end.

(** [Flatten], with the keys in the order the [range] loop reaches them.  It works on the map
    that [ToMap] cached. *)
Definition Flatten (order : list string) (j : JCHF) :
    outcome (option (gmap string Avro) * JCHF) :=
  '(m, j) ← ToMap j;
  let m' := (fun m => foldl Flatten_key m order) <$> m in
  Ok (m', set_avroSet m' j).

Definition GetKey (j : JCHF) : string :=
  let src := gomap_get "" (CustomStr j) "src_endpoint" in
  let dst := gomap_get "" (CustomStr j) "dst_endpoint" in
  if L4SrcPort j <? 32768 then strings_Join [src; dst; Protocol j] "|"
  else strings_Join [dst; src; Protocol j] "|".

(** ** Outputs *)

Record OutputContext := mkOutputContext {
  oc_Provider : string;
  oc_Type : string;
  oc_CompanyId : Z;
  oc_SenderId : string
}.

(** The callback is not modelled. *)
Record Output := mkOutput { Body : bytes; Ctx : OutputContext; NoBuffer : bool }.

Definition zero_OutputContext : OutputContext := mkOutputContext "" "" 0 "".
Definition NewOutput (body : bytes) : Output := mkOutput body zero_OutputContext false.
Definition NewOutputWithProvider (body : bytes) (prov stype : string) : Output :=
  mkOutput body (mkOutputContext prov stype 0 "") false.
Definition NewOutputWithProviderAndCompanySender (body : bytes) (prov : string) (cid : Z)
    (stype senderid : string) : Output :=
  mkOutput body (mkOutputContext prov stype cid senderid) false.
Definition NewOutputNoBuffer (body : bytes) : Output := mkOutput body zero_OutputContext true.

Definition EventOutput : string := "event".
Definition MetricOutput : string := "metric".
Definition RollupOutput : string := "rollup".

Definition IsEvent (o : Output) : bool := String.eqb (oc_Type (Ctx o)) EventOutput.
Definition IsMetric (o : Output) : bool :=
  String.eqb (oc_Type (Ctx o)) RollupOutput || String.eqb (oc_Type (Ctx o)) MetricOutput.

Definition GetDataType (o : option Output) : string :=
  match o with
  | None => ""
  | Some o =>
      let p := String.eqb (oc_Provider (Ctx o)) in
      if p "kentik-router" then "snmp"
      else if p "kentik-vpc" then "vpc-flows"
      else if p "kentik-network-synthetic" then "synthetics"
      else if p "kentik-switch" || p "kentik-firewall" || p "kentik-ups" || p "kentik-pdu" ||
              p "kentik-iot" || p "kentik-host" || p "kentik-alert" then "snmp"
      else if p "kentik-flow-device" then "device-flows"
      else "device-flows"
  end%string.

Definition BodyLen (o : option Output) : Z :=
  match o with
  | None => 0
  | Some o => Z.of_nat (length (Body o))
  end.

(** ** Flattening does not depend on the order of the iteration *)

Definition containers : list string := ["custom_str"; "custom_int"; "custom_bigint"; "custom_float"].

(** The entries of each custom map, as they appear in the flattened record. *)
Definition custom_map (j : JCHF) (c : string) : gmap string Avro :=
  if String.eqb c "custom_str" then AStr <$> default ∅ (CustomStr j)
  else if String.eqb c "custom_int" then AInt32 <$> default ∅ (CustomInt j)
  else if String.eqb c "custom_bigint" then AInt <$> default ∅ (CustomBigInt j)
  else if String.eqb c "custom_float" then AFloat32 <$> default ∅ (CustomFloat j)
  else ∅.

(** The custom entry under [k] among the containers [cs]. *)
Fixpoint custom_entry (j : JCHF) (cs : list string) (k : string) : option Avro :=
  match cs with
  | [] => None
  | c :: cs' =>
      match custom_map j c !! k with
      | Some v => Some v
      | None => custom_entry j cs' k
      end
  end.

Definition flat_value (v : Avro) : Avro :=
  match v with
  | AStr s => if String.eqb s "<nil>" then AStr "" else v
  | _ => v
  end.

Definition base_map (j : JCHF) : gmap string Avro := list_to_map (ToMap_entries j).

(** What flattening gives: the fixed entries with "<nil>" removed, and the custom ones. *)
Definition flattened (j : JCHF) (k : string) : option Avro :=
  if decide (k ∈ containers) then None
  else match custom_entry j containers k with
       | Some v => Some v
       | None => flat_value <$> base_map j !! k
       end.

(** The custom keys are not names of fixed fields, no key is in two custom maps, and no custom
    string is the marker that is rewritten. *)
Record separate (j : JCHF) : Prop := {
  sep_base c k : is_Some (custom_map j c !! k) -> base_map j !! k = None;
  sep_each c c' k : is_Some (custom_map j c !! k) -> is_Some (custom_map j c' !! k) -> c = c';
  sep_nil c k : custom_map j c !! k <> Some (AStr "<nil>")
}.

Lemma map_fold_insert_fmap {A} (c : A -> Avro) (mv : gmap string A) m :
  map_fold (fun ki vi m => <[ki := c vi]> m) m mv = (c <$> mv) ∪ m.
Proof.
  apply (map_fold_weak_ind (fun r mv => r = (c <$> mv) ∪ m)).
  - by rewrite fmap_empty, (left_id_L ∅ (∪)).
  - intros i x mv' r Hi ->. by rewrite fmap_insert, insert_union_l.
Qed.

Lemma ToMap_names (j : JCHF) : NoDup (ToMap_entries j).*1.
Proof. apply (bool_decide_eq_true_1 _). reflexivity. Qed.

Lemma foldl_gomap_set m (l : list (string * Avro)) :
  NoDup l.*1 ->
  foldl (fun m kv => m ← m; gomap_set m kv.1 kv.2) (Ok (Some m)) l =
    Ok (Some ((list_to_map l : gmap string Avro) ∪ m)).
Proof.
  revert m; induction l as [|[k v] l IH]; intros m Hnd; simpl.
  - by rewrite (left_id_L ∅ (∪)).
  - inversion Hnd as [|? ? Hni Hnd']; subst. rewrite IH by done. do 2 f_equal.
    rewrite <- insert_union_r; [by rewrite insert_union_l|]. by apply not_elem_of_list_to_map_1.
Qed.

Lemma ToMap_fresh j :
  hasSetAvro j = false -> avroSet j = Some ∅ ->
  ToMap j = Ok (Some (base_map j), set_hasSetAvro true (set_avroSet (Some (base_map j)) j)).
Proof.
  intros Hs Ha. unfold ToMap. rewrite Hs, Ha, (foldl_gomap_set ∅ _ (ToMap_names j)).
  cbn [mbind outcome_bind]. by rewrite (right_id_L ∅ (∪)).
Qed.

Lemma base_containers j :
  base_map j !! "custom_str"%string = Some (AMapStr (CustomStr j)) /\
  base_map j !! "custom_int"%string = Some (AMapInt32 (CustomInt j)) /\
  base_map j !! "custom_bigint"%string = Some (AMapInt64 (CustomBigInt j)) /\
  base_map j !! "custom_float"%string = Some (AMapFloat32 (CustomFloat j)).
Proof. split_and!; vm_compute; reflexivity. Qed.

(** One iteration at a container splices its entries in. *)
Lemma Flatten_key_container j m c :
  c ∈ containers -> m !! c = base_map j !! c ->
  Flatten_key m c = delete c (custom_map j c ∪ m).
Proof.
  destruct (base_containers j) as (H1 & H2 & H3 & H4). intros Hc Hm. unfold Flatten_key.
  rewrite Hm. unfold containers in Hc. rewrite !elem_of_cons, elem_of_nil in Hc.
  destruct Hc as [->|[->|[->|[->|[]]]]]; rewrite ?H1, ?H2, ?H3, ?H4;
    cbv zeta; by rewrite map_fold_insert_fmap.
Qed.

(** No other entry is a map. *)
Definition scalar (v : Avro) : bool :=
  match v with AInt _ | AInt32 _ | AFloat32 _ | AStr _ | AProvider _ => true | _ => false end.

Lemma base_scalar j k v : k ∉ containers -> base_map j !! k = Some v -> scalar v = true.
Proof.
  intros Hk Hv. apply elem_of_list_to_map_2 in Hv.
  assert (forallb (fun kv => existsb (String.eqb kv.1) containers || scalar kv.2)
    (ToMap_entries j) = true) as Hf by reflexivity.
  rewrite forallb_forall in Hf. specialize (Hf _ (proj1 (list_elem_of_In _ _) Hv)). simpl fst in Hf.
  apply orb_true_iff in Hf as [Hf|Hf]; [|done]. exfalso. apply Hk.
  apply existsb_exists in Hf as (c & Hc & ->%String.eqb_eq). by apply list_elem_of_In.
Qed.

Lemma custom_scalar j c k v : custom_map j c !! k = Some v -> scalar v = true.
Proof.
  unfold custom_map. repeat case_match; rewrite ?lookup_fmap, ?lookup_empty;
    intros Hv; try done; apply fmap_Some in Hv as (x & _ & ->); done.
Qed.

Lemma Flatten_key_scalar m k :
  (forall v, m !! k = Some v -> scalar v = true) ->
  Flatten_key m k = match m !! k with Some v => <[k := flat_value v]> m | None => m end.
Proof.
  intros Hs. unfold Flatten_key. destruct (m !! k) as [v|] eqn:E; [|done].
  specialize (Hs v eq_refl). destruct v; simpl in *; try done; try (by rewrite insert_id).
  destruct (String.eqb s "<nil>"); [done|]. by rewrite insert_id.
Qed.

(** The map after the keys [ks] have been visited. *)
Definition flat_after (j : JCHF) (ks : list string) (k : string) : option Avro :=
  if decide (k ∈ containers) then (if decide (k ∈ ks) then None else base_map j !! k)
  else match custom_entry j (filter (fun c => c ∈ ks) containers) k with
       | Some v => Some v
       | None => (if decide (k ∈ ks) then flat_value else id) <$> base_map j !! k
       end.

Lemma custom_entry_Some j cs k v :
  custom_entry j cs k = Some v -> exists c, c ∈ cs /\ custom_map j c !! k = Some v.
Proof.
  induction cs as [|c cs IH]; simpl; [done|].
  destruct (custom_map j c !! k) as [v'|] eqn:E.
  - intros [= ->]. exists c. split; [by left|done].
  - intros H. destruct (IH H) as (c' & ? & ?). exists c'. split; [by right|done].
Qed.

Lemma custom_entry_None j cs k :
  custom_entry j cs k = None -> Forall (fun c => custom_map j c !! k = None) cs.
Proof.
  induction cs as [|c cs IH]; simpl; [constructor|].
  destruct (custom_map j c !! k) eqn:E; [done|]. constructor; auto.
Qed.

(** With separate keys an entry is found whichever containers are searched with its own. *)
Lemma custom_entry_in j cs c k v :
  separate j -> c ∈ cs -> custom_map j c !! k = Some v -> custom_entry j cs k = Some v.
Proof.
  intros Hs Hc Hv. destruct (custom_entry j cs k) as [v'|] eqn:E.
  - apply custom_entry_Some in E as (c' & _ & Hv').
    assert (c = c') as -> by (apply (sep_each _ Hs c c' k); by eexists). congruence.
  - apply custom_entry_None in E. rewrite Forall_forall in E. rewrite E in Hv; done.
Qed.

Lemma custom_entry_mono j ks x k :
  separate j -> custom_map j x !! k = None \/ x ∉ containers ->
  custom_entry j (filter (fun c => c ∈ ks ++ [x]) containers) k =
  custom_entry j (filter (fun c => c ∈ ks) containers) k.
Proof.
  intros Hs Hx. destruct (custom_entry j (filter (fun c => c ∈ ks) containers) k) as [v|] eqn:E.
  - apply custom_entry_Some in E as (c & Hc & Hv). apply list_elem_of_filter in Hc as [Hc Hcs].
    eapply custom_entry_in; [done| |done]. apply list_elem_of_filter.
    split; [apply elem_of_app; by left|done].
  - destruct (custom_entry j (filter (fun c => c ∈ ks ++ [x]) containers) k) as [v|] eqn:E'; [|done].
    apply custom_entry_Some in E' as (c & Hc & Hv). apply list_elem_of_filter in Hc as [Hc Hcs].
    apply elem_of_app in Hc as [Hc|Hc].
    + apply custom_entry_None in E. rewrite Forall_forall in E.
      rewrite E in Hv; [done|]. by apply list_elem_of_filter.
    + apply list_elem_of_singleton in Hc as ->. destruct Hx; [congruence|done].
Qed.

Lemma container_not_custom j c k :
  separate j -> k ∈ containers -> custom_map j c !! k = None.
Proof.
  intros Hs Hk. destruct (custom_map j c !! k) eqn:E; [|done].
  pose proof (sep_base _ Hs c k ltac:(by eexists)) as Hb.
  destruct (base_containers j) as (H1 & H2 & H3 & H4). unfold containers in Hk.
  rewrite !elem_of_cons, elem_of_nil in Hk. destruct Hk as [->|[->|[->|[->|[]]]]]; congruence.
Qed.

Lemma in_snoc_self (ks : list string) x : x ∈ ks ++ [x].
Proof. apply elem_of_app. right. by left. Qed.

Lemma decide_snoc {A} (ks : list string) x k (a b : A) :
  k <> x -> (if decide (k ∈ ks ++ [x]) then a else b) = (if decide (k ∈ ks) then a else b).
Proof.
  intros Hk. destruct (decide (k ∈ ks)) as [Hin|Hin].
  - rewrite decide_True; [done|]. apply elem_of_app. by left.
  - rewrite decide_False; [done|]. rewrite elem_of_app, list_elem_of_singleton. tauto.
Qed.

Lemma Flatten_key_step j ks x m :
  separate j -> x ∉ ks -> (forall k, m !! k = flat_after j ks k) ->
  forall k, Flatten_key m x !! k = flat_after j (ks ++ [x]) k.
Proof.
  intros Hs Hx Hm k. destruct (decide (x ∈ containers)) as [Hc|Hc].
  - rewrite (Flatten_key_container j).
    2: done.
    2: { rewrite Hm. unfold flat_after. by rewrite decide_True, decide_False. }
    unfold flat_after. destruct (decide (k = x)) as [->|Hkx].
    { rewrite lookup_delete_eq, !decide_True; [done|apply in_snoc_self|done]. }
    rewrite lookup_delete_ne by done. destruct (decide (k ∈ containers)) as [Hk|Hk].
    + rewrite lookup_union_r by (by apply container_not_custom). rewrite Hm. unfold flat_after.
      by rewrite decide_True, decide_snoc by done.
    + destruct (custom_map j x !! k) as [v|] eqn:E.
      * rewrite (lookup_union_Some_l _ _ _ v) by done.
        rewrite (custom_entry_in j _ x k v); [done|done| |done].
        apply list_elem_of_filter. split; [apply in_snoc_self|done].
      * rewrite lookup_union_r by done. rewrite Hm. unfold flat_after.
        by rewrite decide_False, custom_entry_mono, decide_snoc by auto.
  - assert (forall v, m !! x = Some v -> scalar v = true) as Hsc.
    { intros v. rewrite Hm. unfold flat_after. rewrite decide_False by done.
      destruct (custom_entry j _ x) as [v'|] eqn:E.
      - apply custom_entry_Some in E as (c & _ & Hv). intros [= <-]. by eapply custom_scalar.
      - rewrite decide_False by done. intros Hv. apply (base_scalar j x); [done|].
        by destruct (base_map j !! x). }
    rewrite Flatten_key_scalar by done.
    destruct (decide (k = x)) as [->|Hkx].
    + transitivity (flat_value <$> m !! x).
      { destruct (m !! x) eqn:E; [by rewrite lookup_insert_eq|done]. }
      rewrite Hm. unfold flat_after. rewrite !(decide_False (P := x ∈ containers)) by done.
      rewrite custom_entry_mono by auto.
      destruct (custom_entry j _ x) as [v|] eqn:E.
      * apply custom_entry_Some in E as (c & _ & Hv). simpl. f_equal.
        pose proof (sep_nil _ Hs c x) as Hn. rewrite Hv in Hn. destruct v; try done. simpl.
        destruct (String.eqb_spec s "<nil>") as [->|]; congruence.
      * rewrite decide_False, decide_True by (done || apply in_snoc_self).
        by destruct (base_map j !! x).
    + transitivity (m !! k).
      { destruct (m !! x); [by rewrite lookup_insert_ne|done]. }
      rewrite Hm. unfold flat_after. by rewrite custom_entry_mono, !decide_snoc by auto.
Qed.

(** The keys a [range] loop over the cached map can reach, in some order, each once: all that
    were there at the start, since an entry is deleted only when it has been reached, and any
    of those that the loop adds. *)
Definition range_order (j : JCHF) (order : list string) : Prop :=
  NoDup order /\ forall k, is_Some (base_map j !! k) -> k ∈ order.

Lemma Flatten_keys j order :
  separate j -> NoDup order ->
  forall k, foldl Flatten_key (base_map j) order !! k = flat_after j order k.
Proof.
  intros Hs. induction order as [|x order IH] using rev_ind; intros Hnd k.
  - cbn [foldl]. unfold flat_after. destruct (decide (k ∈ containers)).
    + by rewrite decide_False by apply not_elem_of_nil.
    + rewrite (decide_False (P := k ∈ [])) by apply not_elem_of_nil.
      replace (filter (fun c => c ∈ []) containers) with (@nil string) by reflexivity.
      cbn [custom_entry]. by destruct (base_map j !! k).
  - apply NoDup_app in Hnd as (Hnd & Hx & _). rewrite foldl_app. cbn [foldl].
    apply Flatten_key_step; [done| |by apply IH].
    intros Hin. apply (Hx _ Hin). by left.
Qed.

Lemma flat_after_all j order k : separate j -> range_order j order -> flat_after j order k = flattened j k.
Proof.
  intros Hs [Hnd Hall]. unfold flat_after, flattened.
  destruct (base_containers j) as (H1 & H2 & H3 & H4).
  assert (forall c, c ∈ containers -> c ∈ order) as Hcs.
  { intros c Hc. apply Hall. unfold containers in Hc. rewrite !elem_of_cons, elem_of_nil in Hc.
    destruct Hc as [->|[->|[->|[->|[]]]]]; rewrite ?H1, ?H2, ?H3, ?H4; by eexists. }
  destruct (decide (k ∈ containers)) as [Hk|Hk].
  - by rewrite decide_True by auto.
  - assert (filter (fun c => c ∈ order) containers = containers) as ->.
    { apply filter_all, Forall_forall. exact Hcs. }
    destruct (custom_entry j containers k); [done|].
    destruct (base_map j !! k) eqn:E; [|done]. rewrite decide_True; [done|].
    apply Hall. by eexists.
Qed.

Lemma Flatten_result j order :
  hasSetAvro j = false -> avroSet j = Some ∅ -> separate j -> range_order j order ->
  exists m j', Flatten order j = Ok (Some m, j') /\ (forall k, m !! k = flattened j k) /\
               ToMap j' = Ok (Some m, j').
Proof.
  intros Hh Ha Hs Ho. unfold Flatten. rewrite ToMap_fresh by done. cbn [mbind outcome_bind].
  eexists _, _. split; [reflexivity|]. split.
  - intros k. rewrite Flatten_keys by (done || apply Ho). by apply flat_after_all.
  - unfold ToMap. by destruct j.
Qed.

(** A map that is kept from before keeps its other entries. *)
Lemma ToMap_again j m :
  hasSetAvro j = false -> avroSet j = Some m ->
  ToMap j = Ok (Some (base_map j ∪ m), set_hasSetAvro true (set_avroSet (Some (base_map j ∪ m)) j)).
Proof.
  intros Hs Ha. unfold ToMap. rewrite Hs, Ha. by rewrite (foldl_gomap_set m _ (ToMap_names j)).
Qed.

(** ** Properties *)

(** C13: flattening a record.  [Flatten] deletes from and inserts into the map it is ranging
    over, whose order Go leaves open.  When the custom keys are distinct and are not names of
    fixed fields, and no custom string is "<nil>", every order gives the same record: the
    fixed fields with "<nil>" blanked, each custom entry under its own key, and no nested map.
    The map is the one [ToMap] cached, so later calls of [ToMap] return the flattened record. *)
Theorem Flatten_any_order j order :
  hasSetAvro j = false -> avroSet j = Some ∅ -> separate j -> range_order j order ->
  exists m j', Flatten order j = Ok (Some m, j') /\ (forall k, m !! k = flattened j k) /\
               ToMap j' = Ok (Some m, j').
Proof. intros Hh Ha Hs Ho. by apply Flatten_result. Qed.

Definition sample_JCHF : JCHF :=
  set_CustomStr (Some {[ "kt.index"%string := "a"%string ]}) (set_CustomInt (Some {[ "if"%string := 7 ]})
    (set_SrcAddr "<nil>" NewJCHF)).

Lemma sample_separate : separate sample_JCHF.
Proof.
  assert (forall c k v, custom_map sample_JCHF c !! k = Some v ->
    (c, k, v) = ("custom_str", "kt.index", AStr "a")%string \/
    (c, k, v) = ("custom_int", "if", AInt32 7)%string) as Hc.
  { intros c k v. unfold custom_map. repeat case_match;
      repeat match goal with H : String.eqb _ _ = true |- _ => apply String.eqb_eq in H as -> end;
      simpl default; rewrite ?fmap_empty, ?map_fmap_singleton, ?lookup_empty; try done;
      intros [<- <-]%lookup_singleton_Some; auto. }
  constructor.
  - intros c k [v Hv]. destruct (Hc _ _ _ Hv) as [[= _ -> _]|[= _ -> _]]; reflexivity.
  - intros c c' k [v Hv] [v' Hv'].
    destruct (Hc _ _ _ Hv) as [[= -> -> _]|[= -> -> _]],
      (Hc _ _ _ Hv') as [[= -> ?]|[= -> ?]]; done.
  - intros c k Hv. by destruct (Hc _ _ _ Hv).
Qed.

(** The keys of the record, one custom key among them, in an order of a range. *)
Definition sample_order : list string :=
  ("custom_int" :: "if" :: map fst (filter (fun kv => kv.1 <> "custom_int") (ToMap_entries sample_JCHF)))%string.

Lemma sample_range : range_order sample_JCHF sample_order.
Proof.
  split; [decide_done|]. intros k [v Hv]. apply elem_of_list_to_map_2 in Hv.
  apply (list_elem_of_fmap_2 fst) in Hv. revert Hv.
  assert (Forall (fun k => k ∈ sample_order) (ToMap_entries sample_JCHF).*1) as Hf by decide_done.
  rewrite Forall_forall in Hf. apply Hf.
Qed.

Lemma Flatten_any_order_witness :
  exists m j', Flatten sample_order sample_JCHF = Ok (Some m, j') /\
    (m !! "if" = Some (AInt32 7) /\ m !! "kt.index" = Some (AStr "a") /\
     m !! "src_addr" = Some (AStr "") /\ m !! "custom_int" = None)%string.
Proof.
  destruct (Flatten_any_order sample_JCHF sample_order) as (m & j' & Hf & Hm & _);
    [reflexivity|reflexivity|exact sample_separate|exact sample_range|].
  exists m, j'. split; [exact Hf|]. rewrite !Hm. split_and!; vm_compute; reflexivity.
Defined.
