(* ===== verification/RingBuffer.v ===== *)
(** * The ring buffer of recent flows (src/pkg/stitch/ringbuffer/ringbuffer.go)

    A slice of slots, a head, a tail and a size, and a map from keys to slots.  An index out of
    the range of the slice is a panic.  The specification [queue_put] is a list of entries,
    oldest first, with distinct keys; the buffer refines it as long as [GetAndDelete], which
    leaves its slot behind, is not used. *)
From S2P Require Import Prelude GoIO.

Section RingBuffer.
  Context {V : Type} (zero : V).

Record entry := mkEntry { e_key : string; e_value : V }.

Record RingBuffer := mkRingBuffer {
  data : list entry;
  index : gmap string nat;
  head : nat;
  tail : nat;
  size : nat;
  capacity : nat
}.

Definition New (capacity : Z) : outcome RingBuffer :=
  if capacity <? 1 then Panic "ringbuffer: capacity must be at least 1"
  else
    let n := Z.to_nat capacity in
    Ok (mkRingBuffer (replicate n (mkEntry "" zero)) ∅ 0 0 0 n).

(** [r.data[i]] and [r.data[i] = e]. *)
Definition slot_get (d : list entry) (i : nat) : outcome entry :=
  match d !! i with
  | Some e => Ok e
  | None => Panic "index out of range"
  end.
Definition slot_set (d : list entry) (i : nat) (e : entry) : outcome (list entry) :=
  if (i <? length d)%nat then Ok (<[i := e]> d) else Panic "index out of range".

Definition Put (r : RingBuffer) (key : string) (value : V) : outcome RingBuffer :=
  match index r !! key with
  | Some slot =>
      e ← slot_get (data r) slot;
      d ← slot_set (data r) slot (mkEntry (e_key e) value);
      Ok (mkRingBuffer d (index r) (head r) (tail r) (size r) (capacity r))
  | None =>
      '(index', head', size') ←
        (if (size r =? capacity r)%nat
         then evicted ← slot_get (data r) (head r);
              Ok (delete (e_key evicted) (index r), ((head r + 1) mod capacity r)%nat, size r)
         else Ok (index r, head r, S (size r)));
      d ← slot_set (data r) (tail r) (mkEntry key value);
      Ok (mkRingBuffer d (<[key := tail r]> index') head' ((tail r + 1) mod capacity r)%nat
            size' (capacity r))
  end.

Definition Get (r : RingBuffer) (key : string) : outcome (V * bool) :=
  match index r !! key with
  | None => Ok (zero, false)
  | Some slot => e ← slot_get (data r) slot; Ok (e_value e, true)
  end.

(** The map entry goes, the slot stays. *)
Definition GetAndDelete (r : RingBuffer) (key : string) : outcome (V * bool * RingBuffer) :=
  match index r !! key with
  | None => Ok (zero, false, r)
  | Some slot =>
      e ← slot_get (data r) slot;
      Ok (e_value e, true,
          mkRingBuffer (data r) (delete key (index r)) (head r) (tail r) (size r) (capacity r))
  end.

Definition Contains (r : RingBuffer) (key : string) : bool := bool_decide (is_Some (index r !! key)).

Definition Oldest (r : RingBuffer) : outcome (entry * bool) :=
  if (size r =? 0)%nat then Ok (mkEntry "" zero, false)
  else e ← slot_get (data r) (head r); Ok (e, true).

(** [(r.tail-1+r.capacity)%r.capacity]; the sum is not negative. *)
Definition Newest (r : RingBuffer) : outcome (entry * bool) :=
  if (size r =? 0)%nat then Ok (mkEntry "" zero, false)
  else
    e ← slot_get (data r) ((tail r + capacity r - 1) mod capacity r)%nat; Ok (e, true).

Fixpoint Entries_from (r : RingBuffer) (i n : nat) : outcome (list entry) :=
  match n with
  | O => Ok []
  | S n' =>
      e ← slot_get (data r) ((head r + i) mod capacity r)%nat;
      es ← Entries_from r (S i) n';
      Ok (e :: es)
  end.
Definition Entries (r : RingBuffer) : outcome (list entry) := Entries_from r 0 (size r).
Definition Keys (r : RingBuffer) : outcome (list string) :=
  match Entries r with
  | Ok es => Ok (map e_key es)
  | Err e => Err e
  | Panic why => Panic why
  | OutOfFuel => OutOfFuel
  end.

Definition Len (r : RingBuffer) : nat := size r.
Definition Cap (r : RingBuffer) : nat := capacity r.
Definition IsFull (r : RingBuffer) : bool := (size r =? capacity r)%nat.

(** ** The invariant *)

(** The slot of the [i]th oldest entry. *)
Definition slot_of (r : RingBuffer) (i : nat) : nat := ((head r + i) mod capacity r)%nat.

(** Whatever the map points to is a live slot with that key. *)
Record inv (r : RingBuffer) : Prop := {
  inv_capacity : (1 <= capacity r)%nat;
  inv_data : length (data r) = capacity r;
  inv_head : (head r < capacity r)%nat;
  inv_size : (size r <= capacity r)%nat;
  inv_tail : tail r = slot_of r (size r);
  inv_index k s : index r !! k = Some s ->
    exists i e, (i < size r)%nat /\ s = slot_of r i /\ data r !! s = Some e /\ e_key e = k
}.

(** Without [GetAndDelete] the map also has every live slot. *)
Definition complete (r : RingBuffer) : Prop :=
  forall i, (i < size r)%nat ->
  exists e, data r !! slot_of r i = Some e /\ index r !! e_key e = Some (slot_of r i).

Lemma slot_lt r i : inv r -> (slot_of r i < capacity r)%nat.
Proof. intros Hi. unfold slot_of. apply Nat.mod_upper_bound. pose proof (inv_capacity _ Hi). lia. Qed.

Lemma slot_data r i : inv r -> exists e, data r !! slot_of r i = Some e.
Proof.
  intros Hi. apply lookup_lt_is_Some. rewrite (inv_data _ Hi). by apply slot_lt.
Qed.

(** Positions within a capacity are different slots. *)
Lemma slot_inj c h i j :
  (h < c)%nat -> (i < c)%nat -> (j < c)%nat ->
  ((h + i) mod c = (h + j) mod c)%nat -> i = j.
Proof.
  intros Hh Hi Hj He.
  assert (forall x, (x < c)%nat -> ((h + x) mod c = if decide (h + x < c) then h + x else h + x - c)%nat) as Hm.
  { intros x Hx. destruct (decide (h + x < c)%nat).
    - by apply Nat.mod_small.
    - symmetry. apply (Nat.mod_unique _ _ 1); lia. }
  rewrite !Hm in He by done. do 2 destruct (decide _); lia.
Qed.

Lemma mod_succ c h i : (0 < c)%nat -> (((h + 1) mod c + i) mod c = (h + S i) mod c)%nat.
Proof.
  intros Hc. rewrite Nat.Div0.add_mod_idemp_l. f_equal. lia.
Qed.

(** ** Each operation keeps the invariant and does not panic *)

Lemma slot_get_ok d i e : d !! i = Some e -> slot_get d i = Ok e.
Proof. intros Hd. unfold slot_get. by rewrite Hd. Qed.

Lemma slot_set_ok d i e : (i < length d)%nat -> slot_set d i e = Ok (<[i := e]> d).
Proof. intros Hl. unfold slot_set. by destruct (Nat.ltb_spec i (length d)); [|lia]. Qed.

Lemma slot_of_0 r : inv r -> slot_of r 0 = head r.
Proof. intros Hi. unfold slot_of. rewrite Nat.add_0_r. apply Nat.mod_small, (inv_head _ Hi). Qed.

Lemma slot_of_full r : inv r -> slot_of r (capacity r) = head r.
Proof.
  intros Hi. pose proof (inv_capacity _ Hi). pose proof (inv_head _ Hi). unfold slot_of.
  symmetry. apply (Nat.mod_unique _ _ 1); lia.
Qed.

Lemma slot_of_inj r i j :
  inv r -> (i < capacity r)%nat -> (j < capacity r)%nat -> slot_of r i = slot_of r j -> i = j.
Proof. intros Hi. apply slot_inj, (inv_head _ Hi). Qed.

(** The updated buffer when the key has an entry. *)
Definition updated (r : RingBuffer) (s : nat) (e : entry) : RingBuffer :=
  mkRingBuffer (<[s := e]> (data r)) (index r) (head r) (tail r) (size r) (capacity r).

Lemma Put_old r key v s :
  inv r -> index r !! key = Some s -> Put r key v = Ok (updated r s (mkEntry key v)).
Proof.
  intros Hi Hs. unfold Put. rewrite Hs. destruct (inv_index _ Hi _ _ Hs) as (i & e & Hlt & -> & Hd & <-).
  rewrite (slot_get_ok _ _ _ Hd). cbn [mbind outcome_bind].
  rewrite slot_set_ok; [done|]. rewrite (inv_data _ Hi). by apply slot_lt.
Qed.

Lemma updated_inv r key v s : inv r -> index r !! key = Some s -> inv (updated r s (mkEntry key v)).
Proof.
  intros Hi Hs. pose proof Hi as []. constructor; simpl; try done.
  - by rewrite length_insert.
  - intros k s' Hk. destruct (inv_index0 _ _ Hk) as (i & e & Hlt & -> & Hd & <-).
    destruct (decide (slot_of r i = s)) as [<-|Hne].
    + exists i, (mkEntry key v). split_and!; [done|done| |].
      * apply list_lookup_insert_eq. rewrite inv_data0. by apply slot_lt.
      * destruct (inv_index0 _ _ Hs) as (j & e' & _ & _ & Hd' & <-). simpl. congruence.
    + exists i, e. split_and!; [done|done| |done]. by rewrite list_lookup_insert_ne.
Qed.

(** The buffer after the insertion of a new key. *)
Definition inserted (r : RingBuffer) (key : string) (v : V) (idx : gmap string nat) (h n : nat) :
    RingBuffer :=
  mkRingBuffer (<[tail r := mkEntry key v]> (data r)) (<[key := tail r]> idx) h
    ((tail r + 1) mod capacity r)%nat n (capacity r).

Lemma tail_lt r : inv r -> (tail r < capacity r)%nat.
Proof. intros Hi. rewrite (inv_tail _ Hi). by apply slot_lt. Qed.

Lemma Put_room r key v :
  inv r -> index r !! key = None -> (size r < capacity r)%nat ->
  Put r key v = Ok (inserted r key v (index r) (head r) (S (size r))).
Proof.
  intros Hi Hs Hlt. unfold Put. rewrite Hs. destruct (Nat.eqb_spec (size r) (capacity r)); [lia|].
  cbn [mbind outcome_bind]. rewrite slot_set_ok; [done|]. rewrite (inv_data _ Hi). by apply tail_lt.
Qed.

Lemma Put_full r key v e :
  inv r -> index r !! key = None -> size r = capacity r -> data r !! head r = Some e ->
  Put r key v =
    Ok (inserted r key v (delete (e_key e) (index r)) ((head r + 1) mod capacity r)%nat (size r)).
Proof.
  intros Hi Hs Hlt He. unfold Put. rewrite Hs, (proj2 (Nat.eqb_eq _ _) Hlt).
  rewrite (slot_get_ok _ _ _ He). cbn [mbind outcome_bind].
  rewrite slot_set_ok; [done|]. rewrite (inv_data _ Hi). by apply tail_lt.
Qed.

Lemma slot_of_next r i :
  inv r -> (((head r + 1) mod capacity r + i) mod capacity r)%nat = slot_of r (S i).
Proof. intros Hi. apply mod_succ. pose proof (inv_capacity _ Hi). lia. Qed.

Lemma tail_next r : inv r -> ((tail r + 1) mod capacity r)%nat = slot_of r (S (size r)).
Proof.
  intros Hi. rewrite (inv_tail _ Hi). unfold slot_of. rewrite Nat.Div0.add_mod_idemp_l. f_equal. lia.
Qed.

Lemma inserted_room_inv r key v :
  inv r -> index r !! key = None -> (size r < capacity r)%nat ->
  inv (inserted r key v (index r) (head r) (S (size r))).
Proof.
  intros Hi Hs Hlt. pose proof (tail_lt r Hi) as Ht. constructor; simpl.
  - apply (inv_capacity _ Hi).
  - rewrite length_insert. apply (inv_data _ Hi).
  - apply (inv_head _ Hi).
  - lia.
  - exact (tail_next r Hi).
  - intros k s Hk. destruct (decide (key = k)) as [<-|Hne].
    + rewrite lookup_insert_eq in Hk. injection Hk as <-.
      exists (size r), (mkEntry key v). split_and!; [lia|apply (inv_tail _ Hi)| |done].
      apply list_lookup_insert_eq. by rewrite (inv_data _ Hi).
    + rewrite lookup_insert_ne in Hk by done.
      destruct (inv_index _ Hi _ _ Hk) as (i & e & Hil & -> & Hd & <-).
      exists i, e. split_and!; [lia|done| |done].
      rewrite list_lookup_insert_ne; [done|]. rewrite (inv_tail _ Hi). intros He.
      apply slot_of_inj in He; [|done|lia|lia]. lia.
Qed.

Lemma inserted_full_inv r key v e :
  inv r -> index r !! key = None -> size r = capacity r -> data r !! head r = Some e ->
  inv (inserted r key v (delete (e_key e) (index r)) ((head r + 1) mod capacity r)%nat (size r)).
Proof.
  intros Hi Hs Hfull He. pose proof (tail_lt r Hi) as Ht. pose proof (inv_capacity _ Hi) as Hc.
  assert (tail r = head r) as Hth by (rewrite (inv_tail _ Hi), Hfull; by apply slot_of_full).
  constructor; simpl.
  - done.
  - rewrite length_insert. apply (inv_data _ Hi).
  - apply Nat.mod_upper_bound. lia.
  - lia.
  - rewrite tail_next by done. exact (eq_sym (slot_of_next r _ Hi)).
  - intros k s Hk. destruct (decide (key = k)) as [<-|Hne].
    + rewrite lookup_insert_eq in Hk. injection Hk as <-.
      exists (size r - 1)%nat, (mkEntry key v). split_and!; [lia| | |done].
      * unfold slot_of at 1. simpl. rewrite slot_of_next by done.
        replace (S (size r - 1)) with (size r) by lia. apply (inv_tail _ Hi).
      * apply list_lookup_insert_eq. by rewrite (inv_data _ Hi).
    + rewrite lookup_insert_ne, lookup_delete_Some in Hk by done. destruct Hk as [Hek Hk].
      destruct (inv_index _ Hi _ _ Hk) as (i & e' & Hil & -> & Hd & <-).
      assert (i <> 0)%nat as Hi0.
      { intros ->. rewrite slot_of_0 in Hd by done. congruence. }
      exists (i - 1)%nat, e'. split_and!; [lia| | |done].
      * unfold slot_of at 2. simpl. rewrite slot_of_next by done. f_equal. lia.
      * rewrite list_lookup_insert_ne; [done|]. rewrite Hth, <- (slot_of_0 r) by done. intros E.
        apply slot_of_inj in E; [|done|lia|lia]. lia.
Qed.

Lemma Put_inv r key v :
  inv r -> exists r', Put r key v = Ok r' /\ inv r' /\ capacity r' = capacity r.
Proof.
  intros Hi. destruct (index r !! key) as [s|] eqn:Hs.
  - exists (updated r s (mkEntry key v)). rewrite (Put_old r key v s) by done.
    split_and!; [done|by apply updated_inv|done].
  - destruct (decide (size r = capacity r)) as [Hf|Hf].
    + destruct (slot_data r 0 Hi) as [e He]. rewrite slot_of_0 in He by done.
      eexists. rewrite (Put_full r key v e) by done.
      split_and!; [done|by apply inserted_full_inv|done].
    + pose proof (inv_size _ Hi). eexists. rewrite Put_room by (done || lia).
      split_and!; [done|apply inserted_room_inv; done || lia|done].
Qed.

(** The buffer without the map entry of a key. *)
Definition deleted (r : RingBuffer) (key : string) : RingBuffer :=
  mkRingBuffer (data r) (delete key (index r)) (head r) (tail r) (size r) (capacity r).

Lemma deleted_inv r key : inv r -> inv (deleted r key).
Proof.
  intros []. constructor; simpl; try done.
  intros k s [_ Hk]%lookup_delete_Some. by apply inv_index0.
Qed.

(** What [Get] finds, in terms of the map and the slots. *)
Definition find (r : RingBuffer) (key : string) : option V :=
  s ← index r !! key; e_value <$> data r !! s.

Lemma Get_find r key :
  inv r -> Get r key = Ok (match find r key with Some v => (v, true) | None => (zero, false) end).
Proof.
  intros Hi. unfold Get, find. destruct (index r !! key) as [s|] eqn:Hs; [|done]. simpl.
  destruct (inv_index _ Hi _ _ Hs) as (i & e & _ & -> & Hd & _).
  by rewrite (slot_get_ok _ _ _ Hd), Hd.
Qed.

Lemma GetAndDelete_find r key :
  inv r ->
  GetAndDelete r key =
    Ok (match find r key with
        | Some v => (v, true, deleted r key)
        | None => (zero, false, r)
        end).
Proof.
  intros Hi. unfold GetAndDelete, find. destruct (index r !! key) as [s|] eqn:Hs; [|done]. simpl.
  destruct (inv_index _ Hi _ _ Hs) as (i & e & _ & -> & Hd & _).
  by rewrite (slot_get_ok _ _ _ Hd), Hd.
Qed.

(** ** The specification: entries in order of insertion, distinct keys *)

Fixpoint queue_get (q : list entry) (k : string) : option V :=
  match q with
  | [] => None
  | e :: q' => if decide (e_key e = k) then Some (e_value e) else queue_get q' k
  end.

(** A known key keeps its place; a new one goes to the end, and when there are [c] entries the
    oldest makes room. *)
Definition queue_put (c : nat) (q : list entry) (k : string) (v : V) : list entry :=
  if decide (k ∈ map e_key q)
  then map (fun e => if decide (e_key e = k) then mkEntry k v else e) q
  else (if (length q =? c)%nat then drop 1 q else q) ++ [mkEntry k v].

Record represents (r : RingBuffer) (q : list entry) : Prop := {
  rep_inv : inv r;
  rep_complete : complete r;
  rep_length : length q = size r;
  rep_data i : (i < size r)%nat -> data r !! slot_of r i = q !! i
}.

Lemma rep_index r q i e :
  represents r q -> q !! i = Some e -> index r !! e_key e = Some (slot_of r i).
Proof.
  intros Hr Hq. assert (i < size r)%nat as Hi.
  { rewrite <- (rep_length _ _ Hr). by eapply lookup_lt_Some. }
  destruct (rep_complete _ _ Hr i Hi) as (e' & Hd & Hk).
  rewrite (rep_data _ _ Hr i Hi), Hq in Hd. injection Hd as ->. done.
Qed.

Lemma rep_member r q k s :
  represents r q -> index r !! k = Some s ->
  exists i e, q !! i = Some e /\ e_key e = k /\ s = slot_of r i /\ (i < size r)%nat.
Proof.
  intros Hr Hs. destruct (inv_index _ (rep_inv _ _ Hr) _ _ Hs) as (i & e & Hi & -> & Hd & <-).
  exists i, e. rewrite (rep_data _ _ Hr i Hi) in Hd. done.
Qed.

Lemma rep_keys r q k : represents r q -> (k ∈ map e_key q <-> is_Some (index r !! k)).
Proof.
  intros Hr. split.
  - intros (e & -> & He)%list_elem_of_fmap. apply list_elem_of_lookup in He as [i Hi].
    rewrite (rep_index _ _ _ _ Hr Hi). by eexists.
  - intros [s Hs]. destruct (rep_member _ _ _ _ Hr Hs) as (i & e & Hq & <- & _).
    apply list_elem_of_fmap_2. by eapply list_elem_of_lookup_2.
Qed.

Lemma queue_get_unique q i e :
  q !! i = Some e -> (forall j e', q !! j = Some e' -> e_key e' = e_key e -> j = i) ->
  queue_get q (e_key e) = Some (e_value e).
Proof.
  revert i; induction q as [|e0 q IH]; intros i Hi Hu; [done|]. simpl.
  destruct (decide (e_key e0 = e_key e)) as [He|He].
  - rewrite <- (Hu 0%nat e0 eq_refl He) in Hi. simpl in Hi. congruence.
  - destruct i as [|i]; [simpl in Hi; congruence|]. apply (IH i Hi).
    intros j e' Hj Hk. specialize (Hu (S j) e' Hj Hk). lia.
Qed.

Lemma queue_get_None q k : k ∉ map e_key q -> queue_get q k = None.
Proof.
  induction q as [|e q IH]; simpl; [done|]. rewrite not_elem_of_cons. intros [Hk Hq].
  rewrite decide_False by congruence. auto.
Qed.

Lemma find_queue_get r q k : represents r q -> find r k = queue_get q k.
Proof.
  intros Hr. unfold find. destruct (index r !! k) as [s|] eqn:Hs; simpl.
  - destruct (rep_member _ _ _ _ Hr Hs) as (i & e & Hq & <- & -> & Hi).
    rewrite (rep_data _ _ Hr i Hi), Hq. simpl. symmetry. apply (queue_get_unique q i); [done|].
    intros j e' Hj Hk. apply (rep_index _ _ _ _ Hr) in Hj as Hjs. rewrite Hk, Hs in Hjs.
    injection Hjs as Hjs. assert (j < size r)%nat.
    { rewrite <- (rep_length _ _ Hr). by eapply lookup_lt_Some. }
    pose proof (inv_size _ (rep_inv _ _ Hr)).
    apply slot_of_inj in Hjs; [done|apply (rep_inv _ _ Hr)|lia|lia].
  - symmetry. apply queue_get_None. rewrite rep_keys by done. rewrite Hs. by intros [].
Qed.

Lemma updated_represents r q key v s :
  represents r q -> index r !! key = Some s ->
  represents (updated r s (mkEntry key v)) (queue_put (capacity r) q key v).
Proof.
  intros Hr Hs. pose proof (rep_inv _ _ Hr) as Hi. pose proof (inv_size _ Hi) as Hsz.
  unfold queue_put. rewrite decide_True by (apply (rep_keys r q); [done|by eexists]).
  assert (forall i e, q !! i = Some e ->
    (<[s := mkEntry key v]> (data r)) !! slot_of r i =
      Some (if decide (e_key e = key) then mkEntry key v else e)) as Hd.
  { intros i e Hq. pose proof (rep_index _ _ _ _ Hr Hq) as Hx.
    destruct (decide (e_key e = key)) as [<-|Hne].
    - rewrite Hs in Hx. injection Hx as ->. apply list_lookup_insert_eq.
      rewrite (inv_data _ Hi). by apply slot_lt.
    - rewrite list_lookup_insert_ne.
      + rewrite (rep_data _ _ Hr); [done|]. rewrite <- (rep_length _ _ Hr). by eapply lookup_lt_Some.
      + intros ->. destruct (rep_member _ _ _ _ Hr Hs) as (j & e' & Hj & Hk & E & Hjs).
        apply slot_of_inj in E; [|done| |lia].
        * subst j. congruence.
        * apply lookup_lt_Some in Hq. rewrite (rep_length _ _ Hr) in Hq. lia. }
  constructor.
  - by apply updated_inv.
  - intros i Hsi. simpl in Hsi. rewrite <- (rep_length _ _ Hr) in Hsi.
    destruct (lookup_lt_is_Some_2 q i Hsi) as [e He]. exists (if decide (e_key e = key) then mkEntry key v else e).
    split; [by apply Hd|]. destruct (decide (e_key e = key)) as [<-|];
      exact (rep_index _ _ _ _ Hr He).
  - rewrite length_map. apply (rep_length _ _ Hr).
  - intros i Hsi. simpl in *. rewrite <- (rep_length _ _ Hr) in Hsi.
    destruct (lookup_lt_is_Some_2 q i Hsi) as [e He].
    etransitivity; [exact (Hd i e He)|]. symmetry.
    etransitivity; [apply list_lookup_fmap|]. by rewrite He.
Qed.

Lemma rep_distinct r q i j e e' :
  represents r q -> q !! i = Some e -> q !! j = Some e' -> e_key e = e_key e' -> i = j.
Proof.
  intros Hr Hi Hj Hk. pose proof (rep_index _ _ _ _ Hr Hi) as H1.
  pose proof (rep_index _ _ _ _ Hr Hj) as H2. rewrite Hk, H2 in H1. injection H1 as H1.
  apply lookup_lt_Some in Hi, Hj. rewrite (rep_length _ _ Hr) in Hi, Hj.
  pose proof (inv_size _ (rep_inv _ _ Hr)).
  symmetry. apply (slot_of_inj r); [apply (rep_inv _ _ Hr)|lia|lia|done].
Qed.

Lemma inserted_room_represents r q key v :
  represents r q -> index r !! key = None -> (size r < capacity r)%nat ->
  represents (inserted r key v (index r) (head r) (S (size r))) (q ++ [mkEntry key v]).
Proof.
  intros Hr Hs Hlt. pose proof (rep_inv _ _ Hr) as Hi. pose proof (tail_lt r Hi) as Ht.
  pose proof (inv_tail _ Hi) as Htl.
  assert (forall i, (i < S (size r))%nat ->
    (<[tail r := mkEntry key v]> (data r)) !! slot_of r i = (q ++ [mkEntry key v]) !! i) as Hd.
  { intros i Hil. destruct (decide (i = size r)) as [->|Hne].
    - rewrite Htl, list_lookup_insert_eq by (rewrite (inv_data _ Hi); by apply slot_lt).
      by rewrite lookup_app_r, (rep_length _ _ Hr), Nat.sub_diag by (rewrite (rep_length _ _ Hr); lia).
    - rewrite list_lookup_insert_ne.
      + rewrite lookup_app_l by (rewrite (rep_length _ _ Hr); lia). apply (rep_data _ _ Hr). lia.
      + rewrite Htl. intros E. apply slot_of_inj in E; [lia|done|lia|lia]. }
  constructor.
  - by apply inserted_room_inv.
  - intros i Hil. simpl in Hil. destruct (decide (i = size r)) as [->|Hne].
    + exists (mkEntry key v). split.
      * etransitivity; [apply (Hd (size r)); lia|].
        by rewrite lookup_app_r, (rep_length _ _ Hr), Nat.sub_diag by (rewrite (rep_length _ _ Hr); lia).
      * simpl. rewrite lookup_insert_eq. f_equal. exact Htl.
    + destruct (lookup_lt_is_Some_2 q i) as [e He]; [rewrite (rep_length _ _ Hr); lia|].
      exists e. split.
      * etransitivity; [apply (Hd i); lia|]. by rewrite lookup_app_l by (rewrite (rep_length _ _ Hr); lia).
      * pose proof (rep_index _ _ _ _ Hr He) as Hx. simpl. rewrite lookup_insert_ne; [exact Hx|].
        intros ->. congruence.
  - rewrite length_app. simpl. rewrite (rep_length _ _ Hr). lia.
  - exact Hd.
Qed.

Lemma inserted_full_represents r q key v e :
  represents r q -> index r !! key = None -> size r = capacity r -> data r !! head r = Some e ->
  represents (inserted r key v (delete (e_key e) (index r)) ((head r + 1) mod capacity r)%nat (size r))
    (drop 1 q ++ [mkEntry key v]).
Proof.
  intros Hr Hs Hfull He. pose proof (rep_inv _ _ Hr) as Hi. pose proof (tail_lt r Hi) as Ht.
  pose proof (inv_capacity _ Hi) as Hc. pose proof (rep_length _ _ Hr) as Hql.
  assert (tail r = head r) as Hth by (rewrite (inv_tail _ Hi), Hfull; by apply slot_of_full).
  assert (q !! 0%nat = Some e) as Hq0.
  { rewrite <- (rep_data _ _ Hr) by lia. by rewrite slot_of_0. }
  assert (forall i, (i < size r)%nat ->
    (<[tail r := mkEntry key v]> (data r)) !! slot_of r (S i) = (drop 1 q ++ [mkEntry key v]) !! i) as Hd.
  { intros i Hil. destruct (decide (S i = size r)) as [Hlast|Hne].
    - rewrite Hlast, Hfull, slot_of_full, <- Hth by done.
      rewrite list_lookup_insert_eq by (by rewrite (inv_data _ Hi)).
      rewrite lookup_app_r by (rewrite length_drop; lia). rewrite length_drop.
      by replace (i - (length q - 1))%nat with 0%nat by lia.
    - rewrite list_lookup_insert_ne.
      + rewrite lookup_app_l by (rewrite length_drop; lia). rewrite lookup_drop.
        apply (rep_data _ _ Hr). lia.
      + rewrite Hth, <- (slot_of_0 r) by done. intros E.
        apply slot_of_inj in E; [lia|done|lia|lia]. }
  constructor.
  - by apply inserted_full_inv.
  - intros i Hil. simpl in Hil.
    assert (slot_of (inserted r key v (delete (e_key e) (index r))
      ((head r + 1) mod capacity r)%nat (size r)) i = slot_of r (S i)) as -> by exact (slot_of_next r i Hi).
    destruct (decide (S i = size r)) as [Hlast|Hne].
    + exists (mkEntry key v). split.
      * etransitivity; [apply (Hd i); lia|].
        rewrite lookup_app_r by (rewrite length_drop; lia). rewrite length_drop.
        by replace (i - (length q - 1))%nat with 0%nat by lia.
      * simpl. rewrite lookup_insert_eq. f_equal. rewrite Hlast. apply (inv_tail _ Hi).
    + destruct (lookup_lt_is_Some_2 q (S i)) as [e' He']; [lia|].
      pose proof (rep_index _ _ _ _ Hr He') as Hx.
      exists e'. split.
      * etransitivity; [apply (Hd i); lia|].
        rewrite lookup_app_l by (rewrite length_drop; lia). by rewrite lookup_drop.
      * simpl. rewrite lookup_insert_ne, lookup_delete_ne; [exact Hx| |intros ->; congruence].
        intros Hk. pose proof (rep_distinct _ _ _ _ _ _ Hr Hq0 He' Hk). lia.
  - rewrite length_app, length_drop. simpl. lia.
  - intros i Hil. simpl in Hil.
    assert (slot_of (inserted r key v (delete (e_key e) (index r))
      ((head r + 1) mod capacity r)%nat (size r)) i = slot_of r (S i)) as -> by exact (slot_of_next r i Hi).
    by apply Hd.
Qed.

(** One insertion refines the specification. *)
Lemma Put_represents r q key v :
  represents r q ->
  exists r', Put r key v = Ok r' /\ represents r' (queue_put (capacity r) q key v) /\
             capacity r' = capacity r.
Proof.
  intros Hr. pose proof (rep_inv _ _ Hr) as Hi. destruct (index r !! key) as [s|] eqn:Hs.
  - exists (updated r s (mkEntry key v)). rewrite (Put_old r key v s) by done.
    split_and!; [done|by apply updated_represents|done].
  - unfold queue_put. rewrite decide_False.
    2: { rewrite (rep_keys r q) by done. rewrite Hs. by intros []. }
    rewrite (rep_length _ _ Hr). pose proof (inv_size _ Hi).
    destruct (Nat.eqb_spec (size r) (capacity r)) as [Hf|Hf].
    + destruct (slot_data r 0 Hi) as [e He]. rewrite slot_of_0 in He by done.
      eexists. rewrite (Put_full r key v e) by done.
      split_and!; [done|by apply inserted_full_represents|done].
    + eexists. rewrite Put_room by (done || lia).
      split_and!; [done|apply inserted_room_represents; done || lia|done].
Qed.

Lemma New_represents c :
  1 <= c -> exists r, New c = Ok r /\ represents r [] /\ capacity r = Z.to_nat c.
Proof.
  intros Hc. unfold New. destruct (Z.ltb_spec c 1); [lia|]. eexists. split; [done|].
  split; [|done]. constructor.
  - constructor; simpl; try lia; try done.
    + by rewrite length_replicate.
    + unfold slot_of. simpl. symmetry. apply Nat.Div0.mod_0_l.
  - intros i Hi. simpl in Hi. lia.
  - done.
  - intros i Hi. simpl in Hi. lia.
Qed.

Lemma Entries_represents r q : represents r q -> Entries r = Ok q.
Proof.
  intros Hr. unfold Entries.
  enough (forall n i, (i + n = size r)%nat -> Entries_from r i n = Ok (drop i q)) as Hn.
  { by rewrite (Hn (size r) 0%nat eq_refl). }
  induction n as [|n IH]; intros i Hin; simpl.
  - rewrite drop_ge; [done|]. rewrite (rep_length _ _ Hr). lia.
  - destruct (lookup_lt_is_Some_2 q i) as [e He]; [rewrite (rep_length _ _ Hr); lia|].
    rewrite (slot_get_ok _ _ e).
    2: { rewrite <- He. apply (rep_data _ _ Hr). lia. }
    cbn [mbind outcome_bind]. rewrite IH by lia. cbn [mbind outcome_bind].
    by rewrite (drop_S q e i).
Qed.

(** Several insertions. *)
Fixpoint Puts (r : RingBuffer) (kvs : list (string * V)) : outcome RingBuffer :=
  match kvs with
  | [] => Ok r
  | (k, v) :: kvs' => r' ← Put r k v; Puts r' kvs'
  end.

Lemma Puts_represents r q kvs :
  represents r q ->
  exists r', Puts r kvs = Ok r' /\ capacity r' = capacity r /\
    represents r' (foldl (fun q kv => queue_put (capacity r) q kv.1 kv.2) q kvs).
Proof.
  revert r q; induction kvs as [|[k v] kvs IH]; intros r q Hr; simpl; [by exists r|].
  destruct (Put_represents r q k v Hr) as (r1 & -> & Hr1 & Hc). cbn [mbind outcome_bind].
  destruct (IH _ _ Hr1) as (r2 & -> & Hc2 & Hr2). exists r2. rewrite Hc in *. done.
Qed.

Lemma Newest_represents r q :
  represents r q -> Newest r = Ok (match last q with Some e => (e, true) | None => (mkEntry "" zero, false) end).
Proof.
  intros Hr. pose proof (rep_inv _ _ Hr) as Hi. pose proof (inv_capacity _ Hi) as Hc.
  unfold Newest. destruct (Nat.eqb_spec (size r) 0) as [Hz|Hz].
  - by rewrite (nil_length_inv q) by (rewrite (rep_length _ _ Hr); done).
  - destruct (lookup_lt_is_Some_2 q (size r - 1)) as [e He]; [rewrite (rep_length _ _ Hr); lia|].
    assert (((tail r + capacity r - 1) mod capacity r)%nat = slot_of r (size r - 1)) as ->.
    { rewrite (inv_tail _ Hi). unfold slot_of.
      rewrite <- Nat.add_sub_assoc, Nat.Div0.add_mod_idemp_l by done.
      replace (head r + size r + (capacity r - 1))%nat with ((head r + (size r - 1)) + 1 * capacity r)%nat by lia.
      apply Nat.Div0.mod_add. }
    rewrite (slot_get_ok _ _ e) by (rewrite <- He; apply (rep_data _ _ Hr); lia).
    cbn [mbind outcome_bind]. rewrite last_lookup, (rep_length _ _ Hr).
    replace (pred (size r)) with (size r - 1)%nat by lia. by rewrite He.
Qed.

Lemma Oldest_represents r q :
  represents r q ->
  Oldest r = Ok (match q !! 0%nat with Some e => (e, true) | None => (mkEntry "" zero, false) end).
Proof.
  intros Hr. pose proof (rep_inv _ _ Hr) as Hi. unfold Oldest.
  destruct (Nat.eqb_spec (size r) 0) as [Hz|Hz].
  - by rewrite (nil_length_inv q) by (rewrite (rep_length _ _ Hr); done).
  - destruct (lookup_lt_is_Some_2 q 0) as [e He]; [rewrite (rep_length _ _ Hr); lia|].
    rewrite <- (slot_of_0 r), (slot_get_ok _ _ e), He; [done| |done].
    rewrite <- He. apply (rep_data _ _ Hr). lia.
Qed.

(** ** With deletions *)

Inductive op :=
| OPut (k : string) (v : V)
| OTake (k : string).

Definition do_op (r : RingBuffer) (o : op) : outcome RingBuffer :=
  match o with
  | OPut k v => Put r k v
  | OTake k => '(_, _, r') ← GetAndDelete r k; Ok r'
  end.

Fixpoint do_ops (r : RingBuffer) (os : list op) : outcome RingBuffer :=
  match os with
  | [] => Ok r
  | o :: os' => r' ← do_op r o; do_ops r' os'
  end.

(** The last value stored under each key and not taken since. *)
Definition stored_op (g : gmap string V) (o : op) : gmap string V :=
  match o with
  | OPut k v => <[k := v]> g
  | OTake k => delete k g
  end.
Definition stored (g : gmap string V) (os : list op) : gmap string V := foldl stored_op g os.

Definition sound (r : RingBuffer) (g : gmap string V) : Prop :=
  forall k v, find r k = Some v -> g !! k = Some v.

Lemma inserted_find r key v idx h n k :
  inv r -> (forall s, idx !! k = Some s -> index r !! k = Some s) ->
  (forall s, idx !! k = Some s -> s <> tail r) ->
  find (inserted r key v idx h n) k =
    if decide (k = key) then Some v else s ← idx !! k; e_value <$> data r !! s.
Proof.
  intros Hi Hidx Hne. unfold find, inserted. simpl. destruct (decide (k = key)) as [->|Hk].
  - rewrite lookup_insert_eq. simpl.
    rewrite list_lookup_insert_eq by (rewrite (inv_data _ Hi); by apply tail_lt). done.
  - rewrite lookup_insert_ne by done. destruct (idx !! k) as [s|] eqn:E; [|done]. simpl.
    rewrite list_lookup_insert_ne; [done|]. by apply not_eq_sym, Hne.
Qed.

Lemma index_not_tail r k s :
  inv r -> index r !! k = Some s -> (size r < capacity r)%nat -> s <> tail r.
Proof.
  intros Hi Hs Hlt. destruct (inv_index _ Hi _ _ Hs) as (i & e & Hil & -> & _).
  rewrite (inv_tail _ Hi). intros E. apply slot_of_inj in E; [lia|done|lia|lia].
Qed.

Lemma index_not_head r k s e :
  inv r -> index r !! k = Some s -> size r = capacity r -> data r !! head r = Some e ->
  e_key e <> k -> s <> tail r.
Proof.
  intros Hi Hs Hf He Hk. destruct (inv_index _ Hi _ _ Hs) as (i & e' & Hil & -> & Hd & <-).
  rewrite (inv_tail _ Hi), Hf, slot_of_full by done. intros E. rewrite E in Hd. congruence.
Qed.

(** A new key is found, another key is found unless its entry is deleted with the evicted slot. *)
Lemma Put_find r key v r' k :
  inv r -> Put r key v = Ok r' ->
  find r' k = (if decide (k = key) then Some v else find r k) \/
  (find r' k = None /\ k <> key /\ size r = capacity r /\ index r !! key = None /\
   exists e, data r !! head r = Some e /\ e_key e = k).
Proof.
  intros Hi. destruct (index r !! key) as [s|] eqn:Hs.
  - rewrite (Put_old r key v s) by done. intros [= <-]. left. unfold find, updated. simpl.
    destruct (inv_index _ Hi _ _ Hs) as (i & e & Hil & -> & Hd & <-).
    destruct (decide (k = e_key e)) as [->|Hk].
    + rewrite Hs. simpl. rewrite list_lookup_insert_eq; [done|]. rewrite (inv_data _ Hi). by apply slot_lt.
    + destruct (index r !! k) as [s|] eqn:Hsk; [|done]. simpl.
      rewrite list_lookup_insert_ne; [done|]. intros <-.
      destruct (inv_index _ Hi _ _ Hsk) as (j & e' & _ & _ & Hd' & <-). congruence.
  - destruct (decide (size r = capacity r)) as [Hf|Hf].
    + destruct (slot_data r 0 Hi) as [e He]. rewrite slot_of_0 in He by done.
      rewrite (Put_full r key v e) by done. intros [= <-].
      destruct (decide (k = key)) as [->|Hk].
      { left. unfold find. simpl. rewrite lookup_insert_eq. simpl.
        rewrite list_lookup_insert_eq; [done|]. rewrite (inv_data _ Hi). by apply tail_lt. }
      destruct (decide (e_key e = k)) as [<-|Hek].
      { right. split_and!; [|done..|by exists e]. unfold find. simpl.
        by rewrite lookup_insert_ne, lookup_delete_eq by done. }
      left. rewrite inserted_find; [|done| |].
      * rewrite decide_False by done. by rewrite lookup_delete_ne by done.
      * intros s. by rewrite lookup_delete_ne.
      * intros s. rewrite lookup_delete_ne by done. intros Hsk.
        exact (index_not_head r k s e Hi Hsk Hf He Hek).
    + pose proof (inv_size _ Hi). rewrite Put_room by (done || lia). intros [= <-]. left.
      apply inserted_find; [done|done|]. intros s Hsk.
      exact (index_not_tail r k s Hi Hsk ltac:(lia)).
Qed.

Lemma do_op_sound r g o :
  inv r -> sound r g -> exists r', do_op r o = Ok r' /\ inv r' /\ sound r' (stored_op g o).
Proof.
  intros Hi Hg. destruct o as [k v|k]; simpl.
  - destruct (Put_inv r k v Hi) as (r' & Hr & Hi' & _). exists r'. split_and!; [done|done|].
    intros k' v' Hf. destruct (Put_find r k v r' k' Hi Hr) as [E|(E & _)]; rewrite Hf in E; [|done].
    destruct (decide (k' = k)) as [->|Hne].
    + injection E as ->. apply lookup_insert_eq.
    + rewrite lookup_insert_ne by done. by apply Hg.
  - rewrite GetAndDelete_find by done. destruct (find r k) as [v|] eqn:E; cbn [mbind outcome_bind].
    + exists (deleted r k). split_and!; [done|by apply deleted_inv|].
      intros k' v' Hf. unfold find, deleted in Hf. simpl in Hf.
      destruct (decide (k = k')) as [<-|Hne]; [by rewrite lookup_delete_eq in Hf|].
      rewrite lookup_delete_ne in Hf by done. rewrite lookup_delete_ne by done. by apply Hg.
    + exists r. split_and!; [done|done|]. intros k' v' Hf.
      destruct (decide (k = k')) as [<-|Hne]; [congruence|].
      rewrite lookup_delete_ne by done. by apply Hg.
Qed.

Lemma do_ops_sound r g os :
  inv r -> sound r g -> exists r', do_ops r os = Ok r' /\ inv r' /\ sound r' (stored g os).
Proof.
  revert r g; induction os as [|o os IH]; intros r g Hi Hg; simpl; [by exists r|].
  destruct (do_op_sound r g o Hi Hg) as (r1 & -> & Hi1 & Hg1). cbn [mbind outcome_bind].
  by apply IH.
Qed.

(** ** How long a key stays

    A key whose slot is the only one with it is not lost before the slot itself is the oldest
    and is evicted: every insertion of another key moves it at most one place forward. *)

Lemma room_data r key v j :
  inv r -> (size r < capacity r)%nat -> (j < S (size r))%nat ->
  <[tail r := mkEntry key v]> (data r) !! slot_of r j =
    if decide (j = size r) then Some (mkEntry key v) else data r !! slot_of r j.
Proof.
  intros Hi Hlt Hj. rewrite (inv_tail _ Hi). case_decide as E.
  - subst j. apply list_lookup_insert_eq. rewrite (inv_data _ Hi). by apply slot_lt.
  - apply list_lookup_insert_ne. intros Hs. apply slot_of_inj in Hs; [lia|done|lia|lia].
Qed.

Lemma full_data r key v j :
  inv r -> size r = capacity r -> (j < size r)%nat ->
  <[tail r := mkEntry key v]> (data r) !! slot_of r (S j) =
    if decide (S j = size r) then Some (mkEntry key v) else data r !! slot_of r (S j).
Proof.
  intros Hi Hf Hj. pose proof (inv_tail _ Hi) as Ht. case_decide as E.
  - rewrite E, <- Ht. apply list_lookup_insert_eq. rewrite (inv_data _ Hi). by apply tail_lt.
  - apply list_lookup_insert_ne. rewrite Ht, Hf, slot_of_full, <- (slot_of_0 r) by done. intros Hs.
    apply slot_of_inj in Hs; [lia|done|lia|lia].
Qed.

(** No slot with the key, but the [i]th oldest. *)
Definition only (r : RingBuffer) (k : string) (i : nat) : Prop :=
  forall j e, (j < size r)%nat -> j <> i -> data r !! slot_of r j = Some e -> e_key e <> k.

Record placed (r : RingBuffer) (k : string) (v : V) (i : nat) : Prop := {
  pl_lt : (i < size r)%nat;
  pl_data : data r !! slot_of r i = Some (mkEntry k v);
  pl_index : index r !! k = Some (slot_of r i);
  pl_only : only r k i
}.

(** No slot with the key at all. *)
Definition absent (r : RingBuffer) (k : string) : Prop := forall i, only r k i.

Lemma absent_index r k : inv r -> absent r k -> index r !! k = None.
Proof.
  intros Hi Ha. destruct (index r !! k) as [s|] eqn:Hs; [|done].
  destruct (inv_index _ Hi _ _ Hs) as (i & e & Hl & -> & Hd & Hk).
  destruct (Ha (S i) i e Hl ltac:(lia) Hd Hk).
Qed.

Lemma only_updated r key v s k i :
  inv r -> index r !! key = Some s -> key <> k -> only r k i -> only (updated r s (mkEntry key v)) k i.
Proof.
  intros Hi Hs Hne Ho j e Hj Hji.
  change (<[s := mkEntry key v]> (data r) !! slot_of r j = Some e -> e_key e <> k).
  destruct (decide (s = slot_of r j)) as [->|Hd].
  - rewrite list_lookup_insert_eq by (rewrite (inv_data _ Hi); by apply slot_lt). by intros [= <-].
  - rewrite list_lookup_insert_ne by done. by apply Ho.
Qed.

Lemma only_room r key v k i :
  inv r -> (size r < capacity r)%nat -> only r k i -> (key <> k \/ i = size r) ->
  only (inserted r key v (index r) (head r) (S (size r))) k i.
Proof.
  intros Hi Hlt Ho Hk j e Hj Hji Hd. simpl in Hj.
  change (<[tail r := mkEntry key v]> (data r) !! slot_of r j = Some e) in Hd.
  rewrite room_data in Hd by done. case_decide.
  - destruct Hk; [|lia]. by injection Hd as <-.
  - apply (Ho j e); [lia|done|done].
Qed.

Lemma slot_of_shifted r key v idx n i :
  inv r -> slot_of (inserted r key v idx ((head r + 1) mod capacity r)%nat n) i = slot_of r (S i).
Proof. exact (slot_of_next r i). Qed.

Lemma only_full r key v idx k i :
  inv r -> size r = capacity r -> only r k (S i) -> (key <> k \/ S i = size r) ->
  only (inserted r key v idx ((head r + 1) mod capacity r)%nat (size r)) k i.
Proof.
  intros Hi Hf Ho Hk j e Hj Hji Hd. simpl in Hj. rewrite slot_of_shifted in Hd by done.
  change (<[tail r := mkEntry key v]> (data r) !! slot_of r (S j) = Some e) in Hd.
  rewrite full_data in Hd by done. case_decide.
  - destruct Hk; [|lia]. by injection Hd as <-.
  - apply (Ho (S j) e); [lia|lia|done].
Qed.

(** Storing an absent key puts it last. *)
Lemma Put_absent r k v :
  inv r -> absent r k ->
  exists r', Put r k v = Ok r' /\ inv r' /\ capacity r' = capacity r /\
    placed r' k v (size r' - 1).
Proof.
  intros Hi Ha. pose proof (absent_index r k Hi Ha) as Hx. pose proof (inv_size _ Hi) as Hsz.
  destruct (Put_inv r k v Hi) as (r' & Hp & Hi' & Hc). exists r'. split_and!; [done..|].
  pose proof (inv_capacity _ Hi) as Hcp.
  destruct (decide (size r = capacity r)) as [Hf|Hf].
  - destruct (slot_data r 0 Hi) as [e He]. rewrite slot_of_0 in He by done.
    rewrite (Put_full r k v e) in Hp by done. injection Hp as <-.
    assert (S (size r - 1) = size r) as Hs1 by lia. constructor.
    + simpl. lia.
    + rewrite slot_of_shifted by done. cbn [inserted data]. rewrite full_data by (done || cbn; lia).
      by rewrite decide_True.
    + rewrite slot_of_shifted by done. cbn [inserted index size]. rewrite Hs1.
      rewrite lookup_insert_eq. f_equal. apply (inv_tail _ Hi).
    + apply only_full; [done|done|apply Ha|by right].
  - rewrite Put_room in Hp by (done || lia). injection Hp as <-.
    assert (size (inserted r k v (index r) (head r) (S (size r))) - 1 = size r)%nat as -> by (simpl; lia).
    constructor.
    + simpl. lia.
    + change (<[tail r := mkEntry k v]> (data r) !! slot_of r (size r) = Some (mkEntry k v)).
      rewrite room_data by (done || lia). by rewrite decide_True.
    + cbn [inserted index]. rewrite lookup_insert_eq. f_equal. apply (inv_tail _ Hi).
    + apply only_room; [done|lia|apply Ha|by right].
Qed.

Definition op_key (o : op) : string := match o with OPut k _ => k | OTake k => k end.

Lemma take_result r k :
  inv r -> do_op r (OTake k) = Ok (match find r k with Some _ => deleted r k | None => r end).
Proof.
  intros Hi. simpl. rewrite GetAndDelete_find by done. by destruct (find r k).
Qed.

(** An operation on another key leaves an absent key absent, *)
Lemma do_op_absent r o k :
  inv r -> absent r k -> op_key o <> k ->
  exists r', do_op r o = Ok r' /\ inv r' /\ capacity r' = capacity r /\ absent r' k.
Proof.
  intros Hi Ha Hne. pose proof (inv_size _ Hi) as Hsz. destruct o as [key v|key]; cbn [op_key] in Hne.
  - destruct (Put_inv r key v Hi) as (r' & Hp & Hi' & Hc). exists r'. split_and!; [done..|].
    destruct (index r !! key) as [s|] eqn:Hs.
    + rewrite (Put_old r key v s) in Hp by done. injection Hp as <-. intros i. by apply only_updated.
    + destruct (decide (size r = capacity r)) as [Hf|Hf].
      * destruct (slot_data r 0 Hi) as [e He]. rewrite slot_of_0 in He by done.
        rewrite (Put_full r key v e) in Hp by done. injection Hp as <-.
        intros i. apply only_full; [done|done|apply Ha|by left].
      * rewrite Put_room in Hp by (done || lia). injection Hp as <-.
        intros i. apply only_room; [done|lia|apply Ha|by left].
  - rewrite take_result by done. destruct (find r key).
    + exists (deleted r key). split_and!; [done|by apply deleted_inv|done|exact Ha].
    + by exists r.
Qed.

(** and moves a placed one at most one place towards its eviction. *)
Lemma do_op_placed r o k v i :
  inv r -> placed r k v i -> op_key o <> k -> (1 <= i + (capacity r - size r))%nat ->
  exists r' i', do_op r o = Ok r' /\ inv r' /\ capacity r' = capacity r /\ placed r' k v i' /\
    (i + (capacity r - size r) <= S (i' + (capacity r' - size r')))%nat.
Proof.
  intros Hi Hp Hne Hm. pose proof (inv_size _ Hi) as Hsz. destruct Hp as [Hl Hd Hx Ho].
  destruct o as [key w|key]; cbn [op_key] in Hne.
  2: { rewrite take_result by done. destruct (find r key).
    - exists (deleted r key), i. split_and!; [done|by apply deleted_inv|done| |simpl; lia].
      constructor; [done|done| |done]. simpl. by rewrite lookup_delete_ne.
    - exists r, i. split_and!; [done..|lia]. }
  destruct (Put_inv r key w Hi) as (r' & Hp & Hi' & Hc). exists r'.
  destruct (index r !! key) as [s|] eqn:Hs.
  - rewrite (Put_old r key w s) in Hp by done. injection Hp as <-.
    exists i. split_and!; [by apply Put_old|done..| |simpl; lia].
    constructor; [done| |done|by apply only_updated].
    change (<[s := mkEntry key w]> (data r) !! slot_of r i = Some (mkEntry k v)).
    destruct (inv_index _ Hi _ _ Hs) as (j & e & _ & -> & Hdj & Hk).
    rewrite list_lookup_insert_ne; [done|]. intros E. rewrite E, Hd in Hdj. injection Hdj as <-.
    by simpl in Hk.
  - assert (forall s, index r !! k = Some s -> k <> key) as Hkk by (intros; congruence).
    destruct (decide (size r = capacity r)) as [Hf|Hf].
    + destruct (slot_data r 0 Hi) as [e He]. rewrite slot_of_0 in He by done.
      rewrite (Put_full r key w e) in Hp by done. injection Hp as <-.
      destruct i as [|i]; [lia|]. exists i.
      split_and!; [by apply Put_full|done|done| |simpl; lia]. constructor.
      * simpl. lia.
      * rewrite slot_of_shifted by done. cbn [inserted data]. rewrite full_data by (done || lia).
        case_decide; [lia|done].
      * rewrite slot_of_shifted by done. cbn [inserted index].
        rewrite lookup_insert_ne, lookup_delete_ne; [done| |done].
        apply (Ho 0%nat e); [lia|lia|]. by rewrite slot_of_0.
      * apply only_full; [done|done|done|by left].
    + rewrite Put_room in Hp by (done || lia). injection Hp as <-. exists i.
      split_and!; [apply Put_room; done || lia|done|done| |simpl; lia]. constructor.
      * simpl. lia.
      * change (<[tail r := mkEntry key w]> (data r) !! slot_of r i = Some (mkEntry k v)).
        rewrite room_data by (done || lia). case_decide; [lia|done].
      * cbn [inserted index]. by rewrite lookup_insert_ne.
      * apply only_room; [done|lia|done|by left].
Qed.

Lemma placed_find r k v i : placed r k v i -> find r k = Some v.
Proof. intros []. unfold find. rewrite pl_index0. simpl. by rewrite pl_data0. Qed.

(** Several operations on other keys. *)
Lemma do_ops_absent r os k :
  inv r -> absent r k -> Forall (fun o => op_key o <> k) os ->
  exists r', do_ops r os = Ok r' /\ inv r' /\ capacity r' = capacity r /\ absent r' k.
Proof.
  intros Hi Ha Hos. revert r Hi Ha. induction Hos as [|o os Ho _ IH]; intros r Hi Ha; simpl; [by exists r|].
  destruct (do_op_absent r o k Hi Ha Ho) as (r1 & -> & Hi1 & <- & Ha1). cbn [mbind outcome_bind].
  by apply IH.
Qed.

Lemma do_ops_placed r os k v i :
  inv r -> placed r k v i -> Forall (fun o => op_key o <> k) os ->
  (length os <= i + (capacity r - size r))%nat ->
  exists r' i', do_ops r os = Ok r' /\ inv r' /\ placed r' k v i'.
Proof.
  intros Hi Hp Hos. revert r i Hi Hp.
  induction Hos as [|o os Ho _ IH]; intros r i Hi Hp Hl; simpl in *; [by exists r, i|].
  destruct (do_op_placed r o k v i Hi Hp Ho ltac:(lia)) as (r1 & i1 & -> & Hi1 & Hc & Hp1 & Hm).
  cbn [mbind outcome_bind]. apply (IH r1 i1 Hi1 Hp1). lia.
Qed.

Lemma do_ops_app r os1 os2 : do_ops r (os1 ++ os2) = (r' ← do_ops r os1; do_ops r' os2).
Proof.
  revert r; induction os1 as [|o os1 IH]; intros r; simpl; [done|].
  destruct (do_op r o); cbn [mbind outcome_bind]; [apply IH|done..].
Qed.

(** A key stored for the first time is still found after fewer than [capacity] operations on
    other keys. *)
Lemma stored_then_found r0 hist k v os :
  inv r0 -> absent r0 k -> Forall (fun o => op_key o <> k) hist ->
  Forall (fun o => op_key o <> k) os -> (length os < capacity r0)%nat ->
  exists r, do_ops r0 (hist ++ OPut k v :: os) = Ok r /\ inv r /\ find r k = Some v.
Proof.
  intros Hi Ha Hh Hos Hl. rewrite do_ops_app.
  destruct (do_ops_absent r0 hist k Hi Ha Hh) as (r1 & -> & Hi1 & Hc1 & Ha1). cbn [mbind outcome_bind do_ops].
  destruct (Put_absent r1 k v Hi1 Ha1) as (r2 & Hp & Hi2 & Hc2 & Hp2). cbn [do_op]. rewrite Hp.
  cbn [mbind outcome_bind].
  pose proof (pl_lt _ _ _ _ Hp2). pose proof (inv_size _ Hi2).
  destruct (do_ops_placed r2 os k v (size r2 - 1) Hi2 Hp2 Hos) as (r & i & -> & Hir & Hpr); [lia|].
  exists r. split_and!; [done|done|]. by apply (placed_find r k v i).
Qed.

Lemma New_inv c :
  1 <= c -> exists r, New c = Ok r /\ inv r /\ capacity r = Z.to_nat c /\ forall k, absent r k.
Proof.
  intros Hc. destruct (New_represents c Hc) as (r & Hn & Hr & Hcr).
  exists r. split_and!; [done|apply (rep_inv _ _ Hr)|done|]. intros k i j e Hj.
  pose proof (rep_length _ _ Hr) as Hz. simpl in Hz. lia.
Qed.
End RingBuffer.

Arguments e_key {V}.
Arguments e_value {V}.
Arguments mkEntry {V}.
Arguments OPut {V}.
Arguments OTake {V}.

(** ** Properties *)

(** C11: refinement.  However many insertions are made into a new buffer of capacity [c], it
    never panics and behaves as the list of its entries: a known key is updated in its place,
    a new key goes to the end and pushes the oldest one out when there are [c].  [Entries],
    [Keys], [Get], [Oldest], [Newest] and [Len] all read that list. *)
Theorem RingBuffer_refines_queue {V} (zero : V) c kvs :
  1 <= c ->
  exists r, (r0 ← New zero c; Puts r0 kvs) = Ok r /\
    let q := foldl (fun q kv => queue_put (Z.to_nat c) q kv.1 kv.2) [] kvs in
    Entries r = Ok q /\ Keys r = Ok (map e_key q) /\ Len r = length q /\ (length q <= Z.to_nat c)%nat /\
    (forall k, Get zero r k = Ok (match queue_get q k with Some v => (v, true) | None => (zero, false) end)) /\
    Oldest zero r = Ok (match q !! 0%nat with Some e => (e, true) | None => (mkEntry "" zero, false) end) /\
    Newest zero r = Ok (match last q with Some e => (e, true) | None => (mkEntry "" zero, false) end).
Proof.
  intros Hc. destruct (New_represents zero c Hc) as (r0 & -> & Hr0 & Hc0). cbn [mbind outcome_bind].
  destruct (Puts_represents r0 [] kvs Hr0) as (r & -> & Hcr & Hr). rewrite Hc0 in *.
  exists r. split; [done|]. cbv zeta. split_and!.
  - by apply Entries_represents.
  - unfold Keys. by rewrite (Entries_represents _ _ Hr).
  - symmetry. apply (rep_length _ _ Hr).
  - rewrite (rep_length _ _ Hr), <- Hcr. apply (inv_size _ (rep_inv _ _ Hr)).
  - intros k. rewrite Get_find by apply (rep_inv _ _ Hr). by rewrite (find_queue_get _ _ k Hr).
  - by apply Oldest_represents.
  - by apply Newest_represents.
Qed.

Lemma RingBuffer_refines_queue_witness :
  exists r, (r0 ← New 0 2; Puts r0 [("a", 1); ("b", 2); ("a", 3); ("c", 4)]%string) = Ok r /\
    Keys r = Ok ["b"; "c"]%string /\ Get 0 r "a" = Ok (0, false) /\ Get 0 r "b" = Ok (2, true).
Proof.
  destruct (RingBuffer_refines_queue 0 2 [("a", 1); ("b", 2); ("a", 3); ("c", 4)]%string)
    as (r & Hr & _ & Hk & _ & _ & Hg & _); [lia|].
  exists r. rewrite Hr, Hk, !Hg. split_and!; vm_compute; reflexivity.
Defined.

(** C12: with [GetAndDelete], in any order of operations: the buffer never panics, keeps its
    invariant, and never answers with anything but the last value stored under the key and not
    yet taken - it may forget a flow, it never invents or repeats one. *)
Theorem RingBuffer_never_invents {V} (zero : V) c os :
  1 <= c ->
  exists r, (r0 ← New zero c; do_ops zero r0 os) = Ok r /\ inv r /\
    forall k v, Get zero r k = Ok (v, true) -> stored ∅ os !! k = Some v.
Proof.
  intros Hc. destruct (New_represents zero c Hc) as (r0 & Hn & Hr0 & _). rewrite Hn.
  cbn [mbind outcome_bind]. pose proof (rep_inv _ _ Hr0) as Hi.
  destruct (do_ops_sound zero r0 ∅ os Hi) as (r & -> & Hir & Hs).
  { intros k v. rewrite (find_queue_get _ _ k Hr0). done. }
  exists r. split_and!; [done|done|]. intros k v. rewrite Get_find by done. unfold sound in Hs.
  destruct (find r k) as [v'|] eqn:E; intros [= <-]. by apply Hs.
Qed.

Lemma RingBuffer_never_invents_witness :
  exists r, (r0 ← New 0 2; do_ops 0 r0 [OPut "a" 1; OTake "a"; OPut "a" 2; OPut "b" 3]%string) = Ok r /\
    inv r.
Proof.
  destruct (RingBuffer_never_invents 0 2 [OPut "a" 1; OTake "a"; OPut "a" 2; OPut "b" 3]%string)
    as (r & Hr & Hi & _); [lia|].
  exists r. split; [exact Hr|exact Hi].
Defined.

(** But it does forget too early.  [GetAndDelete] removes the map entry and leaves the slot
    with its key; when the key is stored again and the old slot becomes the oldest, evicting it
    deletes the map entry of the new, live slot: after any insertion of another key the entry
    is still in the buffer and can no longer be found. *)
Lemma RingBuffer_stale_slot_loses_key {V} (zero : V) (r : RingBuffer) k e s other v :
  inv r -> size r = capacity r ->
  data r !! head r = Some e -> e_key e = k -> index r !! k = Some s -> s <> head r ->
  index r !! other = None ->
  exists r', Put r other v = Ok r' /\ Get zero r' k = Ok (zero, false) /\
             (exists e', data r' !! s = Some e' /\ e_key e' = k).
Proof.
  intros Hi Hf He Hk Hs Hne Ho. exists (inserted r other v (delete (e_key e) (index r))
    ((head r + 1) mod capacity r)%nat (size r)).
  split; [by apply Put_full|]. assert (k <> other) by (intros ->; congruence).
  assert (tail r = head r) as Ht by (rewrite (inv_tail _ Hi), Hf; by apply slot_of_full).
  split.
  - unfold Get. simpl. by rewrite lookup_insert_ne, <- Hk, lookup_delete_eq by congruence.
  - destruct (inv_index _ Hi _ _ Hs) as (i & e' & _ & -> & Hd & Hk'). exists e'. split; [|done].
    simpl. by rewrite list_lookup_insert_ne by congruence.
Qed.

(** In a buffer of two: "a" is stored, taken, stored again, and lost when "b" is stored. *)
Lemma RingBuffer_stale_slot_loses_key_witness :
  exists r r', (r0 ← New 0 2; do_ops 0 r0 [OPut "a" 1; OTake "a"; OPut "a" 2]%string) = Ok r /\
    Put r "b" 3 = Ok r' /\ Get 0 r' "a" = Ok (0, false).
Proof.
  destruct (New_represents 0 2) as (r0 & Hn & Hr0 & _); [lia|].
  destruct (do_ops_sound 0 r0 ∅ [OPut "a" 1; OTake "a"; OPut "a" 2]%string (rep_inv _ _ Hr0))
    as (r & Hr & Hi & _).
  { intros k v. rewrite (find_queue_get _ _ k Hr0). done. }
  vm_compute in Hn. injection Hn as <-. pose proof Hr as Hr'. vm_compute in Hr'. injection Hr' as <-.
  destruct (RingBuffer_stale_slot_loses_key 0 _ "a" (mkEntry "a" 1) 1%nat "b" 3 Hi)
    as (r' & Hp & Hg & _); [reflexivity..|discriminate|reflexivity|].
  eexists _, r'. split_and!; [exact Hr|exact Hp|exact Hg].
Defined.
