(* ===== verification/Stitch.v ===== *)
(** * Pairing the two directions of a flow (src/pkg/stitch/stitch.go)

    A [Stitcher] is its ring buffer of snapshots; the two meters it marks are left out.  A flow
    whose key has a snapshot takes it and carries it in its custom fields; any other flow
    leaves a snapshot of its own. *)
From S2P Require Import Prelude GoIO KT RingBuffer.

Local Open Scope go_scope.

Record stitchSnapshot := mkSnapshot {
  snap_TcpFlags : Z;
  snap_InBytes : Z;
  snap_InPkts : Z;
  snap_TcpRetransmit : Z;
  snap_Timestamp : Z
}.

Definition zero_snapshot : stitchSnapshot := mkSnapshot 0 0 0 0 0.

(** [networkagent.StitchConfig]. *)
Record StitchConfig := mkStitchConfig { Enable : bool; BufLen : Z }.

Definition Stitcher : Type := @RingBuffer stitchSnapshot.

Definition NewStitcher (cfg : StitchConfig) : outcome (option Stitcher) :=
  if Enable cfg
  then cache ← RingBuffer.New zero_snapshot (BufLen cfg); Ok (Some cache)
  else Ok None.

Definition snapshot (msg : JCHF) : stitchSnapshot :=
  mkSnapshot (TcpFlags msg) (InBytes msg) (InPkts msg) (TcpRetransmit msg) (Timestamp msg).

(** [msg.CustomInt[k] = v] and [msg.CustomBigInt[k] = v]. *)
Definition put_CustomInt (k : string) (v : Z) (msg : JCHF) : outcome JCHF :=
  m ← gomap_set (CustomInt msg) k v; Ok (set_CustomInt m msg).
Definition put_CustomBigInt (k : string) (v : Z) (msg : JCHF) : outcome JCHF :=
  m ← gomap_set (CustomBigInt msg) k v; Ok (set_CustomBigInt m msg).

(** The answer, the flow as [Stitch] leaves it, and the stitcher. *)
Definition Stitch (s : Stitcher) (msg : JCHF) : outcome (bool * JCHF * Stitcher) :=
  let key := GetKey msg in
  '(nm, ok, cache) ← GetAndDelete zero_snapshot s key;
  if (ok : bool)
  then
    msg ← put_CustomInt "pair_tcp_flags" (int32 (snap_TcpFlags nm)) msg;
    msg ← put_CustomBigInt "pair_in_bytes" (int64 (snap_InBytes nm)) msg;
    msg ← put_CustomBigInt "pair_in_pkts" (int64 (snap_InPkts nm)) msg;
    msg ← put_CustomInt "pair_tcp_rx" (int32 (snap_TcpRetransmit nm)) msg;
    msg ← put_CustomBigInt "pair_timestamp" (int64 (snap_Timestamp nm)) msg;
    Ok (true, msg, cache)
  else
    cache ← Put cache key (snapshot msg);
    Ok (false, msg, cache).

Fixpoint Stitches (s : Stitcher) (msgs : list JCHF) : outcome (list bool * Stitcher) :=
  match msgs with
  | [] => Ok ([], s)
  | msg :: msgs' =>
      '(ok, _, s) ← Stitch s msg;
      '(oks, s) ← Stitches s msgs';
      Ok (ok :: oks, s)
  end.

(** ** One flow *)

(** The two maps that [Stitch] writes to are not nil. *)
Definition has_maps (msg : JCHF) : Prop := is_Some (CustomInt msg) /\ is_Some (CustomBigInt msg).

(** [msg] with the five values of a snapshot. *)
Definition paired (msg : JCHF) (nm : stitchSnapshot) : JCHF :=
  set_CustomInt
    ((fun m => <["pair_tcp_rx" := int32 (snap_TcpRetransmit nm)]>
              (<["pair_tcp_flags" := int32 (snap_TcpFlags nm)]> m)) <$> CustomInt msg)
    (set_CustomBigInt
      ((fun m => <["pair_timestamp" := int64 (snap_Timestamp nm)]>
                (<["pair_in_pkts" := int64 (snap_InPkts nm)]>
                 (<["pair_in_bytes" := int64 (snap_InBytes nm)]> m))) <$> CustomBigInt msg) msg).

Lemma Stitch_step s msg :
  inv s -> has_maps msg ->
  match find s (GetKey msg) with
  | Some nm => Stitch s msg = Ok (true, paired msg nm, deleted s (GetKey msg))
  | None => exists s', Put s (GetKey msg) (snapshot msg) = Ok s' /\ Stitch s msg = Ok (false, msg, s')
  end.
Proof.
  intros Hi [[mi Hmi] [mb Hmb]]. unfold Stitch. rewrite GetAndDelete_find by done.
  destruct (find s (GetKey msg)) as [nm|] eqn:E; cbn [mbind outcome_bind].
  - unfold paired, put_CustomInt, put_CustomBigInt. destruct msg. cbn in Hmi, Hmb. subst. reflexivity.
  - destruct (Put_inv s (GetKey msg) (snapshot msg) Hi) as (s' & Hp & _). rewrite Hp.
    exists s'. done.
Qed.

(** The operation on the ring buffer that one flow amounts to. *)
Definition stitch_op (ok : bool) (msg : JCHF) : op :=
  if ok then OTake (GetKey msg) else OPut (GetKey msg) (snapshot msg).

Lemma Stitch_op s msg :
  inv s -> has_maps msg ->
  exists ok msg' s', Stitch s msg = Ok (ok, msg', s') /\ do_op zero_snapshot s (stitch_op ok msg) = Ok s' /\
    inv s' /\ find s (GetKey msg) = (if ok then find s (GetKey msg) else None).
Proof.
  intros Hi Hm. pose proof (Stitch_step s msg Hi Hm) as H.
  destruct (find s (GetKey msg)) as [nm|] eqn:E.
  - exists true, (paired msg nm), (deleted s (GetKey msg)). split_and!; [done| |by apply deleted_inv|done].
    unfold stitch_op. rewrite take_result by done. by rewrite E.
  - destruct H as (s' & Hp & Hs). exists false, msg, s'. split_and!; [done|done| |done].
    destruct (Put_inv s (GetKey msg) (snapshot msg) Hi) as (s1 & Hp1 & Hi1 & _). congruence.
Qed.

Lemma stitch_op_key ok msg : op_key (stitch_op ok msg) = GetKey msg.
Proof. by destruct ok. Qed.

Lemma Stitches_ops s msgs :
  inv s -> Forall has_maps msgs ->
  exists oks s', Stitches s msgs = Ok (oks, s') /\ length oks = length msgs /\ inv s' /\
    do_ops zero_snapshot s (zip_with stitch_op oks msgs) = Ok s'.
Proof.
  intros Hi Hm. revert s Hi. induction Hm as [|msg msgs Hm _ IH]; intros s Hi; [by exists [], s|].
  destruct (Stitch_op s msg Hi Hm) as (ok & msg' & s1 & Hs & Ho & Hi1 & _).
  destruct (IH s1 Hi1) as (oks & s2 & Hs2 & Hl & Hi2 & Hos).
  exists (ok :: oks), s2. cbn [Stitches]. rewrite Hs. cbn [mbind outcome_bind]. rewrite Hs2.
  cbn [mbind outcome_bind zip_with do_ops length]. rewrite Ho. split_and!; [done|lia|done|done].
Qed.

Lemma Stitches_app s ms1 ms2 :
  Stitches s (ms1 ++ ms2) =
    ('(o1, s) ← Stitches s ms1; '(o2, s) ← Stitches s ms2; Ok (o1 ++ o2, s)).
Proof.
  revert s; induction ms1 as [|m ms1 IH]; intros s; simpl.
  - by destruct (Stitches s ms2) as [[]| | |].
  - destruct (Stitch s m) as [[[ok m'] s1]| | |]; cbn [mbind outcome_bind]; try done.
    rewrite IH. destruct (Stitches s1 ms1) as [[o1 s2]| | |]; cbn [mbind outcome_bind]; try done.
    by destruct (Stitches s2 ms2) as [[]| | |].
Qed.

(** A pending snapshot is that of the last flow with its key. *)
Lemma stored_last {V} (os : list (@op V)) k v :
  stored ∅ os !! k = Some v ->
  exists i, os !! i = Some (OPut k v) /\ forall j o, (i < j)%nat -> os !! j = Some o -> op_key o <> k.
Proof.
  unfold stored. induction os as [|o os IH] using rev_ind; [done|].
  rewrite foldl_snoc. intros Hs.
  destruct (decide (op_key o = k)) as [Hk|Hk].
  - destruct o as [k' v'|k']; simpl in Hk; subst; simpl in Hs; [|by rewrite lookup_delete_eq in Hs].
    rewrite lookup_insert_eq in Hs. injection Hs as ->. exists (length os). split.
    + by rewrite lookup_app_r, Nat.sub_diag by done.
    + intros j o Hj Ho. apply lookup_lt_Some in Ho. rewrite length_app in Ho. simpl in Ho. lia.
  - destruct IH as (i & Hi & Hl).
    { destruct o as [k' v'|k']; simpl in *; by rewrite ?lookup_insert_ne, ?lookup_delete_ne in Hs by done. }
    pose proof (lookup_lt_Some _ _ _ Hi). exists i. split; [by rewrite lookup_app_l|].
    intros j o' Hj Ho'. destruct (decide (j < length os)%nat) as [Hjl|Hjl].
    + rewrite lookup_app_l in Ho' by done. by apply (Hl j).
    + pose proof (lookup_lt_Some _ _ _ Ho') as Hb. rewrite length_app in Hb. simpl in Hb.
      rewrite lookup_app_r in Ho' by lia. replace (j - length os)%nat with 0%nat in Ho' by lia.
      by injection Ho' as <-.
Qed.

Lemma stitch_op_put ok msg k v :
  stitch_op ok msg = OPut k v -> ok = false /\ GetKey msg = k /\ snapshot msg = v.
Proof. destruct ok; [done|]. by intros [= <- <-]. Qed.

Lemma other_ops oks msgs k :
  Forall (fun m => GetKey m <> k) msgs -> Forall (fun o => op_key o <> k) (zip_with stitch_op oks msgs).
Proof.
  intros Hm. revert oks. induction Hm as [|m msgs Hm _ IH]; intros [|ok oks]; simpl; constructor.
  - by rewrite stitch_op_key.
  - apply IH.
Qed.

Lemma New_stitcher cap :
  1 <= cap -> exists s, NewStitcher (mkStitchConfig true cap) = Ok (Some s) /\ inv s /\
    RingBuffer.capacity s = Z.to_nat cap /\ forall k, absent s k.
Proof.
  intros Hc. destruct (New_inv zero_snapshot cap Hc) as (s & Hn & Hs).
  exists s. split; [|exact Hs]. unfold NewStitcher. cbn [Enable BufLen]. by rewrite Hn.
Qed.

(** A key with no slot is not in the map, so its first flow leaves its snapshot. *)
Lemma Stitch_absent s msg :
  inv s -> absent s (GetKey msg) -> has_maps msg ->
  exists s', Stitch s msg = Ok (false, msg, s') /\ Put s (GetKey msg) (snapshot msg) = Ok s'.
Proof.
  intros Hi Ha Hm. pose proof (Stitch_step s msg Hi Hm) as H.
  assert (find s (GetKey msg) = None) as E by (unfold find; by rewrite (absent_index s) by done).
  rewrite E in H. destruct H as (s' & Hp & Hs). by exists s'.
Qed.

(** ** Properties *)

(** C10: the two directions of a flow meet.  In a stitcher of capacity [cap], whatever came
    before, the first flow [a] of its key is answered false and, as long as fewer than [cap]
    other flows came in between, the next flow [b] of the same key is answered true and carries
    the flags, bytes, packets, retransmits and time of [a]. *)
Theorem Stitch_pairs cap s0 hist a others b :
  1 <= cap -> NewStitcher (mkStitchConfig true cap) = Ok (Some s0) ->
  Forall has_maps (hist ++ a :: others) -> has_maps b ->
  Forall (fun m => GetKey m <> GetKey b) hist -> GetKey a = GetKey b ->
  Forall (fun m => GetKey m <> GetKey b) others -> (length others < Z.to_nat cap)%nat ->
  exists oks1 oks2 s s',
    Stitches s0 (hist ++ a :: others) = Ok (oks1 ++ false :: oks2, s) /\
    length oks1 = length hist /\
    Stitch s b = Ok (true, paired b (snapshot a), s').
Proof.
  intros Hc Hn Hm Hb Hh Hk Ho Hl. destruct (New_stitcher cap Hc) as (s & Hn' & Hi & Hcap & Ha).
  assert (s = s0) as -> by congruence. apply Forall_app in Hm as [Hmh Hma].
  apply Forall_cons in Hma as [Hma Hmo].
  destruct (Stitches_ops s0 hist Hi Hmh) as (oks1 & s1 & Hs1 & Hl1 & Hi1 & Ho1).
  destruct (do_ops_absent zero_snapshot s0 (zip_with stitch_op oks1 hist) (GetKey b) Hi (Ha _))
    as (s1' & Ho1' & _ & Hc1 & Ha1); [by apply other_ops|]. assert (s1' = s1) as -> by congruence.
  destruct (Stitch_absent s1 a) as (s2 & Hs2 & Hp2); [done|by rewrite Hk|done|].
  destruct (Put_inv s1 (GetKey a) (snapshot a) Hi1) as (s2' & Hp2' & Hi2 & _).
  assert (s2' = s2) as -> by congruence.
  destruct (Stitches_ops s2 others Hi2 Hmo) as (oks2 & s3 & Hs3 & Hl3 & Hi3 & Ho3).
  exists oks1, oks2, s3, (deleted s3 (GetKey b)). split_and!; [|done|].
  - rewrite Stitches_app, Hs1. cbn [mbind outcome_bind Stitches]. rewrite Hs2.
    cbn [mbind outcome_bind]. by rewrite Hs3.
  - pose proof (Stitch_step s3 b Hi3 Hb) as Hst.
    destruct (stored_then_found zero_snapshot s1 [] (GetKey b) (snapshot a) (zip_with stitch_op oks2 others))
      as (s3' & Hs3' & _ & Hf); [done|done|constructor|by apply other_ops| |].
    + rewrite length_zip_with. lia.
    + cbn [app do_ops do_op] in Hs3'. rewrite <- Hk, Hp2 in Hs3'. cbn [mbind outcome_bind] in Hs3'.
      assert (s3' = s3) as -> by congruence. by rewrite Hf in Hst.
Qed.

(** And only they do.  A flow answered true has the snapshot of the last flow of its key,
    which had itself been answered false: no flow is paired twice, and none with a flow of
    another key.  A flow answered false is left as it was. *)
Lemma Stitch_only_pairs cap s0 msgs b :
  1 <= cap -> NewStitcher (mkStitchConfig true cap) = Ok (Some s0) ->
  Forall has_maps msgs -> has_maps b ->
  exists oks s ok b' s',
    Stitches s0 msgs = Ok (oks, s) /\ Stitch s b = Ok (ok, b', s') /\
    if ok then
      exists i a, msgs !! i = Some a /\ oks !! i = Some false /\ GetKey a = GetKey b /\
        (forall j m, (i < j)%nat -> msgs !! j = Some m -> GetKey m <> GetKey b) /\
        b' = paired b (snapshot a)
    else b' = b.
Proof.
  intros Hc Hn Hm Hb. destruct (New_stitcher cap Hc) as (s & Hn' & Hi & _ & Ha).
  assert (s = s0) as -> by congruence.
  destruct (Stitches_ops s0 msgs Hi Hm) as (oks & s1 & Hs1 & Hl & Hi1 & Ho).
  destruct (do_ops_sound zero_snapshot s0 ∅ (zip_with stitch_op oks msgs) Hi) as (s1' & Ho' & _ & Hsd).
  { intros k v Hf. unfold find in Hf. by rewrite (absent_index s0) in Hf by done. }
  assert (s1' = s1) as -> by congruence.
  pose proof (Stitch_step s1 b Hi1 Hb) as Hst. destruct (find s1 (GetKey b)) as [nm|] eqn:Hf.
  - exists oks, s1, true, (paired b nm), (deleted s1 (GetKey b)). split_and!; [done|done|].
    destruct (stored_last _ _ _ (Hsd _ _ Hf)) as (i & Hi' & Hlast).
    apply lookup_zip_with_Some in Hi' as (ok & a & Hop & Hoki & Hai).
    symmetry in Hop. apply stitch_op_put in Hop as (-> & Hka & <-).
    exists i, a. split_and!; [done..| |done]. intros j m Hj Hmj.
    destruct (lookup_lt_is_Some_2 oks j) as [okj Hokj].
    { rewrite Hl. by eapply lookup_lt_Some. }
    rewrite <- (stitch_op_key okj m). apply (Hlast j); [done|].
    apply lookup_zip_with_Some. by exists okj, m.
  - destruct Hst as (s' & _ & Hst). by exists oks, s1, false, b, s'.
Qed.

(** Two directions of a TCP flow, and a flow in between. *)
Definition sample_flow (port : Z) (src dst : string) (bytes : Z) : JCHF :=
  set_Protocol "TCP" (set_L4SrcPort port (set_InBytes bytes (set_TcpFlags 18
    (set_CustomInt (Some ∅) (set_CustomBigInt (Some ∅)
      (set_CustomStr (Some {["src_endpoint" := src; "dst_endpoint" := dst]}) NewJCHF)))))).
Definition sample_up := sample_flow 443 "10.0.0.1:443" "10.0.0.2:50000" 1500.
Definition sample_down := sample_flow 50000 "10.0.0.2:50000" "10.0.0.1:443" 90.
Definition sample_other := sample_flow 53 "10.0.0.9:53" "10.0.0.2:50001" 60.

Lemma sample_has_maps port src dst n : has_maps (sample_flow port src dst n).
Proof. split; by eexists. Qed.

Lemma Stitch_pairs_witness :
  exists s oks s' s'' b', NewStitcher (mkStitchConfig true 2) = Ok (Some s) /\
    Stitches s [sample_up; sample_other] = Ok (oks, s') /\
    Stitch s' sample_down = Ok (true, b', s'') /\
    gomap_get 0 (CustomBigInt b') "pair_in_bytes" = 1500 /\
    gomap_get 0 (CustomInt b') "pair_tcp_flags" = 18.
Proof.
  destruct (New_stitcher 2) as (s & Hn & _); [lia|].
  destruct (Stitch_pairs 2 s [] sample_up [sample_other] sample_down)
    as (o1 & o2 & s1 & s2 & Hs & Hl & Hst); [lia|exact Hn|..].
  - repeat constructor; by eexists.
  - apply sample_has_maps.
  - constructor.
  - vm_compute; reflexivity.
  - repeat constructor. vm_compute. discriminate.
  - simpl. lia.
  - eexists s, _, s1, s2, _.
    split_and!; [exact Hn|exact Hs|exact Hst|vm_compute; reflexivity|vm_compute; reflexivity].
Defined.

Lemma Stitch_only_pairs_witness :
  exists s oks s' b' s'', NewStitcher (mkStitchConfig true 2) = Ok (Some s) /\
    Stitches s [sample_up; sample_other; sample_down] = Ok (oks, s') /\
    Stitch s' sample_down = Ok (false, b', s'') /\ b' = sample_down.
Proof.
  destruct (New_stitcher 2) as (s & Hn & _); [lia|].
  destruct (Stitch_only_pairs 2 s [sample_up; sample_other; sample_down] sample_down)
    as (oks & s1 & ok & b' & s2 & Hs & Hst & Hok); [lia|exact Hn|..].
  - repeat constructor; by eexists.
  - apply sample_has_maps.
  - pose proof Hn as Hn'. vm_compute in Hn'. injection Hn' as <-.
    pose proof Hs as Hs'. vm_compute in Hs'. injection Hs' as <- <-.
    pose proof Hst as Hst'. vm_compute in Hst'. injection Hst' as <- <- <-.
    eexists _, _, _, _, _. split_and!; [exact Hn|exact Hs|exact Hst|exact Hok].
Defined.
