(* ===== verification/Filter.v ===== *)
(** * Filters (src/pkg/filter)

    A filter is written "type,dimension,operator,value" with an optional name; alternatives are
    joined by " or ", and conditions by " and ".  [GetFilters] gives a list of wrappers, each a
    disjunction; a flow goes on when every wrapper accepts it.  The values of an error message
    and the log are left out.  A filter looks at a record as the map of [ToMap]: a dimension is
    a name, or the name of a custom map and a name in it. *)
From Stdlib Require Import Ascii.
From S2P Require Import Prelude GoIO GoStrings GoNet KT.

Definition Equal : string := "==".
Definition NotEqual : string := "!=".
Definition LessThan : string := "<".
Definition GreaterThan : string := ">".
Definition Contains : string := "%".
Definition Has : string := "=~".
Definition NotHas : string := "!~".

Definition type_String : string := "string".
Definition type_Int : string := "int".
Definition type_Addr : string := "addr".

Definition OrToken : string := " or ".
Definition AndToken : string := " and ".
Definition AndUpperCase : string := " AND ".
Definition OrUpperCase : string := " OR ".

Record FilterDef := mkFilterDef {
  fd_Dimension : string;
  fd_Operator : string;
  fd_Value : string;
  fd_FType : string;
  fd_Name : string
}.

(** ** Parsing *)

(** The type of a filter written without one. *)
Definition guess_type (value : string) : string :=
  match Atoi value with
  | Some _ => type_Int
  | None => match ParseCIDR value with Some _ => type_Addr | None => type_String end
  end.

(** One round of the loop of [Set]. *)
Definition Set_def (orSet : string) : outcome FilterDef :=
  let pts := strings_Split orSet "," in
  if (length pts <? 3)%nat
  then Err (Errorf "Filter flag is defined by <type> dimension operator value" [])
  else
    let pts := if (length pts =? 3)%nat then guess_type (nth 2 pts "") :: pts else pts in
    let name := if (length pts =? 5)%nat then nth 4 pts "" else "" in
    let ptn := map strings_TrimSpace pts in
    Ok (mkFilterDef (nth 1 ptn "") (nth 2 ptn "") (nth 3 ptn "") (nth 0 ptn "") name).

Definition FilterDefs_Set (ff : list (list FilterDef)) (value : string) :
    outcome (list (list FilterDef)) :=
  inner ← mapM Set_def (strings_Split (strings_Replace1 value OrUpperCase OrToken) OrToken);
  Ok (ff ++ [inner]).

(** ** The three kinds of filters *)

Section Dimension.
  Context (dimension : list string).

(** [f.dimension[i]]. *)
Definition dim (i : nat) : outcome string :=
  match dimension !! i with
  | Some d => Ok d
  | None => Panic "index out of range"
  end.

(** A test of the text a dimension names. *)
Definition test_text (chf : gmap string Avro) (test : string -> bool) : outcome bool :=
  d0 ← dim 0;
  match chf !! d0 with
  | Some (AStr s) => Ok (test s)
  | Some (AMapStr m) => d1 ← dim 1; Ok (test (gomap_get "" m d1))
  | Some _ => Ok false
  | None =>
      match chf !! "custom_str" with
      | Some (AMapStr m) =>
          match default ∅ m !! d0 with
          | Some s => Ok (test s)
          | None => Ok false
          end
      | _ => Ok false
      end
  end.

(** A comparison of the integer a dimension names with [value], at the width of its map. *)
Definition test_int (chf : gmap string Avro) (test : Z -> Z -> bool) (value : Z) : outcome bool :=
  d0 ← dim 0;
  match chf !! d0 with
  | Some (AInt n) => Ok (test n value)
  | Some (AMapInt32 m) => d1 ← dim 1; Ok (test (gomap_get 0 m d1) (swrap 32 value))
  | Some (AMapInt64 m) => d1 ← dim 1; Ok (test (gomap_get 0 m d1) value)
  | Some _ => Ok false
  | None =>
      match chf !! "custom_bigint" with
      | Some (AMapInt64 m) =>
          match default ∅ m !! d0 with
          | Some n => Ok (test n value)
          | None => Ok false
          end
      | _ => Ok false
      end
  end.
End Dimension.

Definition onot (o : outcome bool) : outcome bool := b ← o; Ok (negb b).

Inductive string_op := SEquals | SNotEquals | SContains | SHas | SNotHas.
Record StringFilter := mkStringFilter {
  sf_cf : string_op;
  sf_dimension : list string;
  sf_value : string;
  sf_name : string
}.

Definition newStringFilter (fd : FilterDef) : outcome StringFilter :=
  let sf cf := Ok (mkStringFilter cf (strings_Split (fd_Dimension fd) ".") (fd_Value fd) (fd_Name fd)) in
  let op := fd_Operator fd in
  if String.eqb op Equal then sf SEquals
  else if String.eqb op NotEqual then sf SNotEquals
  else if String.eqb op Contains then sf SContains
  else if String.eqb op Has then sf SHas
  else if String.eqb op NotHas then sf SNotHas
  else Err (Errorf "Invalid operator for string: %s" []).

Definition stringEquals (f : StringFilter) (chf : gmap string Avro) : outcome bool :=
  test_text (sf_dimension f) chf (fun s => String.eqb s (sf_value f)).
Definition stringNotEquals (f : StringFilter) (chf : gmap string Avro) : outcome bool :=
  onot (stringEquals f chf).
Definition stringContains (f : StringFilter) (chf : gmap string Avro) : outcome bool :=
  test_text (sf_dimension f) chf (fun s => strings_Contains s (sf_value f)).
Definition stringHas (f : StringFilter) (chf : gmap string Avro) : outcome bool :=
  d0 ← dim (sf_dimension f) 0;
  match chf !! d0 with
  | Some (AStr _) => Ok true
  | Some (AMapStr m) =>
      d1 ← dim (sf_dimension f) 1; Ok (bool_decide (is_Some (default ∅ m !! d1)))
  | Some _ => Ok false
  | None =>
      match chf !! "custom_str" with
      | Some (AMapStr m) => Ok (bool_decide (is_Some (default ∅ m !! d0)))
      | _ => Ok false
      end
  end.
Definition stringNotHas (f : StringFilter) (chf : gmap string Avro) : outcome bool :=
  onot (stringHas f chf).

Definition StringFilter_FilterMap (f : StringFilter) (mapr : gmap string Avro) : outcome bool :=
  match sf_cf f with
  | SEquals => stringEquals f mapr
  | SNotEquals => stringNotEquals f mapr
  | SContains => stringContains f mapr
  | SHas => stringHas f mapr
  | SNotHas => stringNotHas f mapr
  end.

Inductive int_op := IEquals | INotEquals | ILessThan | IGreaterThan.
Record IntFilter := mkIntFilter {
  if_cf : int_op;
  if_dimension : list string;
  if_value : Z;
  if_name : string
}.

Definition newIntFilter (fd : FilterDef) : outcome IntFilter :=
  match Atoi (fd_Value fd) with
  | None => Err (Errorf "Invalid int value: %s" [])
  | Some val =>
      let sf cf := Ok (mkIntFilter cf (strings_Split (fd_Dimension fd) ".") val (fd_Name fd)) in
      let op := fd_Operator fd in
      if String.eqb op Equal then sf IEquals
      else if String.eqb op NotEqual then sf INotEquals
      else if String.eqb op LessThan then sf ILessThan
      else if String.eqb op GreaterThan then sf IGreaterThan
      else Err (Errorf "Invalid operator for int: %s" [])
  end.

Definition intEquals (f : IntFilter) (chf : gmap string Avro) : outcome bool :=
  test_int (if_dimension f) chf Z.eqb (if_value f).
Definition intNotEquals (f : IntFilter) (chf : gmap string Avro) : outcome bool :=
  onot (intEquals f chf).
Definition intLessThan (f : IntFilter) (chf : gmap string Avro) : outcome bool :=
  test_int (if_dimension f) chf Z.ltb (if_value f).
Definition intGreaterThan (f : IntFilter) (chf : gmap string Avro) : outcome bool :=
  test_int (if_dimension f) chf Z.gtb (if_value f).

Definition IntFilter_FilterMap (f : IntFilter) (mapr : gmap string Avro) : outcome bool :=
  match if_cf f with
  | IEquals => intEquals f mapr
  | INotEquals => intNotEquals f mapr
  | ILessThan => intLessThan f mapr
  | IGreaterThan => intGreaterThan f mapr
  end.

Inductive addr_op := AEquals | ANotEquals | AContains.
Record AddrFilter := mkAddrFilter {
  af_cf : addr_op;
  af_dimension : list string;
  af_value : IPNet;
  af_name : string
}.

Definition newAddrFilter (fd : FilterDef) : outcome AddrFilter :=
  match ParseCIDR (fd_Value fd) with
  | None => Err (Errorf "invalid CIDR address" [])
  | Some val =>
      let sf cf := Ok (mkAddrFilter cf (strings_Split (fd_Dimension fd) ".") val (fd_Name fd)) in
      let op := fd_Operator fd in
      if String.eqb op Equal then sf AEquals
      else if String.eqb op NotEqual then sf ANotEquals
      else if String.eqb op Contains then sf AContains
      else Err (Errorf "Invalid operator for addr: %s" [])
  end.

Definition addrEquals (f : AddrFilter) (chf : gmap string Avro) : outcome bool :=
  test_text (af_dimension f) chf (fun s => IPNet_Contains (af_value f) (ParseIP s)).
Definition addrNotEquals (f : AddrFilter) (chf : gmap string Avro) : outcome bool :=
  onot (addrEquals f chf).
Definition addrContains (f : AddrFilter) (chf : gmap string Avro) : outcome bool :=
  addrEquals f chf.

Definition AddrFilter_FilterMap (f : AddrFilter) (mapr : gmap string Avro) : outcome bool :=
  match af_cf f with
  | AEquals => addrEquals f mapr
  | ANotEquals => addrNotEquals f mapr
  | AContains => addrContains f mapr
  end.

(** ** The interface and the wrappers *)

Inductive Filter :=
| FString (f : StringFilter)
| FInt (f : IntFilter)
| FAddr (f : AddrFilter).

Definition FilterMap (f : Filter) (mapr : gmap string Avro) : outcome bool :=
  match f with
  | FString f => StringFilter_FilterMap f mapr
  | FInt f => IntFilter_FilterMap f mapr
  | FAddr f => AddrFilter_FilterMap f mapr
  end.

(** [f.Filter(in)] of all three; [ToMap] fills the cache of the record. *)
Definition Filter_Filter (f : Filter) (j : JCHF) : outcome (bool * JCHF) :=
  '(mapr, j) ← ToMap j;
  b ← FilterMap f (default ∅ mapr);
  Ok (b, j).

Definition Filter_GetName (f : Filter) : string :=
  match f with
  | FString f => sf_name f
  | FInt f => if_name f
  | FAddr f => af_name f
  end.

Definition newFilter (fd : FilterDef) : outcome Filter :=
  if String.eqb (fd_FType fd) type_String then f ← newStringFilter fd; Ok (FString f)
  else if String.eqb (fd_FType fd) type_Int then f ← newIntFilter fd; Ok (FInt f)
  else if String.eqb (fd_FType fd) type_Addr then f ← newAddrFilter fd; Ok (FAddr f)
  else Err (Errorf "Invalid type: %s. Valid Types: %s|%s|%s" []).

Definition FilterWrapper : Type := list Filter.

(** The first loop of [GetFilters]. *)
Definition parse_filters (filters : list string) : outcome (list (list FilterDef)) :=
  foldl (fun ff f =>
      foldl (fun ff andSet => ff ← ff; FilterDefs_Set ff andSet) ff
        (strings_Split (strings_Replace1 f AndUpperCase AndToken) AndToken))
    (Ok []) filters.

Definition GetFilters (filters : list string) : outcome (list FilterWrapper) :=
  ff ← parse_filters filters;
  mapM (mapM newFilter) ff.

Fixpoint FilterWrapper_FilterMap (fs : FilterWrapper) (chf : gmap string Avro) : outcome bool :=
  match fs with
  | [] => Ok false
  | f :: fs' => b ← FilterMap f chf; if (b : bool) then Ok true else FilterWrapper_FilterMap fs' chf
  end.

Fixpoint FilterWrapper_Filter (fs : FilterWrapper) (chf : JCHF) : outcome (bool * JCHF) :=
  match fs with
  | [] => Ok (false, chf)
  | f :: fs' =>
      '(b, chf) ← Filter_Filter f chf;
      if (b : bool) then Ok (true, chf) else FilterWrapper_Filter fs' chf
  end.

Definition FilterWrapper_GetName (fs : FilterWrapper) : string :=
  match fs with
  | f :: _ => Filter_GetName f
  | [] => ""
  end.

(** ** Writing filters *)

Definition render_def (d : FilterDef) : string :=
  strings_Join ([fd_FType d; fd_Dimension d; fd_Operator d; fd_Value d] ++
    (if String.eqb (fd_Name d) "" then [] else [fd_Name d])) ",".
Definition render_clause (ds : list FilterDef) : string := strings_Join (map render_def ds) OrToken.
Definition render (cs : list (list FilterDef)) : string := strings_Join (map render_clause cs) AndToken.

(** Text without spaces, control bytes and commas. *)
Definition field_ok (s : string) : bool := sforall graphic s && lacks "," s.
Definition def_ok (d : FilterDef) : bool :=
  field_ok (fd_FType d) && field_ok (fd_Dimension d) && field_ok (fd_Operator d) &&
  field_ok (fd_Value d) && field_ok (fd_Name d).

#[local] Arguments String.append !_ _ : simpl nomatch.
#[local] Arguments Ascii.ascii_dec : simpl never.
#[local] Arguments Ascii.eqb : simpl never.

Lemma graphic_no_space s : sforall graphic s = true -> lacks " " s = true.
Proof.
  induction s as [|c s IH]; [done|]. cbn [sforall lacks]. intros [Hc Hs]%andb_prop.
  rewrite IH, andb_true_r by done. destruct (Ascii.eqb_spec c " ") as [->|]; [|done]. discriminate Hc.
Qed.

Lemma field_ok_parts s :
  field_ok s = true -> clean "," s = true /\ strings_TrimSpace s = s /\ lacks " " s = true.
Proof.
  intros [Hg Hc]%andb_prop. split_and!; [by apply lacks_clean|by apply TrimSpace_graphic|].
  by apply graphic_no_space.
Qed.

Lemma Set_def_render d : def_ok d = true -> Set_def (render_def d) = Ok d.
Proof.
  intros Hd. destruct d as [dim op val ty name]. unfold def_ok in Hd. simpl in Hd.
  repeat (apply andb_prop in Hd as [Hd ?%field_ok_parts]). apply field_ok_parts in Hd.
  destruct_and!. unfold Set_def, render_def. cbn [fd_FType fd_Dimension fd_Operator fd_Value fd_Name].
  destruct (String.eqb_spec name "") as [->|Hn]; cbn [app].
  - rewrite Split_Join; [|done|done|by repeat constructor].
    cbn -[strings_TrimSpace]. by repeat (match goal with H : strings_TrimSpace _ = _ |- _ => rewrite H; clear H end).
  - rewrite Split_Join; [|done|done|by repeat constructor].
    cbn -[strings_TrimSpace]. by repeat (match goal with H : strings_TrimSpace _ = _ |- _ => rewrite H; clear H end).
Qed.

Lemma lacks_Join c l sep :
  lacks c sep = true -> Forall (fun s => lacks c s = true) l -> lacks c (strings_Join l sep) = true.
Proof.
  intros Hs Hl. rewrite lacks_sforall in *. apply sforall_Join; [done|].
  eapply Forall_impl; [exact Hl|]. intros s H. by rewrite <- lacks_sforall.
Qed.

(** A definition is one word, and not just any word. *)
Lemma render_def_word d :
  def_ok d = true -> lacks " " (render_def d) = true.
Proof.
  intros Hd. destruct d as [dim op val ty name]. unfold def_ok in Hd. simpl in Hd.
  repeat (apply andb_prop in Hd as [Hd ?%field_ok_parts]). apply field_ok_parts in Hd. destruct_and!.
  apply lacks_Join; [done|]. cbn [fd_FType fd_Dimension fd_Operator fd_Value fd_Name].
  destruct (String.eqb name ""); by repeat constructor.
Qed.

Lemma render_def_comma d : lacks "," (render_def d) = false.
Proof.
  unfold render_def.
  change (strings_Join (_ ++ ?l) ",") with
    (fd_FType d +:+ "," +:+ strings_Join ([fd_Dimension d; fd_Operator d; fd_Value d] ++ l) ",").
  rewrite !lacks_app. cbn. apply andb_false_r.
Qed.

(** ** Words

    A text is words separated by single spaces; a token " w " can only be found where [w] is a
    word. *)

Definition text (ws : list string) : string := strings_Join ws " ".
Definition token (w : string) : string := " " +:+ w +:+ " ".

Lemma text_cons w w' ws : text (w :: w' :: ws) = w +:+ " " +:+ text (w' :: ws).
Proof. done. Qed.

Lemma word_prefix w q r :
  lacks " " w = true -> lacks " " q = true ->
  String.prefix (w +:+ " ") (q +:+ String " " r) = true -> w = q.
Proof.
  revert q; induction w as [|x w IH]; intros [|y q] Hw Hq Hp; cbn in *; try done.
  - destruct (Ascii.ascii_dec " " y) as [<-|]; [|done]. by rewrite Ascii.eqb_refl in Hq.
  - destruct (Ascii.ascii_dec x " ") as [->|]; [|done]. by rewrite Ascii.eqb_refl in Hw.
  - destruct (Ascii.ascii_dec x y) as [->|]; [|done]. apply andb_prop in Hw as [_ Hw].
    apply andb_prop in Hq as [_ Hq]. f_equal. by apply IH.
Qed.

Lemma clean_app sep a b :
  clean sep (a +:+ b) = true <->
  (forall p r, a = p +:+ r -> r <> "" -> String.prefix sep (r +:+ b +:+ sep) = false) /\ clean sep b = true.
Proof.
  induction a as [|c a IH].
  - cbn. split; [|tauto]. intros Hb. split; [|done]. intros [|] r E Hr; [|done]. by destruct r.
  - cbn [String.append clean]. rewrite andb_true_iff, IH, negb_true_iff. split.
    + intros (Hc & Ha & Hb). split; [|done]. intros [|x p] r E Hr.
      * cbn in E. subst r. cbn [String.append]. by rewrite <- sapp_assoc.
      * cbn in E. injection E as -> E. by apply (Ha p r).
    + intros [Ha Hb]. split_and!; [|intros p r E Hr; apply (Ha (String c p) r); [by rewrite E|done]|done].
      specialize (Ha "" (String c a) eq_refl ltac:(done)). cbn [String.append] in Ha.
      by rewrite sapp_assoc.
Qed.

(** Inside a word no token starts. *)
Lemma token_not_in_word w a p r x :
  lacks " " a = true -> a = p +:+ r -> r <> "" -> String.prefix (token w) (r +:+ x) = false.
Proof.
  intros Ha -> Hr. rewrite lacks_app in Ha. apply andb_prop in Ha as [_ Ha].
  destruct r as [|c r]; [done|]. cbn in Ha |- *. destruct (Ascii.ascii_dec " " c) as [<-|]; [|done].
  by rewrite Ascii.eqb_refl in Ha.
Qed.

Lemma clean_text w ws :
  lacks " " w = true -> Forall (fun x => lacks " " x = true) ws -> w ∉ ws ->
  clean (token w) (text ws) = true.
Proof.
  intros Hw Hws. induction Hws as [|a ws Ha Hws IH]; intros Hn; [done|].
  apply not_elem_of_cons in Hn as [Hwa Hn]. destruct ws as [|b ws].
  - change (text [a]) with a. by apply lacks_clean.
  - rewrite text_cons. apply clean_app. split.
    { intros p r E Hr. by apply (token_not_in_word w a p r). }
    change (" " +:+ text (b :: ws)) with (String " " (text (b :: ws))). cbn [clean].
    rewrite IH, andb_true_r by done. apply negb_true_iff.
    destruct (String.prefix _ _) eqn:E; [|done]. exfalso. apply Hn.
    inversion_clear Hws as [|? ? Hb _]. unfold token in E. cbn in E.
    assert (exists r, text (b :: ws) +:+ token w = b +:+ String " " r) as [r Hr].
    { destruct ws as [|c ws]; [by eexists|]. rewrite text_cons. rewrite sapp_assoc. by eexists. }
    unfold token in Hr. cbn in Hr. cbn [String.append] in E. rewrite Hr in E.
    apply word_prefix in E as ->; [|done..]. by left.
Qed.

(** Texts joined by a token are a text. *)
Fixpoint weave (w : string) (wss : list (list string)) : list string :=
  match wss with
  | [] => []
  | [ws] => ws
  | ws :: wss' => ws ++ w :: weave w wss'
  end.

Lemma weave_nil w wss : wss <> [] -> Forall (fun ws => ws <> []) wss -> weave w wss <> [].
Proof. intros Hn Hne. destruct Hne as [|ws [|ws' wss] Hws]; [done|done|]. simpl. by destruct ws. Qed.

Lemma text_app a b : a <> [] -> b <> [] -> text (a ++ b) = text a +:+ " " +:+ text b.
Proof.
  intros Ha Hb. induction a as [|x [|y a] IH]; [done| |].
  - destruct b; [done|]. by rewrite <- text_cons.
  - change (text ((x :: y :: a) ++ b)) with (x +:+ " " +:+ text ((y :: a) ++ b)).
    rewrite IH by done. rewrite text_cons. by rewrite !sapp_assoc.
Qed.

Lemma text_weave w wss :
  wss <> [] -> Forall (fun ws => ws <> []) wss ->
  strings_Join (map text wss) (token w) = text (weave w wss).
Proof.
  intros Hn Hne. induction Hne as [|ws wss Hws Hne IH]; [done|]. destruct wss as [|ws' wss]; [done|].
  change (strings_Join (map text (ws :: ws' :: wss)) (token w)) with
    (text ws +:+ token w +:+ strings_Join (map text (ws' :: wss)) (token w)).
  rewrite IH by done. change (weave w (ws :: ws' :: wss)) with (ws ++ w :: weave w (ws' :: wss)).
  rewrite text_app by done. unfold token.
  assert (weave w (ws' :: wss) <> []) as Hr by (by apply weave_nil).
  destruct (weave w (ws' :: wss)) as [|v vs]; [done|]. rewrite text_cons. by rewrite !sapp_assoc.
Qed.

Lemma elem_of_weave x w wss : x ∈ weave w wss -> x = w \/ exists ws, ws ∈ wss /\ x ∈ ws.
Proof.
  induction wss as [|ws [|ws' wss] IH]; intros Hx.
  - by apply not_elem_of_nil in Hx.
  - right. exists ws. split; [by left|done].
  - change (x ∈ ws ++ w :: weave w (ws' :: wss)) in Hx. rewrite elem_of_app, elem_of_cons in Hx.
    destruct Hx as [Hx|[Hx|Hx]]; [right; exists ws; split; [by left|done]|by left|].
    destruct (IH Hx) as [?|(v & Hv & Hxv)]; [by left|]. right. exists v. split; [by right|done].
Qed.

(** ** Reading what was written *)

Lemma mapM_map_ok {A B} (f : A -> B) (g : B -> outcome A) (l : list A) :
  Forall (fun x => g (f x) = Ok x) l -> mapM g (map f l) = Ok l.
Proof.
  induction 1 as [|x l Hx Hl IH]; [done|]. simpl. rewrite Hx. simpl. by rewrite IH.
Qed.

Lemma clause_words ds :
  ds <> [] -> render_clause ds = text (weave "or" (map (fun d => [render_def d]) ds)).
Proof.
  intros Hn. rewrite <- text_weave.
  - unfold render_clause. by rewrite map_map.
  - by destruct ds.
  - apply Forall_map, Forall_true. done.
Qed.

Definition clause_ok (ds : list FilterDef) : Prop := ds <> [] /\ Forall (fun d => def_ok d = true) ds.

Lemma clause_word ds x :
  clause_ok ds -> x ∈ weave "or" (map (fun d => [render_def d]) ds) ->
  lacks " " x = true /\ (lacks "," x = true -> x = "or"%string).
Proof.
  intros [_ Hds] Hx. apply elem_of_weave in Hx as [->|(ws & Hws & Hx)]; [done|].
  apply list_elem_of_fmap in Hws as (d & -> & Hd). apply list_elem_of_singleton in Hx as ->.
  rewrite Forall_forall in Hds. split; [by apply render_def_word, Hds|].
  by rewrite render_def_comma.
Qed.

Lemma clean_clause w ds :
  clause_ok ds -> lacks " " w = true -> lacks "," w = true -> w <> "or"%string ->
  clean (token w) (render_clause ds) = true.
Proof.
  intros Hok Hw Hc Hor. rewrite clause_words by apply Hok. apply clean_text; [done| |].
  - apply Forall_forall. intros x Hx. by apply (clause_word ds).
  - intros Hx. apply Hor, (clause_word ds w Hok Hx), Hc.
Qed.

Lemma FilterDefs_Set_render ff ds :
  clause_ok ds -> FilterDefs_Set ff (render_clause ds) = Ok (ff ++ [ds]).
Proof.
  intros Hok. unfold FilterDefs_Set. change OrUpperCase with (token "OR"). change OrToken with (token "or").
  rewrite Replace1_clean by (done || by apply clean_clause).
  unfold render_clause. change OrToken with (token "or").
  destruct Hok as [Hn Hds]. rewrite Split_Join; [|done|by destruct ds|].
  - rewrite mapM_map_ok; [done|]. eapply Forall_impl; [exact Hds|]. intros d Hd. by apply Set_def_render.
  - apply Forall_map. eapply Forall_impl; [exact Hds|]. intros d Hd. by apply lacks_clean, render_def_word.
Qed.

Definition filter_ok (cs : list (list FilterDef)) : Prop := cs <> [] /\ Forall clause_ok cs.

Lemma clean_render w cs :
  filter_ok cs -> lacks " " w = true -> lacks "," w = true -> w <> "or"%string -> w <> "and"%string ->
  clean (token w) (render cs) = true.
Proof.
  intros [Hn Hcs] Hw Hc Hor Hand.
  set (wss := map (fun ds => weave "or" (map (fun d => [render_def d]) ds)) cs).
  assert (render cs = text (weave "and" wss)) as ->.
  { rewrite <- text_weave.
    - unfold render. f_equal. unfold wss. rewrite map_map. apply map_ext_in. intros ds Hds.
      apply clause_words. rewrite Forall_forall in Hcs. by apply Hcs, list_elem_of_In.
    - unfold wss. by destruct cs.
    - apply Forall_map. eapply Forall_impl; [exact Hcs|]. intros ds [Hne _].
      apply weave_nil; [by destruct ds|]. apply Forall_map, Forall_true. done. }
  assert (forall x, x ∈ weave "and" wss -> lacks " " x = true /\ (lacks "," x = true -> x = "or" \/ x = "and")%string) as Hx.
  { intros x [->|(ws & Hws & Hx)]%elem_of_weave; [split; [done|by right]|].
    apply list_elem_of_fmap in Hws as (ds & -> & Hds). rewrite Forall_forall in Hcs.
    destruct (clause_word ds x (Hcs ds Hds) Hx). split; [done|]. intros. left. auto. }
  apply clean_text; [done| |].
  - apply Forall_forall. intros x Hin. by apply Hx.
  - intros Hin. by destruct (proj2 (Hx w Hin) Hc).
Qed.

Lemma FilterDefs_Set_all ff cs :
  Forall clause_ok cs ->
  foldl (fun ff andSet => ff ← ff; FilterDefs_Set ff andSet) (Ok ff) (map render_clause cs) = Ok (ff ++ cs).
Proof.
  intros Hcs. revert ff. induction Hcs as [|ds cs Hds Hcs IH]; intros ff; [by rewrite app_nil_r|].
  cbn [map foldl mbind outcome_bind]. rewrite FilterDefs_Set_render by done. rewrite IH.
  by rewrite <- app_assoc.
Qed.

Lemma parse_filters_render filters :
  Forall filter_ok filters -> parse_filters (map render filters) = Ok (concat filters).
Proof.
  intros Hf. unfold parse_filters. change (concat filters) with ([] ++ concat filters).
  generalize (@nil (list FilterDef)) as ff.
  induction Hf as [|cs filters Hcs Hf IH]; intros ff; [by rewrite app_nil_r|].
  cbn [map foldl]. change AndUpperCase with (token "AND"). change AndToken with (token "and").
  rewrite Replace1_clean; [|done|by apply clean_render].
  change (render cs) with (strings_Join (map render_clause cs) (token "and")). destruct Hcs as [Hn Hcs].
  rewrite Split_Join; [|done|by destruct cs|].
  - rewrite FilterDefs_Set_all by done. rewrite IH. by rewrite <- app_assoc.
  - apply Forall_map. eapply Forall_impl; [exact Hcs|]. intros ds Hds. by apply clean_clause.
Qed.

Lemma FilterWrapper_or (w : FilterWrapper) chf bs :
  Forall2 (fun f b => FilterMap f chf = Ok b) w bs -> FilterWrapper_FilterMap w chf = Ok (existsb id bs).
Proof.
  induction 1 as [|f b w bs Hf Hw IH]; [done|]. cbn [FilterWrapper_FilterMap existsb]. rewrite Hf.
  cbn [mbind outcome_bind]. by destruct b.
Qed.

(** ** Properties *)

(** C14: filters mean what they say.  For filters written from definitions ([render]: fields
    joined by commas, alternatives by " or ", conditions by " and "), [GetFilters] gives one
    wrapper per condition, in order; a wrapper accepts a flow exactly when one of its
    definitions holds of it, each definition being the filter [newFilter] makes of it. *)
Theorem GetFilters_means filters (filter_of : FilterDef -> Filter) (holds : FilterDef -> bool) chf :
  Forall filter_ok filters ->
  Forall (fun d => newFilter d = Ok (filter_of d) /\ FilterMap (filter_of d) chf = Ok (holds d))
    (concat (concat filters)) ->
  exists ws, GetFilters (map render filters) = Ok ws /\
    mapM (fun w => FilterWrapper_FilterMap w chf) ws = Ok (map (existsb holds) (concat filters)).
Proof.
  intros Hok Hd. exists (map (map filter_of) (concat filters)).
  unfold GetFilters. rewrite parse_filters_render by done. cbn [mbind outcome_bind].
  induction (concat filters) as [|ds cs IH]; [done|].
  cbn [concat] in Hd. apply Forall_app in Hd as [Hds Hcs]. destruct (IH Hcs) as [IH1 IH2].
  assert (mapM newFilter ds = Ok (map filter_of ds)) as Hm.
  { clear -Hds. induction Hds as [|d ds [Hd _] Hds IH]; [done|]. simpl. rewrite Hd. simpl. by rewrite IH. }
  assert (FilterWrapper_FilterMap (map filter_of ds) chf = Ok (existsb holds ds)) as Hw.
  { rewrite (FilterWrapper_or _ _ (map holds ds)).
    { f_equal. clear. induction ds as [|d ds IH]; [done|]. simpl. by rewrite IH. }
    clear -Hds. induction Hds as [|d ds [_ Hd] Hds IH]; constructor; done. }
  simpl. rewrite Hm. simpl. rewrite IH1. simpl. rewrite Hw. simpl. by rewrite IH2.
Qed.

(** The two alternatives and the condition of a written filter, on a flow. *)
Definition sample_def1 := mkFilterDef "foo" "==" "no" "string" "".
Definition sample_def2 := mkFilterDef "custom_bigint.fooII" ">" "11" "int" "".
Definition sample_def3 := mkFilterDef "src_addr" "%" "10.2.2.0/24" "addr" "".
Definition sample_map : gmap string Avro :=
  {[ "foo" := AStr "bar"; "src_addr" := AStr "10.2.2.1"; "custom_bigint" := AMapInt64 (Some {["fooII" := 12]}) ]}.
Definition sample_filter (d : FilterDef) : Filter :=
  match newFilter d with
  | Ok f => f
  | _ => FString (mkStringFilter SEquals [] "" "")
  end.
Definition sample_holds (d : FilterDef) : bool := bool_decide (FilterMap (sample_filter d) sample_map = Ok true).

Lemma GetFilters_means_witness :
  render [[sample_def1; sample_def2]; [sample_def3]] =
    "string,foo,==,no or int,custom_bigint.fooII,>,11 and addr,src_addr,%,10.2.2.0/24"%string /\
  exists ws, GetFilters [render [[sample_def1; sample_def2]; [sample_def3]]] = Ok ws /\
    mapM (fun w => FilterWrapper_FilterMap w sample_map) ws = Ok [true; true].
Proof.
  split; [reflexivity|].
  destruct (GetFilters_means [[[sample_def1; sample_def2]; [sample_def3]]] sample_filter sample_holds sample_map)
    as (ws & Hws & Hb).
  - repeat (constructor; [split; [discriminate|]|]); repeat constructor; discriminate.
  - repeat constructor; vm_compute; reflexivity.
  - exists ws. split; [exact Hws|]. rewrite Hb. vm_compute. reflexivity.
Defined.

(** Whether a value is a map that the tests of this type of filter index by name. *)
Definition is_indexed (ty : string) (v : option Avro) : bool :=
  match v with
  | Some (AMapStr _) => negb (String.eqb ty type_Int)
  | Some (AMapInt32 _) | Some (AMapInt64 _) => String.eqb ty type_Int
  | _ => false
  end.

Lemma test_text_panics dims chf test :
  dims <> [] ->
  match dims with
  | [d] => if is_indexed type_String (chf !! d) then test_text dims chf test = Panic "index out of range"
           else exists b, test_text dims chf test = Ok b
  | _ => exists b, test_text dims chf test = Ok b
  end.
Proof.
  unfold test_text, dim. destruct dims as [|d [|d1 dims]]; intros Hd; [done| |]; simpl;
  destruct (chf !! d) as [[]|]; simpl; try (by eexists);
  destruct (chf !! "custom_str") as [[]|]; try (by eexists); by destruct (default ∅ m !! d); eexists.
Qed.

Lemma test_int_panics dims chf test n :
  dims <> [] ->
  match dims with
  | [d] => if is_indexed type_Int (chf !! d) then test_int dims chf test n = Panic "index out of range"
           else exists b, test_int dims chf test n = Ok b
  | _ => exists b, test_int dims chf test n = Ok b
  end.
Proof.
  unfold test_int, dim. destruct dims as [|d [|d1 dims]]; intros Hd; [done| |]; simpl;
  destruct (chf !! d) as [[]|]; simpl; try (by eexists);
  destruct (chf !! "custom_bigint") as [[]|]; try (by eexists); by destruct (default ∅ m !! d); eexists.
Qed.

Lemma stringHas_panics f chf :
  sf_dimension f <> [] ->
  match sf_dimension f with
  | [d] => if is_indexed type_String (chf !! d) then stringHas f chf = Panic "index out of range"
           else exists b, stringHas f chf = Ok b
  | _ => exists b, stringHas f chf = Ok b
  end.
Proof.
  unfold stringHas, dim. destruct (sf_dimension f) as [|d [|d1 dims]]; intros Hd; [done| |]; simpl;
  destruct (chf !! d) as [[]|]; simpl; try (by eexists);
  destruct (chf !! "custom_str") as [[]|]; by eexists.
Qed.

(** A test and its negation panic on the same flows. *)
Lemma onot_outcome (P : bool) (o : outcome bool) :
  (if P then o = Panic "index out of range" else exists b, o = Ok b) ->
  (if P then onot o = Panic "index out of range" else exists b, onot o = Ok b).
Proof. destruct P; [by intros ->|]. intros [b ->]. by eexists. Qed.

Definition one_part (fd : FilterDef) (chf : gmap string Avro) : bool :=
  match strings_Split (fd_Dimension fd) "." with
  | [d] => is_indexed (fd_FType fd) (chf !! d)
  | _ => false
  end.

Lemma string_panics op fd chf :
  fd_FType fd <> type_Int ->
  let o := StringFilter_FilterMap
    (mkStringFilter op (strings_Split (fd_Dimension fd) ".") (fd_Value fd) (fd_Name fd)) chf in
  if one_part fd chf then o = Panic "index out of range" else exists b, o = Ok b.
Proof.
  intros Hty. cbv zeta. set (f := mkStringFilter _ _ _ _).
  assert (forall d, is_indexed type_String (chf !! d) = is_indexed (fd_FType fd) (chf !! d)) as Hi.
  { intros d. unfold is_indexed. apply String.eqb_neq in Hty. rewrite Hty. done. }
  pose proof (fun t => test_text_panics (sf_dimension f) chf t (Split_ne _ _)) as Ht.
  pose proof (stringHas_panics f chf (Split_ne _ _)) as Hh.
  assert (forall o : outcome bool, (match sf_dimension f with
    | [d] => if is_indexed type_String (chf !! d) then o = Panic "index out of range" else exists b, o = Ok b
    | _ => exists b, o = Ok b end) -> if one_part fd chf then o = Panic "index out of range" else exists b, o = Ok b) as Hm.
  { intros o. unfold one_part. cbn [sf_dimension f]. destruct (strings_Split _ _) as [|d [|]]; try done.
    by rewrite Hi. }
  destruct op; cbn [StringFilter_FilterMap sf_cf f].
  - apply Hm, Ht.
  - apply onot_outcome, Hm, Ht.
  - apply Hm, Ht.
  - by apply Hm.
  - by apply onot_outcome, Hm.
Qed.

Lemma int_panics op n fd chf :
  fd_FType fd = type_Int ->
  let o := IntFilter_FilterMap (mkIntFilter op (strings_Split (fd_Dimension fd) ".") n (fd_Name fd)) chf in
  if one_part fd chf then o = Panic "index out of range" else exists b, o = Ok b.
Proof.
  intros Hty. cbv zeta. set (f := mkIntFilter _ _ _ _).
  pose proof (fun t => test_int_panics (if_dimension f) chf t n (Split_ne _ _)) as Ht.
  assert (forall t, if one_part fd chf then test_int (if_dimension f) chf t n = Panic "index out of range"
    else exists b, test_int (if_dimension f) chf t n = Ok b) as Hm.
  { intros t. specialize (Ht t). unfold one_part. rewrite Hty. cbn [if_dimension f] in *.
    by destruct (strings_Split _ _) as [|d [|]]. }
  destruct op; cbn [IntFilter_FilterMap if_cf f]; [apply Hm|apply onot_outcome, Hm|apply Hm..].
Qed.

Lemma addr_panics op v fd chf :
  fd_FType fd <> type_Int ->
  let o := AddrFilter_FilterMap (mkAddrFilter op (strings_Split (fd_Dimension fd) ".") v (fd_Name fd)) chf in
  if one_part fd chf then o = Panic "index out of range" else exists b, o = Ok b.
Proof.
  intros Hty. cbv zeta. set (f := mkAddrFilter _ _ _ _).
  assert (if one_part fd chf then addrEquals f chf = Panic "index out of range"
    else exists b, addrEquals f chf = Ok b) as Hm.
  { unfold addrEquals, one_part. pose proof (fun t => test_text_panics (af_dimension f) chf t (Split_ne _ _)) as Ht.
    cbn [af_dimension f] in *. unfold is_indexed in *. apply String.eqb_neq in Hty. rewrite Hty.
    destruct (strings_Split _ _) as [|d [|]]; apply Ht. }
  destruct op; cbn [AddrFilter_FilterMap af_cf f]; [done|by apply onot_outcome|done].
Qed.

(** A filter never fails, and panics exactly when its dimension is a bare name of a map
    that it would have to index: [custom_str] for text and addresses, [custom_int] and
    [custom_bigint] for integers, which every record has. *)
Lemma FilterMap_panics fd f chf :
  newFilter fd = Ok f ->
  if one_part fd chf then FilterMap f chf = Panic "index out of range"
  else exists b, FilterMap f chf = Ok b.
Proof.
  unfold newFilter. destruct (String.eqb_spec (fd_FType fd) type_String) as [Hs|_].
  { assert (fd_FType fd <> type_Int) by (rewrite Hs; done). unfold newStringFilter.
    repeat destruct (String.eqb _ _); intros [= <-]; by apply string_panics. }
  destruct (String.eqb_spec (fd_FType fd) type_Int) as [Hi|Hi].
  { unfold newIntFilter. destruct (Atoi _); [|done].
    repeat destruct (String.eqb _ _); intros [= <-]; by apply int_panics. }
  destruct (String.eqb_spec (fd_FType fd) type_Addr) as [Ha|_]; [|done].
  unfold newAddrFilter. destruct (ParseCIDR _); [|done].
  repeat destruct (String.eqb _ _); intros [= <-]; by apply addr_panics.
Qed.

Lemma FilterMap_panics_witness :
  exists f, newFilter (mkFilterDef "custom_str" "==" "x" "string" "") = Ok f /\
    FilterMap f {[ "custom_str" := AMapStr (Some ∅) ]} = Panic "index out of range".
Proof.
  eexists. split; [reflexivity|].
  exact (FilterMap_panics (mkFilterDef "custom_str" "==" "x" "string" "") _
    {[ "custom_str" := AMapStr (Some ∅) ]} eq_refl).
Defined.

(** An address filter over an IPv4 network accepts exactly the addresses whose leading bits
    are those of the network, [==] and [%] alike; [!=] is the opposite. *)
Lemma AddrFilter_network net n d ip name chf f op :
  length net = 4%nat -> bytes_ok net -> 0 <= n <= 32 -> length ip = 4%nat -> bytes_ok ip ->
  lacks "." d = true -> chf !! d = Some (AStr (v4_text ip)) ->
  newFilter (mkFilterDef d op (cidr_text net n) type_Addr name) = Ok f ->
  let inside := be_combine ip / 2 ^ (32 - n) =? be_combine net / 2 ^ (32 - n) in
  FilterMap f chf = Ok (if String.eqb op NotEqual then negb inside else inside).
Proof.
  intros Hl Hb Hn Hli Hip Hd Hc Hf inside.
  unfold newFilter in Hf. cbn [fd_FType fd_Value fd_Operator fd_Dimension fd_Name String.eqb type_Addr] in Hf.
  cbn in Hf. unfold newAddrFilter in Hf. cbn [fd_FType fd_Value fd_Operator fd_Dimension fd_Name] in Hf.
  rewrite ParseCIDR_v4, Split_lacks in Hf by done.
  set (net' := mkIPNet _ _) in Hf.
  assert (forall c, addrEquals (mkAddrFilter c [d] net' name) chf = Ok inside) as He.
  { intros c. unfold addrEquals, test_text. cbn [af_dimension dim lookup list_lookup mbind outcome_bind].
    cbn. rewrite Hc. rewrite ParseIP_v4 by done. unfold net'. by rewrite Contains_v4. }
  destruct (String.eqb op Equal) eqn:E1; [|destruct (String.eqb op NotEqual) eqn:E2;
    [|destruct (String.eqb op Contains) eqn:E3]].
  - apply String.eqb_eq in E1 as ->. injection Hf as <-. apply He.
  - injection Hf as <-. cbn [FilterMap AddrFilter_FilterMap af_cf]. unfold addrNotEquals. by rewrite He.
  - injection Hf as <-. apply He.
  - done.
Qed.

Lemma AddrFilter_network_witness :
  exists f, newFilter (mkFilterDef "src_addr" "!=" "10.2.2.0/23" "addr" "") = Ok f /\
    FilterMap f {[ "src_addr" := AStr "10.2.3.7" ]} = Ok false.
Proof.
  eexists. split; [vm_compute; reflexivity|].
  etransitivity; [eapply (AddrFilter_network [10; 2; 2; 0] 23 "src_addr" [10; 2; 3; 7] "" _ _ "!=");
    first [reflexivity | lia | decide_done]|vm_compute; reflexivity].
Defined.

(** An integer filter on a name of [custom_int], whose values are 32 bits wide, compares
    with its own value cut to 32 bits, so outside that range it is wrong; on [custom_bigint] it
    compares with the value itself. *)
Lemma IntFilter_widths text value d name chf f32 f64 m32 m64 op :
  Atoi text = Some value -> lacks "." d = true ->
  chf !! "custom_int" = Some (AMapInt32 m32) -> chf !! "custom_bigint" = Some (AMapInt64 m64) ->
  newFilter (mkFilterDef ("custom_int." +:+ d) op text type_Int name) = Ok f32 ->
  newFilter (mkFilterDef ("custom_bigint." +:+ d) op text type_Int name) = Ok f64 ->
  let compare x v :=
    if String.eqb op Equal then x =? v
    else if String.eqb op NotEqual then negb (x =? v)
    else if String.eqb op LessThan then x <? v
    else x >? v in
  FilterMap f32 chf = Ok (compare (gomap_get 0 m32 d) (swrap 32 value)) /\
  FilterMap f64 chf = Ok (compare (gomap_get 0 m64 d) value).
Proof.
  intros Ha Hd H32 H64. unfold newFilter. cbn [fd_FType].
  change (String.eqb type_Int type_String) with false. change (String.eqb type_Int type_Int) with true.
  unfold newIntFilter. cbn [fd_Value fd_Operator fd_Dimension fd_Name]. rewrite Ha.
  assert (forall c, lacks "." c = true -> strings_Split (c +:+ String "." d) "." = [c; d]) as Hs.
  { intros c Hc. apply (Split_Join "." [c; d]); [done|done|]. repeat constructor; by apply lacks_clean. }
  change ("custom_int." +:+ d) with ("custom_int" +:+ String "." d).
  change ("custom_bigint." +:+ d) with ("custom_bigint" +:+ String "." d).
  rewrite !Hs by done.
  assert (forall t, test_int ["custom_int"; d]%string chf t value = Ok (t (gomap_get 0 m32 d) (swrap 32 value))) as E32.
  { intros t. unfold test_int. simpl. by rewrite H32. }
  assert (forall t, test_int ["custom_bigint"; d]%string chf t value = Ok (t (gomap_get 0 m64 d) value)) as E64.
  { intros t. unfold test_int. simpl. by rewrite H64. }
  destruct (String.eqb op Equal); [|destruct (String.eqb op NotEqual); [|destruct (String.eqb op LessThan);
    [|destruct (String.eqb op GreaterThan); [|done]]]];
    intros [= <-] [= <-]; cbn [FilterMap IntFilter_FilterMap if_cf];
    unfold intEquals, intNotEquals, intLessThan, intGreaterThan, intEquals; cbn [if_dimension if_value];
    by rewrite E32, E64.
Qed.

(** "custom_int.x == 4294967297" accepts a flow where it is 1. *)
Lemma IntFilter_widths_witness :
  exists f f64, newFilter (mkFilterDef "custom_int.x" "==" "4294967297" "int" "") = Ok f /\
    newFilter (mkFilterDef "custom_bigint.x" "==" "4294967297" "int" "") = Ok f64 /\
    let m := {[ "custom_int" := AMapInt32 (Some {["x" := 1]}); "custom_bigint" := AMapInt64 (Some {["x" := 1]}) ]} in
    FilterMap f m = Ok true /\ FilterMap f64 m = Ok false.
Proof.
  eexists _, _. split; [vm_compute; reflexivity|]. split; [vm_compute; reflexivity|].
  exact (IntFilter_widths "4294967297" 4294967297 "x" ""
    {[ "custom_int" := AMapInt32 (Some {["x" := 1]}); "custom_bigint" := AMapInt64 (Some {["x" := 1]}) ]}
    _ _ (Some {["x" := 1]}) (Some {["x" := 1]}) "==" eq_refl eq_refl eq_refl eq_refl eq_refl eq_refl).
Defined.
