(* ===== verification/GoFloat.v ===== *)
(** * Go's float64

    A [float64] is a [spec_float] of 53 bits of precision.  The conversions, [math.Max], and
    what rounding does to the positive normal numbers the program computes with: a product
    that fits is exact, and a quotient at most doubles when it is rounded. *)
From Stdlib Require Import SpecFloat.
From S2P Require Import Prelude.

Definition float64 : Type := spec_float.
Definition float64_of (z : Z) : float64 := binary_normalize 53 1024 z 0 false.
Definition float64_mul : float64 -> float64 -> float64 := SFmul 53 1024.
Definition float64_div : float64 -> float64 -> float64 := SFdiv 53 1024.

(** [int(f)] on 64 bits; out of range, amd64 gives the least integer. *)
Definition int64_of_float (f : float64) : Z :=
  let least := - 2 ^ 63 in
  match f with
  | S754_zero _ => 0
  | S754_finite s m e =>
      let z := if 0 <=? e then Zpos m * 2 ^ e else Zpos m / 2 ^ (- e) in
      let z := if s then - z else z in
      if decide (in_srange 64 z) then z else least
  | _ => least
  end.

(** [math.Max]. *)
Definition math_Max (x y : float64) : float64 :=
  match x, y with
  | S754_infinity false, _ | _, S754_infinity false => S754_infinity false
  | S754_nan, _ | _, S754_nan => S754_nan
  | S754_zero s, S754_zero _ => if s then y else x
  | _, _ => if SFltb y x then x else y
  end.

Example int64_of_float_1 : map int64_of_float
  [float64_of 7; float64_mul (float64_of (-7)) (S754_finite false 1 (-1)); S754_nan] = [7; -3; - 2 ^ 63].
Proof. vm_compute. reflexivity. Qed.

(** ** Digits *)

Lemma digits2_pos_bounds p :
  2 ^ (Zpos (digits2_pos p) - 1) <= Zpos p < 2 ^ Zpos (digits2_pos p).
Proof.
  induction p as [p IH|p IH|]; cbn [digits2_pos]; [| |by cbn];
    rewrite Pos2Z.inj_succ; replace (Z.succ (Zpos (digits2_pos p)) - 1) with
      (Z.succ (Zpos (digits2_pos p) - 1)) by lia;
    rewrite !Z.pow_succ_r by lia; lia.
Qed.

Lemma Zdigits2_spec m d : 1 <= d -> 2 ^ (d - 1) <= m < 2 ^ d -> Zdigits2 m = d.
Proof.
  intros Hd Hm. assert (0 < 2 ^ (d - 1)) by (apply Z.pow_pos_nonneg; lia).
  destruct m as [|p|p]; [lia| |lia]. cbn [Zdigits2]. pose proof (digits2_pos_bounds p) as Hp.
  apply Z.le_antisymm.
  - apply Z.lt_succ_r. replace (Z.succ d) with (d + 1) by lia.
    enough (Zpos (digits2_pos p) - 1 < d) by lia. apply (Z.pow_lt_mono_r_iff 2); lia.
  - enough (d - 1 < Zpos (digits2_pos p)) by lia. apply (Z.pow_lt_mono_r_iff 2); lia.
Qed.

Lemma Zdigits2_bounds m : 0 < m -> 2 ^ (Zdigits2 m - 1) <= m < 2 ^ Zdigits2 m /\ 1 <= Zdigits2 m.
Proof.
  intros Hm. destruct m as [|p|p]; [lia| |lia]. cbn [Zdigits2].
  split; [apply digits2_pos_bounds|lia].
Qed.

(** ** Shifting right *)

Lemma shr_1_div r : 0 <= shr_m r -> shr_m (shr_1 r) = shr_m r / 2.
Proof.
  destruct r as [m r s]. cbn [shr_m]. intros Hm. rewrite <- Z.div2_div.
  by destruct m as [|[p|p|]|p]; try lia.
Qed.

Lemma iter_shr_div p : forall r, 0 <= shr_m r -> shr_m (SpecFloat.iter_pos shr_1 p r) = shr_m r / 2 ^ Zpos p.
Proof.
  induction p as [p IH|p IH|]; intros r Hr; cbn [SpecFloat.iter_pos]; [| |by apply shr_1_div].
  - pose proof (shr_1_div r Hr) as H1. assert (0 <= shr_m (shr_1 r)) as H1'.
    { rewrite H1. apply Z.div_pos; lia. }
    pose proof (IH _ H1') as H2. assert (0 <= shr_m (SpecFloat.iter_pos shr_1 p (shr_1 r))) as H2'.
    { rewrite H2. apply Z.div_pos; lia. }
    rewrite IH, H2, H1 by done. rewrite !Z.div_div by lia. f_equal.
    rewrite (Pos2Z.inj_xI p). rewrite <- Z.pow_add_r by lia.
    rewrite <- Z.pow_succ_r by lia. f_equal. lia.
  - pose proof (IH _ Hr) as H2. assert (0 <= shr_m (SpecFloat.iter_pos shr_1 p r)) as H2'.
    { rewrite H2. apply Z.div_pos; lia. }
    rewrite IH, H2 by done. rewrite Z.div_div by lia. f_equal.
    rewrite (Pos2Z.inj_xO p). rewrite <- Z.pow_add_r by lia. f_equal. lia.
Qed.

Lemma iter_shr_exact p : forall k, 0 < k ->
  SpecFloat.iter_pos shr_1 p (Build_shr_record (k * 2 ^ Zpos p) false false) = Build_shr_record k false false.
Proof.
  assert (forall k, 0 < k -> shr_1 (Build_shr_record (2 * k) false false) =
                             Build_shr_record k false false) as H1.
  { intros k Hk. destruct k as [|q|q]; [lia|reflexivity|lia]. }
  induction p as [p IH|p IH|]; intros k Hk; cbn [SpecFloat.iter_pos].
  - replace (k * 2 ^ Zpos p~1) with (2 * ((k * 2 ^ Zpos p) * 2 ^ Zpos p)).
    + rewrite H1 by lia. by rewrite !IH by lia.
    + rewrite (Pos2Z.inj_xI p), Z.pow_add_r, Z.pow_1_r by lia.
      replace (2 * Zpos p) with (Zpos p + Zpos p) by lia. rewrite Z.pow_add_r by lia. lia.
  - replace (k * 2 ^ Zpos p~0) with ((k * 2 ^ Zpos p) * 2 ^ Zpos p); [by rewrite !IH by lia|].
    rewrite (Pos2Z.inj_xO p). replace (2 * Zpos p) with (Zpos p + Zpos p) by lia.
    rewrite Z.pow_add_r by lia. lia.
  - rewrite Z.pow_1_r, Z.mul_comm. by apply H1.
Qed.

Lemma shr_fexp_small m e : Zdigits2 m <= 53 -> -1074 <= e ->
  shr_fexp 53 1024 m e loc_Exact = (Build_shr_record m false false, e).
Proof.
  intros Hd He. unfold shr_fexp, fexp, emin. unfold shr.
  destruct (Z.max (Zdigits2 m + e - 53) (3 - 1024 - 53) - e) eqn:Hs; [done|lia|done].
Qed.

(** ** Rounding *)

(** Rounding to 53 bits: a normal number, at most twice what was rounded, and the same number
    when nothing is lost. *)
Lemma binary_round_aux_spec m e l :
  2 ^ 52 <= m -> -1074 <= e -> Zdigits2 m + e <= 1000 ->
  exists p e', binary_round_aux 53 1024 false m e l = S754_finite false p e' /\
    2 ^ 52 <= Zpos p < 2 ^ 53 /\ e <= e' <= e + (Zdigits2 m - 52) /\
    Zpos p * 2 ^ (e' - e) <= 2 * m /\
    (l = loc_Exact -> (2 ^ (Zdigits2 m - 53) | m) -> Zpos p * 2 ^ (e' - e) = m).
Proof.
  intros Hm He Hmax. destruct (Zdigits2_bounds m) as [[Hlo Hhi] H1]; [lia|].
  set (s := Zdigits2 m - 53). assert (0 <= s) as Hs.
  { enough (52 < Zdigits2 m) by lia. apply (Z.pow_lt_mono_r_iff 2); lia. }
  assert (0 < 2 ^ s) as Hp by (apply Z.pow_pos_nonneg; lia).
  set (a := m / 2 ^ s). assert (2 ^ 52 <= a < 2 ^ 53) as Ha.
  { split.
    - apply Z.div_le_lower_bound; [lia|]. rewrite <- Z.pow_add_r by lia. unfold s.
      by replace (Zdigits2 m - 53 + 52) with (Zdigits2 m - 1) by lia.
    - apply Z.div_lt_upper_bound; [lia|]. rewrite <- Z.pow_add_r by lia. unfold s.
      by replace (Zdigits2 m - 53 + 53) with (Zdigits2 m) by lia. }
  assert (a * 2 ^ s <= m) as Ham by (rewrite Z.mul_comm; apply Z.mul_div_le; lia).
  assert (exists mrs, shr_fexp 53 1024 m e l = (mrs, e + s) /\ shr_m mrs = a /\
    (l = loc_Exact -> (2 ^ s | m) -> mrs = Build_shr_record a false false)) as (mrs & Hshr & Hmrs & Hex).
  { unfold shr_fexp, fexp, emin.
    replace (Z.max (Zdigits2 m + e - 53) (3 - 1024 - 53) - e) with s by lia. unfold shr.
    assert (forall l, shr_m (shr_record_of_loc m l) = m) as Hl by (by intros [|[]]).
    destruct s as [|q|q] eqn:Hq; [| |lia].
    - rewrite Z.add_0_r. exists (shr_record_of_loc m l). split_and!; [done| |].
      + rewrite Hl. unfold a. by rewrite Z.div_1_r.
      + intros -> _. unfold a. by rewrite Z.div_1_r.
    - exists (SpecFloat.iter_pos shr_1 q (shr_record_of_loc m l)). split_and!; [done| |].
      + rewrite iter_shr_div, Hl by (rewrite Hl; lia). done.
      + intros -> [k Hk]. unfold a. rewrite Hk, Z.div_mul by lia.
        apply iter_shr_exact. nia. }
  unfold binary_round_aux. rewrite Hshr, Hmrs.
  set (r := round_nearest_even a (loc_of_shr_record mrs)).
  assert (a <= r <= a + 1) as Hr.
  { unfold r, round_nearest_even. destruct (loc_of_shr_record mrs) as [|[]]; [lia| |lia|lia].
    destruct (Z.even a); lia. }
  assert (l = loc_Exact -> (2 ^ s | m) -> r = a /\ a * 2 ^ s = m) as Hexact.
  { intros Hl Hk. unfold r. rewrite (Hex Hl Hk). cbn. split; [done|].
    destruct Hk as [k Hk]. unfold a. rewrite Hk at 1. rewrite Z.div_mul by lia. done. }
  destruct (decide (r < 2 ^ 53)) as [Hr53|Hr53].
  - rewrite shr_fexp_small by (try rewrite (Zdigits2_spec r 53); lia). cbn [shr_m].
    destruct r as [|p|p] eqn:Hrp; [lia| |lia].
    rewrite (proj2 (Z.leb_le _ _)) by (unfold s; lia). exists p, (e + s).
    replace (e + s - e) with s by lia.
    split_and!; [done|lia|lia|lia|unfold s; lia|nia|].
    intros Hl Hk. destruct (Hexact Hl Hk) as [-> ?]. done.
  - assert (r = 2 ^ 53) as Hr2 by lia. clearbody r. subst r. unfold shr_fexp, fexp, emin.
    rewrite (Zdigits2_spec (2 ^ 53) 54) by lia.
    replace (Z.max (54 + (e + s) - 53) (3 - 1024 - 53) - (e + s)) with 1 by lia.
    cbn -[Z.leb Z.add Z.pow]. rewrite (proj2 (Z.leb_le _ _)) by (unfold s; lia).
    exists 4503599627370496%positive, (e + s + 1).
    replace (e + s + 1 - e) with (Z.succ s) by lia. rewrite Z.pow_succ_r by lia.
    split_and!; [done|lia|lia|lia|unfold s; lia|nia|].
    intros Hl Hk. destruct (Hexact Hl Hk). lia.
Qed.

(** ** Integers as floats *)

Lemma Pos_iter_xO n p : Zpos (Pos.iter xO p n) = Zpos p * 2 ^ Zpos n.
Proof.
  induction n as [|n IH] using Pos.peano_ind; [cbn; lia|].
  rewrite Pos.iter_succ, Pos2Z.inj_succ, Z.pow_succ_r by lia. lia.
Qed.

(** A positive integer below 2{^53}: 53 digits, the integer shifted. *)
Lemma float64_of_spec z : 0 < z < 2 ^ 53 ->
  exists p e, float64_of z = S754_finite false p e /\
    2 ^ 52 <= Zpos p < 2 ^ 53 /\ -52 <= e <= 0 /\ Zpos p = z * 2 ^ (- e).
Proof.
  intros Hz. destruct (Zdigits2_bounds z) as [Hd Hd1]; [lia|].
  assert (Zdigits2 z <= 53) as Hd53.
  { enough (Zdigits2 z - 1 < 53) by lia. apply (Z.pow_lt_mono_r_iff 2); lia. }
  set (k := 53 - Zdigits2 z).
  assert (exists m, float64_of z = binary_round_aux 53 1024 false m (- k) loc_Exact /\
    m = z * 2 ^ k) as (m & Hf & Hm).
  { destruct z as [|p|p]; [lia| |lia]. unfold float64_of, binary_normalize, binary_round, fexp, emin.
    change (Zpos (digits2_pos p)) with (Zdigits2 (Zpos p)).
    replace (Z.max (Zdigits2 (Zpos p) + 0 - 53) (3 - 1024 - 53)) with (- k) by lia.
    unfold shl_align. rewrite Z.sub_0_r. destruct k as [|q|q] eqn:Hk; [| |lia].
    - exists (Zpos p). split; [done|]. lia.
    - exists (Zpos (Pos.iter xO p q)). split; [done|]. apply Pos_iter_xO. }
  assert (2 ^ 52 <= m < 2 ^ 53) as Hm53.
  { assert (0 < 2 ^ k) by (apply Z.pow_pos_nonneg; lia). subst m.
    replace (2 ^ 52) with (2 ^ (Zdigits2 z - 1) * 2 ^ k) by
      (rewrite <- Z.pow_add_r by lia; f_equal; lia).
    replace (2 ^ 53) with (2 ^ Zdigits2 z * 2 ^ k) by (rewrite <- Z.pow_add_r by lia; f_equal; lia).
    nia. }
  pose proof (Zdigits2_spec m 53 ltac:(lia) ltac:(lia)) as Hdm.
  destruct (binary_round_aux_spec m (- k) loc_Exact) as (p & e & Hr & Hp & He & _ & Hex); [lia..|].
  rewrite Hdm in *. specialize (Hex (reflexivity _) (Z.divide_1_l _)).
  assert (e = - k) as ->.
  { destruct (decide (e = - k)) as [|Hne]; [done|]. replace (e - - k) with 1 in Hex by lia. lia. }
  rewrite Z.add_opp_diag_l || replace (- k - - k) with 0 in Hex by lia.
  exists p, (- k). rewrite Hf, Hr, Z.opp_involutive. split_and!; [done|lia|lia|lia|lia|lia].
Qed.

(** [int(math.Max(f, 1))] of a positive normal number. *)
Lemma int64_Max_one p e : 2 ^ 52 <= Zpos p < 2 ^ 53 -> -1074 <= e <= 8 ->
  int64_of_float (math_Max (S754_finite false p e) (float64_of 1)) =
    Z.max (if 0 <=? e then Zpos p * 2 ^ e else Zpos p / 2 ^ (- e)) 1.
Proof.
  intros Hp He. change (float64_of 1) with (S754_finite false 4503599627370496 (-52)).
  assert (forall (b : bool) x y, int64_of_float (if b then x else y) =
    if b then int64_of_float x else int64_of_float y) as Hif by (by intros []).
  unfold math_Max. rewrite Hif.
  change (int64_of_float (S754_finite false 4503599627370496 (-52))) with 1.
  unfold SFltb. cbn [SFcompare].
  assert (int64_of_float (S754_finite false p e) =
    if 0 <=? e then Zpos p * 2 ^ e else Zpos p / 2 ^ (- e)) as Hint.
  { cbn [int64_of_float]. rewrite decide_True; [done|]. unfold in_srange.
    destruct (Z.leb_spec 0 e).
    - assert (2 ^ e <= 2 ^ 8) by (apply Z.pow_le_mono_r; lia).
      assert (0 < 2 ^ e) by (apply Z.pow_pos_nonneg; lia). nia.
    - assert (0 < 2 ^ (- e)) by (apply Z.pow_pos_nonneg; lia).
      assert (0 <= Zpos p / 2 ^ (- e)) by (apply Z.div_pos; lia).
      assert (Zpos p / 2 ^ (- e) <= Zpos p) by (apply Z.div_le_upper_bound; nia). lia. }
  rewrite Hint. destruct (Z.compare_spec (-52) e) as [<-|Hlt|Hgt].
  - change (0 <=? -52) with false. cbn match. change (- (-52)) with 52.
    assert (Zpos p / 2 ^ 52 = 1) as ->; [|by destruct (Pos.compare_cont _ _ _)].
    apply Z.le_antisymm; [|by apply Z.div_le_lower_bound; lia].
    apply Z.lt_succ_r. apply Z.div_lt_upper_bound; lia.
  - rewrite Z.max_l; [done|]. destruct (Z.leb_spec 0 e).
    + assert (0 < 2 ^ e) by (apply Z.pow_pos_nonneg; lia). nia.
    + assert (2 ^ (- e) <= 2 ^ 52) by (apply Z.pow_le_mono_r; lia).
      apply Z.div_le_lower_bound; [apply Z.pow_pos_nonneg; lia|lia].
  - rewrite (proj2 (Z.leb_gt 0 e)) by lia. rewrite Z.max_r; [done|].
    assert (2 ^ 53 <= 2 ^ (- e)) by (apply Z.pow_le_mono_r; lia).
    rewrite Z.div_small by lia. lia.
Qed.

Definition three_quarters : float64 := float64_div (float64_of 3) (float64_of 4).

(** [int(math.Max(float64(z) * .75, 1))]: nothing is lost below 2{^51}. *)
Lemma int64_three_quarters z : 0 < z < 2 ^ 51 ->
  int64_of_float (math_Max (float64_mul (float64_of z) three_quarters) (float64_of 1)) =
    Z.max (3 * z / 4) 1.
Proof.
  intros Hz. destruct (float64_of_spec z) as (p & e & -> & Hp & He & Hpz); [lia|].
  change three_quarters with (S754_finite false 6755399441055744 (-53)).
  unfold float64_mul. cbn [SFmul xorb]. rewrite Pos2Z.inj_mul.
  change 6755399441055744 with (3 * 2 ^ 51).
  assert (e <= -2) as He2.
  { destruct (decide (e <= -2)) as [|Hn]; [done|]. assert (2 ^ (- e) <= 2 ^ 1) by (apply Z.pow_le_mono_r; lia). nia. }
  set (m := Zpos p * (3 * 2 ^ 51)).
  destruct (Zdigits2_bounds m) as [Hd Hd1]; [lia|].
  assert (105 <= Zdigits2 m <= 106) as Hdm.
  { split.
    - enough (104 < Zdigits2 m) by lia. apply (Z.pow_lt_mono_r_iff 2); [lia..|].
      change (2 ^ 104) with (2 ^ 52 * 2 ^ 52). lia.
    - enough (Zdigits2 m - 1 < 106) by lia. apply (Z.pow_lt_mono_r_iff 2); [lia..|].
      change (2 ^ 106) with (2 ^ 53 * 2 ^ 53). lia. }
  destruct (binary_round_aux_spec m (e + -53) loc_Exact) as (p' & e' & -> & Hp' & He' & _ & Hex); [lia..|].
  assert (m = 3 * z * 2 ^ (51 - e)) as Hmz.
  { unfold m. rewrite Hpz. replace (51 - e) with (51 + - e) by lia. rewrite Z.pow_add_r by lia. lia. }
  clearbody m.
  assert (Zpos p' * 2 ^ (e' - (e + -53)) = 3 * z * 2 ^ (51 - e)) as Hval.
  { rewrite <- Hmz. apply Hex; [done|]. rewrite Hmz at 2. apply Z.divide_mul_r.
    exists (2 ^ (51 - e - (Zdigits2 m - 53))). rewrite <- Z.pow_add_r by lia. f_equal. lia. }
  rewrite int64_Max_one by lia. rewrite (proj2 (Z.leb_gt 0 e')) by lia. f_equal.
  assert (e' <= -2) as He2'.
  { destruct (decide (e' <= -2)) as [|Hn]; [done|]. exfalso.
    replace (e' - (e + -53)) with ((51 - e) + (e' + 2)) in Hval by lia.
    rewrite Z.pow_add_r in Hval by lia.
    assert (0 < 2 ^ (51 - e)) by (apply Z.pow_pos_nonneg; lia).
    assert (2 ^ 1 <= 2 ^ (e' + 2)) by (apply Z.pow_le_mono_r; lia).
    assert (Zpos p' * 2 ^ (e' + 2) = 3 * z) by nia. nia. }
  replace (51 - e) with ((e' - (e + -53)) + (- e' - 2)) in Hval by lia.
  rewrite Z.pow_add_r, Z.mul_assoc in Hval by lia.
  assert (0 < 2 ^ (e' - (e + -53))) by (apply Z.pow_pos_nonneg; lia).
  assert (Zpos p' = 3 * z * 2 ^ (- e' - 2)) as -> by nia.
  replace (- e') with ((- e' - 2) + 2) at 2 by lia. rewrite Z.pow_add_r by lia.
  rewrite (Z.mul_comm (3 * z)). apply Z.div_mul_cancel_l; [lia|].
  apply Z.pow_nonzero; lia.
Qed.

(** [int(math.Max(float64(a) / float64(b), 1))] is a number from 1 to [a]. *)
Lemma int64_quotient a b : 0 < a < 2 ^ 53 -> 2 <= b < 2 ^ 53 ->
  1 <= int64_of_float (math_Max (float64_div (float64_of a) (float64_of b)) (float64_of 1)) <= a.
Proof.
  intros Ha Hb. destruct (float64_of_spec a) as (pa & ea & -> & Hpa & Hea & Hpza); [lia|].
  destruct (float64_of_spec b) as (pb & eb & -> & Hpb & Heb & Hpzb); [lia|].
  unfold float64_div. cbn [SFdiv xorb]. unfold SFdiv_core_binary.
  rewrite !(Zdigits2_spec _ 53) by lia. unfold fexp, emin.
  replace (Z.min (Z.max (53 + ea - (53 + eb) - 53) (3 - 1024 - 53)) (ea - eb))
    with (ea - eb - 53) by lia.
  replace (ea - eb - (ea - eb - 53)) with 53 by lia. cbn match.
  rewrite Z.shiftl_mul_pow2 by lia.
  pose proof (Z_div_mod (Zpos pa * 2 ^ 53) (Zpos pb) ltac:(lia)) as Hq.
  destruct (Z.div_eucl _ _) as [q r]. destruct Hq as [Hq Hr].
  assert (2 ^ 52 <= q < 2 ^ 54) as Hq54 by nia.
  destruct (Zdigits2_bounds q) as [Hd Hd1]; [lia|].
  assert (Zdigits2 q <= 54) as Hdq.
  { enough (Zdigits2 q - 1 < 54) by lia. apply (Z.pow_lt_mono_r_iff 2); lia. }
  destruct (binary_round_aux_spec q (ea - eb - 53) (new_location (Zpos pb) r))
    as (p' & e' & -> & Hp' & He' & Hle & _); [lia..|].
  rewrite int64_Max_one by lia. split; [lia|]. apply Z.max_lub; [|lia].
  assert (Zpos p' * 2 ^ (e' - (ea - eb - 53)) * (2 * 2 ^ (- eb)) <= 2 * a * 2 ^ (53 - ea)) as Hmain.
  { assert (0 < 2 ^ (- eb)) by (apply Z.pow_pos_nonneg; lia).
    assert (2 * 2 ^ (- eb) <= Zpos pb) by nia.
    replace (53 - ea) with (53 + - ea) by lia. rewrite Z.pow_add_r by lia.
    assert (Zpos pb * q <= a * 2 ^ (- ea) * 2 ^ 53) by lia.
    transitivity (2 * q * Zpos pb); [|lia]. apply Z.mul_le_mono_nonneg; lia. }
  assert (Zpos p' * 2 ^ (e' + (53 - ea)) <= a * 2 ^ (53 - ea)) as Hval.
  { replace (e' + (53 - ea)) with ((e' - (ea - eb - 53)) + - eb) by lia.
    rewrite Z.pow_add_r by lia. lia. }
  assert (0 < 2 ^ (53 - ea)) by (apply Z.pow_pos_nonneg; lia).
  destruct (Z.leb_spec 0 e').
  - rewrite Z.pow_add_r in Hval by lia. nia.
  - replace (53 - ea) with ((e' + (53 - ea)) + - e') in Hval at 2 by lia.
    rewrite (Z.pow_add_r 2 (e' + (53 - ea))) in Hval by lia.
    assert (0 < 2 ^ (e' + (53 - ea))) by (apply Z.pow_pos_nonneg; lia).
    assert (Zpos p' <= a * 2 ^ (- e')) by nia.
    apply Z.div_le_upper_bound; [apply Z.pow_pos_nonneg; lia|lia].
Qed.
