(* ===== verification/Rollup.v ===== *)
(** * Rollups (src/pkg/rollup/rollup.go)

    What every kind of rollup shares: its definition and the parsing of it, the key a flow is
    counted under, its filters, and the order results are exported in.  A [float64] is a
    [spec_float] of 53 bits of precision; a [time.Duration] is a number of nanoseconds. *)
From Stdlib Require Import Ascii SpecFloat Sorting.Sorted.
From S2P Require Import Prelude GoIO GoStrings KT Filter GoFloat.

(** ** Definitions *)

Record Rollup := mkRollup {
  r_Dimension : string;
  r_Metric : float64;
  r_EventType : string;
  r_KeyJoin : string;
  r_Interval : Z;
  r_dims : list string;
  r_Name : string;
  r_Count : Z;
  r_Min : Z;
  r_Max : Z;
  r_Provider : string
}.

Definition zero_Rollup : Rollup := mkRollup "" (S754_zero false) "" "" 0 [] "" 0 0 0 "".

Record RollupDef := mkRollupDef {
  rd_Sample : bool;
  rd_Method : string;
  rd_Metrics : list string;
  rd_Dimensions : list string;
  rd_NameSet : list string
}.

(** [networkagent.RollupConfig]. *)
Record RollupConfig := mkRollupConfig {
  JoinKey : string;
  TopK : Z;
  Formats : list string;
  KeepUndefined : bool;
  MaxMemoryMB : Z;
  MaxKeys : Z;
  EmergencyCleanup : bool
}.

Definition UndefinedKey : string := "undefined".
Definition DimJoinToken : string := "$$".

Definition RollupDefs_Set (rs : list RollupDef) (value : string) : outcome (list RollupDef) :=
  let pts := strings_Split value "," in
  match map strings_TrimSpace pts with
  | method :: name :: metrics :: dims =>
      let sample := (2 <? String.length method)%nat && HasPrefix method "s_" in
      Ok (rs ++ [mkRollupDef sample (if sample then sdrop 2 method else method)
                   (strings_Split metrics "+") dims (strings_Split name ";")])
  | _ =>
      Err (Errorf "Rollup flag is defined by type, name, metric, dimension 1, dimension 2, ..., dimension n" [])
  end.

(** The first loop of [GetRollups]. *)
Definition parse_rollups (formats : list string) : outcome (list RollupDef) :=
  foldl (fun rs r => rs ← rs; RollupDefs_Set rs r) (Ok []) formats.

(** ** The base of a rollup *)

Record splitDim := mkSplitDim { sd_lhs : list string; sd_join : string; sd_rhs : list string }.

(** The lock is not modelled; [dtime] is in the state of each rollup. *)
Record rollupBase := mkRollupBase {
  metrics : list string;
  multiMetrics : list (list string);
  multiDims : list (list string);
  splitDims : gmap nat splitDim;
  keyJoin : string;
  topK : Z;
  eventType : string;
  sample : bool;
  nameSet : list string;
  filters : list FilterWrapper;
  hasFilters : bool;
  splitMetrics : bool
}.

(** The loop over the dimensions, from the [i]th. *)
Fixpoint init_dims (i : nat) (ds : list string) : outcome (list (list string) * gmap nat splitDim) :=
  match ds with
  | [] => Ok ([], ∅)
  | d :: ds' =>
      if strings_Contains d DimJoinToken then
        match strings_SplitN d DimJoinToken 3 with
        | [lhs; join; rhs] =>
            '(md, sd) ← init_dims (S i) ds';
            Ok ([d] :: md, <[i := mkSplitDim (strings_Split lhs ".") join (strings_Split rhs ".")]> sd)
        | _ => Err (Errorf "Invalid dimension grouping: %s" [])
        end
      else
        let pts := strings_Split d "." in
        if (2 <? length pts)%nat then Err (Errorf "Invalid dimension: %s" [])
        else '(md, sd) ← init_dims (S i) ds'; Ok (pts :: md, sd)
  end.

Fixpoint init_metrics (ms : list string) : outcome (list string * list (list string) * bool) :=
  match ms with
  | [] => Ok ([], [], false)
  | m :: ms' =>
      match strings_Split m "." with
      | [_] =>
          let splitSet := strings_Split m ";" in
          '(mt, mm, split) ← init_metrics ms';
          if (1 <? length splitSet)%nat then Ok (splitSet ++ mt, mm, true) else Ok (m :: mt, mm, split)
      | [a; b] => '(mt, mm, split) ← init_metrics ms'; Ok (mt, [a; b] :: mm, split)
      | _ => Err (Errorf "Invalid metric: %s" [])
      end
  end.

(** [r.init(rd)] on a rollup whose [keyJoin] and [topK] come from the configuration. *)
Definition rollupBase_init (cfg : RollupConfig) (rd : RollupDef) : outcome rollupBase :=
  '(md, sd) ← init_dims 0 (rd_Dimensions rd);
  '(mt, mm, split) ← init_metrics (rd_Metrics rd);
  let name := "KFlow:" +:+ strings_Join (rd_Metrics rd) "_" +:+ ":" +:+ strings_Join (rd_Dimensions rd) ":" in
  Ok (mkRollupBase mt mm md sd (JoinKey cfg) (TopK cfg) (strings_ReplaceByte name "." "_")
        (rd_Sample rd) (rd_NameSet rd) [] false split).

(** ** Keys *)

(** [d[i]]. *)
Definition part (d : list string) (i : nat) : outcome string :=
  match d !! i with
  | Some s => Ok s
  | None => Panic "index out of range"
  end.

Definition setKey (keepUndefined : bool) (mapr : gmap string Avro) (d : list string) : outcome string :=
  d0 ← part d 0;
  key ←
    (if (length d =? 1)%nat then
       Ok (match mapr !! d0 with
           | Some (AStr v) => v
           | Some (AInt v) => Itoa v
           | _ => ""%string
           end)
     else
       match mapr !! d0 with
       | Some (AMapStr dd) =>
           d1 ← part d 1;
           let key := gomap_get "" dd d1 in
           Ok (if String.eqb key "" then
                 if HasPrefix d1 "source_" then gomap_get "" dd ("dest_" +:+ sdrop 7 d1)
                 else if HasPrefix d1 "dest_" then gomap_get "" dd ("source_" +:+ sdrop 5 d1)
                 else key
               else key)
       | Some (AMapInt32 dd) => d1 ← part d 1; Ok (Itoa (gomap_get 0 dd d1))
       | Some (AMapInt64 dd) => d1 ← part d 1; Ok (Itoa (gomap_get 0 dd d1))
       | _ => Ok ""%string
       end);
  Ok (if keepUndefined && String.eqb key "" then UndefinedKey else key).

(** The parts of the key, from the [i]th dimension. *)
Fixpoint keyPts (r : rollupBase) (keepUndefined : bool) (mapr : gmap string Avro) (i : nat)
    (dims : list (list string)) : outcome (list string) :=
  match dims with
  | [] => Ok []
  | d :: dims' =>
      k ← (match splitDims r !! i with
           | None => setKey keepUndefined mapr d
           | Some md =>
               lhs ← setKey keepUndefined mapr (sd_lhs md);
               rhs ← setKey keepUndefined mapr (sd_rhs md);
               Ok (lhs +:+ sd_join md +:+ rhs)
           end);
      ks ← keyPts r keepUndefined mapr (S i) dims';
      Ok (k :: ks)
  end.

Definition getKey (r : rollupBase) (keepUndefined : bool) (mapr : gmap string Avro) : outcome string :=
  ks ← keyPts r keepUndefined mapr 0 (multiDims r);
  Ok (strings_Join ks (keyJoin r)).

Definition combo (dims : list (list string)) : list string :=
  map (fun d => match d with [a] => a | _ => nth 1 d "" end) dims.

(** ** Filters *)

Fixpoint keep_flow (fs : list FilterWrapper) (flow : gmap string Avro) : outcome bool :=
  match fs with
  | [] => Ok true
  | f :: fs' =>
      b ← FilterWrapper_FilterMap f flow; if (b : bool) then keep_flow fs' flow else Ok false
  end.
Fixpoint rollupBase_filter (r : rollupBase) (flows : list (gmap string Avro)) :
    outcome (list (gmap string Avro)) :=
  match flows with
  | [] => Ok []
  | flow :: flows' =>
      keep ← keep_flow (filters r) flow;
      res ← rollupBase_filter r flows';
      Ok (if (keep : bool) then flow :: res else res)
  end.

(** [if r.hasFilters { in = r.filter(in) }]. *)
Definition filtered (r : rollupBase) (flows : list (gmap string Avro)) : outcome (list (gmap string Avro)) :=
  if hasFilters r then rollupBase_filter r flows else Ok flows.

Definition SetFilter (r : rollupBase) (fw : FilterWrapper) : rollupBase :=
  mkRollupBase (metrics r) (multiMetrics r) (multiDims r) (splitDims r) (keyJoin r) (topK r)
    (eventType r) (sample r) (nameSet r) (filters r ++ [fw]) true (splitMetrics r).

Definition GetName (r : rollupBase) : string := strings_Join (nameSet r) ";".

(** ** The value of a flow *)

(** [mapr[metric].(int64)] as an unsigned number, zero when it is not there. *)
Definition metric_value (mapr : gmap string Avro) (metric : string) : Z :=
  match mapr !! metric with
  | Some (AInt m) => wrap 64 m
  | _ => 0
  end.
(** A metric in a custom map; [init] keeps those of two parts. *)
Definition multi_value (mapr : gmap string Avro) (m : list string) : outcome Z :=
  m0 ← part m 0;
  match mapr !! m0 with
  | Some (AMapInt32 mm) => m1 ← part m 1; Ok (wrap 64 (gomap_get 0 mm m1))
  | Some (AMapInt64 mm) => m1 ← part m 1; Ok (wrap 64 (gomap_get 0 mm m1))
  | _ => Ok 0
  end.

Fixpoint multi_sum (mapr : gmap string Avro) (value : Z) (ms : list (list string)) : outcome Z :=
  match ms with
  | [] => Ok value
  | m :: ms' => v ← multi_value mapr m; multi_sum mapr (wrap 64 (value + v)) ms'
  end.

(** [mapr["sample_rate"].(int64)] and [mapr["provider"].(kt.Provider)]. *)
Definition sample_rate (mapr : gmap string Avro) : outcome Z :=
  match mapr !! "sample_rate" with
  | Some (AInt sr) => Ok (wrap 64 sr)
  | _ => Panic "interface conversion"
  end.
Definition provider (mapr : gmap string Avro) : outcome string :=
  match mapr !! "provider" with
  | Some (AProvider p) => Ok p
  | _ => Panic "interface conversion"
  end.

(** [if r.sample && sr > 0 { value *= sr }]. *)
Definition sampled (r : rollupBase) (sr value : Z) : Z :=
  if sample r && (0 <? sr) then wrap 64 (value * sr) else value.

(** ** The order of the results: [sort.Sort(byValue(keys))] *)

Definition byValue_Less (a b : Rollup) : bool := SFltb (r_Metric b) (r_Metric a).

(** [sort.Sort] promises an ordered permutation and nothing about equal elements: whatever the
    order of the elements before, any order of equal ones may come out. *)
Definition in_order (a b : Rollup) : Prop := byValue_Less b a = false.
Class Sorter (sort : list Rollup -> list Rollup) := {
  sort_permutes l : sort l ≡ₚ l;
  sort_orders l : StronglySorted in_order (sort l)
}.

(** The first [TopK] of the sorted results. *)
Definition top (sort : list Rollup -> list Rollup) (k : Z) (keys : list Rollup) : list Rollup :=
  let keys := sort keys in
  if (0 <? k) && (k <? Z.of_nat (length keys)) then take (Z.to_nat k) keys else keys.

Example init1 :
  match rollupBase_init (mkRollupConfig "^" 2 [] false 0 0 false)
    (mkRollupDef false "sum" ["in_bytes;out_bytes"] ["custom_str.foo"; "a$$-$$b.c"] ["x"; "y"]) with
  | Ok r => metrics r = ["in_bytes"; "out_bytes"]%string /\ eventType r = "KFlow:in_bytes;out_bytes:custom_str_foo:a$$-$$b_c"%string /\
      getKey r true {[ "custom_str" := AMapStr (Some {["foo" := "f"]}); "a" := AInt 5 ]} = Ok "f^5-undefined"%string
  | _ => False
  end.
Proof. vm_compute. done. Qed.

(** ** A sorter *)

Definition is_nan (f : float64) : bool := match f with S754_nan => true | _ => false end.

Lemma SFltb_asym a b : SFltb a b = true -> SFltb b a = false.
Proof.
  unfold SFltb. destruct a as [| [] | | [] m e], b as [| [] | | [] m' e']; simpl; try done;
  rewrite (Z.compare_antisym e e'); destruct (Z.compare_spec e e') as [->|Hl|Hl]; simpl; try done;
  change (Pos.compare_cont Eq) with Pos.compare; rewrite (Pos.compare_antisym m m');
  by destruct (Pos.compare_spec m m').
Qed.

(** Not being greater is transitive among numbers. *)
Lemma SFltb_le_trans a b c :
  is_nan b = false -> SFltb b a = false -> SFltb c b = false -> SFltb c a = false.
Proof.
  unfold SFltb. change (Pos.compare_cont Eq) with Pos.compare.
  destruct a as [| [] | | [] m e], b as [| [] | | [] m' e'], c as [| [] | | [] m'' e''];
    simpl; try done; change (Pos.compare_cont Eq) with Pos.compare;
    destruct (Z.compare_spec e' e), (Z.compare_spec e'' e'), (Z.compare_spec e'' e); subst; simpl;
    try done; try lia;
    repeat match goal with |- context [Pos.compare ?x ?y] => destruct (Pos.compare_spec x y) end;
    simpl; try done; lia.
Qed.

Fixpoint insert_sorted (x : Rollup) (l : list Rollup) : list Rollup :=
  match l with
  | [] => [x]
  | y :: l' => if byValue_Less y x then y :: insert_sorted x l' else x :: l
  end.

Definition number (r : Rollup) : Prop := is_nan (r_Metric r) = false.
#[export] Instance number_dec r : Decision (number r) := decide (is_nan (r_Metric r) = false).

Definition insertion_sort (l : list Rollup) : list Rollup :=
  foldr insert_sorted [] (filter number l) ++ filter (fun r => ~ number r) l.

Lemma insert_sorted_perm x l : insert_sorted x l ≡ₚ x :: l.
Proof.
  induction l as [|y l IH]; [done|]. simpl. destruct (byValue_Less y x); [|done].
  rewrite IH. apply Permutation_swap.
Qed.

Lemma insert_all_perm l : foldr insert_sorted [] l ≡ₚ l.
Proof. induction l as [|x l IH]; [done|]. simpl. by rewrite insert_sorted_perm, IH. Qed.

Lemma insert_sorted_sorted x l :
  number x -> Forall number l -> StronglySorted in_order l -> StronglySorted in_order (insert_sorted x l).
Proof.
  intros Hx Hl Hs. induction Hs as [|y l Hs IH Hy]; [repeat constructor|].
  apply Forall_cons in Hl as [Hyn Hl]. simpl. destruct (byValue_Less y x) eqn:E.
  - constructor; [by apply IH|]. rewrite insert_sorted_perm. constructor; [|done].
    by apply SFltb_asym.
  - constructor; [by constructor|]. constructor; [done|].
    rewrite Forall_forall in Hy |- *. intros z Hz. specialize (Hy z Hz).
    unfold in_order, byValue_Less in *. by apply (SFltb_le_trans _ (r_Metric y)).
Qed.

Lemma nan_last l r : ~ number r -> Forall (fun a => in_order a r) l.
Proof.
  intros Hr. apply Forall_forall. intros a _. unfold in_order, byValue_Less, number in *.
  destruct (r_Metric r); try done. by destruct (r_Metric a) as [| [] | | []].
Qed.

Lemma SFltb_nan f : SFltb f S754_nan = false.
Proof. by destruct f as [| [] | | []]. Qed.

Lemma StronglySorted_app (l1 l2 : list Rollup) :
  StronglySorted in_order l1 -> StronglySorted in_order l2 ->
  Forall (fun b => Forall (fun a => in_order a b) l1) l2 -> StronglySorted in_order (l1 ++ l2).
Proof.
  intros H1 H2 H12. induction H1 as [|x l1 H1 IH Hx]; [done|]. simpl. constructor.
  - apply IH. eapply Forall_impl; [exact H12|]. intros b Hb. by inversion_clear Hb.
  - apply Forall_app. split; [done|]. eapply Forall_impl; [exact H12|]. intros b Hb. by inversion_clear Hb.
Qed.

#[export] Instance insertion_sort_Sorter : Sorter insertion_sort.
Proof.
  split; intros l; unfold insertion_sort.
  - rewrite insert_all_perm. induction l as [|x l IH]; [done|].
    rewrite !filter_cons. destruct (decide (number x)) as [Hx|Hx].
    + rewrite decide_False by (intros Hn; done). simpl. by rewrite IH.
    + rewrite decide_True by done. rewrite <- Permutation_middle. by rewrite IH.
  - apply StronglySorted_app.
    + induction l as [|x l IH]; [constructor|]. rewrite filter_cons. case_decide as Hx; [|done].
      simpl. apply insert_sorted_sorted; [done| |done]. rewrite insert_all_perm.
      apply Forall_forall. by intros z [Hz _]%list_elem_of_filter.
    + induction l as [|x l IH]; [constructor|]. rewrite filter_cons. case_decide as Hx; [|done].
      constructor; [done|]. apply Forall_forall. intros b [Hb _]%list_elem_of_filter.
      unfold in_order, byValue_Less, number in *. destruct (r_Metric b); try done.
      by destruct (r_Metric x) as [| [] | | []].
    + apply Forall_forall. intros b [Hb _]%list_elem_of_filter. by apply nan_last.
Qed.

(** ** The best results *)

(** What [top] keeps and what it leaves out: nothing left out is greater than anything kept,
    and something is only left out when [k] results are kept. *)
Lemma top_spec sort `{Sorter sort} k keys :
  exists rest, top sort k keys ++ rest ≡ₚ keys /\
    (rest = [] \/ 0 < k /\ Z.of_nat (length (top sort k keys)) = k) /\
    StronglySorted in_order (top sort k keys) /\
    Forall (fun b => Forall (fun a => in_order a b) (top sort k keys)) rest.
Proof.
  pose proof (sort_permutes keys) as Hp. pose proof (sort_orders keys) as Hs.
  unfold top. set (l := sort keys) in *.
  destruct (Z.ltb_spec 0 k) as [Hk|Hk]; simpl.
  2: { exists []. rewrite app_nil_r. auto. }
  destruct (Z.ltb_spec k (Z.of_nat (length l))) as [Hl|Hl].
  2: { exists []. rewrite app_nil_r. auto. }
  exists (drop (Z.to_nat k) l). rewrite take_drop. split_and!; [done| | |].
  - right. split; [done|]. rewrite length_take. lia.
  - clear -Hs. generalize (Z.to_nat k) as n. induction Hs as [|x l Hs IH Hx]; intros [|n]; simpl; try constructor.
    + apply IH.
    + by apply Forall_take.
  - clear -Hs. generalize (Z.to_nat k) as n. induction Hs as [|x l Hs IH Hx]; intros [|n]; simpl; try constructor.
    + constructor.
    + apply Forall_forall. constructor.
    + specialize (IH n). rewrite !Forall_forall in *. intros b Hb. constructor; [|by apply IH].
      apply Hx. rewrite <- (take_drop n l). apply elem_of_app. by right.
Qed.
