(* ===== verification/Aggregate.v ===== *)
(** * Goroutines that aggregate (src/pkg/rollup/stats.go and src/pkg/rollup/unique.go)

    Rollups of sums and of distinct values have the same shape: [Add] makes an item of a batch
    of flows and sends it on a channel that holds [CHAN_SLACK] items, dropping it when the
    channel is full; one goroutine merges the items it receives into its totals, and hands the
    totals over and starts again when an export is asked for.  A run is a sequence of these
    steps in any order.  What every run has in common is that the items are merged in the order
    they were sent, each once, between two exports ([steps_served]). *)
From S2P Require Import Prelude GoIO.

Definition CHAN_SLACK : nat := Z.to_nat 10000.

(** The channel, oldest item first, and the variables of the goroutine. *)
Record state (I S : Type) := mkState { kvs : list I; totals : S }.
Arguments mkState {I S}.
Arguments kvs {I S} s.
Arguments totals {I S} s.

Inductive label (B S : Type) :=
| LAdd (flows : B)
| LDrop (flows : B)
| LReceive
| LExport (s : S).
Arguments LAdd {B S}.
Arguments LDrop {B S}.
Arguments LReceive {B S}.
Arguments LExport {B S}.

(** What a run exported and what it took in. *)
Definition exported {B S} (ls : list (label B S)) : list S :=
  omap (fun l => match l with LExport s => Some s | _ => None end) ls.
Definition accepted {B S} (ls : list (label B S)) : list B :=
  omap (fun l => match l with LAdd flows => Some flows | _ => None end) ls.

Section Aggregate.
  Context {B I S : Type} (add : B -> outcome I) (receive : S -> I -> outcome S) (reset : S).

Inductive step : state I S -> label B S -> state I S -> Prop :=
| step_add st flows itm :
    add flows = Ok itm -> (length (kvs st) < CHAN_SLACK)%nat ->
    step st (LAdd flows) (mkState (kvs st ++ [itm]) (totals st))
| step_drop st flows itm :
    add flows = Ok itm -> (CHAN_SLACK <= length (kvs st))%nat -> step st (LDrop flows) st
| step_receive st itm q t :
    kvs st = itm :: q -> receive (totals st) itm = Ok t -> step st LReceive (mkState q t)
| step_export st : step st (LExport (totals st)) (mkState (kvs st) reset).

Inductive steps : state I S -> list (label B S) -> state I S -> Prop :=
| steps_none st : steps st [] st
| steps_more st ls st' l st'' : steps st ls st' -> step st' l st'' -> steps st (ls ++ [l]) st''.

(** ** The order of the items *)

(** [merged s items t]: merging the items one after the other takes [s] to [t]. *)
Definition merged (s : S) (items : list I) (t : S) : Prop := fold_out receive s items = Ok t.

Lemma merged_snoc s items t itm t' : merged s items t -> receive t itm = Ok t' -> merged s (items ++ [itm]) t'.
Proof using Type. unfold merged. intros Hm Hr. rewrite fold_out_app, Hm. cbn. by rewrite Hr. Qed.

(** The groups of items between exports, each merged into what was exported: the first from
    [s], the others from [reset]; [cur] is the group that has not been exported. *)
Fixpoint served (s : S) (groups : list (list I)) (outs : list S) (cur : list I) (t : S) : Prop :=
  match groups, outs with
  | [], [] => merged s cur t
  | g :: groups, o :: outs => merged s g o /\ served reset groups outs cur t
  | _, _ => False
  end.

Lemma served_receive s groups outs cur t itm t' :
  served s groups outs cur t -> receive t itm = Ok t' -> served s groups outs (cur ++ [itm]) t'.
Proof using Type.
  revert s outs. induction groups as [|g groups IH]; intros s [|o outs]; cbn; try done.
  - apply merged_snoc.
  - intros [Hg Hs] Hr. split; [done|]. by apply IH.
Qed.

Lemma served_export s groups outs cur t :
  served s groups outs cur t -> served s (groups ++ [cur]) (outs ++ [t]) [] reset.
Proof using Type.
  revert s outs. induction groups as [|g groups IH]; intros s [|o outs]; cbn; try done.
  intros [Hg Hs]. split; [done|]. by apply IH.
Qed.

(** In every run the items of the accepted batches are, in order, those of the exports, those of
    the totals and those on the channel. *)
Lemma steps_served start ls st : steps (mkState [] start) ls st ->
  exists items groups cur, Forall2 (fun b i => add b = Ok i) (accepted ls) items /\
    items = concat groups ++ cur ++ kvs st /\
    served start groups (exported ls) cur (totals st).
Proof using Type.
  intros H. remember (mkState [] start) as st0 eqn:Hst0.
  induction H as [|st0 ls st l st' Hs IH Hst]; subst; [by exists [], [], []|].
  destruct (IH eq_refl) as (items & groups & cur & Hb & Hi & Hsv). unfold accepted, exported in *.
  rewrite !omap_app. destruct Hst as [st b itm Ha _|st b itm Ha _|st itm q t Hk Hr|st]; cbn [omap list_omap];
    rewrite ?app_nil_r; cbn [kvs totals].
  - exists (items ++ [itm]), groups, cur. split_and!; [by apply Forall2_app; [|constructor]| |done].
    by rewrite Hi, <- !app_assoc.
  - by exists items, groups, cur.
  - exists items, groups, (cur ++ [itm]). split_and!; [done| |by eapply served_receive].
    by rewrite Hi, Hk, <- !app_assoc.
  - exists items, (groups ++ [cur]), []. split_and!; [done| |by apply served_export].
    by rewrite Hi, concat_app, <- !app_assoc; cbn; rewrite app_nil_r.
Qed.

(** A property of the items and of the totals that holds in every reachable state. *)
Lemma steps_invariant (P : I -> Prop) (Q : S -> Prop) start ls st :
  Q start -> Q reset -> (forall b i, add b = Ok i -> P i) ->
  (forall s i s', Q s -> P i -> receive s i = Ok s' -> Q s') ->
  steps (mkState [] start) ls st -> Q (totals st) /\ Forall P (kvs st).
Proof using Type.
  intros Hst Hre Ha Hr H. remember (mkState [] start) as st0 eqn:Hst0.
  induction H as [|st0 ls st l st' Hs IH Hl]; subst; [by split; [|constructor]|].
  destruct (IH eq_refl) as [Ht Hq].
  destruct Hl as [st b itm Hb _|st b itm _ _|st itm q t Hk Hm|st]; cbn [kvs totals]; try done.
  - split; [done|]. apply Forall_app. by split; [|constructor; [by eapply Ha|]].
  - rewrite Hk in Hq. apply Forall_cons in Hq as [Hi Hq]. by split; [eapply Hr|].
Qed.
End Aggregate.
