(* ===== verification/SumRollup.v ===== *)
(** * Sums (src/pkg/rollup/stats.go, the additive rollups)

    [Add] turns a batch of flows into a [sumset] and sends it on a channel; a goroutine,
    [sumKvs], merges what it receives and hands its totals over when an export is asked for.
    The channel holds [CHAN_SLACK] batches, further ones are dropped.  A run of the three is a
    sequence of steps in any order ([step]); each step is one operation of one goroutine.  All
    numbers are [uint64] and wrap. *)
From Stdlib Require Import Sorting.Sorted.
From S2P Require Import Prelude GoIO GoStrings KT Filter Rollup GoFloat Aggregate.

Definition MaxUint64 : Z := 18446744073709551615.

Record sumset := mkSumset {
  sum : gmap string (list Z);
  count : Z;
  min : Z;
  max : Z;
  prov : string
}.

(** The variables [addSum] and [sumKvs] start with. *)
Definition sumset_start : sumset := mkSumset ∅ 0 MaxUint64 0 "".
(** What [sumKvs] resets them to after an export. *)
Definition sumset_reset : sumset := mkSumset ∅ 0 0 0 "".

(** [row[i] += v]. *)
Definition row_add (row : list Z) (i : nat) (v : Z) : outcome (list Z) :=
  match row !! i with
  | Some x => Ok (<[i := wrap 64 (x + v)]> row)
  | None => Panic "index out of range"
  end.

Section AddSum.
  Context (r : rollupBase) (keepUndefined : bool).

(** The loop over the metrics when each has a name of its own. *)
Fixpoint add_split (mapr : gmap string Avro) (sr : Z) (i : nat) (ms : list string) (row : list Z) (value : Z) :
    outcome (list Z * Z) :=
  match ms with
  | [] => Ok (row, value)
  | metric :: ms' =>
      let vv := sampled r sr (metric_value mapr metric) in
      row ← row_add row i vv;
      add_split mapr sr (S i) ms' row (wrap 64 (value + vv))
  end.

(** The value of a flow and its row with it. *)
Definition add_row (mapr : gmap string Avro) (sr : Z) (row : list Z) : outcome (list Z * Z) :=
  if splitMetrics r then add_split mapr sr 0 (metrics r) row 0
  else
    value ← multi_sum mapr (foldl (fun v m => wrap 64 (v + metric_value mapr m)) 0 (metrics r)) (multiMetrics r);
    let value := sampled r sr value in
    row ← row_add row 0 value;
    Ok (row, value).

(** One round of the loop of [addSum]. *)
Definition addSum_flow (s : sumset) (mapr : gmap string Avro) : outcome sumset :=
  key ← getKey r keepUndefined mapr;
  sr ← sample_rate mapr;
  let row := default (replicate (length (nameSet r)) 0) (sum s !! key) in
  '(row, value) ← add_row mapr sr row;
  p ← provider mapr;
  Ok (mkSumset (<[key := row]> (sum s)) (wrap 64 (count s + 1)) (Z.min (min s) value)
        (Z.max (max s) value) p).

Fixpoint addSum_flows (s : sumset) (flows : list (gmap string Avro)) : outcome sumset :=
  match flows with
  | [] => Ok s
  | mapr :: flows' => s ← addSum_flow s mapr; addSum_flows s flows'
  end.

(** The batch that [Add] sends. *)
Definition addSum (flows : list (gmap string Avro)) : outcome sumset :=
  flows ← filtered r flows; addSum_flows sumset_start flows.
End AddSum.

(** ** The goroutine *)

(** [for i, vv := range v { sum[k][i] += vv }] on the row of a key, which starts at zero. *)
Fixpoint merge_row (row : list Z) (i : nat) (v : list Z) : outcome (list Z) :=
  match v with
  | [] => Ok row
  | vv :: v' => row ← row_add row i vv; merge_row row (S i) v'
  end.

(** The keys of a batch are independent; they are taken in the order of [map_to_list]. *)
Fixpoint merge_sums (s : gmap string (list Z)) (items : list (string * list Z)) :
    outcome (gmap string (list Z)) :=
  match items with
  | [] => Ok s
  | (k, v) :: items' =>
      row ← merge_row (default (replicate (length v) 0) (s !! k)) 0 v;
      merge_sums (<[k := row]> s) items'
  end.

(** [case itm := <-r.kvs]. *)
Definition sumKvs_receive (s itm : sumset) : outcome sumset :=
  m ← merge_sums (sum s) (map_to_list (sum itm));
  Ok (mkSumset m (wrap 64 (count s + count itm)) (Z.min (min s) (min itm)) (Z.max (max s) (max itm)) (prov itm)).

(** [exportSum]: for each name, its best results. *)
Definition export_name (r : rollupBase) (s : sumset) (interval : Z) (i : nat) (name : string) :
    outcome (list Rollup) :=
  mapM (fun kv : string * list Z =>
    match kv.2 !! i with
    | Some v => Ok (mkRollup kv.1 (float64_of v) (eventType r) (keyJoin r) interval (combo (multiDims r)) name
                      (count s) (min s) (max s) (prov s))
    | None => Panic "index out of range"
    end) (map_to_list (sum s)).

Fixpoint export_names (sort : list Rollup -> list Rollup) (r : rollupBase) (s : sumset) (interval : Z)
    (i : nat) (names : list string) : outcome (list Rollup) :=
  match names with
  | [] => Ok []
  | name :: names' =>
      keys ← export_name r s interval i name;
      rest ← export_names sort r s interval (S i) names';
      Ok (top sort (topK r) keys ++ rest)
  end.

Definition exportSum (sort : list Rollup -> list Rollup) (r : rollupBase) (s : sumset) (interval : Z) :
    outcome (list Rollup) :=
  if decide (sum s = ∅) then Ok [] else export_names sort r s interval 0 (nameSet r).

(** ** Runs *)

(** The goroutine of Aggregate.v, at the operations of sums. *)
Definition step (r : rollupBase) (keepUndefined : bool) :=
  Aggregate.step (addSum r keepUndefined) sumKvs_receive sumset_reset.
Definition steps (r : rollupBase) (keepUndefined : bool) :=
  Aggregate.steps (addSum r keepUndefined) sumKvs_receive sumset_reset.
Definition initial : state sumset sumset := mkState [] sumset_start.

(** ** What is counted *)

(** The [i]th number of a key. *)
Definition at_ (m : gmap string (list Z)) (k : string) (i : nat) : Z :=
  default 0 (m !! k ≫= fun row => row !! i).
Definition total (ss : list sumset) (k : string) (i : nat) : Z :=
  foldr (fun s acc => at_ (sum s) k i + acc) 0 ss.

(** What a flow amounts to, in plain integers. *)
Definition scale (r : rollupBase) (mapr : gmap string Avro) (v : Z) : Z :=
  match sample_rate mapr with
  | Ok sr => if sample r && (0 <? sr) then v * sr else v
  | _ => v
  end.
Definition multi_amount (mapr : gmap string Avro) (m : list string) : Z :=
  match multi_value mapr m with Ok v => v | _ => 0 end.
Definition flow_amount (r : rollupBase) (mapr : gmap string Avro) (i : nat) : Z :=
  if splitMetrics r then
    match metrics r !! i with Some m => scale r mapr (metric_value mapr m) | None => 0 end
  else if decide (i = 0%nat) then
    scale r mapr (Zsum (map (metric_value mapr) (metrics r)) + Zsum (map (multi_amount mapr) (multiMetrics r)))
  else 0.
Definition amount (r : rollupBase) (ku : bool) (mapr : gmap string Avro) (k : string) (i : nat) : Z :=
  if decide (getKey r ku mapr = Ok k) then flow_amount r mapr i else 0.
Definition amounts (r : rollupBase) (ku : bool) (flows : list (gmap string Avro)) (k : string) (i : nat) : Z :=
  match filtered r flows with
  | Ok flows => Zsum (map (fun mapr => amount r ku mapr k i) flows)
  | _ => 0
  end.

(** Sums modulo 2^64. *)
Definition cong (a b : Z) : Prop := wrap 64 a = wrap 64 b.

#[export] Instance cong_equiv : Equivalence cong.
Proof. split; unfold cong; congruence. Qed.
#[export] Instance cong_add : Proper (cong ==> cong ==> cong) Z.add.
Proof. intros a a' Ha b b' Hb. unfold cong in *. rewrite <- wrap_add, Ha, Hb. apply wrap_add. Qed.
#[export] Instance cong_mul : Proper (cong ==> cong ==> cong) Z.mul.
Proof. intros a a' Ha b b' Hb. unfold cong, wrap in *. by rewrite Zmult_mod, Ha, Hb, <- Zmult_mod. Qed.
Lemma cong_wrap a : cong (wrap 64 a) a.
Proof. by apply wrap_wrap. Qed.

Lemma at_insert m k row k' i :
  at_ (<[k := row]> m) k' i = if decide (k = k') then default 0 (row !! i) else at_ m k' i.
Proof.
  unfold at_. case_decide as H; [subst; by rewrite lookup_insert_eq|by rewrite lookup_insert_ne].
Qed.

Lemma default_row m k n i : default 0 (default (replicate n 0) (m !! k) !! i) = at_ m k i.
Proof.
  unfold at_. destruct (m !! k) as [row|]; [done|]. simpl.
  destruct (decide (i < n)%nat); [by rewrite lookup_replicate_2|].
  by rewrite lookup_ge_None_2 by (rewrite length_replicate; lia).
Qed.

Lemma row_add_spec row i v row' :
  row_add row i v = Ok row' ->
  length row' = length row /\
  forall j, cong (default 0 (row' !! j)) (default 0 (row !! j) + if decide (j = i) then v else 0).
Proof.
  unfold row_add. destruct (row !! i) as [x|] eqn:Hx; [|done]. intros [= <-].
  split; [by rewrite length_insert|]. intros j. pose proof (lookup_lt_Some _ _ _ Hx).
  case_decide as Hj.
  - subst. rewrite list_lookup_insert_eq by done. rewrite Hx. simpl. apply cong_wrap.
  - rewrite list_lookup_insert_ne by done. by rewrite Z.add_0_r.
Qed.

Lemma row_add_ok row i v : (i < length row)%nat -> exists row', row_add row i v = Ok row' /\ length row' = length row.
Proof.
  intros [x Hx]%lookup_lt_is_Some_2. unfold row_add. rewrite Hx. eexists. split; [done|]. by rewrite length_insert.
Qed.

Section Amounts.
  Context (r : rollupBase) (ku : bool).

Lemma sampled_cong mapr sr v v' :
  sample_rate mapr = Ok sr -> cong v v' -> cong (sampled r sr v) (scale r mapr v').
Proof.
  intros Hsr Hv. unfold sampled, scale. rewrite Hsr. destruct (sample r && (0 <? sr)); [|done].
  rewrite cong_wrap. by rewrite Hv.
Qed.

Lemma metrics_cong mapr ms v :
  cong (foldl (fun v m => wrap 64 (v + metric_value mapr m)) v ms) (v + Zsum (map (metric_value mapr) ms)).
Proof.
  revert v; induction ms as [|m ms IH]; intros v; simpl; [by rewrite Z.add_0_r|].
  rewrite IH, cong_wrap. by rewrite Z.add_assoc.
Qed.

Lemma multi_cong mapr ms v v' :
  multi_sum mapr v ms = Ok v' -> cong v' (v + Zsum (map (multi_amount mapr) ms)).
Proof.
  revert v; induction ms as [|m ms IH]; intros v; simpl.
  - intros [= <-]. by rewrite Z.add_0_r.
  - unfold multi_amount at 1. destruct (multi_value mapr m) as [x| | |] eqn:E; simpl; try done.
    intros H. rewrite (IH _ H), cong_wrap. by rewrite Z.add_assoc.
Qed.

Lemma add_split_spec mapr sr i ms row value row' value' :
  sample_rate mapr = Ok sr -> add_split r mapr sr i ms row value = Ok (row', value') ->
  length row' = length row /\
  forall j, cong (default 0 (row' !! j))
    (default 0 (row !! j) + if decide (i <= j)%nat
       then match ms !! (j - i)%nat with Some m => scale r mapr (metric_value mapr m) | None => 0 end else 0).
Proof.
  intros Hsr. revert i row value; induction ms as [|m ms IH]; intros i row value; simpl.
  - intros [= <- <-]. split; [done|]. intros j. case_decide; by rewrite Z.add_0_r.
  - destruct (row_add row i _) as [row1| | |] eqn:E; simpl; try done. intros H.
    apply IH in H as [Hl H]. apply row_add_spec in E as [Hl1 E]. split; [congruence|].
    intros j. rewrite H, E, <- Z.add_assoc.
    destruct (decide (j = i)) as [->|Hji].
    + rewrite decide_False, decide_True, Nat.sub_diag, Z.add_0_r by lia. simpl.
      by rewrite (sampled_cong mapr sr _ (metric_value mapr m)).
    + rewrite Z.add_0_l. destruct (decide (i <= j)%nat) as [Hij|Hij].
      * rewrite decide_True by lia. by replace (j - i)%nat with (S (j - S i)) by lia.
      * by rewrite decide_False by lia.
Qed.

Lemma add_row_spec mapr sr row row' value :
  sample_rate mapr = Ok sr -> add_row r mapr sr row = Ok (row', value) ->
  length row' = length row /\ forall j, cong (default 0 (row' !! j)) (default 0 (row !! j) + flow_amount r mapr j).
Proof.
  intros Hsr. unfold add_row, flow_amount. destruct (splitMetrics r).
  - intros H. apply (add_split_spec _ _ _ _ _ _ _ _ Hsr) in H as [Hl H]. split; [done|]. intros j.
    rewrite H. by rewrite decide_True, Nat.sub_0_r by lia.
  - destruct (multi_sum _ _ _) as [v| | |] eqn:E; simpl; try done. apply multi_cong in E.
    destruct (row_add row 0 _) as [row1| | |] eqn:E1; simpl; try done. intros [= <- <-].
    apply row_add_spec in E1 as [Hl E1]. split; [done|]. intros j. rewrite E1. case_decide; [|done].
    rewrite (sampled_cong mapr sr v); [done|done|]. rewrite E, metrics_cong. done.
Qed.

(** One flow adds its amount under its key. *)
Lemma addSum_flow_spec s mapr s' :
  addSum_flow r ku s mapr = Ok s' ->
  forall k i, cong (at_ (sum s') k i) (at_ (sum s) k i + amount r ku mapr k i).
Proof.
  unfold addSum_flow, amount. destruct (getKey r ku mapr) as [key| | |]; simpl; try done.
  destruct (sample_rate mapr) as [sr| | |] eqn:Hsr; simpl; try done.
  destruct (add_row r mapr sr _) as [[row value]| | |] eqn:E; simpl; try done.
  destruct (provider mapr) as [p| | |]; simpl; try done. intros [= <-] k i. simpl.
  rewrite at_insert. apply (add_row_spec _ _ _ _ _ Hsr) in E as [_ E].
  destruct (decide (key = k)) as [->|Hk].
  - rewrite E, default_row. by rewrite decide_True.
  - rewrite decide_False by congruence. by rewrite Z.add_0_r.
Qed.

Lemma addSum_flows_spec s flows s' :
  addSum_flows r ku s flows = Ok s' ->
  forall k i, cong (at_ (sum s') k i) (at_ (sum s) k i + Zsum (map (fun mapr => amount r ku mapr k i) flows)).
Proof.
  revert s; induction flows as [|mapr flows IH]; intros s; simpl.
  - intros [= <-] k i. by rewrite Z.add_0_r.
  - destruct (addSum_flow r ku s mapr) as [s1| | |] eqn:E; simpl; try done. intros H k i.
    rewrite (IH _ H), (addSum_flow_spec _ _ _ E). by rewrite Z.add_assoc.
Qed.

Lemma addSum_spec flows itm :
  addSum r ku flows = Ok itm -> forall k i, cong (at_ (sum itm) k i) (amounts r ku flows k i).
Proof.
  unfold addSum, amounts. destruct (filtered r flows) as [fs| | |]; simpl; try done. intros H k i.
  by rewrite (addSum_flows_spec _ _ _ H).
Qed.

Lemma merge_row_spec v : forall row i row',
  merge_row row i v = Ok row' ->
  length row' = length row /\
  forall j, cong (default 0 (row' !! j)) (default 0 (row !! j) + if decide (i <= j)%nat then default 0 (v !! (j - i)%nat) else 0).
Proof.
  induction v as [|vv v IH]; intros row i row'; simpl.
  - intros [= <-]. split; [done|]. intros j. case_decide; by rewrite Z.add_0_r.
  - destruct (row_add row i vv) as [row1| | |] eqn:E; simpl; try done. intros H.
    apply IH in H as [Hl H]. apply row_add_spec in E as [Hl1 E]. split; [congruence|].
    intros j. rewrite H, E, <- Z.add_assoc. destruct (decide (j = i)) as [->|Hji].
    + rewrite decide_False, decide_True, Nat.sub_diag, Z.add_0_r by lia. done.
    + rewrite Z.add_0_l. destruct (decide (i <= j)%nat) as [Hij|Hij].
      * rewrite decide_True by lia. by replace (j - i)%nat with (S (j - S i)) by lia.
      * by rewrite decide_False by lia.
Qed.

Lemma merge_sums_spec items : forall s m,
  NoDup items.*1 -> merge_sums s items = Ok m ->
  forall k i, cong (at_ m k i) (at_ s k i + at_ (list_to_map items) k i).
Proof.
  induction items as [|[k v] items IH]; intros s m Hd; simpl.
  - intros [= <-] k i. by rewrite Z.add_0_r.
  - destruct (merge_row _ 0 v) as [row| | |] eqn:E; simpl; try done. intros H k' i.
    apply NoDup_cons in Hd as [Hk Hd]. rewrite (IH _ _ Hd H), !at_insert.
    apply merge_row_spec in E as [_ E]. destruct (decide (k = k')) as [<-|Hne]; [|done].
    rewrite E, decide_True, Nat.sub_0_r, default_row by lia.
    unfold at_ at 2. rewrite not_elem_of_list_to_map_1 by done. simpl. by rewrite Z.add_0_r.
Qed.

Lemma sumKvs_receive_spec s itm t :
  sumKvs_receive s itm = Ok t -> forall k i, cong (at_ (sum t) k i) (at_ (sum s) k i + at_ (sum itm) k i).
Proof.
  unfold sumKvs_receive. destruct (merge_sums _ _) as [m| | |] eqn:E; simpl; try done.
  intros [= <-] k i. simpl. rewrite (merge_sums_spec _ _ _ (NoDup_fst_map_to_list _) E).
  by rewrite list_to_map_to_list.
Qed.

Lemma total_app ss ss' k i : total (ss ++ ss') k i = total ss k i + total ss' k i.
Proof. induction ss as [|s ss IH]; simpl; [done|]. rewrite IH. lia. Qed.
End Amounts.

Lemma total_snoc ss s k i : total (ss ++ [s]) k i = total ss k i + at_ (sum s) k i.
Proof. rewrite total_app. simpl. lia. Qed.

Lemma step_conserves r ku st l st' (out : list sumset) (taken : list (list (gmap string Avro))) k i :
  step r ku st l st' ->
  cong (total out k i + at_ (sum (totals st)) k i + total (kvs st) k i)
    (Zsum (map (fun fs => amounts r ku fs k i) taken)) ->
  cong (total (out ++ exported [l]) k i + at_ (sum (totals st')) k i + total (kvs st') k i)
    (Zsum (map (fun fs => amounts r ku fs k i) (taken ++ accepted [l]))).
Proof.
  intros Hst H. inversion Hst; subst; simpl.
  - rewrite app_nil_r, map_app. cbn [map]. rewrite Zsum_snoc, total_snoc, !Z.add_assoc, H.
    by rewrite (addSum_spec r ku _ _ H0).
  - by rewrite !app_nil_r.
  - rewrite !app_nil_r, (sumKvs_receive_spec _ _ _ H1). rewrite H0 in H. simpl in H.
    rewrite <- H. by replace (total out k i + (at_ (sum (totals st)) k i + at_ (sum itm) k i) + total q k i)
      with (total out k i + at_ (sum (totals st)) k i + (at_ (sum itm) k i + total q k i)) by lia.
  - rewrite app_nil_r, total_snoc. unfold at_ at 2. rewrite lookup_empty. simpl. by rewrite Z.add_0_r.
Qed.

(** ** Every reachable state can go on *)

Definition rows_ok (n : nat) (m : gmap string (list Z)) : Prop := map_Forall (fun _ row => length row = n) m.

Lemma rows_default n m k : rows_ok n m -> length (default (replicate n 0) (m !! k)) = n.
Proof.
  intros Hm. destruct (m !! k) as [row|] eqn:E; simpl; [by apply (Hm k)|apply length_replicate].
Qed.

Lemma rows_insert n m k row : rows_ok n m -> length row = n -> rows_ok n (<[k := row]> m).
Proof. intros Hm Hr. by apply map_Forall_insert_2. Qed.

Lemma addSum_rows r ku flows itm : addSum r ku flows = Ok itm -> rows_ok (length (nameSet r)) (sum itm).
Proof.
  unfold addSum. destruct (filtered r flows) as [fs| | |]; simpl; try done.
  assert (rows_ok (length (nameSet r)) (sum sumset_start)) as Hs by (apply map_Forall_empty).
  revert Hs. generalize sumset_start as s. induction fs as [|mapr fs IH]; intros s Hs; simpl; [by intros [= <-]|].
  destruct (addSum_flow r ku s mapr) as [s1| | |] eqn:E; simpl; try done. apply IH.
  unfold addSum_flow in E. destruct (getKey r ku mapr) as [key| | |]; simpl in E; try done.
  destruct (sample_rate mapr) as [sr| | |] eqn:Hsr; simpl in E; try done.
  destruct (add_row r mapr sr _) as [[row value]| | |] eqn:Ea; simpl in E; try done.
  destruct (provider mapr) as [p| | |]; simpl in E; try done. injection E as <-. simpl.
  apply rows_insert; [done|]. apply (add_row_spec _ _ _ _ _ _ Hsr) in Ea as [-> _]. by apply rows_default.
Qed.

Lemma merge_row_ok v : forall row i,
  (i + length v <= length row)%nat -> exists row', merge_row row i v = Ok row' /\ length row' = length row.
Proof.
  induction v as [|vv v IH]; intros row i Hl; simpl in *; [by exists row|].
  destruct (row_add_ok row i vv) as (row1 & -> & Hl1); [lia|]. simpl.
  destruct (IH row1 (S i)) as (row2 & -> & Hl2); [lia|]. exists row2. split; [done|congruence].
Qed.

Lemma merge_sums_ok n items : forall s,
  rows_ok n s -> Forall (fun kv => length kv.2 = n) items ->
  exists m, merge_sums s items = Ok m /\ rows_ok n m.
Proof.
  induction items as [|[k v] items IH]; intros s Hs Hi; simpl; [by exists s|].
  apply Forall_cons in Hi as [Hv Hi]. simpl in Hv. subst n.
  destruct (merge_row_ok v (default (replicate (length v) 0) (s !! k)) 0) as (row & -> & Hl).
  { by rewrite rows_default. }
  simpl. apply IH; [|done]. apply rows_insert; [done|]. by rewrite Hl, rows_default.
Qed.

Lemma rows_items n m : rows_ok n m -> Forall (fun kv => length kv.2 = n) (map_to_list m).
Proof. intros Hm. apply map_Forall_to_list in Hm. eapply Forall_impl; [exact Hm|]. by intros []. Qed.

Lemma receive_ok n s itm :
  rows_ok n (sum s) -> rows_ok n (sum itm) -> exists t, sumKvs_receive s itm = Ok t /\ rows_ok n (sum t).
Proof.
  intros Hs Hi. unfold sumKvs_receive.
  destruct (merge_sums_ok n (map_to_list (sum itm)) (sum s) Hs (rows_items _ _ Hi)) as (m & -> & Hm).
  simpl. by eexists.
Qed.

Definition state_ok (r : rollupBase) (st : state sumset sumset) : Prop :=
  rows_ok (length (nameSet r)) (sum (totals st)) /\
  Forall (fun itm => rows_ok (length (nameSet r)) (sum itm)) (kvs st).

Lemma steps_ok r ku ls st : steps r ku initial ls st -> state_ok r st.
Proof.
  apply (steps_invariant _ _ _ (fun itm => rows_ok (length (nameSet r)) (sum itm))
    (fun s => rows_ok (length (nameSet r)) (sum s))); try apply map_Forall_empty.
  - apply addSum_rows.
  - intros s i s' Hs Hi Hr. destruct (receive_ok _ _ _ Hs Hi) as (t & E & Ht).
    by assert (t = s') as <- by congruence.
Qed.

(** ** What an export reports *)

Definition result (r : rollupBase) (s : sumset) (interval : Z) (i : nat) (name : string) (kv : string * list Z) : Rollup :=
  mkRollup kv.1 (float64_of (default 0 (kv.2 !! i))) (eventType r) (keyJoin r) interval (combo (multiDims r)) name
    (count s) (min s) (max s) (prov s).

Lemma export_name_ok r s interval i name n :
  rows_ok n (sum s) -> (i < n)%nat ->
  export_name r s interval i name = Ok (map (result r s interval i name) (map_to_list (sum s))).
Proof.
  intros Hr Hi. unfold export_name. pose proof (rows_items _ _ Hr) as Hl.
  induction Hl as [|[k v] items Hv Hl IH]; [done|]. simpl in Hv. subst n.
  cbn [map]. destruct (lookup_lt_is_Some_2 v i Hi) as [x Hx].
  simpl. rewrite Hx. simpl. rewrite IH. simpl. unfold result at 2. simpl. by rewrite Hx.
Qed.

Lemma export_names_ok sort r s interval n names : forall i,
  rows_ok n (sum s) -> (i + length names <= n)%nat ->
  export_names sort r s interval i names =
    Ok (concat (imap (fun j name => top sort (topK r) (map (result r s interval (i + j) name) (map_to_list (sum s)))) names)).
Proof.
  induction names as [|name names IH]; intros i Hr Hl; simpl in *; [done|].
  rewrite (export_name_ok r s interval i name n) by (done || lia). simpl.
  rewrite IH by (done || lia). simpl. rewrite Nat.add_0_r. do 3 f_equal.
  apply imap_ext. intros j nm _. simpl. by rewrite Nat.add_succ_r.
Qed.

Lemma export_ok sort `{Sorter sort} r s interval :
  rows_ok (length (nameSet r)) (sum s) ->
  exportSum sort r s interval =
    Ok (concat (map (top sort (topK r))
      (imap (fun i name => map (result r s interval i name) (map_to_list (sum s))) (nameSet r)))).
Proof.
  intros Ht. unfold exportSum. destruct (decide (sum s = ∅)) as [He|He].
  - f_equal. symmetry. apply concat_nil_Forall, Forall_map, Forall_forall.
    intros l (i & name & -> & _)%elem_of_lookup_imap. rewrite He, map_to_list_empty. simpl. unfold top.
    rewrite (proj1 (Permutation_nil_r _) (sort_permutes [])). cbv zeta.
    destruct (_ && _); [apply take_nil|done].
  - rewrite (export_names_ok sort r s interval (length (nameSet r)) (nameSet r) 0 Ht) by lia.
    do 2 f_equal. symmetry. exact (fmap_imap _ (top sort (topK r)) (nameSet r)).
Qed.

(** ** The smallest value *)

Lemma wrap_nonneg z : 0 <= wrap 64 z.
Proof. unfold wrap. by apply Z.mod_pos_bound. Qed.

Lemma sampled_nonneg r sr v : 0 <= v -> 0 <= sampled r sr v.
Proof. intros Hv. unfold sampled. destruct (_ && _); [apply wrap_nonneg|done]. Qed.

Lemma add_split_nonneg r mapr sr ms : forall i row value row' value',
  0 <= value -> add_split r mapr sr i ms row value = Ok (row', value') -> 0 <= value'.
Proof.
  induction ms as [|m ms IH]; intros i row value row' value' Hv; simpl; [by intros [= _ <-]|].
  destruct (row_add row i _); simpl; try done. apply IH, wrap_nonneg.
Qed.

Lemma multi_sum_nonneg mapr ms : forall v v', 0 <= v -> multi_sum mapr v ms = Ok v' -> 0 <= v'.
Proof.
  induction ms as [|m ms IH]; intros v v' Hv; simpl; [by intros [= <-]|].
  destruct (multi_value mapr m); simpl; try done. apply IH, wrap_nonneg.
Qed.

Lemma add_row_nonneg r mapr sr row row' value : add_row r mapr sr row = Ok (row', value) -> 0 <= value.
Proof.
  unfold add_row. destruct (splitMetrics r); [by apply add_split_nonneg|].
  set (v0 := foldl _ 0 (metrics r)). assert (0 <= v0) as Hv0.
  { unfold v0. induction (metrics r) as [|m ms IH] using rev_ind; [done|]. rewrite foldl_snoc. apply wrap_nonneg. }
  destruct (multi_sum _ _ _) as [v| | |] eqn:E; simpl; try done. apply multi_sum_nonneg in E; [|done].
  destruct (row_add row 0 _); simpl; try done. intros [= _ <-]. by apply sampled_nonneg.
Qed.

Lemma addSum_min r ku flows itm : addSum r ku flows = Ok itm -> 0 <= min itm.
Proof.
  unfold addSum. destruct (filtered r flows) as [fs| | |]; simpl; try done.
  assert (0 <= min sumset_start) as Hs by (unfold sumset_start, MaxUint64; simpl; lia).
  revert Hs. generalize sumset_start as s. induction fs as [|mapr fs IH]; intros s Hs; simpl; [by intros [= <-]|].
  destruct (addSum_flow r ku s mapr) as [s1| | |] eqn:E; simpl; try done. apply IH.
  unfold addSum_flow in E. destruct (getKey r ku mapr) as [key| | |]; simpl in E; try done.
  destruct (sample_rate mapr) as [sr| | |]; simpl in E; try done.
  destruct (add_row r mapr sr _) as [[row value]| | |] eqn:Ea; simpl in E; try done.
  destruct (provider mapr) as [p| | |]; simpl in E; try done. injection E as <-. simpl.
  apply add_row_nonneg in Ea. lia.
Qed.

Lemma steps_min r ku ls st :
  steps r ku initial ls st ->
  Forall (fun itm => 0 <= min itm) (kvs st) /\ (exported ls <> [] -> min (totals st) = 0).
Proof.
  intros H. remember initial as st0. induction H as [|st0 ls st l st' Hs IH Hst]; subst; [done|].
  destruct (IH eq_refl) as [Hq Hm]. unfold exported in *. rewrite omap_app.
  inversion Hst; subst; simpl; rewrite ?app_nil_r.
  - split; [|done]. apply Forall_app. split; [done|]. constructor; [by eapply addSum_min|done].
  - done.
  - rewrite H in Hq. apply Forall_cons in Hq as [Hi Hq]. split; [done|]. intros Hne. specialize (Hm Hne).
    unfold sumKvs_receive in H0. destruct (merge_sums _ _); simpl in H0; try done. injection H0 as <-. simpl. lia.
  - done.
Qed.

(** ** Properties *)

(** C15: nothing is lost or counted twice.  In every run of adds, receives and exports, in any
    interleaving, what was exported under a key, with what is in the totals and on the channel,
    is what the accepted batches amount to under that key, modulo 2^64; a batch is only dropped
    when the channel is full. *)
Theorem SumRollup_conserves r ku ls st k i :
  steps r ku initial ls st ->
  wrap 64 (total (exported ls) k i + at_ (sum (totals st)) k i + total (kvs st) k i) =
  wrap 64 (Zsum (map (fun fs => amounts r ku fs k i) (accepted ls))).
Proof.
  intros H. remember initial as st0. induction H as [|st0 ls st l st' Hs IH Hst]; subst; [done|].
  unfold exported, accepted. rewrite !omap_app. apply (step_conserves r ku st l st'); [done|]. by apply IH.
Qed.

(** C16: the goroutine never panics: in every reachable state a batch on the channel can be
    received, and an export gives for each name the best results: no key left out has a greater
    value than one reported, and keys are only left out when [topK] are reported. *)
Theorem SumRollup_serves sort `{Sorter sort} r ku ls st interval :
  steps r ku initial ls st ->
  (forall itm q, kvs st = itm :: q -> exists t, step r ku st LReceive (mkState q t)) /\
  exists best, exportSum sort r (totals st) interval = Ok (concat best) /\
    Forall2 (fun all reported => exists rest, reported ++ rest ≡ₚ all /\
        StronglySorted in_order reported /\
        (rest = [] \/ 0 < topK r /\ Z.of_nat (length reported) = topK r) /\
        Forall (fun b => Forall (fun a => in_order a b) reported) rest)
      (imap (fun i name => map (result r (totals st) interval i name) (map_to_list (sum (totals st)))) (nameSet r))
      best.
Proof.
  intros Hs. apply steps_ok in Hs as [Ht Hq]. split.
  - intros itm q Hk. rewrite Hk in Hq. apply Forall_cons in Hq as [Hi _].
    destruct (receive_ok _ _ _ Ht Hi) as (t & E & _). exists t. by eapply step_receive.
  - eexists. split; [by apply export_ok|]. apply Forall2_fmap_r, Forall_Forall2_diag, Forall_forall.
    intros all _. destruct (top_spec sort (topK r) all) as (rest & Hp & Hk & Ho & Hr). by exists rest.
Qed.

(** The smallest value is lost with the first export: [sumKvs] starts again from 0, not from
    the greatest number, so from then on every result says [Min: 0]. *)
Lemma SumRollup_min_lost sort `{Sorter sort} r ku ls st interval results :
  steps r ku initial ls st -> exported ls <> [] ->
  exportSum sort r (totals st) interval = Ok results ->
  min (totals st) = 0 /\ Forall (fun x => r_Min x = 0) results.
Proof.
  intros Hs Hne He. pose proof (steps_ok _ _ _ _ Hs) as [Ht _].
  assert (min (totals st) = 0) as Hm by (by apply (steps_min r ku ls)). split; [done|].
  rewrite export_ok in He by done. injection He as <-. apply Forall_concat, Forall_map, Forall_forall.
  intros all Hall. apply elem_of_lookup_imap in Hall as (i & name & -> & _).
  unfold top. set (l := sort _). assert (Forall (fun x => r_Min x = 0) l) as Hl.
  { unfold l. rewrite (sort_permutes _). by apply Forall_map, Forall_true. }
  cbv zeta. destruct (_ && _); [by apply Forall_take|done].
Qed.

(** ** A run *)

Definition sample_rollup : rollupBase :=
  mkRollupBase ["in_bytes"] [["custom_bigint"; "x"]]%string [["foo"]]%string ∅ "^" 1 "KFlow" true ["bytes"]%string [] false false.
Definition sample_flow (foo : string) (n sr : Z) : gmap string Avro :=
  {[ "foo" := AStr foo; "in_bytes" := AInt n; "sample_rate" := AInt sr; "provider" := AProvider "p";
     "custom_bigint" := AMapInt64 (Some {["x" := 1]}) ]}.
Definition sample_batch : list (gmap string Avro) := [sample_flow "a" 10 1; sample_flow "b" 20 2; sample_flow "a" 5 0].

Definition sample_itm : sumset :=
  match addSum sample_rollup false sample_batch with Ok s => s | _ => sumset_start end.
Definition sample_totals (s : sumset) : sumset :=
  match sumKvs_receive s sample_itm with Ok s => s | _ => sumset_start end.

Definition sample_labels : list (label (list (gmap string Avro)) sumset) :=
  [LAdd sample_batch; LReceive; LExport (sample_totals sumset_start); LAdd sample_batch; LReceive].
Definition sample_state : state sumset sumset := mkState [] (sample_totals sumset_reset).

Lemma sample_steps : steps sample_rollup false initial sample_labels sample_state.
Proof.
  assert (addSum sample_rollup false sample_batch = Ok sample_itm) as Ha by (vm_compute; reflexivity).
  apply (steps_more _ _ _ initial [LAdd sample_batch; LReceive; LExport _; LAdd sample_batch]
    (mkState [sample_itm] sumset_reset)); [|by eapply step_receive].
  apply (steps_more _ _ _ initial [LAdd sample_batch; LReceive; LExport _] (mkState [] sumset_reset));
    [|apply (step_add _ _ _ (mkState [] sumset_reset)); [exact Ha|cbn [kvs length]; unfold CHAN_SLACK; lia]].
  apply (steps_more _ _ _ initial [LAdd sample_batch; LReceive] (mkState [] (sample_totals sumset_start)));
    [|apply (step_export _ _ _ (mkState [] (sample_totals sumset_start)))].
  apply (steps_more _ _ _ initial [LAdd sample_batch] (mkState [sample_itm] sumset_start)); [|by eapply step_receive].
  apply (steps_more _ _ _ initial [] initial); [constructor|].
  apply (step_add _ _ _ initial); [exact Ha|cbn [initial kvs length]; unfold CHAN_SLACK; lia].
Qed.

Lemma SumRollup_conserves_witness :
  wrap 64 (total (exported sample_labels) "a" 0 + at_ (sum (totals sample_state)) "a" 0 + total (kvs sample_state) "a" 0) = 34.
Proof.
  rewrite (SumRollup_conserves sample_rollup false sample_labels sample_state "a" 0 sample_steps).
  vm_compute. reflexivity.
Defined.

Lemma SumRollup_serves_witness :
  exists best, exportSum insertion_sort sample_rollup (totals sample_state) 60 = Ok (concat best) /\
    map (map r_Dimension) best = [["b"]]%string.
Proof.
  destruct (SumRollup_serves insertion_sort sample_rollup false sample_labels sample_state 60 sample_steps)
    as (_ & best & He & Hb).
  exists best. split; [exact He|].
  inversion Hb as [|all reported l l' Hr Hn]; subst. inversion Hn; subst.
  assert (exportSum insertion_sort sample_rollup (totals sample_state) 60 =
    Ok [result sample_rollup (totals sample_state) 60 0 "bytes" ("b", [42])]) as E by (vm_compute; reflexivity).
  rewrite E in He. injection He as He. cbn [concat] in He. rewrite app_nil_r in He. subst. reflexivity.
Defined.

Lemma SumRollup_min_lost_witness :
  exists results, exportSum insertion_sort sample_rollup (totals sample_state) 60 = Ok results /\
    results <> [] /\ Forall (fun x => r_Min x = 0) results.
Proof.
  eexists. split; [vm_compute; reflexivity|]. split; [discriminate|].
  eapply (SumRollup_min_lost insertion_sort sample_rollup false sample_labels sample_state 60);
    [exact sample_steps|discriminate|vm_compute; reflexivity].
Defined.
