(* ===== verification/StatRollup.v ===== *)
(** * Statistics (src/pkg/rollup/stats.go, the methods that are not sums)

    The slow path of [Add] keeps the values of every key as floats until an export hands them to
    a function of the stats library, which is an argument.  [Add] and [Export] hold a lock, so
    each is one step.  A batch gives every key that occurs in it as many values as it has flows,
    with a zero for each flow of another key. *)
From S2P Require Import Prelude GoIO GoStrings KT Filter Rollup GoFloat.

(** ** Methods: [newStatsRollup] *)

Inductive statr :=
| Sum | Min | Max | Mean | Median | Entropy
| PercentileNearestRank (arg2 : float64)
| Percentile (arg2 : float64).

Definition errMethod : error := Errorf "Unknown rollup: %s" [].

(** [Atoi] of what follows the name of the method. *)
Definition method_arg (name m : string) : outcome float64 :=
  match Atoi (sdrop (String.length name) m) with
  | Some val => Ok (float64_of val)
  | None => Err errMethod
  end.

Definition parse_method (m : string) : outcome statr :=
  if String.eqb m "sum" then Ok Sum
  else if String.eqb m "min" then Ok Min
  else if String.eqb m "max" then Ok Max
  else if String.eqb m "mean" then Ok Mean
  else if String.eqb m "median" then Ok Median
  else if String.eqb m "entropy" then Ok Entropy
  else if HasPrefix m "percentilerank" then
    arg ← method_arg "percentilerank" m; Ok (PercentileNearestRank arg)
  else if HasPrefix m "percentile" then arg ← method_arg "percentile" m; Ok (Percentile arg)
  else Err errMethod.

(** The method and the base; [isSum] is the method [Sum], which is the business of SumRollup.v. *)
Definition newStatsRollup (cfg : RollupConfig) (rd : RollupDef) : outcome (statr * rollupBase) :=
  m ← parse_method (rd_Method rd);
  r ← rollupBase_init cfg rd;
  Ok (m, r).

(** ** The rollups of a configuration: [GetRollups] *)

Inductive roller :=
| UniqueR (r : rollupBase)
| CacheR (r : rollupBase) (isUnique : bool)
| StatsR (m : statr) (r : rollupBase).

Definition roller_of (cfg : RollupConfig) (rf : RollupDef) : outcome roller :=
  if String.eqb (rd_Method rf) "unique" then r ← rollupBase_init cfg rf; Ok (UniqueR r)
  else if String.eqb (rd_Method rf) "cache" then r ← rollupBase_init cfg rf; Ok (CacheR r false)
  else if String.eqb (rd_Method rf) "cache_unique" then r ← rollupBase_init cfg rf; Ok (CacheR r true)
  else '(m, r) ← newStatsRollup cfg rf; Ok (StatsR m r).

Definition GetRollups (cfg : RollupConfig) : outcome (list roller) :=
  rollups ← parse_rollups (Formats cfg);
  fold_out (fun rolls rf => r ← roller_of cfg rf; Ok (rolls ++ [r])) [] rollups.

Definition config_of (formats : list string) : RollupConfig := mkRollupConfig "^" 10 formats false 0 0 false.
Example methods :
  GetRollups (config_of ["unique, a, src_port, foo"; "s_percentilerank95, b, in_bytes, foo"])
    = (a ← rollupBase_init (config_of []) (mkRollupDef false "unique" ["src_port"] ["foo"] ["a"]);
       b ← rollupBase_init (config_of []) (mkRollupDef true "percentilerank95" ["in_bytes"] ["foo"] ["b"]);
       Ok [UniqueR a; StatsR (PercentileNearestRank (float64_of 95)) b]) /\
  GetRollups (config_of ["percentile, a, x"]) = Err errMethod /\
  GetRollups (config_of ["entropy, a"]) = Err (Errorf
    "Rollup flag is defined by type, name, metric, dimension 1, dimension 2, ..., dimension n" []).
Proof. vm_compute. done. Qed.

(** ** Adding *)

Definition fzero : float64 := float64_of 0.

(** Each metric that is there replaces the value. *)
Definition stat_metric (mapr : gmap string Avro) (v : float64) (metric : string) : float64 :=
  match mapr !! metric with
  | Some (AInt m) => float64_of m
  | _ => v
  end.

Definition stat_multi (mapr : gmap string Avro) (v : float64) (m : list string) : outcome float64 :=
  m0 ← part m 0;
  match mapr !! m0 with
  | Some (AMapInt32 mm) => m1 ← part m 1; Ok (float64_of (gomap_get 0 mm m1))
  | Some (AMapInt64 mm) => m1 ← part m 1; Ok (float64_of (gomap_get 0 mm m1))
  | _ => Ok v
  end.

(** [mapr["sample_rate"].(int64)], with its sign. *)
Definition stat_rate (mapr : gmap string Avro) : outcome Z :=
  match mapr !! "sample_rate" with
  | Some (AInt sr) => Ok sr
  | _ => Panic "interface conversion"
  end.

Section Stats.
  Context (r : rollupBase) (keepUndefined : bool).

(** What a flow leaves in its place. *)
Definition flow_stat (mapr : gmap string Avro) : outcome float64 :=
  sr ← stat_rate mapr;
  v ← fold_out (stat_multi mapr) (foldl (stat_metric mapr) fzero (metrics r)) (multiMetrics r);
  Ok (if sample r && (0 <? sr) then float64_mul v (float64_of sr) else v).

(** One round of the loop over a batch of [n] flows: the flow [i] under its key. *)
Definition stat_flow (n : nat) (s : nat * gmap string (list float64)) (mapr : gmap string Avro) :
    outcome (nat * gmap string (list float64)) :=
  key ← getKey r keepUndefined mapr;
  v ← flow_stat mapr;
  Ok (S s.1, <[key := <[s.1 := v]> (default (replicate n fzero) (s.2 !! key))]> s.2).

Definition stat_batch (flows : list (gmap string Avro)) : outcome (gmap string (list float64)) :=
  s ← fold_out (stat_flow (length flows)) (0%nat, ∅) flows; Ok s.2.

Definition stat_Add (state : gmap string (list float64)) (flows : list (gmap string Avro)) :
    outcome (gmap string (list float64)) :=
  flows ← filtered r flows;
  toAdd ← stat_batch flows;
  Ok (union_with (fun old new => Some (old ++ new)) state toAdd).

(** ** Exporting *)

Context (statistic : list float64 -> option float64) (sort : list Rollup -> list Rollup).

Definition stat_result (interval : Z) (k : string) (v : float64) : Rollup :=
  mkRollup k v (eventType r) (keyJoin r) interval (combo (multiDims r)) (strings_Join (nameSet r) ";") 0 0 0 "".

(** The slice is as long as the state; what fails leaves a zero result at its end. *)
Definition stat_Export (state : gmap string (list float64)) (interval : Z) :
    list Rollup * gmap string (list float64) :=
  let keys := omap (fun kv => stat_result interval kv.1 <$> statistic kv.2) (map_to_list state) in
  (top sort (topK r) (keys ++ replicate (size state - length keys) zero_Rollup), ∅).

(** ** What the statistic sees *)

(** The place of a flow under a key. *)
Definition stat_place (k : string) (mapr : gmap string Avro) : float64 :=
  if decide (getKey r keepUndefined mapr = Ok k) then
    match flow_stat mapr with Ok v => v | _ => fzero end
  else fzero.
Definition occurs (k : string) (flows : list (gmap string Avro)) : Prop :=
  Exists (fun mapr => getKey r keepUndefined mapr = Ok k) flows.
#[export] Instance occurs_dec k flows : Decision (occurs k flows) := _.

(** A batch as one key sees it, after [filtered]. *)
Definition stat_row (k : string) (flows : list (gmap string Avro)) : list float64 :=
  match filtered r flows with
  | Ok fs => if decide (occurs k fs) then map (stat_place k) fs else []
  | _ => []
  end.

(** After the flows of [done_], with [n - length done_] to come. *)
Definition rows_of (n : nat) (seen : list (gmap string Avro)) (m : gmap string (list float64)) : Prop :=
  forall k, m !! k = if decide (occurs k seen)
                     then Some (map (stat_place k) seen ++ replicate (n - length seen) fzero) else None.

Lemma places_absent k seen : ~ occurs k seen -> map (stat_place k) seen = replicate (length seen) fzero.
Proof using Type.
  unfold occurs. rewrite <- Forall_Exists_neg. induction 1 as [|mapr seen Hm _ IH]; [done|].
  cbn. rewrite IH. unfold stat_place. by rewrite decide_False.
Qed.

Lemma rows_of_default n seen m k : (length seen <= n)%nat -> rows_of n seen m ->
  default (replicate n fzero) (m !! k) = map (stat_place k) seen ++ replicate (n - length seen) fzero.
Proof using Type.
  intros Hn Hm. rewrite (Hm k). case_decide as Ho; [done|]. cbn. rewrite places_absent by done.
  rewrite <- replicate_add. by f_equal; lia.
Qed.

Lemma occurs_snoc k key seen mapr : getKey r keepUndefined mapr = Ok key ->
  occurs k (seen ++ [mapr]) <-> occurs k seen \/ key = k.
Proof using Type.
  intros Hkey. unfold occurs. rewrite Exists_app, Exists_cons, Exists_nil, Hkey.
  split; [intros [?|[[= ->]|[]]]|intros [?| ->]]; tauto.
Qed.

Lemma stat_flow_rows n seen s mapr s' :
  (length seen < n)%nat -> s.1 = length seen -> rows_of n seen s.2 ->
  stat_flow n s mapr = Ok s' -> s'.1 = length (seen ++ [mapr]) /\ rows_of n (seen ++ [mapr]) s'.2.
Proof using Type.
  intros Hn Hl Hm. unfold stat_flow. destruct (getKey r keepUndefined mapr) as [key| | |] eqn:Hkey; [|done..].
  destruct (flow_stat mapr) as [v| | |] eqn:Hv; [|done..]. cbn [mbind outcome_bind]. intros [= <-].
  rewrite Hl, length_app, Nat.add_comm. split; [done|]. intros k. cbn [snd length Nat.add].
  rewrite (decide_ext _ _ _ _ (occurs_snoc k key seen mapr Hkey)), map_app. cbn [map].
  assert (stat_place k mapr = if decide (key = k) then v else fzero) as ->.
  { unfold stat_place. rewrite Hkey, Hv. destruct (decide (key = k)) as [->|]; [by rewrite decide_True|].
    by rewrite decide_False by congruence. }
  assert (replicate (n - length seen) fzero = fzero :: replicate (n - S (length seen)) fzero) as Hrep.
  { by replace (n - length seen)%nat with (S (n - S (length seen))) by lia. }
  assert (length (seen ++ [mapr]) = S (length seen)) as -> by (rewrite length_app; cbn; lia).
  rewrite (rows_of_default n seen) by (done || lia). rewrite Hrep, <- app_assoc. cbn [app].
  destruct (decide (key = k)) as [->|Hne].
  - rewrite lookup_insert_eq, decide_True by tauto. f_equal.
    rewrite <- (length_map (stat_place k) seen) at 1.
    rewrite <- (Nat.add_0_r (length (map _ _))), insert_app_r. done.
  - rewrite lookup_insert_ne, (Hm k), Hrep by done. destruct (decide (occurs k seen)).
    + by rewrite decide_True by tauto.
    + by rewrite decide_False by tauto.
Qed.

Lemma stat_batch_rows fs toAdd : stat_batch fs = Ok toAdd ->
  forall k, toAdd !! k = if decide (occurs k fs) then Some (map (stat_place k) fs) else None.
Proof using Type.
  unfold stat_batch. destruct (fold_out _ _ fs) as [s| | |] eqn:Hf; [|done..]. cbn [mbind outcome_bind].
  intros [= <-].
  assert (rows_of (length fs) fs s.2) as Hr; [|intros k; rewrite (Hr k), Nat.sub_diag, app_nil_r; done].
  assert (forall rest seen s0, fs = seen ++ rest -> s0.1 = length seen -> rows_of (length fs) seen s0.2 ->
    fold_out (stat_flow (length fs)) s0 rest = Ok s -> rows_of (length fs) fs s.2) as Hgen.
  { induction rest as [|mapr rest IH]; intros seen s0 Hfs Hl Hm; cbn [fold_out].
    - intros [= <-]. by rewrite app_nil_r in Hfs; subst seen.
    - destruct (stat_flow _ s0 mapr) as [s1| | |] eqn:E; [|done..]. cbn [mbind outcome_bind].
      apply (stat_flow_rows _ seen) in E as [Hl1 Hm1]; [|rewrite Hfs, length_app; cbn; lia|done|exact Hm].
      apply (IH (seen ++ [mapr])); [by rewrite <- app_assoc|done|done]. }
  apply (Hgen fs [] (0%nat, ∅)); done.
Qed.

Lemma stat_Add_rows st flows st' k : stat_Add st flows = Ok st' ->
  default [] (st' !! k) = default [] (st !! k) ++ stat_row k flows.
Proof using Type.
  unfold stat_Add, stat_row. destruct (filtered r flows) as [fs| | |]; [|done..]. cbn [mbind outcome_bind].
  destruct (stat_batch fs) as [toAdd| | |] eqn:Hb; [|done..]. cbn [mbind outcome_bind]. intros [= <-].
  rewrite lookup_union_with, (stat_batch_rows _ _ Hb). case_decide; destruct (st !! k); cbn;
    by rewrite ?app_nil_r.
Qed.

(** ** Properties *)

(** What a statistic is computed from.  After any batches since the last export the list of
    a key is, batch by batch, the values of its flows with a zero in the place of every flow of
    another key, for the batches in which the key occurs: its length is that of these batches,
    not the number of the key's flows. *)
Lemma StatRollup_pads batches st :
  fold_out stat_Add ∅ batches = Ok st ->
  forall k, default [] (st !! k) = batches ≫= stat_row k.
Proof using Type.
  intros Hf k.
  assert (forall st0, fold_out stat_Add st0 batches = Ok st ->
    default [] (st !! k) = default [] (st0 !! k) ++ (batches ≫= stat_row k)) as Hgen.
  { clear Hf. induction batches as [|b bs IH]; intros st0; cbn.
    - intros [= ->]. by rewrite app_nil_r.
    - destruct (stat_Add st0 b) as [st1| | |] eqn:E; [|done..]. cbn [mbind outcome_bind]. intros Hf.
      by rewrite (IH st1 Hf), (stat_Add_rows _ _ _ _ E), <- app_assoc. }
  apply (Hgen ∅ Hf).
Qed.

(** An export reports the best of the results, one for each key whose statistic is defined, and
    one without a name for each other key, and starts again. *)
Lemma StatRollup_exports `{!Sorter sort} st interval :
  exists rest, (stat_Export st interval).1 ++ rest ≡ₚ
    omap (fun kv => stat_result interval kv.1 <$> statistic kv.2) (map_to_list st) ++
    replicate (length (filter (fun kv => statistic kv.2 = None) (map_to_list st))) zero_Rollup.
Proof using Type.
  unfold stat_Export. cbn [fst].
  set (keys := omap _ _). set (n := length (filter _ _)).
  assert (size st - length keys = n)%nat as ->.
  { unfold keys, n. rewrite <- (length_map_to_list st). generalize (map_to_list st). intros l.
    assert (length (omap (fun kv => stat_result interval kv.1 <$> statistic kv.2) l) +
      length (filter (fun kv => statistic kv.2 = None) l) = length l)%nat; [|lia].
    induction l as [|[k v] l IH]; [done|]. cbn [omap list_omap fst snd]. rewrite filter_cons. cbn [snd].
    destruct (statistic v); [rewrite decide_False by done|rewrite decide_True by done]; cbn in *; lia. }
  destruct (top_spec sort (topK r) (keys ++ replicate n zero_Rollup)) as (rest & Hp & _). by exists rest.
Qed.
End Stats.

(** ** Witness *)

Definition sample_stats : rollupBase :=
  mkRollupBase ["in_bytes"] [] [["foo"]]%string ∅ "^" 1 "KFlow" true ["bytes"]%string [] false false.
Definition sample_bytes (foo : string) (n sr : Z) : gmap string Avro :=
  {[ "foo" := AStr foo; "in_bytes" := AInt n; "sample_rate" := AInt sr ]}.

(** The least of some floats, nothing for none. *)
Definition stats_Min (l : list float64) : option float64 :=
  match l with
  | [] => None
  | x :: l => Some (foldl (fun a b => if SpecFloat.SFltb b a then b else a) x l)
  end.

(** The least value of [a] is 30, the one reported is 0. *)
Lemma StatRollup_pads_witness :
  exists st, fold_out (stat_Add sample_stats false) ∅
      [[sample_bytes "a" 30 1; sample_bytes "b" 7 1]; [sample_bytes "a" 20 2]] = Ok st /\
    default [] (st !! "a") = [float64_of 30; fzero; float64_of 40] /\
    r_Metric <$> (stat_Export sample_stats stats_Min insertion_sort (delete "b" st) 60).1 = [fzero].
Proof.
  destruct (fold_out (stat_Add sample_stats false) ∅
    [[sample_bytes "a" 30 1; sample_bytes "b" 7 1]; [sample_bytes "a" 20 2]]) as [st| | |] eqn:E;
    [|vm_compute in E; discriminate E..].
  exists st. split; [done|]. split.
  - rewrite (StatRollup_pads sample_stats false _ _ E). vm_compute. reflexivity.
  - vm_compute in E. injection E as <-. vm_compute. reflexivity.
Defined.
