(* ===== verification/UniqueRollup.v ===== *)
(** * Distinct values (src/pkg/rollup/unique.go)

    A rollup that estimates how many distinct values each key has.  [Add] hashes the values of a
    batch into one sketch per key and sends the batch's sketches to a goroutine, which merges
    them ([Aggregate.v]).  The sketch (the go-hll library) and the hash (siphash) are an
    interface; the law used is that merging two sketches is sketching the values of both. *)
From S2P Require Import Prelude GoIO GoStrings KT Filter Rollup GoFloat Aggregate.

(** [hllSizeForErrRateHigh]. *)
Definition hllSize : Z := 3080.

Class HLL (U : Type) := {
  hll_make : Z -> U;
  hll_Add : U -> Z -> U;
  hll_Merge : U -> U -> U;
  EstimateCardinality : U -> Z
}.

(** The sketch of some hashes. *)
Definition sketch {U} `{HLL U} (hs : list Z) : U := foldl hll_Add (hll_make hllSize) hs.

Class HLL_laws (U : Type) `{HLL U} := merge_sketch xs ys : hll_Merge (sketch xs) (sketch ys) = sketch (xs ++ ys).

(** ** Signed integers as bytes: [binary.PutVarint] *)

(** Seven bits to a byte, the lowest first; [room] bytes are left in the slice. *)
Fixpoint PutUvarint (room : nat) (x : Z) : outcome (list Z) :=
  match room with
  | O => Panic "index out of range"
  | S room =>
      if x <? 128 then Ok [x]
      else rest ← PutUvarint room (Z.shiftr x 7); Ok (Z.lor (wrap 8 x) 128 :: rest)
  end.

(** The sign goes to the lowest bit. *)
Definition zigzag (x : Z) : Z :=
  let ux := wrap 64 (Z.shiftl (wrap 64 x) 1) in
  if x <? 0 then wrap 64 (Z.lnot ux) else ux.

Definition MaxVarintLen64 : nat := 10.
Definition PutVarint (x : Z) : outcome (list Z) := PutUvarint MaxVarintLen64 (zigzag x).

(** ** The rollup *)

Record uset (U : Type) := mkUset {
  uniques : gmap string U;
  u_count : gmap string Z;
  u_prov : gmap string string
}.
Arguments mkUset {U}.
Arguments uniques {U} u.
Arguments u_count {U} u.
Arguments u_prov {U} u.

Definition uset_start {U} : uset U := mkUset ∅ ∅ ∅.

(** The bytes that are hashed for a metric of a flow. *)
Definition varint (x : Z) : outcome (list string) := bs ← PutVarint x; Ok [str_of bs].

Definition metric_bytes (mapr : gmap string Avro) (metric : string) : outcome (list string) :=
  match mapr !! metric with
  | Some (AStr s) => Ok [s]
  | Some (AInt m) => varint m
  | _ => Ok []
  end.

Definition multi_bytes (mapr : gmap string Avro) (m : list string) : outcome (list string) :=
  m0 ← part m 0;
  match mapr !! m0 with
  | Some (AMapStr mm) => m1 ← part m 1; Ok [gomap_get "" mm m1]
  | Some (AMapInt32 mm) => m1 ← part m 1; varint (gomap_get 0 mm m1)
  | Some (AMapInt64 mm) => m1 ← part m 1; varint (gomap_get 0 mm m1)
  | _ => Ok []
  end.

Section Unique.
  Context {U : Type} `{HLL U} (Hash : string -> Z) (r : rollupBase) (keepUndefined : bool).

(** The values of a flow, in order. *)
Definition flow_bytes (mapr : gmap string Avro) : outcome (list string) :=
  one ← fold_out (fun l m => bs ← metric_bytes mapr m; Ok (l ++ bs)) [] (metrics r);
  fold_out (fun l m => bs ← multi_bytes mapr m; Ok (l ++ bs)) one (multiMetrics r).

(** One round of the loop of [Add]. *)
Definition unique_flow (s : uset U) (mapr : gmap string Avro) : outcome (uset U) :=
  key ← getKey r keepUndefined mapr;
  p ← provider mapr;
  bs ← flow_bytes mapr;
  Ok (mkUset
        (<[key := foldl hll_Add (default (hll_make hllSize) (uniques s !! key)) (Hash <$> bs)]> (uniques s))
        (<[key := wrap 64 (default 0 (u_count s !! key) + 1)]> (u_count s))
        (<[key := p]> (u_prov s))).

(** The item that [Add] sends. *)
Definition unique_Add (flows : list (gmap string Avro)) : outcome (uset U) :=
  flows ← filtered r flows; fold_out unique_flow uset_start flows.

(** [case itm := <-r.kvs]. *)
Definition uniqueKvs_receive (s itm : uset U) : outcome (uset U) :=
  Ok (mkUset
        (union_with (fun u v => Some (hll_Merge u v)) (uniques s) (uniques itm))
        (union_with (fun a b => Some (wrap 64 (a + b))) (u_count s) (u_count itm))
        (u_prov itm ∪ u_prov s)).

(** What is exported for a key; the order of the keys is that of a map. *)
Definition unique_result (s : uset U) (interval : Z) (kv : string * U) : Rollup :=
  mkRollup kv.1 (float64_of (EstimateCardinality kv.2)) (eventType r) (keyJoin r) interval
    (combo (multiDims r)) (strings_Join (nameSet r) ";") (default 0 (u_count s !! kv.1)) 0 0
    (default "" (u_prov s !! kv.1)).

Definition exportUnique (sort : list Rollup -> list Rollup) (s : uset U) (interval : Z) : list Rollup :=
  if decide (uniques s = ∅) then []
  else top sort (topK r) (unique_result s interval <$> map_to_list (uniques s)).

(** The goroutine of Aggregate.v, at these operations. *)
Definition unique_steps :=
  Aggregate.steps unique_Add uniqueKvs_receive uset_start (B := list (gmap string Avro)).

(** ** What is counted *)

(** The flows of a batch that are kept, and those of one key. *)
Definition kept (flows : list (gmap string Avro)) : list (gmap string Avro) :=
  match filtered r flows with Ok fs => fs | _ => [] end.
Definition keyed (k : string) (flows : list (gmap string Avro)) : list (gmap string Avro) :=
  filter (fun mapr => getKey r keepUndefined mapr = Ok k) flows.

(** The hashes of the values of some flows. *)
Definition hashes (flows : list (gmap string Avro)) : list Z :=
  flows ≫= fun mapr => match flow_bytes mapr with Ok bs => Hash <$> bs | _ => [] end.

(** A set of sketches that is exact for some flows: under each of their keys the sketch of its
    values and the number of its flows, and nothing else. *)
Definition describes (flows : list (gmap string Avro)) (s : uset U) : Prop :=
  forall k, match keyed k flows with
            | [] => uniques s !! k = None /\ u_count s !! k = None
            | fl => uniques s !! k = Some (sketch (hashes fl)) /\
                    u_count s !! k = Some (wrap 64 (Z.of_nat (length fl)))
            end.

Lemma hashes_app fs fs' : hashes (fs ++ fs') = hashes fs ++ hashes fs'.
Proof using Type. unfold hashes. by rewrite bind_app. Qed.

Lemma keyed_app k fs fs' : keyed k (fs ++ fs') = keyed k fs ++ keyed k fs'.
Proof using Type. unfold keyed. by rewrite filter_app. Qed.

Lemma describes_none : describes [] uset_start.
Proof using Type. intros k. cbn. by rewrite !lookup_empty. Qed.

Lemma describes_flow fs s mapr s' :
  describes fs s -> unique_flow s mapr = Ok s' -> describes (fs ++ [mapr]) s'.
Proof using Type.
  intros Hd Hf k. specialize (Hd k). rewrite keyed_app. unfold keyed at 2. unfold unique_flow in Hf.
  destruct (getKey r keepUndefined mapr) as [key| | |] eqn:Hkey; [|done..].
  destruct (provider mapr) as [p| | |]; [|done..].
  destruct (flow_bytes mapr) as [bs| | |] eqn:Hbs; [|done..]. cbn [mbind outcome_bind] in Hf. injection Hf as <-.
  rewrite filter_cons, filter_nil. cbn [uniques u_count]. destruct (decide (key = k)) as [->|Hk].
  - rewrite decide_True by done. rewrite !lookup_insert_eq.
    assert (hashes [mapr] = Hash <$> bs) as Hh by (unfold hashes; cbn; by rewrite Hbs, app_nil_r).
    destruct (keyed k fs) as [|fl fls]; destruct Hd as [-> ->]; cbn [app default from_option].
    + by rewrite Hh.
    + change (fl :: fls ++ [mapr]) with ((fl :: fls) ++ [mapr]). rewrite hashes_app, Hh, length_app.
      unfold sketch. rewrite foldl_app. split; [done|]. unfold id. by rewrite wrap_add_l, Nat2Z.inj_add.
  - rewrite decide_False by congruence. by rewrite app_nil_r, !lookup_insert_ne.
Qed.

Lemma describes_Add flows itm : unique_Add flows = Ok itm -> describes (kept flows) itm.
Proof using Type.
  unfold unique_Add, kept. destruct (filtered r flows) as [fs| | |]; [|done..]. cbn [mbind outcome_bind].
  change (describes fs itm) with (describes ([] ++ fs) itm).
  generalize describes_none. generalize (@uset_start U) as s. generalize (@nil (gmap string Avro)) as done_.
  induction fs as [|mapr fs IH]; intros d s Hd; cbn; [rewrite app_nil_r; by intros [= <-]|].
  destruct (unique_flow s mapr) as [s1| | |] eqn:E; [|done..]. cbn [mbind outcome_bind].
  rewrite cons_middle, app_assoc. apply IH. by eapply describes_flow.
Qed.

Context `{!HLL_laws U}.

Lemma describes_receive fs s fs' itm :
  describes fs s -> describes fs' itm ->
  exists s', uniqueKvs_receive s itm = Ok s' /\ describes (fs ++ fs') s'.
Proof using Type*.
  intros Hs Hi. eexists. split; [done|]. intros k. specialize (Hs k). specialize (Hi k). rewrite keyed_app.
  cbn [uniques u_count]. rewrite !lookup_union_with.
  destruct (keyed k fs) as [|f fl], (keyed k fs') as [|f' fl']; destruct Hs as [-> ->], Hi as [-> ->];
    cbn [app union_with option_union_with]; rewrite ?app_nil_r; [done..|].
  split.
  - f_equal. rewrite merge_sketch, <- hashes_app. done.
  - f_equal. change (f :: fl ++ f' :: fl') with ((f :: fl) ++ f' :: fl').
    by rewrite length_app, Nat2Z.inj_add, wrap_add.
Qed.

Lemma describes_merged items : forall fs s bs t, describes fs s ->
  Forall2 (fun b i => unique_Add b = Ok i) bs items -> merged uniqueKvs_receive s items t ->
  describes (fs ++ (bs ≫= kept)) t.
Proof using Type*.
  induction items as [|itm items IH]; intros fs s bs t Hs Hb Hm; inversion Hb; subst; cbn.
  - unfold merged in Hm. cbn in Hm. injection Hm as <-. by rewrite app_nil_r.
  - destruct (describes_receive fs s (kept x) itm) as (s1 & Hr & Hd); [done|by apply describes_Add|].
    unfold merged in Hm. cbn [fold_out] in Hm. rewrite Hr in Hm. rewrite app_assoc.
    by eapply IH.
Qed.

(** Batches and items side by side, cut where the items are cut. *)
Lemma served_describes groups : forall outs cur rest t bs,
  Forall2 (fun b i => unique_Add b = Ok i) bs (concat groups ++ cur ++ rest) ->
  served uniqueKvs_receive uset_start uset_start groups outs cur t ->
  exists bgroups bcur brest, bs = concat bgroups ++ bcur ++ brest /\
    Forall2 (fun bg s => describes (bg ≫= kept) s) bgroups outs /\ describes (bcur ≫= kept) t /\
    Forall2 (fun b i => describes (kept b) i) brest rest.
Proof using Type*.
  induction groups as [|g groups IH]; intros [|o outs] cur rest t bs Hb Hs; cbn in Hs; try done.
  - cbn [concat app] in Hb. apply Forall2_app_inv_r in Hb as (bcur & brest & Hc & Hr & ->).
    exists [], bcur, brest. split_and!; [done|constructor| |].
    + by apply (describes_merged _ [] uset_start bcur t describes_none Hc).
    + eapply Forall2_impl; [exact Hr|]. intros b i. apply describes_Add.
  - destruct Hs as [Hg Hs]. cbn [concat] in Hb. rewrite <- app_assoc in Hb.
    apply Forall2_app_inv_r in Hb as (bg & bs' & Hc & Hr & ->).
    destruct (IH _ _ _ _ _ Hr Hs) as (bgroups & bcur & brest & -> & Hd & Ht & Hq).
    exists (bg :: bgroups), bcur, brest. split_and!; [by cbn; rewrite <- app_assoc| |done|done].
    constructor; [|done]. by apply (describes_merged _ [] uset_start bg o describes_none Hc).
Qed.
End Unique.

(** ** Properties *)

(** C17: distinct values are counted over the flows of each export.  In every run of adds,
    receives and exports, in any interleaving, the accepted batches are, in order, those of the
    exports, those of the totals and those on the channel, and the sketches and counts of each
    of these are exactly those of the values and flows of their batches under each key. *)
Theorem UniqueRollup_describes {U} `{HLL_laws U} Hash r ku ls st :
  unique_steps Hash r ku (mkState [] uset_start) ls st ->
  exists groups cur queue, accepted ls = concat groups ++ cur ++ queue /\
    Forall2 (fun bs s => describes Hash r ku (bs ≫= kept r) s) groups (exported ls) /\
    describes Hash r ku (cur ≫= kept r) (totals st) /\
    Forall2 (fun b itm => describes Hash r ku (kept r b) itm) queue (kvs st).
Proof.
  intros Hs. apply steps_served in Hs as (items & groups & cur & Hb & -> & Hsv).
  by apply (served_describes Hash r ku groups (exported ls) cur (kvs st) (totals st)).
Qed.

(** What an export then reports: the best keys, each with the estimate of its own values. *)
Lemma exportUnique_reports {U} `{HLL U} sort `{Sorter sort} Hash r ku flows s interval :
  describes Hash r ku flows s ->
  exists rest, exportUnique r sort s interval ++ rest ≡ₚ unique_result r s interval <$> map_to_list (uniques s) /\
    Forall (fun x => r_Metric x = float64_of (EstimateCardinality (sketch (hashes Hash r (keyed r ku (r_Dimension x) flows)))) /\
      r_Count x = wrap 64 (Z.of_nat (length (keyed r ku (r_Dimension x) flows)))) (exportUnique r sort s interval).
Proof.
  intros Hd. unfold exportUnique. case_decide as He.
  { exists []. by rewrite He, map_to_list_empty. }
  destruct (top_spec sort (topK r) (unique_result r s interval <$> map_to_list (uniques s))) as (rest & Hp & _).
  exists rest. split; [done|]. apply Forall_forall. intros x Hx.
  assert (x ∈ unique_result r s interval <$> map_to_list (uniques s)) as Hin.
  { rewrite <- Hp. apply elem_of_app. by left. }
  apply list_elem_of_fmap in Hin as ([k u] & -> & Hku%elem_of_map_to_list). cbn.
  specialize (Hd k). destruct (keyed r ku k flows); destruct Hd as [Hu Hc]; [congruence|].
  rewrite Hc. split; [congruence|done].
Qed.

(** ** The bytes of integers *)

Lemma PutUvarint_ok room x :
  0 <= x < 2 ^ (7 * Z.of_nat (S room)) -> exists bs, PutUvarint (S room) x = Ok bs.
Proof.
  revert x. induction room as [|room IH]; intros x Hx.
  { exists [x]. cbn [PutUvarint]. by rewrite (proj2 (Z.ltb_lt x 128) (proj2 Hx)). }
  rewrite (eq_refl : PutUvarint (S (S room)) x = if x <? 128 then Ok [x]
    else rest ← PutUvarint (S room) (Z.shiftr x 7); Ok (Z.lor (wrap 8 x) 128 :: rest)).
  destruct (x <? 128); [by eexists|].
  destruct (IH (Z.shiftr x 7)) as [bs ->]; [|by eexists].
  rewrite Z.shiftr_div_pow2 by lia. split; [apply Z.div_pos; lia|].
  apply Z.div_lt_upper_bound; [lia|]. rewrite <- Z.pow_add_r by lia.
  replace (7 + 7 * Z.of_nat (S room)) with (7 * Z.of_nat (S (S room))) by lia. apply Hx.
Qed.

(** The byte that says more follow. *)
Lemma more_byte x : Z.lor (wrap 8 x) 128 = 128 + x mod 128.
Proof.
  assert (Forall (fun b => Z.lor b 128 = 128 + b mod 128) (seqZ 0 256)) as Hall.
  { apply (bool_decide_eq_true_1 _). vm_compute. reflexivity. }
  assert (x mod 128 = (x mod 256) mod 128) as ->.
  { symmetry. apply Z.mod_mod_divide. by exists 2. }
  rewrite Forall_forall in Hall. apply Hall. apply elem_of_seqZ. apply Z.mod_pos_bound. lia.
Qed.

Lemma PutUvarint_inj room : forall x y bs, 0 <= x -> 0 <= y ->
  PutUvarint room x = Ok bs -> PutUvarint room y = Ok bs -> x = y.
Proof.
  induction room as [|room IH]; intros x y bs Hx Hy; cbn [PutUvarint]; [done|].
  destruct (Z.ltb_spec x 128), (Z.ltb_spec y 128).
  - congruence.
  - intros [= <-]. destruct (PutUvarint room (Z.shiftr y 7)); cbn [mbind outcome_bind]; [|done..].
    rewrite more_byte. intros [= He _]. pose proof (Z.mod_pos_bound y 128 ltac:(lia)). lia.
  - destruct (PutUvarint room (Z.shiftr x 7)); cbn [mbind outcome_bind]; [|done..].
    rewrite more_byte. intros [= <-] [= He _]. pose proof (Z.mod_pos_bound x 128 ltac:(lia)). lia.
  - destruct (PutUvarint room (Z.shiftr x 7)) as [bx| | |] eqn:Ex; cbn [mbind outcome_bind]; [|done..].
    destruct (PutUvarint room (Z.shiftr y 7)) as [b_y| | |] eqn:Ey; cbn [mbind outcome_bind]; [|done..].
    rewrite !more_byte. intros [= <-] [= He ->].
    rewrite Z.shiftr_div_pow2 in Ex, Ey by lia. change (2 ^ 7) with 128 in *.
    assert (x / 128 = y / 128) as Hd by (by apply (IH _ _ bx); [apply Z.div_pos; lia..| |]).
    rewrite (Z.div_mod x 128), (Z.div_mod y 128), Hd by lia. lia.
Qed.

Lemma zigzag_range x : 0 <= zigzag x < 2 ^ 64.
Proof. unfold zigzag. destruct (x <? 0); by apply (wrap_range 64). Qed.

Lemma zigzag_val x : in_srange 64 x -> zigzag x = if x <? 0 then - 2 * x - 1 else 2 * x.
Proof.
  unfold in_srange. change (2 ^ (64 - 1)) with 9223372036854775808. intros Hx. unfold zigzag.
  rewrite Z.shiftl_mul_pow2 by lia. change (2 ^ 1) with 2. unfold wrap. change (2 ^ 64) with 18446744073709551616.
  rewrite Zmult_mod_idemp_l. destruct (Z.ltb_spec x 0).
  - rewrite <- (Z.mod_add (x * 2) 1) by lia. rewrite (Z.mod_small (x * 2 + _)) by lia.
    rewrite Z.lnot_eq_pred_opp. rewrite <- (Z.mod_add _ 1) by lia. rewrite Z.mod_small by lia. lia.
  - rewrite Z.mod_small by lia. lia.
Qed.

(** Integers of 64 bits always fit, and different ones are different bytes: what is hashed tells
    them apart. *)
Lemma PutVarint_spec x y : in_srange 64 x -> in_srange 64 y ->
  (exists bs, PutVarint x = Ok bs) /\ (PutVarint x = PutVarint y -> x = y).
Proof.
  intros Hx Hy. pose proof (zigzag_range x) as Hzx. pose proof (zigzag_range y) as Hzy.
  destruct (PutUvarint_ok 9 (zigzag x)) as [bs Hbs].
  { split; [lia|]. eapply Z.lt_le_trans; [apply Hzx|]. apply Z.pow_le_mono_r; lia. }
  split; [by exists bs|]. intros He. unfold PutVarint in He. change 10%nat with MaxVarintLen64 in Hbs. rewrite Hbs in He. symmetry in He.
  assert (zigzag x = zigzag y) as Hz by (apply (PutUvarint_inj MaxVarintLen64 _ _ bs); [lia..|done|done]).
  rewrite !zigzag_val in Hz by done. destruct (Z.ltb_spec x 0), (Z.ltb_spec y 0); lia.
Qed.

(** ** Witness *)

(** The sets of hashes, as sketches that never err. *)
#[export] Instance exact_HLL : HLL (gset Z) := {
  hll_make _ := ∅;
  hll_Add u x := {[x]} ∪ u;
  hll_Merge u v := u ∪ v;
  EstimateCardinality u := Z.of_nat (size u)
}.

Lemma exact_adds (xs : list Z) (u : gset Z) : foldl (fun u x => {[x]} ∪ u) u xs = list_to_set xs ∪ u.
Proof. revert u. induction xs as [|x xs IH]; intros u; cbn; [set_solver|]. rewrite IH. set_solver. Qed.

#[export] Instance exact_laws : HLL_laws (gset Z).
Proof.
  intros xs ys. unfold sketch. cbn. rewrite !exact_adds, list_to_set_app_L. set_solver.
Qed.

Definition sample_uniques : rollupBase :=
  mkRollupBase ["src_port"] [["custom_str"; "x"]]%string [["foo"]]%string ∅ "^" 1 "KFlow" false ["ports"]%string [] false false.
Definition sample_visit (foo : string) (n : Z) : gmap string Avro :=
  {[ "foo" := AStr foo; "src_port" := AInt n; "provider" := AProvider "p" ]}.
(** The ports are one byte long. *)
Definition sample_hash (s : string) : Z :=
  match s with String a _ => Z.of_nat (Ascii.nat_of_ascii a) | EmptyString => 0 end.
Definition sample_visits : list (gmap string Avro) :=
  [sample_visit "a" 1; sample_visit "b" 20; sample_visit "a" 1; sample_visit "a" (-2)].
Definition sample_sketches : uset (gset Z) :=
  match unique_Add sample_hash sample_uniques false sample_visits with Ok s => s | _ => uset_start end.

Definition sample_run : list (label (list (gmap string Avro)) (uset (gset Z))) :=
  [LAdd sample_visits; LReceive; LExport sample_sketches].

Lemma sample_run_steps :
  unique_steps sample_hash sample_uniques false (mkState [] uset_start) sample_run (mkState [] uset_start).
Proof.
  eapply (steps_more _ _ _ _ [LAdd sample_visits; LReceive]); [|apply (step_export _ _ _ (mkState [] sample_sketches))].
  eapply (steps_more _ _ _ _ [LAdd sample_visits] (mkState [sample_sketches] uset_start)).
  - eapply (steps_more _ _ _ _ [] (mkState [] uset_start)); [constructor|].
    apply (step_add _ _ _ (mkState [] uset_start)); [vm_compute; reflexivity|cbn; unfold CHAN_SLACK; lia].
  - eapply step_receive; [reflexivity|]. vm_compute. reflexivity.
Qed.

(** Two distinct ports of three flows of the key [a]. *)
Lemma UniqueRollup_describes_witness :
  describes sample_hash sample_uniques false sample_visits sample_sketches /\
  uniques sample_sketches !! "a" = Some {[2; 3]} /\ u_count sample_sketches !! "a" = Some 3 /\
  r_Metric <$> exportUnique sample_uniques insertion_sort sample_sketches 60 = [float64_of 2].
Proof.
  split; [|by vm_compute].
  destruct (UniqueRollup_describes sample_hash sample_uniques false sample_run (mkState [] uset_start)
    sample_run_steps) as (groups & cur & queue & Ha & Hg & _ & Hq).
  inversion Hq; subst. inversion Hg as [|g s gs ss Hd Hn]; subst. inversion Hn; subst.
  cbn [accepted omap list_omap sample_run concat] in Ha. rewrite !app_nil_r in Ha.
  destruct g as [|b [|b' g]]; [exfalso| |done].
  - specialize (Hd "a"). cbn in Hd. destruct Hd as [Hd _]. vm_compute in Hd. discriminate Hd.
  - injection Ha as <- _. exact Hd.
Defined.
