(* ===== verification/CacheRollup.v ===== *)
(** * Cached rollups (src/pkg/rollup/cache.go)

    [Add] keeps one entry per key under a lock; an export takes the whole cache.  When the cache
    grows past its limits an emergency cleanup removes the older half.  An entry of the cache is
    shared with the code that updates it, so an entry that the cleanup has just removed is
    updated in vain.  A time is a number of nanoseconds, read from a clock that is an argument.
    [GetMemoryStats] reads the runtime and is left out. *)
From Stdlib Require Import Sorting.Sorted.
From stdpp Require Import sorting.
From S2P Require Import Prelude GoIO GoStrings KT Filter Rollup GoFloat.

Definition CACHE_ENTRY_OVERHEAD : Z := 150.

Record CacheEntry := mkCacheEntry {
  ce_Key : string;
  ce_Sum : Z;
  ce_Count : Z;
  ce_Min : Z;
  ce_Max : Z;
  ce_Provider : string;
  ce_UniqueVals : gset string;
  ce_LastUpdated : Z
}.

(** What changes in a [CacheRollup]. *)
Record CacheRollup := mkCacheRollup {
  cache : gmap string CacheEntry;
  memoryUsage : Z
}.

Definition newCacheRollup : CacheRollup := mkCacheRollup ∅ 0.

Section Cache.
  Context (r : rollupBase) (cfg : RollupConfig) (keepUndefined isUnique : bool).

Definition estimateEntrySize (e : CacheEntry) : Z :=
  CACHE_ENTRY_OVERHEAD + Z.of_nat (String.length (ce_Key e)) +
  (if isUnique
   then Z.of_nat (size (ce_UniqueVals e)) * 20 +
        foldr (fun k n => Z.of_nat (String.length k) + n) 0 (elements (ce_UniqueVals e))
   else 0).

Definition shouldDoEmergencyCleanup (s : CacheRollup) : bool :=
  if negb (EmergencyCleanup cfg) then false
  else
    ((0 <? MaxMemoryMB cfg) && (swrap 64 (MaxMemoryMB cfg * 1024 * 1024) <? memoryUsage s)) ||
    ((0 <? MaxKeys cfg) && (MaxKeys cfg <? Z.of_nat (size (cache s)))).

(** The ages, greatest first; [thresholdIndex] is half of their number, rounded down, and at
    least one. *)
Definition sorted_ages (now : Z) (s : CacheRollup) : list Z :=
  merge_sort Z.ge (map (fun ke => now - ce_LastUpdated ke.2) (map_to_list (cache s))).
Definition thresholdIndex (n : nat) : nat := Nat.max 1 (n / 2).

Definition older (now threshold : Z) (ke : string * CacheEntry) : Prop :=
  threshold <= now - ce_LastUpdated ke.2.
#[export] Instance older_dec now threshold ke : Decision (older now threshold ke) :=
  decide (threshold <= now - ce_LastUpdated ke.2).

Definition doEmergencyCleanup (now : Z) (s : CacheRollup) : outcome CacheRollup :=
  if (size (cache s) =? 0)%nat then Ok s
  else
    let ages := sorted_ages now s in
    match ages !! thresholdIndex (length ages) with
    | None => Panic "index out of range"
    | Some ageThreshold =>
        Ok (mkCacheRollup (filter (fun ke => ~ older now ageThreshold ke) (cache s))
              (foldr (fun ke m => swrap 64 (m - estimateEntrySize ke.2)) (memoryUsage s)
                 (filter (older now ageThreshold) (map_to_list (cache s)))))
    end.

(** The value of a flow; every metric counts, also those with a name of their own. *)
Definition stat_value (mapr : gmap string Avro) : outcome Z :=
  sr ← sample_rate mapr;
  value ← multi_sum mapr (foldl (fun v m => wrap 64 (v + metric_value mapr m)) 0 (metrics r)) (multiMetrics r);
  Ok (sampled r sr value).

Definition addStatValues (e : CacheEntry) (mapr : gmap string Avro) : outcome CacheEntry :=
  value ← stat_value mapr;
  Ok (mkCacheEntry (ce_Key e) (wrap 64 (ce_Sum e + value)) (ce_Count e) (Z.min (ce_Min e) value)
        (Z.max (ce_Max e) value) (ce_Provider e) (ce_UniqueVals e) (ce_LastUpdated e)).

(** The values that a flow adds to [UniqueVals]. *)
Definition unique_metric (mapr : gmap string Avro) (metric : string) : gset string :=
  match mapr !! metric with
  | Some (AStr m) => {[ m ]}
  | Some (AInt m) => {[ Itoa m ]}
  | _ => ∅
  end.
Definition unique_multi (mapr : gmap string Avro) (m : list string) : outcome (gset string) :=
  m0 ← part m 0;
  match mapr !! m0 with
  | Some (AMapStr mm) => m1 ← part m 1; Ok {[ gomap_get "" mm m1 ]}
  | Some (AMapInt32 mm) => m1 ← part m 1; Ok {[ Itoa (gomap_get 0 mm m1) ]}
  | Some (AMapInt64 mm) => m1 ← part m 1; Ok {[ Itoa (gomap_get 0 mm m1) ]}
  | _ => Ok ∅
  end.

Definition addUniqueValues (e : CacheEntry) (mapr : gmap string Avro) : outcome CacheEntry :=
  multi ← mapM (unique_multi mapr) (multiMetrics r);
  Ok (mkCacheEntry (ce_Key e) (ce_Sum e) (ce_Count e) (ce_Min e) (ce_Max e) (ce_Provider e)
        (ce_UniqueVals e ∪ ⋃ map (unique_metric mapr) (metrics r) ∪ ⋃ multi) (ce_LastUpdated e)).

(** One round of the loop of [Add]: the time of the call, and that of a cleanup. *)
Definition Add_flow (now cleanup_now : Z) (s : CacheRollup) (mapr : gmap string Avro) : outcome CacheRollup :=
  key ← getKey r keepUndefined mapr;
  if String.eqb key "" then Ok s
  else
    '(e, s) ←
      (match cache s !! key with
       | Some e => Ok (e, s)
       | None =>
           p ← provider mapr;
           let e := mkCacheEntry key 0 0 18446744073709551615 0 p ∅ now in
           let s := mkCacheRollup (<[key := e]> (cache s)) (swrap 64 (memoryUsage s + estimateEntrySize e)) in
           s ← (if shouldDoEmergencyCleanup s then doEmergencyCleanup cleanup_now s else Ok s);
           Ok (e, s)
       end);
    let e := mkCacheEntry (ce_Key e) (ce_Sum e) (wrap 64 (ce_Count e + 1)) (ce_Min e) (ce_Max e)
               (ce_Provider e) (ce_UniqueVals e) now in
    e ← (if isUnique then addUniqueValues e mapr else addStatValues e mapr);
    Ok (mkCacheRollup (alter (fun _ => e) key (cache s)) (memoryUsage s)).

Fixpoint Add_flows (now : Z) (clock : nat -> Z) (i : nat) (s : CacheRollup) (flows : list (gmap string Avro)) :
    outcome CacheRollup :=
  match flows with
  | [] => Ok s
  | mapr :: flows' => s ← Add_flow now (clock i) s mapr; Add_flows now clock (S i) s flows'
  end.

Definition Add (now : Z) (clock : nat -> Z) (s : CacheRollup) (flows : list (gmap string Avro)) : outcome CacheRollup :=
  flows ← filtered r flows; Add_flows now clock 0 s flows.

Definition entry_result (interval : Z) (e : CacheEntry) : Rollup :=
  mkRollup (ce_Key e)
    (float64_of (if isUnique then Z.of_nat (size (ce_UniqueVals e)) else ce_Sum e))
    (eventType r) (keyJoin r) interval (combo (multiDims r)) (GetName r)
    (ce_Count e) (ce_Min e) (ce_Max e) (ce_Provider e).

Definition doExport (sort : list Rollup -> list Rollup) (interval : Z) (s : CacheRollup) : list Rollup * CacheRollup :=
  (if (size (cache s) =? 0)%nat then []
   else top sort (TopK cfg) (map (fun ke => entry_result interval ke.2) (map_to_list (cache s))),
   newCacheRollup).
End Cache.

(** ** The emergency cleanup *)

Lemma map_filter_list {A} (P : string * A -> Prop) `{forall x, Decision (P x)} (m : gmap string A) :
  map_to_list (filter P m) ≡ₚ filter P (map_to_list m).
Proof.
  rewrite map_filter_alt. apply map_to_list_to_map, NoDup_fmap_fst.
  - intros k x y [_ Hx%elem_of_map_to_list]%list_elem_of_filter [_ Hy%elem_of_map_to_list]%list_elem_of_filter.
    congruence.
  - apply NoDup_filter, NoDup_map_to_list.
Qed.

Lemma size_list {A} (m : gmap string A) : size m = length (map_to_list m).
Proof. by rewrite length_map_to_list. Qed.

Lemma filter_split {A} (P : A -> Prop) `{forall x, Decision (P x)} (l : list A) :
  (length (filter P l) + length (filter (fun x => ~ P x) l) = length l)%nat.
Proof.
  induction l as [|x l IH]; [done|]. rewrite !filter_cons. simpl.
  destruct (decide (P x)) as [Hp|Hp].
  - rewrite decide_False by (intros Hn; done). simpl. lia.
  - rewrite decide_True by done. simpl. lia.
Qed.

(** In a list in descending order, all up to the [i]th are at least as great. *)
Lemma sorted_prefix (l : list Z) i t :
  StronglySorted Z.ge l -> l !! i = Some t -> (S i <= length (filter (fun a => (t <= a)%Z) l))%nat.
Proof.
  intros Hs. revert i. induction Hs as [|a l Hs IH Ha]; intros i Hi; [done|].
  assert (t <= a) as Hta.
  { destruct i as [|i]; simpl in Hi; [injection Hi as ->; lia|].
    rewrite Forall_forall in Ha. apply list_elem_of_lookup_2 in Hi. specialize (Ha _ Hi). lia. }
  rewrite filter_cons, decide_True by done. simpl. destruct i as [|i]; [lia|]. simpl in Hi.
  specialize (IH _ Hi). lia.
Qed.

#[export] Instance Zge_trans : Transitive Z.ge.
Proof. intros a b c. lia. Qed.
#[export] Instance Zge_total : Total Z.ge.
Proof. intros a b. lia. Qed.

Lemma thresholdIndex_lt n : (2 <= n)%nat -> (n / 2 <= thresholdIndex n < n)%nat.
Proof.
  intros Hn. unfold thresholdIndex. pose proof (Nat.div_lt n 2 ltac:(lia) ltac:(lia)). lia.
Qed.

Section Cleanup.
  Context (isUnique : bool) (now : Z) (s : CacheRollup).

Definition ages : list Z := map (fun ke => now - ce_LastUpdated ke.2) (map_to_list (cache s)).

Lemma sorted_ages_perm : sorted_ages now s ≡ₚ ages.
Proof. apply merge_sort_Permutation. Qed.

Lemma older_ages t :
  length (filter (older now t) (map_to_list (cache s))) = length (filter (fun a => t <= a) ages).
Proof.
  unfold ages. induction (map_to_list (cache s)) as [|ke l IH]; [done|].
  cbn [map]. rewrite !filter_cons. repeat case_decide; unfold older in *; simpl; rewrite ?IH; done.
Qed.

(** What is left after a cleanup of at least two entries. *)
Lemma doEmergencyCleanup_ok :
  (2 <= size (cache s))%nat ->
  exists t mem, doEmergencyCleanup isUnique now s = Ok (mkCacheRollup (filter (fun ke => ~ older now t ke) (cache s)) mem) /\
    t ∈ ages /\ (size (filter (fun ke => ~ older now t ke) (cache s)) + size (cache s) / 2 + 1 <= size (cache s))%nat.
Proof.
  intros Hn. unfold doEmergencyCleanup. destruct (Nat.eqb_spec (size (cache s)) 0); [lia|].
  assert (length (sorted_ages now s) = size (cache s)) as Hl.
  { rewrite sorted_ages_perm. unfold ages. by rewrite length_map, size_list. }
  rewrite Hl. pose proof (thresholdIndex_lt _ Hn) as Hi.
  destruct (lookup_lt_is_Some_2 (sorted_ages now s) (thresholdIndex (size (cache s)))) as [t Ht]; [lia|].
  rewrite Ht. exists t. eexists. split; [done|]. split.
  { rewrite <- sorted_ages_perm. by eapply list_elem_of_lookup_2. }
  rewrite size_list, map_filter_list.
  pose proof (filter_split (older now t) (map_to_list (cache s))) as Hs.
  pose proof (sorted_prefix (sorted_ages now s) _ t (StronglySorted_merge_sort Z.ge _) Ht) as Hp.
  rewrite sorted_ages_perm, <- older_ages in Hp. rewrite <- size_list in *. lia.
Qed.
End Cleanup.

(** ** Without a cleanup *)

Section Counts.
  Context (r : rollupBase) (cfg : RollupConfig) (keepUndefined isUnique : bool).

(** Calls of [Add], each at its time. *)
Fixpoint Adds (s : CacheRollup) (batches : list (Z * (nat -> Z) * list (gmap string Avro))) : outcome CacheRollup :=
  match batches with
  | [] => Ok s
  | (now, clock, flows) :: batches' =>
      s ← Add r cfg keepUndefined isUnique now clock s flows; Adds s batches'
  end.

(** The flows of a key, in order, their values and their distinct values. *)
Definition has_key (k : string) (mapr : gmap string Avro) : Prop := getKey r keepUndefined mapr = Ok k.
#[export] Instance has_key_dec k mapr : Decision (has_key k mapr) := decide (getKey r keepUndefined mapr = Ok k).

Definition value_of (mapr : gmap string Avro) : Z := match stat_value r mapr with Ok v => v | _ => 0 end.
Definition uniques_of (mapr : gmap string Avro) : gset string :=
  ⋃ map (unique_metric mapr) (metrics r) ∪
  ⋃ map (fun m => match unique_multi mapr m with Ok u => u | _ => ∅ end) (multiMetrics r).

Record tally (k : string) (fs : list (gmap string Avro)) (e : CacheEntry) : Prop := {
  tally_key : ce_Key e = k;
  tally_count : ce_Count e = wrap 64 (Z.of_nat (length fs));
  tally_stats : isUnique = false ->
    ce_Sum e = wrap 64 (Zsum (map value_of fs)) /\
    ce_Min e = foldl Z.min 18446744073709551615 (map value_of fs) /\
    ce_Max e = foldl Z.max 0 (map value_of fs);
  tally_uniques : isUnique = true -> ce_UniqueVals e = ⋃ map uniques_of fs
}.

Definition tallies (fs : list (gmap string Avro)) (s : CacheRollup) : Prop :=
  forall k, k <> "" ->
    match filter (has_key k) fs with
    | [] => cache s !! k = None
    | fk => exists e, cache s !! k = Some e /\ tally k fk e
    end.

Lemma union_list_snoc (l : list (gset string)) x : ⋃ (l ++ [x]) = ⋃ l ∪ x.
Proof. induction l as [|y l IH]; simpl; [set_solver|]. rewrite IH. set_solver. Qed.

Lemma unique_multis mapr ms us :
  mapM (unique_multi mapr) ms = Ok us ->
  us = map (fun m => match unique_multi mapr m with Ok u => u | _ => ∅ end) ms.
Proof.
  revert us; induction ms as [|m ms IH]; intros us; simpl; [by intros [= <-]|].
  destruct (unique_multi mapr m) as [u| | |] eqn:E; simpl; try done.
  destruct (mapM _ ms) as [us'| | |]; simpl; try done. intros [= <-]. by rewrite (IH us').
Qed.

(** The entry a flow leaves, from that of the flows before it. *)
Lemma tally_flow k fs e mapr now e' :
  tally k fs e ->
  (let e1 := mkCacheEntry (ce_Key e) (ce_Sum e) (wrap 64 (ce_Count e + 1)) (ce_Min e) (ce_Max e)
               (ce_Provider e) (ce_UniqueVals e) now in
   if isUnique then addUniqueValues r e1 mapr else addStatValues r e1 mapr) = Ok e' ->
  tally k (fs ++ [mapr]) e'.
Proof.
  intros [Hk Hc Hs Hu] He. cbv zeta in He. unfold addUniqueValues, addStatValues in He.
  assert (wrap 64 (ce_Count e + 1) = wrap 64 (Z.of_nat (length (fs ++ [mapr])))) as Hc'.
  { rewrite Hc, wrap_add_l, length_app, Nat2Z.inj_add. done. }
  destruct isUnique eqn:Hiu.
  - destruct (mapM _ _) as [us| | |] eqn:E; simpl in He; try done. injection He as <-.
    constructor; [exact Hk|exact Hc'|congruence|]. cbn [ce_UniqueVals]. intros _. rewrite Hu by done.
    rewrite map_app. cbn [map]. rewrite union_list_snoc. unfold uniques_of at 2. rewrite (unique_multis _ _ _ E). set_solver.
  - destruct (stat_value r mapr) as [v| | |] eqn:E; simpl in He; try done. injection He as <-.
    constructor; [exact Hk|exact Hc'| |congruence]. cbn [ce_Sum ce_Min ce_Max]. intros _. destruct (Hs eq_refl) as (-> & -> & ->).
    rewrite map_app. cbn [map]. rewrite Zsum_snoc, !foldl_snoc, wrap_add_l.
    assert (value_of mapr = v) as -> by (unfold value_of; by rewrite E). done.
Qed.

Lemma tally_new k p now : tally k [] (mkCacheEntry k 0 0 18446744073709551615 0 p ∅ now).
Proof. constructor; done. Qed.

Lemma filter_snoc {A} (P : A -> Prop) `{forall x, Decision (P x)} l x :
  filter P (l ++ [x]) = if decide (P x) then filter P l ++ [x] else filter P l.
Proof. rewrite filter_app, filter_cons, filter_nil. destruct (decide (P x)); [done|]. by rewrite app_nil_r. Qed.

Lemma Add_flow_tallies now cnow s mapr s' fs :
  EmergencyCleanup cfg = false -> tallies fs s ->
  Add_flow r cfg keepUndefined isUnique now cnow s mapr = Ok s' -> tallies (fs ++ [mapr]) s'.
Proof.
  intros Hcl Ht He. unfold Add_flow in He.
  destruct (getKey r keepUndefined mapr) as [key| | |] eqn:Hkey; simpl in He; try done.
  destruct (String.eqb_spec key "") as [->|Hne].
  { injection He as <-. intros k Hk. rewrite filter_snoc, decide_False; [by apply Ht|].
    unfold has_key. congruence. }
  assert (exists e0 e s1, tally key (filter (has_key key) fs) e0 /\
    (let e1 := mkCacheEntry (ce_Key e0) (ce_Sum e0) (wrap 64 (ce_Count e0 + 1)) (ce_Min e0) (ce_Max e0)
               (ce_Provider e0) (ce_UniqueVals e0) now in
     if isUnique then addUniqueValues r e1 mapr else addStatValues r e1 mapr) = Ok e /\
    cache s1 = <[key := e0]> (cache s) /\ s' = mkCacheRollup (alter (fun _ => e) key (cache s1)) (memoryUsage s1))
    as (e0 & e & s1 & Ht0 & Hadd & Hc1 & ->).
  { pose proof (Ht key Hne) as Hk. destruct (cache s !! key) as [e0|] eqn:Hc.
    - destruct (filter (has_key key) fs) as [|f fk] eqn:Hf; [congruence|].
      destruct Hk as (e1 & [= <-] & Hte). simpl in He.
      match type of He with (?o ≫= _) = _ => destruct o as [e| | |] eqn:Ea; simpl in He; try done end.
      injection He as <-. exists e0, e, s. split_and!; [done|exact Ea| |done]. by rewrite insert_id.
    - destruct (filter (has_key key) fs) as [|f fk] eqn:Hf; [|by destruct Hk as (? & ? & _)].
      destruct (provider mapr) as [p| | |]; simpl in He; try done.
      unfold shouldDoEmergencyCleanup in He. rewrite Hcl in He. simpl in He.
      match type of He with (?o ≫= _) = _ => destruct o as [e| | |] eqn:Ea; simpl in He; try done end.
      injection He as <-. eexists _, e, (mkCacheRollup _ _). split_and!; [apply tally_new|exact Ea|done|done]. }
  intros k Hk. simpl. rewrite filter_snoc, Hc1. destruct (decide (has_key k mapr)) as [Hkk|Hkk].
  - unfold has_key in Hkk. assert (key = k) as -> by congruence.
    pose proof (tally_flow _ _ _ _ _ _ Ht0 Hadd) as Hte.
    rewrite lookup_alter_eq, lookup_insert_eq. simpl.
    destruct (filter (has_key k) fs ++ [mapr]) as [|f fk] eqn:Hf; [by destruct (filter (has_key k) fs)|].
    by exists e.
  - assert (key <> k) by (unfold has_key in Hkk; congruence).
    rewrite lookup_alter_ne, lookup_insert_ne by done. by apply Ht.
Qed.
End Counts.

Section Runs.
  Context (r : rollupBase) (cfg : RollupConfig) (keepUndefined isUnique : bool).

Lemma Add_flows_tallies now clock i s flows s' fs :
  EmergencyCleanup cfg = false -> tallies r keepUndefined isUnique fs s ->
  Add_flows r cfg keepUndefined isUnique now clock i s flows = Ok s' ->
  tallies r keepUndefined isUnique (fs ++ flows) s'.
Proof.
  intros Hc. revert i s fs. induction flows as [|f flows IH]; intros i s fs Ht; simpl.
  - intros [= <-]. by rewrite app_nil_r.
  - destruct (Add_flow _ _ _ _ _ _ s f) as [s1| | |] eqn:E; simpl; try done. intros He.
    apply (IH _ _ (fs ++ [f])) in He; [by rewrite <- app_assoc in He|].
    by apply (Add_flow_tallies r cfg keepUndefined isUnique now (clock i) s f).
Qed.

(** The flows that the filters keep. *)
Definition kept (batches : list (Z * (nat -> Z) * list (gmap string Avro))) : list (gmap string Avro) :=
  concat (map (fun b => match filtered r b.2 with Ok fs => fs | _ => [] end) batches).

Lemma Adds_tallies s batches s' fs :
  EmergencyCleanup cfg = false -> tallies r keepUndefined isUnique fs s ->
  Adds r cfg keepUndefined isUnique s batches = Ok s' ->
  tallies r keepUndefined isUnique (fs ++ kept batches) s'.
Proof.
  intros Hc. revert s fs. induction batches as [|[[now clock] flows] batches IH]; intros s fs Ht; simpl.
  - intros [= <-]. unfold kept. simpl. by rewrite app_nil_r.
  - change (kept ((now, clock, flows) :: batches)) with
      ((match filtered r flows with Ok fs => fs | _ => [] end) ++ kept batches).
    unfold Add. destruct (filtered r flows) as [fl| | |]; simpl; try done.
    destruct (Add_flows _ _ _ _ _ _ _ s fl) as [s1| | |] eqn:E; simpl; try done. intros He.
    rewrite app_assoc. apply (IH s1 (fs ++ fl)); [|done]. by eapply Add_flows_tallies.
Qed.

(** The limit on the number of keys. *)
Definition limited (s : CacheRollup) : Prop := Z.of_nat (size (cache s)) <= MaxKeys cfg.

Lemma Add_flow_limited now cnow s mapr s' :
  EmergencyCleanup cfg = true -> 1 <= MaxKeys cfg -> limited s ->
  Add_flow r cfg keepUndefined isUnique now cnow s mapr = Ok s' -> limited s'.
Proof.
  intros Hcl Hmk Hl He. unfold Add_flow in He.
  destruct (getKey r keepUndefined mapr) as [key| | |]; simpl in He; try done.
  destruct (String.eqb key ""); [by injection He as <-|].
  assert (forall (f : CacheEntry -> CacheEntry) (m : gmap string CacheEntry), size (alter f key m) = size m) as Ha.
  { intros f m. by rewrite <- !size_dom, dom_alter_L. }
  destruct (cache s !! key) as [e0|] eqn:Hc; simpl in He.
  { match type of He with (?o ≫= _) = _ => destruct o as [e| | |]; simpl in He; try done end.
    injection He as <-. unfold limited. simpl. by rewrite Ha. }
  destruct (provider mapr) as [p| | |]; simpl in He; try done.
  set (s1 := mkCacheRollup _ _) in He.
  assert (size (cache s1) = S (size (cache s))) as Hs1 by (simpl; by rewrite map_size_insert_None).
  destruct (shouldDoEmergencyCleanup cfg s1) eqn:Hsh.
  - destruct (decide (2 <= size (cache s1))%nat) as [H2|H2].
    + destruct (doEmergencyCleanup_ok isUnique cnow s1 H2) as (t & mem & Hd & _ & Hsz).
      rewrite Hd in He. simpl in He.
      match type of He with (?o ≫= _) = _ => destruct o as [e| | |]; simpl in He; try done end.
      injection He as <-. unfold limited in *. simpl. rewrite Ha. unfold s1 at 1 in Hsz. simpl in Hsz.
      simpl in Hs1. lia.
    + exfalso. unfold doEmergencyCleanup in He. destruct (Nat.eqb_spec (size (cache s1)) 0); [lia|].
      assert (length (sorted_ages cnow s1) = 1%nat) as Hl1.
      { rewrite sorted_ages_perm. unfold ages. rewrite length_map, <- size_list. lia. }
      rewrite Hl1, lookup_ge_None_2 in He by (rewrite Hl1; done). done.
  - simpl in He. match type of He with (?o ≫= _) = _ => destruct o as [e| | |]; simpl in He; try done end.
    injection He as <-. unfold limited in *. simpl. rewrite Ha. unfold shouldDoEmergencyCleanup in Hsh.
    rewrite Hcl in Hsh. cbn [negb] in Hsh. apply orb_false_iff in Hsh as [_ Hsh].
    apply andb_false_iff in Hsh as [Hsh|Hsh]; [apply Z.ltb_ge in Hsh; lia|].
    apply Z.ltb_ge in Hsh. exact Hsh.
Qed.

Lemma Add_limited now clock s flows s' :
  EmergencyCleanup cfg = true -> 1 <= MaxKeys cfg -> limited s ->
  Add r cfg keepUndefined isUnique now clock s flows = Ok s' -> limited s'.
Proof.
  intros Hcl Hmk Hl. unfold Add. destruct (filtered r flows) as [fl| | |]; simpl; try done.
  revert s Hl. generalize 0%nat as i. induction fl as [|f fl IH]; intros i s Hl; simpl; [by intros [= <-]|].
  destruct (Add_flow _ _ _ _ _ _ s f) as [s1| | |] eqn:E; simpl; try done. apply IH.
  by eapply Add_flow_limited.
Qed.
End Runs.

(** ** Properties *)

(** The cache counts every flow.  Without emergency cleanups, after any calls of [Add] the
    cache has an entry for exactly the non-empty keys of the flows that pass the filters, with
    the number of its flows, and the sum (modulo 2^64), least and greatest of their values or
    the set of their distinct values. *)
Lemma CacheRollup_counts r cfg keepUndefined isUnique batches s :
  EmergencyCleanup cfg = false ->
  Adds r cfg keepUndefined isUnique newCacheRollup batches = Ok s ->
  tallies r keepUndefined isUnique (kept r batches) s.
Proof.
  intros Hc Ha. apply (Adds_tallies r cfg keepUndefined isUnique newCacheRollup batches s []); [done|done|done].
Qed.

(** With a limit of at least one key the cache never has more keys than the limit after a
    call of [Add]. *)
Lemma CacheRollup_limited r cfg keepUndefined isUnique batches s :
  EmergencyCleanup cfg = true -> 1 <= MaxKeys cfg ->
  Adds r cfg keepUndefined isUnique newCacheRollup batches = Ok s ->
  Z.of_nat (size (cache s)) <= MaxKeys cfg.
Proof.
  intros Hcl Hmk. assert (limited cfg newCacheRollup) as Hl by (unfold limited; cbn [newCacheRollup cache]; rewrite map_size_empty; lia).
  revert Hl. generalize newCacheRollup as s0.
  induction batches as [|[[now clock] flows] batches IH]; intros s0 Hl; simpl; [by intros [= <-]|].
  destruct (Add _ _ _ _ _ _ s0 flows) as [s1| | |] eqn:E; simpl; try done. apply IH.
  by eapply Add_limited.
Qed.

(** A cleanup of at least two entries does not panic, leaves less than half of them, each
    newer than each that is removed, and leaves none when all were updated at the same time. *)
Lemma CacheRollup_cleanup isUnique now s :
  (2 <= size (cache s))%nat ->
  exists s', doEmergencyCleanup isUnique now s = Ok s' /\ cache s' ⊆ cache s /\
    (size (cache s') + size (cache s) / 2 + 1 <= size (cache s))%nat /\
    (forall k e k' e', cache s !! k = Some e -> cache s' !! k = None -> cache s' !! k' = Some e' ->
       ce_LastUpdated e < ce_LastUpdated e') /\
    (forall time, map_Forall (fun _ e => ce_LastUpdated e = time) (cache s) -> cache s' = ∅).
Proof.
  intros Hn. destruct (doEmergencyCleanup_ok isUnique now s Hn) as (t & mem & Hd & Ht & Hs).
  eexists. split; [exact Hd|]. cbn [cache]. split_and!; [apply map_filter_subseteq|done| |].
  - intros k e k' e' Hk Hnone Hk'. apply map_lookup_filter_Some in Hk' as [_ Hk'].
    apply map_lookup_filter_None in Hnone as [Hnone|Hnone]; [congruence|].
    specialize (Hnone _ Hk). unfold older in *. simpl in *. lia.
  - intros time Hall. apply map_empty. intros k. apply map_lookup_filter_None. right. intros e He Ho. apply Ho.
    apply list_elem_of_fmap in Ht as ([k' e'] & -> & Hk'%elem_of_map_to_list).
    unfold older. simpl. rewrite (Hall _ _ He), (Hall _ _ Hk'). lia.
Qed.

(** ** Witnesses *)

Definition sample_base : rollupBase :=
  mkRollupBase ["in_bytes"] [] [["foo"]]%string ∅ "^" 1 "KFlow" false ["bytes"]%string [] false false.
Definition sample_config (cleanup : bool) : RollupConfig := mkRollupConfig "^" 1 [] false 0 2 cleanup.
Definition sample_flow (foo : string) (n : Z) : gmap string Avro :=
  {[ "foo" := AStr foo; "in_bytes" := AInt n; "sample_rate" := AInt 1; "provider" := AProvider "p" ]}.
Definition sample_batches : list (Z * (nat -> Z) * list (gmap string Avro)) :=
  [(100, fun _ => 101, [sample_flow "a" 10; sample_flow "b" 20]);
   (200, fun _ => 201, [sample_flow "a" 5; sample_flow "c" 7])].

Lemma CacheRollup_counts_witness :
  exists s, Adds sample_base (sample_config false) false false newCacheRollup sample_batches = Ok s /\
    exists e, cache s !! "a" = Some e /\ ce_Sum e = 15 /\ ce_Count e = 2 /\ ce_Min e = 5.
Proof.
  eexists. split; [vm_compute; reflexivity|].
  match goal with |- context [cache ?s] =>
    pose proof (CacheRollup_counts sample_base (sample_config false) false false sample_batches s) as H end.
  specialize (H ltac:(reflexivity) ltac:(vm_compute; reflexivity) "a"%string ltac:(discriminate)).
  assert (filter (has_key sample_base false "a") (kept sample_base sample_batches) =
    [sample_flow "a" 10; sample_flow "a" 5]) as E by (vm_compute; reflexivity).
  rewrite E in H. destruct H as (e & He & [_ Hc Hs _]). destruct (Hs eq_refl) as (H1 & H2 & _).
  exists e. split; [exact He|]. rewrite Hc, H1, H2. split_and!; vm_compute; reflexivity.
Defined.

Lemma CacheRollup_limited_witness :
  exists s, Adds sample_base (sample_config true) false false newCacheRollup sample_batches = Ok s /\
    Z.of_nat (size (cache s)) <= 2 /\ cache s !! "b" = None.
Proof.
  eexists. split; [vm_compute; reflexivity|]. split; [|vm_compute; reflexivity].
  exact (CacheRollup_limited sample_base (sample_config true) false false sample_batches _
    eq_refl ltac:(cbn; lia) ltac:(vm_compute; reflexivity)).
Defined.

(** Two keys of one batch: the cleanup empties the cache. *)
Definition sample_entry (k : string) (time : Z) : CacheEntry := mkCacheEntry k 10 1 10 10 "p" ∅ time.
Definition sample_cache : CacheRollup :=
  mkCacheRollup {[ "a" := sample_entry "a" 100; "b" := sample_entry "b" 100 ]} 302.

Lemma CacheRollup_cleanup_witness :
  exists s', doEmergencyCleanup false 150 sample_cache = Ok s' /\ cache s' = ∅.
Proof.
  destruct (CacheRollup_cleanup false 150 sample_cache) as (s' & Hd & _ & _ & _ & Hall); [vm_compute; lia|].
  exists s'. split; [exact Hd|]. apply (Hall 100). decide_done.
Defined.
