(* ===== verification/Session.v ===== *)
(** * Template sessions (src/pkg/util/netflow/session/session.go)

    The store that binds a template id, within a source id (NetFlow 9) or observation domain
    (IPFIX), to the template that was last received for it. The store is shared by the two
    decoders, so it is generic in the template type [T]; [Template T] is the interface's only
    method. The mutex that guards a registration is not modelled: every operation here is one
    step of a single decoder. *)
From S2P Require Import Prelude.

(** [type Template interface { ID() uint16 }]. *)
Class Template (T : Type) := template_ID : T -> Z.

Section Session.
  Context {T : Type} `{Template T}.

(** [templateKey{sourceID, templateID}]. *)
Definition templateKey : Type := Z * Z.

Definition basicSession : Type := gmap templateKey T.

Definition New : basicSession := ∅.

Definition AddTemplate (s : basicSession) (sourceID : Z) (t : T) : basicSession :=
  <[(sourceID, template_ID t) := t]> s.

Definition GetTemplate (s : basicSession) (sourceID templateID : Z) : option T :=
  s !! (sourceID, templateID).

(** Registering the records of a template set, in order. *)
Definition AddTemplates (s : basicSession) (sourceID : Z) (ts : list T) : basicSession :=
  foldl (fun s t => AddTemplate s sourceID t) s ts.

Lemma GetTemplate_AddTemplate s src t : GetTemplate (AddTemplate s src t) src (template_ID t) = Some t.
Proof. apply lookup_insert_eq. Qed.

Lemma GetTemplate_AddTemplate_ne s src t src' id :
  (src', id) <> (src, template_ID t) ->
  GetTemplate (AddTemplate s src t) src' id = GetTemplate s src' id.
Proof. intros Hne. by apply lookup_insert_ne. Qed.

(** Sources are isolated from each other. *)
Lemma GetTemplate_AddTemplates_source s src ts src' id :
  src' <> src -> GetTemplate (AddTemplates s src ts) src' id = GetTemplate s src' id.
Proof.
  intros Hne. revert s; induction ts as [|t ts IH]; intros s; simpl; [done|].
  rewrite IH. apply GetTemplate_AddTemplate_ne. congruence.
Qed.

Lemma GetTemplate_AddTemplates_other s src ts id :
  Forall (fun t => template_ID t <> id) ts ->
  GetTemplate (AddTemplates s src ts) src id = GetTemplate s src id.
Proof.
  intros Hts. revert s; induction Hts as [|t ts Ht Hts IH]; intros s; simpl; [done|].
  rewrite IH. apply GetTemplate_AddTemplate_ne. congruence.
Qed.

(** The last template of a set with an id is the one that stays. *)
Lemma GetTemplate_AddTemplates_last s src ts1 t ts2 :
  Forall (fun t' => template_ID t' <> template_ID t) ts2 ->
  GetTemplate (AddTemplates s src (ts1 ++ t :: ts2)) src (template_ID t) = Some t.
Proof.
  intros Hts. unfold AddTemplates. rewrite foldl_app. simpl.
  etransitivity; [by apply GetTemplate_AddTemplates_other|apply GetTemplate_AddTemplate].
Qed.
End Session.

#[global] Arguments basicSession T : clear implicits.
