(* ===== verification/Translate.v ===== *)
(** * Field translation (src/pkg/util/netflow/translate/translate.go)

    The types of information elements and the decoding of a field's bytes into a value of
    that type, reduced-size encoding included. Indexing a slice out of range is a [Panic]. *)
From S2P Require Import Prelude GoIO.

Inductive FieldType :=
| Unknown | Uint8 | Uint16 | Uint32 | Uint64 | Int8 | Int16 | Int32 | Int64
| Float32 | Float64 | Boolean | MacAddress | OctetArray | String_
| DateTimeSeconds | DateTimeMilliseconds | DateTimeMicroseconds | DateTimeNanoseconds
| Ipv4Address | Ipv6Address.

#[export] Instance FieldType_eq_dec : EqDecision FieldType.
Proof. solve_decision. Defined.

(** The map [FieldTypes]; a missing key gives the zero value, [Unknown]. *)
Definition FieldTypes (s : string) : FieldType :=
  let name := String.eqb s in
  if name "unsigned8" then Uint8
  else if name "unsigned16" then Uint16
  else if name "unsigned32" then Uint32
  else if name "unsigned64" then Uint64
  else if name "signed8" then Int8
  else if name "signed16" then Int16
  else if name "signed32" then Int32
  else if name "signed64" then Int64
  else if name "float32" then Float32
  else if name "float64" then Float64
  else if name "boolean" then Boolean
  else if name "macAddress" then MacAddress
  else if name "octetArray" then OctetArray
  else if name "string" then String_
  else if name "dateTimeSeconds" then DateTimeSeconds
  else if name "dateTimeMilliseconds" then DateTimeMilliseconds
  else if name "dateTimeMicroseconds" then DateTimeMicroseconds
  else if name "dateTimeNanoseconds" then DateTimeNanoseconds
  else if name "ipv4Address" then Ipv4Address
  else if name "ipv6Address" then Ipv6Address
  else Unknown.

Definition minLength (t : FieldType) : nat :=
  match t with
  | Uint8 | Int8 | Boolean => 1
  | Uint16 | Int16 => 1
  | Uint32 | Int32 => 1
  | Float32 | DateTimeSeconds => 4
  | Uint64 | Int64 => 1
  | Float64 => 4
  | DateTimeMilliseconds | DateTimeMicroseconds | DateTimeNanoseconds => 8
  | MacAddress => 6
  | Ipv4Address => 4
  | Ipv6Address => 16
  | _ => 0
  end.

(** Entries of the dictionary of information elements, under enterprise and element id. *)
Record InformationElementEntry := mkEntry {
  Name : string;
  FieldID : Z;
  EnterpriseID : Z;
  Type' : FieldType
}.
Definition Key : Type := Z * Z.
Abbreviation informationElements := (gmap Key InformationElementEntry).

(** [Translate.Key]. *)
Definition lookup_Key (elements : informationElements) (k : Key) :
    option InformationElementEntry := elements !! k.

(** The dynamic values [Bytes] returns. A float is its bit pattern. *)
Inductive Value :=
| VUint8 (z : Z) | VUint16 (z : Z) | VUint32 (z : Z) | VUint64 (z : Z)
| VInt8 (z : Z) | VInt16 (z : Z) | VInt32 (z : Z) | VInt64 (z : Z)
| VFloat32 (bits : Z) | VFloat64 (bits : Z) | VBool (b : bool)
| VBytes (bs : bytes) | VString (bs : bytes) | VHardwareAddr (bs : bytes) | VIP (bs : bytes)
| VTime (t : Time).

(** ** Indexing and fixed-width reads of a slice *)

Definition index (bs : bytes) (i : nat) : outcome Z :=
  match bs !! i with
  | Some b => Ok b
  | None => Panic "index out of range"
  end.

(** [binary.BigEndian.UintN(bs)] looks at the first [n] bytes. *)
Definition BigEndian (n : nat) (bs : bytes) : outcome Z :=
  if (length bs <? n)%nat then Panic "index out of range" else Ok (be_combine (take n bs)).

(** ** Reduced-size encoding *)

Definition reducedSizeErr : error :=
  Errorf "Unable to read reduced size encoding: size not implemented" [].
Definition tooManyBitsErr : error :=
  Errorf "Unable to read reduced size encoding: too many bits" [].

Definition reducedSizeReadUnsigned (bs : bytes) (maxBits : Z) : outcome Z :=
  if maxBits <? Z.of_nat (length bs) * 8 then Err tooManyBitsErr else
  match length bs with
  | 1%nat => index bs 0
  | 2%nat => BigEndian 2 bs
  | 3%nat =>
      b0 ← index bs 0; b1 ← index bs 1; b2 ← index bs 2;
      Ok (wrap 32 (wrap 32 (wrap 32 (Z.shiftl b0 16) + wrap 32 (Z.shiftl b1 8)) + b2))
  | 4%nat => BigEndian 4 bs
  | 8%nat => BigEndian 8 bs
  | _ => Err reducedSizeErr
  end.

Definition reducedSizeReadSigned (bs : bytes) (maxBits : Z) : outcome Z :=
  if maxBits <? Z.of_nat (length bs) * 8 then Err tooManyBitsErr else
  match length bs with
  | 1%nat => b ← index bs 0; Ok (swrap 8 b)
  | 2%nat => v ← BigEndian 2 bs; Ok (swrap 16 v)
  | 4%nat => v ← BigEndian 4 bs; Ok (swrap 32 v)
  | 8%nat => v ← BigEndian 8 bs; Ok (swrap 64 v)
  | _ => Err reducedSizeErr
  end.

(** The pointer types [reducedSizeRead] is called with. *)
Inductive target := PUint16 | PUint32 | PUint64 | PInt16 | PInt32 | PInt64.

Definition reducedSizeRead (bs : bytes) (i : target) : outcome Value :=
  match i with
  | PUint16 => u ← reducedSizeReadUnsigned bs 16; Ok (VUint16 (wrap 16 u))
  | PUint32 => u ← reducedSizeReadUnsigned bs 32; Ok (VUint32 (wrap 32 u))
  | PUint64 => u ← reducedSizeReadUnsigned bs 64; Ok (VUint64 (wrap 64 u))
  | PInt16 => s ← reducedSizeReadSigned bs 16; Ok (VInt16 (swrap 16 s))
  | PInt32 => s ← reducedSizeReadSigned bs 32; Ok (VInt32 (swrap 32 s))
  | PInt64 => s ← reducedSizeReadSigned bs 64; Ok (VInt64 (swrap 64 s))
  end.

(** [if err := reducedSizeRead(bs, &i); err == nil { return i }], else [return bs]. *)
Definition reduced_or_raw (bs : bytes) (i : target) : outcome Value :=
  match reducedSizeRead bs i with
  | Err _ => Ok (VBytes bs)
  | o => o
  end.

(** ** Floats and times *)

(** [float64(math.Float32frombits(b))], on bit patterns. *)
Definition float64_of_float32 (b : Z) : Z :=
  let s := Z.shiftl (Z.shiftr b 31) 63 in
  let e := Z.land (Z.shiftr b 23) 0xff in
  let m := Z.land b 0x7fffff in
  if e =? 0xff then
    if m =? 0 then s + Z.shiftl 0x7ff 52
    else s + Z.shiftl 0x7ff 52 + Z.lor (Z.shiftl 1 51) (Z.shiftl m 29)
  else if e =? 0 then
    if m =? 0 then s
    else let k := Z.log2 m in
         s + Z.shiftl (k - 149 + 1023) 52 + Z.shiftl (m - Z.shiftl 1 k) (52 - k)
  else s + Z.shiftl (e - 127 + 1023) 52 + Z.shiftl m 29.

(** [time.Unix(0, 0).Add(time.Duration(n) * unit)]: the product is an [int64]. *)
Definition since_epoch (n unit : Z) : Time :=
  let d := swrap 64 (n * unit) in mkTime (d / Second) (d mod Second).

(** ** Bytes *)

Definition Bytes (bs : bytes) (t : FieldType) : outcome Value :=
  if (length bs <? minLength t)%nat then Ok (VBytes bs) else
  match t with
  | Uint8 => b ← index bs 0; Ok (VUint8 b)
  | Uint16 => reduced_or_raw bs PUint16
  | Uint32 => reduced_or_raw bs PUint32
  | Uint64 => reduced_or_raw bs PUint64
  | Int8 => b ← index bs 0; Ok (VInt8 (swrap 8 b))
  | Int16 => reduced_or_raw bs PInt16
  | Int32 => reduced_or_raw bs PInt32
  | Int64 => reduced_or_raw bs PInt64
  | Float32 => v ← BigEndian 4 bs; Ok (VFloat32 v)
  | Float64 =>
      match length bs with
      | 4%nat => v ← BigEndian 4 bs; Ok (VFloat64 (float64_of_float32 v))
      | 8%nat => v ← BigEndian 8 bs; Ok (VFloat64 v)
      | _ => Ok (VBytes bs)
      end
  | Boolean => b ← index bs 0; Ok (VBool (b =? 1))
  | Unknown | OctetArray => Ok (VBytes bs)
  | String_ => Ok (VString bs)
  | MacAddress => Ok (VHardwareAddr bs)
  | Ipv4Address | Ipv6Address => Ok (VIP bs)
  | DateTimeSeconds => v ← BigEndian 4 bs; Ok (VTime (time_Unix v 0))
  | DateTimeMilliseconds =>
      v ← BigEndian 8 bs; Ok (VTime (since_epoch (swrap 64 v) Millisecond))
  | DateTimeMicroseconds =>
      v ← BigEndian 8 bs; Ok (VTime (since_epoch (swrap 64 v) Microsecond))
  | DateTimeNanoseconds =>
      v ← BigEndian 8 bs; Ok (VTime (since_epoch (swrap 64 v) Nanosecond))
  end.

(** ** Translation is total, and reduced-size integers decode to their value *)

Lemma be_combine_1 b : be_combine [b] = b.
Proof. done. Qed.

Lemma BigEndian_all n bs : length bs = n -> BigEndian n bs = Ok (be_combine bs).
Proof. intros <-. unfold BigEndian. rewrite Nat.ltb_irrefl. by rewrite take_ge. Qed.

Definition unsigned_sizes : list nat := [1; 2; 3; 4; 8]%nat.
Definition signed_sizes : list nat := [1; 2; 4; 8]%nat.

(** Split a byte string by its length up to eight. *)
Ltac by_length bs :=
  destruct bs as [|? [|? [|? [|? [|? [|? [|? [|? [|? ?]]]]]]]]].

Ltac decide_size :=
  match goal with
  | |- context [decide (?n ∈ ?l)] =>
      destruct (decide (n ∈ l)) as [Hsz|Hsz]; unfold unsigned_sizes, signed_sizes in Hsz;
      rewrite ?elem_of_cons, ?elem_of_nil in Hsz; simpl in Hsz; try (exfalso; lia)
  end.

Lemma reducedSizeReadUnsigned_spec bs maxBits :
  bytes_ok bs ->
  reducedSizeReadUnsigned bs maxBits =
    if maxBits <? Z.of_nat (length bs) * 8 then Err tooManyBitsErr
    else if decide (length bs ∈ unsigned_sizes) then Ok (be_combine bs)
    else Err reducedSizeErr.
Proof.
  intros Hok. unfold reducedSizeReadUnsigned. destruct (maxBits <? _); [done|].
  by_length bs; decide_size; try done.
  repeat (apply Forall_cons in Hok as [? Hok]). cbn. unfold in_range, be_combine in *. simpl.
  unfold be_step. rewrite !Z.shiftl_mul_pow2 by lia. f_equal.
  assert (forall z, 0 <= z < 16777216 -> wrap 32 z = z) as Hw.
  { intros w Hz. apply wrap_id. unfold in_range. lia. }
  change (2 ^ 8) with 256 in *. change (2 ^ 16) with 65536.
  rewrite (Hw (z * 65536)), (Hw (z0 * 256)) by lia. rewrite !Hw by (rewrite ?Hw; lia). lia.
Qed.

Lemma reducedSizeReadSigned_spec bs maxBits :
  reducedSizeReadSigned bs maxBits =
    if maxBits <? Z.of_nat (length bs) * 8 then Err tooManyBitsErr
    else if decide (length bs ∈ signed_sizes)
         then Ok (swrap (8 * Z.of_nat (length bs)) (be_combine bs))
    else Err reducedSizeErr.
Proof.
  unfold reducedSizeReadSigned. destruct (maxBits <? _); [done|].
  by_length bs; decide_size; done.
Qed.

Lemma wrap_be_combine w bs :
  bytes_ok bs -> Z.of_nat (length bs) * 8 <= w -> wrap w (be_combine bs) = be_combine bs.
Proof.
  intros Hok Hw. apply wrap_id. pose proof (be_combine_range bs Hok). unfold in_range.
  enough (256 ^ Z.of_nat (length bs) <= 2 ^ w) by lia.
  change 256 with (2 ^ 8). rewrite <- Z.pow_mul_r by lia. apply Z.pow_le_mono_r; lia.
Qed.

Lemma swrap_swrap w w' z : 0 < w -> w <= w' -> swrap w' (swrap w z) = swrap w z.
Proof.
  intros Hw Hle. apply swrap_id; [lia|]. pose proof (swrap_range w Hw z) as Hr.
  unfold in_srange in *. assert (2 ^ (w - 1) <= 2 ^ (w' - 1)) by (apply Z.pow_le_mono_r; lia). lia.
Qed.

(** The integer types wider than a byte: width in bits, type, and constructor of the value. *)
Definition unsigned_types : list (Z * FieldType * (Z -> Value)) :=
  [(16, Uint16, VUint16); (32, Uint32, VUint32); (64, Uint64, VUint64)].
Definition signed_types : list (Z * FieldType * (Z -> Value)) :=
  [(16, Int16, VInt16); (32, Int32, VInt32); (64, Int64, VInt64)].

Lemma Bytes_unsigned w t V bs :
  bytes_ok bs -> (w, t, V) ∈ unsigned_types ->
  Bytes bs t = Ok (if decide (length bs ∈ unsigned_sizes /\ Z.of_nat (length bs) * 8 <= w)
                   then V (be_combine bs) else VBytes bs).
Proof.
  intros Hok Hin. unfold unsigned_types in Hin. rewrite !elem_of_cons, elem_of_nil in Hin.
  assert (bs = [] \/ (1 <= length bs)%nat) as [->|Hl] by (destruct bs; simpl; [auto|right; lia]).
  { destruct Hin as [[= -> -> ->]|[[= -> -> ->]|[[= -> -> ->]|[]]]]; done. }
  assert (forall i, Bytes bs t = reduced_or_raw bs i ->
    reducedSizeRead bs i = (u ← reducedSizeReadUnsigned bs w; Ok (V (wrap w u))) ->
    Bytes bs t = Ok (if decide (length bs ∈ unsigned_sizes /\ Z.of_nat (length bs) * 8 <= w)
                     then V (be_combine bs) else VBytes bs)) as Hgen.
  { intros i -> Hr. unfold reduced_or_raw. rewrite Hr, reducedSizeReadUnsigned_spec by done.
    destruct (Z.ltb_spec w (Z.of_nat (length bs) * 8)).
    - rewrite decide_False by lia. done.
    - destruct (decide (length bs ∈ unsigned_sizes)).
      + rewrite decide_True by done. cbn. by rewrite wrap_be_combine.
      + rewrite decide_False by tauto. done. }
  destruct Hin as [[= -> -> ->]|[[= -> -> ->]|[[= -> -> ->]|[]]]];
    [apply (Hgen PUint16)|apply (Hgen PUint32)|apply (Hgen PUint64)]; try done;
    unfold Bytes; simpl minLength; by destruct (Nat.ltb_spec (length bs) 1); [lia|].
Qed.

Lemma Bytes_signed w t V bs :
  (w, t, V) ∈ signed_types ->
  Bytes bs t = Ok (if decide (length bs ∈ signed_sizes /\ Z.of_nat (length bs) * 8 <= w)
                   then V (swrap (8 * Z.of_nat (length bs)) (be_combine bs)) else VBytes bs).
Proof.
  intros Hin. unfold signed_types in Hin. rewrite !elem_of_cons, elem_of_nil in Hin.
  assert (bs = [] \/ (1 <= length bs)%nat) as [->|Hl] by (destruct bs; simpl; [auto|right; lia]).
  { destruct Hin as [[= -> -> ->]|[[= -> -> ->]|[[= -> -> ->]|[]]]]; done. }
  assert (forall i, Bytes bs t = reduced_or_raw bs i ->
    reducedSizeRead bs i = (u ← reducedSizeReadSigned bs w; Ok (V (swrap w u))) ->
    Bytes bs t = Ok (if decide (length bs ∈ signed_sizes /\ Z.of_nat (length bs) * 8 <= w)
                     then V (swrap (8 * Z.of_nat (length bs)) (be_combine bs)) else VBytes bs))
    as Hgen.
  { intros i -> Hr. unfold reduced_or_raw. rewrite Hr, reducedSizeReadSigned_spec.
    destruct (Z.ltb_spec w (Z.of_nat (length bs) * 8)).
    - rewrite decide_False by lia. done.
    - destruct (decide (length bs ∈ signed_sizes)).
      + rewrite decide_True by done. cbn [mbind outcome_bind]. by rewrite swrap_swrap by lia.
      + rewrite decide_False by tauto. done. }
  destruct Hin as [[= -> -> ->]|[[= -> -> ->]|[[= -> -> ->]|[]]]];
    [apply (Hgen PInt16)|apply (Hgen PInt32)|apply (Hgen PInt64)]; try done;
    unfold Bytes; simpl minLength; by destruct (Nat.ltb_spec (length bs) 1); [lia|].
Qed.

Lemma BigEndian_ok n bs : (n <= length bs)%nat -> BigEndian n bs = Ok (be_combine (take n bs)).
Proof. intros Hl. unfold BigEndian. by destruct (Nat.ltb_spec (length bs) n); [lia|]. Qed.

Lemma index0_ok bs : (1 <= length bs)%nat -> exists b, index bs 0 = Ok b.
Proof. destruct bs; simpl; [lia|]. eauto. Qed.

Lemma reduced_or_raw_total bs i : exists v, reduced_or_raw bs i = Ok v.
Proof.
  unfold reduced_or_raw, reducedSizeRead, reducedSizeReadUnsigned, reducedSizeReadSigned.
  destruct i; (destruct (_ <? _); [by eexists|]); by_length bs; by eexists.
Qed.

Lemma Bytes_any bs t : exists v, Bytes bs t = Ok v.
Proof.
  unfold Bytes. destruct (Nat.ltb_spec (length bs) (minLength t)) as [?|Hl]; [by eexists|].
  destruct t; simpl in Hl; first
    [ apply reduced_or_raw_total
    | destruct (index0_ok bs ltac:(lia)) as [b ->]; by eexists
    | rewrite BigEndian_ok by lia; by eexists
    | by_length bs; by eexists ].
Qed.

(** ** Properties *)

(** Translating a field never panics and never fails, whatever the bytes that a template
    of an untrusted exporter gives it: for every type, the length check (and, for the integer
    and [float64] types, the switch on the length) covers every access to the bytes. *)
Lemma Bytes_total bs t : exists v, Bytes bs t = Ok v.
Proof. apply Bytes_any. Qed.

(** Reduced-size encoding.  An integer element of 16, 32 or 64 bits decodes to the number
    its bytes spell in network order (in two's complement of the bytes' own width for the
    signed types) exactly when the encoding has a supported size no larger than the type: 1,
    2, 3, 4 or 8 bytes for the unsigned types, 1, 2, 4 or 8 for the signed ones.  Any other
    size is handed over as the raw bytes. *)
Lemma Bytes_reduced_size bs w t V :
  bytes_ok bs ->
  ((w, t, V) ∈ unsigned_types ->
   Bytes bs t = Ok (if decide (length bs ∈ unsigned_sizes /\ Z.of_nat (length bs) * 8 <= w)
                    then V (be_combine bs) else VBytes bs)) /\
  ((w, t, V) ∈ signed_types ->
   Bytes bs t = Ok (if decide (length bs ∈ signed_sizes /\ Z.of_nat (length bs) * 8 <= w)
                    then V (swrap (8 * Z.of_nat (length bs)) (be_combine bs)) else VBytes bs)).
Proof. intros Hok. split; intros Hin; [by apply Bytes_unsigned|by apply Bytes_signed]. Qed.

Lemma Bytes_reduced_size_witness :
  Bytes [1; 0; 2] Uint32 = Ok (VUint32 65538) /\ Bytes [255; 254] Int64 = Ok (VInt64 (-2)) /\
  Bytes [1; 2; 3] Int32 = Ok (VBytes [1; 2; 3]).
Proof.
  split_and!.
  - apply (proj1 (Bytes_reduced_size [1; 0; 2] 32 Uint32 VUint32 ltac:(decide_done))).
    unfold unsigned_types. set_solver.
  - apply (proj2 (Bytes_reduced_size [255; 254] 64 Int64 VInt64 ltac:(decide_done))).
    unfold signed_types. set_solver.
  - apply (proj2 (Bytes_reduced_size [1; 2; 3] 32 Int32 VInt32 ltac:(decide_done))).
    unfold signed_types. set_solver.
Defined.
