(* ===== verification/Sets.v ===== *)
(** * Sets of records

    What the decoders of NetFlow 9 and IPFIX share: the loop that parses records until a
    buffer is (nearly) used up, and the steps that update a message and a session and may fail
    half way. *)
From S2P Require Import Prelude GoIO Read.

(** [for more(buffer) { if err := m(buffer); err != nil {...}; append }].  With [eof_ends], an
    [io.EOF] of the body ends the loop normally and drops the unfinished record. *)
Fixpoint records_while {A} (fuel : nat) (more : Buffer -> bool) (eof_ends : bool)
    (m : M Buffer A) (b : Buffer) : outcome (list A) :=
  if more b then
    match fuel with
    | O => OutOfFuel
    | S fuel' =>
        match m b with
        | Ok (x, b') => xs ← records_while fuel' more eof_ends m b'; Ok (x :: xs)
        | Err e => if eof_ends && bool_decide (e = EOF) then Ok [] else Err e
        | Panic why => Panic why
        | OutOfFuel => OutOfFuel
        end
    end
  else Ok [].

(** [buffer.Len() > n]. *)
Definition longer (n : nat) (b : Buffer) : bool := (n <? length b)%nat.

(** [buffer.Next(n)]. *)
Definition Next (n : nat) : M Buffer bytes := fun b => Ok (take n b, drop n b).

(** [if err := ...; err != nil { return err }] in code that updates [st]. *)
Definition stepping {A St} (st : St) (o : outcome A) (k : A -> St) : St * outcome unit :=
  match o with
  | Ok a => (k a, Ok tt)
  | Err e => (st, Err e)
  | Panic why => (st, Panic why)
  | OutOfFuel => (st, OutOfFuel)
  end.

(** An outcome a decoder may show on any input. *)
Definition returns {A} (o : outcome A) : Prop :=
  match o with Ok _ | Err _ => True | Panic _ | OutOfFuel => False end.

Lemma returns_bind {A B} (o : outcome A) (f : A -> outcome B) :
  returns o -> (forall a, o = Ok a -> returns (f a)) -> returns (o ≫= f).
Proof. destruct o; simpl; auto. Qed.

Lemma returns_mbind {R A B} (m : M R A) (f : A -> M R B) r :
  returns (m r) -> (forall a r', m r = Ok (a, r') -> returns (f a r')) -> returns ((m ≫= f) r).
Proof. unfold mbind, M_bind. destruct (m r) as [[a r']| | |]; simpl; auto. Qed.

Lemma stepping_returns {A St} (st : St) (o : outcome A) k :
  returns o -> returns (stepping st o k).2.
Proof. by destruct o. Qed.

Section Loop.
  Context {A : Type} (more : Buffer -> bool) (eof_ends : bool) (m : M Buffer A).

(** Every iteration takes something: the loop ends. *)
Lemma records_while_ends fuel b :
  (forall b, more b = true ->
     match m b with
     | Ok (_, b') => (length b' < length b)%nat
     | Err _ => True
     | Panic _ | OutOfFuel => False
     end) ->
  more [] = false -> (length b <= fuel)%nat -> returns (records_while fuel more eof_ends m b).
Proof using Type.
  intros Hm Hnil. revert b; induction fuel as [|fuel IH]; intros b Hf; simpl.
  { destruct b; [by rewrite Hnil|simpl in Hf; lia]. }
  destruct (more b) eqn:Hb; [|done]. specialize (Hm b Hb).
  destruct (m b) as [[x b']| | |]; [|by destruct (_ && _)|done..].
  apply returns_bind; [apply IH; lia|done].
Qed.

(** No iteration takes anything: the loop never ends. *)
Lemma records_while_stuck fuel b x :
  more b = true -> m b = Ok (x, b) -> records_while fuel more eof_ends m b = OutOfFuel.
Proof using Type.
  intros Hb Hm. induction fuel as [|fuel IH]; simpl; rewrite Hb; [done|]. by rewrite Hm, IH.
Qed.

(** Records one after the other, and what is read after them. *)
Lemma records_while_prefix {B} fuel (ys : list B) (val : B -> A) (wire : B -> bytes) rest :
  Forall (fun y => (forall b, m (wire y ++ b) = Ok (val y, b)) /\
                   forall b, more (wire y ++ b) = true) ys ->
  (length ys <= fuel)%nat ->
  records_while fuel more eof_ends m (concat (wire <$> ys) ++ rest) =
    (xs ← records_while (fuel - length ys) more eof_ends m rest; Ok ((val <$> ys) ++ xs)).
Proof using Type.
  intros Hys. revert fuel. induction Hys as [|y ys [Hm Hmore] Hys IH]; intros fuel Hf.
  - simpl. rewrite Nat.sub_0_r. by destruct (records_while fuel more eof_ends m rest).
  - destruct fuel; simpl in *; [lia|].
    rewrite <- app_assoc, Hmore, Hm, IH by lia.
    by destruct (records_while (fuel - length ys) more eof_ends m rest).
Qed.

Lemma records_while_all {B} fuel (ys : list B) (val : B -> A) (wire : B -> bytes) rest :
  Forall (fun y => (forall b, m (wire y ++ b) = Ok (val y, b)) /\
                   forall b, more (wire y ++ b) = true) ys ->
  more rest = false -> (length ys <= fuel)%nat ->
  records_while fuel more eof_ends m (concat (wire <$> ys) ++ rest) = Ok (val <$> ys).
Proof using Type.
  intros Hys Hrest Hf. rewrite (records_while_prefix _ _ val) by done.
  assert (forall k, records_while k more eof_ends m rest = Ok []) as ->
    by (intros [|k]; simpl; by rewrite Hrest).
  cbn [mbind outcome_bind]. by rewrite app_nil_r.
Qed.

(** One record that leaves too little for another. *)
Lemma records_while_one fuel b x b' :
  more b = true -> m b = Ok (x, b') -> more b' = false -> (0 < fuel)%nat ->
  records_while fuel more eof_ends m b = Ok [x].
Proof using Type.
  intros Hb Hm Hb' Hf. destruct fuel; simpl; [lia|]. rewrite Hb, Hm.
  destruct fuel; simpl; by rewrite Hb'.
Qed.
End Loop.

Lemma longer_true n b : (n < length b)%nat -> longer n b = true.
Proof. unfold longer. by destruct (Nat.ltb_spec n (length b)); [|lia]. Qed.

Lemma longer_false n b : (length b <= n)%nat -> longer n b = false.
Proof. unfold longer. by destruct (Nat.ltb_spec n (length b)); [lia|]. Qed.

Lemma records_while_short {A} fuel n eof_ends (m : M Buffer A) b :
  (length b <= n)%nat -> records_while fuel (longer n) eof_ends m b = Ok [].
Proof. intros Hl. destruct fuel; simpl; by rewrite longer_false. Qed.

(** Decoders that never panic or hang, and how much they take. *)
Definition Takes {A} (least : nat) (m : M Buffer A) : Prop :=
  forall b, match m b with
            | Ok (_, b') => (length b' + least <= length b)%nat
            | Err _ => True
            | Panic _ | OutOfFuel => False
            end.

Lemma Takes_weaken {A} k k' (m : M Buffer A) : Takes k m -> (k' <= k)%nat -> Takes k' m.
Proof. intros Hm Hk b. specialize (Hm b). destruct (m b) as [[? ?]| | |]; [lia|done..]. Qed.

Lemma Takes_ret {A} (x : A) : Takes 0 (mret x).
Proof. intros b. simpl. lia. Qed.

Lemma Takes_fail {A} k e : Takes (A := A) k (fail e).
Proof. intros b. done. Qed.

Lemma Takes_bind {A B} k1 k2 (m : M Buffer A) (f : A -> M Buffer B) :
  Takes k1 m -> (forall x, Takes k2 (f x)) -> Takes (k1 + k2) (m ≫= f).
Proof.
  intros Hm Hf b. unfold mbind, M_bind. specialize (Hm b).
  destruct (m b) as [[x b1]| | |]; [|done..]. specialize (Hf x b1).
  destruct (f x b1) as [[y b2]| | |]; [lia|done..].
Qed.

Lemma Takes_Strict {A} n (m : M Buffer A) : Strict n m -> Takes n m.
Proof.
  intros Hm b. specialize (Hm b). destruct (m b) as [[x b']| | |]; [|done..].
  destruct Hm as [-> ?]. rewrite length_drop. lia.
Qed.

Lemma Takes_Read_make n : Takes 0 (Read_make n).
Proof.
  intros b. pose proof (Fixed_Read_make n b) as Hf.
  destruct (Read_make n b) as [[x b']| | |]; [|done..]. subst. rewrite length_drop. lia.
Qed.

Lemma returns_from {A} (m : M Buffer A) b : returns (m b) -> returns (from m b).
Proof. unfold from, mbind. destruct (m b) as [[? ?]| | |]; done. Qed.

Lemma Takes_returns {A} k (m : M Buffer A) b : Takes k m -> returns (m b).
Proof. intros Hm. specialize (Hm b). by destruct (m b) as [[? ?]| | |]. Qed.

Lemma Takes_lift {A} (o : outcome A) : returns o -> Takes 0 (lift o).
Proof. intros Ho b. unfold lift. destruct o; simpl in *; [lia|done..]. Qed.

Lemma Takes_ReadFrom : Takes 0 ReadFrom.
Proof. intros b. rewrite ReadFrom_Buffer. simpl. lia. Qed.

(** Follow a decoder, summing what it takes. *)
Lemma Takes_bind_sum {A B} k k1 k2 (m : M Buffer A) (f : A -> M Buffer B) :
  Takes k1 m -> (forall x, Takes k2 (f x)) -> k = (k1 + k2)%nat -> Takes k (m ≫= f).
Proof. intros Hm Hf ->. by apply Takes_bind. Qed.

Lemma records_while_Takes {A} k (m : M Buffer A) n eof_ends fuel b :
  Takes k m -> (0 < k)%nat -> (length b <= fuel)%nat ->
  returns (records_while fuel (longer n) eof_ends m b).
Proof.
  intros Hm Hk Hf. apply records_while_ends; [|by apply longer_false; simpl; lia|done].
  intros b' _. specialize (Hm b'). destruct (m b') as [[x b2]| | |]; [lia|done..].
Qed.

Create HintDb takes discriminated.
Lemma Takes_Uint16 : Takes 2 Uint16. Proof. apply Takes_Strict, Strict_Uint16. Qed.
#[export] Hint Resolve Takes_Uint16 Takes_ret Takes_fail Takes_Read_make Takes_ReadFrom : takes.

Lemma Takes_repeatM {A} n k (m : M Buffer A) : Takes k m -> Takes (n * k) (repeatM n m).
Proof.
  intros Hm. induction n as [|n IH]; simpl; [apply Takes_ret|].
  apply Takes_bind; [done|]. intros x. rewrite <- (Nat.add_0_r (n * k)).
  apply Takes_bind; [done|]. intros xs. apply Takes_ret.
Qed.

Lemma Takes_mapM {A B} (k : B -> nat) (m : B -> M Buffer A) l :
  Forall (fun x => Takes (k x) (m x)) l -> Takes (sum_list_with k l) (mapM m l).
Proof.
  induction 1 as [|x l Hx Hl IH]; simpl; [apply Takes_ret|].
  apply Takes_bind; [done|]. intros y. rewrite <- (Nat.add_0_r (sum_list_with k l)).
  apply Takes_bind; [done|]. intros ys. apply Takes_ret.
Qed.

Ltac takes :=
  repeat first
    [ solve [eauto with takes]
    | eapply Takes_bind_sum; [solve [eauto with takes]|intros ?|reflexivity] ].

(** Reading a run of fields of given sizes. *)
Lemma Parses_mapM {A B} (m : B -> M Buffer A) xs ys (wire : A -> bytes) :
  Forall2 (fun x y => Parses (m x) y (wire y)) xs ys ->
  Parses (mapM m xs) ys (concat (wire <$> ys)).
Proof.
  induction 1 as [|x y xs ys Hx Hxs IH]; simpl; [apply Parses_ret|].
  eapply Parses_bind; [done|]. eapply Parses_bind_ret; [done|]. apply Parses_ret.
Qed.
