(* ===== verification/NetFlow9.v ===== *)
(** * NetFlow version 9 (src/pkg/util/netflow/netflow9)

    Packets of template, options template and data flow sets; the templates go to the session
    and give the later data sets their layout.  A data set whose template has size zero makes
    the decoder loop, so the data loops take fuel; everything else is bounded by its input. *)
From S2P Require Import Prelude GoIO Session Translate InformationElements Read Sets.

Definition Version : Z := 9.

Record PacketHeader := mkPacketHeader {
  Version' : Z;
  Count : Z;
  SysUpTime : Z;
  UnixSecs : Z;
  SequenceNumber : Z;
  SourceID : Z
}.

Record FlowSetHeader := mkFlowSetHeader { ID : Z; Length : Z }.

Record FieldSpecifier := mkFieldSpecifier { fs_Type : Z; fs_Length : Z }.

Record TemplateRecord := mkTemplateRecord {
  tr_TemplateID : Z;
  tr_FieldCount : Z;
  tr_Fields : list FieldSpecifier
}.

Record OptionsTemplateRecord := mkOptionsTemplateRecord {
  otr_TemplateID : Z;
  otr_ScopeFieldCount : Z;
  otr_ScopeFields : list FieldSpecifier;
  otr_FieldCount : Z;
  otr_Fields : list FieldSpecifier
}.

Record TemplateFlowSet := mkTemplateFlowSet {
  tfs_Header : FlowSetHeader;
  tfs_Records : list TemplateRecord
}.

Record OptionsTemplateFlowSet := mkOptionsTemplateFlowSet {
  ots_Header : FlowSetHeader;
  ots_Records : list OptionsTemplateRecord
}.

(** [Value] is nil until an element has been found for the field. *)
Record TranslatedField := mkTranslatedField {
  tf_Name : string;
  tf_Type : Z;
  tf_Value : option Value
}.

Record Field := mkField {
  f_Type : Z;
  f_Length : Z;
  f_Translated : option TranslatedField;
  f_Bytes : bytes
}.

Record DataRecord := mkDataRecord { dr_TemplateID : Z; dr_Fields : list Field }.

Record OptionsDataRecord := mkOptionsDataRecord {
  odr_TemplateID : Z;
  odr_ScopeFields : list Field;
  odr_Fields : list Field
}.

Record DataFlowSet := mkDataFlowSet {
  dfs_Header : FlowSetHeader;
  dfs_Records : list DataRecord
}.

Record OptionsDataFlowSet := mkOptionsDataFlowSet {
  ods_Header : FlowSetHeader;
  ods_Records : list OptionsDataRecord
}.

Record Packet := mkPacket {
  Header : PacketHeader;
  TemplateFlowSets : list TemplateFlowSet;
  OptionsTemplateFlowSets : list OptionsTemplateFlowSet;
  DataFlowSets : list DataFlowSet;
  OptionsDataFlowSets : list OptionsDataFlowSet
}.

(** [append] to one of the packet's slices. *)
Definition add_TemplateFlowSet (p : Packet) (x : TemplateFlowSet) : Packet :=
  mkPacket (Header p) (TemplateFlowSets p ++ [x]) (OptionsTemplateFlowSets p) (DataFlowSets p)
    (OptionsDataFlowSets p).
Definition add_OptionsTemplateFlowSet (p : Packet) (x : OptionsTemplateFlowSet) : Packet :=
  mkPacket (Header p) (TemplateFlowSets p) (OptionsTemplateFlowSets p ++ [x]) (DataFlowSets p)
    (OptionsDataFlowSets p).
Definition add_DataFlowSet (p : Packet) (x : DataFlowSet) : Packet :=
  mkPacket (Header p) (TemplateFlowSets p) (OptionsTemplateFlowSets p) (DataFlowSets p ++ [x])
    (OptionsDataFlowSets p).
Definition add_OptionsDataFlowSet (p : Packet) (x : OptionsDataFlowSet) : Packet :=
  mkPacket (Header p) (TemplateFlowSets p) (OptionsTemplateFlowSets p) (DataFlowSets p)
    (OptionsDataFlowSets p ++ [x]).

(** ** What a session stores *)

(** [switch template := tm.(type)]. *)
Inductive template_type :=
| IsTemplate (tr : TemplateRecord)
| IsOptionsTemplate (otr : OptionsTemplateRecord)
| IsOther.

(** The session is shared with the other decoder: its templates contain this package's. *)
Class Templates (T : Type) `{Template T} := {
  of_template : TemplateRecord -> T;
  of_options : OptionsTemplateRecord -> T;
  type_switch : T -> template_type;
  type_switch_template tr : type_switch (of_template tr) = IsTemplate tr;
  type_switch_options otr : type_switch (of_options otr) = IsOptionsTemplate otr;
  ID_template tr : template_ID (of_template tr) = tr_TemplateID tr;
  ID_options otr : template_ID (of_options otr) = otr_TemplateID otr
}.

(** ** Headers and templates *)

Section Reader.
  Context {R : Type} `{IoReader R}.

Definition PacketHeader_Unmarshal : M R PacketHeader :=
  version ← wrapf "netflow9 header truncated while reading version field: %v" Uint16;
  count ← wrapf "netflow9 header truncated while reading count field: %v" Uint16;
  sysUpTime ← wrapf "netflow9 header truncated while reading sysUpTime field: %v" Uint32;
  unixSecs ← wrapf "netflow9 header truncated while reading unix-secs field: %v" Uint32;
  sequenceNumber ← wrapf "netflow9 header truncated while reading sequence-number field: %v"
                     Uint32;
  sourceID ← wrapf "netflow9 header truncated while reading source-id field: %v" Uint32;
  mret (mkPacketHeader version count sysUpTime unixSecs sequenceNumber sourceID).
End Reader.

Definition FlowSetHeader_Unmarshal : M Buffer FlowSetHeader :=
  id ← Uint16;
  length ← Uint16;
  mret (mkFlowSetHeader id length).

Definition FieldSpecifier_Unmarshal : M Buffer FieldSpecifier :=
  type ← Uint16;
  length ← Uint16;
  mret (mkFieldSpecifier type length).

(** [fs.Unmarshal] on a slice of [n] specifiers. *)
Definition FieldSpecifiers_Unmarshal (n : Z) : M Buffer (list FieldSpecifier) :=
  repeatM (Z.to_nat n) FieldSpecifier_Unmarshal.

Definition TemplateRecord_Unmarshal : M Buffer TemplateRecord :=
  templateID ← Uint16;
  fieldCount ← Uint16;
  fields ← FieldSpecifiers_Unmarshal fieldCount;
  mret (mkTemplateRecord templateID fieldCount fields).

Definition TemplateRecord_Size (tr : TemplateRecord) : Z :=
  foldl (fun size f => size + fs_Length f) 0 (tr_Fields tr).

(** The field specifiers are read from a buffer that takes all of [r]: after the record
    nothing is left to read. *)
Definition OptionsTemplateRecord_Unmarshal : M Buffer OptionsTemplateRecord :=
  templateID ← Uint16;
  scopeFieldCount ← Uint16;
  fieldCount ← Uint16;
  let scopeFieldCount := scopeFieldCount / 4 in
  let fieldCount := fieldCount / 4 in
  buffer ← ReadFrom;
  lift (from (
    scopeFields ← FieldSpecifiers_Unmarshal scopeFieldCount;
    fields ← FieldSpecifiers_Unmarshal fieldCount;
    mret (mkOptionsTemplateRecord templateID scopeFieldCount scopeFields fieldCount fields))
  buffer).

(** [for buffer.Len() > 4]: a record takes at least four bytes. *)
Definition TemplateFlowSet_UnmarshalRecords (data : bytes) : outcome (list TemplateRecord) :=
  records_while (length data) (longer 4) false TemplateRecord_Unmarshal data.

Definition OptionsTemplateFlowSet_UnmarshalRecords (data : bytes) :
    outcome (list OptionsTemplateRecord) :=
  records_while (length data) (longer 4) false OptionsTemplateRecord_Unmarshal data.

(** ** Data records *)

Definition Field_Unmarshal (fs : FieldSpecifier) : M Buffer Field :=
  bs ← Read_make (Z.to_nat (fs_Length fs));
  mret (mkField (fs_Type fs) (fs_Length fs) None bs).

(** The loops over the specifiers of a record, one field each. *)
Definition Fields_Unmarshal (fss : list FieldSpecifier) : M Buffer (list Field) :=
  mapM Field_Unmarshal fss.

(** The body of the loop of [Translate.Record]. *)
Definition translate_field (t : informationElements) (field : FieldSpecifier) (f : Field) :
    outcome Field :=
  let k := (0, fs_Type field) in
  match lookup_Key t k with
  | Some element =>
      v ← Translate.Bytes (f_Bytes f) (Type' element);
      Ok (mkField (f_Type f) (f_Length f)
            (Some (mkTranslatedField (Name element) (fs_Type field) (Some v))) (f_Bytes f))
  | None =>
      Ok (mkField (f_Type f) (f_Length f)
            (Some (mkTranslatedField "" (fs_Type field) None)) (f_Bytes f))
  end.

(** [for i, field := range fss { if i >= len(fields) { break }; ... }]. *)
Fixpoint Translate_Record (t : informationElements) (fields : list Field)
    (fss : list FieldSpecifier) : outcome (list Field) :=
  match fss, fields with
  | field :: fss', f :: fields' =>
      f' ← translate_field t field f;
      fields'' ← Translate_Record t fields' fss';
      Ok (f' :: fields'')
  | _, _ => Ok fields
  end.

(** [for i := 0; buffer.Len() > 0 && i < len(fss); i++]. *)
Fixpoint DataRecord_fields (fss : list FieldSpecifier) : M Buffer (list Field) :=
  match fss with
  | [] => mret []
  | fs :: fss' => fun buffer =>
      if longer 0 buffer
      then (f ← Field_Unmarshal fs; fields ← DataRecord_fields fss'; mret (f :: fields)) buffer
      else Ok ([], buffer)
  end.

Definition DataRecord_Unmarshal (templateID : Z) (fss : list FieldSpecifier)
    (t : option informationElements) (data : bytes) : outcome DataRecord :=
  fields ← from (DataRecord_fields fss) data;
  match t with
  | Some t =>
      if (0 <? length fields)%nat
      then fields ← Translate_Record t fields fss; Ok (mkDataRecord templateID fields)
      else Ok (mkDataRecord templateID fields)
  | None => Ok (mkDataRecord templateID fields)
  end.

(** One iteration: [dr.Unmarshal(bytes.NewBuffer(buffer.Next(tr.Size())), tr.Fields, t)]. *)
Definition DataFlowSet_record (tr : TemplateRecord) (t : option informationElements) :
    M Buffer DataRecord :=
  data ← Next (Z.to_nat (TemplateRecord_Size tr));
  lift (DataRecord_Unmarshal (tr_TemplateID tr) (tr_Fields tr) t data).

(** [for buffer.Len() >= 4]. *)
Definition DataFlowSet_Unmarshal (fuel : nat) (tr : TemplateRecord)
    (t : option informationElements) (data : bytes) : outcome (list DataRecord) :=
  records_while fuel (longer 3) false (DataFlowSet_record tr t) data.

Definition OptionsDataRecord_Unmarshal (templateID : Z) (scopeFss fss : list FieldSpecifier)
    (t : option informationElements) : M Buffer OptionsDataRecord :=
  scopeFields ← Fields_Unmarshal scopeFss;
  fields ← Fields_Unmarshal fss;
  match t with
  | Some t => lift (
      scopeFields ← Translate_Record t scopeFields scopeFss;
      fields ← Translate_Record t fields fss;
      mret (mkOptionsDataRecord templateID scopeFields fields))
  | None => mret (mkOptionsDataRecord templateID scopeFields fields)
  end.

Definition OptionsDataFlowSet_Unmarshal (fuel : nat) (otr : OptionsTemplateRecord)
    (t : option informationElements) (data : bytes) : outcome (list OptionsDataRecord) :=
  records_while fuel (longer 3) true
    (OptionsDataRecord_Unmarshal (otr_TemplateID otr) (otr_ScopeFields otr) (otr_Fields otr) t)
    data.

(** ** Packets *)

Section Packets.
  Context {T : Type} `{Templates T} (fuel : nat).

Abbreviation Session := (option (basicSession T)).

(** The registration of a set's records. *)
Definition register_templates (sourceID : Z) (s : Session) (trs : list TemplateRecord) :
    Session := (fun s => AddTemplates s sourceID (of_template <$> trs)) <$> s.
Definition register_options (sourceID : Z) (s : Session) (otrs : list OptionsTemplateRecord) :
    Session := (fun s => AddTemplates s sourceID (of_options <$> otrs)) <$> s.

(** The header and the body of the [i]th set. *)
Definition read_FlowSet (i : Z) (buffer : Buffer) : outcome (FlowSetHeader * bytes * Buffer) :=
  match FlowSetHeader_Unmarshal buffer with
  | Ok (header, buffer) =>
      let readSize := Length header - 4 in
      if readSize <=? 0
      then Err (Errorf "netflow9 FlowSet %d has illegal size %d bytes" [i; readSize])
      else
        match ReadFull (Z.to_nat readSize) buffer with
        | Ok (data, buffer) => Ok (header, data, buffer)
        | _ =>
            Err (Errorf "netflow9 FlowSet %d truncated; header says %d bytes, but message contains only %d"
                   [i; readSize; Z.of_nat (length buffer)])
        end
  | _ => Err (Errorf "netflow9 FlowSetHeader %d truncated" [i])
  end.

(** The [switch header.ID]: the packet and the session are updated in place, also when a
    later set fails. *)
Definition handle_FlowSet (t : option informationElements) (i : Z) (header : FlowSetHeader)
    (data : bytes) (ps : Packet * Session) : (Packet * Session) * outcome unit :=
  let '(p, s) := ps in
  let src := SourceID (Header p) in
  if ID header =? 0 then
    stepping ps (TemplateFlowSet_UnmarshalRecords data) (fun rs =>
      (add_TemplateFlowSet p (mkTemplateFlowSet header rs), register_templates src s rs))
  else if ID header =? 1 then
    stepping ps (OptionsTemplateFlowSet_UnmarshalRecords data) (fun rs =>
      (add_OptionsTemplateFlowSet p (mkOptionsTemplateFlowSet header rs),
       register_options src s rs))
  else
    match s with
    | None => (ps, Ok tt)
    | Some templates =>
        match GetTemplate templates src (ID header) with
        | None => (ps, Ok tt)
        | Some tm =>
            match type_switch tm with
            | IsTemplate template =>
                stepping ps (DataFlowSet_Unmarshal fuel template t data) (fun rs =>
                  (add_DataFlowSet p (mkDataFlowSet header rs), s))
            | IsOptionsTemplate template =>
                stepping ps (OptionsDataFlowSet_Unmarshal fuel template t data) (fun rs =>
                  (add_OptionsDataFlowSet p (mkOptionsDataFlowSet header rs), s))
            | IsOther =>
                (ps, Err (Errorf "netflow9 DataFlowSet %d with source-id %d, template-id %d, retrieved template record of type %T; rejected"
                            [i; src; ID header]))
            end
        end
    end.

(** [for i := uint16(0); i < p.Header.Count && buffer.Len() > 0; i++], [n] sets to go. *)
Fixpoint FlowSets_loop (t : option informationElements) (n : nat) (i : Z) (buffer : Buffer)
    (ps : Packet * Session) : (Packet * Session) * outcome unit :=
  match n with
  | O => (ps, Ok tt)
  | S n' =>
      if longer 0 buffer then
        match read_FlowSet i buffer with
        | Ok (header, data, buffer') =>
            match handle_FlowSet t i header data ps with
            | (ps', Ok _) => FlowSets_loop t n' (i + 1) buffer' ps'
            | r => r
            end
        | Err e => (ps, Err e)
        | Panic why => (ps, Panic why)
        | OutOfFuel => (ps, OutOfFuel)
        end
      else (ps, Ok tt)
  end.

Section UnmarshalReader.
  Context {R : Type} `{IoReader R}.

Definition UnmarshalFlowSets (r : R) (p : Packet) (s : Session)
    (t : option informationElements) : (Packet * Session) * outcome R :=
  match ReadFrom r with
  | Ok (buffer, r') =>
      if (length buffer =? 0)%nat
      then ((p, s), Err (Errorf "netflow9 message has zero-length body" []))
      else
        let '(ps, o) := FlowSets_loop t (Z.to_nat (Count (Header p))) 0 buffer (p, s) in
        (ps, o ≫= fun _ => Ok r')
  | Err e => ((p, s), Err e)
  | Panic why => ((p, s), Panic why)
  | OutOfFuel => ((p, s), OutOfFuel)
  end.

Definition errInvalidVersion (v : Z) : error :=
  Errorf "version %d is not a valid NetFlow packet version" [v].

(** The packet returned is nil when the header is not accepted. *)
Definition Read (r : R) (s : Session) (t : option informationElements) :
    (option Packet * Session) * outcome R :=
  let t := match t, s with None, Some _ => Some builtin | _, _ => t end in
  match PacketHeader_Unmarshal r with
  | Ok (h, r') =>
      if negb (Version' h =? Version) then ((None, s), Err (errInvalidVersion (Version' h)))
      else
        let p := mkPacket h [] [] [] [] in
        if Count h =? 0 then ((Some p, s), Ok r')
        else let '((p', s'), o) := UnmarshalFlowSets r' p s t in ((Some p', s'), o)
  | Err e => ((None, s), Err e)
  | Panic why => ((None, s), Panic why)
  | OutOfFuel => ((None, s), OutOfFuel)
  end.
End UnmarshalReader.
End Packets.

(** ** Totality of the parts that are bounded by their input *)

Lemma v9_TemplateRecord_takes : Takes 4 TemplateRecord_Unmarshal.
Proof.
  unfold TemplateRecord_Unmarshal. eapply Takes_bind_sum; [by eauto with takes| |reflexivity].
  intros id. eapply Takes_bind_sum; [by eauto with takes| |reflexivity]. intros c.
  apply (Takes_weaken (Z.to_nat c * 4 + 0)); [|lia]. apply Takes_bind; [|by eauto with takes].
  apply Takes_repeatM. unfold FieldSpecifier_Unmarshal. takes.
Qed.

Lemma v9_FieldSpecifiers_takes n : Takes 0 (FieldSpecifiers_Unmarshal n).
Proof.
  apply (Takes_weaken (Z.to_nat n * 4)); [|lia]. apply Takes_repeatM.
  unfold FieldSpecifier_Unmarshal. takes.
Qed.
#[export] Hint Resolve v9_FieldSpecifiers_takes : takes.

Lemma v9_OptionsTemplateRecord_takes : Takes 6 OptionsTemplateRecord_Unmarshal.
Proof.
  unfold OptionsTemplateRecord_Unmarshal. takes.
  apply Takes_lift, returns_from, (Takes_returns 0). takes.
Qed.

Lemma v9_templates_return data : returns (TemplateFlowSet_UnmarshalRecords data).
Proof. eapply records_while_Takes; [apply v9_TemplateRecord_takes|lia|done]. Qed.

Lemma v9_options_return data : returns (OptionsTemplateFlowSet_UnmarshalRecords data).
Proof. eapply records_while_Takes; [apply v9_OptionsTemplateRecord_takes|lia|done]. Qed.

(** A field with its translation. *)
Definition translated (t : informationElements) (field : FieldSpecifier) (f : Field) : Field :=
  mkField (f_Type f) (f_Length f)
    (Some (match lookup_Key t (0, fs_Type field) with
           | Some element =>
               mkTranslatedField (Name element) (fs_Type field)
                 (match Translate.Bytes (f_Bytes f) (Type' element) with
                  | Ok v => Some v | _ => None end)
           | None => mkTranslatedField "" (fs_Type field) None
           end))
    (f_Bytes f).

Lemma v9_translate_field t field f : translate_field t field f = Ok (translated t field f).
Proof.
  unfold translate_field, translated. destruct (lookup_Key _ _) as [element|]; [|done].
  by destruct (Translate.Bytes_any (f_Bytes f) (Type' element)) as [v ->].
Qed.

Lemma v9_Translate_Record t fields fss :
  Translate_Record t fields fss =
    Ok (zip_with (translated t) fss fields ++ drop (length fss) fields).
Proof.
  revert fields; induction fss as [|fs fss IH]; intros [|f fields]; try done.
  simpl. rewrite v9_translate_field. cbn [mbind outcome_bind]. by rewrite IH.
Qed.

(** ** Templates of size zero *)

(** What a field, and a run of fields, takes on the wire. *)
Definition field_size (fs : FieldSpecifier) : nat := Z.to_nat (fs_Length fs).
Definition fields_size (fss : list FieldSpecifier) : nat := sum_list_with field_size fss.
Definition template_size (tt : template_type) : option nat :=
  match tt with
  | IsTemplate tr => Some (Z.to_nat (TemplateRecord_Size tr))
  | IsOptionsTemplate otr => Some (fields_size (otr_ScopeFields otr ++ otr_Fields otr))
  | IsOther => None
  end.

Lemma v9_DataRecord_fields_returns fss b : returns (DataRecord_fields fss b).
Proof.
  revert b; induction fss as [|fs fss IH]; intros b; simpl; [done|].
  destruct (longer 0 b); [|done]. apply returns_mbind.
  - apply (Takes_returns 0). unfold Field_Unmarshal. takes.
  - intros f b' _. apply returns_mbind; [apply IH|done].
Qed.

Lemma v9_DataRecord_returns id fss t data : returns (DataRecord_Unmarshal id fss t data).
Proof.
  unfold DataRecord_Unmarshal. apply returns_bind.
  { apply returns_from, v9_DataRecord_fields_returns. }
  intros fields _. destruct t as [t|]; [|done]. destruct (_ <? _)%nat; [|done].
  by rewrite v9_Translate_Record.
Qed.

Lemma v9_Field_takes fs b :
  match Field_Unmarshal fs b with
  | Ok (f, b') => f_Type f = fs_Type fs /\ b' = drop (field_size fs) b
  | Err _ => (length b < field_size fs)%nat
  | Panic _ | OutOfFuel => False
  end.
Proof.
  unfold Field_Unmarshal, mbind, M_bind.
  pose proof (Fixed_Read_make (field_size fs) b) as Hf. unfold field_size in *.
  by destruct (Read_make _ b) as [[x b']| | |].
Qed.

Lemma v9_mapM_Field fss b :
  match Fields_Unmarshal fss b with
  | Ok (_, b') => b' = drop (fields_size fss) b
  | Err _ => True
  | Panic _ | OutOfFuel => False
  end.
Proof.
  revert b; induction fss as [|fs fss IH]; intros b; simpl; [done|].
  unfold mbind, M_bind. pose proof (v9_Field_takes fs b) as Hf.
  destruct (Field_Unmarshal fs b) as [[f b1]| | |]; [|done..]. destruct Hf as [_ ->].
  specialize (IH (drop (field_size fs) b)).
  destruct (Fields_Unmarshal fss _) as [[fields b2]| | |]; [|done..]. subst. simpl. by rewrite drop_drop.
Qed.

Lemma v9_OptionsDataRecord_takes id sfss fss t b :
  match OptionsDataRecord_Unmarshal id sfss fss t b with
  | Ok (_, b') => b' = drop (fields_size (sfss ++ fss)) b
  | Err _ => True
  | Panic _ | OutOfFuel => False
  end.
Proof.
  unfold OptionsDataRecord_Unmarshal. unfold mbind at 1, M_bind at 1.
  pose proof (v9_mapM_Field sfss b) as Hs.
  destruct (Fields_Unmarshal sfss b) as [[sfields b1]| | |]; [|done..]. subst b1.
  unfold mbind at 1, M_bind at 1. pose proof (v9_mapM_Field fss (drop (fields_size sfss) b)) as Hf.
  destruct (Fields_Unmarshal fss _) as [[fields b2]| | |]; [|done..]. subst b2.
  unfold fields_size. rewrite sum_list_with_app, <- drop_drop.
  destruct t as [t|]; [|done]. unfold lift. by rewrite !v9_Translate_Record.
Qed.

Lemma v9_data_returns fuel tr t data :
  (0 < Z.to_nat (TemplateRecord_Size tr))%nat -> (length data <= fuel)%nat ->
  returns (DataFlowSet_Unmarshal fuel tr t data).
Proof.
  intros Hs Hf. apply records_while_ends; [|done|done]. intros b Hb.
  unfold longer in Hb. apply Nat.ltb_lt in Hb. unfold DataFlowSet_record, mbind, M_bind, Next, lift.
  pose proof (v9_DataRecord_returns (tr_TemplateID tr) (tr_Fields tr) t
                (take (Z.to_nat (TemplateRecord_Size tr)) b)) as Hr.
  destruct (DataRecord_Unmarshal _ _ _ _); simpl in *; rewrite ?length_drop; try done. lia.
Qed.

Lemma v9_options_data_returns fuel otr t data :
  (0 < fields_size (otr_ScopeFields otr ++ otr_Fields otr))%nat -> (length data <= fuel)%nat ->
  returns (OptionsDataFlowSet_Unmarshal fuel otr t data).
Proof.
  intros Hs Hf. apply records_while_ends; [|done|done]. intros b Hb.
  unfold longer in Hb. apply Nat.ltb_lt in Hb.
  pose proof (v9_OptionsDataRecord_takes (otr_TemplateID otr) (otr_ScopeFields otr)
                (otr_Fields otr) t b) as Hr.
  destruct (OptionsDataRecord_Unmarshal _ _ _ _ _) as [[x b']| | |]; try done.
  subst. rewrite length_drop. lia.
Qed.

(** A data set is never finished when the template has size zero. *)
Lemma v9_DataRecord_empty id fss t : DataRecord_Unmarshal id fss t [] = Ok (mkDataRecord id []).
Proof. unfold DataRecord_Unmarshal. destruct fss; by destruct t. Qed.

Lemma v9_data_stuck fuel tr t data :
  Z.to_nat (TemplateRecord_Size tr) = 0%nat -> (4 <= length data)%nat ->
  DataFlowSet_Unmarshal fuel tr t data = OutOfFuel.
Proof.
  intros Hs Hl. eapply records_while_stuck; [by apply longer_true; lia|].
  unfold DataFlowSet_record, mbind, M_bind, Next, lift. rewrite Hs. simpl.
  by rewrite v9_DataRecord_empty.
Qed.

Lemma v9_mapM_Field_zero fss b :
  fields_size fss = 0%nat -> (0 < length b)%nat ->
  exists fields, Fields_Unmarshal fss b = Ok (fields, b).
Proof.
  intros Hz Hb. induction fss as [|fs fss IH]; simpl; [by eexists|].
  unfold fields_size in *. simpl in Hz. unfold mbind, M_bind.
  unfold Field_Unmarshal, mbind, M_bind. fold (field_size fs).
  replace (field_size fs) with 0%nat by lia. unfold Read_make, mbind, M_bind.
  destruct b as [|x b]; [simpl in Hb; lia|]. simpl.
  destruct IH as [fields ->]; [lia|]. by eexists.
Qed.

Lemma v9_options_data_stuck fuel otr t data :
  fields_size (otr_ScopeFields otr ++ otr_Fields otr) = 0%nat -> (4 <= length data)%nat ->
  OptionsDataFlowSet_Unmarshal fuel otr t data = OutOfFuel.
Proof.
  unfold fields_size. rewrite sum_list_with_app. intros Hs Hl.
  destruct (v9_mapM_Field_zero (otr_ScopeFields otr) data) as [sfs Hsf]; [unfold fields_size; lia|lia|].
  destruct (v9_mapM_Field_zero (otr_Fields otr) data) as [fs Hf]; [unfold fields_size; lia|lia|].
  assert (exists x, OptionsDataRecord_Unmarshal (otr_TemplateID otr) (otr_ScopeFields otr)
    (otr_Fields otr) t data = Ok (x, data)) as [x Hx].
  { unfold OptionsDataRecord_Unmarshal, mbind, M_bind. rewrite Hsf, Hf.
    destruct t as [t|]; [|by eexists]. unfold lift. rewrite !v9_Translate_Record. by eexists. }
  eapply records_while_stuck; [by apply longer_true; lia|exact Hx].
Qed.

Lemma v9_data_cases fuel tr t data :
  (length data <= fuel)%nat ->
  returns (DataFlowSet_Unmarshal fuel tr t data) \/
  (template_size (IsTemplate tr) = Some 0%nat /\ DataFlowSet_Unmarshal fuel tr t data = OutOfFuel).
Proof.
  intros Hf. simpl. destruct (decide (Z.to_nat (TemplateRecord_Size tr) = 0)%nat) as [Hz|Hz].
  - destruct (decide (4 <= length data)%nat).
    + right. by rewrite Hz, v9_data_stuck.
    + left. unfold DataFlowSet_Unmarshal. by rewrite records_while_short by lia.
  - left. apply v9_data_returns; lia.
Qed.

Lemma v9_options_data_cases fuel otr t data :
  (length data <= fuel)%nat ->
  returns (OptionsDataFlowSet_Unmarshal fuel otr t data) \/
  (template_size (IsOptionsTemplate otr) = Some 0%nat /\
   OptionsDataFlowSet_Unmarshal fuel otr t data = OutOfFuel).
Proof.
  intros Hf. simpl.
  destruct (decide (fields_size (otr_ScopeFields otr ++ otr_Fields otr) = 0)%nat) as [Hz|Hz].
  - destruct (decide (4 <= length data)%nat).
    + right. by rewrite Hz, v9_options_data_stuck.
    + left. unfold OptionsDataFlowSet_Unmarshal. by rewrite records_while_short by lia.
  - left. apply v9_options_data_returns; lia.
Qed.

(** ** Packets: what can go wrong *)

Section Loops.
  Context {T : Type} `{Templates T}.

(** The session has a template of size zero for the source. *)
Definition zero_size_template (src : Z) (s : option (basicSession T)) : Prop :=
  exists ss id tm, s = Some ss /\ GetTemplate ss src id = Some tm /\
                   template_size (type_switch tm) = Some 0%nat.

(** No panic, and out of fuel only for a template of size zero. *)
Definition hangs_only_on_zero {A} (src : Z) (s : option (basicSession T)) (o : outcome A) : Prop :=
  match o with
  | Ok _ | Err _ => True
  | Panic _ => False
  | OutOfFuel => zero_size_template src s
  end.

Lemma v9_read_FlowSet i b :
  match read_FlowSet i b with
  | Ok (_, data, b') => (length data + length b' <= length b)%nat
  | Err _ => True
  | Panic _ | OutOfFuel => False
  end.
Proof using Type.
  unfold read_FlowSet. pose proof (Takes_returns 4 FlowSetHeader_Unmarshal b) as Hr.
  assert (Takes 4 FlowSetHeader_Unmarshal) as Ht by (unfold FlowSetHeader_Unmarshal; takes).
  specialize (Ht b). destruct (FlowSetHeader_Unmarshal b) as [[h b1]| | |]; [|done..].
  destruct (Length h - 4 <=? 0); [done|]. rewrite ReadFull_Buffer.
  destruct (Nat.leb_spec (Z.to_nat (Length h - 4)) (length b1)); [|done].
  rewrite length_take, length_drop. lia.
Qed.

Lemma v9_handle_header fuel t i h data (ps : Packet * option (basicSession T)) :
  Header (handle_FlowSet fuel t i h data ps).1.1 = Header ps.1.
Proof using Type.
  destruct ps as [p s]. unfold handle_FlowSet, stepping. repeat case_match; done.
Qed.

Lemma v9_handle_returns fuel t i h data (ps : Packet * option (basicSession T)) :
  (length data <= fuel)%nat ->
  hangs_only_on_zero (SourceID (Header ps.1)) (handle_FlowSet fuel t i h data ps).1.2
    (handle_FlowSet fuel t i h data ps).2.
Proof using Type.
  intros Hf. destruct ps as [p s]. unfold handle_FlowSet. cbn [fst].
  assert (forall A St (st : St) (o : outcome A) k src (s : option (basicSession T)),
    returns o -> hangs_only_on_zero src s (stepping st o k).2) as Hstep.
  { intros A St st o k src s' Ho. by destruct o. }
  destruct (ID h =? 0); [by apply Hstep, v9_templates_return|].
  destruct (ID h =? 1); [by apply Hstep, v9_options_return|].
  destruct s as [ss|]; [|done].
  destruct (GetTemplate ss (SourceID (Header p)) (ID h)) as [tm|] eqn:Eg; [|done].
  destruct (type_switch tm) as [tr|otr|] eqn:Et; [| |done].
  - destruct (v9_data_cases fuel tr t data Hf) as [Hr|[Hz ->]]; [by apply Hstep|].
    exists ss, (ID h), tm. by rewrite Et.
  - destruct (v9_options_data_cases fuel otr t data Hf) as [Hr|[Hz ->]]; [by apply Hstep|].
    exists ss, (ID h), tm. by rewrite Et.
Qed.

Lemma v9_loop_returns fuel t n i b (ps : Packet * option (basicSession T)) :
  (length b <= fuel)%nat ->
  hangs_only_on_zero (SourceID (Header ps.1)) (FlowSets_loop fuel t n i b ps).1.2
    (FlowSets_loop fuel t n i b ps).2.
Proof using Type.
  revert i b ps. induction n as [|n IH]; intros i b ps Hf; simpl; [done|].
  destruct (longer 0 b); [|done]. pose proof (v9_read_FlowSet i b) as Hr.
  destruct (read_FlowSet i b) as [[[h data] b']| | |]; [|done..].
  pose proof (v9_handle_returns fuel t i h data ps ltac:(lia)) as Hh.
  pose proof (v9_handle_header fuel t i h data ps) as Hp.
  destruct (handle_FlowSet fuel t i h data ps) as [ps' o]. cbn [fst snd] in *.
  destruct o; try done. rewrite <- Hp. apply IH. lia.
Qed.
End Loops.

(** ** The wire format, as a specification of the decoder *)

Definition header_wire (h : PacketHeader) : bytes :=
  be_split 2 (Version' h) ++ be_split 2 (Count h) ++ be_split 4 (SysUpTime h) ++
  be_split 4 (UnixSecs h) ++ be_split 4 (SequenceNumber h) ++ be_split 4 (SourceID h).

Definition FieldSpecifier_wire (fs : FieldSpecifier) : bytes :=
  be_split 2 (fs_Type fs) ++ be_split 2 (fs_Length fs).

Definition TemplateRecord_wire (tr : TemplateRecord) : bytes :=
  be_split 2 (tr_TemplateID tr) ++ be_split 2 (tr_FieldCount tr) ++
  concat (FieldSpecifier_wire <$> tr_Fields tr).

(** The counts of an options template are in bytes, four for a field. *)
Definition OptionsTemplateRecord_wire (otr : OptionsTemplateRecord) : bytes :=
  be_split 2 (otr_TemplateID otr) ++ be_split 2 (4 * otr_ScopeFieldCount otr) ++
  be_split 2 (4 * otr_FieldCount otr) ++
  concat (FieldSpecifier_wire <$> otr_ScopeFields otr) ++
  concat (FieldSpecifier_wire <$> otr_Fields otr).

(** What an exporter puts into a set: the values of a record are byte strings. *)
Inductive FlowSet :=
| Templates_set (trs : list TemplateRecord)
| Options_set (otr : OptionsTemplateRecord)
| Data_set (tr : TemplateRecord) (records : list (list bytes))
| OptionsData_set (otr : OptionsTemplateRecord) (records : list (list bytes * list bytes)).

Definition FlowSet_ID (fs : FlowSet) : Z :=
  match fs with
  | Templates_set _ => 0
  | Options_set _ => 1
  | Data_set tr _ => tr_TemplateID tr
  | OptionsData_set otr _ => otr_TemplateID otr
  end.

Definition FlowSet_body (fs : FlowSet) : bytes :=
  match fs with
  | Templates_set trs => concat (TemplateRecord_wire <$> trs)
  | Options_set otr => OptionsTemplateRecord_wire otr
  | Data_set _ records => concat (@concat Z <$> records)
  | OptionsData_set _ records => concat ((fun r => concat r.1 ++ concat r.2) <$> records)
  end.

(** The set is followed by padding, which its length counts. *)
Definition FlowSet_Length (fsp : FlowSet * bytes) : Z :=
  Z.of_nat (4 + (length (FlowSet_body fsp.1) + length fsp.2)).
Definition FlowSet_wire (fsp : FlowSet * bytes) : bytes :=
  (be_split 2 (FlowSet_ID fsp.1) ++ be_split 2 (FlowSet_Length fsp)) ++
  (FlowSet_body fsp.1 ++ fsp.2).

Definition packet_wire (h : PacketHeader) (sets : list (FlowSet * bytes)) : bytes :=
  header_wire h ++ concat (FlowSet_wire <$> sets).

(** What the decoder makes of a record's values. *)
Definition decoded_field (t : informationElements) (fs : FieldSpecifier) (v : bytes) : Field :=
  translated t fs (mkField (fs_Type fs) (fs_Length fs) None v).
Definition decoded_record (t : informationElements) (tr : TemplateRecord) (vs : list bytes) :
    DataRecord := mkDataRecord (tr_TemplateID tr) (zip_with (decoded_field t) (tr_Fields tr) vs).
Definition decoded_options (t : informationElements) (otr : OptionsTemplateRecord)
    (vs : list bytes * list bytes) : OptionsDataRecord :=
  mkOptionsDataRecord (otr_TemplateID otr)
    (zip_with (decoded_field t) (otr_ScopeFields otr) vs.1)
    (zip_with (decoded_field t) (otr_Fields otr) vs.2).

Record header_ok (h : PacketHeader) : Prop := {
  ok_version : Version' h = Version;
  ok_count : in_range 16 (Count h);
  ok_SysUpTime : in_range 32 (SysUpTime h);
  ok_UnixSecs : in_range 32 (UnixSecs h);
  ok_SequenceNumber : in_range 32 (SequenceNumber h);
  ok_SourceID : in_range 32 (SourceID h)
}.

Definition FieldSpecifier_ok (fs : FieldSpecifier) : Prop :=
  in_range 16 (fs_Type fs) /\ in_range 16 (fs_Length fs).

Record TemplateRecord_ok (tr : TemplateRecord) : Prop := {
  ok_tr_ID : 256 <= tr_TemplateID tr < 65536;
  ok_tr_count : tr_FieldCount tr = Z.of_nat (length (tr_Fields tr));
  ok_tr_range : 0 < tr_FieldCount tr < 65536;
  ok_tr_fields : Forall FieldSpecifier_ok (tr_Fields tr)
}.

Record OptionsTemplateRecord_ok (otr : OptionsTemplateRecord) : Prop := {
  ok_otr_ID : 256 <= otr_TemplateID otr < 65536;
  ok_otr_scope : otr_ScopeFieldCount otr = Z.of_nat (length (otr_ScopeFields otr));
  ok_otr_count : otr_FieldCount otr = Z.of_nat (length (otr_Fields otr));
  ok_otr_range : 4 * otr_ScopeFieldCount otr < 65536 /\ 4 * otr_FieldCount otr < 65536;
  ok_otr_scope_fields : Forall FieldSpecifier_ok (otr_ScopeFields otr);
  ok_otr_fields : Forall FieldSpecifier_ok (otr_Fields otr)
}.

(** A value fills its field; empty fields and records of less than four bytes, which the
    decoder takes for padding, are left out. *)
Definition values_ok (fss : list FieldSpecifier) (vs : list bytes) : Prop :=
  Forall2 (fun fs v => length v = field_size fs /\ (0 < length v)%nat) fss vs.

Section Spec.
  Context {T : Type} `{Templates T} (t : informationElements) (src : Z).

Definition FlowSet_ok (s : basicSession T) (fsp : FlowSet * bytes) : Prop :=
  FlowSet_Length fsp < 65536 /\ (length fsp.2 <= 3)%nat /\
  match fsp.1 with
  | Templates_set trs => trs <> [] /\ Forall TemplateRecord_ok trs
  | Options_set otr => OptionsTemplateRecord_ok otr
  | Data_set tr records =>
      256 <= tr_TemplateID tr < 65536 /\
      GetTemplate s src (tr_TemplateID tr) = Some (of_template tr) /\ records <> [] /\
      Forall (fun vs => values_ok (tr_Fields tr) vs /\ (4 <= length (concat vs))%nat) records
  | OptionsData_set otr records =>
      256 <= otr_TemplateID otr < 65536 /\
      GetTemplate s src (otr_TemplateID otr) = Some (of_options otr) /\ records <> [] /\
      Forall (fun vs => values_ok (otr_ScopeFields otr) vs.1 /\ values_ok (otr_Fields otr) vs.2 /\
                        (4 <= length (concat vs.1 ++ concat vs.2))%nat) records
  end.

(** The effect of a set: templates are bound from the next set on. *)
Definition apply_FlowSet (ps : Packet * basicSession T) (fsp : FlowSet * bytes) :
    Packet * basicSession T :=
  let '(p, s) := ps in
  let h := mkFlowSetHeader (FlowSet_ID fsp.1) (FlowSet_Length fsp) in
  match fsp.1 with
  | Templates_set trs =>
      (add_TemplateFlowSet p (mkTemplateFlowSet h trs), AddTemplates s src (of_template <$> trs))
  | Options_set otr =>
      (add_OptionsTemplateFlowSet p (mkOptionsTemplateFlowSet h [otr]),
       AddTemplate s src (of_options otr))
  | Data_set tr records =>
      (add_DataFlowSet p (mkDataFlowSet h (decoded_record t tr <$> records)), s)
  | OptionsData_set otr records =>
      (add_OptionsDataFlowSet p (mkOptionsDataFlowSet h (decoded_options t otr <$> records)), s)
  end.

Fixpoint FlowSets_ok (ps : Packet * basicSession T) (sets : list (FlowSet * bytes)) : Prop :=
  match sets with
  | [] => True
  | fsp :: sets' => FlowSet_ok ps.2 fsp /\ FlowSets_ok (apply_FlowSet ps fsp) sets'
  end.
End Spec.

Lemma v9_FieldSpecifier_parses fs :
  FieldSpecifier_ok fs -> Parses FieldSpecifier_Unmarshal fs (FieldSpecifier_wire fs).
Proof.
  intros []. unfold FieldSpecifier_Unmarshal, FieldSpecifier_wire. parse_fields.
  destruct fs; apply Parses_ret.
Qed.

Lemma v9_FieldSpecifiers_parses fss n :
  Forall FieldSpecifier_ok fss -> n = Z.of_nat (length fss) ->
  Parses (FieldSpecifiers_Unmarshal n) fss (concat (FieldSpecifier_wire <$> fss)).
Proof.
  intros Hok ->. unfold FieldSpecifiers_Unmarshal. rewrite Nat2Z.id. apply Parses_repeatM.
  eapply Forall_impl; [exact Hok|]. intros fs. apply v9_FieldSpecifier_parses.
Qed.

Lemma v9_TemplateRecord_parses tr :
  TemplateRecord_ok tr -> Parses TemplateRecord_Unmarshal tr (TemplateRecord_wire tr).
Proof.
  intros []. unfold TemplateRecord_Unmarshal, TemplateRecord_wire.
  eapply Parses_bind; [apply Parses_Uint16; unfold in_range; lia|].
  eapply Parses_bind; [apply Parses_Uint16; unfold in_range; lia|].
  eapply Parses_bind_ret; [by apply v9_FieldSpecifiers_parses|].
  destruct tr; apply Parses_ret.
Qed.

Lemma v9_OptionsTemplateRecord_reads otr rest :
  OptionsTemplateRecord_ok otr ->
  OptionsTemplateRecord_Unmarshal (OptionsTemplateRecord_wire otr ++ rest) = Ok (otr, []).
Proof.
  intros []. unfold OptionsTemplateRecord_Unmarshal, OptionsTemplateRecord_wire.
  rewrite <- !app_assoc.
  eapply run_bind; [apply Parses_Uint16; unfold in_range; lia|].
  eapply run_bind; [apply Parses_Uint16; unfold in_range; lia|].
  eapply run_bind; [apply Parses_Uint16; unfold in_range; lia|]. cbv zeta.
  rewrite !(Z.mul_comm 4), !Z.div_mul by lia.
  unfold mbind at 1, M_bind at 1. rewrite ReadFrom_Buffer. unfold lift, from.
  rewrite (run_bind _ _ (otr_ScopeFields otr) _ _ (Ok (otr, rest))); [done| |].
  - by apply v9_FieldSpecifiers_parses.
  - eapply run_bind; [by apply v9_FieldSpecifiers_parses|]. by destruct otr.
Qed.

Lemma v9_TemplateRecord_long tr b :
  TemplateRecord_ok tr -> longer 4 (TemplateRecord_wire tr ++ b) = true.
Proof.
  intros []. apply longer_true. unfold TemplateRecord_wire.
  rewrite !length_app, !length_be_split.
  destruct (tr_Fields tr) as [|f fs] eqn:E; [simpl in *; lia|].
  cbn [fmap list_fmap concat]. unfold FieldSpecifier_wire at 1.
  rewrite !length_app, !length_be_split. lia.
Qed.

Lemma v9_Field_parses fs v :
  length v = field_size fs ->
  Parses (Field_Unmarshal fs) (mkField (fs_Type fs) (fs_Length fs) None v) v.
Proof.
  intros Hl. unfold Field_Unmarshal. eapply Parses_bind_ret; [by apply Parses_Read_make|].
  apply Parses_ret.
Qed.

(** Reading the fields of a record. *)
Definition raw_fields (fss : list FieldSpecifier) (vs : list bytes) : list Field :=
  zip_with (fun fs v => mkField (fs_Type fs) (fs_Length fs) None v) fss vs.

Lemma v9_Fields_parses fss vs :
  values_ok fss vs -> Parses (Fields_Unmarshal fss) (raw_fields fss vs) (concat vs).
Proof.
  intros Hv. assert (vs = f_Bytes <$> raw_fields fss vs) as Hvs.
  { induction Hv; simpl; [done|]. by f_equal. }
  rewrite Hvs at 2. apply (Parses_mapM Field_Unmarshal fss _ f_Bytes).
  clear Hvs. induction Hv as [|fs v fss vs [Hl _] Hv IH]; simpl; constructor; [|done].
  by apply v9_Field_parses.
Qed.

Lemma v9_translated_raw t fss vs :
  zip_with (translated t) fss (raw_fields fss vs) ++ drop (length fss) (raw_fields fss vs) =
  zip_with (decoded_field t) fss vs.
Proof.
  revert vs; induction fss as [|fs fss IH]; intros [|v vs]; simpl; try done. by rewrite IH.
Qed.

Lemma v9_DataRecord_fields_ok fss vs :
  values_ok fss vs -> DataRecord_fields fss (concat vs) = Ok (raw_fields fss vs, []).
Proof.
  induction 1 as [|fs v fss vs [Hl Hpos] Hv IH]; simpl; [done|].
  rewrite longer_true by (rewrite length_app; lia).
  eapply run_bind; [by apply v9_Field_parses|]. unfold mbind, M_bind. by rewrite IH.
Qed.

Lemma raw_fields_length fss vs : values_ok fss vs -> length (raw_fields fss vs) = length fss.
Proof. intros Hv. apply Forall2_length in Hv. unfold raw_fields. rewrite length_zip_with. lia. Qed.

Lemma v9_DataRecord_ok t tr vs :
  values_ok (tr_Fields tr) vs ->
  DataRecord_Unmarshal (tr_TemplateID tr) (tr_Fields tr) (Some t) (concat vs) =
    Ok (decoded_record t tr vs).
Proof.
  intros Hv. unfold DataRecord_Unmarshal, from. rewrite (v9_DataRecord_fields_ok _ _ Hv).
  cbn [mbind outcome_bind]. unfold decoded_record.
  destruct (Nat.ltb_spec 0 (length (raw_fields (tr_Fields tr) vs))) as [|Hz].
  - rewrite v9_Translate_Record, v9_translated_raw. done.
  - rewrite raw_fields_length in Hz by done. by destruct (tr_Fields tr); [|simpl in Hz; lia].
Qed.

Lemma values_size fss vs : values_ok fss vs -> length (concat vs) = fields_size fss.
Proof.
  unfold fields_size. induction 1 as [|fs v fss vs [Hl _] Hv IH]; simpl; [done|].
  rewrite length_app. lia.
Qed.

Lemma v9_Size tr vs :
  values_ok (tr_Fields tr) vs -> Z.to_nat (TemplateRecord_Size tr) = length (concat vs).
Proof.
  unfold TemplateRecord_Size. intros Hv.
  enough (forall acc, foldl (fun size f => size + fs_Length f) acc (tr_Fields tr) =
                      acc + Z.of_nat (length (concat vs))) as -> by lia.
  induction Hv as [|fs v fss vs [Hl Hpos] Hv IH]; intros acc; simpl; [lia|].
  rewrite IH, length_app. unfold field_size in Hl. lia.
Qed.

Lemma v9_data_records t tr records pad fuel :
  Forall (fun vs => values_ok (tr_Fields tr) vs /\ (4 <= length (concat vs))%nat) records ->
  (length pad <= 3)%nat -> (length records <= fuel)%nat ->
  DataFlowSet_Unmarshal fuel tr (Some t) (concat (@concat Z <$> records) ++ pad) =
    Ok (decoded_record t tr <$> records).
Proof.
  intros Hr Hp Hf. apply records_while_all; [|by apply longer_false|done].
  eapply Forall_impl; [exact Hr|]. intros vs [Hv Hl]. split; intros b.
  - unfold DataFlowSet_record, mbind, M_bind, Next, lift. rewrite (v9_Size tr vs Hv).
    rewrite take_app_length, drop_app_length. by rewrite v9_DataRecord_ok.
  - apply longer_true. rewrite length_app. lia.
Qed.

Lemma v9_options_records t otr records pad fuel :
  Forall (fun vs => values_ok (otr_ScopeFields otr) vs.1 /\ values_ok (otr_Fields otr) vs.2 /\
                    (4 <= length (concat vs.1 ++ concat vs.2))%nat) records ->
  (length pad <= 3)%nat -> (length records <= fuel)%nat ->
  OptionsDataFlowSet_Unmarshal fuel otr (Some t)
    (concat ((fun r => concat r.1 ++ concat r.2) <$> records) ++ pad) =
    Ok (decoded_options t otr <$> records).
Proof.
  intros Hr Hp Hf. apply records_while_all; [|by apply longer_false|done].
  eapply Forall_impl; [exact Hr|]. intros vs (Hs & Hv & Hl). split; intros b.
  - unfold OptionsDataRecord_Unmarshal. rewrite <- app_assoc.
    eapply run_bind; [by apply v9_Fields_parses|]. eapply run_bind; [by apply v9_Fields_parses|].
    unfold lift. rewrite !v9_Translate_Record, !v9_translated_raw. done.
  - apply longer_true. rewrite length_app. lia.
Qed.

Lemma v9_read_FlowSet_wire i fsp rest :
  0 <= FlowSet_ID fsp.1 < 65536 -> FlowSet_Length fsp < 65536 -> FlowSet_body fsp.1 <> [] ->
  read_FlowSet i (FlowSet_wire fsp ++ rest) =
    Ok (mkFlowSetHeader (FlowSet_ID fsp.1) (FlowSet_Length fsp), FlowSet_body fsp.1 ++ fsp.2, rest).
Proof.
  intros Hid Hl Hb. unfold read_FlowSet, FlowSet_wire.
  assert (forall b, FlowSetHeader_Unmarshal
    ((be_split 2 (FlowSet_ID fsp.1) ++ be_split 2 (FlowSet_Length fsp)) ++ b) =
    Ok (mkFlowSetHeader (FlowSet_ID fsp.1) (FlowSet_Length fsp), b)) as Hh.
  { intros b. unfold FlowSetHeader_Unmarshal. rewrite <- app_assoc.
    eapply run_bind; [apply Parses_Uint16; unfold in_range; lia|].
    eapply run_bind; [apply Parses_Uint16; unfold FlowSet_Length, in_range in *; lia|]. done. }
  rewrite <- app_assoc, Hh. cbn [Length].
  assert (0 < length (FlowSet_body fsp.1))%nat by (destruct (FlowSet_body fsp.1); [done|simpl; lia]).
  destruct (Z.leb_spec (FlowSet_Length fsp - 4) 0); [unfold FlowSet_Length in *; lia|].
  rewrite ReadFull_app by (rewrite length_app; unfold FlowSet_Length; lia). done.
Qed.

Section SpecProofs.
  Context {T : Type} `{Templates T} (t : informationElements).

Lemma v9_FlowSet_nonempty src (s : basicSession T) fsp :
  FlowSet_ok src s fsp -> FlowSet_body fsp.1 <> [] /\ 0 <= FlowSet_ID fsp.1 < 65536.
Proof using Type.
  intros (_ & _ & Hok). destruct (fsp.1) as [trs|otr|tr records|otr records]; simpl in *.
  - destruct Hok as [Hne Hok]. destruct Hok as [|tr trs Htr _]; [done|]. split; [|lia].
    intros [Hw _]%app_nil. apply (f_equal length) in Hw. unfold TemplateRecord_wire in Hw.
    rewrite length_app, length_be_split in Hw. simpl in Hw. lia.
  - split; [|lia]. intros Hw. apply (f_equal length) in Hw. unfold OptionsTemplateRecord_wire in Hw.
    rewrite length_app, length_be_split in Hw. simpl in Hw. lia.
  - destruct Hok as (Hid & _ & Hne & Hok). split; [|lia].
    destruct Hok as [|vs records [_ Hl] _]; [done|]. simpl.
    intros [Hw _]%app_nil. rewrite Hw in Hl. simpl in Hl. lia.
  - destruct Hok as (Hid & _ & Hne & Hok). split; [|lia].
    destruct Hok as [|vs records (_ & _ & Hl) _]; [done|]. simpl.
    intros [Hw _]%app_nil. rewrite Hw in Hl. simpl in Hl. lia.
Qed.

Lemma v9_handle_ok fuel i (ps : Packet * basicSession T) fsp :
  FlowSet_ok (SourceID (Header ps.1)) ps.2 fsp -> (length (FlowSet_body fsp.1) <= fuel)%nat ->
  handle_FlowSet fuel (Some t) i (mkFlowSetHeader (FlowSet_ID fsp.1) (FlowSet_Length fsp))
    (FlowSet_body fsp.1 ++ fsp.2) (ps.1, Some ps.2) =
  (((apply_FlowSet t (SourceID (Header ps.1)) ps fsp).1,
    Some (apply_FlowSet t (SourceID (Header ps.1)) ps fsp).2), Ok tt).
Proof using Type.
  destruct ps as [p s]. intros (Hl & Hp & Hok) Hf. unfold handle_FlowSet, apply_FlowSet.
  cbn [fst snd ID] in *.
  destruct (fsp.1) as [trs|otr|tr records|otr records]; cbn [FlowSet_ID FlowSet_body] in *.
  - destruct Hok as [Hne Hok]. change (0 =? 0) with true. cbv iota.
    unfold TemplateFlowSet_UnmarshalRecords.
    rewrite (records_while_all (longer 4) false _ _ trs id TemplateRecord_wire).
    + by rewrite list_fmap_id.
    + eapply Forall_impl; [exact Hok|]. intros tr Htr. split; intros b.
      * by apply v9_TemplateRecord_parses.
      * by apply v9_TemplateRecord_long.
    + apply longer_false. lia.
    + rewrite length_app. etransitivity; [apply (length_concat_ge TemplateRecord_wire)|lia].
      apply Forall_forall. intros tr _. unfold TemplateRecord_wire.
      rewrite length_app, length_be_split. lia.
  - change (1 =? 0) with false. change (1 =? 1) with true. cbv iota.
    unfold OptionsTemplateFlowSet_UnmarshalRecords.
    rewrite (records_while_one (longer 4) false _ _ _ otr []); [done|..].
    + apply longer_true. rewrite length_app. unfold OptionsTemplateRecord_wire.
      rewrite !length_app, !length_be_split. lia.
    + by apply v9_OptionsTemplateRecord_reads.
    + done.
    + rewrite length_app. unfold OptionsTemplateRecord_wire. rewrite length_app, length_be_split. lia.
  - destruct Hok as (Hid & Hget & Hne & Hok).
    destruct (Z.eqb_spec (tr_TemplateID tr) 0), (Z.eqb_spec (tr_TemplateID tr) 1); [lia..|].
    rewrite Hget, type_switch_template, v9_data_records; [done|done|done|].
    etransitivity; [|exact Hf]. apply length_concat_ge.
    eapply Forall_impl; [exact Hok|]. intros vs [_ Hvl]. simpl. lia.
  - destruct Hok as (Hid & Hget & Hne & Hok).
    destruct (Z.eqb_spec (otr_TemplateID otr) 0), (Z.eqb_spec (otr_TemplateID otr) 1); [lia..|].
    rewrite Hget, type_switch_options, v9_options_records; [done|done|done|].
    etransitivity; [|exact Hf]. apply (length_concat_ge (fun r => concat r.1 ++ concat r.2)).
    eapply Forall_impl; [exact Hok|]. intros vs (_ & _ & Hvl). simpl in *. lia.
Qed.

Lemma v9_apply_header src (ps : Packet * basicSession T) fsp :
  Header (apply_FlowSet t src ps fsp).1 = Header ps.1.
Proof using Type. destruct ps as [p s]. by destruct fsp as [[] ?]. Qed.

Lemma v9_loop_ok fuel n i sets (ps : Packet * basicSession T) :
  FlowSets_ok t (SourceID (Header ps.1)) ps sets -> (length sets <= n)%nat ->
  (length (concat (FlowSet_wire <$> sets)) <= fuel)%nat ->
  FlowSets_loop fuel (Some t) n i (concat (FlowSet_wire <$> sets)) (ps.1, Some ps.2) =
  (let ps' := foldl (apply_FlowSet t (SourceID (Header ps.1))) ps sets in
   ((ps'.1, Some ps'.2), Ok tt)).
Proof using Type.
  revert n i ps. induction sets as [|fsp sets IH]; intros n i ps Hok Hn Hf.
  { by destruct n. }
  destruct n as [|n]; simpl in Hn; [lia|]. destruct Hok as [Hset Hok].
  cbn [FlowSets_loop fmap list_fmap concat foldl].
  destruct (v9_FlowSet_nonempty _ _ _ Hset) as [Hne Hid].
  pose proof Hset as (Hl & _ & _). csimpl in Hf. rewrite length_app in Hf.
  rewrite longer_true.
  2: { unfold FlowSet_wire. rewrite !length_app, length_be_split. lia. }
  rewrite v9_read_FlowSet_wire by done. cbn match.
  rewrite v9_handle_ok; [|done|unfold FlowSet_wire in Hf; rewrite !length_app in Hf; lia].
  rewrite (IH n (i + 1) (apply_FlowSet t (SourceID (Header ps.1)) ps fsp));
    [by rewrite v9_apply_header|by rewrite v9_apply_header|lia|lia].
Qed.

Lemma v9_header_parses h : header_ok h -> Parses PacketHeader_Unmarshal h (header_wire h).
Proof using Type.
  intros []. unfold PacketHeader_Unmarshal, header_wire. rewrite ok_version0.
  assert (forall s (m : M Buffer Z) x w, Parses m x w -> Parses (wrapf s m) x w) as Hw.
  { intros s m x w Hm rest. unfold wrapf. by rewrite Hm. }
  assert (in_range 16 Version) by (unfold in_range, Version; lia).
  repeat (eapply Parses_bind; [apply Hw; solve [eauto with wire]|]; cbv beta).
  eapply Parses_bind_ret; [apply Hw; solve [eauto with wire]|]. cbv beta.
  rewrite <- ok_version0. destruct h; apply Parses_ret.
Qed.

Lemma v9_Read_wire fuel h sets (s : basicSession T) :
  header_ok h -> sets <> [] -> Z.of_nat (length sets) <= Count h ->
  FlowSets_ok t (SourceID h) (mkPacket h [] [] [] [], s) sets ->
  (length (packet_wire h sets) <= fuel)%nat ->
  Read fuel (packet_wire h sets) (Some s) (Some t) =
  (let ps' := foldl (apply_FlowSet t (SourceID h)) (mkPacket h [] [] [] [], s) sets in
   ((Some ps'.1, Some ps'.2), Ok [])).
Proof using Type.
  intros Hh Hne Hc Hok Hf. unfold packet_wire in *. rewrite length_app in Hf. unfold Read.
  rewrite v9_header_parses by done.
  rewrite (ok_version _ Hh), Z.eqb_refl. cbn [negb].
  assert (0 < length sets)%nat by (destruct sets; [done|simpl; lia]).
  destruct (Z.eqb_spec (Count h) 0); [lia|]. unfold UnmarshalFlowSets.
  rewrite ReadFrom_Buffer. cbn [Header].
  assert (0 < length (concat (FlowSet_wire <$> sets)))%nat as Hlen.
  { eapply Nat.lt_le_trans; [|apply (length_concat_ge FlowSet_wire)]; [done|].
    apply Forall_forall. intros x _. unfold FlowSet_wire. rewrite !length_app, length_be_split. lia. }
  destruct (Nat.eqb_spec (length (concat (FlowSet_wire <$> sets))) 0); [lia|].
  rewrite (v9_loop_ok fuel _ 0 sets (mkPacket h [] [] [] [], s)); [done|done|lia|lia].
Qed.
End SpecProofs.

(** A session of this package's templates only. *)
#[export] Instance own_Template : Template (TemplateRecord + OptionsTemplateRecord) :=
  fun t => match t with inl tr => tr_TemplateID tr | inr otr => otr_TemplateID otr end.
#[export] Instance own_Templates : Templates (TemplateRecord + OptionsTemplateRecord).
Proof.
  refine {| of_template := inl; of_options := inr;
            type_switch t := match t with inl tr => IsTemplate tr | inr otr => IsOptionsTemplate otr end |};
    done.
Defined.

(** ** Properties *)

(** C1: NetFlow 9 decoding.  A packet in the format of RFC 3954 - template, options template,
    data and options data sets in any order, each data set described by the template that its
    source last registered, with up to three bytes of padding - decodes to exactly the sets it
    was made of, every field with its bytes and its translation by the built-in dictionary, in
    one pass over the datagram; and the session afterwards is the one the templates of the
    packet were added to, each from the set after its own on. *)
Theorem netflow9_decodes {T} `{Templates T} fuel h sets (s : basicSession T) :
  header_ok h -> sets <> [] -> Z.of_nat (length sets) <= Count h ->
  FlowSets_ok builtin (SourceID h) (mkPacket h [] [] [] [], s) sets ->
  (length (packet_wire h sets) <= fuel)%nat ->
  Read fuel (packet_wire h sets) (Some s) None =
  (let ps' := foldl (apply_FlowSet builtin (SourceID h)) (mkPacket h [] [] [] [], s) sets in
   ((Some ps'.1, Some ps'.2), Ok [])).
Proof. apply (v9_Read_wire builtin). Qed.

Definition sample_header : PacketHeader := mkPacketHeader 9 2 1000 1700000000 7 42.
Definition sample_template : TemplateRecord :=
  mkTemplateRecord 256 3 [mkFieldSpecifier 8 4; mkFieldSpecifier 7 2; mkFieldSpecifier 1 3].
Definition sample_sets : list (FlowSet * bytes) :=
  [(Templates_set [sample_template], []);
   (Data_set sample_template [[[10; 0; 0; 1]; [1; 187]; [1; 0; 2]]], [0; 0; 0])].

Lemma netflow9_decodes_witness :
  Read 100 (packet_wire sample_header sample_sets)
    (Some (New : basicSession (TemplateRecord + OptionsTemplateRecord))) None =
  ((Some (mkPacket sample_header
            [mkTemplateFlowSet (mkFlowSetHeader 0 20) [sample_template]] []
            [mkDataFlowSet (mkFlowSetHeader 256 16)
               [mkDataRecord 256
                  [mkField 8 4 (Some (mkTranslatedField "sourceIPv4Address" 8
                                        (Some (VIP [10; 0; 0; 1])))) [10; 0; 0; 1];
                   mkField 7 2 (Some (mkTranslatedField "sourceTransportPort" 7
                                        (Some (VUint16 443)))) [1; 187];
                   mkField 1 3 (Some (mkTranslatedField "octetDeltaCount" 1
                                        (Some (VUint64 65538)))) [1; 0; 2]]]] []),
    Some {[ (42, 256) := inl sample_template ]}), Ok []).
Proof.
  rewrite (netflow9_decodes 100 sample_header sample_sets New).
  - vm_compute. reflexivity.
  - constructor; unfold in_range; simpl; done.
  - done.
  - done.
  - repeat first [split|constructor]; done.
  - vm_compute. lia.
Defined.

(** A template of size zero - no fields, or fields that are all declared with length
    zero, which the template parser accepts - keeps the decoder in its loop forever: the first
    data set that names the template, with at least four bytes of body, exhausts every amount
    of fuel.  The session and the packet are left as they were before that set. *)
Lemma netflow9_zero_size_template_hangs {T} `{Templates T} fuel t i id data p
    (s : basicSession T) tm :
  2 <= id -> GetTemplate s (SourceID (Header p)) id = Some tm ->
  template_size (type_switch tm) = Some 0%nat -> (4 <= length data)%nat ->
  handle_FlowSet fuel t i (mkFlowSetHeader id (Z.of_nat (4 + length data))) data (p, Some s) =
    ((p, Some s), OutOfFuel).
Proof.
  intros Hid Hget Hz Hl. unfold handle_FlowSet. cbn [ID].
  destruct (Z.eqb_spec id 0), (Z.eqb_spec id 1); [lia..|]. rewrite Hget.
  destruct (type_switch tm) as [tr|otr|]; cbn [template_size] in Hz; [| |done].
  - rewrite v9_data_stuck by (congruence || lia). done.
  - rewrite v9_options_data_stuck by (congruence || lia). done.
Qed.

Lemma netflow9_zero_size_template_hangs_witness :
  let tr := mkTemplateRecord 300 1 [mkFieldSpecifier 1 0] in
  handle_FlowSet 1000 None 0 (mkFlowSetHeader 300 8) [1; 2; 3; 4]
    (mkPacket sample_header [] [] [] [],
     Some (AddTemplate (New : basicSession (TemplateRecord + OptionsTemplateRecord)) 42 (inl tr))) =
  ((mkPacket sample_header [] [] [] [],
    Some (AddTemplate (New : basicSession (TemplateRecord + OptionsTemplateRecord)) 42 (inl tr))),
   OutOfFuel).
Proof.
  apply (netflow9_zero_size_template_hangs 1000 None 0 300 [1; 2; 3; 4] _ _
           (inl (mkTemplateRecord 300 1 [mkFieldSpecifier 1 0]))); (done || (simpl; lia)).
Defined.

(** An options template set yields its first record only.  The record's parser moves
    everything that is left of the set into a buffer of its own, so the templates that follow
    the first in the same set, which RFC 3954 allows, are lost without an error. *)
Lemma netflow9_options_set_keeps_first otr rest :
  OptionsTemplateRecord_ok otr ->
  OptionsTemplateFlowSet_UnmarshalRecords (OptionsTemplateRecord_wire otr ++ rest) = Ok [otr].
Proof.
  intros Hok. unfold OptionsTemplateFlowSet_UnmarshalRecords.
  eapply records_while_one; [|by apply v9_OptionsTemplateRecord_reads|done|].
  - apply longer_true. unfold OptionsTemplateRecord_wire.
    rewrite !length_app, !length_be_split. lia.
  - unfold OptionsTemplateRecord_wire. rewrite !length_app, !length_be_split. lia.
Qed.

Definition sample_options (id : Z) : OptionsTemplateRecord :=
  mkOptionsTemplateRecord id 1 [mkFieldSpecifier 1 4] 1 [mkFieldSpecifier 34 4].

Lemma netflow9_options_set_keeps_first_witness :
  OptionsTemplateFlowSet_UnmarshalRecords
    (OptionsTemplateRecord_wire (sample_options 257) ++
     OptionsTemplateRecord_wire (sample_options 258)) = Ok [sample_options 257].
Proof.
  apply netflow9_options_set_keeps_first. constructor; simpl; try lia;
    repeat constructor; unfold in_range; simpl; lia.
Defined.
