(* ===== verification/IPFIX.v ===== *)
(** * IPFIX (src/pkg/util/netflow/ipfix)

    Messages of template, options template and data sets.  The layout follows NetFlow9.v;
    the differences are the length word of the message, the enterprise bit of the field
    specifiers, variable-length fields, and data sets that are read to the last byte. *)
From S2P Require Import Prelude GoIO Session Translate InformationElements Read Sets.

Definition Version : Z := 10.
Definition EnterpriseBit : Z := 0x8000.
Definition VariableLength_word : Z := 0xffff.

Record MessageHeader := mkMessageHeader {
  Version' : Z;
  mh_Length : Z;
  ExportTime : Z;
  SequenceNumber : Z;
  ObservationDomainID : Z
}.

Record SetHeader := mkSetHeader { ID : Z; Length : Z }.

Record FieldSpecifier := mkFieldSpecifier {
  InformationElementID : Z;
  fs_Length : Z;
  EnterpriseNumber : Z;
  EnterpriseBitSet : bool
}.

Record TemplateRecord := mkTemplateRecord {
  tr_TemplateID : Z;
  tr_FieldCount : Z;
  tr_Fields : list FieldSpecifier
}.

Record OptionsTemplateRecord := mkOptionsTemplateRecord {
  otr_TemplateID : Z;
  otr_FieldCount : Z;
  otr_Fields : list FieldSpecifier;
  otr_ScopeFieldCount : Z;
  otr_ScopeFields : list FieldSpecifier
}.

Record TemplateSet := mkTemplateSet { ts_Header : SetHeader; ts_Records : list TemplateRecord }.

Record OptionsTemplateSet := mkOptionsTemplateSet {
  ots_Header : SetHeader;
  ots_Records : list OptionsTemplateRecord
}.

Record TranslatedField := mkTranslatedField {
  tf_Name : string;
  tf_InformationElementID : Z;
  tf_EnterpriseNumber : Z;
  tf_Value : option Value
}.

Record Field := mkField { f_Bytes : bytes; f_Translated : option TranslatedField }.

Record DataRecord := mkDataRecord { dr_TemplateID : Z; dr_Fields : list Field }.

Record OptionsDataRecord := mkOptionsDataRecord {
  odr_TemplateID : Z;
  odr_ScopeFields : list Field;
  odr_Fields : list Field
}.

Record DataSet := mkDataSet { ds_Header : SetHeader; ds_Records : list DataRecord }.

Record OptionsDataSet := mkOptionsDataSet {
  ods_Header : SetHeader;
  ods_Records : list OptionsDataRecord
}.

Record Message := mkMessage {
  Header : MessageHeader;
  TemplateSets : list TemplateSet;
  OptionsTemplateSets : list OptionsTemplateSet;
  DataSets : list DataSet;
  OptionsDataSets : list OptionsDataSet
}.

Definition add_TemplateSet (m : Message) (x : TemplateSet) : Message :=
  mkMessage (Header m) (TemplateSets m ++ [x]) (OptionsTemplateSets m) (DataSets m)
    (OptionsDataSets m).
Definition add_OptionsTemplateSet (m : Message) (x : OptionsTemplateSet) : Message :=
  mkMessage (Header m) (TemplateSets m) (OptionsTemplateSets m ++ [x]) (DataSets m)
    (OptionsDataSets m).
Definition add_DataSet (m : Message) (x : DataSet) : Message :=
  mkMessage (Header m) (TemplateSets m) (OptionsTemplateSets m) (DataSets m ++ [x])
    (OptionsDataSets m).
Definition add_OptionsDataSet (m : Message) (x : OptionsDataSet) : Message :=
  mkMessage (Header m) (TemplateSets m) (OptionsTemplateSets m) (DataSets m)
    (OptionsDataSets m ++ [x]).

(** ** What a session stores *)

Inductive template_type :=
| IsTemplate (tr : TemplateRecord)
| IsOptionsTemplate (otr : OptionsTemplateRecord)
| IsOther.

Class Templates (T : Type) `{Template T} := {
  of_template : TemplateRecord -> T;
  of_options : OptionsTemplateRecord -> T;
  type_switch : T -> template_type;
  type_switch_template tr : type_switch (of_template tr) = IsTemplate tr;
  type_switch_options otr : type_switch (of_options otr) = IsOptionsTemplate otr;
  ID_template tr : template_ID (of_template tr) = tr_TemplateID tr;
  ID_options otr : template_ID (of_options otr) = otr_TemplateID otr
}.

(** ** Headers and templates *)

Section Reader.
  Context {R : Type} `{IoReader R}.

Definition MessageHeader_Unmarshal : M R MessageHeader :=
  version ← wrapf "ipfix header truncated while reading version field: %v" Uint16;
  length ← wrapf "ipfix header truncated while reading length field: %v" Uint16;
  exportTime ← wrapf "ipfix header truncated while reading export-time field: %v" Uint32;
  sequenceNumber ← wrapf "ipfix header truncated while reading sequence-number field: %v" Uint32;
  observationDomainID ←
    wrapf "ipfix header truncated while reading observation-domain-id field: %v" Uint32;
  mret (mkMessageHeader version length exportTime sequenceNumber observationDomainID).
End Reader.

Definition SetHeader_Unmarshal : M Buffer SetHeader :=
  id ← Uint16;
  length ← Uint16;
  mret (mkSetHeader id length).

Definition FieldSpecifier_Unmarshal : M Buffer FieldSpecifier :=
  id ← Uint16;
  length ← Uint16;
  if 0 <? Z.land id EnterpriseBit
  then en ← Uint32; mret (mkFieldSpecifier (Z.lxor id EnterpriseBit) length en true)
  else mret (mkFieldSpecifier id length 0 false).

(** As written, [IsVariableLength] looks at the element id. *)
Definition FieldSpecifier_IsVariableLength (fs : FieldSpecifier) : bool :=
  InformationElementID fs =? VariableLength_word.

Definition FieldSpecifier_Len (fs : FieldSpecifier) : Z := if EnterpriseBitSet fs then 8 else 4.
Definition FieldSpecifiers_Len (fss : list FieldSpecifier) : Z :=
  foldl (fun l f => l + FieldSpecifier_Len f) 0 fss.
Definition TemplateRecord_Len (tr : TemplateRecord) : Z := 4 + FieldSpecifiers_Len (tr_Fields tr).

Definition FieldSpecifiers_Unmarshal (n : Z) : M Buffer (list FieldSpecifier) :=
  repeatM (Z.to_nat n) FieldSpecifier_Unmarshal.

Definition TemplateRecord_Unmarshal : M Buffer TemplateRecord :=
  templateID ← Uint16;
  fieldCount ← Uint16;
  fields ← FieldSpecifiers_Unmarshal fieldCount;
  mret (mkTemplateRecord templateID fieldCount fields).

(** The field specifiers are read from a buffer that takes all of [r]. *)
Definition OptionsTemplateRecord_Unmarshal : M Buffer OptionsTemplateRecord :=
  templateID ← Uint16;
  fieldCount ← Uint16;
  scopeFieldCount ← Uint16;
  if fieldCount <? scopeFieldCount
  then fail (Errorf "protocol error: scope field count %d higher than field count %d"
               [scopeFieldCount; fieldCount])
  else
    buffer ← ReadFrom;
    lift (from (
      scopeFields ← FieldSpecifiers_Unmarshal scopeFieldCount;
      fields ← FieldSpecifiers_Unmarshal (wrap 16 (fieldCount - scopeFieldCount));
      mret (mkOptionsTemplateRecord templateID fieldCount fields scopeFieldCount scopeFields))
    buffer).

Definition TemplateSet_UnmarshalRecords (data : bytes) : outcome (list TemplateRecord) :=
  records_while (length data) (longer 4) false TemplateRecord_Unmarshal data.

Definition OptionsTemplateSet_UnmarshalRecords (data : bytes) :
    outcome (list OptionsTemplateRecord) :=
  records_while (length data) (longer 4) false OptionsTemplateRecord_Unmarshal data.

(** ** Data records *)

Definition Field_Unmarshal (fs : FieldSpecifier) : M Buffer Field :=
  bs ← (if fs_Length fs =? VariableLength_word then VariableLength [] 0
        else Read_make (Z.to_nat (fs_Length fs)));
  mret (mkField bs None).

Definition Fields_Unmarshal (fss : list FieldSpecifier) : M Buffer (list Field) :=
  mapM Field_Unmarshal fss.

Definition translate_field (t : informationElements) (field : FieldSpecifier) (f : Field) :
    outcome Field :=
  match lookup_Key t (EnterpriseNumber field, InformationElementID field) with
  | Some element =>
      v ← Translate.Bytes (f_Bytes f) (Type' element);
      Ok (mkField (f_Bytes f) (Some (mkTranslatedField (Name element)
            (InformationElementID field) (EnterpriseNumber field) (Some v))))
  | None =>
      Ok (mkField (f_Bytes f) (Some (mkTranslatedField "" (InformationElementID field)
            (EnterpriseNumber field) None)))
  end.

(** [for i, field := range fss { if i > len(fields) { break }; f := &(fields[i]); ... }]: one
    specifier more than fields is an index out of range. *)
Fixpoint Translate_Record (t : informationElements) (fields : list Field)
    (fss : list FieldSpecifier) : outcome (list Field) :=
  match fss, fields with
  | [], _ => Ok fields
  | _ :: _, [] => Panic "index out of range"
  | field :: fss', f :: fields' =>
      f' ← translate_field t field f;
      fields'' ← Translate_Record t fields' fss';
      Ok (f' :: fields'')
  end.

Definition DataRecord_Unmarshal (templateID : Z) (fss : list FieldSpecifier)
    (t : option informationElements) : M Buffer DataRecord :=
  fields ← Fields_Unmarshal fss;
  match t with
  | Some t =>
      if (0 <? length fields)%nat
      then lift (fields ← Translate_Record t fields fss; mret (mkDataRecord templateID fields))
      else mret (mkDataRecord templateID fields)
  | None => mret (mkDataRecord templateID fields)
  end.

(** [for buffer.Len() > 0], where an [io.EOF] drops the unfinished record. *)
Definition DataSet_Unmarshal (fuel : nat) (tr : TemplateRecord) (t : option informationElements)
    (data : bytes) : outcome (list DataRecord) :=
  records_while fuel (longer 0) true
    (DataRecord_Unmarshal (tr_TemplateID tr) (tr_Fields tr) t) data.

Definition OptionsDataRecord_Unmarshal (templateID : Z) (scopeFss fss : list FieldSpecifier)
    (t : option informationElements) : M Buffer OptionsDataRecord :=
  scopeFields ← Fields_Unmarshal scopeFss;
  fields ← Fields_Unmarshal fss;
  match t with
  | Some t =>
      if ((0 <? length scopeFields) && (0 <? length fields))%nat
      then lift (
        scopeFields ← Translate_Record t scopeFields scopeFss;
        fields ← Translate_Record t fields fss;
        mret (mkOptionsDataRecord templateID scopeFields fields))
      else mret (mkOptionsDataRecord templateID scopeFields fields)
  | None => mret (mkOptionsDataRecord templateID scopeFields fields)
  end.

Definition OptionsDataSet_Unmarshal (fuel : nat) (otr : OptionsTemplateRecord)
    (t : option informationElements) (data : bytes) : outcome (list OptionsDataRecord) :=
  records_while fuel (longer 0) true
    (OptionsDataRecord_Unmarshal (otr_TemplateID otr) (otr_ScopeFields otr) (otr_Fields otr) t)
    data.

(** ** Messages *)

Section Messages.
  Context {T : Type} `{Templates T} (fuel : nat).

Abbreviation Session := (option (basicSession T)).

Definition register_templates (odid : Z) (s : Session) (trs : list TemplateRecord) : Session :=
  (fun s => AddTemplates s odid (of_template <$> trs)) <$> s.
Definition register_options (odid : Z) (s : Session) (otrs : list OptionsTemplateRecord) :
    Session := (fun s => AddTemplates s odid (of_options <$> otrs)) <$> s.

(** The header and the body of the [i]th set. *)
Definition read_Set (i : Z) (buffer : Buffer) : outcome (SetHeader * bytes * Buffer) :=
  '(header, buffer) ← SetHeader_Unmarshal buffer;
  let readSize := Length header - 4 in
  if readSize <=? 0
  then Err (Errorf "The %d IPFix message is too big: %d bytes." [i; readSize])
  else
    '(data, buffer) ← io_Read (Z.to_nat readSize) buffer;
    if Z.of_nat (length data) <? readSize then Err ErrUnexpectedEOF
    else Ok (header, data, buffer).

Definition handle_Set (t : option informationElements) (i : Z) (header : SetHeader)
    (data : bytes) (ms : Message * Session) : (Message * Session) * outcome unit :=
  let '(m, s) := ms in
  let odid := ObservationDomainID (Header m) in
  if ID header <? 2 then (ms, Err (Errorf "protocol error: received invalid set id" []))
  else if ID header =? 2 then
    stepping ms (TemplateSet_UnmarshalRecords data) (fun rs =>
      (add_TemplateSet m (mkTemplateSet header rs), register_templates odid s rs))
  else if ID header =? 3 then
    stepping ms (OptionsTemplateSet_UnmarshalRecords data) (fun rs =>
      (add_OptionsTemplateSet m (mkOptionsTemplateSet header rs), register_options odid s rs))
  else if (4 <=? ID header) && (ID header <=? 255) then (ms, Ok tt)
  else
    match s with
    | None => (ms, Ok tt)
    | Some templates =>
        match GetTemplate templates odid (ID header) with
        | None => (ms, Ok tt)
        | Some tm =>
            match type_switch tm with
            | IsTemplate template =>
                stepping ms (DataSet_Unmarshal fuel template t data) (fun rs =>
                  (add_DataSet m (mkDataSet header rs), s))
            | IsOptionsTemplate template =>
                stepping ms (OptionsDataSet_Unmarshal fuel template t data) (fun rs =>
                  (add_OptionsDataSet m (mkOptionsDataSet header rs), s))
            | IsOther =>
                (ms, Err (Errorf "ipfix DataSet %d with observation-domain-id %d, template-id %d, retrieved template record of type %T; rejected"
                            [i; odid; ID header]))
            end
        end
    end.

(** [for i := 0; buffer.Len() > 0; i++]: a set takes at least five bytes, so the length of the
    body is enough fuel [n]. *)
Fixpoint Sets_loop (t : option informationElements) (n : nat) (i : Z) (buffer : Buffer)
    (ms : Message * Session) : (Message * Session) * outcome unit :=
  if longer 0 buffer then
    match n with
    | O => (ms, OutOfFuel)
    | S n' =>
        match read_Set i buffer with
        | Ok (header, data, buffer') =>
            match handle_Set t i header data ms with
            | (ms', Ok _) => Sets_loop t n' (i + 1) buffer' ms'
            | r => r
            end
        | Err e => (ms, Err e)
        | Panic why => (ms, Panic why)
        | OutOfFuel => (ms, OutOfFuel)
        end
    end
  else (ms, Ok tt).

Section UnmarshalReader.
  Context {R : Type} `{IoReader R}.

Definition UnmarshalSets (r : R) (m : Message) (s : Session) (t : option informationElements) :
    (Message * Session) * outcome R :=
  let readSize := mh_Length (Header m) - 16 in
  if readSize <=? 0
  then ((m, s), Err (Errorf "The IPFix message is too big: %d bytes." [mh_Length (Header m)]))
  else
    match ReadFull (Z.to_nat readSize) r with
    | Ok (data, r') =>
        let '(ms, o) := Sets_loop t (length data) 0 data (m, s) in (ms, o ≫= fun _ => Ok r')
    | Err e =>
        ((m, s), Err (Wrapf "ipfix message truncated; header says %d bytes, but message contains only %d: %v"
                        [readSize; Z.of_nat (length (io_data r))] e))
    | Panic why => ((m, s), Panic why)
    | OutOfFuel => ((m, s), OutOfFuel)
    end.

Definition errInvalidVersion (v : Z) : error :=
  Errorf "You used an unsupported IPFix message version: %d." [v].

Definition Read (r : R) (s : Session) (t : option informationElements) :
    (option Message * Session) * outcome R :=
  let t := match t, s with None, Some _ => Some builtin | _, _ => t end in
  match MessageHeader_Unmarshal r with
  | Ok (h, r') =>
      if mh_Length h <? 16 then ((None, s), Err ErrShortBuffer)
      else if negb (Version' h =? Version) then ((None, s), Err (errInvalidVersion (Version' h)))
      else
        let '((m, s'), o) := UnmarshalSets r' (mkMessage h [] [] [] []) s t in
        ((Some m, s'), o)
  | Err e => ((None, s), Err e)
  | Panic why => ((None, s), Panic why)
  | OutOfFuel => ((None, s), OutOfFuel)
  end.
End UnmarshalReader.
End Messages.

(** ** Totality of the parts that are bounded by their input *)

Lemma Takes_io_Read n : Takes 0 (io_Read n).
Proof.
  intros b. simpl. unfold Buffer_Read. destruct b as [|x b]; [by destruct (n =? 0)%nat|].
  rewrite length_drop. lia.
Qed.
#[export] Hint Resolve Takes_io_Read : takes.

Lemma ipfix_FieldSpecifier_takes : Takes 4 FieldSpecifier_Unmarshal.
Proof.
  unfold FieldSpecifier_Unmarshal. eapply Takes_bind_sum; [by eauto with takes| |reflexivity].
  intros id. eapply (Takes_bind_sum 2 2 0); [by eauto with takes| |reflexivity]. intros l.
  destruct (0 <? _); [|by eauto with takes].
  apply (Takes_weaken 4); [|lia].
  eapply (Takes_bind_sum 4 4 0); [apply Takes_Strict, Strict_Uint32| |lia]. intros en. takes.
Qed.

Lemma ipfix_FieldSpecifiers_takes n : Takes 0 (FieldSpecifiers_Unmarshal n).
Proof.
  apply (Takes_weaken (Z.to_nat n * 4)); [|lia]. apply Takes_repeatM, ipfix_FieldSpecifier_takes.
Qed.
#[export] Hint Resolve ipfix_FieldSpecifiers_takes : takes.

Lemma ipfix_TemplateRecord_takes : Takes 4 TemplateRecord_Unmarshal.
Proof. unfold TemplateRecord_Unmarshal. takes. Qed.

Lemma ipfix_OptionsTemplateRecord_takes : Takes 6 OptionsTemplateRecord_Unmarshal.
Proof.
  unfold OptionsTemplateRecord_Unmarshal. do 3 (eapply Takes_bind_sum; [by eauto with takes|intros ?|reflexivity]).
  destruct (_ <? _); [apply Takes_fail|]. takes.
  apply Takes_lift, returns_from, (Takes_returns 0). takes.
Qed.

Lemma ipfix_templates_return data : returns (TemplateSet_UnmarshalRecords data).
Proof. eapply records_while_Takes; [apply ipfix_TemplateRecord_takes|lia|done]. Qed.

Lemma ipfix_options_return data : returns (OptionsTemplateSet_UnmarshalRecords data).
Proof. eapply records_while_Takes; [apply ipfix_OptionsTemplateRecord_takes|lia|done]. Qed.

(** A field with its translation. *)
Definition translated (t : informationElements) (field : FieldSpecifier) (f : Field) : Field :=
  mkField (f_Bytes f)
    (Some (match lookup_Key t (EnterpriseNumber field, InformationElementID field) with
           | Some element =>
               mkTranslatedField (Name element) (InformationElementID field)
                 (EnterpriseNumber field)
                 (match Translate.Bytes (f_Bytes f) (Type' element) with
                  | Ok v => Some v | _ => None end)
           | None => mkTranslatedField "" (InformationElementID field) (EnterpriseNumber field) None
           end)).

Lemma ipfix_translate_field t field f : translate_field t field f = Ok (translated t field f).
Proof.
  unfold translate_field, translated. destruct (lookup_Key _ _) as [element|]; [|done].
  by destruct (Translate.Bytes_any (f_Bytes f) (Type' element)) as [v ->].
Qed.

(** The off-by-one of the loop's test is out of reach: there is a field for every specifier. *)
Lemma ipfix_Translate_Record t fields fss :
  length fields = length fss ->
  Translate_Record t fields fss = Ok (zip_with (translated t) fss fields).
Proof.
  revert fields; induction fss as [|fs fss IH]; intros [|f fields] Hl; simpl in *; try done.
  rewrite ipfix_translate_field. cbn [mbind outcome_bind]. by rewrite IH by lia.
Qed.

Lemma Fields_Unmarshal_cons fs fss :
  Fields_Unmarshal (fs :: fss) =
    (f ← Field_Unmarshal fs; fields ← Fields_Unmarshal fss; mret (f :: fields)).
Proof. reflexivity. Qed.

Lemma ipfix_Fields_length fss b fields b' :
  Fields_Unmarshal fss b = Ok (fields, b') -> length fields = length fss.
Proof.
  revert b fields b'; induction fss as [|fs fss IH]; intros b fields b'; unfold Fields_Unmarshal in *; simpl.
  - by intros [= <- <-].
  - unfold mbind at 1, M_bind at 1. destruct (Field_Unmarshal fs b) as [[f b1]| | |]; [|done..].
    unfold mbind, M_bind. specialize (IH b1).
    destruct (mapM Field_Unmarshal fss b1) as [[fs' b2]| | |]; [|done..].
    intros [= <- <-]. simpl. f_equal. by eapply IH.
Qed.

(** ** Templates of size zero *)

(** A field of declared length zero takes nothing; any other takes at least a byte. *)
Definition field_least (fs : FieldSpecifier) : nat := if fs_Length fs <=? 0 then 0 else 1.
Definition fields_least (fss : list FieldSpecifier) : nat := sum_list_with field_least fss.
Definition template_least (tt : template_type) : option nat :=
  match tt with
  | IsTemplate tr => Some (fields_least (tr_Fields tr))
  | IsOptionsTemplate otr => Some (fields_least (otr_ScopeFields otr ++ otr_Fields otr))
  | IsOther => None
  end.

Lemma Takes_VariableLength : Takes 1 (VariableLength [] 0).
Proof.
  unfold VariableLength. eapply (Takes_bind_sum 1 1 0); [apply Takes_Strict, Strict_Uint8| |done].
  intros l0. eapply (Takes_bind_sum 0 0 0); [|intros l|done].
  - destruct (l0 <? 255); [takes|]. apply (Takes_weaken 2); [takes|lia].
  - cbv zeta. takes.
Qed.

Lemma Takes_Read_make_pos n : (0 < n)%nat -> Takes 1 (Read_make n).
Proof.
  intros Hn b. unfold Read_make, mbind, M_bind. simpl. unfold Buffer_Read.
  destruct b as [|x b]; simpl; [by destruct n|]. rewrite length_drop. simpl. lia.
Qed.

Lemma ipfix_Field_takes fs : Takes (field_least fs) (Field_Unmarshal fs).
Proof.
  unfold Field_Unmarshal, field_least. destruct (Z.leb_spec (fs_Length fs) 0).
  - destruct (Z.eqb_spec (fs_Length fs) VariableLength_word); [unfold VariableLength_word in *; lia|].
    takes.
  - apply (Takes_bind_sum 1 1 0); [|intros ?; takes|done].
    destruct (_ =? _); [apply Takes_VariableLength|]. apply Takes_Read_make_pos. lia.
Qed.

Lemma ipfix_Fields_takes fss : Takes (fields_least fss) (Fields_Unmarshal fss).
Proof. apply Takes_mapM, Forall_forall. intros fs _. apply ipfix_Field_takes. Qed.

(** What the fields are read by, with the number of fields. *)
Lemma ipfix_Fields_Ok fss b :
  match Fields_Unmarshal fss b with
  | Ok (fields, b') => (length b' + fields_least fss <= length b)%nat /\ length fields = length fss
  | Err _ => True
  | Panic _ | OutOfFuel => False
  end.
Proof.
  pose proof (ipfix_Fields_takes fss b) as Ht.
  destruct (Fields_Unmarshal fss b) as [[fields b']| | |] eqn:E; [|done..].
  split; [done|]. by eapply ipfix_Fields_length.
Qed.

Lemma ipfix_DataRecord_takes id fss t : Takes (fields_least fss) (DataRecord_Unmarshal id fss t).
Proof.
  intros b. unfold DataRecord_Unmarshal, mbind, M_bind.
  pose proof (ipfix_Fields_Ok fss b) as Hf.
  destruct (Fields_Unmarshal fss b) as [[fields b']| | |]; [|done..]. destruct Hf as [Hf Hl].
  destruct t as [t|]; [|done]. destruct (_ <? _)%nat; [|done].
  unfold lift. by rewrite ipfix_Translate_Record.
Qed.

Lemma ipfix_OptionsDataRecord_takes id sfss fss t :
  Takes (fields_least (sfss ++ fss)) (OptionsDataRecord_Unmarshal id sfss fss t).
Proof.
  intros b. unfold OptionsDataRecord_Unmarshal, mbind, M_bind.
  pose proof (ipfix_Fields_Ok sfss b) as Hs.
  destruct (Fields_Unmarshal sfss b) as [[sfields b1]| | |]; [|done..]. destruct Hs as [Hs Hsl].
  pose proof (ipfix_Fields_Ok fss b1) as Hf.
  destruct (Fields_Unmarshal fss b1) as [[fields b2]| | |]; [|done..]. destruct Hf as [Hf Hl].
  unfold fields_least in *. rewrite sum_list_with_app.
  assert (length b2 + (sum_list_with field_least sfss + sum_list_with field_least fss) <= length b)%nat
    by lia.
  destruct t as [t|]; [|done]. destruct (_ && _); [|done].
  unfold lift. by rewrite !ipfix_Translate_Record.
Qed.

(** A record of a template of size zero is read from any data, and takes nothing of it. *)
Lemma ipfix_Fields_zero fss b :
  fields_least fss = 0%nat -> (0 < length b)%nat ->
  exists fields, Fields_Unmarshal fss b = Ok (fields, b).
Proof.
  intros Hz Hb. induction fss as [|fs fss IH]; [by eexists|].
  unfold fields_least in *. simpl in Hz. unfold field_least at 1 in Hz.
  destruct (Z.leb_spec (fs_Length fs) 0); [|lia].
  destruct IH as [fields Hf]; [lia|]. rewrite Fields_Unmarshal_cons.
  unfold Field_Unmarshal.
  destruct (Z.eqb_spec (fs_Length fs) VariableLength_word); [unfold VariableLength_word in *; lia|].
  replace (Z.to_nat (fs_Length fs)) with 0%nat by lia.
  destruct b as [|x b]; [simpl in Hb; lia|].
  unfold Read_make, mbind, M_bind. simpl. rewrite Hf. by eexists.
Qed.

Lemma ipfix_data_stuck fuel tr t data :
  fields_least (tr_Fields tr) = 0%nat -> (0 < length data)%nat ->
  DataSet_Unmarshal fuel tr t data = OutOfFuel.
Proof.
  intros Hz Hl. destruct (ipfix_Fields_zero _ _ Hz Hl) as [fields Hf].
  assert (exists x, DataRecord_Unmarshal (tr_TemplateID tr) (tr_Fields tr) t data = Ok (x, data))
    as [x Hx].
  { unfold DataRecord_Unmarshal, mbind, M_bind. rewrite Hf.
    destruct t as [t|]; [|by eexists]. destruct (_ <? _)%nat; [|by eexists].
    unfold lift. rewrite ipfix_Translate_Record by (by eapply ipfix_Fields_length). by eexists. }
  eapply records_while_stuck; [by apply longer_true|exact Hx].
Qed.

Lemma ipfix_options_data_stuck fuel otr t data :
  fields_least (otr_ScopeFields otr ++ otr_Fields otr) = 0%nat -> (0 < length data)%nat ->
  OptionsDataSet_Unmarshal fuel otr t data = OutOfFuel.
Proof.
  unfold fields_least. rewrite sum_list_with_app. intros Hz Hl.
  destruct (ipfix_Fields_zero (otr_ScopeFields otr) data) as [sfs Hs]; [unfold fields_least; lia|done|].
  destruct (ipfix_Fields_zero (otr_Fields otr) data) as [fs Hf]; [unfold fields_least; lia|done|].
  assert (exists x, OptionsDataRecord_Unmarshal (otr_TemplateID otr) (otr_ScopeFields otr)
    (otr_Fields otr) t data = Ok (x, data)) as [x Hx].
  { unfold OptionsDataRecord_Unmarshal, mbind, M_bind. rewrite Hs, Hf.
    destruct t as [t|]; [|by eexists]. destruct (_ && _); [|by eexists].
    unfold lift. rewrite !ipfix_Translate_Record by (by eapply ipfix_Fields_length). by eexists. }
  eapply records_while_stuck; [by apply longer_true|exact Hx].
Qed.

Lemma ipfix_data_cases fuel tr t data :
  (length data <= fuel)%nat ->
  returns (DataSet_Unmarshal fuel tr t data) \/
  (template_least (IsTemplate tr) = Some 0%nat /\ DataSet_Unmarshal fuel tr t data = OutOfFuel).
Proof.
  intros Hf. simpl. destruct (decide (fields_least (tr_Fields tr) = 0)%nat) as [Hz|Hz].
  - destruct (decide (0 < length data)%nat).
    + right. by rewrite Hz, ipfix_data_stuck.
    + left. unfold DataSet_Unmarshal. by rewrite records_while_short by lia.
  - left. eapply records_while_Takes; [apply ipfix_DataRecord_takes|lia|done].
Qed.

Lemma ipfix_options_data_cases fuel otr t data :
  (length data <= fuel)%nat ->
  returns (OptionsDataSet_Unmarshal fuel otr t data) \/
  (template_least (IsOptionsTemplate otr) = Some 0%nat /\
   OptionsDataSet_Unmarshal fuel otr t data = OutOfFuel).
Proof.
  intros Hf. simpl.
  destruct (decide (fields_least (otr_ScopeFields otr ++ otr_Fields otr) = 0)%nat) as [Hz|Hz].
  - destruct (decide (0 < length data)%nat).
    + right. by rewrite Hz, ipfix_options_data_stuck.
    + left. unfold OptionsDataSet_Unmarshal. by rewrite records_while_short by lia.
  - left. eapply records_while_Takes; [apply ipfix_OptionsDataRecord_takes|lia|done].
Qed.

(** ** Messages: what can go wrong *)

Section Loops.
  Context {T : Type} `{Templates T}.

(** The session has a template of size zero for the observation domain. *)
Definition zero_size_template (odid : Z) (s : option (basicSession T)) : Prop :=
  exists ss id tm, s = Some ss /\ GetTemplate ss odid id = Some tm /\
                   template_least (type_switch tm) = Some 0%nat.

Definition hangs_only_on_zero {A} (odid : Z) (s : option (basicSession T)) (o : outcome A) :
    Prop :=
  match o with
  | Ok _ | Err _ => True
  | Panic _ => False
  | OutOfFuel => zero_size_template odid s
  end.

Lemma ipfix_read_Set i b :
  match read_Set i b with
  | Ok (_, data, b') => (length data + length b' <= length b)%nat /\ (length b' < length b)%nat
  | Err _ => True
  | Panic _ | OutOfFuel => False
  end.
Proof using Type.
  unfold read_Set.
  assert (Takes 4 SetHeader_Unmarshal) as Ht by (unfold SetHeader_Unmarshal; takes).
  specialize (Ht b). destruct (SetHeader_Unmarshal b) as [[h b1]| | |]; [|done..].
  cbn [mbind outcome_bind]. destruct (Z.leb_spec (Length h - 4) 0); [done|].
  cbn [io_Read Buffer_reader]. unfold Buffer_Read.
  destruct b1 as [|x b1]; [destruct (Nat.eqb_spec (Z.to_nat (Length h - 4)) 0); [lia|done]|].
  cbn [mbind outcome_bind]. destruct (_ <? _); [done|].
  rewrite length_take, length_drop. lia.
Qed.

Lemma ipfix_handle_header fuel t i h data (ms : Message * option (basicSession T)) :
  Header (handle_Set fuel t i h data ms).1.1 = Header ms.1.
Proof using Type.
  destruct ms as [m s]. unfold handle_Set, stepping. repeat case_match; done.
Qed.

Lemma ipfix_handle_returns fuel t i h data (ms : Message * option (basicSession T)) :
  (length data <= fuel)%nat ->
  hangs_only_on_zero (ObservationDomainID (Header ms.1)) (handle_Set fuel t i h data ms).1.2
    (handle_Set fuel t i h data ms).2.
Proof using Type.
  intros Hf. destruct ms as [m s]. unfold handle_Set. cbn [fst].
  assert (forall A St (st : St) (o : outcome A) k src (s : option (basicSession T)),
    returns o -> hangs_only_on_zero src s (stepping st o k).2) as Hstep.
  { intros A St st o k src s' Ho. by destruct o. }
  destruct (ID h <? 2); [done|].
  destruct (ID h =? 2); [by apply Hstep, ipfix_templates_return|].
  destruct (ID h =? 3); [by apply Hstep, ipfix_options_return|].
  destruct (_ && _); [done|]. destruct s as [ss|]; [|done].
  destruct (GetTemplate ss (ObservationDomainID (Header m)) (ID h)) as [tm|] eqn:Eg; [|done].
  destruct (type_switch tm) as [tr|otr|] eqn:Et; [| |done].
  - destruct (ipfix_data_cases fuel tr t data Hf) as [Hr|[Hz ->]]; [by apply Hstep|].
    exists ss, (ID h), tm. by rewrite Et.
  - destruct (ipfix_options_data_cases fuel otr t data Hf) as [Hr|[Hz ->]]; [by apply Hstep|].
    exists ss, (ID h), tm. by rewrite Et.
Qed.

Lemma ipfix_loop_returns fuel t n i b (ms : Message * option (basicSession T)) :
  (length b <= fuel)%nat -> (length b <= n)%nat ->
  hangs_only_on_zero (ObservationDomainID (Header ms.1)) (Sets_loop fuel t n i b ms).1.2
    (Sets_loop fuel t n i b ms).2.
Proof using Type.
  revert i b ms. induction n as [|n IH]; intros i b ms Hf Hn; simpl.
  { by rewrite longer_false by lia. }
  destruct (longer 0 b); [|done]. pose proof (ipfix_read_Set i b) as Hr.
  destruct (read_Set i b) as [[[h data] b']| | |]; [|done..]. destruct Hr as [Hr Hlt].
  pose proof (ipfix_handle_returns fuel t i h data ms ltac:(lia)) as Hh.
  pose proof (ipfix_handle_header fuel t i h data ms) as Hp.
  destruct (handle_Set fuel t i h data ms) as [ms' o]. cbn [fst snd] in *.
  destruct o; try done. rewrite <- Hp. apply IH; lia.
Qed.
End Loops.

(** ** The wire format, as a specification of the decoder *)

Definition header_wire (h : MessageHeader) : bytes :=
  be_split 2 (Version' h) ++ be_split 2 (mh_Length h) ++ be_split 4 (ExportTime h) ++
  be_split 4 (SequenceNumber h) ++ be_split 4 (ObservationDomainID h).

Definition FieldSpecifier_wire (fs : FieldSpecifier) : bytes :=
  if EnterpriseBitSet fs
  then be_split 2 (InformationElementID fs + EnterpriseBit) ++ be_split 2 (fs_Length fs) ++
       be_split 4 (EnterpriseNumber fs)
  else be_split 2 (InformationElementID fs) ++ be_split 2 (fs_Length fs).

Definition TemplateRecord_wire (tr : TemplateRecord) : bytes :=
  be_split 2 (tr_TemplateID tr) ++ be_split 2 (tr_FieldCount tr) ++
  concat (FieldSpecifier_wire <$> tr_Fields tr).

Definition OptionsTemplateRecord_wire (otr : OptionsTemplateRecord) : bytes :=
  be_split 2 (otr_TemplateID otr) ++ be_split 2 (otr_FieldCount otr) ++
  be_split 2 (otr_ScopeFieldCount otr) ++
  concat (FieldSpecifier_wire <$> otr_ScopeFields otr) ++
  concat (FieldSpecifier_wire <$> otr_Fields otr).

(** A variable-length value is preceded by its length (RFC 7011 section 7). *)
Definition variable_wire (v : bytes) : bytes :=
  if (length v <? 255)%nat then be_split 1 (Z.of_nat (length v)) ++ v
  else be_split 1 255 ++ be_split 2 (Z.of_nat (length v)) ++ v.

Definition value_wire (fs : FieldSpecifier) (v : bytes) : bytes :=
  if fs_Length fs =? VariableLength_word then variable_wire v else v.
Definition values_wire (fss : list FieldSpecifier) (vs : list bytes) : bytes :=
  concat (zip_with value_wire fss vs).

Inductive SetData :=
| Templates_set (trs : list TemplateRecord) (pad : bytes)
| Options_set (otr : OptionsTemplateRecord) (pad : bytes)
| Data_set (tr : TemplateRecord) (records : list (list bytes))
| OptionsData_set (otr : OptionsTemplateRecord) (records : list (list bytes * list bytes)).

Definition Set_ID (x : SetData) : Z :=
  match x with
  | Templates_set _ _ => 2
  | Options_set _ _ => 3
  | Data_set tr _ => tr_TemplateID tr
  | OptionsData_set otr _ => otr_TemplateID otr
  end.

Definition options_values_wire (otr : OptionsTemplateRecord) (vs : list bytes * list bytes) : bytes :=
  values_wire (otr_ScopeFields otr) vs.1 ++ values_wire (otr_Fields otr) vs.2.

Definition Set_body (x : SetData) : bytes :=
  match x with
  | Templates_set trs pad => concat (TemplateRecord_wire <$> trs) ++ pad
  | Options_set otr pad => OptionsTemplateRecord_wire otr ++ pad
  | Data_set tr records => concat (values_wire (tr_Fields tr) <$> records)
  | OptionsData_set otr records => concat (options_values_wire otr <$> records)
  end.

Definition Set_Length (x : SetData) : Z := Z.of_nat (4 + length (Set_body x)).
Definition Set_wire (x : SetData) : bytes :=
  (be_split 2 (Set_ID x) ++ be_split 2 (Set_Length x)) ++ Set_body x.

Definition message_wire (h : MessageHeader) (sets : list SetData) : bytes :=
  header_wire h ++ concat (Set_wire <$> sets).

(** What the decoder makes of a record's values. *)
Definition decoded_field (t : informationElements) (fs : FieldSpecifier) (v : bytes) : Field :=
  translated t fs (mkField v None).
Definition decoded_record (t : informationElements) (tr : TemplateRecord) (vs : list bytes) :
    DataRecord := mkDataRecord (tr_TemplateID tr) (zip_with (decoded_field t) (tr_Fields tr) vs).
(** An options record is translated when it has scope fields and other fields. *)
Definition decoded_options (t : informationElements) (otr : OptionsTemplateRecord)
    (vs : list bytes * list bytes) : OptionsDataRecord :=
  mkOptionsDataRecord (otr_TemplateID otr)
    (zip_with (decoded_field t) (otr_ScopeFields otr) vs.1)
    (zip_with (decoded_field t) (otr_Fields otr) vs.2).

Record header_ok (h : MessageHeader) : Prop := {
  ok_version : Version' h = Version;
  ok_ExportTime : in_range 32 (ExportTime h);
  ok_SequenceNumber : in_range 32 (SequenceNumber h);
  ok_ObservationDomainID : in_range 32 (ObservationDomainID h)
}.

Definition FieldSpecifier_ok (fs : FieldSpecifier) : Prop :=
  in_range 15 (InformationElementID fs) /\ in_range 16 (fs_Length fs) /\
  in_range 32 (EnterpriseNumber fs) /\ (EnterpriseBitSet fs = false -> EnterpriseNumber fs = 0).

Record TemplateRecord_ok (tr : TemplateRecord) : Prop := {
  ok_tr_ID : 256 <= tr_TemplateID tr < 65536;
  ok_tr_count : tr_FieldCount tr = Z.of_nat (length (tr_Fields tr));
  ok_tr_range : 0 < tr_FieldCount tr < 65536;
  ok_tr_fields : Forall FieldSpecifier_ok (tr_Fields tr)
}.

Record OptionsTemplateRecord_ok (otr : OptionsTemplateRecord) : Prop := {
  ok_otr_ID : 256 <= otr_TemplateID otr < 65536;
  ok_otr_scope : otr_ScopeFieldCount otr = Z.of_nat (length (otr_ScopeFields otr));
  ok_otr_count : otr_FieldCount otr =
                 Z.of_nat (length (otr_ScopeFields otr) + length (otr_Fields otr));
  ok_otr_range : otr_FieldCount otr < 65536;
  ok_otr_scope_fields : Forall FieldSpecifier_ok (otr_ScopeFields otr);
  ok_otr_fields : Forall FieldSpecifier_ok (otr_Fields otr)
}.

(** A value of a fixed-length field fills it. *)
Definition value_ok (fs : FieldSpecifier) (v : bytes) : Prop :=
  if fs_Length fs =? VariableLength_word then (Z.of_nat (length v) < 65536)
  else length v = Z.to_nat (fs_Length fs).
Definition values_ok (fss : list FieldSpecifier) (vs : list bytes) : Prop :=
  Forall2 value_ok fss vs.

Section Spec.
  Context {T : Type} `{Templates T} (t : informationElements) (odid : Z).

Definition Set_ok (s : basicSession T) (x : SetData) : Prop :=
  Set_Length x < 65536 /\
  match x with
  | Templates_set trs pad => trs <> [] /\ Forall TemplateRecord_ok trs /\ (length pad <= 4)%nat
  | Options_set otr pad => OptionsTemplateRecord_ok otr
  | Data_set tr records =>
      256 <= tr_TemplateID tr < 65536 /\
      GetTemplate s odid (tr_TemplateID tr) = Some (of_template tr) /\ records <> [] /\
      Forall (fun vs => values_ok (tr_Fields tr) vs /\
                        (0 < length (values_wire (tr_Fields tr) vs))%nat) records
  | OptionsData_set otr records =>
      256 <= otr_TemplateID otr < 65536 /\
      GetTemplate s odid (otr_TemplateID otr) = Some (of_options otr) /\ records <> [] /\
      otr_ScopeFields otr <> [] /\ otr_Fields otr <> [] /\
      Forall (fun vs => values_ok (otr_ScopeFields otr) vs.1 /\ values_ok (otr_Fields otr) vs.2 /\
                        (0 < length (options_values_wire otr vs))%nat) records
  end.

(** The effect of a set: templates are bound from the next set on. *)
Definition apply_Set (ms : Message * basicSession T) (x : SetData) : Message * basicSession T :=
  let '(m, s) := ms in
  let h := mkSetHeader (Set_ID x) (Set_Length x) in
  match x with
  | Templates_set trs _ =>
      (add_TemplateSet m (mkTemplateSet h trs), AddTemplates s odid (of_template <$> trs))
  | Options_set otr _ =>
      (add_OptionsTemplateSet m (mkOptionsTemplateSet h [otr]),
       AddTemplate s odid (of_options otr))
  | Data_set tr records =>
      (add_DataSet m (mkDataSet h (decoded_record t tr <$> records)), s)
  | OptionsData_set otr records =>
      (add_OptionsDataSet m (mkOptionsDataSet h (decoded_options t otr <$> records)), s)
  end.

Fixpoint Sets_ok (ms : Message * basicSession T) (sets : list SetData) : Prop :=
  match sets with
  | [] => True
  | x :: sets' => Set_ok ms.2 x /\ Sets_ok (apply_Set ms x) sets'
  end.
End Spec.

Lemma ipfix_FieldSpecifier_parses fs :
  FieldSpecifier_ok fs -> Parses FieldSpecifier_Unmarshal fs (FieldSpecifier_wire fs).
Proof.
  intros (Hid & Hl & Hen & Hz). unfold FieldSpecifier_Unmarshal, FieldSpecifier_wire.
  destruct fs as [id l en b]. cbn [InformationElementID fs_Length EnterpriseNumber EnterpriseBitSet] in *.
  unfold in_range in Hid. change (2 ^ 15) with 32768 in Hid.
  assert (Z.land id EnterpriseBit = 0) as Hland.
  { apply Z.bits_inj'. intros k Hk. rewrite Z.land_spec, Z.bits_0. apply andb_false_iff.
    unfold EnterpriseBit. change 0x8000 with (2 ^ 15).
    destruct (decide (k = 15)) as [->|Hne].
    - left. destruct (decide (id = 0)) as [->|]; [by rewrite Z.testbit_0_l|].
      apply Z.bits_above_log2; [lia|]. apply Z.log2_lt_pow2; lia.
    - right. rewrite Z.pow2_bits_eqb by lia. by apply Z.eqb_neq. }
  destruct b.
  - assert (id + EnterpriseBit = Z.lor id EnterpriseBit) as Hor.
    { rewrite <- Z.lxor_lor, <- Z.add_nocarry_lxor by done. done. }
    eapply Parses_bind.
    { apply Parses_Uint16. unfold in_range, EnterpriseBit. lia. }
    eapply Parses_bind; [by apply Parses_Uint16|]. cbv beta.
    rewrite Hor, Z.land_lor_distr_l, Z.land_diag, Hland, Z.lor_0_l.
    change (0 <? EnterpriseBit) with true. cbv iota.
    eapply Parses_bind_ret; [by apply Parses_Uint32|].
    replace (Z.lxor (Z.lor id EnterpriseBit) EnterpriseBit) with id; [apply Parses_ret|].
    rewrite <- Z.lxor_lor by done. by rewrite Z.lxor_assoc, Z.lxor_nilpotent, Z.lxor_0_r.
  - eapply Parses_bind; [apply Parses_Uint16; unfold in_range; lia|].
    eapply Parses_bind_ret; [by apply Parses_Uint16|]. cbv beta. rewrite Hland. simpl.
    rewrite Hz by done. apply Parses_ret.
Qed.

Lemma ipfix_FieldSpecifiers_parses fss n :
  Forall FieldSpecifier_ok fss -> n = Z.of_nat (length fss) ->
  Parses (FieldSpecifiers_Unmarshal n) fss (concat (FieldSpecifier_wire <$> fss)).
Proof.
  intros Hok ->. unfold FieldSpecifiers_Unmarshal. rewrite Nat2Z.id. apply Parses_repeatM.
  eapply Forall_impl; [exact Hok|]. intros fs. apply ipfix_FieldSpecifier_parses.
Qed.

Lemma ipfix_TemplateRecord_parses tr :
  TemplateRecord_ok tr -> Parses TemplateRecord_Unmarshal tr (TemplateRecord_wire tr).
Proof.
  intros []. unfold TemplateRecord_Unmarshal, TemplateRecord_wire.
  eapply Parses_bind; [apply Parses_Uint16; unfold in_range; lia|].
  eapply Parses_bind; [apply Parses_Uint16; unfold in_range; lia|].
  eapply Parses_bind_ret; [by apply ipfix_FieldSpecifiers_parses|].
  destruct tr; apply Parses_ret.
Qed.

Lemma ipfix_OptionsTemplateRecord_reads otr rest :
  OptionsTemplateRecord_ok otr ->
  OptionsTemplateRecord_Unmarshal (OptionsTemplateRecord_wire otr ++ rest) = Ok (otr, []).
Proof.
  intros []. unfold OptionsTemplateRecord_Unmarshal, OptionsTemplateRecord_wire.
  rewrite <- !app_assoc.
  do 3 (eapply run_bind; [apply Parses_Uint16; unfold in_range; lia|]). cbv beta.
  destruct (Z.ltb_spec (otr_FieldCount otr) (otr_ScopeFieldCount otr)); [lia|].
  unfold mbind at 1, M_bind at 1. rewrite ReadFrom_Buffer. unfold lift, from.
  rewrite (run_bind _ _ (otr_ScopeFields otr) _ _ (Ok (otr, rest))); [done| |].
  - by apply ipfix_FieldSpecifiers_parses.
  - eapply run_bind; [apply ipfix_FieldSpecifiers_parses; [done|]|by destruct otr].
    rewrite wrap_id; [lia|]. unfold in_range. lia.
Qed.

Lemma ipfix_TemplateRecord_long tr b :
  TemplateRecord_ok tr -> longer 4 (TemplateRecord_wire tr ++ b) = true.
Proof.
  intros []. apply longer_true. unfold TemplateRecord_wire.
  rewrite !length_app, !length_be_split.
  destruct (tr_Fields tr) as [|f fs] eqn:E; [simpl in *; lia|].
  cbn [fmap list_fmap concat]. unfold FieldSpecifier_wire at 1.
  destruct (EnterpriseBitSet f); rewrite !length_app, !length_be_split; lia.
Qed.

Lemma ipfix_variable_parses v :
  (Z.of_nat (length v) < 65536) -> Parses (VariableLength [] 0) v (variable_wire v).
Proof.
  intros Hv. unfold VariableLength, variable_wire.
  assert (Hread : Parses (
    bs ← io_Read (length (if (0 <? length v)%nat then replicate (length v) 0
                          else if (0 <? length v)%nat then [] ++ replicate (length v - 0) 0 else []));
    mret (bs ++ drop (length bs) (if (0 <? length v)%nat then replicate (length v) 0
                          else if (0 <? length v)%nat then [] ++ replicate (length v - 0) 0 else [])))
    v v).
  { intros rest. destruct v as [|x v]; simpl.
    - unfold mbind, M_bind, Buffer_Read. by destruct rest.
    - unfold mbind, M_bind, Buffer_Read, mret, M_ret. rewrite length_replicate. simpl.
      rewrite take_app_length, drop_app_length, drop_ge, app_nil_r by (rewrite length_replicate; lia).
      done. }
  destruct (Nat.ltb_spec (length v) 255) as [Hl|Hl].
  - eapply Parses_bind; [apply Parses_Uint8; unfold in_range; lia|]. cbv beta.
    destruct (Z.ltb_spec (Z.of_nat (length v)) 255); [|lia].
    apply Parses_ret_bind. cbv zeta.
    rewrite Nat2Z.id. exact Hread.
  - eapply Parses_bind; [by apply Parses_Uint8|]. cbv beta. simpl (255 <? 255). cbv iota.
    eapply Parses_bind; [apply Parses_Uint16; unfold in_range; lia|]. cbv beta zeta.
    rewrite Nat2Z.id. exact Hread.
Qed.

Lemma ipfix_Field_parses fs v :
  value_ok fs v -> Parses (Field_Unmarshal fs) (mkField v None) (value_wire fs v).
Proof.
  unfold value_ok, value_wire, Field_Unmarshal. intros Hv.
  eapply Parses_bind_ret; [|apply Parses_ret].
  destruct (_ =? _); [by apply ipfix_variable_parses|by apply Parses_Read_make].
Qed.

Lemma ipfix_Fields_parses fss vs :
  values_ok fss vs ->
  Parses (Fields_Unmarshal fss) ((fun v => mkField v None) <$> vs) (values_wire fss vs).
Proof.
  unfold values_wire. induction 1 as [|fs v fss vs Hv Hvs IH]; [apply Parses_ret|].
  rewrite Fields_Unmarshal_cons. csimpl. eapply Parses_bind; [by apply ipfix_Field_parses|].
  eapply Parses_bind_ret; [exact IH|]. apply Parses_ret.
Qed.

Lemma ipfix_translated_raw t fss vs :
  zip_with (translated t) fss ((fun v => mkField v None) <$> vs) =
  zip_with (decoded_field t) fss vs.
Proof. by rewrite zip_with_fmap_r. Qed.

Lemma ipfix_values_length fss vs :
  values_ok fss vs -> length ((fun v => mkField v None) <$> vs) = length fss.
Proof. intros Hv. apply Forall2_length in Hv. rewrite length_fmap. lia. Qed.

Lemma ipfix_values_nonempty fss vs :
  values_ok fss vs -> fss <> [] -> (0 < length ((fun v => mkField v None) <$> vs))%nat.
Proof. intros Hv Hne. rewrite ipfix_values_length with (fss := fss) by done. by destruct fss; [|simpl; lia]. Qed.

Lemma ipfix_DataRecord_ok t tr vs b :
  values_ok (tr_Fields tr) vs -> (0 < length (values_wire (tr_Fields tr) vs))%nat ->
  DataRecord_Unmarshal (tr_TemplateID tr) (tr_Fields tr) (Some t)
    (values_wire (tr_Fields tr) vs ++ b) = Ok (decoded_record t tr vs, b).
Proof.
  intros Hv Hl. unfold DataRecord_Unmarshal. eapply run_bind; [by apply ipfix_Fields_parses|].
  assert (tr_Fields tr <> []) as Hne by (intros Hz; rewrite Hz in Hl; simpl in Hl; lia).
  destruct (Nat.ltb_spec 0 (length ((fun v => mkField v None) <$> vs))) as [_|Hz].
  - unfold lift. rewrite ipfix_Translate_Record by (by apply ipfix_values_length).
    by rewrite ipfix_translated_raw.
  - pose proof (ipfix_values_nonempty _ _ Hv Hne). lia.
Qed.

Lemma ipfix_OptionsDataRecord_ok t otr vs b :
  values_ok (otr_ScopeFields otr) vs.1 -> values_ok (otr_Fields otr) vs.2 ->
  otr_ScopeFields otr <> [] -> otr_Fields otr <> [] ->
  OptionsDataRecord_Unmarshal (otr_TemplateID otr) (otr_ScopeFields otr) (otr_Fields otr) (Some t)
    (options_values_wire otr vs ++ b) = Ok (decoded_options t otr vs, b).
Proof.
  intros Hs Hv Hsne Hne. unfold OptionsDataRecord_Unmarshal, options_values_wire.
  rewrite <- app_assoc.
  eapply run_bind; [by apply ipfix_Fields_parses|]. eapply run_bind; [by apply ipfix_Fields_parses|].
  rewrite (proj2 (Nat.ltb_lt _ _) (ipfix_values_nonempty _ _ Hs Hsne)).
  rewrite (proj2 (Nat.ltb_lt _ _) (ipfix_values_nonempty _ _ Hv Hne)). cbn [andb].
  unfold lift. rewrite !ipfix_Translate_Record by (by apply ipfix_values_length).
  by rewrite !ipfix_translated_raw.
Qed.

Lemma ipfix_data_records t tr records fuel :
  Forall (fun vs => values_ok (tr_Fields tr) vs /\
                    (0 < length (values_wire (tr_Fields tr) vs))%nat) records ->
  (length records <= fuel)%nat ->
  DataSet_Unmarshal fuel tr (Some t) (concat (values_wire (tr_Fields tr) <$> records)) =
    Ok (decoded_record t tr <$> records).
Proof.
  intros Hr Hf. rewrite <- (app_nil_r (concat _)). apply records_while_all; [|done|done].
  eapply Forall_impl; [exact Hr|]. intros vs [Hv Hl]. split; intros b.
  - by apply ipfix_DataRecord_ok.
  - apply longer_true. rewrite length_app. lia.
Qed.

Lemma ipfix_options_records t otr records fuel :
  otr_ScopeFields otr <> [] -> otr_Fields otr <> [] ->
  Forall (fun vs => values_ok (otr_ScopeFields otr) vs.1 /\ values_ok (otr_Fields otr) vs.2 /\
                    (0 < length (options_values_wire otr vs))%nat) records ->
  (length records <= fuel)%nat ->
  OptionsDataSet_Unmarshal fuel otr (Some t) (concat (options_values_wire otr <$> records)) =
    Ok (decoded_options t otr <$> records).
Proof.
  intros Hs Hn Hr Hf. rewrite <- (app_nil_r (concat _)). apply records_while_all; [|done|done].
  eapply Forall_impl; [exact Hr|]. intros vs (Hsv & Hv & Hl). split; intros b.
  - by apply ipfix_OptionsDataRecord_ok.
  - apply longer_true. rewrite length_app. lia.
Qed.

Lemma ipfix_read_Set_wire i x rest :
  0 <= Set_ID x < 65536 -> Set_Length x < 65536 -> Set_body x <> [] ->
  read_Set i (Set_wire x ++ rest) = Ok (mkSetHeader (Set_ID x) (Set_Length x), Set_body x, rest).
Proof.
  intros Hid Hl Hb. unfold read_Set, Set_wire. rewrite <- app_assoc.
  assert (forall b, SetHeader_Unmarshal ((be_split 2 (Set_ID x) ++ be_split 2 (Set_Length x)) ++ b) =
    Ok (mkSetHeader (Set_ID x) (Set_Length x), b)) as ->.
  { intros b. unfold SetHeader_Unmarshal. rewrite <- app_assoc.
    eapply run_bind; [apply Parses_Uint16; unfold in_range; lia|].
    eapply run_bind; [apply Parses_Uint16; unfold Set_Length, in_range in *; lia|]. done. }
  cbn [mbind outcome_bind Length].
  replace (Set_Length x - 4) with (Z.of_nat (length (Set_body x))) by (unfold Set_Length; lia).
  destruct (Set_body x) as [|y body] eqn:E; [done|].
  destruct (Z.leb_spec (Z.of_nat (length (y :: body))) 0); [simpl in *; lia|].
  rewrite Nat2Z.id. cbn [io_Read Buffer_reader]. cbn [app Buffer_Read].
  change (y :: body ++ rest) with ((y :: body) ++ rest).
  rewrite take_app_length, drop_app_length. cbn [mbind outcome_bind].
  by rewrite Z.ltb_irrefl.
Qed.

Section SpecProofs.
  Context {T : Type} `{Templates T} (t : informationElements).

Lemma ipfix_Set_nonempty odid (s : basicSession T) x :
  Set_ok odid s x -> Set_body x <> [] /\ 0 <= Set_ID x < 65536.
Proof using Type.
  intros [_ Hok]. destruct x as [trs pad|otr pad|tr records|otr records]; simpl in *.
  - destruct Hok as (Hne & Hok & _). destruct Hok as [|tr trs Htr _]; [done|]. split; [|lia].
    simpl. intros [[Hw _]%app_nil _]%app_nil. apply (f_equal length) in Hw.
    unfold TemplateRecord_wire in Hw. rewrite length_app, length_be_split in Hw. simpl in Hw. lia.
  - split; [|lia]. intros [Hw _]%app_nil. apply (f_equal length) in Hw.
    unfold OptionsTemplateRecord_wire in Hw.
    rewrite length_app, length_be_split in Hw. simpl in Hw. lia.
  - destruct Hok as (Hid & _ & Hne & Hok). split; [|lia].
    destruct Hok as [|vs records [_ Hl] _]; [done|]. simpl.
    intros [Hw _]%app_nil. rewrite Hw in Hl. simpl in Hl. lia.
  - destruct Hok as (Hid & _ & Hne & _ & _ & Hok). split; [|lia].
    destruct Hok as [|vs records (_ & _ & Hl) _]; [done|]. simpl.
    intros [Hw _]%app_nil. rewrite Hw in Hl. simpl in Hl. lia.
Qed.

Lemma ipfix_handle_ok fuel i (ms : Message * basicSession T) x :
  Set_ok (ObservationDomainID (Header ms.1)) ms.2 x -> (length (Set_body x) <= fuel)%nat ->
  handle_Set fuel (Some t) i (mkSetHeader (Set_ID x) (Set_Length x)) (Set_body x)
    (ms.1, Some ms.2) =
  (((apply_Set t (ObservationDomainID (Header ms.1)) ms x).1,
    Some (apply_Set t (ObservationDomainID (Header ms.1)) ms x).2), Ok tt).
Proof using Type.
  destruct ms as [m s]. intros [Hl Hok] Hf. unfold handle_Set, apply_Set.
  cbn [fst snd ID] in *.
  destruct x as [trs pad|otr pad|tr records|otr records]; cbn [Set_ID Set_body] in *.
  - destruct Hok as (Hne & Hok & Hp). change (2 <? 2) with false. change (2 =? 2) with true.
    cbv iota. unfold TemplateSet_UnmarshalRecords.
    rewrite (records_while_all (longer 4) false _ _ trs id TemplateRecord_wire).
    + by rewrite list_fmap_id.
    + eapply Forall_impl; [exact Hok|]. intros tr Htr. split; intros b.
      * by apply ipfix_TemplateRecord_parses.
      * by apply ipfix_TemplateRecord_long.
    + by apply longer_false.
    + rewrite length_app. etransitivity; [apply (length_concat_ge TemplateRecord_wire)|lia].
      apply Forall_forall. intros tr _. unfold TemplateRecord_wire.
      rewrite length_app, length_be_split. lia.
  - change (3 <? 2) with false. change (3 =? 2) with false. change (3 =? 3) with true. cbv iota.
    unfold OptionsTemplateSet_UnmarshalRecords.
    rewrite (records_while_one (longer 4) false _ _ _ otr []); [done|..].
    + apply longer_true. rewrite length_app. unfold OptionsTemplateRecord_wire.
      rewrite !length_app, !length_be_split. lia.
    + by apply ipfix_OptionsTemplateRecord_reads.
    + done.
    + rewrite length_app. unfold OptionsTemplateRecord_wire. rewrite length_app, length_be_split. lia.
  - destruct Hok as (Hid & Hget & Hne & Hok).
    destruct (Z.ltb_spec (tr_TemplateID tr) 2), (Z.eqb_spec (tr_TemplateID tr) 2),
      (Z.eqb_spec (tr_TemplateID tr) 3), (Z.leb_spec (tr_TemplateID tr) 255); try lia.
    rewrite andb_false_r, Hget, type_switch_template, ipfix_data_records; [done|done|].
    etransitivity; [|exact Hf]. apply length_concat_ge.
    eapply Forall_impl; [exact Hok|]. by intros vs [_ Hvl].
  - destruct Hok as (Hid & Hget & Hne & Hs & Hn & Hok).
    destruct (Z.ltb_spec (otr_TemplateID otr) 2), (Z.eqb_spec (otr_TemplateID otr) 2),
      (Z.eqb_spec (otr_TemplateID otr) 3), (Z.leb_spec (otr_TemplateID otr) 255); try lia.
    rewrite andb_false_r, Hget, type_switch_options, ipfix_options_records; [done..|].
    etransitivity; [|exact Hf]. apply length_concat_ge.
    eapply Forall_impl; [exact Hok|]. by intros vs (_ & _ & Hvl).
Qed.

Lemma ipfix_apply_header odid (ms : Message * basicSession T) x :
  Header (apply_Set t odid ms x).1 = Header ms.1.
Proof using Type. destruct ms as [m s]. by destruct x. Qed.

Lemma ipfix_loop_ok fuel n i sets (ms : Message * basicSession T) :
  Sets_ok t (ObservationDomainID (Header ms.1)) ms sets -> (length sets <= n)%nat ->
  (length (concat (Set_wire <$> sets)) <= fuel)%nat ->
  Sets_loop fuel (Some t) n i (concat (Set_wire <$> sets)) (ms.1, Some ms.2) =
  (let ms' := foldl (apply_Set t (ObservationDomainID (Header ms.1))) ms sets in
   ((ms'.1, Some ms'.2), Ok tt)).
Proof using Type.
  revert n i ms. induction sets as [|x sets IH]; intros n i ms Hok Hn Hf.
  { by destruct n. }
  destruct n as [|n]; simpl in Hn; [lia|]. destruct Hok as [Hset Hok].
  cbn [Sets_loop fmap list_fmap concat foldl].
  destruct (ipfix_Set_nonempty _ _ _ Hset) as [Hne Hid].
  pose proof Hset as [Hl _]. csimpl in Hf. rewrite length_app in Hf.
  rewrite longer_true.
  2: { unfold Set_wire. rewrite !length_app, length_be_split. lia. }
  rewrite ipfix_read_Set_wire by done. cbn match.
  rewrite ipfix_handle_ok; [|done|unfold Set_wire in Hf; rewrite !length_app in Hf; lia].
  rewrite (IH n (i + 1) (apply_Set t (ObservationDomainID (Header ms.1)) ms x));
    [by rewrite ipfix_apply_header|by rewrite ipfix_apply_header|lia|lia].
Qed.

Lemma ipfix_header_parses h :
  header_ok h -> in_range 16 (mh_Length h) -> Parses MessageHeader_Unmarshal h (header_wire h).
Proof using Type.
  intros [] Hlen. unfold MessageHeader_Unmarshal, header_wire. rewrite ok_version0.
  assert (forall s (m : M Buffer Z) x w, Parses m x w -> Parses (wrapf s m) x w) as Hw.
  { intros s m x w Hm rest. unfold wrapf. by rewrite Hm. }
  assert (in_range 16 Version) by (unfold in_range, Version; lia).
  repeat (eapply Parses_bind; [apply Hw; solve [eauto with wire]|]; cbv beta).
  eapply Parses_bind_ret; [apply Hw; solve [eauto with wire]|]. cbv beta.
  rewrite <- ok_version0. destruct h; apply Parses_ret.
Qed.

Lemma ipfix_Read_wire fuel h sets (s : basicSession T) rest :
  header_ok h -> sets <> [] ->
  mh_Length h = Z.of_nat (length (message_wire h sets)) -> mh_Length h < 65536 ->
  Sets_ok t (ObservationDomainID h) (mkMessage h [] [] [] [], s) sets ->
  (length (message_wire h sets) <= fuel)%nat ->
  Read fuel (message_wire h sets ++ rest) (Some s) (Some t) =
  (let ms' := foldl (apply_Set t (ObservationDomainID h)) (mkMessage h [] [] [] [], s) sets in
   ((Some ms'.1, Some ms'.2), Ok rest)).
Proof using Type.
  intros Hh Hne Hl Hmax Hok Hf. unfold message_wire in *. rewrite length_app in Hf, Hl.
  assert (length (header_wire h) = 16%nat) as H16.
  { unfold header_wire. by rewrite !length_app, !length_be_split. }
  assert (length sets <= length (concat (Set_wire <$> sets)))%nat as Hn.
  { apply length_concat_ge, Forall_forall. intros x _. unfold Set_wire.
    rewrite !length_app, length_be_split. lia. }
  assert (0 < length sets)%nat by (destruct sets; [done|simpl; lia]).
  unfold Read. rewrite <- app_assoc, ipfix_header_parses; [|done|unfold in_range; lia].
  destruct (Z.ltb_spec (mh_Length h) 16); [lia|].
  rewrite (ok_version _ Hh), Z.eqb_refl. cbn [negb]. unfold UnmarshalSets. cbn [Header].
  destruct (Z.leb_spec (mh_Length h - 16) 0); [lia|].
  rewrite ReadFull_app by lia.
  rewrite (ipfix_loop_ok fuel _ 0 sets (mkMessage h [] [] [] [], s)); [done|done|lia|lia].
Qed.
End SpecProofs.

#[export] Instance own_Template : Template (TemplateRecord + OptionsTemplateRecord) :=
  fun t => match t with inl tr => tr_TemplateID tr | inr otr => otr_TemplateID otr end.
#[export] Instance own_Templates : Templates (TemplateRecord + OptionsTemplateRecord).
Proof.
  refine {| of_template := inl; of_options := inr;
            type_switch t := match t with inl tr => IsTemplate tr | inr otr => IsOptionsTemplate otr end |};
    done.
Defined.

(** ** Properties *)

(** C2: IPFIX decoding.  A message in the format of RFC 7011 - template sets (with padding),
    options template sets, and data sets described by the templates last registered for the
    observation domain, with enterprise elements and variable-length values - decodes to
    exactly the sets it was made of, every field with its bytes and its translation by the
    built-in dictionary.  No more than the declared length is taken from the stream, and the
    session afterwards is the one the templates of the message were added to. *)
Theorem ipfix_decodes {T} `{Templates T} fuel h sets (s : basicSession T) rest :
  header_ok h -> sets <> [] ->
  mh_Length h = Z.of_nat (length (message_wire h sets)) -> mh_Length h < 65536 ->
  Sets_ok builtin (ObservationDomainID h) (mkMessage h [] [] [] [], s) sets ->
  (length (message_wire h sets) <= fuel)%nat ->
  Read fuel (message_wire h sets ++ rest) (Some s) None =
  (let ms' := foldl (apply_Set builtin (ObservationDomainID h)) (mkMessage h [] [] [] [], s) sets in
   ((Some ms'.1, Some ms'.2), Ok rest)).
Proof. apply (ipfix_Read_wire builtin). Qed.

Definition sample_header : MessageHeader := mkMessageHeader 10 57 1700000000 7 42.
Definition sample_template : TemplateRecord :=
  mkTemplateRecord 256 3
    [mkFieldSpecifier 8 4 0 false; mkFieldSpecifier 82 65535 0 false;
     mkFieldSpecifier 519 4 42359 true].
Definition sample_sets : list SetData :=
  [Templates_set [sample_template] [0];
   Data_set sample_template [[[10; 0; 0; 1]; [101; 116; 104]; [0; 0; 1; 0]]]].

Lemma ipfix_decodes_witness :
  Read 100 (message_wire sample_header sample_sets ++ [99])
    (Some (New : basicSession (TemplateRecord + OptionsTemplateRecord))) None =
  ((Some (mkMessage sample_header
            [mkTemplateSet (mkSetHeader 2 25) [sample_template]] []
            [mkDataSet (mkSetHeader 256 16)
               [mkDataRecord 256
                  [mkField [10; 0; 0; 1] (Some (mkTranslatedField "sourceIPv4Address" 8 0
                                                  (Some (VIP [10; 0; 0; 1]))));
                   mkField [101; 116; 104] (Some (mkTranslatedField "interfaceName" 82 0
                                                    (Some (VString [101; 116; 104]))));
                   mkField [0; 0; 1; 0] (Some (mkTranslatedField "versaAppID" 519 42359
                                                 (Some (VUint32 256))))]]] []),
    Some {[ (42, 256) := inl sample_template ]}), Ok [99]).
Proof.
  rewrite (ipfix_decodes 100 sample_header sample_sets New).
  - vm_compute. reflexivity.
  - constructor; unfold in_range; simpl; done.
  - done.
  - vm_compute. reflexivity.
  - done.
  - repeat first [split|constructor]; done.
  - vm_compute. lia.
Defined.

(** A template of size zero - no fields, or fields that all have length zero - keeps the
    decoder in its loop forever: the first data set that names it, with a single byte of body,
    exhausts every amount of fuel, so one small datagram stops the collector. *)
Lemma ipfix_zero_size_template_hangs {T} `{Templates T} fuel t i id data m
    (s : basicSession T) tm :
  256 <= id -> GetTemplate s (ObservationDomainID (Header m)) id = Some tm ->
  template_least (type_switch tm) = Some 0%nat -> (0 < length data)%nat ->
  handle_Set fuel t i (mkSetHeader id (Z.of_nat (4 + length data))) data (m, Some s) =
    ((m, Some s), OutOfFuel).
Proof.
  intros Hid Hget Hz Hl. unfold handle_Set. cbn [ID].
  destruct (Z.ltb_spec id 2), (Z.eqb_spec id 2), (Z.eqb_spec id 3), (Z.leb_spec id 255); try lia.
  rewrite andb_false_r, Hget.
  destruct (type_switch tm) as [tr|otr|]; cbn [template_least] in Hz; [| |done].
  - rewrite ipfix_data_stuck by (congruence || lia). done.
  - rewrite ipfix_options_data_stuck by (congruence || lia). done.
Qed.

Lemma ipfix_zero_size_template_hangs_witness :
  let tr := mkTemplateRecord 300 1 [mkFieldSpecifier 1 0 0 false] in
  let s := AddTemplate (New : basicSession (TemplateRecord + OptionsTemplateRecord)) 42 (inl tr) in
  handle_Set 1000 None 0 (mkSetHeader 300 5) [1] (mkMessage sample_header [] [] [] [], Some s) =
  ((mkMessage sample_header [] [] [] [], Some s), OutOfFuel).
Proof.
  apply (ipfix_zero_size_template_hangs 1000 None 0 300 [1] _ _
           (inl (mkTemplateRecord 300 1 [mkFieldSpecifier 1 0 0 false]))); (done || (simpl; lia)).
Defined.

(** An options template set yields its first record only: the templates that follow it in
    the same set, which RFC 7011 allows, are lost without an error. *)
Lemma ipfix_options_set_keeps_first otr rest :
  OptionsTemplateRecord_ok otr ->
  OptionsTemplateSet_UnmarshalRecords (OptionsTemplateRecord_wire otr ++ rest) = Ok [otr].
Proof.
  intros Hok. unfold OptionsTemplateSet_UnmarshalRecords.
  eapply records_while_one; [|by apply ipfix_OptionsTemplateRecord_reads|done|].
  - apply longer_true. unfold OptionsTemplateRecord_wire.
    rewrite !length_app, !length_be_split. lia.
  - unfold OptionsTemplateRecord_wire. rewrite !length_app, !length_be_split. lia.
Qed.

Definition sample_options (id : Z) : OptionsTemplateRecord :=
  mkOptionsTemplateRecord id 2 [mkFieldSpecifier 34 4 0 false] 1 [mkFieldSpecifier 1 4 0 false].

Lemma ipfix_options_set_keeps_first_witness :
  OptionsTemplateSet_UnmarshalRecords
    (OptionsTemplateRecord_wire (sample_options 257) ++
     OptionsTemplateRecord_wire (sample_options 258)) = Ok [sample_options 257].
Proof.
  apply ipfix_options_set_keeps_first. constructor; simpl; try lia;
    repeat constructor; unfold in_range; simpl; lia.
Defined.

(** Padding at the end of a data set, which RFC 7011 allows and which is shorter than a
    record, is decoded as one more record when the template has a single fixed-length field:
    the field is filled from the padding, and with zeros, without an error. *)
Lemma ipfix_padding_is_a_record fuel tr fs t records pad_bytes :
  tr_Fields tr = [fs] -> fs_Length fs <> VariableLength_word ->
  Forall (fun v => length v = Z.to_nat (fs_Length fs)) records ->
  (0 < length pad_bytes < Z.to_nat (fs_Length fs))%nat -> (length records < fuel)%nat ->
  DataSet_Unmarshal fuel tr (Some t) (concat records ++ pad_bytes) =
    Ok ((fun v => decoded_record t tr [v]) <$> records ++ [pad (Z.to_nat (fs_Length fs)) pad_bytes]).
Proof.
  intros Htr Hv Hr Hp Hf. unfold DataSet_Unmarshal. rewrite <- (list_fmap_id records) at 1.
  assert (forall v, DataRecord_Unmarshal (tr_TemplateID tr) (tr_Fields tr) (Some t) v =
    ('(bs, b) ← Read_make (Z.to_nat (fs_Length fs)) v; Ok (decoded_record t tr [bs], b))) as Hrec.
  { intros v. unfold DataRecord_Unmarshal. rewrite Htr. unfold Fields_Unmarshal, mapM, Field_Unmarshal.
    rewrite (proj2 (Z.eqb_neq _ _) Hv). unfold mbind, M_bind, outcome_bind.
    destruct (Read_make _ v) as [[bs b]| | |]; [|done..]. cbn -[Translate.Bytes translate_field].
    unfold lift. rewrite ipfix_translate_field. unfold decoded_record. by rewrite Htr. }
  rewrite (records_while_prefix _ _ _ _ records (fun v => decoded_record t tr [v]) id).
  2: { eapply Forall_impl; [exact Hr|]. intros v Hl. simpl in Hl. split; intros b.
       - rewrite Hrec. unfold id. by rewrite Read_make_app.
       - apply longer_true. rewrite length_app. unfold id. lia. }
  2: lia.
  rewrite (records_while_one (longer 0) true _ _ _
             (decoded_record t tr [pad (Z.to_nat (fs_Length fs)) pad_bytes]) []).
  - cbn [mbind outcome_bind]. by rewrite fmap_app.
  - apply longer_true. lia.
  - rewrite Hrec, Read_make_short by lia. done.
  - done.
  - lia.
Qed.

Lemma ipfix_padding_is_a_record_witness :
  DataSet_Unmarshal 5 (mkTemplateRecord 300 1 [mkFieldSpecifier 8 4 0 false]) (Some ∅)
    [10; 0; 0; 1; 0; 0] =
  Ok ((fun v => mkDataRecord 300 [mkField v (Some (mkTranslatedField "" 8 0 None))]) <$>
      [[10; 0; 0; 1]; [0; 0; 0; 0]]).
Proof.
  rewrite (ipfix_padding_is_a_record 5 _ (mkFieldSpecifier 8 4 0 false) ∅ [[10; 0; 0; 1]] [0; 0]);
    [reflexivity|done..|by repeat constructor|simpl; lia|simpl; lia].
Defined.
