(* ===== verification/Decoder.v ===== *)
(** * The NetFlow decoder (src/pkg/util/netflow/decoder.go)

    The version word chooses the decoder; the word is put back in front of the datagram with
    an [io.MultiReader].  The session is shared by the decoders of version 9 and of IPFIX, so
    its templates are the sum of theirs. *)
From S2P Require Import Prelude GoIO Session Translate InformationElements Read Sets Counted.
From S2P Require Import NetFlow1 NetFlow5 NetFlow6 NetFlow7 NetFlow9 IPFIX.

(** [Message interface{}]. *)
Inductive Message :=
| MNetFlow1 (p : NetFlow1.Packet)
| MNetFlow5 (p : NetFlow5.Packet)
| MNetFlow6 (p : NetFlow6.Packet)
| MNetFlow7 (p : NetFlow7.Packet)
| MNetFlow9 (p : NetFlow9.Packet)
| MIPFIX (m : IPFIX.Message).

(** What [session.Template] can be at run time. *)
Inductive AnyTemplate :=
| V9Template (tr : NetFlow9.TemplateRecord)
| V9Options (otr : NetFlow9.OptionsTemplateRecord)
| IPFIXTemplate (tr : IPFIX.TemplateRecord)
| IPFIXOptions (otr : IPFIX.OptionsTemplateRecord).

#[export] Instance Any_Template : Template AnyTemplate := fun t =>
  match t with
  | V9Template tr => NetFlow9.tr_TemplateID tr
  | V9Options otr => NetFlow9.otr_TemplateID otr
  | IPFIXTemplate tr => IPFIX.tr_TemplateID tr
  | IPFIXOptions otr => IPFIX.otr_TemplateID otr
  end.

#[export] Instance Any_v9 : NetFlow9.Templates AnyTemplate.
Proof.
  refine {| NetFlow9.of_template := V9Template; NetFlow9.of_options := V9Options;
            NetFlow9.type_switch t :=
              match t with
              | V9Template tr => NetFlow9.IsTemplate tr
              | V9Options otr => NetFlow9.IsOptionsTemplate otr
              | _ => NetFlow9.IsOther
              end |}; done.
Defined.

#[export] Instance Any_ipfix : IPFIX.Templates AnyTemplate.
Proof.
  refine {| IPFIX.of_template := IPFIXTemplate; IPFIX.of_options := IPFIXOptions;
            IPFIX.type_switch t :=
              match t with
              | IPFIXTemplate tr => IPFIX.IsTemplate tr
              | IPFIXOptions otr => IPFIX.IsOptionsTemplate otr
              | _ => IPFIX.IsOther
              end |}; done.
Defined.

Abbreviation Session := (option (basicSession AnyTemplate)).

(** A result without the reader it leaves behind. *)
Definition discard {A} (o : outcome A) : outcome unit := _ ← o; Ok tt.

Section Dispatch.
  Context {R : Type} `{IoReader R} (fuel : nat).

(** The decoders without a session: [return netflow1.Read(mr)]. *)
Definition stateless {P} (mk : P -> Message) (o : outcome (P * R)) (s : Session) :
    (option Message * Session) * outcome unit :=
  match o with
  | Ok (p, _) => ((Some (mk p), s), Ok tt)
  | o => ((None, s), discard o)
  end.

(** The [switch version]. *)
Definition Decoder_switch (version : Z) (r : R) (s : Session) :
    (option Message * Session) * outcome unit :=
  if version =? NetFlow1.Version then stateless MNetFlow1 (NetFlow1.Read r) s
  else if version =? NetFlow5.Version then stateless MNetFlow5 (NetFlow5.Read r) s
  else if version =? NetFlow6.Version then stateless MNetFlow6 (NetFlow6.Read r) s
  else if version =? NetFlow7.Version then stateless MNetFlow7 (NetFlow7.Read r) s
  else if version =? NetFlow9.Version then
    let '((p, s'), o) := NetFlow9.Read fuel r s None in ((MNetFlow9 <$> p, s'), discard o)
  else if version =? IPFIX.Version then
    let '((m, s'), o) := IPFIX.Read fuel r s None in ((MIPFIX <$> m, s'), discard o)
  else ((None, s), Err (Errorf "netflow: unsupported version %d" [version])).
End Dispatch.

(** [Decoder.Read] on the buffer of a datagram. *)
Definition Decoder_Read (fuel : nat) (r : Buffer) (s : Session) :
    (option Message * Session) * outcome unit :=
  match ReadFull 2 r with
  | Ok (data, r') =>
      let version := be_combine data in
      let mr : MultiReader := [data; r'] in
      Decoder_switch fuel version mr s
  | Err e => ((None, s), Err (Wrapf "failed to read netflow version number: %v" [] e))
  | Panic why => ((None, s), Panic why)
  | OutOfFuel => ((None, s), OutOfFuel)
  end.

(** ** The MultiReader reads like the datagram itself *)

(** The first read of every decoder is the version word, which is all of the first part. *)
Definition version_first {A} (m1 : M MultiReader A) (m2 : M Buffer A) : Prop :=
  forall d b, length d = 2%nat ->
  match m1 [d; b], m2 (d ++ b) with
  | Ok (x1, r1'), Ok (x2, r2') => x1 = x2 /\ aligned r1' r2'
  | Err e1, Err e2 => e1 = e2
  | Panic w1, Panic w2 => w1 = w2
  | OutOfFuel, OutOfFuel => True
  | _, _ => False
  end.

Lemma version_first_Uint16 : version_first Uint16 Uint16.
Proof.
  intros d b Hd. unfold Uint16, mbind, M_bind, mret, M_ret.
  destruct (ReadFull_first d b ltac:(lia)) as (r & Hr & Ha). rewrite Hd in Hr.
  by rewrite Hr, ReadFull_app.
Qed.

Lemma version_first_wrapf {A} s (m1 : M MultiReader A) m2 :
  version_first m1 m2 -> version_first (wrapf s m1) (wrapf s m2).
Proof.
  intros Hm d b Hd. specialize (Hm d b Hd). unfold wrapf.
  destruct (m1 [d; b]) as [[??]|e1| |], (m2 (d ++ b)) as [[??]|e2| |]; naive_solver.
Qed.

Lemma version_first_bind {A B} (m1 : M MultiReader A) m2 (f1 : A -> M MultiReader B) f2 :
  version_first m1 m2 -> (forall x, Simulates (f1 x) (f2 x)) ->
  version_first (m1 ≫= f1) (m2 ≫= f2).
Proof.
  intros Hm Hf d b Hd. specialize (Hm d b Hd). unfold mbind, M_bind.
  destruct (m1 [d; b]) as [[x1 r1]|e1| |], (m2 (d ++ b)) as [[x2 r2]|e2| |]; try done.
  destruct Hm as [-> Ha]. by apply Hf.
Qed.

Ltac version_first :=
  repeat first
    [ apply version_first_Uint16
    | apply version_first_wrapf
    | apply version_first_bind; [|intros ?; try (apply Simulates_repeatM); simulate] ].

Lemma v1_first : version_first NetFlow1.Read NetFlow1.Read.
Proof. unfold NetFlow1.Read, NetFlow1.Packet_Unmarshal, NetFlow1.PacketHeader_Unmarshal. version_first. Qed.
Lemma v5_first : version_first NetFlow5.Read NetFlow5.Read.
Proof. unfold NetFlow5.Read, NetFlow5.Packet_Unmarshal, NetFlow5.PacketHeader_Unmarshal. version_first. Qed.
Lemma v6_first : version_first NetFlow6.Read NetFlow6.Read.
Proof. unfold NetFlow6.Read, NetFlow6.Packet_Unmarshal, NetFlow6.PacketHeader_Unmarshal. version_first. Qed.
Lemma v7_first : version_first NetFlow7.Read NetFlow7.Read.
Proof. unfold NetFlow7.Read, NetFlow7.Packet_Unmarshal, NetFlow7.PacketHeader_Unmarshal. version_first. Qed.
Lemma v9_header_first :
  version_first NetFlow9.PacketHeader_Unmarshal NetFlow9.PacketHeader_Unmarshal.
Proof. unfold NetFlow9.PacketHeader_Unmarshal. version_first. Qed.
Lemma ipfix_header_first :
  version_first IPFIX.MessageHeader_Unmarshal IPFIX.MessageHeader_Unmarshal.
Proof. unfold IPFIX.MessageHeader_Unmarshal. version_first. Qed.

Lemma aligned_data r b : aligned r b -> io_data r = b.
Proof. intros Ha. by destruct Ha; simpl; rewrite ?app_nil_r. Qed.

Lemma v9_Read_first fuel d b (s : Session) t :
  length d = 2%nat ->
  (NetFlow9.Read fuel [d; b] s t).1 = (NetFlow9.Read fuel (d ++ b) s t).1 /\
  discard (NetFlow9.Read fuel [d; b] s t).2 = discard (NetFlow9.Read fuel (d ++ b) s t).2.
Proof.
  intros Hd. unfold NetFlow9.Read. pose proof (v9_header_first d b Hd) as Hh.
  destruct (NetFlow9.PacketHeader_Unmarshal [d; b]) as [[h1 r1]|e1| |],
    (NetFlow9.PacketHeader_Unmarshal (d ++ b)) as [[h2 r2]|e2| |]; try done; [|by subst..].
  destruct Hh as [-> Ha]. destruct (negb _); [done|]. destruct (_ =? 0); [done|].
  unfold NetFlow9.UnmarshalFlowSets. pose proof (Simulates_ReadFrom r1 r2 Ha) as Hr.
  destruct (ReadFrom r1) as [[x1 r1']|e1| |], (ReadFrom r2) as [[x2 r2']|e2| |];
    try done; [|by subst..].
  destruct Hr as [-> Ha']. destruct (_ =? _)%nat; [done|].
  destruct (NetFlow9.FlowSets_loop _ _ _ _ _ _) as [[p s'] o]. split; [done|by destruct o].
Qed.

Lemma ipfix_Read_first fuel d b (s : Session) t :
  length d = 2%nat ->
  (IPFIX.Read fuel [d; b] s t).1 = (IPFIX.Read fuel (d ++ b) s t).1 /\
  discard (IPFIX.Read fuel [d; b] s t).2 = discard (IPFIX.Read fuel (d ++ b) s t).2.
Proof.
  intros Hd. unfold IPFIX.Read. pose proof (ipfix_header_first d b Hd) as Hh.
  destruct (IPFIX.MessageHeader_Unmarshal [d; b]) as [[h1 r1]|e1| |],
    (IPFIX.MessageHeader_Unmarshal (d ++ b)) as [[h2 r2]|e2| |]; try done; [|by subst..].
  destruct Hh as [-> Ha]. destruct (_ <? _); [done|]. destruct (negb _); [done|].
  unfold IPFIX.UnmarshalSets. destruct (_ <=? 0); [done|].
  pose proof (Simulates_ReadFull (Z.to_nat (IPFIX.mh_Length (IPFIX.Header
    (IPFIX.mkMessage h2 [] [] [] []))- 16)) r1 r2 Ha) as Hr.
  destruct (ReadFull _ r1) as [[x1 r1']|e1| |], (ReadFull _ r2) as [[x2 r2']|e2| |];
    try done; [|by rewrite (aligned_data r1 r2 Ha); subst|by subst].
  destruct Hr as [-> Ha'].
  destruct (IPFIX.Sets_loop _ _ _ _ _ _) as [[m s'] o]. split; [done|by destruct o].
Qed.

Lemma stateless_first {P} (mk : P -> Message) (m1 : M MultiReader P) m2 d b s :
  version_first m1 m2 -> length d = 2%nat ->
  stateless mk (m1 [d; b]) s = stateless mk (m2 (d ++ b)) s.
Proof.
  intros Hm Hd. specialize (Hm d b Hd). unfold stateless.
  destruct (m1 [d; b]) as [[x1 r1]|e1| |], (m2 (d ++ b)) as [[x2 r2]|e2| |]; try done.
  - by destruct Hm as [-> _].
  - by subst.
  - by subst.
Qed.

Lemma Decoder_Read_switch fuel b s :
  Decoder_Read fuel b s =
    if (2 <=? length b)%nat then Decoder_switch fuel (be_combine (take 2 b)) b s
    else ((None, s), Err (Wrapf "failed to read netflow version number: %v" []
                            (match b with [] => EOF | _ => ErrUnexpectedEOF end))).
Proof.
  unfold Decoder_Read. rewrite ReadFull_Buffer. destruct (Nat.leb_spec 2 (length b)) as [Hl|]; [|done].
  cbv zeta. unfold Decoder_switch.
  assert (length (take 2 b) = 2%nat) as Hd by (rewrite length_take; lia).
  rewrite (stateless_first _ _ _ _ _ _ v1_first Hd), (stateless_first _ _ _ _ _ _ v5_first Hd),
    (stateless_first _ _ _ _ _ _ v6_first Hd), (stateless_first _ _ _ _ _ _ v7_first Hd), take_drop.
  repeat (destruct (_ =? _); [done|]).
  destruct (_ =? NetFlow9.Version).
  - destruct (v9_Read_first fuel (take 2 b) (drop 2 b) s None Hd) as [H1 H2].
    rewrite take_drop in H1, H2.
    destruct (NetFlow9.Read fuel [take 2 b; drop 2 b] s None) as [[p1 s1] o1],
      (NetFlow9.Read fuel b s None) as [[p2 s2] o2]. simpl in *. congruence.
  - destruct (_ =? IPFIX.Version); [|done].
    destruct (ipfix_Read_first fuel (take 2 b) (drop 2 b) s None Hd) as [H1 H2].
    rewrite take_drop in H1, H2.
    destruct (IPFIX.Read fuel [take 2 b; drop 2 b] s None) as [[p1 s1] o1],
      (IPFIX.Read fuel b s None) as [[p2 s2] o2]. simpl in *. congruence.
Qed.

Lemma Takes_repeatM0 {A} n (m : M Buffer A) : Takes 0 m -> Takes 0 (repeatM n m).
Proof. intros Hm. eapply Takes_weaken; [by apply Takes_repeatM|lia]. Qed.

Lemma Takes_pos0 {A} k (m : M Buffer A) : Takes k m -> Takes 0 m.
Proof. intros Hm. eapply Takes_weaken; [exact Hm|lia]. Qed.

Ltac counted_takes :=
  repeat first
    [ apply Takes_ret | apply Takes_fail | apply Takes_repeatM0
    | apply (Takes_bind 0 0); [|intros ?]
    | match goal with |- Takes 0 (if ?c then _ else _) => destruct c end
    | eapply Takes_pos0, Takes_Strict, Strict_ReadFull
    | apply Takes_io_Read ].

Lemma Takes_wrapf {A} s (m : M Buffer A) : Takes 0 m -> Takes 0 (wrapf s m).
Proof. intros Hm b. specialize (Hm b). unfold wrapf. by destruct (m b) as [[x b']| | |]. Qed.

Ltac header_takes :=
  repeat first [apply Takes_wrapf | progress counted_takes].

Lemma v1_takes : Takes 0 NetFlow1.Read.
Proof.
  unfold NetFlow1.Read, NetFlow1.Packet_Unmarshal, NetFlow1.PacketHeader_Unmarshal,
    NetFlow1.FlowRecord_Unmarshal. counted_takes.
Qed.
Lemma v5_takes : Takes 0 NetFlow5.Read.
Proof.
  unfold NetFlow5.Read, NetFlow5.Packet_Unmarshal, NetFlow5.PacketHeader_Unmarshal,
    NetFlow5.FlowRecord_Unmarshal. counted_takes.
Qed.
Lemma v6_takes : Takes 0 NetFlow6.Read.
Proof.
  unfold NetFlow6.Read, NetFlow6.Packet_Unmarshal, NetFlow6.PacketHeader_Unmarshal,
    NetFlow6.FlowRecord_Unmarshal. counted_takes.
Qed.
Lemma v7_takes : Takes 0 NetFlow7.Read.
Proof.
  unfold NetFlow7.Read, NetFlow7.Packet_Unmarshal, NetFlow7.PacketHeader_Unmarshal,
    NetFlow7.FlowRecord_Unmarshal. counted_takes.
Qed.

(** A version 9 or IPFIX decoder ends on every datagram, unless a template is of size zero. *)
Definition zero_size (s : Session) : Prop :=
  exists ss src id tm, s = Some ss /\ GetTemplate ss src id = Some tm /\
    (NetFlow9.template_size (NetFlow9.type_switch tm) = Some 0%nat \/
     IPFIX.template_least (IPFIX.type_switch tm) = Some 0%nat).

Definition ends_unless {A} (P : Prop) (o : outcome A) : Prop :=
  match o with Ok _ | Err _ => True | Panic _ => False | OutOfFuel => P end.

Lemma ends_discard {A} P (o : outcome A) : ends_unless P o -> ends_unless P (discard o).
Proof. by destruct o. Qed.

Lemma stateless_ends {P} (mk : P -> Message) (m : M Buffer P) b s Q :
  Takes 0 m -> ends_unless Q (stateless mk (m b) s).2.
Proof. intros Hm. specialize (Hm b). unfold stateless. by destruct (m b) as [[x b']| | |]. Qed.

Lemma v9_Read_ends fuel (b : Buffer) (s : Session) t :
  (length b <= fuel)%nat ->
  ends_unless (zero_size (NetFlow9.Read fuel b s t).1.2) (NetFlow9.Read fuel b s t).2.
Proof.
  intros Hf. unfold NetFlow9.Read.
  assert (Takes 0 (NetFlow9.PacketHeader_Unmarshal (R := Buffer))) as Hh.
  { unfold NetFlow9.PacketHeader_Unmarshal. header_takes. }
  specialize (Hh b). destruct (NetFlow9.PacketHeader_Unmarshal b) as [[h b1]| | |]; [|done..].
  destruct (negb _); [done|]. destruct (_ =? 0); [done|].
  unfold NetFlow9.UnmarshalFlowSets. rewrite ReadFrom_Buffer. destruct (_ =? _)%nat; [done|].
  match goal with |- context [NetFlow9.FlowSets_loop fuel ?t ?n 0 b1 ?ps] =>
    pose proof (v9_loop_returns fuel t n 0 b1 ps ltac:(lia)) as Hl;
    destruct (NetFlow9.FlowSets_loop fuel t n 0 b1 ps) as [[p' s'] o] end.
  cbn [fst snd] in *. destruct o; simpl in *; try done.
  destruct Hl as (ss & id & tm & -> & Hg & Hz). exists ss, (NetFlow9.SourceID h), id, tm. auto.
Qed.

Lemma ipfix_Read_ends fuel (b : Buffer) (s : Session) t :
  (length b <= fuel)%nat ->
  ends_unless (zero_size (IPFIX.Read fuel b s t).1.2) (IPFIX.Read fuel b s t).2.
Proof.
  intros Hf. unfold IPFIX.Read.
  assert (Takes 0 (IPFIX.MessageHeader_Unmarshal (R := Buffer))) as Hh.
  { unfold IPFIX.MessageHeader_Unmarshal. header_takes. }
  specialize (Hh b). destruct (IPFIX.MessageHeader_Unmarshal b) as [[h b1]| | |]; [|done..].
  destruct (_ <? _); [done|]. destruct (negb _); [done|].
  unfold IPFIX.UnmarshalSets. destruct (_ <=? 0); [done|].
  pose proof (Strict_ReadFull (Z.to_nat (IPFIX.mh_Length h - 16)) b1) as Hr. cbn [IPFIX.Header] in *.
  destruct (ReadFull _ b1) as [[data b2]| | |] eqn:E; [|done..].
  assert (length data <= length b1)%nat as Hd.
  { rewrite ReadFull_Buffer in E. destruct (_ <=? _)%nat; [|done]. injection E as <- _.
    rewrite length_take. lia. }
  match goal with |- context [IPFIX.Sets_loop fuel ?t ?n 0 data ?ms] =>
    pose proof (ipfix_loop_returns fuel t n 0 data ms ltac:(lia) ltac:(lia)) as Hl;
    destruct (IPFIX.Sets_loop fuel t n 0 data ms) as [[m' s'] o] end.
  cbn [fst snd] in *. destruct o; simpl in *; try done.
  destruct Hl as (ss & id & tm & -> & Hg & Hz). exists ss, (IPFIX.ObservationDomainID h), id, tm. auto.
Qed.

Lemma Decoder_switch_ends fuel v (b : Buffer) s :
  (length b <= fuel)%nat ->
  ends_unless (zero_size (Decoder_switch fuel v b s).1.2) (Decoder_switch fuel v b s).2.
Proof.
  intros Hf. unfold Decoder_switch.
  destruct (_ =? _); [apply stateless_ends, v1_takes|].
  destruct (_ =? _); [apply stateless_ends, v5_takes|].
  destruct (_ =? _); [apply stateless_ends, v6_takes|].
  destruct (_ =? _); [apply stateless_ends, v7_takes|].
  destruct (_ =? _).
  { pose proof (v9_Read_ends fuel b s None Hf) as Hr.
    destruct (NetFlow9.Read fuel b s None) as [[p s'] o]. by apply ends_discard. }
  destruct (_ =? _); [|done].
  pose proof (ipfix_Read_ends fuel b s None Hf) as Hr.
  destruct (IPFIX.Read fuel b s None) as [[p s'] o]. by apply ends_discard.
Qed.

(** ** Templates of other sources *)

(** The source a message registers templates for. *)
Definition message_source (m : option Message) : option Z :=
  match m with
  | Some (MNetFlow9 p) => Some (NetFlow9.SourceID (NetFlow9.Header p))
  | Some (MIPFIX m) => Some (IPFIX.ObservationDomainID (IPFIX.Header m))
  | _ => None
  end.

(** The sessions agree on every source but [src]. *)
Definition same_elsewhere (src : option Z) (s s' : Session) : Prop :=
  match s, s' with
  | Some ss, Some ss' => forall x id, src <> Some x -> GetTemplate ss' x id = GetTemplate ss x id
  | None, None => True
  | _, _ => False
  end.

Lemma same_elsewhere_refl src s : same_elsewhere src s s.
Proof. by destruct s. Qed.

Lemma same_elsewhere_trans src s1 s2 s3 :
  same_elsewhere src s1 s2 -> same_elsewhere src s2 s3 -> same_elsewhere src s1 s3.
Proof.
  destruct s1, s2, s3; simpl; try done. intros H12 H23 x id Hx. by rewrite H23, H12.
Qed.

Lemma same_elsewhere_add src (s : Session) ts :
  same_elsewhere (Some src) s ((fun s => AddTemplates s src ts) <$> s).
Proof.
  destruct s as [ss|]; [|done]. intros x id Hx. apply GetTemplate_AddTemplates_source. congruence.
Qed.

Lemma stepping_session {A Q} (p : Q) (s : Session) (o : outcome A) k src :
  (forall a, same_elsewhere src s (k a).2) -> same_elsewhere src s (stepping (p, s) o k).1.2.
Proof. intros Hk. destruct o; [apply Hk|apply same_elsewhere_refl..]. Qed.

Ltac unchanged := first [apply same_elsewhere_refl | apply same_elsewhere_add].

Lemma v9_handle_elsewhere fuel t i h data (ps : NetFlow9.Packet * Session) :
  same_elsewhere (Some (NetFlow9.SourceID (NetFlow9.Header ps.1))) ps.2
    (NetFlow9.handle_FlowSet fuel t i h data ps).1.2.
Proof.
  destruct ps as [p s]. unfold NetFlow9.handle_FlowSet. cbn [fst snd].
  destruct (_ =? 0); [apply stepping_session; intros; unchanged|].
  destruct (_ =? 1); [apply stepping_session; intros; unchanged|].
  destruct s as [ss|]; [|done].
  destruct (GetTemplate _ _ _) as [tm|]; [|unchanged].
  destruct (NetFlow9.type_switch tm); [apply stepping_session; intros; unchanged..|unchanged].
Qed.

Lemma v9_loop_elsewhere fuel t n i b (ps : NetFlow9.Packet * Session) :
  NetFlow9.Header (NetFlow9.FlowSets_loop fuel t n i b ps).1.1 = NetFlow9.Header ps.1 /\
  same_elsewhere (Some (NetFlow9.SourceID (NetFlow9.Header ps.1))) ps.2
    (NetFlow9.FlowSets_loop fuel t n i b ps).1.2.
Proof.
  revert i b ps; induction n as [|n IH]; intros i b ps; cbn [NetFlow9.FlowSets_loop];
    [split; [done|unchanged]|].
  destruct (longer 0 b); [|split; [done|unchanged]].
  destruct (NetFlow9.read_FlowSet i b) as [[[h data] b']| | |]; [|split; [done|unchanged]..].
  pose proof (v9_handle_elsewhere fuel t i h data ps) as Hs.
  pose proof (v9_handle_header fuel t i h data ps) as Hp.
  destruct (NetFlow9.handle_FlowSet fuel t i h data ps) as [ps' [x|e|w|]]; cbn [fst snd] in *;
    [|by split..].
  destruct (IH (i + 1) b' ps') as [Hh Hs']. rewrite Hp in Hh, Hs'. split; [done|].
  by eapply same_elsewhere_trans.
Qed.

Lemma ipfix_handle_elsewhere fuel t i h data (ms : IPFIX.Message * Session) :
  same_elsewhere (Some (IPFIX.ObservationDomainID (IPFIX.Header ms.1))) ms.2
    (IPFIX.handle_Set fuel t i h data ms).1.2.
Proof.
  destruct ms as [m s]. unfold IPFIX.handle_Set. cbn [fst snd].
  destruct (_ <? 2); [unchanged|].
  destruct (_ =? 2); [apply stepping_session; intros; unchanged|].
  destruct (_ =? 3); [apply stepping_session; intros; unchanged|].
  destruct (_ && _); [unchanged|]. destruct s as [ss|]; [|done].
  destruct (GetTemplate _ _ _) as [tm|]; [|unchanged].
  destruct (IPFIX.type_switch tm); [apply stepping_session; intros; unchanged..|unchanged].
Qed.

Lemma ipfix_loop_elsewhere fuel t n i b (ms : IPFIX.Message * Session) :
  IPFIX.Header (IPFIX.Sets_loop fuel t n i b ms).1.1 = IPFIX.Header ms.1 /\
  same_elsewhere (Some (IPFIX.ObservationDomainID (IPFIX.Header ms.1))) ms.2
    (IPFIX.Sets_loop fuel t n i b ms).1.2.
Proof.
  revert i b ms; induction n as [|n IH]; intros i b ms; cbn [IPFIX.Sets_loop];
    (destruct (longer 0 b); [|split; [done|unchanged]]); [split; [done|unchanged]|].
  destruct (IPFIX.read_Set i b) as [[[h data] b']| | |]; [|split; [done|unchanged]..].
  pose proof (ipfix_handle_elsewhere fuel t i h data ms) as Hs.
  pose proof (ipfix_handle_header fuel t i h data ms) as Hp.
  destruct (IPFIX.handle_Set fuel t i h data ms) as [ms' [x|e|w|]]; cbn [fst snd] in *;
    [|by split..].
  destruct (IH (i + 1) b' ms') as [Hh Hs']. rewrite Hp in Hh, Hs'. split; [done|].
  by eapply same_elsewhere_trans.
Qed.

Lemma stateless_elsewhere {P R} (mk : P -> Message) (o : outcome (P * R)) src s :
  same_elsewhere src s (stateless mk o s).1.2.
Proof. destruct o as [[? ?]| | |]; unchanged. Qed.

Lemma Decoder_switch_elsewhere fuel v (b : Buffer) s :
  same_elsewhere (message_source (Decoder_switch fuel v b s).1.1) s
    (Decoder_switch fuel v b s).1.2.
Proof.
  unfold Decoder_switch. do 4 (destruct (_ =? _); [apply stateless_elsewhere|]).
  destruct (_ =? _).
  { unfold NetFlow9.Read. destruct (NetFlow9.PacketHeader_Unmarshal b) as [[h b1]| | |]; [|unchanged..].
    destruct (negb _); [unchanged|]. destruct (_ =? 0); [unchanged|].
    unfold NetFlow9.UnmarshalFlowSets. destruct (ReadFrom b1) as [[buffer b2]| | |]; [|unchanged..].
    destruct (_ =? _)%nat; [unchanged|].
    match goal with |- context [NetFlow9.FlowSets_loop fuel ?t ?n 0 buffer ?ps] =>
      pose proof (v9_loop_elsewhere fuel t n 0 buffer ps) as [Hh Hl];
      destruct (NetFlow9.FlowSets_loop fuel t n 0 buffer ps) as [[p' s'] o] end.
    cbn in *. by rewrite Hh. }
  destruct (_ =? _); [|unchanged].
  unfold IPFIX.Read. destruct (IPFIX.MessageHeader_Unmarshal b) as [[h b1]| | |]; [|unchanged..].
  destruct (_ <? _); [unchanged|]. destruct (negb _); [unchanged|].
  unfold IPFIX.UnmarshalSets. destruct (_ <=? 0); [unchanged|].
  destruct (ReadFull _ b1) as [[buffer b2]| | |]; [|unchanged..].
  match goal with |- context [IPFIX.Sets_loop fuel ?t ?n 0 buffer ?ms] =>
    pose proof (ipfix_loop_elsewhere fuel t n 0 buffer ms) as [Hh Hl];
    destruct (IPFIX.Sets_loop fuel t n 0 buffer ms) as [[m' s'] o] end.
  cbn in *. by rewrite Hh.
Qed.

(** A datagram that starts with a version word. *)
Definition starts_with (v : Z) (b : bytes) : Prop := exists w, b = be_split 2 v ++ w.

Lemma counted_wire v c w ws : starts_with v ((be_split 2 v ++ c ++ w) ++ ws).
Proof. exists ((c ++ w) ++ ws). by rewrite <- !app_assoc. Qed.

Lemma Decoder_Read_starts fuel v b rest s :
  starts_with v b -> 0 <= v < 65536 ->
  Decoder_Read fuel (b ++ rest) s = Decoder_switch fuel v (b ++ rest) s.
Proof.
  intros [w ->] Hv. rewrite Decoder_Read_switch, <- app_assoc.
  destruct (Nat.leb_spec 2 (length (be_split 2 v ++ w ++ rest))) as [_|Hl].
  - rewrite take_app_length' by (by rewrite length_be_split). by rewrite be_combine_split_id.
  - rewrite length_app, length_be_split in Hl. lia.
Qed.

(** ** Properties *)

(** C9: the dispatcher.  The version word that is read first is put back with an
    [io.MultiReader]; although a [Read] on such a reader may return fewer bytes than asked
    for, every decoder behaves exactly as if it had been given the datagram in one piece: the
    same message, the same session, the same error. *)
Theorem Decoder_Read_is_switch fuel b s :
  Decoder_Read fuel b s =
    if (2 <=? length b)%nat then Decoder_switch fuel (be_combine (take 2 b)) b s
    else ((None, s), Err (Wrapf "failed to read netflow version number: %v" []
                            (match b with [] => EOF | _ => ErrUnexpectedEOF end))).
Proof. apply Decoder_Read_switch. Qed.

(** C3: the decoder never panics, whatever the datagram and whatever the session holds, and
    with one unit of fuel per byte it returns - a message or an error - except when a template
    of size zero is in the session it ends with: that is the only way to make it hang. *)
Theorem Decoder_Read_ends fuel b s :
  (length b <= fuel)%nat ->
  ends_unless (zero_size (Decoder_Read fuel b s).1.2) (Decoder_Read fuel b s).2.
Proof.
  intros Hf. rewrite Decoder_Read_switch. destruct (_ <=? _)%nat; [|done].
  by apply Decoder_switch_ends.
Qed.

Lemma Decoder_Read_ends_witness :
  ends_unless (zero_size (Decoder_Read 3 [0; 9; 1] (Some New)).1.2)
    (Decoder_Read 3 [0; 9; 1] (Some New)).2 /\
  (Decoder_Read 3 [0; 9; 1] (Some New)).2 =
    Err (Wrapf "netflow9 header truncated while reading count field: %v" [] ErrUnexpectedEOF).
Proof. split; [apply Decoder_Read_ends; simpl; lia|reflexivity]. Defined.

(** C8: isolation of sources.  A datagram changes the templates of its own source (version 9)
    or observation domain (IPFIX) only: for every other one, and for every source when no
    message with a source is returned, the session answers as before, also when the datagram
    is rejected half way. *)
Theorem Decoder_Read_isolates_sources fuel b s :
  same_elsewhere (message_source (Decoder_Read fuel b s).1.1) s (Decoder_Read fuel b s).1.2.
Proof.
  rewrite Decoder_Read_switch. destruct (_ <=? _)%nat; [|unchanged].
  apply Decoder_switch_elsewhere.
Qed.

(** C6: the fixed layouts.  A datagram of NetFlow 1, 5, 6 or 7, any valid header with the
    number of records it counts, decodes to exactly that header and those records, every field
    at its width, byte order and offset; bytes after the last record are ignored and the
    session is not touched. *)
Theorem fixed_versions_roundtrip fuel rest s :
  (forall p, NetFlow1.packet_ok p -> NetFlow1.Version' (NetFlow1.Header p) = 1 ->
     Decoder_Read fuel (NetFlow1.packet_wire p ++ rest) s = ((Some (MNetFlow1 p), s), Ok tt)) /\
  (forall p, NetFlow5.packet_ok p -> NetFlow5.Version' (NetFlow5.Header p) = 5 ->
     Decoder_Read fuel (NetFlow5.packet_wire p ++ rest) s = ((Some (MNetFlow5 p), s), Ok tt)) /\
  (forall p, NetFlow6.packet_ok p -> NetFlow6.Version' (NetFlow6.Header p) = 6 ->
     Decoder_Read fuel (NetFlow6.packet_wire p ++ rest) s = ((Some (MNetFlow6 p), s), Ok tt)) /\
  (forall p, NetFlow7.packet_ok p -> NetFlow7.Version' (NetFlow7.Header p) = 7 ->
     Decoder_Read fuel (NetFlow7.packet_wire p ++ rest) s = ((Some (MNetFlow7 p), s), Ok tt)).
Proof.
  split_and!; intros p Hp Hv.
  - rewrite (Decoder_Read_starts _ 1); [|rewrite <- Hv; apply counted_wire|done].
    unfold Decoder_switch, stateless. simpl. by rewrite v1_roundtrip.
  - rewrite (Decoder_Read_starts _ 5); [|rewrite <- Hv; apply counted_wire|done].
    unfold Decoder_switch, stateless. simpl. by rewrite v5_roundtrip.
  - rewrite (Decoder_Read_starts _ 6); [|rewrite <- Hv; apply counted_wire|done].
    unfold Decoder_switch, stateless. simpl. by rewrite v6_roundtrip.
  - rewrite (Decoder_Read_starts _ 7); [|rewrite <- Hv; apply counted_wire|done].
    unfold Decoder_switch, stateless. simpl. by rewrite v7_roundtrip.
Qed.

Lemma fixed_versions_roundtrip_witness :
  Decoder_Read 0 (NetFlow7.packet_wire (NetFlow7.mkPacket NetFlow7.sample_header
                    [NetFlow7.sample_record]) ++ [1; 2]) None =
  ((Some (MNetFlow7 (NetFlow7.mkPacket NetFlow7.sample_header [NetFlow7.sample_record])), None),
   Ok tt).
Proof.
  apply (fixed_versions_roundtrip 0 [1; 2] None); [exact NetFlow7.sample_packet_ok|reflexivity].
Defined.

Lemma stateless_accept {P R} (mk : P -> Message) (o : outcome (P * R)) s (Q : Prop) :
  match o with Ok _ => Q | Err _ => ~ Q | Panic _ | OutOfFuel => False end ->
  ((stateless mk o s).2 = Ok tt <-> Q) /\
  ((exists e, (stateless mk o s).2 = Err e) <-> ~ Q).
Proof.
  destruct o as [[p r]|e| |]; simpl; [| |done..]; intros HQ.
  - split; [done|]. split; [by intros [e ?]|done].
  - split; [done|]. split; [done|by eexists].
Qed.

(** C7: what is rejected.  A datagram of NetFlow 1, 5 or 6 is accepted exactly when its count
    word is between 1 and 32 and every record it counts is there to the last byte; otherwise
    it is an error, never a panic and never a message with fewer records. *)
Theorem fixed_versions_accept fuel v size b s :
  (v, size) ∈ [(1, (16, 48)); (5, (24, 48)); (6, (24, 52))]%nat ->
  (2 <= length b)%nat -> be_combine (take 2 b) = Z.of_nat v ->
  ((Decoder_Read fuel b s).2 = Ok tt <->
   1 <= count_word b <= 32 /\ (size.1 + Z.to_nat (count_word b) * size.2 <= length b)%nat) /\
  ((exists e, (Decoder_Read fuel b s).2 = Err e) <->
   ~ (1 <= count_word b <= 32 /\ (size.1 + Z.to_nat (count_word b) * size.2 <= length b)%nat)).
Proof.
  intros Hv Hl Hb. rewrite Decoder_Read_switch.
  destruct (Nat.leb_spec 2 (length b)) as [_|]; [|lia]. rewrite Hb. unfold Decoder_switch.
  rewrite !elem_of_cons, elem_of_nil in Hv.
  destruct Hv as [[= -> ->]|[[= -> ->]|[[= -> ->]|[]]]]; cbn [fst snd];
    simpl Z.of_nat; simpl Z.eqb; cbv iota; apply stateless_accept.
  - pose proof (v1_decode_spec b) as Hd. destruct (NetFlow1.Read b) as [[p b']| | |]; simpl in *; lia.
  - pose proof (v5_decode_spec b) as Hd. destruct (NetFlow5.Read b) as [[p b']| | |]; simpl in *; lia.
  - pose proof (v6_decode_spec b) as Hd. destruct (NetFlow6.Read b) as [[p b']| | |]; simpl in *; lia.
Qed.

Lemma fixed_versions_accept_witness :
  (exists e, (Decoder_Read 0 (take 71 (NetFlow5.packet_wire (NetFlow5.mkPacket
     (NetFlow5.mkPacketHeader 5 1 0 (mkTime 0 0) 0 0 0 0)
     [NetFlow5.mkFlowRecord [1;1;1;1] [1;1;1;1] [1;1;1;1] 0 0 0 0 0 0 0 0 0 0 0 0 0 0 0 0 0]))) None).2
     = Err e).
Proof.
  apply (fixed_versions_accept 0 5 (24, 48)%nat); [set_solver|vm_compute; lia|reflexivity|].
  vm_compute. intros [_ Hl]. lia.
Defined.
