(* ===== verification/GoAddr.v ===== *)
(** * Texts of Go addresses

    The texts the package [net] gives to an [IP] and to a [HardwareAddr], and [ParseMAC]. *)
From Stdlib Require Import Ascii.
From S2P Require Import Prelude GoIO GoStrings GoNet.

#[local] Arguments String.append !_ _ : simpl nomatch.

(** ** Hexadecimal digits *)

Definition hexDigit (n : Z) : ascii := chr (if n <? 10 then n + 48 else n + 87).
Definition hex2 (b : Z) : string :=
  String (hexDigit (Z.shiftr b 4)) (String (hexDigit (Z.land b 15)) "").

(** [netip.appendHex]: no leading zeros. *)
Definition appendHex (x : Z) : string :=
  (if 0x1000 <=? x then String (hexDigit (Z.shiftr x 12)) "" else "") +:+
  (if 0x100 <=? x then String (hexDigit (Z.land (Z.shiftr x 8) 15)) "" else "") +:+
  (if 0x10 <=? x then String (hexDigit (Z.land (Z.shiftr x 4) 15)) "" else "") +:+
  String (hexDigit (Z.land x 15)) "".

(** ** IP.String *)

(** The [i]th 16-bit group of 16 bytes. *)
Definition v6u16 (ip : bytes) (i : nat) : Z := be_combine (take 2 (drop (2 * i) ip)).

Fixpoint zero_run (fuel : nat) (ip : bytes) (j : nat) : nat :=
  match fuel with
  | O => j
  | S fuel' => if v6u16 ip j =? 0 then zero_run fuel' ip (S j) else j
  end.

(** The first longest run of at least two zero groups, as its start and its end. *)
Definition longest_zeros (ip : bytes) : option (nat * nat) :=
  foldl (fun best i =>
    let j := zero_run (8 - i) ip i in
    let l := (j - i)%nat in
    let best_len := match best with Some (a, b) => (b - a)%nat | None => O end in
    if (2 <=? l)%nat && (best_len <? l)%nat then Some (i, j) else best)
    None (seq 0 8).

Definition groups (ip : bytes) (from upto : nat) : string :=
  strings_Join (map (fun i => appendHex (v6u16 ip i)) (seq from (upto - from))) ":".

(** [netip.Addr.string6]. *)
Definition v6_text (ip : bytes) : string :=
  match longest_zeros ip with
  | Some (a, b) => groups ip 0 a +:+ "::" +:+ groups ip b 8
  | None => groups ip 0 8
  end.

Definition IP_String (ip : IP) : string :=
  match ip with
  | [] => "<nil>"
  | _ =>
      if decide (length ip <> 4%nat /\ length ip <> 16%nat)
      then "?" +:+ strings_Join (map hex2 ip) ""
      else match To4 ip with
           | Some p4 => v4_text p4
           | None => v6_text ip
           end
  end.

(** ** Hardware addresses *)

Definition HardwareAddr_String (a : bytes) : string := strings_Join (map hex2 a) ":".

(** [xtoi2]: two hexadecimal digits, followed by [e] or by nothing. *)
Definition xtoi2 (s : string) (e : ascii) : option Z :=
  match s with
  | String a (String b r) =>
      match r with
      | String c _ => if Ascii.eqb c e then h ← hexdigit a; l ← hexdigit b; Some (h * 16 + l) else None
      | "" => h ← hexdigit a; l ← hexdigit b; Some (h * 16 + l)
      end
  | _ => None
  end.

(** The loop over the pairs of "aa:bb:..". *)
Fixpoint mac_pairs (n : nat) (e : ascii) (s : string) : option bytes :=
  match n with
  | O => Some []
  | S n' => b ← xtoi2 s e; bs ← mac_pairs n' e (sdrop 3 s); Some (b :: bs)
  end.

(** The loop over the quads of "aabb.ccdd..". *)
Fixpoint mac_quads (n : nat) (e : ascii) (s : string) : option bytes :=
  match n with
  | O => Some []
  | S n' =>
      a ← xtoi2 (String.substring 0 2 s) "000"; b ← xtoi2 (sdrop 2 s) e;
      bs ← mac_quads n' e (sdrop 5 s); Some (a :: b :: bs)
  end.

Definition mac_length (n : nat) : bool := (n =? 6)%nat || (n =? 8)%nat || (n =? 20)%nat.

(** [net.ParseMAC]; the error is dropped by the callers, [None] is a nil slice. *)
Definition ParseMAC (s : string) : option bytes :=
  let l := String.length s in
  if (l <? 14)%nat then None else
  let at_ i := default "000"%char (String.get i s) in
  if Ascii.eqb (at_ 2%nat) ":" || Ascii.eqb (at_ 2%nat) "-" then
    let n := ((l + 1) / 3)%nat in
    if negb ((l + 1) mod 3 =? 0)%nat || negb (mac_length n) then None
    else mac_pairs n (at_ 2%nat) s
  else if Ascii.eqb (at_ 4%nat) "." then
    let n := (2 * (l + 1) / 5)%nat in
    if negb ((l + 1) mod 5 =? 0)%nat || negb (mac_length n) then None
    else mac_quads (n / 2) (at_ 4%nat) s
  else None.

(** ** Facts *)

Lemma hex2_digits b : in_range 8 b ->
  exists x y, hex2 b = String x (String y "") /\
    hexdigit x = Some (Z.shiftr b 4) /\ hexdigit y = Some (Z.land b 15).
Proof.
  intros Hb.
  assert (forallb (fun b =>
    bool_decide (hexdigit (hexDigit (Z.shiftr b 4)) = Some (Z.shiftr b 4) /\
                 hexdigit (hexDigit (Z.land b 15)) = Some (Z.land b 15)))
    (seqZ 0 256) = true) as Hall by (vm_compute; reflexivity).
  rewrite forallb_forall in Hall. do 2 eexists. split; [reflexivity|].
  eapply bool_decide_eq_true_1, Hall, list_elem_of_In, elem_of_seqZ.
  unfold in_range in Hb. lia.
Qed.

Lemma hex_parts b : Z.shiftr b 4 * 16 + Z.land b 15 = b.
Proof.
  rewrite Z.shiftr_div_pow2 by lia. change 15 with (Z.ones 4). rewrite Z.land_ones by lia.
  change (2 ^ 4) with 16. pose proof (Z.div_mod b 16). lia.
Qed.

Lemma xtoi2_hex2 b e : in_range 8 b -> xtoi2 (hex2 b) e = Some b.
Proof.
  intros (x & y & -> & Hx & Hy)%hex2_digits. cbn [xtoi2]. rewrite Hx, Hy.
  cbn. by rewrite hex_parts.
Qed.

Lemma xtoi2_hex2_sep b e r : in_range 8 b -> xtoi2 (hex2 b +:+ String e r) e = Some b.
Proof.
  intros (x & y & -> & Hx & Hy)%hex2_digits. cbn [xtoi2 String.append].
  rewrite Ascii.eqb_refl, Hx, Hy. cbn. by rewrite hex_parts.
Qed.

Lemma mac_pairs_S n e s :
  mac_pairs (S n) e s = (b ← xtoi2 s e; bs ← mac_pairs n e (sdrop 3 s); Some (b :: bs)).
Proof. done. Qed.

Lemma mac_pairs_String a :
  bytes_ok a -> a <> [] -> mac_pairs (length a) ":" (HardwareAddr_String a) = Some a.
Proof.
  intros Ha Hne. unfold HardwareAddr_String.
  induction Ha as [|b a Hb Ha IH]; [done|]. destruct a as [|b' a].
  { cbn [map strings_Join length mac_pairs]. by rewrite xtoi2_hex2. }
  cbn [map length]. change (strings_Join (hex2 b :: hex2 b' :: map hex2 a) ":")
    with (hex2 b +:+ String ":" (strings_Join (map hex2 (b' :: a)) ":")).
  rewrite mac_pairs_S, xtoi2_hex2_sep by done. cbn [mbind option_bind].
  change (sdrop 3 (hex2 b +:+ String ":" (strings_Join (map hex2 (b' :: a)) ":")))
    with (strings_Join (map hex2 (b' :: a)) ":").
  change (S (length a)) with (length (b' :: a)). by rewrite IH.
Qed.

Lemma length_HardwareAddr_String a :
  (1 <= length a)%nat -> (String.length (HardwareAddr_String a) + 1)%nat = (3 * length a)%nat.
Proof.
  unfold HardwareAddr_String. induction a as [|b a IH]; simpl length; [lia|].
  destruct a as [|b' a]; [done|]. intros _.
  change (strings_Join (map hex2 (b :: b' :: a)) ":")
    with (hex2 b +:+ String ":" (strings_Join (map hex2 (b' :: a)) ":")).
  rewrite slength_app. cbn [String.length hex2]. specialize (IH ltac:(simpl; lia)).
  simpl length in *. lia.
Qed.

Lemma ParseMAC_String a :
  length a = 6%nat -> bytes_ok a -> ParseMAC (HardwareAddr_String a) = Some a.
Proof.
  intros Hl Ha. pose proof (length_HardwareAddr_String a ltac:(lia)) as Hs.
  assert (String.get 2 (HardwareAddr_String a) = Some ":"%char) as Hg.
  { destruct a as [|b [|b' a]]; try done. }
  unfold ParseMAC. rewrite Hg. cbn [default].
  destruct (Nat.ltb_spec (String.length (HardwareAddr_String a)) 14); [lia|].
  rewrite Hs, Hl. cbn -[mac_pairs HardwareAddr_String]. rewrite <- Hl. apply mac_pairs_String; [done|].
  by destruct a.
Qed.

(** ** What ParseIP returns *)

Lemma digit_nonneg c d : digit c = Some d -> 0 <= d.
Proof. unfold digit. destruct ((48 <=? byte_of c) && _) eqn:E; [|done]. intros [= <-]. lia. Qed.

Lemma digits_from_nonneg s acc n : 0 <= acc -> digits_from acc s = Some n -> 0 <= n.
Proof.
  revert acc. induction s as [|c s IH]; intros acc Ha; cbn [digits_from]; [by intros [= <-]|].
  destruct (digit c) as [d|] eqn:E; [|done]. apply digit_nonneg in E. apply IH. lia.
Qed.

Lemma octet_range s n : octet s = Some n -> in_range 8 n.
Proof.
  intros Ho.
  assert (exists m, digits s = Some m /\ (if m <=? 255 then Some m else None) = Some n) as (m & Hd & Hm).
  { destruct s as [|c s]; [done|]. unfold octet in Ho.
    assert ((n0 ← digits (String c s); if n0 <=? 255 then Some n0 else None) = Some n) as H1.
    { destruct c as [[] [] [] [] [] [] [] []]; try exact Ho. by destruct s. }
    destruct (digits (String c s)) as [m|]; [|done]. by exists m. }
  destruct (Z.leb_spec m 255); [|done]. injection Hm as <-.
  assert (0 <= m); [|unfold in_range; lia].
  destruct s; [done|]. by eapply digits_from_nonneg; [|exact Hd].
Qed.

Lemma parseIPv4_ok s b : parseIPv4 s = Some b -> length b = 4%nat /\ bytes_ok b.
Proof.
  unfold parseIPv4. destruct (strings_Split s ".") as [|a [|c [|d [|e [|]]]]]; try done.
  destruct (octet a) as [x1|] eqn:E1; [|done]. destruct (octet c) as [x2|] eqn:E2; [|done].
  destruct (octet d) as [x3|] eqn:E3; [|done]. destruct (octet e) as [x4|] eqn:E4; [|done].
  intros [= <-]. split; [done|]. repeat constructor; by eapply octet_range.
Qed.

Lemma hexdigit_range c d : hexdigit c = Some d -> 0 <= d < 16.
Proof.
  unfold hexdigit. destruct ((48 <=? byte_of c) && _) eqn:E1; [intros [= <-]; lia|].
  destruct ((97 <=? byte_of c) && _) eqn:E2; [intros [= <-]; lia|].
  destruct ((65 <=? byte_of c) && _) eqn:E3; [intros [= <-]; lia|done].
Qed.

Lemma hexgroup_range s off acc off' acc' s' :
  0 <= acc < 16 ^ Z.of_nat off -> hexgroup off acc s = (off', acc', s') ->
  0 <= acc' < 16 ^ Z.of_nat off'.
Proof.
  revert off acc. induction s as [|c s IH]; intros off acc Ha; cbn [hexgroup]; [by intros [= <- <- <-]|].
  destruct (hexdigit c) as [d|] eqn:E; [|by intros [= <- <- <-]].
  apply hexdigit_range in E. apply IH. rewrite Nat2Z.inj_succ, Z.pow_succ_r by lia. lia.
Qed.

Lemma hexgroup_bytes s off acc s' :
  hexgroup 0 0 s = (off, acc, s') -> (off <= 4)%nat -> bytes_ok [acc / 256; acc mod 256].
Proof.
  intros Hg Ho. apply hexgroup_range in Hg; [|done].
  assert (16 ^ Z.of_nat off <= 16 ^ 4) by (apply Z.pow_le_mono_r; lia). change (16 ^ 4) with 65536 in *.
  pose proof (Z.mod_pos_bound acc 256). pose proof (Z.div_pos acc 256).
  pose proof (Z.div_lt_upper_bound acc 256 256).
  rewrite !Forall_cons, Forall_nil. unfold in_range. change (2 ^ 8) with 256. lia.
Qed.

Lemma v6_groups_ok rounds ip e s ip' e' rest :
  bytes_ok ip -> (length ip + 2 * rounds <= 16)%nat ->
  v6_groups rounds ip e s = Some (ip', e', rest) -> bytes_ok ip' /\ (length ip' <= 16)%nat.
Proof.
  revert ip e s. induction rounds as [|rounds IH]; intros ip e s Hok Hl; cbn [v6_groups].
  { intros [= <- <- <-]. split; [done|lia]. }
  destruct (hexgroup 0 0 s) as [[off acc] s1] eqn:Eg.
  destruct ((off =? 0)%nat || (4 <? off)%nat) eqn:Eo; [done|].
  apply hexgroup_bytes in Eg; [|apply orb_false_iff in Eo as [_ Eo%Nat.ltb_ge]; lia].
  assert (bytes_ok (ip ++ [acc / 256; acc mod 256])) as Hok' by (by apply Forall_app).
  assert (length (ip ++ [(acc / 256)%Z; (acc mod 256)%Z]) + 2 * rounds <= 16)%nat as Hl'
    by (rewrite length_app; simpl; lia).
  assert (forall e s, v6_groups rounds (ip ++ [acc / 256; acc mod 256]) e s = Some (ip', e', rest) ->
    bytes_ok ip' /\ (length ip' <= 16)%nat) as IH' by (intros; by eapply IH).
  assert (Some (ip ++ [acc / 256; acc mod 256], e, s1) = Some (ip', e', rest) ->
    bytes_ok ip' /\ (length ip' <= 16)%nat) as Hend by (intros [= <- <- <-]; split; [done|lia]).
  destruct s1 as [|c s2]; [exact Hend|].
  destruct (Ascii.ascii_dec c ".") as [->|Hdot].
  - cbn match. destruct (match e with None => _ | Some _ => _ end); [done|].
    destruct (Nat.ltb_spec 16 (length ip + 4)); [done|].
    destruct (parseIPv4 s) as [v4|] eqn:E4; [|done]. apply parseIPv4_ok in E4 as [Hv Hvok].
    intros [= <- <- <-]. split; [by apply Forall_app|]. rewrite length_app. lia.
  - destruct (Ascii.ascii_dec c ":") as [->|Hcol].
    + cbn match. destruct s2 as [|c2 s3]; [done|].
      destruct (Ascii.ascii_dec c2 ":") as [->|Hc2].
      * cbn match. destruct e; [done|]. destruct (String.eqb s3 "").
        -- intros [= <- <- <-]. split; [done|lia].
        -- apply IH'.
      * destruct c2 as [[] [] [] [] [] [] [] []]; try done; apply IH'.
    + destruct c as [[] [] [] [] [] [] [] []]; done.
Qed.

Lemma parseIPv6_ok s b : parseIPv6 s = Some b -> length b = 16%nat /\ bytes_ok b.
Proof.
  unfold parseIPv6.
  destruct (match s with String ":" (String ":" s') => _ | _ => _ end) as [e s0].
  assert (forall e, ('(ip, ellipsis, rest) ← v6_groups 8 [] e s0;
      if negb (String.eqb rest "") then None
      else if (length ip <? 16)%nat then
        e ← ellipsis;
        Some (take e ip ++ replicate (16 - length ip) 0 ++ drop e ip)
      else match ellipsis with Some _ => None | None => Some ip end) = Some b ->
    length b = 16%nat /\ bytes_ok b) as Hgen.
  { intros e0. destruct (v6_groups 8 [] e0 s0) as [[[ip e'] rest]|] eqn:E; [|done].
    apply v6_groups_ok in E as [Hok Hl]; [|constructor|simpl; lia]. cbn.
    destruct (negb _); [done|]. destruct (Nat.leb_spec (length ip) 15).
    - destruct e' as [k|]; [|done]. intros [= <-]. split.
      + rewrite !length_app, length_replicate, length_take, length_drop. lia.
      + rewrite !Forall_app. split_and!; [by apply Forall_take| |by apply Forall_drop].
        apply Forall_replicate. unfold in_range. lia.
    - destruct e'; [done|]. intros [= <-]. split; [lia|done]. }
  destruct e as [k|], s0 as [|c s0]; try apply Hgen.
  intros [= <-]. split; [done|]. apply (Forall_replicate (in_range 8) 16). unfold in_range. lia.
Qed.

Lemma ParseIP_ok s : bytes_ok (ParseIP s) /\ (ParseIP s = [] \/ length (ParseIP s) = 16%nat).
Proof.
  unfold ParseIP. destruct (ParseAddr s) as [b|] eqn:E; [|by split; [constructor|left]].
  assert ((length b = 4%nat \/ length b = 16%nat) /\ bytes_ok b) as [Hl Hb].
  { unfold ParseAddr in E. destruct (addr_kind s) as [c|]; [|done].
    destruct (Ascii.ascii_dec c ".") as [->|Hdot]; [apply parseIPv4_ok in E; tauto|].
    destruct (Ascii.ascii_dec c ":") as [->|Hcol].
    - destruct (strings_Contains s "%"); [done|]. apply parseIPv6_ok in E. tauto.
    - destruct c as [[] [] [] [] [] [] [] []]; done. }
  unfold As16. destruct (Nat.eqb_spec (length b) 4).
  - split; [|right; rewrite length_app, e; done]. apply Forall_app. split; [|done].
    repeat constructor; unfold in_range; lia.
  - split; [done|right; lia].
Qed.

Lemma To4_ok ip b : bytes_ok ip -> To4 ip = Some b -> length b = 4%nat /\ bytes_ok b.
Proof.
  unfold To4. intros Hok. case_decide as H4; [by intros [= <-]|].
  case_decide as H16; [|done]. destruct H16 as [Hl _]. intros [= <-].
  split; [rewrite length_drop, Hl; done|by apply Forall_drop].
Qed.

Lemma mac_pairs_length n e s a : mac_pairs n e s = Some a -> length a = n.
Proof.
  revert s a. induction n as [|n IH]; intros s a; [by intros [= <-]|]. rewrite mac_pairs_S.
  destruct (xtoi2 s e); [|done]. destruct (mac_pairs n e (sdrop 3 s)) as [bs|] eqn:E; [|done].
  intros [= <-]. simpl. f_equal. by eapply IH.
Qed.

Lemma mac_quads_length n e s a : mac_quads n e s = Some a -> length a = (2 * n)%nat.
Proof.
  revert s a. induction n as [|n IH]; intros s a; [by intros [= <-]|]. cbn [mac_quads].
  destruct (xtoi2 (String.substring 0 2 s) "000"); [|done]. destruct (xtoi2 (sdrop 2 s) e); [|done].
  destruct (mac_quads n e (sdrop 5 s)) as [bs|] eqn:E; [|done].
  intros [= <-]. simpl. rewrite (IH _ _ E). lia.
Qed.

Lemma ParseMAC_length s a : ParseMAC s = Some a -> (6 <= length a)%nat.
Proof.
  unfold ParseMAC. destruct (_ <? 14)%nat; [done|].
  assert (forall n, mac_length n = true -> n = 6 \/ n = 8 \/ n = 20)%nat as Hn.
  { unfold mac_length. intros n. rewrite !orb_true_iff, !Nat.eqb_eq. tauto. }
  destruct (_ || _).
  - destruct (negb _ || negb (mac_length _)) eqn:E; [done|].
    apply orb_false_iff in E as [_ E]. apply negb_false_iff, Hn in E. intros ->%mac_pairs_length. lia.
  - destruct (Ascii.eqb _ _); [|done].
    destruct (negb _ || negb (mac_length _)) eqn:E; [done|].
    apply orb_false_iff in E as [_ E]. apply negb_false_iff, Hn in E. intros ->%mac_quads_length.
    destruct E as [HE|[HE|HE]]; rewrite HE; simpl; lia.
Qed.
