(* ===== verification/IC.v ===== *)
(** * Interface classification and protocol names (src/pkg/util/ic)

    The protocol table and its inverse, the names of connectivity types, boundaries and RPKI
    states, and the two descriptions of traffic profiles.  A Go map is a [gmap]; a map built by
    ranging over another one is built in some [order] of the entries. *)
From Stdlib Require Import Ascii.
From S2P Require Import Prelude GoStrings.

(** ** Protocols (proto.go) *)

Definition PROTO_NAMES_entries : list (Z * string) :=
  [(0, "HOPOPT"); (1, "ICMP"); (2, "IGMP"); (3, "GGP"); (4, "IPv4"); (5, "ST"); (6, "TCP");
   (7, "CBT"); (8, "EGP"); (9, "IGP"); (10, "BBN-RCC-MON"); (11, "NVP-II"); (12, "PUP");
   (13, "ARGUS"); (14, "EMCON"); (15, "XNET"); (16, "CHAOS"); (17, "UDP"); (18, "MUX");
   (19, "DCN-MEAS"); (20, "HMP"); (21, "PRM"); (22, "XNS-IDP"); (23, "TRUNK-1");
   (24, "TRUNK-2"); (25, "LEAF-1"); (26, "LEAF-2"); (27, "RDP"); (28, "IRTP"); (29, "ISO-TP4");
   (30, "NETBLT"); (31, "MFE-NSP"); (32, "MERIT-INP"); (33, "DCCP"); (34, "3PC"); (35, "IDPR");
   (36, "XTP"); (37, "DDP"); (38, "IDPR-CMTP"); (39, "TP++"); (40, "IL"); (41, "IPv6");
   (42, "SDRP"); (43, "IPv6-Route"); (44, "IPv6-Frag"); (45, "IDRP"); (46, "RSVP");
   (47, "GRE"); (48, "DSR"); (49, "BNA"); (50, "ESP"); (51, "AH"); (52, "I-NLSP");
   (53, "SWIPE (deprecated)"); (54, "NARP"); (55, "MOBILE"); (56, "TLSP"); (57, "SKIP");
   (58, "IPv6-ICMP"); (59, "IPv6-NoNxt"); (60, "IPv6-Opts"); (61, ""); (62, "CFTP"); (63, "");
   (64, "SAT-EXPAK"); (65, "KRYPTOLAN"); (66, "RVD"); (67, "IPPC"); (68, ""); (69, "SAT-MON");
   (70, "VISA"); (71, "IPCV"); (72, "CPNX"); (73, "CPHB"); (74, "WSN"); (75, "PVP");
   (76, "BR-SAT-MON"); (77, "SUN-ND"); (78, "WB-MON"); (79, "WB-EXPAK"); (80, "ISO-IP");
   (81, "VMTP"); (82, "SECURE-VMTP"); (83, "VINES"); (84, "IPTM"); (85, "NSFNET-IGP");
   (86, "DGP"); (87, "TCF"); (88, "EIGRP"); (89, "OSPFIGP"); (90, "Sprite-RPC"); (91, "LARP");
   (92, "MTP"); (93, "AX.25"); (94, "IPIP"); (95, "MICP (deprecated)"); (96, "SCC-SP");
   (97, "ETHERIP"); (98, "ENCAP"); (99, ""); (100, "GMTP"); (101, "IFMP"); (102, "PNNI");
   (103, "PIM"); (104, "ARIS"); (105, "SCPS"); (106, "QNX"); (107, "A/N"); (108, "IPComp");
   (109, "SNP"); (110, "Compaq-Peer"); (111, "IPX-in-IP"); (112, "VRRP"); (113, "PGM");
   (114, ""); (115, "L2TP"); (116, "DDX"); (117, "IATP"); (118, "STP"); (119, "SRP");
   (120, "UTI"); (121, "SMP"); (122, "SM (deprecated)"); (123, "PTP"); (124, "ISIS over IPv4");
   (125, "FIRE"); (126, "CRTP"); (127, "CRUDP"); (128, "SSCOPMCE"); (129, "IPLT");
   (130, "SPS"); (131, "PIPE"); (132, "SCTP"); (133, "FC"); (134, "RSVP-E2E-IGNORE");
   (135, "Mobility Header"); (136, "UDPLite"); (137, "MPLS-in-IP"); (138, "manet");
   (139, "HIP"); (140, "Shim6"); (141, "WESP"); (142, "ROHC"); (143, "Ethernet");
   (255, "Reserved")].

Definition PROTO_NAMES : gmap Z string := list_to_map PROTO_NAMES_entries.

(** [for k, v := range m { n[v] = k }]. *)
Definition inverted (order : list (Z * string)) : gmap string Z :=
  foldl (fun m kv => <[kv.2 := kv.1]> m) ∅ order.

(** [uint8(k)]. *)
Definition PROTO_NUMS_from (order : list (Z * string)) : gmap string Z :=
  inverted ((fun kv => (wrap 8 kv.1, kv.2)) <$> order).

(** ** Constants *)

Definition NB_EXTERNAL : Z := 10.
Definition NB_INTERNAL : Z := 20.
Definition NB_EXTERNAL_NAME : string := "external".
Definition NB_INTERNAL_NAME : string := "internal".
Definition CT_FREE_PNI : Z := 5.
Definition CT_CUSTOMER : Z := 15.
Definition CT_HOST : Z := 25.
Definition CT_BACKBONE : Z := 35.
Definition CT_PAID_PNI : Z := 45.
Definition CT_OTHER : Z := 55.
Definition CT_TRANSIT : Z := 65.
Definition CT_IX : Z := 75.
Definition CT_RESERVED : Z := 85.
Definition CT_AVAILABLE : Z := 95.
Definition CT_DC_IC : Z := 105.
Definition CT_AGG_IC : Z := 115.
Definition CT_EMBEDDED_CACHE_IC : Z := 125.
Definition CT_CLOUD_IX : Z := 135.
Definition CT_DC_FABRIC : Z := 145.
Definition CT_FREE_PNI_NAME : string := "free_pni".
Definition CT_CUSTOMER_NAME : string := "customer".
Definition CT_HOST_NAME : string := "host".
Definition CT_BACKBONE_NAME : string := "backbone".
Definition CT_PAID_PNI_NAME : string := "paid_pni".
Definition CT_OTHER_NAME : string := "other".
Definition CT_TRANSIT_NAME : string := "transit".
Definition CT_IX_NAME : string := "ix".
Definition CT_RESERVED_NAME : string := "reserved".
Definition CT_AVAILABLE_NAME : string := "available".
Definition CT_DC_IC_NAME : string := "datacenter_interconnect".
Definition CT_AGG_IC_NAME : string := "aggregation_interconnect".
Definition CT_EMBEDDED_CACHE_NAME : string := "embedded_cache".
Definition CT_CLOUD_IX_NAME : string := "cloud_interconnect".
Definition CT_DC_FABRIC_NAME : string := "datacenter_fabric".
Definition NETWORK_CL_INTERNAL_NAME : string := "inside".
Definition NETWORK_CL_EXTERNAL_NAME : string := "outside".
Definition NETWORK_CL_CLOUD_AWS : string := "aws".
Definition NETWORK_CL_CLOUD_IBM : string := "ibm".
Definition NETWORK_CL_CLOUD_AZURE : string := "azure".
Definition NETWORK_CL_CLOUD_GCP : string := "gcp".
Definition NETWORK_SRC_INTERNAL : Z := 10.
Definition NETWORK_SRC_EXTERNAL : Z := 20.
Definition NETWORK_SRC_CLOUD_AWS : Z := 80.
Definition NETWORK_SRC_CLOUD_AZURE : Z := 90.
Definition NETWORK_SRC_CLOUD_GCP : Z := 100.
Definition NETWORK_SRC_CLOUD_IBM : Z := 110.
Definition NETWORK_SRC_INTERNAL_NAME : string := "internal".
Definition NETWORK_SRC_THROUGH_NAME : string := "through".
Definition NETWORK_SRC_TERMINATED_NAME : string := "from outside, terminated inside".
Definition NETWORK_SRC_ORIGINATED_NAME : string := "originated inside, to outside".
Definition NETWORK_SRC_CLOUD_INTERNAL_NAME : string := "cloud internal".
Definition NETWORK_SRC_FROM_OUTSIDE_TO_CLOUD_NAME : string := "from outside to cloud".
Definition NETWORK_SRC_FROM_CLOUD_TO_OUTSIDE_NAME : string := "from cloud to outside".
Definition NETWORK_SRC_FROM_CLOUD_TO_INSIDE_NAME : string := "from cloud to inside".
Definition NETWORK_SRC_FROM_INSIDE_TO_CLOUD_NAME : string := "from inside to cloud".
Definition NETWORK_SRC_MULTICLOUD_NAME : string := "multi-cloud".
Definition NETWORK_SRC_INBOUND_NAME : string := "inbound".
Definition NETWORK_SRC_OUTBOUND_NAME : string := "outbound".
Definition NETWORK_SRC_OTHER_NAME : string := "other".
Definition NETWORK_DIR_IN_NAME : string := "in".
Definition NETWORK_DIR_OUT_NAME : string := "out".
Definition NETWORK_DIR_NOT_HOST_NAME : string := "not_a_host".
Definition NETWORK_DIR_ERR_NAME : string := "error".
Definition NETWORK_DIR_IN : Z := 40.
Definition NETWORK_DIR_OUT : Z := 50.
Definition NETWORK_DIR_NOT_HOST : Z := 60.
Definition NETWORK_DIR_ERR : Z := 70.
Definition RPKI_NOT_FOUND : Z := 1.
Definition RPKI_EXPLICIT_INVALID : Z := 2.
Definition RPKI_INVALID_PREFIX : Z := 3.
Definition RPKI_INVALID : Z := 4.
Definition RPKI_VALID : Z := 5.
Definition RPKI_INVALID_COVERING : Z := 6.
Definition RPKI_COVERING_NOT_FOUND : Z := 7.
Definition RPKI_ERROR : Z := 8.
Definition RPKI_INTERNAL : Z := 9.
Definition RPKI_MAX_NUM : Z := 32.
Definition RPKI_NOT_FOUND_NAME : string := "RPKI Unknown".
Definition RPKI_EXPLICIT_INVALID_NAME : string := "RPKI Invalid: explicit ASN 0".
Definition RPKI_INVALID_PREFIX_NAME : string := "RPKI Invalid: prefix length out of bounds".
Definition RPKI_INVALID_NAME : string := "RPKI Invalid: incorrect Origin ASN (should be AS%d)".
Definition RPKI_INVALID_COVERING_NAME : string := "RPKI Invalid: valid covering prefix".
Definition RPKI_COVERING_NOT_FOUND_NAME : string := "RPKI Invalid: unknown covering prefix".
Definition RPKI_VALID_NAME : string := "RPKI Valid".
Definition RPKI_ERROR_NAME : string := "RPKI Error".
Definition RPKI_INTERNAL_NAME : string := "".
Definition RPKI_UNKNOWN_MIN_NAME : string := "RPKI Unknown".
Definition RPKI_VALID_MIN_NAME : string := "RPKI Valid".
Definition RPKI_INVALID_COVERED_MIN_NAME : string := "RPKI Invalid - covering Valid/Unknown".
Definition RPKI_INVALID_MIN_NAME : string := "RPKI Invalid - Will be dropped".
Definition NONE_INT : Z := 0.
Definition NONE_NAME : string := "none".

(** ** Name tables *)

Definition NETWORK_BOUNDARY_INT_TO_NAME_entries : list (Z * string) :=
  [(NB_EXTERNAL, NB_EXTERNAL_NAME); (NB_INTERNAL, NB_INTERNAL_NAME)].
Definition NETWORK_BOUNDARY_INT_TO_NAME : gmap Z string := list_to_map NETWORK_BOUNDARY_INT_TO_NAME_entries.

Definition NETWORK_CLASS_INT_TO_NAME_entries : list (Z * string) :=
  [(NETWORK_SRC_EXTERNAL, NETWORK_CL_EXTERNAL_NAME);
   (NETWORK_SRC_INTERNAL, NETWORK_CL_INTERNAL_NAME);
   (NETWORK_SRC_CLOUD_AWS, NETWORK_CL_CLOUD_AWS);
   (NETWORK_SRC_CLOUD_AZURE, NETWORK_CL_CLOUD_AZURE);
   (NETWORK_SRC_CLOUD_GCP, NETWORK_CL_CLOUD_GCP);
   (NETWORK_SRC_CLOUD_IBM, NETWORK_CL_CLOUD_IBM); (NETWORK_DIR_IN, NETWORK_DIR_IN_NAME);
   (NETWORK_DIR_OUT, NETWORK_DIR_OUT_NAME); (NETWORK_DIR_NOT_HOST, NETWORK_DIR_NOT_HOST_NAME);
   (NETWORK_DIR_ERR, NETWORK_DIR_ERR_NAME)].
Definition NETWORK_CLASS_INT_TO_NAME : gmap Z string := list_to_map NETWORK_CLASS_INT_TO_NAME_entries.

Definition CONNECTIVITY_TYPE_INT_TO_NAME_entries : list (Z * string) :=
  [(CT_FREE_PNI, CT_FREE_PNI_NAME); (CT_CUSTOMER, CT_CUSTOMER_NAME); (CT_HOST, CT_HOST_NAME);
   (CT_BACKBONE, CT_BACKBONE_NAME); (CT_PAID_PNI, CT_PAID_PNI_NAME); (CT_OTHER, CT_OTHER_NAME);
   (CT_TRANSIT, CT_TRANSIT_NAME); (CT_IX, CT_IX_NAME); (CT_RESERVED, CT_RESERVED_NAME);
   (CT_AVAILABLE, CT_AVAILABLE_NAME); (CT_DC_IC, CT_DC_IC_NAME); (CT_AGG_IC, CT_AGG_IC_NAME);
   (CT_EMBEDDED_CACHE_IC, CT_EMBEDDED_CACHE_NAME); (CT_CLOUD_IX, CT_CLOUD_IX_NAME);
   (CT_DC_FABRIC, CT_DC_FABRIC_NAME)].
Definition CONNECTIVITY_TYPE_INT_TO_NAME : gmap Z string := list_to_map CONNECTIVITY_TYPE_INT_TO_NAME_entries.

Definition RPKI_INT_TO_NAME_entries : list (Z * string) :=
  [(RPKI_NOT_FOUND, RPKI_NOT_FOUND_NAME); (RPKI_EXPLICIT_INVALID, RPKI_EXPLICIT_INVALID_NAME);
   (RPKI_INVALID_PREFIX, RPKI_INVALID_PREFIX_NAME); (RPKI_INVALID, RPKI_INVALID_NAME);
   (RPKI_VALID, RPKI_VALID_NAME); (RPKI_INVALID_COVERING, RPKI_INVALID_COVERING_NAME);
   (RPKI_COVERING_NOT_FOUND, RPKI_COVERING_NOT_FOUND_NAME); (RPKI_ERROR, RPKI_ERROR_NAME);
   (RPKI_INTERNAL, RPKI_INTERNAL_NAME)].
Definition RPKI_INT_TO_NAME : gmap Z string := list_to_map RPKI_INT_TO_NAME_entries.

Definition RPKI_INT_TO_MIN_NAME_entries : list (Z * string) :=
  [(RPKI_NOT_FOUND, RPKI_UNKNOWN_MIN_NAME); (RPKI_EXPLICIT_INVALID, RPKI_INVALID_MIN_NAME);
   (RPKI_INVALID_PREFIX, RPKI_INVALID_MIN_NAME); (RPKI_INVALID, RPKI_INVALID_MIN_NAME);
   (RPKI_VALID, RPKI_VALID_MIN_NAME); (RPKI_INVALID_COVERING, RPKI_INVALID_COVERED_MIN_NAME);
   (RPKI_COVERING_NOT_FOUND, RPKI_INVALID_COVERED_MIN_NAME); (RPKI_ERROR, RPKI_ERROR_NAME);
   (RPKI_INTERNAL, RPKI_INTERNAL_NAME)].
Definition RPKI_INT_TO_MIN_NAME : gmap Z string := list_to_map RPKI_INT_TO_MIN_NAME_entries.

Definition NETWORK_BOUNDARY_NAME_TO_INT : gmap string Z := inverted NETWORK_BOUNDARY_INT_TO_NAME_entries.
Definition CONNECTIVITY_TYPE_NAME_TO_INT : gmap string Z := inverted CONNECTIVITY_TYPE_INT_TO_NAME_entries.
Definition NETWORK_CLASS_NAME_TO_INT : gmap string Z := inverted NETWORK_CLASS_INT_TO_NAME_entries.
Definition RPKI_NAME_TO_INT : gmap string Z := inverted RPKI_INT_TO_NAME_entries.

(** Several states have the same short name. *)
Definition RPKI_MIN_NAME_TO_INT_from (order : list (Z * string)) : gmap string (list Z) :=
  foldl (fun m kv => match m !! kv.2 with
                     | None => <[kv.2 := [kv.1]]> m
                     | Some l => <[kv.2 := l ++ [kv.1]]> m
                     end) ∅ order.

(** ** Lookups (ic.go) *)

Definition NameFromCTInt (names : gmap Z string) (ic : Z) : string :=
  match names !! ic with Some v => v | None => NONE_NAME end.
Definition IntFromCTName (nums : gmap string Z) (ic : string) : Z :=
  match nums !! ic with Some v => v | None => NONE_INT end.
Definition NameFromNBInt (ic : Z) : string :=
  match NETWORK_BOUNDARY_INT_TO_NAME !! ic with Some v => v | None => NONE_NAME end.
Definition IntFromNBName (ic : string) : Z :=
  match NETWORK_BOUNDARY_NAME_TO_INT !! ic with Some v => v | None => NONE_INT end.

(** The two global maps of connectivity types, which [OverrideConnectivityType] updates. *)
Record ConnectivityTypes := mkConnectivityTypes {
  ct_names : gmap Z string;
  ct_nums : gmap string Z
}.
Definition builtin_types : ConnectivityTypes :=
  mkConnectivityTypes CONNECTIVITY_TYPE_INT_TO_NAME CONNECTIVITY_TYPE_NAME_TO_INT.

(** The renames of "old:new,old:new": of two for the same name the last one counts. *)
Definition override_pairs (newBase : string) : gmap string string :=
  foldl (fun newC pt => match strings_Split pt ":" with
                        | [a; b] => <[a := b]> newC
                        | _ => newC
                        end) ∅ (strings_Split newBase ",").

Definition override_one (cf : ConnectivityTypes * Z) (p : string * string) :
    ConnectivityTypes * Z :=
  let '(c, found) := cf in
  let '(old, new) := p in
  match ct_nums c !! old with
  | Some v => (mkConnectivityTypes (<[v := new]> (ct_names c)) (<[new := v]> (ct_nums c)), found + 1)
  | None => (c, found)
  end.

(** [order] is the order in which Go ranges over the renames. *)
Definition OverrideConnectivityType (order : list (string * string)) (c : ConnectivityTypes) :
    ConnectivityTypes * Z := foldl override_one (c, 0) order.

(** ** Traffic profiles *)

Record TrafficProfileNumbers := mkTrafficProfileNumbers {
  OriginationNumbers : list Z;
  DestinationNumbers : list Z
}.

Definition trafficProfileNumbersByName : gmap string (list TrafficProfileNumbers) :=
  list_to_map [
    (NETWORK_SRC_INTERNAL_NAME, [
      mkTrafficProfileNumbers
        [NETWORK_SRC_INTERNAL]
        [NETWORK_SRC_INTERNAL]]);
    (NETWORK_SRC_THROUGH_NAME, [
      mkTrafficProfileNumbers
        [NETWORK_SRC_EXTERNAL]
        [NETWORK_SRC_EXTERNAL]]);
    (NETWORK_SRC_TERMINATED_NAME, [
      mkTrafficProfileNumbers
        [NETWORK_SRC_EXTERNAL]
        [NETWORK_SRC_INTERNAL]]);
    (NETWORK_SRC_ORIGINATED_NAME, [
      mkTrafficProfileNumbers
        [NETWORK_SRC_INTERNAL]
        [NETWORK_SRC_EXTERNAL]]);
    (NETWORK_SRC_CLOUD_INTERNAL_NAME, [
      mkTrafficProfileNumbers
        [NETWORK_SRC_CLOUD_AWS]
        [NETWORK_SRC_CLOUD_AWS];
      mkTrafficProfileNumbers
        [NETWORK_SRC_CLOUD_AZURE]
        [NETWORK_SRC_CLOUD_AZURE];
      mkTrafficProfileNumbers
        [NETWORK_SRC_CLOUD_GCP]
        [NETWORK_SRC_CLOUD_GCP];
      mkTrafficProfileNumbers
        [NETWORK_SRC_CLOUD_IBM]
        [NETWORK_SRC_CLOUD_IBM]]);
    (NETWORK_SRC_MULTICLOUD_NAME, [
      mkTrafficProfileNumbers
        [NETWORK_SRC_CLOUD_AWS]
        [NETWORK_SRC_CLOUD_AZURE; NETWORK_SRC_CLOUD_GCP; NETWORK_SRC_CLOUD_IBM];
      mkTrafficProfileNumbers
        [NETWORK_SRC_CLOUD_AZURE]
        [NETWORK_SRC_CLOUD_AWS; NETWORK_SRC_CLOUD_GCP; NETWORK_SRC_CLOUD_IBM];
      mkTrafficProfileNumbers
        [NETWORK_SRC_CLOUD_GCP]
        [NETWORK_SRC_CLOUD_AWS; NETWORK_SRC_CLOUD_AZURE; NETWORK_SRC_CLOUD_IBM];
      mkTrafficProfileNumbers
        [NETWORK_SRC_CLOUD_IBM]
        [NETWORK_SRC_CLOUD_AWS; NETWORK_SRC_CLOUD_AZURE; NETWORK_SRC_CLOUD_GCP];
      mkTrafficProfileNumbers
        [NETWORK_SRC_CLOUD_AZURE; NETWORK_SRC_CLOUD_GCP; NETWORK_SRC_CLOUD_IBM]
        [NETWORK_SRC_CLOUD_AWS];
      mkTrafficProfileNumbers
        [NETWORK_SRC_CLOUD_AWS; NETWORK_SRC_CLOUD_GCP; NETWORK_SRC_CLOUD_IBM]
        [NETWORK_SRC_CLOUD_AZURE];
      mkTrafficProfileNumbers
        [NETWORK_SRC_CLOUD_AWS; NETWORK_SRC_CLOUD_AZURE; NETWORK_SRC_CLOUD_IBM]
        [NETWORK_SRC_CLOUD_GCP];
      mkTrafficProfileNumbers
        [NETWORK_SRC_CLOUD_AWS; NETWORK_SRC_CLOUD_AZURE; NETWORK_SRC_CLOUD_GCP]
        [NETWORK_SRC_CLOUD_IBM]]);
    (NETWORK_SRC_FROM_OUTSIDE_TO_CLOUD_NAME, [
      mkTrafficProfileNumbers
        [NETWORK_SRC_EXTERNAL]
        [NETWORK_SRC_CLOUD_AWS; NETWORK_SRC_CLOUD_AZURE; NETWORK_SRC_CLOUD_GCP; NETWORK_SRC_CLOUD_IBM]]);
    (NETWORK_SRC_FROM_CLOUD_TO_OUTSIDE_NAME, [
      mkTrafficProfileNumbers
        [NETWORK_SRC_CLOUD_AWS; NETWORK_SRC_CLOUD_AZURE; NETWORK_SRC_CLOUD_GCP; NETWORK_SRC_CLOUD_IBM]
        [NETWORK_SRC_EXTERNAL]]);
    (NETWORK_SRC_FROM_CLOUD_TO_INSIDE_NAME, [
      mkTrafficProfileNumbers
        [NETWORK_SRC_CLOUD_AWS; NETWORK_SRC_CLOUD_AZURE; NETWORK_SRC_CLOUD_GCP; NETWORK_SRC_CLOUD_IBM]
        [NETWORK_SRC_INTERNAL]]);
    (NETWORK_SRC_FROM_INSIDE_TO_CLOUD_NAME, [
      mkTrafficProfileNumbers
        [NETWORK_SRC_INTERNAL]
        [NETWORK_SRC_CLOUD_AWS; NETWORK_SRC_CLOUD_AZURE; NETWORK_SRC_CLOUD_GCP; NETWORK_SRC_CLOUD_IBM]]);
    ("", [])].

(** [strings.ToLower] of an ASCII string. *)
Definition lower (c : ascii) : ascii :=
  let b := byte_of c in if (65 <=? b) && (b <=? 90) then chr (b + 32) else c.
Fixpoint ToLower_ascii (s : string) : string :=
  match s with "" => "" | String c s' => String (lower c) (ToLower_ascii s') end.
Definition is_ascii (s : string) : bool := sforall (fun c => byte_of c <? 128) s.

(** [ToLower] is [strings.ToLower] of the strings that are not ASCII. *)
Definition strings_ToLower (ToLower : string -> string) (s : string) : string :=
  if is_ascii s then ToLower_ascii s else ToLower s.

Definition TrafficProfileNumbersFromName (ToLower : string -> string) (profile : string) :
    list TrafficProfileNumbers :=
  match trafficProfileNumbersByName !! strings_ToLower ToLower profile with
  | None => default [] (trafficProfileNumbersByName !! "")
  | Some ret => ret
  end.

Definition is_cloud (v : Z) : bool :=
  (v =? NETWORK_SRC_CLOUD_AWS) || (v =? NETWORK_SRC_CLOUD_AZURE) ||
  (v =? NETWORK_SRC_CLOUD_GCP) || (v =? NETWORK_SRC_CLOUD_IBM).

Definition TrafficNameFromNumbers (ov dv : Z) : string :=
  let fromCloud := is_cloud ov in
  let fromOutside := ov =? NETWORK_SRC_EXTERNAL in
  let fromInside := ov =? NETWORK_SRC_INTERNAL in
  let toCloud := is_cloud dv in
  let toOutside := dv =? NETWORK_SRC_EXTERNAL in
  let toInside := dv =? NETWORK_SRC_INTERNAL in
  if fromInside && toOutside then NETWORK_SRC_ORIGINATED_NAME
  else if fromOutside && toInside then NETWORK_SRC_TERMINATED_NAME
  else if fromOutside && toOutside then NETWORK_SRC_THROUGH_NAME
  else if fromInside && toInside then NETWORK_SRC_INTERNAL_NAME
  else if fromCloud && (ov =? dv) then NETWORK_SRC_CLOUD_INTERNAL_NAME
  else if fromCloud && toCloud && negb (ov =? dv) then NETWORK_SRC_MULTICLOUD_NAME
  else if fromOutside && toCloud then NETWORK_SRC_FROM_OUTSIDE_TO_CLOUD_NAME
  else if fromCloud && toOutside then NETWORK_SRC_FROM_CLOUD_TO_OUTSIDE_NAME
  else if fromCloud && toInside then NETWORK_SRC_FROM_CLOUD_TO_INSIDE_NAME
  else if fromInside && toCloud then NETWORK_SRC_FROM_INSIDE_TO_CLOUD_NAME
  else "".

(** ** Lemmas *)

(** Whatever the order of the range, the inverse of a table gives a name one of its numbers. *)
Lemma inverted_sound order k v : inverted order !! v = Some k -> (k, v) ∈ order.
Proof.
  unfold inverted. induction order as [|[k' v'] order IH] using rev_ind; [done|].
  rewrite foldl_snoc. cbn [fst snd]. rewrite elem_of_app, list_elem_of_singleton.
  intros [[-> ->]|[_ Hk]]%lookup_insert_Some; [by right|left; by apply IH].
Qed.

Lemma inverted_complete order k v : (k, v) ∈ order -> is_Some (inverted order !! v).
Proof.
  unfold inverted. induction order as [|[k' v'] order IH] using rev_ind; intros Hin.
  { by apply elem_of_nil in Hin. }
  rewrite foldl_snoc. cbn [fst snd]. apply lookup_insert_is_Some'.
  apply elem_of_app in Hin as [Hin|Hin]; [right; by apply IH|].
  apply list_elem_of_singleton in Hin as [= -> ->]. by left.
Qed.

Lemma PROTO_numbers_distinct : NoDup PROTO_NAMES_entries.*1.
Proof. refine (bool_decide_eq_true_1 _ _). vm_compute. reflexivity. Qed.
Lemma PROTO_bytes : Forall (fun kv => in_range 8 kv.1) PROTO_NAMES_entries.
Proof. refine (bool_decide_eq_true_1 _ _). vm_compute. reflexivity. Qed.
Lemma PROTO_names_distinct : NoDup (filter (fun v => v <> "") PROTO_NAMES_entries.*2).
Proof. refine (bool_decide_eq_true_1 _ _). vm_compute. reflexivity. Qed.

Lemma PROTO_NAMES_lookup k v :
  PROTO_NAMES !! k = Some v <-> (k, v) ∈ PROTO_NAMES_entries.
Proof. unfold PROTO_NAMES. symmetry. apply elem_of_list_to_map, PROTO_numbers_distinct. Qed.

Section Order.
  Context (order : list (Z * string)) (Hp : order ≡ₚ PROTO_NAMES_entries).

Lemma PROTO_entries_wrap kv :
  kv ∈ ((fun kv => (wrap 8 kv.1, kv.2)) <$> order) <-> kv ∈ PROTO_NAMES_entries.
Proof using Hp.
  rewrite Hp. pose proof PROTO_bytes as Hb. rewrite Forall_forall in Hb.
  rewrite list_elem_of_fmap. split.
  - intros ([k v] & -> & Hin). cbn. by rewrite wrap_id by exact (Hb _ Hin).
  - intros Hin. exists kv. split; [|done]. rewrite wrap_id by exact (Hb _ Hin). by destruct kv.
Qed.

(** The number of a name has that name. *)
Lemma PROTO_NUMS_sound v k : PROTO_NUMS_from order !! v = Some k -> PROTO_NAMES !! k = Some v.
Proof using Hp.
  unfold PROTO_NUMS_from. intros Hk%inverted_sound%PROTO_entries_wrap. by apply PROTO_NAMES_lookup.
Qed.

Lemma PROTO_NUMS_complete k v :
  PROTO_NAMES !! k = Some v -> is_Some (PROTO_NUMS_from order !! v).
Proof using Hp.
  intros Hk%PROTO_NAMES_lookup. apply (inverted_complete _ k). by apply PROTO_entries_wrap.
Qed.

Lemma PROTO_NUMS_byte v : in_range 8 (default 0 (PROTO_NUMS_from order !! v)).
Proof using Hp.
  destruct (PROTO_NUMS_from order !! v) as [k|] eqn:E; [|done].
  apply PROTO_NUMS_sound, PROTO_NAMES_lookup in E.
  pose proof PROTO_bytes as Hb. rewrite Forall_forall in Hb. exact (Hb _ E).
Qed.
End Order.

Lemma NoDup_snd_inj (l : list (Z * string)) k k' v :
  NoDup (filter (fun v => v <> "") l.*2) -> (k, v) ∈ l -> (k', v) ∈ l -> v <> "" -> k = k'.
Proof.
  intros Hn H1 H2 Hv. apply list_elem_of_lookup_1 in H1 as [i H1], H2 as [j H2].
  induction l as [|[k0 v0] l IH] in i, j, Hn, H1, H2 |- *; [done|].
  rewrite fmap_cons, filter_cons in Hn. cbn [snd] in Hn.
  assert (forall m a, l !! m = Some (a, v) -> v ∈ filter (fun v => v <> "") l.*2) as Hmem.
  { intros m a Hm. apply list_elem_of_filter. split; [done|]. apply list_elem_of_fmap.
    exists (a, v). split; [done|]. by eapply list_elem_of_lookup_2. }
  destruct i as [|i], j as [|j]; simplify_eq/=; [done| | |].
  - rewrite decide_True in Hn by done. apply NoDup_cons in Hn as [Hn _]. destruct Hn. by eapply Hmem.
  - rewrite decide_True in Hn by done. apply NoDup_cons in Hn as [Hn _]. destruct Hn. by eapply Hmem.
  - eapply IH; [|done..]. destruct (decide _); [by apply NoDup_cons in Hn as [_ ?]|done].
Qed.

(** A pair of numbers is one of the ways to achieve a profile. *)
Definition matches (ov dv : Z) (p : TrafficProfileNumbers) : bool :=
  bool_decide (ov ∈ OriginationNumbers p) && bool_decide (dv ∈ DestinationNumbers p).

Definition profile_names : list string :=
  [NETWORK_SRC_INTERNAL_NAME; NETWORK_SRC_THROUGH_NAME; NETWORK_SRC_TERMINATED_NAME;
   NETWORK_SRC_ORIGINATED_NAME; NETWORK_SRC_CLOUD_INTERNAL_NAME; NETWORK_SRC_MULTICLOUD_NAME;
   NETWORK_SRC_FROM_OUTSIDE_TO_CLOUD_NAME; NETWORK_SRC_FROM_CLOUD_TO_OUTSIDE_NAME;
   NETWORK_SRC_FROM_CLOUD_TO_INSIDE_NAME; NETWORK_SRC_FROM_INSIDE_TO_CLOUD_NAME].

Definition network_numbers : list Z :=
  [NETWORK_SRC_INTERNAL; NETWORK_SRC_EXTERNAL; NETWORK_SRC_CLOUD_AWS; NETWORK_SRC_CLOUD_AZURE;
   NETWORK_SRC_CLOUD_GCP; NETWORK_SRC_CLOUD_IBM].

(** Every number but the six behaves like any other. *)
Lemma numbers_cases v : v ∈ network_numbers \/ Forall (fun n => (v =? n) = false) network_numbers.
Proof.
  destruct (decide (v ∈ network_numbers)) as [|Hn]; [by left|right].
  apply Forall_forall. intros n Hin. apply Z.eqb_neq. by intros ->.
Qed.

Lemma other_matches ov dv p :
  Forall (fun n => n ∈ network_numbers) (OriginationNumbers p) ->
  Forall (fun n => n ∈ network_numbers) (DestinationNumbers p) ->
  ov ∉ network_numbers \/ dv ∉ network_numbers -> matches ov dv p = false.
Proof.
  intros Ho Hd Hn. unfold matches. rewrite Forall_forall in Ho, Hd.
  destruct Hn as [Hn|Hn]; [rewrite (bool_decide_eq_false_2 (ov ∈ _))
                          |rewrite (bool_decide_eq_false_2 (dv ∈ _)), andb_false_r]; naive_solver.
Qed.

Definition numbers_ok (ps : list TrafficProfileNumbers) : bool :=
  forallb (fun p => forallb (fun n => bool_decide (n ∈ network_numbers)) (OriginationNumbers p) &&
                    forallb (fun n => bool_decide (n ∈ network_numbers)) (DestinationNumbers p)) ps.

Lemma numbers_ok_spec ps : numbers_ok ps = true ->
  Forall (fun p => Forall (fun n => n ∈ network_numbers) (OriginationNumbers p) /\
                   Forall (fun n => n ∈ network_numbers) (DestinationNumbers p)) ps.
Proof.
  unfold numbers_ok. rewrite forallb_forall, Forall_forall. intros Hp p Hin.
  apply list_elem_of_In, Hp, andb_prop in Hin as [H1 H2]. rewrite forallb_forall in H1, H2.
  rewrite !Forall_forall. split; intros n Hn%list_elem_of_In;
    (eapply bool_decide_eq_true_1; eauto).
Qed.

Lemma others_match_none ov dv ps : numbers_ok ps = true ->
  ov ∉ network_numbers \/ dv ∉ network_numbers -> existsb (matches ov dv) ps = false.
Proof.
  intros Hok%numbers_ok_spec Hn. induction Hok as [|p ps [H1 H2] _ IH]; [done|].
  cbn [existsb]. by rewrite other_matches, IH.
Qed.

Lemma TrafficName_other ov dv :
  ov ∉ network_numbers \/ dv ∉ network_numbers -> TrafficNameFromNumbers ov dv = "".
Proof.
  intros Hn. unfold TrafficNameFromNumbers, is_cloud.
  assert (forall v, v ∉ network_numbers -> Forall (fun n => (v =? n) = false) network_numbers) as Hv.
  { intros v Hv. by destruct (numbers_cases v). }
  destruct Hn as [Hn|Hn]; apply Hv in Hn; unfold network_numbers in Hn; rewrite !Forall_cons in Hn;
    destruct Hn as (E1 & E2 & E3 & E4 & E5 & E6 & _); rewrite E1, E2, E3, E4, E5, E6;
    cbn [orb]; rewrite ?andb_false_r; cbn [andb]; try done.
  assert (((ov =? NETWORK_SRC_CLOUD_AWS) || (ov =? NETWORK_SRC_CLOUD_AZURE) ||
    (ov =? NETWORK_SRC_CLOUD_GCP) || (ov =? NETWORK_SRC_CLOUD_IBM)) && (ov =? dv) = false) as ->; [|done].
  destruct (Z.eqb_spec ov dv) as [->|]; [|by rewrite andb_false_r]. by rewrite E3, E4, E5, E6.
Qed.

(** ** Properties *)

(** The two descriptions of traffic profiles agree.  For every pair of origination and
    destination numbers and every profile name, the table that [TrafficProfileNumbersFromName]
    looks up lists a way to match the pair exactly when [TrafficNameFromNumbers] gives the pair
    that name; in particular no pair matches two profiles. *)
Lemma profiles_agree ToLower ov dv name :
  name ∈ profile_names ->
  existsb (matches ov dv) (TrafficProfileNumbersFromName ToLower name) =
    String.eqb (TrafficNameFromNumbers ov dv) name.
Proof.
  intros Hname.
  destruct (decide (ov ∈ network_numbers /\ dv ∈ network_numbers)) as [[Ho Hd]|Hn].
  - assert (forallb (fun n => forallb (fun a => forallb (fun b =>
      Bool.eqb (existsb (matches a b) (TrafficProfileNumbersFromName id n))
               (String.eqb (TrafficNameFromNumbers a b) n)) network_numbers) network_numbers)
      profile_names = true) as Hall by (vm_compute; reflexivity).
    rewrite forallb_forall in Hall. specialize (Hall name (proj1 (list_elem_of_In _ _) Hname)).
    rewrite forallb_forall in Hall. specialize (Hall ov (proj1 (list_elem_of_In _ _) Ho)).
    rewrite forallb_forall in Hall. specialize (Hall dv (proj1 (list_elem_of_In _ _) Hd)).
    apply Bool.eqb_prop in Hall. rewrite <- Hall. unfold TrafficProfileNumbersFromName, strings_ToLower.
    assert (forallb is_ascii profile_names = true) as Ha by (vm_compute; reflexivity).
    rewrite forallb_forall in Ha. by rewrite (Ha name (proj1 (list_elem_of_In _ _) Hname)).
  - apply not_and_l in Hn. rewrite TrafficName_other by done.
    assert (forallb (fun n => is_ascii n && negb (String.eqb "" n) &&
      numbers_ok (TrafficProfileNumbersFromName id n)) profile_names = true) as Hall
      by (vm_compute; reflexivity).
    rewrite forallb_forall in Hall. specialize (Hall name (proj1 (list_elem_of_In _ _) Hname)).
    apply andb_prop in Hall as [Hall Hok]. apply andb_prop in Hall as [Ha Hne].
    apply negb_true_iff in Hne. rewrite Hne.
    unfold TrafficProfileNumbersFromName, strings_ToLower in *. rewrite Ha in *.
    by apply others_match_none.
Qed.

Lemma profiles_agree_witness :
  existsb (matches 80 90) (TrafficProfileNumbersFromName id "multi-cloud") = true.
Proof.
  rewrite (profiles_agree id 80 90 "multi-cloud").
  - reflexivity.
  - unfold profile_names. set_solver.
Defined.

(** The inverse of the protocol table.  Whatever the order in which the initialiser ranges
    over [PROTO_NAMES], the number of a known name is a number with that name, and for a name
    that is not empty it is the only such number.  Several numbers have the empty name, so the
    number of a flow without a protocol is not determined: two orders give it different ones. *)
Lemma PROTO_NUMS_inverse order :
  order ≡ₚ PROTO_NAMES_entries ->
  (forall k v, PROTO_NAMES !! k = Some v ->
     exists k', PROTO_NUMS_from order !! v = Some k' /\ PROTO_NAMES !! k' = Some v /\
                (v <> "" -> k' = k)) /\
  exists order', order' ≡ₚ PROTO_NAMES_entries /\
    PROTO_NUMS_from order' !! "" <> PROTO_NUMS_from PROTO_NAMES_entries !! "".
Proof.
  intros Hp. split.
  - intros k v Hk. destruct (PROTO_NUMS_complete order Hp k v Hk) as [k' Hk'].
    exists k'. pose proof (PROTO_NUMS_sound order Hp _ _ Hk') as Hn. split_and!; [done..|].
    apply PROTO_NAMES_lookup in Hk, Hn. intros Hv. symmetry.
    by apply (NoDup_snd_inj PROTO_NAMES_entries k k' v PROTO_names_distinct).
  - exists (rev PROTO_NAMES_entries). split; [symmetry; apply Permutation_rev|].
    vm_compute. congruence.
Qed.

Lemma PROTO_NUMS_inverse_witness :
  PROTO_NAMES !! 6 = Some "TCP" /\ PROTO_NUMS_from PROTO_NAMES_entries !! "TCP" = Some 6.
Proof.
  assert (PROTO_NAMES !! 6 = Some "TCP") as H6 by (vm_compute; reflexivity). split; [exact H6|].
  destruct (PROTO_NUMS_inverse PROTO_NAMES_entries (reflexivity _)) as [H _].
  destruct (H 6 "TCP" H6) as (k & -> & _ & Hk). by rewrite Hk.
Defined.
