(* ===== verification/NetflowFormat.v ===== *)
(** * The netflow sink format (src/pkg/formats/netflow)

    Flow records are exported as IPFIX messages or NetFlow 9 packets with one built-in template,
    and read back with the decoder of Decoder.v.  The binary writes, the template, the records,
    the headers with their 16-bit lengths, and the reader's field-by-field switch are
    here; of the log lines of the template tracker only the tracked texts are. *)
From Stdlib Require Import Ascii.
From S2P Require Import Prelude GoIO GoStrings GoNet GoAddr IC KT Session Translate.
From S2P Require Import InformationElements Read Sets NetFlow9 IPFIX Decoder.

#[local] Arguments String.append !_ _ : simpl nomatch.

Definition IN_BYTES : Z := 1.
Definition IN_PKTS : Z := 2.
Definition PROTOCOL : Z := 4.
Definition TOS : Z := 5.
Definition TCP_FLAGS : Z := 6.
Definition L4_SRC_PORT : Z := 7.
Definition IPV4_SRC_ADDR : Z := 8.
Definition INPUT_SNMP : Z := 10.
Definition L4_DST_PORT : Z := 11.
Definition IPV4_DST_ADDR : Z := 12.
Definition OUTPUT_SNMP : Z := 14.
Definition SRC_AS : Z := 16.
Definition DST_AS : Z := 17.
Definition OUT_BYTES : Z := 23.
Definition OUT_PKTS : Z := 24.
Definition IPV6_SRC_ADDR : Z := 27.
Definition IPV6_DST_ADDR : Z := 28.
Definition SRC_MAC : Z := 56.
Definition DST_MAC : Z := 80.
Definition OBSERVATION_POINT_ID : Z := 138.
Definition FLOW_START_SECONDS : Z := 150.
Definition FLOW_END_SECONDS : Z := 151.

Record Field := mkField { f_Type : Z; f_Length : Z }.

Definition fields : list Field :=
  [mkField PROTOCOL 1; mkField TOS 1; mkField TCP_FLAGS 2; mkField SRC_MAC 6;
   mkField DST_MAC 6; mkField IPV4_SRC_ADDR 4; mkField IPV4_DST_ADDR 4;
   mkField L4_SRC_PORT 2; mkField L4_DST_PORT 2; mkField IPV6_SRC_ADDR 16;
   mkField IPV6_DST_ADDR 16; mkField SRC_AS 4; mkField DST_AS 4; mkField INPUT_SNMP 4;
   mkField OUTPUT_SNMP 4; mkField IN_BYTES 8; mkField OUT_BYTES 8; mkField IN_PKTS 8;
   mkField OUT_PKTS 8; mkField OBSERVATION_POINT_ID 8; mkField FLOW_START_SECONDS 4;
   mkField FLOW_END_SECONDS 4].

Definition templateSet : Z := 2.
Definition templateId : Z := 256.

(** ** Binary writes *)

(** What [write] is given: an integer of a fixed size, a byte slice, or a nil interface. *)
Inductive Writable :=
| WUint8 (z : Z) | WUint16 (z : Z) | WUint32 (z : Z) | WUint64 (z : Z)
| WBytes (bs : bytes) | WNil.

(** [binary.Write(buf, binary.BigEndian, v)]; for a nil interface it calls a method of the
    nil [reflect.Type]. *)
Definition binary_Write (v : Writable) : outcome bytes :=
  match v with
  | WUint8 z => Ok (be_split 1 z)
  | WUint16 z => Ok (be_split 2 z)
  | WUint32 z => Ok (be_split 4 z)
  | WUint64 z => Ok (be_split 8 z)
  | WBytes bs => Ok bs
  | WNil => Panic "invalid memory address or nil pointer dereference"
  end.

Fixpoint write (buf : Buffer) (values : list Writable) : outcome Buffer :=
  match values with
  | [] => Ok buf
  | v :: values' => bs ← binary_Write v; write (buf ++ bs) values'
  end.

(** A struct is written field by field. *)
Definition Field_fields (f : Field) : list Writable := [WUint16 (f_Type f); WUint16 (f_Length f)].
Definition MessageHeader_fields (h : IPFIX.MessageHeader) : list Writable :=
  [WUint16 (IPFIX.Version' h); WUint16 (IPFIX.mh_Length h); WUint32 (IPFIX.ExportTime h);
   WUint32 (IPFIX.SequenceNumber h); WUint32 (IPFIX.ObservationDomainID h)].
Definition PacketHeader_fields (h : NetFlow9.PacketHeader) : list Writable :=
  [WUint16 (NetFlow9.Version' h); WUint16 (NetFlow9.Count h); WUint32 (NetFlow9.SysUpTime h);
   WUint32 (NetFlow9.UnixSecs h); WUint32 (NetFlow9.SequenceNumber h);
   WUint32 (NetFlow9.SourceID h)].

Definition encodeTemplate (tempId : Z) : outcome Buffer :=
  let fieldCount := wrap 16 (Z.of_nat (length fields)) in
  write [] ([WUint16 tempId; WUint16 fieldCount] ++ concat (Field_fields <$> fields)).

Definition To16 (ip : IP) : option bytes :=
  if decide (length ip = 4%nat) then Some (v4InV6Prefix ++ ip)
  else if decide (length ip = 16%nat) then Some ip else None.

Definition ip2int (ip : IP) : Z * option bytes :=
  match ip with
  | [] => (0, None)
  | _ => match To4 ip with
         | Some v4 => (be_combine v4, None)
         | None => (0, To16 ip)
         end
  end.

Definition empty : bytes := replicate 16 0.

(** [PROTO_NUMS] is the table of the package [ic]. *)
Definition field_value (PROTO_NUMS : gmap string Z) (flow : JCHF) (type : Z) : Writable :=
  let '(src4, src6) := ip2int (ParseIP (SrcAddr flow)) in
  let '(dst4, dst6) := ip2int (ParseIP (DstAddr flow)) in
  let src6 := default empty src6 in
  let dst6 := default empty dst6 in
  let smac := default (take 6 empty) (ParseMAC (SrcEthMac flow)) in
  let dmac := default (take 6 empty) (ParseMAC (DstEthMac flow)) in
  if type =? PROTOCOL then WUint8 (wrap 8 (default 0 (PROTO_NUMS !! Protocol flow)))
  else if type =? TOS then WUint8 (wrap 8 (Tos flow))
  else if type =? TCP_FLAGS then WUint16 (wrap 16 (TcpFlags flow))
  else if type =? SRC_MAC then WBytes (take 6 smac)
  else if type =? DST_MAC then WBytes (take 6 dmac)
  else if type =? IPV4_SRC_ADDR then WUint32 src4
  else if type =? IPV4_DST_ADDR then WUint32 dst4
  else if type =? L4_SRC_PORT then WUint16 (wrap 16 (L4SrcPort flow))
  else if type =? L4_DST_PORT then WUint16 (wrap 16 (L4DstPort flow))
  else if type =? IPV6_SRC_ADDR then WBytes src6
  else if type =? IPV6_DST_ADDR then WBytes dst6
  else if type =? SRC_AS then WUint32 (wrap 32 (SrcAs flow))
  else if type =? DST_AS then WUint32 (wrap 32 (DstAs flow))
  else if type =? INPUT_SNMP then WUint32 (wrap 32 (InputPort flow))
  else if type =? OUTPUT_SNMP then WUint32 (wrap 32 (OutputPort flow))
  else if type =? IN_BYTES then WUint64 (wrap 64 (InBytes flow))
  else if type =? OUT_BYTES then WUint64 (wrap 64 (OutBytes flow))
  else if type =? IN_PKTS then WUint64 (wrap 64 (InPkts flow))
  else if type =? OUT_PKTS then WUint64 (wrap 64 (OutPkts flow))
  else if type =? OBSERVATION_POINT_ID then
    WUint64 (wrap 64 (wrap 64 (Z.shiftl (wrap 64 (Z.land (CompanyId flow) 0xffff)) 32) +
                      wrap 64 (DeviceId flow)))
  else if type =? FLOW_START_SECONDS then WUint32 (wrap 32 (Timestamp flow))
  else if type =? FLOW_END_SECONDS then WUint32 (wrap 32 (swrap 64 (Timestamp flow + 60)))
  else WNil.

Definition encodeFlow (PROTO_NUMS : gmap string Z) (flow : JCHF) : outcome Buffer :=
  foldl (fun buf field => buf ← buf; write buf [field_value PROTO_NUMS flow (f_Type field)])
    (Ok []) fields.

(** ** The format *)

(** The texts of the templates seen, under observation domain and template id. *)
Abbreviation templateTracker := (gmap Z (gmap Z string)).

Record NetflowFormat := mkNetflowFormat {
  nf_s : basicSession AnyTemplate;
  nf_tracker : templateTracker;
  nf_version : Z
}.

Definition NewFormat (cfg : option string) (compressed : bool) : outcome NetflowFormat :=
  match cfg with
  | None => Err (Errorf "netflow format cannot be nil" [])
  | Some v =>
      version ← (if String.eqb v "ipfix" then Ok IPFIX.Version
                 else if String.eqb v "netflow9" then Ok NetFlow9.Version
                 else Err (Errorf "You used an unsupported netflow version: %s. Use netflow9 or ipfix." []));
      if compressed then Err (Errorf "You cannot use compression on IPFix data." [])
      else Ok (mkNetflowFormat New ∅ version)
  end.

(** A set or flow set: id, length and body. *)
Definition writeWithHeader (version : Z) (buf : Buffer) (id : Z) (body : Buffer) : outcome Buffer :=
  if (version =? IPFIX.Version) || (version =? NetFlow9.Version)
  then write buf [WUint16 id; WUint16 (wrap 16 (Z.of_nat (length body + 4))); WBytes body]
  else Ok buf.

(** [if n := flow.Len() % 4; n > 0 { flow.Write(padding[:n]) }]. *)
Definition padded (flow : Buffer) : Buffer := flow ++ replicate (length flow mod 4) 0.

Fixpoint write_flows (PROTO_NUMS : gmap string Z) (version : Z) (buf : Buffer) (msgs : list JCHF) :
    outcome Buffer :=
  match msgs with
  | [] => Ok buf
  | m :: msgs' =>
      flow ← encodeFlow PROTO_NUMS m;
      buf ← writeWithHeader version buf templateId (padded flow);
      write_flows PROTO_NUMS version buf msgs'
  end.

Definition packIpfix (PROTO_NUMS : gmap string Z) (version : Z) (msgs : list JCHF) :
    outcome (option Output) :=
  match msgs with
  | [] => Ok None
  | _ =>
      tmp ← encodeTemplate templateId;
      dataBuf ← writeWithHeader version [] templateSet tmp;
      dataBuf ← write_flows PROTO_NUMS version dataBuf msgs;
      buf ← write [] (MessageHeader_fields
              (IPFIX.mkMessageHeader version (wrap 16 (Z.of_nat (length dataBuf + 16))) 0 0 0));
      Ok (Some (NewOutput (buf ++ dataBuf)))
  end.

Definition pack9 (PROTO_NUMS : gmap string Z) (version : Z) (flows : list JCHF) :
    outcome (option Output) :=
  buf ← write [] (PacketHeader_fields
          (NetFlow9.mkPacketHeader NetFlow9.Version (wrap 16 (Z.of_nat (length flows + 1))) 0 0 0 0));
  tmp ← encodeTemplate templateId;
  buf ← writeWithHeader version buf 0 tmp;
  buf ← write_flows PROTO_NUMS version buf flows;
  Ok (Some (NewOutput buf)).

Definition To (PROTO_NUMS : gmap string Z) (f : NetflowFormat) (msgs : list JCHF) :
    outcome (option Output) :=
  if nf_version f =? NetFlow9.Version then pack9 PROTO_NUMS (nf_version f) msgs
  else if nf_version f =? IPFIX.Version then packIpfix PROTO_NUMS (nf_version f) msgs
  else Err (Errorf "You used an unsupported version." []).

(** ** Reading back *)

(** A type assertion that fails gives [None], and the record is thrown away. *)
Definition setCHFField (flow : JCHF) (id : Z) (value : option Value) : option JCHF :=
  let u8 (k : Z -> JCHF) := match value with Some (VUint8 v) => Some (k v) | _ => None end in
  let u16 (k : Z -> JCHF) := match value with Some (VUint16 v) => Some (k v) | _ => None end in
  let u32 (k : Z -> JCHF) := match value with Some (VUint32 v) => Some (k v) | _ => None end in
  let u64 (k : Z -> JCHF) := match value with Some (VUint64 v) => Some (k v) | _ => None end in
  let addr (none : string) (k : string -> JCHF) :=
    match value with
    | Some (VIP ip) => Some (if String.eqb (IP_String ip) none then flow else k (IP_String ip))
    | _ => None
    end in
  let mac (k : string -> JCHF) :=
    match value with Some (VHardwareAddr a) => Some (k (HardwareAddr_String a)) | _ => None end in
  if id =? PROTOCOL then u8 (fun v => set_Protocol (default "" (PROTO_NAMES !! v)) flow)
  else if id =? TOS then u8 (fun v => set_Tos v flow)
  else if id =? TCP_FLAGS then u16 (fun v => set_TcpFlags v flow)
  else if id =? L4_SRC_PORT then u16 (fun v => set_L4SrcPort v flow)
  else if id =? L4_DST_PORT then u16 (fun v => set_L4DstPort v flow)
  else if id =? IPV4_SRC_ADDR then addr "0.0.0.0" (fun s => set_SrcAddr s flow)
  else if id =? IPV4_DST_ADDR then addr "0.0.0.0" (fun s => set_DstAddr s flow)
  else if id =? IPV6_SRC_ADDR then addr "::" (fun s => set_SrcAddr s flow)
  else if id =? IPV6_DST_ADDR then addr "::" (fun s => set_DstAddr s flow)
  else if id =? INPUT_SNMP then u32 (fun v => set_InputPort v flow)
  else if id =? OUTPUT_SNMP then u32 (fun v => set_OutputPort v flow)
  else if id =? SRC_AS then u32 (fun v => set_SrcAs v flow)
  else if id =? DST_AS then u32 (fun v => set_DstAs v flow)
  else if id =? IN_PKTS then u64 (fun v => set_InPkts v flow)
  else if id =? IN_BYTES then u64 (fun v => set_InBytes v flow)
  else if id =? OUT_PKTS then u64 (fun v => set_OutPkts v flow)
  else if id =? OUT_BYTES then u64 (fun v => set_OutBytes v flow)
  else if id =? SRC_MAC then mac (fun s => set_SrcEthMac s flow)
  else if id =? DST_MAC then mac (fun s => set_DstEthMac s flow)
  else if id =? FLOW_START_SECONDS then
    match value with Some (VTime ts) => Some (set_Timestamp (t_sec ts) flow) | _ => None end
  else Some flow.

(** The loop over the fields of a record; a field that was not translated is skipped. *)
Definition set_fields (flow : JCHF) (fs : list (option (Z * option Value))) : option JCHF :=
  foldl (fun res f => res ← res; match f with
                                 | Some (id, value) => setCHFField res id value
                                 | None => Some res
                                 end) (Some flow) fs.

Definition decodeIpfixRecord (dr : IPFIX.DataRecord) : option JCHF :=
  set_fields NewJCHF ((fun f => (fun t => (IPFIX.tf_InformationElementID t, IPFIX.tf_Value t)) <$>
                                IPFIX.f_Translated f) <$> IPFIX.dr_Fields dr).

Definition decodeV9Record (dr : NetFlow9.DataRecord) : option JCHF :=
  set_fields NewJCHF ((fun f => (fun t => (NetFlow9.tf_Type t, NetFlow9.tf_Value t)) <$>
                                NetFlow9.f_Translated f) <$> NetFlow9.dr_Fields dr).

Definition addTemplate (tracker : templateTracker) (srcId templateId : Z) (templateStr : string) :
    templateTracker :=
  let known := default ∅ (tracker !! srcId) in
  let tracker := <[srcId := known]> tracker in
  if String.eqb templateStr (default "" (known !! templateId)) then tracker
  else <[srcId := <[templateId := templateStr]> known]> tracker.

Definition addIpfixTemplate (tracker : templateTracker) (srcId : Z) (tr : IPFIX.TemplateRecord) :
    templateTracker :=
  addTemplate tracker srcId (IPFIX.tr_TemplateID tr)
    (foldl (fun b fs => b +:+ Itoa (IPFIX.EnterpriseNumber fs) +:+ ":" +:+
                        Itoa (IPFIX.InformationElementID fs) +:+ " (" +:+
                        Itoa (IPFIX.fs_Length fs) +:+ "), ") "" (IPFIX.tr_Fields tr)).

Definition addV9Template (tracker : templateTracker) (srcId : Z) (tr : NetFlow9.TemplateRecord) :
    templateTracker :=
  addTemplate tracker srcId (NetFlow9.tr_TemplateID tr)
    (foldl (fun b fs => b +:+ Itoa (NetFlow9.fs_Type fs) +:+ " (" +:+
                        Itoa (NetFlow9.fs_Length fs) +:+ "), ") "" (NetFlow9.tr_Fields tr)).

Definition decodeIpfix (tracker : templateTracker) (msg : IPFIX.Message) :
    list JCHF * templateTracker :=
  (omap decodeIpfixRecord (concat (IPFIX.ds_Records <$> IPFIX.DataSets msg)),
   foldl (fun tk tr => addIpfixTemplate tk (IPFIX.ObservationDomainID (IPFIX.Header msg)) tr)
     tracker (concat (IPFIX.ts_Records <$> IPFIX.TemplateSets msg))).

Definition decodeV9 (tracker : templateTracker) (msg : NetFlow9.Packet) :
    list JCHF * templateTracker :=
  (omap decodeV9Record (concat (NetFlow9.dfs_Records <$> NetFlow9.DataFlowSets msg)),
   foldl (fun tk tr => addV9Template tk (NetFlow9.SourceID (NetFlow9.Header msg)) tr)
     tracker (concat (NetFlow9.tfs_Records <$> NetFlow9.TemplateFlowSets msg))).

(** [values[i] = m.ToMap()]. *)
Fixpoint ToMaps (chfs : list JCHF) : outcome (list (option (gmap string Avro))) :=
  match chfs with
  | [] => Ok []
  | m :: chfs' => '(v, _) ← ToMap m; vs ← ToMaps chfs'; Ok (v :: vs)
  end.

Definition From (fuel : nat) (f : NetflowFormat) (raw : Output) :
    NetflowFormat * outcome (list (option (gmap string Avro))) :=
  let '((m, s), o) := Decoder_Read fuel (Body raw) (Some (nf_s f)) in
  let s := default (nf_s f) s in
  match o with
  | Ok _ =>
      match m with
      | Some (MNetFlow9 p) =>
          let '(chfs, tk) := decodeV9 (nf_tracker f) p in
          (mkNetflowFormat s tk (nf_version f), ToMaps chfs)
      | Some (MIPFIX msg) =>
          let '(chfs, tk) := decodeIpfix (nf_tracker f) msg in
          (mkNetflowFormat s tk (nf_version f), ToMaps chfs)
      | _ => (mkNetflowFormat s (nf_tracker f) (nf_version f),
              Err (Errorf "ipfix parser failed to decode a message: %v: %v" []))
      end
  | Err e => (mkNetflowFormat s (nf_tracker f) (nf_version f), Err e)
  | Panic why => (mkNetflowFormat s (nf_tracker f) (nf_version f), Panic why)
  | OutOfFuel => (mkNetflowFormat s (nf_tracker f) (nf_version f), OutOfFuel)
  end.

(** ** What is written *)

(** The bytes of a flow's fields, in the order of the template. *)
Definition values (PROTO_NUMS : gmap string Z) (f : JCHF) : list bytes :=
  let mac s := take 6 (default (take 6 empty) (ParseMAC s)) in
  let src := ip2int (ParseIP (SrcAddr f)) in
  let dst := ip2int (ParseIP (DstAddr f)) in
  [be_split 1 (wrap 8 (default 0 (PROTO_NUMS !! Protocol f)));
   be_split 1 (wrap 8 (Tos f)); be_split 2 (wrap 16 (TcpFlags f));
   mac (SrcEthMac f); mac (DstEthMac f);
   be_split 4 src.1; be_split 4 dst.1;
   be_split 2 (wrap 16 (L4SrcPort f)); be_split 2 (wrap 16 (L4DstPort f));
   default empty src.2; default empty dst.2;
   be_split 4 (wrap 32 (SrcAs f)); be_split 4 (wrap 32 (DstAs f));
   be_split 4 (wrap 32 (InputPort f)); be_split 4 (wrap 32 (OutputPort f));
   be_split 8 (wrap 64 (InBytes f)); be_split 8 (wrap 64 (OutBytes f));
   be_split 8 (wrap 64 (InPkts f)); be_split 8 (wrap 64 (OutPkts f));
   be_split 8 (wrap 64 (wrap 64 (Z.shiftl (wrap 64 (Z.land (CompanyId f) 0xffff)) 32) +
                        wrap 64 (DeviceId f)));
   be_split 4 (wrap 32 (Timestamp f)); be_split 4 (wrap 32 (swrap 64 (Timestamp f + 60)))].

Lemma encode_fold PROTO_NUMS f fds vs buf :
  Forall2 (fun fd v => binary_Write (field_value PROTO_NUMS f (f_Type fd)) = Ok v) fds vs ->
  foldl (fun buf field => buf ← buf; write buf [field_value PROTO_NUMS f (f_Type field)])
    (Ok buf) fds = Ok (buf ++ concat vs).
Proof.
  intros Hv. induction Hv as [|fd v fds vs Hv _ IH] in buf |- *; [simpl; by rewrite app_nil_r|].
  cbn [foldl concat write mbind outcome_bind]. rewrite Hv. cbn [mbind outcome_bind].
  by rewrite IH, app_assoc.
Qed.

Lemma field_values PROTO_NUMS f :
  Forall2 (fun fd v => binary_Write (field_value PROTO_NUMS f (f_Type fd)) = Ok v)
    fields (values PROTO_NUMS f).
Proof.
  unfold field_value, values, fields.
  destruct (ip2int (ParseIP (SrcAddr f))) as [s4 s6], (ip2int (ParseIP (DstAddr f))) as [d4 d6].
  repeat constructor.
Qed.

Lemma encodeFlow_values PROTO_NUMS f :
  encodeFlow PROTO_NUMS f = Ok (concat (values PROTO_NUMS f)).
Proof. apply (encode_fold PROTO_NUMS f fields _ []), field_values. Qed.

Lemma length_mac s : length (take 6 (default (take 6 empty) (ParseMAC s))) = 6%nat.
Proof.
  destruct (ParseMAC s) as [a|] eqn:E; [|done]. apply ParseMAC_length in E.
  cbn [default]. rewrite length_take. by apply Nat.min_l.
Qed.

Lemma length_v6 s : length (default empty (ip2int (ParseIP s)).2) = 16%nat.
Proof.
  destruct (ParseIP_ok s) as [_ [->|Hl]]; [done|]. unfold ip2int.
  destruct (ParseIP s) as [|x ip] eqn:E; [done|]. destruct (To4 (x :: ip)); [done|].
  unfold To16. rewrite decide_False by (rewrite Hl; done). by rewrite decide_True.
Qed.

Lemma values_length PROTO_NUMS f :
  Forall2 (fun fd v => length v = Z.to_nat (f_Length fd)) fields (values PROTO_NUMS f).
Proof.
  unfold fields, values. cbv zeta.
  repeat constructor; cbv beta; rewrite ?length_be_split, ?length_mac, ?length_v6; done.
Qed.

Lemma record_length PROTO_NUMS f : length (concat (values PROTO_NUMS f)) = 124%nat.
Proof.
  rewrite length_concat. unfold values. cbv zeta. cbn [map].
  rewrite ?length_be_split, ?length_mac, ?length_v6. done.
Qed.

(** The template, as the two decoders know it. *)
Definition ipfix_template : IPFIX.TemplateRecord :=
  IPFIX.mkTemplateRecord 256 22
    ((fun fd => IPFIX.mkFieldSpecifier (f_Type fd) (f_Length fd) 0 false) <$> fields).
Definition v9_template : NetFlow9.TemplateRecord :=
  NetFlow9.mkTemplateRecord 256 22
    ((fun fd => NetFlow9.mkFieldSpecifier (f_Type fd) (f_Length fd)) <$> fields).

Lemma encodeTemplate_wire :
  encodeTemplate templateId = Ok (IPFIX.TemplateRecord_wire ipfix_template) /\
  encodeTemplate templateId = Ok (NetFlow9.TemplateRecord_wire v9_template).
Proof. split; vm_compute; reflexivity. Qed.

Lemma template_length : length (IPFIX.TemplateRecord_wire ipfix_template) = 92%nat.
Proof. vm_compute. reflexivity. Qed.

Lemma writeWithHeader_wire version buf id body :
  version = IPFIX.Version \/ version = NetFlow9.Version ->
  writeWithHeader version buf id body =
    Ok (buf ++ be_split 2 id ++ be_split 2 (wrap 16 (Z.of_nat (length body + 4))) ++ body).
Proof.
  intros Hv. unfold writeWithHeader.
  assert ((version =? IPFIX.Version) || (version =? NetFlow9.Version) = true) as ->
    by (destruct Hv as [->| ->]; done).
  cbn [write binary_Write mbind outcome_bind]. by rewrite <- !app_assoc.
Qed.

Section Written.
  Context (PROTO_NUMS : gmap string Z).

Definition flow_wire (f : JCHF) : bytes :=
  be_split 2 256 ++ be_split 2 128 ++ concat (values PROTO_NUMS f).

Lemma write_flows_wire version buf msgs :
  version = IPFIX.Version \/ version = NetFlow9.Version ->
  write_flows PROTO_NUMS version buf msgs = Ok (buf ++ concat (flow_wire <$> msgs)).
Proof using Type.
  intros Hv. induction msgs as [|f msgs IH] in buf |- *; [simpl; by rewrite app_nil_r|].
  cbn [write_flows]. rewrite encodeFlow_values. cbn [mbind outcome_bind].
  assert (padded (concat (values PROTO_NUMS f)) = concat (values PROTO_NUMS f)) as ->.
  { unfold padded. rewrite record_length. by rewrite app_nil_r. }
  rewrite writeWithHeader_wire, record_length by done. cbn [mbind outcome_bind].
  rewrite IH. cbn [fmap list_fmap concat]. unfold flow_wire at 2. by rewrite <- !app_assoc.
Qed.

Lemma length_flow_wire f : length (flow_wire f) = 128%nat.
Proof using Type. unfold flow_wire. by rewrite !length_app, !length_be_split, record_length. Qed.

Lemma length_flows_wire msgs : length (concat (flow_wire <$> msgs)) = (128 * length msgs)%nat.
Proof using Type.
  induction msgs as [|f msgs IH]; [done|]. cbn [fmap list_fmap concat length].
  rewrite length_app, length_flow_wire. fold (fmap (M := list) flow_wire msgs) in IH.
  change (list_fmap JCHF (list Z) flow_wire msgs) with (flow_wire <$> msgs). lia.
Qed.
End Written.

(** ** What is read back *)

(** The types the dictionary gives to the fields. *)
Definition types : list FieldType :=
  [Translate.Uint8; Translate.Uint8; Translate.Uint16; MacAddress; MacAddress; Ipv4Address;
   Ipv4Address; Translate.Uint16; Translate.Uint16; Ipv6Address; Ipv6Address; Translate.Uint32;
   Translate.Uint32; Translate.Uint32; Translate.Uint32; Translate.Uint64; Translate.Uint64;
   Translate.Uint64; Translate.Uint64; Translate.Uint64; DateTimeSeconds; DateTimeSeconds].

Lemma field_types :
  (fun fd => Type' <$> lookup_Key builtin (0, f_Type fd)) <$> fields = Some <$> types.
Proof. vm_compute. reflexivity. Qed.

Lemma Bytes_split w n z t V :
  (w, t, V) ∈ unsigned_types -> n ∈ unsigned_sizes -> Z.of_nat n * 8 <= w ->
  Bytes (be_split n z) t = Ok (V (z mod 256 ^ Z.of_nat n)).
Proof.
  intros Hin Hn Hw. rewrite (Bytes_unsigned w t V) by (apply be_split_ok || done).
  rewrite length_be_split, be_combine_split. by rewrite decide_True.
Qed.

Lemma Bytes_be16 z : Bytes (be_split 2 z) Translate.Uint16 = Ok (VUint16 (wrap 16 z)).
Proof. apply (Bytes_split 16 2); [unfold unsigned_types; set_solver|unfold unsigned_sizes; set_solver|lia]. Qed.
Lemma Bytes_be32 z : Bytes (be_split 4 z) Translate.Uint32 = Ok (VUint32 (wrap 32 z)).
Proof. apply (Bytes_split 32 4); [unfold unsigned_types; set_solver|unfold unsigned_sizes; set_solver|lia]. Qed.
Lemma Bytes_be64 z : Bytes (be_split 8 z) Translate.Uint64 = Ok (VUint64 (wrap 64 z)).
Proof. apply (Bytes_split 64 8); [unfold unsigned_types; set_solver|unfold unsigned_sizes; set_solver|lia]. Qed.

Lemma be_split_1 z : be_split 1 z = [wrap 8 z].
Proof.
  pose proof (be_combine_split 1 z) as Hc. pose proof (length_be_split 1 z) as Hl.
  destruct (be_split 1 z) as [|x [|]]; try done. by rewrite be_combine_1 in Hc; subst.
Qed.
Lemma Bytes_be8 z : Bytes (be_split 1 z) Translate.Uint8 = Ok (VUint8 (wrap 8 z)).
Proof. by rewrite be_split_1. Qed.

Lemma Bytes_mac bs : length bs = 6%nat -> Bytes bs MacAddress = Ok (VHardwareAddr bs).
Proof. intros Hl. unfold Bytes. by rewrite Hl. Qed.
Lemma Bytes_ipv4 bs : length bs = 4%nat -> Bytes bs Ipv4Address = Ok (VIP bs).
Proof. intros Hl. unfold Bytes. by rewrite Hl. Qed.
Lemma Bytes_ipv6 bs : length bs = 16%nat -> Bytes bs Ipv6Address = Ok (VIP bs).
Proof. intros Hl. unfold Bytes. by rewrite Hl. Qed.
Lemma Bytes_seconds z : Bytes (be_split 4 z) DateTimeSeconds = Ok (VTime (time_Unix (wrap 32 z) 0)).
Proof.
  unfold Bytes. rewrite length_be_split. cbn [minLength Nat.ltb Nat.leb].
  rewrite BigEndian_all by apply length_be_split. by rewrite be_combine_split.
Qed.

Definition decoded_values (PROTO_NUMS : gmap string Z) (f : JCHF) : list Value :=
  let mac s := VHardwareAddr (take 6 (default (take 6 empty) (ParseMAC s))) in
  let src := ip2int (ParseIP (SrcAddr f)) in
  let dst := ip2int (ParseIP (DstAddr f)) in
  [VUint8 (wrap 8 (default 0 (PROTO_NUMS !! Protocol f)));
   VUint8 (wrap 8 (Tos f)); VUint16 (wrap 16 (TcpFlags f));
   mac (SrcEthMac f); mac (DstEthMac f);
   VIP (be_split 4 src.1); VIP (be_split 4 dst.1);
   VUint16 (wrap 16 (L4SrcPort f)); VUint16 (wrap 16 (L4DstPort f));
   VIP (default empty src.2); VIP (default empty dst.2);
   VUint32 (wrap 32 (SrcAs f)); VUint32 (wrap 32 (DstAs f));
   VUint32 (wrap 32 (InputPort f)); VUint32 (wrap 32 (OutputPort f));
   VUint64 (wrap 64 (InBytes f)); VUint64 (wrap 64 (OutBytes f));
   VUint64 (wrap 64 (InPkts f)); VUint64 (wrap 64 (OutPkts f));
   VUint64 (wrap 64 (wrap 64 (Z.shiftl (wrap 64 (Z.land (CompanyId f) 0xffff)) 32) +
                     wrap 64 (DeviceId f)));
   VTime (time_Unix (wrap 32 (Timestamp f)) 0);
   VTime (time_Unix (wrap 32 (swrap 64 (Timestamp f + 60))) 0)].

Lemma values_decode PROTO_NUMS f :
  zip_with Bytes (values PROTO_NUMS f) types = Ok <$> decoded_values PROTO_NUMS f.
Proof.
  unfold values, decoded_values, types. cbv zeta. cbn [zip_with fmap list_fmap].
  rewrite !Bytes_be8, !Bytes_be16, !Bytes_be32, !Bytes_be64, !Bytes_seconds.
  rewrite !Bytes_mac by apply length_mac. rewrite !Bytes_ipv4 by apply length_be_split.
  rewrite !Bytes_ipv6 by apply length_v6. rewrite !wrap_wrap by lia. done.
Qed.

(** The fields of a record as the two decoders translate them. *)
Section Translated.
  Context (el : informationElements) (fds : list Field) (ts : list FieldType) (vs : list bytes) (ds : list Value).
  Context (Ht : (fun fd => Type' <$> lookup_Key el (0, f_Type fd)) <$> fds = Some <$> ts).
  Context (Hd : zip_with Bytes vs ts = Ok <$> ds) (Hl : length vs = length fds).

Definition translations : list (option (Z * option Value)) :=
  zip_with (fun fd v => Some (f_Type fd, Some v)) fds ds.

Lemma ipfix_translations :
  (fun f => (fun t => (IPFIX.tf_InformationElementID t, IPFIX.tf_Value t)) <$> IPFIX.f_Translated f)
    <$> zip_with (IPFIX.decoded_field el)
          ((fun fd => IPFIX.mkFieldSpecifier (f_Type fd) (f_Length fd) 0 false) <$> fds) vs =
  translations.
Proof using Ht Hd Hl.
  unfold translations. induction fds as [|fd fds' IH] in ts, vs, ds, Ht, Hd, Hl |- *; [done|].
  destruct ts as [|t ts'], vs as [|v vs'], ds as [|d ds']; try done.
  cbn [fmap list_fmap zip_with] in *. injection Ht as Ht1 Ht2. injection Hd as Hd1 Hd2.
  f_equal; [|eapply IH; [done..|simpl in Hl; lia]].
  unfold IPFIX.decoded_field, IPFIX.translated.
  cbn [IPFIX.f_Translated IPFIX.f_Bytes IPFIX.EnterpriseNumber IPFIX.InformationElementID].
  destruct (lookup_Key el (0, f_Type fd)) as [e|]; [|done].
  cbn in Ht1 |- *. injection Ht1 as ->. by rewrite Hd1.
Qed.

Lemma v9_translations :
  (fun f => (fun t => (NetFlow9.tf_Type t, NetFlow9.tf_Value t)) <$> NetFlow9.f_Translated f)
    <$> zip_with (NetFlow9.decoded_field el)
          ((fun fd => NetFlow9.mkFieldSpecifier (f_Type fd) (f_Length fd)) <$> fds) vs =
  translations.
Proof using Ht Hd Hl.
  unfold translations. induction fds as [|fd fds' IH] in ts, vs, ds, Ht, Hd, Hl |- *; [done|].
  destruct ts as [|t ts'], vs as [|v vs'], ds as [|d ds']; try done.
  cbn [fmap list_fmap zip_with] in *. injection Ht as Ht1 Ht2. injection Hd as Hd1 Hd2.
  f_equal; [|eapply IH; [done..|simpl in Hl; lia]].
  unfold NetFlow9.decoded_field, NetFlow9.translated.
  cbn [NetFlow9.f_Translated NetFlow9.f_Bytes NetFlow9.fs_Type].
  destruct (lookup_Key el (0, f_Type fd)) as [e|]; [|done].
  cbn in Ht1 |- *. injection Ht1 as ->. by rewrite Hd1.
Qed.
End Translated.

(** ** The record an exported flow comes back as *)

Definition carried_protocol (p : string) : string :=
  if decide (p ∈ PROTO_NAMES_entries.*2) then p else "HOPOPT".

(** The canonical text of an address, and nothing for no address. *)
Definition carried_addr (s : string) : string :=
  match ParseIP s with
  | [] => ""
  | ip => if String.eqb (IP_String ip) "0.0.0.0" || String.eqb (IP_String ip) "::" then ""
          else IP_String ip
  end.

(** The first six bytes of the address, zeros for no address. *)
Definition carried_mac (s : string) : string :=
  HardwareAddr_String (take 6 (default (replicate 6 0) (ParseMAC s))).

Definition carried (f : JCHF) : JCHF :=
  set_Timestamp (wrap 32 (Timestamp f))
  (set_OutPkts (wrap 64 (OutPkts f)) (set_InPkts (wrap 64 (InPkts f))
  (set_OutBytes (wrap 64 (OutBytes f)) (set_InBytes (wrap 64 (InBytes f))
  (set_OutputPort (wrap 32 (OutputPort f)) (set_InputPort (wrap 32 (InputPort f))
  (set_DstAs (wrap 32 (DstAs f)) (set_SrcAs (wrap 32 (SrcAs f))
  (set_L4DstPort (wrap 16 (L4DstPort f)) (set_L4SrcPort (wrap 16 (L4SrcPort f))
  (set_DstAddr (carried_addr (DstAddr f)) (set_SrcAddr (carried_addr (SrcAddr f))
  (set_DstEthMac (carried_mac (DstEthMac f)) (set_SrcEthMac (carried_mac (SrcEthMac f))
  (set_TcpFlags (wrap 16 (TcpFlags f)) (set_Tos (wrap 8 (Tos f))
  (set_Protocol (carried_protocol (Protocol f)) NewJCHF))))))))))))))))).

Lemma lacks_colon a r : lacks ":" (a +:+ String ":" r) = false.
Proof. rewrite lacks_app. cbn [lacks]. by rewrite andb_false_r. Qed.

Lemma v6_text_colon ip : lacks ":" (v6_text ip) = false.
Proof. unfold v6_text. destruct (longest_zeros ip) as [[a b]|]; apply lacks_colon. Qed.

(** What the decoder makes of the two fields of an address. *)
Lemma addr_fields s :
  let a := ip2int (ParseIP s) in
  let t4 := IP_String (be_split 4 a.1) in
  let t6 := IP_String (default empty a.2) in
  (t4 = "0.0.0.0" /\ t6 = "::" /\ carried_addr s = "") \/
  (t4 <> "0.0.0.0" /\ t6 = "::" /\ carried_addr s = t4) \/
  (t4 = "0.0.0.0" /\ t6 <> "::" /\ carried_addr s = t6).
Proof.
  cbv zeta. unfold carried_addr. destruct (ParseIP_ok s) as [Hok Hl].
  assert (IP_String (be_split 4 0) = "0.0.0.0") as H0 by (vm_compute; reflexivity).
  assert (IP_String empty = "::") as H6 by (vm_compute; reflexivity).
  destruct (ParseIP s) as [|x ip] eqn:E; [left; cbn [ip2int fst snd default]; auto|].
  destruct Hl as [|Hl]; [done|]. unfold ip2int. destruct (To4 (x :: ip)) as [v4|] eqn:E4.
  - pose proof (To4_ok _ _ Hok E4) as [Hl4 Hok4]. cbn [fst snd default].
    rewrite <- Hl4, be_split_combine by done.
    assert (IP_String v4 = v4_text v4) as Hv4.
    { unfold IP_String. destruct v4 as [|y v4]; [done|]. rewrite decide_False by (rewrite Hl4; lia).
      unfold To4. by rewrite decide_True. }
    assert (IP_String (x :: ip) = v4_text v4) as Hv.
    { unfold IP_String. rewrite decide_False by (rewrite Hl; lia). by rewrite E4. }
    rewrite Hv, Hv4. destruct (String.eqb_spec (v4_text v4) "0.0.0.0") as [->|Hne]; [left; auto|].
    right; left. cbn [orb]. destruct (String.eqb_spec (v4_text v4) "::") as [Hc|]; [|auto].
    exfalso. destruct v4 as [|a [|b [|c [|d [|]]]]]; try done.
    rewrite !Forall_cons in Hok4. destruct Hok4 as (Ha & _).
    assert (addr_kind (v4_text [a; b; c; d]) = Some "."%char) as Hk.
    { unfold v4_text. cbn [map strings_Join]. apply addr_kind_app. by destruct (octet_fact a Ha). }
    by rewrite Hc in Hk.
  - cbn [fst snd]. unfold To16. rewrite decide_False by (rewrite Hl; done).
    rewrite decide_True by done. cbn [default]. rewrite H0.
    assert (IP_String (x :: ip) <> "0.0.0.0") as Hne.
    { unfold IP_String. rewrite decide_False by (rewrite Hl; lia). rewrite E4.
      intros Hc. pose proof (v6_text_colon (x :: ip)) as Hk. by rewrite Hc in Hk. }
    destruct (String.eqb_spec (IP_String (x :: ip)) "0.0.0.0"); [done|]. cbn [orb].
    unfold id. destruct (String.eqb_spec (IP_String (x :: ip)) "::") as [Hc|]; [left|right; right]; auto.
Qed.

Section Carried.
  Context (order : list (Z * string)) (Horder : order ≡ₚ PROTO_NAMES_entries).
#[local] Abbreviation PROTO_NUMS := (PROTO_NUMS_from order).

Lemma carried_protocol_spec p :
default "" (PROTO_NAMES !! wrap 8 (default 0 (PROTO_NUMS !! p))) = carried_protocol p.
Proof using Horder.
unfold carried_protocol. pose proof (PROTO_NUMS_byte order Horder p) as Hb.
rewrite wrap_id by done. case_decide as Hin.
- apply list_elem_of_fmap in Hin as ([k v] & -> & Hin). cbn [snd].
  apply PROTO_NAMES_lookup in Hin. destruct (PROTO_NUMS_complete order Horder k v Hin) as [k' Hk'].
  rewrite Hk'. unfold default, from_option, id. by rewrite (PROTO_NUMS_sound order Horder _ _ Hk').
- destruct (PROTO_NUMS !! p) as [k|] eqn:E.
  + exfalso. apply Hin. apply (PROTO_NUMS_sound order Horder), PROTO_NAMES_lookup in E.
    apply list_elem_of_fmap. by exists (k, p).
  + cbn [default]. vm_compute. reflexivity.
Qed.

Lemma set_fields_carried f :
set_fields NewJCHF (translations fields (decoded_values PROTO_NUMS f)) = Some (carried f).
Proof using Horder.
unfold carried. rewrite <- carried_protocol_spec.
unfold translations, decoded_values, carried_mac. cbv zeta.
pose proof (addr_fields (SrcAddr f)) as Hs. pose proof (addr_fields (DstAddr f)) as Hd.
cbv zeta in Hs, Hd.
change (take 6 empty) with (replicate 6 0). unfold set_fields, fields, setCHFField.
cbn -[PROTO_NAMES empty IP_String be_split wrap swrap default lookup HardwareAddr_String
      ParseMAC take replicate time_Unix].
destruct Hs as [(S4 & S6 & ->)|[(S4 & S6 & ->)|(S4 & S6 & ->)]];
destruct Hd as [(D4 & D6 & ->)|[(D4 & D6 & ->)|(D4 & D6 & ->)]];
  repeat match goal with H : IP_String _ <> _ |- _ => apply String.eqb_neq in H end;
  rewrite ?S4, ?S6, ?D4, ?D6, ?String.eqb_refl; rewrite ?S4, ?S6, ?D4, ?D6; f_equal.
all: unfold time_Unix; cbn [t_sec]; rewrite (Z.div_small 0) by (unfold Second; lia).
all: by rewrite Z.add_0_r.
Qed.
End Carried.

#[local] Opaque builtin.

(** ** The messages, in the terms of the decoders' wire formats *)

Lemma ToMaps_fresh fs :
  Forall (fun j => hasSetAvro j = false /\ avroSet j = Some ∅) fs ->
  ToMaps fs = Ok ((fun j => Some (base_map j)) <$> fs).
Proof.
  induction 1 as [|j fs [Hs Ha] _ IH]; [done|]. cbn [ToMaps].
  rewrite ToMap_fresh by done. cbn [mbind outcome_bind]. by rewrite IH.
Qed.

Definition returned (fs : list JCHF) : list (option (gmap string Avro)) :=
  (fun f => Some (base_map (carried f))) <$> fs.

Lemma ToMaps_carried fs : ToMaps (carried <$> fs) = Ok (returned fs).
Proof.
  rewrite ToMaps_fresh; [unfold returned; by rewrite <- list_fmap_compose|].
  apply Forall_fmap, Forall_forall. intros f _. split; reflexivity.
Qed.

Section RoundTrip.
  Context (order : list (Z * string)) (Horder : order ≡ₚ PROTO_NAMES_entries).
#[local] Abbreviation PROTO_NUMS := (PROTO_NUMS_from order).

Lemma decodeIpfixRecord_carried f :
decodeIpfixRecord (IPFIX.decoded_record builtin ipfix_template (values PROTO_NUMS f)) =
  Some (carried f).
Proof using Horder.
unfold decodeIpfixRecord, IPFIX.decoded_record. cbn [IPFIX.dr_Fields].
rewrite <- (set_fields_carried order Horder f). f_equal.
eapply ipfix_translations; [apply field_types|apply values_decode|done].
Qed.

Lemma decodeV9Record_carried f :
decodeV9Record (NetFlow9.decoded_record builtin v9_template (values PROTO_NUMS f)) =
  Some (carried f).
Proof using Horder.
unfold decodeV9Record, NetFlow9.decoded_record. cbn [NetFlow9.dr_Fields].
rewrite <- (set_fields_carried order Horder f). f_equal.
eapply v9_translations; [apply field_types|apply values_decode|done].
Qed.

Lemma omap_all {A B C} (g : A -> option B) (h : C -> A) (k : C -> B) (l : list C) :
(forall x, g (h x) = Some (k x)) -> omap g (h <$> l) = k <$> l.
Proof using Type. intros Hg. induction l as [|x l IH]; [done|]. csimpl. by rewrite Hg, IH. Qed.

(** IPFIX. *)
Definition ipfix_flow (f : JCHF) : IPFIX.SetData :=
IPFIX.Data_set ipfix_template [values PROTO_NUMS f].

Lemma ipfix_flow_body f :
IPFIX.Set_body (ipfix_flow f) = concat (values PROTO_NUMS f).
Proof using Type.
unfold ipfix_flow. cbn [IPFIX.Set_body fmap list_fmap concat]. rewrite app_nil_r.
unfold IPFIX.values_wire, ipfix_template. cbn [IPFIX.tr_Fields].
pose proof (values_length PROTO_NUMS f) as Hl.
assert (Forall (fun fd => f_Length fd <> IPFIX.VariableLength_word) fields) as Hv
  by (repeat constructor; done).
revert Hl Hv. generalize fields (values PROTO_NUMS f). clear. intros fds vs Hl Hv. f_equal.
induction Hl as [|fd v fds vs _ _ IH]; [done|]. apply Forall_cons in Hv as [Hv1 Hv2].
cbn [fmap list_fmap zip_with]. rewrite IH by done. f_equal. unfold IPFIX.value_wire.
cbn [IPFIX.fs_Length]. by rewrite (proj2 (Z.eqb_neq _ _) Hv1).
Qed.

Lemma ipfix_flow_wire f : IPFIX.Set_wire (ipfix_flow f) = flow_wire PROTO_NUMS f.
Proof using Type.
unfold IPFIX.Set_wire, IPFIX.Set_Length. rewrite ipfix_flow_body, record_length.
unfold flow_wire. by rewrite <- app_assoc.
Qed.

Lemma field_lengths : Forall (fun fd => 0 < f_Length fd < 65535) fields.
Proof using Type. repeat constructor; done. Qed.

Lemma values_sized f :
Forall2 (fun fd v => 0 < f_Length fd < 65535 /\ length v = Z.to_nat (f_Length fd))
  fields (values PROTO_NUMS f).
Proof using Type.
pose proof (values_length PROTO_NUMS f) as Hl. pose proof field_lengths as Hf. revert Hl Hf.
generalize fields (values PROTO_NUMS f). clear. intros fds vs Hl.
induction Hl; intros Hf; constructor; apply Forall_cons in Hf as [? ?]; auto.
Qed.

Lemma ipfix_flow_values f :
IPFIX.values_ok (IPFIX.tr_Fields ipfix_template) (values PROTO_NUMS f).
Proof using Type.
unfold IPFIX.values_ok, ipfix_template. cbn [IPFIX.tr_Fields].
apply Forall2_fmap_l. eapply Forall2_impl; [apply values_sized|].
intros fd v [Hr Hl]. unfold compose, IPFIX.value_ok. cbn [IPFIX.fs_Length].
assert (f_Length fd <> IPFIX.VariableLength_word) as Hne by (unfold IPFIX.VariableLength_word; lia).
apply Z.eqb_neq in Hne. by rewrite Hne.
Qed.

Lemma ipfix_flow_ok (s : basicSession AnyTemplate) f :
GetTemplate s 0 256 = Some (IPFIXTemplate ipfix_template) ->
IPFIX.Set_ok 0 s (ipfix_flow f).
Proof using Type.
intros Hs. unfold IPFIX.Set_ok, IPFIX.Set_Length. rewrite ipfix_flow_body, record_length.
split; [done|]. unfold ipfix_flow. cbn match. split_and!; try done.
constructor; [|constructor]. split; [apply ipfix_flow_values|].
pose proof (ipfix_flow_body f) as Hb. unfold ipfix_flow in Hb.
cbn [IPFIX.Set_body fmap list_fmap concat] in Hb. rewrite app_nil_r in Hb.
rewrite Hb, record_length. lia.
Qed.

(** The data sets leave the templates alone, and each adds its record. *)
Lemma ipfix_flows_ok (m : IPFIX.Message) (s : basicSession AnyTemplate) fs :
GetTemplate s 0 256 = Some (IPFIXTemplate ipfix_template) ->
IPFIX.Sets_ok builtin 0 (m, s) (ipfix_flow <$> fs) /\
exists m', foldl (IPFIX.apply_Set builtin 0) (m, s) (ipfix_flow <$> fs) = (m', s) /\
  IPFIX.Header m' = IPFIX.Header m /\ IPFIX.TemplateSets m' = IPFIX.TemplateSets m /\
  concat (IPFIX.ds_Records <$> IPFIX.DataSets m') =
    concat (IPFIX.ds_Records <$> IPFIX.DataSets m) ++
    ((fun f => IPFIX.decoded_record builtin ipfix_template (values PROTO_NUMS f)) <$> fs).
Proof using Type.
intros Hs. induction fs as [|f fs IH] in m |- *.
{ split; [done|]. exists m. by rewrite app_nil_r. }
destruct (IH (IPFIX.apply_Set builtin 0 (m, s) (ipfix_flow f)).1) as (Hok & m' & Hf & Hh & Ht & Hd).
split; [split; [by apply ipfix_flow_ok|exact Hok]|].
exists m'. split; [exact Hf|]. split; [exact Hh|]. split; [exact Ht|]. rewrite Hd.
unfold ipfix_flow, IPFIX.apply_Set. cbn [fst IPFIX.add_DataSet IPFIX.DataSets].
rewrite fmap_app, concat_app, <- app_assoc. done.
Qed.

Definition ipfix_header (n : nat) : IPFIX.MessageHeader :=
IPFIX.mkMessageHeader 10 (wrap 16 (Z.of_nat (128 * n + 112))) 0 0 0.
Definition ipfix_sets (fs : list JCHF) : list IPFIX.SetData :=
IPFIX.Templates_set [ipfix_template] [] :: (ipfix_flow <$> fs).

Lemma ipfix_sets_wire fs :
concat (IPFIX.Set_wire <$> ipfix_sets fs) =
  (be_split 2 2 ++ be_split 2 96 ++ IPFIX.TemplateRecord_wire ipfix_template) ++
  concat (flow_wire PROTO_NUMS <$> fs).
Proof using Type.
assert (IPFIX.Set_wire (IPFIX.Templates_set [ipfix_template] []) =
  be_split 2 2 ++ be_split 2 96 ++ IPFIX.TemplateRecord_wire ipfix_template) as <-.
{ unfold IPFIX.Set_wire, IPFIX.Set_Length. cbn [IPFIX.Set_body IPFIX.Set_ID fmap list_fmap concat].
  rewrite !app_nil_r, template_length, <- app_assoc. done. }
unfold ipfix_sets. rewrite fmap_cons. cbn [concat]. f_equal.
rewrite <- list_fmap_compose. f_equal. apply list_fmap_ext. intros i f _. apply ipfix_flow_wire.
Qed.

Lemma packIpfix_wire msgs : msgs <> [] ->
packIpfix PROTO_NUMS IPFIX.Version msgs =
  Ok (Some (NewOutput (IPFIX.header_wire (ipfix_header (length msgs)) ++
                       concat (IPFIX.Set_wire <$> ipfix_sets msgs)))).
Proof using Type.
intros Hne. unfold packIpfix. rewrite (proj1 encodeTemplate_wire). cbn [mbind outcome_bind].
rewrite writeWithHeader_wire, template_length by auto. cbn [mbind outcome_bind].
rewrite write_flows_wire by auto. cbn [mbind outcome_bind].
change (wrap 16 (Z.of_nat (92 + 4))) with 96. change templateSet with 2.
rewrite app_nil_l, <- ipfix_sets_wire.
assert (length (concat (IPFIX.Set_wire <$> ipfix_sets msgs)) + 16 = 128 * length msgs + 112)%nat as ->.
{ rewrite ipfix_sets_wire, !length_app, !length_be_split, template_length, length_flows_wire. lia. }
destruct msgs as [|m msgs]; [done|].
unfold IPFIX.header_wire. cbn [MessageHeader_fields write binary_Write mbind outcome_bind].
rewrite app_nil_l. cbn [IPFIX.Version' IPFIX.mh_Length IPFIX.ExportTime IPFIX.SequenceNumber
  IPFIX.ObservationDomainID ipfix_header]. by rewrite <- !app_assoc.
Qed.

(** NetFlow 9. *)
Definition v9_flow (f : JCHF) : NetFlow9.FlowSet * bytes :=
(NetFlow9.Data_set v9_template [values PROTO_NUMS f], []).

Lemma v9_flow_body f : NetFlow9.FlowSet_body (v9_flow f).1 = concat (values PROTO_NUMS f).
Proof using Type. cbn [v9_flow fst NetFlow9.FlowSet_body fmap list_fmap concat]. by rewrite app_nil_r. Qed.

Lemma v9_flow_wire f : NetFlow9.FlowSet_wire (v9_flow f) = flow_wire PROTO_NUMS f.
Proof using Type.
unfold NetFlow9.FlowSet_wire, NetFlow9.FlowSet_Length. rewrite v9_flow_body, record_length.
cbn [v9_flow fst snd]. rewrite app_nil_r. unfold flow_wire. by rewrite <- app_assoc.
Qed.

Lemma v9_flow_ok (s : basicSession AnyTemplate) f :
GetTemplate s 0 256 = Some (V9Template v9_template) ->
NetFlow9.FlowSet_ok 0 s (v9_flow f).
Proof using Type.
intros Hs. unfold NetFlow9.FlowSet_ok, NetFlow9.FlowSet_Length.
rewrite v9_flow_body, record_length. split; [done|]. split; [simpl; lia|].
cbn [v9_flow fst]. split_and!; try done.
constructor; [|constructor]. rewrite record_length. split; [|lia].
unfold NetFlow9.values_ok, v9_template. cbn [NetFlow9.tr_Fields].
apply Forall2_fmap_l. eapply Forall2_impl; [apply values_sized|].
intros fd v [Hr Hl]. unfold compose, NetFlow9.field_size. cbn [NetFlow9.fs_Length]. lia.
Qed.

Lemma v9_flows_ok (p : NetFlow9.Packet) (s : basicSession AnyTemplate) fs :
GetTemplate s 0 256 = Some (V9Template v9_template) ->
NetFlow9.FlowSets_ok builtin 0 (p, s) (v9_flow <$> fs) /\
exists p', foldl (NetFlow9.apply_FlowSet builtin 0) (p, s) (v9_flow <$> fs) = (p', s) /\
  concat (NetFlow9.dfs_Records <$> NetFlow9.DataFlowSets p') =
    concat (NetFlow9.dfs_Records <$> NetFlow9.DataFlowSets p) ++
    ((fun f => NetFlow9.decoded_record builtin v9_template (values PROTO_NUMS f)) <$> fs).
Proof using Type.
intros Hs. induction fs as [|f fs IH] in p |- *.
{ split; [done|]. exists p. by rewrite app_nil_r. }
destruct (IH (NetFlow9.apply_FlowSet builtin 0 (p, s) (v9_flow f)).1) as (Hok & p' & Hf & Hd).
split; [split; [by apply v9_flow_ok|exact Hok]|].
exists p'. split; [exact Hf|]. rewrite Hd.
unfold v9_flow, NetFlow9.apply_FlowSet. cbn [fst NetFlow9.add_DataFlowSet NetFlow9.DataFlowSets].
rewrite fmap_app, concat_app, <- app_assoc. done.
Qed.

Definition v9_header (n : nat) : NetFlow9.PacketHeader :=
NetFlow9.mkPacketHeader 9 (wrap 16 (Z.of_nat (n + 1))) 0 0 0 0.
Definition v9_sets (fs : list JCHF) : list (NetFlow9.FlowSet * bytes) :=
(NetFlow9.Templates_set [v9_template], []) :: (v9_flow <$> fs).

Lemma v9_sets_wire fs :
concat (NetFlow9.FlowSet_wire <$> v9_sets fs) =
  (be_split 2 0 ++ be_split 2 96 ++ NetFlow9.TemplateRecord_wire v9_template) ++
  concat (flow_wire PROTO_NUMS <$> fs).
Proof using Type.
assert (NetFlow9.FlowSet_wire (NetFlow9.Templates_set [v9_template], []) =
  be_split 2 0 ++ be_split 2 96 ++ NetFlow9.TemplateRecord_wire v9_template) as <-
  by (vm_compute; reflexivity).
unfold v9_sets. rewrite fmap_cons. cbn [concat]. f_equal.
rewrite <- list_fmap_compose. f_equal. apply list_fmap_ext. intros i f _. apply v9_flow_wire.
Qed.

Lemma pack9_wire msgs :
pack9 PROTO_NUMS NetFlow9.Version msgs =
  Ok (Some (NewOutput (NetFlow9.header_wire (v9_header (length msgs)) ++
                       concat (NetFlow9.FlowSet_wire <$> v9_sets msgs)))).
Proof using Type.
unfold pack9. cbn [PacketHeader_fields write binary_Write mbind outcome_bind].
rewrite (proj2 encodeTemplate_wire). cbn [mbind outcome_bind].
rewrite writeWithHeader_wire by auto. cbn [mbind outcome_bind].
rewrite write_flows_wire by auto. cbn [mbind outcome_bind].
assert (length (NetFlow9.TemplateRecord_wire v9_template) = 92%nat) as -> by (vm_compute; reflexivity).
change (wrap 16 (Z.of_nat (92 + 4))) with 96. rewrite v9_sets_wire.
unfold NetFlow9.header_wire, v9_header. rewrite app_nil_l, <- !app_assoc. done.
Qed.

(** ** Reading an exported message *)

(** The length word of an IPFIX message wraps: it covers the first [n mod 512] flows. *)
Lemma ipfix_length_word n :
IPFIX.mh_Length (ipfix_header n) = Z.of_nat (128 * (n mod 512) + 112).
Proof using Type.
unfold ipfix_header, wrap. cbn [IPFIX.mh_Length]. change (2 ^ 16) with 65536.
pose proof (Nat.div_mod_eq n 512). pose proof (Nat.mod_upper_bound n 512 ltac:(lia)).
replace (Z.of_nat (128 * n + 112))
  with (Z.of_nat (128 * (n mod 512) + 112) + Z.of_nat (n / 512) * 65536) by lia.
rewrite Z.mod_add, Z.mod_small; lia.
Qed.

Lemma ipfix_template_ok : IPFIX.TemplateRecord_ok ipfix_template.
Proof using Type. constructor; [done..|]. repeat constructor; done. Qed.
Lemma v9_template_ok : NetFlow9.TemplateRecord_ok v9_template.
Proof using Type. constructor; [done..|]. repeat constructor; done. Qed.

Lemma flows_wire_split k msgs :
concat (flow_wire PROTO_NUMS <$> take k msgs) ++ concat (flow_wire PROTO_NUMS <$> drop k msgs) =
concat (flow_wire PROTO_NUMS <$> msgs).
Proof using Type. by rewrite <- (take_drop k msgs) at 3; rewrite fmap_app, concat_app. Qed.

Lemma ipfix_message_length n fs : length fs = (n mod 512)%nat ->
IPFIX.mh_Length (ipfix_header n) =
  Z.of_nat (length (IPFIX.message_wire (ipfix_header n) (ipfix_sets fs))) /\
IPFIX.mh_Length (ipfix_header n) < 65536.
Proof using Type.
intros Hk. rewrite ipfix_length_word. pose proof (Nat.mod_upper_bound n 512 ltac:(lia)).
unfold IPFIX.message_wire. rewrite ipfix_sets_wire, !length_app, length_flows_wire, Hk,
  template_length, !length_be_split. unfold IPFIX.header_wire.
rewrite !length_app, !length_be_split. lia.
Qed.

Lemma ipfix_message_split msgs :
let k := (length msgs mod 512)%nat in
IPFIX.header_wire (ipfix_header (length msgs)) ++ concat (IPFIX.Set_wire <$> ipfix_sets msgs) =
IPFIX.message_wire (ipfix_header (length msgs)) (ipfix_sets (take k msgs)) ++
  concat (flow_wire PROTO_NUMS <$> drop k msgs).
Proof using Type.
intros k. unfold IPFIX.message_wire.
by rewrite !ipfix_sets_wire, <- (flows_wire_split k msgs), <- !app_assoc.
Qed.

(** The flows that the length word covers are read. *)
Lemma ipfix_message_reads fuel (s : basicSession AnyTemplate) n fs rest :
length fs = (n mod 512)%nat ->
(length (IPFIX.message_wire (ipfix_header n) (ipfix_sets fs)) <= fuel)%nat ->
exists m, IPFIX.Read fuel (IPFIX.message_wire (ipfix_header n) (ipfix_sets fs) ++ rest)
            (Some s) None =
          ((Some m, Some (AddTemplate s 0 (IPFIXTemplate ipfix_template))), Ok rest) /\
  concat (IPFIX.ds_Records <$> IPFIX.DataSets m) =
    (fun f => IPFIX.decoded_record builtin ipfix_template (values PROTO_NUMS f)) <$> fs.
Proof using Type.
intros Hk Hfuel. destruct (ipfix_message_length n fs Hk) as [Hl Hmax].
set (h := ipfix_header n) in *.
set (s0 := AddTemplate s 0 (IPFIXTemplate ipfix_template)).
set (m0 := (IPFIX.apply_Set builtin 0 (IPFIX.mkMessage h [] [] [] [], s)
             (IPFIX.Templates_set [ipfix_template] [])).1).
assert (GetTemplate s0 0 256 = Some (IPFIXTemplate ipfix_template)) as Hget
  by exact (GetTemplate_AddTemplate s 0 (IPFIXTemplate ipfix_template)).
destruct (ipfix_flows_ok m0 s0 fs Hget) as (Hok & m' & Hf & _ & _ & Hd).
assert (IPFIX.Sets_ok builtin 0 (IPFIX.mkMessage h [] [] [] [], s) (ipfix_sets fs)) as Hsets.
{ split; [|exact Hok]. split; [vm_compute; done|]. split_and!; [done| |simpl; lia].
  constructor; [apply ipfix_template_ok|constructor]. }
pose proof (ipfix_Read_wire builtin fuel h (ipfix_sets fs) s rest) as Hread.
specialize (Hread ltac:(by constructor) ltac:(done) Hl Hmax Hsets Hfuel).
change (foldl (IPFIX.apply_Set builtin (IPFIX.ObservationDomainID h))
  (IPFIX.mkMessage h [] [] [] [], s) (ipfix_sets fs))
  with (foldl (IPFIX.apply_Set builtin 0) (m0, s0) (ipfix_flow <$> fs)) in Hread.
rewrite Hf in Hread. exists m'. split; [exact Hread|]. exact Hd.
Qed.

Lemma From_ipfix fuel nf msgs :
(length (IPFIX.header_wire (ipfix_header (length msgs)) ++
         concat (IPFIX.Set_wire <$> ipfix_sets msgs)) <= fuel)%nat ->
(From fuel nf (NewOutput (IPFIX.header_wire (ipfix_header (length msgs)) ++
                          concat (IPFIX.Set_wire <$> ipfix_sets msgs)))).2 =
  Ok (returned (take (length msgs mod 512) msgs)).
Proof using Horder.
rewrite ipfix_message_split. set (k := (length msgs mod 512)%nat). intros Hfuel.
assert (length (take k msgs) = (length msgs mod 512)%nat) as Hk.
{ rewrite length_take. apply Nat.min_l, Nat.Div0.mod_le. }
rewrite length_app in Hfuel.
destruct (ipfix_message_reads fuel (nf_s nf) _ _ (concat (flow_wire PROTO_NUMS <$> drop k msgs))
  Hk ltac:(lia)) as (m & Hread & Hd).
unfold From. cbn [Body NewOutput].
rewrite (Decoder_Read_starts fuel 10); [|eexists; unfold IPFIX.message_wire, IPFIX.header_wire;
  by rewrite <- !app_assoc|lia].
unfold Decoder_switch. cbn [Z.eqb Pos.eqb NetFlow1.Version NetFlow5.Version NetFlow6.Version
  NetFlow7.Version NetFlow9.Version IPFIX.Version].
rewrite Hread. cbn [fmap option_fmap option_map discard mbind outcome_bind default from_option id].
unfold decodeIpfix. rewrite Hd. cbn [snd].
rewrite (omap_all _ _ carried) by apply decodeIpfixRecord_carried. apply ToMaps_carried.
Qed.

(** All flows of a NetFlow 9 packet are read, as long as the count does not wrap. *)
Lemma v9_packet_reads fuel (s : basicSession AnyTemplate) fs :
Z.of_nat (length fs) < 65535 ->
(length (NetFlow9.packet_wire (v9_header (length fs)) (v9_sets fs)) <= fuel)%nat ->
exists p, NetFlow9.Read fuel (NetFlow9.packet_wire (v9_header (length fs)) (v9_sets fs))
            (Some s) None =
          ((Some p, Some (AddTemplate s 0 (V9Template v9_template))), Ok []) /\
  concat (NetFlow9.dfs_Records <$> NetFlow9.DataFlowSets p) =
    (fun f => NetFlow9.decoded_record builtin v9_template (values PROTO_NUMS f)) <$> fs.
Proof using Type.
intros Hn Hfuel. set (h := v9_header (length fs)) in *.
assert (NetFlow9.Count h = Z.of_nat (length fs + 1)) as Hc.
{ apply wrap_id. unfold in_range. lia. }
set (s0 := AddTemplate s 0 (V9Template v9_template)).
set (p0 := (NetFlow9.apply_FlowSet builtin 0 (NetFlow9.mkPacket h [] [] [] [], s)
             (NetFlow9.Templates_set [v9_template], [])).1).
assert (GetTemplate s0 0 256 = Some (V9Template v9_template)) as Hget
  by exact (GetTemplate_AddTemplate s 0 (V9Template v9_template)).
destruct (v9_flows_ok p0 s0 fs Hget) as (Hok & p & Hf & Hd).
assert (NetFlow9.FlowSets_ok builtin 0 (NetFlow9.mkPacket h [] [] [] [], s) (v9_sets fs)) as Hsets.
{ split; [|exact Hok]. split; [vm_compute; done|]. split; [simpl; lia|]. split; [done|].
  constructor; [apply v9_template_ok|constructor]. }
assert (NetFlow9.header_ok h) as Hh.
{ constructor; try done. rewrite Hc. unfold in_range. lia. }
pose proof (v9_Read_wire builtin fuel h (v9_sets fs) s Hh ltac:(done)) as Hread.
rewrite Hc in Hread. unfold v9_sets at 1 in Hread. rewrite length_cons, length_fmap in Hread.
specialize (Hread ltac:(lia) Hsets Hfuel).
change (foldl (NetFlow9.apply_FlowSet builtin (NetFlow9.SourceID h))
  (NetFlow9.mkPacket h [] [] [] [], s) (v9_sets fs))
  with (foldl (NetFlow9.apply_FlowSet builtin 0) (p0, s0) (v9_flow <$> fs)) in Hread.
rewrite Hf in Hread. exists p. split; [exact Hread|]. exact Hd.
Qed.

Lemma From_v9 fuel nf msgs :
Z.of_nat (length msgs) < 65535 ->
(length (NetFlow9.packet_wire (v9_header (length msgs)) (v9_sets msgs)) <= fuel)%nat ->
(From fuel nf (NewOutput (NetFlow9.packet_wire (v9_header (length msgs)) (v9_sets msgs)))).2 =
  Ok (returned msgs).
Proof using Horder.
intros Hn Hfuel. destruct (v9_packet_reads fuel (nf_s nf) msgs Hn Hfuel) as (p & Hread & Hd).
unfold From. cbn [Body NewOutput].
rewrite <- (app_nil_r (NetFlow9.packet_wire _ _)).
rewrite (Decoder_Read_starts fuel 9); [|eexists; unfold NetFlow9.packet_wire, NetFlow9.header_wire;
  by rewrite <- !app_assoc|lia]. rewrite app_nil_r.
unfold Decoder_switch. cbn [Z.eqb Pos.eqb NetFlow1.Version NetFlow5.Version NetFlow6.Version
  NetFlow7.Version NetFlow9.Version IPFIX.Version].
rewrite Hread. cbn [fmap option_fmap option_map discard mbind outcome_bind default from_option id].
unfold decodeV9. rewrite Hd. cbn [snd].
rewrite (omap_all _ _ carried) by apply decodeV9Record_carried. apply ToMaps_carried.
Qed.
End RoundTrip.

(** ** Flows that survive *)

(** An address in its canonical text, or none. *)
Definition canonical_addr (s : string) : Prop :=
  s = "" \/ (ParseIP s <> [] /\ IP_String (ParseIP s) = s /\ s <> "0.0.0.0" /\ s <> "::").
Definition canonical_mac (s : string) : Prop :=
  exists a, length a = 6%nat /\ bytes_ok a /\ s = HardwareAddr_String a.

Record carriable (f : JCHF) : Prop := {
  ok_Protocol : Protocol f ∈ PROTO_NAMES_entries.*2;
  ok_Tos : in_range 8 (Tos f);
  ok_TcpFlags : in_range 16 (TcpFlags f);
  ok_ports : in_range 16 (L4SrcPort f) /\ in_range 16 (L4DstPort f);
  ok_as : in_range 32 (SrcAs f) /\ in_range 32 (DstAs f);
  ok_ifaces : in_range 32 (InputPort f) /\ in_range 32 (OutputPort f);
  ok_in : in_range 64 (InBytes f) /\ in_range 64 (InPkts f);
  ok_out : in_range 64 (OutBytes f) /\ in_range 64 (OutPkts f);
  ok_Timestamp : in_range 32 (Timestamp f);
  ok_addrs : canonical_addr (SrcAddr f) /\ canonical_addr (DstAddr f);
  ok_macs : canonical_mac (SrcEthMac f) /\ canonical_mac (DstEthMac f)
}.

(** A fresh record with the exported fields of [f]. *)
Definition exported_fields (f : JCHF) : JCHF :=
  set_Timestamp (Timestamp f)
  (set_OutPkts (OutPkts f) (set_InPkts (InPkts f)
  (set_OutBytes (OutBytes f) (set_InBytes (InBytes f)
  (set_OutputPort (OutputPort f) (set_InputPort (InputPort f)
  (set_DstAs (DstAs f) (set_SrcAs (SrcAs f)
  (set_L4DstPort (L4DstPort f) (set_L4SrcPort (L4SrcPort f)
  (set_DstAddr (DstAddr f) (set_SrcAddr (SrcAddr f)
  (set_DstEthMac (DstEthMac f) (set_SrcEthMac (SrcEthMac f)
  (set_TcpFlags (TcpFlags f) (set_Tos (Tos f)
  (set_Protocol (Protocol f) NewJCHF))))))))))))))))).

Lemma carried_canonical_addr s : canonical_addr s -> carried_addr s = s.
Proof.
  unfold carried_addr. intros [->|(Hne & Hs & H0 & H6)]; [done|].
  destruct (ParseIP s) as [|x ip]; [done|]. rewrite Hs.
  destruct (String.eqb_spec s "0.0.0.0"), (String.eqb_spec s "::"); done.
Qed.

Lemma canonical_v4 b :
  length b = 4%nat -> bytes_ok b -> v4_text b <> "0.0.0.0" -> canonical_addr (v4_text b).
Proof.
  intros Hl Hb Hne. right. rewrite ParseIP_v4 by done.
  assert (IP_String (v4InV6Prefix ++ b) = v4_text b) as Hs.
  { unfold IP_String. cbn [v4InV6Prefix app]. rewrite decide_False by (simpl length; rewrite Hl; lia).
    unfold To4. rewrite decide_False by (simpl length; rewrite Hl; lia).
    by rewrite decide_True by (simpl length; rewrite Hl; done). }
  split_and!; [done..|]. intros Hc. destruct b as [|a [|c [|d [|e [|]]]]]; try done.
  rewrite !Forall_cons in Hb. destruct Hb as (Ha & _).
  assert (addr_kind (v4_text [a; c; d; e]) = Some "."%char) as Hk.
  { unfold v4_text. cbn [map strings_Join]. apply addr_kind_app. by destruct (octet_fact a Ha). }
  by rewrite Hc in Hk.
Qed.

Lemma carried_canonical_mac s : canonical_mac s -> carried_mac s = s.
Proof.
  intros (a & Hl & Ha & ->). unfold carried_mac. rewrite ParseMAC_String by done.
  cbn [default from_option id]. by rewrite take_ge by lia.
Qed.

Lemma carriable_carried f : carriable f -> carried f = exported_fields f.
Proof.
  intros [Hp Ht Htf [Hsp Hdp] [Hsa Hda] [Hi Ho] [Hib Hip] [Hob Hop] Hts [Hs Hd] [Hsm Hdm]].
  unfold carried, exported_fields.
  rewrite !wrap_id, !carried_canonical_addr, !carried_canonical_mac by done.
  unfold carried_protocol. by rewrite decide_True.
Qed.

Lemma To_ipfix PROTO_NUMS nf msgs :
  nf_version nf = IPFIX.Version -> To PROTO_NUMS nf msgs = packIpfix PROTO_NUMS IPFIX.Version msgs.
Proof. intros Hv. unfold To. by rewrite Hv. Qed.
Lemma To_v9 PROTO_NUMS nf msgs :
  nf_version nf = NetFlow9.Version -> To PROTO_NUMS nf msgs = pack9 PROTO_NUMS NetFlow9.Version msgs.
Proof. intros Hv. unfold To. by rewrite Hv. Qed.

(** ** Properties *)

(** A batch of fewer than 512 flows, with either version: the output reads back as the flows cut
    to what the fields carry. *)
Lemma To_From order fuel nf flows :
  order ≡ₚ PROTO_NAMES_entries ->
  nf_version nf = IPFIX.Version \/ nf_version nf = NetFlow9.Version ->
  flows <> [] -> (length flows < 512)%nat ->
  exists o, To (PROTO_NUMS_from order) nf flows = Ok (Some o) /\
    ((length (Body o) <= fuel)%nat -> (From fuel nf o).2 = Ok (returned flows)).
Proof.
  intros Horder Hv Hne Hn. destruct Hv as [Hv|Hv].
  - rewrite To_ipfix, packIpfix_wire by done. eexists. split; [reflexivity|]. intros Hf.
    rewrite (From_ipfix order Horder) by exact Hf.
    by rewrite Nat.mod_small, take_ge by (done || lia).
  - rewrite To_v9, pack9_wire by done. eexists. split; [reflexivity|]. intros Hf.
    apply (From_v9 order Horder); [lia|exact Hf].
Qed.

Lemma returned_carriable flows : Forall carriable flows ->
  returned flows = (fun f => Some (base_map (exported_fields f))) <$> flows.
Proof.
  intros Hok. apply Forall_fmap_ext_1. eapply Forall_impl; [exact Hok|]. intros f Hf.
  by rewrite carriable_carried.
Qed.

(** C4: what the agent exports as netflow it reads back.  For either version, and whatever the
    templates the reader's session already holds, a batch of fewer than 512 flows whose values
    fit the template's widths and whose addresses are in canonical text is exported without an
    error, and reading the output gives, in order, exactly the records with the same protocol,
    ports, addresses, hardware addresses, interfaces, AS numbers, counters and time. *)
Theorem netflow_format_roundtrip order fuel nf flows :
  order ≡ₚ PROTO_NAMES_entries ->
  nf_version nf = IPFIX.Version \/ nf_version nf = NetFlow9.Version ->
  flows <> [] -> (length flows < 512)%nat -> Forall carriable flows ->
  exists o, To (PROTO_NUMS_from order) nf flows = Ok (Some o) /\
    ((length (Body o) <= fuel)%nat ->
     (From fuel nf o).2 = Ok ((fun f => Some (base_map (exported_fields f))) <$> flows)).
Proof.
  intros Horder Hv Hne Hn Hok. rewrite <- returned_carriable by done. by apply To_From.
Qed.

Definition sample_flow : JCHF :=
  set_Protocol "TCP" (set_Tos 8 (set_TcpFlags 27 (set_SrcAddr "10.0.0.1"
  (set_DstAddr "192.168.1.20" (set_L4SrcPort 443 (set_L4DstPort 51000 (set_InBytes 1500
  (set_SrcEthMac "00:1b:44:11:3a:b7" (set_DstEthMac "00:1b:44:11:3a:b8"
  (set_Timestamp 1700000000 NewJCHF)))))))))).

Lemma sample_carriable : carriable sample_flow.
Proof.
  constructor; cbn; try done.
  - apply (bool_decide_eq_true_1 _). vm_compute. reflexivity.
  - split; [apply (canonical_v4 [10; 0; 0; 1])|apply (canonical_v4 [192; 168; 1; 20])];
      first [done | repeat constructor; done].
  - split; [exists [0; 27; 68; 17; 58; 183]|exists [0; 27; 68; 17; 58; 184]];
      (split; [done|split; [repeat constructor; done|vm_compute; reflexivity]]).
Qed.

Lemma netflow_format_roundtrip_witness :
  exists nf o, NewFormat (Some "ipfix") false = Ok nf /\
    To (PROTO_NUMS_from PROTO_NAMES_entries) nf [sample_flow] = Ok (Some o) /\
    (From (length (Body o)) nf o).2 = Ok [Some (base_map (exported_fields sample_flow))].
Proof.
  exists (mkNetflowFormat New ∅ 10).
  destruct (netflow_format_roundtrip PROTO_NAMES_entries
    (length (IPFIX.header_wire (ipfix_header 1) ++ concat (IPFIX.Set_wire <$>
       ipfix_sets PROTO_NAMES_entries [sample_flow])))
    (mkNetflowFormat New ∅ 10) [sample_flow])
    as (o & Ho & Hfrom); [done|by left|done|simpl; lia|by apply Forall_singleton, sample_carriable|].
  exists o. split; [reflexivity|]. split; [exact Ho|].
  assert (o = NewOutput (IPFIX.header_wire (ipfix_header 1) ++ concat (IPFIX.Set_wire <$>
    ipfix_sets PROTO_NAMES_entries [sample_flow]))) as ->.
  { rewrite To_ipfix, packIpfix_wire in Ho by done. unfold NewOutput in *. simpl length in Ho.
    congruence. }
  apply Hfrom. done.
Defined.

(** C5: how many flows survive.  For any flows at all, the export succeeds.  Reading a NetFlow 9
    packet gives one record for every flow, in order (up to 65534 of them).  Reading an IPFIX
    message gives records for the first [n mod 512] of the [n] flows only, without an error:
    the length word is 16 bits wide, so of a batch of exactly 512 flows all are lost.  Each
    record is the flow with its values cut to the width of their fields, its protocol, its
    addresses and its hardware addresses in canonical form. *)
Theorem netflow_format_survivors order fuel nf flows :
  order ≡ₚ PROTO_NAMES_entries -> flows <> [] ->
  (nf_version nf = NetFlow9.Version -> Z.of_nat (length flows) < 65535 ->
   exists o, To (PROTO_NUMS_from order) nf flows = Ok (Some o) /\
     ((length (Body o) <= fuel)%nat -> (From fuel nf o).2 = Ok (returned flows))) /\
  (nf_version nf = IPFIX.Version ->
   exists o, To (PROTO_NUMS_from order) nf flows = Ok (Some o) /\
     ((length (Body o) <= fuel)%nat ->
      (From fuel nf o).2 = Ok (returned (take (length flows mod 512) flows)))).
Proof.
  intros Horder Hne. split; intros Hv.
  - intros Hn. rewrite To_v9, pack9_wire by done. eexists. split; [reflexivity|]. intros Hf.
    by apply (From_v9 order Horder).
  - rewrite To_ipfix, packIpfix_wire by done. eexists. split; [reflexivity|]. intros Hf.
    by apply (From_ipfix order Horder).
Qed.

Lemma netflow_format_survivors_witness :
  exists o, To (PROTO_NUMS_from PROTO_NAMES_entries) (mkNetflowFormat New ∅ 10)
              (replicate 512 sample_flow) = Ok (Some o) /\
    forall fuel, (length (Body o) <= fuel)%nat ->
      (From fuel (mkNetflowFormat New ∅ 10) o).2 = Ok [].
Proof.
  assert (forall fuel, exists o,
    To (PROTO_NUMS_from PROTO_NAMES_entries) (mkNetflowFormat New ∅ 10)
       (replicate 512 sample_flow) = Ok (Some o) /\
    ((length (Body o) <= fuel)%nat -> (From fuel (mkNetflowFormat New ∅ 10) o).2 = Ok [])) as Hall.
  { intros fuel. pose proof (netflow_format_survivors PROTO_NAMES_entries fuel
      (mkNetflowFormat New ∅ 10) (replicate 512 sample_flow) (reflexivity _) ltac:(done)) as [_ H].
    rewrite length_replicate in H. exact (H (reflexivity _)). }
  destruct (Hall 0%nat) as (o & Ho & _). exists o. split; [exact Ho|]. intros fuel Hf.
  destruct (Hall fuel) as (o' & Ho' & Hfrom). assert (o' = o) as -> by congruence. by apply Hfrom.
Defined.
