(* ===== verification/Rule.v ===== *)
(** * Classification rules (src/pkg/util/rule)

    Which addresses are internal, and which application a port belongs to.  The prefix trees
    and the parser of networks are the library [patricia]: an interface here, with the
    documented behaviour of its operations as laws.  The table of services, which the package
    [service] generates, and the decoded file of custom rules are arguments. *)
From S2P Require Import Prelude GoIO GoStrings GoNet.

(** ** The prefix trees of the library *)

(** A network: the 4 or 16 bytes of an address and the number of its leading bits. *)
Definition network : Type := bytes * nat.

(** The leading bits of an address are those of the network. *)
Definition covers (n : network) (a : bytes) : bool :=
  (length n.1 =? length a)%nat &&
  (be_combine n.1 / 2 ^ (8 * Z.of_nat (length n.1) - Z.of_nat n.2) =?
   be_combine a / 2 ^ (8 * Z.of_nat (length n.1) - Z.of_nat n.2)).

Class PrefixTree (T : Type) := {
  NewTree : T;
  tree_Add : T -> network -> Z -> T;
  FindDeepestTag : T -> bytes -> option Z;
  tree_tags : T -> list (network * Z)
}.

(** A lookup gives the tag of a network that covers the address, if there is any; the network
    is one with the most leading bits. *)
Class PrefixTreeLaws (T : Type) `{PrefixTree T} := {
  NewTree_tags : tree_tags NewTree = [];
  tree_Add_tags t n tag : tree_tags (tree_Add t n tag) = tree_tags t ++ [(n, tag)];
  FindDeepestTag_spec t a :
    match FindDeepestTag t a with
    | Some tag => exists n, (n, tag) ∈ tree_tags t /\ covers n a = true /\
        Forall (fun nt => covers nt.1 a = true -> (nt.1.2 <= n.2)%nat) (tree_tags t)
    | None => Forall (fun nt => covers nt.1 a = false) (tree_tags t)
    end
}.

(** ** Matches (rule_match.go) *)

Definition MatchNone : Z := 0.
Definition MatchPrivateIP : Z := 1.

(** ** IPAddressRules (ip_rule.go) *)

Section Rules.
  Context {T : Type} `{PrefixTree T}.

Record IPAddressRules := mkIPAddressRules { treeV4 : T; treeV6 : T }.
Definition NewIPAddressRules : IPAddressRules := mkIPAddressRules NewTree NewTree.

(** [ParseIPFromString] is the library's; an error adds nothing and is ignored by the caller. *)
Context (ParseIPFromString : string -> option network).

Definition AddIPAddress (r : IPAddressRules) (ipAddress : string) (matchType : Z) :
    outcome IPAddressRules :=
  match ParseIPFromString ipAddress with
  | None => Err (Errorf "Error parsing IP address: %s" [])
  | Some n =>
      if (length n.1 =? 4)%nat
      then Ok (mkIPAddressRules (tree_Add (treeV4 r) n matchType) (treeV6 r))
      else Ok (mkIPAddressRules (treeV4 r) (tree_Add (treeV6 r) n matchType))
  end.

Definition Check_ip (r : IPAddressRules) (ip : IP) : Z :=
  match (match To4 ip with
         | Some ipv4 => FindDeepestTag (treeV4 r) ipv4
         | None => FindDeepestTag (treeV6 r) ip
         end) with
  | Some ret => ret
  | None => MatchNone
  end.

(** ** RuleSet (rule.go) *)

Definition INTERNAL_IPS : list string :=
  ["0.0.0.0/8"; "127.0.0.0/8"; "100.64.0.0/10"; "10.0.0.0/8"; "172.16.0.0/12";
   "192.168.0.0/16"; "169.254.0.0/16"; "192.0.0.0/24"; "192.0.2.0/24"; "192.18.0.0/15";
   "198.51.100.0/24"; "203.0.113.0/24"; "224.0.0.0/4"; "192.88.99.0/24"; "240.0.0.0/4";
   "fc00::/7"; "fe80::/10"].

Record RuleSet := mkRuleSet {
  ipAddressRules : IPAddressRules;
  portRules : gmap Z string
}.

Record CustomRule := mkCustomRule { Ports : list Z; cr_Name : string }.

(** [if err := ...; err != nil { continue }]. *)
Definition add_internal (r : IPAddressRules) (line : string) : IPAddressRules :=
  match AddIPAddress r (strings_TrimSpace line) MatchPrivateIP with
  | Ok r' => r'
  | _ => r
  end.

(** [customs] is the decoded file of custom rules, empty without one. *)
Definition NewRuleSet (customs : list CustomRule) : RuleSet :=
  mkRuleSet (foldl add_internal NewIPAddressRules INTERNAL_IPS)
    (foldl (fun m custom => foldl (fun m port => <[port := cr_Name custom]> m) m (Ports custom))
       ∅ customs).

Definition matchesPrivateASN (as_ : Z) : bool :=
  ((64512 <=? as_) && (as_ <=? 65534)) || ((4200000000 <=? as_) && (as_ <=? 4294967294)).

Definition IsInternal (r : RuleSet) (ip : IP) (as_ : Z) : bool :=
  if Check_ip (ipAddressRules r) ip =? MatchPrivateIP then true
  else matchesPrivateASN as_.

(** [Services] is the generated table, under port and protocol number. *)
Definition GetService (Services : gmap (Z * Z) string) (r : RuleSet) (ip : IP)
    (port protocol : Z) : option string :=
  match portRules r !! port with
  | Some app => Some app
  | None => Services !! (port, protocol)
  end.

(** ** The classification *)

(** The networks [INTERNAL_IPS] spells. *)
Definition internal_networks : list network :=
  [([0; 0; 0; 0], 8%nat); ([127; 0; 0; 0], 8%nat); ([100; 64; 0; 0], 10%nat);
   ([10; 0; 0; 0], 8%nat); ([172; 16; 0; 0], 12%nat); ([192; 168; 0; 0], 16%nat);
   ([169; 254; 0; 0], 16%nat); ([192; 0; 0; 0], 24%nat); ([192; 0; 2; 0], 24%nat);
   ([192; 18; 0; 0], 15%nat); ([198; 51; 100; 0], 24%nat); ([203; 0; 113; 0], 24%nat);
   ([224; 0; 0; 0], 4%nat); ([192; 88; 99; 0], 24%nat); ([240; 0; 0; 0], 4%nat);
   (252 :: replicate 15 0, 7%nat); (254 :: 128 :: replicate 14 0, 10%nat)].

Context `{!PrefixTreeLaws T}.
Context (Hparse : ParseIPFromString <$> INTERNAL_IPS = Some <$> internal_networks).

Definition tags_v4 (ns : list network) : list (network * Z) :=
  (fun n => (n, MatchPrivateIP)) <$> filter (fun n => length n.1 = 4%nat) ns.
Definition tags_v6 (ns : list network) : list (network * Z) :=
  (fun n => (n, MatchPrivateIP)) <$> filter (fun n => length n.1 <> 4%nat) ns.

Lemma add_internal_tags lines ns r :
  ParseIPFromString <$> lines = Some <$> ns -> Forall (fun l => strings_TrimSpace l = l) lines ->
  tree_tags (treeV4 (foldl add_internal r lines)) = tree_tags (treeV4 r) ++ tags_v4 ns /\
  tree_tags (treeV6 (foldl add_internal r lines)) = tree_tags (treeV6 r) ++ tags_v6 ns.
Proof using PrefixTreeLaws0.
  revert ns r. induction lines as [|l lines IH]; intros [|n ns] r Hp Ht; try done.
  { by rewrite !app_nil_r. }
  injection Hp as Hl Hp. apply Forall_cons in Ht as [Htl Ht]. cbn [foldl].
  destruct (IH ns (add_internal r l) Hp Ht) as [-> ->].
  unfold add_internal, AddIPAddress. rewrite Htl, Hl.
  unfold tags_v4, tags_v6. rewrite !filter_cons.
  destruct (Nat.eqb_spec (length n.1) 4) as [H4|H4]; cbn [treeV4 treeV6];
    rewrite tree_Add_tags, <- app_assoc.
  - rewrite (decide_True (P := length n.1 = 4%nat)), (decide_False (P := length n.1 <> 4%nat)) by auto.
    done.
  - rewrite (decide_False (P := length n.1 = 4%nat)), (decide_True (P := length n.1 <> 4%nat)) by auto.
    done.
Qed.

Lemma deepest_private (t : T) (ns : list network) a :
  tree_tags t = (fun n => (n, MatchPrivateIP)) <$> ns ->
  FindDeepestTag t a = if existsb (fun n => covers n a) ns then Some MatchPrivateIP else None.
Proof using PrefixTreeLaws0.
  intros Ht. pose proof (FindDeepestTag_spec t a) as Hf. rewrite Ht in Hf.
  destruct (FindDeepestTag t a) as [tag|].
  - destruct Hf as (n & Hin & Hc & _). apply list_elem_of_fmap in Hin as (n' & [= -> ->] & Hin).
    assert (existsb (fun n => covers n a) ns = true) as ->; [|done].
    apply existsb_exists. exists n'. split; [by apply list_elem_of_In|done].
  - assert (existsb (fun n => covers n a) ns = false) as ->; [|done].
    apply not_true_iff_false. intros (n & Hin & Hc)%existsb_exists.
    rewrite Forall_fmap, Forall_forall in Hf. apply list_elem_of_In in Hin.
    specialize (Hf n Hin). cbn in Hf. congruence.
Qed.

Lemma covers_length n a : covers n a = true -> length n.1 = length a.
Proof using Type. unfold covers. intros [Hl%Nat.eqb_eq _]%andb_prop. done. Qed.

Lemma existsb_filter {A} (P : A -> Prop) `{forall x, Decision (P x)} f (l : list A) :
  (forall x, f x = true -> P x) -> existsb f (filter P l) = existsb f l.
Proof using Type.
  intros Hf. induction l as [|x l IH]; [done|]. rewrite filter_cons. cbn [existsb].
  case_decide as HP; [cbn [existsb]; by rewrite IH|].
  rewrite IH. destruct (f x) eqn:E; [by apply Hf in E|done].
Qed.

(** The bytes that are looked up: an IPv4 address as 4 bytes. *)
Definition lookup_bytes (ip : IP) : bytes := default ip (To4 ip).

Lemma Check_ip_networks customs ip :
  Check_ip (ipAddressRules (NewRuleSet customs)) ip =
    if existsb (fun n => covers n (lookup_bytes ip)) internal_networks
    then MatchPrivateIP else MatchNone.
Proof using PrefixTreeLaws0 Hparse.
  unfold Check_ip, lookup_bytes, NewRuleSet. cbn [ipAddressRules].
  assert (Forall (fun l => strings_TrimSpace l = l) INTERNAL_IPS) as Htrim.
  { apply (bool_decide_eq_true_1 _). vm_compute. reflexivity. }
  destruct (add_internal_tags _ _ NewIPAddressRules Hparse Htrim) as [H4 H6].
  cbn [NewIPAddressRules treeV4 treeV6] in H4, H6. rewrite NewTree_tags, app_nil_l in H4, H6.
  destruct (To4 ip) as [v4|] eqn:E; cbn [default from_option].
  - assert (length v4 = 4%nat) as Hl.
    { unfold To4 in E. case_decide; [by injection E as <-|]. case_decide as Hd; [|done].
      injection E as <-. rewrite length_drop. by rewrite (proj1 Hd). }
    rewrite (deepest_private _ _ _ H4), existsb_filter.
    + by destruct (existsb _ _).
    + intros n Hc%covers_length. by rewrite Hc.
  - assert (length ip <> 4%nat) as Hl.
    { intros Hl. unfold To4 in E. by rewrite decide_True in E. }
    rewrite (deepest_private _ _ _ H6), existsb_filter.
    + by destruct (existsb _ _).
    + intros n Hc%covers_length. by rewrite Hc.
Qed.

(** ** Properties *)

(** Internal addresses.  Whatever the implementation of the prefix trees, an address is
    internal exactly when its leading bits are those of one of the listed networks (of its
    family; an IPv4-mapped address counts as IPv4), or its AS number is private; custom port
    rules do not change that, and take precedence over the table of services. *)
Lemma IsInternal_networks customs Services ip as_ :
  IsInternal (NewRuleSet customs) ip as_ =
    existsb (fun n => covers n (lookup_bytes ip)) internal_networks || matchesPrivateASN as_ /\
  (forall port protocol c, customs = [c] ->
     GetService Services (NewRuleSet customs) ip port protocol =
       if decide (port ∈ Ports c) then Some (cr_Name c) else Services !! (port, protocol)).
Proof using PrefixTreeLaws0 Hparse.
  split.
  - unfold IsInternal. rewrite Check_ip_networks. by destruct (existsb _ _).
  - intros port protocol c ->. unfold GetService, NewRuleSet. cbn [portRules foldl].
    assert (forall m, foldl (fun m port => <[port := cr_Name c]> m) m (Ports c) !! port =
      if decide (port ∈ Ports c) then Some (cr_Name c) else m !! port) as ->.
    { induction (Ports c) as [|p ps IH]; intros m; cbn [foldl].
      - by rewrite decide_False by apply not_elem_of_nil.
      - rewrite IH. destruct (decide (port ∈ ps)) as [Hin|Hin].
        + by rewrite decide_True by (by right).
        + destruct (decide (port = p)) as [->|Hne].
          * rewrite decide_True by (by left). apply lookup_insert_eq.
          * rewrite decide_False by (rewrite elem_of_cons; tauto). by apply lookup_insert_ne. }
    rewrite lookup_empty. by destruct (decide _).
Qed.
End Rules.

(** ** An implementation of the trees: a list of networks *)

Definition better (a : bytes) (best : option (nat * Z)) (nt : network * Z) : option (nat * Z) :=
  if covers nt.1 a then
    match best with
    | Some (l, _) => if (l <=? nt.1.2)%nat then Some (nt.1.2, nt.2) else best
    | None => Some (nt.1.2, nt.2)
    end
  else best.

#[export] Instance list_tree : PrefixTree (list (network * Z)) := {
  NewTree := [];
  tree_Add t n tag := t ++ [(n, tag)];
  FindDeepestTag t a := snd <$> foldl (better a) None t;
  tree_tags t := t
}.

Lemma better_spec a t :
  match foldl (better a) None t with
  | Some (l, tag) => exists n, (n, tag) ∈ t /\ n.2 = l /\ covers n a = true /\
      Forall (fun nt : network * Z => covers nt.1 a = true -> (nt.1.2 <= l)%nat) t
  | None => Forall (fun nt : network * Z => covers nt.1 a = false) t
  end.
Proof.
  induction t as [|[n tag] t IH] using rev_ind; [by constructor|]. rewrite foldl_snoc.
  unfold better at 1. cbn [fst snd]. destruct (covers n a) eqn:Hc.
  - destruct (foldl (better a) None t) as [[l tag']|].
    + destruct IH as (n' & Hin & Hl & Hcn & Hall). destruct (Nat.leb_spec l n.2).
      * exists n. split_and!; [set_solver|done|done|]. apply Forall_app. split; [|by repeat constructor].
        eapply Forall_impl; [exact Hall|]. intros nt Hnt Hcnt. specialize (Hnt Hcnt). lia.
      * exists n'. split_and!; [set_solver|done|done|]. apply Forall_app.
        split; [done|]. constructor; [cbn; lia|done].
    + exists n. split_and!; [set_solver|done|done|]. apply Forall_app. split; [|by repeat constructor].
      eapply Forall_impl; [exact IH|]. intros nt Hnt Hcnt. congruence.
  - destruct (foldl (better a) None t) as [[l tag']|].
    + destruct IH as (n' & Hin & Hl & Hcn & Hall). exists n'. split_and!; [set_solver|done|done|].
      apply Forall_app. split; [done|]. constructor; [cbn; congruence|done].
    + apply Forall_app. split; [done|]. by repeat constructor.
Qed.

#[export] Instance list_tree_laws : PrefixTreeLaws (list (network * Z)).
Proof.
  constructor; [done|done|]. intros t a. cbn. pose proof (better_spec a t) as Hs.
  destruct (foldl (better a) None t) as [[l tag]|]; cbn; [|done].
  destruct Hs as (n & Hin & <- & Hc & Hall). exists n. done.
Qed.

(** The networks in CIDR notation, as [net.ParseCIDR] reads them. *)
Definition cidr (s : string) : option network :=
  n ← ParseCIDR s;
  Some (net_IP n, length (filter (fun b => Z.testbit (be_combine (net_Mask n)) b = true)
                            (seqZ 0 (8 * Z.of_nat (length (net_Mask n)))))).

Lemma IsInternal_networks_witness :
  IsInternal (NewRuleSet (T := list (network * Z)) cidr []) (ParseIP "10.2.1.2") 3 = true /\
  IsInternal (NewRuleSet (T := list (network * Z)) cidr []) (ParseIP "192.19.1.1") 3 = true /\
  IsInternal (NewRuleSet (T := list (network * Z)) cidr []) (ParseIP "198.18.0.1") 3 = false /\
  IsInternal (NewRuleSet (T := list (network * Z)) cidr []) (ParseIP "fe80::1") 3 = true /\
  GetService ∅ (NewRuleSet (T := list (network * Z)) cidr [mkCustomRule [9092] "kafka"]) [] 9092 6 =
    Some "kafka".
Proof.
  assert (cidr <$> INTERNAL_IPS = Some <$> internal_networks) as Hp by (vm_compute; reflexivity).
  pose proof (IsInternal_networks (T := list (network * Z)) cidr Hp [] ∅) as H.
  split_and!.
  1-4: rewrite (proj1 (H _ 3)); vm_compute; reflexivity.
  rewrite (proj2 (IsInternal_networks (T := list (network * Z)) cidr Hp
    [mkCustomRule [9092] "kafka"] ∅ [] 0) 9092 6 (mkCustomRule [9092] "kafka") (reflexivity _)).
  reflexivity.
Defined.
