(* ===== verification/Customs.v ===== *)
(** * The custom fields of a record

    Writes, deletions and renames on the string, integer and float maps of a record, shared by
    the conversion, enrichment and stitching of flows, and Go's range over a map that its own
    body updates. *)
From stdpp Require Import fin_map_dom gmap.
From S2P Require Import Prelude GoIO KT Stitch.

(** The type of the events of synthetic tests. *)
Definition KENTIK_EVENT_SYNTH : string := "KSynth".

(** ** Writes; a write to a nil map panics *)

Definition put_CustomStr (k v : string) (msg : JCHF) : outcome JCHF :=
  m ← gomap_set (CustomStr msg) k v; Ok (set_CustomStr m msg).
Definition put_CustomFloat (k : string) (v : Z) (msg : JCHF) : outcome JCHF :=
  m ← gomap_set (CustomFloat msg) k v; Ok (set_CustomFloat m msg).

(** [v, ok := m[k]]. *)
Definition gomap_find {A} (m : option (gmap string A)) (k : string) : option A := m ≫= lookup k.

(** [delete(m, k)]: nothing for a nil map. *)
Definition gomap_delete {A} (m : option (gmap string A)) (k : string) : option (gmap string A) :=
  delete k <$> m.

Definition del_CustomStr (k : string) (msg : JCHF) : JCHF :=
  set_CustomStr (gomap_delete (CustomStr msg) k) msg.
Definition del_CustomInt (k : string) (msg : JCHF) : JCHF :=
  set_CustomInt (gomap_delete (CustomInt msg) k) msg.
Definition del_CustomBigInt (k : string) (msg : JCHF) : JCHF :=
  set_CustomBigInt (gomap_delete (CustomBigInt msg) k) msg.
Definition del_CustomFloat (k : string) (msg : JCHF) : JCHF :=
  set_CustomFloat (gomap_delete (CustomFloat msg) k) msg.

(** ** Renames *)

(** [if val, ok := m[old]; ok { m[new] = val; delete(m, old) }]. *)
Definition rename {A} (old new : string) (m : gmap string A) : gmap string A :=
  match m !! old with
  | Some v => delete old (<[new := v]> m)
  | None => m
  end.

(** A rename to the same name loses the entry. *)
Lemma rename_self {A} k (m : gmap string A) : rename k k m = delete k m.
Proof.
  unfold rename. destruct (m !! k) as [v|] eqn:E.
  - by rewrite delete_insert_eq.
  - symmetry. by apply delete_id.
Qed.

Lemma rename_lookup {A} old new (m : gmap string A) k :
  old <> new ->
  rename old new m !! k =
    if decide (k = old) then None
    else if decide (k = new) then (match m !! old with Some v => Some v | None => m !! k end)
    else m !! k.
Proof.
  intros Hne. unfold rename. destruct (m !! old) as [v|] eqn:E.
  - repeat case_decide; subst; simplify_map_eq; done.
  - repeat case_decide; subst; done.
Qed.

(** Renames whose old names are distinct and no new name of another. *)
Definition renames {A} (rs : list (string * string)) (m : gmap string A) : gmap string A :=
  foldl (fun m r => rename r.1 r.2 m) m rs.

Record separate (rs : list (string * string)) : Prop := {
  sep_old : NoDup rs.*1;
  sep_new : NoDup rs.*2;
  sep_disjoint : forall k, k ∈ rs.*1 -> k ∉ rs.*2
}.

Lemma separate_cons r rs : separate (r :: rs) -> separate rs.
Proof.
  intros [Ho Hn Hd]. rewrite fmap_cons in Ho, Hn. apply NoDup_cons in Ho as [_ Ho], Hn as [_ Hn].
  constructor; [done..|]. intros k Hk Hk'. apply (Hd k); rewrite fmap_cons; by right.
Qed.

(** Each value moves to its new name, everything else stays. *)
Lemma renames_lookup {A} rs (m : gmap string A) k :
  separate rs ->
  renames rs m !! k =
    if decide (k ∈ rs.*1) then None
    else match list_find (fun r => r.2 = k) rs with
         | Some (_, r) => match m !! r.1 with Some v => Some v | None => m !! k end
         | None => m !! k
         end.
Proof.
  intros Hs. induction rs as [|[old new] rs IH] in m, Hs |- *.
  { cbn. by rewrite decide_False by apply not_elem_of_nil. }
  pose proof (separate_cons _ _ Hs) as Hs'. destruct Hs as [Ho Hn Hd].
  rewrite fmap_cons in Ho, Hn. apply NoDup_cons in Ho as [Ho1 Ho2], Hn as [Hn1 Hn2].
  cbn [fst snd] in *.
  assert (old <> new) as Hne.
  { intros ->. apply (Hd new); rewrite fmap_cons; by left. }
  assert (new ∉ rs.*1) as Hnew.
  { intros Hin. apply (Hd new); rewrite fmap_cons; [by right|by left]. }
  cbn [renames foldl fst snd]. change (foldl _ (rename old new m) rs) with (renames rs (rename old new m)).
  rewrite (IH _ Hs'). rewrite fmap_cons. cbn [fst list_find snd].
  destruct (decide (k ∈ rs.*1)) as [Hin|Hin].
  { by rewrite (decide_True (P := k ∈ old :: _)) by (by right). }
  destruct (decide (k = old)) as [->|Hko].
  { rewrite (decide_True (P := old ∈ old :: _)) by (by left).
    assert (list_find (fun r : string * string => r.2 = old) rs = None) as ->.
    { apply list_find_None, Forall_forall. intros r Hr Heq. apply (Hd old); rewrite fmap_cons; [by left|].
      right. apply list_elem_of_fmap. by exists r. }
    rewrite rename_lookup by done. by rewrite decide_True. }
  rewrite (decide_False (P := k ∈ old :: _)) by (rewrite elem_of_cons; tauto).
  destruct (decide (new = k)) as [->|Hkn].
  - assert (list_find (fun r : string * string => r.2 = k) rs = None) as ->.
    { apply list_find_None, Forall_forall. intros r Hr Heq. apply Hn1. apply list_elem_of_fmap.
      by exists r. }
    rewrite rename_lookup by done. by rewrite decide_False, decide_True.
  - destruct (list_find (fun r : string * string => r.2 = k) rs) as [[i r]|] eqn:E.
    + cbn. apply list_find_Some in E as (Hr & Hrk & _).
      assert (r.1 ∈ rs.*1) as Hr1 by (apply list_elem_of_fmap; exists r; split; [done|]; by eapply list_elem_of_lookup_2).
      rewrite !rename_lookup by done.
      rewrite (decide_False (P := r.1 = old)) by (intros He; apply Ho1; by rewrite <- He).
      rewrite (decide_False (P := r.1 = new)) by (intros He; apply Hnew; by rewrite <- He).
      by rewrite (decide_False (P := k = old)), (decide_False (P := k = new)) by congruence.
    + cbn. rewrite rename_lookup by done. by rewrite decide_False, decide_False by congruence.
Qed.

(** The order of separate renames does not matter. *)
Lemma separate_perm rs rs' : rs ≡ₚ rs' -> separate rs -> separate rs'.
Proof.
  intros Hp [Ho Hn Hd]. constructor; [by rewrite <- Hp..|]. intros k. rewrite <- Hp. apply Hd.
Qed.

Lemma list_find_unique (rs : list (string * string)) k r :
  NoDup rs.*2 -> r ∈ rs -> r.2 = k -> exists i, list_find (fun r => r.2 = k) rs = Some (i, r).
Proof.
  intros Hn Hin <-. induction rs as [|r0 rs IH]; [by apply elem_of_nil in Hin|].
  rewrite fmap_cons in Hn. apply NoDup_cons in Hn as [Hn1 Hn2]. cbn [list_find].
  destruct (decide (r0.2 = r.2)) as [He|He].
  - exists 0%nat. apply elem_of_cons in Hin as [->|Hin]; [done|]. exfalso. apply Hn1. rewrite He.
    apply list_elem_of_fmap. by exists r.
  - apply elem_of_cons in Hin as [->|Hin]; [done|]. destruct (IH Hn2 Hin) as [i ->].
    exists (S i). done.
Qed.

Lemma renames_perm {A} rs rs' (m : gmap string A) :
  separate rs -> rs ≡ₚ rs' -> renames rs m = renames rs' m.
Proof.
  intros Hs Hp. apply map_eq. intros k. pose proof (separate_perm _ _ Hp Hs) as Hs'.
  rewrite !renames_lookup by done.
  assert (k ∈ rs.*1 <-> k ∈ rs'.*1) as Hiff by (by rewrite Hp).
  destruct (decide (k ∈ rs.*1)), (decide (k ∈ rs'.*1)); try tauto.
  destruct (list_find (fun r => r.2 = k) rs) as [[i r]|] eqn:E.
  - apply list_find_Some in E as (Hr & Hk & _). apply list_elem_of_lookup_2 in Hr.
    rewrite Hp in Hr. destruct (list_find_unique rs' k r (sep_new _ Hs') Hr Hk) as [j ->]. done.
  - apply list_find_None in E. rewrite Hp in E.
    assert (list_find (fun r : string * string => r.2 = k) rs' = None) as -> by (by apply list_find_None).
    done.
Qed.

(** ** Range over a map that the body updates *)

Section Range.
  Context {A : Type} (body : string -> A -> gmap string A -> gmap string A).

(** [seen] are the entries that were produced and are still there, [must] those of the start
    that still have to be: an entry that is removed before it is reached is not produced, one
    that is created on the way may or may not be. *)
Inductive range_run : gset string -> gset string -> gmap string A -> gmap string A -> Prop :=
| range_end seen m : range_run seen ∅ m m
| range_next seen must m k v m' :
    k ∉ seen -> m !! k = Some v ->
    range_run (filter (fun x => is_Some (body k v m !! x)) ({[k]} ∪ seen))
      (filter (fun x => is_Some (body k v m !! x)) (must ∖ {[k]})) (body k v m) m' ->
    range_run seen must m m'.

Definition range (m m' : gmap string A) : Prop := range_run ∅ (dom m) m m'.

(** A property of the map that every iteration keeps holds at the end. *)
Lemma range_invariant (P : gmap string A -> Prop) seen must m m' :
  (forall k v m, P m -> m !! k = Some v -> P (body k v m)) ->
  range_run seen must m m' -> P m -> P m'.
Proof using Type.
  intros Hstep Hrun. induction Hrun as [|seen must m k v m' Hs Hk Hrun IH]; [done|].
  intros HP. by apply IH, Hstep.
Qed.

Lemma range_first seen must m m' : must <> ∅ -> range_run seen must m m' ->
  exists k v seen' must', m !! k = Some v /\ range_run seen' must' (body k v m) m'.
Proof using Type. intros Hne Hr. destruct Hr as [|seen must m k v m' Hs Hk Hr]; [done|]. by eauto 10. Qed.

Lemma range_empty seen must m m' : range_run seen must m m' -> m = ∅ -> m' = ∅.
Proof using Type.
  intros Hr Hm. destruct Hr as [|seen must m k v m' Hs Hk Hr]; [done|].
  subst m. by rewrite lookup_empty in Hk.
Qed.
End Range.

(** The same loop along a list of keys, each produced if it is there when its turn comes. *)
Definition range_along {A} (body : string -> A -> gmap string A -> gmap string A)
    (order : list string) (m : gmap string A) : gmap string A :=
  foldl (fun m k => match m !! k with Some v => body k v m | None => m end) m order.

Lemma range_along_run {A} (body : string -> A -> gmap string A -> gmap string A) order :
  forall seen must m, NoDup order -> (forall k, k ∈ order -> k ∉ seen) ->
  must ⊆ list_to_set order -> must ⊆ dom m ->
  range_run body seen must m (range_along body order m).
Proof.
  induction order as [|k order IH]; intros seen must m Hnd Hseen Hmust Hdom.
  { assert (must = ∅) as -> by set_solver. constructor. }
  apply NoDup_cons in Hnd as [Hk Hnd]. cbn [range_along foldl].
  destruct (m !! k) as [v|] eqn:Hv.
  - eapply range_next; [apply Hseen; by left|exact Hv|]. apply IH; [done|set_solver| |].
    + intros x [Hx Hin]%elem_of_filter. set_solver.
    + intros x [Hx _]%elem_of_filter. by apply elem_of_dom.
  - apply IH; [done|set_solver| |done].
    intros x Hx. assert (x ∈ dom m) as [w Hw]%elem_of_dom by set_solver.
    assert (x <> k) by congruence. set_solver.
Qed.

(** Along any list that has every key of the map once, it is a run of the loop. *)
Lemma range_along_range {A} (body : string -> A -> gmap string A -> gmap string A) order m :
  NoDup order -> dom m ⊆ list_to_set order -> range body m (range_along body order m).
Proof. intros Hnd Hd. apply range_along_run; [done|set_solver|done|done]. Qed.

(** ** Steps that keep a record's maps made and part of it as it is *)

(** The four maps are there: [make] has been called for them. *)
Record all_maps (msg : JCHF) : Prop := {
  has_CustomStr : is_Some (CustomStr msg);
  has_CustomInt : is_Some (CustomInt msg);
  has_CustomBigInt : is_Some (CustomBigInt msg);
  has_CustomFloat : is_Some (CustomFloat msg)
}.

(** A view of a record that does not show its custom maps. *)
Class Forgets (view : JCHF -> JCHF) := {
  forget_CustomStr m msg : view (set_CustomStr m msg) = view msg;
  forget_CustomInt m msg : view (set_CustomInt m msg) = view msg;
  forget_CustomBigInt m msg : view (set_CustomBigInt m msg) = view msg;
  forget_CustomFloat m msg : view (set_CustomFloat m msg) = view msg
}.

(** An update the view does not show, which leaves the maps alone. *)
Class Quiet (view f : JCHF -> JCHF) :=
  quiet msg : view (f msg) = view msg /\ CustomStr (f msg) = CustomStr msg /\
    CustomInt (f msg) = CustomInt msg /\ CustomBigInt (f msg) = CustomBigInt msg /\
    CustomFloat (f msg) = CustomFloat msg.
#[export] Hint Extern 0 (Quiet _ _) => (intros []; repeat split; reflexivity) : typeclass_instances.

Section Gentle.
  Context (view : JCHF -> JCHF) `{Forgets view} (m0 : JCHF).

(** A record with its maps that looks like [m0], and a step that gives one. *)
Definition like (msg : JCHF) : Prop := all_maps msg /\ view msg = view m0.
Definition gentle (o : outcome JCHF) : Prop := exists msg, o = Ok msg /\ like msg.

Lemma gentle_ret msg : like msg -> gentle (Ok msg).
Proof using Type. intros Hm. by exists msg. Qed.

Lemma gentle_bind o g :
  gentle o -> (forall msg, like msg -> gentle (g msg)) -> gentle (o ≫= g).
Proof using Type. intros (msg & -> & Hm) Hg. by apply Hg. Qed.

Lemma gentle_fold {A} (f : JCHF -> A -> outcome JCHF) l :
  (forall x msg, like msg -> gentle (f msg x)) ->
  forall msg, like msg -> gentle (fold_out f msg l).
Proof using Type.
  intros Hf. induction l as [|x l IH]; intros msg Hm; [by apply gentle_ret|].
  cbn [fold_out]. apply gentle_bind; [by apply Hf|done].
Qed.

Lemma like_set f `{Quiet view f} msg : like msg -> like (f msg).
Proof using Type.
  intros [[] Ht]. destruct (quiet (view := view) (f := f) msg) as (Hv & H1 & H2 & H3 & H4).
  split; [constructor; congruence|congruence].
Qed.

Lemma like_set_CustomStr m msg : like msg -> like (set_CustomStr (Some m) msg).
Proof using Type*.
  intros [[] Ht]. split; [destruct msg; by constructor|]. by rewrite forget_CustomStr.
Qed.
Lemma like_set_CustomInt m msg : like msg -> like (set_CustomInt (Some m) msg).
Proof using Type*.
  intros [[] Ht]. split; [destruct msg; by constructor|]. by rewrite forget_CustomInt.
Qed.
Lemma like_set_CustomBigInt m msg : like msg -> like (set_CustomBigInt (Some m) msg).
Proof using Type*.
  intros [[] Ht]. split; [destruct msg; by constructor|]. by rewrite forget_CustomBigInt.
Qed.
Lemma like_set_CustomFloat m msg : like msg -> like (set_CustomFloat (Some m) msg).
Proof using Type*.
  intros [[] Ht]. split; [destruct msg; by constructor|]. by rewrite forget_CustomFloat.
Qed.

Lemma gentle_put_CustomStr k v msg : like msg -> gentle (put_CustomStr k v msg).
Proof using Type*.
  intros Hl. unfold put_CustomStr. destruct (has_CustomStr _ (proj1 Hl)) as [m ->].
  by apply gentle_ret, like_set_CustomStr.
Qed.
Lemma gentle_put_CustomInt k v msg : like msg -> gentle (put_CustomInt k v msg).
Proof using Type*.
  intros Hl. unfold put_CustomInt. destruct (has_CustomInt _ (proj1 Hl)) as [m ->].
  by apply gentle_ret, like_set_CustomInt.
Qed.
Lemma gentle_put_CustomBigInt k v msg : like msg -> gentle (put_CustomBigInt k v msg).
Proof using Type*.
  intros Hl. unfold put_CustomBigInt. destruct (has_CustomBigInt _ (proj1 Hl)) as [m ->].
  by apply gentle_ret, like_set_CustomBigInt.
Qed.
Lemma gentle_put_CustomFloat k v msg : like msg -> gentle (put_CustomFloat k v msg).
Proof using Type*.
  intros Hl. unfold put_CustomFloat. destruct (has_CustomFloat _ (proj1 Hl)) as [m ->].
  by apply gentle_ret, like_set_CustomFloat.
Qed.

Lemma like_del_CustomStr k msg : like msg -> like (del_CustomStr k msg).
Proof using Type*.
  intros Hl. unfold del_CustomStr. destruct (has_CustomStr _ (proj1 Hl)) as [m ->].
  by apply like_set_CustomStr.
Qed.
Lemma like_del_CustomInt k msg : like msg -> like (del_CustomInt k msg).
Proof using Type*.
  intros Hl. unfold del_CustomInt. destruct (has_CustomInt _ (proj1 Hl)) as [m ->].
  by apply like_set_CustomInt.
Qed.
Lemma like_del_CustomBigInt k msg : like msg -> like (del_CustomBigInt k msg).
Proof using Type*.
  intros Hl. unfold del_CustomBigInt. destruct (has_CustomBigInt _ (proj1 Hl)) as [m ->].
  by apply like_set_CustomBigInt.
Qed.
Lemma like_del_CustomFloat k msg : like msg -> like (del_CustomFloat k msg).
Proof using Type*.
  intros Hl. unfold del_CustomFloat. destruct (has_CustomFloat _ (proj1 Hl)) as [m ->].
  by apply like_set_CustomFloat.
Qed.
End Gentle.

Create HintDb gentle discriminated.
#[export] Hint Resolve gentle_ret gentle_put_CustomStr gentle_put_CustomInt gentle_put_CustomBigInt
  gentle_put_CustomFloat like_del_CustomStr like_del_CustomInt like_del_CustomBigInt
  like_del_CustomFloat like_set_CustomStr like_set_CustomInt like_set_CustomBigInt
  like_set_CustomFloat : gentle.
#[export] Hint Extern 3 (like _ _ (?f ?msg)) => (simple apply (like_set _ _ f)) : gentle.

(** Follow a step along its binds, tests and matches. *)
Ltac gentle :=
  repeat first
    [ solve [eauto with gentle typeclass_instances]
    | apply gentle_bind; [|intros ? ?]
    | apply gentle_ret
    | apply (gentle_put_CustomStr _ _)
    | apply (gentle_put_CustomInt _ _)
    | apply (gentle_put_CustomBigInt _ _)
    | match goal with
      | |- like _ _ (?f ?msg) => apply (like_set _ _ f _)
      | |- gentle _ _ (if ?b then _ else _) => destruct b
      | |- gentle _ _ (match ?x with _ => _ end) => destruct x
      end ].
