(* ===== verification/KM.v ===== *)
(** * Kentik metric definitions (src/pkg/km/km.go)

    The file of definitions and the renaming of a record's fields by the definition of its
    measurement.  The JSON of a definition is decoded by [Unmarshal], an argument; [range] is
    the order in which Go ranges over a map. *)
From Stdlib Require Import Ascii.
From S2P Require Import Prelude GoIO GoStrings IC KT Stitch Customs.

Record KMMetric := mkKMMetric {
  met_Mask : Z; met_Type : string; met_Unit : string; met_Label : string; met_Column : string
}.
Record KMDimension := mkKMDimension {
  dim_Mask : Z; dim_Type : string; dim_Label : string; dim_Column : string
}.
Record KMDef := mkKMDef {
  Imports : list string;
  Metrics : gmap string KMMetric;
  Dimensions : gmap string KMDimension;
  Description : string
}.
Record KentikMetric := mkKentikMetric { km_Id : Z; km_Name : string; km_Def : KMDef }.
Abbreviation KMMapper := (gmap Z KentikMetric).

(** [kt.FixupName]; [ToLower] is [strings.ToLower] of strings that are not ASCII. *)
Definition FixupName (ToLower : string -> string) (name : string) : string :=
  strings_ToLower ToLower (strings_ReplaceByte name " " "_").

(** ** strconv.ParseInt with base 0 *)

(** The digits after the prefix; an underscore may stand between two digits, and after a
    prefix. *)
Fixpoint digits0 (base acc : Z) (after : bool) (s : string) : option Z :=
  match s with
  | "" => if after then Some acc else None
  | String "_" s' =>
      if after then (match s' with "" => None | _ => digits0 base acc false s' end) else None
  | String c s' =>
      d ← (let b := byte_of c in
           if (48 <=? b) && (b <=? 57) then Some (b - 48)
           else if (97 <=? b) && (b <=? 122) then Some (b - 87)
           else if (65 <=? b) && (b <=? 90) then Some (b - 55) else None);
      if d <? base then digits0 base (acc * base + d) true s' else None
  end.

Definition unsigned0 (s : string) : option Z :=
  let prefixed base s' := match s' with "" => None | _ => digits0 base 0 true s' end in
  match s with
  | "" => None
  | String "0" (String c s') =>
      if existsb (Ascii.eqb c) ["x"; "X"]%char then prefixed 16 s'
      else if existsb (Ascii.eqb c) ["o"; "O"]%char then prefixed 8 s'
      else if existsb (Ascii.eqb c) ["b"; "B"]%char then prefixed 2 s'
      else digits0 8 0 true (String c s')
  | _ => digits0 10 0 false s
  end.

Definition ParseInt0 (s : string) : option Z :=
  n ← (match s with
       | String "+" s' => unsigned0 s'
       | String "-" s' => Z.opp <$> unsigned0 s'
       | _ => unsigned0 s
       end);
  if decide (in_srange 64 n) then Some n else None.

Example ParseInt0_1 : map ParseInt0 ["0x1f"; "017"; "-0b101"; "1_000"; "+42"; "0"; "0o17"; "0x_1"]%string =
  [Some 31; Some 15; Some (-5); Some 1000; Some 42; Some 0; Some 15; Some 1].
Proof. vm_compute. reflexivity. Qed.
Example ParseInt0_2 : map ParseInt0 [""; "_1"; "1_"; "1__0"; "08"; "0x"; "12a"; "9223372036854775808"]%string =
  replicate 8 None.
Proof. vm_compute. reflexivity. Qed.

(** ** Definitions *)

Section Mapper.
  Context (ToLower : string -> string) (Unmarshal : string -> option KMDef).

Definition fixup_dim (d : KMDimension) : KMDimension :=
  mkKMDimension (dim_Mask d) (dim_Type d) (dim_Label d) (FixupName ToLower (dim_Column d)).
Definition fixup_met (m : KMMetric) : KMMetric :=
  mkKMMetric (met_Mask m) (met_Type m) (met_Unit m) (met_Label m) (FixupName ToLower (met_Column m)).

(** One line of the file; a bad one is skipped. *)
Definition load_line (km : KMMapper) (line : string) : KMMapper :=
  match strings_SplitN line "|" 3 with
  | [a; b; c] =>
      match Atoi a with
      | None => km
      | Some id =>
          match Unmarshal c with
          | None => km
          | Some def =>
              if (0 <? size (Metrics def))%nat && (0 <? size (Dimensions def))%nat
              then <[id := mkKentikMetric id b
                       (mkKMDef (Imports def) (fixup_met <$> Metrics def)
                          (fixup_dim <$> Dimensions def) (Description def))]> km
              else km
          end
      end
  | _ => km
  end.
Definition loadFile (lines : list string) : KMMapper := foldl load_line ∅ lines.
End Mapper.

(** ** Enrich *)

Definition readMask (msg : JCHF) (key : string) : option Z :=
  match gomap_find (CustomBigInt msg) key with
  | Some mask => Some mask
  | None =>
      match gomap_find (CustomInt msg) key with
      | Some mask => Some mask
      | None => raw ← gomap_find (CustomStr msg) key; ParseInt0 (strings_TrimSpace raw)
      end
  end.

(** A mask that is not there is [None]. *)
Definition isFieldPresentForMask (fieldMask : Z) (incomingMask : option Z) : bool :=
  match incomingMask with
  | None => true
  | Some m => (fieldMask =? 0) || negb (Z.land m fieldMask =? 0)
  end.

Definition enrich_dim (mask : option Z) (msg : JCHF) (dim : KMDimension) : outcome JCHF :=
  if String.eqb (dim_Label dim) "" || negb (isFieldPresentForMask (dim_Mask dim) mask) then Ok msg
  else match gomap_find (CustomStr msg) (dim_Column dim) with
       | Some val =>
           msg ← put_CustomStr (dim_Label dim) val msg; Ok (del_CustomStr (dim_Column dim) msg)
       | None => Ok msg
       end.

Definition enrich_met (mask : option Z) (msg : JCHF) (met : KMMetric) : outcome JCHF :=
  if String.eqb (met_Label met) "" || negb (isFieldPresentForMask (met_Mask met) mask) then Ok msg
  else match gomap_find (CustomBigInt msg) (met_Column met) with
       | Some mvar =>
           msg ← put_CustomBigInt (met_Label met) mvar msg;
           msg ← put_CustomStr "unit" (met_Unit met) msg;
           Ok (del_CustomBigInt (met_Column met) msg)
       | None =>
           match gomap_find (CustomInt msg) (met_Column met) with
           | Some mvar =>
               msg ← put_CustomInt (met_Label met) mvar msg;
               msg ← put_CustomStr "unit" (met_Unit met) msg;
               Ok (del_CustomInt (met_Column met) msg)
           | None =>
               match gomap_find (CustomFloat msg) (met_Column met) with
               | Some mvar =>
                   msg ← put_CustomFloat (met_Label met) mvar msg;
                   msg ← put_CustomStr "unit" (met_Unit met) msg;
                   Ok (del_CustomFloat (met_Column met) msg)
               | None => Ok msg
               end
           end
       end.

Definition Enrich (range_dims : gmap string KMDimension -> list KMDimension)
    (range_mets : gmap string KMMetric -> list KMMetric) (km : option KMMapper) (id : Z)
    (msg : JCHF) : outcome JCHF :=
  match km ≫= lookup id with
  | None => Ok msg
  | Some definition =>
      let dimensionMask := readMask msg "km_dimension_mask" in
      let metricMask := readMask msg "km_metric_mask" in
      msg ← fold_out (enrich_dim dimensionMask) msg (range_dims (Dimensions (km_Def definition)));
      fold_out (enrich_met metricMask) msg (range_mets (Metrics (km_Def definition)))
  end.

(** ** What the dimensions do *)

(** The renames of the dimensions that have a label and are in the mask. *)
Definition chosen (mask : option Z) (dims : list KMDimension) : list (string * string) :=
  (fun d => (dim_Column d, dim_Label d)) <$>
    filter (fun d => dim_Label d <> "" /\ isFieldPresentForMask (dim_Mask d) mask = true) dims.

Lemma set_CustomStr_same msg : set_CustomStr (CustomStr msg) msg = msg.
Proof. by destruct msg. Qed.

Lemma enrich_dim_renames mask msg m d :
  CustomStr msg = Some m ->
  enrich_dim mask msg d = Ok (set_CustomStr (Some (renames (chosen mask [d]) m)) msg).
Proof.
  intros Hm. unfold chosen. rewrite filter_cons, filter_nil.
  unfold enrich_dim. destruct (String.eqb_spec (dim_Label d) "") as [He|He].
  { rewrite decide_False by tauto. cbn. by rewrite <- Hm, set_CustomStr_same. }
  destruct (isFieldPresentForMask (dim_Mask d) mask).
  2: { rewrite decide_False by naive_solver. cbn. by rewrite <- Hm, set_CustomStr_same. }
  rewrite decide_True by done. cbn [orb negb fmap list_fmap renames foldl fst snd].
  rewrite Hm. unfold gomap_find, rename. cbn [mbind option_bind].
  destruct (m !! dim_Column d) as [val|].
  - unfold put_CustomStr, del_CustomStr. rewrite Hm. cbn. by destruct msg.
  - by rewrite <- Hm, set_CustomStr_same.
Qed.

Lemma chosen_app mask l1 l2 : chosen mask (l1 ++ l2) = chosen mask l1 ++ chosen mask l2.
Proof. unfold chosen. by rewrite filter_app, fmap_app. Qed.

Lemma enrich_dims mask dims msg m :
  CustomStr msg = Some m ->
  fold_out (enrich_dim mask) msg dims =
    Ok (set_CustomStr (Some (renames (chosen mask dims) m)) msg).
Proof.
  induction dims as [|d dims IH] in msg, m |- *; intros Hm.
  { cbn. by rewrite <- Hm, set_CustomStr_same. }
  cbn [fold_out]. rewrite (enrich_dim_renames _ _ m) by done. cbn [mbind outcome_bind].
  rewrite (IH _ (renames (chosen mask [d]) m)) by (by destruct msg).
  change (d :: dims) with ([d] ++ dims). rewrite chosen_app.
  unfold renames. rewrite foldl_app. by destruct msg.
Qed.

(** When no label is the column of another dimension, the order of the range does not matter. *)
Lemma enrich_dims_any_order mask dims dims' msg m :
  CustomStr msg = Some m -> dims ≡ₚ dims' -> separate (chosen mask dims) ->
  fold_out (enrich_dim mask) msg dims = fold_out (enrich_dim mask) msg dims'.
Proof.
  intros Hm Hp Hs. rewrite !(enrich_dims _ _ _ m) by done. do 3 f_equal.
  apply renames_perm; [done|]. unfold chosen. by rewrite Hp.
Qed.
