(* ===== verification/Enrich.v ===== *)
(** * Enrichment of flows (src/pkg/cat/jchf.go, doEnrichments)

    Internal addresses, geography, AS numbers, the application of a port, host names, the
    trace of a synthetic test, stitching and metric definitions, message by message, and the
    outside enricher at the end.  The databases of MaxMind, the DNS resolver, the decoding of
    JSON and the outside enricher are arguments.  [getHar] fills a field that is not part of
    the record here, so a HAR path changes nothing. *)
From S2P Require Import Prelude GoIO GoNet IC KT RingBuffer Stitch GoFloat Customs KM Rule.

Definition PrivateIP : string := "Private IP".

(** What [json.Unmarshal] puts into an [interface{}]; the fields of an object are listed in
    the order Go ranges over them. *)
Inductive Json :=
| JString (s : string)
| JNumber (f : float64)
| JObject (fields : list (string * Json))
| JArray (l : list Json)
| JBool (b : bool)
| JNull.

(** ** What enrichment may change *)

(** The record without geography, AS numbers and custom fields. *)
Definition traffic (msg : JCHF) : JCHF :=
  set_SrcGeo "" (set_DstGeo "" (set_SrcAs 0 (set_DstAs 0
  (set_CustomStr None (set_CustomInt None (set_CustomBigInt None (set_CustomFloat None msg))))))).

#[export] Instance traffic_forgets : Forgets traffic.
Proof. split; intros; by destruct msg. Qed.

Section Enrichment.
  Context {T : Type} `{PrefixTree T} (rule : RuleSet (T := T)) (Services : gmap (Z * Z) string).
  Context (geo : option (IP -> option string)) (asn : option (IP -> option (Z * string))).
  Context (resolver : option (string -> string)) (Unmarshal : string -> option (list Json)).
  Context (km : option KMMapper) (range_dims : gmap string KMDimension -> list KMDimension)
    (range_mets : gmap string KMMetric -> list KMMetric).
  Context (PROTO_NUMS : gmap string Z).

(** Internal addresses get special handling. *)
Definition enrich_internal (msg : JCHF) : outcome (JCHF * (bool * bool)) :=
  let setSip := IsInternal rule (ParseIP (SrcAddr msg)) (SrcAs msg) in
  let setDip := IsInternal rule (ParseIP (DstAddr msg)) (DstAs msg) in
  msg ← (if setSip then put_CustomStr "src_as_name" PrivateIP (set_SrcGeo PrivateIP msg) else Ok msg);
  msg ← (if setDip then put_CustomStr "dst_as_name" PrivateIP (set_DstGeo PrivateIP msg) else Ok msg);
  Ok (msg, (setSip, setDip)).

Definition is_nil (ip : IP) : bool := match ip with [] => true | _ => false end.

Definition enrich_geo (sip dip : IP) (set : bool * bool) (msg : JCHF) : JCHF :=
  match geo with
  | None => msg
  | Some search =>
      let msg := if negb (is_nil sip) && negb set.1
                 then match search sip with Some g => set_SrcGeo g msg | None => msg end else msg in
      if negb (is_nil dip) && negb set.2
      then match search dip with Some g => set_DstGeo g msg | None => msg end else msg
  end.

Definition enrich_asn (sip dip : IP) (set : bool * bool) (msg : JCHF) : outcome JCHF :=
  match asn with
  | None => Ok msg
  | Some search =>
      msg ← (if negb (is_nil sip) && negb set.1
             then match search sip with
                  | Some (a, name) => put_CustomStr "src_as_name" name (set_SrcAs a msg)
                  | None => Ok msg
                  end else Ok msg);
      if negb (is_nil dip) && negb set.2
      then match search dip with
           | Some (a, name) => put_CustomStr "dst_as_name" name (set_DstAs a msg)
           | None => Ok msg
           end else Ok msg
  end.

(** The lower port is taken for the service's. *)
Definition enrich_application (sip dip : IP) (msg : JCHF) : outcome JCHF :=
  if String.eqb (gomap_get "" (CustomStr msg) "application") "" then
    let proto := default 0 (PROTO_NUMS !! Protocol msg) in
    let found :=
      if (0 <? L4SrcPort msg) && (L4SrcPort msg <? L4DstPort msg)
      then GetService Services rule sip (L4SrcPort msg) proto
      else GetService Services rule dip (L4DstPort msg) proto in
    match found with
    | Some app => put_CustomStr "application" app msg
    | None => Ok msg
    end
  else Ok msg.

Definition enrich_hosts (msg : JCHF) : outcome JCHF :=
  match resolver with
  | None => Ok msg
  | Some resolve =>
      msg ← put_CustomStr "src_host" (resolve (SrcAddr msg)) msg;
      put_CustomStr "dst_host" (resolve (DstAddr msg)) msg
  end.

(** A number of JSON is always a [float64], so the integer cases of the switch never apply. *)
Definition trace_field (msg : JCHF) (kv : string * Json) : outcome JCHF :=
  match kv.2 with
  | JString tv => put_CustomStr kv.1 tv msg
  | JNumber tv => put_CustomBigInt kv.1 (int64_of_float tv) msg
  | _ => Ok msg
  end.

Definition enrich_trace (msg : JCHF) : outcome JCHF :=
  if String.eqb (EventType msg) KENTIK_EVENT_SYNTH then
    match gomap_find (CustomStr msg) "error_cause/trace_route" with
    | Some rawStr =>
        if String.eqb rawStr "" then Ok msg
        else match Unmarshal rawStr with
             | Some (JObject sd :: _) =>
                 msg ← fold_out trace_field msg sd;
                 Ok (del_CustomStr "error_cause/trace_route" msg)
             | _ => Ok msg
             end
    | None => Ok msg
    end
  else Ok msg.

Definition enrich_stitch (stitcher : option Stitcher) (msg : JCHF) :
    outcome (JCHF * option Stitcher) :=
  match stitcher with
  | None => Ok (msg, None)
  | Some s => '(_, msg, s) ← Stitch s msg; Ok (msg, Some s)
  end.

Definition enrich_km (msg : JCHF) : outcome JCHF :=
  let id := gomap_get 0 (CustomBigInt msg) "km_measurement_id" in
  if id =? 0 then Ok msg else Enrich range_dims range_mets km id msg.

(** The body of the loop. *)
Definition enrich_msg (stitcher : option Stitcher) (msg : JCHF) :
    outcome (JCHF * option Stitcher) :=
  let sip := ParseIP (SrcAddr msg) in
  let dip := ParseIP (DstAddr msg) in
  '(msg, set) ← enrich_internal msg;
  msg ← enrich_asn sip dip set (enrich_geo sip dip set msg);
  msg ← enrich_application sip dip msg;
  msg ← enrich_hosts msg;
  msg ← enrich_trace msg;
  '(msg, stitcher) ← enrich_stitch stitcher msg;
  msg ← enrich_km msg;
  Ok (msg, stitcher).

Fixpoint enrich_msgs (stitcher : option Stitcher) (msgs : list JCHF) :
    outcome (list JCHF * option Stitcher) :=
  match msgs with
  | [] => Ok ([], stitcher)
  | msg :: msgs' =>
      '(msg, stitcher) ← enrich_msg stitcher msg;
      '(msgs', stitcher) ← enrich_msgs stitcher msgs';
      Ok (msg :: msgs', stitcher)
  end.

(** [enricher] is the outside service; on an error the messages stay as they are. *)
Definition doEnrichments (enricher : option (list JCHF -> option (list JCHF)))
    (stitcher : option Stitcher) (msgs : list JCHF) : outcome (list JCHF * option Stitcher) :=
  '(msgs, stitcher) ← enrich_msgs stitcher msgs;
  match enricher with
  | Some call => Ok (default msgs (call msgs), stitcher)
  | None => Ok (msgs, stitcher)
  end.

(** ** No panic *)

Section Total.
  Context (m0 : JCHF).

Abbreviation like := (like traffic m0).
Abbreviation gentle := (gentle traffic m0).

Lemma gentle_internal msg : like msg ->
  exists msg' set, enrich_internal msg = Ok (msg', set) /\ like msg'.
Proof using Type.
  intros Hl. unfold enrich_internal.
  assert (forall b, gentle (if b : bool
    then put_CustomStr "src_as_name" PrivateIP (set_SrcGeo PrivateIP msg) else Ok msg)) as H1
    by (intros; gentle).
  destruct (H1 (IsInternal rule (ParseIP (SrcAddr msg)) (SrcAs msg))) as (m1 & -> & Hm1).
  assert (forall b, gentle (if b : bool
    then put_CustomStr "dst_as_name" PrivateIP (set_DstGeo PrivateIP m1) else Ok m1)) as H2
    by (intros; gentle).
  cbn [mbind outcome_bind].
  destruct (H2 (IsInternal rule (ParseIP (DstAddr msg)) (DstAs msg))) as (m2 & -> & Hm2).
  cbn [mbind outcome_bind]. eauto.
Qed.

Lemma like_geo sip dip set msg : like msg -> like (enrich_geo sip dip set msg).
Proof using Type.
  intros Hl. unfold enrich_geo. destruct geo as [search|]; [|done].
  assert (like (if negb (is_nil sip) && negb set.1
    then match search sip with Some g => set_SrcGeo g msg | None => msg end else msg)) as H1.
  { destruct (_ && _); [|done]. destruct (search sip); eauto with gentle. }
  destruct (negb (is_nil dip) && _); [|done]. destruct (search dip); eauto with gentle.
Qed.

Lemma gentle_asn sip dip set msg : like msg -> gentle (enrich_asn sip dip set msg).
Proof using Type. intros Hl. unfold enrich_asn. gentle. Qed.
Lemma gentle_application sip dip msg : like msg -> gentle (enrich_application sip dip msg).
Proof using Type. intros Hl. unfold enrich_application. cbv zeta. gentle. Qed.
Lemma gentle_hosts msg : like msg -> gentle (enrich_hosts msg).
Proof using Type. intros Hl. unfold enrich_hosts. gentle. Qed.

Lemma gentle_trace msg : like msg -> gentle (enrich_trace msg).
Proof using Type.
  intros Hl. unfold enrich_trace. gentle.
  apply gentle_fold; [|done]. intros x msg' Hl'. unfold trace_field. gentle.
Qed.

Lemma gentle_km msg : like msg -> gentle (enrich_km msg).
Proof using Type.
  intros Hl. unfold enrich_km, Enrich. gentle.
  - apply gentle_fold; [|done]. intros x msg' Hl'. unfold enrich_dim. gentle.
  - apply gentle_fold; [|done]. intros x msg' Hl'. unfold enrich_met. gentle.
Qed.

Lemma gentle_stitch st msg :
  like msg -> (forall s, st = Some s -> inv s) ->
  exists msg' st', enrich_stitch st msg = Ok (msg', st') /\ like msg' /\
    (forall s, st' = Some s -> inv s).
Proof using Type.
  intros Hl Hi. unfold enrich_stitch. destruct st as [s|]; [|by eauto].
  specialize (Hi s (reflexivity _)). destruct Hl as [[] Ht].
  assert (Stitch.has_maps msg) as Hm by done.
  destruct (Stitch_op s msg Hi Hm) as (ok & msg' & s' & Hs & _ & Hi' & _). rewrite Hs.
  cbn [mbind outcome_bind]. exists msg', (Some s'). split; [done|]. split; [|by intros ? [= <-]].
  pose proof (Stitch_step s msg Hi Hm) as Hstep.
  destruct (find s (GetKey msg)) as [nm|].
  - rewrite Hs in Hstep. injection Hstep as _ Hp _. subst msg'. unfold paired.
    destruct Hm as [[mi Hmi] [mb Hmb]]. rewrite Hmi, Hmb. cbn [fmap option_fmap option_map].
    apply like_set_CustomInt; [apply _|].
    apply like_set_CustomBigInt; [apply _|]. split; [by constructor|done].
  - destruct Hstep as (s'' & _ & Hstep). rewrite Hs in Hstep. injection Hstep as _ <- _.
    split; [by constructor|done].
Qed.
End Total.

Lemma enrich_msg_total st msg :
  all_maps msg -> (forall s, st = Some s -> inv s) ->
  exists msg' st', enrich_msg st msg = Ok (msg', st') /\ like traffic msg msg' /\
    (forall s, st' = Some s -> inv s).
Proof using Type.
  intros Hm Hi. assert (like traffic msg msg) as Hl by done. unfold enrich_msg.
  destruct (gentle_internal msg msg Hl) as (m1 & set & -> & H1). cbn [mbind outcome_bind].
  destruct (gentle_asn msg (ParseIP (SrcAddr msg)) (ParseIP (DstAddr msg)) set _
    (like_geo msg (ParseIP (SrcAddr msg)) (ParseIP (DstAddr msg)) set m1 H1)) as (m2 & -> & H2).
  cbn [mbind outcome_bind].
  destruct (gentle_application msg (ParseIP (SrcAddr msg)) (ParseIP (DstAddr msg)) m2 H2)
    as (m3 & -> & H3). cbn [mbind outcome_bind].
  destruct (gentle_hosts msg m3 H3) as (m4 & -> & H4). cbn [mbind outcome_bind].
  destruct (gentle_trace msg m4 H4) as (m5 & -> & H5). cbn [mbind outcome_bind].
  destruct (gentle_stitch msg st m5 H5 Hi) as (m6 & st' & -> & H6 & Hi'). cbn [mbind outcome_bind].
  destruct (gentle_km msg m6 H6) as (m7 & -> & H7). cbn [mbind outcome_bind]. eauto 10.
Qed.

Lemma enrich_msgs_total st msgs :
  Forall all_maps msgs -> (forall s, st = Some s -> inv s) ->
  exists msgs' st', enrich_msgs st msgs = Ok (msgs', st') /\ Forall2 (like traffic) msgs msgs' /\
    (forall s, st' = Some s -> inv s).
Proof using Type.
  intros Hm. revert st. induction Hm as [|msg msgs Hm _ IH]; intros st Hi.
  { exists [], st. done. }
  cbn [enrich_msgs]. destruct (enrich_msg_total st msg Hm Hi) as (msg' & st1 & -> & Hl & Hi1).
  cbn [mbind outcome_bind]. destruct (IH st1 Hi1) as (msgs' & st2 & -> & Hls & Hi2).
  cbn [mbind outcome_bind]. exists (msg' :: msgs'), st2. split; [done|]. by split; [constructor|].
Qed.
(** C18: Enrichment never panics on records whose four maps are made: it returns one record per
    message, in order, each with its maps and with everything but geography, AS numbers and
    custom fields as it came; the stitcher stays well formed.  The outside service then answers
    with its own records, and an error of it keeps these. *)
Theorem doEnrichments_total enricher st msgs :
  Forall all_maps msgs -> (forall s, st = Some s -> inv s) ->
  exists msgs' st',
    doEnrichments enricher st msgs =
      Ok (match enricher with Some call => default msgs' (call msgs') | None => msgs' end, st') /\
    Forall2 (fun msg msg' => all_maps msg' /\ traffic msg' = traffic msg) msgs msgs' /\
    (forall s, st' = Some s -> inv s).
Proof using Type.
  intros Hm Hi. destruct (enrich_msgs_total st msgs Hm Hi) as (msgs' & st' & He & Hl & Hi').
  exists msgs', st'. unfold doEnrichments. rewrite He. by destruct enricher.
Qed.
End Enrichment.

(** A probe of a synthetic test, towards a private address, with a trace. *)
Definition sample_probe : JCHF :=
  set_SrcAddr "8.8.8.8" (set_DstAddr "10.2.1.2" (set_L4SrcPort 443 (set_L4DstPort 50000
  (set_Protocol "TCP" (set_EventType KENTIK_EVENT_SYNTH
  (set_CustomStr (Some {["error_cause/trace_route" := "[...]"]}) (SetMap NewJCHF))))))).

Definition sample_enrich (enricher : option (list JCHF -> option (list JCHF)))
    (st : option Stitcher) (msgs : list JCHF) : outcome (list JCHF * option Stitcher) :=
  doEnrichments (NewRuleSet (T := list (network * Z)) cidr [])
    {[(443, 6) := "https"]} None (Some (fun _ => Some (64500, "example")))
    (Some (fun a => "host-" +:+ a))
    (fun _ => Some [JObject [("hops", JNumber (float64_of 7)); ("kind", JString "icmp")]])
    None (fun m => map snd (map_to_list m)) (fun m => map snd (map_to_list m))
    {["TCP" := 6]} enricher st msgs.

Lemma doEnrichments_total_witness :
  exists msg st', sample_enrich (Some (fun _ => None)) None [sample_probe] = Ok ([msg], st') /\
    CustomStr msg = Some (list_to_map [("application", "https"); ("kind", "icmp");
      ("src_as_name", "example"); ("dst_as_name", PrivateIP);
      ("src_host", "host-8.8.8.8"); ("dst_host", "host-10.2.1.2")]) /\
    (SrcAs msg, DstGeo msg, gomap_get 0 (CustomBigInt msg) "hops") = (64500, PrivateIP, 7) /\
    SrcAddr msg = "8.8.8.8".
Proof.
  assert (Forall all_maps [sample_probe]) as Hm.
  { constructor; [|constructor]. split; by eexists. }
  destruct (doEnrichments_total (NewRuleSet (T := list (network * Z)) cidr [])
    {[(443, 6) := "https"]} None (Some (fun _ => Some (64500, "example")))
    (Some (fun a => "host-" +:+ a))
    (fun _ => Some [JObject [("hops", JNumber (float64_of 7)); ("kind", JString "icmp")]])
    None (fun m => map snd (map_to_list m)) (fun m => map snd (map_to_list m))
    {["TCP" := 6]} (Some (fun _ => None)) None [sample_probe] Hm)
    as (msgs' & st' & He & Hl & _); [done|].
  inversion Hl as [|? msg' ? l' [_ Ht] Hl']. inversion Hl'. subst. exists msg', st'.
  split; [exact He|]. vm_compute in He. injection He as <- <-.
  split_and!; vm_compute; reflexivity.
Defined.
