(* ===== verification/Agent.v ===== *)
(** * The agent's pipeline (src/pkg/cat/kkc.go)

    What happens to a batch of records between an input and the sinks: enrichment, filters,
    rollups, sampling, serialisation in messages of bounded size, the queue of outputs, and
    the loop that sends rollups and shrinks the messages when a sink says they are too big.
    Rollups come through an interface; the serializer, the shuffle of [rand.Shuffle] and the
    sinks are arguments.  A batch is taken from its input, handled and queued in one step: the
    goroutines that handle batches share nothing but the rollups, the stitcher and the queue,
    each with its own lock.  The records of a batch are distinct objects. *)
From S2P Require Import Prelude GoIO GoStrings GoFloat GoNet KT Filter Rollup Stitch KM Rule Enrich.

Local Open Scope go_scope.

(** ** Messages of bounded size *)

Definition effectiveMaxFlowsPerMessage (n : Z) : Z := if n <=? 0 then 1 else n.

(** The loop of [jchfExportSliceBounds]; [int] has 64 bits. *)
Fixpoint slice_bounds (fuel : nat) (batchSize keep last next : Z) : outcome (list (Z * Z)) :=
  match fuel with
  | O => OutOfFuel
  | S fuel =>
      if next <? int64 (keep + batchSize) then
        let batch := if keep <? next then keep else next in
        if batch =? keep then Ok [(last, batch)]
        else bounds ← slice_bounds fuel batchSize keep next (int64 (next + batchSize));
             Ok ((last, batch) :: bounds)
      else Ok []
  end.

Definition jchfExportSliceBounds (batchSize keep : Z) : outcome (list (Z * Z)) :=
  let batchSize := effectiveMaxFlowsPerMessage batchSize in
  slice_bounds (S (Z.to_nat keep)) batchSize keep 0 batchSize.

Example jchfExportSliceBounds_1 : jchfExportSliceBounds 10000 3 = Ok [(0, 3)].
Proof. reflexivity. Qed.
Example jchfExportSliceBounds_2 : jchfExportSliceBounds 4 10 = Ok [(0, 4); (4, 8); (8, 10)].
Proof. reflexivity. Qed.
Example jchfExportSliceBounds_3 :
  jchfExportSliceBounds 0 5 = Ok [(0, 1); (1, 2); (2, 3); (3, 4); (4, 5)].
Proof. reflexivity. Qed.

(** [l[a:b]]. *)
Definition go_slice {A} (l : list A) (a b : Z) : outcome (list A) :=
  if (0 <=? a) && (a <=? b) && (b <=? Z.of_nat (length l))
  then Ok (take (Z.to_nat (b - a)) (drop (Z.to_nat a) l))
  else Panic "slice bounds out of range".

(** What the queue holds: a pointer to an output, nil for a rollup that came to nothing, and its
    callback [ser.CB]. *)
Record Queued (CB : Type) := mkQueued { q_ser : option Output; q_CB : option CB }.
Arguments mkQueued {CB} q_ser q_CB.
Arguments q_ser {CB} q.
Arguments q_CB {CB} q.

Section Exporting.
  Context {F CB : Type} (seri : F -> list JCHF -> outcome (option Output) * F).

(** One call of the serializer; an error is logged. *)
Definition serialize (cb : option CB) (f : F) (msgs : list JCHF) :
    outcome (list (Queued CB) * F) :=
  match seri f msgs with
  | (Ok (Some ser), f) => Ok ([mkQueued (Some ser) cb], f)
  | (Ok None, f) | (Err _, f) => Ok ([], f)
  | (Panic why, _) => Panic why
  | (OutOfFuel, _) => OutOfFuel
  end.

Fixpoint export_spans (cb : option CB) (msgs : list JCHF) (f : F) (spans : list (Z * Z)) :
    outcome (list (Queued CB) * F) :=
  match spans with
  | [] => Ok ([], f)
  | span :: spans =>
      part ← go_slice msgs span.1 span.2;
      '(q, f) ← serialize cb f part;
      '(qs, f) ← export_spans cb msgs f spans;
      Ok (q ++ qs, f)
  end.

Definition exportJchfBatches (MaxFlowsPerMessage : Z) (cb : option CB) (msgs : list JCHF)
    (keep : Z) (f : F) : outcome (list (Queued CB) * F) :=
  spans ← jchfExportSliceBounds MaxFlowsPerMessage keep; export_spans cb msgs f spans.

(** ** The reference: one message after the other *)

Fixpoint chunks {A} (fuel n : nat) (l : list A) : list (list A) :=
  match fuel, l with
  | S fuel, _ :: _ => take n l :: chunks fuel n (drop n l)
  | _, _ => []
  end.

Fixpoint export_chunks (cb : option CB) (f : F) (ls : list (list JCHF)) :
    outcome (list (Queued CB) * F) :=
  match ls with
  | [] => Ok ([], f)
  | l :: ls =>
      '(q, f) ← serialize cb f l;
      '(qs, f) ← export_chunks cb f ls;
      Ok (q ++ qs, f)
  end.

Lemma go_slice_ok {A} (l : list A) a b : 0 <= a <= b -> b <= Z.of_nat (length l) ->
  go_slice l a b = Ok (take (Z.to_nat (b - a)) (drop (Z.to_nat a) l)).
Proof.
  intros Ha Hb. unfold go_slice.
  by rewrite !(proj2 (Z.leb_le _ _)) by lia.
Qed.

Lemma export_spans_chunks cb msgs spans parts : forall f,
  mapM (fun span => go_slice msgs span.1 span.2) spans = Ok parts ->
  export_spans cb msgs f spans = export_chunks cb f parts.
Proof using Type.
  revert parts. induction spans as [|span spans IH]; intros parts f Hp; cbn in Hp.
  { by injection Hp as <-. }
  destruct (go_slice msgs span.1 span.2) as [part| | |] eqn:Hs; [|done..]. cbn in Hp.
  destruct (mapM _ spans) as [parts'| | |] eqn:Hm; [|done..]. cbn in Hp. injection Hp as <-.
  cbn [export_spans export_chunks]. rewrite Hs. cbn [mbind outcome_bind].
  destruct (serialize cb f part) as [[q f']| | |]; [|done..]. cbn [mbind outcome_bind].
  by rewrite (IH parts' f').
Qed.
End Exporting.

(** From the [last]th record on, the spans cut the first [keep] in chunks. *)
Lemma slice_bounds_chunks {A} (l : list A) keep batchSize : 1 <= batchSize ->
  0 <= keep <= Z.of_nat (length l) -> keep + batchSize < 2 ^ 63 ->
  forall fuel last, 0 <= last < keep -> (Z.to_nat (keep - last) <= fuel)%nat ->
  exists spans, slice_bounds fuel batchSize keep last (last + batchSize) = Ok spans /\
    mapM (fun span => go_slice l span.1 span.2) spans =
      Ok (chunks fuel (Z.to_nat batchSize) (drop (Z.to_nat last) (take (Z.to_nat keep) l))).
Proof.
  intros Hb Hk Hmax. induction fuel as [|fuel IH]; intros last Hl Hf; [lia|].
  cbn [slice_bounds]. rewrite swrap_id by (unfold in_srange; lia).
  rewrite (proj2 (Z.ltb_lt _ _)) by lia.
  set (rest := drop (Z.to_nat last) (take (Z.to_nat keep) l)).
  assert (length rest = Z.to_nat (keep - last)) as Hrest.
  { unfold rest. rewrite length_drop, length_take. lia. }
  assert (chunks (S fuel) (Z.to_nat batchSize) rest =
    take (Z.to_nat batchSize) rest :: chunks fuel (Z.to_nat batchSize) (drop (Z.to_nat batchSize) rest)) as ->.
  { destruct rest; [cbn in Hrest; lia|done]. }
  assert (forall b, last <= b <= keep ->
    go_slice l last b = Ok (take (Z.to_nat (b - last)) rest)) as Hslice.
  { intros b Hbk. rewrite go_slice_ok by lia. unfold rest. rewrite skipn_firstn_comm, take_take.
    do 2 f_equal. lia. }
  assert (keep <= last + batchSize ->
    mapM (fun span => go_slice l span.1 span.2) [(last, keep)] =
    Ok (take (Z.to_nat batchSize) rest :: chunks fuel (Z.to_nat batchSize) (drop (Z.to_nat batchSize) rest))) as Hlast.
  { intros Hle. cbn. rewrite Hslice by lia. cbn. rewrite !take_ge, (drop_ge rest) by lia.
    by destruct fuel. }
  destruct (Z.ltb_spec keep (last + batchSize)) as [Hlt|Hge].
  { rewrite Z.eqb_refl. eexists. split; [done|]. apply Hlast. lia. }
  destruct (Z.eqb_spec (last + batchSize) keep) as [He|Hne].
  { rewrite He. eexists. split; [done|]. apply Hlast. lia. }
  rewrite swrap_id by (unfold in_srange; lia).
  destruct (IH (last + batchSize) ltac:(lia) ltac:(lia)) as (spans & Hs & Hm). rewrite Hs.
  eexists. split; [done|]. cbn. rewrite Hslice by lia. cbn. rewrite Hm. cbn. unfold rest.
  rewrite drop_drop. do 4 f_equal; [lia|]. f_equal. lia.
Qed.

Lemma jchfExportSliceBounds_chunks {A} (l : list A) batchSize keep :
  0 <= keep <= Z.of_nat (length l) -> keep + effectiveMaxFlowsPerMessage batchSize < 2 ^ 63 ->
  exists spans, jchfExportSliceBounds batchSize keep = Ok spans /\
    mapM (fun span => go_slice l span.1 span.2) spans =
      Ok (chunks (S (Z.to_nat keep)) (Z.to_nat (effectiveMaxFlowsPerMessage batchSize))
            (take (Z.to_nat keep) l)).
Proof.
  intros Hk Hmax. unfold jchfExportSliceBounds.
  assert (1 <= effectiveMaxFlowsPerMessage batchSize) as Hb.
  { unfold effectiveMaxFlowsPerMessage. destruct (Z.leb_spec batchSize 0); lia. }
  set (n := effectiveMaxFlowsPerMessage batchSize) in *.
  destruct (decide (keep = 0)) as [->|Hne].
  - exists []. cbn -[Z.add Z.pow]. rewrite swrap_id by (unfold in_srange; lia).
    by rewrite (proj2 (Z.ltb_ge _ _)) by lia.
  - destruct (slice_bounds_chunks l keep n Hb Hk Hmax (S (Z.to_nat keep)) 0) as (spans & Hs & Hm);
      [lia..|]. exists spans. split; [exact Hs|]. exact Hm.
Qed.

Lemma chunks_concat {A} n : (1 <= n)%nat -> forall fuel (l : list A), (length l <= fuel)%nat ->
  concat (chunks fuel n l) = l /\
  Forall (fun c => c <> [] /\ (length c <= n)%nat) (chunks fuel n l).
Proof.
  intros Hn. induction fuel as [|fuel IH]; intros l Hl.
  { destruct l; [done|cbn in Hl; lia]. }
  destruct l as [|x l]; [done|]. cbn [chunks concat].
  destruct (IH (drop n (x :: l))) as [Hc Hf]; [rewrite length_drop; cbn in *; lia|].
  rewrite Hc, take_drop. split; [done|]. constructor; [|done]. rewrite length_take.
  destruct n as [|n]; [lia|]. split; [done|lia].
Qed.

(** ** Rollups and filters *)

(** What the agent asks of a rollup. *)
Class Roller (R : Type) := {
  roll_Add : list (gmap string Avro) -> R -> outcome R;
  roll_Export : R -> outcome (list Rollup * R);
  roll_SetFilter : FilterWrapper -> R -> R;
  roll_GetName : R -> string
}.

(** The loop of [NewNetworkAgent]: a filter with a name goes to the rollups of that name, the
    others apply to everything. *)
Definition assign_filter {R} `{Roller R} (acc : list FilterWrapper * list R) (fw : FilterWrapper) :
    list FilterWrapper * list R :=
  if String.eqb (FilterWrapper_GetName fw) "" then (acc.1 ++ [fw], acc.2)
  else (acc.1, (fun roll => if String.eqb (FilterWrapper_GetName fw) (roll_GetName roll)
                            then roll_SetFilter fw roll else roll) <$> acc.2).

Definition assign_filters {R} `{Roller R} (rolls : list R) (filters : list FilterWrapper) :
    list FilterWrapper * list R :=
  foldl assign_filter ([], rolls) filters.

Fixpoint keep_msg (filters : list FilterWrapper) (msg : JCHF) : outcome (bool * JCHF) :=
  match filters with
  | [] => Ok (true, msg)
  | f :: filters =>
      '(b, msg) ← FilterWrapper_Filter f msg;
      if (b : bool) then keep_msg filters msg else Ok (false, msg)
  end.

Fixpoint reduce (filters : list FilterWrapper) (msgs : list JCHF) : outcome (list JCHF) :=
  match msgs with
  | [] => Ok []
  | msg :: msgs =>
      '(keep, msg) ← keep_msg filters msg;
      out ← reduce filters msgs;
      Ok (if (keep : bool) then msg :: out else out)
  end.

(** [rv[i] = msg.ToMap()]; each record keeps its map. *)
Fixpoint to_maps (msgs : list JCHF) : outcome (list (gmap string Avro) * list JCHF) :=
  match msgs with
  | [] => Ok ([], [])
  | msg :: msgs =>
      '(m, msg) ← ToMap msg;
      '(rv, msgs) ← to_maps msgs;
      Ok (default ∅ m :: rv, msg :: msgs)
  end.

(** ** Sampling *)

Record Config := mkConfig {
  MaxFlowsPerMessage : Z;
  cfg_SampleRate : Z;
  SampleMin : Z;
  RollupAndAlpha : bool
}.

Definition set_MaxFlowsPerMessage (n : Z) (c : Config) : Config :=
  mkConfig n (cfg_SampleRate c) (SampleMin c) (RollupAndAlpha c).

(** The records to export, and how many of them. *)
Definition sample_when (doSample : bool) (cfg : Config) (shuffle : list JCHF -> list JCHF)
    (msgs : list JCHF) : list JCHF * Z :=
  let keep := Z.of_nat (length msgs) in
  if doSample && (1 <? cfg_SampleRate cfg) && (SampleMin cfg <? keep) then
    let msgs := shuffle msgs in
    ((fun msg => set_SampleRate (uint32 (SampleRate msg * uint32 (cfg_SampleRate cfg))) msg) <$> msgs,
     int64_of_float (math_Max
       (float64_div (float64_of (Z.of_nat (length msgs))) (float64_of (cfg_SampleRate cfg)))
       (float64_of 1)))
  else (msgs, keep).

Definition sample_msgs (cfg : Config) (shuffle : list JCHF -> list JCHF) (msgs : list JCHF) :
    list JCHF * Z :=
  sample_when ((1 <? Z.of_nat (length msgs)) &&
    match msgs with msg :: _ => ApplySample msg | [] => false end) cfg shuffle msgs.

(** ** The agent *)

Record NetworkAgent (R F CB : Type) := mkNetworkAgent {
  kc_config : Config;
  kc_filters : list FilterWrapper;
  kc_rollups : list R;
  kc_format : F;
  kc_stitcher : option Stitcher;
  kc_msgsc : list (Queued CB);
  kc_InputQ : Z
}.
Arguments mkNetworkAgent {R F CB}.
Arguments kc_config {R F CB} n.
Arguments kc_filters {R F CB} n.
Arguments kc_rollups {R F CB} n.
Arguments kc_format {R F CB} n.
Arguments kc_stitcher {R F CB} n.
Arguments kc_msgsc {R F CB} n.
Arguments kc_InputQ {R F CB} n.

Definition is_empty {A} (l : list A) : bool := match l with [] => true | _ => false end.
Definition is_set {A} (o : option A) : bool := match o with Some _ => true | None => false end.

Section Agent.
  Context {T : Type} `{PrefixTree T} (rule : RuleSet (T := T)) (Services : gmap (Z * Z) string).
  Context (geo : option (IP -> option string)) (asn : option (IP -> option (Z * string))).
  Context (resolver : option (string -> string)) (Unmarshal : string -> option (list Json)).
  Context (km : option KMMapper) (range_dims : gmap string KMDimension -> list KMDimension)
    (range_mets : gmap string KMMetric -> list KMMetric).
  Context (PROTO_NUMS : gmap string Z) (enricher : option (list JCHF -> option (list JCHF))).
  Context {R F CB : Type} `{Roller R} (seri : F -> list JCHF -> outcome (option Output) * F).
  Context (format_rollup : F -> list Rollup -> outcome (option Output) * F).
  Context (shuffle : list JCHF -> list JCHF).

Abbreviation Agent := (NetworkAgent R F CB).

Definition enrich (stitcher : option Stitcher) (msgs : list JCHF) :
    outcome (list JCHF * option Stitcher) :=
  if is_set geo || is_set asn || is_set enricher
  then doEnrichments rule Services geo asn resolver Unmarshal km range_dims range_mets PROTO_NUMS
         enricher stitcher msgs
  else Ok (msgs, stitcher).

Definition add_to_rollups (rolls : list R) (msgs : list JCHF) : outcome (list JCHF * list R) :=
  if is_empty rolls then Ok (msgs, rolls)
  else '(rv, msgs) ← to_maps msgs; rolls ← mapM (roll_Add rv) rolls; Ok (msgs, rolls).

Definition handleInput (kc : Agent) (msgs : list JCHF) (cb : option CB) : outcome Agent :=
  '(msgs, stitcher) ← enrich (kc_stitcher kc) msgs;
  msgs ← (if is_empty (kc_filters kc) then Ok msgs else reduce (kc_filters kc) msgs);
  '(msgs, rolls) ← add_to_rollups (kc_rollups kc) msgs;
  '(qs, f) ← (if is_empty (kc_rollups kc) || RollupAndAlpha (kc_config kc) then
      let '(msgs, keep) := sample_msgs (kc_config kc) shuffle msgs in
      exportJchfBatches seri (MaxFlowsPerMessage (kc_config kc)) cb msgs keep (kc_format kc)
    else Ok ([], kc_format kc));
  Ok (mkNetworkAgent (kc_config kc) (kc_filters kc) rolls f stitcher (kc_msgsc kc ++ qs)
        (kc_InputQ kc + Z.of_nat (length msgs))).

(** The agent's own metrics: neither filters nor rollups. *)
Definition monitorMetricsInput (kc : Agent) (msgs : list JCHF) : outcome Agent :=
  '(qs, f) ← exportJchfBatches seri (MaxFlowsPerMessage (kc_config kc)) None msgs
               (Z.of_nat (length msgs)) (kc_format kc);
  Ok (mkNetworkAgent (kc_config kc) (kc_filters kc) (kc_rollups kc) f (kc_stitcher kc)
        (kc_msgsc kc ++ qs) (kc_InputQ kc)).

(** [case <-rollupsTicker.C]. *)
Fixpoint export_rollups (rolls : list R) (f : F) : outcome (list R * list (Queued CB) * F) :=
  match rolls with
  | [] => Ok ([], [], f)
  | r :: rolls =>
      '(export, r) ← roll_Export r;
      '(q, f) ← (if is_empty export then Ok ([], f)
                 else match format_rollup f export with
                      | (Ok res, f) => Ok ([mkQueued res None], f)
                      | (Err _, f) => Ok ([], f)
                      | (Panic why, _) => Panic why
                      | (OutOfFuel, _) => OutOfFuel
                      end);
      '(rolls, qs, f) ← export_rollups rolls f;
      Ok (r :: rolls, q ++ qs, f)
  end.

Definition rollupsTick (kc : Agent) : outcome Agent :=
  '(rolls, qs, f) ← export_rollups (kc_rollups kc) (kc_format kc);
  Ok (mkNetworkAgent (kc_config kc) (kc_filters kc) rolls f (kc_stitcher kc)
        (kc_msgsc kc ++ qs) (kc_InputQ kc)).

(** [case <-kc.tooBig]. *)
Definition shrink (n : Z) : Z :=
  int64_of_float (math_Max (float64_mul (float64_of n) three_quarters) (float64_of 1)).
Definition tooBig (kc : Agent) : Agent :=
  mkNetworkAgent (set_MaxFlowsPerMessage (shrink (MaxFlowsPerMessage (kc_config kc))) (kc_config kc))
    (kc_filters kc) (kc_rollups kc) (kc_format kc) (kc_stitcher kc) (kc_msgsc kc) (kc_InputQ kc).

(** [doSend] takes an output: what each sink is sent. *)
Definition doSend {S} (sinks : list S) (kc : Agent) : option (list (S * option Output) * Agent) :=
  match kc_msgsc kc with
  | [] => None
  | q :: qs =>
      Some (if BodyLen (q_ser q) =? 0 then [] else (fun sink => (sink, q_ser q)) <$> sinks,
            mkNetworkAgent (kc_config kc) (kc_filters kc) (kc_rollups kc) (kc_format kc)
              (kc_stitcher kc) qs (kc_InputQ kc))
  end.
End Agent.

(** ** Looking at a record fills its map *)

Definition fresh (msg : JCHF) : Prop := hasSetAvro msg = false /\ avroSet msg = Some ∅.

(** The record once [ToMap] has been called. *)
Definition looked (msg : JCHF) : JCHF := set_hasSetAvro true (set_avroSet (Some (base_map msg)) msg).
Definition views (msg msg' : JCHF) : Prop := msg' = msg \/ msg' = looked msg.

Lemma views_ToMap msg msg' : fresh msg -> views msg msg' ->
  ToMap msg' = Ok (Some (base_map msg), looked msg).
Proof. intros [Hs Ha] [->| ->]; [by apply ToMap_fresh|]. unfold ToMap. by destruct msg. Qed.

Lemma Filter_Filter_views f msg msg' : fresh msg -> views msg msg' ->
  Filter_Filter f msg' = (b ← FilterMap f (base_map msg); Ok (b, looked msg)).
Proof. intros Hf Hv. unfold Filter_Filter. by rewrite (views_ToMap msg) by done. Qed.

Lemma FilterWrapper_Filter_looked fw msg : fresh msg ->
  FilterWrapper_Filter fw (looked msg) =
    (b ← FilterWrapper_FilterMap fw (base_map msg); Ok (b, looked msg)).
Proof.
  intros Hf. induction fw as [|f fw IH]; [done|].
  cbn [FilterWrapper_Filter FilterWrapper_FilterMap].
  rewrite (Filter_Filter_views f msg) by (done || by right).
  destruct (FilterMap f (base_map msg)) as [[]| | |]; cbn [mbind outcome_bind]; done.
Qed.

(** A filter with at least one alternative looks at the record. *)
Lemma FilterWrapper_Filter_views fw msg msg' : fresh msg -> views msg msg' -> fw <> [] ->
  FilterWrapper_Filter fw msg' =
    (b ← FilterWrapper_FilterMap fw (base_map msg); Ok (b, looked msg)).
Proof.
  intros Hf Hv Hne. destruct fw as [|f fw]; [done|]. rewrite <- FilterWrapper_Filter_looked by done.
  cbn [FilterWrapper_Filter]. by rewrite !(Filter_Filter_views f msg) by (done || by right).
Qed.

Lemma keep_msg_views fs msg : fresh msg -> Forall (fun fw => fw <> []) fs -> fs <> [] ->
  forall msg', views msg msg' ->
  keep_msg fs msg' = (b ← keep_flow fs (base_map msg); Ok (b, looked msg)).
Proof.
  intros Hf Hne. induction Hne as [|fw fs Hfw _ IH]; [done|]. intros _ msg' Hv.
  cbn [keep_msg keep_flow]. rewrite (FilterWrapper_Filter_views fw msg) by done.
  destruct (FilterWrapper_FilterMap fw (base_map msg)) as [[]| | |]; cbn [mbind outcome_bind]; try done.
  destruct fs as [|fw' fs]; [done|]. apply IH; [done|by right].
Qed.

(** The records that pass the filters, which must give an answer on every record. *)
Definition passes (fs : list FilterWrapper) (msg : JCHF) : Prop := keep_flow fs (base_map msg) = Ok true.
#[export] Instance passes_dec fs msg : Decision (passes fs msg).
Proof. unfold passes. apply _. Defined.

Lemma reduce_passes fs msgs : fs <> [] -> Forall (fun fw => fw <> []) fs -> Forall fresh msgs ->
  Forall (fun msg => exists b, keep_flow fs (base_map msg) = Ok b) msgs ->
  reduce fs msgs = Ok (looked <$> filter (passes fs) msgs).
Proof.
  intros Hne Hfs Hf Hok. induction Hok as [|msg msgs [b Hb] _ IH]; [done|].
  inversion Hf as [|? ? Hm Hms]; subst. cbn [reduce].
  rewrite (keep_msg_views fs msg) by (done || by left). rewrite Hb. cbn [mbind outcome_bind].
  rewrite IH by done. cbn [mbind outcome_bind]. rewrite filter_cons.
  destruct b.
  - by rewrite decide_True.
  - rewrite decide_False; [done|]. unfold passes. congruence.
Qed.

(** ** Properties *)

Lemma effective_pos n : 1 <= effectiveMaxFlowsPerMessage n.
Proof. unfold effectiveMaxFlowsPerMessage. destruct (Z.leb_spec n 0); lia. Qed.

(** Nothing wraps: the spans are the chunks of the records to keep. *)
Lemma exportJchfBatches_ok {F CB} (seri : F -> list JCHF -> outcome (option Output) * F)
    n (cb : option CB) msgs keep f :
  0 <= keep <= Z.of_nat (length msgs) -> keep + effectiveMaxFlowsPerMessage n < 2 ^ 63 ->
  exists cs, exportJchfBatches seri n cb msgs keep f = export_chunks seri cb f cs /\
    concat cs = take (Z.to_nat keep) msgs /\
    Forall (fun c => c <> [] /\ Z.of_nat (length c) <= effectiveMaxFlowsPerMessage n) cs.
Proof.
  intros Hk Hb. pose proof (effective_pos n) as Hpos.
  destruct (jchfExportSliceBounds_chunks msgs n keep Hk Hb) as (spans & Hs & Hm).
  destruct (chunks_concat (Z.to_nat (effectiveMaxFlowsPerMessage n)) ltac:(lia) (S (Z.to_nat keep))
    (take (Z.to_nat keep) msgs)) as [Hc Hf]; [rewrite length_take; lia|].
  eexists. split; [unfold exportJchfBatches; rewrite Hs; by apply export_spans_chunks|].
  split; [exact Hc|]. eapply Forall_impl; [exact Hf|]. intros c [Hne Hle]. split; [done|lia].
Qed.

(** C19: the export is the obvious one.  The spans computed with 64-bit integers make the
    serializer see exactly the consecutive chunks of the records to keep: together they are
    those records, each has at least one and at most the configured number (one, when it is
    not positive), and the loop ends.  When the number kept and the configured number together
    pass the largest [int], the bound of the loop wraps and nothing at all is exported. *)
Theorem exportJchfBatches_chunks {F CB} (seri : F -> list JCHF -> outcome (option Output) * F)
    n (cb : option CB) msgs keep f :
  0 < keep <= Z.of_nat (length msgs) -> in_srange 64 n -> keep < 2 ^ 63 ->
  exists cs,
    concat cs = take (Z.to_nat keep) msgs /\
    Forall (fun c => c <> [] /\ Z.of_nat (length c) <= effectiveMaxFlowsPerMessage n) cs /\
    exportJchfBatches seri n cb msgs keep f =
      if decide (keep + effectiveMaxFlowsPerMessage n < 2 ^ 63)
      then export_chunks seri cb f cs else Ok ([], f).
Proof.
  intros Hk Hn Hmax. case_decide as Hb.
  { destruct (exportJchfBatches_ok seri n cb msgs keep f ltac:(lia) Hb) as (cs & He & Hc & Hf).
    by exists cs. }
  pose proof (effective_pos n) as Hpos.
  destruct (chunks_concat 1 ltac:(lia) (length msgs) (take (Z.to_nat keep) msgs)) as [Hc Hf];
    [rewrite length_take; lia|].
  eexists. split; [exact Hc|]. split.
  { eapply Forall_impl; [exact Hf|]. intros c [Hne Hle]. split; [done|lia]. }
  assert (effectiveMaxFlowsPerMessage n < 2 ^ 63) as Hn63.
  { unfold effectiveMaxFlowsPerMessage, in_srange in *. destruct (Z.leb_spec n 0); lia. }
  unfold exportJchfBatches, jchfExportSliceBounds. cbn [slice_bounds].
  set (e := effectiveMaxFlowsPerMessage n) in *.
  rewrite (proj2 (Z.ltb_ge _ _)); [done|]. unfold swrap.
  rewrite <- (Z.mod_unique_pos _ _ 1 (keep + e + 2 ^ (64 - 1) - 2 ^ 64)) by lia. lia.
Qed.

(** [tooBig] cuts the message by a quarter, down to one record. *)
Lemma shrink_spec n : 0 < n < 2 ^ 51 -> shrink n = Z.max (3 * n / 4) 1.
Proof. apply int64_three_quarters. Qed.

Lemma shrinks n k : 0 < n < 2 ^ 51 ->
  1 <= Nat.iter k shrink n <= n /\
  (Nat.iter k shrink n = 1 \/ Nat.iter k shrink n * 4 ^ Z.of_nat k <= n * 3 ^ Z.of_nat k).
Proof.
  intros Hn. induction k as [|k [IHr IHk]]; [cbn; lia|].
  assert (0 < 4 ^ Z.of_nat k) by (apply Z.pow_pos_nonneg; lia).
  rewrite Nat2Z.inj_succ, !Z.pow_succ_r by lia. rewrite Nat.iter_succ, shrink_spec by lia.
  set (x := Nat.iter k shrink n) in *. pose proof (Z.mul_div_le (3 * x) 4 ltac:(lia)).
  split; [lia|]. destruct (Z.max_spec (3 * x / 4) 1) as [[_ ->]|[Hge ->]]; [by left|]. right.
  destruct IHk as [->|IHk]; [by cbn in Hge|]. nia.
Qed.

(** C20: a sink that keeps finding the messages too big is heard.  From fewer than 2^51 records
    in a message (where the product of floats is exact), every signal leaves at least one
    record and never more than before, and after [k] signals, once [n * 3^k < 2 * 4^k],
    messages have a single record.  The rest of the agent is untouched. *)
Theorem tooBig_converges {R F CB} (kc : NetworkAgent R F CB) k :
  0 < MaxFlowsPerMessage (kc_config kc) < 2 ^ 51 ->
  let kc' := Nat.iter k tooBig kc in
  1 <= MaxFlowsPerMessage (kc_config kc') <= MaxFlowsPerMessage (kc_config kc) /\
  (MaxFlowsPerMessage (kc_config kc) * 3 ^ Z.of_nat k < 2 * 4 ^ Z.of_nat k ->
   MaxFlowsPerMessage (kc_config kc') = 1) /\
  kc_msgsc kc' = kc_msgsc kc /\ kc_rollups kc' = kc_rollups kc /\ kc_format kc' = kc_format kc.
Proof.
  intros Hn. cbn zeta. set (n := MaxFlowsPerMessage (kc_config kc)) in *.
  assert (MaxFlowsPerMessage (kc_config (Nat.iter k tooBig kc)) = Nat.iter k shrink n /\
    kc_msgsc (Nat.iter k tooBig kc) = kc_msgsc kc /\ kc_rollups (Nat.iter k tooBig kc) = kc_rollups kc /\
    kc_format (Nat.iter k tooBig kc) = kc_format kc) as (Hs & -> & -> & ->).
  { clear Hn. induction k as [|k IH]; [done|]. rewrite !Nat.iter_succ.
    destruct IH as (<- & <- & <- & <-). done. }
  rewrite Hs. destruct (shrinks n k Hn) as [Hr Hk]. split_and!; [lia|lia| |done|done|done].
  intros Hlt. destruct Hk as [->|Hk]; [done|].
  assert (0 < 4 ^ Z.of_nat k) by (apply Z.pow_pos_nonneg; lia). nia.
Qed.

(** Once a filter has looked at them, sampled records report the wrong rate.  When records
    are filtered and then sampled, each exported record carries the rate multiplied by the
    sampling, but the map that serializers get from it is the one the filter cached, with the
    rate from before. *)
Lemma sampled_rate_is_stale cfg shuffle fs msgs out l keep :
  (forall l, shuffle l ≡ₚ l) ->
  fs <> [] -> Forall (fun fw => fw <> []) fs -> Forall fresh msgs ->
  Forall (fun msg => exists b, keep_flow fs (base_map msg) = Ok b) msgs ->
  reduce fs msgs = Ok out -> sample_msgs cfg shuffle out = (l, keep) ->
  (1 < Z.of_nat (length out)) -> Forall (fun msg => ApplySample msg = true) msgs ->
  1 < cfg_SampleRate cfg -> SampleMin cfg < Z.of_nat (length out) ->
  Forall (fun msg => exists msg0, msg0 ∈ msgs /\
    SampleRate msg = uint32 (SampleRate msg0 * uint32 (cfg_SampleRate cfg)) /\
    ToMap msg = Ok (Some (base_map msg0), msg) /\
    base_map msg0 !! "sample_rate" = Some (AInt (SampleRate msg0))) l.
Proof.
  intros Hsh Hne Hfs Hf Hok Hr Hs Hlen Happ Hrate Hmin.
  rewrite reduce_passes in Hr by done. injection Hr as <-.
  assert (exists msg rest, looked <$> filter (passes fs) msgs = looked msg :: rest /\
    ApplySample (looked msg) = true) as (m & rest & Hout & Hm).
  { assert (Forall (fun msg => ApplySample msg = true) (filter (passes fs) msgs)) as Ha.
    { apply Forall_forall. intros x Hx. rewrite list_elem_of_filter in Hx.
      rewrite Forall_forall in Happ. by apply Happ, Hx. }
    destruct (filter (passes fs) msgs) as [|m rest]; [cbn in Hlen; lia|].
    inversion Ha; subst. exists m, (looked <$> rest). split; [done|by destruct m]. }
  unfold sample_msgs, sample_when in Hs. rewrite Hout in Hs at 2. rewrite Hm in Hs.
  rewrite !(proj2 (Z.ltb_lt _ _)) in Hs by done. cbn [andb] in Hs. injection Hs as <- _.
  apply Forall_fmap, Forall_forall. intros x Hx. rewrite Hsh in Hx.
  apply list_elem_of_fmap in Hx as (msg0 & -> & Hx). apply list_elem_of_filter in Hx as [_ Hx].
  exists msg0. split_and!; [done|by destruct msg0|unfold ToMap; by destruct msg0|].
  unfold base_map. apply elem_of_list_to_map_1; [apply ToMap_names|].
  repeat first [apply list_elem_of_here|apply list_elem_of_further].
Qed.

(** ** Witnesses *)

(** A serializer that writes a byte for each record, and counts its calls. *)
Definition sample_seri (f : nat) (msgs : list JCHF) : outcome (option Output) * nat :=
  (Ok (Some (NewOutput (replicate (length msgs) 0))), S f).

Lemma exportJchfBatches_chunks_witness :
  (exists cs, concat cs = replicate 3 NewJCHF /\
    Forall (fun c => c <> [] /\ Z.of_nat (length c) <= 2) cs /\
    exportJchfBatches sample_seri 2 (None : option unit) (replicate 3 NewJCHF) 3 0%nat =
      export_chunks sample_seri None 0%nat cs) /\
  exportJchfBatches sample_seri (2 ^ 63 - 1) (None : option unit) (replicate 3 NewJCHF) 3 0%nat =
    Ok ([], 0%nat).
Proof.
  split.
  - destruct (exportJchfBatches_chunks sample_seri 2 (None : option unit) (replicate 3 NewJCHF) 3 0%nat)
      as (cs & Hc & Hf & He); [simpl; lia|decide_done|lia|]. exists cs.
    split; [exact Hc|]. split; [exact Hf|]. rewrite He. apply decide_True. reflexivity.
  - destruct (exportJchfBatches_chunks sample_seri (2 ^ 63 - 1) (None : option unit)
      (replicate 3 NewJCHF) 3 0%nat) as (cs & _ & _ & He); [simpl; lia|decide_done|lia|].
    rewrite He. apply decide_False. vm_compute. discriminate.
Defined.

(** No rollups. *)
#[export] Instance no_roller : Roller unit := {
  roll_Add _ r := Ok r;
  roll_Export r := Ok ([], r);
  roll_SetFilter _ r := r;
  roll_GetName _ := ""
}.

Definition sample_agent (n : Z) : NetworkAgent unit nat unit :=
  mkNetworkAgent (mkConfig n 1 0 false) [] [] 0%nat None [] 0.

Lemma tooBig_converges_witness :
  MaxFlowsPerMessage (kc_config (Nat.iter 33 tooBig (sample_agent 10000))) = 1 /\
  MaxFlowsPerMessage (kc_config (tooBig (sample_agent 10000))) = 7500.
Proof.
  split; [|vm_compute; reflexivity].
  apply (tooBig_converges (sample_agent 10000) 33); [simpl; lia|]. vm_compute. reflexivity.
Defined.

Definition sample_filters : list FilterWrapper :=
  match GetFilters ["string,protocol,==,TCP"] with Ok fs => fs | _ => [] end.
Definition sample_sampled : JCHF := set_Protocol "TCP" (set_SampleRate 10 (set_ApplySample true NewJCHF)).

Lemma sampled_rate_is_stale_witness :
  exists l keep msg, sample_msgs (mkConfig 100 8 1 false) (fun l => l) (replicate 2 (looked sample_sampled)) =
      (msg :: l, keep) /\
    SampleRate msg = 80 /\ exists m, ToMap msg = Ok (Some m, msg) /\ m !! "sample_rate" = Some (AInt 10).
Proof.
  destruct (sample_msgs (mkConfig 100 8 1 false) (fun l => l) (replicate 2 (looked sample_sampled)))
    as [l keep] eqn:Hs.
  assert (Forall (fun msg => exists msg0, msg0 ∈ replicate 2 sample_sampled /\
    SampleRate msg = uint32 (SampleRate msg0 * uint32 8) /\
    ToMap msg = Ok (Some (base_map msg0), msg) /\
    base_map msg0 !! "sample_rate" = Some (AInt (SampleRate msg0))) l) as Hl.
  { apply (sampled_rate_is_stale (mkConfig 100 8 1 false) (fun l => l) sample_filters
      (replicate 2 sample_sampled) (replicate 2 (looked sample_sampled)) l keep);
      [done|vm_compute; discriminate|repeat constructor; vm_compute; discriminate
      |repeat constructor| |vm_compute; reflexivity|exact Hs|simpl; lia|repeat constructor
      |simpl; lia|simpl; lia].
    repeat constructor; exists true; vm_compute; reflexivity. }
  destruct l as [|msg l]; [apply (f_equal (fun p => length p.1)) in Hs; vm_compute in Hs; discriminate|].
  apply Forall_cons in Hl as [(msg0 & Hin & Hr & Hm & Hb) _].
  apply elem_of_replicate in Hin as [-> _]. exists l, keep, msg. split; [reflexivity|].
  split; [exact Hr|]. eexists. split; [exact Hm|exact Hb].
Defined.
