(* ===== verification/Pipeline.v ===== *)
(** * From records to netflow and back

    The agent's pipeline (src/pkg/cat/kkc.go) with the netflow serializer
    (src/pkg/formats/netflow/netflow.go): what is filtered, cut in messages and queued is what
    a reader of the outputs gets. *)
From S2P Require Import Prelude GoIO GoStrings GoNet KT Filter Rollup IC NetFlow9 IPFIX.
From S2P Require Import NetflowFormat Stitch KM Rule Enrich Agent.

Section Netflow.
  Context (order : list (Z * string)) (Horder : order ≡ₚ PROTO_NAMES_entries).

(** [kc.format.To] of the netflow format, which keeps no state of its own when it writes. *)
Definition seri_netflow (nf : NetflowFormat) (msgs : list JCHF) : outcome (option Output) * NetflowFormat :=
  (To (PROTO_NUMS_from order) nf msgs, nf).

(** What a list of outputs reads back as, each with its own fuel. *)
Definition reads_back (nf : NetflowFormat) (o : Output) (recs : list (option (gmap string Avro))) : Prop :=
  forall fuel, (length (Body o) <= fuel)%nat -> (From fuel nf o).2 = Ok recs.

Lemma export_chunks_netflow {CB} (cb : option CB) nf cs :
  nf_version nf = IPFIX.Version \/ nf_version nf = NetFlow9.Version ->
  Forall (fun c => c <> [] /\ (length c < 512)%nat) cs -> Forall (Forall carriable) cs ->
  exists outs, export_chunks seri_netflow cb nf cs = Ok ((fun o => mkQueued (Some o) cb) <$> outs, nf) /\
    Forall2 (fun o c => reads_back nf o ((fun f => Some (base_map (exported_fields f))) <$> c)) outs cs.
Proof using Horder.
  intros Hv Hcs Hok. induction Hcs as [|c cs [Hne Hn] _ IH]; [by exists []|].
  inversion Hok as [|? ? Hc Hcs']; subst. destruct (IH Hcs') as (outs & He & Hr).
  destruct (To_From order 0 nf c Horder Hv Hne Hn) as (o & Ho & _).
  exists (o :: outs). split.
  - assert (serialize seri_netflow cb nf c = Ok ([mkQueued (Some o) cb], nf)) as Hs.
    { unfold serialize, seri_netflow. by rewrite Ho. }
    cbn [export_chunks]. rewrite Hs. cbn [mbind outcome_bind]. by rewrite He.
  - constructor; [|done]. intros fuel Hf.
    destruct (To_From order fuel nf c Horder Hv Hne Hn) as (o' & Ho' & Hfrom).
    rewrite <- returned_carriable by done. rewrite Ho in Ho'. injection Ho' as <-. by apply Hfrom.
Qed.

Section Agent.
  Context {T : Type} `{PrefixTree T} (rule : RuleSet (T := T)) (Services : gmap (Z * Z) string).
  Context (resolver : option (string -> string)) (Unmarshal : string -> option (list Json)).
  Context (km : option KMMapper) (range_dims : gmap string KMDimension -> list KMDimension)
    (range_mets : gmap string KMMetric -> list KMMetric) (PROTO_NUMS : gmap string Z).
  Context {R CB : Type} `{Roller R} (shuffle : list JCHF -> list JCHF).

(** Neither geography, AS numbers nor an outside enricher are configured. *)
Abbreviation handle := (handleInput rule Services None None resolver Unmarshal km range_dims
  range_mets PROTO_NUMS None (R := R) (CB := CB) seri_netflow shuffle).

Lemma carriable_looked msg : carriable msg -> carriable (looked msg).
Proof using Type. destruct msg. by intros []. Qed.

Lemma exported_looked msg : exported_fields (looked msg) = exported_fields msg.
Proof using Type. by destruct msg. Qed.

Lemma filter_all_pass (msgs : list JCHF) : filter (passes []) msgs = msgs.
Proof using Type. apply filter_all, Forall_forall. done. Qed.

(** What filtering leaves, seen as what can be exported. *)
Lemma filtered_exports (fs : list FilterWrapper) msgs :
  Forall (fun fw => fw <> []) fs -> Forall fresh msgs -> Forall carriable msgs ->
  Forall (fun msg => exists b, keep_flow fs (base_map msg) = Ok b) msgs ->
  exists out, (if is_empty fs then Ok msgs else reduce fs msgs) = Ok out /\
    Forall carriable out /\
    exported_fields <$> out = exported_fields <$> filter (passes fs) msgs.
Proof using Type.
  intros Hfs Hf Hc Hok. destruct fs as [|fw fs].
  { exists msgs. by rewrite filter_all_pass. }
  exists (looked <$> filter (passes (fw :: fs)) msgs). cbn [is_empty].
  split; [by apply reduce_passes|]. split.
  - apply Forall_fmap, Forall_forall. intros x Hx. apply list_elem_of_filter in Hx as [_ Hx].
    rewrite Forall_forall in Hc. by apply carriable_looked, Hc.
  - rewrite <- list_fmap_compose. apply list_fmap_ext. intros i x _. apply exported_looked.
Qed.

(** C21: from records to netflow and back.  An agent without rollups, enrichment or sampling
    that is given fresh records queues, behind what is queued already, outputs of at most the
    configured size.  Whoever reads those outputs, in order, gets exactly the records that
    pass every global filter, each once, in order, with all the fields netflow carries. *)
Theorem handleInput_netflow kc msgs cb :
  nf_version (kc_format kc) = IPFIX.Version \/ nf_version (kc_format kc) = NetFlow9.Version ->
  kc_rollups kc = [] -> cfg_SampleRate (kc_config kc) <= 1 ->
  MaxFlowsPerMessage (kc_config kc) < 512 ->
  Z.of_nat (length msgs) < 2 ^ 62 ->
  Forall (fun fw => fw <> []) (kc_filters kc) -> Forall fresh msgs -> Forall carriable msgs ->
  Forall (fun msg => exists b, keep_flow (kc_filters kc) (base_map msg) = Ok b) msgs ->
  exists outs recs kc', handle kc msgs cb = Ok kc' /\
    kc_msgsc kc' = kc_msgsc kc ++ ((fun o => mkQueued (Some o) cb) <$> outs) /\
    Forall2 (reads_back (kc_format kc)) outs recs /\
    Forall (fun r => Z.of_nat (length r) <=
      effectiveMaxFlowsPerMessage (MaxFlowsPerMessage (kc_config kc))) recs /\
    concat recs = (fun f => Some (base_map (exported_fields f))) <$>
                    filter (passes (kc_filters kc)) msgs.
Proof using Horder.
  intros Hv Hroll Hrate Hn Hlen Hfs Hf Hc Hok.
  destruct (filtered_exports _ _ Hfs Hf Hc Hok) as (out & Hout & Hco & Heq).
  assert (Z.of_nat (length out) < 2 ^ 62) as Hlo.
  { apply (f_equal length) in Heq. rewrite !length_fmap in Heq.
    pose proof (length_filter (passes (kc_filters kc)) msgs). lia. }
  unfold handleInput, enrich. cbn [is_set orb mbind outcome_bind]. rewrite Hout.
  cbn [mbind outcome_bind]. unfold add_to_rollups. rewrite Hroll. cbn [is_empty orb mbind outcome_bind].
  assert (sample_msgs (kc_config kc) shuffle out = (out, Z.of_nat (length out))) as ->.
  { unfold sample_msgs, sample_when. rewrite (proj2 (Z.ltb_ge 1 (cfg_SampleRate (kc_config kc))) Hrate).
    by rewrite andb_false_r. }
  pose proof (effective_pos (MaxFlowsPerMessage (kc_config kc))) as Hpos.
  assert (effectiveMaxFlowsPerMessage (MaxFlowsPerMessage (kc_config kc)) < 512) as Heff.
  { unfold effectiveMaxFlowsPerMessage. by destruct (Z.leb_spec (MaxFlowsPerMessage (kc_config kc)) 0). }
  destruct (exportJchfBatches_ok seri_netflow (MaxFlowsPerMessage (kc_config kc)) cb out
    (Z.of_nat (length out)) (kc_format kc)) as (cs & -> & Hcs & Hfa); [lia..|].
  rewrite Nat2Z.id, take_ge in Hcs by lia.
  destruct (export_chunks_netflow cb (kc_format kc) cs Hv) as (outs & -> & Hr).
  { eapply Forall_impl; [exact Hfa|]. intros c [Hne Hle]. split; [done|lia]. }
  { apply Forall_concat. by rewrite Hcs. }
  cbn [mbind outcome_bind].
  set (rec := fun f => Some (base_map (exported_fields f))) in *.
  exists outs, (map (map rec) cs). eexists.
  split; [reflexivity|]. split; [done|]. split; [by apply Forall2_fmap_r|]. split.
  - apply Forall_fmap. eapply Forall_impl; [exact Hfa|]. intros c [_ Hle]. cbn. by rewrite length_fmap.
  - assert (forall l : list JCHF, rec <$> l = (fun f => Some (base_map f)) <$> (exported_fields <$> l)) as Hrec.
    { intros l. by rewrite <- list_fmap_compose. }
    rewrite Hrec, <- Heq, <- Hrec, <- Hcs. clear. induction cs as [|c cs IH]; [done|].
    cbn. rewrite fmap_app. by f_equal.
Qed.
End Agent.
End Netflow.

(** ** Witness *)

Lemma carriable_protocol p f : carriable f -> p ∈ PROTO_NAMES_entries.*2 -> carriable (set_Protocol p f).
Proof. destruct f. intros [] Hp. by constructor. Qed.

Definition sample_kc (n : Z) : NetworkAgent unit NetflowFormat unit :=
  mkNetworkAgent (mkConfig n 1 0 false) sample_filters [] (mkNetflowFormat Session.New ∅ 10) None [] 0.

(** Five flows of which four are TCP, three to a message. *)
Lemma handleInput_netflow_witness :
  exists outs recs kc', handleInput (NewRuleSet (T := list (network * Z)) cidr []) ∅ None None None
      (fun _ => None) None (fun m => map snd (map_to_list m)) (fun m => map snd (map_to_list m)) ∅ None
      (seri_netflow PROTO_NAMES_entries) (fun l => l) (sample_kc 3)
      (set_Protocol "UDP" NetflowFormat.sample_flow :: replicate 4 NetflowFormat.sample_flow) None = Ok kc' /\
    kc_msgsc kc' = (fun o => mkQueued (Some o) None) <$> outs /\
    Forall2 (reads_back (kc_format (sample_kc 3))) outs recs /\
    concat recs = replicate 4 (Some (base_map (exported_fields NetflowFormat.sample_flow))).
Proof.
  destruct (handleInput_netflow PROTO_NAMES_entries ltac:(done)
    (NewRuleSet (T := list (network * Z)) cidr []) ∅ None (fun _ => None) None
    (fun m => map snd (map_to_list m)) (fun m => map snd (map_to_list m)) ∅ (fun l => l)
    (sample_kc 3) (set_Protocol "UDP" NetflowFormat.sample_flow :: replicate 4 NetflowFormat.sample_flow) None)
    as (outs & recs & kc' & Hh & Hq & Hr & _ & Hc);
    [by left|done|simpl; lia|simpl; lia|simpl; lia|repeat constructor; vm_compute; discriminate
    |repeat constructor|..].
  - constructor; [|apply Forall_replicate, sample_carriable].
    apply (carriable_protocol "UDP"); [apply sample_carriable|]. decide_done.
  - repeat constructor; first [exists true; vm_compute; reflexivity | exists false; vm_compute; reflexivity].
  - exists outs, recs, kc'. split; [exact Hh|]. split; [exact Hq|]. split; [exact Hr|].
    rewrite Hc. assert (filter (passes (kc_filters (sample_kc 3)))
      (set_Protocol "UDP" NetflowFormat.sample_flow :: replicate 4 NetflowFormat.sample_flow) = replicate 4 NetflowFormat.sample_flow) as ->.
    { vm_compute. reflexivity. }
    reflexivity.
Defined.
