(* ===== verification/CDN.v ===== *)
(** * Names of content delivery networks (src/pkg/util/cdn/cdn.go) *)
From S2P Require Import Prelude.

Definition cdn2Name_entries : list (Z * string) :=
  [(0, "--");
   (1, "AFXcdn");
   (2, "Akamai");
   (3, "Alibaba Cloud");
   (4, "Amazon + AWS");
   (5, "Ananke");
   (6, "Apple");
   (7, "AT&T");
   (8, "Azion");
   (9, "BelugaCDN");
   (10, "Blue Hat Network");
   (11, "CacheFly");
   (12, "CDN77");
   (13, "CDNetworks");
   (14, "CDNify");
   (15, "ChinaCache");
   (16, "Cloudflare");
   (17, "EdgeCast Verizon");
   (18, "Facebook");
   (19, "Fastly");
   (20, "G-Core CDN");
   (21, "Google Youtube");
   (22, "Hibernia");
   (23, "Imperva Incapsula");
   (24, "Instartlogic");
   (25, "Internap");
   (26, "KeyCDN");
   (27, "LeaseWeb CDN");
   (28, "Level3");
   (29, "Limelight");
   (30, "Medianova");
   (31, "Netflix");
   (32, "Mirror Image");
   (33, "Ngenix");
   (34, "QUANTIL ChinaNetCenter");
   (35, "Reflected Networks - Swift");
   (36, "Alibaba_Cloud");
   (37, "Tata communications");
   (38, "Telefonica");
   (39, "TurboBytes");
   (40, "Microsoft Azure");
   (41, "Yahoo");
   (42, "Zenedge");
   (43, "Stackpath MaxCDN NetDNA Highwinds");
   (44, "Dropbox");
   (45, "Pandora");
   (46, "Twitch.TV");
   (47, "Comcast CDN");
   (48, "BunnyCDN");
   (49, "CDNvideo");
   (50, "cdnnow");
   (51, "SingularCDN");
   (52, "Kingsoft Cloud");
   (53, "Tencent Cloud")].
Definition cdn2Name : gmap Z string := list_to_map cdn2Name_entries.

(** A number that is not in the table gives the empty name. *)
Definition NameByCDN (cdn : Z) : string := default "" (cdn2Name !! cdn).
Definition NamesByCDNs (cdns : list Z) : list string := NameByCDN <$> cdns.

Lemma cdn2Name_numbers : NoDup cdn2Name_entries.*1.
Proof. apply (bool_decide_eq_true_1 _). vm_compute. reflexivity. Qed.

Lemma NameByCDN_entry cdn name : (cdn, name) ∈ cdn2Name_entries -> NameByCDN cdn = name.
Proof.
  intros Hin. unfold NameByCDN, cdn2Name.
  by rewrite (elem_of_list_to_map_1 _ cdn name cdn2Name_numbers Hin).
Qed.
