(* ===== verification/ToJCHF.v ===== *)
(** * Kentik flows to records (src/pkg/cat/jchf.go and src/pkg/cat/mapping.go)

    [flowToJCHF] fills a recycled record from a flow: its numbers, the names of its device and
    interfaces, its custom columns, the user-defined columns of its application, and the tags
    that are renamed at the end.  A flow is what the accessors of the capnproto message give;
    the API of Kentik, the tag maps and the resolver are arguments, and so are the orders in
    which Go ranges over maps. *)
From stdpp Require Import fin_map_dom.
From Stdlib Require Import Ascii.
From S2P Require Import Prelude GoIO GoStrings GoNet GoAddr IC CDN KT Stitch Customs KM.

Local Open Scope go_scope.

Definition APP_PROTOCOL_COL : string := "app_protocol".
Definition UDR_TYPE_INT : string := "int".
Definition UDR_TYPE_BIGINT : string := "bigint".
Definition UDR_TYPE_STRING : string := "string".
Definition UDR_TYPE : string := "application_type".

(** ** The flow, as its accessors give it *)

Inductive Custom_value :=
| Uint16Val (v : Z)
| Uint32Val (v : Z)
| Uint64Val (v : Z)
| StrVal (s : string)
| AddrVal (b : bytes)
| Float32Val (bits : Z)
| OtherVal.

(** A text accessor gives a string and an error. *)
Definition Text : Type := string * option error.

Record CHF := mkCHF {
  chf_DstAs : Z; chf_DstGeo : Z; chf_DstGeoRegion : Z; chf_DstGeoCity : Z; chf_HeaderLen : Z;
  chf_InBytes : Z; chf_InPkts : Z; chf_InputPort : Z; chf_IpSize : Z; chf_L4DstPort : Z;
  chf_L4SrcPort : Z; chf_OutputPort : Z; chf_Protocol : Z; chf_SampledPacketSize : Z;
  chf_SrcAs : Z; chf_SrcGeo : Z; chf_SrcGeoRegion : Z; chf_SrcGeoCity : Z; chf_TcpFlags : Z;
  chf_Tos : Z; chf_VlanIn : Z; chf_VlanOut : Z; chf_MplsType : Z; chf_OutBytes : Z;
  chf_OutPkts : Z; chf_TcpRetransmit : Z; chf_SampleRate : Z; chf_DeviceId : Z;
  chf_SrcNextHopAs : Z; chf_DstNextHopAs : Z; chf_SrcSecondAsn : Z; chf_DstSecondAsn : Z;
  chf_SrcThirdAsn : Z; chf_DstThirdAsn : Z; chf_SrcEthMac : Z; chf_DstEthMac : Z;
  chf_SrcFlowTags : Text; chf_DstFlowTags : Text; chf_SrcBgpAsPath : Text;
  chf_DstBgpAsPath : Text; chf_SrcBgpCommunity : Text; chf_DstBgpCommunity : Text;
  chf_Ipv4DstAddr : Z; chf_Ipv6DstAddr : bytes; chf_Ipv4SrcAddr : Z; chf_Ipv6SrcAddr : bytes;
  chf_SrcRoutePrefix : Z; chf_DstRoutePrefix : Z; chf_Ipv4SrcNextHop : Z;
  chf_Ipv6SrcNextHop : bytes; chf_Ipv4DstNextHop : Z; chf_Ipv6DstNextHop : bytes;
  chf_Custom : list (Z * Custom_value)
}.

Record Flow := mkFlow { fl_CompanyId : Z; fl_CHF : CHF; fl_DeviceName : string }.

(** ** Devices, interfaces, tests and agents of the API *)

Record Device := mkDevice {
  dev_Name : string; dev_Subtype : string; dev_SendingIps : list IP; dev_Site : option string;
  dev_Customs : list (Z * string);
  dev_FullSite : option (string * string) (* its market and country *)
}.
Record Interface := mkInterface {
  if_Description : string; if_Alias : string; if_SnmpSpeedMbps : Z; if_Address : string;
  if_Provider : string; if_NetworkBoundary : string; if_ConnectivityType : string
}.
Record SynthAgent := mkSynthAgent {
  ag_Alias : string; ag_Id : string; ag_LocalIp : string; ag_Ip : string; ag_Asn : Z;
  ag_Region : string; ag_City : string; ag_Country : string; ag_CloudRegion : string;
  ag_CloudProvider : string; ag_SiteName : string
}.

Record API := mkAPI {
  GetDevice : Z -> Z -> option Device;
  GetInterface : Device -> Z -> option Interface;
  GetTest : Z -> option (string * string); (* its name and type *)
  GetAgent : Z -> option SynthAgent;
  GetAgentByIP : string -> option SynthAgent
}.

(** ** Definitions of user-defined columns (mapping.go) *)

Record UDR := mkUDR { ColumnName : string; ApplicationName : string; udr_Type : string }.
Record UDRMapper := mkUDRMapper {
  UDRs : gmap Z (gmap string UDR);
  Subtypes : gmap string (gmap string UDR)
}.

(** A line of the file: [found] counts the lines that are used. *)
Definition udr_line (ToLower : string -> string) (um : UDRMapper * Z) (line : string) :
    UDRMapper * Z :=
  match strings_SplitN line "," 4 with
  | [p0; p1; p2; p3] =>
      let typ := if HasPrefix p1 "STR" || HasPrefix p1 "INET_" then UDR_TYPE_STRING else UDR_TYPE_INT in
      let typ := if HasPrefix p1 "INT64_" then UDR_TYPE_BIGINT else typ in
      let udr := mkUDR (FixupName ToLower p2) (FixupName ToLower p3) typ in
      let col := FixupName ToLower p1 in
      match Atoi p0 with
      | None => um
      | Some appId =>
          let app := int32 appId in
          (if 0 <? app
           then mkUDRMapper (<[app := <[col := udr]> (default ∅ (UDRs um.1 !! app))]> (UDRs um.1))
                  (Subtypes um.1)
           else mkUDRMapper (UDRs um.1)
                  (<[p3 := <[col := udr]> (default ∅ (Subtypes um.1 !! p3))]> (Subtypes um.1)),
           um.2 + 1)
      end
  | _ => um
  end.

Definition NewUDRMapper (ToLower : string -> string) (lines : list string) : UDRMapper * Z :=
  foldl (udr_line ToLower) (mkUDRMapper ∅ ∅, 0) lines.

(** [m.Customs], decoded from JSON. *)
Definition NewCustomMapper (ToLower : string -> string) (customs : gmap Z string) : gmap Z string :=
  FixupName ToLower <$> customs.

(** ** Text of geography and addresses *)

(** [%c] of an unsigned number: the rune in UTF-8, U+FFFD when it is none. *)
Definition utf8 (r : Z) : string :=
  let r := if (1114111 <? r) || ((55296 <=? r) && (r <=? 57343)) then 65533 else r in
  str_of (if r <? 128 then [r]
          else if r <? 2048 then [192 + r / 64; 128 + r mod 64]
          else if r <? 65536 then [224 + r / 4096; 128 + r / 64 mod 64; 128 + r mod 64]
          else [240 + r / 262144; 128 + r / 4096 mod 64; 128 + r / 64 mod 64; 128 + r mod 64]).

(** A country as two characters in one number; nothing for 0. *)
Definition geo_text (geo : Z) : option string :=
  if 0 <? geo then
    let s := utf8 (Z.shiftr geo 8) +:+ utf8 (Z.land geo 255) in
    Some (match s with String "-" _ => "--" | _ => s end)
  else None.

Definition Int2ip (nn : Z) : IP := be_split 4 nn.

(** The IPv4 address if it is set, the IPv6 bytes otherwise. *)
Definition addr_text (v4 : Z) (v6 : bytes) : string :=
  IP_String (if 0 <? v4 then Int2ip v4 else v6).

Definition mac_text (mac : Z) : string := HardwareAddr_String (be_split 8 mac).

(** [if sft, err := ...; err != nil { dst = sft }]. *)
Definition on_error (set : string -> JCHF -> JCHF) (t : Text) (dst : JCHF) : JCHF :=
  match t.2 with Some _ => set t.1 dst | None => dst end.

(** ** Custom columns *)

Definition RPKI_INVALID_text (v : Z) : string :=
  "RPKI Invalid: incorrect Origin ASN (should be AS" +:+ Itoa v +:+ ")".

Definition one_of (name : string) (names : list string) : bool := existsb (String.eqb name) names.

Section Flow.
  Context (api : API) (Customs : gmap Z string) (ct_names : gmap Z string).
  Context (LookupTagValue LookupTagValueBig : Z -> Z -> string -> option (string * string)).
  Context (LookupRegion LookupCity : Z -> string) (resolver : option (string -> string)).
  Context (udrMapr : option UDRMapper) (range_udrs : gmap string UDR -> list (string * UDR)).
  Context (defaultProvider : string).

(** The maps are made anew, the numbers are copied; a country that is not set leaves what the
    record had. *)
Definition make_maps (dst : JCHF) : JCHF :=
  set_CustomFloat (Some ∅) (set_CustomBigInt (Some ∅) (set_CustomInt (Some ∅)
    (set_CustomStr (Some ∅) dst))).

Definition set_opt {A} (set : A -> JCHF -> JCHF) (o : option A) (dst : JCHF) : JCHF :=
  match o with Some v => set v dst | None => dst end.

Definition copy_fields (src : Flow) (currentTS : Z) (dst : JCHF) : JCHF :=
  let c := fl_CHF src in
  let dst := set_DstAs (chf_DstAs c) (set_Timestamp currentTS dst) in
  let dst := set_opt set_DstGeo (geo_text (chf_DstGeo c)) dst in
  let dst := set_DstGeoCity (LookupCity (chf_DstGeoCity c))
               (set_DstGeoRegion (LookupRegion (chf_DstGeoRegion c)) dst) in
  let dst := set_InPkts (chf_InPkts c) (set_InBytes (chf_InBytes c)
               (set_HeaderLen (chf_HeaderLen c) dst)) in
  let dst := set_L4DstPort (chf_L4DstPort c) (set_IpSize (chf_IpSize c)
               (set_InputPort (chf_InputPort c) dst)) in
  let dst := set_OutputPort (chf_OutputPort c) (set_L4SrcPort (chf_L4SrcPort c) dst) in
  let dst := set_Protocol (default "" (PROTO_NAMES !! (uint16 (chf_Protocol c)))) dst in
  let dst := set_SrcAs (chf_SrcAs c) (set_SampledPacketSize (chf_SampledPacketSize c) dst) in
  let dst := set_opt set_SrcGeo (geo_text (chf_SrcGeo c)) dst in
  let dst := set_SrcGeoCity (LookupCity (chf_SrcGeoCity c))
               (set_SrcGeoRegion (LookupRegion (chf_SrcGeoRegion c)) dst) in
  let dst := set_VlanOut (chf_VlanOut c) (set_VlanIn (chf_VlanIn c)
               (set_Tos (chf_Tos c) (set_TcpFlags (chf_TcpFlags c) dst))) in
  let dst := set_TcpRetransmit (chf_TcpRetransmit c) (set_OutPkts (chf_OutPkts c)
               (set_OutBytes (chf_OutBytes c) (set_MplsType (chf_MplsType c) dst))) in
  let dst := set_SampleRate (chf_SampleRate c / 100) dst in
  let dst := set_CompanyId (uint64 (fl_CompanyId src)) (set_DeviceName (fl_DeviceName src)
               (set_DeviceId (chf_DeviceId c) dst)) in
  let dst := set_DstNextHopAs (chf_DstNextHopAs c) (set_SrcNextHopAs (chf_SrcNextHopAs c) dst) in
  let dst := set_DstSecondAsn (chf_DstSecondAsn c) (set_SrcSecondAsn (chf_SrcSecondAsn c) dst) in
  set_DstThirdAsn (chf_DstThirdAsn c) (set_SrcThirdAsn (chf_SrcThirdAsn c) dst).

(** ** The device and its interfaces *)

Definition set_input (i : Interface) (dst : JCHF) : outcome JCHF :=
  let dst := set_InputInterfaceIP (if_Address i) (set_InputInterfaceCapacity (if_SnmpSpeedMbps i)
               (set_InputIntAlias (if_Alias i) (set_InputIntDesc (if_Description i) dst))) in
  dst ← put_CustomStr "input_provider" (if_Provider i) dst;
  dst ← put_CustomStr "input_network_boundary" (if_NetworkBoundary i) dst;
  put_CustomStr "input_connectivity_type" (if_ConnectivityType i) dst.

Definition set_output (i : Interface) (dst : JCHF) : outcome JCHF :=
  let dst := set_OutputInterfaceIP (if_Address i) (set_OutputInterfaceCapacity (if_SnmpSpeedMbps i)
               (set_OutputIntAlias (if_Alias i) (set_OutputIntDesc (if_Description i) dst))) in
  dst ← put_CustomStr "output_provider" (if_Provider i) dst;
  dst ← put_CustomStr "output_network_boundary" (if_NetworkBoundary i) dst;
  put_CustomStr "output_connectivity_type" (if_ConnectivityType i) dst.

(** The names of the device's custom columns. *)
Definition custColNames (dst : JCHF) : gmap Z string :=
  match GetDevice api (CompanyId dst) (DeviceId dst) with
  | None => ∅
  | Some d => foldl (fun m v => <[v.1 := v.2]> m) ∅ (dev_Customs d)
  end.

Definition set_device (dst : JCHF) : outcome JCHF :=
  match GetDevice api (CompanyId dst) (DeviceId dst) with
  | None => Ok dst
  | Some d =>
      dst ← put_CustomStr UDR_TYPE (dev_Subtype d) (set_DeviceName (dev_Name d) dst);
      dst ← match dev_SendingIps d with
            | ip :: _ => put_CustomStr "SamplerAddress" (IP_String ip) dst
            | [] => Ok dst
            end;
      dst ← match dev_Site d with
            | Some site => put_CustomStr "device_site" site dst
            | None => Ok dst
            end;
      dst ← match GetInterface api d (InputPort dst) with
            | Some i => set_input i dst
            | None => Ok dst
            end;
      dst ← match GetInterface api d (OutputPort dst) with
            | Some i => set_output i dst
            | None => Ok dst
            end;
      match dev_FullSite d with
      | Some (market, country) =>
          dst ← put_CustomStr "device_site_market" market dst;
          put_CustomStr "device_site_country" country dst
      | None => Ok dst
      end
  end.

(** ** Text fields and addresses *)

Definition set_texts (c : CHF) (dst : JCHF) : JCHF :=
  let dst := set_DstEthMac (mac_text (chf_DstEthMac c)) (set_SrcEthMac (mac_text (chf_SrcEthMac c)) dst) in
  let dst := on_error set_DstFlowTags (chf_DstFlowTags c) (on_error set_SrcFlowTags (chf_SrcFlowTags c) dst) in
  let dst := on_error set_DstBgpAsPath (chf_DstBgpAsPath c) (on_error set_SrcBgpAsPath (chf_SrcBgpAsPath c) dst) in
  on_error set_DstBgpCommunity (chf_DstBgpCommunity c) (on_error set_SrcBgpCommunity (chf_SrcBgpCommunity c) dst).

Definition resolve_into (key addr : string) (dst : JCHF) : outcome JCHF :=
  match resolver with
  | Some resolve => put_CustomStr key (resolve addr) dst
  | None => Ok dst
  end.

Definition set_addrs (c : CHF) (dst : JCHF) : outcome JCHF :=
  let dst := set_DstAddr (addr_text (chf_Ipv4DstAddr c) (chf_Ipv6DstAddr c)) dst in
  dst ← resolve_into "dst_host" (DstAddr dst) dst;
  let dst := set_SrcAddr (addr_text (chf_Ipv4SrcAddr c) (chf_Ipv6SrcAddr c)) dst in
  let dst := set_DstRoutePrefix (IP_String (Int2ip (chf_DstRoutePrefix c)))
               (set_SrcRoutePrefix (IP_String (Int2ip (chf_SrcRoutePrefix c))) dst) in
  dst ← resolve_into "src_host" (SrcAddr dst) dst;
  Ok (set_DstNextHop (addr_text (chf_Ipv4DstNextHop c) (chf_Ipv6DstNextHop c))
        (set_SrcNextHop (addr_text (chf_Ipv4SrcNextHop c) (chf_Ipv6SrcNextHop c)) dst)).

(** ** A custom column *)

Definition custom_uint32 (name : string) (isInt : bool) (v : Z) (dst : JCHF) : outcome JCHF :=
  if one_of name ["src_cdn_int"; "dst_cdn_int"] then put_CustomStr name (NameByCDN v) dst
  else if one_of name ["trf_origination"; "trf_termination"; "host_direction"] then
    put_CustomStr name (default "" (NETWORK_CLASS_INT_TO_NAME !! v)) dst
  else if one_of name ["src_network_bndry"; "dst_network_bndry"; "ult_exit_network_bndry"] then
    put_CustomStr name (NameFromNBInt v) dst
  else if one_of name ["src_connect_type"; "dst_connect_type"; "ult_exit_connect_type"] then
    put_CustomStr name (NameFromCTInt ct_names v) dst
  else if String.eqb name "dst_rpki" then
    if (RPKI_MAX_NUM <? v) || (v =? RPKI_INVALID) then
      dst ← put_CustomStr "i_dst_rpki_name" (RPKI_INVALID_text v) dst;
      put_CustomStr "i_dst_rpki_min_name" RPKI_INVALID_MIN_NAME dst
    else
      dst ← put_CustomStr "i_dst_rpki_name" (default "" (RPKI_INT_TO_NAME !! v)) dst;
      put_CustomStr "i_dst_rpki_min_name" (default "" (RPKI_INT_TO_MIN_NAME !! v)) dst
  else if String.eqb name "ult_exit_device_id" then
    dst ← put_CustomInt name (int32 v) dst;
    match GetDevice api (CompanyId dst) v with
    | Some d =>
        dst ← put_CustomStr "ult_exit_device" (dev_Name d) dst;
        match dev_Site d with
        | Some site => put_CustomStr "ult_exit_site" site dst
        | None => Ok dst
        end
    | None => Ok dst
    end
  else
    match LookupTagValue (CompanyId dst) v name with
    | Some (tk, tv) => put_CustomStr tk tv dst
    | None => if negb isInt then put_CustomInt name (int32 v) dst else Ok dst
    end.

(** [net.IP(sv[1:])]: the first byte is the family. *)
Definition custom_addr (name : string) (sv : bytes) (dst : JCHF) : outcome JCHF :=
  if (1 <? length sv)%nat then put_CustomStr name (IP_String (drop 1 sv)) dst else Ok dst.

Definition custom_value (names : gmap Z string) (dst : JCHF) (cust : Z * Custom_value) :
    outcome JCHF :=
  let '(name, isInt) :=
    match Customs !! cust.1 with
    | Some name => (name, false)
    | None => match names !! cust.1 with
              | Some k => (k, false)
              | None => (Itoa cust.1, true)
              end
    end in
  match cust.2 with
  | Uint16Val v => put_CustomInt name v dst
  | Uint32Val v => custom_uint32 name isInt v dst
  | Uint64Val v =>
      let iv := int64 v in
      match LookupTagValueBig (CompanyId dst) iv name with
      | Some (tk, tv) => put_CustomStr tk tv dst
      | None => put_CustomBigInt name iv dst
      end
  | StrVal sv => put_CustomStr name sv dst
  | AddrVal sv => custom_addr name sv dst
  | Float32Val fv => put_CustomFloat name fv dst
  | OtherVal => Ok dst
  end.

(** ** User-defined columns *)

Definition udr_map (um : UDRMapper) (dst : JCHF) : gmap string UDR :=
  let subtype := gomap_get "" (CustomStr dst) UDR_TYPE in
  match (if String.eqb subtype "" then None else Subtypes um !! subtype) with
  | Some mapr => mapr
  | None => match gomap_find (CustomInt dst) APP_PROTOCOL_COL with
            | Some ap => default ∅ (UDRs um !! ap)
            | None => ∅
            end
  end.

(** [if val, ok := dst.CustomInt[col]; ok { ... }], for each of the maps. *)
Definition move_int (col new : string) (dst : JCHF) : outcome JCHF :=
  match gomap_find (CustomInt dst) col with
  | Some val => dst ← put_CustomInt new val dst; Ok (del_CustomInt col dst)
  | None => Ok dst
  end.
Definition move_str (col new : string) (dst : JCHF) : outcome JCHF :=
  match gomap_find (CustomStr dst) col with
  | Some val => dst ← put_CustomStr new val dst; Ok (del_CustomStr col dst)
  | None => Ok dst
  end.
Definition move_bigint (col new : string) (dst : JCHF) : outcome JCHF :=
  match gomap_find (CustomBigInt dst) col with
  | Some val => dst ← put_CustomBigInt new val dst; Ok (del_CustomBigInt col dst)
  | None => move_int col new dst
  end.

Definition synResultTypes : gmap Z string :=
  list_to_map [(0, "error"); (1, "timeout"); (2, "ping"); (3, "fetch"); (4, "trace");
    (5, "knock"); (6, "query"); (7, "shake"); (8, "pageload"); (9, "transaction"); (10, "dnssec")].

Definition is_no_addr (a : string) : bool := String.eqb a "" || String.eqb a "<nil>".

Definition set_dst_agent (dst : JCHF) : outcome JCHF :=
  if is_no_addr (DstAddr dst) then Ok dst
  else match GetAgentByIP api (DstAddr dst) with
       | None => Ok dst
       | Some da =>
           dst ← put_CustomStr "dst_agent_name" (ag_Alias da) dst;
           dst ← put_CustomStr "dst_agent_id" (ag_Id da) dst;
           let dst := set_DstGeo (ag_Country da) (set_DstGeoCity (ag_City da)
                        (set_DstGeoRegion (ag_Region da) (set_DstAs (ag_Asn da) dst))) in
           dst ← put_CustomStr "dst_cloud_region" (ag_CloudRegion da) dst;
           dst ← put_CustomStr "dst_cloud_provider" (ag_CloudProvider da) dst;
           put_CustomStr "dst_site" (ag_SiteName da) dst
       end.

Definition set_agent (id : Z) (dst : JCHF) : outcome JCHF :=
  match GetAgent api id with
  | None => put_CustomStr "agent_name" "" dst
  | Some a =>
      dst ← put_CustomStr "agent_name" (ag_Alias a) dst;
      dst ← (if is_no_addr (SrcAddr dst) then
               let dst := set_SrcAddr (if String.eqb (ag_LocalIp a) "" then ag_Ip a else ag_LocalIp a) dst in
               resolve_into "src_host" (SrcAddr dst) dst
             else Ok dst);
      let dst := set_SrcGeo (ag_Country a) (set_SrcGeoCity (ag_City a)
                   (set_SrcGeoRegion (ag_Region a) (set_SrcAs (ag_Asn a) dst))) in
      dst ← put_CustomStr "src_cloud_region" (ag_CloudRegion a) dst;
      dst ← put_CustomStr "src_cloud_provider" (ag_CloudProvider a) dst;
      dst ← put_CustomStr "src_site" (ag_SiteName a) dst;
      set_dst_agent dst
  end.

Definition set_test (id : Z) (dst : JCHF) : outcome JCHF :=
  dst ← put_CustomStr "test_url"
    ("https://portal.kentik.com/v4/synthetics/tests/" +:+ Itoa id +:+ "/results") dst;
  let '(name, type) := default ("", "") (GetTest api id) in
  dst ← put_CustomStr "test_name" name dst;
  put_CustomStr "test_type" type dst.

Definition udr_column (dst : JCHF) (cu : string * UDR) : outcome JCHF :=
  let col := cu.1 in
  let new := ColumnName cu.2 in
  dst ← (if String.eqb (udr_Type cu.2) UDR_TYPE_INT then move_int col new dst
         else if String.eqb (udr_Type cu.2) UDR_TYPE_STRING then move_str col new dst
         else if String.eqb (udr_Type cu.2) UDR_TYPE_BIGINT then move_bigint col new dst
         else Ok dst);
  dst ← match gomap_find (CustomStr dst) UDR_TYPE with
        | Some _ => Ok dst
        | None => put_CustomStr UDR_TYPE (ApplicationName cu.2) dst
        end;
  if String.eqb new "result_type" then
    put_CustomStr "result_type_str" (default "" (synResultTypes !! gomap_get 0 (CustomInt dst) new)) dst
  else if String.eqb new "test_id" then set_test (gomap_get 0 (CustomBigInt dst) new) dst
  else if String.eqb new "agent_id" then set_agent (gomap_get 0 (CustomBigInt dst) new) dst
  else Ok dst.

Definition udr_columns (dst : JCHF) : outcome JCHF :=
  match udrMapr with
  | Some um => fold_out udr_column dst (range_udrs (udr_map um dst))
  | None => Ok dst
  end.

(** ** Tags *)

Definition remapCustomStrings : gmap string string := list_to_map
  [("kt_aws_dst_acc_id", "dest_account"); ("kt_aws_src_acc_id", "source_account");
   ("kt_az_dst_sub_id", "dest_account"); ("kt_az_src_sub_id", "source_account");
   ("destination_project_id", "dest_account"); ("source_project_id", "source_account");
   ("account", "source_account"); ("kt_aws_src_region", "source_region");
   ("kt_aws_dst_region", "dest_region"); ("kt_az_src_region", "source_region");
   ("kt_az_dst_region", "dest_region"); ("src_region", "source_region");
   ("dst_region", "dest_region"); ("source_region", "source_region");
   ("destination_region", "dest_region"); ("kt_aws_src_vpc_id", "source_vpc");
   ("kt_aws_dst_vpc_id", "dest_vpc"); ("kt_az_dst_rsrc_group", "source_vpc");
   ("kt_az_src_rsrc_group", "dest_vpc"); ("source_subnet_name", "source_vpc");
   ("destination_subnet_name", "dest_vpc"); ("src_vpc", "source_vpc"); ("dst_vpc", "dest_vpc")].

(** Tags of another cloud are kicked out. *)
Definition contaminated (udr k : string) : bool :=
  if String.eqb udr "gcp_subnet" then HasPrefix k "kt_aws" || HasPrefix k "kt_az"
  else if String.eqb udr "aws_subnet" then HasPrefix k "kt_az"
  else if String.eqb udr "azure_subnet" then HasPrefix k "kt_aws"
  else if String.eqb udr "ibm_subnet" then HasPrefix k "kt_aws" || HasPrefix k "kt_az"
  else false.

(** The body of the loop over [dst.CustomStr]. *)
Definition remap_tag (k v : string) (m : gmap string string) : gmap string string :=
  if contaminated (default "" (m !! UDR_TYPE)) k then delete k m
  else match remapCustomStrings !! k with
       | Some n => delete k (<[n := v]> m)
       | None => m
       end.

(** [visits m] are the keys the loop reaches, in order, if they are still there. *)
Context (visits : gmap string string -> list string).

Definition remap_tags (dst : JCHF) : JCHF :=
  set_CustomStr ((fun m => range_along remap_tag (visits m) m) <$> CustomStr dst) dst.

(** ** The type of the record *)

Definition KENTIK_EVENT_TYPE : string := "KFlow".
Definition KENTIK_EVENT_SNMP : string := "KSnmp".
Definition KENTIK_EVENT_TRACE : string := "KTrace".
Definition KENTIK_EVENT_SYNTH_GEST : string := "KSynthgest".
Definition ProviderSynth : string := "kentik-network-synthetic".
Definition ProviderVPC : string := "kentik-vpc".

Definition getEventType (dst : JCHF) : string :=
  let app := gomap_get 0 (CustomInt dst) APP_PROTOCOL_COL in
  if app =? 12 then KENTIK_EVENT_SNMP
  else if app =? 10 then
    if gomap_get 0 (CustomInt dst) "result_type" =? 4 then KENTIK_EVENT_TRACE else KENTIK_EVENT_SYNTH
  else if app =? 18 then KENTIK_EVENT_SYNTH_GEST
  else KENTIK_EVENT_TYPE.

Definition getProviderType (dst : JCHF) : string :=
  match gomap_find (CustomStr dst) UDR_TYPE with
  | None => defaultProvider
  | Some udr =>
      if String.eqb udr "kprobe" || String.eqb udr "kappa" then defaultProvider
      else
        let app := gomap_get 0 (CustomInt dst) APP_PROTOCOL_COL in
        if (app =? 10) || (app =? 11) then ProviderSynth
        else if HasPrefix (srev udr) (srev "_subnet") then ProviderVPC
        else defaultProvider
  end.

(** ** The conversion *)

Definition finish (dst : JCHF) : outcome JCHF :=
  dst ← match gomap_find (CustomStr dst) "Type" with
        | Some _ => Ok dst
        | None => put_CustomStr "Type" "kflow" dst
        end;
  dst ← put_CustomStr "src_endpoint" (SrcAddr dst +:+ ":" +:+ Itoa (L4SrcPort dst)) dst;
  dst ← put_CustomStr "dst_endpoint" (DstAddr dst +:+ ":" +:+ Itoa (L4DstPort dst)) dst;
  let dst := set_EventType (getEventType dst) dst in
  Ok (set_Provider (getProviderType dst) dst).

Definition flowToJCHF (dst : JCHF) (src : Flow) (currentTS : Z) : outcome JCHF :=
  let dst := copy_fields src currentTS (make_maps dst) in
  let names := custColNames dst in
  dst ← set_device dst;
  dst ← set_addrs (fl_CHF src) (set_texts (fl_CHF src) dst);
  dst ← fold_out (custom_value names) dst (chf_Custom (fl_CHF src));
  dst ← udr_columns dst;
  finish (remap_tags dst).

(** ** The conversion always succeeds *)

(** What no later step of the conversion touches. *)
Definition numbers (j : JCHF) : JCHF :=
  set_CustomStr None (set_CustomInt None (set_CustomBigInt None (set_CustomFloat None
  (set_SrcAs 0 (set_DstAs 0 (set_SrcGeo "" (set_DstGeo "" (set_SrcGeoRegion "" (set_DstGeoRegion ""
  (set_SrcGeoCity "" (set_DstGeoCity "" (set_SrcAddr "" (set_DstAddr "" (set_EventType ""
  (set_Provider "" (set_DeviceName "" (set_InputIntDesc "" (set_InputIntAlias ""
  (set_InputInterfaceCapacity 0 (set_InputInterfaceIP "" (set_OutputIntDesc ""
  (set_OutputIntAlias "" (set_OutputInterfaceCapacity 0 (set_OutputInterfaceIP ""
  (set_SrcEthMac "" (set_DstEthMac "" (set_SrcRoutePrefix "" (set_DstRoutePrefix ""
  (set_SrcNextHop "" (set_DstNextHop "" j)))))))))))))))))))))))))))))).

#[local] Instance numbers_forgets : Forgets numbers.
Proof using Type. split; intros; by destruct msg. Qed.

Section Steps.
  Context (m0 : JCHF).
Abbreviation like := (like numbers m0).
Abbreviation gentle := (gentle numbers m0).

Lemma gentle_input i dst : like dst -> gentle (set_input i dst).
Proof using Type. intros Hl. unfold set_input. cbv zeta. gentle. Qed.
Lemma gentle_output i dst : like dst -> gentle (set_output i dst).
Proof using Type. intros Hl. unfold set_output. cbv zeta. gentle. Qed.
#[local] Hint Resolve gentle_input gentle_output : gentle.

Lemma gentle_device dst : like dst -> gentle (set_device dst).
Proof using Type. intros Hl. unfold set_device. gentle. Qed.

Lemma gentle_resolve key addr dst : like dst -> gentle (resolve_into key addr dst).
Proof using Type. intros Hl. unfold resolve_into. gentle. Qed.
#[local] Hint Resolve gentle_resolve : gentle.

Lemma gentle_addrs c dst : like dst -> gentle (set_addrs c dst).
Proof using Type. intros Hl. unfold set_addrs. cbv zeta. gentle. Qed.

Lemma gentle_uint32 name isInt v dst : like dst -> gentle (custom_uint32 name isInt v dst).
Proof using Type. intros Hl. unfold custom_uint32. gentle. Qed.
#[local] Hint Resolve gentle_uint32 : gentle.

Lemma gentle_custom names cust dst : like dst -> gentle (custom_value names dst cust).
Proof using Type.
  intros Hl. unfold custom_value.
  destruct (match Customs !! cust.1 with Some name => (name, false) | None => _ end) as [name isInt].
  destruct cust.2; cbv zeta; gentle. unfold custom_addr. gentle.
Qed.

Lemma gentle_test id dst : like dst -> gentle (set_test id dst).
Proof using Type. intros Hl. unfold set_test. gentle. Qed.
Lemma gentle_dst_agent dst : like dst -> gentle (set_dst_agent dst).
Proof using Type. intros Hl. unfold set_dst_agent. cbv zeta. gentle. Qed.
#[local] Hint Resolve gentle_test gentle_dst_agent : gentle.
Lemma gentle_agent id dst : like dst -> gentle (set_agent id dst).
Proof using Type. intros Hl. unfold set_agent. cbv zeta. gentle. Qed.
Lemma gentle_move_int col new dst : like dst -> gentle (move_int col new dst).
Proof using Type. intros Hl. unfold move_int. gentle. Qed.
#[local] Hint Resolve gentle_agent gentle_move_int : gentle.

Lemma gentle_udr cu dst : like dst -> gentle (udr_column dst cu).
Proof using Type. intros Hl. unfold udr_column, move_str, move_bigint. cbv zeta. gentle. Qed.

Lemma gentle_udrs dst : like dst -> gentle (udr_columns dst).
Proof using Type.
  intros Hl. unfold udr_columns. gentle. apply gentle_fold; [|done]. intros. by apply gentle_udr.
Qed.

Lemma like_remap dst : like dst -> like (remap_tags dst).
Proof using Type.
  intros Hl. unfold remap_tags. destruct (has_CustomStr _ (proj1 Hl)) as [m ->].
  cbn [fmap option_fmap option_map]. by apply like_set_CustomStr; [apply _|].
Qed.

Lemma gentle_finish dst : like dst -> gentle (finish dst).
Proof using Type. intros Hl. unfold finish. cbv zeta. gentle. Qed.
End Steps.

Lemma all_maps_make src ts dst : all_maps (copy_fields src ts (make_maps dst)).
Proof using Type.
  unfold copy_fields. destruct dst, (geo_text (chf_DstGeo (fl_CHF src))), (geo_text (chf_SrcGeo (fl_CHF src)));
    by constructor.
Qed.

Lemma conversion src ts dst :
  let m0 := set_texts (fl_CHF src) (copy_fields src ts (make_maps dst)) in
  exists dst', flowToJCHF dst src ts = Ok dst' /\ like numbers m0 dst'.
Proof using Type.
  cbv zeta. set (c := fl_CHF src). set (start := copy_fields src ts (make_maps dst)).
  assert (like numbers start start) as Hs by (split; [apply all_maps_make|done]).
  unfold flowToJCHF. fold c. fold start. cbv zeta.
  destruct (gentle_device start start Hs) as (d1 & -> & H1). cbn [mbind outcome_bind].
  assert (like numbers (set_texts c start) (set_texts c d1)) as H2.
  { clear -H1. destruct H1 as [Hm Hv]. split.
    - destruct Hm. unfold set_texts, on_error. destruct d1.
      destruct (chf_SrcFlowTags c).2, (chf_DstFlowTags c).2, (chf_SrcBgpAsPath c).2,
        (chf_DstBgpAsPath c).2, (chf_SrcBgpCommunity c).2, (chf_DstBgpCommunity c).2; by constructor.
    - revert Hv. generalize start. clear. intros start Hv. destruct d1, start.
      unfold set_texts, on_error. injection Hv as Hv. intros. subst.
      destruct (chf_SrcFlowTags c).2, (chf_DstFlowTags c).2, (chf_SrcBgpAsPath c).2,
        (chf_DstBgpAsPath c).2, (chf_SrcBgpCommunity c).2, (chf_DstBgpCommunity c).2; reflexivity. }
  enough (gentle numbers (set_texts c start)
    (dst ← set_addrs c (set_texts c d1);
     dst ← fold_out (custom_value (custColNames start)) dst (chf_Custom c);
     dst ← udr_columns dst; finish (remap_tags dst))) as He by exact He.
  apply gentle_bind; [by apply gentle_addrs|]. intros d2 H3.
  apply gentle_bind; [apply gentle_fold; [intros; by apply gentle_custom|done]|]. intros d3 H4.
  apply gentle_bind; [by apply gentle_udrs|]. intros d4 H5.
  apply gentle_finish, like_remap, H5.
Qed.
(** The fields the conversion copies, and those it leaves to the record's last flow. *)
Definition copied (j : JCHF) :=
  ((InBytes j, InPkts j, OutBytes j, OutPkts j, SampleRate j, Timestamp j),
   (L4SrcPort j, L4DstPort j, InputPort j, OutputPort j, Tos j, TcpFlags j),
   (Protocol j, DeviceId j, CompanyId j)).
Definition left_over (j : JCHF) :=
  (SrcFlowTags j, DstFlowTags j, SrcBgpAsPath j, DstBgpAsPath j, SrcBgpCommunity j,
   DstBgpCommunity j, avroSet j).

Lemma numbers_show j j' : numbers j = numbers j' ->
  copied j = copied j' /\ left_over j = left_over j'.
Proof using Type.
  assert (forall j, copied j = copied (numbers j) /\ left_over j = left_over (numbers j)) as Hn
    by (intros []; split; reflexivity).
  intros He. destruct (Hn j) as [-> ->], (Hn j') as [-> ->]. by rewrite He.
Qed.

Lemma copy_shows src ts dst : let c := fl_CHF src in
  let j := copy_fields src ts (make_maps dst) in
  copied j =
    ((chf_InBytes c, chf_InPkts c, chf_OutBytes c, chf_OutPkts c, chf_SampleRate c / 100, ts),
     (chf_L4SrcPort c, chf_L4DstPort c, chf_InputPort c, chf_OutputPort c, chf_Tos c, chf_TcpFlags c),
     (default "" (PROTO_NAMES !! (uint16 (chf_Protocol c))), chf_DeviceId c, uint64 (fl_CompanyId src))) /\
  left_over j = left_over dst.
Proof using Type.
  cbv zeta. unfold copy_fields, set_opt.
  destruct dst, (geo_text (chf_DstGeo (fl_CHF src))), (geo_text (chf_SrcGeo (fl_CHF src))); split; reflexivity.
Qed.

(** C23: the conversion of a flow always succeeds, whatever its custom columns, the device, the
    tags, the user-defined columns and the order of the loops.  The record has its maps and
    the flow's counters, ports, protocol, flags, company and device, with the sample rate
    divided by 100.  Its flow tags and BGP attributes are not the flow's: when the flow's text
    is read without an error the record keeps whatever it had from the flow it carried before,
    and it keeps the map it last gave to a serializer. *)
Theorem flowToJCHF_total src ts dst :
  let c := fl_CHF src in
  Forall (fun t : Text => t.2 = None) [chf_SrcFlowTags c; chf_DstFlowTags c; chf_SrcBgpAsPath c;
    chf_DstBgpAsPath c; chf_SrcBgpCommunity c; chf_DstBgpCommunity c] ->
  exists dst', flowToJCHF dst src ts = Ok dst' /\ all_maps dst' /\
    copied dst' =
      ((chf_InBytes c, chf_InPkts c, chf_OutBytes c, chf_OutPkts c, chf_SampleRate c / 100, ts),
       (chf_L4SrcPort c, chf_L4DstPort c, chf_InputPort c, chf_OutputPort c, chf_Tos c, chf_TcpFlags c),
       (default "" (PROTO_NAMES !! (uint16 (chf_Protocol c))), chf_DeviceId c, uint64 (fl_CompanyId src))) /\
    left_over dst' = left_over dst.
Proof using Type.
  cbv zeta. intros Ht. rewrite !Forall_cons in Ht. destruct Ht as (T1 & T2 & T3 & T4 & T5 & T6 & _).
  destruct (conversion src ts dst) as (dst' & Hd & Hm & Hv). exists dst'. split; [exact Hd|].
  split; [exact Hm|]. unfold set_texts, on_error in Hv. rewrite T1, T2, T3, T4, T5, T6 in Hv.
  assert (numbers dst' = numbers (copy_fields src ts (make_maps dst))) as Hn.
  { rewrite Hv. generalize (copy_fields src ts (make_maps dst)). by intros []. }
  apply numbers_show in Hn as [Hc Hl]. destruct (copy_shows src ts dst) as [Hc' Hl'].
  by rewrite Hc, Hl.
Qed.
(** The conversion leaves the cache of the record alone. *)
Lemma conversion_cache dst src ts dst' : flowToJCHF dst src ts = Ok dst' ->
  avroSet dst' = avroSet dst /\ hasSetAvro dst' = hasSetAvro dst.
Proof using Type.
  intros Hd. destruct (conversion src ts dst) as (d & Hd' & _ & Hv).
  assert (d = dst') as -> by congruence. clear Hd Hd'.
  assert (forall j, (avroSet j, hasSetAvro j) = (avroSet (numbers j), hasSetAvro (numbers j))) as Hn
    by (by intros []).
  pose proof (Hn dst') as H1. rewrite Hv, <- Hn in H1. clear Hv Hn.
  assert (forall c j, (avroSet (set_texts c j), hasSetAvro (set_texts c j)) = (avroSet j, hasSetAvro j)) as Ht.
  { intros c []. unfold set_texts, on_error.
    by destruct (chf_SrcFlowTags c).2, (chf_DstFlowTags c).2, (chf_SrcBgpAsPath c).2,
      (chf_DstBgpAsPath c).2, (chf_SrcBgpCommunity c).2, (chf_DstBgpCommunity c).2. }
  rewrite Ht in H1. clear Ht.
  assert ((avroSet (copy_fields src ts (make_maps dst)), hasSetAvro (copy_fields src ts (make_maps dst))) =
    (avroSet dst, hasSetAvro dst)) as Hc.
  { unfold copy_fields, set_opt.
    by destruct dst, (geo_text (chf_DstGeo (fl_CHF src))), (geo_text (chf_SrcGeo (fl_CHF src))). }
  rewrite Hc in H1. by injection H1.
Qed.

(** The names of the fixed entries are the same in all records. *)
Lemma base_map_none j j' k : base_map j !! k = None -> base_map j' !! k = None.
Proof using Type.
  unfold base_map. rewrite <- !not_elem_of_list_to_map. done.
Qed.

(** A recycled record shows the flow it carried before.  When a record has been flattened
    for a serializer, given back and filled from the next flow, which may be another
    company's, the map it gives still has the custom strings of the flow before. *)
Lemma recycled_record_leaks order j m k v src ts :
  hasSetAvro j = false -> avroSet j = Some ∅ -> KT.separate j -> range_order j order ->
  CustomStr j = Some m -> m !! k = Some v ->
  exists m1 j1, Flatten order j = Ok (Some m1, j1) /\
    forall dst', flowToJCHF (Reset j1) src ts = Ok dst' ->
    exists m2 j2, ToMap dst' = Ok (Some m2, j2) /\ m2 !! k = Some (AStr v).
Proof using Type.
  intros Hh Ha Hs Ho Hm Hk.
  destruct (Flatten_result j order Hh Ha Hs Ho) as (m1 & j1 & Hf & Hl & Ht).
  exists m1, j1. split; [exact Hf|]. intros dst' Hd. apply conversion_cache in Hd as [Hav Hhs].
  assert (avroSet j1 = Some m1) as Hj1.
  { unfold Flatten in Hf. destruct (ToMap j) as [[mo jo]| | |]; [|done..]. cbn [mbind outcome_bind] in Hf.
    injection Hf as H1 <-. rewrite H1. by destruct jo. }
  exists (base_map dst' ∪ m1). eexists. split.
  { apply ToMap_again; [rewrite Hhs; by destruct j1|]. rewrite Hav. by destruct j1. }
  assert (custom_map j "custom_str" !! k = Some (AStr v)) as Hc.
  { unfold custom_map. rewrite String.eqb_refl, Hm. cbn [default from_option id].
    by rewrite lookup_fmap, Hk. }
  assert (base_map j !! k = None) as Hb by (apply (KT.sep_base j Hs "custom_str"); by eexists).
  rewrite lookup_union_r by (by apply (base_map_none j)).
  rewrite Hl. unfold flattened. rewrite decide_False.
  - cbn [containers custom_entry]. by rewrite Hc.
  - unfold containers. destruct (base_containers j) as (H1 & H2 & H3 & H4).
    rewrite !elem_of_cons, elem_of_nil. intros [->|[->|[->|[->|[]]]]]; congruence.
Qed.
End Flow.

(** ** Renamed tags *)

(** What a tag is renamed to is not renamed again, but for one. *)
Lemma remap_targets k n : remapCustomStrings !! k = Some n ->
  remapCustomStrings !! n = None \/ n = "source_region".
Proof.
  assert (map_Forall (fun _ n => remapCustomStrings !! n = None \/ n = "source_region") remapCustomStrings) as Hf.
  { decide_done. }
  apply Hf.
Qed.

Definition cloud_subnet (udr : string) : bool :=
  one_of udr ["gcp_subnet"; "aws_subnet"; "azure_subnet"; "ibm_subnet"].

Lemma not_contaminated udr k : cloud_subnet udr = false -> contaminated udr k = false.
Proof.
  unfold cloud_subnet, one_of, contaminated. cbn [existsb].
  destruct (String.eqb udr "gcp_subnet"), (String.eqb udr "aws_subnet"),
    (String.eqb udr "azure_subnet"), (String.eqb udr "ibm_subnet"); done.
Qed.

Lemma remap_no_type k : remapCustomStrings !! k <> Some UDR_TYPE.
Proof.
  assert (map_Forall (fun _ n => n <> UDR_TYPE) remapCustomStrings) as Hf by decide_done.
  intros Hk. by apply (Hf _ _ Hk).
Qed.
Lemma remap_type : remapCustomStrings !! UDR_TYPE = None.
Proof. reflexivity. Qed.

#[local] Opaque remapCustomStrings.

(** The state of the loop when the tags [must] are still to come. *)
Record remapping (m : gmap string string) (must : gset string) (cur : gmap string string) : Prop := {
  rm_moved k n v : m !! k = Some v -> remapCustomStrings !! k = Some n ->
    ((k ∈ must) /\ cur !! k = Some v) \/ ((k ∉ must) /\ cur !! k = None /\ cur !! n = Some v);
  rm_other k : remapCustomStrings !! k = None ->
    (forall k', remapCustomStrings !! k' = Some k -> m !! k' = None) -> cur !! k = m !! k;
  rm_absent k n : remapCustomStrings !! k = Some n -> m !! k = None -> cur !! k = None
}.

Section Renamed.
  Context (m : gmap string string).
  Context (Hudr : cloud_subnet (default "" (m !! UDR_TYPE)) = false).
  Context (Hone : forall k k' n, is_Some (m !! k) -> is_Some (m !! k') ->
    remapCustomStrings !! k = Some n -> remapCustomStrings !! k' = Some n -> k = k').
  Context (Hreg : forall k, is_Some (m !! k) -> remapCustomStrings !! k <> Some "source_region").

Lemma remapping_step must cur k v : remapping m must cur -> cur !! k = Some v ->
  remapping m (filter (fun x => is_Some (remap_tag k v cur !! x)) (must ∖ {[k]})) (remap_tag k v cur).
Proof using Hudr Hone Hreg.
  intros [Hm Ho Ha] Hk. unfold remap_tag.
  rewrite not_contaminated.
  2: { rewrite (Ho UDR_TYPE); [exact Hudr|apply remap_type|]. intros k' Hk'.
       by apply remap_no_type in Hk'. }
  destruct (remapCustomStrings !! k) as [n|] eqn:Hkn.
  - destruct (m !! k) as [v'|] eqn:Hmk; [|by rewrite (Ha k n Hkn Hmk) in Hk].
    assert (remapCustomStrings !! n = None) as Hn.
    { destruct (remap_targets k n Hkn) as [| ->]; [done|]. by destruct (Hreg k); [eauto|]. }
    assert (k <> n) as Hne by congruence.
    destruct (Hm k n v' Hmk Hkn) as [[_ Hk']|(_ & Hk' & _)]; [|congruence].
    assert (v' = v) as -> by congruence. constructor.
    + intros x nx vx Hx Hxn. destruct (decide (x = k)) as [->|Hxk].
      { right. assert (nx = n) as -> by congruence. assert (vx = v) as -> by congruence. split_and!.
        - intros [_ [_ Hin]%elem_of_difference]%elem_of_filter. by apply Hin, elem_of_singleton.
        - apply lookup_delete_eq.
        - rewrite lookup_delete_ne by congruence. apply lookup_insert_eq. }
      assert (nx <> n) as Hnx.
      { intros ->. apply Hxk. by apply (Hone x k n); [eauto..|]. }
      assert (x <> n) by congruence. assert (nx <> k).
      { intros ->. destruct (remap_targets x k Hxn) as [?|He]; [congruence|].
        apply (Hreg x); [eauto|]. by rewrite <- He. }
      destruct (Hm x nx vx Hx Hxn) as [[Hin Hcx]|(Hin & Hcx & Hcn)].
      * left. rewrite lookup_delete_ne, lookup_insert_ne by done. split; [|done].
        apply elem_of_filter. split; [|by apply elem_of_difference; rewrite elem_of_singleton].
        rewrite lookup_delete_ne, lookup_insert_ne by done. by eexists.
      * right. rewrite !lookup_delete_ne, !lookup_insert_ne by done. split_and!; [|done|done].
        by intros [_ [Hin' _]%elem_of_difference]%elem_of_filter.
    + intros x Hx Hsrc. assert (x <> k) by congruence.
      assert (x <> n). { intros ->. rewrite (Hsrc k Hkn) in Hmk. done. }
      rewrite lookup_delete_ne, lookup_insert_ne by done. by apply Ho.
    + intros x nx Hx Hmx. assert (x <> k) by congruence. assert (x <> n) by congruence.
      rewrite lookup_delete_ne, lookup_insert_ne by done. by apply (Ha x nx).
  - constructor; [|done|done]. intros x nx vx Hx Hxn. assert (x <> k) by congruence.
    destruct (Hm x nx vx Hx Hxn) as [[Hin Hcx]|(Hin & Hcx & Hcn)].
    + left. split; [|done]. apply elem_of_filter. split; [by eexists|by apply elem_of_difference; rewrite elem_of_singleton].
    + right. split_and!; [|done|done]. by intros [_ [Hin' _]%elem_of_difference]%elem_of_filter.
Qed.

Lemma remapping_end seen must cur m' :
  range_run remap_tag seen must cur m' -> remapping m must cur -> remapping m ∅ m'.
Proof using Hudr Hone Hreg.
  induction 1 as [|seen must cur k v m' Hs Hk Hrun IH]; intros Hr; [done|].
  apply IH. by apply remapping_step.
Qed.

(** In whatever order Go reaches the tags of a record that is no cloud subnet's, a tag
    with a common name moves to it, if no other tag has the same common name and the name is
    not [source_region]; the old name is gone, and every other tag stays. *)
Lemma remap_tags_moves m' : range remap_tag m m' ->
  (forall k n v, m !! k = Some v -> remapCustomStrings !! k = Some n ->
     m' !! n = Some v /\ m' !! k = None) /\
  (forall k, remapCustomStrings !! k = None ->
     (forall k', remapCustomStrings !! k' = Some k -> m !! k' = None) -> m' !! k = m !! k).
Proof using Hudr Hone Hreg.
  intros Hr. assert (remapping m ∅ m') as [Hm Ho _].
  { apply (remapping_end _ _ _ _ Hr). constructor; [|done|done].
    intros k n v Hk _. left. split; [|done]. apply elem_of_dom. by eexists. }
  split; [|done]. intros k n v Hk Hn. destruct (Hm k n v Hk Hn) as [[Hin _]|(_ & ? & ?)]; [|done].
  by apply not_elem_of_empty in Hin.
Qed.
End Renamed.

#[local] Transparent remapCustomStrings.

(** The tag [source_region] is its own common name, and the loop deletes what it has just
    written.  A record with that tag alone loses it, in any order; a record with the tag
    [kt_aws_src_region] alone may keep the region under the common name or lose it, as the
    loop may or may not reach the tag it has added. *)
Lemma remap_source_region r :
  (forall m', range remap_tag {["source_region" := r]} m' -> m' = ∅) /\
  range remap_tag {["kt_aws_src_region" := r]} {["source_region" := r]} /\
  range remap_tag {["kt_aws_src_region" := r]} ∅.
Proof.
  assert (remap_tag "source_region" r {["source_region" := r]} = ∅) as Hlost.
  { unfold remap_tag. rewrite lookup_singleton_ne by done. cbn [default from_option].
    change (remapCustomStrings !! "source_region") with (Some "source_region"). cbn match.
    rewrite not_contaminated by done. rewrite insert_singleton. apply delete_singleton_eq. }
  assert (remap_tag "kt_aws_src_region" r {["kt_aws_src_region" := r]} = {["source_region" := r]}) as Hmoved.
  { unfold remap_tag. rewrite lookup_singleton_ne by done. cbn [default from_option].
    rewrite not_contaminated by done.
    change (remapCustomStrings !! "kt_aws_src_region") with (Some "source_region"). cbn match.
    rewrite delete_insert_ne, delete_singleton_eq by done. by rewrite insert_empty. }
  split_and!.
  - intros m' Hr. unfold range in Hr. rewrite dom_singleton_L in Hr.
    apply range_first in Hr as (k & v & seen & must & Hk & Hr); [|apply non_empty_singleton_L].
    apply lookup_singleton_Some in Hk as [<- <-]. rewrite Hlost in Hr.
    by apply range_empty in Hr.
  - pose proof (range_along_range remap_tag ["kt_aws_src_region"] {["kt_aws_src_region" := r]}) as Hr.
    cbn [range_along foldl] in Hr. rewrite lookup_singleton_eq, Hmoved in Hr. apply Hr.
    + apply NoDup_singleton.
    + rewrite dom_singleton_L. set_solver.
  - pose proof (range_along_range remap_tag ["kt_aws_src_region"; "source_region"]
      {["kt_aws_src_region" := r]}) as Hr.
    cbn [range_along foldl] in Hr. rewrite lookup_singleton_eq, Hmoved, lookup_singleton_eq, Hlost in Hr.
    apply Hr; [|rewrite dom_singleton_L; set_solver].
    apply (bool_decide_eq_true_1 _). vm_compute. reflexivity.
Qed.

(** ** Witnesses *)

Definition sample_chf : CHF := {|
  chf_DstAs := 64500; chf_DstGeo := 21843; chf_DstGeoRegion := 0; chf_DstGeoCity := 0;
  chf_HeaderLen := 20; chf_InBytes := 1500; chf_InPkts := 3; chf_InputPort := 1; chf_IpSize := 0;
  chf_L4DstPort := 51000; chf_L4SrcPort := 443; chf_OutputPort := 2; chf_Protocol := 6;
  chf_SampledPacketSize := 0; chf_SrcAs := 64501; chf_SrcGeo := 0; chf_SrcGeoRegion := 0;
  chf_SrcGeoCity := 0; chf_TcpFlags := 27; chf_Tos := 0; chf_VlanIn := 0; chf_VlanOut := 0;
  chf_MplsType := 0; chf_OutBytes := 900; chf_OutPkts := 2; chf_TcpRetransmit := 0;
  chf_SampleRate := 51200; chf_DeviceId := 7; chf_SrcNextHopAs := 0; chf_DstNextHopAs := 0;
  chf_SrcSecondAsn := 0; chf_DstSecondAsn := 0; chf_SrcThirdAsn := 0; chf_DstThirdAsn := 0;
  chf_SrcEthMac := 116735359675; chf_DstEthMac := 0; chf_SrcFlowTags := ("tag", None);
  chf_DstFlowTags := ("", None); chf_SrcBgpAsPath := ("64501 64500", None);
  chf_DstBgpAsPath := ("", None); chf_SrcBgpCommunity := ("", None); chf_DstBgpCommunity := ("", None);
  chf_Ipv4DstAddr := 167772161; chf_Ipv6DstAddr := []; chf_Ipv4SrcAddr := 134744072;
  chf_Ipv6SrcAddr := []; chf_SrcRoutePrefix := 0; chf_DstRoutePrefix := 0; chf_Ipv4SrcNextHop := 0;
  chf_Ipv6SrcNextHop := []; chf_Ipv4DstNextHop := 0; chf_Ipv6DstNextHop := [];
  chf_Custom := [(1, StrVal "x"); (2, Uint32Val 5); (3, AddrVal [4; 10; 0; 0; 1]); (4, Uint16Val 10)]
|}.

Definition sample_api : API := {|
  GetDevice _ _ := Some (mkDevice "edge" "router" [] (Some "dc1") [(3, "hop")] None);
  GetInterface _ i := Some (mkInterface "eth" "alias" 1000 "192.0.2.1" "isp" "external" "transit");
  GetTest _ := None;
  GetAgent _ := None;
  GetAgentByIP _ := None
|}.

Definition sample_udrs : UDRMapper * Z :=
  NewUDRMapper id ["10,INT01,Result Type,synth"; "10,STR01,Label,synth"; "bad line"].

(** The conversion of the sample into a record that carried tags before. *)
Definition sample_conversion : outcome JCHF :=
  flowToJCHF sample_api {[1 := "str01"; 2 := "dst_rpki"; 4 := APP_PROTOCOL_COL]} ∅
    (fun _ _ _ => None) (fun _ _ _ => None) (fun _ => "") (fun _ => "") None
    (Some sample_udrs.1) (fun m => map_to_list m) "kentik-flow-device"
    (fun m => (map_to_list m).*1)
    (set_SrcFlowTags "old" NewJCHF) (mkFlow 1 sample_chf "dev") 1700000000.

Lemma flowToJCHF_total_witness :
  exists dst', sample_conversion = Ok dst' /\ InBytes dst' = 1500 /\ SampleRate dst' = 512 /\
    Protocol dst' = "TCP" /\ SrcFlowTags dst' = "old" /\
    gomap_get "" (CustomStr dst') "label" = "x" /\ EventType dst' = "KSynth".
Proof.
  destruct (flowToJCHF_total sample_api {[1 := "str01"; 2 := "dst_rpki"; 4 := APP_PROTOCOL_COL]} ∅
    (fun _ _ _ => None) (fun _ _ _ => None) (fun _ => "") (fun _ => "") None
    (Some sample_udrs.1) (fun m => map_to_list m) "kentik-flow-device" (fun m => (map_to_list m).*1)
    (mkFlow 1 sample_chf "dev") 1700000000 (set_SrcFlowTags "old" NewJCHF))
    as (dst' & Hd & _ & Hc & Hl); [by repeat constructor|].
  exists dst'. split; [exact Hd|]. unfold copied in Hc. unfold left_over in Hl.
  split; [by apply (f_equal (fun x => x.1.1.1.1.1.1.1)) in Hc|].
  split; [by apply (f_equal (fun x => x.1.1.1.2)) in Hc|].
  split; [by apply (f_equal (fun x => x.2.1.1)) in Hc|].
  split; [by apply (f_equal (fun x => x.1.1.1.1.1.1)) in Hl|].
  clear Hc Hl. vm_compute in Hd. injection Hd as <-. split; vm_compute; reflexivity.
Defined.

Definition sample_convert : JCHF -> Flow -> Z -> outcome JCHF :=
  flowToJCHF sample_api ∅ ∅ (fun _ _ _ => None) (fun _ _ _ => None) (fun _ => "") (fun _ => "") None
    None (fun m => map_to_list m) "kentik-flow-device" (fun m => (map_to_list m).*1).

Definition sample_reuse (j : JCHF) : outcome JCHF :=
  sample_convert (Reset j) (mkFlow 1 sample_chf "dev") 1700000000.

(** The sample's next owner never had the tag [kt.index]. *)
Lemma sample_reuse_tags :
  (mj ← Flatten sample_order sample_JCHF; d ← sample_reuse mj.2;
   Ok (gomap_find (CustomStr d) "kt.index")) = Ok None.
Proof. vm_compute. reflexivity. Qed.

Lemma recycled_record_leaks_witness :
  exists m1 j1 dst' m2 j2, Flatten sample_order sample_JCHF = Ok (Some m1, j1) /\
    sample_reuse j1 = Ok dst' /\ gomap_find (CustomStr dst') "kt.index" = None /\
    ToMap dst' = Ok (Some m2, j2) /\ m2 !! "kt.index" = Some (AStr "a").
Proof.
  destruct (recycled_record_leaks sample_api ∅ ∅ (fun _ _ _ => None) (fun _ _ _ => None) (fun _ => "")
    (fun _ => "") None None (fun m => map_to_list m) "kentik-flow-device" (fun m => (map_to_list m).*1)
    sample_order sample_JCHF {["kt.index" := "a"]} "kt.index" "a" (mkFlow 1 sample_chf "dev") 1700000000)
    as (m1 & j1 & Hf & Hd);
    [reflexivity|reflexivity|exact sample_separate|exact sample_range|reflexivity|reflexivity|].
  pose proof sample_reuse_tags as Hr. rewrite Hf in Hr. cbn [mbind outcome_bind snd] in Hr.
  destruct (sample_reuse j1) as [dst'| | |] eqn:He; [|done..]. cbn [mbind outcome_bind] in Hr.
  destruct (Hd dst' He) as (m2 & j2 & Ht & Hk).
  exists m1, j1, dst', m2, j2. split_and!; [exact Hf|done|by injection Hr|exact Ht|exact Hk].
Defined.

Definition sample_tags : gmap string string := {["kt_aws_src_acc_id" := "12"; "x" := "y"]}.
Lemma sample_tags_keys k : is_Some (sample_tags !! k) -> k = "kt_aws_src_acc_id" \/ k = "x".
Proof.
  intros [v Hk]. unfold sample_tags in Hk. rewrite lookup_insert_Some, lookup_singleton_Some in Hk.
  naive_solver.
Qed.

Lemma remap_tags_moves_witness :
  exists m', range remap_tag sample_tags m' /\
    m' !! "source_account" = Some "12" /\ m' !! "x" = Some "y".
Proof.
  assert (range remap_tag sample_tags (range_along remap_tag ["x"; "kt_aws_src_acc_id"] sample_tags)) as Hr.
  { apply range_along_range; [decide_done|]. intros k [->| ->]%elem_of_dom%sample_tags_keys; set_solver. }
  eexists. split; [exact Hr|].
  destruct (remap_tags_moves sample_tags ltac:(reflexivity)) with
    (m' := range_along remap_tag ["x"; "kt_aws_src_acc_id"] sample_tags) as [Hm Ho]; [| |exact Hr|].
  - by intros k k' n [->| ->]%sample_tags_keys [->| ->]%sample_tags_keys Hn Hn'.
  - by intros k [->| ->]%sample_tags_keys.
  - split; [by apply (Hm "kt_aws_src_acc_id" "source_account" "12")|].
    rewrite (Ho "x"); [reflexivity|reflexivity|]. intros k' Hk'.
    destruct (sample_tags !! k') as [v|] eqn:Hv; [|done].
    destruct (sample_tags_keys k') as [-> | ->]; [by eexists|done|done].
Defined.
