(* ===== verification/Alpha.v ===== *)
(** * Flows from Kentik (src/pkg/cat/kentik.go)

    The records of a thread live in a store and are passed around by their place in it: a
    flow takes a record from the pool, the record waits in the batch, is enriched, counted,
    sampled and serialised, and goes back to the pool.  Serializers change the records they are
    given.  A JSON request takes a record of the first thread.  The conversion of a flow is
    [flowToJCHF] of ToJCHF.v at the API and tables of the agent; it, the decoding of JSON, the shuffle and the order of the companies are arguments; the outside
    enricher, which may answer with other records, is not configured here. *)
From S2P Require Import Prelude GoIO GoStrings GoFloat GoNet KT Filter Rollup Stitch Customs KM Rule.
From S2P Require Import Enrich Agent ToJCHF.

Local Open Scope go_scope.

(** [CHAN_SLACK] of package [cat]. *)
Definition ALPHA_SLACK : nat := Z.to_nat 8000.

Definition ProviderAlert : string := "kentik-alert".
Definition KENTIK_EVENT_JSON : string := "KJson".

(** ** JSON requests *)

(** A string or a number under a key; anything else is logged. *)
Definition json_leaf (key : string) (v : Json) (jflow : JCHF) : outcome JCHF :=
  match v with
  | JString s => put_CustomStr key s jflow
  | JNumber f => put_CustomBigInt key (int64_of_float f) jflow
  | _ => Ok jflow
  end.

Definition json_inner (k : string) (jflow : JCHF) (kv : string * Json) : outcome JCHF :=
  match kv.2 with
  | JObject it => fold_out (fun j iv => json_leaf (k +:+ "_" +:+ kv.1 +:+ "_" +:+ iv.1) iv.2 j) jflow it
  | v => json_leaf (k +:+ "_" +:+ kv.1) v jflow
  end.

(** The objects of an array; the other elements are passed over. *)
Fixpoint json_items (k : string) (i : Z) (jflow : JCHF) (items : list Json) : outcome JCHF :=
  match items with
  | [] => Ok jflow
  | JObject it :: items =>
      jflow ← fold_out (fun j iv => json_leaf (k +:+ "_" +:+ Itoa i +:+ "_" +:+ iv.1) iv.2 j) jflow it;
      json_items k (i + 1) jflow items
  | _ :: items => json_items k (i + 1) jflow items
  end.

Definition json_field (jflow : JCHF) (kv : string * Json) : outcome JCHF :=
  match kv.2 with
  | JObject tv => fold_out (json_inner kv.1) jflow tv
  | JArray tv => json_items kv.1 0 jflow tv
  | v => json_leaf kv.1 v jflow
  end.

Definition json_start (jflow : JCHF) : JCHF :=
  set_EventType KENTIK_EVENT_JSON (set_Provider ProviderAlert
    (set_CustomFloat (Some ∅) (set_CustomBigInt (Some ∅) (set_CustomInt (Some ∅)
      (set_CustomStr (Some ∅) jflow))))).

(** ** The state of a thread *)

Record Alpha (Flow R F CB : Type) := mkAlpha {
  a_store : list JCHF;
  a_pool : list nat; (* jchfChans[i] *)
  a_msgs : list nat; (* the batch *)
  a_chan : list Flow; (* alphaChans[i] *)
  a_kc : NetworkAgent R F CB;
  a_time : Z;
  a_dropped : Z;
  a_flowsOut : Z
}.
Arguments mkAlpha {Flow R F CB}.
Arguments a_store {Flow R F CB} a.
Arguments a_pool {Flow R F CB} a.
Arguments a_msgs {Flow R F CB} a.
Arguments a_chan {Flow R F CB} a.
Arguments a_kc {Flow R F CB} a.
Arguments a_time {Flow R F CB} a.
Arguments a_dropped {Flow R F CB} a.
Arguments a_flowsOut {Flow R F CB} a.

(** The records at some places, and new contents for them. *)
Definition at_place (store : list JCHF) (i : nat) : JCHF := default NewJCHF (store !! i).
Definition reads (store : list JCHF) (ids : list nat) : list JCHF := at_place store <$> ids.
Definition writes (store : list JCHF) (ids : list nat) (recs : list JCHF) : list JCHF :=
  foldl (fun store ir => <[ir.1 := ir.2]> store) store (zip ids recs).
Definition updates (f : JCHF -> JCHF) (store : list JCHF) (ids : list nat) : list JCHF :=
  foldl (fun store i => <[i := f (at_place store i)]> store) store ids.

Section Alpha.
  Context {T : Type} `{PrefixTree T} (rule : RuleSet (T := T)) (Services : gmap (Z * Z) string).
  Context (geo : option (IP -> option string)) (asn : option (IP -> option (Z * string))).
  Context (resolver : option (string -> string)) (Unmarshal : string -> option (list Json)).
  Context (km : option KMMapper) (range_dims : gmap string KMDimension -> list KMDimension)
    (range_mets : gmap string KMMetric -> list KMMetric) (PROTO_NUMS : gmap string Z).
  Context {Flow R F CB : Type} `{Roller R}.
  Context (seri : F -> list JCHF -> outcome (option Output) * list JCHF * F).
  Context (flowToJCHF : JCHF -> Flow -> Z -> outcome JCHF).
  Context (Unmarshal_object : string -> option (list (string * Json))).
  Context (shuffle : list nat -> list nat) (range_cids : list Z -> list Z).

Abbreviation Thread := (Alpha Flow R F CB).

(** The flows of each company are serialised together. *)
Definition splits (store : list JCHF) (kept : list nat) : list (list nat) :=
  (fun cid => filter (fun i => CompanyId (at_place store i) = cid) kept) <$>
    range_cids (remove_dups ((fun i => CompanyId (at_place store i)) <$> kept)).

(** The output may be nil; an error is logged. *)
Fixpoint export_splits (store : list JCHF) (f : F) (groups : list (list nat)) :
    outcome (list JCHF * list (Queued CB) * F) :=
  match groups with
  | [] => Ok (store, [], f)
  | ids :: groups =>
      let '(o, recs, f) := seri f (reads store ids) in
      let store := writes store ids recs in
      q ← match o with
          | Ok ser => Ok [mkQueued ser None]
          | Err _ => Ok []
          | Panic why => Panic why
          | OutOfFuel => OutOfFuel
          end;
      '(store, qs, f) ← export_splits store f groups;
      Ok (store, q ++ qs, f)
  end.

(** Sampling, whatever [ApplySample] says: the places in their new order and how many to keep. *)
Definition sample_ids (cfg : Config) (store : list JCHF) (ids : list nat) :
    list JCHF * list nat * Z :=
  let keep := Z.of_nat (length ids) in
  if (1 <? cfg_SampleRate cfg) && (SampleMin cfg <? keep) then
    let ids := shuffle ids in
    (updates (fun msg => set_SampleRate (uint32 (SampleRate msg * uint32 (cfg_SampleRate cfg))) msg)
       store ids, ids,
     int64_of_float (math_Max
       (float64_div (float64_of (Z.of_nat (length ids))) (float64_of (cfg_SampleRate cfg)))
       (float64_of 1)))
  else (store, ids, keep).

Definition sendBytesOn (a : Thread) : outcome Thread :=
  if is_empty (a_msgs a) then Ok a
  else
    let kc := a_kc a in
    '(recs, stitcher) ← enrich rule Services geo asn resolver Unmarshal km range_dims range_mets
                          PROTO_NUMS None (kc_stitcher kc) (reads (a_store a) (a_msgs a));
    '(recs, rolls) ← add_to_rollups (kc_rollups kc) recs;
    let store := writes (a_store a) (a_msgs a) recs in
    '(store, ids, qs, f) ←
      (if is_empty (kc_rollups kc) || RollupAndAlpha (kc_config kc) then
         let '(store, ids, keep) := sample_ids (kc_config kc) store (a_msgs a) in
         kept ← go_slice ids 0 keep;
         '(store, qs, f) ← export_splits store (kc_format kc) (splits store kept);
         Ok (store, ids, qs, f)
       else Ok (store, a_msgs a, [], kc_format kc));
    Ok (mkAlpha (updates Reset store ids) (a_pool a ++ ids) [] (a_chan a)
          (mkNetworkAgent (kc_config kc) (kc_filters kc) rolls f stitcher (kc_msgsc kc ++ qs)
             (kc_InputQ kc))
          (a_time a) (a_dropped a) (a_flowsOut a + Z.of_nat (length ids))).

(** A record goes back to the pool. *)
Definition give_back (a : Thread) (j : nat) (jflow : JCHF) : Thread :=
  mkAlpha (<[j := Reset jflow]> (a_store a)) (a_pool a ++ [j]) (a_msgs a) (a_chan a) (a_kc a)
    (a_time a) (a_dropped a) (a_flowsOut a).

Definition set_queues (pool : list nat) (chan : list Flow) (dropped : Z) (a : Thread) : Thread :=
  mkAlpha (a_store a) pool (a_msgs a) chan (a_kc a) (a_time a) dropped (a_flowsOut a).

(** [case f := <-kc.alphaChans[i]]. *)
Definition receive (a : Thread) (f : Flow) (chan : list Flow) : outcome Thread :=
  match a_pool a with
  | j :: pool =>
      let a := set_queues pool chan (a_dropped a) a in
      match flowToJCHF (at_place (a_store a) j) f (a_time a) with
      | Err _ => Ok (give_back a j (at_place (a_store a) j))
      | Panic why => Panic why
      | OutOfFuel => OutOfFuel
      | Ok jflow =>
          '(keep, jflow) ← keep_msg (kc_filters (a_kc a)) jflow;
          if (keep : bool) then
            let a := mkAlpha (<[j := jflow]> (a_store a)) (a_pool a) (a_msgs a ++ [j]) (a_chan a)
                       (a_kc a) (a_time a) (a_dropped a) (a_flowsOut a) in
            if MaxFlowsPerMessage (kc_config (a_kc a)) <=? Z.of_nat (length (a_msgs a))
            then sendBytesOn a else Ok a
          else Ok (give_back a j jflow)
      end
  | [] =>
      a ← sendBytesOn (set_queues [] chan (a_dropped a) a);
      Ok (if (length (a_chan a) <? ALPHA_SLACK)%nat
          then set_queues (a_pool a) (a_chan a ++ [f]) (a_dropped a) a
          else set_queues (a_pool a) (a_chan a) (a_dropped a + 1) a)
  end.

(** The send of [handleFlow], which does not block. *)
Definition offer (a : Thread) (f : Flow) : Thread :=
  if (length (a_chan a) <? ALPHA_SLACK)%nat
  then set_queues (a_pool a) (a_chan a ++ [f]) (a_dropped a) a
  else set_queues (a_pool a) (a_chan a) (a_dropped a + 1) a.

(** [case _ = <-sendTicker.C]. *)
Definition sendTick (a : Thread) (now : Z) : outcome Thread :=
  a ← sendBytesOn a;
  Ok (mkAlpha (a_store a) (a_pool a) (a_msgs a) (a_chan a) (a_kc a) now (a_dropped a) (a_flowsOut a)).

(** [handleJson], with the error it returns. *)
Definition handleJson (a : Thread) (raw : string) : outcome (Thread * option error) :=
  match a_pool a with
  | [] => Ok (set_queues [] (a_chan a) (a_dropped a + 1) a, None)
  | j :: pool =>
      let a := set_queues pool (a_chan a) (a_dropped a) a in
      match Unmarshal_object raw with
      | None => Ok (a, Some (Errorf "json" []))
      | Some base =>
          jflow ← fold_out json_field (json_start (at_place (a_store a) j)) base;
          let '(o, recs, f) := seri (kc_format (a_kc a)) [jflow] in
          let kc := a_kc a in
          let put qs := mkNetworkAgent (kc_config kc) (kc_filters kc) (kc_rollups kc) f
                          (kc_stitcher kc) (kc_msgsc kc ++ qs) (kc_InputQ kc) in
          let back qs := give_back (mkAlpha (a_store a) (a_pool a) (a_msgs a) (a_chan a) (put qs)
                           (a_time a) (a_dropped a) (a_flowsOut a)) j (default jflow (head recs)) in
          match o with
          | Ok res => Ok (back [mkQueued res None], None)
          | Err e => Ok (back [], Some e)
          | Panic why => Panic why
          | OutOfFuel => OutOfFuel
          end
      end
  end.

(** ** Runs *)

Inductive event :=
| EOffer (f : Flow)
| EReceive
| ETick (now : Z)
| EJson (raw : string).

Inductive alpha_step : Thread -> event -> Thread -> Prop :=
| step_offer a f : alpha_step a (EOffer f) (offer a f)
| step_receive a f chan a' :
    a_chan a = f :: chan -> receive a f chan = Ok a' -> alpha_step a EReceive a'
| step_tick a now a' : sendTick a now = Ok a' -> alpha_step a (ETick now) a'
| step_json a raw a' e : handleJson a raw = Ok (a', e) -> alpha_step a (EJson raw) a'.

Inductive alpha_steps : Thread -> list event -> Thread -> Prop :=
| steps_nil a : alpha_steps a [] a
| steps_snoc a es a' e a'' : alpha_steps a es a' -> alpha_step a' e a'' -> alpha_steps a (es ++ [e]) a''.

(** The steps as a function; a receive waits for a flow. *)
Definition next (a : Thread) (e : event) : option (outcome Thread) :=
  match e with
  | EOffer f => Some (Ok (offer a f))
  | EReceive => match a_chan a with f :: chan => Some (receive a f chan) | [] => None end
  | ETick now => Some (sendTick a now)
  | EJson raw => Some (ae ← handleJson a raw; Ok ae.1)
  end.

Lemma next_step a e a' : next a e = Some (Ok a') <-> alpha_step a e a'.
Proof using Type.
  split.
  - destruct e as [f| |now|raw]; cbn [next].
    + intros [= <-]. constructor.
    + destruct (a_chan a) as [|f chan] eqn:Hc; [done|]. intros [= Hr]. by eapply step_receive.
    + intros [= Ht]. by constructor.
    + intros [= Hj]. destruct (handleJson a raw) as [[a1 e]| | |] eqn:He; [|done..].
      injection Hj as <-. by eapply step_json.
  - destruct 1 as [a f|a f chan a' Hc Hr|a now a' Ht|a raw a' e Hj]; cbn [next].
    + done.
    + by rewrite Hc, Hr.
    + by rewrite Ht.
    + by rewrite Hj.
Qed.

Fixpoint run (a : Thread) (es : list event) : option Thread :=
  match es with
  | [] => Some a
  | e :: es => match next a e with Some (Ok a) => run a es | _ => None end
  end.

Lemma run_after a0 pre a es a' :
  alpha_steps a0 pre a -> run a es = Some a' -> alpha_steps a0 (pre ++ es) a'.
Proof using Type.
  revert pre a. induction es as [|e es IH]; intros pre a Hp; cbn.
  { intros [= <-]. by rewrite app_nil_r. }
  destruct (next a e) as [[a1| | |]|] eqn:Hn; [|done..]. apply next_step in Hn.
  rewrite cons_middle, app_assoc. apply IH. by eapply steps_snoc.
Qed.

Lemma run_steps a es a' : run a es = Some a' -> alpha_steps a es a'.
Proof using Type. apply (run_after a []). constructor. Qed.

(** ** Where the records are *)

(** A step that moves the batch to the pool, in some order, and touches no queue of flows. *)
Definition gives_back (a a' : Thread) : Prop :=
  a_pool a' ≡ₚ a_pool a ++ a_msgs a /\ a_msgs a' = [] /\ a_chan a' = a_chan a /\
  a_dropped a' = a_dropped a /\ a_time a' = a_time a.

Section Places.
  Context (Hshuffle : forall l, shuffle l ≡ₚ l).

Lemma sample_ids_perm cfg store ids store' ids' keep :
  sample_ids cfg store ids = (store', ids', keep) -> ids' ≡ₚ ids.
Proof using Hshuffle.
  unfold sample_ids. destruct (_ && _); intros [= <- <- <-]; [apply Hshuffle|done].
Qed.

Lemma sendBytesOn_gives_back a a' : sendBytesOn a = Ok a' -> gives_back a a'.
Proof using Hshuffle.
  unfold sendBytesOn, gives_back. destruct (a_msgs a) as [|i ids] eqn:Hm; cbn [is_empty].
  { intros [= <-]. by rewrite Hm, app_nil_r. }
  destruct (enrich _ _ _ _ _ _ _ _ _ _ _ _ _) as [[recs st]| | |]; [|done..]. cbn [mbind outcome_bind].
  destruct (add_to_rollups _ recs) as [[recs' rolls]| | |]; [|done..]. cbn [mbind outcome_bind].
  destruct (is_empty (kc_rollups (a_kc a)) || RollupAndAlpha (kc_config (a_kc a))).
  - destruct (sample_ids _ _ _) as [[store' ids'] keep] eqn:Hs. apply sample_ids_perm in Hs.
    destruct (go_slice ids' 0 keep) as [kept| | |]; [|done..]. cbn [mbind outcome_bind].
    destruct (export_splits _ _ _) as [[[store'' qs] f]| | |]; [|done..]. cbn [mbind outcome_bind].
    intros [= <-]. cbn [a_pool a_msgs a_chan a_dropped a_time]. by rewrite Hs.
  - cbn [mbind outcome_bind]. by intros [= <-].
Qed.

(** The requests that are no JSON. *)
Definition is_bad (e : event) : bool :=
  match e with EJson raw => negb (is_set (Unmarshal_object raw)) | _ => false end.

Definition places (a : Thread) : list nat := a_pool a ++ a_msgs a.

Lemma round_trip (j : nat) (pool msgs : list nat) : (j :: pool) ++ msgs ≡ₚ (pool ++ [j]) ++ msgs.
Proof using Type. by rewrite <- Permutation_cons_append. Qed.

Lemma step_places a e a' : alpha_step a e a' ->
  exists lost, places a ≡ₚ lost ++ places a' /\ (length lost <= if is_bad e then 1 else 0)%nat.
Proof using Hshuffle.
  unfold places. intros Hs. destruct Hs as [a f|a f chan a' Hc Hr|a now a' Ht|a raw a' e Hj].
  - exists []. unfold offer. by destruct (length (a_chan a) <? ALPHA_SLACK)%nat.
  - exists []. split; [|done]. cbn [app]. unfold receive in Hr. destruct (a_pool a) as [|j pool] eqn:Hp.
    + destruct (sendBytesOn _) as [a1| | |] eqn:Hsend; [|done..]. cbn [mbind outcome_bind] in Hr.
      apply sendBytesOn_gives_back in Hsend as (Hp1 & Hm1 & _). cbn in Hp1.
      destruct (length (a_chan a1) <? ALPHA_SLACK)%nat; injection Hr as <-; cbn; by rewrite Hm1, app_nil_r, Hp1.
    + destruct (flowToJCHF _ _ _) as [jflow|e| |]; [| |done..].
      * destruct (keep_msg _ jflow) as [[[] jflow']| | |]; [| |done..]; cbn [mbind outcome_bind] in Hr.
        -- cbn [set_queues a_msgs a_pool a_kc a_chan] in Hr.
           destruct (MaxFlowsPerMessage _ <=? _).
           ++ apply sendBytesOn_gives_back in Hr as (Hp1 & Hm1 & _). cbn in Hp1.
              rewrite Hm1, app_nil_r, Hp1. by rewrite app_assoc, <- Permutation_cons_append.
           ++ injection Hr as <-. cbn. by rewrite app_assoc, <- Permutation_cons_append.
        -- injection Hr as <-. apply round_trip.
      * injection Hr as <-. apply round_trip.
  - exists []. split; [|done]. unfold sendTick in Ht. destruct (sendBytesOn a) as [a1| | |] eqn:Hsend; [|done..].
    cbn [mbind outcome_bind] in Ht. injection Ht as <-. cbn.
    apply sendBytesOn_gives_back in Hsend as (Hp1 & Hm1 & _). by rewrite Hm1, app_nil_r, Hp1.
  - unfold handleJson in Hj. destruct (a_pool a) as [|j pool] eqn:Hp.
    { exists []. injection Hj as <- <-. cbn. split; [done|]. lia. }
    cbn [is_bad]. destruct (Unmarshal_object raw) as [base|]; cbn [is_set negb].
    + exists []. split; [|done]. destruct (fold_out _ _ base) as [jflow| | |]; [|done..].
      cbn [mbind outcome_bind] in Hj. destruct (seri _ [jflow]) as [[o recs] f].
      destruct o; try done; injection Hj as <- _; apply round_trip.
    + exists [j]. injection Hj as <- _. by cbn.
Qed.

(** C24: records are neither lost nor shared.  Whatever flows, ticks and requests come, in any
    order, the places in the pool and in the batch are those of the start, each once, except
    that a request that is not JSON takes one away for good. *)
Theorem alpha_places a es a' : alpha_steps a es a' ->
  exists lost, a_pool a ++ a_msgs a ≡ₚ lost ++ a_pool a' ++ a_msgs a' /\
    (length lost <= length (filter is_bad es))%nat.
Proof using Hshuffle.
  induction 1 as [a|a es a' e a'' _ (lost & Hp & Hl) Hs]; [by exists []|].
  destruct (step_places _ _ _ Hs) as (lost' & Hp' & Hl'). exists (lost ++ lost').
  unfold places in *. rewrite Hp, Hp', app_assoc. split; [done|].
  rewrite length_app, filter_app, length_app, filter_cons.
  apply Nat.add_le_mono; [exact Hl|]. by destruct (is_bad e).
Qed.
End Places.

(** ** A thread without records *)

Definition stalled (kc : NetworkAgent R F CB) (out : Z) (a : Thread) : Prop :=
  a_pool a = [] /\ a_msgs a = [] /\ a_kc a = kc /\ a_flowsOut a = out.

Lemma stalled_step kc out a e a' : stalled kc out a -> alpha_step a e a' -> stalled kc out a'.
Proof using Type.
  intros (Hp & Hm & Hk & Ho) Hs. destruct Hs as [a f|a f chan a' Hc Hr|a now a' Ht|a raw a' e Hj].
  - unfold offer. by destruct (_ <? ALPHA_SLACK)%nat.
  - unfold receive in Hr. rewrite Hp in Hr. unfold sendBytesOn in Hr.
    cbn [set_queues a_msgs] in Hr. rewrite Hm in Hr. cbn [is_empty mbind outcome_bind a_chan set_queues] in Hr.
    injection Hr as <-. by destruct (_ <? ALPHA_SLACK)%nat.
  - unfold sendTick, sendBytesOn in Ht. rewrite Hm in Ht. cbn in Ht. by injection Ht as <-.
  - unfold handleJson in Hj. rewrite Hp in Hj. by injection Hj as <- _.
Qed.

Lemma bad_request a raw j pool : a_pool a = j :: pool -> Unmarshal_object raw = None ->
  alpha_step a (EJson raw) (set_queues pool (a_chan a) (a_dropped a) a).
Proof using Type. intros Hp Hb. eapply step_json. unfold handleJson. by rewrite Hp, Hb. Qed.

Lemma bad_requests raws a :
  Forall (fun raw => Unmarshal_object raw = None) raws -> (length raws <= length (a_pool a))%nat ->
  exists a', alpha_steps a (EJson <$> raws) a' /\ a_pool a' = drop (length raws) (a_pool a) /\
    a_msgs a' = a_msgs a /\ a_kc a' = a_kc a /\ a_flowsOut a' = a_flowsOut a.
Proof using Type.
  induction raws as [|raw raws IH] using rev_ind; intros Hb Hl.
  { exists a. split; [constructor|]. by rewrite drop_0. }
  apply Forall_app in Hb as [Hb Hraw]. apply Forall_cons in Hraw as [Hraw _].
  rewrite length_app in Hl. cbn in Hl.
  destruct IH as (a1 & Hs & Hp & Hm & Hk & Ho); [done|lia|].
  destruct (a_pool a1) as [|j pool] eqn:Hpool.
  { symmetry in Hp. apply (f_equal length) in Hp. rewrite length_drop in Hp. cbn in Hp. lia. }
  exists (set_queues pool (a_chan a1) (a_dropped a1) a1). split.
  - rewrite fmap_app. eapply steps_snoc; [exact Hs|]. apply (bad_request _ _ j); [exact Hpool|exact Hraw].
  - cbn. rewrite length_app, <- drop_drop, <- Hp. by rewrite Hm, Hk, Ho.
Qed.

(** Requests that are not JSON use up the records.  As many of them as the pool holds leave
    a thread with an empty batch that never sends anything again: whatever comes after, no flow
    and no later request reaches the output, and the queue of the agent stays as it is. *)
Lemma bad_json_stalls raws a :
  Forall (fun raw => Unmarshal_object raw = None) raws -> length raws = length (a_pool a) ->
  a_msgs a = [] ->
  exists a1, alpha_steps a (EJson <$> raws) a1 /\ a_pool a1 = [] /\
    forall es a2, alpha_steps a1 es a2 ->
      kc_msgsc (a_kc a2) = kc_msgsc (a_kc a) /\ a_flowsOut a2 = a_flowsOut a.
Proof using Type.
  intros Hb Hl Hm. destruct (bad_requests raws a Hb) as (a1 & Hs & Hp & Hm1 & Hk & Ho); [lia|].
  rewrite Hl, drop_all in Hp.
  assert (stalled (a_kc a) (a_flowsOut a) a1) as Hst by (unfold stalled; by rewrite Hm1).
  exists a1. split; [done|]. split; [done|]. intros es a2 Hes.
  assert (stalled (a_kc a) (a_flowsOut a) a2) as (_ & _ & -> & ->); [|done].
  clear -Hst Hes. induction Hes as [|a1 es a2 e a3 _ IH He]; [done|]. eauto using stalled_step.
Qed.
End Alpha.

(** ** Witnesses *)

(** Two records, batches of two; a request is JSON when it is the empty object. *)
Definition sample_thread : Alpha Flow unit nat unit :=
  mkAlpha [NewJCHF; NewJCHF] [0; 1]%nat [] [] (sample_agent 2) 0 0 0.

Definition sample_object (raw : string) : option (list (string * Json)) :=
  if String.eqb raw "{}" then Some [] else None.

Definition sample_events : list event :=
  [EOffer (mkFlow 1 sample_chf "dev"); EJson "{"; EReceive; ETick 5; EJson "{}"].

Definition sample_run (a : Alpha Flow unit nat unit) (es : list event) : option (Alpha Flow unit nat unit) :=
  run (NewRuleSet (T := list (network * Z)) cidr []) ∅ None None
    None (fun _ => None) None (fun m => map snd (map_to_list m)) (fun m => map snd (map_to_list m)) ∅
    (fun f recs => (Ok None, Reset <$> recs, S f)) sample_convert sample_object (fun l => l) (fun l => l)
    a es.

Lemma sample_run_ends : (fun a => (a_pool a, a_msgs a, a_time a, a_flowsOut a)) <$>
  sample_run sample_thread sample_events = Some ([1]%nat, [], 5, 1).
Proof. vm_compute. reflexivity. Qed.

Lemma alpha_places_witness :
  exists a' lost, sample_run sample_thread sample_events = Some a' /\ a_pool a' = [1]%nat /\
    [0; 1]%nat ≡ₚ lost ++ [1]%nat /\ (length lost <= 1)%nat.
Proof.
  destruct (sample_run sample_thread sample_events) as [a'|] eqn:Hr; pose proof sample_run_ends as He;
    rewrite Hr in He; [|done]. injection He as Hp Hm _ _.
  apply run_steps, alpha_places in Hr as (lost & Hl & Hn); [|done].
  rewrite Hp, Hm in Hl. exists a', lost. by split_and!.
Defined.

Lemma bad_json_stalls_witness :
  exists a1, a_pool a1 = [] /\
    forall es a2, sample_run a1 es = Some a2 -> kc_msgsc (a_kc a2) = [] /\ a_flowsOut a2 = 0.
Proof.
  destruct (bad_json_stalls (NewRuleSet (T := list (network * Z)) cidr []) ∅ None None
    None (fun _ => None) None (fun m => map snd (map_to_list m)) (fun m => map snd (map_to_list m)) ∅
    (fun f recs => (Ok None, Reset <$> recs, S f)) sample_convert sample_object
    (fun l => l) (fun l => l) ["{"; "<"] sample_thread) as (a1 & _ & Hp & Hd);
    [by repeat constructor|done|done|].
  exists a1. split; [exact Hp|]. intros es a2 Hr. eapply Hd, run_steps, Hr.
Defined.
