(* ===== verification/FlowInput.v ===== *)
(** * Flows from the network (src/pkg/inputs/flow/format.go and src/pkg/inputs/flow/specials.go)

    The goflow2 library decodes datagrams and calls the driver with one message per flow.  The
    driver turns the message into a record: it looks up the device that sent it, reads the
    fields that were mapped from the datagram's own elements, and copies the fields the
    configuration names.  Its goroutine batches the records.  Devices, the resolver and the
    message are arguments; the unknown fields of the message, which the protowire library
    splits, are a list.  Locks are left out. *)
From S2P Require Import Prelude GoIO GoStrings GoNet GoAddr IC KT Stitch Customs ToJCHF.

Local Open Scope go_scope.

Definition ProviderFlowDevice : string := "kentik-flow-device".
Definition MissingDeviceIP : string := "1.1.1.255".

(** ** Configurations of the producer *)

Record ProtobufField := mkPB { pb_Name : string; pb_Index : Z; pb_Type : string }.
(** [mf_Pen] is the enterprise, when one is provided. *)
Record MapField := mkMF { mf_Type : Z; mf_Destination : string; mf_Pen : option Z }.
Record ProducerConfig := mkProducerConfig {
  Protobuf : list ProtobufField;
  IPFIX_Mapping : list MapField;
  NetFlowV9_Mapping : list MapField
}.

Definition mapped (typ : Z) (dest : string) : MapField := mkMF typ dest None.

Definition loadDefault : ProducerConfig := {|
  Protobuf := [mkPB "flow_direction" 99 "varint"; mkPB "ingressVRFID" 100 "varint";
               mkPB "egressVRFID" 101 "varint"];
  IPFIX_Mapping := [mapped 61 "flow_direction"; mapped 234 "ingressVRFID"; mapped 235 "egressVRFID"];
  NetFlowV9_Mapping := [mapped 61 "flow_direction"]
|}.

Definition asa_mapping : list MapField :=
  [mapped 61 "flow_direction"; mapped 231 "in_bytes"; mapped 232 "out_bytes"; mapped 298 "in_pkts";
   mapped 299 "out_pkts"; mapped 233 "firewall_event"].
Definition loadASA : ProducerConfig := {|
  Protobuf := [mkPB "flow_direction" 99 "varint"; mkPB "in_bytes" 100 "varint";
               mkPB "out_bytes" 101 "varint"; mkPB "in_pkts" 102 "varint";
               mkPB "put_pkts" 103 "varint"; mkPB "firewall_event" 104 "bytes"];
  IPFIX_Mapping := asa_mapping;
  NetFlowV9_Mapping := asa_mapping
|}.

Definition loadNBar : ProducerConfig := {|
  Protobuf := [mkPB "flow_direction" 99 "varint"; mkPB "application" 100 "bytes";
               mkPB "application_category" 101 "bytes"; mkPB "application_subcategory" 102 "bytes";
               mkPB "application_group" 103 "bytes"; mkPB "application_traffic_class" 104 "bytes"];
  IPFIX_Mapping := [mapped 61 "flow_direction"; mapped 96 "application";
                    mkMF 12232 "application_category" (Some 9); mkMF 12233 "application_subcategory" (Some 9);
                    mkMF 12234 "application_group" (Some 9); mkMF 12243 "application_traffic_class" (Some 9)];
  NetFlowV9_Mapping := [mapped 61 "flow_direction"; mapped 96 "application"]
|}.

Definition loadPAN : ProducerConfig := {|
  Protobuf := [mkPB "flow_direction" 99 "varint"; mkPB "icmp_type" 100 "varint";
               mkPB "flow_id" 101 "varint"; mkPB "firewall_event" 102 "varint";
               mkPB "direction" 103 "varint"; mkPB "application_id" 104 "bytes";
               mkPB "user_id" 105 "bytes"];
  IPFIX_Mapping := [mapped 61 "flow_direction"; mapped 32 "icmp_type"; mapped 148 "flow_id";
                    mapped 233 "firewall_event"; mapped 61 "direction"; mapped 56701 "application_id";
                    mapped 56702 "user_id"];
  NetFlowV9_Mapping := []
|}.

(** The destinations that no field of the message is declared for. *)
Definition undeclared (c : ProducerConfig) : list string :=
  filter (fun d => d ∉ pb_Name <$> Protobuf c) (mf_Destination <$> IPFIX_Mapping c ++ NetFlowV9_Mapping c).

(** [SetConfig]: a later field takes the place of an earlier one of the same index. *)
Definition SetConfig (c : ProducerConfig) : gmap Z (string * string) :=
  foldl (fun m pf => <[pb_Index pf := (pb_Name pf, pb_Type pf)]> m) ∅ (Protobuf c).

(** ** Messages *)

Inductive WireField :=
| WVarint (num v : Z)
| WBytes (num : Z) (b : bytes)
| WOther (num : Z).

(** The fields of the message that the driver reads; [fm_Type] is the text of its type. *)
Record FlowMessage := mkFlowMessage {
  fm_Type : string; fm_TimeReceivedNs : Z; fm_SequenceNum : Z; fm_SamplingRate : Z;
  fm_SamplerAddress : bytes; fm_TimeFlowStartNs : Z; fm_TimeFlowEndNs : Z; fm_Bytes : Z;
  fm_Packets : Z; fm_SrcAddr : bytes; fm_DstAddr : bytes; fm_Etype : Z; fm_Proto : Z;
  fm_SrcPort : Z; fm_DstPort : Z; fm_InIf : Z; fm_OutIf : Z; fm_SrcMac : Z; fm_DstMac : Z;
  fm_SrcVlan : Z; fm_DstVlan : Z; fm_VlanId : Z; fm_IpTos : Z; fm_ForwardingStatus : Z;
  fm_IpTtl : Z; fm_TcpFlags : Z; fm_IcmpType : Z; fm_IcmpCode : Z; fm_Ipv6FlowLabel : Z;
  fm_FragmentId : Z; fm_FragmentOffset : Z; fm_SrcAs : Z; fm_DstAs : Z; fm_NextHop : bytes;
  fm_NextHopAs : Z; fm_SrcNet : Z; fm_DstNet : Z; fm_MplsTtl : list Z;
  fm_unknown : list WireField
}.

(** ** Devices *)

Record FlowDevice := mkFlowDevice {
  fd_Name : string; fd_ID : Z; fd_CompanyID : Z; fd_SampleRate : Z;
  allUserTags : gmap string string
}.

(** [SetUserTags] on the map of the record. *)
Definition SetUserTags (d : FlowDevice) (j : JCHF) : outcome JCHF :=
  match CustomStr j with
  | Some m => Ok (set_CustomStr (Some (allUserTags d ∪ m)) j)
  | None => if decide (allUserTags d = ∅) then Ok j else Panic "assignment to entry in nil map"
  end.

Section Driver.
  Context (devices : gmap string FlowDevice) (resolv : option (string -> string)).
  Context (fields : list string) (pb2ixd : option (gmap Z (string * string))).

(** ** Elements of the datagram: [mapCustoms] *)

Definition map_custom (j : JCHF) (w : WireField) : outcome JCHF :=
  match w with
  | WVarint num v =>
      match default ∅ pb2ixd !! num with
      | Some (name, _) =>
          if HasPrefix name "ip_" then put_CustomStr name (IP_String (Int2ip (uint32 v))) j
          else put_CustomBigInt name (int64 v) j
      | None => Ok j
      end
  | WBytes num b =>
      match default ∅ pb2ixd !! num with
      | Some (name, _) =>
          if HasPrefix name "ip_" then
            put_CustomStr name (IP_String (match b with [a; b; c; d] => [d; c; b; a] | _ => b end)) j
          else put_CustomStr name (str_of b) j
      | None => Ok j
      end
  | WOther _ => Ok j
  end.

Definition mapCustoms (m : FlowMessage) (j : JCHF) : outcome JCHF :=
  match pb2ixd with
  | Some _ => fold_out map_custom j (fm_unknown m)
  | None => Ok j
  end.

(** ** Fields of the message *)

Definition direction_field (j : JCHF) : outcome JCHF :=
  match gomap_find (CustomBigInt j) "flow_direction" with
  | Some v => put_CustomStr "FlowDirection" (if v =? 1 then "egress" else "ingress")
                (del_CustomBigInt "flow_direction" j)
  | None => Ok j
  end.

Definition mac6 (mac : Z) : string := HardwareAddr_String (drop 2 (be_split 8 mac)).

(** The cases of the switch. *)
Definition cases (m : FlowMessage) (ocflowDir : Z) : list (string * (JCHF -> outcome JCHF)) :=
  let big field v : string * (JCHF -> outcome JCHF) := (field, put_CustomBigInt field v) in
  let set field f : string * (JCHF -> outcome JCHF) := (field, fun j => Ok (f j)) in
  [ ("Type", put_CustomStr "Type" (fm_Type m));
    set "TimeReceived" (set_Timestamp (int64 (fm_TimeReceivedNs m)));
    big "SequenceNum" (fm_SequenceNum m);
    set "SamplingRate" (fun j => if 0 <? fm_SamplingRate m then set_SampleRate (uint32 (fm_SamplingRate m)) j else j);
    ("FlowDirection", direction_field);
    ("SamplerAddress", put_CustomStr "SamplerAddress" (IP_String (fm_SamplerAddress m)));
    big "TimeFlowStart" (int64 (fm_TimeFlowStartNs m));
    big "TimeFlowEnd" (int64 (fm_TimeFlowEndNs m));
    set "Bytes" (if ocflowDir =? 1 then set_OutBytes (fm_Bytes m) else set_InBytes (fm_Bytes m));
    set "Packets" (if ocflowDir =? 1 then set_OutPkts (fm_Packets m) else set_InPkts (fm_Packets m));
    set "SrcAddr" (set_SrcAddr (IP_String (fm_SrcAddr m)));
    set "DstAddr" (set_DstAddr (IP_String (fm_DstAddr m)));
    big "Etype" (fm_Etype m);
    set "Proto" (set_Protocol (default "" (PROTO_NAMES !! (uint16 (fm_Proto m)))));
    set "SrcPort" (set_L4SrcPort (fm_SrcPort m));
    set "DstPort" (set_L4DstPort (fm_DstPort m));
    set "InIf" (set_InputPort (fm_InIf m));
    set "OutIf" (set_OutputPort (fm_OutIf m));
    set "SrcMac" (fun j => if 0 <? fm_SrcMac m then set_SrcEthMac (mac6 (fm_SrcMac m)) j else j);
    set "DstMac" (fun j => if 0 <? fm_DstMac m then set_DstEthMac (mac6 (fm_DstMac m)) j else j);
    set "SrcVlan" (set_VlanIn (fm_SrcVlan m));
    set "DstVlan" (set_VlanOut (fm_DstVlan m));
    big "VlanId" (fm_VlanId m);
    set "IPTos" (set_Tos (fm_IpTos m));
    big "ForwardingStatus" (fm_ForwardingStatus m);
    big "IPTTL" (fm_IpTtl m);
    set "TCPFlags" (set_TcpFlags (fm_TcpFlags m));
    big "IcmpType" (fm_IcmpType m);
    big "IcmpCode" (fm_IcmpCode m);
    big "IPv6FlowLabel" (fm_Ipv6FlowLabel m);
    big "FragmentId" (fm_FragmentId m);
    big "FragmentOffset" (fm_FragmentOffset m);
    set "SrcAS" (set_SrcAs (fm_SrcAs m));
    set "DstAS" (set_DstAs (fm_DstAs m));
    set "NextHop" (set_NextHop (IP_String (fm_NextHop m)));
    set "NextHopAS" (set_DstNextHopAs (fm_NextHopAs m));
    big "SrcNet" (fm_SrcNet m);
    big "DstNet" (fm_DstNet m);
    big "MPLSCount" (Z.of_nat (length (fm_MplsTtl m))) ].

Definition flow_field (m : FlowMessage) (ocflowDir : Z) (j : JCHF) (field : string) : outcome JCHF :=
  match find (fun c => String.eqb c.1 field) (cases m ocflowDir) with
  | Some c => c.2 j
  | None => Ok j
  end.

(** ** The record of a message: [toJCHF] *)

Definition flow_start : JCHF :=
  set_ApplySample true (set_Provider ProviderFlowDevice (set_EventType KENTIK_EVENT_TYPE
    (set_CustomBigInt (Some ∅) (set_CustomInt (Some ∅) (set_CustomStr (Some ∅) NewJCHF))))).

Definition set_sender (m : FlowMessage) (j : JCHF) : outcome JCHF :=
  let sampler := IP_String (fm_SamplerAddress m) in
  match devices !! sampler with
  | Some dev =>
      SetUserTags dev (set_SampleRate (fd_SampleRate dev) (set_CompanyId (fd_CompanyID dev)
        (set_DeviceId (fd_ID dev) (set_DeviceName (fd_Name dev) j))))
  | None =>
      let dm := match resolv with Some resolve => resolve sampler | None => "" end in
      let j := set_DeviceName (if String.eqb dm "" then sampler else dm) j in
      match devices !! MissingDeviceIP with
      | Some mdev => SetUserTags mdev j
      | None => Ok j
      end
  end.

Definition flow_end (j : JCHF) : outcome JCHF :=
  j ← match gomap_find (CustomStr j) "FlowDirection" with
      | Some _ => Ok j
      | None => put_CustomStr "FlowDirection" "ingress" j
      end;
  j ← put_CustomStr "src_endpoint" (SrcAddr j +:+ ":" +:+ Itoa (L4SrcPort j)) j;
  put_CustomStr "dst_endpoint" (DstAddr j +:+ ":" +:+ Itoa (L4DstPort j)) j.

(** With the flows counted for each device name. *)
Definition toJCHF (metrics : gmap string Z) (m : FlowMessage) : outcome (JCHF * gmap string Z) :=
  j ← set_sender m flow_start;
  let metrics := <[DeviceName j := default 0 (metrics !! DeviceName j) + 1]> metrics in
  let j := if SampleRate j =? 0 then set_SampleRate 1 j else j in
  j ← mapCustoms m j;
  let ocflowDir := gomap_get 0 (CustomBigInt j) "flow_direction" in
  j ← fold_out (flow_field m ocflowDir) j fields;
  j ← flow_end j;
  Ok (j, metrics).
End Driver.

(** ** Batches: [run] *)

Inductive run_event :=
| Local (j : JCHF)
| SendTick.

(** The batch and the batches sent. *)
Definition run_step (maxBatchSize : Z) (s : list JCHF * list (list JCHF)) (e : run_event) :
    list JCHF * list (list JCHF) :=
  let '(batch, sent) := s in
  match e with
  | Local j =>
      let batch := batch ++ [j] in
      if maxBatchSize <=? Z.of_nat (length batch) then ([], sent ++ [batch]) else (batch, sent)
  | SendTick => if (0 <? length batch)%nat then ([], sent ++ [batch]) else (batch, sent)
  end.

Definition run_driver (maxBatchSize : Z) (es : list run_event) : list JCHF * list (list JCHF) :=
  foldl (run_step maxBatchSize) ([], []) es.

(** ** What a step does to the counters and the direction *)

Definition counters (j : JCHF) : Z * Z * (Z * Z) := (InBytes j, OutBytes j, (InPkts j, OutPkts j)).

(** A record with the direction of the datagram, the label and the counters. *)
Record reads (dir : option Z) (label : option string) (c : Z * Z * (Z * Z)) (j : JCHF) : Prop := {
  reads_str : exists s, CustomStr j = Some s /\ s !! "FlowDirection" = label;
  reads_big : exists b, CustomBigInt j = Some b /\ b !! "flow_direction" = dir;
  reads_counts : counters j = c
}.

Section Steps.
  Context (dir : option Z) (label : option string) (c : Z * Z * (Z * Z)) (j : JCHF).
  Context (Hj : reads dir label c j).

Lemma reads_put_str k v : exists j', put_CustomStr k v j = Ok j' /\
  reads dir (if decide (k = "FlowDirection") then Some v else label) c j'.
Proof using Hj.
  destruct Hj as [(s & Hs & Hl) (b & Hb & Hd) Hc]. unfold put_CustomStr. rewrite Hs.
  eexists. split; [done|]. destruct j; cbn in *. split; [|by exists b|done].
  eexists. split; [done|]. case_decide; [subst; apply lookup_insert_eq|by rewrite lookup_insert_ne].
Qed.

Lemma reads_put_big k v : exists j', put_CustomBigInt k v j = Ok j' /\
  reads (if decide (k = "flow_direction") then Some v else dir) label c j'.
Proof using Hj.
  destruct Hj as [(s & Hs & Hl) (b & Hb & Hd) Hc]. unfold put_CustomBigInt. rewrite Hb.
  eexists. split; [done|]. destruct j; cbn in *. split; [by exists s| |done].
  eexists. split; [done|]. case_decide; [subst; apply lookup_insert_eq|by rewrite lookup_insert_ne].
Qed.

Lemma reads_del_direction : reads None label c (del_CustomBigInt "flow_direction" j).
Proof using Hj.
  destruct Hj as [(s & Hs & Hl) (b & Hb & Hd) Hc]. unfold del_CustomBigInt. rewrite Hb. cbn.
  destruct j; cbn in *. split; [by exists s| |done]. eexists. split; [done|]. apply lookup_delete_eq.
Qed.

(** A setter of something else, and one of a counter. *)
Lemma reads_set f c' : CustomStr (f j) = CustomStr j -> CustomBigInt (f j) = CustomBigInt j ->
  counters (f j) = c' -> reads dir label c' (f j).
Proof using Hj. destruct Hj. intros H1 H2 H3. by split; rewrite ?H1, ?H2. Qed.
End Steps.

(** A step that leaves them alone. *)
Definition plain (h : JCHF -> outcome JCHF) : Prop :=
  forall dir label c j, reads dir label c j -> exists j', h j = Ok j' /\ reads dir label c j'.

Lemma plain_put_str k v : k <> "FlowDirection" -> plain (put_CustomStr k v).
Proof.
  intros Hk dir label c j Hj. destruct (reads_put_str _ _ _ _ Hj k v) as (j' & He & Hr).
  exists j'. by rewrite decide_False in Hr.
Qed.
Lemma plain_put_big k v : k <> "flow_direction" -> plain (put_CustomBigInt k v).
Proof.
  intros Hk dir label c j Hj. destruct (reads_put_big _ _ _ _ Hj k v) as (j' & He & Hr).
  exists j'. by rewrite decide_False in Hr.
Qed.
Lemma plain_set f : (forall j, CustomStr (f j) = CustomStr j /\ CustomBigInt (f j) = CustomBigInt j /\
  counters (f j) = counters j) -> plain (fun j => Ok (f j)).
Proof.
  intros Hf dir label c j Hj. exists (f j). split; [done|]. destruct (Hf j) as (H1 & H2 & H3).
  apply (reads_set _ _ _ _ Hj f); [done..|]. rewrite H3. by destruct Hj.
Qed.

(** ** The fields of the configuration *)

Definition listed (x : string) (fs : list string) : bool := existsb (String.eqb x) fs.

Lemma listed_snoc x fs f : listed x (fs ++ [f]) = listed x fs || String.eqb x f.
Proof. unfold listed. rewrite existsb_app. cbn. by rewrite orb_false_r. Qed.

(** The fields that matter here. *)
Definition counted_field (f : string) : bool := listed f ["FlowDirection"; "Bytes"; "Packets"].

Lemma cases_plain m d : Forall (fun c => counted_field c.1 = false -> plain c.2) (cases m d).
Proof.
  unfold cases. cbv zeta.
  repeat (constructor; [intros Hc; try discriminate Hc;
    first [by apply plain_put_str|by apply plain_put_big
          |apply plain_set; intros []; by try destruct (0 <? _)]|]).
  constructor.
Qed.

Lemma plain_field m d f : counted_field f = false -> plain (fun j => flow_field m d j f).
Proof.
  intros Hf. unfold flow_field. destruct (find _ _) as [c|] eqn:He.
  - apply find_some in He as [Hin Hc%String.eqb_eq]. subst.
    pose proof (cases_plain m d) as Hall. rewrite List.Forall_forall in Hall. by apply Hall.
  - by apply (plain_set (fun j => j)).
Qed.

Section Counts.
  Context (m : FlowMessage) (dir : option Z) (label : option string).

Definition direction_text (v : Z) : string := if v =? 1 then "egress" else "ingress".
Definition counts (fs : list string) : Z * Z * (Z * Z) :=
  let out := default 0 dir =? 1 in
  (if listed "Bytes" fs && negb out then fm_Bytes m else 0,
   if listed "Bytes" fs && out then fm_Bytes m else 0,
   (if listed "Packets" fs && negb out then fm_Packets m else 0,
    if listed "Packets" fs && out then fm_Packets m else 0)).

(** The label after some fields. *)
Definition labelled (fs : list string) : option string :=
  if listed "FlowDirection" fs then
    match dir with Some v => Some (direction_text v) | None => label end
  else label.

Definition after (fs : list string) : JCHF -> Prop :=
  reads (if listed "FlowDirection" fs then None else dir) (labelled fs) (counts fs).

Lemma after_direction fs j : after fs j ->
  exists j', direction_field j = Ok j' /\ after (fs ++ ["FlowDirection"]) j'.
Proof using Type.
  intros Ha. unfold after in *. pose proof Ha as [_ (b & Hb & Hd) _].
  assert (counts (fs ++ ["FlowDirection"]) = counts fs) as ->.
  { unfold counts. by rewrite !listed_snoc, !orb_false_r. }
  unfold direction_field, gomap_find. rewrite Hb. cbn [mbind option_bind]. rewrite Hd. unfold labelled in *.
  rewrite listed_snoc, orb_true_r.
  destruct (listed "FlowDirection" fs) eqn:Hf; [by exists j|]. destruct dir as [v|] eqn:Hv; [|by exists j].
  destruct (reads_put_str _ _ _ _ (reads_del_direction _ _ _ _ Ha) "FlowDirection" (direction_text v))
    as (j' & Hj & Hr). exists j'. split; [exact Hj|]. by rewrite decide_True in Hr.
Qed.

Lemma after_field fs f j : after fs j ->
  exists j', flow_field m (default 0 dir) j f = Ok j' /\ after (fs ++ [f]) j'.
Proof using Type.
  intros Ha. destruct (counted_field f) eqn:Hf.
  - unfold counted_field, listed in Hf. cbn in Hf.
    rewrite orb_false_r, !orb_true_iff, !String.eqb_eq in Hf.
    destruct Hf as [->|[->| ->]]; [by apply after_direction|..];
      (eexists; split; [reflexivity|]); unfold after, labelled in *; rewrite listed_snoc, orb_false_r;
      (eapply reads_set; [exact Ha|by destruct j, (default 0 dir =? 1)..|]);
      destruct Ha as [_ _ Hc]; unfold counts in *; rewrite !listed_snoc;
      cbn [String.eqb Ascii.eqb Bool.eqb]; rewrite ?orb_false_r, ?orb_true_r;
      destruct (default 0 dir =? 1), j; cbn in *; unfold counters in *; cbn in *;
      rewrite ?andb_false_r, ?andb_true_r in *; congruence.
  - unfold after in *. destruct (plain_field m (default 0 dir) f Hf _ _ _ _ Ha) as (j' & Hj & Hr).
    exists j'. split; [exact Hj|]. unfold counted_field, listed in Hf. cbn in Hf.
    rewrite !orb_false_iff in Hf. destruct Hf as (H1 & H2 & H3 & _). rewrite String.eqb_sym in H1, H2, H3.
    unfold labelled, counts in *. by rewrite !listed_snoc, H1, H2, H3, !orb_false_r.
Qed.

Lemma after_fields fs rest j : after fs j ->
  exists j', fold_out (flow_field m (default 0 dir)) j rest = Ok j' /\ after (fs ++ rest) j'.
Proof using Type.
  revert fs j. induction rest as [|f rest IH]; intros fs j Ha; [exists j; by rewrite app_nil_r|].
  destruct (after_field fs f j Ha) as (j1 & Hj & H1). cbn [fold_out]. rewrite Hj. cbn [mbind outcome_bind].
  rewrite cons_middle, app_assoc. by apply IH.
Qed.
End Counts.

(** ** The direction the datagram gives *)

Section Elements.
  Context (ixd : gmap Z (string * string)).

(** The name an element's field is mapped to. *)
Definition name_of (num : Z) : option string := fst <$> ixd !! num.

(** The last number mapped to [flow_direction], and the last text under the name of the label. *)
Definition wire_direction (dir : option Z) (w : WireField) : option Z :=
  match w with
  | WVarint num v => if decide (name_of num = Some "flow_direction") then Some (int64 v) else dir
  | _ => dir
  end.
Definition wire_label (label : option string) (w : WireField) : option string :=
  match w with
  | WBytes num b => if decide (name_of num = Some "FlowDirection") then Some (str_of b) else label
  | _ => label
  end.

Lemma reads_custom w dir label c j : reads dir label c j ->
  exists j', map_custom (Some ixd) j w = Ok j' /\ reads (wire_direction dir w) (wire_label label w) c j'.
Proof using Type.
  intros Hj. destruct w as [num v|num b|num]; cbn [map_custom wire_direction wire_label default from_option id];
    unfold name_of; [| |by exists j];
    (destruct (ixd !! num) as [[name ty]|]; cbn [fmap option_fmap option_map fst]; [|by exists j]).
  - destruct (HasPrefix name "ip_") eqn:Hip.
    + rewrite decide_False; [|by intros [= ->]].
      destruct (reads_put_str _ _ _ _ Hj name (IP_String (Int2ip (uint32 v)))) as (j' & He & Hr).
      exists j'. split; [done|]. by rewrite decide_False in Hr by (by intros ->).
    + destruct (reads_put_big _ _ _ _ Hj name (int64 v)) as (j' & He & Hr). exists j'. split; [done|].
      by rewrite (decide_ext (Some name = Some "flow_direction") (name = "flow_direction")) by naive_solver.
  - destruct (HasPrefix name "ip_") eqn:Hip.
    + rewrite decide_False; [|by intros [= ->]].
      edestruct (reads_put_str _ _ _ _ Hj name) as (j' & He & Hr).
      exists j'. split; [exact He|]. by rewrite decide_False in Hr by (by intros ->).
    + destruct (reads_put_str _ _ _ _ Hj name (str_of b)) as (j' & He & Hr). exists j'. split; [done|].
      by rewrite (decide_ext (Some name = Some "FlowDirection") (name = "FlowDirection")) by naive_solver.
Qed.

Lemma reads_customs ws dir label c j : reads dir label c j ->
  exists j', fold_out (map_custom (Some ixd)) j ws = Ok j' /\
    reads (foldl wire_direction dir ws) (foldl wire_label label ws) c j'.
Proof using Type.
  revert dir label j. induction ws as [|w ws IH]; intros dir label j Hj; [by exists j|].
  destruct (reads_custom w _ _ _ _ Hj) as (j1 & He & H1). cbn [fold_out foldl]. rewrite He.
  cbn [mbind outcome_bind]. by apply IH.
Qed.
End Elements.

(** The label a device's tags give. *)
Definition tag_label (devices : gmap string FlowDevice) (m : FlowMessage) : option string :=
  match devices !! IP_String (fm_SamplerAddress m) with
  | Some dev => allUserTags dev !! "FlowDirection"
  | None => devices !! MissingDeviceIP ≫= fun dev => allUserTags dev !! "FlowDirection"
  end.

Lemma SetUserTags_ok dev j s :
  CustomStr j = Some s -> SetUserTags dev j = Ok (set_CustomStr (Some (allUserTags dev ∪ s)) j).
Proof. intros Hs. unfold SetUserTags. by rewrite Hs. Qed.

(** The name of the sender: the device's, or what its address resolves to, or the address. *)
Definition sender_name (devices : gmap string FlowDevice) (resolv : option (string -> string))
    (m : FlowMessage) : string :=
  let sampler := IP_String (fm_SamplerAddress m) in
  match devices !! sampler with
  | Some dev => fd_Name dev
  | None => let dm := match resolv with Some resolve => resolve sampler | None => "" end in
            if String.eqb dm "" then sampler else dm
  end.

Lemma reads_sender devices resolv m : exists j, set_sender devices resolv m flow_start = Ok j /\
  reads None (tag_label devices m) (0, 0, (0, 0)) j /\ DeviceName j = sender_name devices resolv m.
Proof.
  assert (forall dev j, CustomStr j = Some ∅ -> CustomBigInt j = Some ∅ -> counters j = (0, 0, (0, 0)) ->
    exists j', SetUserTags dev j = Ok j' /\
      reads None (allUserTags dev !! "FlowDirection") (0, 0, (0, 0)) j' /\ DeviceName j' = DeviceName j) as Htags.
  { intros dev j Hs Hb Hc. rewrite (SetUserTags_ok dev j ∅) by done. eexists. split; [done|].
    split; [|by destruct j]. destruct j; cbn in *. subst. split; [|by exists ∅|done]. eexists. split; [done|].
    rewrite lookup_union, lookup_empty. by destruct (allUserTags dev !! "FlowDirection"). }
  unfold set_sender, tag_label, sender_name. cbv zeta.
  destruct (devices !! IP_String (fm_SamplerAddress m)) as [dev|]; [by apply Htags|].
  destruct (devices !! MissingDeviceIP) as [dev|]; cbn [mbind option_bind]; [by apply Htags|].
  eexists. split; [done|]. split; [|done]. split; [by exists ∅|by exists ∅|done].
Qed.

Lemma reads_end dir label c j : reads dir label c j -> exists j', flow_end j = Ok j' /\
  reads dir (Some (default "ingress" label)) c j'.
Proof.
  intros Hj. unfold flow_end.
  assert (exists j1, match gomap_find (CustomStr j) "FlowDirection" with
      | Some _ => Ok j | None => put_CustomStr "FlowDirection" "ingress" j end = Ok j1 /\
      reads dir (Some (default "ingress" label)) c j1) as (j1 & -> & H1).
  { pose proof Hj as [(s & Hs & Hl) _ _]. unfold gomap_find. rewrite Hs. cbn [mbind option_bind]. rewrite Hl.
    destruct label; [by exists j|]. apply (reads_put_str _ _ _ _ Hj "FlowDirection" "ingress"). }
  cbn [mbind outcome_bind].
  destruct (plain_put_str "src_endpoint" (SrcAddr j1 +:+ ":" +:+ Itoa (L4SrcPort j1)) ltac:(done) _ _ _ _ H1)
    as (j2 & -> & H2). cbn [mbind outcome_bind].
  apply (plain_put_str "dst_endpoint" _ ltac:(done) _ _ _ _ H2).
Qed.

(** ** Properties *)

(** C22: a message always gives a record, with or without a known device.  Its bytes and packets
    are counted once, as outgoing when the datagram's last [flow_direction] is 1 and as incoming
    otherwise, and only when the configuration names them; the label says egress exactly for
    such flows when the configuration names the direction, and falls back to the label that
    tags or elements of the datagram gave, or ingress.  The sender's flow is counted. *)
Theorem toJCHF_counts devices resolv fields ixd metrics m :
  let dir := foldl (wire_direction ixd) None (fm_unknown m) in
  let label := foldl (wire_label ixd) (tag_label devices m) (fm_unknown m) in
  let name := sender_name devices resolv m in
  exists j, toJCHF devices resolv fields (Some ixd) metrics m =
      Ok (j, <[name := default 0 (metrics !! name) + 1]> metrics) /\
    counters j = counts m dir fields /\
    gomap_find (CustomStr j) "FlowDirection" = Some (default "ingress" (labelled dir label fields)).
Proof.
  cbv zeta. unfold toJCHF. destruct (reads_sender devices resolv m) as (j0 & -> & H0 & Hn).
  cbn [mbind outcome_bind]. rewrite Hn.
  set (j1 := if SampleRate j0 =? 0 then _ else _).
  assert (reads None (tag_label devices m) (0, 0, (0, 0)) j1) as H1.
  { unfold j1. destruct (SampleRate j0 =? 0); [|done].
    destruct H0 as [Hs Hb Hc]. split; by destruct j0. }
  destruct (reads_customs ixd (fm_unknown m) _ _ _ _ H1) as (j2 & He & H2). unfold mapCustoms. rewrite He.
  cbn [mbind outcome_bind]. set (dir := foldl _ None _) in *. set (label := foldl _ (tag_label devices m) _) in *.
  assert (gomap_get 0 (CustomBigInt j2) "flow_direction" = default 0 dir) as ->.
  { destruct H2 as [_ (b & Hb & Hd) _]. rewrite Hb. cbn. by rewrite Hd. }
  destruct (after_fields m dir label [] fields j2) as (j3 & -> & H3); [exact H2|]. cbn [mbind outcome_bind].
  destruct (reads_end _ _ _ _ H3) as (j4 & -> & H4). cbn [mbind outcome_bind]. exists j4. split; [done|].
  destruct H4 as [(s & Hs & Hl) _ Hc]. split; [exact Hc|]. by rewrite Hs.
Qed.

Section Batches.
  Context (maxBatchSize : Z) (Hmax : 0 < maxBatchSize).

(** The records that came in. *)
Definition locals (es : list run_event) : list JCHF :=
  omap (fun e => match e with Local j => Some j | SendTick => None end) es.

Lemma run_step_ok s e :
  Z.of_nat (length s.1) < maxBatchSize ->
  Forall (fun b => b <> [] /\ Z.of_nat (length b) <= maxBatchSize) s.2 ->
  let s' := run_step maxBatchSize s e in
  Z.of_nat (length s'.1) < maxBatchSize /\
  Forall (fun b => b <> [] /\ Z.of_nat (length b) <= maxBatchSize) s'.2 /\
  concat s'.2 ++ s'.1 = (concat s.2 ++ s.1) ++ locals [e].
Proof using Hmax.
  destruct s as [batch sent]. cbn [fst snd]. intros Hb Hs. destruct e as [j|]; cbn [run_step locals omap list_omap].
  - destruct (Z.leb_spec maxBatchSize (Z.of_nat (length (batch ++ [j])))) as [Hl|Hl]; cbn [fst snd].
    + rewrite concat_app. cbn [concat]. rewrite !app_nil_r, app_assoc. split; [done|]. split; [|done].
      apply Forall_app. split; [done|]. constructor; [|done]. split; [by destruct batch|].
      rewrite length_app in *. cbn in *. lia.
    + rewrite app_assoc. done.
  - destruct batch as [|j batch]; cbn [length Nat.ltb Nat.leb fst snd]; rewrite !app_nil_r; [done|].
    rewrite concat_app. cbn [concat]. rewrite !app_nil_r. split; [cbn; lia|]. split; [|done].
    apply Forall_app. split; [done|]. constructor; [|done]. split; [done|]. cbn [fst length] in Hb. cbn [length]. lia.
Qed.

(** Batches keep every record, once and in order: whatever records and ticks come, what was
    sent followed by the batch at hand is what came in, no batch is empty or longer than the
    limit, and the batch at hand is shorter. *)
Lemma run_driver_batches es :
  let '(batch, sent) := run_driver maxBatchSize es in
  concat sent ++ batch = locals es /\
  Forall (fun b => b <> [] /\ Z.of_nat (length b) <= maxBatchSize) sent /\
  Z.of_nat (length batch) < maxBatchSize.
Proof using Hmax.
  destruct (run_driver maxBatchSize es) as [batch sent] eqn:He.
  assert (Z.of_nat (length batch) < maxBatchSize /\
    Forall (fun b => b <> [] /\ Z.of_nat (length b) <= maxBatchSize) sent /\
    concat sent ++ batch = locals es) as (H1 & H2 & H3); [|by split_and!].
  revert batch sent He. unfold run_driver.
  induction es as [|e es IH] using rev_ind; intros batch sent He; [injection He as <- <-; done|].
  rewrite foldl_snoc in He. destruct (foldl _ _ es) as [b0 s0] eqn:E0.
  destruct (IH _ _ eq_refl) as (Hb & Hs & Hc).
  destruct (run_step_ok (b0, s0) e Hb Hs) as (H1 & H2 & H3). rewrite He in *. cbn [fst snd] in *.
  rewrite H3, Hc. unfold locals. by rewrite omap_app.
Qed.
End Batches.

(** ** Configurations *)

(** Every destination of the configurations has a field, except that of the firewalls: the
    packets that go out are mapped to [out_pkts], where the field is called [put_pkts]. *)
Lemma configurations_declare :
  undeclared loadDefault = [] /\ undeclared loadNBar = [] /\ undeclared loadPAN = [] /\
  undeclared loadASA = ["out_pkts"; "out_pkts"]%string.
Proof. vm_compute. done. Qed.

(** ** Witnesses *)

Definition sample_message : FlowMessage := {|
  fm_Type := "IPFIX"; fm_TimeReceivedNs := 5; fm_SequenceNum := 1; fm_SamplingRate := 0;
  fm_SamplerAddress := [10; 0; 0; 1]; fm_TimeFlowStartNs := 1; fm_TimeFlowEndNs := 2; fm_Bytes := 1500;
  fm_Packets := 3; fm_SrcAddr := [8; 8; 8; 8]; fm_DstAddr := [10; 0; 0; 2]; fm_Etype := 2048; fm_Proto := 6;
  fm_SrcPort := 443; fm_DstPort := 50000; fm_InIf := 1; fm_OutIf := 2; fm_SrcMac := 0; fm_DstMac := 1;
  fm_SrcVlan := 0; fm_DstVlan := 0; fm_VlanId := 0; fm_IpTos := 0; fm_ForwardingStatus := 0;
  fm_IpTtl := 64; fm_TcpFlags := 27; fm_IcmpType := 0; fm_IcmpCode := 0; fm_Ipv6FlowLabel := 0;
  fm_FragmentId := 0; fm_FragmentOffset := 0; fm_SrcAs := 0; fm_DstAs := 0; fm_NextHop := [];
  fm_NextHopAs := 0; fm_SrcNet := 0; fm_DstNet := 0; fm_MplsTtl := [];
  fm_unknown := [WVarint 99 0; WVarint 99 1; WVarint 100 7]
|}.

Example sample_egress :
  exists j ms, toJCHF {["10.0.0.1" := mkFlowDevice "edge" 7 1 0 {["site" := "dc1"]}]} None
    ["Bytes"; "FlowDirection"; "DstMac"; "SrcAddr"; "SrcPort"] (Some (SetConfig loadDefault)) ∅ sample_message = Ok (j, ms) /\
  (counters j, SampleRate j, DstEthMac j) = (0, 1500, (0, 0), 1, "00:00:00:00:00:01") /\
  CustomStr j = Some (list_to_map [("FlowDirection", "egress"); ("site", "dc1");
    ("src_endpoint", "8.8.8.8:443"); ("dst_endpoint", ":0")]) /\
  CustomBigInt j = Some {["ingressVRFID" := 7]} /\ ms = {["edge" := 1]}.
Proof. eexists _, _. split; [vm_compute; reflexivity|]. by vm_compute. Qed.

Lemma run_driver_batches_witness :
  concat (run_driver 2 [Local NewJCHF; SendTick; Local NewJCHF; Local NewJCHF; Local NewJCHF]).2 ++
    (run_driver 2 [Local NewJCHF; SendTick; Local NewJCHF; Local NewJCHF; Local NewJCHF]).1 = replicate 4 NewJCHF /\
  length <$> (run_driver 2 [Local NewJCHF; SendTick; Local NewJCHF; Local NewJCHF; Local NewJCHF]).2 = [1; 2]%nat.
Proof.
  split; [|reflexivity].
  apply (run_driver_batches 2 ltac:(lia) [Local NewJCHF; SendTick; Local NewJCHF; Local NewJCHF; Local NewJCHF]).
Defined.
