(* ===== verification/VpcAws.v ===== *)
(** * Flow logs of Amazon's clouds (src/pkg/inputs/vpc/aws: aws.go, and the reading of files in
    s3.go, local.go, lamdba.go and orange.go)

    A log is a text with a header line that names its columns and a line per flow, or a stream of
    JSON documents.  Lines become records, with what the topology of the account says of their
    addresses.  JSON, the clock, the tries of subnets and the objects of the store are arguments; an
    object of the store is the list of lines that its scanner gives. *)
From Stdlib Require Import Ascii.
From S2P Require Import Prelude GoIO GoStrings GoNet GoAddr KT IC ToJCHF.

Definition MIN_AWS_FIELD : nat := 7.
Definition AWS_LOG_PREFIX : string := "AWSLogs".
Definition AWS_STATUS : string := "log-status".
Definition AWS_VERSION : string := "version".
Definition AWS_VPC_TYPE : string := "AWS_VPC".
Definition FromLambda : string := "awslambda".
Definition baseSplitAWS : string := "{" +:+ String (Ascii.ascii_of_nat 34) "messageType" +:+ String (Ascii.ascii_of_nat 34) ":".

Definition AWS_FLOW_FIELDS : list string := [
  "version"; "interface-id"; "account-id"; "srcaddr"; "dstaddr"; "srcport"; "dstport"; "protocol"; "bytes"; "packets";
  "start"; "end"; "action"; "log-status"; "type"; "tcp-flags"; "vpc-id"; "subnet-id"; "instance-id"; "pkt-srcaddr";
  "pkt-dstaddr"; "region"; "az-id"; "sublocation-type"; "sublocation-id"; "pkt-src-aws-service"; "pkt-dst-aws-service";
  "flow-direction"; "traffic-path"]%string.

(** Times are seconds of Unix. *)
Record AWSLogLine := mkAWSLogLine {
  aw_Version : Z;
  aw_AccountID : string;
  aw_InterfaceID : string;
  aw_SrcAddr : IP;
  aw_DstAddr : IP;
  aw_SrcPktAddr : IP;
  aw_DstPktAddr : IP;
  aw_TcpFlags : Z;
  aw_SrcPort : Z;
  aw_DstPort : Z;
  aw_Protocol : Z;
  aw_Packets : Z;
  aw_Bytes : Z;
  aw_StartTime : Z;
  aw_EndTime : Z;
  aw_Action : string;
  aw_Status : string;
  aw_Sample : Z;
  aw_VPCID : string;
  aw_SubnetID : string;
  aw_InstanceID : string;
  aw_Region : string;
  aw_AzID : string;
  aw_SublocationType : string;
  aw_SublocationID : string;
  aw_SrcPktService : string;
  aw_DstPktService : string;
  aw_FlowDirection : string;
  aw_TrafficPath : string
}.

(** ** Lines *)

(** [strings.Fields]: the pieces between runs of spaces. *)
Definition flush (cur : string) : list string := match cur with "" => [] | _ => [cur] end%string.
Fixpoint fields_from (fuel : nat) (cur s : string) : list string :=
  match fuel, s with
  | S fuel, String c r =>
      match List.find (fun p => HasPrefix s p) spaces with
      | Some p => flush cur ++ fields_from fuel "" (sdrop (String.length p) s)
      | None => fields_from fuel (cur +:+ String c "") r
      end
  | _, _ => flush cur
  end.
Definition strings_Fields (s : string) : list string := fields_from (String.length s) "" s.

(** The columns of a header. *)
Abbreviation AwsLineMap := (gmap string nat).
Definition NewAwsHeader (pts : list string) : AwsLineMap :=
  let colMap : gmap string nat := list_to_map (reverse (imap (fun i col => (col, i)) pts)) in
  foldl (fun m field => match colMap !! field with Some i => <[field := i]> m | None => m end) ∅ AWS_FLOW_FIELDS.

Section Line.
  Context (lineMap : AwsLineMap) (pts : list string).

Definition getString (key : string) : outcome string :=
  match lineMap !! key with
  | Some i => match pts !! i with Some s => Ok s | None => Panic "index out of range" end
  | None => Ok ""%string
  end.
Definition getIP (key : string) : outcome IP := s ← getString key; Ok (ParseIP s).
Definition getUint32 (key : string) : outcome Z := s ← getString key; Ok (uint32 (Atoi_value s))%go.
Definition getUint64 (key : string) : outcome Z := s ← getString key; Ok (uint64 (Atoi_value s))%go.
Definition getTime (key : string) : outcome Z := s ← getString key; Ok (Atoi_value s).

Definition NewAwsFromV2_line : outcome AWSLogLine :=
  account ← getString "account-id";
  interface ← getString "interface-id";
  src ← getIP "srcaddr";
  dst ← getIP "dstaddr";
  sport ← getUint32 "srcport";
  dport ← getUint32 "dstport";
  protocol ← getUint32 "protocol";
  packets ← getUint64 "packets";
  bytes ← getUint64 "bytes";
  start ← getTime "start";
  end_ ← getTime "end";
  action ← getString "action";
  status ← getString "log-status";
  Ok (mkAWSLogLine 2 account interface src dst [] [] 0 sport dport protocol packets bytes start end_ action status 0 "" "" "" "" ""
        "" "" "" "" "" "").
Definition NewAwsFromV345_line (version : Z) : outcome AWSLogLine :=
  vpc ← getString "vpc-id";
  subnet ← getString "subnet-id";
  instance ← getString "instance-id";
  interface ← getString "interface-id";
  account ← getString "account-id";
  src ← getIP "srcaddr";
  dst ← getIP "dstaddr";
  sport ← getUint32 "srcport";
  dport ← getUint32 "dstport";
  psrc ← getIP "pkt-srcaddr";
  pdst ← getIP "pkt-dstaddr";
  protocol ← getUint32 "protocol";
  bytes ← getUint64 "bytes";
  packets ← getUint64 "packets";
  start ← getTime "start";
  end_ ← getTime "end";
  action ← getString "action";
  flags ← getUint32 "tcp-flags";
  status ← getString "log-status";
  region ← getString "region";
  az ← getString "az-id";
  stype ← getString "sublocation-type";
  sid ← getString "sublocation-id";
  ssrv ← getString "pkt-src-aws-service";
  dsrv ← getString "pkt-dst-aws-service";
  direction ← getString "flow-direction";
  path ← getString "traffic-path";
  Ok (mkAWSLogLine version account interface src dst psrc pdst flags sport dport protocol packets bytes start end_ action status 0
        vpc subnet instance region az stype sid ssrv dsrv direction path).
End Line.

Definition set_StartTime (t : Z) (l : AWSLogLine) : AWSLogLine :=
  mkAWSLogLine (aw_Version l) (aw_AccountID l) (aw_InterfaceID l) (aw_SrcAddr l) (aw_DstAddr l) (aw_SrcPktAddr l) (aw_DstPktAddr l)
    (aw_TcpFlags l) (aw_SrcPort l) (aw_DstPort l) (aw_Protocol l) (aw_Packets l) (aw_Bytes l) t (aw_EndTime l) (aw_Action l)
    (aw_Status l) (aw_Sample l) (aw_VPCID l) (aw_SubnetID l) (aw_InstanceID l) (aw_Region l) (aw_AzID l) (aw_SublocationType l)
    (aw_SublocationID l) (aw_SrcPktService l) (aw_DstPktService l) (aw_FlowDirection l) (aw_TrafficPath l).

(** ** Streams *)

Record ExtractedField := mkExtractedField {
  ex_SrcAddr : string; ex_DstPort : string; ex_StartTime : string; ex_DstAddr : string; ex_Version : string; ex_Packets : string;
  ex_Protocol : string; ex_AccountId : string; ex_InterfaceId : string; ex_Status : string; ex_Bytes : string; ex_SrcPort : string;
  ex_Action : string; ex_EndTime : string
}.
Record KinesisLog := mkKinesisLog { kl_Message : string; kl_ExtractedFields : ExtractedField }.

Section Parse.
  (** The clock in nanoseconds, and JSON documents of streams. *)
  Context (now : Z) (Unmarshal : string -> option (list KinesisLog)).

(** More than a week ago; [time.Unix] counts from the first year and wraps. *)
Definition unixToInternal : Z := 62135596800.
Definition long_ago (t : Z) : bool := ((int64 (t + unixToInternal))%go - unixToInternal) * Second <? now - 7 * 24 * 3600 * Second.

Definition NewAwsFromV2 (lineMap : AwsLineMap) (pts : list string) : outcome (list AWSLogLine) :=
  l ← NewAwsFromV2_line lineMap pts; Ok (if long_ago (aw_StartTime l) then [] else [l]).
Definition NewAwsFromV345 (version : Z) (lineMap : AwsLineMap) (pts : list string) : outcome (list AWSLogLine) :=
  l ← NewAwsFromV345_line lineMap pts version;
  Ok [if long_ago (aw_StartTime l) then set_StartTime (now / Second) l else l].

Definition extracted (ver : Z) (e : ExtractedField) : AWSLogLine :=
  mkAWSLogLine ver (ex_AccountId e) (ex_InterfaceId e) (ParseIP (ex_SrcAddr e)) (ParseIP (ex_DstAddr e)) [] [] 0
    ((uint32 (Atoi_value (ex_SrcPort e)))%go) ((uint32 (Atoi_value (ex_DstPort e)))%go) ((uint32 (Atoi_value (ex_Protocol e)))%go)
    ((uint64 (Atoi_value (ex_Packets e)))%go) ((uint64 (Atoi_value (ex_Bytes e)))%go) (Atoi_value (ex_StartTime e))
    (Atoi_value (ex_EndTime e)) (ex_Action e) (ex_Status e) 0 "" "" "" "" "" "" "" "" "" "" "".

Definition json_error : error := Errorf "json" [].
Definition bad_line : error := Errorf "Invalid line: %s" [].
Definition bad_version : error := Errorf "Bad log version: %d -> %v" [].

(** Whether the version was extracted. *)
Definition version_of (l : KinesisLog) : option Z :=
  match Atoi (ex_Version (kl_ExtractedFields l)) with
  | Some v => if v =? 0 then None else Some v
  | None => None
  end.
(** An event of a document: a line that is parsed anew goes to the result, one that was extracted
    waits until the end of the document. *)
Definition kinesis_event (newAws : AwsLineMap -> string -> outcome (list AWSLogLine * AwsLineMap)) (lineMap : AwsLineMap) (raw : string)
    (st : list AWSLogLine * list AWSLogLine) (l : KinesisLog) : outcome (list AWSLogLine * list AWSLogLine) :=
  let '(res, this) := st in
  match version_of l with
  | None =>
      if (10 <? String.length (kl_Message l))%nat && negb (strings_Contains raw baseSplitAWS)
      then match newAws lineMap (kl_Message l) with
           | Ok (lines, _) => Ok (res ++ lines, this)
           | Err _ => Ok (res, this)
           | Panic why => Panic why
           | OutOfFuel => OutOfFuel
           end
      else Ok (res, this)
  | Some ver =>
      let line := extracted ver (kl_ExtractedFields l) in
      Ok (res, if long_ago (aw_StartTime line) then this else this ++ [line])
  end.
Definition kinesis_document (newAws : AwsLineMap -> string -> outcome (list AWSLogLine * AwsLineMap)) (lineMap : AwsLineMap) (raw : string)
    (res : list AWSLogLine) (b : string) : outcome (list AWSLogLine) :=
  if (String.length b <? 10)%nat then Ok res
  else match Unmarshal (baseSplitAWS +:+ b) with
       | None => Err json_error
       | Some events => st ← fold_out (kinesis_event newAws lineMap raw) (res, []) events; Ok (st.1 ++ st.2)
       end.
Definition NewAwsFromKinesis (newAws : AwsLineMap -> string -> outcome (list AWSLogLine * AwsLineMap)) (lineMap : AwsLineMap) (raw : string) :
    outcome (list AWSLogLine * AwsLineMap) :=
  res ← fold_out (kinesis_document newAws lineMap raw) [] (strings_Split raw baseSplitAWS);
  Ok (res, lineMap).

(** [NewAws], which a stream may call for the text of an event, so it takes fuel. *)
Definition NewAws_with (newAws : AwsLineMap -> string -> outcome (list AWSLogLine * AwsLineMap)) (lineMap : AwsLineMap) (raw : string) :
    outcome (list AWSLogLine * AwsLineMap) :=
  let pts := strings_Fields raw in
  let stream := strings_Contains raw baseSplitAWS in
  if (length pts <? MIN_AWS_FIELD)%nat then Err bad_line
  else if String.eqb (default ""%string (head pts)) AWS_VERSION then Ok ([], NewAwsHeader pts)
  else if (size lineMap =? 0)%nat && negb stream then Ok ([], NewAwsHeader pts)
  else
    ver ← getUint32 lineMap pts AWS_VERSION;
    if ver =? 2 then lines ← NewAwsFromV2 lineMap pts; Ok (lines, lineMap)
    else if (3 <=? ver) && (ver <=? 5) then lines ← NewAwsFromV345 ver lineMap pts; Ok (lines, lineMap)
    else if stream then NewAwsFromKinesis newAws lineMap raw
    else if (size lineMap =? 0)%nat then Err bad_version
    else lines ← NewAwsFromV345 5 lineMap pts; Ok (lines, lineMap).
Fixpoint NewAws (fuel : nat) (lineMap : AwsLineMap) (raw : string) : outcome (list AWSLogLine * AwsLineMap) :=
  match fuel with
  | O => OutOfFuel
  | S fuel => NewAws_with (NewAws fuel) lineMap raw
  end.

(** The loop over the lines of an object: lines that cannot be read are skipped. *)
Definition read_line (st : AwsLineMap * list AWSLogLine) (raw : string) : outcome (AwsLineMap * list AWSLogLine) :=
  match NewAws 2 st.1 raw with
  | Ok (lines, lineMap) => Ok (lineMap, st.2 ++ lines)
  | Err _ => Ok st
  | Panic why => Panic why
  | OutOfFuel => OutOfFuel
  end.
Definition read_lines (raws : list string) : outcome (list AWSLogLine) :=
  st ← fold_out read_line (∅, []) raws; Ok st.2.
End Parse.

(** ** Records *)

(** What is read of the topology; pointers may be nil. *)
Record Subnet := mkSubnet {
  sn_VpcId : option string;
  sn_AvailabilityZoneId : option string;
  sn_Tags : list (option string * option string)
}.
Record AvailabilityZone := mkAvailabilityZone { az_ZoneName : option string; az_RegionName : option string }.
Record AWSTopology := mkAWSTopology {
  FindV4 : bytes -> outcome (option string);
  FindV6 : bytes -> outcome (option string);
  Subnets : gmap string Subnet;
  Vpcs : gmap string (list (option string * option string));
  AvailabilityZones : gmap string AvailabilityZone
}.

Definition deref (o : option string) : outcome string := match o with Some s => Ok s | None => Panic "nil pointer dereference" end.

(** [lookupTopo]: the subnet, the tags of its VPC and its zone. *)
Definition lookupTopo (ip : IP) (topo : option AWSTopology) :
    outcome (option Subnet * option (list (option string * option string)) * option AvailabilityZone) :=
  match topo with
  | None => Ok (None, None, None)
  | Some topo =>
      found ← (match To4 ip with Some ip4 => FindV4 topo ip4 | None => FindV6 topo ip end);
      match found ≫= (Subnets topo !!.) with
      | Some s =>
          v ← deref (sn_VpcId s);
          a ← deref (sn_AvailabilityZoneId s);
          Ok (Some s, Vpcs topo !! v, AvailabilityZones topo !! a)
      | None => Ok (None, None, None)
      end
  end.

Definition getAddr (ip : IP) : string := match ip with [] => ""%string | _ => IP_String ip end.

Definition put_tag_of (m : gmap string string) (t : option string * option string) : outcome (gmap string string) :=
  k ← deref t.1; v ← deref t.2; Ok (<[k := v]> m).
(** The other end of a flow, and the tags of the end that it was logged at. *)
Definition other_end (prefix : string) (subnet : option Subnet) (az : option AvailabilityZone) (m : gmap string string) :
    outcome (gmap string string) :=
  match subnet with
  | None => Ok m
  | Some s =>
      vpc ← deref (sn_VpcId s);
      zone ← deref (az ≫= az_ZoneName);
      region ← deref (az ≫= az_RegionName);
      Ok (<[prefix +:+ "_region" := region]> (<[prefix +:+ "_az" := zone]> (<[prefix +:+ "_vpc" := vpc]> m)))
  end.
Definition own_end (prefix : string) (l : AWSLogLine) (m : gmap string string) : gmap string string :=
  <[prefix +:+ "_region" := aw_Region l]> (<[prefix +:+ "_az" := aw_AzID l]> (<[prefix +:+ "_interface" := aw_InterfaceID l]>
    (<[prefix +:+ "_instance" := aw_InstanceID l]> (<[prefix +:+ "_subnet" := aw_SubnetID l]> (<[prefix +:+ "_vpc" := aw_VPCID l]> m))))).
Definition tags_of (vpc : option (list (option string * option string))) (subnet : option Subnet) (m : gmap string string) :
    outcome (gmap string string) :=
  m ← fold_out put_tag_of m (default [] vpc);
  fold_out put_tag_of m (default [] (sn_Tags <$> subnet)).

Definition line_strs (l : AWSLogLine) : gmap string string :=
  {["action" := aw_Action l; "status" := aw_Status l; "kt.from" := FromLambda; "type" := AWS_VPC_TYPE;
    "source_pkt_addr" := getAddr (aw_SrcPktAddr l); "dest_pkt_addr" := getAddr (aw_DstPktAddr l);
    "sublocation_type" := aw_SublocationType l; "sublocation_id" := aw_SublocationID l;
    "source_pkt_service" := aw_SrcPktService l; "dest_pkt_service" := aw_DstPktService l;
    "flow_direction" := aw_FlowDirection l; "traffic_path" := aw_TrafficPath l; "account_id" := aw_AccountID l]}%string.
Definition is_egress (l : AWSLogLine) : bool := String.eqb (aw_FlowDirection l) "egress".

(** [ToFlow]. *)
Definition AWS_ToFlow (topo : option AWSTopology) (l : AWSLogLine) : outcome JCHF :=
  src ← lookupTopo (aw_SrcAddr l) topo;
  dst ← lookupTopo (aw_DstAddr l) topo;
  strs ← (if is_egress l
          then m ← other_end "dest" dst.1.1 dst.2 (own_end "source" l (line_strs l)); tags_of src.1.2 src.1.1 m
          else m ← other_end "source" src.1.1 src.2 (own_end "dest" l (line_strs l)); tags_of dst.1.2 dst.1.1 m);
  let strs := <["dst_endpoint" := getAddr (aw_DstAddr l) +:+ ":" +:+ Itoa (aw_DstPort l)]>
                (<["src_endpoint" := getAddr (aw_SrcAddr l) +:+ ":" +:+ Itoa (aw_SrcPort l)]> strs) in
  let j := set_CustomBigInt (Some {["start_time" := aw_StartTime l; "end_time" := aw_EndTime l]}%string)
    (set_CustomInt (Some ∅) (set_CustomStr (Some strs) (set_EventType KENTIK_EVENT_TYPE (set_Provider ProviderVPC
    (set_Timestamp (aw_StartTime l) (set_L4DstPort (aw_DstPort l) (set_L4SrcPort (aw_SrcPort l)
    (set_Protocol (default ""%string (PROTO_NAMES !! (uint16 (aw_Protocol l))%go))
    (set_SampleRate (if 0 <? aw_Sample l then aw_Sample l else 1) (set_TcpFlags (aw_TcpFlags l) (set_DeviceName (aw_VPCID l)
    (set_ApplySample true (set_SrcAddr (getAddr (aw_SrcAddr l)) (set_DstAddr (getAddr (aw_DstAddr l)) NewJCHF)))))))))))))) in
  Ok (if is_egress l then set_OutBytes (aw_Bytes l) (set_OutPkts (aw_Packets l) j)
      else set_InBytes (aw_Bytes l) (set_InPkts (aw_Packets l) j)).

(** ** Objects *)

(** [getDeviceKey]. *)
Fixpoint key_of_parts (i : nat) (key : string) (parts : list string) : option string :=
  match parts with
  | [] => None
  | part :: parts =>
      if HasPrefix part AWS_LOG_PREFIX then Some key
      else key_of_parts (S i) (if String.eqb part "" then key else (if (0 <? i)%nat then key +:+ "/" else key) +:+ part) parts
  end.
Definition bad_path : error := Errorf "incorrectly formatted path [%s]" [].
Definition getDeviceKey (bucket path : string) : outcome string :=
  if HasPrefix path AWS_LOG_PREFIX then Ok bucket
  else match key_of_parts 0 "" (strings_Split path "/") with
       | Some key => Ok key
       | None => if (7 <=? length (strings_Split path "-"))%nat then Ok bucket else Err bad_path
       end.

(** The queue of objects that wait for [checkQOut], with the meters. *)
Record AwsVpc := mkAwsVpc { av_recs : list (list AWSLogLine); av_Flows : Z; av_DroppedFlows : Z }.
Definition recs_capacity : nat := 1000.
(** [processObject], of an object that was read: without lines nothing is queued. *)
Definition send_lines (vpc : AwsVpc) (lines : list AWSLogLine) : AwsVpc :=
  match lines with
  | [] => vpc
  | _ =>
      let n := Z.of_nat (length lines) in
      if (length (av_recs vpc) <? recs_capacity)%nat then mkAwsVpc (av_recs vpc ++ [lines]) (av_Flows vpc + n) (av_DroppedFlows vpc)
      else mkAwsVpc (av_recs vpc) (av_Flows vpc) (av_DroppedFlows vpc + n)
  end.
Definition processObject (now : Z) (Unmarshal : string -> option (list KinesisLog)) (raws : list string) (vpc : AwsVpc) : outcome AwsVpc :=
  lines ← read_lines now Unmarshal raws; Ok (send_lines vpc lines).

(** One object that leaves the queue in [checkQOut]. *)
Definition to_flows (topo : option AWSTopology) (lines : list AWSLogLine) : outcome (list JCHF) :=
  fold_out (fun js l => j ← AWS_ToFlow topo l; Ok (js ++ [j])) [] lines.

(** ** A function of the cloud *)

(** An event names an object; [gets] reads its lines or fails. *)
Record S3EventRecord := mkS3EventRecord { s3_EventName : string; s3_Bucket : string; s3_Key : string }.
(** How a call of the function ends, with what it handed to the sender: a channel from which nobody
    will ever send blocks it for good. *)
Inductive lambda_end := Returned (err : option error) (sent : list (list JCHF)) | BlockedOnRecs (sent : list (list JCHF)).
Section Lambda.
  Context (now : Z) (Unmarshal : string -> option (list KinesisLog)) (gets : string -> string -> sum error (list string)).
  Context (topo : option AWSTopology).
Fixpoint handleLamdba (vpc : AwsVpc) (sent : list (list JCHF)) (records : list S3EventRecord) : outcome (AwsVpc * lambda_end) :=
  match records with
  | [] => Ok (vpc, Returned None sent)
  | record :: records =>
      if negb (String.eqb (s3_EventName record) "ObjectCreated:Put") then handleLamdba vpc sent records
      else match gets (s3_Bucket record) (s3_Key record) with
           | inl err => Ok (vpc, Returned (Some err) sent)
           | inr raws =>
               vpc ← processObject now Unmarshal raws vpc;
               match av_recs vpc with
               | [] => Ok (vpc, BlockedOnRecs sent)
               | rec :: recs =>
                   dst ← to_flows topo rec;
                   handleLamdba (mkAwsVpc recs (av_Flows vpc) (av_DroppedFlows vpc)) (sent ++ [dst]) records
               end
           end
  end.
End Lambda.

(** ** Properties: a file is read by the names of its columns *)

(** A word of a line, and a line of words. *)
Definition log_word (w : string) : Prop := w <> ""%string /\ sforall graphic w = true.
Definition line_text (words : list string) : string := strings_Join words " ".

Lemma find_space_none c r : graphic c = true -> List.find (fun p => HasPrefix (String c r) p) spaces = None.
Proof.
  intros Hc. assert (forallb (fun p => match p with "" => false | String d _ => negb (graphic d) end)%string spaces = true) as Hsp by (vm_compute; reflexivity).
  revert Hsp. generalize spaces as l. induction l as [|p l IH]; intros Hsp; [done|]. cbn [forallb] in Hsp. apply andb_true_iff in Hsp as [Hp Hsp].
  cbn [List.find]. destruct p as [|d p]; [done|]. unfold HasPrefix. cbn [String.prefix].
  destruct (Ascii.ascii_dec d c) as [->|]; [|by apply IH]. by rewrite Hc in Hp.
Qed.
Lemma fields_word w : forall fuel cur s, sforall graphic w = true ->
  fields_from (String.length w + fuel) cur (w +:+ s) = fields_from fuel (cur +:+ w) s.
Proof.
  induction w as [|c w IH]; intros fuel cur s Hw; [by rewrite sapp_nil_r|].
  cbn [sforall] in Hw. apply andb_true_iff in Hw as [Hc Hw].
  change (String c w +:+ s) with (String c (w +:+ s)). cbn [String.length Nat.add fields_from]. rewrite find_space_none by done.
  rewrite IH by done. f_equal. by rewrite sapp_assoc.
Qed.
Lemma Fields_line words : Forall log_word words -> strings_Fields (line_text words) = words.
Proof.
  unfold strings_Fields, line_text. induction 1 as [|w words [Hne Hg] Hws IH]; [done|].
  assert (forall fuel, fields_from fuel w "" = [w]) as Hend by (intros [|]; by destruct w).
  destruct words as [|v words].
  - cbn [strings_Join]. rewrite <-(sapp_nil_r w) at 2. rewrite <-(Nat.add_0_r (String.length w)), fields_word by done. apply Hend.
  - change (strings_Join (w :: v :: words) " ") with (w +:+ String " "%char (strings_Join (v :: words) " ")).
    rewrite slength_app. rewrite fields_word by done. cbn [String.length fields_from].
    assert (forall r, List.find (fun p => HasPrefix (String " "%char r) p) spaces = Some " "%string) as -> by (intros [|]; reflexivity).
    cbn [String.length sdrop]. change ("" +:+ w) with w. rewrite IH. by destruct w.
Qed.

(** The first column of a name, which is its only one. *)
Definition column (hdr row : list string) (key : string) : string := default ""%string ((list_to_map (zip hdr row) : gmap string string) !! key).

Lemma colMap_lookup hdr col i : NoDup hdr ->
  (list_to_map (reverse (imap (fun i col => (col, i)) hdr)) : gmap string nat) !! col = Some i <-> hdr !! i = Some col.
Proof.
  intros Hn. rewrite <-elem_of_list_to_map.
  - rewrite elem_of_reverse, elem_of_lookup_imap. split; [by intros (j & x & [= -> ->] & Hx)|]. intros Hi. by exists i, col.
  - rewrite fmap_reverse, reverse_Permutation. replace ((imap (fun i col => (col, i)) hdr).*1) with hdr; [done|].
    apply list_eq. intros j. rewrite list_lookup_fmap, list_lookup_imap. by destruct (hdr !! j).
Qed.
Lemma header_lookup hdr key : NoDup hdr -> key ∈ AWS_FLOW_FIELDS ->
  NewAwsHeader hdr !! key = (list_to_map (reverse (imap (fun i col => (col, i)) hdr)) : gmap string nat) !! key.
Proof.
  intros _ Hk. unfold NewAwsHeader. set (cm := list_to_map _). generalize dependent AWS_FLOW_FIELDS. intros fields Hk.
  assert (forall m : AwsLineMap, foldl (fun m field => match cm !! field with Some i => <[field := i]> m | None => m end) m fields !! key =
    if decide (key ∈ fields) then from_option Some (m !! key) (cm !! key) else m !! key) as Hall.
  { clear Hk. induction fields as [|f fields IH]; intros m; cbn [foldl].
    - by rewrite decide_False by (by apply not_elem_of_nil).
    - rewrite IH. destruct (decide (key ∈ fields)) as [Hin|Hni].
      + rewrite decide_True by set_solver. destruct (cm !! key) eqn:E; [done|]. cbn. destruct (cm !! f) eqn:Ef; [|done].
        rewrite lookup_insert_ne; [done|]. congruence.
      + destruct (decide (key = f)) as [->|Hne].
        * rewrite decide_True by set_solver. destruct (cm !! f); [by rewrite lookup_insert_eq|done].
        * rewrite decide_False by set_solver. destruct (cm !! f); [by rewrite lookup_insert_ne|done]. }
  rewrite Hall, decide_True, lookup_empty by done. by destruct (cm !! key).
Qed.

Lemma getString_column hdr row key : NoDup hdr -> length row = length hdr -> key ∈ AWS_FLOW_FIELDS ->
  getString (NewAwsHeader hdr) row key = Ok (column hdr row key).
Proof.
  intros Hn Hl Hk. unfold getString, column. rewrite header_lookup by done.
  destruct (_ !! key) as [i|] eqn:E.
  - apply colMap_lookup in E; [|done]. destruct (row !! i) as [s|] eqn:Er.
    + assert ((list_to_map (zip hdr row) : gmap string string) !! key = Some s) as ->; [|done].
      apply elem_of_list_to_map_1; [rewrite fst_zip by lia; done|]. apply list_elem_of_lookup. exists i. by rewrite lookup_zip_with, E, Er.
    + apply lookup_ge_None in Er. apply lookup_lt_Some in E. lia.
  - assert ((list_to_map (zip hdr row) : gmap string string) !! key = None) as ->; [|done].
    apply not_elem_of_list_to_map_1. rewrite fst_zip by lia. intros Hin. apply list_elem_of_lookup in Hin as [i Hi].
    by rewrite (proj2 (colMap_lookup hdr key i Hn) Hi) in E.
Qed.

(** The flow that a row describes, by the names of the columns. *)
Definition uint32_of (s : string) : Z := (uint32 (Atoi_value s))%go.
Definition uint64_of (s : string) : Z := (uint64 (Atoi_value s))%go.
Definition flow2 (c : string -> string) : AWSLogLine := {|
  aw_Version := 2; aw_AccountID := c "account-id"; aw_InterfaceID := c "interface-id"; aw_SrcAddr := ParseIP (c "srcaddr");
  aw_DstAddr := ParseIP (c "dstaddr"); aw_SrcPktAddr := []; aw_DstPktAddr := []; aw_TcpFlags := 0; aw_SrcPort := uint32_of (c "srcport");
  aw_DstPort := uint32_of (c "dstport"); aw_Protocol := uint32_of (c "protocol"); aw_Packets := uint64_of (c "packets");
  aw_Bytes := uint64_of (c "bytes"); aw_StartTime := Atoi_value (c "start"); aw_EndTime := Atoi_value (c "end"); aw_Action := c "action";
  aw_Status := c "log-status"; aw_Sample := 0; aw_VPCID := ""; aw_SubnetID := ""; aw_InstanceID := ""; aw_Region := ""; aw_AzID := "";
  aw_SublocationType := ""; aw_SublocationID := ""; aw_SrcPktService := ""; aw_DstPktService := ""; aw_FlowDirection := "";
  aw_TrafficPath := "" |}%string.
Definition flow5 (version : Z) (c : string -> string) : AWSLogLine := {|
  aw_Version := version; aw_AccountID := c "account-id"; aw_InterfaceID := c "interface-id"; aw_SrcAddr := ParseIP (c "srcaddr");
  aw_DstAddr := ParseIP (c "dstaddr"); aw_SrcPktAddr := ParseIP (c "pkt-srcaddr"); aw_DstPktAddr := ParseIP (c "pkt-dstaddr");
  aw_TcpFlags := uint32_of (c "tcp-flags"); aw_SrcPort := uint32_of (c "srcport"); aw_DstPort := uint32_of (c "dstport");
  aw_Protocol := uint32_of (c "protocol"); aw_Packets := uint64_of (c "packets"); aw_Bytes := uint64_of (c "bytes");
  aw_StartTime := Atoi_value (c "start"); aw_EndTime := Atoi_value (c "end"); aw_Action := c "action"; aw_Status := c "log-status";
  aw_Sample := 0; aw_VPCID := c "vpc-id"; aw_SubnetID := c "subnet-id"; aw_InstanceID := c "instance-id"; aw_Region := c "region";
  aw_AzID := c "az-id"; aw_SublocationType := c "sublocation-type"; aw_SublocationID := c "sublocation-id";
  aw_SrcPktService := c "pkt-src-aws-service"; aw_DstPktService := c "pkt-dst-aws-service"; aw_FlowDirection := c "flow-direction";
  aw_TrafficPath := c "traffic-path" |}%string.
(** Version 2 drops what is a week old, the others date it to now. *)
Definition flows_of_row (now : Z) (c : string -> string) : list AWSLogLine :=
  let v := uint32_of (c "version"%string) in
  if v =? 2 then if long_ago now (Atoi_value (c "start"%string)) then [] else [flow2 c]
  else let l := flow5 (if (3 <=? v) && (v <=? 5) then v else 5) c in
       [if long_ago now (Atoi_value (c "start"%string)) then set_StartTime (now / Second) l else l].

Ltac columns :=
  rewrite !getString_column; [|first [assumption | lia | apply (bool_decide_unpack _); vm_compute; exact I]..].

Lemma getUint32_column hdr row key : NoDup hdr -> length row = length hdr -> key ∈ AWS_FLOW_FIELDS ->
  getUint32 (NewAwsHeader hdr) row key = Ok (uint32_of (column hdr row key)).
Proof. intros. unfold getUint32. by rewrite getString_column. Qed.

Lemma V2_columns hdr row : NoDup hdr -> length row = length hdr ->
  NewAwsFromV2_line (NewAwsHeader hdr) row = Ok (flow2 (column hdr row)).
Proof. intros Hn Hl. unfold NewAwsFromV2_line, getIP, getUint32, getUint64, getTime. columns. reflexivity. Qed.
Lemma V345_columns v hdr row : NoDup hdr -> length row = length hdr ->
  NewAwsFromV345_line (NewAwsHeader hdr) row v = Ok (flow5 v (column hdr row)).
Proof. intros Hn Hl. unfold NewAwsFromV345_line, getIP, getUint32, getUint64, getTime. columns. reflexivity. Qed.

(** A header: words, each once, one of which is a column that is known. *)
Record log_header (hdr : list string) : Prop := {
  hd_words : Forall log_word hdr;
  hd_long : (MIN_AWS_FIELD <= length hdr)%nat;
  hd_once : NoDup hdr;
  hd_known : exists f, f ∈ hdr /\ f ∈ AWS_FLOW_FIELDS;
  hd_plain : strings_Contains (line_text hdr) baseSplitAWS = false
}.
Record log_row (hdr row : list string) : Prop := {
  rw_words : Forall log_word row;
  rw_long : length row = length hdr;
  rw_plain : strings_Contains (line_text row) baseSplitAWS = false;
  rw_data : head row <> Some AWS_VERSION
}.

Section Files.
  Context (now : Z) (Unmarshal : string -> option (list KinesisLog)).

Lemma header_known hdr : log_header hdr -> (size (NewAwsHeader hdr) =? 0)%nat = false.
Proof using Type.
  intros [_ _ Hn (f & Hf & Hk) _]. apply Nat.eqb_neq. intros Hz. apply map_size_empty_inv in Hz.
  apply list_elem_of_lookup in Hf as [i Hi]. apply colMap_lookup in Hi; [|done]. rewrite <-header_lookup, Hz in Hi by done. by rewrite lookup_empty in Hi.
Qed.
Lemma read_header hdr st : log_header hdr -> st.1 = ∅ -> read_line now Unmarshal st (line_text hdr) = Ok (NewAwsHeader hdr, st.2).
Proof using Type.
  intros [Hw Hl Hn Hk Hp] Hs. unfold read_line. cbn [NewAws]. unfold NewAws_with. rewrite Fields_line, Hp, Hs by done.
  destruct (Nat.ltb_spec (length hdr) MIN_AWS_FIELD); [lia|]. destruct (String.eqb _ _); [by rewrite app_nil_r|].
  rewrite map_size_empty. cbn [Nat.eqb negb andb]. by rewrite app_nil_r.
Qed.
Lemma read_row hdr row res : log_header hdr -> log_row hdr row ->
  read_line now Unmarshal (NewAwsHeader hdr, res) (line_text row) = Ok (NewAwsHeader hdr, res ++ flows_of_row now (column hdr row)).
Proof using Type.
  intros Hh [Hw Hl Hp Hd]. pose proof (header_known hdr Hh) as Hz. destruct Hh as [_ Hlong Hn _ _]. unfold read_line. cbn [fst snd].
  assert (NewAws now Unmarshal 2 (NewAwsHeader hdr) (line_text row) = Ok (flows_of_row now (column hdr row), NewAwsHeader hdr)) as ->; [|done].
  cbn [NewAws]. unfold NewAws_with at 1. rewrite Fields_line, Hp, Hz by done. destruct (Nat.ltb_spec (length row) MIN_AWS_FIELD); [lia|].
  assert (String.eqb (default ""%string (head row)) AWS_VERSION = false) as ->.
  { destruct row as [|w row]; [done|]. cbn in Hd |- *. apply String.eqb_neq. congruence. }
  cbn [andb]. rewrite (getUint32_column hdr row AWS_VERSION Hn Hl) by (unfold AWS_FLOW_FIELDS; by left). cbn [mbind outcome_bind].
  unfold flows_of_row, NewAwsFromV2, NewAwsFromV345. rewrite V2_columns, !V345_columns by done. cbn [mbind outcome_bind].
  set (v := uint32_of _). destruct (v =? 2); [done|]. by destruct ((3 <=? v) && (v <=? 5)).
Qed.
End Files.

(** C38: A log with a header and rows of as many words gives, for each row in order, the flow whose
    fields are in the columns of their names, in whatever order the columns are; only rows of
    version 2 that are more than a week old give none. *)
Theorem read_lines_by_name now Unmarshal hdr rows :
  log_header hdr -> Forall (log_row hdr) rows ->
  read_lines now Unmarshal (map line_text (hdr :: rows)) = Ok (flat_map (fun row => flows_of_row now (column hdr row)) rows).
Proof.
  intros Hh Hr. unfold read_lines. cbn [map fold_out]. rewrite read_header by done. cbn [mbind outcome_bind snd].
  assert (forall res, fold_out (read_line now Unmarshal) (NewAwsHeader hdr, res) (map line_text rows) =
    Ok (NewAwsHeader hdr, res ++ flat_map (fun row => flows_of_row now (column hdr row)) rows)) as ->; [|done].
  induction Hr as [|row rows Hrow _ IH]; intros res; cbn [map fold_out flat_map]; [by rewrite app_nil_r|].
  rewrite read_row by done. cbn [mbind outcome_bind]. by rewrite IH, app_assoc.
Qed.

Definition sample_header : list string :=
  ["bytes"; "version"; "srcaddr"; "dstaddr"; "start"; "unknown"; "flow-direction"]%string.
Definition sample_row : list string := ["1500"; "5"; "10.0.0.1"; "10.0.0.2"; "1700000000"; "-"; "egress"]%string.
Lemma read_lines_by_name_witness :
  exists l, read_lines (1700000001 * Second) (fun _ => None) (map line_text [sample_header; sample_row]) = Ok [l] /\
    aw_Bytes l = 1500 /\ aw_FlowDirection l = "egress"%string /\ aw_SrcAddr l = ParseIP "10.0.0.1" /\ aw_AccountID l = ""%string.
Proof.
  rewrite (read_lines_by_name _ _ sample_header [sample_row]).
  - eexists. split; [vm_compute; reflexivity|]. vm_compute. repeat split.
  - split.
    + repeat (constructor; [split; [discriminate|reflexivity]|]). constructor.
    + vm_compute. lia.
    + apply (bool_decide_unpack _). vm_compute. exact I.
    + exists "version"%string. split; apply (bool_decide_unpack _); vm_compute; exact I.
    + vm_compute. reflexivity.
  - constructor; [|constructor]. split.
    + repeat (constructor; [split; [discriminate|reflexivity]|]). constructor.
    + reflexivity.
    + vm_compute. reflexivity.
    + discriminate.
Defined.

(** A row that ends before a column of the header stops the agent. *)
Example short_row_panics :
  read_lines 0 (fun _ => None) [line_text (sample_header ++ ["action"%string]); line_text sample_row] = Panic "index out of range".
Proof. vm_compute. reflexivity. Qed.

(** The text of an event of a stream is never parsed: that is for texts outside of streams only. *)
Lemma kinesis_never_recurses now newAws lineMap raw st l : strings_Contains raw baseSplitAWS = true ->
  version_of l = None -> kinesis_event now newAws lineMap raw st l = Ok st.
Proof. intros Hr Hv. destruct st. unfold kinesis_event. by rewrite Hv, Hr, andb_false_r. Qed.
Lemma NewAws_fuel now Unmarshal n lineMap raw : (2 <= n)%nat -> NewAws now Unmarshal n lineMap raw = NewAws now Unmarshal 2 lineMap raw.
Proof.
  intros Hn. destruct n as [|[|n]]; [lia..|].
  change (NewAws_with now Unmarshal (NewAws now Unmarshal (S n)) lineMap raw = NewAws_with now Unmarshal (NewAws now Unmarshal 1) lineMap raw).
  generalize (NewAws now Unmarshal (S n)), (NewAws now Unmarshal 1). unfold NewAws_with. intros f g. destruct (strings_Contains raw baseSplitAWS) eqn:Hr; [|done].
  assert (NewAwsFromKinesis now Unmarshal f lineMap raw = NewAwsFromKinesis now Unmarshal g lineMap raw) as Hk; [|by rewrite Hk].
  unfold NewAwsFromKinesis. f_equal. generalize (strings_Split raw baseSplitAWS) as docs. generalize (@nil AWSLogLine) as res.
  intros res docs. revert res. induction docs as [|b docs IH]; intros res; [done|]. cbn [fold_out].
  assert (kinesis_document now Unmarshal f lineMap raw res b = kinesis_document now Unmarshal g lineMap raw res b) as ->.
  { unfold kinesis_document. destruct (_ <? _)%nat; [done|]. destruct (Unmarshal _) as [events|]; [|done]. f_equal.
    generalize (res, @nil AWSLogLine) as st. induction events as [|l events IHe]; intros st; [done|]. cbn [fold_out].
    assert (kinesis_event now f lineMap raw st l = kinesis_event now g lineMap raw st l) as ->.
    { destruct st. unfold kinesis_event. destruct (version_of l); [done|]. by rewrite Hr, andb_false_r. }
    destruct (kinesis_event now g lineMap raw st l); cbn; [apply IHe|done..]. }
  destruct (kinesis_document now Unmarshal g lineMap raw res b); cbn; [apply IH|done..].
Qed.

(** ** Properties: records *)

(** A topology in which all that is looked up is there. *)
Definition whole_tags (tags : list (option string * option string)) : Prop := Forall (fun t => is_Some t.1 /\ is_Some t.2) tags.
Record complete (topo : AWSTopology) : Prop := {
  cp_tries a : (exists o, FindV4 topo a = Ok o) /\ exists o, FindV6 topo a = Ok o;
  cp_subnets k s : Subnets topo !! k = Some s ->
    is_Some (sn_VpcId s) /\ whole_tags (sn_Tags s) /\
    exists a z, sn_AvailabilityZoneId s = Some a /\ AvailabilityZones topo !! a = Some z /\ is_Some (az_ZoneName z) /\ is_Some (az_RegionName z);
  cp_vpcs k tags : Vpcs topo !! k = Some tags -> whole_tags tags
}.

Lemma lookupTopo_ok ip topo : (forall t, topo = Some t -> complete t) ->
  exists s v a, lookupTopo ip topo = Ok (s, v, a) /\ whole_tags (default [] v) /\ whole_tags (default [] (sn_Tags <$> s)) /\
    (forall sn, s = Some sn -> is_Some (sn_VpcId sn) /\ is_Some (a ≫= az_ZoneName) /\ is_Some (a ≫= az_RegionName)).
Proof.
  intros Hc. assert (whole_tags []) as Hnil by constructor. unfold lookupTopo. destruct topo as [t|]; [|by exists None, None, None].
  destruct (Hc t eq_refl) as [Ht Hs Hv].
  assert (exists o, match To4 ip with Some ip4 => FindV4 t ip4 | None => FindV6 t ip end = Ok o) as [o ->].
  { destruct (To4 ip); apply Ht. }
  cbn [mbind outcome_bind]. destruct (o ≫= _) as [s|] eqn:E; [|by exists None, None, None].
  destruct o as [k|]; [|done]. cbn in E. destruct (Hs k s E) as ((v & Ev) & Htags & a & z & Ea & Ez & Hz1 & Hz2).
  rewrite Ev, Ea. cbn [deref mbind outcome_bind]. rewrite Ez. exists (Some s), (Vpcs t !! v), (Some z). split; [done|].
  split; [destruct (Vpcs t !! v) eqn:Evp; [by eapply Hv|done]|]. split; [done|]. intros sn [= <-]. split; [by rewrite Ev|by split].
Qed.
Lemma tags_of_ok vpc subnet m : whole_tags (default [] vpc) -> whole_tags (default [] (sn_Tags <$> subnet)) ->
  exists m', tags_of vpc subnet m = Ok m'.
Proof.
  intros Hv Hs. assert (forall l m, whole_tags l -> exists m', fold_out put_tag_of m l = Ok m') as Hall.
  { intros l. induction l as [|[k v] l IH]; intros m0 Hl; [by eexists|]. apply Forall_cons in Hl as [[[k' Hk] [v' Hv']] Hl]. cbn in Hk, Hv'. subst k v.
    cbn. by apply IH. }
  unfold tags_of. destruct (Hall _ m Hv) as [m1 ->]. cbn. by apply Hall.
Qed.
Lemma other_end_ok prefix s a m : (forall sn, s = Some sn -> is_Some (sn_VpcId sn) /\ is_Some (a ≫= az_ZoneName) /\ is_Some (a ≫= az_RegionName)) ->
  exists m', other_end prefix s a m = Ok m'.
Proof.
  intros Hs. unfold other_end. destruct s as [sn|]; [|by eexists]. destruct (Hs sn eq_refl) as ([v ->] & [z ->] & [r ->]). by eexists.
Qed.

(** A line gives a record, which counts its bytes and packets once, out when it was logged as egress
    and else in. *)
Lemma AWS_ToFlow_total topo l : (forall t, topo = Some t -> complete t) ->
  exists j, AWS_ToFlow topo l = Ok j /\
    (InBytes j, InPkts j, OutBytes j, OutPkts j) =
      (if is_egress l then (0, 0, aw_Bytes l, aw_Packets l) else (aw_Bytes l, aw_Packets l, 0, 0)) /\
    (SrcAddr j, DstAddr j, L4SrcPort j, L4DstPort j, Timestamp j) =
      (getAddr (aw_SrcAddr l), getAddr (aw_DstAddr l), aw_SrcPort l, aw_DstPort l, aw_StartTime l).
Proof.
  intros Hc. unfold AWS_ToFlow.
  destruct (lookupTopo_ok (aw_SrcAddr l) topo Hc) as (ss & sv & sa & -> & Hsv & Hss & Hse). cbn [mbind outcome_bind].
  destruct (lookupTopo_ok (aw_DstAddr l) topo Hc) as (ds & dv & da & -> & Hdv & Hds & Hde). cbn [mbind outcome_bind fst snd].
  destruct (is_egress l).
  - destruct (other_end_ok "dest" ds da (own_end "source" l (line_strs l)) Hde) as [m ->]. cbn [mbind outcome_bind].
    destruct (tags_of_ok sv ss m Hsv Hss) as [m' ->]. cbn [mbind outcome_bind]. eexists. split; [reflexivity|]. by split.
  - destruct (other_end_ok "source" ss sa (own_end "dest" l (line_strs l)) Hse) as [m ->]. cbn [mbind outcome_bind].
    destruct (tags_of_ok dv ds m Hdv Hds) as [m' ->]. cbn [mbind outcome_bind]. eexists. split; [reflexivity|]. by split.
Qed.

(** A subnet in a zone that was not fetched stops the agent. *)
Example unknown_zone_panics :
  let topo := mkAWSTopology (fun _ => Ok (Some "s"%string)) (fun _ => Ok None) {["s"%string := mkSubnet (Some "v"%string) (Some "z"%string) []]} ∅ ∅ in
  AWS_ToFlow (Some topo) (flow2 (fun k => if String.eqb k "srcaddr" then "10.0.0.1" else "")%string) = Panic "nil pointer dereference".
Proof. vm_compute. reflexivity. Qed.

(** ** Properties: the function of the cloud *)

Section LambdaProperties.
  Context (now : Z) (Unmarshal : string -> option (list KinesisLog)) (gets : string -> string -> sum error (list string)).
  Context (topo : option AWSTopology).

(** An object that was put, with lines and the records that they give. *)
Definition put_with (record : S3EventRecord) (dst : list JCHF) : Prop :=
  s3_EventName record = "ObjectCreated:Put"%string /\
  exists raws lines, gets (s3_Bucket record) (s3_Key record) = inr raws /\ read_lines now Unmarshal raws = Ok lines /\
    lines <> [] /\ to_flows topo lines = Ok dst.

(** When every object has flows, each gives one batch, in order, and the queue is empty again. *)
Lemma handleLamdba_sends records dsts : Forall2 put_with records dsts ->
  forall flows dropped sent, exists flows',
    handleLamdba now Unmarshal gets topo (mkAwsVpc [] flows dropped) sent records =
      Ok (mkAwsVpc [] flows' dropped, Returned None (sent ++ dsts)).
Proof using Type.
  induction 1 as [|record dst records dsts (Hput & raws & lines & Hg & Hl & Hne & Hd) _ IH]; intros flows dropped sent.
  - exists flows. by rewrite app_nil_r.
  - cbn [handleLamdba]. rewrite Hput, Hg, String.eqb_refl. cbn [negb]. unfold processObject. rewrite Hl.
    cbn [mbind outcome_bind]. destruct lines as [|l lines]; [done|]. cbn [send_lines av_recs length Nat.ltb Nat.leb app recs_capacity].
    rewrite Hd. cbn [mbind outcome_bind av_Flows av_DroppedFlows].
    destruct (IH (flows + Z.of_nat (length (l :: lines))) dropped (sent ++ [dst])) as [flows' E]. exists flows'.
    rewrite <-app_assoc in E. exact E.
Qed.

(** An object without flows blocks the call for good, and what comes after it is never read. *)
Lemma handleLamdba_blocks record raws records flows dropped sent :
  s3_EventName record = "ObjectCreated:Put"%string -> gets (s3_Bucket record) (s3_Key record) = inr raws ->
  read_lines now Unmarshal raws = Ok [] ->
  handleLamdba now Unmarshal gets topo (mkAwsVpc [] flows dropped) sent (record :: records) =
    Ok (mkAwsVpc [] flows dropped, BlockedOnRecs sent).
Proof using Type. intros Hput Hg Hl. cbn [handleLamdba]. rewrite Hput, Hg. unfold processObject. by rewrite Hl. Qed.
End LambdaProperties.
