(* ===== verification/VpcGcp.v ===== *)
(** * Flow logs of Google's cloud (src/pkg/inputs/vpc/gcp: types.go and cp.go)

    A message of the subscription is a JSON document of a flow, which becomes a record; the records
    are sent in batches.  JSON and the clock are arguments; the seek of the subscription is left
    out. *)
From Stdlib Require Import SpecFloat.
From S2P Require Import Prelude GoIO GoStrings GoFloat KT IC ToJCHF FlowInput.

Definition RECV_WINDOW : Z := -1 * 5 * 60 * Second.
Definition GCP_VPC_TYPE : string := "GCP_VPC".
Definition FromGCP : string := "gcppubsub".

(** ** Data; times are nanoseconds of Unix *)

Record Connection := mkConnection { cn_DestIP : string; cn_DestPort : Z; cn_Protocol : Z; cn_SrcIP : string; cn_SrcPort : Z }.
Record Instance_ := mkInstance { in_ProjectID : string; in_Region : string; in_VMName : string; in_Zone : string }.
Record VPC := mkVPC { vp_ProjectID : string; vp_SubnetworkName : string; vp_Name : string }.
Record Location := mkLocation { lo_City : string; lo_Continent : string; lo_Country : string; lo_Region : string }.
Record Payload := mkPayload {
  py_Bytes : string;
  py_Connection : option Connection;
  py_DestInstance : option Instance_;
  py_SrcInstance : option Instance_;
  py_DestVPC : option VPC;
  py_SrcVPC : option VPC;
  py_EndTime : Z;
  py_Pkts : string;
  py_Reporter : string;
  py_RTT : string;
  py_SrcLocation : option Location;
  py_DstLocation : option Location;
  py_StartTime : Z
}.
Record Label := mkLabel { lb_Location : string; lb_ProjectID : string; lb_SubnetworkID : string; lb_SubnetworkName : string }.
Record Resource := mkResource { rs_Labels : option Label; rs_Type : string }.
Record GCELogLine := mkGCELogLine {
  ge_InsertID : string;
  ge_Payload : option Payload;
  ge_LogName : string;
  ge_RecvTs : Z;
  ge_Resource : option Resource
}.

(** [Time.Unix]. *)
Definition unix_of (ns : Z) : Z := ns / Second.

(** A message is kept when its flow ended in the last five minutes. *)
Definition IsValid (now : Z) (m : GCELogLine) : bool :=
  match ge_Payload m with Some p => now + RECV_WINDOW <? py_EndTime p | None => false end.

Definition has_vm (i : option Instance_) : bool := match i with Some i => negb (String.eqb (in_VMName i) "") | None => false end.
Definition IsIn (p : Payload) : bool := has_vm (py_SrcInstance p).
Definition GCE_IsInternal (p : Payload) : bool := has_vm (py_SrcInstance p) && has_vm (py_DestInstance p).
(** [GetVMName], which recovers from nil pointers with an error and no name. *)
Definition GetVMName (m : GCELogLine) : string :=
  match ge_Payload m with
  | Some p => match if IsIn p then py_SrcInstance p else py_DestInstance p with Some i => in_VMName i | None => "" end
  | None => ""
  end.

Definition getUInt64 (s : string) : Z := (uint64 (Atoi_value s))%go.
Definition getInt64 (s : string) : Z := Atoi_value s.

(** ** Records: what each part saves in the texts *)

Definition Label_Save (l : option Label) (m : gmap string string) : gmap string string :=
  match l with
  | Some l => <["label_subnetwork_name" := lb_SubnetworkName l]> (<["label_subnetwork_id" := lb_SubnetworkID l]>
                (<["label_project_id" := lb_ProjectID l]> (<["label_location" := lb_Location l]> m)))
  | None => m
  end.
Definition Resource_Save (r : option Resource) (m : gmap string string) : gmap string string :=
  match r with Some r => Label_Save (rs_Labels r) (<["type" := rs_Type r]> m) | None => m end.
Definition Instance_Save (direction : string) (i : option Instance_) (m : gmap string string) : gmap string string :=
  match i with
  | Some i => <[direction +:+ "instance_zone" := in_Zone i]> (<[direction +:+ "instance_vm_name" := in_VMName i]>
                (<[direction +:+ "instance_region" := in_Region i]> (<[direction +:+ "instance_project_id" := in_ProjectID i]> m)))
  | None => m
  end.
Definition VPC_Save (direction : string) (v : option VPC) (m : gmap string string) : gmap string string :=
  match v with
  | Some v => <[direction +:+ "vpc_name" := vp_Name v]> (<[direction +:+ "vpc_subnetwork_name" := vp_SubnetworkName v]>
                (<[direction +:+ "vpc_project_id" := vp_ProjectID v]> m))
  | None => m
  end.
Definition Location_Save (direction : string) (l : option Location) (m : gmap string string) : gmap string string :=
  match l with
  | Some l => <[direction +:+ "region" := lo_Region l]> (<[direction +:+ "country" := lo_Country l]>
                (<[direction +:+ "continent" := lo_Continent l]> (<[direction +:+ "city" := lo_City l]> m)))
  | None => m
  end.
Definition payload_strs (p : Payload) (m : gmap string string) : gmap string string :=
  Location_Save "src_" (py_SrcLocation p) (Location_Save "dst_" (py_DstLocation p) (VPC_Save "src_" (py_SrcVPC p)
    (VPC_Save "dst_" (py_DestVPC p) (Instance_Save "src_" (py_SrcInstance p) (Instance_Save "dst_" (py_DestInstance p)
    (<["reporter"%string := py_Reporter p]> m)))))).
Definition Connection_Save (c : option Connection) (j : JCHF) : JCHF :=
  match c with
  | Some c => set_L4DstPort ((uint32 (cn_DestPort c))%go) (set_L4SrcPort ((uint32 (cn_SrcPort c))%go)
                (set_Protocol (default ""%string (PROTO_NAMES !! (uint16 (uint32 (cn_Protocol c))%go)%go))
                (set_SrcAddr (cn_SrcIP c) (set_DstAddr (cn_DestIP c) j))))
  | None => j
  end.
Definition payload_ints (p : Payload) : gmap string Z :=
  {["rtt_msec" := getInt64 (py_RTT p); "start_time" := unix_of (py_StartTime p); "end_time" := unix_of (py_EndTime p)]}%string.
Definition Payload_Save (p : option Payload) (j : JCHF) : JCHF :=
  match p with
  | Some p => Connection_Save (py_Connection p) (set_Timestamp (unix_of (py_StartTime p)) (set_InBytes (getUInt64 (py_Bytes p))
                (set_InPkts (getUInt64 (py_Pkts p)) j)))
  | None => j
  end.

(** [ToFlow]; its own recover never has anything to recover. *)
Definition GCP_ToFlow (flowSample : Z) (m : GCELogLine) : JCHF :=
  let strs : gmap string string := {["kt.from" := FromGCP; "type" := GCP_VPC_TYPE; "insert_id" := ge_InsertID m; "log_name" := ge_LogName m]}%string in
  let strs := Resource_Save (ge_Resource m) (match ge_Payload m with Some p => payload_strs p strs | None => strs end) in
  let ints : gmap string Z := {["rcv_time"%string := unix_of (ge_RecvTs m)]} in
  let ints := match ge_Payload m with Some p => payload_ints p ∪ ints | None => ints end in
  Payload_Save (ge_Payload m) (set_ApplySample true (set_SampleRate flowSample (set_DeviceName (GetVMName m) (set_Provider ProviderVPC
    (set_EventType KENTIK_EVENT_TYPE (set_CustomBigInt (Some ints) (set_CustomInt (Some ∅) (set_CustomStr (Some strs) NewJCHF)))))))).

(** ** Sampling *)

(** [int(f)] and the remainder loop, of which each step makes the remainder smaller. *)
Fixpoint reduce_terms (fuel : nat) (x y c : Z) : option Z :=
  match fuel with
  | O => None
  | S fuel => if c <=? 0 then Some x else reduce_terms fuel c x (Z.rem c x)
  end.
Definition hundred_thousandth : float64 := float64_div (float64_of 1) (float64_of 100000).
(** [getSampleRate]; [None] when the fuel does not suffice. *)
Definition getSampleRate (fuel : nat) (sr : float64) : option Z :=
  if SFltb (float64_of 1) sr then Some 1
  else if SFltb sr hundred_thousandth then Some 100000
  else
    let x := int64_of_float (float64_mul sr (float64_of 10000)) in
    let y := int64_of_float (float64_of 10000) in
    x ← reduce_terms fuel x y (Z.rem x y);
    Some ((uint32 (int64_of_float (float64_div (float64_of 10000) (float64_of x))))%go).

(** ** The subscription and the driver *)

(** A message, by JSON, of which an invalid one is only counted. *)
Record GcpVpc := mkGcpVpc { gv_recs : list GCELogLine; gv_FlowsIn : Z; gv_Invalid : Z; gv_Error : Z }.
Definition receive_message (Unmarshal : string -> option GCELogLine) (now : Z) (v : GcpVpc) (data : string) : GcpVpc :=
  match Unmarshal data with
  | None => mkGcpVpc (gv_recs v) (gv_FlowsIn v) (gv_Invalid v) (gv_Error v + 1)
  | Some m =>
      if IsValid now m then mkGcpVpc (gv_recs v ++ [m]) (gv_FlowsIn v + 1) (gv_Invalid v) (gv_Error v)
      else mkGcpVpc (gv_recs v) (gv_FlowsIn v + 1) (gv_Invalid v + 1) (gv_Error v)
  end.

Inductive gcp_event := Rec (m : GCELogLine) | SendBatch.
(** [checkQOut]: the batch and what was sent. *)
Definition checkQOut_step (maxBatchSize flowSample : Z) (s : list JCHF * list (list JCHF)) (e : gcp_event) : list JCHF * list (list JCHF) :=
  let '(batch, sent) := s in
  match e with
  | Rec m =>
      let batch := batch ++ [GCP_ToFlow flowSample m] in
      if maxBatchSize <=? Z.of_nat (length batch) then ([], sent ++ [batch]) else (batch, sent)
  | SendBatch => if (0 <? length batch)%nat then ([], sent ++ [batch]) else (batch, sent)
  end.
Definition checkQOut (maxBatchSize flowSample : Z) (es : list gcp_event) : list JCHF * list (list JCHF) :=
  foldl (checkQOut_step maxBatchSize flowSample) ([], []) es.

(** ** Properties: batches *)

Definition as_run (flowSample : Z) (e : gcp_event) : run_event :=
  match e with Rec m => Local (GCP_ToFlow flowSample m) | SendBatch => SendTick end.
Definition recs_of (es : list gcp_event) : list GCELogLine := omap (fun e => match e with Rec m => Some m | SendBatch => None end) es.

(** The driver is that of flows from the network, on records that were made from messages. *)
Lemma checkQOut_is_run max flowSample es : checkQOut max flowSample es = run_driver max (map (as_run flowSample) es).
Proof.
  unfold checkQOut, run_driver. generalize (@nil JCHF, @nil (list JCHF)) as st. induction es as [|e es IH]; intros st; [done|].
  cbn [foldl map]. rewrite IH. f_equal. by destruct st, e.
Qed.
Lemma locals_recs flowSample es : locals (map (as_run flowSample) es) = map (GCP_ToFlow flowSample) (recs_of es).
Proof. induction es as [|[m|] es IH]; [done|..]; unfold locals, recs_of in *; cbn; by rewrite ?IH. Qed.

(** Whatever messages and ticks come, every message gives one record, in order, in batches that are
    neither empty nor longer than the limit. *)
Lemma gcp_batches max flowSample es : 0 < max ->
  let '(batch, sent) := checkQOut max flowSample es in
  concat sent ++ batch = map (GCP_ToFlow flowSample) (recs_of es) /\
  Forall (fun b => b <> [] /\ Z.of_nat (length b) <= max) sent /\ Z.of_nat (length batch) < max.
Proof.
  intros Hmax. rewrite checkQOut_is_run, <-locals_recs. exact (run_driver_batches max Hmax (map (as_run flowSample) es)).
Qed.

(** ** Properties: sampling *)

Lemma reduce_terms_keeps n x : 1 <= x <= 10000 -> reduce_terms (S (S n)) x 10000 (Z.rem x 10000) = Some x.
Proof.
  intros Hx. destruct (decide (x = 10000)) as [->|Hne]; [done|]. rewrite Z.rem_small by lia. cbn [reduce_terms].
  destruct (Z.leb_spec x 0); [lia|]. rewrite Z.rem_same by lia. done.
Qed.
Definition shares : list Z := map Z.of_nat (seq 1 (Z.to_nat 10000)).
Lemma rates : forallb (fun x => (uint32 (int64_of_float (float64_div (float64_of 10000) (float64_of x))))%go =? 10000 / x) shares = true.
Proof. vm_compute. reflexivity. Qed.
Lemma shares_in x : 1 <= x <= 10000 -> In x shares.
Proof. intros Hx. apply in_map_iff. exists (Z.to_nat x). split; [lia|]. apply in_seq. generalize (Z2Nat.id 10000). lia. Qed.

(** A share of at least one in ten thousand gives the number of flows that one stands for, rounded
    down; the loop for the greatest divisor never finds a smaller one than the share itself. *)
Lemma getSampleRate_inverse n sr : SFltb (float64_of 1) sr = false -> SFltb sr hundred_thousandth = false ->
  let x := int64_of_float (float64_mul sr (float64_of 10000)) in
  1 <= x <= 10000 -> getSampleRate (S (S n)) sr = Some (10000 / x).
Proof.
  intros H1 H2 x Hx. unfold getSampleRate. rewrite H1, H2. fold x.
  change (int64_of_float (float64_of 10000)) with 10000. rewrite reduce_terms_keeps by done. cbn [mbind option_bind]. f_equal.
  pose proof (proj1 (forallb_forall _ _) rates x (shares_in x Hx)) as Hr. by apply Z.eqb_eq.
Qed.
(** Between that and one in a hundred thousand the share is cut to nothing, and the rate is zero. *)
Example tiny_share : getSampleRate 2 (float64_div (float64_of 5) (float64_of 100000)) = Some 0.
Proof. vm_compute. reflexivity. Qed.

(** The type of the record is that of the resource, when there is one. *)
Example resource_type : (CustomStr (GCP_ToFlow 1 (mkGCELogLine "i" None "l" 0 (Some (mkResource None "gce_subnetwork")))) ≫= (.!! "type"%string)) =
  Some "gce_subnetwork"%string.
Proof. vm_compute. reflexivity. Qed.
