(* ===== verification/SnmpTypes.v ===== *)
(** * SNMP types of the agent (src/pkg/kt/snmp.go)

    A [Mib] tells how one object of a device is polled: its names, its enumeration, its table,
    how often it is read and on which condition it is kept.  Values of PDUs are Go values of
    an [interface{}], of which the type matters only as far as the switches of the program look
    at it.  Scripts that enrich metrics are the user's files, so what they do is a class. *)
From S2P Require Import Prelude GoIO GoStrings KT.

(** ** Values of PDUs

    An integer stands for itself whichever integer type of Go holds it. *)
Inductive Value :=
| VNil
| VInt (z : Z)
| VString (s : string)
| VBytes (bs : bytes)
| VOther.

#[export] Instance Value_eq_dec : EqDecision Value.
Proof. solve_decision. Defined.

(** The types of PDUs the program names; [OtherType] is any other. *)
Inductive Asn1BER :=
| Integer
| OctetString
| BitString
| IPAddress
| ObjectIdentifier
| OtherType.

#[export] Instance Asn1BER_eq_dec : EqDecision Asn1BER.
Proof. solve_decision. Defined.

Record SnmpPDU := mkPDU {
  pdu_Name : string;
  pdu_Type : Asn1BER;
  pdu_Value : Value
}.

(** ** Conditions *)

Record MibCondition := mkMibCondition {
  TargetName : string;
  TargetValue : Z;
  TargetString : string
}.

(** [MibCondition.Check]: the integer cases convert to [int64]; bytes fall to the default. *)
Definition Check (mc : option MibCondition) (input : Value) : bool :=
  match mc with
  | None => false
  | Some mc =>
      match input with
      | VInt z => (int64 z)%go =? TargetValue mc
      | VString s => String.eqb s (TargetString mc)
      | VNil | VBytes _ | VOther => false
      end
  end.

(** ** Mibs *)

Record Mib := mkMib {
  mb_Oid : string;
  mb_Name : string;
  mb_Tag : string;
  mb_Enum : option (gmap string Z);
  mb_EnumRev : option (gmap Z string);
  mb_Conversion : string;
  mb_Mib : string;
  mb_Table : string;
  mb_PollDur : Z;
  mb_lastPoll : Z;
  mb_OtherTables : option (gmap string bool);
  mb_Format : string;
  mb_Condition : option MibCondition;
  mb_Script : option string;
  mb_WalkTable : bool;
  mb_TableOid : string
}.

(** A mib of which only names are known. *)
Definition zero_Mib : Mib :=
  mkMib "" "" "" None None "" "" "" 0 0 None "" None None false "".

Definition set_lastPoll (t : Z) (mb : Mib) : Mib :=
  mkMib (mb_Oid mb) (mb_Name mb) (mb_Tag mb) (mb_Enum mb) (mb_EnumRev mb) (mb_Conversion mb)
    (mb_Mib mb) (mb_Table mb) (mb_PollDur mb) t (mb_OtherTables mb) (mb_Format mb)
    (mb_Condition mb) (mb_Script mb) (mb_WalkTable mb) (mb_TableOid mb).

Definition set_OtherTables (m : option (gmap string bool)) (mb : Mib) : Mib :=
  mkMib (mb_Oid mb) (mb_Name mb) (mb_Tag mb) (mb_Enum mb) (mb_EnumRev mb) (mb_Conversion mb)
    (mb_Mib mb) (mb_Table mb) (mb_PollDur mb) (mb_lastPoll mb) m (mb_Format mb)
    (mb_Condition mb) (mb_Script mb) (mb_WalkTable mb) (mb_TableOid mb).

(** [Mib.GetName]: the tag before the name. *)
Definition GetName (mb : option Mib) : string :=
  match mb with
  | None => "missing_mib"
  | Some mb => if String.eqb (mb_Tag mb) "" then mb_Name mb else mb_Tag mb
  end.

(** [Mib.IsPollReady] at the time [now], in nanoseconds since the zero time. *)
Definition IsPollReady (now : Z) (mb : Mib) : bool * Mib :=
  if mb_PollDur mb =? 0 then (true, mb)
  else if mb_lastPoll mb + mb_PollDur mb <? now then (true, set_lastPoll now mb)
  else (false, mb).

(** [Mib.Extend]: the tables another mib of the same object is in. *)
Definition Extend (mb nm : Mib) : Mib :=
  let tables := match mb_OtherTables mb with
                | None => {[ mb_Table mb := true ]}
                | Some m => m
                end in
  set_OtherTables (Some (<[mb_Table nm := true]> tables)) mb.

(** ** Values of metadata *)

(** Names of events, providers and tags, and the seconds that a poll is early. *)
Definition KENTIK_EVENT_SNMP_METADATA : string := "KSnmpInterfaceMetadata".
Definition KENTIK_EVENT_SNMP_TRAP : string := "KSnmpTrap".
Definition ProviderDefault : string := "kentik-default".
Definition ProviderRouter : string := "kentik-router".
Definition ProviderTrapUnknown : string := "kentik-trap-device".
Definition UserTagPrefix : string := "tags.".
Definition PollAdjustTime : Z := 5.
Definition InvalidEnum : string := "invalid enum".

Record MetaValue := mkMetaValue {
  mv_TableName : string;
  mv_TableNames : gmap string bool;
  mv_StringVal : string;
  mv_IntVal : Z;
  mv_Mib : option Mib
}.

(** [NewMetaValue]; it reads [mib.Table] without a check, so a nil mib panics. *)
Definition NewMetaValue (mib : option Mib) (sv : string) (iv : Z) : outcome MetaValue :=
  match mib with
  | None => Panic "nil pointer dereference"
  | Some mb =>
      let '(sv, iv) := match mb_EnumRev mb with
                       | Some rev => (default InvalidEnum (rev !! iv), 0)
                       | None => (sv, iv)
                       end in
      let names : gmap string bool :=
        match mb_OtherTables mb with
        | Some others => ((fun _ => true) <$> others) ∪ {[ mb_Table mb := true ]}
        | None => {[ mb_Table mb := true ]}
        end in
      Ok (mkMetaValue (mb_Table mb) names (strings_TrimSpace sv) iv (Some mb))
  end.

Inductive MetaGo := MetaInt (z : Z) | MetaStr (s : string).

(** [MetaValue.GetValue]: a zero integer shows as the string. *)
Definition GetValue (mv : MetaValue) : MetaGo :=
  if mv_IntVal mv =? 0 then MetaStr (mv_StringVal mv) else MetaInt (mv_IntVal mv).

Definition GetScript (mv : MetaValue) : option string := mv_Mib mv ≫= mb_Script.

(** ** Enrichers *)

(** What a script may change of a row: its integers, its strings and the information on
    metrics. *)
Definition Row : Type := gmap string Z * gmap string string * gmap string MetricInfo.

Class Enricher := EnrichMetric : string -> string -> string -> Row -> Row.

(** ** Properties *)

(** A mib with a period is ready at most once in each period. *)
Lemma IsPollReady_spaced now now' mb mb' :
  0 < mb_PollDur mb -> IsPollReady now mb = (true, mb') ->
  now' <= now + mb_PollDur mb ->
  IsPollReady now' mb' = (false, mb').
Proof.
  unfold IsPollReady. intros Hd H Hn. destruct (mb_PollDur mb =? 0) eqn:E; [lia|].
  destruct (_ <? _) eqn:El in H; [|done]. injection H as <-. cbn. rewrite E.
  destruct (Z.ltb_spec (now + mb_PollDur mb) now'); [lia|done].
Qed.

Lemma IsPollReady_same now mb : mb_PollDur (IsPollReady now mb).2 = mb_PollDur mb /\
  GetName (Some (IsPollReady now mb).2) = GetName (Some mb) /\
  mb_Format (IsPollReady now mb).2 = mb_Format mb.
Proof. unfold IsPollReady. by repeat destruct (Z.ltb _ _), (Z.eqb _ _). Qed.

Example Check1 : map (Check (Some (mkMibCondition "State" 3 "up")))
  [VInt 3; VInt 4; VString "up"; VBytes [117; 112]; VNil]
  = [true; false; true; false; false].
Proof. vm_compute. reflexivity. Qed.

Example NewMetaValue1 :
  (mv ← NewMetaValue (Some (set_OtherTables (Some {["b" := true]}) zero_Mib)) " x " 0; Ok (GetValue mv))
  = Ok (MetaStr "x").
Proof. vm_compute. reflexivity. Qed.
