(* ===== verification/SnmpConfig.v ===== *)
(** * Configuration of the SNMP input (src/pkg/kt/snmp.go)

    What a YAML file says of devices, with secrets that are written as references and must be
    written back as such, and the tags of devices: their own, those of a provider and those for
    all.  The YAML library is an argument: a node is what it decodes to as each type that the code
    tries.  The environment and the stores of secrets are arguments too. *)
From S2P Require Import Prelude GoIO GoStrings KT SnmpTypes.

(** ** Ranges over a map that the body changes

    Each entry that is there at the start and was not removed before is visited; entries that the
    body adds may be visited too, and so may be those that it removes and adds again.  [visits]
    is the order, a list of keys in which a key may occur more than once. *)
Definition range_keys {V} (visits : gmap string V -> list string) (body : string -> V -> gmap string V -> gmap string V)
    (m : gmap string V) : gmap string V :=
  foldl (fun m' k => match m' !! k with Some v => body k v m' | None => m' end) m (visits m).
Definition fair {V} (visits : gmap string V -> list string) : Prop := forall m k, is_Some (m !! k) -> In k (visits m).

(** A relation between the keys that are done and the map, which the body keeps. *)
Lemma range_keys_inv {V} visits (body : string -> V -> gmap string V -> gmap string V) (R : gset string -> gmap string V -> Prop) m :
  R ∅ m ->
  (forall seen m' k, R seen m' -> R ({[k]} ∪ seen) (match m' !! k with Some v => body k v m' | None => m' end)) ->
  R (list_to_set (visits m)) (range_keys visits body m).
Proof.
  intros H0 Hstep. unfold range_keys. generalize (visits m) as l. intros l.
  assert (forall seen m', R seen m' ->
    R (list_to_set l ∪ seen) (foldl (fun m' k => match m' !! k with Some v => body k v m' | None => m' end) m' l)) as Hall.
  { induction l as [|k l IH]; intros seen m' Hr; cbn [foldl list_to_set].
    - by rewrite (left_id_L ∅ _).
    - apply (Hstep _ _ k) in Hr. apply IH in Hr.
      replace ({[k]} ∪ list_to_set l ∪ seen) with (list_to_set l ∪ ({[k]} ∪ seen)) by set_solver. done. }
  specialize (Hall _ _ H0). by rewrite (right_id_L ∅ _) in Hall.
Qed.

(** ** Secrets *)

Definition AwsSmPrefix : string := "aws.sm.".
Definition AzureKVPrefix : string := "azure.kv.".
Definition GCPSmPrefix : string := "gcp.sm.".

(** [s[2 : len(s)-1]], of a text that starts with a dollar sign and a brace. *)
Definition in_braces (s : string) : outcome string :=
  if (String.length s <? 3)%nat then Panic "slice bounds out of range" else Ok (String.substring 2 (String.length s - 3) s).

Record SecureToken := mkSecureToken { tk_origStr : string; tk_Token : string }.

Record V3SNMPConfig := mkV3SNMPConfig {
  UserName : string;
  AuthenticationProtocol : string;
  AuthenticationPassphrase : string;
  PrivacyProtocol : string;
  PrivacyPassphrase : string;
  ContextEngineID : string;
  ContextName : string;
  useGlobal : bool;
  v3_origStr : string;
  origConf : option (gmap string string)
}.
Definition zero_V3 : V3SNMPConfig := mkV3SNMPConfig "" "" "" "" "" "" "" false "" None.

(** The fields of type string that can be set, by their names. *)
Definition v3_fields (a : V3SNMPConfig) : list (string * string) := [
  ("UserName", UserName a);
  ("AuthenticationProtocol", AuthenticationProtocol a);
  ("AuthenticationPassphrase", AuthenticationPassphrase a);
  ("PrivacyProtocol", PrivacyProtocol a);
  ("PrivacyPassphrase", PrivacyPassphrase a);
  ("ContextEngineID", ContextEngineID a);
  ("ContextName", ContextName a)]%string.
Definition set_v3_fields (f : string -> string -> string) (a : V3SNMPConfig) : V3SNMPConfig :=
  mkV3SNMPConfig (f "UserName" (UserName a)) (f "AuthenticationProtocol" (AuthenticationProtocol a))
    (f "AuthenticationPassphrase" (AuthenticationPassphrase a)) (f "PrivacyProtocol" (PrivacyProtocol a))
    (f "PrivacyPassphrase" (PrivacyPassphrase a)) (f "ContextEngineID" (ContextEngineID a))
    (f "ContextName" (ContextName a)) (useGlobal a) (v3_origStr a) (origConf a).
Definition set_origStr (s : string) (a : V3SNMPConfig) : V3SNMPConfig :=
  mkV3SNMPConfig (UserName a) (AuthenticationProtocol a) (AuthenticationPassphrase a) (PrivacyProtocol a)
    (PrivacyPassphrase a) (ContextEngineID a) (ContextName a) (useGlobal a) s (origConf a).
Definition set_useGlobal (b : bool) (a : V3SNMPConfig) : V3SNMPConfig :=
  mkV3SNMPConfig (UserName a) (AuthenticationProtocol a) (AuthenticationPassphrase a) (PrivacyProtocol a)
    (PrivacyPassphrase a) (ContextEngineID a) (ContextName a) b (v3_origStr a) (origConf a).
Definition set_origConf (m : option (gmap string string)) (a : V3SNMPConfig) : V3SNMPConfig :=
  mkV3SNMPConfig (UserName a) (AuthenticationProtocol a) (AuthenticationPassphrase a) (PrivacyProtocol a)
    (PrivacyPassphrase a) (ContextEngineID a) (ContextName a) (useGlobal a) (v3_origStr a) m.

(** Arista's configuration, which has no references inside. *)
Record EAPIConfig := mkEAPIConfig {
  ea_Host : string;
  ea_Username : string;
  ea_Password : string;
  ea_Transport : string;
  ea_Port : Z;
  ea_origStr : string
}.

(** A node of YAML, by what it decodes to as a structure and as a text; and what is encoded. *)
Record Node (A : Type) := mkNode { as_struct : option A; as_text : option string }.
Arguments mkNode {A} _ _.
Arguments as_struct {A} _.
Arguments as_text {A} _.
Definition yaml_error : error := Errorf "yaml" [].

Section Secrets.
  Context (Getenv loadViaAWSSecrets loadViaAzureKeyVault loadViaGCPSecrets : string -> string).

Definition after (p s : string) : string := sdrop (String.length p) s.

Definition SecureToken_Unmarshal (orig : string) : outcome SecureToken :=
  new ← (if HasPrefix orig "${" then v ← in_braces orig; Ok (Getenv v)
         else if HasPrefix orig AwsSmPrefix then Ok (loadViaAWSSecrets (after AwsSmPrefix orig))
         else if HasPrefix orig AzureKVPrefix then Ok (loadViaAzureKeyVault (after AzureKVPrefix orig))
         else if HasPrefix orig GCPSmPrefix then Ok (loadViaGCPSecrets (after GCPSmPrefix orig))
         else Ok orig);
  Ok (mkSecureToken orig new).
Definition SecureToken_Marshal (t : SecureToken) : string := tk_origStr t.

(** The loop over the fields: what a field becomes, and the references by field. *)
Definition v3_field (sval : string) : outcome (string * option string) :=
  if HasPrefix sval "${" then v ← in_braces sval; Ok (Getenv v, Some sval)
  else if HasPrefix sval AwsSmPrefix then Ok (loadViaAWSSecrets (after AwsSmPrefix sval), Some sval)
  else Ok (sval, None).
Definition v3_step (st : V3SNMPConfig * gmap string string) (field : string * string) :
    outcome (V3SNMPConfig * gmap string string) :=
  '(v, orig) ← v3_field field.2;
  Ok (set_v3_fields (fun n x => if String.eqb n field.1 then v else x) st.1,
      match orig with Some s => <[field.1 := s]> st.2 | None => st.2 end).

(** A configuration that is a text: all of it from the environment or from a store. *)
Definition v3_text (yaml : string -> option V3SNMPConfig) (single : string) : outcome V3SNMPConfig :=
  let decoded raw := match yaml raw with Some c => Ok c | None => Err yaml_error end in
  conf ← (if String.eqb single "@global_v3" then Ok (set_useGlobal true zero_V3)
          else if HasPrefix single "${" then v ← in_braces single; decoded (Getenv v)
          else if HasPrefix single AwsSmPrefix then decoded (loadViaAWSSecrets (after AwsSmPrefix single))
          else if HasPrefix single AzureKVPrefix then decoded (loadViaAzureKeyVault (after AzureKVPrefix single))
          else if HasPrefix single GCPSmPrefix then decoded (loadViaGCPSecrets (after GCPSmPrefix single))
          else Ok zero_V3);
  Ok (set_origStr single conf).

Definition V3SNMPConfig_Unmarshal (yaml : string -> option V3SNMPConfig) (node : Node V3SNMPConfig) : outcome V3SNMPConfig :=
  match as_struct node with
  | None => match as_text node with Some single => v3_text yaml single | None => Err yaml_error end
  | Some conf =>
      '(conf, orig) ← fold_out v3_step (conf, ∅) (v3_fields conf);
      Ok (if (0 <? size orig)%nat then set_origConf (Some orig) conf else conf)
  end.

(** What is encoded, a text or a structure; and the configuration after the call, which puts the
    references back into it. *)
Definition V3SNMPConfig_Marshal (a : V3SNMPConfig) : (string + V3SNMPConfig) * V3SNMPConfig :=
  if negb (String.eqb (v3_origStr a) "") then (inl (v3_origStr a), a)
  else
    let a := match origConf a with
             | Some orig => set_v3_fields (fun n x => default x (orig !! n)) a
             | None => a
             end in
    (inr a, a).

Definition InheritGlobal (a : option V3SNMPConfig) : bool := match a with Some a => useGlobal a | None => false end.

Definition EAPIConfig_Unmarshal (yaml : string -> option EAPIConfig) (node : Node EAPIConfig) : outcome EAPIConfig :=
  match as_struct node, as_text node with
  | Some conf, _ => Ok conf
  | None, None => Err yaml_error
  | None, Some single =>
      let decoded raw := match yaml raw with Some c => Ok c | None => Err yaml_error end in
      conf ← (if HasPrefix single "${" then v ← in_braces single; decoded (Getenv v)
              else if HasPrefix single AwsSmPrefix then decoded (loadViaAWSSecrets (after AwsSmPrefix single))
              else Ok (mkEAPIConfig "" "" "" "" 0 ""));
      Ok (mkEAPIConfig (ea_Host conf) (ea_Username conf) (ea_Password conf) (ea_Transport conf) (ea_Port conf) single)
  end.
Definition EAPIConfig_Marshal (a : EAPIConfig) : string + EAPIConfig :=
  if String.eqb (ea_origStr a) "" then inr a else inl (ea_origStr a).
End Secrets.

(** ** Devices *)

Record SnmpDeviceConfig := mkSnmpDeviceConfig {
  dc_DeviceName : string;
  dc_DeviceIP : string;
  dc_Community : string;
  dc_UseV1 : bool;
  dc_V3 : option V3SNMPConfig;
  dc_Debug : bool;
  dc_SampleRate : Z;
  dc_Port : Z;
  dc_OID : string;
  dc_Description : string;
  dc_Checked : Z;
  dc_MibProfile : string;
  dc_Provider : string;
  dc_FlowOnly : bool;
  dc_PingOnly : bool;
  dc_UserTags : option (gmap string string);
  dc_ExpectedDevTags : Z;
  dc_DiscoveredMibs : list string;
  dc_PollTimeSec : Z;
  dc_PollTimeoutSec : Z;
  dc_TimeoutMS : Z;
  dc_Retries : Z;
  dc_EngineID : string;
  dc_MatchAttr : option (gmap string string);
  dc_MonitorAdminShut : bool;
  dc_NoUseBulkWalkAll : bool;
  dc_InstrumentationName : string;
  dc_RunPing : bool;
  dc_PingSec : Z;
  dc_PurgeDevice : Z;
  dc_NoCheckIncreasing : bool;
  dc_allUserTags : option (gmap string string)
}.

Definition set_dc_UserTags (v : option (gmap string string)) (d : SnmpDeviceConfig) : SnmpDeviceConfig :=
  mkSnmpDeviceConfig (dc_DeviceName d) (dc_DeviceIP d) (dc_Community d) (dc_UseV1 d) (dc_V3 d) (dc_Debug d)
    (dc_SampleRate d) (dc_Port d) (dc_OID d) (dc_Description d) (dc_Checked d) (dc_MibProfile d) (dc_Provider d)
    (dc_FlowOnly d) (dc_PingOnly d) v (dc_ExpectedDevTags d) (dc_DiscoveredMibs d) (dc_PollTimeSec d)
    (dc_PollTimeoutSec d) (dc_TimeoutMS d) (dc_Retries d) (dc_EngineID d) (dc_MatchAttr d) (dc_MonitorAdminShut d)
    (dc_NoUseBulkWalkAll d) (dc_InstrumentationName d) (dc_RunPing d) (dc_PingSec d) (dc_PurgeDevice d)
    (dc_NoCheckIncreasing d) (dc_allUserTags d).
Definition set_dc_MatchAttr (v : option (gmap string string)) (d : SnmpDeviceConfig) : SnmpDeviceConfig :=
  mkSnmpDeviceConfig (dc_DeviceName d) (dc_DeviceIP d) (dc_Community d) (dc_UseV1 d) (dc_V3 d) (dc_Debug d)
    (dc_SampleRate d) (dc_Port d) (dc_OID d) (dc_Description d) (dc_Checked d) (dc_MibProfile d) (dc_Provider d)
    (dc_FlowOnly d) (dc_PingOnly d) (dc_UserTags d) (dc_ExpectedDevTags d) (dc_DiscoveredMibs d) (dc_PollTimeSec d)
    (dc_PollTimeoutSec d) (dc_TimeoutMS d) (dc_Retries d) (dc_EngineID d) v (dc_MonitorAdminShut d)
    (dc_NoUseBulkWalkAll d) (dc_InstrumentationName d) (dc_RunPing d) (dc_PingSec d) (dc_PurgeDevice d)
    (dc_NoCheckIncreasing d) (dc_allUserTags d).
Definition set_dc_allUserTags (v : option (gmap string string)) (d : SnmpDeviceConfig) : SnmpDeviceConfig :=
  mkSnmpDeviceConfig (dc_DeviceName d) (dc_DeviceIP d) (dc_Community d) (dc_UseV1 d) (dc_V3 d) (dc_Debug d)
    (dc_SampleRate d) (dc_Port d) (dc_OID d) (dc_Description d) (dc_Checked d) (dc_MibProfile d) (dc_Provider d)
    (dc_FlowOnly d) (dc_PingOnly d) (dc_UserTags d) (dc_ExpectedDevTags d) (dc_DiscoveredMibs d) (dc_PollTimeSec d)
    (dc_PollTimeoutSec d) (dc_TimeoutMS d) (dc_Retries d) (dc_EngineID d) (dc_MatchAttr d) (dc_MonitorAdminShut d)
    (dc_NoUseBulkWalkAll d) (dc_InstrumentationName d) (dc_RunPing d) (dc_PingSec d) (dc_PurgeDevice d)
    (dc_NoCheckIncreasing d) v.
Definition set_dc_V3 (v : option V3SNMPConfig) (d : SnmpDeviceConfig) : SnmpDeviceConfig :=
  mkSnmpDeviceConfig (dc_DeviceName d) (dc_DeviceIP d) (dc_Community d) (dc_UseV1 d) v (dc_Debug d) (dc_SampleRate d)
    (dc_Port d) (dc_OID d) (dc_Description d) (dc_Checked d) (dc_MibProfile d) (dc_Provider d) (dc_FlowOnly d)
    (dc_PingOnly d) (dc_UserTags d) (dc_ExpectedDevTags d) (dc_DiscoveredMibs d) (dc_PollTimeSec d)
    (dc_PollTimeoutSec d) (dc_TimeoutMS d) (dc_Retries d) (dc_EngineID d) (dc_MatchAttr d) (dc_MonitorAdminShut d)
    (dc_NoUseBulkWalkAll d) (dc_InstrumentationName d) (dc_RunPing d) (dc_PingSec d) (dc_PurgeDevice d)
    (dc_NoCheckIncreasing d) (dc_allUserTags d).
Definition set_dc_Checked (v : Z) (d : SnmpDeviceConfig) : SnmpDeviceConfig :=
  mkSnmpDeviceConfig (dc_DeviceName d) (dc_DeviceIP d) (dc_Community d) (dc_UseV1 d) (dc_V3 d) (dc_Debug d)
    (dc_SampleRate d) (dc_Port d) (dc_OID d) (dc_Description d) v (dc_MibProfile d) (dc_Provider d) (dc_FlowOnly d)
    (dc_PingOnly d) (dc_UserTags d) (dc_ExpectedDevTags d) (dc_DiscoveredMibs d) (dc_PollTimeSec d)
    (dc_PollTimeoutSec d) (dc_TimeoutMS d) (dc_Retries d) (dc_EngineID d) (dc_MatchAttr d) (dc_MonitorAdminShut d)
    (dc_NoUseBulkWalkAll d) (dc_InstrumentationName d) (dc_RunPing d) (dc_PingSec d) (dc_PurgeDevice d)
    (dc_NoCheckIncreasing d) (dc_allUserTags d).
Definition set_dc_Provider (v : string) (d : SnmpDeviceConfig) : SnmpDeviceConfig :=
  mkSnmpDeviceConfig (dc_DeviceName d) (dc_DeviceIP d) (dc_Community d) (dc_UseV1 d) (dc_V3 d) (dc_Debug d)
    (dc_SampleRate d) (dc_Port d) (dc_OID d) (dc_Description d) (dc_Checked d) (dc_MibProfile d) v (dc_FlowOnly d)
    (dc_PingOnly d) (dc_UserTags d) (dc_ExpectedDevTags d) (dc_DiscoveredMibs d) (dc_PollTimeSec d)
    (dc_PollTimeoutSec d) (dc_TimeoutMS d) (dc_Retries d) (dc_EngineID d) (dc_MatchAttr d) (dc_MonitorAdminShut d)
    (dc_NoUseBulkWalkAll d) (dc_InstrumentationName d) (dc_RunPing d) (dc_PingSec d) (dc_PurgeDevice d)
    (dc_NoCheckIncreasing d) (dc_allUserTags d).

(** A device of which only a name is known. *)
Definition named_device (name : string) : SnmpDeviceConfig :=
  mkSnmpDeviceConfig name "" "" false None false 0 0 "" "" 0 "" "" false false None 0 [] 0 0 0 0 "" None false false
    "" false 0 0 false None.

(** [DeviceMap.UnmarshalYAML]: the devices, or names of files. *)
Record DevicesNode := mkDevicesNode {
  dn_map : option (gmap string SnmpDeviceConfig);
  dn_list : option (list string);
  dn_text : option string
}.
Definition DeviceMap_Unmarshal (n : DevicesNode) : outcome (gmap string SnmpDeviceConfig) :=
  match dn_map n, dn_list n, dn_text n with
  | Some m, _, _ => Ok m
  | None, Some l, _ => Ok (list_to_map (imap (fun i s => ("file_" +:+ Itoa (Z.of_nat i), named_device s)) l))
  | None, None, Some s => Ok {["file_0"%string := named_device s]}
  | None, None, None => Err yaml_error
  end.
(** [StringArray.UnmarshalYAML]. *)
Definition StringArray_Unmarshal (l : option (list string)) (s : option string) : outcome (list string) :=
  match l, s with
  | Some l, _ => Ok l
  | None, Some s => Ok [s]
  | None, None => Err yaml_error
  end.

(** Tags of the device of before, but for those it has and those that all have. *)
Definition inherit_tags (new old : option (gmap string string)) (all : gmap string string) : option (gmap string string) :=
  match new, old with
  | _, None => new
  | _, Some old => Some (default ∅ new ∪ filter (fun kv => all !! kv.1 = None) old)
  end.
(** [UpdateFrom], with the tags and attributes that the global section has. *)
Definition UpdateFrom (d old : SnmpDeviceConfig) (globalTags globalMatch : gmap string string) : SnmpDeviceConfig :=
  mkSnmpDeviceConfig (dc_DeviceName d) (dc_DeviceIP d) (dc_Community d) (dc_UseV1 d) (dc_V3 d) (dc_Debug d)
    (if 0 <? dc_SampleRate old then dc_SampleRate old else dc_SampleRate d) (dc_Port d) (dc_OID d) (dc_Description d)
    (dc_Checked d) (if HasPrefix (dc_MibProfile old) "!" then dc_MibProfile old else dc_MibProfile d) (dc_Provider d)
    (dc_FlowOnly old || dc_FlowOnly d) (dc_PingOnly old || dc_PingOnly d)
    (inherit_tags (dc_UserTags d) (dc_UserTags old) globalTags)
    (if dc_ExpectedDevTags old =? 0 then dc_ExpectedDevTags d else dc_ExpectedDevTags old) (dc_DiscoveredMibs d)
    (if 0 <? dc_PollTimeSec old then dc_PollTimeSec old else dc_PollTimeSec d)
    (if 0 <? dc_PollTimeoutSec old then dc_PollTimeoutSec old else dc_PollTimeoutSec d)
    (if 0 <? dc_TimeoutMS old then dc_TimeoutMS old else dc_TimeoutMS d)
    (if 0 <? dc_Retries old then dc_Retries old else dc_Retries d) (dc_EngineID d)
    (inherit_tags (dc_MatchAttr d) (dc_MatchAttr old) globalMatch) (dc_MonitorAdminShut old || dc_MonitorAdminShut d)
    (dc_NoUseBulkWalkAll old || dc_NoUseBulkWalkAll d) (dc_InstrumentationName d) (dc_RunPing old || dc_RunPing d)
    (dc_PingSec d) (if dc_PurgeDevice old =? 0 then dc_PurgeDevice d else dc_PurgeDevice old) (dc_NoCheckIncreasing d)
    (dc_allUserTags d).

(** ** Tags *)

Definition tag_key (k : string) : string := if HasPrefix k UserTagPrefix then k else UserTagPrefix +:+ k.
Definition AddUserTag (k v : string) (d : SnmpDeviceConfig) : SnmpDeviceConfig :=
  set_dc_allUserTags (Some (<[tag_key k := v]> (default ∅ (dc_allUserTags d)))) d.

(** [InitUserTags]; [range] is the order of a range over the tags. *)
Definition InitUserTags (range : gmap string string -> list (string * string)) (serviceName : string) (d : SnmpDeviceConfig) :
    outcome SnmpDeviceConfig :=
  if (0 <? dc_ExpectedDevTags d) && negb (Z.of_nat (size (default ∅ (dc_UserTags d))) =? dc_ExpectedDevTags d)
  then Panic "Wrong number of user tags"
  else
    let d := if String.eqb serviceName "ktranslate" then d
             else set_dc_UserTags (Some (<["container_service"%string := serviceName]> (default ∅ (dc_UserTags d)))) d in
    Ok (set_dc_allUserTags (Some (foldl (fun m kv => <[tag_key kv.1 := kv.2]> m) ∅ (range (default ∅ (dc_UserTags d))))) d).
Definition put_user_tags (d : SnmpDeviceConfig) (into : gmap string string) : gmap string string :=
  default ∅ (dc_allUserTags d) ∪ into.
Definition GetUserTags (d : SnmpDeviceConfig) : option (gmap string string) := dc_allUserTags d.

(** ** Tags of providers *)

Definition ProviderToken : string := ":".
Definition ProviderPrefix : string := "provider:".
Definition GlobalProvider : string := "global".
Definition DeviceProvider : string := "device".
Definition prefixed (k : string) : bool := HasPrefix k ProviderPrefix.
Definition prov_key (p k : string) : string := ProviderPrefix +:+ p +:+ ProviderToken +:+ k.

Record ProviderMap := mkProviderMap { pv_UserTags : option (gmap string string); pv_MatchAttr : option (gmap string string) }.
Record SnmpGlobalConfig := mkSnmpGlobalConfig {
  gl_MibsEnabled : list string;
  gl_GlobalV3 : option V3SNMPConfig;
  gl_PurgeDevices : Z;
  gl_UserTags : option (gmap string string);
  gl_MatchAttr : option (gmap string string);
  gl_ProviderMap : gmap string ProviderMap
}.
Definition set_gl_tags (tags match_ : option (gmap string string)) (g : SnmpGlobalConfig) : SnmpGlobalConfig :=
  mkSnmpGlobalConfig (gl_MibsEnabled g) (gl_GlobalV3 g) (gl_PurgeDevices g) tags match_ (gl_ProviderMap g).
Definition set_gl_MibsEnabled (l : list string) (g : SnmpGlobalConfig) : SnmpGlobalConfig :=
  mkSnmpGlobalConfig l (gl_GlobalV3 g) (gl_PurgeDevices g) (gl_UserTags g) (gl_MatchAttr g) (gl_ProviderMap g).

(** What [Init] reads and writes: the global section, the devices and whether it ran before. *)
Record InitState := mkInitState {
  is_Global : SnmpGlobalConfig;
  is_Devices : gmap string SnmpDeviceConfig;
  is_doneInit : bool
}.

Section Init.
  Context (visits : gmap string string -> list string).

(** The loops that move plain keys below a provider. *)
Definition to_provider (p k v : string) (m : gmap string string) : gmap string string :=
  if prefixed k then m else <[prov_key p k := v]> (delete k m).
Definition move_to (p : string) (m : option (gmap string string)) : option (gmap string string) :=
  range_keys visits (to_provider p) <$> m.
Definition copy_from (provider : string) (p g : option (gmap string string)) : option (gmap string string) :=
  match p with
  | None => g
  | Some p => Some (foldl (fun g kv => if prefixed kv.1 then g else <[prov_key provider kv.1 := kv.2]> g) (default ∅ g) (map_to_list p))
  end.

(** [ProviderMap.Init]. *)
Definition ProviderMap_Init (provider : string) (p : ProviderMap) (s : InitState) : InitState :=
  let g := is_Global s in
  let '(g, devices) :=
    if is_doneInit s then (g, is_Devices s)
    else (set_gl_tags (move_to GlobalProvider (gl_UserTags g)) (move_to GlobalProvider (gl_MatchAttr g)) g,
          (fun d => set_dc_MatchAttr (move_to DeviceProvider (dc_MatchAttr d))
                      (set_dc_UserTags (move_to DeviceProvider (dc_UserTags d)) d)) <$> is_Devices s) in
  mkInitState (set_gl_tags (copy_from provider (pv_UserTags p) (gl_UserTags g)) (copy_from provider (pv_MatchAttr p) (gl_MatchAttr g)) g)
    devices true.
End Init.

(** ** Properties: secrets are written back as references *)

Section Roundtrip.
  Context (Getenv AWS Azure GCP : string -> string).

(** What a field becomes in memory. *)
Definition resolved (s : string) : string :=
  if HasPrefix s "${" then Getenv (String.substring 2 (String.length s - 3) s)
  else if HasPrefix s AwsSmPrefix then AWS (after AwsSmPrefix s) else s.
Definition reference (s : string) : option string :=
  if HasPrefix s "${" || HasPrefix s AwsSmPrefix then Some s else None.

Lemma v3_field_ok s : s <> "${"%string -> v3_field Getenv AWS s = Ok (resolved s, reference s).
Proof using Type.
  intros Hs. unfold v3_field, resolved, reference. destruct (HasPrefix s "${") eqn:E; cbn.
  - unfold in_braces. destruct (Nat.ltb_spec (String.length s) 3) as [Hl|]; [|done].
    apply prefix_spec in E as [r ->]. rewrite slength_app in Hl. destruct r; [done|cbn in Hl; lia].
  - by destruct (HasPrefix s AwsSmPrefix).
Qed.

Lemma reference_default s : default (resolved s) (reference s) = s.
Proof using Type. unfold reference, resolved. by destruct (HasPrefix s "${"), (HasPrefix s AwsSmPrefix). Qed.

Definition put_ref (n : string) (o : option string) (m : gmap string string) : gmap string string :=
  match o with Some s => <[n := s]> m | None => m end.
Lemma put_ref_eq n o m : m !! n = None -> put_ref n o m !! n = o.
Proof using Type. destruct o; cbn; [by rewrite lookup_insert_eq|done]. Qed.
Lemma put_ref_ne n n' o m : n <> n' -> put_ref n o m !! n' = m !! n'.
Proof using Type. intros H. destruct o; cbn; [by rewrite lookup_insert_ne|done]. Qed.

Lemma v3_step_ok a m n s : s <> "${"%string -> v3_step Getenv AWS (a, m) (n, s) =
  Ok (set_v3_fields (fun n' x => if String.eqb n' n then resolved s else x) a, put_ref n (reference s) m).
Proof using Type. intros Hs. unfold v3_step. cbn [fst snd]. by rewrite v3_field_ok. Qed.
End Roundtrip.

Lemma set_origConf_any (m : gmap string string) a : origConf a = None ->
  match origConf (if (0 <? size m)%nat then set_origConf (Some m) a else a) with
  | Some orig => set_v3_fields (fun n x => default x (orig !! n)) (if (0 <? size m)%nat then set_origConf (Some m) a else a)
  | None => if (0 <? size m)%nat then set_origConf (Some m) a else a
  end = set_v3_fields (fun n x => default x (m !! n)) (if (0 <? size m)%nat then set_origConf (Some m) a else a).
Proof.
  intros H. destruct (Nat.ltb_spec 0 (size m)) as [|Hz]; [done|]. rewrite H.
  apply Nat.le_0_r, map_size_empty_inv in Hz as ->. unfold set_v3_fields. rewrite !lookup_empty. by destruct a.
Qed.

(** C35: A configuration of SNMP version 3 whose fields may be references to the environment or to a
    store of secrets is written as it was read, references and all, whatever they stand for; while
    it is used the fields have the values of the references, and after it was written they are
    references again. *)
Theorem V3_keeps_references Getenv AWS Azure GCP yaml conf t :
  v3_origStr conf = ""%string -> origConf conf = None ->
  Forall (fun f => f.2 <> "${"%string) (v3_fields conf) ->
  exists a b, V3SNMPConfig_Unmarshal Getenv AWS Azure GCP yaml (mkNode (Some conf) t) = Ok a /\
    v3_fields a = map (fun f => (f.1, resolved Getenv AWS f.2)) (v3_fields conf) /\
    V3SNMPConfig_Marshal a = (inr b, b) /\ v3_fields b = v3_fields conf.
Proof.
  intros Ho Hc Hf. unfold V3SNMPConfig_Unmarshal. cbn [as_struct]. unfold v3_fields in Hf |- * at 1.
  repeat (apply Forall_cons in Hf as [? Hf]). cbn [snd] in *.
  cbn [fold_out]. repeat (rewrite v3_step_ok by done; cbn [mbind outcome_bind]).
  set (m := put_ref "ContextName" _ _).
  match goal with |- context [set_origConf (Some m) ?a] => set (c := a) end.
  assert (v3_fields c = map (fun f => (f.1, resolved Getenv AWS f.2)) (v3_fields conf)) as Hfields by reflexivity.
  assert (origConf c = None /\ v3_origStr c = ""%string) as [Hcc Hco] by by split.
  set (a := if (0 <? size m)%nat then set_origConf (Some m) c else c).
  assert (v3_fields a = v3_fields c /\ v3_origStr a = ""%string) as [Ha Hao].
  { unfold a. destruct (_ <? _)%nat; [split; done|by split]. }
  exists a, (set_v3_fields (fun n x => default x (m !! n)) a). split; [done|]. split; [by rewrite Ha|]. split.
  - unfold V3SNMPConfig_Marshal. rewrite Hao. cbn [String.eqb negb]. unfold a. by rewrite set_origConf_any.
  - unfold v3_fields at 1, set_v3_fields. cbn [UserName AuthenticationProtocol AuthenticationPassphrase PrivacyProtocol
      PrivacyPassphrase ContextEngineID ContextName].
    unfold v3_fields in Ha, Hfields |- *. rewrite Hfields in Ha. cbn [map fst snd] in Ha.
    injection Ha as -> -> -> -> -> -> ->. unfold m.
    repeat f_equal; repeat (rewrite put_ref_ne by done); rewrite put_ref_eq by (repeat (rewrite put_ref_ne by done); done);
      apply reference_default.
Qed.

Lemma V3_keeps_references_witness :
  let conf := mkV3SNMPConfig "bob" "SHA" "${AUTH}" "AES" "aws.sm.priv" "" "" false "" None in
  let env := fun s : string => ("value of " +:+ s)%string in
  exists a b, V3SNMPConfig_Unmarshal env env env env (fun _ => None) (mkNode (Some conf) None) = Ok a /\
    AuthenticationPassphrase a = "value of AUTH"%string /\ PrivacyPassphrase a = "value of priv"%string /\
    V3SNMPConfig_Marshal a = (inr b, b) /\ v3_fields b = v3_fields conf.
Proof.
  intros conf env.
  destruct (V3_keeps_references env env env env (fun _ => None) conf None) as (a & b & E & Hf & Hm & Hb).
  - reflexivity.
  - reflexivity.
  - repeat constructor; discriminate.
  - exists a, b. unfold v3_fields in Hf. injection Hf as H1 H2 H3 H4 H5 H6 H7. repeat split; [exact E| | |exact Hm|exact Hb].
    + rewrite H3. vm_compute. reflexivity.
    + rewrite H5. vm_compute. reflexivity.
Defined.
