(* ===== verification/Scanner.v ===== *)
(** * Lines of a text, as [bufio.Scanner] reads them *)
From S2P Require Import Prelude GoStrings.

Definition newline : string := String (Ascii.ascii_of_nat 10) "".
Definition lines_of (s : string) : list string :=
  match List.rev (strings_Split s newline) with
  | ""%string :: l => List.rev l
  | l => List.rev l
  end.

(** The scanner stops at a line that does not fit its buffer, and drops the return that ends a
    line. *)
Definition MaxScanTokenSize : Z := 64 * 1024.
Definition drop_return (s : string) : string := strings_TrimSuffix s (String (Ascii.ascii_of_nat 13) "").
Fixpoint scanned (l : list string) : list string :=
  match l with
  | [] => []
  | s :: l => if Z.of_nat (String.length s) <? MaxScanTokenSize then drop_return s :: scanned l else []
  end.

(** A line that does not fit the scanner hides every line after it. *)
Lemma scanned_stops a s b : Forall (fun x => Z.of_nat (String.length x) < MaxScanTokenSize) a ->
  MaxScanTokenSize <= Z.of_nat (String.length s) -> scanned (a ++ s :: b) = map drop_return a.
Proof.
  intros Ha Hs. induction Ha as [| x a Hx _ IH]; simpl.
  - destruct (Z.ltb_spec (Z.of_nat (String.length s)) MaxScanTokenSize); [lia | reflexivity].
  - destruct (Z.ltb_spec (Z.of_nat (String.length x)) MaxScanTokenSize); [now rewrite IH | lia].
Qed.
