(* ===== verification/Profiles.v ===== *)
(** * Profiles of devices (src/pkg/inputs/snmp/mibs/profile.go)

    A profile lists the objects that are polled on a kind of device.  Profiles extend one another
    in place, through pointers, so the model keeps a store of them; they are found by the object
    identifier of a system, and give the objects to poll.  YAML, regular expressions, scripts and
    the orders of Go's maps are arguments. *)
From S2P Require Import Prelude GoIO GoStrings KT SnmpTypes.

(** ** Data *)

Record OID := mkOID {
  o_Oid : string;
  o_Name : string;
  o_Enum : option (gmap string Z);
  o_Tag : string;
  o_Desc : string;
  o_Conversion : string;
  o_PollTime : Z;
  o_MatchAttr : list string;
  o_Format : string;
  o_AllowDup : bool;
  o_Condition : string;
  o_Script : string
}.
Definition no_OID : OID := mkOID "" "" None "" "" "" 0 [] "" false "" "".
Definition named_OID (oid name desc : string) : OID := mkOID oid name None "" desc "" 0 [] "" false "" "".

Record Tag := mkTag { t_Column : OID; t_Tag : string; t_Symbol : string; t_Index : Z }.

Record MIB := mkMIB {
  m_Mib : string;
  m_Table : OID;
  m_Symbols : list OID;
  m_MetricTags : list Tag;
  m_ForcedType : string;
  m_Symbol : OID;
  m_IsInterface : bool;
  m_WalkTable : bool;
  m_sortKey : string;
  m_fromExtended : bool
}.

Record Match := mkMatch { mt_Regex : string; mt_Target : string }.

Record Profile := mkProfile {
  Metrics : list MIB;
  Extends : list string;
  Vendor : string;
  p_MetricTags : list Tag;
  Sysobjectid : list string;
  From : string;
  p_Provider : string;
  p_NoUseBulkWalkAll : bool;
  Matches : gmap string string;
  MatchesList : list Match;
  SysMap : option (gmap string string);
  extended : bool
}.

Definition set_extended (b : bool) (p : Profile) : Profile :=
  mkProfile (Metrics p) (Extends p) (Vendor p) (p_MetricTags p) (Sysobjectid p) (From p) (p_Provider p)
    (p_NoUseBulkWalkAll p) (Matches p) (MatchesList p) (SysMap p) b.
Definition set_lists (ms : list MIB) (ts : list Tag) (sm : option (gmap string string)) (p : Profile) : Profile :=
  mkProfile ms (Extends p) (Vendor p) ts (Sysobjectid p) (From p) (p_Provider p)
    (p_NoUseBulkWalkAll p) (Matches p) (MatchesList p) sm (extended p).
Definition set_SysMap (sm : option (gmap string string)) (p : Profile) : Profile :=
  set_lists (Metrics p) (p_MetricTags p) sm p.
Definition set_fromExtended (m : MIB) : MIB :=
  mkMIB (m_Mib m) (m_Table m) (m_Symbols m) (m_MetricTags m) (m_ForcedType m) (m_Symbol m) (m_IsInterface m)
    (m_WalkTable m) (m_sortKey m) true.

(** ** Names *)

(** [GetMibAndOid], with what it caches in the profile as the answer of later calls. *)
Definition GetMibAndOid (p : option Profile) : string * string :=
  match p with
  | None => ("computed", "computed")
  | Some p =>
      match List.find (fun m => String.eqb (o_Oid (m_Table m)) ".1.2.3.3") (Metrics p) with
      | Some m => (o_Name (m_Table m), o_Oid (m_Table m))
      | None => ("computed", "computed")
      end
  end%string.

Definition GetProfileName (p : option Profile) (override : string) : string :=
  if negb (String.eqb override "") then override
  else match p with
       | None => "snmp"
       | Some p => let pt := hd "" (strings_Split (From p) ".") in if String.eqb pt "" then "snmp" else pt
       end%string.

(** [GetTableName]: the name less its ending. *)
Definition GetTableName (ToLower : string -> string) (o : OID) : string :=
  let n := o_Name o in
  if String.eqb n "" then ""%string
  else if HasSuffix (ToLower n) "xtable" then String.substring 0 (String.length n - 6) n
  else if HasSuffix (ToLower n) "table" then String.substring 0 (String.length n - 5) n
  else n.

(** [GetCondition]: a number or, less spaces and quotes, a text. *)
Definition strings_Trim (s : string) (cut : list string) : string :=
  let s := trim_left (String.length s) cut s in
  srev (trim_left (String.length s) (map srev cut) (srev s)).
Definition GetCondition (o : OID) : option MibCondition :=
  if String.eqb (o_Condition o) "" then None
  else match strings_Split (o_Condition o) "=" with
       | [name; v] =>
           Some match Atoi v with
                | None => mkMibCondition name 0 (strings_Trim v [" "%string; String (Ascii.ascii_of_nat 34) ""])
                | Some val => mkMibCondition name val ""
                end
       | _ => None
       end.

(** ** Extension *)

(** A pointer is a place in the store. *)
Abbreviation store := (list Profile).

Definition merge (p ep : nat) (h : store) : outcome store :=
  match h !! p, h !! ep with
  | Some pr, Some epr =>
      let sm := default ∅ (SysMap epr) in
      match SysMap pr with
      | None => if (size sm =? 0)%nat
                then Ok (<[p := set_lists (Metrics pr ++ map set_fromExtended (Metrics epr))
                                  (p_MetricTags pr ++ p_MetricTags epr) None pr]> h)
                else Panic "assignment to entry in nil map"
      | Some m => Ok (<[p := set_lists (Metrics pr ++ map set_fromExtended (Metrics epr))
                               (p_MetricTags pr ++ p_MetricTags epr) (Some (sm ∪ m)) pr]> h)
      end
  | _, _ => Panic "nil pointer dereference"
  end.

Section Extend.
  Context (extends : gmap string nat) (validate : bool).

Definition no_extended (name : string) : error := Errorf ("You must set the " +:+ name +:+ " extended profile.") [].

(** One name of the list; [rec] extends the profile it stands for.  The flag says to go on. *)
Definition extend_name (rec : nat -> store -> outcome (option error * store)) (p : nat)
    (st : option error * store) (name : string) : outcome (option error * store) :=
  match st with
  | (Some e, h) => Ok (Some e, h)
  | (None, h) =>
      match extends !! name with
      | None => Ok (if validate then Some (no_extended name) else None, h)
      | Some ep =>
          '(err, h) ← rec ep h;
          match err with
          | Some e => Ok (if validate then Some e else None, h)
          | None => h ← merge p ep h; Ok (None, h)
          end
      end
  end.

Fixpoint extend (fuel : nat) (p : nat) (h : store) : outcome (option error * store) :=
  match fuel with
  | O => OutOfFuel
  | S fuel =>
      match h !! p with
      | None => Panic "nil pointer dereference"
      | Some pr =>
          if extended pr then Ok (None, h)
          else fold_out (extend_name (extend fuel) p) (None, <[p := set_extended true pr]> h) (Extends pr)
      end
  end.
End Extend.

(** The part of [LoadProfiles] after the files are read; [order] is that of a range over the profiles. *)
Definition load_error : error := Errorf "Error in %s profile" [].
Definition extend_all (validate : Profile -> bool) (extends : gmap string nat) (strict : bool) (order : list nat) (h : store) :
    outcome store :=
  fold_out (fun h p =>
      '(err, h) ← extend extends strict (S (length h)) p h;
      if strict
      then match err, h !! p with
           | Some e, _ => Err e
           | None, Some pr => if validate pr then Ok h else Err load_error
           | None, None => Panic "nil pointer dereference"
           end
      else Ok h) h order.

(** ** Search *)

(** The walk up the tree: the longest part of the identifier that has an entry with a wildcard. *)
Fixpoint walk_up {A} (find : string -> option A) (pts : list string) (i : nat) : option A :=
  match i with
  | O => None
  | S i' =>
      match find (strings_Join (take i pts) "." +:+ ".*") with
      | Some x => Some x
      | None => walk_up find pts i'
      end
  end.
Definition find_wildcard {A} (find : string -> option A) (oid : string) : option A :=
  let pts := strings_Split oid "." in walk_up find pts (length pts).

Definition no_dot (sysid : string) : string := if HasPrefix sysid "." then sdrop 1 sysid else sysid.

Definition GetDeviceSysComment (p : Profile) (sysid : string) : string :=
  let sysid := no_dot sysid in
  match default ∅ (SysMap p) !! sysid with
  | Some c => c
  | None => default ""%string (find_wildcard (fun k => default ∅ (SysMap p) !! k) sysid)
  end.

Section Find.
  (** [regexp.Compile] and [MatchString], [strings.ToLower], and the order of a range over the
      profiles and over the matches of one. *)
  Context (Compile : string -> option (string -> bool)) (ToLower : string -> string).
  Context (range_matches : gmap string string -> list (string * string)).
  Context (h : store) (order : list nat).

Definition by_From (name : string) : option nat :=
  List.find (fun p => match h !! p with Some pr => String.eqb (From pr) name | None => false end) order.

(** The matches in order: [None] when the search goes on, an answer when it ends, which is no
    profile when a regular expression is bad. *)
Fixpoint first_match (sysdesc : string) (ms : list (string * string)) : option (option nat) :=
  match ms with
  | [] => None
  | (re, target) :: ms =>
      match Compile re with
      | None => Some None
      | Some matches =>
          if matches (ToLower sysdesc)
          then match by_From target with
               | Some p => Some (Some p)
               | None => first_match sysdesc ms
               end
          else first_match sysdesc ms
      end
  end.

Definition checkMatch (p : nat) (sysdesc : string) : option nat :=
  match h !! p with
  | None => None
  | Some pr =>
      match first_match sysdesc (map (fun m => (mt_Regex m, mt_Target m)) (MatchesList pr)) with
      | Some a => a
      | None =>
          match first_match sysdesc (range_matches (Matches pr)) with
          | Some a => a
          | None => Some p
          end
      end
  end.

Definition FindProfile (profiles : gmap string nat) (sysid sysdesc mibProfile : string) : option nat :=
  let forced := if HasPrefix mibProfile "!" then by_From (sdrop 1 mibProfile) else None in
  match forced with
  | Some p => Some p
  | None =>
      let sysid := no_dot sysid in
      match profiles !! sysid with
      | Some p => checkMatch p sysdesc
      | None => p ← find_wildcard (fun k => profiles !! k) sysid; checkMatch p sysdesc
      end
  end.
End Find.

(** ** Validation *)

Definition bad_OID (o : OID) : bool := negb (String.eqb (o_Oid o) "") && String.eqb (o_Name o) "".
Definition bad_metric (m : MIB) : bool :=
  (String.eqb (o_Oid (m_Symbol m)) "" && (length (m_Symbols m) =? 0)%nat) ||
  bad_OID (m_Symbol m) || existsb bad_OID (m_Symbols m).
Definition bad_tag (t : Tag) : bool := String.eqb (o_Oid (t_Column t)) "" || bad_OID (t_Column t).

(** [validate]: true if it returns no error. *)
Definition validate (p : Profile) : bool :=
  negb (existsb bad_metric (Metrics p) || existsb bad_tag (p_MetricTags p) ||
        existsb (fun m => existsb (fun t => bad_OID (t_Column t)) (m_MetricTags m)) (Metrics p)).

Definition GetMibs (p : Profile) : gmap string bool :=
  list_to_map (map (fun m => (m_Mib m, true)) (Metrics p)).

(** ** Objects to poll *)

(** The fields of a [Mib] that only tables of objects use. *)
Record ProfileMib := mkProfileMib {
  pm_Mib : Mib;
  pm_Type : Z;
  pm_Extra : string;
  pm_MatchAttr : option (gmap string string);
  pm_FromExtended : bool;
  pm_AllowDup : bool;
  pm_VarSet : gmap string (Z * Z);
  pm_XAttr : gmap string string
}.
Definition pm_Name (m : ProfileMib) : string := GetName (Some (pm_Mib m)).

Definition set_PollDur (d : Z) (m : Mib) : Mib :=
  mkMib (mb_Oid m) (mb_Name m) (mb_Tag m) (mb_Enum m) (mb_EnumRev m) (mb_Conversion m) (mb_Mib m) (mb_Table m) d
    (mb_lastPoll m) (mb_OtherTables m) (mb_Format m) (mb_Condition m) (mb_Script m) (mb_WalkTable m) (mb_TableOid m).
Definition set_enums (e : option (gmap string Z)) (r : option (gmap Z string)) (m : Mib) : Mib :=
  mkMib (mb_Oid m) (mb_Name m) (mb_Tag m) e r (mb_Conversion m) (mb_Mib m) (mb_Table m) (mb_PollDur m)
    (mb_lastPoll m) (mb_OtherTables m) (mb_Format m) (mb_Condition m) (mb_Script m) (mb_WalkTable m) (mb_TableOid m).
Definition on_Mib (f : Mib -> Mib) (m : ProfileMib) : ProfileMib :=
  mkProfileMib (f (pm_Mib m)) (pm_Type m) (pm_Extra m) (pm_MatchAttr m) (pm_FromExtended m) (pm_AllowDup m)
    (pm_VarSet m) (pm_XAttr m).

Definition EnableAllMibs : string := "USE_ALL_MIBS".
Definition String_type : Z := 2.
Definition Counter_type : Z := 6.

(** The MIBs that are enabled, and those of which only some tables are. *)
Record Enabled := mkEnabled {
  en_mibs : gmap string bool;
  en_tables : gmap string (gmap string bool);
  en_all : bool
}.
Definition enable (e : Enabled) (mib : string) : Enabled :=
  let all := en_all e || String.eqb mib EnableAllMibs in
  match strings_Split mib "." with
  | p0 :: p1 :: _ =>
      mkEnabled (<[p0 := true]> (en_mibs e)) (<[p0 := <[p1 := true]> (default ∅ (en_tables e !! p0))]> (en_tables e)) all
  | _ => mkEnabled (<[mib := true]> (en_mibs e)) (en_tables e) all
  end.
Definition enabled_mibs (mibs : list string) : Enabled := foldl enable (mkEnabled ∅ ∅ false) mibs.
Definition is_enabled (e : Enabled) (m : MIB) : bool :=
  (en_all e || default false (en_mibs e !! m_Mib m)) &&
  match en_tables e !! m_Mib m with
  | Some ts => default false (ts !! o_Name (m_Table m))
  | None => true
  end.

Section Objects.
  (** [strings.ToLower], what scripts compile, which regular expressions compile, and the orders
      of a range over an enumeration and over objects. *)
  Context (ToLower : string -> string) (NewEnricher : string -> bool) (CompileOk : string -> bool).
  Context (range_enum : gmap string Z -> list (string * Z)).
  Context (range_mibs : gmap string ProfileMib -> list (string * ProfileMib)).

(** [indexEnum]: names in both cases, and names of numbers. *)
Definition indexEnum (m : Mib) : Mib :=
  let '(e, r) := foldl (fun '(e, r) '(k, v) => (<[ToLower k := v]> (<[k := v]> e), <[v := k]> r)) (∅, ∅)
                   (range_enum (default ∅ (mb_Enum m))) in
  set_enums (Some e) (Some r) m.
Definition index_if_any (m : Mib) : Mib :=
  if (0 <? size (default ∅ (mb_Enum m)))%nat then indexEnum m else m.

Definition script_of (o : OID) : option string :=
  if negb (String.eqb (o_Script o) "") && NewEnricher (o_Script o) then Some (o_Script o) else None.

(** The regular expression of the last one that compiles, under the name of the object. *)
Definition match_attrs (o : OID) (name : string) : option (gmap string string) :=
  match o_MatchAttr o with
  | [] => None
  | l => Some (foldl (fun m re => if CompileOk re then <[name := re]> m else m) ∅ l)
  end.

Definition poll_dur (t : Z) : Z := (int64 (int64 (t - PollAdjustTime) * Second))%go.

(** An object of a metric, before its name is looked at, and the shortest poll time so far. *)
Definition symbol_mib (metric : MIB) (s : OID) (counterTimeSec minCounterTime : Z) : ProfileMib * Z :=
  let mib := index_if_any (mkMib (o_Oid s) (o_Name s) (o_Tag s) (o_Enum s) None (o_Conversion s) (m_Mib metric)
               (GetTableName ToLower (m_Table metric)) 0 0 None (o_Format s) (GetCondition s) None
               (m_WalkTable metric) (o_Oid (m_Table metric))) in
  let '(mib, minc) :=
    if 0 <? o_PollTime s then
      if o_PollTime s <? counterTimeSec then (set_PollDur (poll_dur (o_PollTime s)) mib, o_PollTime s)
      else if counterTimeSec <? o_PollTime s then (set_PollDur (poll_dur (o_PollTime s)) mib, minCounterTime)
      else (mib, minCounterTime)
    else (mib, minCounterTime) in
  let mib := mkMib (mb_Oid mib) (mb_Name mib) (mb_Tag mib) (mb_Enum mib) (mb_EnumRev mib) (mb_Conversion mib) (mb_Mib mib)
               (mb_Table mib) (mb_PollDur mib) (mb_lastPoll mib) (mb_OtherTables mib) (mb_Format mib) (mb_Condition mib)
               (script_of s) (mb_WalkTable mib) (mb_TableOid mib) in
  (mkProfileMib mib Counter_type "" None (m_fromExtended metric) (o_AllowDup s) ∅ ∅, minc).

(** Device objects, interface objects, and the poll time. *)
Definition Objects : Type := gmap string ProfileMib * gmap string ProfileMib * Z.

Definition is_interface (metric : MIB) (name : string) : bool := m_IsInterface metric || HasPrefix name "if".

(** One object of a metric; false if it has no name. *)
Definition add_symbol (counterTimeSec : Z) (metric : MIB) (st : Objects) (s : OID) : Objects * bool :=
  let '(dev, ifs, minc) := st in
  let '(mib, minc) := symbol_mib metric s counterTimeSec minc in
  if String.eqb (o_Name s) "" then ((dev, ifs, minc), false)
  else if is_interface metric (o_Name s) then ((dev, <[o_Oid s := mib]> ifs, minc), true)
  else ((<[o_Oid s := mib]> dev, ifs, minc), true).

(** The types that are counters: none is forced, or one of two is. *)
Definition counts_up (metric : MIB) : bool :=
  existsb (String.eqb (m_ForcedType metric)) [""; "monotonic_count"; "monotonic_count_and_rate"]%string.

Definition add_metric (e : Enabled) (counterTimeSec : Z) (st : Objects) (metric : MIB) : Objects :=
  if negb (is_enabled e metric && counts_up metric) then st
  else
    let '(st, go_on) := if String.eqb (o_Oid (m_Symbol metric)) "" then (st, true)
                        else add_symbol counterTimeSec metric st (m_Symbol metric) in
    if go_on then foldl (fun st s => (add_symbol counterTimeSec metric st s).1) st (m_Symbols metric) else st.

(** [prune]: the choice among the objects of one name. *)
Definition choose (st : gmap string string * gmap string bool) (om : string * ProfileMib) :
    gmap string string * gmap string bool :=
  let '(seen, ext) := st in
  let '(oid, mib) := om in
  let n := pm_Name mib in
  match seen !! n with
  | None => (<[n := oid]> seen, <[n := pm_FromExtended mib]> ext)
  | Some old =>
      let e := default false (ext !! n) in
      if e && negb (pm_FromExtended mib) then (<[n := oid]> seen, <[n := pm_FromExtended mib]> ext)
      else if pm_FromExtended mib && negb e then (seen, ext)
      else if (String.length old <? String.length oid)%nat then (<[n := oid]> seen, ext)
      else (seen, ext)
  end.

Definition slow_down (counterTimeSec minCounterTime : Z) (mib : ProfileMib) : ProfileMib :=
  if (mb_PollDur (pm_Mib mib) =? 0) && negb (counterTimeSec =? minCounterTime)
  then on_Mib (set_PollDur (poll_dur counterTimeSec)) mib else mib.

Definition prune (counterTimeSec minCounterTime : Z) (mibs : gmap string ProfileMib) : gmap string ProfileMib :=
  let seen := (foldl choose (∅, ∅) (range_mibs mibs)).1 in
  let keep (oid : string) := bool_decide (map_Exists (fun _ o => o = oid) seen) in
  slow_down counterTimeSec minCounterTime <$> filter (fun om => keep om.1 || pm_AllowDup om.2 = true) mibs.

(** [GetMetrics]: device objects, interface objects, and the poll time. *)
Definition GetMetrics (p : Profile) (enabledMibs : list string) (counterTimeSec : Z) : Objects :=
  let '(dev, ifs, minc) :=
    foldl (add_metric (enabled_mibs enabledMibs) counterTimeSec) (∅, ∅, counterTimeSec) (Metrics p) in
  (prune counterTimeSec minc dev, prune counterTimeSec minc ifs, minc).

(** ** Objects of metadata *)

Definition tag_mib (t : Tag) (metric : option MIB) : ProfileMib :=
  let o := t_Column t in
  let table := match metric with Some m => GetTableName ToLower (m_Table m) | None => "" end in
  let mib := index_if_any (mkMib (o_Oid o) (o_Name o) (t_Tag t) (o_Enum o) None (o_Conversion o)
               (match metric with Some m => m_Mib m | None => "" end) table 0 0
               (if String.eqb table "" then None else Some {[table := true]}) "" None (script_of o)
               (match metric with Some m => m_WalkTable m | None => false end)
               (match metric with Some m => o_Oid (m_Table m) | None => "" end)) in
  mkProfileMib mib String_type "" (match_attrs o (GetName (Some mib))) false (o_AllowDup o) ∅ ∅.

Definition top_tag (dev : gmap string ProfileMib) (t : Tag) : gmap string ProfileMib :=
  if String.eqb (o_Oid (t_Column t)) "" then dev else <[o_Oid (t_Column t) := tag_mib t None]> dev.

(** An object that is there already only learns of one more table. *)
Definition put_or_extend (oid : string) (mib : ProfileMib) (m : gmap string ProfileMib) : gmap string ProfileMib :=
  match m !! oid with
  | Some em => <[oid := on_Mib (fun e => Extend e (pm_Mib mib)) em]> m
  | None => <[oid := mib]> m
  end.

Definition metric_tag (metric : MIB) (st : gmap string ProfileMib * gmap string ProfileMib) (t : Tag) :
    gmap string ProfileMib * gmap string ProfileMib :=
  let '(dev, ifs) := st in
  let oid := o_Oid (t_Column t) in
  if String.eqb oid "" then (dev, ifs)
  else
    let mib := tag_mib t (Some metric) in
    if is_interface metric (o_Name (t_Column t)) then (dev, put_or_extend oid mib ifs)
    else (put_or_extend oid mib dev, ifs).

Definition GetMetadata (p : Profile) (enabledMibs : list string) : gmap string ProfileMib * gmap string ProfileMib :=
  let e := enabled_mibs enabledMibs in
  let dev := foldl top_tag ∅ (p_MetricTags p) in
  let '(dev, ifs) := foldl (fun st metric => if is_enabled e metric then foldl (metric_tag metric) st (m_MetricTags metric) else st)
                       (dev, ∅) (Metrics p) in
  (prune 0 0 dev, prune 0 0 ifs).
End Objects.

(** ** Properties of the extension *)

(** What a profile is to become, as a recursion over the names it extends. *)
Definition merged (pr epr : Profile) : Profile :=
  set_lists (Metrics pr ++ map set_fromExtended (Metrics epr)) (p_MetricTags pr ++ p_MetricTags epr)
    (Some (default ∅ (SysMap epr) ∪ default ∅ (SysMap pr))) pr.

Section Full.
  Context (extends : gmap string nat) (h0 : store).

Definition full_name (full : nat -> option Profile) (acc : option Profile) (name : string) : option Profile :=
  pr ← acc; match extends !! name with
            | None => Some pr
            | Some e => epr ← full e; Some (merged pr epr)
            end.
Fixpoint full (n : nat) (p : nat) : option Profile :=
  match n with
  | O => None
  | S n => pr ← h0 !! p; foldl (full_name (full n)) (Some (set_extended true pr)) (Extends pr)
  end.
End Full.

Definition unextended (h : store) : nat := length (List.filter (fun pr => negb (extended pr)) h).
(** A profile that extends others has a map of comments. *)
Definition ready (pr : Profile) : Prop := Extends pr = [] \/ is_Some (SysMap pr).
Definition loaded (h : store) : Prop := Forall ready h.

Lemma merge_ok p ep h pr epr : h !! p = Some pr -> h !! ep = Some epr -> is_Some (SysMap pr) ->
  merge p ep h = Ok (<[p := merged pr epr]> h).
Proof. intros Hp He [m Hm]. unfold merge, merged. by rewrite Hp, He, Hm. Qed.

Lemma unextended_insert h p pr pr' : h !! p = Some pr ->
  (unextended (<[p := pr']> h) + (if extended pr then 0 else 1) = unextended h + (if extended pr' then 0 else 1))%nat.
Proof.
  unfold unextended. revert p. induction h as [|x h IH]; intros [|p]; cbn; try done.
  - intros [= ->]. destruct (extended pr), (extended pr'); cbn; lia.
  - intros H. specialize (IH _ H). unfold insert in *. destruct (extended x); cbn in *; lia.
Qed.

Lemma unextended_le h : (unextended h <= length h)%nat.
Proof. unfold unextended. induction h as [|x h IH]; cbn; [lia|]. destruct (extended x); cbn; lia. Qed.

Section Ends.
  Context (extends : gmap string nat) (strict : bool) (exts : list (list string)).

Definition good (h : store) : Prop := loaded h /\ map Extends h = exts.

(** What an extension keeps of a store. *)
Definition keeps_store (h h' : store) : Prop := good h' /\ (unextended h' <= unextended h)%nat.
Lemma keeps_store_trans h h1 h2 : keeps_store h h1 -> keeps_store h1 h2 -> keeps_store h h2.
Proof using Type. unfold keeps_store. intros [? ?] [? ?]. split; [done|lia]. Qed.

Lemma good_lookup h p : good h -> (p < length exts)%nat ->
  exists pr, h !! p = Some pr /\ ready pr /\ exts !! p = Some (Extends pr).
Proof using Type.
  intros [Hl <-] Hp. rewrite length_map in Hp. destruct (lookup_lt_is_Some_2 h p Hp) as [pr Hpr].
  exists pr. split; [done|]. split; [by eapply Forall_lookup_1 in Hl|]. change (map Extends h) with (Extends <$> h).
  by rewrite list_lookup_fmap, Hpr.
Qed.

Lemma good_insert h p pr pr' : good h -> h !! p = Some pr -> ready pr' -> Extends pr' = Extends pr ->
  good (<[p := pr']> h).
Proof using Type.
  intros [Hl Hn] Hp Hs He. split; [by apply Forall_insert|]. rewrite <-Hn. change (map Extends) with (fmap (M := list) Extends).
  rewrite list_fmap_insert, He. apply list_insert_id. by rewrite list_lookup_fmap, Hp.
Qed.

Lemma merge_keeps p ep h n ns : good h -> exts !! p = Some (n :: ns) -> (ep < length exts)%nat ->
  exists h', merge p ep h = Ok h' /\ keeps_store h h'.
Proof using Type.
  intros Hg Hp He. destruct (good_lookup h p Hg (lookup_lt_Some _ _ _ Hp)) as (pr & Hpr & Hs & Hx).
  destruct (good_lookup h ep Hg He) as (epr & Hepr & _). rewrite Hp in Hx. injection Hx as Hx.
  eexists. split; [apply merge_ok; [done..|]; destruct Hs; [congruence|done]|].
  split; [eapply good_insert; [done..|by right; eexists|done]|].
  pose proof (unextended_insert h p pr (merged pr epr) Hpr) as E.
  change (extended (merged pr epr)) with (extended pr) in E. destruct (extended pr); lia.
Qed.

  Context (Hextends : forall n e, extends !! n = Some e -> (e < length exts)%nat).

Definition ends (fuel : nat) (rec : nat -> store -> outcome (option error * store)) : Prop :=
  forall p h, good h -> (p < length exts)%nat -> (unextended h < fuel)%nat ->
    exists err h', rec p h = Ok (err, h') /\ keeps_store h h'.

Lemma extend_names_end rec fuel p m ms ns : ends fuel rec -> exts !! p = Some (m :: ms) -> forall err h,
  good h -> (unextended h < fuel)%nat ->
  exists err' h', fold_out (extend_name extends strict rec p) (err, h) ns = Ok (err', h') /\ keeps_store h h'.
Proof using Hextends.
  intros Hrec Hp. induction ns as [|n ns IH]; intros err h Hg Hu; cbn [fold_out].
  { eexists _, h. split; [done|]. by split. }
  assert (exists err1 h1, extend_name extends strict rec p (err, h) n = Ok (err1, h1) /\ keeps_store h h1)
    as (err1 & h1 & E & Hk).
  { unfold extend_name. destruct err as [e|]; [by eexists _, h|].
    destruct (extends !! n) as [ep|] eqn:En; [|by eexists _, h].
    destruct (Hrec ep h Hg (Hextends _ _ En) Hu) as (err1 & h1 & -> & Hk1). cbn.
    destruct err1 as [e|]; [by eexists _, h1|].
    destruct (merge_keeps p ep h1 m ms) as (h2 & -> & Hk2); [by apply Hk1|done|by eapply Hextends|].
    cbn. eexists _, h2. split; [done|]. by eapply keeps_store_trans. }
  rewrite E. cbn. destruct (IH err1 h1) as (err2 & h2 & E2 & Hk2); [apply Hk|destruct Hk; lia|].
  exists err2, h2. split; [exact E2|]. by eapply keeps_store_trans.
Qed.

Lemma extend_ends fuel : ends fuel (extend extends strict fuel).
Proof using Hextends.
  induction fuel as [|fuel IH]; intros p h Hg Hp Hu; [lia|]. cbn [extend].
  destruct (good_lookup h p Hg Hp) as (pr & Hpr & Hs & Hx). rewrite Hpr.
  destruct (extended pr) eqn:Ee; [by eexists _, h|].
  assert (good (<[p := set_extended true pr]> h)) as Hg1 by by eapply good_insert.
  pose proof (unextended_insert h p pr (set_extended true pr) Hpr) as E. rewrite Ee in E. cbn in E.
  destruct (Extends pr) as [|m ms] eqn:Eext.
  { eexists _, _. split; [done|]. split; [done|lia]. }
  destruct (extend_names_end _ fuel p m ms (m :: ms) IH Hx None _ Hg1) as (err & h' & Eq & Hk); [lia|].
  exists err, h'. split; [done|]. destruct Hk as [? ?]. split; [done|lia].
Qed.
End Ends.

(** Extending all profiles returns, without a panic, whatever the profiles extend, cycles included,
    and in whatever order they are ranged over; only a strict load can fail. *)
Lemma extend_all_ends check extends strict order h :
  loaded h -> (forall n e, extends !! n = Some e -> (e < length h)%nat) -> Forall (fun p => p < length h)%nat order ->
  match extend_all check extends strict order h with
  | Ok h' => length h' = length h
  | Err _ => strict = true
  | Panic _ | OutOfFuel => False
  end.
Proof.
  intros Hl He Ho. unfold extend_all. remember (map Extends h) as exts eqn:Hn.
  assert (length h = length exts) as Hlen by (by rewrite Hn, length_map). rewrite Hlen in *.
  assert (good exts h) as Hg by done. clear Hl Hn Hlen. revert h Hg.
  induction Ho as [|p order Hp _ IH]; intros h Hg; cbn [fold_out].
  { destruct Hg as [_ <-]. by rewrite length_map. }
  destruct (extend_ends extends strict exts He (S (length h)) p h) as (err & h' & -> & Hg' & _);
    [done|done|pose proof (unextended_le h); lia|]. cbn.
  destruct strict; [|by apply IH].
  destruct (good_lookup exts h' p Hg' Hp) as (pr & -> & _). destruct err as [e|]; [done|].
  destruct (check pr); [by apply IH|done].
Qed.

Lemma extend_all_lenient check extends order h :
  loaded h -> (forall n e, extends !! n = Some e -> (e < length h)%nat) -> Forall (fun p => p < length h)%nat order ->
  exists h', extend_all check extends false order h = Ok h' /\ length h' = length h.
Proof.
  intros Hl He Ho. pose proof (extend_all_ends check extends false order h Hl He Ho) as H.
  destruct (extend_all _ _ _ _ _); try done. by eexists.
Qed.

(** ** Extension without cycles *)

Section Acyclic.
  Context (extends : gmap string nat) (h0 : store) (rank : nat -> nat).
  Context (Hextends : forall n e, extends !! n = Some e -> (e < length h0)%nat).
  Context (Hnew : Forall (fun pr => extended pr = false /\ is_Some (SysMap pr)) h0).
  Context (Hrank : forall p pr n e, h0 !! p = Some pr -> In n (Extends pr) -> extends !! n = Some e ->
    (rank e < rank p)%nat).

Definition result (p : nat) : option Profile := full extends h0 (S (rank p)) p.

Lemma foldl_ext_in {A B} (f g : A -> B -> A) l : (forall a b, In b l -> f a b = g a b) ->
  forall a, foldl f a l = foldl g a l.
Proof using Type.
  induction l as [|b l IH]; intros H a; [done|]. cbn. rewrite H by by left. apply IH. intros. apply H. by right.
Qed.

Lemma full_enough n : forall m p, (rank p < n)%nat -> (rank p < m)%nat -> full extends h0 n p = full extends h0 m p.
Proof using Hrank.
  induction n as [|n IH]; intros [|m] p Hn Hm; try lia. cbn. destruct (h0 !! p) as [pr|] eqn:Hp; cbn; [|done].
  apply foldl_ext_in. intros [acc|] name Hin; cbn; [|done]. destruct (extends !! name) as [e|] eqn:En; [|done].
  pose proof (Hrank p pr name e Hp Hin En). by rewrite (IH m e) by lia.
Qed.

Lemma full_step p pr : h0 !! p = Some pr ->
  result p = foldl (full_name extends result) (Some (set_extended true pr)) (Extends pr).
Proof using Hrank.
  intros Hp. unfold result at 1. cbn [full]. rewrite Hp. cbn. apply foldl_ext_in. intros [acc|] name Hin; cbn; [|done].
  destruct (extends !! name) as [e|] eqn:En; [|done]. pose proof (Hrank p pr name e Hp Hin En).
  unfold result. by rewrite (full_enough (rank p) (S (rank e)) e) by lia.
Qed.

Lemma new_at p pr : h0 !! p = Some pr -> extended pr = false /\ is_Some (SysMap pr).
Proof using Hnew. intros Hp. by apply (Forall_lookup_1 _ _ _ _ Hnew Hp). Qed.

Lemma full_extended p pr : result p = Some pr -> extended pr = true /\ is_Some (SysMap pr).
Proof using Hnew.
  unfold result. cbn. destruct (h0 !! p) as [q|] eqn:Hp; cbn; [|done].
  destruct (new_at p q Hp) as [_ Hs].
  assert (extended (set_extended true q) = true /\ is_Some (SysMap (set_extended true q))) as Hq by done.
  generalize (set_extended true q) Hq. clear Hq. induction (Extends q) as [|n l IH]; intros r Hr; cbn.
  { intros [= ->]. done. }
  destruct (extends !! n) as [e|]; [|by apply IH]. destruct (full extends h0 (rank p) e) as [epr|]; cbn.
  - apply IH. cbn. destruct Hr. by eauto.
  - clear. assert (foldl (full_name extends (full extends h0 (rank p))) None l = None) as -> by (by induction l). done.
Qed.

(** A profile is as it was loaded, or complete. *)
Definition settled (h : store) (q : nat) : Prop := h !! q = h0 !! q \/ h !! q = result q.
Definition settled_below (k : nat) (h : store) : Prop :=
  length h = length h0 /\ forall q, (rank q < k)%nat -> (q < length h0)%nat -> settled h q.

(** What the extension of a profile does: it completes it, settles what is below it, and leaves what
    is above it and what is complete. *)
Definition completing (rec : nat -> store -> outcome (option error * store)) (k : nat) : Prop :=
  forall e h, (e < length h0)%nat -> (rank e < k)%nat -> settled_below (S (rank e)) h ->
    exists h', rec e h = Ok (None, h') /\ settled_below (S (rank e)) h' /\ h' !! e = result e /\
      (forall q, h !! q = result q -> h' !! q = result q) /\
      forall q, (rank e < rank q)%nat -> h' !! q = h !! q.

Lemma names_complete rec p : completing rec (rank p) -> (p < length h0)%nat -> forall ns acc h,
  (forall n e, In n ns -> extends !! n = Some e -> (rank e < rank p)%nat) ->
  h !! p = Some acc -> is_Some (SysMap acc) -> settled_below (rank p) h ->
  exists h', fold_out (extend_name extends false rec p) (None, h) ns = Ok (None, h') /\
    h' !! p = foldl (full_name extends result) (Some acc) ns /\
    settled_below (rank p) h' /\ (forall q, q <> p -> h !! q = result q -> h' !! q = result q) /\
    forall q, q <> p -> (rank p <= rank q)%nat -> h' !! q = h !! q.
Proof using Hextends Hnew.
  intros Hrec Hp. induction ns as [|n ns IH]; intros acc h Hns Hacc Hs Hb; [by eexists h|].
  cbn [fold_out foldl]. unfold extend_name at 2.
  destruct (extends !! n) as [e|] eqn:En.
  2: { change (full_name extends result (Some acc) n) with
         (match extends !! n with None => Some acc | Some e => epr ← result e; Some (merged acc epr) end).
       rewrite En. apply IH; [|done..]. intros ? ? ?. apply Hns. by right. }
  pose proof (Hns n e (or_introl eq_refl) En) as Hre. pose proof (Hextends n e En) as He.
  destruct (Hrec e h He Hre) as (h1 & -> & Hb1 & H1 & Hc1 & Hq1); [destruct Hb as [Hbl Hb]; split; [done|]; intros; apply Hb; [lia|done]|].
  cbn [mbind outcome_bind]. pose proof Hb1 as [Hl1 _].
  destruct (lookup_lt_is_Some_2 h1 e) as [epr Hepr]; [lia|]. rewrite Hepr in H1.
  assert (h1 !! p = Some acc) as Hp1 by (rewrite Hq1 by done; done).
  assert (full_name extends result (Some acc) n = Some (merged acc epr)) as ->.
  { unfold full_name. cbn [mbind option_bind]. rewrite En, <-H1. done. }
  rewrite (merge_ok p e h1 acc epr Hp1 Hepr Hs).
  change (Ok (<[p:=merged acc epr]> h1) ≫= _) with (@Ok (option error * store) (None, <[p:=merged acc epr]> h1)).
  cbn [mbind outcome_bind].
  destruct (IH (merged acc epr) (<[p := merged acc epr]> h1)) as (h2 & E2 & Hp2 & Hb2 & Hc2 & Hq2).
  - intros ? ? ?. apply Hns. by right.
  - apply list_lookup_insert_eq. lia.
  - by eauto.
  - split; [by rewrite length_insert|]. intros q Hq Hql. unfold settled.
    rewrite !list_lookup_insert_ne by (intros ->; lia).
    destruct (decide (rank q < S (rank e))%nat) as [Hqe|Hqe]; [by apply Hb1|]. rewrite Hq1 by lia. by apply Hb.
  - exists h2. split; [done|]. split; [done|]. split; [done|]. split.
    { intros q Hqp Hqc. apply Hc2; [done|]. rewrite list_lookup_insert_ne by done. by apply Hc1. }
    intros q Hqp Hqr.
    rewrite Hq2 by done. rewrite list_lookup_insert_ne by done. apply Hq1. lia.
Qed.

Lemma settled_below_mono j k h : (j <= k)%nat -> settled_below k h -> settled_below j h.
Proof using Type. intros Hjk [Hl H]. split; [done|]. intros. apply H; [lia|done]. Qed.

Lemma extend_completes fuel : completing (extend extends false fuel) fuel.
Proof using Hextends Hnew Hrank.
  induction fuel as [|fuel IH]; intros p h Hp Hf Hb; [lia|]. cbn [extend].
  pose proof Hb as [Hl Hq]. destruct (lookup_lt_is_Some_2 h p) as [pr Hpr]; [lia|]. rewrite Hpr.
  destruct (Hq p) as [H0|Hr]; [lia|done| |].
  - rewrite Hpr in H0. destruct (new_at p pr (eq_sym H0)) as [Hext Hs]. rewrite Hext.
    destruct (names_complete (extend extends false fuel) p) with (ns := Extends pr) (acc := set_extended true pr)
      (h := <[p := set_extended true pr]> h) as (h' & E & H1 & Hb1 & Hc1 & Hq1).
    + intros e g He Hre. apply IH; [done|lia].
    + done.
    + intros n e Hin En. by eapply (Hrank p pr).
    + apply list_lookup_insert_eq. lia.
    + done.
    + split; [by rewrite length_insert|]. intros q Hqr Hql. unfold settled.
      rewrite !list_lookup_insert_ne by (intros ->; lia). apply Hq; [lia|done].
    + assert (h' !! p = result p) as Hres by (rewrite H1; symmetry; by apply full_step).
      assert (forall q, q <> p -> (rank p <= rank q)%nat -> h' !! q = h !! q) as Hsame
        by (intros q Hqp Hqr; rewrite Hq1 by done; by apply list_lookup_insert_ne).
      exists h'. split; [done|]. split; [|split; [done|split]].
      * split; [apply Hb1|]. intros q Hqr Hql. destruct (decide (q = p)) as [->|Hne]; [by right|].
        destruct (decide (rank q < rank p)%nat); [by apply Hb1|]. unfold settled. rewrite Hsame by (done || lia). by apply Hq.
      * intros q Hqc. destruct (decide (q = p)) as [->|Hne]; [done|]. apply Hc1; [done|]. by rewrite list_lookup_insert_ne.
      * intros q Hqr. apply Hsame; [intros ->; lia|lia].
  - rewrite Hpr in Hr. destruct (full_extended p pr (eq_sym Hr)) as [-> _]. exists h. split; [done|]. by rewrite Hpr.
Qed.

(** More fuel does not change the answer. *)
Lemma extend_more strict fuel : forall p h r, extend extends strict fuel p h = Ok r ->
  forall more, extend extends strict (fuel + more) p h = Ok r.
Proof using Type.
  induction fuel as [|fuel IH]; intros p h r H more; [done|]. cbn [extend Nat.add] in *.
  destruct (h !! p) as [pr|]; [|done]. destruct (extended pr); [done|].
  revert H. generalize (@None error, <[p := set_extended true pr]> h).
  induction (Extends pr) as [|n ns IHn]; intros st; cbn [fold_out]; [done|].
  destruct (extend_name extends strict (extend extends strict fuel) p st n) as [st'| | |] eqn:E; try done.
  assert (extend_name extends strict (extend extends strict (fuel + more)) p st n = Ok st') as ->.
  { revert E. unfold extend_name. destruct st as [[e|] g]; [done|]. destruct (extends !! n) as [ep|]; [|done].
    destruct (extend extends strict fuel ep g) as [r'| | |] eqn:Er; try done. by rewrite (IH _ _ _ Er more). }
  cbn. apply IHn.
Qed.
Definition max_rank : nat := S (list_max (map rank (seq 0 (length h0)))).
Lemma below_max q : (q < length h0)%nat -> (rank q < max_rank)%nat.
Proof using Type.
  intros Hq. apply le_n_S. pose proof (proj1 (list_max_le (map rank (seq 0 (length h0))) _) (le_n _)) as F.
  rewrite List.Forall_forall in F. apply F, in_map, in_seq. lia.
Qed.

Lemma settled_loaded h : settled_below max_rank h -> loaded h.
Proof using Hnew.
  intros [Hl H]. apply Forall_lookup_2. intros q pr Hq. right. pose proof (lookup_lt_Some _ _ _ Hq) as Hlt.
  destruct (H q) as [E|E]; [apply below_max; lia|lia| |].
  - apply (new_at q). by rewrite <-E.
  - apply (full_extended q). by rewrite <-E.
Qed.

Lemma extend_all_completes check order : Forall (fun p => p < length h0)%nat order -> forall g,
  settled_below max_rank g ->
  exists h', extend_all check extends false order g = Ok h' /\ settled_below max_rank h' /\
    (forall q, g !! q = result q -> h' !! q = result q) /\ forall p, In p order -> h' !! p = result p.
Proof using Hextends Hnew Hrank.
  intros Ho. induction Ho as [|p order Hp _ IH]; intros g Hb; [by exists g|].
  unfold extend_all. cbn [fold_out].
  pose proof (below_max p Hp) as Hrp.
  assert (length (map Extends g) = length h0) as Hlen by (rewrite length_map; apply Hb).
  destruct (extend_ends extends false (map Extends g) ltac:(by rewrite Hlen) (S (length g)) p g) as (err & g1 & E1 & _);
    [by split; [apply settled_loaded|]|by rewrite Hlen|pose proof (unextended_le g); lia|].
  destruct (extend_completes max_rank p g Hp Hrp) as (g' & E & Hb' & Hres & Hc & Hq).
  { eapply settled_below_mono, Hb. lia. }
  pose proof (extend_more false _ _ _ _ E (S (length g))) as F.
  rewrite Nat.add_comm, (extend_more false _ _ _ _ E1 max_rank) in F. injection F as -> ->. rewrite E1.
  cbn [mbind outcome_bind]. destruct (IH g') as (h' & E2 & Hb2 & Hc2 & Hin).
  - split; [apply Hb'|]. intros q Hqr Hql. destruct (decide (rank q < S (rank p))%nat) as [Hlt|Hge]; [by apply Hb'|].
    unfold settled. rewrite Hq by lia. by apply Hb.
  - exists h'. split; [exact E2|]. split; [done|]. split; [by eauto|]. intros q [<-|Hqi]; [by apply Hc2|by apply Hin].
Qed.
End Acyclic.

(** C29: When no profile extends itself, even through others, the extension in place through
    pointers, in any order of the range over the profiles, gives each of them what the recursion
    over the names it extends gives: its own lists, then those of the complete profiles it names. *)
Theorem extend_all_full check extends rank order h :
  (forall n e, extends !! n = Some e -> (e < length h)%nat) ->
  Forall (fun pr => extended pr = false /\ is_Some (SysMap pr)) h ->
  (forall p pr n e, h !! p = Some pr -> In n (Extends pr) -> extends !! n = Some e -> (rank e < rank p)%nat) ->
  Forall (fun p => p < length h)%nat order ->
  exists h', extend_all check extends false order h = Ok h' /\
    forall p, In p order -> h' !! p = full extends h (S (rank p)) p.
Proof.
  intros He Hnew Hrank Ho.
  destruct (extend_all_completes extends h rank He Hnew Hrank check order Ho h) as (h' & E & _ & _ & Hin).
  - split; [done|]. intros. by left.
  - exists h'. by split.
Qed.

(** ** Properties of the search *)

Lemma walk_up_spec {A} (find : string -> option A) pts i :
  match walk_up find pts i with
  | Some x => exists j, (0 < j <= i)%nat /\ find (strings_Join (take j pts) "." +:+ ".*") = Some x /\
      forall k, (j < k <= i)%nat -> find (strings_Join (take k pts) "." +:+ ".*") = None
  | None => forall j, (0 < j <= i)%nat -> find (strings_Join (take j pts) "." +:+ ".*") = None
  end.
Proof.
  induction i as [|i IH]; cbn [walk_up]; [lia|].
  destruct (find (strings_Join (take (S i) pts) "." +:+ ".*")) as [x|] eqn:E.
  - exists (S i). split; [lia|]. split; [done|]. lia.
  - destruct (walk_up find pts i) as [x|].
    + destruct IH as (j & Hj & Hf & Hk). exists j. split; [lia|]. split; [done|]. intros k Hki.
      destruct (decide (k = S i)) as [->|]; [done|]. apply Hk. lia.
    + intros j Hj. destruct (decide (j = S i)) as [->|]; [done|]. apply IH. lia.
Qed.

Lemma find_wildcard_found {A} (find : string -> option A) oid x : find_wildcard find oid = Some x -> exists k, find k = Some x.
Proof.
  unfold find_wildcard. intros E. pose proof (walk_up_spec find (strings_Split oid ".") (length (strings_Split oid "."))) as H.
  rewrite E in H. destruct H as (j & _ & H & _). by eexists.
Qed.

Section FindSpec.
  Context (Compile : string -> option (string -> bool)) (ToLower : string -> string).
  Context (range_matches : gmap string string -> list (string * string)) (h : store) (order : list nat).

(** The patterns of a profile, in the order they are looked at. *)
Definition patterns (pr : Profile) : list (string * string) :=
  map (fun m => (mt_Regex m, mt_Target m)) (MatchesList pr) ++ range_matches (Matches pr).

(** An answer that a search may give for the profile that has the identifier: the profile, the
    target of one of its patterns that matches the description, or none for a bad pattern. *)
Definition answers (p : nat) (sysdesc : string) (r : option nat) : Prop :=
  exists pr, h !! p = Some pr /\
    match r with
    | Some q => q = p \/ exists re f qr, In (re, From qr) (patterns pr) /\ Compile re = Some f /\
                  f (ToLower sysdesc) = true /\ h !! q = Some qr
    | None => exists re target, In (re, target) (patterns pr) /\ Compile re = None
    end.

Lemma by_From_some name q : by_From h order name = Some q -> exists qr, h !! q = Some qr /\ From qr = name.
Proof using Type.
  intros [_ H]%List.find_some. destruct (h !! q) as [qr|]; [|done]. apply String.eqb_eq in H. eauto.
Qed.

Lemma first_match_some sysdesc ms a : first_match Compile ToLower h order sysdesc ms = Some a ->
  match a with
  | Some q => exists re f qr, In (re, From qr) ms /\ Compile re = Some f /\ f (ToLower sysdesc) = true /\ h !! q = Some qr
  | None => exists re target, In (re, target) ms /\ Compile re = None
  end.
Proof using Type.
  assert (forall x ms, match a with
    | Some q => exists re f qr, In (re, From qr) ms /\ Compile re = Some f /\ f (ToLower sysdesc) = true /\ h !! q = Some qr
    | None => exists re target, In (re, target) ms /\ Compile re = None
    end -> match a with
    | Some q => exists re f qr, In (re, From qr) (x :: ms) /\ Compile re = Some f /\ f (ToLower sysdesc) = true /\ h !! q = Some qr
    | None => exists re target, In (re, target) (x :: ms) /\ Compile re = None
    end) as Hskip.
  { intros x l. destruct a; [intros (re & f & qr & ? & ?); exists re, f, qr|intros (re & t & ? & ?); exists re, t]; by split; [right|]. }
  induction ms as [|[re target] ms IH]; cbn; [done|].
  destruct (Compile re) as [f|] eqn:Ec; [|intros [= <-]; exists re, target; by split; [left|]].
  destruct (f (ToLower sysdesc)) eqn:Ef; [|intros H; by apply Hskip, IH].
  destruct (by_From h order target) as [q|] eqn:Eb; [|intros H; by apply Hskip, IH].
  intros [= <-]. destruct (by_From_some _ _ Eb) as (qr & Hq & <-). exists re, f, qr. by split; [left|].
Qed.

Lemma checkMatch_answers p sysdesc pr : h !! p = Some pr ->
  answers p sysdesc (checkMatch Compile ToLower range_matches h order p sysdesc).
Proof using Type.
  intros Hp. exists pr. split; [done|]. unfold checkMatch, patterns. rewrite Hp.
  destruct (first_match _ _ _ _ _ _) as [a|] eqn:E1.
  - apply first_match_some in E1. destruct a as [q|].
    + destruct E1 as (re & f & qr & Hin & ?). right. exists re, f, qr. split; [apply in_app_iff; by left|done].
    + destruct E1 as (re & t & Hin & ?). exists re, t. split; [apply in_app_iff; by left|done].
  - destruct (first_match _ _ _ _ _ (range_matches _)) as [a|] eqn:E2; [|by left].
    apply first_match_some in E2. destruct a as [q|].
    + destruct E2 as (re & f & qr & Hin & ?). right. exists re, f, qr. split; [apply in_app_iff; by right|done].
    + destruct E2 as (re & t & Hin & ?). exists re, t. split; [apply in_app_iff; by right|done].
Qed.

(** C30: Without a forced profile, the one that is found is that of the identifier itself, else that
    of the longest part of it that has a wildcard, or, for either, the target of one of its patterns
    that matches the description; none is found only if no part has one or a pattern is bad. *)
Theorem FindProfile_longest profiles sysid sysdesc mibProfile :
  HasPrefix mibProfile "!" = false -> (forall k p, profiles !! k = Some p -> is_Some (h !! p)) ->
  let id := no_dot sysid in
  let part j := strings_Join (take j (strings_Split id ".")) "." +:+ ".*" in
  let r := FindProfile Compile ToLower range_matches h order profiles sysid sysdesc mibProfile in
  match profiles !! id with
  | Some p => answers p sysdesc r
  | None =>
      (exists j p, profiles !! part j = Some p /\ answers p sysdesc r /\
         forall k, (j < k <= length (strings_Split id "."))%nat -> profiles !! part k = None) \/
      r = None /\ forall k, (0 < k <= length (strings_Split id "."))%nat -> profiles !! part k = None
  end.
Proof using Type.
  intros Hm Hp id part r. subst r. unfold FindProfile. rewrite Hm. fold id.
  destruct (profiles !! id) as [p|] eqn:E.
  { destruct (Hp _ _ E) as [pr Hpr]. by apply (checkMatch_answers _ _ pr). }
  unfold find_wildcard. pose proof (walk_up_spec (fun k => profiles !! k) (strings_Split id ".") (length (strings_Split id "."))) as H.
  destruct (walk_up _ _ _) as [p|]; cbn.
  - destruct H as (j & Hj & Hf & Hk). left. exists j, p. destruct (Hp _ _ Hf) as [pr Hpr].
    split; [done|]. split; [|done]. by apply (checkMatch_answers _ _ pr).
  - by right.
Qed.
End FindSpec.

(** ** Properties of the choice among objects *)

(** An own object before one of an extended profile, then the longest identifier. *)
Definition better (a b : string * ProfileMib) : bool :=
  match pm_FromExtended a.2, pm_FromExtended b.2 with
  | false, true => true
  | true, false => false
  | _, _ => (String.length b.1 <? String.length a.1)%nat
  end.

Definition chosen (l : list (string * ProfileMib)) (st : gmap string string * gmap string bool) : Prop :=
  (forall o m, In (o, m) l -> is_Some (st.1 !! pm_Name m)) /\
  forall n w, st.1 !! n = Some w -> exists mw, In (w, mw) l /\ pm_Name mw = n /\ st.2 !! n = Some (pm_FromExtended mw) /\
    forall o m, In (o, m) l -> pm_Name m = n -> better (o, m) (w, mw) = false.

Lemma better_trans o w x : better o w = false -> better x w = true -> better o x = false.
Proof.
  unfold better. destruct (pm_FromExtended o.2), (pm_FromExtended w.2), (pm_FromExtended x.2); try done;
    rewrite ?Nat.ltb_ge, ?Nat.ltb_lt; lia.
Qed.
Lemma better_irrefl x : better x x = false.
Proof. unfold better. destruct (pm_FromExtended x.2); apply Nat.ltb_irrefl. Qed.

(** The best of a name so far, in a state of the loop. *)
Definition best_of (l : list (string * ProfileMib)) (ext : gmap string bool) (n w : string) : Prop :=
  exists mw, In (w, mw) l /\ pm_Name mw = n /\ ext !! n = Some (pm_FromExtended mw) /\
    forall o m, In (o, m) l -> pm_Name m = n -> better (o, m) (w, mw) = false.

Lemma best_of_other l ext n w x b : best_of l ext n w -> pm_Name x.2 <> n -> b !! n = ext !! n -> best_of (x :: l) b n w.
Proof.
  intros (mw & Hin & Hn & He & Hb) Hx Hbn. exists mw. split; [by right|]. split; [done|]. split; [by rewrite Hbn|].
  intros o m [->|Hino] Hnm; [by destruct Hx|by apply Hb].
Qed.

(** The new object is the best of its name. *)
Lemma chosen_new l seen ext oid mib b : chosen l (seen, ext) ->
  (forall w mw, In (w, mw) l -> pm_Name mw = pm_Name mib -> seen !! pm_Name mib = Some w ->
     ext !! pm_Name mib = Some (pm_FromExtended mw) -> better (oid, mib) (w, mw) = true) ->
  b = ext \/ b = <[pm_Name mib := pm_FromExtended mib]> ext -> b !! pm_Name mib = Some (pm_FromExtended mib) ->
  chosen ((oid, mib) :: l) (<[pm_Name mib := oid]> seen, b).
Proof.
  intros [Hall Hw] Hbetter Hb Hbn. cbn [fst snd] in *. split.
  - intros o m [[= <- <-]|Hin]; cbn; [rewrite lookup_insert_eq; eauto|]. apply lookup_insert_is_Some'. right. by eapply Hall.
  - intros k w. cbn [fst snd]. rewrite lookup_insert. case_decide as Hk.
    + intros [= <-]. subst k. exists mib. split; [by left|]. split; [done|]. split; [done|].
      intros o m [[= <- <-]|Hin] Hn; [apply better_irrefl|]. pose proof (Hall o m Hin) as Hs. rewrite Hn in Hs.
      destruct Hs as [w Es]. destruct (Hw _ w Es) as (mw & Hinw & Hnw & Hext & Hbest).
      eapply better_trans; [by apply Hbest|]. by eapply Hbetter.
    + intros Hs. apply (best_of_other l ext k w (oid, mib)); [by apply Hw|done|].
      destruct Hb as [->| ->]; [done|]. by rewrite lookup_insert_ne.
Qed.

(** The best of its name stays. *)
Lemma chosen_old l seen ext oid mib w mw : chosen l (seen, ext) ->
  seen !! pm_Name mib = Some w -> In (w, mw) l -> pm_Name mw = pm_Name mib -> ext !! pm_Name mib = Some (pm_FromExtended mw) ->
  (forall o m, In (o, m) l -> pm_Name m = pm_Name mib -> better (o, m) (w, mw) = false) ->
  better (oid, mib) (w, mw) = false -> chosen ((oid, mib) :: l) (seen, ext).
Proof.
  intros [Hall Hw] Hs Hin Hnw Hext Hbest Hb. cbn [fst snd] in *. split; cbn [fst snd].
  - intros o m [[= <- <-]|Hino]; [by eauto|by eapply Hall].
  - intros k w' Hk. destruct (decide (k = pm_Name mib)) as [->|Hkn].
    + rewrite Hs in Hk. injection Hk as <-. exists mw. split; [by right|]. split; [done|]. split; [done|].
      intros o m [[= <- <-]|Hino] Hn; [done|by apply Hbest].
    + apply (best_of_other l ext k w' (oid, mib)); [by apply Hw|by apply not_eq_sym|done].
Qed.

Lemma choose_chosen l st x : chosen l st -> chosen (x :: l) (choose st x).
Proof.
  intros Hc. destruct st as [seen ext], x as [oid mib]. unfold choose.
  destruct (seen !! pm_Name mib) as [w|] eqn:Es.
  2: { apply (chosen_new l seen ext); [done|congruence|by right|by rewrite lookup_insert_eq]. }
  destruct (proj2 Hc _ w Es) as (mw & Hin & Hnw & Hext & Hbest). cbn [fst snd] in *. rewrite Hext. cbn [default].
  assert (forall v mv, seen !! pm_Name mib = Some v -> ext !! pm_Name mib = Some (pm_FromExtended mv) ->
    v = w /\ pm_FromExtended mv = pm_FromExtended mw) as Hsame by (intros v mv H1 H2; split; congruence).
  destruct (pm_FromExtended mw) eqn:E1, (pm_FromExtended mib) eqn:E2; cbn [andb negb id].
  2: { apply (chosen_new l seen ext); [done| |rewrite E2; by right|by rewrite lookup_insert_eq, E2].
       intros v mv _ _ H1 H2. destruct (Hsame v mv H1 H2) as [_ H3]. unfold better. cbn. by rewrite E2, H3. }
  2: { apply (chosen_old l seen ext oid mib w mw); [done..|congruence|done|]. unfold better. cbn. by rewrite E1, E2. }
  all: destruct (Nat.ltb_spec (String.length w) (String.length oid)).
  1,3: apply (chosen_new l seen ext); [done| |by left|congruence];
    intros v mv _ _ H1 H2; destruct (Hsame v mv H1 H2) as [-> H3]; unfold better; cbn; rewrite E2, H3; by apply Nat.ltb_lt.
  all: apply (chosen_old l seen ext oid mib w mw); [done..|congruence|done|]; unfold better; cbn; rewrite E1, E2; by apply Nat.ltb_ge.
Qed.

Lemma choose_all l : forall l0 st, chosen l0 st -> chosen (rev l ++ l0) (foldl choose st l).
Proof.
  induction l as [|x l IH]; intros l0 st Hc; [done|]. cbn [foldl rev]. rewrite <-app_assoc. apply IH. by apply choose_chosen.
Qed.

(** Of the objects of a name, the pruning keeps one that no other of the name is better than,
    in whatever order they are ranged over; two of a name are kept only if one may be a duplicate;
    and what is kept is unchanged, but for the time between polls of an object that has none. *)
Lemma prune_keeps range_mibs counterTimeSec minCounterTime mibs :
  (forall m, range_mibs m ≡ₚ map_to_list m) ->
  let kept := prune range_mibs counterTimeSec minCounterTime mibs in
  (forall o m, mibs !! o = Some m -> exists w mw, mibs !! w = Some mw /\ pm_Name mw = pm_Name m /\ is_Some (kept !! w) /\
     forall o' m', mibs !! o' = Some m' -> pm_Name m' = pm_Name m -> better (o', m') (w, mw) = false) /\
  (forall a b ma mb, mibs !! a = Some ma -> mibs !! b = Some mb -> is_Some (kept !! a) -> is_Some (kept !! b) ->
     pm_Name ma = pm_Name mb -> pm_AllowDup ma = false -> pm_AllowDup mb = false -> a = b) /\
  (forall o m, kept !! o = Some m -> exists m0, mibs !! o = Some m0 /\ m = slow_down counterTimeSec minCounterTime m0).
Proof.
  intros Hr kept. pose proof (choose_all (range_mibs mibs) [] (∅, ∅)) as Hc.
  assert (forall w mw, In (w, mw) (rev (range_mibs mibs) ++ []) <-> mibs !! w = Some mw) as Hin.
  { intros w mw. rewrite app_nil_r, <-in_rev, <-list_elem_of_In, (Hr mibs). apply elem_of_map_to_list. }
  destruct Hc as [Hall Hbest].
  { split; [by intros ? ? []|]. intros n w. cbn. by rewrite lookup_empty. }
  set (st := foldl choose (∅, ∅) (range_mibs mibs)) in *.
  assert (forall o m, mibs !! o = Some m ->
    (is_Some (kept !! o) <-> (exists n, st.1 !! n = Some o) \/ pm_AllowDup m = true)) as Hkept.
  { intros o m Ho. subst kept. unfold prune. fold st. rewrite lookup_fmap, fmap_is_Some.
    assert ((exists n, st.1 !! n = Some o) \/ pm_AllowDup m = true <->
            bool_decide (map_Exists (fun _ x => x = o) st.1) || pm_AllowDup m = true) as ->.
    { rewrite orb_true_iff, bool_decide_eq_true. unfold map_Exists. naive_solver. }
    split.
    - intros [x Hx]. apply map_lookup_filter_Some in Hx as [Hx Hk]. rewrite Ho in Hx. injection Hx as <-. exact Hk.
    - intros Hk. exists m. by apply map_lookup_filter_Some. }
  split; [|split].
  - intros o m Ho. destruct (Hall o m) as [w Hw]; [by apply Hin|]. destruct (Hbest _ _ Hw) as (mw & Hiw & Hn & _ & Hb).
    apply Hin in Hiw. exists w, mw. split; [done|]. split; [done|]. split; [apply (Hkept _ _ Hiw); by eauto|].
    intros o' m' Ho' Hn'. apply Hb; [by apply Hin|done].
  - intros a b ma mb Ha Hb Hka Hkb Hn Hda Hdb. apply (Hkept _ _ Ha) in Hka as [[n Hna]|]; [|congruence].
    apply (Hkept _ _ Hb) in Hkb as [[n' Hnb]|]; [|congruence].
    destruct (Hbest _ _ Hna) as (ma' & Hia & Hna' & _). destruct (Hbest _ _ Hnb) as (mb' & Hib & Hnb' & _).
    apply Hin in Hia, Hib. congruence.
  - intros o m Ho. subst kept. unfold prune in Ho. rewrite lookup_fmap in Ho.
    apply fmap_Some in Ho as (m0 & Hm0 & ->). apply map_lookup_filter_Some in Hm0 as [Hm0 _]. by exists m0.
Qed.

(** ** Witnesses *)

Definition sample_symbol (oid name : string) (poll : Z) : OID := mkOID oid name None "" "" "" poll [] "" false "" "".
Definition sample_metric (symbols : list OID) : MIB := mkMIB "M" no_OID symbols [] "" no_OID false false "" false.
Definition sample_profile (from : string) (exts : list string) (symbols : list OID) : Profile :=
  mkProfile [sample_metric symbols] exts "" [] [] from "" false ∅ [] (Some ∅) false.

(** Two profiles that extend a third. *)
Definition sample_store : store :=
  [sample_profile "a.yml" ["c.yml"] [sample_symbol ".1" "a" 0];
   sample_profile "b.yml" ["a.yml"; "c.yml"; "d.yml"] [sample_symbol ".2" "b" 0];
   sample_profile "c.yml" [] [sample_symbol ".3" "c" 0]]%string.
Definition sample_extends : gmap string nat := list_to_map [("a.yml", 0%nat); ("b.yml", 1%nat); ("c.yml", 2%nat)]%string.
Definition sample_rank (p : nat) : nat := match p with 0 => 1 | 1 => 2 | _ => 0 end%nat.

Lemma sample_extends_in n e : sample_extends !! n = Some e -> (e < 3)%nat.
Proof.
  unfold sample_extends. cbn. rewrite !lookup_insert. repeat case_decide; try (intros [= <-]; lia).
Qed.
Lemma sample_new : Forall (fun pr => extended pr = false /\ is_Some (SysMap pr)) sample_store.
Proof. repeat constructor; by eexists. Qed.
Lemma sample_ranked p pr n e : sample_store !! p = Some pr -> In n (Extends pr) -> sample_extends !! n = Some e ->
  (sample_rank e < sample_rank p)%nat.
Proof.
  destruct p as [|[|[|p]]]; cbn; [intros [= <-]..|done]; cbn.
  - intros [<-|[]]. vm_compute. intros [= <-]. lia.
  - intros [<-|[<-|[<-|[]]]]; vm_compute; [intros [= <-]; lia..|done].
  - intros [].
Qed.

Lemma extend_all_full_witness : exists h', extend_all validate sample_extends false [1; 0]%nat sample_store = Ok h' /\
  (map (fun m => map o_Name (m_Symbols m)) <$> (Metrics <$> h' !! 1%nat)) = Some [["b"]; ["a"]; ["c"]; ["c"]]%string.
Proof.
  destruct (extend_all_full validate sample_extends sample_rank [1; 0]%nat sample_store) as (h' & E & H).
  - apply sample_extends_in.
  - apply sample_new.
  - apply sample_ranked.
  - repeat constructor.
  - exists h'. split; [exact E|]. rewrite (H 1%nat) by by left. vm_compute. reflexivity.
Defined.

(** With a cycle. *)
Definition cyclic_extends : gmap string nat := <["d.yml" := 1%nat]> sample_extends.
Lemma cyclic_extend_ends :
  match extend_all validate cyclic_extends true [2; 1; 0]%nat sample_store with Ok h' => length h' = 3%nat | _ => False end.
Proof.
  assert (match extend_all validate cyclic_extends true [2; 1; 0]%nat sample_store with Err _ => false | _ => true end = true)
    as E by (vm_compute; reflexivity).
  pose proof (extend_all_ends validate cyclic_extends true [2; 1; 0]%nat sample_store) as H.
  destruct (extend_all _ _ _ _ _); [apply H|discriminate|apply H|apply H].
  all: try exact (Forall_impl _ _ _ sample_new (fun _ H => or_intror (proj2 H))).
  all: try (intros n e; unfold cyclic_extends; rewrite lookup_insert; case_decide;
    [intros [= <-]; cbn; lia|apply sample_extends_in]).
  all: repeat constructor.
Qed.

Definition sample_profiles : gmap string nat := list_to_map [("1.3.*", 0%nat); ("1.3.6.1.*", 1%nat); ("1.3.6.2", 2%nat)]%string.
Lemma FindProfile_longest_witness :
  FindProfile (fun _ => None) (fun s => s) map_to_list sample_store [0; 1; 2]%nat sample_profiles ".1.3.6.1.4" "" "" = Some 1%nat /\
  exists j p, sample_profiles !! (strings_Join (take j ["1"; "3"; "6"; "1"; "4"]%string) "." +:+ ".*") = Some p /\
    answers (fun _ => None) (fun s => s) map_to_list sample_store p "" (Some 1%nat).
Proof.
  split; [vm_compute; reflexivity|].
  destruct (FindProfile_longest (fun _ => None) (fun s => s) map_to_list sample_store [0; 1; 2]%nat sample_profiles ".1.3.6.1.4" "" "")
    as [(j & p & Hp & Ha & _)|[Hn _]].
  - reflexivity.
  - intros k p. unfold sample_profiles. cbn. rewrite !lookup_insert. repeat case_decide; try (intros [= <-]; by eexists).
  - exists j, p. split; [exact Hp|exact Ha].
  - discriminate Hn.
Defined.

Definition sample_mib (oid name : string) (ext : bool) : ProfileMib :=
  mkProfileMib (mkMib oid name "" None None "" "" "" 0 0 None "" None None false "") 6 "" None ext false ∅ ∅.
Definition sample_mibs : gmap string ProfileMib := list_to_map
  [(".1.1.1", sample_mib ".1.1.1" "x" true); (".1.2", sample_mib ".1.2" "x" false); (".1", sample_mib ".1" "x" false)]%string.
Lemma prune_keeps_witness : exists w mw, sample_mibs !! w = Some mw /\
  is_Some (prune map_to_list 60 60 sample_mibs !! w) /\ w = ".1.2"%string.
Proof.
  destruct (prune_keeps map_to_list 60 60 sample_mibs) as (H1 & H2 & _); [intros m; reflexivity|].
  destruct (H1 ".1"%string (sample_mib ".1" "x" false)) as (w & mw & Hw & Hn & Hk & _); [vm_compute; reflexivity|].
  exists w, mw. split; [exact Hw|]. split; [exact Hk|].
  apply (H2 w ".1.2"%string mw (sample_mib ".1.2" "x" false)); [exact Hw|vm_compute; reflexivity|exact Hk| |exact Hn| |reflexivity].
  - vm_compute. eexists. reflexivity.
  - revert Hw. unfold sample_mibs. cbn. rewrite !lookup_insert. repeat case_decide; try (intros [= <-]; reflexivity).
Defined.

(** The poll time that is reported is that of the last object that is faster than the device, not
    the shortest. *)
Definition no_range (m : gmap string Z) : list (string * Z) := [].
Definition polled (symbols : list OID) (t : Z) : Objects :=
  GetMetrics (fun s => s) (fun _ => true) no_range map_to_list (sample_profile "a.yml" [] symbols) ["M"%string] t.
Example min_is_last : (polled [sample_symbol ".1" "a" 10; sample_symbol ".2" "b" 30] 60).2 = 30.
Proof. vm_compute. reflexivity. Qed.

(** An object that is to be polled every five seconds gets no time of its own, and then the slow
    one of the device. *)
Example five_seconds_is_slow :
  (mb_PollDur ∘ pm_Mib) <$> (polled [sample_symbol ".1" "a" 5] 60).1.1 = {[".1"%string := 55 * Second]}.
Proof. vm_compute. reflexivity. Qed.

(** Of several patterns for an attribute only the last one is kept. *)
Example last_pattern : match_attrs (fun _ => true) (mkOID "" "" None "" "" "" 0 ["up"; "down"] "" false "" "")%string "x" =
  Some {["x" := "down"]}%string.
Proof. vm_compute. reflexivity. Qed.
