(* ===== verification/MibDB.v ===== *)
(** * The database of objects and traps (src/pkg/inputs/snmp/mibs: load.go, trap.go and the loading
    of profile.go)

    Profiles and traps are read from a tree of files; objects and traps are found by their
    identifiers, with wildcards and with variables that stand for parts of an identifier.  YAML, XML,
    the LevelDB of compiled MIBs and the orders of maps are arguments. *)
From Stdlib Require Import Ascii.
From S2P Require Import Prelude GoIO GoStrings Decimal KT SnmpTypes Scanner Profiles.

Record Trap := mkTrap {
  tr_Oid : string;
  tr_Name : string;
  tr_DropUndefined : bool;
  tr_Events : list OID;
  tr_Attributes : gmap string string
}.
Definition DropUndefinedVars (t : option Trap) : bool :=
  match t with None => false | Some t => tr_DropUndefined t end.
Definition normalizeOid (oid : string) : string := if HasPrefix oid "." then oid else "." +:+ oid.

Record MibDB := mkMibDB {
  db_profiles : gmap string nat;
  db_trapMibs : gmap string ProfileMib;
  db_traps : gmap string Trap;
  db_validate : bool;
  db_store : store
}.
Definition NewMibDB (validate : bool) : MibDB := mkMibDB ∅ ∅ ∅ validate [].

(** ** Traps *)

(** The parts of an identifier: names of variables, each with its place and its length, zero for
    all the rest; and the identifier without them. *)
Abbreviation VarSet := (gmap string (Z * Z)).
Definition is_variable (s : string) : bool :=
  (2 <? String.length s)%nat && HasPrefix s "{" && HasSuffix s "}".
Fixpoint event_vars (pts : list string) (newOid : list string) (next : Z) (kvs : VarSet) : list string * VarSet :=
  match pts with
  | [] => (newOid, kvs)
  | last :: pts =>
      if is_variable last
      then match strings_Split (String.substring 1 (String.length last - 2) last) ":" with
           | [name; len] =>
               match Atoi len with
               | Some vlen => event_vars pts newOid ((int64 (next + vlen))%go) (<[name := (next + 1, vlen)]> kvs)
               | None => if String.eqb len "*" then (newOid, <[name := (next + 1, 0)]> kvs)
                         else event_vars pts newOid next kvs
               end
           | _ => event_vars pts newOid next kvs
           end
      else event_vars pts (newOid ++ [last]) (next + 1) kvs
  end.
Definition event_oid (oid : string) : string * VarSet :=
  let '(newOid, kvs) := event_vars (strings_Split oid ".") [] 0 ∅ in
  (strings_Join (if (0 <? size kvs)%nat then newOid ++ ["*"%string] else newOid) ".", kvs).

Section Traps.
  (** [strings.ToLower], and the pairs that a range over an enumeration visits while its body adds
      to it: the own ones, and perhaps added ones. *)
  Context (ToLower : string -> string) (visits : gmap string Z -> list (string * Z)).

(** The object of an event; its enumeration is changed in place. *)
Definition event_mib (trap : Trap) (event : OID) : ProfileMib * OID :=
  let '(oid, kvs) := event_oid (o_Oid event) in
  let mib e r := mkProfileMib (mkMib oid (o_Name event) (o_Tag event) e r (o_Conversion event) (tr_Oid trap) "" 0 0 None
                                 "" None None false "")
                   0 (tr_Name trap) None false false kvs (tr_Attributes trap) in
  match o_Enum event with
  | Some e =>
      if (0 <? size e)%nat
      then
        let e' := foldl (fun m '(k, v) => <[ToLower k := v]> m) e (visits e) in
        let r := foldl (fun m '(k, v) => <[v := k]> m) ∅ (visits e) in
        (mib (Some e') (Some r),
         mkOID (o_Oid event) (o_Name event) (Some e') (o_Tag event) (o_Desc event) (o_Conversion event) (o_PollTime event)
           (o_MatchAttr event) (o_Format event) (o_AllowDup event) (o_Condition event) (o_Script event))
      else (mib (Some e) None, event)
  | None => (mib None None, event)
  end.

(** The object of an event goes under its key. *)
Definition put_event (trap : Trap) (st : gmap string ProfileMib * list OID) (event : OID) : gmap string ProfileMib * list OID :=
  let '(mibs, events) := st in
  let '(mib, event) := event_mib trap event in
  (<[normalizeOid (mb_Oid (pm_Mib mib)) := mib]> mibs, events ++ [event]).

Definition add_trap (db : MibDB) (trap : Trap) : MibDB :=
  let '(mibs, events) := foldl (put_event trap) (db_trapMibs db, []) (tr_Events trap) in
  mkMibDB (db_profiles db) mibs
    (<[normalizeOid (tr_Oid trap) := mkTrap (tr_Oid trap) (tr_Name trap) (tr_DropUndefined trap) events (tr_Attributes trap)]>
       (db_traps db)) (db_validate db) (db_store db).
Definition add_traps (traps : list Trap) (db : MibDB) : MibDB := foldl add_trap db traps.
End Traps.

Definition GetTrap (db : MibDB) (oid : string) : option Trap :=
  match db_traps db !! oid with
  | Some t => Some t
  | None => find_wildcard (fun k => db_traps db !! k) oid
  end.

(** ** Objects *)

(** [pts[a:b]]. *)
Definition slice (pts : list string) (a b : Z) : outcome (list string) :=
  if (0 <=? a) && (a <=? b) && (b <=? Z.of_nat (length pts))
  then Ok (take (Z.to_nat (b - a)) (drop (Z.to_nat a) pts)) else Panic "slice bounds out of range".

(** One variable of an object that was found by a wildcard. *)
Definition read_var (pts : list string) (attrs : gmap string string) (v : string * (Z * Z)) : outcome (gmap string string) :=
  let '(name, (pos, len)) := v in
  if Z.of_nat (length pts) <? (int64 (pos + len))%go then Ok attrs
  else if len =? 0 then s ← slice pts pos (Z.of_nat (length pts)); Ok (<[name := strings_Join s "."]> attrs)
  else s ← slice pts pos ((int64 (pos + len))%go); Ok (<[name := strings_Join s "."]> attrs).
Definition read_vars (range : VarSet -> list (string * (Z * Z))) (pts : list string) (m : ProfileMib) : outcome (gmap string string) :=
  attrs ← fold_out (read_var pts) ∅ (range (pm_VarSet m)); Ok (attrs ∪ pm_XAttr m).

(** The first number after [type=]. *)
Fixpoint digit_run (s : string) : string :=
  match s with
  | String c s => match digit c with Some _ => String c (digit_run s) | None => "" end
  | "" => ""
  end%string.
Fixpoint find_type (s : string) : option string :=
  let d := if HasPrefix s "type=" then digit_run (sdrop 5 s) else ""%string in
  if negb (String.eqb d "") then Some d else match s with String _ s => find_type s | ""%string => None end.

(** An entry of the database: its name, its type and the rest. *)
Definition db_entry (data : string) : option (string * Z * string) :=
  match strings_SplitN data " " 2 with
  | [p0; p1] => t ← find_type p1; dt ← Atoi t; Some (p0, dt, p1)
  | _ => None
  end.
Definition db_mib (oid p0 extra : string) (dt : Z) : ProfileMib :=
  mkProfileMib (mkMib oid (hd "" (strings_SplitN p0 "(" 2))%string "" None None "" "" "" 0 0 None "" None None false "")
    dt extra None false false ∅ ∅.

Definition validOids : list Z := [1; 2; 3; 4; 5; 6; 7; 8; 11; 12; 15; 16].

(** ** Providers *)

Definition ProviderSwitch : string := "kentik-switch".
Definition ProviderFirewall : string := "kentik-firewall".
Definition ProviderUPS : string := "kentik-ups".
Definition ProviderPDU : string := "kentik-pdu".
Definition ProviderIOT : string := "kentik-iot".
Definition ProviderWirelessController : string := "kentik-wireless-controller".
Definition ProviderNas : string := "kentik-nas".
Definition ProviderSan : string := "kentik-san".
Definition ProviderFibreChannel : string := "kentik-fibre-channel".

Definition checkForProvider (ToLower : string -> string) (name profile description : string) : option string :=
  let combo := ToLower name +:+ "^" +:+ ToLower description in
  let profile := ToLower profile in
  let has := strings_Contains combo in
  let prof := strings_Contains profile in
  if prof "base.yml" then Some ProviderDefault
  else if negb (prof "cisco-catalyst") && (has "router" || has "ios xr" || has "freebsd" || prof "cisco-asr")
  then Some ProviderRouter
  else if has "switch" || prof "cisco-catalyst" then Some ProviderSwitch
  else if has "firewall" then Some ProviderFirewall
  else if prof "ups" then Some ProviderUPS
  else if prof "pdu" then Some ProviderPDU
  else if prof "fc-switch" then Some ProviderFibreChannel
  else if has "iot" || has "printer" then Some ProviderIOT
  else if has "nas" then Some ProviderNas
  else if has "san" then Some ProviderSan
  else if has "wireless" then Some ProviderWirelessController
  else None%string.

Section LevelDB.
  Context (ToLower : string -> string).
  (** The database, if there is one: [Get], which may find nothing, and the entries under a prefix
      in order. *)
  Context (Get : option (string -> outcome (option string))) (Prefix : option (string -> list (string * string) * option error)).

Definition GetForKey (range : VarSet -> list (string * (Z * Z))) (db : MibDB) (oid : string) :
    outcome (option ProfileMib * gmap string string) :=
  match db_trapMibs db !! oid with
  | Some m => Ok (Some m, pm_XAttr m)
  | None =>
      match find_wildcard (fun k => db_trapMibs db !! k) oid with
      | Some m => attrs ← read_vars range (strings_Split oid ".") m; Ok (Some m, attrs)
      | None =>
          match Get with
          | None => Ok (None, ∅)
          | Some get =>
              data ← get oid;
              Ok (match data ≫= db_entry with
                  | Some (p0, dt, _) => (Some (db_mib oid p0 "" dt), ∅)
                  | None => (None, ∅)
                  end)
          end
      end
  end.

(** The loop over the entries under a prefix. *)
Definition oid_entry (profile description : string) (st : gmap string ProfileMib * option string) (kv : string * string) :
    gmap string ProfileMib * option string :=
  let '(mibs, prov) := st in
  match db_entry kv.2 with
  | None => (mibs, prov)
  | Some (p0, dt, p1) =>
      let prov := match prov with Some p => Some p | None => checkForProvider ToLower p0 profile description end in
      let extra := match strings_SplitN p1 " " 2 with [_; e] => e | _ => ""%string end in
      (if existsb (Z.eqb dt) validOids then <[kv.1 := db_mib kv.1 p0 extra dt]> mibs else mibs, prov)
  end.

Definition GetForOid (oid profile description : string) : outcome (gmap string ProfileMib * string) :=
  match Prefix with
  | None => Ok (∅, default ""%string (checkForProvider ToLower oid profile description))
  | Some entries =>
      let '(l, err) := entries oid in
      let '(mibs, prov) := foldl (oid_entry profile description) (∅, None) l in
      match err with Some e => Err e | None => Ok (mibs, default ProviderDefault prov) end
  end.

(** [GetForOidRecur]: up to the identifier of two parts. *)
Fixpoint oid_recur (pts : list string) (i : nat) (profile description : string) : outcome (gmap string ProfileMib * string * bool) :=
  match i with
  | O | S O => Ok (∅, ProviderDefault, false)
  | S i' =>
      '(res, pro) ← GetForOid (strings_Join (take i pts) ".") profile description;
      if (0 <? size res)%nat || (match Prefix with None => true | Some _ => false end && negb (String.eqb pro ""))
      then Ok (res, pro, (i =? length pts)%nat)
      else oid_recur pts i' profile description
  end.
Definition GetForOidRecur (oid profile description : string) : outcome (gmap string ProfileMib * string * bool) :=
  let pts := strings_Split oid "." in oid_recur pts (length pts) profile description.
End LevelDB.

(** ** Variables in identifiers *)

(** An identifier that ends in variables: the fixed parts, the names and lengths, and perhaps a
    variable for all the rest, behind which nothing is read. *)
Definition braces (a b : string) : string := "{" +:+ a +:+ ":" +:+ b +:+ "}".
Definition var_text (v : string * nat) : string := braces v.1 (Itoa (Z.of_nat v.2)).
Abbreviation Star := (option (string * list string)).
Definition star_parts (star : Star) : list string :=
  match star with Some (name, ignored) => braces name "*" :: ignored | None => [] end.
Definition pattern (fixed : list string) (vars : list (string * nat)) (star : Star) : string :=
  strings_Join (fixed ++ map var_text vars ++ star_parts star) ".".
Definition part_ok (s : string) : bool := lacks "."%char s && negb (is_variable s).
Definition name_ok (s : string) : bool := lacks "."%char s && lacks ":"%char s.

Record pattern_ok (fixed : list string) (vars : list (string * nat)) (star : Star) : Prop := {
  po_first : match fixed with first :: _ => first <> ""%string | [] => False end;
  po_fixed : Forall (fun s => part_ok s = true) fixed;
  po_names : Forall (fun v => name_ok v.1 = true) vars;
  po_nodup : NoDup (map fst vars);
  po_lens : Forall (fun v => 0 < v.2)%nat vars;
  po_star : match star with
            | Some (name, ignored) => name_ok name = true /\ Forall (fun s => lacks "."%char s = true) ignored /\
                                      ~ In name (map fst vars)
            | None => vars <> []
            end;
  po_small : 1 + Z.of_nat (length fixed) + Z.of_nat (sum_list_with snd vars) < 2 ^ 62
}.

Lemma braces_lacks a b : lacks "."%char a = true -> lacks "."%char b = true -> lacks "."%char (braces a b) = true.
Proof. intros Ha Hb. unfold braces. by rewrite !lacks_app, Ha, Hb. Qed.

Lemma substring_mid a b c : String.substring (String.length a) (String.length b) (a +:+ b +:+ c) = b.
Proof.
  induction a as [|x a IH]; [|exact IH]. change ("" +:+ b +:+ c) with (b +:+ c).
  induction b as [|x b IH]; [by destruct c|]. change (String x b +:+ c) with (String x (b +:+ c)).
  cbn [String.substring String.length] in *. by f_equal.
Qed.

Lemma braces_parts a b : lacks ":"%char a = true -> lacks ":"%char b = true ->
  is_variable (braces a b) = true /\
  strings_Split (String.substring 1 (String.length (braces a b) - 2) (braces a b)) ":" = [a; b].
Proof.
  intros Ha Hb. set (body := a +:+ ":" +:+ b).
  assert (braces a b = "{" +:+ body +:+ "}") as Ht.
  { unfold braces, body. by rewrite !sapp_assoc. }
  assert (String.length (braces a b) = S (S (String.length body))) as Hn.
  { rewrite Ht, !slength_app. cbn. lia. }
  split.
  - unfold is_variable. rewrite Hn. assert (String.length body <> 0%nat) as Hz by (unfold body; rewrite !slength_app; cbn; lia).
    destruct (Nat.ltb_spec 2 (S (S (String.length body)))); [|lia]. cbn [andb].
    rewrite Ht. unfold HasPrefix at 1. rewrite prefix_self. cbn [andb].
    unfold HasSuffix. rewrite !srev_app, sapp_assoc. apply prefix_self.
  - rewrite Hn. cbn [Nat.sub]. rewrite Nat.sub_0_r, Ht.
    change 1%nat with (String.length "{"). rewrite substring_mid.
    apply (Split_Join ":" [a; b]); [done|done|]. constructor; [by apply lacks_clean|].
    constructor; [|done]. by apply lacks_clean.
Qed.

Lemma event_vars_fixed fixed rest : Forall (fun s => part_ok s = true) fixed -> forall acc n kvs,
  event_vars (fixed ++ rest) acc n kvs = event_vars rest (acc ++ fixed) (n + Z.of_nat (length fixed)) kvs.
Proof.
  induction 1 as [|s fixed Hs _ IH]; intros acc n kvs; [rewrite app_nil_r; by rewrite Z.add_0_r|].
  apply andb_prop in Hs as [_ Hs%negb_true_iff]. cbn [app event_vars]. rewrite Hs, IH.
  f_equal; [by rewrite <-app_assoc|]. cbn [length]. lia.
Qed.

(** The places of variables behind [n] parts. *)
Fixpoint places (n : Z) (vars : list (string * nat)) (star : Star) : list (string * (Z * Z)) :=
  match vars with
  | [] => match star with Some (name, _) => [(name, (n + 1, 0))] | None => [] end
  | (name, len) :: vars => (name, (n + 1, Z.of_nat len)) :: places (n + Z.of_nat len) vars star
  end.

Lemma event_vars_places vars star : Forall (fun v => name_ok v.1 = true) vars ->
  match star with Some (name, _) => name_ok name = true | None => True end -> forall acc n kvs,
  0 <= n -> n + Z.of_nat (sum_list_with snd vars) < 2 ^ 62 ->
  event_vars (map var_text vars ++ star_parts star) acc n kvs = (acc, foldl (fun m p => <[p.1 := p.2]> m) kvs (places n vars star)).
Proof.
  intros Hvars Hstar. induction Hvars as [|[name len] vars Hv _ IH]; intros acc n kvs Hn Hs.
  - destruct star as [[name ignored]|]; [|done]. cbn [map app star_parts event_vars].
    apply andb_prop in Hstar as [_ Hc]. by destruct (braces_parts name "*" Hc eq_refl) as [-> ->].
  - cbn [sum_list_with snd] in Hs. cbn [map app event_vars]. apply andb_prop in Hv as [_ Hc].
    destruct (braces_parts name (Itoa (Z.of_nat len)) Hc) as [Hvar Hsplit]; [apply Itoa_lacks; [done|lia]|].
    unfold var_text at 1 2 3. cbn [fst snd]. rewrite Hvar, Hsplit.
    rewrite Atoi_Itoa by lia. rewrite swrap_id by (try done; unfold in_srange; change (64 - 1) with 63; lia).
    rewrite IH by lia. done.
Qed.

Lemma places_names n vars star : map fst (places n vars star) = map fst vars ++ match star with Some (name, _) => [name] | None => [] end.
Proof. revert n. induction vars as [|[name len] vars IH]; intros n; [by destruct star as [[]|]|]. cbn. by rewrite IH. Qed.
Lemma places_nodup fixed vars star n : pattern_ok fixed vars star -> NoDup (map fst (places n vars star)).
Proof.
  intros [_ _ _ Hd _ Hs _]. rewrite places_names. apply NoDup_app. split; [done|].
  destruct star as [[name ignored]|]; [|split; [|by constructor]; by intros x _ Hx%elem_of_nil].
  destruct Hs as (_ & _ & Hn). split; [|apply NoDup_singleton]. intros x Hx ->%list_elem_of_singleton. by apply Hn, list_elem_of_In.
Qed.

Lemma foldl_insert_list_to_map {A} (l : list (string * A)) : NoDup (map fst l) -> forall m : gmap string A,
  foldl (fun m p => <[p.1 := p.2]> m) m l = list_to_map l ∪ m.
Proof.
  induction l as [|[k x] l IH]; intros Hn m; [by rewrite (left_id_L _ _)|].
  inversion Hn as [|? ? Hk Hn']; subst. cbn [foldl fst snd]. rewrite IH by done.
  rewrite list_to_map_cons, <-insert_union_l, insert_union_r; [done|]. by apply not_elem_of_list_to_map_1.
Qed.

Lemma event_oid_pattern fixed vars star : pattern_ok fixed vars star ->
  event_oid (pattern fixed vars star) =
    (strings_Join (fixed ++ ["*"%string]) ".", list_to_map (places (Z.of_nat (length fixed)) vars star)).
Proof.
  intros Hok. pose proof (places_nodup _ _ _ (Z.of_nat (length fixed)) Hok) as Hnd.
  destruct Hok as [Hf1 Hf Hv Hd Hl Hst Hs]. unfold event_oid, pattern. rewrite Split_Join.
  - rewrite event_vars_fixed by done. rewrite event_vars_places; [|done|by destruct star as [[]|]; [apply Hst|]|lia|lia].
    cbn [app]. rewrite Z.add_0_l, foldl_insert_list_to_map, (right_id_L _ _) by done.
    destruct (Nat.ltb_spec 0 (size (list_to_map (places (Z.of_nat (length fixed)) vars star) : VarSet))) as [_|Hz]; [done|].
    exfalso. apply Nat.le_0_r, map_size_empty_inv in Hz.
    destruct vars as [|[name len] vars]; [destruct star as [[]|]; [|done]|]; cbn in Hz; by apply insert_non_empty in Hz.
  - done.
  - by destruct fixed.
  - apply Forall_app. split; [|apply Forall_app; split].
    + eapply Forall_impl; [exact Hf|]. intros s [Hp _]%andb_prop. by apply lacks_clean.
    + apply Forall_map. rewrite Forall_forall in Hv |- *. intros v Hin. apply lacks_clean, braces_lacks.
      * by destruct (andb_prop _ _ (Hv _ Hin)).
      * apply Itoa_lacks; [done|]. pose proof (sum_list_with_in v snd vars Hin). lia.
    + destruct star as [[name ignored]|]; [|constructor]. destruct Hst as ([Hp _]%andb_prop & Hi & _). constructor.
      * by apply lacks_clean, braces_lacks.
      * eapply Forall_impl; [exact Hi|]. intros s. apply lacks_clean.
Qed.

(** What the variables of an identifier stand for; [tail] is what is left for the last one. *)
Definition readings (vars : list (string * nat)) (star : Star) (vals : list (list string)) (tail : list string) : gmap string string :=
  list_to_map (zip (map fst vars) (map (fun v => strings_Join v ".") vals) ++
               match star with Some (name, _) => [(name, strings_Join tail ".")] | None => [] end).

Definition place_value (pts : list string) (p : Z * Z) : string :=
  let rest := drop (Z.to_nat p.1) pts in strings_Join (if p.2 =? 0 then rest else take (Z.to_nat p.2) rest) ".".
Definition place_in (pts : list string) (p : Z * Z) : Prop :=
  0 <= p.1 /\ 0 <= p.2 /\ p.1 + p.2 <= Z.of_nat (length pts).

Lemma read_var_ok pts attrs name p : Z.of_nat (length pts) < 2 ^ 62 -> place_in pts p ->
  read_var pts attrs (name, p) = Ok (<[name := place_value pts p]> attrs).
Proof.
  destruct p as [pos len]. intros Hs (H0 & H1 & H2). cbn [fst snd] in *. unfold read_var, place_value, slice. cbn [fst snd].
  rewrite !swrap_id by (try done; unfold in_srange; change (64 - 1) with 63; lia).
  destruct (Z.ltb_spec (Z.of_nat (length pts)) (pos + len)); [lia|].
  destruct (Z.leb_spec 0 pos); [|lia]. rewrite Z.leb_refl. destruct (Z.eqb_spec len 0) as [->|].
  - destruct (Z.leb_spec pos (Z.of_nat (length pts))); [|lia]. cbn [andb mbind outcome_bind]. rewrite take_ge; [done|].
    rewrite length_drop. lia.
  - destruct (Z.leb_spec pos (pos + len)); [|lia].
    destruct (Z.leb_spec (pos + len) (Z.of_nat (length pts))); [|lia]. cbn. by rewrite Z.add_simpl_l.
Qed.

Lemma read_var_fold pts l : Z.of_nat (length pts) < 2 ^ 62 -> Forall (fun x => place_in pts x.2) l -> forall attrs,
  fold_out (read_var pts) attrs l = Ok (foldl (fun m p => <[p.1 := p.2]> m) attrs (prod_map id (place_value pts) <$> l)).
Proof.
  intros Hs. induction 1 as [|[name p] l Hp _ IH]; intros attrs; [done|]. cbn [fold_out fmap list_fmap foldl].
  rewrite read_var_ok by done. apply IH.
Qed.

Lemma read_vars_values range pts m : (forall v, range v ≡ₚ map_to_list v) -> Z.of_nat (length pts) < 2 ^ 62 ->
  map_Forall (fun _ p => place_in pts p) (pm_VarSet m) ->
  read_vars range pts m = Ok ((place_value pts <$> pm_VarSet m) ∪ pm_XAttr m).
Proof.
  intros Hr Hs Hp. unfold read_vars. rewrite read_var_fold; [|done|].
  2: { apply Forall_forall. intros [k p]. rewrite (Hr _), elem_of_map_to_list. apply Hp. }
  assert (NoDup (map fst (range (pm_VarSet m)))) as Hn.
  { change (map fst) with (fmap (M := list) (@fst string (Z * Z))). rewrite (Hr _). apply NoDup_fst_map_to_list. }
  rewrite foldl_insert_list_to_map, (right_id_L _ _).
  - cbn. rewrite list_to_map_fmap. rewrite (list_to_map_proper _ (map_to_list (pm_VarSet m))), list_to_map_to_list; [done| |by apply Hr].
    exact Hn.
  - rewrite map_map. exact Hn.
Qed.

Lemma places_in_range vars star : forall n k p, 0 <= n ->
  In (k, p) (places n vars star) -> 0 <= p.1 /\ 0 <= p.2 /\ p.1 + p.2 <= n + 1 + Z.of_nat (sum_list_with snd vars).
Proof.
  induction vars as [|[name len] vars IH]; intros n k p Hn; cbn [places sum_list_with snd] in *.
  - destruct star as [[name ignored]|]; [|done]. intros [[= <- <-]|[]]. cbn. lia.
  - intros [[= <- <-]|Hin]; [cbn; lia|]. apply IH in Hin; lia.
Qed.

Lemma places_values vars star vals tail : Forall (fun v => 0 < v.2)%nat vars ->
  Forall2 (fun v val => length val = v.2) vars vals -> forall (pre : list string) n,
  Z.of_nat (length pre) = n + 1 -> (star = None -> tail = []) ->
  prod_map id (place_value (pre ++ concat vals ++ tail)) <$> places n vars star =
    zip (map fst vars) (map (fun v => strings_Join v ".") vals) ++
    match star with Some (name, _) => [(name, strings_Join tail ".")] | None => [] end.
Proof.
  intros Hl Hv. induction Hv as [|[name len] val vars vals Hlen _ IH]; intros pre n Hn Ht.
  - destruct star as [[name ignored]|]; [|done]. cbn. unfold prod_map, place_value. cbn [fst snd id Z.eqb].
    by rewrite <-Hn, Nat2Z.id, drop_app_length.
  - apply Forall_cons in Hl as [Hp Hl]. cbn [snd] in Hlen, Hp.
    cbn [places fmap list_fmap map zip zip_with fst concat app]. f_equal.
    + unfold prod_map, place_value. cbn [fst snd id]. destruct (Z.eqb_spec (Z.of_nat len) 0); [lia|].
      rewrite <-Hn, !Nat2Z.id, drop_app_length, <-Hlen, <-app_assoc. by rewrite take_app_length.
    + rewrite <-app_assoc, app_assoc. apply IH; [done|rewrite length_app; lia|done].
Qed.

Lemma length_concat_vals (vars : list (string * nat)) vals : Forall2 (fun v val => length val = v.2) vars (vals : list (list string)) ->
  length (concat vals) = sum_list_with snd vars.
Proof. induction 1 as [|[name len] val vars vals Hl _ IH]; [done|]. cbn in *. rewrite length_app. lia. Qed.

(** ** Objects that are stored *)

Section Stored.
  Context (ToLower : string -> string) (visits : gmap string Z -> list (string * Z)).

(** The key of an event's object. *)
Definition event_key (event : OID) : string := normalizeOid (event_oid (o_Oid event)).1.

Lemma event_mib_fields trap event : let m := (event_mib ToLower visits trap event).1 in
  mb_Oid (pm_Mib m) = (event_oid (o_Oid event)).1 /\ pm_VarSet m = (event_oid (o_Oid event)).2 /\ pm_XAttr m = tr_Attributes trap.
Proof using Type.
  unfold event_mib. destruct (event_oid (o_Oid event)) as [oid kvs]. destruct (o_Enum event) as [e|]; [|done].
  by destruct (0 <? size e)%nat.
Qed.

(** What the events of a trap leave under a key is the object of the last one with the key. *)
Lemma put_event_mibs trap st event :
  (put_event ToLower visits trap st event).1 = <[event_key event := (event_mib ToLower visits trap event).1]> st.1.
Proof using Type.
  destruct st as [mibs events]. unfold put_event. destruct (event_mib_fields trap event) as [Ho _].
  destruct (event_mib ToLower visits trap event) as [m e]. cbn [fst] in *. unfold event_key. by rewrite Ho.
Qed.
Lemma put_events_keep trap key evs : Forall (fun e => event_key e <> key) evs -> forall st,
  (foldl (put_event ToLower visits trap) st evs).1 !! key = st.1 !! key.
Proof using Type.
  induction 1 as [|e evs Hk _ IH]; intros st; [done|]. cbn [foldl]. rewrite IH, put_event_mibs. by rewrite lookup_insert_ne.
Qed.
Lemma add_trap_mibs db trap : db_trapMibs (add_trap ToLower visits db trap) = (foldl (put_event ToLower visits trap) (db_trapMibs db, []) (tr_Events trap)).1.
Proof using Type.
  unfold add_trap. by destruct (foldl (put_event ToLower visits trap) _ _) as [mibs evs].
Qed.
Lemma add_traps_keep key traps : Forall (fun t => Forall (fun e => event_key e <> key) (tr_Events t)) traps -> forall db,
  db_trapMibs (add_traps ToLower visits traps db) !! key = db_trapMibs db !! key.
Proof using Type.
  unfold add_traps. induction 1 as [|t traps Ht _ IH]; intros db; [done|]. cbn [foldl]. rewrite IH, add_trap_mibs. by rewrite put_events_keep.
Qed.

Lemma add_traps_stores before trap after pre event post db :
  tr_Events trap = pre ++ event :: post ->
  Forall (fun e => event_key e <> event_key event) (post ++ flat_map tr_Events after) ->
  db_trapMibs (add_traps ToLower visits (before ++ trap :: after) db) !! event_key event = Some (event_mib ToLower visits trap event).1.
Proof using Type.
  intros He [Hpost Hafter]%Forall_app. unfold add_traps. rewrite foldl_app. cbn [foldl].
  change (foldl (add_trap ToLower visits) ?d after) with (add_traps ToLower visits after d). rewrite add_traps_keep.
  - rewrite add_trap_mibs, He, foldl_app. cbn [foldl]. rewrite put_events_keep by done. rewrite put_event_mibs. apply lookup_insert_eq.
  - apply Forall_forall. intros t Ht. rewrite Forall_forall in Hafter |- *. intros e Hin. apply Hafter.
    apply list_elem_of_In, in_flat_map. exists t. by rewrite <-!list_elem_of_In.
Qed.
End Stored.

(** The walk up stops at the first part that is known. *)
Lemma walk_up_stops {A} (find : string -> option A) pts x j : forall i, (0 < j <= i)%nat ->
  find (strings_Join (take j pts) "." +:+ ".*") = Some x ->
  (forall k, (j < k <= i)%nat -> find (strings_Join (take k pts) "." +:+ ".*") = None) -> walk_up find pts i = Some x.
Proof.
  induction i as [|i IH]; intros Hj Hx Hn; [lia|]. cbn [walk_up]. destruct (decide (j = S i)) as [<-|].
  - by rewrite Hx.
  - rewrite Hn by lia. apply IH; [lia|done|]. intros k Hk. apply Hn. lia.
Qed.

Lemma Join_snoc parts x : parts <> [] -> strings_Join (parts ++ [x]) "." = strings_Join parts "." +:+ "." +:+ x.
Proof.
  intros Hne. induction parts as [|p parts IH]; [done|]. destruct parts as [|q parts]; [done|].
  change (strings_Join ((p :: q :: parts) ++ [x]) ".") with (p +:+ "." +:+ strings_Join ((q :: parts) ++ [x]) ".").
  rewrite IH by done. change (strings_Join (p :: q :: parts) ".") with (p +:+ "." +:+ strings_Join (q :: parts) ".").
  by rewrite !sapp_assoc.
Qed.

(** C31: The traps of a file are added; one of them has an object whose identifier is fixed parts,
    then variables of positive lengths, then perhaps a variable for all the rest, behind which what
    the pattern says is ignored.  Then an identifier of the fixed parts and of as many parts as the
    variables take is found, by its wildcard, and each variable is read as the parts at its place,
    the last one as all that is left, before the constant attributes of the trap.  (No later object
    has the same key, and no object is under the identifier itself or under a wildcard of a longer
    part of it.  The identifier starts with a dot, the pattern does not.) *)
Theorem variables_roundtrip ToLower visits range Get db before trap after pre event post fixed vars star vals tail :
  (forall v, range v ≡ₚ map_to_list v) -> pattern_ok fixed vars star ->
  tr_Events trap = pre ++ event :: post -> o_Oid event = pattern fixed vars star ->
  Forall (fun e => event_key e <> event_key event) (post ++ flat_map tr_Events after) ->
  Forall2 (fun v val => length val = v.2) vars vals -> (star = None -> tail = []) ->
  Forall (fun s => lacks "."%char s = true) (concat vals ++ tail) -> Z.of_nat (length (fixed ++ concat vals ++ tail)) < 2 ^ 62 - 1 ->
  let loaded := add_traps ToLower visits (before ++ trap :: after) db in
  let parts := "" :: fixed ++ concat vals ++ tail in
  let oid := strings_Join parts "." in
  db_trapMibs loaded !! oid = None ->
  (forall k, (S (length fixed) < k <= length parts)%nat -> db_trapMibs loaded !! (strings_Join (take k parts) "." +:+ ".*") = None) ->
  GetForKey Get range loaded oid =
    Ok (Some (event_mib ToLower visits trap event).1, readings vars star vals tail ∪ tr_Attributes trap).
Proof.
  intros Hr Hok He Ho Hlater Hvals Ht Hv Hsmall loaded parts oid Hne Hlonger. pose proof (event_oid_pattern fixed vars star Hok) as E.
  pose proof (add_traps_stores ToLower visits before trap after pre event post db He Hlater) as Hstored. fold loaded in Hstored.
  destruct (event_mib_fields ToLower visits trap event) as (_ & Hset & Hattr). rewrite Ho, E in Hset. cbn [snd] in Hset.
  set (m := (event_mib ToLower visits trap event).1) in *.
  destruct Hok as [Hfirst Hfix Hnames Hd Hl Hst Hs]. pose proof (length_concat_vals vars vals Hvals) as Hlen.
  destruct fixed as [|f fixed]; [done|].
  assert (event_key event = strings_Join (take (S (length (f :: fixed))) parts) "." +:+ ".*") as Hkey.
  { unfold event_key. rewrite Ho, E. cbn [fst]. unfold parts. change (take (S (length (f :: fixed))) (?x :: ?l)) with (x :: take (length (f :: fixed)) l).
    rewrite take_app_length, Join_snoc by done. change (strings_Join ("" :: f :: fixed) ".") with ("." +:+ strings_Join (f :: fixed) ".").
    apply List.Forall_inv in Hfix. apply andb_prop in Hfix as [Hf _]. destruct f as [|c f]; [done|]. unfold normalizeOid.
    assert (HasPrefix (strings_Join (String c f :: fixed) "." +:+ "." +:+ "*") "." = false) as ->.
    { cbn [lacks] in Hf. apply andb_prop in Hf as [Hc%negb_true_iff%Ascii.eqb_neq _].
      assert (exists r, strings_Join (String c f :: fixed) "." +:+ "." +:+ "*" = String c r) as [r ->] by (destruct fixed; eexists; reflexivity).
      unfold HasPrefix. cbn [String.prefix]. by destruct (Ascii.ascii_dec "." c) as [<-|]. }
    by rewrite sapp_assoc. }
  assert (strings_Split oid "." = parts) as Hsplit.
  { apply Split_Join; [done|done|]. apply (proj2 (Forall_app _ ("" :: f :: fixed) _)). split.
    - constructor; [done|]. eapply Forall_impl; [exact Hfix|]. intros s [Hp _]%andb_prop. by apply lacks_clean.
    - eapply Forall_impl; [exact Hv|]. intros s. apply lacks_clean. }
  assert (find_wildcard (fun k => db_trapMibs loaded !! k) oid = Some m) as Hfind.
  { unfold find_wildcard. rewrite Hsplit. apply (walk_up_stops _ _ _ (S (length (f :: fixed)))); [|by rewrite <-Hkey|exact Hlonger].
    unfold parts. cbn [length]. rewrite length_app. cbn [length]. lia. }
  unfold GetForKey. rewrite Hne, Hfind, Hsplit, read_vars_values; [|done| |].
  - cbn. do 3 f_equal; [|done]. rewrite Hset, <-list_to_map_fmap. unfold readings. f_equal.
    apply (places_values vars star vals tail Hl Hvals ("" :: f :: fixed)); [cbn; lia|done].
  - unfold parts. cbn [length]. lia.
  - rewrite Hset. intros k p Hk%elem_of_list_to_map_2%list_elem_of_In.
    destruct (places_in_range vars star _ _ _ (Nat2Z.is_nonneg _) Hk) as (H1 & H2 & H3).
    split; [done|]. split; [done|]. unfold parts. cbn [length] in *. rewrite !length_app. cbn [length]. lia.
Qed.

(** ** Witnesses *)

Definition hsrp_event : OID := named_OID "1.3.9.{ifIndex:1}.{group:2}" "hsrp" "".
Definition peer_event : OID := named_OID "1.3.7.{peer:*}.{ifIndex:1}" "peer" "".
Definition hsrp_trap : Trap := mkTrap "1.3.8" "hsrpTrap" true [hsrp_event; peer_event] {["team" := "net"; "group" := "none"]}%string.
Definition hsrp_db : MibDB := add_traps (fun s => s) map_to_list [hsrp_trap] (NewMibDB false).
Definition hsrp_mib : ProfileMib := (event_mib (fun s => s) map_to_list hsrp_trap hsrp_event).1.

Ltac no_longer := intros k Hk; cbn in Hk; do 8 (destruct k as [|k]; [first [lia | vm_compute; reflexivity]|]); lia.

Lemma variables_roundtrip_witness :
  GetForKey None map_to_list hsrp_db ".1.3.9.66.99.333" =
    Ok (Some hsrp_mib, {["ifIndex" := "66"; "group" := "99.333"; "team" := "net"]}%string) /\
  GetForKey None map_to_list hsrp_db ".1.3.7.2.2.3" ≫= (fun r => Ok r.2) =
    Ok ({["peer" := "2.2.3"; "group" := "none"; "team" := "net"]}%string).
Proof.
  split.
  - refine (eq_trans (variables_roundtrip (fun s => s) map_to_list map_to_list None (NewMibDB false) [] hsrp_trap [] [] hsrp_event [peer_event]
      ["1"; "3"; "9"]%string [("ifIndex", 1%nat); ("group", 2%nat)]%string None [["66"]; ["99"; "333"]]%string [] _ _ _ _ _ _ _ _ _ _ _) _).
    + intros v. reflexivity.
    + split; [discriminate|repeat constructor|repeat constructor|apply (bool_decide_unpack _); vm_compute; exact I|repeat constructor|
        discriminate|vm_compute; reflexivity].
    + reflexivity.
    + reflexivity.
    + repeat constructor. vm_compute. discriminate.
    + repeat constructor.
    + reflexivity.
    + repeat constructor.
    + vm_compute. reflexivity.
    + vm_compute. reflexivity.
    + no_longer.
    + vm_compute. reflexivity.
  - set (l := GetForKey None map_to_list hsrp_db ".1.3.7.2.2.3").
    assert (l = Ok (Some (event_mib (fun s => s) map_to_list hsrp_trap peer_event).1,
      readings [] (Some ("peer", ["{ifIndex:1}"])) [] ["2"; "2"; "3"] ∪ tr_Attributes hsrp_trap))%string as ->; [|vm_compute; reflexivity].
    apply (variables_roundtrip (fun s => s) map_to_list map_to_list None (NewMibDB false) [] hsrp_trap [] [hsrp_event] peer_event []
      ["1"; "3"; "7"]%string [] (Some ("peer", ["{ifIndex:1}"]))%string [] ["2"; "2"; "3"]%string).
    + intros v. reflexivity.
    + split; [discriminate|repeat constructor|constructor|constructor|constructor|split; [done|split; [repeat constructor|by intros []]]|
        vm_compute; reflexivity].
    + reflexivity.
    + reflexivity.
    + constructor.
    + constructor.
    + discriminate.
    + repeat constructor.
    + vm_compute. reflexivity.
    + vm_compute. reflexivity.
    + no_longer.
Defined.

(** A pattern that starts with a dot is stored under the same key, but its variables are read one
    part too late. *)
Example dotted_variables :
  GetForKey None map_to_list
    (add_traps (fun s => s) map_to_list [mkTrap "1.3.8" "" false [named_OID ".1.3.9.{a:1}.{b:1}" "x" ""] ∅] (NewMibDB false))
    ".1.3.9.66.77" ≫= (fun r => Ok r.2) = Ok {["a" := "77"]}%string.
Proof. vm_compute. reflexivity. Qed.
