(* ===== verification/MibFiles.v ===== *)
(** * Files of profiles (src/pkg/inputs/snmp/mibs: loading of profile.go, and pymib.go)

    A tree of files becomes the database: profiles in YAML with the comments on their system
    identifiers, traps, and profiles in APC's XML.  MIBs that were compiled to JSON become profiles.
    The file system is a tree; YAML, XML and JSON, and the orders of maps, are arguments. *)
From S2P Require Import Prelude GoIO GoStrings Decimal KT SnmpTypes Scanner Profiles MibDB.

(** ** Profiles of a file *)

(** What a line says of a system identifier: the text after the dash, and the comment. *)
Definition comment_of (line : string) : option (string * string) :=
  match strings_SplitN line "- " 2 with
  | [_; rest] =>
      match strings_SplitN rest "#" 2 with
      | [id; c] => Some (strings_TrimSpace id, strings_TrimSpace c)
      | _ => None
      end
  | _ => None
  end.
Definition sysid_comments (data : string) : gmap string string :=
  foldl (fun m kv => <[kv.1 := kv.2]> m) ∅ (omap comment_of (scanned (lines_of data))).

(** An identifier of a system that has a profile keeps it. *)
Definition add_sysid (p : nat) (profiles : gmap string nat) (sysid : string) : gmap string nat :=
  let sysid := no_dot sysid in
  match profiles !! sysid with Some _ => profiles | None => <[sysid := p]> profiles end.

(** The database, and the profiles by the names of their files. *)
Record Load := mkLoad { l_db : MibDB; l_extends : gmap string nat }.
Definition set_profiles (profiles : gmap string nat) (h : store) (db : MibDB) : MibDB :=
  mkMibDB profiles (db_trapMibs db) (db_traps db) (db_validate db) h.

Record APCData := mkAPCData { ad_Oid : string; ad_Field : string; ad_RuleId : string; ad_Id : string }.
Record APCSensor := mkAPCSensor { as_SensorSet : string; as_Oid : string; as_SensorId : string }.
Record APCDevice := mkAPCDevice {
  ap_Id : string;
  ap_OidMustExist : list string;
  ap_SetProductData : list APCData;
  ap_SetLocationData : list APCData;
  ap_NumSensors : list APCSensor
}.

Definition no_MIB : MIB := mkMIB "" no_OID [] [] "" no_OID false false "" false.
Definition set_Symbols (ss : list OID) (m : MIB) : MIB :=
  mkMIB (m_Mib m) (m_Table m) ss (m_MetricTags m) (m_ForcedType m) (m_Symbol m) (m_IsInterface m) (m_WalkTable m)
    (m_sortKey m) (m_fromExtended m).
Definition set_MetricTags (ts : list Tag) (m : MIB) : MIB :=
  mkMIB (m_Mib m) (m_Table m) (m_Symbols m) ts (m_ForcedType m) (m_Symbol m) (m_IsInterface m) (m_WalkTable m)
    (m_sortKey m) (m_fromExtended m).
Definition new_Profile (from : string) (sysids : list string) (tags : list Tag) (ms : list MIB) (vendor : string) : Profile :=
  mkProfile ms [] vendor tags sysids from "" false ∅ [] None false.

Definition apc_tag (d : APCData) : option Tag :=
  if String.eqb (ad_Oid d) "" then None
  else Some (mkTag (named_OID (ad_Oid d) (ad_Field d) "") (ad_RuleId d) (ad_Id d) 0).
Definition apc_sensor (m : gmap string MIB) (s : APCSensor) : gmap string MIB :=
  let mib := default (mkMIB (as_SensorSet s) no_OID [] [] "" no_OID false false "" false) (m !! as_SensorSet s) in
  <[as_SensorSet s := set_Symbols (m_Symbols mib ++ [named_OID (as_Oid s) (as_SensorId s) ""]) mib]> m.
Definition apc_profile (range : gmap string MIB -> list (string * MIB)) (file : string) (d : APCDevice) : Profile :=
  new_Profile file (ap_OidMustExist d) (omap apc_tag (ap_SetProductData d) ++ omap apc_tag (ap_SetLocationData d))
    (map snd (range (foldl apc_sensor ∅ (ap_NumSensors d)))) (ap_Id d).
Definition newProfileFromApc (range : gmap string MIB -> list (string * MIB)) (devices : list APCDevice) (file : string) :
    list Profile := map (apc_profile range file) devices.

(** A profile from XML replaces what an identifier had. *)
Definition add_apc (db : MibDB) (p : Profile) : MibDB :=
  let n := length (db_store db) in
  let profiles := foldl (fun m sysid => let sysid := no_dot sysid in if String.eqb sysid "" then m else <[sysid := n]> m)
                    (db_profiles db) (Sysobjectid p) in
  set_profiles profiles (db_store db ++ [p]) db.

(** ** Trees of files *)

(** A file or a folder: what [Stat] says, whether it can be listed, and what is read from it. *)
Inductive Entry :=
| mkEntry (name : string) (stat : option bool) (children : option (list Entry)) (data : option string).

Section Files.
  Context (ToLower : string -> string) (visits : gmap string Z -> list (string * Z)).
  Context (range_apc : gmap string MIB -> list (string * MIB)).
  (** [Unmarshal] into a profile that has a name, and of the other files. *)
  Context (UnmarshalProfile : Profile -> string -> option Profile) (UnmarshalTraps : string -> option (list Trap)).
  Context (ParseApcMib : string -> option (list APCDevice)).

Definition file_error (what fname : string) : error := Errorf (what +:+ fname) [].

Definition parseMibFromYml (name : string) (data : option string) (st : Load) : option error * Load :=
  match data with
  | None => (Some (file_error "read " name), st)
  | Some data =>
      match UnmarshalProfile (new_Profile name [] [] [] "") data with
      | None => (Some (file_error "yaml " name), st)
      | Some t =>
          let db := l_db st in
          let n := length (db_store db) in
          let t := set_extended false (set_SysMap (Some (sysid_comments data)) t) in
          (None, mkLoad (set_profiles (foldl (add_sysid n) (db_profiles db) (Sysobjectid t)) (db_store db ++ [t]) db)
                   (<[name := n]> (l_extends st)))
      end
  end.
Definition parseTrapsFromYml (name : string) (data : option string) (st : Load) : option error * Load :=
  match data ≫= UnmarshalTraps with
  | None => (Some (file_error "traps " name), st)
  | Some traps => (None, mkLoad (add_traps ToLower visits traps (l_db st)) (l_extends st))
  end.
Definition parseMibFromXml (fname : string) (data : option string) (st : Load) : option error * Load :=
  match data ≫= ParseApcMib with
  | None => (Some (file_error "xml " fname), st)
  | Some ds => (None, mkLoad (foldl add_apc (l_db st) (newProfileFromApc range_apc ds fname)) (l_extends st))
  end.

(** An error is returned only by a strict load. *)
Definition strictly (r : option error * Load) : option error * Load :=
  if db_validate (l_db r.2) then r else (None, r.2).

(** The part of the loop for a file that is no folder, or for a folder after its files. *)
Definition load_file (fname name : string) (data : option string) (st : Load) : option error * Load :=
  if String.eqb name "traps.yaml" || String.eqb name "traps.yml" then strictly (parseTrapsFromYml name data st)
  else
    let last := List.last (strings_Split fname ".") ""%string in
    if String.eqb last "xml" then strictly (parseMibFromXml fname data st)
    else if String.eqb last "yaml" || String.eqb last "yml" then strictly (parseMibFromYml name data st)
    else (None, st).

Fixpoint load_entry (dir : string) (e : Entry) (st : Load) : option error * Load :=
  match e with
  | mkEntry name stat children data =>
      let fname := dir +:+ "/" +:+ name in
      if HasPrefix name "." then (None, st)
      else match stat with
      | None => strictly (Some (file_error "stat " fname), st)
      | Some false => load_file fname name data st
      | Some true =>
          let listed := match children with
                        | None => (Some (file_error "readdir " fname), st)
                        | Some es =>
                            (fix go es st := match es with
                                             | [] => (None, st)
                                             | e :: es => match load_entry fname e st with
                                                          | (None, st) => go es st
                                                          | (Some err, st) => (Some err, st)
                                                          end
                                             end) es st
                        end in
          match listed with
          | (None, st) => load_file fname name data st
          | (Some err, st) => strictly (Some err, st)
          end
      end
  end.

Fixpoint load_entries (dir : string) (es : list Entry) (st : Load) : option error * Load :=
  match es with
  | [] => (None, st)
  | e :: es => match load_entry dir e st with
               | (None, st) => load_entries dir es st
               | (Some err, st) => (Some err, st)
               end
  end.

(** [LoadProfiles]; [order] is that of a range over the profiles. *)
Definition LoadProfiles (order : gmap string nat -> list nat) (strict : bool) (dir : string) (root : option (list Entry)) :
    outcome (nat * MibDB) :=
  match root with
  | None => Err (file_error "readdir " dir)
  | Some es =>
      match load_entries dir es (mkLoad (NewMibDB strict) ∅) with
      | (Some e, _) => Err e
      | (None, st) =>
          let db := l_db st in
          h ← extend_all validate (l_extends st) strict (order (db_profiles db)) (db_store db);
          Ok (size (db_profiles db), set_profiles (db_profiles db) h db)
      end
  end.
End Files.

(** ** Lenient loads *)

Section Lenient.
  Context (ToLower : string -> string) (visits : gmap string Z -> list (string * Z)).
  Context (range_apc : gmap string MIB -> list (string * MIB)).
  Context (UnmarshalProfile : Profile -> string -> option Profile) (UnmarshalTraps : string -> option (list Trap)).
  Context (ParseApcMib : string -> option (list APCDevice)).

(** Pointers are in the store, and what extends others has a map of comments. *)
Record load_ok (st : Load) : Prop := {
  lo_loaded : loaded (db_store (l_db st));
  lo_extends n e : l_extends st !! n = Some e -> (e < length (db_store (l_db st)))%nat;
  lo_profiles k p : db_profiles (l_db st) !! k = Some p -> (p < length (db_store (l_db st)))%nat;
  lo_lenient : db_validate (l_db st) = false
}.
Definition goes_on (r : option error * Load) : Prop := r.1 = None /\ load_ok r.2.

Lemma strictly_goes_on r : load_ok r.2 -> goes_on (strictly r).
Proof using Type. intros H. unfold strictly. rewrite (lo_lenient _ H). by split. Qed.

Lemma add_sysids_range n sysids : forall m, (forall k p, m !! k = Some p -> (p < S n)%nat) ->
  forall k p, foldl (add_sysid n) m sysids !! k = Some p -> (p < S n)%nat.
Proof using Type.
  induction sysids as [|s sysids IH]; intros m Hm; [exact Hm|]. cbn [foldl]. apply IH. unfold add_sysid.
  destruct (m !! no_dot s); [exact Hm|]. intros k p. rewrite lookup_insert. case_decide; [intros [= <-]; lia|by apply Hm].
Qed.

(** One more profile in the store. *)
Lemma load_ok_snoc st t profiles extends : load_ok st -> ready t ->
  (forall n e, extends !! n = Some e -> (e < S (length (db_store (l_db st))))%nat) ->
  (forall k p, profiles !! k = Some p -> (p < S (length (db_store (l_db st))))%nat) ->
  load_ok (mkLoad (set_profiles profiles (db_store (l_db st) ++ [t]) (l_db st)) extends).
Proof using Type.
  intros [Hl He Hp Hv] Ht Hex Hpr. split; cbn [l_db l_extends db_store db_profiles db_validate set_profiles]; [|rewrite length_app; cbn..|done].
  - apply Forall_app. split; [done|by constructor].
  - intros n e H. specialize (Hex n e H). lia.
  - intros k p H. specialize (Hpr k p H). lia.
Qed.

Lemma parseMibFromYml_ok name data st : load_ok st -> load_ok (parseMibFromYml UnmarshalProfile name data st).2.
Proof using Type.
  intros H. unfold parseMibFromYml. destruct data as [data|]; [|done]. destruct (UnmarshalProfile _ data) as [t|]; [|done].
  cbn [snd]. apply load_ok_snoc; [done|by right; eexists| |].
  - intros n e. rewrite lookup_insert. case_decide; [intros [= <-]; lia|]. intros Hn. pose proof (lo_extends _ H _ _ Hn). lia.
  - apply add_sysids_range. intros k p Hk. pose proof (lo_profiles _ H _ _ Hk). lia.
Qed.

Lemma add_trap_store db trap : db_store (add_trap ToLower visits db trap) = db_store db /\
  db_profiles (add_trap ToLower visits db trap) = db_profiles db /\ db_validate (add_trap ToLower visits db trap) = db_validate db.
Proof using Type. unfold add_trap. by destruct (foldl _ _ (tr_Events trap)). Qed.

Lemma parseTraps_ok name data st : load_ok st -> load_ok (parseTrapsFromYml ToLower visits UnmarshalTraps name data st).2.
Proof using Type.
  intros H. unfold parseTrapsFromYml. destruct (data ≫= UnmarshalTraps) as [traps|]; [|done]. cbn [snd].
  unfold add_traps. assert (forall db, load_ok (mkLoad db (l_extends st)) -> load_ok (mkLoad (foldl (add_trap ToLower visits) db traps) (l_extends st))) as Hall.
  { clear. induction traps as [|t traps IH]; intros db [Hl He Hp Hv]; [done|]. cbn [foldl]. apply IH.
    destruct (add_trap_store db t) as (E1 & E2 & E3). split; cbn [l_db l_extends] in *; rewrite ?E1, ?E2, ?E3; done. }
  apply Hall. by destruct st.
Qed.

Lemma add_apc_ok st p : load_ok st -> Extends p = [] -> load_ok (mkLoad (add_apc (l_db st) p) (l_extends st)).
Proof using Type.
  intros H Hx. unfold add_apc. apply load_ok_snoc; [done|by left| |].
  - intros n e Hn. pose proof (lo_extends _ H _ _ Hn). lia.
  - set (n := length (db_store (l_db st))).
    assert (forall k p, db_profiles (l_db st) !! k = Some p -> (p < S n)%nat) as Hm
      by (intros k q Hk; pose proof (lo_profiles _ H _ _ Hk); lia).
    revert Hm. generalize (db_profiles (l_db st)). induction (Sysobjectid p) as [|s l IH]; intros m Hm; [exact Hm|].
    cbn [foldl]. apply IH. cbn zeta. destruct (String.eqb (no_dot s) ""); [exact Hm|].
    intros k q. rewrite lookup_insert. case_decide; [intros [= <-]; lia|by apply Hm].
Qed.

Lemma parseXml_ok fname data st : load_ok st -> load_ok (parseMibFromXml range_apc ParseApcMib fname data st).2.
Proof using Type.
  intros H. unfold parseMibFromXml. destruct (data ≫= ParseApcMib) as [ds|]; [|done]. cbn [snd]. unfold newProfileFromApc.
  assert (forall db, load_ok (mkLoad db (l_extends st)) -> load_ok (mkLoad (foldl add_apc db (map (apc_profile range_apc fname) ds)) (l_extends st))) as Hall.
  { clear. induction ds as [|d ds IH]; intros db Hdb; [done|]. cbn [map foldl]. apply IH.
    exact (add_apc_ok (mkLoad db (l_extends st)) (apc_profile range_apc fname d) Hdb eq_refl). }
  apply Hall. by destruct st.
Qed.

Notation entry := (load_entry ToLower visits range_apc UnmarshalProfile UnmarshalTraps ParseApcMib).
Notation entries := (load_entries ToLower visits range_apc UnmarshalProfile UnmarshalTraps ParseApcMib).

Lemma load_file_ok fname name data st : load_ok st ->
  goes_on (load_file ToLower visits range_apc UnmarshalProfile UnmarshalTraps ParseApcMib fname name data st).
Proof using Type.
  intros H. unfold load_file.
  destruct (_ || _); [by apply strictly_goes_on, parseTraps_ok|].
  destruct (String.eqb _ "xml"); [by apply strictly_goes_on, parseXml_ok|].
  destruct (_ || _); [by apply strictly_goes_on, parseMibFromYml_ok|by split].
Qed.

Lemma load_entry_ok : forall e dir st, load_ok st -> goes_on (entry dir e st).
Proof using Type.
  fix IH 1. intros [name stat children data] dir st H. cbn [load_entry].
  destruct (HasPrefix name "."); [by split|]. destruct stat as [[]|]; [|by apply load_file_ok|by apply strictly_goes_on].
  destruct children as [es|]; [|by apply strictly_goes_on].
  match goal with |- goes_on (match ?l with _ => _ end) => assert (goes_on l) as Hl end.
  { revert st H. induction es as [|e es IHes]; intros st H; [by split|].
    destruct (IH e (dir +:+ "/" +:+ name) st H) as [H1 H2].
    destruct (entry _ e st) as [[err|] st']; [done|]. by apply IHes. }
  destruct Hl as [H1 H2]. match goal with |- goes_on (match ?l with _ => _ end) => destruct l as [[err|] st'] end; [done|].
  by apply load_file_ok.
Qed.

Lemma load_entries_ok dir es : forall st, load_ok st -> goes_on (entries dir es st).
Proof using Type.
  induction es as [|e es IH]; intros st H; [by split|]. cbn [load_entries].
  destruct (load_entry_ok e dir st H) as [H1 H2]. destruct (entry dir e st) as [[err|] st']; [done|]. by apply IH.
Qed.

(** C32: A lenient load of a folder that can be listed ends without an error or a panic, whatever the
    files hold, whatever cannot be read and whatever the profiles extend; the profiles that are
    found by an identifier are then in the store. *)
Theorem LoadProfiles_lenient order dir es :
  (forall m p, In p (order m) -> exists k, m !! k = Some p) ->
  exists n db, LoadProfiles ToLower visits range_apc UnmarshalProfile UnmarshalTraps ParseApcMib order false dir (Some es) = Ok (n, db) /\
    n = size (db_profiles db) /\ forall k p, db_profiles db !! k = Some p -> is_Some (db_store db !! p).
Proof using Type.
  intros Ho. unfold LoadProfiles.
  destruct (load_entries_ok dir es (mkLoad (NewMibDB false) ∅)) as [H1 H2].
  { split; cbn; [by constructor|intros *; by rewrite lookup_empty..|done]. }
  destruct (entries dir es _) as [[err|] st]; [done|]. cbn [snd] in H2.
  assert (exists h, extend_all validate (l_extends st) false (order (db_profiles (l_db st))) (db_store (l_db st)) = Ok h /\
            length h = length (db_store (l_db st))) as (h & -> & Hlen).
  { destruct H2 as [Hl He Hp Hv]. apply extend_all_lenient; [done|done|].
    apply Forall_forall. intros p Hin%list_elem_of_In%Ho. destruct Hin as [k Hk]. by eapply Hp. }
  cbn. eexists _, _. split; [reflexivity|]. split; [done|]. intros k p Hk. cbn in *. apply lookup_lt_is_Some_2.
  rewrite Hlen. by eapply (lo_profiles _ H2).
Qed.
End Lenient.

(** ** MIBs that were compiled to JSON (pymib.go) *)

Record PySMIMib := mkPySMIMib {
  py_Name : string;
  py_Oid : string;
  py_SyntaxType : string;
  py_Desc : string;
  py_Class : string;
  py_Nodetype : string;
  py_Enumeration : option (gmap string Z)
}.

Definition py_symbol (mibName : string) (pm : PySMIMib) (enum : option (gmap string Z)) : MIB :=
  mkMIB mibName no_OID [] [] ""
    (mkOID (py_Oid pm) (py_Name pm) enum "" (py_Desc pm) "" 0 [] "" false "" "") false false (py_Name pm) false.
Definition py_tag (mibName : string) (pm : PySMIMib) : MIB :=
  mkMIB mibName no_OID [] [mkTag (named_OID (py_Oid pm) (py_Name pm) (py_Desc pm)) "" "" 0] "" no_OID false false
    (py_Name pm) false.

(** [ToMib]: a table, a number, a text, or an enumeration of the file. *)
Definition ToMib (mibSet : gmap string PySMIMib) (mibName : string) (pm : PySMIMib) : option MIB :=
  let ty := py_SyntaxType pm in
  let one_of l := existsb (String.eqb ty) l in
  if HasSuffix (py_Name pm) "Table"
  then Some (mkMIB mibName (named_OID (py_Oid pm) (py_Name pm) (py_Desc pm)) [] [] "" no_OID false false (py_Name pm) false)
  else if String.eqb (py_Oid pm) "" then None
  else if one_of ["Counter32"; "Counter64"; "Gauge32"; "Gauge64"]%string then Some (py_symbol mibName pm None)
  else if one_of ["DisplayString"; "InterfaceIndex"; "InterfaceIndexOrZero"; "OCTET STRING"]%string then Some (py_tag mibName pm)
  else if one_of ["INTEGER"; "Integer32"]%string
  then Some (if String.eqb (py_Nodetype pm) "column" then py_tag mibName pm else py_symbol mibName pm None)
  else match mibSet !! ty with
       | Some ms => Some (py_symbol mibName pm (py_Enumeration ms))
       | None => None
       end.

Section PyMib.
  Context (range_set : gmap string PySMIMib -> list (string * PySMIMib)) (range_tables : gmap string MIB -> list (string * MIB)).

(** The objects, the tables and the identifiers of systems of a file. *)
Definition py_sort (mibSet : gmap string PySMIMib) (mibName : string) (st : list MIB * gmap string MIB * list string)
    (km : string * PySMIMib) : list MIB * gmap string MIB * list string :=
  let '(mibs, tables, sysoids) := st in
  let mib := km.2 in
  if String.eqb (py_Name mib) "" then st
  else if String.eqb (py_Class mib) "objectidentity" then (mibs, tables, sysoids ++ [py_Oid mib])
  else match ToMib mibSet mibName mib with
       | None => st
       | Some mb => if String.eqb (o_Oid (m_Table mb)) "" then (mibs ++ [mb], tables, sysoids)
                    else (mibs, <[o_Oid (m_Table mb) := mb]> tables, sysoids)
       end.

(** An object goes to the first table of the range whose identifier is a prefix of its own. *)
Definition table_takes (mib : MIB) (oid : string) : option (MIB -> MIB) :=
  if negb (String.eqb (o_Oid (m_Symbol mib)) "") && HasPrefix (o_Oid (m_Symbol mib)) oid
  then Some (fun t => set_Symbols (m_Symbols t ++ [m_Symbol mib]) t)
  else match m_MetricTags mib with
       | tag :: _ => if HasPrefix (o_Oid (t_Column tag)) oid
                     then Some (fun t => set_MetricTags (m_MetricTags t ++ m_MetricTags mib) t) else None
       | [] => None
       end.
Definition to_table (st : gmap string MIB * list MIB) (mib : MIB) : gmap string MIB * list MIB :=
  let '(tables, finals) := st in
  match omap (fun '(oid, t) => f ← table_takes mib oid; Some (oid, f t)) (range_tables tables) with
  | (oid, t) :: _ => (<[oid := t]> tables, finals)
  | [] => (tables, finals ++ [mib])
  end.

Definition has_metrics (m : MIB) : bool := negb (String.eqb (o_Oid (m_Symbol m)) "") || (0 <? length (m_Symbols m))%nat.

(** [ConvertJson2Yaml] up to the printing: the profile of a file, if it is valid; [sort] is
    [sort.Sort] by the names. *)
Definition json_profile (sort : list MIB -> list MIB) (mibSet : gmap string PySMIMib) (name mibName : string) : option Profile :=
  let '(mibs, tables, sysoids) := foldl (py_sort mibSet mibName) ([], ∅, []) (range_set mibSet) in
  let '(tables, finals) := foldl to_table (tables, []) mibs in
  let finals := finals ++ List.filter has_metrics (map snd (range_tables tables)) in
  let pro := new_Profile name sysoids [] (sort (List.filter has_metrics finals)) "" in
  if validate pro then Some pro else None.

(** [LoadPyMibSet]: one profile for each identifier of the map that has MIBs. *)
Definition py_mibs (files : list (string * gmap string PySMIMib)) : gmap string (list MIB) :=
  foldl (fun m '(name, set) =>
           foldl (fun m km => <[name := default [] (m !! name) ++ match ToMib set name km.2 with Some mb => [mb] | None => [] end]> m)
             m (range_set set)) ∅ files.
Definition py_profile (dir : string) (mibset : gmap string (list MIB)) (db : MibDB) (sm : string * list string) : MibDB :=
  let ms := concat (map (fun n => default [] (mibset !! n)) sm.2) in
  match ms with
  | [] => db
  | _ => set_profiles (<[sm.1 := length (db_store db)]> (db_profiles db))
           (db_store db ++ [new_Profile dir [sm.1] [] ms ""]) db
  end.
Definition LoadPyMibSet (range_sysids : gmap string (list string) -> list (string * list string)) (dir : string)
    (files : list (string * gmap string PySMIMib)) (psysmap : gmap string (list string)) (db : MibDB) : nat * MibDB :=
  let mibset := py_mibs files in
  (size mibset, if (0 <? size mibset)%nat then foldl (py_profile dir mibset) db (range_sysids psysmap) else db).
End PyMib.

(** ** Witnesses *)

Definition file (name data : string) : Entry := mkEntry name (Some false) None (Some data).
Definition sample_tree : list Entry :=
  [file "a.yml" "1.3.*"; mkEntry "sub" (Some true) (Some [file "b.yaml" ".1.3.*"; file ".hidden" ""]) None;
   mkEntry "lost" (Some true) None None; mkEntry "x.yml" None None None; file "bad.xml" ""]%string.
Definition sysid_Unmarshal (base : Profile) (data : string) : option Profile :=
  Some (mkProfile [] ["b.yaml"; "a.yml"; "none"]%string "" [] [data] (From base) "" false ∅ [] None false).
Definition values_of (m : gmap string nat) : list nat := map snd (map_to_list m).

Lemma LoadProfiles_lenient_witness : exists n db,
  LoadProfiles (fun s => s) map_to_list map_to_list sysid_Unmarshal (fun _ => None) (fun _ => None) values_of false "dir" (Some sample_tree)
    = Ok (n, db) /\ n = 1%nat /\ db_profiles db = {["1.3.*"%string := 0%nat]}.
Proof.
  destruct (LoadProfiles_lenient (fun s => s) map_to_list map_to_list sysid_Unmarshal (fun _ => None) (fun _ => None)
              values_of "dir" sample_tree) as (n & db & E & Hn & _).
  - intros m p [[k q] [<- Hin]]%in_map_iff. exists k. by apply elem_of_map_to_list, list_elem_of_In.
  - exists n, db. split; [exact E|]. vm_compute in E. injection E as <- <-. split; reflexivity.
Defined.

(** The identifier of one table is a prefix of that of another, without a dot, so an object can go
    to the wrong one. *)
Example wrong_table :
  let tables := (to_table (fun m => rev (map_to_list m)) ({[".1.1"%string := no_MIB; ".1.10"%string := no_MIB]}, [])
                   (py_symbol "M" (mkPySMIMib "x" ".1.10.7" "Counter32" "" "" "" None) None)).1 in
  map (fun oid => (fun t => map o_Name (m_Symbols t)) <$> tables !! oid) [".1.1"; ".1.10"]%string
  = [Some ["x"%string]; Some []].
Proof. vm_compute. reflexivity. Qed.

(** The comment on an identifier. *)
Example comments : sysid_comments ("sysobjectid:" +:+ newline +:+ "  - 1.3.6.1.4.1.9.* # all of them" +:+ newline) =
  {["1.3.6.1.4.1.9.*" := "all of them"]}%string.
Proof. vm_compute. reflexivity. Qed.
