(* ===== verification/Disco.v ===== *)
(** * Reading and writing the configuration (src/pkg/inputs/snmp: the parsing of snmp.go, disco.go)

    A configuration that was read gets the tags of providers and the global ones into its devices;
    a discovery adds what it found, drops duplicates and what was not seen for long, and takes out
    again what should not be written.  Files, YAML, the network and the orders of ranges are
    arguments. *)
From Stdlib Require Import Ascii.
From S2P Require Import Prelude GoIO GoStrings GoNet KT SnmpTypes SnmpConfig Profiles MibDB.

(** ** Tags by provider *)

(** [matchesPrefix]: the name of a tag that is for the provider, or for all. *)
Definition matchesPrefix (tag provider : string) : option string :=
  if negb (prefixed tag) then Some tag
  else match strings_SplitN tag ProviderToken 3 with
       | [_; p; rest] => if String.eqb p provider then Some rest else None
       | _ => Some tag
       end.

Section Tags.
  Context (visits : gmap string string -> list string).

Definition set_tag (p k v : string) (m : gmap string string) : gmap string string :=
  match matchesPrefix k p with
  | Some nk => let m := delete k m in match m !! nk with Some _ => m | None => <[nk := v]> m end
  | None => m
  end.
Definition set_tags (p : string) (m : gmap string string) : gmap string string := range_keys visits (set_tag p) m.
Definition prune_tag (k v : string) (m : gmap string string) : gmap string string := if prefixed k then delete k m else m.
Definition prune_tags (m : gmap string string) : gmap string string := range_keys visits prune_tag m.
(** What [setDeviceTagsAndMatch] does to the tags, and to the attributes. *)
Definition own_tags (provider : string) (m : gmap string string) : gmap string string :=
  prune_tags (set_tags GlobalProvider (set_tags provider (set_tags DeviceProvider m))).
Definition setDeviceTagsAndMatch (d : SnmpDeviceConfig) : SnmpDeviceConfig :=
  set_dc_MatchAttr (own_tags (dc_Provider d) <$> dc_MatchAttr d) (set_dc_UserTags (own_tags (dc_Provider d) <$> dc_UserTags d) d).

(** [cleanForSave] of a map: only what is of the provider stays, by its plain name. *)
Definition save_tag (p k v : string) (m : gmap string string) : gmap string string :=
  match matchesPrefix k p with
  | Some nk => let m := delete k m in if String.eqb v "" then m else <[nk := v]> m
  | None => delete k m
  end.
Definition save_tags (p : string) (m : gmap string string) : gmap string string := range_keys visits (save_tag p) m.
Definition clean_global (g : SnmpGlobalConfig) : SnmpGlobalConfig :=
  set_gl_tags (save_tags GlobalProvider <$> gl_UserTags g) (save_tags GlobalProvider <$> gl_MatchAttr g) g.
Definition clean_device (d : SnmpDeviceConfig) : SnmpDeviceConfig :=
  set_dc_MatchAttr (save_tags DeviceProvider <$> dc_MatchAttr d) (set_dc_UserTags (save_tags DeviceProvider <$> dc_UserTags d) d).
End Tags.

(** [cleanTagsForCopy], of the global section. *)
Definition cleanTagsForCopy (range : gmap string string -> list (string * string)) (g : option SnmpGlobalConfig) : gmap string string :=
  match g with
  | None => ∅
  | Some g =>
      foldl (fun clean kv => match matchesPrefix kv.1 GlobalProvider with
                             | Some nk => if String.eqb kv.2 "" then clean else <[nk := kv.2]> clean
                             | None => clean
                             end) ∅ (range (default ∅ (gl_UserTags g)))
  end.

(** ** Configurations *)

Record SnmpDiscoConfig := mkSnmpDiscoConfig {
  Cidrs : list string;
  IgnoreList : list string;
  DefaultCommunities : list string;
  DefaultV3 : option V3SNMPConfig;
  OtherV3s : list V3SNMPConfig;
  AddAllMibs : bool;
  ReplaceDevices : bool;
  NoDedup : bool;
  CidrOrig : string;
  IgnoreOrig : string
}.
Definition set_lists_of (cidrs ignore : list string) (corig iorig : string) (d : SnmpDiscoConfig) : SnmpDiscoConfig :=
  mkSnmpDiscoConfig cidrs ignore (DefaultCommunities d) (DefaultV3 d) (OtherV3s d) (AddAllMibs d) (ReplaceDevices d) (NoDedup d)
    corig iorig.
Definition set_DefaultV3 (v : option V3SNMPConfig) (d : SnmpDiscoConfig) : SnmpDiscoConfig :=
  mkSnmpDiscoConfig (Cidrs d) (IgnoreList d) (DefaultCommunities d) v (OtherV3s d) (AddAllMibs d) (ReplaceDevices d) (NoDedup d)
    (CidrOrig d) (IgnoreOrig d).

(** Of the trap section only its version 3 configuration is changed. *)
Record SnmpConfig := mkSnmpConfig {
  cf_Devices : gmap string SnmpDeviceConfig;
  cf_Trap : option (option V3SNMPConfig);
  cf_Disco : option SnmpDiscoConfig;
  cf_Global : option SnmpGlobalConfig;
  cf_DeviceOrig : string
}.
Definition set_Devices (ds : gmap string SnmpDeviceConfig) (c : SnmpConfig) : SnmpConfig :=
  mkSnmpConfig ds (cf_Trap c) (cf_Disco c) (cf_Global c) (cf_DeviceOrig c).

Section Parse.
  (** Files of lists and of devices, ranges over maps, and the provider of the profile that is
      found for a device. *)
  Context (read_list : string -> option (list string)) (read_devices : string -> option (gmap string SnmpDeviceConfig)).
  Context (visits : gmap string string -> list string) (range : gmap string string -> list (string * string)).
  Context (range_devices : gmap string SnmpDeviceConfig -> list (string * SnmpDeviceConfig)).
  Context (range_providers : gmap string ProviderMap -> list (string * ProviderMap)).
  Context (profile_provider : SnmpDeviceConfig -> option string) (ServiceName : string).

Definition file_missing : error := Errorf "file" [].

(** A list that is in a file of its own, and the name of the file. *)
Definition expand (l : list string) (orig : string) : outcome (list string * string) :=
  match l with
  | first :: _ =>
      if HasPrefix first "@"
      then match read_list (sdrop 1 first) with Some l => Ok (l, sdrop 1 first) | None => Err file_missing end
      else Ok (l, orig)
  | [] => Ok (l, orig)
  end.
Definition expand_disco (d : SnmpDiscoConfig) : outcome SnmpDiscoConfig :=
  '(cidrs, corig) ← expand (Cidrs d) (CidrOrig d);
  '(ignore, iorig) ← expand (IgnoreList d) (IgnoreOrig d);
  Ok (set_lists_of cidrs ignore corig iorig d).

(** Devices in files of their own replace all others. *)
Definition device_file (st : gmap string SnmpDeviceConfig * string) (nd : string * SnmpDeviceConfig) :
    outcome (gmap string SnmpDeviceConfig * string) :=
  let '(full, orig) := st in
  let '(name, dev) := nd in
  if HasPrefix name "file_" && HasPrefix (dc_DeviceName dev) "@"
  then match read_devices (sdrop 1 (dc_DeviceName dev)) with
       | Some set => Ok (delete name set ∪ full, sdrop 1 (dc_DeviceName dev))
       | None => Err file_missing
       end
  else Ok st.
Definition expand_devices (c : SnmpConfig) : outcome SnmpConfig :=
  '(full, orig) ← fold_out device_file (∅, cf_DeviceOrig c) (range_devices (cf_Devices c));
  let left := filter (fun nd => HasPrefix nd.1 "file_" && HasPrefix (dc_DeviceName nd.2) "@" = false) (cf_Devices c) in
  Ok (mkSnmpConfig (if (0 <? size full)%nat then full else left) (cf_Trap c) (cf_Disco c) (cf_Global c) orig).

(** The global configuration of version 3. *)
Definition global_v3 (c : SnmpConfig) : SnmpConfig :=
  match cf_Global c ≫= gl_GlobalV3 with
  | None => c
  | Some v3 =>
      let inherit (v : option V3SNMPConfig) := if InheritGlobal v then Some v3 else v in
      mkSnmpConfig ((fun d => set_dc_V3 (inherit (dc_V3 d)) d) <$> cf_Devices c) (inherit <$> cf_Trap c)
        ((fun d => set_DefaultV3 (inherit (DefaultV3 d)) d) <$> cf_Disco c) (cf_Global c) (cf_DeviceOrig c)
  end.

(** The tags of providers, once, and then the global ones for every device. *)
Definition provider_tags (g : SnmpGlobalConfig) (devices : gmap string SnmpDeviceConfig) : SnmpGlobalConfig * gmap string SnmpDeviceConfig :=
  let s := foldl (fun s pm => ProviderMap_Init visits pm.1 pm.2 s) (mkInitState g devices false) (range_providers (gl_ProviderMap g)) in
  (is_Global s, is_Devices s).
Definition add_missing (all m : option (gmap string string)) : option (gmap string string) :=
  if (0 <? size (default ∅ all))%nat then Some (default ∅ m ∪ default ∅ all) else m.
Definition global_tags (g : SnmpGlobalConfig) (d : SnmpDeviceConfig) : SnmpDeviceConfig :=
  set_dc_MatchAttr (add_missing (gl_MatchAttr g) (dc_MatchAttr d)) (set_dc_UserTags (add_missing (gl_UserTags g) (dc_UserTags d)) d).
Definition with_provider (d : SnmpDeviceConfig) : SnmpDeviceConfig :=
  match profile_provider d with Some p => if String.eqb p "" then d else set_dc_Provider p d | None => d end.
Definition tag_devices (c : SnmpConfig) : SnmpConfig :=
  match cf_Global c with
  | None => c
  | Some g =>
      let '(g, devices) := provider_tags g (cf_Devices c) in
      mkSnmpConfig ((fun d => with_provider (global_tags g d)) <$> devices) (cf_Trap c) (cf_Disco c) (Some g) (cf_DeviceOrig c)
  end.

Definition finish_device (st : gmap string SnmpDeviceConfig) (nd : string * SnmpDeviceConfig) : outcome (gmap string SnmpDeviceConfig) :=
  d ← InitUserTags range ServiceName (setDeviceTagsAndMatch visits nd.2); Ok (<[nd.1 := d]> st).

(** [parseConfig], of what the file decodes to. *)
Definition parseConfig (ms : SnmpConfig) : outcome SnmpConfig :=
  disco ← (match cf_Disco ms with Some d => d ← expand_disco d; Ok (Some d) | None => Ok None end);
  ms ← expand_devices (mkSnmpConfig (cf_Devices ms) (cf_Trap ms) disco (cf_Global ms) (cf_DeviceOrig ms));
  let ms := tag_devices (global_v3 ms) in
  devices ← fold_out finish_device (cf_Devices ms) (range_devices (cf_Devices ms));
  Ok (set_Devices devices ms).
End Parse.

(** ** Discovery *)

Definition RemoveTimeBuffer : Z := - (15 * 60 * Second).
Record SnmpDiscoDeviceStat := mkStat { added : Z; replaced : Z; delta : Z }.

(** [checkIfIgnored]; the networks are [netip.Prefix]es. *)
Definition checkIfIgnored (ParsePrefixContains : string -> bytes -> bool) (ip : string) (ignoreMap : gset string) (ignoreList : list string) : bool :=
  bool_decide (ip ∈ ignoreMap) ||
  match ParseAddr ip with Some a => existsb (fun n => ParsePrefixContains n a) ignoreList | None => false end.

Section Add.
  Context (now pollDuration : Z) (conf : SnmpDiscoConfig) (globalTags globalMatch : gmap string string).

(** One device that was found: added under its name and address, or put in the place of the one
    that is there, or only seen again. *)
Definition found_again (key : string) (d old : SnmpDeviceConfig) (st : gmap string SnmpDeviceConfig * Z * Z) :
    gmap string SnmpDeviceConfig * Z * Z :=
  let '(devices, added, replaced) := st in
  if ReplaceDevices conf then (<[key := UpdateFrom d old globalTags globalMatch]> devices, added, replaced + 1)
  else (<[key := set_dc_Checked now old]> devices, added, replaced).
Definition keyAlt (dip : string) (d : SnmpDeviceConfig) : string := dc_DeviceName d +:+ "__" +:+ dip.
Definition add_device (byIP : gset string) (st : gmap string SnmpDeviceConfig * Z * Z) (f : string * SnmpDeviceConfig) :
    gmap string SnmpDeviceConfig * Z * Z :=
  let '(dip, d) := f in
  let '(devices, added, replaced) := st in
  let key := if bool_decide (dip ∉ byIP) && bool_decide (is_Some (devices !! dc_DeviceName d)) then keyAlt dip d else dc_DeviceName d in
  match devices !! key, devices !! keyAlt dip d with
  | None, None => (<[keyAlt dip d := d]> devices, added + 1, replaced)
  | Some old, _ => found_again key d old st
  | None, Some old => found_again (keyAlt dip d) d old st
  end.

(** Of the devices with one engine the first of the range stays. *)
Definition dedup_device (st : gmap string SnmpDeviceConfig * gset string * Z) (nd : string * SnmpDeviceConfig) :
    gmap string SnmpDeviceConfig * gset string * Z :=
  let '(devices, byEngineID, added) := st in
  let e := dc_EngineID nd.2 in
  if negb (NoDedup conf) && negb (String.eqb e "")
  then if bool_decide (e ∈ byEngineID) then (delete nd.1 devices, byEngineID, added - 1) else (devices, {[e]} ∪ byEngineID, added)
  else st.

Definition bad_purge : error := Errorf "Invalid PurgeDevice value (%d) for device %s" [].
(** The number of attempts that a device may miss is that of the last device of the range that has
    one of its own. *)
Definition purge_device (st : gmap string SnmpDeviceConfig * Z * Z) (nd : string * SnmpDeviceConfig) :
    outcome (gmap string SnmpDeviceConfig * Z * Z) :=
  let '(devices, removeNum, added) := st in
  let removeNum := if dc_PurgeDevice nd.2 =? 0 then removeNum else dc_PurgeDevice nd.2 in
  if removeNum =? -1 then Ok (devices, removeNum, added)
  else if removeNum <? -1 then Err bad_purge
  else if (0 <? removeNum) && (0 <? pollDuration) &&
          (dc_Checked nd.2 <? now + (int64 (int64 (removeNum * pollDuration) * -1))%go + RemoveTimeBuffer)
       then Ok (delete nd.1 devices, removeNum, added - 1)
       else Ok (devices, removeNum, added).
End Add.

(** [addDevices] up to the writing of files; [confNew] is the configuration that is read again, and
    [range] the order of a range over devices. *)
Definition addDevices (now pollDuration : Z) (range : gmap string SnmpDeviceConfig -> list (string * SnmpDeviceConfig))
    (sort : list string -> list string) (visits : gmap string string -> list string)
    (found : list (string * SnmpDeviceConfig)) (devices : gmap string SnmpDeviceConfig) (disco : SnmpDiscoConfig) (g : SnmpGlobalConfig) :
    outcome (SnmpDiscoDeviceStat * gmap string SnmpDeviceConfig * SnmpGlobalConfig) :=
  let byIP : gset string := list_to_set (map (fun nd : string * SnmpDeviceConfig => dc_DeviceIP nd.2) (map_to_list devices)) in
  let merged := foldl (add_device now disco (default ∅ (gl_UserTags g)) (default ∅ (gl_MatchAttr g)) byIP) (devices, 0, 0) found in
  let deduped := foldl (dedup_device disco) (merged.1.1, ∅, merged.1.2) (range merged.1.1) in
  purged ← fold_out (purge_device now pollDuration) (deduped.1.1, gl_PurgeDevices g, deduped.2) (range deduped.1.1);
  let ds : gmap string SnmpDeviceConfig := purged.1.1 in
  let stat := mkStat purged.2 merged.2 (Z.of_nat (size devices) - Z.of_nat (size ds)) in
  let mibs := if AddAllMibs disco
              then elements (list_to_set (concat (map (fun nd : string * SnmpDeviceConfig => dc_DiscoveredMibs nd.2) (map_to_list ds)) ++ gl_MibsEnabled g) : gset string)
              else gl_MibsEnabled g in
  Ok (stat, clean_device visits <$> ds, clean_global visits (set_gl_MibsEnabled (sort mibs) g)).

(** ** Properties of tags *)

Definition plain (k : string) : Prop := prefixed k = false.
Definition name_of_provider (p : string) : Prop := lacks ":"%char p = true.
(** Every tag is plain or a plain tag below a provider. *)
Definition wf_tags (m : gmap string string) : Prop :=
  forall k v, m !! k = Some v -> plain k \/ exists p n, name_of_provider p /\ plain n /\ k = prov_key p n.

Lemma prov_key_split p n : name_of_provider p -> strings_SplitN (prov_key p n) ProviderToken 3 = ["provider"; p; n]%string.
Proof.
  intros Hp. unfold prov_key, strings_SplitN, ProviderToken.
  change (ProviderPrefix +:+ p +:+ ":" +:+ n) with ("provider" +:+ ":" +:+ (p +:+ ":" +:+ n)).
  cbn [Nat.sub]. rewrite split_piece by done. f_equal. rewrite split_piece by (done || by apply lacks_clean). f_equal.
  by destruct n.
Qed.
Lemma prov_key_inj p q n n' : name_of_provider p -> name_of_provider q -> prov_key p n = prov_key q n' -> p = q /\ n = n'.
Proof. intros Hp Hq E. apply prov_key_split with (n := n) in Hp. rewrite E, prov_key_split in Hp by done. by injection Hp. Qed.
Lemma prov_key_prefixed p n : prefixed (prov_key p n) = true.
Proof. apply prefix_self. Qed.
Lemma plain_not_key k p n : plain k -> k <> prov_key p n.
Proof. intros Hk ->. unfold plain in Hk. by rewrite prov_key_prefixed in Hk. Qed.

Lemma matches_plain k p : plain k -> matchesPrefix k p = Some k.
Proof. unfold plain, matchesPrefix. by intros ->. Qed.
Lemma matches_key q n p : name_of_provider q -> matchesPrefix (prov_key q n) p = if String.eqb q p then Some n else None.
Proof. intros Hq. unfold matchesPrefix. by rewrite prov_key_prefixed, prov_key_split. Qed.

(** What has become of a map after some keys were visited: a tag of the provider is where it was,
    or it was moved to its plain name, unless that had a value. *)
Record set_so_far (p : string) (m : gmap string string) (seen : gset string) (m' : gmap string string) : Prop := {
  ss_wf : wf_tags m';
  ss_pair n : plain n ->
    (prov_key p n ∉ seen /\ m' !! n = m !! n /\ m' !! prov_key p n = m !! prov_key p n) \/
    (m' !! n = from_option Some (m !! prov_key p n) (m !! n) /\ m' !! prov_key p n = None);
  ss_other q n : name_of_provider q -> q <> p -> m' !! prov_key q n = m !! prov_key q n
}.

(** A visit that changes nothing but what is seen. *)
Lemma set_seen p m seen m' k : set_so_far p m seen m' -> (forall n, plain n -> k = prov_key p n -> m' !! k = None) ->
  set_so_far p m ({[k]} ∪ seen) m'.
Proof.
  intros [Hw Hp Ho] Hk. split; [done| |done]. intros n Hn. destruct (decide (k = prov_key p n)) as [->|Hne].
  - right. specialize (Hk n Hn eq_refl). destruct (Hp n Hn) as [(_ & -> & Hkey)|[-> _]]; [|done].
    rewrite <-Hkey, Hk. by destruct (m !! n).
  - destruct (Hp n Hn) as [(H1 & H2)|H]; [left|by right]. split; [set_solver|done].
Qed.

Lemma wf_delete k m : wf_tags m -> wf_tags (delete k m).
Proof. intros Hw q v. rewrite lookup_delete. case_decide; [done|apply Hw]. Qed.
Lemma wf_insert_plain k v m : plain k -> wf_tags m -> wf_tags (<[k := v]> m).
Proof. intros Hk Hw q w. rewrite lookup_insert. case_decide as Hc; [subst; by left|apply Hw]. Qed.

Lemma set_tag_step p m seen m' k : name_of_provider p -> set_so_far p m seen m' ->
  set_so_far p m ({[k]} ∪ seen) (match m' !! k with Some v => set_tag p k v m' | None => m' end).
Proof.
  intros Hp Hss. pose proof Hss as [Hw Hpair Hother]. destruct (m' !! k) as [v|] eqn:E; [|by apply set_seen].
  unfold set_tag. destruct (Hw _ _ E) as [Hplain|(q & n & Hq & Hn & ->)].
  - rewrite matches_plain, lookup_delete_eq, insert_delete_eq, insert_id by done. apply set_seen; [done|].
    intros n _ ->. by apply plain_not_key with (p := p) (n := n) in Hplain.
  - rewrite matches_key by done. destruct (String.eqb_spec q p) as [->|Hne].
    2: { apply set_seen; [done|]. intros n' _ Heq. by apply prov_key_inj in Heq as [? _]. }
    rewrite lookup_delete_ne by (symmetry; by apply plain_not_key).
    set (m1 := match m' !! n with Some _ => _ | None => _ end).
    assert (m1 !! n = from_option Some (Some v) (m' !! n) /\ m1 !! prov_key p n = None /\
            (forall q, q <> n -> q <> prov_key p n -> m1 !! q = m' !! q) /\ wf_tags m1) as (Hm1 & Hm2 & Hm3 & Hm4).
    { unfold m1. pose proof (plain_not_key n p n Hn). destruct (m' !! n) eqn:En; cbn.
      - rewrite lookup_delete_ne, lookup_delete_eq by done. split; [done|]. split; [done|]. split; [|by apply wf_delete].
        intros. by rewrite lookup_delete_ne.
      - rewrite lookup_insert_eq, lookup_insert_ne, lookup_delete_eq by done. split; [done|]. split; [done|].
        split; [|by apply wf_insert_plain, wf_delete]. intros. by rewrite lookup_insert_ne, lookup_delete_ne. }
    split; [done| |].
    + intros n' Hn'. destruct (decide (n' = n)) as [->|Hnn].
      * right. split; [|done]. destruct (Hpair n Hn) as [(_ & H1 & H2)|[_ H2]]; [|congruence].
        rewrite Hm1, H1, <-H2, E. done.
      * assert (prov_key p n' <> prov_key p n) as Hkk by (intros Heq; apply prov_key_inj in Heq as [_ ?]; [congruence|done..]).
        rewrite (Hm3 n' Hnn (plain_not_key n' p n Hn')).
        rewrite (Hm3 (prov_key p n')); [|by apply not_eq_sym, plain_not_key|done].
        destruct (Hpair n' Hn') as [(H1 & H2)|H]; [left|by right]. split; [set_solver|done].
    + intros q' n' Hq' Hqp. rewrite Hm3; [by apply Hother| |].
      * by apply not_eq_sym, plain_not_key.
      * intros Heq. by apply prov_key_inj in Heq as [? _].
Qed.

(** A tag of the first of two keys, the plain one and the one of the provider. *)
Lemma set_tags_spec visits p m : fair visits -> name_of_provider p -> wf_tags m ->
  wf_tags (set_tags visits p m) /\
  (forall n, plain n -> set_tags visits p m !! n = from_option Some (m !! prov_key p n) (m !! n) /\
                        set_tags visits p m !! prov_key p n = None) /\
  forall q n, name_of_provider q -> q <> p -> set_tags visits p m !! prov_key q n = m !! prov_key q n.
Proof.
  intros Hf Hp Hw. assert (set_so_far p m (list_to_set (visits m)) (set_tags visits p m)) as [Hw' Hpair Ho].
  { apply (range_keys_inv visits (set_tag p) (set_so_far p m)); [|by intros; apply set_tag_step]. split; [done| |done]. intros n Hn. left. by split; [set_solver|]. }
  split; [done|]. split; [|done]. intros n Hn. destruct (Hpair n Hn) as [(H1 & H2 & H3)|H]; [|done].
  assert (m !! prov_key p n = None) as E.
  { apply eq_None_not_Some. intros Hs. apply Hf in Hs. apply H1. by apply elem_of_list_to_set, list_elem_of_In. }
  rewrite H2, H3, E. split; [by destruct (m !! n)|done].
Qed.

Lemma prune_tags_spec visits m k : fair visits -> prune_tags visits m !! k = if prefixed k then None else m !! k.
Proof.
  intros Hf. pose (R := fun (seen : gset string) (m' : gmap string string) => forall k, m' !! k = if prefixed k && bool_decide (k ∈ seen) then None else m !! k).
  assert (R (list_to_set (visits m)) (prune_tags visits m)) as HR.
  { apply (range_keys_inv visits prune_tag R).
    - intros q. by rewrite bool_decide_false, andb_false_r by set_solver.
    - intros seen m' q HR x. destruct (decide (x = q)) as [->|Hne].
      + rewrite bool_decide_true, andb_true_r by set_solver. specialize (HR q). destruct (m' !! q) as [v|] eqn:E.
        * unfold prune_tag. destruct (prefixed q) eqn:Eq; [by rewrite lookup_delete_eq|]. by rewrite E, HR.
        * rewrite E. destruct (prefixed q) eqn:Eq; [done|by rewrite HR].
      + rewrite (bool_decide_ext _ (x ∈ seen)) by set_solver. rewrite <-HR. destruct (m' !! q); [|done].
        unfold prune_tag. destruct (prefixed q); [by rewrite lookup_delete_ne|done]. }
  rewrite (HR k). destruct (prefixed k); [|done]. destruct (bool_decide_reflect (k ∈ (list_to_set (visits m) : gset string))) as [|Hn]; [done|].
  apply eq_None_not_Some. intros Hs. apply Hn, elem_of_list_to_set, list_elem_of_In, Hf, Hs.
Qed.

(** The first of some values. *)
Fixpoint first_of (l : list (option string)) : option string :=
  match l with
  | [] => None
  | o :: l => from_option Some (first_of l) o
  end.

(** C33: Whatever the orders of the ranges over the maps that their bodies change, a device gets for
    each plain name its own value, else that of its provider, else the global one, and no key with
    a prefix stays. *)
Theorem tags_layered visits provider m k :
  fair visits -> name_of_provider provider -> wf_tags m ->
  own_tags visits provider m !! k =
    if prefixed k then None
    else first_of [m !! k; m !! prov_key DeviceProvider k; m !! prov_key provider k; m !! prov_key GlobalProvider k].
Proof.
  intros Hf Hp Hw. unfold own_tags. rewrite prune_tags_spec by done. destruct (prefixed k) eqn:Hk; [done|].
  destruct (set_tags_spec visits DeviceProvider m Hf eq_refl Hw) as (Hw1 & H1 & O1). set (m1 := set_tags visits DeviceProvider m) in *.
  destruct (set_tags_spec visits provider m1 Hf Hp Hw1) as (Hw2 & H2 & O2). set (m2 := set_tags visits provider m1) in *.
  destruct (set_tags_spec visits GlobalProvider m2 Hf eq_refl Hw2) as (_ & H3 & _).
  destruct (H1 k Hk) as [E1 F1]. destruct (H2 k Hk) as [E2 F2]. destruct (H3 k Hk) as [-> _]. rewrite E2, E1.
  assert (m1 !! prov_key provider k = if String.eqb provider DeviceProvider then None else m !! prov_key provider k) as ->.
  { destruct (String.eqb_spec provider DeviceProvider) as [->|]; [done|]. by apply O1. }
  assert (m2 !! prov_key GlobalProvider k = if String.eqb provider GlobalProvider then None else m !! prov_key GlobalProvider k) as ->.
  { destruct (String.eqb_spec provider GlobalProvider) as [->|]; [done|]. rewrite O2 by done. by apply O1. }
  cbn [first_of]. destruct (m !! k); [done|]. cbn. destruct (m !! prov_key DeviceProvider k) eqn:Ed; [done|]. cbn.
  destruct (String.eqb_spec provider DeviceProvider) as [->|]; [rewrite Ed; cbn; by destruct (m !! prov_key GlobalProvider k)|].
  destruct (m !! prov_key provider k) eqn:Ep; [done|]. cbn.
  destruct (String.eqb_spec provider GlobalProvider) as [->|]; [by rewrite Ep|]. by destruct (m !! prov_key GlobalProvider k).
Qed.

Definition keys_of {V} (m : gmap string V) : list string := map fst (map_to_list m).
Lemma keys_fair {V} : fair (keys_of (V := V)).
Proof. intros m k [v Hv]. apply in_map_iff. exists (k, v). split; [done|]. by apply list_elem_of_In, elem_of_map_to_list. Defined.

Lemma tags_layered_witness :
  let m : gmap string string := {["provider:global:site" := "hq"; "provider:kentik-router:site" := "dc"; "provider:kentik-switch:x" := "1"; "rack" := "7"]}%string in
  own_tags keys_of "kentik-router" m !! "site"%string = Some "dc"%string.
Proof.
  intros m. rewrite tags_layered.
  - vm_compute. reflexivity.
  - apply keys_fair.
  - reflexivity.
  - intros k v. unfold m. rewrite !lookup_insert_Some, lookup_singleton_Some. intros H.
    repeat (destruct H as [[<- _]|[_ H]]); [right; exists "global"%string, "site"%string; done | right; exists "kentik-router"%string, "site"%string; done
      | right; exists "kentik-switch"%string, "x"%string; done | destruct H as [<- _]; by left].
Defined.

(** ** Properties: the global tags that are written are those that were read *)

(** What is kept of a value. *)
Definition saved (o : option string) : option string :=
  match o with Some v => if String.eqb v "" then None else Some v | None => None end.
Lemma saved_saved o : saved (saved o) = saved o.
Proof. destruct o as [v|]; cbn; [|done]. destruct (String.eqb v "") eqn:E; cbn; [done|by rewrite E]. Qed.

Definition save_so_far (p : string) (m : gmap string string) (seen : gset string) (m' : gmap string string) : Prop :=
  (forall k, prefixed k = true -> m' !! k = if bool_decide (k ∈ seen) then None else m !! k) /\
  forall n, plain n ->
    m' !! n = from_option Some (if bool_decide (n ∈ seen) then saved (m !! n) else m !! n)
                (if bool_decide (prov_key p n ∈ seen) then saved (m !! prov_key p n) else None).

Lemma seen_other (k x : string) (seen : gset string) : x <> k -> bool_decide (x ∈ {[k]} ∪ seen) = bool_decide (x ∈ seen).
Proof. intros Hne. apply bool_decide_ext. set_solver. Qed.
Lemma seen_self (k : string) (seen : gset string) : bool_decide (k ∈ {[k]} ∪ seen) = true.
Proof. apply bool_decide_true. set_solver. Qed.

(** A key with a prefix goes, and its value may go to its plain name. *)
Lemma save_key_step p m seen m' k : prefixed k = true -> name_of_provider p -> wf_tags m -> save_so_far p m seen m' ->
  save_so_far p m ({[k]} ∪ seen) (match m' !! k with Some v => save_tag p k v m' | None => m' end).
Proof.
  intros Ek Hp Hw [Hk Hn].
  assert (forall x, prefixed x = true -> x <> k -> forall m2 : gmap string string, (forall y, prefixed y = true -> y <> k -> m2 !! y = m' !! y) ->
    m2 !! x = if bool_decide (x ∈ {[k]} ∪ seen) then None else m !! x) as Hothers.
  { intros x Hx Hne m2 Hm2. by rewrite seen_other, Hm2, Hk. }
  pose proof (Hk k Ek) as E. destruct (m' !! k) as [v|] eqn:Ev.
  + assert (m !! k = Some v) as Em by (destruct (bool_decide (k ∈ seen)); congruence).
    destruct (Hw _ _ Em) as [Hc|(q & n & Hq & Hpn & ->)]; [unfold plain in Hc; congruence|].
    unfold save_tag. rewrite matches_key by done. destruct (String.eqb_spec q p) as [->|Hne].
    * pose proof (plain_not_key n p n Hpn). split.
      -- intros x Hx. destruct (decide (x = prov_key p n)) as [->|Hx'].
         ++ rewrite seen_self. destruct (String.eqb v ""); [by rewrite lookup_delete_eq|].
            by rewrite lookup_insert_ne, lookup_delete_eq by done.
         ++ apply Hothers; [done..|]. intros y Hy Hy'. unfold plain in Hpn. destruct (String.eqb v "").
            { by rewrite lookup_delete_ne by done. } rewrite lookup_insert_ne by congruence. by rewrite lookup_delete_ne.
      -- intros x Hx. rewrite (seen_other _ x) by (by apply plain_not_key). destruct (decide (x = n)) as [->|Hxn].
         ++ rewrite seen_self, Em. cbn [saved]. destruct (bool_decide (prov_key p n ∈ seen)) eqn:Es; [done|].
            specialize (Hn n Hpn). rewrite Es in Hn. cbn in Hn.
            destruct (String.eqb v "") eqn:Eve; cbn; [rewrite lookup_delete_ne by done; exact Hn|by rewrite lookup_insert_eq].
         ++ rewrite (seen_other _ (prov_key p x)) by (intros Heq; apply prov_key_inj in Heq as [_ ?]; done).
            rewrite <-Hn by done. pose proof (plain_not_key x p n Hx).
            destruct (String.eqb v ""); [by rewrite lookup_delete_ne|by rewrite lookup_insert_ne, lookup_delete_ne].
    * split.
      -- intros x Hx. destruct (decide (x = prov_key q n)) as [->|Hx']; [by rewrite seen_self, lookup_delete_eq|].
         apply Hothers; [done..|]. intros. by rewrite lookup_delete_ne.
      -- intros x Hx. rewrite (seen_other _ x) by (by apply plain_not_key).
         rewrite (seen_other _ (prov_key p x)) by (intros Heq; apply prov_key_inj in Heq as [? _]; congruence || done).
         rewrite lookup_delete_ne by (by apply not_eq_sym, plain_not_key). by apply Hn.
  + split.
    * intros x Hx. destruct (decide (x = k)) as [->|]; [by rewrite seen_self|by apply Hothers].
    * intros x Hx. rewrite (seen_other _ x) by (intros ->; unfold plain in Hx; congruence).
      destruct (decide (prov_key p x = k)) as [<-|]; [|rewrite seen_other by done; by apply Hn].
      rewrite seen_self, (Hn x Hx). destruct (bool_decide (prov_key p x ∈ seen)); [done|]. by rewrite <-E.
Qed.
(** A plain key stays, unless it is empty. *)
Lemma save_plain_step p m seen m' k : plain k -> save_so_far p m seen m' ->
  save_so_far p m ({[k]} ∪ seen) (match m' !! k with Some v => save_tag p k v m' | None => m' end).
Proof.
  intros Ek [Hk Hn]. unfold plain in Ek.
  split.
  + intros x Hx. assert (x <> k) by congruence. rewrite seen_other by done. rewrite <-Hk by done.
    destruct (m' !! k) as [v|]; [|done]. unfold save_tag. rewrite matches_plain by done.
    destruct (String.eqb v ""); [by rewrite lookup_delete_ne|by rewrite lookup_insert_ne, lookup_delete_ne].
  + intros x Hx. rewrite (seen_other _ (prov_key p x)) by (apply not_eq_sym, plain_not_key; done).
    destruct (decide (x = k)) as [->|Hne].
    * rewrite seen_self. specialize (Hn k Hx).
      set (o := if bool_decide (prov_key p k ∈ seen) then _ else _) in *. assert (saved o = o) as Ho.
      { unfold o. destruct (bool_decide _); [apply saved_saved|done]. }
      transitivity (saved (m' !! k)).
      { destruct (m' !! k) as [v|] eqn:Ev; [|by rewrite Ev]. unfold save_tag, saved. rewrite matches_plain by done.
        destruct (String.eqb v ""); [by rewrite lookup_delete_eq|by rewrite lookup_insert_eq]. }
      rewrite Hn. destruct o as [w|]; [exact Ho|]. cbn. destruct (bool_decide (k ∈ seen)); [apply saved_saved|done].
    * rewrite seen_other by done. rewrite <-Hn by done. destruct (m' !! k) as [v|]; [|done]. unfold save_tag.
      rewrite matches_plain by done. destruct (String.eqb v ""); [by rewrite lookup_delete_ne|by rewrite lookup_insert_ne, lookup_delete_ne].
Qed.
Lemma save_tag_step p m seen m' k : name_of_provider p -> wf_tags m -> save_so_far p m seen m' ->
  save_so_far p m ({[k]} ∪ seen) (match m' !! k with Some v => save_tag p k v m' | None => m' end).
Proof.
  intros Hp Hw Hs. destruct (prefixed k) eqn:Ek; [by apply save_key_step|by apply save_plain_step].
Qed.

Lemma save_tags_spec visits p m n : fair visits -> name_of_provider p -> wf_tags m ->
  save_tags visits p m !! n = if prefixed n then None else from_option Some (saved (m !! n)) (saved (m !! prov_key p n)).
Proof.
  intros Hf Hp Hw. assert (save_so_far p m (list_to_set (visits m)) (save_tags visits p m)) as [HK HR].
  { apply (range_keys_inv visits (save_tag p) (save_so_far p m)); [|by intros; apply save_tag_step].
    split; [done|]. intros x _. by rewrite !bool_decide_false by set_solver. }
  assert (forall k, m !! k = None \/ bool_decide (k ∈ (list_to_set (visits m) : gset string)) = true) as Hs.
  { intros k. destruct (m !! k) eqn:E; [right|by left].
    apply bool_decide_true, elem_of_list_to_set, list_elem_of_In, Hf. by rewrite E. }
  destruct (prefixed n) eqn:En.
  - rewrite HK by done. destruct (Hs n) as [->| ->]; [by destruct (bool_decide _)|done].
  - rewrite HR by done.
    destruct (Hs n) as [->| ->], (Hs (prov_key p n)) as [->| ->]; cbn; by repeat destruct (bool_decide _).
Qed.

(** The tags of the global section while providers add theirs. *)
Record holds_global (m t : gmap string string) : Prop := {
  hg_wf : wf_tags t;
  hg_saved n : plain n -> from_option Some (saved (t !! n)) (saved (t !! prov_key GlobalProvider n)) = saved (m !! n)
}.

Lemma move_spec visits p m k : fair visits -> name_of_provider p -> (forall k v, m !! k = Some v -> plain k) ->
  wf_tags (range_keys visits (to_provider p) m) /\
  (plain k -> range_keys visits (to_provider p) m !! k = None /\ range_keys visits (to_provider p) m !! prov_key p k = m !! k).
Proof.
  intros Hf Hp Hm. set (R := fun (seen : gset string) (m' : gmap string string) => wf_tags m' /\
    forall n, plain n -> m' !! n = (if bool_decide (n ∈ seen) then None else m !! n) /\
                         m' !! prov_key p n = (if bool_decide (n ∈ seen) then m !! n else None)).
  assert (R (list_to_set (visits m)) (range_keys visits (to_provider p) m)) as [Hw HR].
  { apply (range_keys_inv visits (to_provider p) R).
    - split; [intros q v Hv; left; by eapply Hm|]. intros n Hn. rewrite bool_decide_false by set_solver. split; [done|].
      apply eq_None_not_Some. intros [v Hv]. apply Hm in Hv. by apply plain_not_key with (p := p) (n := n) in Hv.
    - intros seen m' q [Hw HR]. destruct (m' !! q) as [v|] eqn:E.
      + unfold to_provider. destruct (prefixed q) eqn:Eq.
        * split; [done|]. intros n Hn. rewrite seen_other by (intros ->; unfold plain in Hn; congruence). by apply HR.
        * split.
          -- intros x w. rewrite lookup_insert_Some, lookup_delete_Some. intros [[<- _]|[_ [_ Hx]]]; [right; by exists p, q|by eapply Hw].
          -- intros n Hn. pose proof (plain_not_key n p q Hn). destruct (decide (n = q)) as [->|Hne].
             ++ rewrite seen_self, lookup_insert_eq, lookup_insert_ne, lookup_delete_eq by done. split; [done|].
                destruct (HR q Hn) as [H1 _]. destruct (bool_decide (q ∈ seen)); congruence.
             ++ rewrite seen_other by done. rewrite !lookup_insert_ne; [|by intros Heq; apply prov_key_inj in Heq as [_ ?]|done].
                rewrite !lookup_delete_ne; [by apply HR|by apply plain_not_key|done].
      + split; [done|]. intros n Hn. destruct (decide (n = q)) as [->|Hne]; [|rewrite seen_other by done; by apply HR].
        rewrite seen_self. destruct (HR q Hn) as [H1 H2]. rewrite H2. rewrite E in H1. split; [done|].
        destruct (bool_decide (q ∈ seen)); [done|congruence]. }
  split; [done|]. intros Hk. destruct (HR k Hk) as [H1 H2]. rewrite H1, H2.
  destruct (bool_decide_reflect (k ∈ (list_to_set (visits m) : gset string))) as [|Hn]; [done|].
  assert (m !! k = None) as ->; [|done]. apply eq_None_not_Some. intros Hs. apply Hn, elem_of_list_to_set, list_elem_of_In, Hf, Hs.
Qed.

Lemma copy_holds m q l t : name_of_provider q -> q <> GlobalProvider -> holds_global m t ->
  holds_global m (foldl (fun g (kv : string * string) => if prefixed kv.1 then g else <[prov_key q kv.1 := kv.2]> g) t l).
Proof.
  intros Hq Hg. revert t. induction l as [|[k v] l IH]; intros t Ht; [done|]. apply IH. cbn [fst snd].
  destruct (prefixed k) eqn:Ek; [done|]. destruct Ht as [Hw Hs]. split.
  - intros x w. rewrite lookup_insert_Some. intros [[<- _]|[_ Hx]]; [right; by exists q, k|by eapply Hw].
  - intros n Hn. rewrite !lookup_insert_ne; [by apply Hs| |by apply not_eq_sym, plain_not_key].
    intros Heq. by apply prov_key_inj in Heq as [? _].
Qed.

Lemma init_holds visits m q pm s t : fair visits -> (forall k v, m !! k = Some v -> plain k) -> name_of_provider q -> q <> GlobalProvider ->
  gl_UserTags (is_Global s) = Some t -> (if is_doneInit s then holds_global m t else t = m) ->
  exists t', gl_UserTags (is_Global (ProviderMap_Init visits q pm s)) = Some t' /\ holds_global m t' /\ is_doneInit (ProviderMap_Init visits q pm s) = true.
Proof.
  intros Hf Hm Hq Hg Ht Hs. unfold ProviderMap_Init.
  assert (holds_global m (if is_doneInit s then t else range_keys visits (to_provider GlobalProvider) t)) as Hh.
  { destruct (is_doneInit s); [done|]. subst t. split; [by apply (move_spec visits GlobalProvider m "")|]. intros n Hn.
    destruct (move_spec visits GlobalProvider m n Hf eq_refl Hm) as [_ HR]. destruct (HR Hn) as [-> ->]. by destruct (saved (m !! n)). }
  destruct (is_doneInit s); cbn; rewrite Ht; cbn; destruct (pv_UserTags pm); cbn; eexists; (split; [done|]); (split; [|done]);
    first [exact Hh | by apply copy_holds].
Qed.

(** C34: What is written of the tags of the global section is what was read, the empty ones apart,
    whatever tags the providers have and in whatever order the maps are ranged over. *)
Theorem global_tags_saved visits range_providers g devices m :
  fair visits -> gl_UserTags g = Some m -> (forall k v, m !! k = Some v -> plain k) ->
  (forall q pm, In (q, pm) (range_providers (gl_ProviderMap g)) -> name_of_provider q /\ q <> GlobalProvider) ->
  gl_UserTags (clean_global visits (provider_tags visits range_providers g devices).1) = Some (omap (fun v => saved (Some v)) m).
Proof.
  intros Hf Hg Hm Hl. unfold provider_tags. cbn [fst].
  assert (exists t, gl_UserTags (is_Global (foldl (fun s pm => ProviderMap_Init visits pm.1 pm.2 s) (mkInitState g devices false)
    (range_providers (gl_ProviderMap g)))) = Some t /\ wf_tags t /\
    forall n, plain n -> from_option Some (saved (t !! n)) (saved (t !! prov_key GlobalProvider n)) = saved (m !! n)) as (t & Ht & Hw & Hs).
  { destruct (range_providers (gl_ProviderMap g)) as [|[q pm] l].
    - exists m. split; [done|]. split; [intros k v Hv; left; by eapply Hm|]. intros n Hn.
      assert (m !! prov_key GlobalProvider n = None) as ->; [|done]. apply eq_None_not_Some. intros [v Hv]. apply Hm in Hv.
      by apply plain_not_key with (p := GlobalProvider) (n := n) in Hv.
    - cbn [foldl fst snd]. destruct (Hl q pm (or_introl eq_refl)) as [Hq Hne].
      destruct (init_holds visits m q pm (mkInitState g devices false) m Hf Hm Hq Hne Hg eq_refl) as (t & Ht & Hh & Hd).
      revert Ht Hh Hd. generalize (ProviderMap_Init visits q pm (mkInitState g devices false)) as s. revert t.
      induction l as [|[q' pm'] l IH]; intros t s Ht Hh Hd; [by exists t; destruct Hh|]. cbn [foldl fst snd].
      destruct (Hl q' pm' (or_intror (or_introl eq_refl))) as [Hq' Hne'].
      destruct (init_holds visits m q' pm' s t Hf Hm Hq' Hne' Ht) as (t' & Ht' & Hh' & Hd'); [by rewrite Hd|].
      eapply IH; [|done..]. intros q2 pm2 [E|Hin]; [by apply (Hl q2 pm2); left|by apply (Hl q2 pm2); right; right]. }
  unfold clean_global. cbn [gl_UserTags set_gl_tags]. rewrite Ht. cbn. f_equal. apply map_eq. intros n.
  rewrite save_tags_spec, lookup_omap by done. destruct (prefixed n) eqn:En.
  - destruct (m !! n) as [v|] eqn:E; [|done]. apply Hm in E. unfold plain in E. congruence.
  - rewrite Hs by done. by destruct (m !! n).
Qed.

Lemma global_tags_saved_witness :
  let m : gmap string string := {["rack" := "7"; "empty" := ""]}%string in
  let g := mkSnmpGlobalConfig [] None 0 (Some m) None {["kentik-router"%string := mkProviderMap (Some {["rack" := "9"]}%string) None]} in
  gl_UserTags (clean_global keys_of (provider_tags keys_of map_to_list g ∅).1) = Some {["rack" := "7"]}%string.
Proof.
  intros m g. rewrite (global_tags_saved keys_of map_to_list g ∅ m).
  - reflexivity.
  - apply keys_fair.
  - reflexivity.
  - intros k v. unfold m. rewrite lookup_insert_Some, lookup_singleton_Some. by intros [[<- _]|[_ [<- _]]].
  - intros q pm Hin. unfold g in Hin. cbn [gl_ProviderMap] in Hin. rewrite map_to_list_singleton in Hin.
    destruct Hin as [[= <- _]|[]]. split; [reflexivity|discriminate].
Defined.

(** ** Properties: the statistics of a discovery *)

Lemma size_insert_there {V} (m : gmap string V) k v : is_Some (m !! k) -> size (<[k := v]> m) = size m.
Proof. intros Hk. rewrite map_size_insert. by destruct Hk as [w ->]. Qed.
Lemma size_insert_new {V} (m : gmap string V) k v : m !! k = None -> Z.of_nat (size (<[k := v]> m)) = Z.of_nat (size m) + 1.
Proof. intros Hk. rewrite map_size_insert_None by done. lia. Qed.
Lemma size_delete_there {V} (m : gmap string V) k : is_Some (m !! k) -> Z.of_nat (size (delete k m)) = Z.of_nat (size m) - 1.
Proof. intros [v Hk]. rewrite map_size_delete, Hk. assert (size m <> 0%nat); [|lia].
  intros Hz. apply map_size_empty_inv in Hz. subst. done. Qed.

Lemma add_device_counts now conf gt gm byIP st f :
  let st' := add_device now conf gt gm byIP st f in
  st'.1.2 - Z.of_nat (size st'.1.1) = st.1.2 - Z.of_nat (size st.1.1).
Proof.
  destruct st as [[ds a] r], f as [dip d]. unfold add_device, found_again. cbn zeta.
  generalize (if bool_decide (dip ∉ byIP) && bool_decide (is_Some (ds !! dc_DeviceName d)) then keyAlt dip d else dc_DeviceName d) as key.
  intros key. destruct (ds !! key) eqn:E1.
  - destruct (ReplaceDevices conf); cbn [fst snd]; by rewrite size_insert_there by (by rewrite E1).
  - destruct (ds !! keyAlt dip d) eqn:E2.
    + destruct (ReplaceDevices conf); cbn [fst snd]; by rewrite size_insert_there by (by rewrite E2).
    + cbn [fst snd]. rewrite size_insert_new by done. lia.
Qed.

(** A loop that ranges over a map and may delete the key it is at, counting down. *)
Record swept {S} (map_of : S -> gmap string SnmpDeviceConfig) (count : S -> Z) (st st' : S) (k : string) : Prop := {
  sw_count : count st' - Z.of_nat (size (map_of st')) = count st - Z.of_nat (size (map_of st));
  sw_others q : q <> k -> map_of st' !! q = map_of st !! q
}.
Lemma swept_delete {S} map_of count (st st' : S) k : is_Some (map_of st !! k) ->
  map_of st' = delete k (map_of st) -> count st' = count st - 1 -> swept map_of count st st' k.
Proof. intros Hk Hm Hc. split; rewrite Hm; [rewrite size_delete_there, Hc by done; lia|]. intros q Hq. by rewrite lookup_delete_ne. Qed.
Lemma swept_same {S} map_of count (st st' : S) k : map_of st' = map_of st -> count st' = count st -> swept map_of count st st' k.
Proof. intros Hm Hc. split; [by rewrite Hm, Hc|by intros; rewrite Hm]. Qed.

Lemma dedup_device_swept conf st nd : is_Some (st.1.1 !! nd.1) ->
  swept (fun s => s.1.1) snd st (dedup_device conf st nd) nd.1.
Proof.
  destruct st as [[ds es] a]. intros Hk. unfold dedup_device. destruct (_ && _); [|by apply swept_same].
  destruct (bool_decide _); [by apply swept_delete|by apply swept_same].
Qed.
Lemma purge_device_swept now pd st nd st' : is_Some (st.1.1 !! nd.1) -> purge_device now pd st nd = Ok st' ->
  swept (fun s => s.1.1) snd st st' nd.1.
Proof.
  destruct st as [[ds n] a]. intros Hk. unfold purge_device. set (rm := if dc_PurgeDevice nd.2 =? 0 then n else _).
  destruct (rm =? -1); [intros [= <-]; by apply swept_same|]. destruct (rm <? -1); [done|].
  destruct (_ && _); intros [= <-]; [by apply swept_delete|by apply swept_same].
Qed.

Lemma foldl_sweep {S} map_of count (f : S -> string * SnmpDeviceConfig -> S) l st :
  (forall st nd, is_Some (map_of st !! nd.1) -> swept map_of count st (f st nd) nd.1) ->
  NoDup (map fst l) -> (forall k, In k (map fst l) -> is_Some (map_of st !! k)) ->
  count (foldl f st l) - Z.of_nat (size (map_of (foldl f st l))) = count st - Z.of_nat (size (map_of st)).
Proof.
  intros Hf. revert st. induction l as [|nd l IH]; intros st Hnd Hin; [done|]. cbn in *. apply NoDup_cons in Hnd as [Hn Hnd].
  destruct (Hf st nd) as [Hc Ho]; [apply Hin; by left|]. rewrite IH; [done..|]. intros k Hk. rewrite Ho; [apply Hin; by right|].
  intros ->. by apply Hn, list_elem_of_In.
Qed.
Lemma fold_out_sweep {S} map_of count (f : S -> string * SnmpDeviceConfig -> outcome S) l st st' :
  (forall st nd st', is_Some (map_of st !! nd.1) -> f st nd = Ok st' -> swept map_of count st st' nd.1) ->
  NoDup (map fst l) -> (forall k, In k (map fst l) -> is_Some (map_of st !! k)) -> fold_out f st l = Ok st' ->
  count st' - Z.of_nat (size (map_of st')) = count st - Z.of_nat (size (map_of st)).
Proof.
  intros Hf. revert st. induction l as [|nd l IH]; intros st Hnd Hin; cbn; [by intros [= <-]|]. apply NoDup_cons in Hnd as [Hn Hnd].
  destruct (f st nd) as [st1| | |] eqn:E; [|done..]. destruct (Hf st nd st1) as [Hc Ho]; [apply Hin; by left|done|].
  cbn. intros Hr. rewrite (IH st1); [done..| |done]. intros k Hk. rewrite Ho; [apply Hin; by right|].
  intros ->. by apply Hn, list_elem_of_In.
Qed.

(** A range over devices visits every one of them once. *)
Definition ranges (range : gmap string SnmpDeviceConfig -> list (string * SnmpDeviceConfig)) : Prop := forall m, range m ≡ₚ map_to_list m.
Lemma ranges_once range m : ranges range -> NoDup (map fst (range m)) /\ forall k, In k (map fst (range m)) -> is_Some (m !! k).
Proof.
  intros Hr. split; [rewrite (Hr m); apply NoDup_fst_map_to_list|]. intros k Hk. apply in_map_iff in Hk as ([k' v] & <- & Hk).
  apply list_elem_of_In in Hk. rewrite (Hr m) in Hk. apply elem_of_map_to_list in Hk. cbn [fst]. by exists v.
Qed.

(** After a discovery that is not stopped by a bad purge number, the devices that were counted
    as added, less those that were counted down when they were removed as duplicates or as unseen,
    are by how much the configuration grew, and the difference that is reported is its opposite. *)
Lemma addDevices_counts now pollDuration range sort visits found devices disco g stat ds g' :
  ranges range -> addDevices now pollDuration range sort visits found devices disco g = Ok (stat, ds, g') ->
  added stat = Z.of_nat (size ds) - Z.of_nat (size devices) /\ delta stat = - added stat.
Proof.
  intros Hr. unfold addDevices. cbn zeta. set (merged := foldl _ (devices, 0, 0) found). set (deduped := foldl _ (merged.1.1, ∅, merged.1.2) _).
  destruct (fold_out _ _ _) as [purged| | |] eqn:E; [|done..]. cbn. intros [= <- <- _]. cbn [added delta]. rewrite map_size_fmap.
  assert (merged.1.2 - Z.of_nat (size merged.1.1) = - Z.of_nat (size devices)) as H1.
  { unfold merged. change (- Z.of_nat (size devices)) with (((devices, 0, 0).1.2 : Z) - Z.of_nat (size (devices, 0, 0).1.1)).
    clear. set (tags := default ∅ (gl_UserTags g)). clearbody tags. generalize (devices, 0, 0) as st.
    induction found as [|f l IH]; intros st; [reflexivity|]. cbn [foldl]. rewrite IH. apply add_device_counts. }
  destruct (ranges_once range merged.1.1 Hr) as [Hn2 Hi2].
  pose proof (foldl_sweep (fun s : gmap string SnmpDeviceConfig * gset string * Z => s.1.1) snd (dedup_device disco) _ (merged.1.1, ∅, merged.1.2)
    (dedup_device_swept disco) Hn2 Hi2) as H2.
  destruct (ranges_once range deduped.1.1 Hr) as [Hn3 Hi3].
  pose proof (fold_out_sweep (fun s : gmap string SnmpDeviceConfig * Z * Z => s.1.1) snd _ _
    (deduped.1.1, gl_PurgeDevices g, deduped.2) purged (purge_device_swept now pollDuration) Hn3 Hi3 E) as H3.
  fold deduped in H2. cbn [fst snd] in H2, H3. split; lia.
Qed.

(** Two devices of one engine are found; the second that the range meets is taken out again. *)
Lemma addDevices_counts_witness :
  let d := fun n e => mkSnmpDeviceConfig n "10.0.0.1" "public" false None false 0 161 "" "" 0 "" "" false false None 0 [] 0 0 0 0 e None false false "" false 0 0 false None in
  let g := mkSnmpGlobalConfig ["IF-MIB"%string] None 0 None None ∅ in
  let disco := mkSnmpDiscoConfig [] [] [] None [] false false false "" "" in
  let found := [("10.0.0.1", d "a" "e1"); ("10.0.0.2", d "b" "e1")]%string in
  let devices : gmap string SnmpDeviceConfig := {["old"%string := d "old"%string ""%string]} in
  exists stat ds g',
    addDevices 0 0 map_to_list id keys_of found devices disco g = Ok (stat, ds, g') /\
    (added stat = Z.of_nat (size ds) - Z.of_nat (size devices) /\ delta stat = - added stat).
Proof.
  intros d g disco found devices. destruct (addDevices 0 0 map_to_list id keys_of found devices disco g) as [[[stat ds] g']| | |] eqn:E.
  - exists stat, ds, g'. split; [done|]. apply (addDevices_counts 0 0 map_to_list id keys_of found devices disco g stat ds g'); [|exact E].
    intros m. apply Permutation_refl.
  - exfalso. revert E. vm_compute. discriminate.
  - exfalso. revert E. vm_compute. discriminate.
  - exfalso. revert E. vm_compute. discriminate.
Defined.

(** The purge number of one device is that of the devices that the range meets after it. *)
Example purge_leaks :
  let d := fun n p => mkSnmpDeviceConfig n "10.0.0.1" "public" false None false 0 161 "" "" 0 "" "" false false None 0 [] 0 0 0 0 "" None false false "" false 0 p false None in
  let kept := d "kept"%string 0 in
  let own := d "own"%string 3 in
  let devices : gmap string SnmpDeviceConfig := {["kept" := kept; "own" := set_dc_Checked (10000 * Second) own]}%string in
  let purge l := fold_out (purge_device (10000 * Second) (60 * Second)) (devices, 0, 0) l in
  (exists st, purge [("kept"%string, kept); ("own"%string, set_dc_Checked (10000 * Second) own)] = Ok st /\ is_Some (st.1.1 !! "kept"%string)) /\
  (exists st, purge [("own"%string, set_dc_Checked (10000 * Second) own); ("kept"%string, kept)] = Ok st /\ st.1.1 !! "kept"%string = None).
Proof. split; (eexists; split; [vm_compute; reflexivity|]); vm_compute; eauto. Qed.
