(* ===== verification/Counters.v ===== *)
(** * Counters and their deltas (src/pkg/kt/counters)

    A [CounterSet] keeps the last absolute value of each counter of one interface; what is
    reported is the growth since that value, and nothing at all when the value fell, because a
    counter that rolled over cannot be told from one that was reset. *)
From Stdlib Require Import Sorted.
From S2P Require Import Prelude.

Record CounterSet := mkCounterSet {
  Values : gmap string Z;
  IntId : string
}.

Definition NewCounterSet : CounterSet := mkCounterSet ∅ "".
Definition NewCounterSetWithId (id : string) : CounterSet := mkCounterSet ∅ id.

(** [CounterSet.GetDelta], also on a nil receiver. *)
Definition GetDelta (cs : option CounterSet) (counterName : string) (cur : Z) : Z :=
  match cs with
  | None => 0
  | Some cs =>
      match Values cs !! counterName with
      | None => 0
      | Some prev => if prev <=? cur then (uint64 (cur - prev))%go else 0
      end
  end.

Definition SetValueAndReturnDelta (cs : CounterSet) (counterName : string) (cur : Z) :
    Z * CounterSet :=
  (GetDelta (Some cs) counterName cur,
   mkCounterSet (<[counterName := cur]> (Values cs)) (IntId cs)).

(** [CounterSet.SetValue]: only for the oids that have a name. *)
Definition SetValue (cs : CounterSet) (validate : gmap string string) (oid : string) (val : Z) :
    CounterSet :=
  match validate !! oid with
  | Some vName => mkCounterSet (<[vName := val]> (Values cs)) (IntId cs)
  | None => cs
  end.

(** ** What a delta is *)

(** The growth from the last reading to this one. *)
Definition growth (last : option Z) (cur : Z) : Z :=
  match last with
  | None => 0
  | Some prev => Z.max 0 (cur - prev)
  end.

(** What a counter reports over its readings; [None] is a reading that was lost together with
    the value before it. *)
Fixpoint growths (last : option Z) (readings : list (option Z)) : list Z :=
  match readings with
  | [] => []
  | Some v :: l => growth last v :: growths (Some v) l
  | None :: l => growths None l
  end.

Definition last_reading (last : option Z) (readings : list (option Z)) : option Z :=
  foldl (fun _ r => r) last readings.

Definition sum (l : list Z) : Z := foldr Z.add 0 l.

(** The counters hold values of 64 bits. *)
Definition counters_ok (cs : CounterSet) : Prop := map_Forall (fun _ v => in_range 64 v) (Values cs).

Lemma GetDelta_growth cs name cur :
  counters_ok cs -> in_range 64 cur -> GetDelta (Some cs) name cur = growth (Values cs !! name) cur.
Proof.
  intros Hok Hc. unfold GetDelta. destruct (Values cs !! name) as [prev|] eqn:E; [|done].
  pose proof (Hok _ _ E) as Hp. cbn in Hp. unfold in_range, growth in *. destruct (prev <=? cur) eqn:Hle.
  - rewrite wrap_id by (unfold in_range; lia). lia.
  - lia.
Qed.

Lemma SetValue_ok cs name cur :
  counters_ok cs -> in_range 64 cur -> counters_ok (SetValueAndReturnDelta cs name cur).2.
Proof. intros. by apply map_Forall_insert_2. Qed.

Lemma growth_nonneg last cur : 0 <= growth last cur.
Proof. destruct last; cbn; lia. Qed.

Lemma growth_le last cur : in_range 64 cur -> (forall p, last = Some p -> 0 <= p) -> growth last cur <= cur.
Proof. unfold in_range. intros. destruct last as [p|]; cbn; [specialize (H0 p eq_refl)|]; lia. Qed.

Lemma growths_app l l' last : growths last (l ++ l') = growths last l ++ growths (last_reading last l) l'.
Proof. revert last. induction l as [|[v|] l IH]; intros last; cbn; [done| |]; by rewrite ?IH. Qed.

(** Nothing is counted twice and nothing is missed: over readings that only grow the deltas add
    up to the last reading less the first. *)
Lemma growths_telescope vs v0 v :
  Sorted Z.le (v0 :: vs ++ [v]) -> sum (growths (Some v0) (map Some (vs ++ [v]))) = v - v0.
Proof.
  revert v0. induction vs as [|v1 vs IH]; intros v0 Hs; cbn in *.
  - apply Sorted_inv in Hs as [_ Hs]. apply HdRel_inv in Hs. lia.
  - apply Sorted_inv in Hs as [Hs Hd]. apply HdRel_inv in Hd. rewrite IH by done. lia.
Qed.

(** Whatever the readings are, what is reported is at most what they grew. *)
Lemma growths_bound l last m :
  Forall (fun r => forall v, r = Some v -> 0 <= v <= m) l -> Forall (fun d => 0 <= d) (growths last l).
Proof.
  revert last. induction l as [|[v|] l IH]; intros last H; cbn; [done| |];
    apply Forall_cons in H as [H1 H2]; [constructor; [apply growth_nonneg|]|]; by apply IH.
Qed.
