(* ===== verification/SnmpUtil.v ===== *)
(** * Reading values from devices (src/pkg/inputs/snmp/util, util/vendor)

    How a walk is tried and tried again, how often a device is polled and for how long, and the
    conversions of octet strings.  The walks of the gosnmp library and the regular expressions
    of a profile are arguments. *)
From S2P Require Import Prelude GoIO GoStrings GoNet GoAddr SnmpTypes.

(** ** Values *)

Definition MAX_SNMP_LEN : nat := 128.

(** [bytes.Trim(value, NUL)]. *)
Fixpoint trim_nul (bs : bytes) : bytes :=
  match bs with
  | 0 :: bs' => trim_nul bs'
  | _ => bs
  end.
Definition bytes_Trim (bs : bytes) : bytes := rev (trim_nul (rev (trim_nul bs))).

(** [ReadOctetString]. *)
Definition ReadOctetString (variable : SnmpPDU) (truncate : bool) : outcome (string * bool) :=
  match pdu_Type variable with
  | OctetString =>
      match pdu_Value variable with
      | VBytes bs =>
          let value := bytes_Trim bs in
          let value := if truncate && (MAX_SNMP_LEN <? length value)%nat then take MAX_SNMP_LEN value else value in
          Ok (str_of value, true)
      | _ => Panic "interface conversion"
      end
  | _ => Ok ("", false)
  end.

(** The integer that the SNMP library makes of a value, [gosnmp.ToBigInt]. *)
Class BigInts := ToBigInt : Value -> Z.

(** [ToInt64]: zero for what is not an integer. *)
Definition ToInt64 (val : Value) : Z :=
  match val with
  | VInt z => (int64 z)%go
  | _ => 0
  end.

(** [GetIndex]. *)
Definition GetIndex (value prefix : string) : string :=
  let posit := strings_Index value prefix + Z.of_nat (String.length prefix) in
  if posit <? Z.of_nat (String.length value) then sdrop (Z.to_nat posit) value else "".

(** ** Walks *)

Definition ConstantOidPrefix : string := "1.3.6.1.6.3.1135.6169.".
Definition ConstantOidMetricPrefix : string := ".1.3.6.1.6.3.1136.6169.".

(** The answer of a walk; an error is only passed on. *)
Abbreviation answer := (option (list SnmpPDU)).

(** The ways to walk a device: by bulk requests, one by one at each try, by the walker of a
    test, and from canned responses. *)
Record Server := mkServer {
  sv_BulkWalkAll : string -> answer;
  sv_WalkAll : nat -> string -> answer;
  sv_testWalker : option (string -> answer);
  sv_NoUseBulkWalkAll : bool
}.

(** [useCachedMap]: the entries in a range order of the cache. *)
Definition useCachedMap (cache : list (string * SnmpPDU)) (oid : string) : outcome answer :=
  match oid with
  | "" => Panic "slice bounds out of range [:1]"
  | _ =>
      let oid := if HasPrefix oid "." then sdrop 1 oid else oid in
      match filter (fun kv => HasPrefix kv.1 oid = true) cache with
      | [] => Ok None
      | l => Ok (Some l.*2)
      end
  end.

(** The tries of [WalkOID], first to last. *)
Definition tries (sv : Server) (cache : list (string * SnmpPDU)) : list (string -> outcome answer) :=
  let pure walk := fun oid => Ok (walk oid) in
  match sv_testWalker sv with
  | Some walker => [pure walker]
  | None =>
      if sv_NoUseBulkWalkAll sv then [pure (sv_WalkAll sv 0); pure (sv_WalkAll sv 1)]
      else match cache with
           | [] => [pure (sv_BulkWalkAll sv); pure (sv_WalkAll sv 0); pure (sv_WalkAll sv 1)]
           | _ => [useCachedMap cache; pure (sv_BulkWalkAll sv); pure (sv_WalkAll sv 0)]
           end
  end.

(** [canceled i] tells whether the context is found done before the try [i]. *)
Fixpoint run_tries (canceled : nat -> bool) (i : nat) (ts : list (string -> outcome answer)) (oid : string) :
    outcome answer :=
  match ts with
  | [] => Ok None
  | t :: ts =>
      if canceled i then Ok None
      else
        a ← t oid;
        match a with
        | Some results => Ok (Some results)
        | None => run_tries canceled (S i) ts oid
        end
  end.

(** [WalkOID]; the error, of the context or of the last try, is [None]. *)
Definition WalkOID (done : bool) (canceled : nat -> bool) (sv : Server) (cache : list (string * SnmpPDU))
    (oid : string) : outcome answer :=
  if done then Ok None
  else if HasPrefix oid ConstantOidPrefix then
    Ok (Some [mkPDU oid OtherType (VString (sdrop (String.length ConstantOidPrefix) oid))])
  else if HasPrefix oid ConstantOidMetricPrefix then
    Ok (Some [mkPDU oid OtherType (VInt (Atoi_value (sdrop (String.length ConstantOidMetricPrefix) oid)))])
  else run_tries canceled 0 (tries sv cache) oid.

(** [LoadFromWalk]: the cache from the lines of a file; numbers are kept as their text. *)
Definition load_line (ToLower : string -> string) (res : gmap string SnmpPDU) (line : string) :
    outcome (gmap string SnmpPDU) :=
  match strings_SplitN line " = " 2 with
  | [p0; p1] =>
      match strings_TrimSpace p0 with
      | "" => Panic "slice bounds out of range [:1]"
      | oid =>
          let oid := if HasPrefix oid "." then sdrop 1 oid else oid in
          match strings_SplitN p1 ": " 2 with
          | [typ; val] =>
              let typ := ToLower typ in
              if String.eqb typ "string" then
                Ok (<[oid := mkPDU oid OctetString (VBytes (map byte_of (String.list_ascii_of_string val)))]> res)
              else if String.eqb typ "integer" then Ok (<[oid := mkPDU oid Integer (VString val)]> res)
              else if String.eqb typ "counter64" || String.eqb typ "counter32" then
                Ok (<[oid := mkPDU oid OtherType (VString val)]> res)
              else Ok res
          | _ => Ok res
          end
      end
  | _ => Ok res
  end.

Definition LoadFromWalk (ToLower : string -> string) (data : string) : outcome (gmap string SnmpPDU) :=
  fold_out (load_line ToLower) ∅ (strings_Split data (str_of [10])).

(** ** How often and how long *)

(** [GetPollRate], from [PollTimeSec] of the two configurations, [None] for a nil one. *)
Definition GetPollRate (gconf conf : option Z) : Z :=
  let set := fun c => match c with Some s => 0 <? s | None => false end in
  let counterTimeSec := if set conf then default 0 conf
                        else if set gconf then default 0 gconf else 5 * 60 in
  if counterTimeSec <? 30 then 30 else counterTimeSec.

(** [GetPollTimeout], in nanoseconds, from [PollTimeoutSec]. *)
Definition GetPollTimeout (gconf conf : option Z) (counterTimeSec : Z) : Z :=
  let set := fun c => match c with Some s => 0 <? s | None => false end in
  let pollTimeoutSec := if set conf then default 0 conf
                        else if set gconf then default 0 gconf else 120 in
  let pollTimeoutSec := if counterTimeSec <? pollTimeoutSec then counterTimeSec else pollTimeoutSec in
  (int64 (pollTimeoutSec * 1000000000))%go.
