(* ===== verification/SnmpConv.v ===== *)
(** * Conversions of octet strings (src/pkg/inputs/snmp/util/util.go, util/vendor)

    What a profile can ask for when a device packs a value into bytes: addresses, integers,
    engine ids, dates, the states of a power supply, or the groups of a regular expression.
    [GetFromConv] recovers from a panic of any of them and returns nothing then. *)
From S2P Require Import Prelude GoIO GoStrings GoNet GoAddr SnmpTypes SnmpUtil.

(** What a conversion returns: an integer, a string, and named strings. *)
Abbreviation conv := (Z * string * option (gmap string string))%type.
Abbreviation nothing := ((0, ""%string, None) : conv).

Definition index_panic : string := "index out of range".

(** ** Power supplies *)

Record UpsCode := mkUpsCode {
  ups_Severity : nat;
  ups_Index : Z;
  ups_Dependancy : nat;
  ups_Status : string
}.

Definition severities : list string := ["Informational"; "Warning"; "High"; "Disaster"]%string.

Definition upsCodes : list UpsCode := [
  mkUpsCode 2 0 0 "Abnormal Condition Present";
  mkUpsCode 3 1 28 "On Battery";
  mkUpsCode 3 2 0 "Low Battery";
  mkUpsCode 1 3 0 "On Line";
  mkUpsCode 3 4 0 "Replace Battery";
  mkUpsCode 1 5 0 "Serial Communication Established";
  mkUpsCode 1 6 0 "AVR Boost Active";
  mkUpsCode 1 7 0 "AVR Trim Active";
  mkUpsCode 3 8 28 "Overload";
  mkUpsCode 1 9 0 "Runtime Calibration ";
  mkUpsCode 3 10 28 "Batteries Discharged";
  mkUpsCode 2 11 0 "Manual Bypass";
  mkUpsCode 2 12 0 "Software Bypass";
  mkUpsCode 3 13 0 "In Bypass due to Internal Fault";
  mkUpsCode 3 14 0 "In Bypass due to Supply Failure";
  mkUpsCode 3 15 0 "In Bypass due to Fan Failure";
  mkUpsCode 1 16 0 "Sleeping on a Timer";
  mkUpsCode 2 17 0 "Sleeping until Utility Power Returns";
  mkUpsCode 1 18 0 "Powered On";
  mkUpsCode 2 19 0 "Rebooting";
  mkUpsCode 2 20 0 "Battery Communication Lost";
  mkUpsCode 1 21 0 "Graceful Shutdown Initiated";
  mkUpsCode 1 22 0 "Smart Boost or Smart Trim Fault";
  mkUpsCode 3 23 28 "Bad Output Voltage";
  mkUpsCode 3 24 0 "Battery Charger Failure";
  mkUpsCode 2 25 28 "High Battery Temperature";
  mkUpsCode 3 26 0 "Warning Battery Temperature";
  mkUpsCode 4 27 0 "Critical Battery Temperature";
  mkUpsCode 2 28 0 "Self Test In Progress";
  mkUpsCode 3 29 28 "Low Battery / On Battery";
  mkUpsCode 1 30 0 "Graceful Shutdown Issued by Upstream Device";
  mkUpsCode 1 31 0 "Graceful Shutdown Issued by Downstream Device";
  mkUpsCode 4 32 0 "No Batteries Attached";
  mkUpsCode 1 33 0 "Synchronized Command is in Progress";
  mkUpsCode 1 34 0 "Synchronized Sleeping Command is in Progress";
  mkUpsCode 1 35 0 "Synchronized Rebooting Command is in Progress ";
  mkUpsCode 2 36 0 "Inverter DC Imbalance ";
  mkUpsCode 3 37 0 "Transfer Relay Failure";
  mkUpsCode 3 38 0 "Shutdown or Unable to Transfer";
  mkUpsCode 3 39 0 "Low Battery Shutdown";
  mkUpsCode 3 40 0 "Electronic Unit Fan Failure";
  mkUpsCode 3 41 0 "Main Relay Failure";
  mkUpsCode 3 42 0 "Bypass Relay Failure";
  mkUpsCode 2 43 0 "Temporary Bypass";
  mkUpsCode 3 44 0 "High Internal Temperature";
  mkUpsCode 3 45 0 "Battery Temperature Sensor Fault";
  mkUpsCode 2 46 0 "Input Out of Range for Bypass";
  mkUpsCode 3 47 0 "DC Bus Overvoltage";
  mkUpsCode 2 48 0 "PFC Failure";
  mkUpsCode 3 49 0 "Critical Hardware Fault";
  mkUpsCode 1 50 0 "Green Mode/ECO Mode";
  mkUpsCode 1 51 0 "Hot Standby";
  mkUpsCode 3 52 0 "Emergency Power Off (EPO) Activated";
  mkUpsCode 2 53 0 "Load Alarm Violation";
  mkUpsCode 3 54 0 "Bypass Phase Fault";
  mkUpsCode 2 55 0 "UPS Internal Communication Failure";
  mkUpsCode 1 56 0 "Efficiency Booster Mode";
  mkUpsCode 2 57 0 "Off";
  mkUpsCode 2 58 0 "Standby";
  mkUpsCode 1 59 0 "Not Used";
  mkUpsCode 1 60 0 "Not Used";
  mkUpsCode 1 61 0 "Not Used";
  mkUpsCode 1 62 0 "Not Used";
  mkUpsCode 1 63 0 "Not Used"].

(** The first loop: the codes whose byte is the digit one. *)
Fixpoint ups_actives (i : nat) (bv : bytes) (actives : list (option UpsCode)) :
    outcome (list (option UpsCode)) :=
  match bv with
  | [] => Ok actives
  | v :: bv' =>
      if v =? 49 then
        match upsCodes !! i with
        | Some c => ups_actives (S i) bv' (<[i := Some c]> actives)
        | None => Panic index_panic
        end
      else ups_actives (S i) bv' actives
  end.

(** The second loop: the status texts by severity, without those whose cause shows too. *)
Definition ups_severity (actives : list (option UpsCode)) : gmap nat (list string) :=
  foldl (fun severity active =>
    match active with
    | None => severity
    | Some c =>
        let add := <[ups_Severity c := default [] (severity !! ups_Severity c) ++ [ups_Status c]]> severity in
        if (0 <? ups_Dependancy c)%nat then
          match actives !! ups_Dependancy c with
          | Some (Some _) => severity
          | _ => add
          end
        else add
    end) ∅ actives.

(** The highest severity that has a text. *)
Fixpoint ups_report (i : nat) (severity : gmap nat (list string)) : conv :=
  match i with
  | O => nothing
  | S i' =>
      match default [] (severity !! i) with
      | [] => ups_report i' severity
      | texts => (Z.of_nat i, nth i' severities "" +:+ ": " +:+ strings_Join texts ",", None)
      end
  end.

Definition HandlePowersetStatus (bv : bytes) : outcome conv :=
  actives ← ups_actives 0 bv (repeat None (length upsCodes));
  Ok (ups_report (length severities) (ups_severity actives)).

(** ** Addresses and identifiers *)

Definition u16_text (bs : bytes) (i : nat) : string := Itoa (be_combine (take 2 (drop i bs))).

Definition hexToIP (bv : bytes) : conv :=
  let quad bs := strings_Join [u16_text bs 0; u16_text bs 2; u16_text bs 4; u16_text bs 6] "." in
  match bv with
  | [a; b; c; d] => (0, quad [0; a; 0; b; 0; c; 0; d], None)
  | _ => if (length bv =? 16)%nat then (0, IP_String bv, None)
         else if (length bv =? 8)%nat then (0, quad bv, None)
         else nothing
  end.

(** [hex.Encode]. *)
Definition hex_Encode (bs : bytes) : bytes :=
  flat_map (fun b => [byte_of (hexDigit (Z.shiftr b 4)); byte_of (hexDigit (Z.land b 15))]) bs.

(** What [append] does within the capacity: [vs] over the bytes from [off]. *)
Definition overwrite (mem : bytes) (off : nat) (vs : bytes) : bytes :=
  take off mem ++ vs ++ drop (off + length vs) mem.

(** The loop of [EngineID]: [x] and [buf] share [mem], [x] from the byte [n] on; round [k]
    reads two bytes of [x] and appends them and a colon to [buf]. *)
Fixpoint engine_loop (n rounds k : nat) (mem : bytes) : bytes :=
  match rounds with
  | O => mem
  | S rounds' =>
      let x := take 2 (drop (n + 2 * k) mem) in
      engine_loop n rounds' (S k) (overwrite mem (3 * k) (x ++ [58]))
  end.

Definition EngineID (bv : bytes) : outcome conv :=
  let n := length bv in
  let mem := repeat 0 n ++ hex_Encode bv in
  match bv with
  | [] => Panic "slice bounds out of range [:-1]"
  | _ => Ok (0, str_of (take (3 * n - 1) (engine_loop n n 0 mem)), None)
  end.

(** ** Numbers and dates *)

Definition little_endian (bs : bytes) : Z := be_combine (rev bs).

(** [binary.BigEndian.Uint16] and its kin: the first bytes, a panic when there are fewer. *)
Definition uint_at (big : bool) (n : nat) (bv : bytes) : outcome Z :=
  if (length bv <? n)%nat then Panic index_panic
  else Ok ((if big then be_combine else little_endian) (take n bv)).

Definition hexToInt (endian bit : string) (bv : bytes) : outcome conv :=
  let size := if String.eqb bit "uint64" then Some 8%nat
              else if String.eqb bit "uint32" then Some 4%nat
              else if String.eqb bit "uint16" then Some 2%nat else None in
  let text big := match size with
                  | Some n => v ← uint_at big n bv; Ok (0, Itoa v, None)
                  | None => Ok nothing
                  end in
  if String.eqb endian "LittleEndian" then text false
  else if String.eqb endian "BigEndian" then text true
  else Ok nothing.

Definition toOne (bv : bytes) : conv := (1, str_of bv, None).

Definition hexToDateTime (bv : bytes) : conv :=
  match bv with
  | [y1; y2; month; day; hour; minute; sec; deciSec] =>
      (0, Itoa (y1 * 256 + y2) +:+ "-" +:+ Itoa month +:+ "-" +:+ Itoa day +:+ "," +:+
          Itoa hour +:+ ":" +:+ Itoa minute +:+ ":" +:+ Itoa sec +:+ "." +:+ Itoa deciSec, None)
  | [y1; y2; month; day; hour; minute; sec; deciSec; dirUtc; hrsUtc; minUtc] =>
      (0, Itoa (y1 * 256 + y2) +:+ "-" +:+ Itoa month +:+ "-" +:+ Itoa day +:+ "," +:+
          Itoa hour +:+ ":" +:+ Itoa minute +:+ ":" +:+ Itoa sec +:+ "." +:+ Itoa deciSec +:+ "," +:+
          str_of [dirUtc] +:+ Itoa hrsUtc +:+ ":" +:+ Itoa minUtc, None)
  | _ => nothing
  end.

(** ** Regular expressions *)

(** A compiled expression: the names of its groups, and the match with its groups. *)
Record Regexp := mkRegexp {
  SubexpNames : list string;
  FindSubmatch : bytes -> option (list bytes)
}.

(** [regexp.Compile], or the text of its error; the cache [reCache] only saves work. *)
Class Regexps := regexp_Compile : string -> string + Regexp.

(** The loop over the groups: the first without a name is returned at once. *)
Fixpoint regexp_groups (names : list string) (res : list bytes) (matches : gmap string string) : conv :=
  match names, res with
  | name :: names, m :: res =>
      match name with
      | "" => match Atoi (str_of m) with
              | Some ival => (ival, str_of m, None)
              | None => (0, str_of m, None)
              end
      | _ => regexp_groups names res (<[name := str_of m]> matches)
      end
  | _, _ => (0, "", Some matches)
  end.

Section Conv.
  Context `{Regexps}.

Definition fromRegexp (bv : bytes) (reg : string) : conv :=
  match regexp_Compile reg with
  | inl e => (0, e, None)
  | inr r =>
      match default [] (FindSubmatch r bv) with
      | _ :: ((_ :: _) as res) => regexp_groups (tail (SubexpNames r)) res ∅
      | _ => nothing
      end
  end.

Definition convert (c : string) (bv : bytes) : outcome conv :=
  if String.eqb c "hwaddr" then Ok (0, HardwareAddr_String bv, None)
  else if String.eqb c "powerset_status" then HandlePowersetStatus bv
  else if String.eqb c "hextoip" then Ok (hexToIP bv)
  else if String.eqb c "engine_id" then EngineID bv
  else if String.eqb c "to_one" then Ok (toOne bv)
  else if String.eqb c "hextodatetime" then Ok (hexToDateTime bv)
  else match strings_Split c ":" with
       | ["hextoint"; endian; bit]%string => hexToInt endian bit bv
       | "regexp"%string :: ((_ :: _) as rest) => Ok (fromRegexp bv (strings_Join rest ":"))
       | _ => Ok (0, str_of bv, None)
       end.

(** [GetFromConv]. *)
Definition GetFromConv (pdu : SnmpPDU) (c : string) : conv :=
  match pdu_Value pdu with
  | VBytes [] => nothing
  | VBytes bv =>
      match convert c bv with
      | Ok r => r
      | _ => nothing
      end
  | _ => nothing
  end.

(** [PrettyPrint]. *)
Definition PrettyPrint (pdu : SnmpPDU) (format : string) : outcome string :=
  match pdu_Type pdu with
  | OctetString => Ok (GetFromConv pdu format).1.2
  | IPAddress | ObjectIdentifier =>
      match pdu_Value pdu with
      | VString s => Ok s
      | _ => Panic "interface conversion"
      end
  | _ => Ok (Itoa (ToInt64 (pdu_Value pdu)))
  end.
End Conv.

(** ** Properties *)

Lemma hex_Encode_length bs : length (hex_Encode bs) = (2 * length bs)%nat.
Proof. induction bs as [|b bs IH]; [done|]. cbn [hex_Encode flat_map app length]. unfold hex_Encode in IH. rewrite IH. lia. Qed.

Lemma hex_Encode_cons b bs :
  hex_Encode (b :: bs) = [byte_of (hexDigit (Z.shiftr b 4)); byte_of (hexDigit (Z.land b 15))] ++ hex_Encode bs.
Proof. done. Qed.

(** The bytes of one round. *)
Definition engine_piece (b : Z) : bytes :=
  [byte_of (hexDigit (Z.shiftr b 4)); byte_of (hexDigit (Z.land b 15)); 58].

Lemma overwrite_app t j vs off :
  off = length t -> (length vs <= length j)%nat -> overwrite (t ++ j) off vs = (t ++ vs) ++ drop (length vs) j.
Proof.
  intros -> H. unfold overwrite. rewrite take_app_length, <- app_assoc. do 2 f_equal.
  by rewrite drop_app_add'.
Qed.

(** The pieces never reach what is still to be read: with [k] rounds to go, [k] bytes lie
    between the two. *)
Lemma engine_loop_spec bv : forall done j,
  length j = length bv ->
  let n := (length done + length bv)%nat in
  engine_loop n (length bv) (length done) (flat_map engine_piece done ++ j ++ hex_Encode bv) =
  flat_map engine_piece (done ++ bv).
Proof.
  assert (forall l, length (flat_map engine_piece l) = (3 * length l)%nat) as Hlen.
  { induction l as [|b l IH]; [done|]. cbn. rewrite IH. lia. }
  induction bv as [|b bv IH]; intros done j Hj n; cbn [length engine_loop].
  { destruct j; [|done]. by rewrite !app_nil_r. }
  cbn in Hj. rewrite hex_Encode_cons. set (x := [_; _]) in *. set (e := hex_Encode bv).
  assert (take 2 (drop (n + 2 * length done) (flat_map engine_piece done ++ j ++ x ++ e)) = x) as ->.
  { rewrite (app_assoc _ j), drop_app_length' by (rewrite length_app, Hlen; unfold n; cbn; lia).
    by rewrite take_app_length' by done. }
  rewrite overwrite_app by (rewrite ?Hlen, ?length_app; cbn; lia).
  assert (drop (length (x ++ [58])) (j ++ x ++ e) = drop 3 (j ++ x) ++ e) as ->.
  { rewrite app_assoc, drop_app_le by (unfold x; rewrite !length_app; cbn; lia). done. }
  change (flat_map engine_piece done ++ x ++ [58]) with (flat_map engine_piece done ++ engine_piece b).
  replace (flat_map engine_piece done ++ engine_piece b) with (flat_map engine_piece (done ++ [b]))
    by (rewrite flat_map_app; cbn; done).
  assert (done ++ b :: bv = (done ++ [b]) ++ bv) as -> by (by rewrite <- app_assoc).
  assert (S (length done) = length (done ++ [b])) as -> by (rewrite length_app; cbn; lia).
  assert (n = (length (done ++ [b]) + length bv)%nat) as -> by (unfold n; rewrite length_app; cbn; lia).
  apply IH. rewrite length_drop, length_app. unfold x. cbn. lia.
Qed.

Lemma str_of_app a b : str_of (a ++ b) = str_of a +:+ str_of b.
Proof.
  induction a as [|x a IH]; [done|].
  change (String (chr x) (str_of (a ++ b)) = String (chr x) (str_of a +:+ str_of b)). by rewrite IH.
Qed.

Lemma chr_byte_of c : chr (byte_of c) = c.
Proof. unfold chr, byte_of. by rewrite N2Z.id, Ascii.ascii_N_embedding. Qed.

(** The pieces less their last colon are the bytes joined by colons. *)
Lemma pieces_text bv :
  bv <> [] ->
  str_of (take (3 * length bv - 1) (flat_map engine_piece bv)) = strings_Join (map hex2 bv) ":".
Proof.
  induction bv as [|b bv IH]; intros Hne; [done|]. destruct bv as [|b' bv].
  - cbn. by rewrite !chr_byte_of.
  - cbn [flat_map length]. replace (3 * S (S (length bv)) - 1)%nat with (3 + (3 * length (b' :: bv) - 1))%nat by (cbn; lia).
    change (flat_map engine_piece (b :: b' :: bv)) with (engine_piece b ++ flat_map engine_piece (b' :: bv)).
    rewrite take_app_add' by done. rewrite str_of_app. change (engine_piece b' ++ flat_map engine_piece bv) with (flat_map engine_piece (b' :: bv)).
    rewrite IH by done. cbn. by rewrite !chr_byte_of.
Qed.

(** C36: [EngineID] expands the hexadecimal digits of an identifier in the buffer that they lie
    in, and no digit is overwritten before it is read: the text is the bytes in hexadecimal,
    joined by colons, as the package [net] writes a hardware address. *)
Lemma EngineID_in_place bv :
  bv <> [] -> EngineID bv = Ok (0, HardwareAddr_String bv, None).
Proof.
  intros Hne. assert (EngineID bv = Ok (0, str_of (take (3 * length bv - 1)
    (engine_loop (length bv) (length bv) 0 (repeat 0 (length bv) ++ hex_Encode bv))), None)) as ->
    by (by destruct bv).
  pose proof (engine_loop_spec bv [] (repeat 0 (length bv)) (repeat_length _ _)) as H.
  cbn [app flat_map length Nat.add] in H. rewrite H. do 3 f_equal. by apply pieces_text.
Qed.

Example convert_sample : let H : Regexps := fun reg => inl reg in
  map (fun c => convert c.1 c.2)
  [("engine_id", [128; 0; 1]); ("hextoip", [10; 0; 100; 10]); ("hextoint:BigEndian:uint16", [1; 2]);
   ("hextodatetime", [7; 231; 10; 28; 21; 53; 52; 0; 43; 0; 0]); ("powerset_status", [49; 49; 48]);
   ("regexp:a:b", [65]); ("hextoint:x:uint16", [1; 2]); ("", [65])]%string =
  [Ok (0, "80:00:01", None); Ok (0, "10.0.100.10", None); Ok (0, "258", None);
   Ok (0, "2023-10-28,21:53:52.0,+0:0", None); Ok (3, "High: On Battery", None);
   Ok (0, "a:b", None); Ok nothing; Ok (0, "A", None)]%string.
Proof. vm_compute. reflexivity. Qed.

Lemma EngineID_in_place_witness :
  EngineID [128; 0; 1] = Ok (0, HardwareAddr_String [128; 0; 1], None) /\
  HardwareAddr_String [128; 0; 1] = "80:00:01"%string.
Proof. split; [by apply (EngineID_in_place [128; 0; 1])|vm_compute; reflexivity]. Defined.
