(* ===== verification/InterfaceMetrics.v ===== *)
(** * Polling the interfaces of a device (src/pkg/inputs/snmp/metrics/interface_metrics.go)

    A poll walks the objects of the profile, turns the counters of each interface into deltas
    against the values kept from the poll before, and makes one record per interface.  The
    ranges over maps take the order of their keys; a walk is a function of the object, and a
    variable comes with the integer that [gosnmp.ToBigInt] makes of its value. *)
From S2P Require Import Prelude GoIO GoStrings KT Customs GoFloat SnmpTypes Counters.

Definition SNMP_ifHCInUcastPkts : string := "ifHCInUcastPkts".
Definition SNMP_ifHCOutUcastPkts : string := "ifHCOutUcastPkts".
Definition SNMP_ifInErrors : string := "ifInErrors".
Definition SNMP_ifOutErrors : string := "ifOutErrors".
Definition SNMP_ifInErrorsPercent : string := "ifInErrorPercent".
Definition SNMP_ifOutErrorsPercent : string := "ifOutErrorPercent".
Definition AllDeviceInterface : string := "device".
Definition Uptime : string := "Uptime".

Definition GaugeMetric : string := "gauge".
Definition CountMetric : string := "count".
Definition StringPrefix : string := "ks_".
Definition KENTIK_EVENT_SNMP_INT_METRIC : string := "KSnmpInterfaceMetric".
Definition DefaultProfileMessage : string :=
  "Missing matched profile. See overview page for details.".

(** The fields of a device's configuration that its records carry. *)
Record DeviceConf := mkDeviceConf {
  conf_Provider : string;
  conf_DeviceName : string;
  conf_DeviceIP : string
}.

Abbreviation counterSets := (gmap string CounterSet).
Abbreviation deltaMap := (gmap string (gmap string Z)).

Record InterfaceMetrics := mkInterfaceMetrics {
  im_conf : DeviceConf;
  intValues : counterSets;
  oidMap : gmap string string;
  nameOidMap : gmap string string;
  oidMibMap : gmap string Mib;
  im_profileName : string;
  tickDuration : Z
}.

Definition set_intValues (v : counterSets) (im : InterfaceMetrics) : InterfaceMetrics :=
  mkInterfaceMetrics (im_conf im) v (oidMap im) (nameOidMap im) (oidMibMap im)
    (im_profileName im) (tickDuration im).
Definition set_oidMibMap (m : gmap string Mib) (im : InterfaceMetrics) : InterfaceMetrics :=
  mkInterfaceMetrics (im_conf im) (intValues im) (oidMap im) (nameOidMap im) m
    (im_profileName im) (tickDuration im).

(** ** Making one

    The maps are made in range orders: [profile] of the metrics of the profile, [oids] of the
    object map, which decides who keeps a name that two objects share. *)

Definition dotted (oid : string) : string := if HasPrefix oid "." then oid else "." +:+ oid.

Definition make_oidMap (profile : list (string * Mib)) : gmap string string :=
  foldl (fun m '(oid, mb) => <[dotted oid := GetName (Some mb)]> m) ∅ profile.

Definition make_nameOidMap (oids : list (string * string)) : gmap string string :=
  foldl (fun m '(k, v) => <[v := k]> m) ∅ oids.

Definition NewInterfaceMetrics (conf : DeviceConf) (profile : list (string * Mib))
    (oids : list (string * string)) (profileName : string) (tickDurationSec : Z) : InterfaceMetrics :=
  mkInterfaceMetrics conf ∅ (make_oidMap profile) (make_nameOidMap oids) (list_to_map profile)
    profileName ((int64 (tickDurationSec * 100))%go).

Definition DiscardDeltaState (im : InterfaceMetrics) : InterfaceMetrics := set_intValues ∅ im.

(** ** A poll *)

(** [big.Int.Uint64]: the low 64 bits of the magnitude. *)
Definition big_Uint64 (z : Z) : Z := (uint64 (Z.abs z))%go.

Record Variable_ := mkVariable {
  var_Name : string;
  var_Type : Asn1BER;
  var_Big : Z
}.

(** [m[k]], made with [new] when it is not there. *)
Definition assure {A} (new : A) (m : gmap string A) (k : string) : A * gmap string A :=
  match m !! k with
  | Some v => (v, m)
  | None => (new, <[k := new]> m)
  end.

(** The interface a variable is about: what follows the object in its name, less the dot. *)
Definition interface_of (oid name : string) : option string :=
  match strings_Split name oid with
  | [_; String _ intId] => Some intId
  | _ => None
  end.

(** The body of the loop over the variables of one object. *)
Definition poll_value (varName : string) (gauge : bool) (intId : string) (typ : Asn1BER)
    (value : Z) (st : counterSets * deltaMap) : counterSets * deltaMap :=
  let '(cs, ints) := assure (NewCounterSetWithId intId) st.1 intId in
  let '(delta, deltas) := assure ∅ st.2 intId in
  if gauge then (ints, <[intId := <[varName := value]> delta]> deltas)
  else match typ with
       | Integer => (ints, <[intId := <[varName := value]> delta]> deltas)
       | _ =>
           let '(d, cs) := SetValueAndReturnDelta cs varName value in
           (<[intId := cs]> ints,
            <[intId := <[varName := d]> (<[(varName +:+ "_counter") := value]> delta)]> deltas)
       end.

Definition poll_variable (oid varName : string) (gauge : bool) (st : counterSets * deltaMap)
    (variable : Variable_) : counterSets * deltaMap :=
  match interface_of oid (var_Name variable) with
  | None => st
  | Some intId =>
      poll_value varName gauge intId (var_Type variable) (big_Uint64 (var_Big variable)) st
  end.

Definition is_gauge (omib : option Mib) : bool :=
  match omib with
  | Some mb => String.eqb (mb_Format mb) GaugeMetric
  | None => false
  end.

(** What a poll asks of the world: the time when an object is looked at, and its walk, [None]
    for an error. *)
Record World := mkWorld {
  w_now : string -> Z;
  w_walk : string -> option (list Variable_)
}.

(** The state while the objects are polled; [pst_err] once a walk failed. *)
Record PollState := mkPollState {
  pst_mibs : gmap string Mib;
  pst_counts : counterSets * deltaMap;
  pst_err : bool
}.

(** The loop over the objects, in the order of the range. *)
Definition poll_oid (w : World) (st : PollState) (o : string * string) : PollState :=
  if pst_err st then st else
  let '(oid, varName) := o in
  let '(ready, omib, mibs) :=
    match pst_mibs st !! sdrop 1 oid with
    | Some mb => let '(ready, mb) := IsPollReady (w_now w oid) mb in
                 (ready, Some mb, <[sdrop 1 oid := mb]> (pst_mibs st))
    | None => (true, None, pst_mibs st)
    end in
  if ready then
    match w_walk w oid with
    | None => mkPollState mibs (pst_counts st) true
    | Some results =>
        mkPollState mibs
          (foldl (poll_variable oid varName (is_gauge omib)) (pst_counts st) results) false
    end
  else mkPollState mibs (pst_counts st) false.

(** The uptime, from the records of the device. *)
Fixpoint poll_uptime (lastDeviceMetrics : list JCHF) (st : counterSets * deltaMap) :
    counterSets * deltaMap :=
  match lastDeviceMetrics with
  | [] => st
  | dm :: l =>
      let '(cs, ints) := assure (NewCounterSetWithId AllDeviceInterface) st.1 AllDeviceInterface in
      let '(delta, deltas) := assure ∅ st.2 AllDeviceInterface in
      let up := gomap_get 0 (CustomBigInt dm) Uptime in
      if 0 <? up then
        let '(d, cs) := SetValueAndReturnDelta cs Uptime (uint64 up)%go in
        (<[AllDeviceInterface := cs]> ints, <[AllDeviceInterface := <[Uptime := d]> delta]> deltas)
      else poll_uptime l (ints, <[AllDeviceInterface := delta]> deltas)
  end.

(** ** Records *)

Definition baseMetricName (n : string) : string := strings_TrimSuffix n "_counter".

(** [oid[1:]]. *)
Definition tail1 (oid : string) : outcome string :=
  match oid with
  | "" => Panic "slice bounds out of range [1:0]"
  | String _ o => Ok o
  end.

(** The orders in which the maps of deltas are ranged over, the clock of the records, and the
    scripts. *)
Record Ranges := mkRanges {
  rg_interfaces : deltaMap -> list (string * gmap string Z);
  rg_metrics : gmap string Z -> list (string * Z);
  rg_scripts : gmap string Z -> list string;
  rg_unix : string -> Z
}.

Section Convert.
  Context `{Enricher} (im : InterfaceMetrics).

(** The body of the loop over the metrics of an interface. *)
Definition convert_metric (row : Row) (kv : string * Z) : outcome Row :=
  let '(ints, strs, metrics) := row in
  let '(k, v) := kv in
  let oid := default "" (nameOidMap im !! baseMetricName k) in
  o ← tail1 oid;
  let mib := oidMibMap im !! o in
  let strs := match mib ≫= mb_EnumRev with
              | Some rev => <[StringPrefix +:+ k := default InvalidEnum (rev !! (int64 v)%go)]> strs
              | None => strs
              end in
  let info := match mib with
              | Some mb =>
                  let format := if String.eqb (mb_Format mb) "" then CountMetric else mb_Format mb in
                  mkMetricInfo oid (mb_Mib mb) "" (im_profileName im) (mb_Table mb) format ""
                    (mb_PollDur mb) None
              | None => mkMetricInfo oid "" "" (im_profileName im) "" CountMetric "" 0 None
              end in
  Ok (<[k := (int64 v)%go]> ints, strs, <[k := info]> metrics).

Definition convert_script (strint : string) (row : Row) (k : string) : outcome Row :=
  o ← tail1 (default "" (nameOidMap im !! baseMetricName k));
  match oidMibMap im !! o ≫= mb_Script with
  | Some script => Ok (EnrichMetric script strint k row)
  | None => Ok row
  end.

(** The share of errors in the packets of one direction. *)
Definition error_percent (pkts errs pct : string) (row : Row) : outcome Row :=
  let '(ints, strs, metrics) := row in
  let n := default 0 (ints !! pkts) in
  if 0 <? n then
    match nameOidMap im !! errs with
    | None => Ok row
    | Some idi =>
        o ← tail1 idi;
        match oidMibMap im !! o with
        | None => Ok row
        | Some mb =>
            let q := float64_div (float64_of (default 0 (ints !! errs))) (float64_of n) in
            let p := int64_of_float (float64_mul q (float64_of 100)) in
            Ok (<[pct := p]> ints, strs,
                <[pct := mkMetricInfo "" (mb_Mib mb) "" (im_profileName im) (mb_Table mb)
                           GaugeMetric "" (mb_PollDur mb) None]> metrics)
        end
    end
  else Ok row.

(** The record of one interface. *)
Definition convert_interface (r : Ranges) (uptimeDelta : Z) (strint : string) (cs : gmap string Z) :
    outcome JCHF :=
  let strs : gmap string string :=
    if String.eqb (conf_Provider (im_conf im)) ProviderDefault
    then {[ "profile_message"%string := DefaultProfileMessage ]} else ∅ in
  row ← fold_out convert_metric (∅, strs, ∅) (rg_metrics r cs);
  row ← fold_out (convert_script strint) row (rg_scripts r cs);
  row ← error_percent SNMP_ifHCInUcastPkts SNMP_ifInErrors SNMP_ifInErrorsPercent row;
  row ← error_percent SNMP_ifHCOutUcastPkts SNMP_ifOutErrors SNMP_ifOutErrorsPercent row;
  let '(ints, strs, metrics) := row in
  let up := if 0 <? uptimeDelta then (int64 uptimeDelta)%go else tickDuration im in
  let port := (uint64 (Atoi_value strint))%go in
  Ok (set_CustomMetrics (Some metrics)
     (set_CustomBigInt (Some (<[Uptime := up]> ints))
     (set_CustomInt (Some ∅) (set_CustomStr (Some strs)
     (set_Timestamp (rg_unix r strint) (set_SrcAddr (conf_DeviceIP (im_conf im))
     (set_DeviceName (conf_DeviceName (im_conf im))
     (set_OutputPort port (set_InputPort port
     (set_Provider (conf_Provider (im_conf im))
     (set_EventType KENTIK_EVENT_SNMP_INT_METRIC NewJCHF))))))))))).

Definition convertToCHF (r : Ranges) (deltas : deltaMap) : outcome (list JCHF) :=
  let uptimeDelta := default 0 (deltas !! AllDeviceInterface ≫= lookup Uptime) in
  fold_out (fun flows '(strint, cs) =>
              if String.eqb strint AllDeviceInterface then Ok flows
              else dst ← convert_interface r uptimeDelta strint cs; Ok (flows ++ [dst]))
    [] (rg_interfaces r deltas).

(** [InterfaceMetrics.Poll]: the records and what is kept, also when a walk failed; [oids] is
    the order of the range over the objects. *)
Definition Poll (w : World) (r : Ranges) (oids : list (string * string))
    (lastDeviceMetrics : list JCHF) : InterfaceMetrics * outcome (list JCHF) :=
  let st := foldl (poll_oid w) (mkPollState (oidMibMap im) (intValues im, ∅) false) oids in
  if pst_err st then
    (set_intValues (pst_counts st).1 (set_oidMibMap (pst_mibs st) im), Err (Errorf "walk" []))
  else
    let '(ints, deltas) := poll_uptime lastDeviceMetrics (pst_counts st) in
    let im' := set_intValues ints (set_oidMibMap (pst_mibs st) im) in
    (im', convertToCHF r deltas).
End Convert.

(** ** Readings

    A poll is a run over its readings: the name, the kind and the value of every variable that
    belongs to an interface, in the order of the walks. *)

Record Reading := mkReading {
  rd_int : string;
  rd_name : string;
  rd_gauge : bool;
  rd_type : Asn1BER;
  rd_value : Z
}.

Definition readings_of (oid varName : string) (gauge : bool) (vs : list Variable_) : list Reading :=
  omap (fun v => i ← interface_of oid (var_Name v);
                 Some (mkReading i varName gauge (var_Type v) (big_Uint64 (var_Big v)))) vs.

Definition record_reading (st : counterSets * deltaMap) (rd : Reading) : counterSets * deltaMap :=
  poll_value (rd_name rd) (rd_gauge rd) (rd_int rd) (rd_type rd) (rd_value rd) st.

Lemma poll_variables oid varName gauge vs st :
  foldl (poll_variable oid varName gauge) st vs =
  foldl record_reading st (readings_of oid varName gauge vs).
Proof.
  revert st. induction vs as [|v vs IH]; intros st; [done|]. cbn. rewrite IH.
  unfold poll_variable. by destruct (interface_of oid (var_Name v)).
Qed.

(** The readings of the objects, the mibs after them, and whether a walk failed. *)
Fixpoint poll_readings (w : World) (mibs : gmap string Mib) (oids : list (string * string)) :
    list Reading * gmap string Mib * bool :=
  match oids with
  | [] => ([], mibs, false)
  | (oid, varName) :: oids' =>
      let mb := mibs !! sdrop 1 oid in
      let ready := match mb with Some mb => (IsPollReady (w_now w oid) mb).1 | None => true end in
      let mibs' := match mb with
                   | Some mb => <[sdrop 1 oid := (IsPollReady (w_now w oid) mb).2]> mibs
                   | None => mibs
                   end in
      if ready then
        match w_walk w oid with
        | None => ([], mibs', true)
        | Some vs =>
            let '(rds, mibs'', e) := poll_readings w mibs' oids' in
            (readings_of oid varName (is_gauge mb) vs ++ rds, mibs'', e)
        end
      else poll_readings w mibs' oids'
  end.

Lemma poll_oid_err w st oids : pst_err st = true -> foldl (poll_oid w) st oids = st.
Proof.
  intros H. induction oids as [|o oids IH]; [done|]. cbn.
  by assert (poll_oid w st o = st) as -> by (unfold poll_oid; by rewrite H).
Qed.

Lemma poll_oids w oids mibs cs :
  foldl (poll_oid w) (mkPollState mibs cs false) oids =
  let '(rds, mibs', e) := poll_readings w mibs oids in
  mkPollState mibs' (foldl record_reading cs rds) e.
Proof.
  revert mibs cs. induction oids as [|[oid varName] oids IH]; intros mibs cs; [done|].
  cbn [foldl poll_readings]. set (s := poll_oid w _ _). unfold poll_oid in s.
  cbn [pst_err pst_mibs pst_counts] in s. subst s.
  destruct (mibs !! sdrop 1 oid) as [mb|] eqn:E.
  - pose proof (IsPollReady_same (w_now w oid) mb) as (_ & _ & Hf).
    destruct (IsPollReady (w_now w oid) mb) as [[|] mb'] eqn:Er; cbn in *.
    + destruct (w_walk w oid) as [vs|]; [|by rewrite poll_oid_err].
      rewrite IH, poll_variables. destruct (poll_readings w _ oids) as [[rds mibs'] e].
      rewrite foldl_app. by rewrite Hf.
    + rewrite IH. done.
  - destruct (w_walk w oid) as [vs|]; [|by rewrite poll_oid_err].
    rewrite IH, poll_variables. destruct (poll_readings w _ oids) as [[rds mibs'] e].
    by rewrite foldl_app.
Qed.

(** ** One counter of one interface *)

Definition stored (ints : counterSets) (i n : string) : option Z :=
  cs ← ints !! i; Values cs !! n.
Definition delta_of (deltas : deltaMap) (i n : string) : option Z :=
  delta ← deltas !! i; delta !! n.
Definition counts_ok (ints : counterSets) : Prop := map_Forall (fun _ cs => counters_ok cs) ints.

Definition is_counter (rd : Reading) : Prop := rd_gauge rd = false /\ rd_type rd <> Integer.

(** The reading is not of the counter [n] of [i], and does not write a field of that name. *)
Definition elsewhere (i n : string) (rd : Reading) : Prop :=
  rd_int rd = i -> rd_name rd <> n /\ rd_name rd +:+ "_counter" <> n.

Lemma assure_lookup {A} (new : A) m k k' :
  (assure new m k).2 !! k' = if decide (k' = k) then Some (assure new m k).1 else m !! k'.
Proof.
  unfold assure. destruct (m !! k) eqn:E; cbn; case_decide; subst; simplify_map_eq; done.
Qed.

Lemma assure_counts ints i :
  counts_ok ints -> counters_ok (assure (NewCounterSetWithId i) ints i).1 /\
                    counts_ok (assure (NewCounterSetWithId i) ints i).2.
Proof.
  intros H. assert (counters_ok (NewCounterSetWithId i)) as Hn by apply map_Forall_empty.
  unfold assure. destruct (ints !! i) eqn:E; cbn; [split; [by eapply H|done]|].
  split; [done|]. by apply map_Forall_insert_2.
Qed.

Lemma record_reading_ok st rd :
  counts_ok st.1 -> in_range 64 (rd_value rd) -> counts_ok (record_reading st rd).1.
Proof.
  intros H Hv. destruct rd as [i n g t v]. cbn in Hv. unfold record_reading, poll_value. cbn [rd_int rd_name rd_gauge rd_type rd_value].
  destruct (assure_counts st.1 i H) as [H1 H2].
  destruct (assure (NewCounterSetWithId i) st.1 i) as [cs ints], (assure ∅ st.2 i) as [delta deltas].
  cbn in H1, H2. destruct g; [done|].
  assert (counts_ok (<[i := mkCounterSet (<[n:=v]> (Values cs)) (IntId cs)]> ints)) as H3.
  { apply map_Forall_insert_2; [|done]. by apply (SetValue_ok cs n v). }
  by destruct t.
Qed.

Lemma stored_assure ints i i' n :
  stored (assure (NewCounterSetWithId i) ints i).2 i' n = stored ints i' n.
Proof.
  unfold stored. rewrite assure_lookup. unfold assure. case_decide; [subst|done].
  by destruct (ints !! i).
Qed.

Lemma delta_of_assure deltas i i' n : delta_of (assure ∅ deltas i).2 i' n = delta_of deltas i' n.
Proof.
  unfold delta_of. rewrite assure_lookup. unfold assure. case_decide; [subst|done].
  by destruct (deltas !! i).
Qed.

Lemma stored_insert ints i cs i' n :
  stored (<[i := cs]> ints) i' n = if decide (i' = i) then Values cs !! n else stored ints i' n.
Proof. unfold stored. case_decide; subst; by simplify_map_eq. Qed.

Lemma delta_of_insert deltas i m i' n :
  delta_of (<[i := m]> deltas) i' n = if decide (i' = i) then m !! n else delta_of deltas i' n.
Proof. unfold delta_of. case_decide; subst; by simplify_map_eq. Qed.

Lemma stored_fst ints i n :
  stored ints i n = Values (assure (NewCounterSetWithId i) ints i).1 !! n.
Proof. unfold stored, assure. by destruct (ints !! i). Qed.

Lemma delta_of_fst deltas i n : delta_of deltas i n = (assure ∅ deltas i).1 !! n.
Proof. unfold delta_of, assure. by destruct (deltas !! i). Qed.

Lemma record_elsewhere st rd i n :
  elsewhere i n rd ->
  stored (record_reading st rd).1 i n = stored st.1 i n /\
  delta_of (record_reading st rd).2 i n = delta_of st.2 i n.
Proof.
  unfold elsewhere. destruct rd as [i' n' g t v]. intros He. unfold record_reading, poll_value.
  cbn [rd_int rd_name rd_gauge rd_type rd_value] in *.
  pose proof (stored_assure st.1 i' i n) as Hs. pose proof (delta_of_assure st.2 i' i n) as Hd.
  pose proof (stored_fst st.1 i' n) as Hs1. pose proof (delta_of_fst st.2 i' n) as Hd1.
  destruct (assure (NewCounterSetWithId i') st.1 i') as [cs ints], (assure ∅ st.2 i') as [delta deltas].
  cbn [fst snd] in *. cbn.
  destruct g; [|destruct t]; cbn [fst snd]; rewrite ?stored_insert, ?delta_of_insert, ?Hs, ?Hd;
    (case_decide as Hi; [subst i'; destruct (He eq_refl) as [H1 H2]; cbn; simplify_map_eq; done|done]).
Qed.

Lemma record_counter st rd :
  is_counter rd -> counts_ok st.1 -> in_range 64 (rd_value rd) ->
  stored (record_reading st rd).1 (rd_int rd) (rd_name rd) = Some (rd_value rd) /\
  delta_of (record_reading st rd).2 (rd_int rd) (rd_name rd) =
    Some (growth (stored st.1 (rd_int rd) (rd_name rd)) (rd_value rd)).
Proof.
  destruct rd as [i n g t v]. intros [Hg Ht] Hok Hv. unfold record_reading, poll_value.
  cbn [rd_int rd_name rd_gauge rd_type rd_value] in *.
  pose proof (assure_counts st.1 i Hok) as [H1 H2]. pose proof (stored_fst st.1 i n) as Hs.
  destruct (assure (NewCounterSetWithId i) st.1 i) as [cs ints], (assure ∅ st.2 i) as [delta deltas].
  cbn [fst snd] in *. subst g. rewrite Hs, <- (GetDelta_growth cs n v) by done.
  destruct t; [done|..]; cbn [SetValueAndReturnDelta fst snd]; rewrite stored_insert, delta_of_insert;
    rewrite !decide_True by done; cbn; by simplify_map_eq.
Qed.

(** Among the readings the counter [n] of [i] is read once, as [v]. *)
Definition once (i n : string) (v : Z) (rds : list Reading) : Prop :=
  exists pre rd post, rds = pre ++ rd :: post /\ Forall (elsewhere i n) (pre ++ post) /\
    rd_int rd = i /\ rd_name rd = n /\ rd_value rd = v /\ is_counter rd.

Lemma record_all_elsewhere rds st i n :
  Forall (elsewhere i n) rds ->
  stored (foldl record_reading st rds).1 i n = stored st.1 i n /\
  delta_of (foldl record_reading st rds).2 i n = delta_of st.2 i n.
Proof.
  revert st. induction rds as [|rd rds IH]; intros st H; [done|]. apply Forall_cons in H as [H1 H2].
  cbn. destruct (IH (record_reading st rd) H2) as [-> ->]. by apply record_elsewhere.
Qed.

Abbreviation values_ok := (Forall (fun rd => in_range 64 (rd_value rd))).

Lemma record_all_ok rds st :
  counts_ok st.1 -> values_ok rds -> counts_ok (foldl record_reading st rds).1.
Proof.
  revert st. induction rds as [|rd rds IH]; intros st H Hr; [done|]. apply Forall_cons in Hr as [H1 H2].
  cbn. apply IH; [|done]. by apply record_reading_ok.
Qed.

Lemma record_once rds st i n v :
  once i n v rds -> counts_ok st.1 -> values_ok rds ->
  stored (foldl record_reading st rds).1 i n = Some v /\
  delta_of (foldl record_reading st rds).2 i n = Some (growth (stored st.1 i n) v).
Proof.
  intros (pre & rd & post & -> & He & <- & <- & <- & Hc) Hok Hv. apply Forall_app in He as [H1 H2], Hv as [Hv1 Hv2].
  apply Forall_cons in Hv2 as [Hv2 Hv3]. rewrite foldl_app. cbn [foldl].
  destruct (record_all_elsewhere post (record_reading (foldl record_reading st pre) rd)
              (rd_int rd) (rd_name rd) H2) as [-> ->].
  destruct (record_all_elsewhere pre st (rd_int rd) (rd_name rd) H1) as [Hs _]. rewrite <- Hs.
  apply record_counter; [done|by apply record_all_ok|done].
Qed.

Lemma big_Uint64_range z : in_range 64 (big_Uint64 z).
Proof. by apply wrap_range. Qed.

Lemma readings_of_ok oid n g vs : values_ok (readings_of oid n g vs).
Proof.
  induction vs as [|v vs IH]; [done|]. cbn. destruct (interface_of oid (var_Name v)); [|done].
  constructor; [apply big_Uint64_range|done].
Qed.

Lemma poll_readings_ok w oids mibs : values_ok (poll_readings w mibs oids).1.1.
Proof.
  revert mibs. induction oids as [|[oid n] oids IH]; intros mibs; [constructor|].
  cbn [poll_readings]. destruct (match mibs !! _ with Some _ => _ | None => true end); [|apply IH].
  destruct (w_walk w oid); [|constructor].
  match goal with |- context [poll_readings w ?m oids] =>
    specialize (IH m); destruct (poll_readings w m oids) as [[rds mibs''] e] end.
  apply Forall_app. split; [apply readings_of_ok|done].
Qed.

(** The uptime leaves every interface alone. *)
Lemma poll_uptime_spec dms st :
  (forall i n, i <> AllDeviceInterface ->
     stored (poll_uptime dms st).1 i n = stored st.1 i n /\
     (poll_uptime dms st).2 !! i = st.2 !! i) /\
  (counts_ok st.1 -> counts_ok (poll_uptime dms st).1).
Proof.
  revert st. induction dms as [|dm dms IH]; intros st; [done|]. cbn [poll_uptime].
  assert (forall i n, i <> AllDeviceInterface ->
    stored (assure (NewCounterSetWithId AllDeviceInterface) st.1 AllDeviceInterface).2 i n = stored st.1 i n /\
    (assure ∅ st.2 AllDeviceInterface).2 !! i = st.2 !! i) as Ha.
  { intros i n Hi. split; [apply stored_assure|]. rewrite assure_lookup. by case_decide. }
  pose proof (assure_counts st.1 AllDeviceInterface) as Hok.
  destruct (assure (NewCounterSetWithId AllDeviceInterface) st.1 _) as [cs ints],
    (assure ∅ st.2 AllDeviceInterface) as [delta deltas]. cbn [fst snd] in *.
  set (up := gomap_get _ _ _). destruct (0 <? up).
  - cbn [SetValueAndReturnDelta fst snd]. split.
    + intros i n Hi. destruct (Ha i n Hi) as [H1 H2].
      rewrite stored_insert, decide_False by done. by rewrite lookup_insert_ne.
    + intros H. destruct (Hok H) as [H1 H2]. apply map_Forall_insert_2; [|done].
      apply (SetValue_ok cs); [done|]. by apply wrap_range.
  - specialize (IH (ints, <[AllDeviceInterface := delta]> deltas)). destruct IH as [H1 H2]. split.
    + intros i n Hi. destruct (Ha i n Hi) as [H3 H4]. destruct (H1 i n Hi) as [-> ->]. cbn.
      by rewrite lookup_insert_ne.
    + intros H. apply H2. by apply Hok.
Qed.

(** ** The records of a poll *)

Lemma substring_app a b : String.substring 0 (String.length a) (a +:+ b) = a.
Proof.
  induction a as [|c a IH]; [by destruct b|]. change (String c a +:+ b) with (String c (a +:+ b)).
  cbn. by rewrite IH.
Qed.

Lemma TrimSuffix_app a b : strings_TrimSuffix (a +:+ b) b = a.
Proof.
  unfold strings_TrimSuffix, HasSuffix. rewrite srev_app, prefix_self, slength_app.
  replace (_ - _)%nat with (String.length a) by lia. apply substring_app.
Qed.

(** A name that its own metric and the raw counter beside it lead back to. *)
Definition plain_name (n : string) : Prop := HasSuffix n "_counter" = false.

Lemma base_of n k : plain_name n -> k = n \/ k = n +:+ "_counter" -> baseMetricName k = n.
Proof.
  intros Hn [->| ->]; unfold baseMetricName; [|apply TrimSuffix_app].
  unfold strings_TrimSuffix. by rewrite Hn.
Qed.

(** The fields of an interface come from names in [N]. *)
Definition named (N : string -> Prop) (delta : gmap string Z) : Prop :=
  forall k, k ∈ dom delta -> exists n, N n /\ (k = n \/ k = n +:+ "_counter").
Definition all_named (N : string -> Prop) (deltas : deltaMap) : Prop :=
  map_Forall (fun _ delta => named N delta) deltas.

Lemma named_insert N k v delta :
  named N delta -> (exists n, N n /\ (k = n \/ k = n +:+ "_counter")) -> named N (<[k := v]> delta).
Proof. intros H Hk k'. rewrite dom_insert, elem_of_union, elem_of_singleton. intros [->|?]; [done|by apply H]. Qed.

Lemma record_named N st rd :
  all_named N st.2 -> N (rd_name rd) -> all_named N (record_reading st rd).2.
Proof.
  destruct rd as [i n g t v]. intros H Hn. cbn in Hn. unfold record_reading, poll_value.
  cbn [rd_int rd_name rd_gauge rd_type rd_value].
  assert (named N (assure ∅ st.2 i).1 /\ all_named N (assure ∅ st.2 i).2) as [H1 H2].
  { assert (named N ∅) as H0 by (intros k Hk; set_solver). unfold assure. destruct (st.2 !! i) eqn:E; cbn.
    - split; [by eapply H|done].
    - split; [done|by apply map_Forall_insert_2]. }
  destruct (assure (NewCounterSetWithId i) st.1 i) as [cs ints], (assure ∅ st.2 i) as [delta deltas].
  cbn [fst snd] in *.
  assert (named N (<[n := v]> delta)) by (apply named_insert; [done|]; exists n; by auto).
  assert (forall d, named N (<[n := d]> (<[(n +:+ "_counter") := v]> delta))).
  { intros d. apply named_insert; [|exists n; by auto]. apply named_insert; [done|]. exists n; by auto. }
  destruct g; [by apply map_Forall_insert_2|]. destruct t; cbn; by apply map_Forall_insert_2.
Qed.

Lemma record_all_named N rds st :
  all_named N st.2 -> Forall (fun rd => N (rd_name rd)) rds -> all_named N (foldl record_reading st rds).2.
Proof.
  revert st. induction rds as [|rd rds IH]; intros st H Hr; [done|]. apply Forall_cons in Hr as [H1 H2].
  cbn. apply IH; [|done]. by apply record_named.
Qed.

Lemma readings_of_names oid n g vs : Forall (fun rd => rd_name rd = n) (readings_of oid n g vs).
Proof.
  induction vs as [|v vs IH]; [constructor|]. cbn. destruct (interface_of oid (var_Name v)); [|done].
  by constructor.
Qed.

Lemma poll_readings_names w oids mibs :
  Forall (fun rd => rd_name rd ∈ oids.*2) (poll_readings w mibs oids).1.1.
Proof.
  revert mibs. induction oids as [|[oid n] oids IH]; intros mibs; [constructor|].
  assert (forall rds, Forall (fun rd => rd_name rd ∈ oids.*2) rds ->
            Forall (fun rd => rd_name rd ∈ (oid, n).2 :: oids.*2) rds) as Hw.
  { intros rds Hr. eapply Forall_impl; [exact Hr|]. intros rd Hrd. by right. }
  cbn [poll_readings]. rewrite fmap_cons.
  destruct (match mibs !! _ with Some _ => _ | None => true end); [|by apply Hw].
  destruct (w_walk w oid); [|constructor].
  match goal with |- context [poll_readings w ?m oids] =>
    specialize (IH m); destruct (poll_readings w m oids) as [[rds mibs''] e] end.
  apply Forall_app. split; [|by apply Hw]. eapply Forall_impl; [apply readings_of_names|].
  intros rd ->. by left.
Qed.

(** The range orders list the maps they are given. *)
Record fair (r : Ranges) : Prop := {
  fair_interfaces : forall m, rg_interfaces r m ≡ₚ map_to_list m;
  fair_metrics : forall m, rg_metrics r m ≡ₚ map_to_list m;
  fair_scripts : forall m, rg_scripts r m ≡ₚ (map_to_list m).*1
}.

Section Records.
  Context `{Enricher} (im : InterfaceMetrics).

(** Every name leads to an object. *)
Definition known (n : string) : Prop := exists c o, nameOidMap im !! n = Some (String c o) /\ plain_name n.

Lemma convert_metric_ok row k v n :
  known n -> k = n \/ k = n +:+ "_counter" ->
  exists row', convert_metric im row (k, v) = Ok row' /\ row'.1.1 = <[k := (int64 v)%go]> row.1.1.
Proof.
  intros (c & o & Hn & Hp) Hk. destruct row as [[ints strs] metrics]. unfold convert_metric.
  rewrite (base_of n k Hp Hk), Hn. cbn [default tail1 mbind outcome_bind]. cbn.
  eexists. split; [done|]. done.
Qed.

Lemma convert_metrics_ok kvs row :
  Forall (fun kv => exists n, known n /\ (kv.1 = n \/ kv.1 = n +:+ "_counter")) kvs -> NoDup kvs.*1 ->
  exists row', fold_out (convert_metric im) row kvs = Ok row' /\
    forall k, row'.1.1 !! k = match (list_to_map kvs : gmap string Z) !! k with
                              | Some v => Some (int64 v)%go
                              | None => row.1.1 !! k
                              end.
Proof.
  revert row. induction kvs as [|[k v] kvs IH]; intros row Hk Hnd; [by exists row|].
  apply Forall_cons in Hk as [(n & Hn & Hk) Hks]. rewrite fmap_cons in Hnd. apply NoDup_cons in Hnd as [Hk1 Hnd].
  destruct (convert_metric_ok row k v n Hn Hk) as (row1 & E1 & Hr1). cbn [fold_out]. rewrite E1.
  cbn [mbind outcome_bind]. destruct (IH row1 Hks Hnd) as (row' & -> & Hr'). exists row'. split; [done|].
  intros k'. rewrite Hr', Hr1. cbn. destruct (decide (k' = k)) as [->|Hne].
  - rewrite (not_elem_of_list_to_map_1 kvs k Hk1). by simplify_map_eq.
  - by rewrite !lookup_insert_ne by done.
Qed.

(** A script may rewrite a row, but not the field [n]. *)
Definition scripts_keep (n : string) : Prop :=
  forall o mb s i k row, oidMibMap im !! o = Some mb -> mb_Script mb = Some s ->
    (EnrichMetric s i k row).1.1 !! n = row.1.1 !! n.

Lemma convert_scripts_ok i ks row :
  Forall (fun k => exists n, known n /\ (k = n \/ k = n +:+ "_counter")) ks ->
  exists row', fold_out (convert_script im i) row ks = Ok row' /\
    forall n, scripts_keep n -> row'.1.1 !! n = row.1.1 !! n.
Proof.
  revert row. induction ks as [|k ks IH]; intros row Hks; [by exists row|].
  apply Forall_cons in Hks as [(n' & (c & o & Hn & Hp) & Hk) Hks]. cbn [fold_out].
  assert (exists row1, convert_script im i row k = Ok row1 /\
    forall n, scripts_keep n -> row1.1.1 !! n = row.1.1 !! n) as (row1 & -> & H1).
  { unfold convert_script. rewrite (base_of n' k Hp Hk), Hn. cbn.
    destruct (oidMibMap im !! o) as [mb|] eqn:Em; cbn; [|by eexists].
    destruct (mb_Script mb) as [s|] eqn:Es; eexists; (split; [done|]); [|done].
    intros n Hsk. by eapply Hsk. }
  cbn. destruct (IH row1 Hks) as (row' & -> & H2). exists row'. split; [done|].
  intros n Hsk. by rewrite H2, H1.
Qed.

Lemma error_percent_ok pkts errs pct row :
  map_Forall (fun _ oid => oid <> "") (nameOidMap im) ->
  exists row', error_percent im pkts errs pct row = Ok row' /\
    forall n, n <> pct -> row'.1.1 !! n = row.1.1 !! n.
Proof.
  intros Hne. destruct row as [[ints strs] metrics]. unfold error_percent.
  destruct (0 <? _); [|by eexists]. destruct (nameOidMap im !! errs) as [idi|] eqn:E; [|by eexists].
  destruct idi as [|c o]; [by apply Hne in E|]. cbn. destruct (oidMibMap im !! o); cbn; [|by eexists].
  eexists. split; [done|]. intros n Hn. cbn. by rewrite lookup_insert_ne.
Qed.

(** The fields that a record has besides its metrics. *)
Definition special (n : string) : Prop :=
  n = SNMP_ifInErrorsPercent \/ n = SNMP_ifOutErrorsPercent \/ n = Uptime.

(** [kt.IfaceID] of the number of an interface. *)
Definition port_of (i : string) : Z := (uint64 (Atoi_value i))%go.

(** The record of an interface is made, and a metric shows in it as it was measured. *)
Lemma convert_interface_ok r up i cs :
  fair r -> map_Forall (fun _ oid => oid <> "") (nameOidMap im) -> named known cs ->
  exists j, convert_interface im r up i cs = Ok j /\ InputPort j = port_of i /\
    forall n, ~ special n -> scripts_keep n ->
      gomap_find (CustomBigInt j) n = swrap 64 <$> cs !! n.
Proof.
  intros Hf Hne Hcs. unfold convert_interface. set (strs := if String.eqb _ _ then _ else _).
  assert (forall k, k ∈ (map_to_list cs).*1 -> exists n, known n /\ (k = n \/ k = n +:+ "_counter")) as Hk.
  { intros k Hk. apply Hcs. apply list_elem_of_fmap in Hk as ([k' v] & -> & Hk).
    apply elem_of_map_to_list in Hk. cbn. by eapply elem_of_dom_2. }
  destruct (convert_metrics_ok (rg_metrics r cs) (∅, strs, ∅)) as (row1 & -> & H1).
  { apply Forall_forall. intros [k v] Hin. rewrite fair_metrics in Hin by done. apply Hk.
    apply list_elem_of_fmap. by exists (k, v). }
  { rewrite fair_metrics by done. apply NoDup_fst_map_to_list. }
  rewrite (list_to_map_proper (rg_metrics r cs) (map_to_list cs)), list_to_map_to_list in H1;
    [|rewrite fair_metrics by done; apply NoDup_fst_map_to_list|by apply fair_metrics].
  cbn [mbind outcome_bind].
  destruct (convert_scripts_ok i (rg_scripts r cs) row1) as (row2 & -> & H2).
  { apply Forall_forall. intros k Hin. rewrite fair_scripts in Hin by done. by apply Hk. }
  cbn [mbind outcome_bind].
  destruct (error_percent_ok SNMP_ifHCInUcastPkts SNMP_ifInErrors SNMP_ifInErrorsPercent row2 Hne)
    as (row3 & -> & H3). cbn [mbind outcome_bind].
  destruct (error_percent_ok SNMP_ifHCOutUcastPkts SNMP_ifOutErrors SNMP_ifOutErrorsPercent row3 Hne)
    as (row4 & -> & H4). cbn [mbind outcome_bind].
  destruct row4 as [[ints strs'] metrics]. cbn [fst] in H4. eexists. split; [done|]. split; [done|].
  intros n Hs Hsk. unfold special in Hs. change (gomap_find _ n) with (<[Uptime := if 0 <? up then (int64 up)%go else tickDuration im]> ints !! n).
  rewrite lookup_insert_ne by naive_solver. rewrite (H4 n), (H3 n), (H2 n), (H1 n) by naive_solver.
  cbn. by destruct (cs !! n).
Qed.

(** Every interface but the device gets its record. *)
Lemma convertToCHF_ok r deltas :
  fair r -> map_Forall (fun _ oid => oid <> "") (nameOidMap im) ->
  (forall i cs, i <> AllDeviceInterface -> deltas !! i = Some cs -> named known cs) ->
  exists flows, convertToCHF im r deltas = Ok flows /\
    forall i cs, i <> AllDeviceInterface -> deltas !! i = Some cs ->
      exists j, j ∈ flows /\ InputPort j = port_of i /\
        forall n, ~ special n -> scripts_keep n -> gomap_find (CustomBigInt j) n = swrap 64 <$> cs !! n.
Proof.
  intros Hf Hne Hnm. unfold convertToCHF. set (up := default 0 _). set (step := fun flows _ => _).
  assert (forall l flows, (forall i cs, (i, cs) ∈ l -> i <> AllDeviceInterface -> named known cs) ->
    exists more, fold_out step flows l = Ok (flows ++ more) /\
      forall i cs, (i, cs) ∈ l -> i <> AllDeviceInterface -> exists j, j ∈ more /\ convert_interface im r up i cs = Ok j) as Hl.
  { induction l as [|[i cs] l IH]; intros flows Hin.
    { exists []. rewrite app_nil_r. split; [done|]. intros i cs Hi. by apply elem_of_nil in Hi. }
    cbn [fold_out]. assert (step flows (i, cs) = if String.eqb i AllDeviceInterface then Ok flows else
      dst ← convert_interface im r up i cs; Ok (flows ++ [dst])) as -> by done.
    destruct (String.eqb_spec i AllDeviceInterface) as [->|Hi]; cbn [mbind outcome_bind].
    - destruct (IH flows) as (more & -> & Hm); [intros; by eapply Hin; [right|]|]. exists more. split; [done|].
      intros i cs' Hel Hi. apply elem_of_cons in Hel as [Heq|Hel]; [congruence|by apply Hm].
    - destruct (convert_interface_ok r up i cs Hf Hne) as (j & Hj & _); [by apply (Hin i); [left|]|].
      rewrite Hj. cbn [mbind outcome_bind].
      destruct (IH (flows ++ [j])) as (more & -> & Hm); [intros; by eapply Hin; [right|]|].
      exists (j :: more). rewrite <- app_assoc. split; [done|]. intros i' cs' Hel Hi'.
      apply elem_of_cons in Hel as [Heq|Hel]; [injection Heq as -> ->; exists j; split; [by left|done]|].
      destruct (Hm i' cs' Hel Hi') as (j' & Hj' & E). exists j'. split; [by right|done]. }
  destruct (Hl (rg_interfaces r deltas) []) as (flows & -> & Hm).
  { intros i cs Hin Hi. rewrite fair_interfaces in Hin by done. apply elem_of_map_to_list in Hin. by eapply Hnm. }
  exists flows. split; [done|]. intros i cs Hi Hd.
  destruct (Hm i cs) as (j & Hj & E); [rewrite fair_interfaces by done; by apply elem_of_map_to_list|done|].
  exists j. split; [done|]. destruct (convert_interface_ok r up i cs Hf Hne (Hnm i cs Hi Hd)) as (j' & E' & Hp).
  rewrite E in E'. by injection E' as <-.
Qed.
End Records.

(** ** The invariant of the poller's state *)

Record im_ok (im : InterfaceMetrics) : Prop := {
  ok_counts : counts_ok (intValues im);
  ok_names : map_Forall (fun _ n => known im n) (oidMap im);
  ok_oids : map_Forall (fun _ oid => oid <> "") (nameOidMap im)
}.

Lemma make_oidMap_dotted profile oid n :
  make_oidMap profile !! oid = Some n -> exists o, oid = "." +:+ o.
Proof.
  unfold make_oidMap. assert (forall m : gmap string string,
    (forall oid n, m !! oid = Some n -> exists o, oid = "." +:+ o) ->
    foldl (fun m '(oid, mb) => <[dotted oid := GetName (Some mb)]> m) m profile !! oid = Some n ->
    exists o, oid = "." +:+ o) as Hg; [|by apply Hg].
  induction profile as [|[k mb] l IH]; intros m Hm; cbn; [apply Hm|]. apply IH.
  intros oid' n'. destruct (decide (oid' = dotted k)) as [->|Hne]; [|rewrite lookup_insert_ne by done; apply Hm].
  intros _. unfold dotted. destruct (HasPrefix k ".") eqn:E; [|by exists k].
  by apply prefix_spec in E.
Qed.

Lemma make_nameOidMap_spec oids n :
  (n ∈ oids.*2 -> is_Some (make_nameOidMap oids !! n)) /\
  (forall k, make_nameOidMap oids !! n = Some k -> (k, n) ∈ oids).
Proof.
  unfold make_nameOidMap. induction oids as [|[k v] oids IH] using rev_ind.
  { split; [intros Hn; by apply elem_of_nil in Hn|]. intros k E. cbn in E. by rewrite lookup_empty in E. }
  destruct IH as [IH1 IH2]. rewrite foldl_app. cbn. rewrite fmap_app. destruct (decide (v = n)) as [->|Hne].
  - rewrite lookup_insert_eq. split; [by eexists|]. intros k' [= ->]. rewrite elem_of_app. right. by left.
  - rewrite lookup_insert_ne by done. split.
    + intros Hin. apply IH1. rewrite elem_of_app in Hin. destruct Hin as [Hin|Hin]; [done|].
      apply list_elem_of_singleton in Hin. cbn in Hin. congruence.
    + intros k' E. rewrite elem_of_app. left. by apply IH2.
Qed.

(** A poller that is made from a profile is well formed when no name ends like the raw value of
    a counter. *)
Lemma New_ok conf profile oids pname tick :
  oids ≡ₚ map_to_list (make_oidMap profile) ->
  map_Forall (fun _ n => plain_name n) (make_oidMap profile) ->
  im_ok (NewInterfaceMetrics conf profile oids pname tick).
Proof.
  intros Ho Hp. constructor; cbn; [apply map_Forall_empty| |].
  - intros oid n E. unfold known. cbn.
    destruct (make_nameOidMap_spec oids n) as [H1 H2]. destruct H1 as [k Hk].
    { rewrite Ho. apply list_elem_of_fmap. exists (oid, n). split; [done|]. by apply elem_of_map_to_list. }
    pose proof (H2 k Hk) as Hin. rewrite Ho in Hin. apply elem_of_map_to_list in Hin.
    destruct (make_oidMap_dotted _ _ _ Hin) as [o ->]. eexists _, o. split; [done|].
    exact (Hp _ _ E).
  - intros n k E -> . destruct (make_nameOidMap_spec oids n) as [_ H2]. pose proof (H2 _ E) as Hin.
    rewrite Ho in Hin. apply elem_of_map_to_list in Hin. by destruct (make_oidMap_dotted _ _ _ Hin) as [o ?].
Qed.

Lemma poll_readings_scripts w oids mibs o mb' :
  (poll_readings w mibs oids).1.2 !! o = Some mb' ->
  exists mb, mibs !! o = Some mb /\ mb_Script mb' = mb_Script mb.
Proof.
  revert mibs mb'. induction oids as [|[oid n] oids IH]; intros mibs mb'; [by exists mb'|].
  cbn [poll_readings].
  assert (forall mb', match mibs !! sdrop 1 oid with
                 | Some mb => <[sdrop 1 oid := (IsPollReady (w_now w oid) mb).2]> mibs
                 | None => mibs
                 end !! o = Some mb' -> exists mb, mibs !! o = Some mb /\ mb_Script mb' = mb_Script mb) as Hm.
  { intros mb1. destruct (mibs !! sdrop 1 oid) as [mb|] eqn:E; [|by exists mb1].
    destruct (decide (o = sdrop 1 oid)) as [->|Hne].
    - rewrite lookup_insert_eq. intros [= <-]. exists mb. split; [done|].
      unfold IsPollReady. by repeat destruct (Z.ltb _ _), (Z.eqb _ _).
    - rewrite lookup_insert_ne by done. by exists mb1. }
  set (mibs1 := match mibs !! _ with Some _ => <[_ := _]> mibs | None => mibs end) in *.
  assert ((poll_readings w mibs1 oids).1.2 !! o = Some mb' ->
    exists mb, mibs !! o = Some mb /\ mb_Script mb' = mb_Script mb) as Hrest.
  { intros E. destruct (IH _ _ E) as (mb1 & E1 & ->). by apply Hm. }
  destruct (match mibs !! _ with Some _ => (IsPollReady _ _).1 | None => true end); [|done].
  destruct (w_walk w oid); [|apply Hm]. by destruct (poll_readings w mibs1 oids) as [[rds mibs''] e].
Qed.

Section Poll.
  Context `{Enricher} (im : InterfaceMetrics) (w : World) (r : Ranges).
  Context (oids : list (string * string)) (dms : list JCHF).
  Context (Hok : im_ok im) (Hf : fair r) (Ho : oids ≡ₚ map_to_list (oidMap im)).

Lemma Poll_unfold :
  Poll im w r oids dms =
  let '(rds, mibs', e) := poll_readings w (oidMibMap im) oids in
  let st := foldl record_reading (intValues im, ∅) rds in
  if e then (set_intValues st.1 (set_oidMibMap mibs' im), Err (Errorf "walk" []))
  else (set_intValues (poll_uptime dms st).1 (set_oidMibMap mibs' im), convertToCHF im r (poll_uptime dms st).2).
Proof using Type.
  unfold Poll. rewrite poll_oids. destruct (poll_readings w _ oids) as [[rds mibs'] [|]]; cbn; [done|].
  by destruct (poll_uptime dms _).
Qed.

Lemma Poll_ok : im_ok (Poll im w r oids dms).1.
Proof using Hok.
  rewrite Poll_unfold. pose proof (poll_readings_ok w oids (oidMibMap im)) as Hv.
  destruct (poll_readings w _ oids) as [[rds mibs'] e]. cbn in Hv.
  pose proof (record_all_ok rds (intValues im, ∅) (ok_counts _ Hok) Hv) as Hc.
  destruct Hok as [_ Hn Hd]. destruct e; cbn; (constructor; [|exact Hn|exact Hd]); [exact Hc|].
  by apply poll_uptime_spec.
Qed.

Lemma Poll_scripts n : scripts_keep im n -> scripts_keep (Poll im w r oids dms).1 n.
Proof using Type.
  intros Hs. rewrite Poll_unfold. pose proof (fun o mb' => poll_readings_scripts w oids (oidMibMap im) o mb') as Hm.
  destruct (poll_readings w _ oids) as [[rds mibs'] e]. cbn [fst snd] in Hm.
  assert (scripts_keep (set_oidMibMap mibs' im) n) as Hk; [|by destruct e].
  intros o mb s i k row Eo Es. destruct (Hm _ _ Eo) as (mb0 & E0 & E1). rewrite E1 in Es. by eapply Hs.
Qed.

(** A poll without an error makes its records, and the record of an interface carries what a
    counter grew since it was read last. *)
Lemma Poll_spec :
  (poll_readings w (oidMibMap im) oids).2 = false ->
  exists flows, (Poll im w r oids dms).2 = Ok flows /\
    forall i n v, i <> AllDeviceInterface -> ~ special n -> scripts_keep im n ->
      once i n v (poll_readings w (oidMibMap im) oids).1.1 ->
      stored (intValues (Poll im w r oids dms).1) i n = Some v /\
      exists j, j ∈ flows /\ InputPort j = port_of i /\
        gomap_find (CustomBigInt j) n = Some (swrap 64 (growth (stored (intValues im) i n) v)).
Proof using Hok Hf Ho.
  intros He. rewrite Poll_unfold. pose proof (poll_readings_ok w oids (oidMibMap im)) as Hv.
  pose proof (poll_readings_names w oids (oidMibMap im)) as Hnm.
  destruct (poll_readings w _ oids) as [[rds mibs'] e]. cbn [fst snd] in *. subst e.
  set (st := foldl record_reading _ rds). destruct (poll_uptime_spec dms st) as [Hu _].
  destruct (convertToCHF_ok im r (poll_uptime dms st).2 Hf (ok_oids _ Hok)) as (flows & -> & Hj).
  { intros i cs Hi E. destruct (Hu i "" Hi) as [_ E']. rewrite E' in E. revert E.
    apply (record_all_named (known im) rds (intValues im, ∅)); [apply map_Forall_empty|].
    eapply Forall_impl; [exact Hnm|]. intros rd Hin. cbn in Hin. rewrite Ho in Hin.
    apply list_elem_of_fmap in Hin as ([oid n] & -> & Hin). apply elem_of_map_to_list in Hin.
    cbn. by eapply (ok_names _ Hok). }
  exists flows. split; [done|]. intros i n v Hi Hs Hsk Ho'. destruct (Hu i n Hi) as [Hst Hd].
  destruct (record_once rds (intValues im, ∅) i n v Ho' (ok_counts _ Hok) Hv) as [H1 H2].
  fold st in H1, H2. cbn [fst snd]. change (intValues (set_intValues ?x _)) with x. rewrite Hst. split; [done|].
  unfold delta_of in H2. destruct (st.2 !! i) as [cs|] eqn:E; [|done]. cbn in H2.
  destruct (Hj i cs Hi) as (j & Hj1 & Hj2 & Hj3); [by rewrite Hd|]. exists j. split; [done|]. split; [done|].
  rewrite (Hj3 n Hs Hsk), H2. done.
Qed.

(** A poll in which a walk failed returns the error. *)
Lemma Poll_error :
  (poll_readings w (oidMibMap im) oids).2 = true -> (Poll im w r oids dms).2 = Err (Errorf "walk" []).
Proof using Type. intros He. rewrite Poll_unfold. destruct (poll_readings w _ oids) as [[rds mibs'] e]. cbn in He. by subst e. Qed.
End Poll.

(** ** Panics *)

(** A loop panics when one of its steps does and no step does anything else but go on. *)
Lemma fold_out_panics {S A} (f : S -> A -> outcome S) why l s x :
  (forall s x, (exists s', f s x = Ok s') \/ f s x = Panic why) ->
  x ∈ l -> (forall s, f s x = Panic why) -> fold_out f s l = Panic why.
Proof.
  intros Hf Hx Hp. revert s. induction l as [|y l IH]; intros s; [by apply elem_of_nil in Hx|].
  cbn. apply elem_of_cons in Hx as [<-|Hx]; [by rewrite Hp|].
  destruct (Hf s y) as [[s' ->]| ->]; [by apply IH|done].
Qed.

Definition slice_panic : string := "slice bounds out of range [1:0]".

Lemma fold_out_ok_or {S A} (f : S -> A -> outcome S) why l s :
  (forall s x, (exists s', f s x = Ok s') \/ f s x = Panic why) ->
  (exists s', fold_out f s l = Ok s') \/ fold_out f s l = Panic why.
Proof.
  intros Hf. revert s. induction l as [|y l IH]; intros s; [left; by exists s|]. cbn.
  destruct (Hf s y) as [[s' ->]| ->]; [by apply IH|by right].
Qed.

Section Panics.
  Context `{Enricher} (im : InterfaceMetrics).

Lemma convert_metric_cases row kv :
  (exists row', convert_metric im row kv = Ok row') \/ convert_metric im row kv = Panic slice_panic.
Proof.
  destruct row as [[ints strs] metrics], kv as [k v]. unfold convert_metric.
  destruct (default "" _) as [|c o]; [by right|]. left. cbn. by eexists.
Qed.

Lemma convert_script_cases i row k :
  (exists row', convert_script im i row k = Ok row') \/ convert_script im i row k = Panic slice_panic.
Proof.
  unfold convert_script. destruct (default "" _) as [|c o]; [by right|]. left. cbn.
  destruct (oidMibMap im !! o ≫= mb_Script); by eexists.
Qed.

Lemma error_percent_cases pkts errs pct row :
  (exists row', error_percent im pkts errs pct row = Ok row') \/ error_percent im pkts errs pct row = Panic slice_panic.
Proof.
  destruct row as [[ints strs] metrics]. unfold error_percent. destruct (0 <? _); [|left; by eexists].
  destruct (nameOidMap im !! errs) as [[|c o]|]; [by right| |left; by eexists]. left. cbn.
  destruct (oidMibMap im !! o); by eexists.
Qed.

Lemma convert_interface_cases r up i cs :
  (exists j, convert_interface im r up i cs = Ok j) \/ convert_interface im r up i cs = Panic slice_panic.
Proof.
  unfold convert_interface. set (strs := if String.eqb _ _ then _ else _).
  destruct (fold_out_ok_or (S := Row) _ _ (rg_metrics r cs) (∅, strs, ∅) convert_metric_cases) as [[row1 ->]| ->]; [|by right].
  cbn [mbind outcome_bind].
  destruct (fold_out_ok_or (S := Row) _ _ (rg_scripts r cs) row1 (convert_script_cases i)) as [[row2 ->]| ->]; [|by right].
  cbn [mbind outcome_bind].
  destruct (error_percent_cases SNMP_ifHCInUcastPkts SNMP_ifInErrors SNMP_ifInErrorsPercent row2) as [[row3 ->]| ->];
    [|by right]. cbn [mbind outcome_bind].
  destruct (error_percent_cases SNMP_ifHCOutUcastPkts SNMP_ifOutErrors SNMP_ifOutErrorsPercent row3) as [[row4 ->]| ->];
    [|by right]. cbn [mbind outcome_bind]. left. destruct row4 as [[ints strs'] metrics]. by eexists.
Qed.

(** A field whose name leads to no object panics. *)
Lemma convert_interface_panics r up i cs k :
  fair r -> k ∈ dom cs -> nameOidMap im !! baseMetricName k = None ->
  convert_interface im r up i cs = Panic slice_panic.
Proof.
  intros Hf Hk Hn. apply elem_of_dom in Hk as [v Hv]. unfold convert_interface.
  rewrite (fold_out_panics (S := Row) _ slice_panic (rg_metrics r cs) _ (k, v)); [done|apply convert_metric_cases| |].
  - rewrite fair_metrics by done. by apply elem_of_map_to_list.
  - intros [[ints strs] metrics]. unfold convert_metric. by rewrite Hn.
Qed.

Lemma convertToCHF_panics r deltas i cs k :
  fair r -> i <> AllDeviceInterface -> deltas !! i = Some cs -> k ∈ dom cs ->
  nameOidMap im !! baseMetricName k = None -> convertToCHF im r deltas = Panic slice_panic.
Proof.
  intros Hf Hi Hd Hk Hn. unfold convertToCHF. apply (fold_out_panics _ _ _ _ (i, cs)).
  - intros flows [i' cs']. destruct (String.eqb i' _); [left; by eexists|].
    destruct (convert_interface_cases r (default 0 (deltas !! AllDeviceInterface ≫= lookup Uptime)) i' cs')
      as [[j ->]| ->]; [left; by eexists|by right].
  - rewrite fair_interfaces by done. by apply elem_of_map_to_list.
  - intros flows. destruct (String.eqb_spec i AllDeviceInterface); [done|].
    by rewrite (convert_interface_panics _ _ _ _ k).
Qed.

(** What was read stays a field of its interface. *)
Lemma record_field st rd i k :
  (rd_int rd = i /\ rd_name rd = k \/ is_Some (delta_of st.2 i k)) ->
  is_Some (delta_of (record_reading st rd).2 i k).
Proof.
  destruct rd as [i' n g t v]. unfold record_reading, poll_value. cbn [rd_int rd_name rd_gauge rd_type rd_value].
  pose proof (delta_of_assure st.2 i' i k) as Hd. pose proof (delta_of_fst st.2 i' k) as Hd1.
  destruct (assure (NewCounterSetWithId i') st.1 i') as [cs ints], (assure ∅ st.2 i') as [delta deltas].
  cbn [fst snd] in *. rewrite <- Hd. intros Hk.
  assert (forall d, (i' = i -> is_Some (<[n := d]> delta !! k)) /\ (i' = i -> forall v, is_Some (<[n := d]> (<[(n +:+ "_counter") := v]> delta) !! k))) as Hin.
  { intros d. assert (i' = i -> n = k \/ is_Some (delta !! k)) as Hor.
    { intros ->. destruct Hk as [[_ ?]|Hk]; [by left|right]. by rewrite Hd, Hd1 in Hk. }
    split; intros Hi; [|intros v']; rewrite !lookup_insert_is_Some'; destruct (Hor Hi); by auto. }
  assert (i' <> i -> is_Some (delta_of deltas i k)) as Hout by (intros Hne; destruct Hk as [[? _]|?]; done).
  destruct g; [|destruct t]; cbn [SetValueAndReturnDelta fst snd]; rewrite delta_of_insert; (case_decide; [|by apply Hout]);
    by apply Hin.
Qed.

Lemma record_fields rds st rd :
  (rd ∈ rds \/ is_Some (delta_of st.2 (rd_int rd) (rd_name rd))) ->
  is_Some (delta_of (foldl record_reading st rds).2 (rd_int rd) (rd_name rd)).
Proof.
  revert st. induction rds as [|rd' rds IH]; intros st [Hin|Hs]; [by apply elem_of_nil in Hin|done|..]; cbn; apply IH.
  - apply elem_of_cons in Hin as [->|Hin]; [right; apply record_field; by left|by left].
  - right. apply record_field. by right.
Qed.
End Panics.

(** The raw value of a counter is kept under its name with a suffix, which is cut off again to
    find the object.  The cut does not tell such a name from a metric that is called so: when the
    name less the suffix is no metric of the profile, reading the metric on any interface makes
    the poll panic, in every order of the ranges. *)
Lemma suffix_panics `{Enricher} im w r oids dms rd n :
  fair r -> (poll_readings w (oidMibMap im) oids).2 = false ->
  rd ∈ (poll_readings w (oidMibMap im) oids).1.1 -> rd_int rd <> AllDeviceInterface ->
  rd_name rd = n +:+ "_counter" -> nameOidMap im !! n = None ->
  (Poll im w r oids dms).2 = Panic slice_panic.
Proof.
  intros Hf He Hin Hi Hn Hnone. rewrite Poll_unfold.
  destruct (poll_readings w _ oids) as [[rds mibs'] e]. cbn [fst snd] in *. subst e. cbn [snd].
  set (st := foldl record_reading _ rds). destruct (poll_uptime_spec dms st) as [Hu _].
  assert (is_Some (delta_of st.2 (rd_int rd) (rd_name rd))) as [v Hv] by (apply record_fields; by left).
  unfold delta_of in Hv. destruct (st.2 !! rd_int rd) as [cs|] eqn:E; [|done]. cbn in Hv.
  apply (convertToCHF_panics im r _ (rd_int rd) cs (rd_name rd)); [done|done| |by eapply elem_of_dom_2|].
  - destruct (Hu (rd_int rd) "" Hi) as [_ ->]. done.
  - unfold baseMetricName. by rewrite Hn, TrimSuffix_app.
Qed.

Section Witnesses.
#[local] Instance sample_scripts : Enricher := fun _ _ _ row => row.

Definition sample_mib : Mib :=
mkMib "1.2" "drop_counter" "" None None "" "X-MIB" "if" 0 0 None "" None None false "".
Definition sample_im : InterfaceMetrics :=
NewInterfaceMetrics (mkDeviceConf "p" "d" "10.0.0.1") [("1.2", sample_mib)]%string
  [(".1.2", "drop_counter")]%string "profile" 60.
Definition sample_world : World := mkWorld (fun _ => 0) (fun oid => Some [mkVariable (oid +:+ ".7") OtherType 5]).
Definition sample_ranges : Ranges :=
mkRanges map_to_list map_to_list (fun m => (map_to_list m).*1) (fun _ => 0).

Lemma suffix_panics_witness :
(Poll sample_im sample_world sample_ranges [(".1.2", "drop_counter")]%string []).2 = Panic slice_panic.
Proof.
apply (suffix_panics sample_im sample_world sample_ranges _ [] (mkReading "7" "drop_counter" false OtherType 5) "drop").
- by constructor.
- vm_compute. reflexivity.
- vm_compute. by left.
- intros E. vm_compute in E. discriminate.
- vm_compute. reflexivity.
- vm_compute. reflexivity.
Defined.

(** The sign of a gauge is lost: minus five is reported as five. *)
Example sample_negative :
(poll_value "temp" true "7" Integer (big_Uint64 (-5)) (∅, ∅)).2 !! "7"%string = Some {[ "temp"%string := 5 ]}.
Proof. vm_compute. reflexivity. Qed.
End Witnesses.
