(* ===== verification/InterfaceMetadata.v ===== *)
(** * Metadata of interfaces (src/pkg/inputs/snmp/metadata/interface_metadata.go)

    Walks of a device become what is known of its interfaces: speeds, addresses with their masks,
    descriptions and the objects of the profile.  The code shares one structure between the map by
    index and the map by description, so the model keeps the index in the latter.  Walks, the text
    of a manufacturer and the orders of maps are arguments. *)
From Stdlib Require Import Ascii.
From S2P Require Import Prelude GoIO GoStrings Decimal GoNet GoAddr GoFloat SnmpTypes SnmpUtil SnmpConv InterfaceMetrics.

Definition SNMP_ifDescr : string := "ifDescr".
Definition SNMP_ifAlias : string := "ifAlias".
Definition SNMP_ifSpeed : string := "ifSpeed".
Definition SNMP_ipAdEntIfIndex : string := "ipAdEntIfIndex".
Definition SNMP_ipAdEntNetMask : string := "ipAdEntNetMask".
Definition SNMP_ipv6AddrPrefix : string := "ipv6AddrPrefix".
Definition SNMP_ifConnectorPresent : string := "ConnectorPresent".
Definition SNMP_ifType : string := "Type".
Definition SNMP_ifPhysAddress : string := "PhysAddress".
Definition SNMP_ifLastChange : string := "LastChange".
Definition SNMP_HUAWEI_ID_MAP_OID : string := "1.3.6.1.4.1.2011.5.25.110.1.2.1.2".
Definition MIN_WORKING_HUAWEI_VERSION : Z := 5.
Definition LOGICAL_INTERFACE : string := "logical".
Definition PHYSICAL_INTERFACE : string := "physical".

(** ** Data *)

Record IPAddr := mkIPAddr { ia_Address : string; ia_Netmask : string }.
Record InterfaceData := mkInterfaceData {
  id_IPAddr : IPAddr;
  id_AliasAddr : list IPAddr;
  id_Index : string;
  id_Speed : Z;
  id_Description : string;
  id_Alias : string;
  id_Type : string;
  id_ExtraInfo : gmap string string
}.
Definition new_data (oidIdx : string) : InterfaceData := mkInterfaceData (mkIPAddr "" "") [] oidIdx 0 "" "" "" ∅.

Definition set_addresses (a : IPAddr) (l : list IPAddr) (d : InterfaceData) : InterfaceData :=
  mkInterfaceData a l (id_Index d) (id_Speed d) (id_Description d) (id_Alias d) (id_Type d) (id_ExtraInfo d).
Definition set_Index (i : string) (d : InterfaceData) : InterfaceData :=
  mkInterfaceData (id_IPAddr d) (id_AliasAddr d) i (id_Speed d) (id_Description d) (id_Alias d) (id_Type d) (id_ExtraInfo d).
Definition set_Speed (s : Z) (d : InterfaceData) : InterfaceData :=
  mkInterfaceData (id_IPAddr d) (id_AliasAddr d) (id_Index d) s (id_Description d) (id_Alias d) (id_Type d) (id_ExtraInfo d).
Definition set_descriptions (descr alias typ : string) (d : InterfaceData) : InterfaceData :=
  mkInterfaceData (id_IPAddr d) (id_AliasAddr d) (id_Index d) (id_Speed d) descr alias typ (id_ExtraInfo d).
Definition set_Alias (a : string) (d : InterfaceData) : InterfaceData := set_descriptions (id_Description d) a (id_Type d) d.
Definition put_extra (k v : string) (d : InterfaceData) : InterfaceData :=
  mkInterfaceData (id_IPAddr d) (id_AliasAddr d) (id_Index d) (id_Speed d) (id_Description d) (id_Alias d) (id_Type d)
    (<[k := v]> (id_ExtraInfo d)).

(** ** The objects that are walked *)

Definition ifHighSpeed : string := "1.3.6.1.2.1.31.1.1.1.15".
Definition ipAdEntIfIndex_oid : string := "1.3.6.1.2.1.4.20.1.2".
Definition ipAdEntNetMask_oid : string := "1.3.6.1.2.1.4.20.1.3".

(** [getIfSpeedOid], of the environment: the object, and whether it counts single bits. *)
Definition getIfSpeedOid (env : option string) : string * bool :=
  let speed := default ifHighSpeed env in (speed, negb (String.eqb speed ifHighSpeed)).
Definition SNMP_Interface_OIDS (speed : string) : list (string * string) := [
  (speed, SNMP_ifSpeed);
  (ipAdEntIfIndex_oid, SNMP_ipAdEntIfIndex);
  (ipAdEntNetMask_oid, SNMP_ipAdEntNetMask);
  ("1.3.6.1.2.1.55.1.8.1.2", SNMP_ipv6AddrPrefix);
  ("1.3.6.1.2.1.2.2.1.6", SNMP_ifPhysAddress)]%string.

(** An ordered map is a list of its keys and values. *)
Record InterfaceMetadata := mkInterfaceMetadata {
  md_mibs : gmap string Mib;
  md_interfaceOids : list (string * string)
}.

Definition strip (p s : string) : string := if HasPrefix s p then sdrop (String.length p) s else s.
Definition interface_name (mb : Mib) : string := strip "if" (strip "if_" (GetName (Some mb))).
Definition add_interface_mib (st : InterfaceMetadata) (om : string * Mib) : InterfaceMetadata :=
  let '(oid, mb) := om in
  let name := interface_name mb in
  mkInterfaceMetadata (<[name := mb]> (md_mibs st))
    (if existsb (fun o => String.eqb o.1 oid) (md_interfaceOids st) then md_interfaceOids st
     else md_interfaceOids st ++ [(oid, name)]).
(** [NewInterfaceMetadata]; [sorted] is the map in the order of its keys. *)
Definition NewInterfaceMetadata (speed : string) (sorted : list (string * Mib)) : InterfaceMetadata :=
  foldl add_interface_mib (mkInterfaceMetadata ∅ (SNMP_Interface_OIDS speed)) sorted.

(** ** Values *)

Definition big_value `{BigInts} (v : SnmpPDU) : Z := ToBigInt (pdu_Value v).
Definition uint_value `{BigInts} (v : SnmpPDU) : Z := big_Uint64 (big_value v).

Definition string_value (v : SnmpPDU) : outcome string :=
  match pdu_Value v with VString s => Ok s | _ => Panic "interface conversion" end.
Definition bytes_value (v : SnmpPDU) : outcome string :=
  match pdu_Value v with VBytes bs => Ok (str_of bs) | _ => Panic "interface conversion" end.

(** ["%02x"] of an integer. *)
Fixpoint hex_from (fuel : nat) (d : Z) (acc : string) : string :=
  match fuel with
  | O => acc
  | S fuel =>
      let acc := String (hexDigit (d mod 16)) acc in
      if d <? 16 then acc else hex_from fuel (d / 16) acc
  end.
Definition hex02 (d : Z) : string :=
  if d <? 0 then "-" +:+ hex_from 16 (- d) ""
  else if d <? 16 then "0" +:+ hex_from 16 d "" else hex_from 16 d "".

(** The groups of an IPv6 address that is written in decimal bytes. *)
Definition hex_part (s : string) : string := match Atoi s with Some d => hex02 d | None => s end.
Fixpoint hex_groups (s : list string) : list string :=
  match s with
  | a :: b :: s => (hex_part a +:+ hex_part b) :: hex_groups s
  | _ => []
  end.

(** ** A poll *)

(** Interfaces by index, indices by address, and indices by description. *)
Record Lines := mkLines {
  intLine : gmap string InterfaceData;
  ifcIdx : gmap string string;
  byDescription : gmap string string
}.
Definition put_line (idx : string) (d : InterfaceData) (st : Lines) : Lines :=
  mkLines (<[idx := d]> (intLine st)) (ifcIdx st) (byDescription st).
Definition on_line (f : InterfaceData -> InterfaceData) (idx : string) (st : Lines) : Lines :=
  mkLines (alter f idx (intLine st)) (ifcIdx st) (byDescription st).

Definition add_address (a : IPAddr) (d : InterfaceData) : InterfaceData :=
  if String.eqb (ia_Address (id_IPAddr d)) "" then set_addresses a (id_AliasAddr d) d
  else set_addresses (id_IPAddr d) (id_AliasAddr d ++ [a]) d.

(** An address of an interface that is known: the only one without a mask, or one more alias. *)
Definition index_row `{BigInts} (v : SnmpPDU) (addr : string) (st : Lines) : Lines :=
  match pdu_Type v with
  | Integer =>
      let idx := Itoa (uint_value v) in
      match intLine st !! idx with
      | Some data =>
          let data := if String.eqb (ia_Address (id_IPAddr data)) ""
                      then set_addresses (mkIPAddr addr (ia_Netmask (id_IPAddr data))) (id_AliasAddr data) data
                      else set_addresses (id_IPAddr data) (id_AliasAddr data ++ [mkIPAddr addr ""]) data in
          mkLines (<[idx := data]> (intLine st)) (<[addr := idx]> (ifcIdx st)) (byDescription st)
      | None => st
      end
  | _ => st
  end.

(** The first alias with the address. *)
Fixpoint set_mask (addr mask : string) (l : list IPAddr) : list IPAddr :=
  match l with
  | [] => []
  | a :: l => if String.eqb (ia_Address a) addr then mkIPAddr addr mask :: l else a :: set_mask addr mask l
  end.
Definition mask_row (v : SnmpPDU) (addr : string) (st : Lines) : outcome Lines :=
  match pdu_Type v with
  | IPAddress =>
      match ifcIdx st !! addr with
      | Some idx =>
          match intLine st !! idx with
          | Some data =>
              if String.eqb (ia_Address (id_IPAddr data)) addr
              then mask ← string_value v;
                   Ok (put_line idx (set_addresses (mkIPAddr addr mask) (id_AliasAddr data) data) st)
              else if existsb (fun a => String.eqb (ia_Address a) addr) (id_AliasAddr data)
              then mask ← string_value v;
                   Ok (put_line idx (set_addresses (id_IPAddr data) (set_mask addr mask (id_AliasAddr data)) data) st)
              else Ok st
          | None => Ok st
          end
      | None => Ok st
      end
  | _ => Ok st
  end.

(** An IPv6 prefix, of an interface that is known. *)
Definition prefix_row `{BigInts} (v : SnmpPDU) (oidIdx : string) (st : Lines) : Lines :=
  match pdu_Type v, strings_Split oidIdx "." with
  | Integer, idx :: s =>
      if (length s =? 16)%nat
      then
        let addr := strings_Join (hex_groups s) ":" in
        match ParseCIDR (addr +:+ "/" +:+ Itoa (uint_value v)) with
        | Some net => on_line (add_address (mkIPAddr (IP_String (ParseIP addr)) (IP_String (net_Mask net)))) idx st
        | None => st
        end
      else st
  | _, _ => st
  end.

Section Poll.
  Context `{Regexps, BigInts} (isIfSpeed : bool) (walk : string -> outcome answer).

Definition speed_value (v : SnmpPDU) : Z :=
  if isIfSpeed then int64_of_float (float64_div (float64_of (uint_value v)) (float64_of 1000000)) else uint_value v.

Definition enum_name (mib : option Mib) (val : Z) : option string := r ← (mib ≫= mb_EnumRev); r !! val.

(** One value of an interface, by the name of its object. *)
Definition interface_value (mib : option Mib) (oidName : string) (v : SnmpPDU) (data : InterfaceData) : outcome InterfaceData :=
  let named := String.eqb oidName in
  if named SNMP_ifDescr then
    '(value, ok) ← ReadOctetString v true;
    Ok (if (ok : bool) then set_descriptions value (id_Alias data) (id_Type data) data else data)
  else if named SNMP_ifAlias then
    '(value, ok) ← ReadOctetString v true; Ok (if (ok : bool) then set_Alias value data else data)
  else if named SNMP_ifSpeed then Ok (set_Speed (speed_value v) data)
  else if named SNMP_ifConnectorPresent then
    Ok (if uint_value v =? 1 then put_extra SNMP_ifConnectorPresent PHYSICAL_INTERFACE data
        else if uint_value v =? 2 then put_extra SNMP_ifConnectorPresent LOGICAL_INTERFACE data else data)
  else if named SNMP_ifType then
    let val := (int64 (big_value v))%go in
    Ok (set_descriptions (id_Description data) (id_Alias data)
          (match mib ≫= mb_EnumRev with
           | Some r => default ("unknown: " +:+ Itoa val) (r !! val)
           | None => Itoa val
           end) data)
  else if named SNMP_ifPhysAddress then
    Ok (match pdu_Type v with
        | OctetString => put_extra SNMP_ifPhysAddress (GetFromConv v "hwaddr").1.2 data
        | _ => data
        end)
  else if named SNMP_ifLastChange then Ok (put_extra SNMP_ifLastChange (Itoa ((int64 (uint_value v))%go)) data)
  else match pdu_Type v with
       | OctetString => s ← bytes_value v; Ok (put_extra oidName s data)
       | ObjectIdentifier => s ← string_value v; Ok (put_extra oidName s data)
       | Integer =>
           let val := (int64 (uint_value v))%go in
           Ok (put_extra oidName (default (Itoa val) (enum_name mib val)) data)
       | _ => Ok data
       end.

Definition value_row (mib : option Mib) (oidName oidIdx : string) (v : SnmpPDU) (st : Lines) : outcome Lines :=
  if String.eqb oidName SNMP_ipv6AddrPrefix then Ok (prefix_row v oidIdx st)
  else
    data ← interface_value mib oidName v (default (new_data oidIdx) (intLine st !! oidIdx));
    Ok (mkLines (<[oidIdx := data]> (intLine st)) (ifcIdx st)
          (match pdu_Type v with
           | OctetString => if String.eqb oidName SNMP_ifDescr then <[id_Description data := oidIdx]> (byDescription st)
                            else byDescription st
           | _ => byDescription st
           end)).

(** The body of the loop over the variables of an object. *)
Definition interface_row (mib : option Mib) (oidVal oidName : string) (st : Lines) (v : SnmpPDU) : outcome Lines :=
  match interface_of oidVal (pdu_Name v) with
  | None => Ok st
  | Some oidIdx =>
      let is_ip := match ParseIP oidIdx with [] => false | _ => true end in
      if is_ip && String.eqb oidName SNMP_ipAdEntIfIndex then Ok (index_row v oidIdx st)
      else if is_ip && String.eqb oidName SNMP_ipAdEntNetMask then mask_row v oidIdx st
      else value_row mib oidName oidIdx v st
  end.

Definition walk_error : error := Errorf "walk" [].
Definition walk_interfaces (im : InterfaceMetadata) (st : Lines) (o : string * string) : outcome Lines :=
  a ← walk o.1;
  match a with
  | None => Err walk_error
  | Some results => fold_out (interface_row (md_mibs im !! o.2) o.1 o.2) st results
  end.

(** ** Interfaces that inherit *)

Definition parentInterfaceDescriptionFromDescription (description : string) : string :=
  match strings_SplitN description "." 2 with
  | p :: _ :: _ => p
  | _ => ""
  end.

Definition inherit_alias (by_descr : gmap string string) (line : gmap string InterfaceData) (d : InterfaceData) : InterfaceData :=
  if String.eqb (id_Alias d) "" then
    let parentDescr := parentInterfaceDescriptionFromDescription (id_Description d) in
    if String.eqb parentDescr "" then d
    else match (by_descr !! parentDescr) ≫= (fun i => line !! i) with
         | Some parent => if String.eqb (id_Alias parent) "" then d
                          else set_Alias (id_Alias parent +:+ " (inherited from physical)") d
         | None => d
         end
  else d.

(** The only logical interface of a physical one. *)
Definition getUniqueLogical (by_descr : gmap string string) (descr : string) : option string :=
  child0 ← by_descr !! (descr +:+ ".0");
  if existsb (fun kc => HasPrefix kc.1 (descr +:+ ".") && negb (String.eqb kc.2 child0)) (map_to_list by_descr)
  then None else Some child0.

Definition inherit_logical (donor d : InterfaceData) : InterfaceData :=
  let d := if String.eqb (id_Alias d) "" && negb (String.eqb (id_Alias donor) "")
           then set_Alias (id_Alias donor +:+ " (inherited from logical)") d else d in
  if String.eqb (ia_Address (id_IPAddr d)) "" && negb (String.eqb (ia_Address (id_IPAddr donor)) "")
  then set_addresses (id_IPAddr donor) (id_AliasAddr donor) d else d.

Definition copy_interface (isQFX : bool) (by_descr : gmap string string) (line : gmap string InterfaceData) (idx : string) :
    gmap string InterfaceData :=
  match line !! idx with
  | None => line
  | Some d =>
      let d := inherit_alias by_descr line d in
      let line := <[idx := d]> line in
      if isQFX
      then match getUniqueLogical by_descr (id_Description d) ≫= (fun i => line !! i) with
           | Some donor => <[idx := inherit_logical donor d]> line
           | None => line
           end
      else line
  end.

(** [copyInterfaces]; [order] is that of a range over the interfaces. *)
Definition copyInterfaces (order : gmap string InterfaceData -> list string) (lowerManufacturer : string) (st : Lines) :
    gmap string InterfaceData :=
  let isJuniper := strings_Contains lowerManufacturer "juniper" || strings_Contains lowerManufacturer "junos" in
  let isQFX := isJuniper && strings_Contains lowerManufacturer "qfx" in
  foldl (copy_interface isQFX (byDescription st)) (intLine st) (order (intLine st)).

(** [Poll]: the interfaces by index. *)
Definition Interface_Poll (ToLower : string -> string) (order : gmap string InterfaceData -> list string)
    (manufacturer : string) (im : InterfaceMetadata) : outcome (gmap string InterfaceData) :=
  st ← fold_out (walk_interfaces im) (mkLines ∅ ∅ ∅) (md_interfaceOids im);
  Ok (copyInterfaces order (ToLower manufacturer) st).
End Poll.

(** ** Renumbering of Huawei's interfaces *)

(** The first match of the version. *)
Definition version_at (s : string) : option Z :=
  if HasPrefix s "Version "
  then match sdrop 8 s with
       | String d (String p (String m _)) =>
           if Ascii.eqb p "." && bool_decide (is_Some (digit m)) then digit d else None
       | _ => None
       end
  else None.
Fixpoint find_version (s : string) : option Z :=
  match version_at s with
  | Some v => Some v
  | None => match s with String _ s => find_version s | "" => None end
  end%string.
Definition isBrokenHuawei (manufacturer : string) : bool :=
  strings_Contains manufacturer "Huawei" &&
  match find_version manufacturer with Some v => v <? MIN_WORKING_HUAWEI_VERSION | None => false end.

Definition huawei_id `{BigInts} (m : gmap string string) (v : SnmpPDU) : outcome (gmap string string) :=
  match strings_Split (pdu_Name v) SNMP_HUAWEI_ID_MAP_OID with
  | [_; suffix] =>
      match suffix with
      | String _ oidIdx => Ok (<[oidIdx := Itoa ((int64 (uint_value v))%go)]> m)
      | ""%string => Panic "slice bounds out of range"
      end
  | _ => Ok m
  end.

(** The loops over the interfaces; [order] is that of a range. *)
Definition renumber (id2snmp : gmap string string) (st : gmap string InterfaceData * gmap string InterfaceData)
    (kd : string * InterfaceData) : gmap string InterfaceData * gmap string InterfaceData :=
  let '(idNew, notFound) := st in
  match id2snmp !! kd.1 with
  | Some i => (<[i := set_Index i kd.2]> idNew, notFound)
  | None => (idNew, <[kd.1 := kd.2]> notFound)
  end.
Definition UpdateForHuawei `{BigInts} (walk : answer) (order : gmap string InterfaceData -> list (string * InterfaceData))
    (ifs : gmap string InterfaceData) : outcome (gmap string InterfaceData) :=
  match walk with
  | None => Err walk_error
  | Some results =>
      id2snmp ← fold_out huawei_id ∅ results;
      let '(idNew, notFound) := foldl (renumber id2snmp) (∅, ∅) (order ifs) in
      Ok (idNew ∪ notFound)
  end.

(** ** Properties: addresses *)

Lemma split_short cuts sep p : (String.length p < String.length sep)%nat -> split_from cuts 0 sep p = [p].
Proof.
  revert cuts. induction p as [|c p IH]; intros cuts Hl; [done|]. cbn [split_from]. destruct cuts as [|cuts]; [done|].
  destruct (String.prefix sep (String c p)) eqn:E.
  - apply prefix_spec in E as [r E]. rewrite E, slength_app in Hl. lia.
  - cbn in Hl. by rewrite IH by lia.
Qed.

(** The row of an index under an object. *)
Lemma interface_of_row oid a : oid <> "" -> HasPrefix oid "." = false -> (S (String.length a) < String.length oid)%nat ->
  interface_of oid ("." +:+ oid +:+ "." +:+ a) = Some a.
Proof.
  intros Hne Hd Hl. unfold interface_of, strings_Split.
  assert (clean oid "." = true) as Hc.
  { destruct oid as [|c oid]; [done|]. cbn [clean]. rewrite andb_true_r. apply negb_true_iff.
    change ("." +:+ String c oid) with (String "." (String c oid)). unfold HasPrefix in Hd. cbn in Hd |- *.
    destruct (ascii_dec "." c) as [<-|Hn]; [by destruct oid|]. destruct (ascii_dec c "."); [congruence|done]. }
  rewrite (split_piece _ oid "." ("." +:+ a) Hne Hc), split_short; [done|exact Hl].
Qed.

Definition is_ip (a : string) : Prop := ParseIP a <> [] /\ (String.length a < 18)%nat.
Definition index_pdu (r : string * Z) : SnmpPDU := mkPDU ("." +:+ ipAdEntIfIndex_oid +:+ "." +:+ r.1) Integer (VInt r.2).
Definition mask_pdu (r : string * string) : SnmpPDU := mkPDU ("." +:+ ipAdEntNetMask_oid +:+ "." +:+ r.1) IPAddress (VString r.2).

(** What is known of the addresses of an interface, in order. *)
Definition addresses (d : InterfaceData) : list IPAddr :=
  if String.eqb (ia_Address (id_IPAddr d)) "" then [] else id_IPAddr d :: id_AliasAddr d.
(** The first address is there before the others, and before its mask. *)
Definition in_order (d : InterfaceData) : Prop :=
  ia_Address (id_IPAddr d) = "" -> id_IPAddr d = mkIPAddr "" "" /\ id_AliasAddr d = [].

Definition mask_of (masks : list (string * string)) (a : string) : string :=
  foldl (fun cur m => if String.eqb m.1 a then m.2 else cur) "" masks.
Definition of_index (idx : string) (r : string * Z) : bool := String.eqb (Itoa (big_Uint64 r.2)) idx.

Lemma is_ip_ne a : is_ip a -> a <> "".
Proof. intros [H _] ->. by apply H. Qed.

Section Addresses.
  Context `{Regexps, BigInts} (Hbig : forall z, ToBigInt (VInt z) = z) (isIfSpeed : bool).

Lemma index_pdu_row mib r st : is_ip r.1 ->
  interface_row isIfSpeed mib ipAdEntIfIndex_oid SNMP_ipAdEntIfIndex st (index_pdu r) = Ok (index_row (index_pdu r) r.1 st).
Proof using Type.
  intros [Hp Hl]. unfold interface_row, index_pdu. cbn [pdu_Name]. rewrite interface_of_row; [|done..|cbn; lia].
  by destruct (ParseIP r.1) eqn:E.
Qed.

Lemma mask_pdu_row mib r st : is_ip r.1 ->
  interface_row isIfSpeed mib ipAdEntNetMask_oid SNMP_ipAdEntNetMask st (mask_pdu r) = mask_row (mask_pdu r) r.1 st.
Proof using Type.
  intros [Hp Hl]. unfold interface_row, mask_pdu. cbn [pdu_Name]. rewrite interface_of_row; [|done..|cbn; lia].
  by destruct (ParseIP r.1) eqn:E.
Qed.

(** After the addresses of [rows]: the interfaces are those of before, with their addresses and
    the masks of [masks]. *)
Record addressed (line0 : gmap string InterfaceData) (rows : list (string * Z)) (masks : list (string * string)) (st : Lines) : Prop := {
  ad_dom : dom (intLine st) = dom line0;
  ad_line idx d : intLine st !! idx = Some d -> in_order d /\
    addresses d = map (fun r => mkIPAddr r.1 (mask_of masks r.1)) (List.filter (of_index idx) rows);
  ad_ifc a idx : ifcIdx st !! a = Some idx <->
    exists r, In r rows /\ r.1 = a /\ of_index idx r = true /\ idx ∈ dom line0;
  ad_descr : byDescription st = ∅
}.

Lemma addressed_index line0 rows st r : is_ip r.1 -> ~ In r.1 (map fst rows) ->
  addressed line0 rows [] st -> addressed line0 (rows ++ [r]) [] (index_row (index_pdu r) r.1 st).
Proof using Hbig.
  intros Hip Hnew [Hd Hl Hi Hb]. unfold index_row, index_pdu, uint_value, big_value. cbn [pdu_Type pdu_Value]. rewrite Hbig.
  set (i := Itoa (big_Uint64 r.2)).
  assert (forall idx, of_index idx r = String.eqb i idx) as Ho by done.
  assert (forall idx, List.filter (of_index idx) (rows ++ [r]) =
            List.filter (of_index idx) rows ++ if String.eqb i idx then [r] else []) as Hf.
  { intros idx. rewrite List.filter_app. cbn. rewrite Ho. by destruct (String.eqb i idx). }
  destruct (intLine st !! i) as [d|] eqn:E.
  - set (d' := if String.eqb _ _ then _ else _). split; cbn [intLine ifcIdx byDescription].
    + rewrite dom_insert_L, <-Hd. apply elem_of_dom_2 in E. set_solver.
    + intros idx e. rewrite Hf. rewrite lookup_insert. case_decide as Hc; [intros [= <-]|].
      * subst idx. rewrite String.eqb_refl, map_app. destruct (Hl _ _ E) as [Ho' Ha]. rewrite <-Ha.
        unfold d', in_order, addresses in *. pose proof (is_ip_ne _ Hip) as Hne. apply String.eqb_neq in Hne.
        destruct (String.eqb_spec (ia_Address (id_IPAddr d)) "") as [Hz|Hz].
        -- destruct (Ho' Hz) as [Hz1 Hz2]. cbn. rewrite Hne. split; [|by rewrite Hz1, Hz2].
           intros Hn. by rewrite Hn in Hne.
        -- cbn. apply String.eqb_neq in Hz as Hz'. rewrite Hz'. split; [done|]. done.
      * intros He. apply Hl in He as [Ho' Ha]. split; [done|]. apply String.eqb_neq in Hc. by rewrite Hc, app_nil_r.
    + intros a idx. rewrite lookup_insert. case_decide as Hc.
      * subst a. split.
        -- intros [= <-]. exists r. split; [apply in_or_app; right; by left|]. split; [done|]. rewrite Ho, String.eqb_refl.
           split; [done|]. rewrite <-Hd. by eapply elem_of_dom_2.
        -- intros (r' & [Hin|[<-|[]]]%in_app_or & Hr & Ho' & _).
           ++ destruct Hnew. rewrite <-Hr. by apply in_map.
           ++ rewrite Ho in Ho'. apply String.eqb_eq in Ho'. congruence.
      * rewrite Hi. split; intros (r' & Hin & Hr & Hrest); exists r'; (split; [|done]).
        -- apply in_or_app. by left.
        -- apply in_app_or in Hin as [Hin|[<-|[]]]; [done|congruence].
    + done.
  - split; [done| | |done].
    + intros idx e He. rewrite Hf. destruct (String.eqb_spec i idx) as [<-|]; [congruence|]. rewrite app_nil_r. by apply Hl.
    + intros a idx. rewrite Hi. split; intros (r' & Hin & Hr & Ho' & Hdom); exists r'.
      * split; [apply in_or_app; by left|done].
      * apply in_app_or in Hin as [Hin|[<-|[]]]; [done|]. rewrite Ho in Ho'. apply String.eqb_eq in Ho' as <-.
        rewrite <-Hd in Hdom. apply elem_of_dom in Hdom as [? ?]. congruence.
Qed.

Lemma addressed_rows mib line0 rows : Forall (fun r => is_ip r.1) rows -> forall done st, NoDup (map fst (done ++ rows)) ->
  addressed line0 done [] st ->
  exists st', fold_out (interface_row isIfSpeed mib ipAdEntIfIndex_oid SNMP_ipAdEntIfIndex) st (map index_pdu rows) = Ok st' /\
    addressed line0 (done ++ rows) [] st'.
Proof using Hbig.
  induction 1 as [|r rows Hr _ IH]; intros pre st Hn Ha.
  - exists st. by rewrite app_nil_r.
  - cbn [map fold_out]. rewrite index_pdu_row by done. cbn [mbind outcome_bind].
    change (pre ++ r :: rows) with (pre ++ [r] ++ rows) in *. rewrite app_assoc in *.
    apply IH; [done|]. apply addressed_index; [done| |done].
    rewrite !map_app in Hn. cbn in Hn. apply NoDup_app in Hn as (Hn & _ & _). apply NoDup_app in Hn as (_ & Hn & _).
    intros Hin. apply (Hn r.1); [by apply list_elem_of_In|by constructor].
Qed.

(** A mask at the address. *)
Definition masked (a m : string) (x : IPAddr) : IPAddr := if String.eqb (ia_Address x) a then mkIPAddr a m else x.

Lemma masked_other a m l : ~ In a (map ia_Address l) -> map (masked a m) l = l.
Proof using Type.
  induction l as [|x l IH]; intros Hn; [done|]. cbn in *. rewrite IH by tauto. unfold masked.
  destruct (String.eqb_spec (ia_Address x) a); [tauto|done].
Qed.

Lemma set_mask_map a m l : NoDup (map ia_Address l) -> set_mask a m l = map (masked a m) l.
Proof using Type.
  induction l as [|x l IH]; intros Hn; [done|]. cbn in *. apply NoDup_cons in Hn as [Hx Hn]. unfold masked at 1.
  destruct (String.eqb_spec (ia_Address x) a) as [<-|]; [|by rewrite IH].
  rewrite masked_other; [done|]. by rewrite <-list_elem_of_In.
Qed.

Lemma addressed_NoDup line0 rows masks st idx d : NoDup (map fst rows) -> addressed line0 rows masks st ->
  intLine st !! idx = Some d -> NoDup (map ia_Address (addresses d)).
Proof using Type.
  intros Hn [_ Hl _ _] Hd. destruct (Hl _ _ Hd) as [_ ->]. rewrite map_map. cbn. clear Hl Hd.
  induction rows as [|r rows IH]; [constructor|]. cbn in *. apply NoDup_cons in Hn as [Hr Hn].
  destruct (of_index idx r); cbn; [|by apply IH]. constructor; [|by apply IH].
  rewrite list_elem_of_In. intros (r' & Hr' & [Hin _]%List.filter_In)%in_map_iff. apply Hr. rewrite <-Hr'.
  apply list_elem_of_In. by apply in_map.
Qed.

Lemma mask_of_snoc masks a m x : mask_of (masks ++ [(a, m)]) x = if String.eqb a x then m else mask_of masks x.
Proof using Type. unfold mask_of. by rewrite foldl_app. Qed.

Lemma masks_map masks a m rows :
  map (fun r : string * Z => mkIPAddr r.1 (mask_of (masks ++ [(a, m)]) r.1)) rows =
  map (masked a m) (map (fun r => mkIPAddr r.1 (mask_of masks r.1)) rows).
Proof using Type.
  rewrite map_map. apply map_ext. intros r. rewrite mask_of_snoc. unfold masked. cbn. rewrite (String.eqb_sym a).
  by destruct (String.eqb_spec r.1 a) as [->|].
Qed.

Lemma addressed_mask line0 rows masks st r : NoDup (map fst rows) -> is_ip r.1 -> addressed line0 rows masks st ->
  exists st', mask_row (mask_pdu r) r.1 st = Ok st' /\ addressed line0 rows (masks ++ [r]) st'.
Proof using Type.
  destruct r as [a m]. intros Hn Hip Had. pose proof Had as [Hd Hl Hi Hb]. unfold mask_row, mask_pdu. cbn [pdu_Type fst snd] in *.
  (* it is enough that the addresses of every interface are masked *)
  assert (forall line', dom line' = dom (intLine st) ->
    (forall idx d', line' !! idx = Some d' -> exists d, intLine st !! idx = Some d /\ in_order d' /\
       addresses d' = map (masked a m) (addresses d)) ->
    addressed line0 rows (masks ++ [(a, m)]) (mkLines line' (ifcIdx st) (byDescription st))) as Hgoal.
  { intros line' Hdom Hline. split; cbn [intLine ifcIdx byDescription]; [by rewrite Hdom| |done|done].
    intros idx d' (d & Hd0 & Hord & ->)%Hline. split; [done|]. rewrite masks_map. f_equal. by apply Hl. }
  assert (forall idx d, intLine st !! idx = Some d -> In a (map ia_Address (addresses d)) -> ifcIdx st !! a = Some idx) as Hin.
  { intros idx d Hd0. destruct (Hl _ _ Hd0) as [_ ->]. rewrite map_map. intros (r & Hr & [Hin Ho]%List.filter_In)%in_map_iff.
    apply Hi. exists r. split; [done|]. split; [done|]. split; [done|]. rewrite <-Hd. by eapply elem_of_dom_2. }
  assert (forall idx d, intLine st !! idx = Some d -> ifcIdx st !! a <> Some idx -> addresses d = map (masked a m) (addresses d)) as Hsame.
  { intros idx d Hd0 Hne. symmetry. apply masked_other. intros Hx. by eapply Hne, Hin. }
  destruct (ifcIdx st !! a) as [idx|] eqn:E.
  2: { exists st. split; [done|]. destruct st. apply Hgoal; [done|]. intros idx d Hd0. exists d. split; [done|].
       split; [by apply (Hl _ _ Hd0)|by eapply Hsame]. }
  pose proof (proj1 (Hi a idx) E) as (r & Hrin & Hra & Hro & Hdom0). rewrite <-Hd in Hdom0. apply elem_of_dom in Hdom0 as [d Hd0].
  rewrite Hd0. pose proof (addressed_NoDup _ _ _ _ _ _ Hn Had Hd0) as Hnd. destruct (Hl _ _ Hd0) as [Hord Hadd].
  assert (In a (map ia_Address (addresses d))) as Hina.
  { rewrite Hadd, map_map. apply in_map_iff. exists r. split; [done|]. by apply List.filter_In. }
  assert (forall d', in_order d' -> addresses d' = map (masked a m) (addresses d) ->
    addressed line0 rows (masks ++ [(a, m)]) (mkLines (<[idx := d']> (intLine st)) (ifcIdx st) (byDescription st))) as Hone.
  { intros d' Ho' Ha'. apply Hgoal.
    - rewrite dom_insert_lookup_L; [done|by eexists].
    - intros idx' e. rewrite lookup_insert. case_decide as Hc; [intros [= <-]; subst idx'; by exists d|].
      intros He. exists e. split; [done|]. split; [by apply (Hl _ _ He)|]. eapply Hsame; [done|]. congruence. }
  unfold put_line. unfold addresses in Hina, Hnd, Hone. pose proof (is_ip_ne _ Hip) as Hne.
  destruct (String.eqb_spec (ia_Address (id_IPAddr d)) "") as [Hz|Hz]; [done|]. cbn [map] in *. apply NoDup_cons in Hnd as [Hx Hnd].
  apply String.eqb_neq in Hne, Hz. destruct (String.eqb_spec (ia_Address (id_IPAddr d)) a) as [Ha|Ha].
  - eexists. split; [done|]. apply Hone; unfold in_order; cbn; rewrite ?Hne; [by intros ->|].
    unfold masked at 1. apply String.eqb_eq in Ha as Ha'. rewrite Ha', masked_other; [done|].
    rewrite <-Ha. by rewrite <-list_elem_of_In.
  - destruct Hina as [|Hina]; [done|]. assert (existsb (fun x => String.eqb (ia_Address x) a) (id_AliasAddr d) = true) as ->.
    { apply existsb_exists. apply in_map_iff in Hina as (x & Hxa & Hxin). exists x. split; [done|]. by apply String.eqb_eq. }
    eexists. split; [done|]. apply Hone; unfold in_order; cbn; rewrite ?Hz; [|].
    + intros He. by rewrite He in Hz.
    + rewrite set_mask_map by done. unfold masked at 2. apply String.eqb_neq in Ha. by rewrite Ha.
Qed.

Lemma addressed_masks mib line0 rows masks : NoDup (map fst rows) -> Forall (fun r => is_ip r.1) masks -> forall pre st,
  addressed line0 rows pre st ->
  exists st', fold_out (interface_row isIfSpeed mib ipAdEntNetMask_oid SNMP_ipAdEntNetMask) st (map mask_pdu masks) = Ok st' /\
    addressed line0 rows (pre ++ masks) st'.
Proof using Type.
  intros Hn. induction 1 as [|r masks Hr _ IH]; intros pre st Ha.
  - exists st. by rewrite app_nil_r.
  - cbn [map fold_out]. rewrite mask_pdu_row by done. destruct (addressed_mask _ _ _ _ r Hn Hr Ha) as (st1 & -> & Ha1).
    cbn [mbind outcome_bind]. destruct (IH _ _ Ha1) as (st2 & E & Ha2). exists st2. split; [exact E|].
    by rewrite <-app_assoc in Ha2.
Qed.
End Addresses.

(** ** Properties: prefixes *)

Lemma split_absent cuts sep p : strings_Contains p sep = false -> split_from cuts 0 sep p = [p].
Proof.
  induction p as [|c p IH]; [done|]. cbn [strings_Contains]. intros [Hp Hc]%orb_false_iff. cbn [split_from].
  destruct cuts as [|cuts]; [done|]. unfold HasPrefix in Hp. rewrite Hp, IH by done. done.
Qed.

(** A prefix of an interface: the sixteen bytes of an address and the length. *)
Record PrefixRow := mkPrefixRow { px_index : string; px_addr : bytes; px_len : Z }.
Definition ipv6AddrPrefix_oid : string := "1.3.6.1.2.1.55.1.8.1.2".
Definition px_suffix (r : PrefixRow) : string := strings_Join (px_index r :: map Itoa (px_addr r)) ".".
Definition prefix_pdu (r : PrefixRow) : SnmpPDU := mkPDU ("." +:+ ipv6AddrPrefix_oid +:+ "." +:+ px_suffix r) Integer (VInt (px_len r)).
Record prefix_ok (r : PrefixRow) : Prop := {
  px_dot : lacks "." (px_index r) = true;
  px_absent : strings_Contains ("." +:+ px_suffix r) ipv6AddrPrefix_oid = false;
  px_bytes : bytes_ok (px_addr r) /\ length (px_addr r) = 16%nat;
  px_bits : 0 <= px_len r <= 128
}.
(** The texts of its address and of its mask. *)
Definition prefix_address (r : PrefixRow) : IPAddr := mkIPAddr (IP_String (px_addr r)) (IP_String (CIDRMask 16 (px_len r))).
Definition prefix_of (idx : string) (r : PrefixRow) : bool := String.eqb (px_index r) idx.

(** Two hexadecimal digits of a byte. *)
Definition byte_hex_ok (b : Z) : bool :=
  match hex02 b with
  | String c (String d "") => bool_decide (hexdigit c = Some (b / 16) /\ hexdigit d = Some (b mod 16)) && bool_decide (Atoi (Itoa b) = Some b) &&
                              lacks ":" (hex02 b) && lacks "." (hex02 b) && lacks "/" (hex02 b) && lacks "%" (hex02 b)
  | _ => false
  end%string.
Record byte_hex (b : Z) : Prop := {
  bh_digits : exists c d, hex02 b = String c (String d "") /\ hexdigit c = Some (b / 16) /\ hexdigit d = Some (b mod 16);
  bh_atoi : Atoi (Itoa b) = Some b;
  bh_lacks : lacks ":" (hex02 b) = true /\ lacks "." (hex02 b) = true /\ lacks "/" (hex02 b) = true /\ lacks "%" (hex02 b) = true
}.
Lemma byte_hexes b : in_range 8 b -> byte_hex b.
Proof.
  intros Hb. assert (forallb byte_hex_ok (seqZ 0 256) = true) as Hall by (vm_compute; reflexivity).
  rewrite forallb_forall in Hall. specialize (Hall b). unfold byte_hex_ok in Hall.
  assert (In b (seqZ 0 256)) as Hin by (apply list_elem_of_In, elem_of_seqZ; unfold in_range in Hb; lia). specialize (Hall Hin).
  destruct (hex02 b) as [|c [|d [|]]] eqn:E; try discriminate. repeat (apply andb_prop in Hall as [Hall ?]).
  apply bool_decide_eq_true in Hall. split; [|by eapply bool_decide_eq_true|by rewrite E]. exists c, d. by rewrite E.
Qed.

Lemma hexgroup_byte off acc b s : in_range 8 b -> hexgroup off acc (hex02 b +:+ s) = hexgroup (S (S off)) (acc * 256 + b) s.
Proof.
  intros Hb. destruct (bh_digits b (byte_hexes b Hb)) as (c & d & -> & Hc & Hd).
  change (String c (String d "") +:+ s) with (String c (String d s)). cbn [hexgroup]. rewrite Hc, Hd. f_equal.
  pose proof (Z.div_mod b 16). lia.
Qed.

(** The groups of an address, and how they are parsed. *)
Fixpoint hex_pairs (bs : bytes) : list string :=
  match bs with a :: b :: bs => (hex02 a +:+ hex02 b) :: hex_pairs bs | _ => [] end.
Lemma hex_groups_pairs bs : bytes_ok bs -> hex_groups (map Itoa bs) = hex_pairs bs.
Proof.
  assert (forall n bs, (length bs <= n)%nat -> bytes_ok bs -> hex_groups (map Itoa bs) = hex_pairs bs) as Hall; [|by apply (Hall (length bs))].
  induction n as [|n IH]; intros [|a [|b l]] Hl Hok; try done; cbn in Hl; [lia|].
  apply Forall_cons in Hok as [Ha Hok]. apply Forall_cons in Hok as [Hb Hok]. cbn [map hex_groups hex_pairs].
  unfold hex_part. rewrite (bh_atoi _ (byte_hexes a Ha)), (bh_atoi _ (byte_hexes b Hb)). f_equal. apply IH; [lia|done].
Qed.

Lemma word_bytes a b : in_range 8 a -> in_range 8 b ->
  ((0 * 256 + a) * 256 + b) / 256 = a /\ ((0 * 256 + a) * 256 + b) mod 256 = b.
Proof.
  intros Ha Hb. unfold in_range in Ha, Hb. change (2 ^ 8) with 256 in *. rewrite Z.add_0_l. split.
  - rewrite Z.div_add_l, Z.div_small by lia. lia.
  - rewrite Z.add_comm, Z.mod_add by lia. by apply Z.mod_small.
Qed.
Lemma v6_groups_last rounds ip a b : in_range 8 a -> in_range 8 b ->
  v6_groups (S rounds) ip None (hex02 a +:+ hex02 b) = Some (ip ++ [a; b], None, ""%string).
Proof.
  intros Ha Hb. cbn [v6_groups]. rewrite <-(sapp_nil_r (hex02 b)), !hexgroup_byte by done. cbn [hexgroup Nat.eqb Nat.ltb Nat.leb orb].
  by destruct (word_bytes a b Ha Hb) as [-> ->].
Qed.
Lemma v6_groups_next rounds ip a b c s : in_range 8 a -> in_range 8 b -> c <> ":"%char ->
  v6_groups (S rounds) ip None (hex02 a +:+ hex02 b +:+ ":" +:+ String c s) = v6_groups rounds (ip ++ [a; b]) None (String c s).
Proof.
  intros Ha Hb Hc. cbn [v6_groups]. rewrite !hexgroup_byte by done. change (":" +:+ String c s) with (String ":" (String c s)).
  cbn [hexgroup hexdigit]. change (hexdigit ":"%char) with (@None Z). cbn [Nat.eqb Nat.ltb Nat.leb orb].
  destruct (word_bytes a b Ha Hb) as [-> ->]. destruct c as [[] [] [] [] [] [] [] []]; done.
Qed.
Lemma hex02_head a s : in_range 8 a -> exists c t, hex02 a +:+ s = String c t /\ c <> ":"%char.
Proof.
  intros Ha. destruct (byte_hexes a Ha) as [(c & d & E & _) _ [Hl _]]. rewrite E in Hl |- *. exists c, (String d s). split; [done|].
  cbn [lacks] in Hl. apply andb_prop in Hl as [Hl _]. by apply negb_true_iff, Ascii.eqb_neq in Hl.
Qed.

Lemma v6_groups_pairs bs : bytes_ok bs -> forall rounds ip, (2 * rounds = length bs)%nat -> (0 < rounds)%nat ->
  v6_groups rounds ip None (strings_Join (hex_pairs bs) ":") = Some (ip ++ bs, None, ""%string).
Proof.
  assert (forall n bs, (length bs <= n)%nat -> bytes_ok bs -> forall rounds ip, (2 * rounds = length bs)%nat -> (0 < rounds)%nat ->
    v6_groups rounds ip None (strings_Join (hex_pairs bs) ":") = Some (ip ++ bs, None, ""%string)) as Hall; [|by apply (Hall (length bs))].
  induction n as [|n IH]; intros [|a [|b l]] Hl Hok rounds ip Hr H0; cbn in Hl, Hr; try lia.
  apply Forall_cons in Hok as [Ha Hok]. apply Forall_cons in Hok as [Hb Hok]. destruct rounds as [|rounds]; [lia|].
  destruct l as [|a' [|b' l]]; [by apply v6_groups_last|cbn in Hr; lia|].
  change (strings_Join (hex_pairs (a :: b :: a' :: b' :: l)) ":") with
    ((hex02 a +:+ hex02 b) +:+ ":" +:+ strings_Join (hex_pairs (a' :: b' :: l)) ":").
  assert (exists c t, strings_Join (hex_pairs (a' :: b' :: l)) ":" = String c t /\ c <> ":"%char) as (c & t & E & Hc).
  { apply Forall_cons in Hok as [Ha' _]. destruct (hex_pairs l) eqn:El; cbn [hex_pairs]; rewrite El; cbn [strings_Join]; rewrite ?sapp_assoc;
      by apply hex02_head. }
  rewrite sapp_assoc, E, v6_groups_next, <-E by done. rewrite IH; [|cbn in Hl |- *; lia|done|cbn in Hr |- *; lia|cbn in Hr; lia].
  by rewrite <-app_assoc.
Qed.

Lemma hex_pairs_lack c bs : bytes_ok bs -> (forall b, in_range 8 b -> lacks c (hex02 b) = true) -> Forall (fun s => lacks c s = true) (hex_pairs bs).
Proof.
  intros Hok Hc. assert (forall n bs, (length bs <= n)%nat -> bytes_ok bs -> Forall (fun s => lacks c s = true) (hex_pairs bs)) as Hall; [|by apply (Hall (length bs))].
  clear bs Hok. induction n as [|n IH]; intros [|a [|b l]] Hl Hok; try constructor; cbn in Hl; try lia;
    apply Forall_cons in Hok as [Ha Hok]; apply Forall_cons in Hok as [Hb Hok]; [by rewrite lacks_app, !Hc|]. apply IH; [lia|done].
Qed.
Lemma lacks_Join_all c l sep : lacks c sep = true -> Forall (fun s => lacks c s = true) l -> lacks c (strings_Join l sep) = true.
Proof.
  intros Hs Hl. rewrite lacks_sforall. apply sforall_Join; [by rewrite <-lacks_sforall|]. eapply Forall_impl; [exact Hl|].
  intros s Hx. by rewrite <-lacks_sforall.
Qed.
Lemma lacks_Contains c s : lacks c s = true -> strings_Contains s (String c "") = false.
Proof.
  induction s as [|x s IH]; [done|]. cbn [lacks strings_Contains]. intros [Hx Hs]%andb_prop. rewrite IH by done. rewrite orb_false_r.
  unfold HasPrefix. cbn [String.prefix]. destruct (ascii_dec c x) as [<-|]; [|done]. by rewrite Ascii.eqb_refl in Hx.
Qed.

Lemma addr_kind_colon s r : lacks "." s = true -> lacks "%" s = true -> addr_kind (s +:+ String ":" r) = Some ":"%char.
Proof.
  induction s as [|c s IH]; [done|]. cbn [lacks]. intros [Hd Hs]%andb_prop [Hp Hs']%andb_prop.
  change (String c s +:+ String ":" r) with (String c (s +:+ String ":" r)). cbn [addr_kind existsb].
  apply negb_true_iff in Hd, Hp. rewrite Hd, Hp. destruct (Ascii.eqb_spec c ":"%char) as [->|]; [done|]. cbn [orb]. by apply IH.
Qed.

Lemma ParseAddr_pairs bs : bytes_ok bs -> length bs = 16%nat -> ParseAddr (strings_Join (hex_pairs bs) ":") = Some bs.
Proof.
  intros Hok Hl. pose proof (v6_groups_pairs bs Hok 8 [] ltac:(lia) ltac:(lia)) as Hg. cbn [app] in Hg.
  assert (lacks "%" (strings_Join (hex_pairs bs) ":") = true) as Hpct.
  { apply lacks_Join_all; [done|]. apply hex_pairs_lack; [done|]. intros b Hb. by apply (bh_lacks b (byte_hexes b Hb)). }
  destruct bs as [|a [|b [|a' [|b' l]]]]; try done. pose proof Hok as Hok0.
  apply Forall_cons in Hok as [Ha Hok]. apply Forall_cons in Hok as [Hb _].
  destruct (byte_hexes a Ha) as [_ _ (Hca & Hda & _ & Hpa)]. destruct (byte_hexes b Hb) as [_ _ (Hcb & Hdb & _ & Hpb)].
  set (text := strings_Join (hex_pairs (a :: b :: a' :: b' :: l)) ":") in *.
  assert (text = (hex02 a +:+ hex02 b) +:+ String ":" (strings_Join (hex_pairs (a' :: b' :: l)) ":")) as Ht by done.
  unfold ParseAddr. rewrite (eq_trans (f_equal addr_kind Ht) (addr_kind_colon (hex02 a +:+ hex02 b) _ ltac:(by rewrite lacks_app, Hda) ltac:(by rewrite lacks_app, Hpa))).
  rewrite (lacks_Contains "%"%char) by done. unfold parseIPv6.
  destruct (hex02_head a (hex02 b +:+ String ":" (strings_Join (hex_pairs (a' :: b' :: l)) ":")) Ha) as (c & t & E & Hc).
  assert (text = String c t) as Ect by (rewrite Ht, sapp_assoc; exact E).
  assert (match text with String ":" (String ":" s') => (Some 0%nat, s') | _ => (None, text) end = (None, text)) as ->.
  { rewrite Ect. destruct c as [[] [] [] [] [] [] [] []]; done. }
  rewrite Hg. cbn [mbind option_bind]. by rewrite Hl.
Qed.

Lemma ParseCIDR_pairs bs n : bytes_ok bs -> length bs = 16%nat -> 0 <= n <= 128 ->
  ParseCIDR (strings_Join (hex_pairs bs) ":" +:+ "/" +:+ Itoa n) = Some (mkIPNet (and_bytes bs (CIDRMask 16 n)) (CIDRMask 16 n)).
Proof.
  intros Hok Hl Hn. unfold ParseCIDR, strings_SplitN. cbn [Nat.sub].
  assert (in_range 8 n) as Hn8 by (unfold in_range; lia). pose proof (oct_digits n (octet_fact n Hn8)) as Hdig.
  rewrite split_piece; [|done|].
  - rewrite split_last by apply lacks_clean, oct_slash, octet_fact, Hn8. rewrite ParseAddr_pairs by done. cbn [mbind option_bind]. rewrite Hdig. cbn [mbind option_bind].
    rewrite Hl. destruct (Z.leb_spec n (8 * Z.of_nat 16)); [done|lia].
  - apply lacks_clean, lacks_Join_all; [done|]. apply hex_pairs_lack; [done|]. intros b Hb. by apply (bh_lacks b (byte_hexes b Hb)).
Qed.

Lemma sapp_nonempty a b : b <> ""%string -> a +:+ b <> ""%string.
Proof. intros Hb. destruct a; [exact Hb|discriminate]. Qed.
Lemma IP_String_nonempty ip : bytes_ok ip -> IP_String ip <> ""%string.
Proof.
  intros Hok. unfold IP_String. destruct ip as [|x ip]; [done|]. case_decide; [done|]. destruct (To4 (x :: ip)) as [b|] eqn:E.
  - destruct (To4_ok _ _ Hok E) as [Hl Hb]. destruct b as [|y [|z b]]; [done|done|]. apply Forall_cons in Hb as [Hy _].
    unfold v4_text. change (strings_Join (map Itoa (y :: z :: b)) ".") with (Itoa y +:+ "." +:+ strings_Join (map Itoa (z :: b)) ".").
    by apply sapp_nonempty.
  - unfold v6_text. destruct (longest_zeros (x :: ip)) as [[i j]|]; [by apply sapp_nonempty|].
    unfold groups. cbn [Nat.sub seq map strings_Join]. by apply sapp_nonempty.
Qed.

Section Prefixes.
  Context `{Regexps, BigInts} (Hbig : forall z, ToBigInt (VInt z) = z) (isIfSpeed : bool).

Lemma add_address_ok a d : in_order d -> ia_Address a <> ""%string ->
  in_order (add_address a d) /\ addresses (add_address a d) = addresses d ++ [a].
Proof using Type.
  intros Ho Ha. unfold add_address, in_order, addresses in *. destruct (String.eqb_spec (ia_Address (id_IPAddr d)) "") as [Hz|Hz].
  - destruct (Ho Hz) as [_ Hal]. cbn. rewrite Hal. apply String.eqb_neq in Ha as Ha'. rewrite Ha'. split; [|done]. intros He. congruence.
  - cbn. apply String.eqb_neq in Hz as Hz'. rewrite Hz'. by split.
Qed.

(** After prefixes: the interfaces are those of before, with their prefixes behind their addresses. *)
Record listed_prefix (st0 : Lines) (rows : list PrefixRow) (st : Lines) : Prop := {
  pf_dom : dom (intLine st) = dom (intLine st0);
  pf_line idx d : intLine st !! idx = Some d -> exists d0, intLine st0 !! idx = Some d0 /\
    (in_order d0 -> in_order d /\ addresses d = addresses d0 ++ map prefix_address (List.filter (prefix_of idx) rows));
  pf_descr : byDescription st = byDescription st0
}.

Lemma prefix_pdu_row mib r st : prefix_ok r ->
  interface_row isIfSpeed mib ipv6AddrPrefix_oid SNMP_ipv6AddrPrefix st (prefix_pdu r) =
    Ok (on_line (add_address (prefix_address r)) (px_index r) st).
Proof using Hbig.
  intros [Hdot Habs [Hok Hl] Hn]. unfold interface_row.
  assert (interface_of ipv6AddrPrefix_oid (pdu_Name (prefix_pdu r)) = Some (px_suffix r)) as ->.
  { unfold interface_of, strings_Split, prefix_pdu. cbn [pdu_Name].
    rewrite (split_piece _ ipv6AddrPrefix_oid "." ("." +:+ px_suffix r)), split_absent; done. }
  cbn [String.eqb Ascii.eqb Bool.eqb]. rewrite !andb_false_r. unfold value_row, prefix_row. cbn [String.eqb Ascii.eqb Bool.eqb].
  unfold prefix_pdu. cbn [pdu_Type pdu_Value].
  assert (strings_Split (px_suffix r) "." = px_index r :: map Itoa (px_addr r)) as ->.
  { apply Split_Join; [done|done|]. constructor; [by apply lacks_clean|]. apply Forall_map. eapply Forall_impl; [exact Hok|].
    intros b Hb. apply lacks_clean, oct_dot, octet_fact, Hb. }
  rewrite length_map, Hl. cbn [Nat.eqb]. unfold uint_value, big_value. cbn [pdu_Value]. rewrite Hbig.
  assert (big_Uint64 (px_len r) = px_len r) as ->.
  { unfold big_Uint64. rewrite Z.abs_eq by lia. apply wrap_id. unfold in_range. lia. }
  rewrite hex_groups_pairs, ParseCIDR_pairs by done. cbn [net_Mask]. unfold ParseIP. rewrite ParseAddr_pairs by done.
  unfold As16. by rewrite Hl.
Qed.

Lemma prefix_rows mib rows : Forall prefix_ok rows -> forall pre st0 st, listed_prefix st0 pre st ->
  exists st', fold_out (interface_row isIfSpeed mib ipv6AddrPrefix_oid SNMP_ipv6AddrPrefix) st (map prefix_pdu rows) = Ok st' /\
    listed_prefix st0 (pre ++ rows) st'.
Proof using Hbig.
  induction 1 as [|r rows Hr _ IH]; intros pre st0 st Hp; [exists st; by rewrite app_nil_r|].
  cbn [map fold_out]. rewrite prefix_pdu_row by done. cbn [mbind outcome_bind].
  replace (pre ++ r :: rows) with ((pre ++ [r]) ++ rows) by by rewrite <-app_assoc.
  apply IH. destruct Hp as [Hd Hl Hb]. split; cbn [on_line intLine byDescription]; [by rewrite dom_alter_L| |done].
  intros idx d. rewrite List.filter_app, map_app. cbn [List.filter]. unfold prefix_of at 2.
  destruct (String.eqb_spec (px_index r) idx) as [<-|Hne].
  - rewrite lookup_alter_eq. intros (d1 & E & ->)%fmap_Some_1. destruct (Hl _ _ E) as (d0 & E0 & Ha). exists d0. split; [done|].
    intros Ho. destruct (Ha Ho) as [Ho1 Ha1]. destruct (add_address_ok (prefix_address r) d1 Ho1) as [Ho2 Ha2].
    { cbn. apply IP_String_nonempty. by destruct Hr as [_ _ [? _] _]. }
    split; [done|]. rewrite Ha2, Ha1. cbn. by rewrite app_assoc.
  - rewrite lookup_alter_ne by done. intros E. cbn. rewrite app_nil_r. by apply Hl.
Qed.
End Prefixes.

(** ** Properties: a poll *)

(** The value has the form that the library gives values of its type. *)
Definition typed_pdu (v : SnmpPDU) : Prop :=
  match pdu_Type v with
  | OctetString => exists bs, pdu_Value v = VBytes bs
  | IPAddress | ObjectIdentifier => exists s, pdu_Value v = VString s
  | _ => True
  end.
(** An object that has nothing to do with addresses or with the map by description. *)
Definition plain_name (n : string) : bool :=
  negb (existsb (String.eqb n) [SNMP_ifDescr; SNMP_ipAdEntIfIndex; SNMP_ipAdEntNetMask; SNMP_ipv6AddrPrefix]).

Definition at_addresses (d d' : InterfaceData) : Prop := id_IPAddr d' = id_IPAddr d /\ id_AliasAddr d' = id_AliasAddr d.
(** Interfaces may come, without addresses. *)
Record keeps (st st' : Lines) : Prop := {
  kp_line idx d' : intLine st' !! idx = Some d' -> at_addresses (default (new_data idx) (intLine st !! idx)) d';
  kp_dom : dom (intLine st) ⊆ dom (intLine st');
  kp_descr : byDescription st' = byDescription st;
  kp_ifc : ifcIdx st' = ifcIdx st
}.

Lemma keeps_refl st : keeps st st.
Proof. split; [|done..]. intros idx d' E. by rewrite E. Qed.
Lemma keeps_trans st1 st2 st3 : keeps st1 st2 -> keeps st2 st3 -> keeps st1 st3.
Proof.
  intros [L1 D1 B1 C1] [L2 D2 B2 C2]. split; [|set_solver|congruence|congruence].
  intros idx d' H. destruct (L2 _ _ H) as [E1 E2]. destruct (intLine st2 !! idx) as [d|] eqn:E; cbn in *.
  - destruct (L1 _ _ E) as [F1 F2]. split; congruence.
  - assert (intLine st1 !! idx = None) as ->; [|by split].
    apply not_elem_of_dom. apply not_elem_of_dom in E. set_solver.
Qed.

Section PollSpec.
  Context `{Regexps, BigInts} (isIfSpeed : bool).

Lemma interface_value_keeps mib name v d : typed_pdu v -> exists d', interface_value isIfSpeed mib name v d = Ok d' /\ at_addresses d d'.
Proof using Type.
  intros Ht. unfold interface_value, ReadOctetString, typed_pdu, bytes_value, string_value in *.
  destruct (pdu_Type v); [|destruct Ht as [bs Hv]| | |destruct Ht as [o Hv]|]; rewrite ?Hv;
    repeat match goal with |- context [if String.eqb ?a ?b then _ else _] => destruct (String.eqb a b) end;
    (eexists; split; [reflexivity|]); by repeat case_match.
Qed.

Lemma interface_row_keeps mib oid name st v : plain_name name = true -> typed_pdu v -> exists st',
  interface_row isIfSpeed mib oid name st v = Ok st' /\ keeps st st' /\
  dom (intLine st') = from_option singleton ∅ (interface_of oid (pdu_Name v)) ∪ dom (intLine st).
Proof using Type.
  intros Hn Ht. unfold plain_name in Hn. apply negb_true_iff in Hn. cbn [existsb] in Hn.
  apply orb_false_iff in Hn as [Hn1 Hn]. apply orb_false_iff in Hn as [Hn2 Hn]. apply orb_false_iff in Hn as [Hn3 Hn].
  apply orb_false_iff in Hn as [Hn4 _]. unfold interface_row. destruct (interface_of oid (pdu_Name v)) as [i|].
  2: { exists st. split; [done|]. split; [apply keeps_refl|]. cbn. set_solver. }
  rewrite Hn2, Hn3, !andb_false_r. unfold value_row. rewrite Hn4.
  destruct (interface_value_keeps mib name v (default (new_data i) (intLine st !! i)) Ht) as (d' & -> & Hd).
  cbn [mbind outcome_bind]. eexists. split; [reflexivity|]. split.
  - split; cbn [intLine byDescription]; [| |rewrite Hn1; by destruct (pdu_Type v)|done].
    + intros idx e. rewrite lookup_insert. case_decide as Hc; [intros [= <-]; by subst|]. intros ->. done.
    + rewrite dom_insert_L. set_solver.
  - cbn [intLine from_option]. by rewrite dom_insert_L.
Qed.

Definition indices (oid : string) (l : list SnmpPDU) : gset string := list_to_set (omap (fun v => interface_of oid (pdu_Name v)) l).

Lemma interface_rows_keep mib oid name l : plain_name name = true -> Forall typed_pdu l -> forall st, exists st',
  fold_out (interface_row isIfSpeed mib oid name) st l = Ok st' /\ keeps st st' /\
  dom (intLine st') = dom (intLine st) ∪ indices oid l.
Proof using Type.
  intros Hn. induction 1 as [|v l Hv _ IH]; intros st.
  - exists st. split; [done|]. split; [apply keeps_refl|]. cbn. set_solver.
  - cbn [fold_out]. destruct (interface_row_keeps mib oid name st v Hn Hv) as (st1 & -> & Hk & Hd). cbn [mbind outcome_bind].
    destruct (IH st1) as (st2 & -> & Hk2 & Hd2). exists st2. split; [done|]. split; [by eapply keeps_trans|].
    rewrite Hd2, Hd. unfold indices. cbn [omap list_omap]. destruct (interface_of oid (pdu_Name v)); cbn; set_solver.
Qed.

Lemma walk_interfaces_ok walk im st o l : walk o.1 = Ok (Some l) ->
  walk_interfaces isIfSpeed walk im st o = fold_out (interface_row isIfSpeed (md_mibs im !! o.2) o.1 o.2) st l.
Proof using Type. intros E. unfold walk_interfaces. by rewrite E. Qed.

Lemma plain_walks walk im os : Forall (fun o => plain_name o.2 = true /\ exists l, walk o.1 = Ok (Some l) /\ Forall typed_pdu l) os ->
  forall st, exists st', fold_out (walk_interfaces isIfSpeed walk im) st os = Ok st' /\ keeps st st'.
Proof using Type.
  induction 1 as [|o os (Hn & l & Hw & Hl) _ IH]; intros st.
  - exists st. split; [done|]. apply keeps_refl.
  - cbn [fold_out]. rewrite (walk_interfaces_ok _ _ _ _ _ Hw).
    destruct (interface_rows_keep (md_mibs im !! o.2) o.1 o.2 l Hn Hl st) as (st1 & -> & Hk & _). cbn [mbind outcome_bind].
    destruct (IH st1) as (st2 & E & Hk2). exists st2. split; [exact E|]. by eapply keeps_trans.
Qed.

(** Typed values never panic, and a walk that is not answered ends the poll. *)
Lemma interface_row_total mib oid name st v : typed_pdu v -> exists st', interface_row isIfSpeed mib oid name st v = Ok st'.
Proof using Type.
  intros Ht. unfold interface_row. destruct (interface_of oid (pdu_Name v)) as [i|]; [|by eexists].
  destruct (_ && String.eqb name SNMP_ipAdEntIfIndex); [by eexists|]. destruct (_ && String.eqb name SNMP_ipAdEntNetMask).
  - unfold mask_row. destruct (pdu_Type v) eqn:E; try by eexists. unfold typed_pdu in Ht. rewrite E in Ht. destruct Ht as [m Hm].
    unfold string_value. rewrite Hm. cbn [mbind outcome_bind]. by repeat case_match; eexists.
  - unfold value_row. destruct (String.eqb name SNMP_ipv6AddrPrefix); [by eexists|].
    destruct (interface_value_keeps mib name v (default (new_data i) (intLine st !! i)) Ht) as (d' & -> & _). by eexists.
Qed.
Lemma unanswered_walk walk im os : Forall (fun o => exists a, walk o.1 = Ok a /\ from_option (Forall typed_pdu) True a) os ->
  Exists (fun o => walk o.1 = Ok None) os -> forall st, fold_out (walk_interfaces isIfSpeed walk im) st os = Err walk_error.
Proof using Type.
  induction 1 as [|o os (a & Hw & Ha) _ IH]; intros He st; [by apply Exists_nil in He|]. cbn [fold_out]. unfold walk_interfaces at 2. rewrite Hw.
  cbn [mbind outcome_bind]. destruct a as [l|]; [|done]. apply Exists_cons in He as [He|He]; [congruence|].
  assert (exists st', fold_out (interface_row isIfSpeed (md_mibs im !! o.2) o.1 o.2) st l = Ok st') as [st' ->].
  { clear IH Hw. cbn in Ha. revert st. induction Ha as [|v l Hv _ IH]; intros st; [by eexists|]. cbn [fold_out].
    destruct (interface_row_total (md_mibs im !! o.2) o.1 o.2 st v Hv) as [st1 ->]. apply IH. }
  cbn [mbind outcome_bind]. by apply IH.
Qed.

(** Without descriptions there is nothing to inherit. *)
Lemma copyInterfaces_nothing order m st : byDescription st = ∅ -> copyInterfaces order m st = intLine st.
Proof using Type.
  intros E. unfold copyInterfaces. rewrite E. generalize (order (intLine st)) as l. intros l.
  generalize (intLine st). induction l as [|i l IH]; intros line; [done|]. cbn [foldl]. rewrite <-(IH line) at 2. f_equal.
  unfold copy_interface. destruct (line !! i) as [d|] eqn:Hd; [|done].
  assert (inherit_alias ∅ line d = d) as ->.
  { unfold inherit_alias. rewrite lookup_empty. by repeat case_match. }
  unfold getUniqueLogical. rewrite lookup_empty. cbn. rewrite insert_id by done. by case_match.
Qed.

Lemma keeps_addressed st : keeps (mkLines ∅ ∅ ∅) st -> addressed (intLine st) [] [] st.
Proof using Type.
  intros [Hl _ Hb Hi]. split; [done| | |done].
  - intros idx d Hd. destruct (Hl _ _ Hd) as [E1 E2]. cbn in E1, E2. rewrite lookup_empty in E1, E2. cbn in E1, E2.
    unfold in_order, addresses. by rewrite E1, E2.
  - intros a idx. rewrite Hi. cbn. rewrite lookup_empty. split; [done|]. by intros (r & [] & _).
Qed.
Lemma prefixed_refl st : listed_prefix st [] st.
Proof using Type. split; [done| |done]. intros idx d E. exists d. split; [done|]. intros Ho. by rewrite app_nil_r. Qed.

Lemma NewInterfaceMetadata_oids speed sorted : exists extra,
  md_interfaceOids (NewInterfaceMetadata speed sorted) = SNMP_Interface_OIDS speed ++ extra /\
  Forall (fun o => exists om, In om sorted /\ o = (om.1, interface_name om.2)) extra.
Proof using Type.
  unfold NewInterfaceMetadata.
  assert (forall im, exists extra, md_interfaceOids (foldl add_interface_mib im sorted) = md_interfaceOids im ++ extra /\
    Forall (fun o => exists om, In om sorted /\ o = (om.1, interface_name om.2)) extra) as Hall; [|apply Hall].
  induction sorted as [|[oid mb] sorted IH]; intros im.
  - exists []. by rewrite app_nil_r.
  - cbn [foldl]. destruct (IH (add_interface_mib im (oid, mb))) as (extra & -> & He).
    assert (Forall (fun o => exists om, In om ((oid, mb) :: sorted) /\ o = (om.1, interface_name om.2)) extra) as He'.
    { eapply Forall_impl; [exact He|]. intros o (om & Hin & Ho). exists om. split; [by right|done]. }
    unfold add_interface_mib. cbn [md_interfaceOids]. destruct (existsb _ _); [by exists extra|].
    exists ((oid, interface_name mb) :: extra). rewrite <-app_assoc. split; [done|].
    constructor; [|done]. exists (oid, mb). split; [by left|done].
Qed.
End PollSpec.

(** C36: A poll of the interfaces of a device, of which the library gives every value the form of its
    type, ends with an error when a walk is not answered.  Otherwise it ends with interfaces: those
    of the walk of speeds have exactly the IPv4 addresses that the device lists for their index, in
    the order of the list and each with its own mask, and then their IPv6 prefixes, each with the
    mask of its length; interfaces that only other walks know have no addresses.  (No object of the
    profile takes the name of one of the four objects that are read for descriptions and addresses.) *)
Theorem Interface_Poll_addresses `{Regexps, BigInts} isIfSpeed walk ToLower order manufacturer speed sorted :
  let im := NewInterfaceMetadata speed sorted in
  (forall o, In o (md_interfaceOids im) -> exists a, walk o.1 = Ok a /\ from_option (Forall typed_pdu) True a) ->
  ((exists o, In o (md_interfaceOids im) /\ walk o.1 = Ok None) ->
     Interface_Poll isIfSpeed walk ToLower order manufacturer im = Err walk_error) /\
  forall speeds rows masks prefixes,
  (forall z, ToBigInt (VInt z) = z) -> Forall (fun om => plain_name (interface_name om.2) = true) sorted ->
  (forall o, In o (md_interfaceOids im) -> walk o.1 <> Ok None) ->
  walk speed = Ok (Some speeds) -> walk ipAdEntIfIndex_oid = Ok (Some (map index_pdu rows)) ->
  walk ipAdEntNetMask_oid = Ok (Some (map mask_pdu masks)) -> walk ipv6AddrPrefix_oid = Ok (Some (map prefix_pdu prefixes)) ->
  NoDup (map fst rows) -> Forall (fun r => is_ip r.1) rows -> Forall (fun r => is_ip r.1) masks -> Forall prefix_ok prefixes ->
  exists line, Interface_Poll isIfSpeed walk ToLower order manufacturer im = Ok line /\
    (forall idx, idx ∈ indices speed speeds -> is_Some (line !! idx)) /\
    forall idx d, line !! idx = Some d ->
      addresses d = if decide (idx ∈ indices speed speeds)
                    then map (fun r => mkIPAddr r.1 (mask_of masks r.1)) (List.filter (of_index idx) rows) ++
                         map prefix_address (List.filter (prefix_of idx) prefixes)
                    else [].
Proof.
  intros im Hwalks. split.
  { intros (o & Hin & Ho). unfold Interface_Poll. rewrite unanswered_walk; [done| |].
    - apply List.Forall_forall. exact Hwalks.
    - apply List.Exists_exists. by exists o. }
  intros speeds rows masks prefixes Hbig Hnames Hall Hspeed Hidx Hmask H6 Hn Hrows Hmasks Hprefixes. unfold Interface_Poll.
  destruct (NewInterfaceMetadata_oids speed sorted) as (extra & E & Hextra). fold im in E.
  set (rest := ("1.3.6.1.2.1.2.2.1.6", SNMP_ifPhysAddress)%string :: extra).
  assert (md_interfaceOids im = [(speed, SNMP_ifSpeed); (ipAdEntIfIndex_oid, SNMP_ipAdEntIfIndex); (ipAdEntNetMask_oid, SNMP_ipAdEntNetMask);
    (ipv6AddrPrefix_oid, SNMP_ipv6AddrPrefix)] ++ rest) as Hoids by by rewrite E.
  assert (Forall (fun o => plain_name o.2 = true /\ exists l, walk o.1 = Ok (Some l) /\ Forall typed_pdu l) rest) as Hrest.
  { apply List.Forall_forall. intros o Ho. assert (In o (md_interfaceOids im)) as Hin by (rewrite Hoids; apply in_or_app; by right).
    split; [|destruct (Hwalks o Hin) as ([l|] & Hw & Hl); [by exists l|by destruct (Hall o Hin)]].
    destruct Ho as [<-|Ho]; [done|]. apply (proj1 (List.Forall_forall _ _) Hextra) in Ho as (om & Hom & ->).
    by apply (proj1 (List.Forall_forall _ _) Hnames). }
  assert (Forall typed_pdu speeds) as Hst.
  { destruct (Hwalks (speed, SNMP_ifSpeed)) as (a & Hw & Ha); [rewrite Hoids; by left|]. cbn [fst] in Hw. rewrite Hspeed in Hw. by injection Hw as <-. }
  rewrite Hoids. clear E Hextra Hoids Hwalks Hall. clearbody rest. rewrite fold_out_app. cbn [fold_out].
  rewrite (walk_interfaces_ok _ walk im _ (speed, SNMP_ifSpeed) _ Hspeed). cbn [fst snd].
  destruct (interface_rows_keep isIfSpeed (md_mibs im !! SNMP_ifSpeed) speed SNMP_ifSpeed speeds eq_refl Hst (mkLines ∅ ∅ ∅))
    as (st1 & -> & Hk1 & Hd1). cbn [mbind outcome_bind].
  assert (addressed (intLine st1) [] [] st1) as Ha1 by by apply keeps_addressed.
  rewrite (walk_interfaces_ok _ walk im _ (ipAdEntIfIndex_oid, SNMP_ipAdEntIfIndex) _ Hidx). cbn [fst snd].
  destruct (addressed_rows Hbig isIfSpeed (md_mibs im !! SNMP_ipAdEntIfIndex) _ rows Hrows [] st1 Hn Ha1) as (st2 & -> & Ha2).
  cbn [mbind outcome_bind]. rewrite (walk_interfaces_ok _ walk im _ (ipAdEntNetMask_oid, SNMP_ipAdEntNetMask) _ Hmask). cbn [fst snd].
  destruct (addressed_masks isIfSpeed (md_mibs im !! SNMP_ipAdEntNetMask) _ rows masks Hn Hmasks [] st2 Ha2) as (st3 & -> & Ha3).
  cbn [mbind outcome_bind]. rewrite (walk_interfaces_ok _ walk im _ (ipv6AddrPrefix_oid, SNMP_ipv6AddrPrefix)%string _ H6). cbn [fst snd].
  destruct (prefix_rows Hbig isIfSpeed (md_mibs im !! SNMP_ipv6AddrPrefix) prefixes Hprefixes [] st3 st3 (prefixed_refl st3)) as (st4 & -> & Hp4).
  cbn [mbind outcome_bind]. destruct (plain_walks isIfSpeed walk im rest Hrest st4) as (st5 & -> & Hk5).
  cbn [mbind outcome_bind]. destruct Ha3 as [Hd3 Hl3 _ Hb3]. destruct Hp4 as [Hd4 Hl4 Hb4]. destruct Hk5 as [Hl5 Hd5 Hb5 _].
  rewrite copyInterfaces_nothing by congruence. eexists. split; [reflexivity|].
  assert (dom (intLine st4) = indices speed speeds) as Hdom by (rewrite Hd4, Hd3, Hd1; cbn; set_solver).
  split.
  - intros idx Hin. apply elem_of_dom. rewrite <-Hdom in Hin. by apply Hd5.
  - intros idx d Hd. destruct (Hl5 _ _ Hd) as [E1 E2]. unfold addresses at 1. rewrite E1, E2. rewrite <-Hdom.
    destruct (intLine st4 !! idx) as [d4|] eqn:E4; cbn [default].
    + rewrite decide_True by by eapply elem_of_dom_2. destruct (Hl4 _ _ E4) as (d3 & E3 & Ha). destruct (Hl3 _ _ E3) as [Ho3 He3].
      cbn [app] in He3. rewrite <-He3. by apply Ha.
    + rewrite decide_False; [done|]. by apply not_elem_of_dom.
Qed.

(** ** Witnesses *)

Definition sample_prefix : PrefixRow := mkPrefixRow "2" [32; 1; 13; 184; 0; 0; 0; 0; 0; 0; 0; 0; 0; 0; 0; 1] 64.
Definition sample_speeds : list SnmpPDU :=
  [mkPDU ("." +:+ ifHighSpeed +:+ ".1") OtherType (VInt 1000); mkPDU ("." +:+ ifHighSpeed +:+ ".2") OtherType (VInt 100)].
Definition sample_walk (oid : string) : outcome answer :=
  if String.eqb oid ifHighSpeed then Ok (Some sample_speeds)
  else if String.eqb oid ipAdEntIfIndex_oid
  then Ok (Some (map index_pdu [("10.0.0.1", 2); ("10.0.1.1", 1); ("10.0.2.1", 2); ("10.0.3.1", 7)]%string))
  else if String.eqb oid ipAdEntNetMask_oid
  then Ok (Some (map mask_pdu [("10.0.2.1", "255.255.255.0"); ("10.0.0.1", "255.0.0.0")]%string))
  else if String.eqb oid ipv6AddrPrefix_oid then Ok (Some (map prefix_pdu [sample_prefix]))
  else Ok (Some []).
(** The same device, which does not answer for hardware addresses. *)
Definition silent_walk (oid : string) : outcome answer :=
  if String.eqb oid "1.3.6.1.2.1.2.2.1.6" then Ok None else sample_walk oid.

Lemma Interface_Poll_addresses_witness :
  let _ : Regexps := fun _ => inl "bad"%string in
  let _ : BigInts := fun v => match v with VInt z => z | _ => 0 end in
  let poll walk := Interface_Poll false walk (fun s => s) (fun m => map fst (map_to_list m)) "" (NewInterfaceMetadata ifHighSpeed []) in
  (exists line, poll sample_walk = Ok line /\
    (addresses <$> line !! "2"%string) =
      Some [mkIPAddr "10.0.0.1" "255.0.0.0"; mkIPAddr "10.0.2.1" "255.255.255.0"; mkIPAddr "2001:db8::1" "ffff:ffff:ffff:ffff::"]) /\
  poll silent_walk = Err walk_error.
Proof.
  intros R B poll. split.
  - destruct (Interface_Poll_addresses false sample_walk (fun s => s) (fun m => map fst (map_to_list m)) "" ifHighSpeed []) as [_ Hok].
    { intros o [<-|[<-|[<-|[<-|[<-|[]]]]]]; eexists; (split; [reflexivity|]); cbn; repeat constructor; by eexists. }
    destruct (Hok sample_speeds [("10.0.0.1", 2); ("10.0.1.1", 1); ("10.0.2.1", 2); ("10.0.3.1", 7)]%string
      [("10.0.2.1", "255.255.255.0"); ("10.0.0.1", "255.0.0.0")]%string [sample_prefix]) as (line & E & Hs & Ha).
    + intros z. reflexivity.
    + constructor.
    + by intros o [<-|[<-|[<-|[<-|[<-|[]]]]]].
    + reflexivity.
    + reflexivity.
    + reflexivity.
    + reflexivity.
    + apply (bool_decide_unpack _). vm_compute. exact I.
    + repeat constructor; try discriminate; cbn; lia.
    + repeat constructor; try discriminate; cbn; lia.
    + constructor; [|constructor]. split; [reflexivity|vm_compute; reflexivity|split; [|reflexivity]|cbn; lia].
      repeat (constructor; [split; [discriminate|reflexivity]|]). constructor.
    + exists line. split; [exact E|]. destruct (Hs "2"%string) as [d Hd].
      { apply (bool_decide_unpack _). vm_compute. exact I. }
      rewrite Hd. cbn [fmap option_fmap option_map]. rewrite (Ha _ _ Hd). vm_compute. reflexivity.
  - apply (Interface_Poll_addresses false silent_walk (fun s => s) (fun m => map fst (map_to_list m)) "" ifHighSpeed []).
    + intros o [<-|[<-|[<-|[<-|[<-|[]]]]]]; eexists; (split; [reflexivity|]); cbn; repeat constructor; by eexists.
    + exists ("1.3.6.1.2.1.2.2.1.6", SNMP_ifPhysAddress)%string. split; [do 4 right; by left|reflexivity].
Defined.
