(* ===== verification/DeviceMetrics.v ===== *)
(** * Polling a device (src/pkg/inputs/snmp/metrics/device_metrics.go)

    A poll walks the objects of a profile and sorts what comes back into rows by index; each
    row becomes a record, after conversions, enumerations, conditions and scripts.  A walk that
    fails becomes a row of its own, so a poll never fails. *)
From Stdlib Require Import SpecFloat.
From S2P Require Import Prelude GoIO GoStrings KT Customs GoFloat IC SnmpTypes SnmpUtil SnmpConv InterfaceMetrics.

Definition KENTIK_EVENT_SNMP_DEV_METRIC : string := "KSnmpDeviceMetric".
Definition IndexVar : string := "Index".
Definition sysUpTime : string := "1.3.6.1.2.1.1.3.0".
Definition FloatMS : string := "float_ms".

Record DeviceMetrics := mkDeviceMetrics {
  dm_conf : DeviceConf;
  dm_userTags : gmap string string;
  dm_mibAndOid : string * string;
  dm_profileName : string;
  dm_oids : gmap string Mib;
  dm_missing : gmap string bool;
  dm_Missing : Z
}.

(** [NewDeviceMetrics]; [profile] is the range order of the metrics. *)
Definition NewDeviceMetrics (conf : DeviceConf) (userTags : gmap string string) (mibAndOid : string * string)
    (profile : list (string * Mib)) (profileName : string) : DeviceMetrics :=
  mkDeviceMetrics conf userTags mibAndOid profileName
    (foldl (fun m '(oid, mb) => <[dotted oid := mb]> m) ∅ profile) ∅ 0.

Definition set_dm_polled (oids : gmap string Mib) (missing : gmap string bool) (n : Z) (dm : DeviceMetrics) :
    DeviceMetrics :=
  mkDeviceMetrics (dm_conf dm) (dm_userTags dm) (dm_mibAndOid dm) (dm_profileName dm) oids missing n.

Record deviceMetricRow := mkRow {
  row_Error : string;
  customStr : gmap string string;
  customBigInt : gmap string Z
}.
Definition empty_row : deviceMetricRow := mkRow "" ∅ ∅.
Abbreviation rows := (gmap string deviceMetricRow).

Record wrapper := mkWrapper {
  w_variable : SnmpPDU;
  w_mib : Mib;
  w_oid : string
}.

(** What a poll asks of the world: the time at which an object is looked at, and the walk of
    an object, which gives the text of an error or the variables. *)
Record DWorld := mkDWorld {
  dw_now : string -> Z;
  dw_walk : string -> string + list SnmpPDU
}.

(** ** The walks *)

Record Walked := mkWalked {
  wk_oids : gmap string Mib;
  wk_missing : gmap string bool;
  wk_count : Z;
  wk_rows : rows;
  wk_results : list wrapper
}.

Definition error_row (oid e : string) : deviceMetricRow :=
  mkRow ("Walking " +:+ oid +:+ ": " +:+ e) ∅ ∅.

(** The body of the loop over the objects, in a range order. *)
Definition walk_oid (w : DWorld) (st : Walked) (o : string * Mib) : Walked :=
  let '(oid, mb) := o in
  let '(ready, mb) := IsPollReady (dw_now w oid) mb in
  let oids := <[oid := mb]> (wk_oids st) in
  if ready then
    let walkOid := if mb_WalkTable mb then mb_TableOid mb else oid in
    match dw_walk w walkOid with
    | inl e =>
        mkWalked oids (wk_missing st) (wk_count st)
          (<["err-" +:+ mb_Name mb := error_row walkOid e]> (wk_rows st)) (wk_results st)
    | inr oidResults =>
        let '(count, missing) := match oidResults with
                                 | [] => (wk_count st + 1, <[oid := true]> (wk_missing st))
                                 | _ => (wk_count st, wk_missing st)
                                 end in
        let kept := if mb_WalkTable mb
                    then filter (fun v => HasPrefix (pdu_Name v) oid = true) oidResults else oidResults in
        mkWalked oids missing count (wk_rows st)
          (wk_results st ++ map (fun v => mkWrapper v mb oid) kept)
    end
  else mkWalked oids (wk_missing st) (wk_count st) (wk_rows st) (wk_results st).

(** ** The rows *)

(** [assureDeviceMetrics]. *)
Definition assureDeviceMetrics (m : rows) (index : string) : deviceMetricRow := default empty_row (m !! index).

Definition row_index (w : wrapper) : outcome string :=
  name ← tail1 (pdu_Name (w_variable w)); Ok (GetIndex name (w_oid w)).

(** [wrapper.checkCondition]: the first result of the same index that the condition names. *)
Fixpoint find_target (mc : MibCondition) (idx : string) (results : list wrapper) : outcome bool :=
  match results with
  | [] => Ok true
  | wr :: results =>
      idxw ← row_index wr;
      if negb (String.eqb idxw idx) then find_target mc idx results
      else if String.eqb (GetName (Some (w_mib wr))) (TargetName mc)
           then Ok (Check (Some mc) (pdu_Value (w_variable wr)))
           else find_target mc idx results
  end.
Definition checkCondition (w : wrapper) (idx : string) (results : list wrapper) : outcome bool :=
  match mb_Condition (w_mib w) with
  | None => Ok true
  | Some mc => find_target mc idx results
  end.

(** A number, or a text next to a zero. *)
Definition put_text (k v : string) (row : deviceMetricRow) : deviceMetricRow :=
  mkRow (row_Error row) (<[StringPrefix +:+ k := v]> (customStr row)) (customBigInt row).
Definition put_number (k : string) (z : Z) (row : deviceMetricRow) : deviceMetricRow :=
  mkRow (row_Error row) (customStr row) (<[k := z]> (customBigInt row)).

Section Rows.
  Context `{Regexps} `{Enricher} (ToLower : string -> string) (dm : DeviceMetrics).

Definition info_of (mb : Mib) : MetricInfo :=
  mkMetricInfo (mb_Oid mb) (mb_Mib mb) "" (dm_profileName dm) (mb_Table mb) "" "" (mb_PollDur mb) None.

(** An octet string that no conversion settled. *)
Definition put_octets (mb : Mib) (oidName value : string) (row : deviceMetricRow) : deviceMetricRow :=
  match mb_Enum mb with
  | Some enum =>
      put_number oidName (default 0 (enum !! strings_ToLower ToLower value)) (put_text oidName value row)
  | None =>
      match Atoi value with
      | Some s => put_number oidName s row
      | None => put_number oidName 0 (put_text oidName value row)
      end
  end.

(** A named group of a conversion. *)
Definition put_group (row : deviceMetricRow) (kv : string * string) : deviceMetricRow :=
  let '(k, v) := kv in
  put_number k (default 0 (Atoi v)) (put_text k v row).

Definition put_value (w : wrapper) (oidName : string) (row : deviceMetricRow)
    (metrics : gmap string MetricInfo) : outcome (deviceMetricRow * gmap string MetricInfo) :=
  let v := w_variable w in
  let mb := w_mib w in
  match pdu_Type v with
  | OctetString | BitString =>
      match pdu_Value v with
      | VBytes bs =>
          if String.eqb (mb_Conversion mb) "" then Ok (put_octets mb oidName (str_of bs) row, metrics)
          else
            let '(ival, sval, mval) := GetFromConv v (mb_Conversion mb) in
            if 0 <? ival then Ok (put_number oidName ival (put_text oidName sval row), metrics)
            else
              let named := map_to_list (default ∅ mval) in
              match named with
              | [] => Ok (put_octets mb oidName sval row, metrics)
              | _ => Ok (foldl put_group row named,
                         foldl (fun ms kv => <[kv.1 := info_of mb]> ms) metrics named)
              end
      | _ => Panic "interface conversion"
      end
  | _ =>
      let value := ToInt64 (pdu_Value v) in
      let row := match mb_EnumRev mb with
                 | Some rev => put_text oidName (default InvalidEnum (rev !! value)) row
                 | None => row
                 end in
      Ok (put_number oidName value row, metrics)
  end.

(** The body of the loop over the results. *)
Definition sort_result (results : list wrapper) (st : rows * gmap string MetricInfo) (w : wrapper) :
    outcome (rows * gmap string MetricInfo) :=
  match pdu_Value (w_variable w) with
  | VNil => Ok st
  | _ =>
      idx ← row_index w;
      keep ← checkCondition w idx results;
      if (keep : bool) then
        let '(m, metrics) := st in
        let oidName := GetName (Some (w_mib w)) in
        '(row, metrics) ← put_value w oidName (assureDeviceMetrics m idx) (<[oidName := info_of (w_mib w)]> metrics);
        Ok (<[idx := row]> m, metrics)
      else Ok st
  end.

(** The loop that runs the scripts. *)
Definition script_result (results : list wrapper) (st : rows * gmap string MetricInfo) (w : wrapper) :
    outcome (rows * gmap string MetricInfo) :=
  match pdu_Value (w_variable w) with
  | VNil => Ok st
  | _ =>
      idx ← row_index w;
      keep ← checkCondition w idx results;
      match keep, mb_Script (w_mib w) with
      | true, Some script =>
          let '(m, metrics) := st in
          let row := assureDeviceMetrics m idx in
          let '(ints, strs, metrics) :=
            EnrichMetric script idx (GetName (Some (w_mib w))) (customBigInt row, customStr row, metrics) in
          Ok (<[idx := mkRow (row_Error row) strs ints]> m, metrics)
      | _, _ => Ok st
      end
  end.
End Rows.

(** ** What is computed from a row *)

Definition float32_of (z : Z) : spec_float := binary_normalize 24 128 z 0 false.

(** [int64(float32(a) / float32(b) * 100)]. *)
Definition percent32 (a b : Z) : Z :=
  int64_of_float (SFmul 24 128 (SFdiv 24 128 (float32_of a) (float32_of b)) (float32_of 100)).

Definition zero_info : MetricInfo := mkMetricInfo "" "" "" "" "" "" "" 0 None.
Definition info_at (metrics : gmap string MetricInfo) (k : string) : MetricInfo := default zero_info (metrics !! k).

(** CPU from what is idle; the information on it is what there was, or nothing. *)
Definition derive_CPU (st : gmap string Z * gmap string MetricInfo) : gmap string Z * gmap string MetricInfo :=
  let '(ints, metrics) := st in
  match ints !! "CPUIdle" with
  | Some cpui =>
      if cpui <=? 100 then (<["CPU" := (int64 (100 - cpui))%go]> ints, <["CPU" := info_at metrics "CPU"]> metrics)
      else st
  | None => st
  end.

(** The utilization of memory, from the first of four combinations of metrics that is there. *)
Definition derive_Memory (st : gmap string Z * gmap string MetricInfo) : gmap string Z * gmap string MetricInfo :=
  let '(ints, metrics) := st in
  let put used total from :=
    if 0 <? total then
      (<["MemoryUtilization" := percent32 used total]> ints,
       <["MemoryUtilization" := info_at metrics from]> metrics)
    else st in
  match ints !! "MemoryUtilization" with
  | Some _ => st
  | None =>
      match ints !! "MemoryUsed", ints !! "MemoryFree", ints !! "MemoryTotal",
            ints !! "MemoryBuffer", ints !! "MemoryCache" with
      | Some used, Some free, _, _, _ => put used (int64 (free + used))%go "MemoryFree"
      | _, Some free, Some total, _, _ => put (int64 (total - free))%go total "MemoryFree"
      | Some used, _, Some total, _, _ => put used total "MemoryTotal"
      | _, _, Some total, Some buffer, Some cache =>
          put (int64 (total - int64 (buffer + cache)))%go total "MemoryTotal"
      | _, _, _, _, _ => st
      end
  end.

Definition strings_TrimPrefix (s p : string) : string :=
  if HasPrefix s p then sdrop (String.length p) s else s.

Section Records.
  Context `{Regexps} `{Enricher} (ToLower : string -> string) (dm : DeviceMetrics).

Definition profile_message : gmap string string :=
  if String.eqb (conf_Provider (dm_conf dm)) ProviderDefault
  then {[ "profile_message"%string := DefaultProfileMessage ]} else ∅.

(** The record of a device with these maps. *)
Definition device_record (unix : Z) (strs : gmap string string) (ints : gmap string Z)
    (metrics : gmap string MetricInfo) : JCHF :=
  set_CustomMetrics (Some metrics) (set_Timestamp unix
  (set_SrcAddr (conf_DeviceIP (dm_conf dm)) (set_DeviceName (conf_DeviceName (dm_conf dm))
  (set_Provider (conf_Provider (dm_conf dm)) (set_EventType KENTIK_EVENT_SNMP_DEV_METRIC
  (set_CustomBigInt (Some ints) (set_CustomInt (Some ∅) (set_CustomStr (Some strs) NewJCHF)))))))).

(** The records of the rows, in a range order; all share one map of information on metrics,
    so each has what the last one leaves in it. *)
Definition row_record (st : list (gmap string string * gmap string Z) * gmap string MetricInfo)
    (r : string * deviceMetricRow) : list (gmap string string * gmap string Z) * gmap string MetricInfo :=
  let '(flows, metrics) := st in
  let '(idx, dmr) := r in
  let strs := <[IndexVar := strings_TrimPrefix idx "."]> (<["Error" := row_Error dmr]> (customStr dmr)) in
  let strs := profile_message ∪ strs in
  let '(ints, metrics) := derive_Memory (derive_CPU (customBigInt dmr, metrics)) in
  (flows ++ [(strs, ints)], metrics).

(** The walks of a poll. *)
Definition walked (w : DWorld) (oids : list (string * Mib)) : Walked :=
  foldl (walk_oid w) (mkWalked (dm_oids dm) (dm_missing dm) 0 ∅ []) oids.

(** [pollFromConfig]: [oids] is the range order of the objects, [order] the one of the rows. *)
Definition pollFromConfig (w : DWorld) (unix : Z) (oids : list (string * Mib))
    (order : rows -> list (string * deviceMetricRow)) : outcome (list JCHF * DeviceMetrics) :=
  let st := walked w oids in
  let dm' := set_dm_polled (wk_oids st) (wk_missing st) (wk_count st) dm in
  let '(uptime, m) := match dw_walk w sysUpTime with
                      | inl e => (0, <["uptime" := error_row sysUpTime e]> (wk_rows st))
                      | inr [] => (0, wk_rows st)
                      | inr (v :: _) => (ToInt64 (pdu_Value v), wk_rows st)
                      end in
  let metricsFound : gmap string MetricInfo :=
    {[ Uptime := mkMetricInfo sysUpTime (dm_mibAndOid dm).1 "" (dm_profileName dm) "" "" "" 0 None ]} in
  st2 ← fold_out (sort_result ToLower dm (wk_results st)) (m, metricsFound) (wk_results st);
  '(m, metricsFound) ← fold_out (script_result (wk_results st)) st2 (wk_results st);
  let '(flows, metricsFound) := foldl row_record ([], metricsFound) (order m) in
  Ok (map (fun f => device_record unix f.1 f.2 metricsFound) flows ++
      [device_record unix profile_message {[ Uptime := uptime ]} metricsFound], dm').
End Records.

(** ** Status and pings *)

Definition SNMP_GOOD : Z := 1.
Definition SNMP_BAD_POLL_TIMEOUT : Z := 6.

Definition SNMP_STATUS_MAP (status : Z) : string :=
  match status with
  | 1 => "GOOD"
  | 3 => "BAD: No data"
  | 4 => "BAD: Device Error"
  | 5 => "BAD: Interface Error"
  | 6 => "BAD: Poll Timeout"
  | 7 => "BAD: Init Metadata"
  | 8 => "BAD: Init Metrics"
  | 9 => "BAD: Metrics Poll"
  | _ => ""
  end.

(** [SnmpDeviceConfig.SetUserTags]. *)
Definition SetUserTags (tags into : gmap string string) : gmap string string := tags ∪ into.

(** [GetStatusFlows], from the value of the gauge [Fail]. *)
Definition GetStatusFlows (dm : DeviceMetrics) (unix fail : Z) : list JCHF :=
  let '(mib, oid) := dm_mibAndOid dm in
  let info := mkMetricInfo oid mib "" (dm_profileName dm) "" "" "" 0 None in
  let strs := profile_message dm ∪ SetUserTags (dm_userTags dm) ∅ in
  let reasonVal := SNMP_STATUS_MAP fail in
  let strs := match strings_Split reasonVal ": " with
              | [p0; p1] => <[StringPrefix +:+ "PollingHealthReason" := p1]>
                              (<[StringPrefix +:+ "PollingHealth" := p0]> strs)
              | _ => <[StringPrefix +:+ "PollingHealth" := reasonVal]> strs
              end in
  [device_record dm unix strs
     (<["PollingStatus" := if fail =? SNMP_GOOD then 1 else 0]> {[ "PollingHealth"%string := fail ]})
     (<["PollingStatus" := info]> {[ "PollingHealth"%string := info ]})].

(** The statistics of a round of pings; durations in nanoseconds. *)
Record Statistics := mkStatistics {
  PacketsSent : Z;
  PacketsRecv : Z;
  MinRtt : Z;
  MaxRtt : Z;
  AvgRtt : Z;
  StdDevRtt : Z
}.

(** [time.Duration.Microseconds]. *)
Definition Microseconds (d : Z) : Z := d ÷ 1000.

Definition loss_percent (s : Statistics) : float64 :=
  float64_mul (float64_div (float64_of (int64 (PacketsSent s - PacketsRecv s))%go) (float64_of (PacketsSent s)))
    (float64_of 100).

(** [GetPingStats] of a round that gave statistics, with whether every packet was lost. *)
Definition GetPingStats (dm : DeviceMetrics) (unix : Z) (s : Statistics) : list JCHF * bool :=
  let '(mib, oid) := dm_mibAndOid dm in
  let info format := mkMetricInfo oid mib "" "ping" "" format "ping" 0 None in
  if (0 <? PacketsSent s) && (PacketsRecv s <=? PacketsSent s) then
    let percnt := loss_percent s in
    let near := SFleb (SFabs (SFsub 53 1024 percnt (float64_of 99))) (float64_of 1) in
    let rtt d := if SFleb (float64_of 0) percnt && near then 0 else Microseconds d in
    let ints : gmap string Z := {[
      "MinRttMs" := rtt (MinRtt s); "MaxRttMs" := rtt (MaxRtt s); "AvgRttMs" := rtt (AvgRtt s);
      "StdDevRtt" := rtt (StdDevRtt s); "PacketsSent" := PacketsSent s; "PacketsRecv" := PacketsRecv s ]}%string in
    let metrics : gmap string MetricInfo := {[
      "MinRttMs" := info FloatMS; "MaxRttMs" := info FloatMS; "AvgRttMs" := info FloatMS;
      "StdDevRtt" := info FloatMS; "PacketsSent" := info ""; "PacketsRecv" := info "" ]}%string in
    let '(ints, metrics) :=
      if SFleb (float64_of 0) percnt then
        (<["PacketLossPct" := int64_of_float (float64_mul percnt (float64_of 1000))]> ints,
         <["PacketLossPct" := info FloatMS]> metrics)
      else (ints, metrics) in
    ([device_record dm unix (SetUserTags (dm_userTags dm) ∅) ints metrics], SFeqb percnt (float64_of 100))
  else ([], false).

(** ** The index of a row

    The name of a variable starts with a dot that is cut off before the object is looked for,
    and the object has one too, so it is not found where it stands; the arithmetic of
    [GetIndex] gives the rest all the same, because the position of what is not found is -1. *)

Lemma GetIndex_absent s p : strings_Index s p = -1 ->
  (String.length p - 1 <= String.length s)%nat -> p <> "" -> GetIndex s p = sdrop (String.length p - 1) s.
Proof.
  intros Hi Hl Hp. unfold GetIndex. rewrite Hi. destruct p as [|c p]; [done|]. cbn [String.length] in *.
  destruct (Z.ltb_spec (-1 + Z.of_nat (S (String.length p))) (Z.of_nat (String.length s))).
  - by replace (Z.to_nat (-1 + Z.of_nat (S (String.length p)))) with (S (String.length p) - 1)%nat by lia.
  - replace (S (String.length p) - 1)%nat with (String.length s) by lia.
    clear. by induction s.
Qed.

Lemma row_index_spec o idx w :
  w_oid w = "." +:+ o -> pdu_Name (w_variable w) = "." +:+ o +:+ idx ->
  strings_Index (o +:+ idx) ("." +:+ o) = -1 -> row_index w = Ok idx.
Proof.
  intros Ho Hn Hi. unfold row_index. rewrite Ho, Hn.
  change (tail1 ("." +:+ o +:+ idx)) with (Ok (o +:+ idx)). cbn [mbind outcome_bind].
  rewrite GetIndex_absent by (done || (change (String.length ("." +:+ o)) with (S (String.length o)); rewrite slength_app; lia)).
  change (String.length ("." +:+ o)) with (S (String.length o)). cbn [Nat.sub]. rewrite Nat.sub_0_r.
  by rewrite sdrop_app.
Qed.

(** ** What a poll reports

    The results of a poll as its answers in order; what fails, by the key of its row; and the
    numbers of an index, from the results that are reported under it. *)

Section Reports.
  Context (dm : DeviceMetrics).

Definition w_name (w : wrapper) : string := GetName (Some (w_mib w)).
Definition w_index (w : wrapper) : string := GetIndex (sdrop 1 (pdu_Name (w_variable w))) (w_oid w).
Definition is_nil (v : Value) : bool := match v with VNil => true | _ => false end.

(** A result as the library delivers it: it has a name, and octets are bytes. *)
Definition typed_result (w : wrapper) : Prop :=
  pdu_Name (w_variable w) <> "" /\
  (pdu_Type (w_variable w) = OctetString \/ pdu_Type (w_variable w) = BitString ->
   is_nil (pdu_Value (w_variable w)) = false -> exists bs, pdu_Value (w_variable w) = VBytes bs).

(** What is walked for an object whose time has come, and the answer. *)
Definition walk_target (o : string * Mib) : string := if mb_WalkTable o.2 then mb_TableOid o.2 else o.1.
Definition is_ready (w : DWorld) (o : string * Mib) : bool := (IsPollReady (dw_now w o.1) o.2).1.

Definition answers (w : DWorld) (o : string * Mib) : list wrapper :=
  if is_ready w o then
    match dw_walk w (walk_target o) with
    | inl _ => []
    | inr vs => map (fun v => mkWrapper v (IsPollReady (dw_now w o.1) o.2).2 o.1)
                  (filter (fun v => mb_WalkTable o.2 = true -> HasPrefix (pdu_Name v) o.1 = true) vs)
    end
  else [].

(** The text of what failed, by the key of its row; of two objects with one name the later. *)
Definition failure (walkOid e : string) : string := "Walking " +:+ walkOid +:+ ": " +:+ e.
Definition add_failure (w : DWorld) (fs : gmap string string) (o : string * Mib) : gmap string string :=
  match is_ready w o, dw_walk w (walk_target o) with
  | true, inl e => <["err-" +:+ mb_Name o.2 := failure (walk_target o) e]> fs
  | _, _ => fs
  end.
Definition failures (w : DWorld) (oids : list (string * Mib)) : gmap string string :=
  let fs := foldl (add_failure w) ∅ oids in
  match dw_walk w sysUpTime with inl e => <["uptime" := failure sysUpTime e]> fs | inr _ => fs end.
Definition uptime_of (w : DWorld) : Z :=
  match dw_walk w sysUpTime with inr (v :: _) => ToInt64 (pdu_Value v) | _ => 0 end.

(** The condition on a result holds when nothing of its index has the name it is about, or when
    the first that has it passes. *)
Definition condition_holds (results : list wrapper) (w : wrapper) : bool :=
  match mb_Condition (w_mib w) with
  | None => true
  | Some mc =>
      match List.find (fun r => String.eqb (w_index r) (w_index w) && String.eqb (w_name r) (TargetName mc)) results with
      | None => true
      | Some r => Check (Some mc) (pdu_Value (w_variable r))
      end
  end.
Definition reported (results : list wrapper) (idx : string) (w : wrapper) : bool :=
  negb (is_nil (pdu_Value (w_variable w))) && String.eqb (w_index w) idx && condition_holds results w.

Definition scripted (results : list wrapper) (idx : string) : Prop :=
  exists w, w ∈ results /\ reported results idx w = true /\ mb_Script (w_mib w) <> None.

(** *** Walks *)

Definition fail_row (e : string) : deviceMetricRow := mkRow e ∅ ∅.

Lemma IsPollReady_names now mb : mb_Name (IsPollReady now mb).2 = mb_Name mb /\
  mb_WalkTable (IsPollReady now mb).2 = mb_WalkTable mb /\ mb_TableOid (IsPollReady now mb).2 = mb_TableOid mb.
Proof. unfold IsPollReady. by repeat destruct (Z.ltb _ _), (Z.eqb _ _). Qed.

Lemma walk_oid_spec w st o :
  wk_results (walk_oid w st o) = wk_results st ++ answers w o /\
  forall fs, wk_rows st = fail_row <$> fs -> wk_rows (walk_oid w st o) = fail_row <$> add_failure w fs o.
Proof.
  destruct o as [oid mb]. unfold walk_oid, answers, add_failure, is_ready, walk_target. cbn [fst snd].
  pose proof (IsPollReady_names (dw_now w oid) mb) as (Hn & Ht & Ho).
  destruct (IsPollReady (dw_now w oid) mb) as [[] mb']; cbn [fst snd] in *; [|by rewrite app_nil_r].
  rewrite Hn, Ht, Ho. destruct (dw_walk w _) as [e|vs].
  - cbn. split; [by rewrite app_nil_r|]. intros fs ->. by rewrite fmap_insert.
  - destruct (match vs with [] => _ | _ => _ end) as [count missing]. cbn. split; [|done]. do 2 f_equal.
    destruct (mb_WalkTable mb).
    + apply list_filter_iff. naive_solver.
    + symmetry. induction vs as [|v vs IH]; [done|]. rewrite filter_cons_True by done. by rewrite IH.
Qed.

Lemma walked_spec w oids :
  wk_results (walked dm w oids) = flat_map (answers w) oids /\
  wk_rows (walked dm w oids) = fail_row <$> foldl (add_failure w) ∅ oids.
Proof.
  unfold walked. match goal with |- context [mkWalked ?a ?b 0 ∅ []] => set (st := mkWalked a b 0 ∅ []) end.
  assert (wk_rows st = fail_row <$> (∅ : gmap string string)) as Hr by (by rewrite fmap_empty).
  change (flat_map (answers w) oids) with (wk_results st ++ flat_map (answers w) oids).
  revert Hr. generalize (∅ : gmap string string) as fs. generalize st. clear st.
  induction oids as [|o oids IH]; intros st fs Hr; [by rewrite app_nil_r|]. cbn [foldl flat_map].
  destruct (walk_oid_spec w st o) as [H1 H2]. destruct (IH (walk_oid w st o) (add_failure w fs o) (H2 _ Hr)) as [-> ->].
  by rewrite H1, <-app_assoc.
Qed.

(** *** Results *)

Lemma typed_index w : typed_result w -> row_index w = Ok (w_index w).
Proof. intros [Hn _]. unfold row_index, w_index. by destruct (pdu_Name _). Qed.

Lemma checkCondition_spec results w :
  Forall typed_result results -> checkCondition w (w_index w) results = Ok (condition_holds results w).
Proof.
  intros Hr. unfold checkCondition, condition_holds. destruct (mb_Condition _) as [mc|]; [|done].
  induction Hr as [|r results Ht _ IH]; [done|]. cbn [find_target List.find]. rewrite (typed_index r Ht).
  cbn [mbind outcome_bind]. unfold w_name at 1. destruct (String.eqb (w_index r) (w_index w)); cbn [negb andb]; [|done].
  by destruct (String.eqb (GetName _) _).
Qed.

Lemma reported_index results idx w : reported results idx w = true -> w_index w = idx.
Proof. unfold reported. intros [[_ Hi]%andb_prop _]%andb_prop. by apply String.eqb_eq. Qed.

Lemma reported_nil results idx w : is_nil (pdu_Value (w_variable w)) = true -> reported results idx w = false.
Proof. unfold reported. by intros ->. Qed.

Lemma reported_iff results idx w :
  is_nil (pdu_Value (w_variable w)) = false ->
  reported results idx w = String.eqb (w_index w) idx && condition_holds results w.
Proof. unfold reported. by intros ->. Qed.

Definition ints_at (m : rows) (idx : string) : gmap string Z := customBigInt (assureDeviceMetrics m idx).
Definition error_at (m : rows) (idx : string) : string := row_Error (assureDeviceMetrics m idx).

(** A row that is written under its index, and the others. *)
Lemma row_put (m : rows) idx row idx' :
  assureDeviceMetrics (<[idx := row]> m) idx' = (if String.eqb idx idx' then row else assureDeviceMetrics m idx') /\
  (is_Some ((<[idx := row]> m) !! idx') <-> is_Some (m !! idx') \/ idx = idx').
Proof.
  unfold assureDeviceMetrics. destruct (String.eqb_spec idx idx') as [->|Hne].
  - rewrite lookup_insert_eq. split; [done|]. split; [by right|by eexists].
  - rewrite lookup_insert_ne by done. naive_solver.
Qed.
End Reports.

(** *** The loop over the results *)

Section Numbers.
  Context `{Regexps} (ToLower : string -> string) (dm : DeviceMetrics).

(** The numbers of a result, by name. *)
Definition octet_number (mb : Mib) (v : string) : Z :=
  match mb_Enum mb with
  | Some enum => default 0 (enum !! strings_ToLower ToLower v)
  | None => default 0 (Atoi v)
  end.
Definition bytes_numbers (w : wrapper) (bs : bytes) : gmap string Z :=
  if String.eqb (mb_Conversion (w_mib w)) "" then {[ w_name w := octet_number (w_mib w) (str_of bs) ]}
  else
    let '(ival, sval, mval) := GetFromConv (w_variable w) (mb_Conversion (w_mib w)) in
    if 0 <? ival then {[ w_name w := ival ]}
    else if decide (default ∅ mval = ∅) then {[ w_name w := octet_number (w_mib w) sval ]}
    else (fun v => default 0 (Atoi v)) <$> default ∅ mval.
Definition numbers (w : wrapper) : gmap string Z :=
  match pdu_Type (w_variable w), pdu_Value (w_variable w) with
  | (OctetString | BitString), VBytes bs => bytes_numbers w bs
  | _, v => {[ w_name w := ToInt64 v ]}
  end.

Definition add_numbers (results : list wrapper) (idx : string) (m : gmap string Z) (w : wrapper) : gmap string Z :=
  if reported results idx w then numbers w ∪ m else m.
Definition row_values (results : list wrapper) (idx : string) : gmap string Z :=
  foldl (add_numbers results idx) ∅ results.

Lemma put_group_ints l row :
  NoDup l.*1 -> customBigInt (foldl put_group row l) = ((fun v => default 0 (Atoi v)) <$> list_to_map l) ∪ customBigInt row
    /\ row_Error (foldl put_group row l) = row_Error row.
Proof.
  revert row. induction l as [|[k v] l IH]; intros row Hnd.
  { cbn. by rewrite fmap_empty, (left_id_L ∅ (∪)). }
  cbn in Hnd. apply NoDup_cons in Hnd as [Hk Hnd]. cbn [foldl]. destruct (IH (put_group row (k, v)) Hnd) as [-> ->].
  split; [|done]. cbn. rewrite fmap_insert, <-insert_union_l, insert_union_r; [done|].
  rewrite lookup_fmap. by rewrite not_elem_of_list_to_map_1.
Qed.

Lemma put_octets_ints mb n v row :
  customBigInt (put_octets ToLower mb n v row) = {[n := octet_number mb v]} ∪ customBigInt row /\
  row_Error (put_octets ToLower mb n v row) = row_Error row.
Proof.
  rewrite <-insert_union_singleton_l. unfold put_octets, octet_number.
  destruct (mb_Enum mb); [done|]. by destruct (Atoi v).
Qed.

Lemma put_bytes w bs row (metrics : gmap string MetricInfo) :
  exists row' metrics',
    (if String.eqb (mb_Conversion (w_mib w)) "" then Ok (put_octets ToLower (w_mib w) (w_name w) (str_of bs) row, metrics)
     else let '(ival, sval, mval) := GetFromConv (w_variable w) (mb_Conversion (w_mib w)) in
       if 0 <? ival then Ok (put_number (w_name w) ival (put_text (w_name w) sval row), metrics)
       else match map_to_list (default ∅ mval) with
            | [] => Ok (put_octets ToLower (w_mib w) (w_name w) sval row, metrics)
            | _ => Ok (foldl put_group row (map_to_list (default ∅ mval)),
                       foldl (fun ms kv => <[kv.1 := info_of dm (w_mib w)]> ms) metrics (map_to_list (default ∅ mval)))
            end) = Ok (row', metrics') /\
    customBigInt row' = bytes_numbers w bs ∪ customBigInt row /\ row_Error row' = row_Error row.
Proof.
  unfold bytes_numbers. destruct (String.eqb _ _).
  { eexists _, _. split; [done|]. apply put_octets_ints. }
  destruct (GetFromConv _ _) as [[ival sval] mval]. destruct (0 <? ival).
  { eexists _, _. split; [done|]. by rewrite <-insert_union_singleton_l. }
  destruct (decide (default ∅ mval = ∅)) as [E|E].
  { rewrite E, map_to_list_empty. eexists _, _. split; [done|]. apply put_octets_ints. }
  destruct (map_to_list (default ∅ mval)) eqn:El; [by apply map_to_list_empty_iff in El|]. rewrite <-El.
  eexists _, _. split; [done|]. pose proof (put_group_ints (map_to_list (default ∅ mval)) row (NoDup_fst_map_to_list _)) as [-> ->].
  by rewrite list_to_map_to_list.
Qed.

Lemma put_value_numbers w row metrics :
  typed_result w -> is_nil (pdu_Value (w_variable w)) = false ->
  exists row' metrics', put_value ToLower dm w (w_name w) row metrics = Ok (row', metrics') /\
    customBigInt row' = numbers w ∪ customBigInt row /\ row_Error row' = row_Error row.
Proof.
  intros [_ Hb] Hv. unfold put_value.
  destruct (pdu_Type (w_variable w)) eqn:Et.
  2,3: destruct (Hb ltac:(auto) Hv) as [bs Hbs]; rewrite Hbs; unfold numbers; rewrite Et, Hbs; apply put_bytes.
  all: unfold numbers; rewrite Et, <-insert_union_singleton_l; eexists _, _; (split; [done|]);
    by destruct (mb_EnumRev (w_mib w)).
Qed.

Lemma sort_result_spec results m metrics w :
  Forall typed_result results -> typed_result w ->
  exists m' metrics', sort_result ToLower dm results (m, metrics) w = Ok (m', metrics') /\
    forall idx, ints_at m' idx = add_numbers results idx (ints_at m idx) w /\
      error_at m' idx = error_at m idx /\
      (is_Some (m' !! idx) <-> is_Some (m !! idx) \/ reported results idx w = true).
Proof.
  intros Hr Hw. unfold sort_result, add_numbers. destruct (is_nil (pdu_Value (w_variable w))) eqn:Hv.
  { exists m, metrics. split; [by destruct (pdu_Value _)|]. intros idx. rewrite (reported_nil _ _ _ Hv). naive_solver. }
  assert (forall A (a b : A), match pdu_Value (w_variable w) with VNil => a | _ => b end = b) as Hm by (by destruct (pdu_Value _)).
  rewrite Hm, (typed_index w Hw). cbn [mbind outcome_bind]. rewrite (checkCondition_spec _ _ Hr). cbn [mbind outcome_bind].
  destruct (condition_holds results w) eqn:Hc.
  - destruct (put_value_numbers w (assureDeviceMetrics m (w_index w)) (<[w_name w := info_of dm (w_mib w)]> metrics) Hw Hv)
      as (row & ms & E & H1 & H2). unfold w_name in E. rewrite E. cbn [mbind outcome_bind]. eexists _, ms. split; [done|].
    intros idx. rewrite (reported_iff _ _ _ Hv), Hc, andb_true_r. unfold ints_at, error_at.
    destruct (row_put m (w_index w) row idx) as [-> ->].
    destruct (String.eqb_spec (w_index w) idx) as [<-|]; naive_solver.
  - exists m, metrics. split; [done|]. intros idx. rewrite (reported_iff _ _ _ Hv), Hc, andb_false_r. naive_solver.
Qed.

Lemma sort_results results l m metrics :
  Forall typed_result results -> Forall typed_result l ->
  exists m' metrics', fold_out (sort_result ToLower dm results) (m, metrics) l = Ok (m', metrics') /\
    forall idx, ints_at m' idx = foldl (add_numbers results idx) (ints_at m idx) l /\
      error_at m' idx = error_at m idx /\
      (is_Some (m' !! idx) <-> is_Some (m !! idx) \/ exists w, w ∈ l /\ reported results idx w = true).
Proof.
  intros Hr Hl. revert m metrics. induction Hl as [|w l Hw _ IH]; intros m metrics.
  { exists m, metrics. split; [done|]. intros idx. split; [done|]. split; [done|]. split; [by left|].
    intros [?|(? & []%elem_of_nil & _)]. done. }
  cbn [fold_out foldl]. destruct (sort_result_spec results m metrics w Hr Hw) as (m1 & ms1 & -> & H1).
  cbn [mbind outcome_bind]. destruct (IH m1 ms1) as (m' & ms' & -> & H2). exists m', ms'. split; [done|]. intros idx.
  destruct (H1 idx) as (E1 & E2 & E3), (H2 idx) as (F1 & F2 & F3). rewrite F1, E1, F2, E2, F3, E3.
  split; [done|]. split; [done|]. setoid_rewrite elem_of_cons. naive_solver.
Qed.
End Numbers.

(** *** The loop that runs the scripts *)

Section Scripts.
  Context `{Enricher}.

Lemma script_result_spec results m metrics w :
  Forall typed_result results -> typed_result w ->
  exists m' metrics', script_result results (m, metrics) w = Ok (m', metrics') /\
    forall idx, error_at m' idx = error_at m idx /\
      (reported results idx w = false \/ mb_Script (w_mib w) = None -> m' !! idx = m !! idx) /\
      (is_Some (m' !! idx) -> is_Some (m !! idx) \/ reported results idx w = true) /\
      (is_Some (m !! idx) -> is_Some (m' !! idx)).
Proof.
  intros Hr Hw. unfold script_result. destruct (is_nil (pdu_Value (w_variable w))) eqn:Hv.
  { exists m, metrics. split; [by destruct (pdu_Value _)|]. naive_solver. }
  assert (forall A (a b : A), match pdu_Value (w_variable w) with VNil => a | _ => b end = b) as Hm by (by destruct (pdu_Value _)).
  rewrite Hm, (typed_index w Hw). cbn [mbind outcome_bind]. rewrite (checkCondition_spec _ _ Hr). cbn [mbind outcome_bind].
  destruct (condition_holds results w) eqn:Hc; [|exists m, metrics; naive_solver].
  destruct (mb_Script (w_mib w)) as [script|]; [|exists m, metrics; naive_solver].
  destruct (EnrichMetric script _ _ _) as [[ints strs] ms]. eexists _, ms. split; [done|]. intros idx.
  rewrite (reported_iff _ _ _ Hv), Hc, andb_true_r. unfold error_at.
  match goal with |- context [<[w_index w := ?r]> m] => destruct (row_put m (w_index w) r idx) as [-> Hs] end.
  rewrite Hs. destruct (String.eqb_spec (w_index w) idx) as [<-|Hne]; [naive_solver|].
  rewrite lookup_insert_ne by done. naive_solver.
Qed.

Lemma script_results results l m metrics :
  Forall typed_result results -> Forall typed_result l ->
  exists m' metrics', fold_out (script_result results) (m, metrics) l = Ok (m', metrics') /\
    forall idx, error_at m' idx = error_at m idx /\
      ((forall w, w ∈ l -> reported results idx w = true -> mb_Script (w_mib w) = None) -> m' !! idx = m !! idx) /\
      (is_Some (m' !! idx) -> is_Some (m !! idx) \/ exists w, w ∈ l /\ reported results idx w = true) /\
      (is_Some (m !! idx) -> is_Some (m' !! idx)).
Proof.
  intros Hr Hl. revert m metrics. induction Hl as [|w l Hw _ IH]; intros m metrics; [exists m, metrics; naive_solver|].
  cbn [fold_out]. destruct (script_result_spec results m metrics w Hr Hw) as (m1 & ms1 & -> & H1).
  cbn [mbind outcome_bind]. destruct (IH m1 ms1) as (m' & ms' & -> & H2). exists m', ms'. split; [done|]. intros idx.
  destruct (H1 idx) as (E1 & E2 & E3 & E4), (H2 idx) as (F1 & F2 & F3 & F4). rewrite F1, E1. split; [done|].
  split; [|setoid_rewrite elem_of_cons; naive_solver]. intros Hs. rewrite F2 by (intros; apply Hs; [by right|done]).
  apply E2. destruct (reported results idx w) eqn:E; [right; apply Hs; [by left|done]|by left].
Qed.
End Scripts.

(** *** The loop over the rows *)

Section RowRecords.
  Context (dm : DeviceMetrics).

Definition derived (n : string) : Prop := n = "CPU" \/ n = "MemoryUtilization".

Lemma derive_keeps ints metrics n :
  ~ derived n -> (derive_Memory (derive_CPU (ints, metrics))).1 !! n = ints !! n.
Proof.
  intros Hn. unfold derived in Hn.
  assert ((derive_CPU (ints, metrics)).1 !! n = ints !! n) as <-.
  { unfold derive_CPU. destruct (ints !! "CPUIdle"); [|done]. destruct (_ <=? 100); [|done]. cbn.
    rewrite lookup_insert_ne by naive_solver. done. }
  destruct (derive_CPU (ints, metrics)) as [ints1 ms1]. cbn [fst]. unfold derive_Memory.
  assert (forall used total from, (if 0 <? total then
      (<["MemoryUtilization" := percent32 used total]> ints1, <["MemoryUtilization" := info_at ms1 from]> ms1)
    else (ints1, ms1)).1 !! n = ints1 !! n) as Hput.
  { intros used total from. destruct (0 <? total); [|done]. cbn. rewrite lookup_insert_ne by naive_solver. done. }
  destruct (ints1 !! "MemoryUtilization"); [done|].
  destruct (ints1 !! "MemoryUsed"), (ints1 !! "MemoryFree"), (ints1 !! "MemoryTotal"),
    (ints1 !! "MemoryBuffer"), (ints1 !! "MemoryCache"); first [apply Hput|done].
Qed.

Definition of_row (r : string * deviceMetricRow) (f : gmap string string * gmap string Z) : Prop :=
  f.1 !! IndexVar = Some (strings_TrimPrefix r.1 ".") /\ f.1 !! "Error" = Some (row_Error r.2) /\
  forall n, ~ derived n -> f.2 !! n = customBigInt r.2 !! n.

Lemma row_records l flows ms :
  exists new, (foldl (row_record dm) (flows, ms) l).1 = flows ++ new /\ Forall2 of_row l new.
Proof.
  revert flows ms. induction l as [|[idx row] l IH]; intros flows ms.
  { exists []. split; [by rewrite app_nil_r|constructor]. }
  cbn [foldl]. pose proof (derive_keeps (customBigInt row) ms) as Hd. unfold row_record at 2.
  destruct (derive_Memory (derive_CPU (customBigInt row, ms))) as [ints ms'] eqn:E. cbn [fst] in Hd.
  match goal with |- context [foldl _ (flows ++ [?f], ms') l] => destruct (IH (flows ++ [f]) ms') as (new & -> & Hn); exists (f :: new) end.
  rewrite <-app_assoc. split; [done|]. constructor; [|done]. unfold of_row, profile_message. cbn [fst snd].
  assert (forall k v (m : gmap string string), m !! k = Some v -> k <> "profile_message" ->
    ((if String.eqb (conf_Provider (dm_conf dm)) ProviderDefault
      then {[ "profile_message"%string := DefaultProfileMessage ]} else ∅) ∪ m) !! k = Some v) as Hk.
  { intros k v m Hm Hne. rewrite lookup_union_r; [done|]. destruct (String.eqb _ _); [by rewrite lookup_singleton_ne|done]. }
  split_and!; [apply Hk; [by rewrite lookup_insert_eq|done]| |exact Hd].
  apply Hk; [|done]. rewrite lookup_insert_ne by done. by rewrite lookup_insert_eq.
Qed.
End RowRecords.

(** ** The poll *)

Section PollProperties.
  Context `{Regexps} `{Enricher} (ToLower : string -> string) (dm : DeviceMetrics).

(** What the record of a key says: its index, what failed under it, and, when no script ran on a
    result of it, the numbers of its results. *)
Definition describes (w : DWorld) (oids : list (string * Mib)) (key : string) (j : JCHF) : Prop :=
  gomap_find (CustomStr j) IndexVar = Some (strings_TrimPrefix key ".") /\
  gomap_find (CustomStr j) "Error" = Some (default "" (failures w oids !! key)) /\
  (~ scripted (flat_map (answers w) oids) key ->
   forall n, ~ derived n -> gomap_find (CustomBigInt j) n = row_values ToLower (flat_map (answers w) oids) key !! n).

Lemma fail_rows (fs : gmap string string) key :
  ints_at (fail_row <$> fs) key = ∅ /\ error_at (fail_row <$> fs) key = default "" (fs !! key) /\
  (is_Some ((fail_row <$> fs) !! key) <-> is_Some (fs !! key)).
Proof.
  unfold ints_at, error_at, assureDeviceMetrics. rewrite !lookup_fmap, fmap_is_Some. by destruct (fs !! key).
Qed.

Lemma Forall2_both {A B} (P : A -> Prop) (Q : A -> B -> Prop) l k :
  Forall P l -> Forall2 Q l k -> Forall2 (fun x y => P x /\ Q x y) l k.
Proof. intros HP. induction 1; constructor; inversion HP; auto. Qed.

Lemma in_rows (l : list (string * deviceMetricRow)) m key :
  l ≡ₚ map_to_list m -> (key ∈ l.*1 <-> is_Some (m !! key)).
Proof.
  intros ->. rewrite list_elem_of_fmap. split.
  - intros ([k r] & -> & Hin%elem_of_map_to_list). by exists r.
  - intros [r Hr]. exists (key, r). split; [done|]. by apply elem_of_map_to_list.
Qed.

(** The rows after both loops over the results. *)
Lemma poll_rows w oids info :
  let results := flat_map (answers w) oids in
  Forall typed_result results ->
  exists m metrics, (st2 ← fold_out (sort_result ToLower dm results) (fail_row <$> failures w oids, info) results;
                     fold_out (script_result results) st2 results) = Ok (m, metrics) /\
    forall key, (is_Some (m !! key) <-> is_Some (failures w oids !! key) \/
                   exists r, r ∈ results /\ reported results key r = true) /\
      error_at m key = default "" (failures w oids !! key) /\
      (~ scripted results key -> ints_at m key = row_values ToLower results key).
Proof.
  intros results Ht.
  destruct (sort_results ToLower dm results results (fail_row <$> failures w oids) info Ht Ht) as (m1 & ms1 & -> & H1).
  cbn [mbind outcome_bind]. destruct (script_results results results m1 ms1 Ht Ht) as (m2 & ms2 & -> & H2).
  exists m2, ms2. split; [done|]. intros key. destruct (fail_rows (failures w oids) key) as (F1 & F2 & F3).
  destruct (H1 key) as (Hi & He & Hs1), (H2 key) as (He2 & Hk & Hs2 & Hs3). rewrite F3 in Hs1.
  split; [naive_solver|]. split; [congruence|]. intros Hn. unfold ints_at, assureDeviceMetrics. rewrite Hk.
  - fold (assureDeviceMetrics m1 key). fold (ints_at m1 key). by rewrite Hi, F1.
  - intros r Hr Hrep. destruct (mb_Script (w_mib r)) eqn:E; [|done]. destruct Hn. exists r. by rewrite E.
Qed.

(** C26: a poll of a device ends, whatever walks fail and whatever conditions, conversions,
    enumerations and scripts its objects have, and its records are exactly these: one for each
    walk that failed, with the text of the failure (of objects with one name the last); one for
    each index with a result that is reported, that is one which is not empty and whose
    condition, if it has one, is met by the first result of the index with the name the
    condition is about, or nothing has; and last the one of the device, with the time since it
    started, zero if it could not be had.  The numbers of an index on which no script ran are
    those of its reported results, a later one in the place of an earlier one of the name, apart
    from the two that are computed from others.  For results with names whose octets are bytes,
    and any order of the objects and the rows. *)
Theorem pollFromConfig_reports w unix oids order :
  Forall typed_result (flat_map (answers w) oids) ->
  (forall m, order m ≡ₚ map_to_list m) ->
  exists keys recs last dm', pollFromConfig ToLower dm w unix oids order = Ok (recs ++ [last], dm') /\
    NoDup keys /\
    (forall key, key ∈ keys <-> is_Some (failures w oids !! key) \/
       exists r, r ∈ flat_map (answers w) oids /\ reported (flat_map (answers w) oids) key r = true) /\
    Forall2 (describes w oids) keys recs /\
    CustomBigInt last = Some {[ Uptime := uptime_of w ]}.
Proof.
  intros Ht Ho. unfold pollFromConfig. destruct (walked_spec dm w oids) as [-> ->].
  assert (match dw_walk w sysUpTime with
          | inl e => (0, <["uptime" := error_row sysUpTime e]> (fail_row <$> foldl (add_failure w) ∅ oids))
          | inr [] => (0, fail_row <$> foldl (add_failure w) ∅ oids)
          | inr (v :: _) => (ToInt64 (pdu_Value v), fail_row <$> foldl (add_failure w) ∅ oids)
          end = (uptime_of w, fail_row <$> failures w oids)) as ->.
  { unfold uptime_of, failures. destruct (dw_walk w sysUpTime) as [e|[|v vs]]; [|done|done]. by rewrite fmap_insert. }
  match goal with |- context [fold_out _ (_, ?i) _] => destruct (poll_rows w oids i Ht) as (m & ms & E & Hm) end.
  destruct (fold_out (sort_result _ _ _) _ _) as [st2| | |]; [|done..]. cbn [mbind outcome_bind] in E |- *.
  rewrite E. cbn [mbind outcome_bind].
  destruct (row_records dm (order m) [] ms) as (new & Hn & Hf).
  destruct (foldl (row_record dm) ([], ms) (order m)) as [flows ms3]. cbn in Hn. subst flows.
  exists (order m).*1. eexists _, _, _. split; [reflexivity|]. split; [|split; [|split; [|done]]].
  - rewrite Ho. apply NoDup_fst_map_to_list.
  - intros key. rewrite in_rows by done. apply Hm.
  - apply Forall2_fmap. apply (Forall2_both (fun r => m !! r.1 = Some r.2)) in Hf.
    + apply (Forall2_impl _ _ _ _ Hf). intros [key row] [strs ints] [Hr (Hs & He & Hi)]. cbn [fst snd] in *.
      destruct (Hm key) as (_ & Her & Hnum). unfold error_at, ints_at, assureDeviceMetrics in *. rewrite Hr in *.
      split; [exact Hs|]. split; [by rewrite <-Her|]. intros Hsc n Hd. rewrite <-(Hnum Hsc). by apply Hi.
    + apply Forall_forall. intros [k r] Hr. rewrite Ho in Hr. by apply elem_of_map_to_list.
Qed.
End PollProperties.

Section Witnesses.
#[local] Instance sample_regexps : Regexps := fun _ => inl "none"%string.
#[local] Instance sample_scripts : Enricher := fun _ _ _ row => row.

Definition sample_dmib (name conversion : string) (condition : option MibCondition) : Mib :=
mkMib "1.2" name "" (if String.eqb conversion "" then Some {[ "ok"%string := 7 ]} else None) None conversion "X-MIB" "t" 0 0 None "" condition None false "".
Definition on_state (z : Z) : option MibCondition := Some (mkMibCondition "State" z "").
Definition sample_doids : list (string * Mib) :=
[(".1.2", sample_dmib "fan" "" None); (".1.3", sample_dmib "lost" "" None);
 (".1.4", sample_dmib "CPUIdle" "" (on_state 1)); (".1.5", sample_dmib "speed" "" (on_state 2));
 (".1.6", sample_dmib "State" "" None); (".1.7", sample_dmib "id" "hextoint:BigEndian:uint16" None)]%string.
Definition sample_dm : DeviceMetrics :=
NewDeviceMetrics (mkDeviceConf "p" "d" "10.0.0.1") ∅ ("m", "o")%string
  (map (fun o => (sdrop 1 o.1, o.2)) sample_doids) "profile".
Definition sample_dworld : DWorld :=
mkDWorld (fun _ => 0) (fun oid =>
  if String.eqb oid ".1.2" then inr [mkPDU ".1.2.5" OctetString (VBytes [79; 75])]
  else if String.eqb oid ".1.4" then inr [mkPDU ".1.4.5" OtherType (VInt 30)]
  else if String.eqb oid ".1.5" then inr [mkPDU ".1.5.5" OtherType (VInt 100)]
  else if String.eqb oid ".1.6" then inr [mkPDU ".1.6.5" OtherType (VInt 1); mkPDU ".1.6.9" OtherType VNil]
  else if String.eqb oid ".1.7" then inr [mkPDU ".1.7.5" OctetString (VBytes [1; 2])]
  else inl "timeout"%string).
Definition sample_keys : list string := [".5"; "err-lost"; "uptime"]%string.

Lemma pollFromConfig_reports_witness :
exists keys recs last dm', pollFromConfig id sample_dm sample_dworld 0 sample_doids map_to_list =
    Ok (recs ++ [last], dm') /\
  NoDup keys /\
  (forall key, key ∈ keys <-> is_Some (failures sample_dworld sample_doids !! key) \/
     exists r, r ∈ flat_map (answers sample_dworld) sample_doids /\
       reported (flat_map (answers sample_dworld) sample_doids) key r = true) /\
  Forall2 (describes id sample_dworld sample_doids) keys recs /\
  CustomBigInt last = Some {[ Uptime := uptime_of sample_dworld ]}.
Proof.
refine (pollFromConfig_reports id sample_dm sample_dworld 0 sample_doids map_to_list _ _).
- repeat (constructor; [split; [done|intros [E|E] Hv; first [discriminate E|discriminate Hv|by eexists]]|]).
  constructor.
- done.
Defined.

(** What the records of that poll have to say: a failure each for the lost object and the time
  since the start, and for the index [.5] the state, the enumeration of what the fan said, an
  integer from two bytes and the idle share of the CPU, for which the state has to be 1, but
  not the speed, for which it has to be 2; the empty state of [.9] makes no record. *)
Example sample_meant :
(map (fun key => failures sample_dworld sample_doids !! key) sample_keys,
 map (fun key => map_to_list (row_values id (flat_map (answers sample_dworld) sample_doids) key)) sample_keys)
= ([None; Some "Walking .1.3: timeout"; Some "Walking 1.3.6.1.2.1.1.3.0: timeout"],
   [[("State", 1); ("CPUIdle", 30); ("id", 258); ("fan", 7)]; []; []])%string.
Proof. vm_compute. reflexivity. Qed.

(** The records of the poll, with one for the walk that failed; the CPU is computed from what
  is idle, but nothing is said about it: its information is empty in every record. *)
Example sample_records :
match pollFromConfig id sample_dm sample_dworld 0 sample_doids map_to_list with
| Ok (flows, _) =>
    map (fun j => (gomap_find (CustomStr j) "Error", gomap_find (CustomBigInt j) "CPU",
                   mi_Mib <$> gomap_find (CustomMetrics j) "CPU")) flows
| _ => []
end ≡ₚ [(Some "Walking .1.3: timeout", None, Some ""); (Some "", Some 70, Some "");
        (Some ("Walking " +:+ sysUpTime +:+ ": timeout"), None, Some ""); (None, None, Some "")]%string.
Proof.
match goal with |- ?l ≡ₚ _ => let x := eval vm_compute in l in change l with x end. solve_Permutation.
Qed.
End Witnesses.
