(* ===== verification/Poller.v ===== *)
(** * The loop of polls (src/pkg/inputs/snmp/metrics/poll.go)

    A device is polled once in each block of its interval.  A poll that starts or, if asked
    for, ends in another block than the one it was scheduled for is dropped, and so is one that
    failed; each time the counters are forgotten.  Times are nanoseconds since the zero time. *)
From S2P Require Import Prelude GoIO GoStrings KT Customs SnmpTypes Counters SnmpUtil SnmpConv InterfaceMetrics DeviceMetrics.

(** What is put on the channel of records: the records of a poll, or of the status of one. *)
Inductive Sent :=
| Polled (flows : list JCHF)
| Status (flows : list JCHF).

Record Poller := mkPoller {
  p_im : InterfaceMetrics;
  p_dm : DeviceMetrics;
  p_counterTimeSec : Z;
  p_pollTimeout : Z;
  p_dropIfOutside : bool;
  p_Fail : Z;
  p_jchfChan : list Sent
}.

(** The fields of a configuration that set up a poller. *)
Record PollConf := mkPollConf {
  pc_PollTimeSec : Z;
  pc_PollTimeoutSec : Z;
  pc_DropIfOutside : bool
}.

(** [NewPoller] with a profile: [minCounterTime] is the third result of its [GetMetrics], the
    lists are its maps of metrics in their range orders. *)
Definition NewPoller (gconf : PollConf) (conf_poll : PollConf) (conf : DeviceConf) (userTags : gmap string string)
    (mibAndOid : string * string) (profileName : string) (deviceMibs interfaceMibs : list (string * Mib))
    (oids : list (string * string)) (minCounterTime : Z) : Poller :=
  let rate := GetPollRate (Some (pc_PollTimeSec gconf)) (Some (pc_PollTimeSec conf_poll)) in
  let counterTimeSec := if rate =? minCounterTime then rate else minCounterTime in
  mkPoller (NewInterfaceMetrics conf interfaceMibs oids profileName counterTimeSec)
    (NewDeviceMetrics conf userTags mibAndOid deviceMibs profileName) counterTimeSec
    (GetPollTimeout (Some (pc_PollTimeoutSec gconf)) (Some (pc_PollTimeoutSec conf_poll)) counterTimeSec)
    ((0 <? pc_PollTimeSec gconf) && pc_DropIfOutside gconf) SNMP_GOOD [].

Definition set_im (im : InterfaceMetrics) (p : Poller) : Poller :=
  mkPoller im (p_dm p) (p_counterTimeSec p) (p_pollTimeout p) (p_dropIfOutside p) (p_Fail p) (p_jchfChan p).
Definition set_dm (dm : DeviceMetrics) (p : Poller) : Poller :=
  mkPoller (p_im p) dm (p_counterTimeSec p) (p_pollTimeout p) (p_dropIfOutside p) (p_Fail p) (p_jchfChan p).
Definition set_Fail (v : Z) (p : Poller) : Poller :=
  mkPoller (p_im p) (p_dm p) (p_counterTimeSec p) (p_pollTimeout p) (p_dropIfOutside p) v (p_jchfChan p).
Definition send (s : Sent) (p : Poller) : Poller :=
  mkPoller (p_im p) (p_dm p) (p_counterTimeSec p) (p_pollTimeout p) (p_dropIfOutside p) (p_Fail p) (p_jchfChan p ++ [s]).

Definition discard (p : Poller) : Poller := set_im (DiscardDeltaState (p_im p)) p.

(** What a poll meets: the walks, clocks and range orders of the device's part and of the
    interfaces' part. *)
Record PollInput := mkPollInput {
  pi_device : DWorld;
  pi_unix : Z;
  pi_deviceOids : list (string * Mib);
  pi_rowOrder : rows -> list (string * deviceMetricRow);
  pi_world : World;
  pi_ranges : Ranges;
  pi_oids : list (string * string)
}.

(** [time.Time.Truncate]. *)
Definition Truncate (t d : Z) : Z := if d <=? 0 then t else t - t mod d.

Inductive Event :=
| CounterTick (scheduledTime startTime endTime : Z) (input : PollInput)
| StatusTick (unix : Z).

Section Loop.
  Context `{Regexps} `{Enricher} (ToLower : string -> string).

(** [Poller.Poll]: the device's part never fails, so only the interfaces' part can. *)
Definition Poller_Poll (p : Poller) (x : PollInput) : outcome (Poller * option (list JCHF)) :=
  '(deviceFlows, dm) ← pollFromConfig ToLower (p_dm p) (pi_device x) (pi_unix x) (pi_deviceOids x) (pi_rowOrder x);
  let p := set_dm dm p in
  let '(im, res) := Poll (p_im p) (pi_world x) (pi_ranges x) (pi_oids x) deviceFlows in
  let p := set_im im p in
  match res with
  | Ok flows =>
      let flows := flows ++ deviceFlows in
      match flows with
      | [] => Ok (set_Fail SNMP_BAD_POLL_TIMEOUT p, Some [])
      | _ => Ok (set_Fail SNMP_GOOD p, Some flows)
      end
  | Err _ => Ok (set_Fail SNMP_BAD_POLL_TIMEOUT p, None)
  | Panic why => Panic why
  | OutOfFuel => OutOfFuel
  end.

Definition alignment (p : Poller) : Z := p_counterTimeSec p * 1000000000.

(** The block of a time is the one of the schedule. *)
Definition same_block (p : Poller) (t scheduled : Z) : bool :=
  Truncate t (alignment p) =? Truncate scheduled (alignment p).

(** The body of the loop of [StartLoop]. *)
Definition loop_step (p : Poller) (e : Event) : outcome Poller :=
  match e with
  | StatusTick unix => Ok (send (Status (GetStatusFlows (p_dm p) unix (p_Fail p))) p)
  | CounterTick scheduledTime startTime endTime x =>
      if negb (same_block p startTime scheduledTime) then
        Ok (set_Fail SNMP_BAD_POLL_TIMEOUT (discard p))
      else
        '(p, res) ← Poller_Poll p x;
        match res with
        | None => Ok (discard p)
        | Some flows =>
            if p_dropIfOutside p && negb (same_block p endTime scheduledTime) then Ok (discard p)
            else Ok (send (Polled flows) p)
        end
  end.

Definition StartLoop (p : Poller) (es : list Event) : outcome Poller := fold_out loop_step p es.

(** ** What the loop reports *)

Definition polled (l : list Sent) : list (list JCHF) :=
  omap (fun s => match s with Polled flows => Some flows | Status _ => None end) l.

(** The readings of the interfaces in a poll, and whether a walk failed. *)
Definition im_readings (p : Poller) (x : PollInput) : list Reading := (poll_readings (pi_world x) (oidMibMap (p_im p)) (pi_oids x)).1.1.
Definition im_failed (p : Poller) (x : PollInput) : bool := (poll_readings (pi_world x) (oidMibMap (p_im p)) (pi_oids x)).2.

(** A poll that is dropped. *)
Definition lost (p : Poller) (scheduled start end_ : Z) (x : PollInput) : bool :=
  negb (same_block p start scheduled) || im_failed p x ||
  p_dropIfOutside p && negb (same_block p end_ scheduled).

(** The input lists the maps it is about, and the device's part does not panic. *)
Definition input_ok (p : Poller) (x : PollInput) : Prop :=
  fair (pi_ranges x) /\ pi_oids x ≡ₚ map_to_list (oidMap (p_im p)) /\
  exists flows dm, pollFromConfig ToLower (p_dm p) (pi_device x) (pi_unix x) (pi_deviceOids x) (pi_rowOrder x) = Ok (flows, dm).

(** The readings of the counter [n] of the interface [i] over a run: one for every tick, none
    for a poll that is dropped. *)
Fixpoint observes (i n : string) (p : Poller) (es : list Event) (readings : list (option Z)) : Prop :=
  match es with
  | [] => readings = []
  | e :: es =>
      match e with
      | StatusTick _ =>
          match loop_step p e with Ok p' => observes i n p' es readings | _ => True end
      | CounterTick scheduled start end_ x =>
          exists r rs, readings = r :: rs /\ input_ok p x /\
            match r with
            | None => lost p scheduled start end_ x = true
            | Some v => lost p scheduled start end_ x = false /\ once i n v (im_readings p x)
            end /\
            match loop_step p e with Ok p' => observes i n p' es rs | _ => True end
      end
  end.

(** The batch holds a record of the interface with this value of the counter. *)
Definition reports (i n : string) (batch : list JCHF) (g : Z) : Prop :=
  exists j, j ∈ batch /\ InputPort j = port_of i /\ gomap_find (CustomBigInt j) n = Some (swrap 64 g).

Context (i n : string) (Hi : i <> AllDeviceInterface) (Hn : ~ special n).

Record poller_ok (p : Poller) : Prop := {
  pok_im : im_ok (p_im p);
  pok_scripts : scripts_keep (p_im p) n
}.

(** The fields that do not matter to the interfaces. *)
Lemma discard_ok p : poller_ok p -> poller_ok (discard p) /\ stored (intValues (p_im (discard p))) i n = None.
Proof using Type.
  intros [[Hc Hnm Ho] Hs]. split; [|done]. split; [|exact Hs]. constructor; [apply map_Forall_empty|exact Hnm|exact Ho].
Qed.

Lemma oidMap_Poll im w r oids dms : oidMap (Poll im w r oids dms).1 = oidMap im.
Proof using Type.
  rewrite Poll_unfold. destruct (poll_readings w (oidMibMap im) oids) as [[rds mibs'] [|]]; done.
Qed.

Lemma Poller_Poll_spec p x :
  poller_ok p -> input_ok p x ->
  exists p' res, Poller_Poll p x = Ok (p', res) /\ poller_ok p' /\
    p_jchfChan p' = p_jchfChan p /\ p_dropIfOutside p' = p_dropIfOutside p /\
    p_counterTimeSec p' = p_counterTimeSec p /\ oidMap (p_im p') = oidMap (p_im p) /\
    if im_failed p x then res = None
    else exists flows, res = Some flows /\
      forall v, once i n v (im_readings p x) ->
        stored (intValues (p_im p')) i n = Some v /\
        reports i n flows (growth (stored (intValues (p_im p)) i n) v).
Proof using Hi Hn.
  intros [Hok Hs] (Hf & Ho & deviceFlows & dm & Hd). unfold Poller_Poll. rewrite Hd. cbn [mbind outcome_bind].
  change (p_im (set_dm dm p)) with (p_im p).
  pose proof (Poll_ok (p_im p) (pi_world x) (pi_ranges x) (pi_oids x) deviceFlows Hok) as Hok'.
  pose proof (Poll_scripts (p_im p) (pi_world x) (pi_ranges x) (pi_oids x) deviceFlows n Hs) as Hs'.
  pose proof (oidMap_Poll (p_im p) (pi_world x) (pi_ranges x) (pi_oids x) deviceFlows) as Hm.
  unfold im_failed, im_readings. destruct (poll_readings _ _ _).2 eqn:He.
  - pose proof (Poll_error (p_im p) (pi_world x) (pi_ranges x) (pi_oids x) deviceFlows He) as Hr.
    destruct (Poll _ _ _ _ _) as [im res]. cbn [fst snd] in *. subst res.
    eexists _, None. split; [done|]. by split_and!.
  - destruct (Poll_spec (p_im p) (pi_world x) (pi_ranges x) (pi_oids x) deviceFlows Hok Hf Ho He) as (flows & Hr & Hspec).
    destruct (Poll _ _ _ _ _) as [im res]. cbn [fst snd] in *. subst res.
    assert (forall v, once i n v (poll_readings (pi_world x) (oidMibMap (p_im p)) (pi_oids x)).1.1 ->
      stored (intValues im) i n = Some v /\ reports i n (flows ++ deviceFlows) (growth (stored (intValues (p_im p)) i n) v)) as Hv.
    { intros v Hv. destruct (Hspec i n v Hi Hn Hs Hv) as (H1 & j & Hj & Hp & Hg). split; [done|].
      exists j. split; [|done]. apply elem_of_app. by left. }
    destruct (flows ++ deviceFlows) as [|j l] eqn:E; (eexists _, (Some _); split; [done|]; split_and!; try done);
      by eexists.
Qed.

Lemma observes_tick p p' scheduled start end_ x r rs es :
  input_ok p x ->
  match r with
  | None => lost p scheduled start end_ x = true
  | Some v => lost p scheduled start end_ x = false /\ once i n v (im_readings p x)
  end ->
  loop_step p (CounterTick scheduled start end_ x) = Ok p' -> observes i n p' es rs ->
  observes i n p (CounterTick scheduled start end_ x :: es) (r :: rs).
Proof using Type. intros Hin Hr Hs Ho. cbn [observes]. exists r, rs. by rewrite Hs. Qed.

Lemma tick_lost p scheduled start end_ x :
  poller_ok p -> input_ok p x -> lost p scheduled start end_ x = true ->
  exists p', loop_step p (CounterTick scheduled start end_ x) = Ok p' /\ poller_ok p' /\
    stored (intValues (p_im p')) i n = None /\ p_jchfChan p' = p_jchfChan p.
Proof using Hi Hn.
  intros Hok Hin Hl. unfold lost in Hl. cbn [loop_step]. destruct (same_block p start scheduled) eqn:Hs; cbn [negb].
  - cbn in Hl. destruct (Poller_Poll_spec p x Hok Hin) as (p1 & res & -> & Hok1 & Hc & Hd & Ht & _ & Hres).
    cbn [mbind outcome_bind]. destruct (im_failed p x).
    + subst res. eexists. split; [done|]. destruct (discard_ok p1 Hok1). by split_and!.
    + destruct Hres as (flows & -> & _). cbn in Hl.
      assert (same_block p1 end_ scheduled = same_block p end_ scheduled) as -> by (unfold same_block, alignment; by rewrite Ht).
      rewrite Hd, Hl. eexists. split; [done|]. destruct (discard_ok p1 Hok1). by split_and!.
  - eexists. split; [done|]. destruct (discard_ok p Hok) as [[H1 H2] H3]. by split_and!.
Qed.

Lemma tick_kept p scheduled start end_ x v :
  poller_ok p -> input_ok p x -> lost p scheduled start end_ x = false -> once i n v (im_readings p x) ->
  exists p' flows, loop_step p (CounterTick scheduled start end_ x) = Ok p' /\ poller_ok p' /\
    stored (intValues (p_im p')) i n = Some v /\ p_jchfChan p' = p_jchfChan p ++ [Polled flows] /\
    reports i n flows (growth (stored (intValues (p_im p)) i n) v).
Proof using Hi Hn.
  intros Hok Hin Hl Ho. unfold lost in Hl. apply orb_false_iff in Hl as [Hl H3]. apply orb_false_iff in Hl as [H1 H2].
  cbn [loop_step]. rewrite H1. destruct (Poller_Poll_spec p x Hok Hin) as (p1 & res & -> & Hok1 & Hc & Hd & Ht & _ & Hres).
  cbn [mbind outcome_bind]. rewrite H2 in Hres. destruct Hres as (flows & -> & Hv). destruct (Hv v Ho) as [Hst Hr].
  assert (same_block p1 end_ scheduled = same_block p end_ scheduled) as -> by (unfold same_block, alignment; by rewrite Ht).
  rewrite Hd, H3. eexists _, flows. split; [done|]. destruct Hok1 as [Ha Hb]. split_and!; try done.
  cbn. by rewrite Hc.
Qed.

(** C25: the loop of a device's polls goes on whatever is polled, and what it sends counts each
    interface right: over any run of polls, failed ones and late ones among them, the batches
    that are sent carry for a counter of an interface the growth since the reading before,
    which is nothing for the first reading after a poll that was lost or when the counter
    fell. *)
Theorem StartLoop_counts p es readings :
  poller_ok p -> observes i n p es readings ->
  exists p' batches, StartLoop p es = Ok p' /\
    polled (p_jchfChan p') = polled (p_jchfChan p) ++ batches /\
    Forall2 (reports i n) batches (growths (stored (intValues (p_im p)) i n) readings).
Proof using Hi Hn.
  revert p readings. induction es as [|e es IH]; intros p readings Hok Hobs.
  { cbn in Hobs. subst readings. exists p, []. by rewrite app_nil_r. }
  unfold StartLoop in *. cbn [fold_out]. destruct e as [scheduled start end_ x|unix].
  - destruct Hobs as (r & rs & -> & Hin & Hr & Hobs). destruct r as [v|].
    + destruct Hr as [Hl Ho]. destruct (tick_kept p _ _ _ x v Hok Hin Hl Ho) as (p1 & flows & Hstep & Hok1 & Hst & Hc & Hrep).
      rewrite Hstep in Hobs |- *. cbn [mbind outcome_bind]. destruct (IH p1 rs Hok1 Hobs) as (p' & batches & -> & Hb & Hf).
      exists p', (flows :: batches). split; [done|]. split.
      * rewrite Hb, Hc. unfold polled. rewrite omap_app. cbn. by rewrite <- app_assoc.
      * rewrite Hst in Hf. by constructor.
    + destruct (tick_lost p _ _ _ x Hok Hin Hr) as (p1 & Hstep & Hok1 & Hst & Hc).
      rewrite Hstep in Hobs |- *. cbn [mbind outcome_bind]. destruct (IH p1 rs Hok1 Hobs) as (p' & batches & -> & Hb & Hf).
      exists p', batches. rewrite Hb, Hc. rewrite Hst in Hf. by split_and!.
  - cbn [observes loop_step] in Hobs. cbn [loop_step mbind outcome_bind].
    set (p1 := send _ p) in *. assert (poller_ok p1) as Hok1 by (destruct Hok; by constructor).
    destruct (IH p1 readings Hok1 Hobs) as (p' & batches & -> & Hb & Hf).
    exists p', batches. split; [done|]. split; [|exact Hf]. rewrite Hb. unfold polled. cbn. by rewrite omap_app, app_nil_r.
Qed.
End Loop.

(** ** Witnesses *)

Section Witnesses.
#[local] Instance sample_regexps : Regexps := fun _ => inl "none"%string.
#[local] Instance sample_scripts : Enricher := fun _ _ _ row => row.

Definition sample_oid : string := "1.3.6.1.2.1.31.1.1.1.6".
Definition sample_mib : Mib :=
mkMib sample_oid "ifHCInOctets" "" None None "" "IF-MIB" "if" 0 0 None "" None None false "".

Definition sample_poller : Poller :=
NewPoller (mkPollConf 60 0 true) (mkPollConf 0 0 false) (mkDeviceConf "p" "d" "10.0.0.1") ∅ ("m", "o")%string
  "profile" [] [(sample_oid, sample_mib)] (map_to_list (make_oidMap [(sample_oid, sample_mib)])) 60.

Definition sample_device : DWorld := mkDWorld (fun _ => 0) (fun _ => inr []).

Definition sample_input (v : Z) : PollInput :=
mkPollInput sample_device 0 [] map_to_list
  (mkWorld (fun _ => 0) (fun oid => Some [mkVariable (oid +:+ ".7") OtherType v]))
  (mkRanges map_to_list map_to_list (fun m => (map_to_list m).*1) (fun _ => 0))
  (map_to_list (make_oidMap [(sample_oid, sample_mib)])).

Definition minute (k : Z) : Z := k * 60000000000.

(** Three polls on time, of which the third finds a smaller value, and one that starts late. *)
Definition sample_tick (k v : Z) : Event := CounterTick (minute k) (minute k + 1) (minute k + 2) (sample_input v).
Definition sample_events : list Event :=
[sample_tick 1 100; sample_tick 2 150;
 CounterTick (minute 3) (minute 4) (minute 4) (sample_input 170); sample_tick 5 190; sample_tick 6 260; sample_tick 7 20].

Definition sample_after (k : nat) : Poller :=
match StartLoop id sample_poller (take k sample_events) with Ok p => p | _ => sample_poller end.

Example sample_run :
map (fun f => map (fun j => gomap_find (CustomBigInt j) "ifHCInOctets") f) (polled (p_jchfChan (sample_after 6)))
= [[Some 0; None]; [Some 50; None]; [Some 0; None]; [Some 70; None]; [Some 0; None]].
Proof. vm_compute. reflexivity. Qed.

Definition device_part (k : nat) : outcome (list JCHF * DeviceMetrics) :=
pollFromConfig id (p_dm (sample_after k)) sample_device 0 [] map_to_list.

(** The runs of the first events end. *)
Definition is_ok {A} (o : outcome A) : bool := match o with Ok _ => true | _ => false end.

Lemma sample_runs : forallb (fun k => is_ok (StartLoop id sample_poller (take k sample_events)) &&
is_ok (device_part k) && bool_decide (oidMap (p_im (sample_after k)) = make_oidMap [(sample_oid, sample_mib)])) (seq 0 7) = true.
Proof. vm_compute. reflexivity. Qed.

Lemma sample_run_at k : (k <= 6)%nat ->
StartLoop id sample_poller (take k sample_events) = Ok (sample_after k) /\
is_ok (device_part k) = true /\ oidMap (p_im (sample_after k)) = make_oidMap [(sample_oid, sample_mib)].
Proof.
intros Hk. pose proof sample_runs as H. rewrite forallb_forall in H.
specialize (H k ltac:(apply in_seq; lia)). apply andb_true_iff in H as [H H3]. apply andb_true_iff in H as [H1 H2].
apply bool_decide_eq_true_1 in H3. split; [|done]. unfold sample_after. by destruct (StartLoop _ _ _).
Qed.

Lemma sample_step k e : (k <= 5)%nat -> sample_events !! k = Some e ->
loop_step id (sample_after k) e = Ok (sample_after (S k)).
Proof.
intros Hk He. destruct (sample_run_at k ltac:(lia)) as [H1 _], (sample_run_at (S k) ltac:(lia)) as [H2 _].
rewrite (take_S_r _ _ _ He) in H2. unfold StartLoop in *. rewrite fold_out_app, H1 in H2. cbn [mbind outcome_bind fold_out] in H2.
by destruct (loop_step id (sample_after k) e).
Qed.

Lemma sample_input_ok k v : (k <= 5)%nat -> input_ok id (sample_after k) (sample_input v).
Proof.
intros Hk. destruct (sample_run_at k ltac:(lia)) as (_ & Hd & Ho). split; [by constructor|]. rewrite Ho. split; [done|].
change (exists flows dm, device_part k = Ok (flows, dm)).
destruct (device_part k) as [[flows dm]| | |]; [by exists flows, dm|done..].
Qed.

Lemma sample_once k :
(k <= 5)%nat -> let v := nth k [100; 150; 170; 190; 260; 20] 0 in
once "7" "ifHCInOctets" v (im_readings (sample_after k) (sample_input v)).
Proof.
intros Hk v. exists [], (mkReading "7" "ifHCInOctets" false OtherType v), [].
split; [subst v; do 6 (destruct k as [|k]; [vm_compute; reflexivity|]); lia|]. split; [constructor|].
by split_and!.
Qed.

Lemma StartLoop_counts_witness :
exists p' batches, StartLoop id sample_poller sample_events = Ok p' /\
  polled (p_jchfChan p') = polled (p_jchfChan sample_poller) ++ batches /\
  Forall2 (reports "7" "ifHCInOctets") batches
    (growths None [Some 100; Some 150; None; Some 190; Some 260; Some 20]).
Proof.
refine (StartLoop_counts id "7" "ifHCInOctets" _ _ sample_poller sample_events _ _ _).
- intros E. vm_compute in E. discriminate.
- intros [E|[E|E]]; vm_compute in E; discriminate.
- split; [|done]. apply New_ok; [done|]. apply map_Forall_to_list. vm_compute. by repeat constructor.
- apply (observes_tick _ _ _ _ (sample_after 1)); [by apply (sample_input_ok 0); lia| |by apply (sample_step 0); [lia|]|].
  { split; [vm_compute; reflexivity|by apply (sample_once 0); lia]. }
  apply (observes_tick _ _ _ _ (sample_after 2)); [by apply (sample_input_ok 1); lia| |by apply (sample_step 1); [lia|]|].
  { split; [vm_compute; reflexivity|by apply (sample_once 1); lia]. }
  apply (observes_tick _ _ _ _ (sample_after 3)); [by apply (sample_input_ok 2); lia|vm_compute; reflexivity|by apply (sample_step 2); [lia|]|].
  apply (observes_tick _ _ _ _ (sample_after 4)); [by apply (sample_input_ok 3); lia| |by apply (sample_step 3); [lia|]|].
  { split; [vm_compute; reflexivity|by apply (sample_once 3); lia]. }
  apply (observes_tick _ _ _ _ (sample_after 5)); [by apply (sample_input_ok 4); lia| |by apply (sample_step 4); [lia|]|].
  { split; [vm_compute; reflexivity|by apply (sample_once 4); lia]. }
  apply (observes_tick _ _ _ _ (sample_after 6)); [by apply (sample_input_ok 5); lia| |by apply (sample_step 5); [lia|]|done].
  { split; [vm_compute; reflexivity|by apply (sample_once 5); lia]. }
Defined.
End Witnesses.
