(* ===== verification/FormatUtil.v ===== *)
(** * Attributes of records (src/pkg/formats/util/util.go, LastMetadata of src/pkg/kt/snmp.go)

    What the formats for metrics share: the attributes of a record with what is known about
    its device, the filters on attributes, and the choice of the attributes that go with a
    metric of SNMP. *)
From stdpp Require Import sorting fin_map_dom.
From Stdlib Require Import SpecFloat.
From S2P Require Import Prelude GoIO GoStrings KT Customs GoFloat SnmpTypes InterfaceMetrics DeviceMetrics.

(** ** Attributes

    The values that an [interface{}] of the attributes holds; a [float32] is its bits. *)
Inductive Attr :=
| TStr (s : string)
| TProvider (s : string)
| TInt (z : Z)
| TInt32 (z : Z)
| TInt64 (z : Z)
| TFloat32 (bits : Z)
| TFloat64 (f : float64).

Abbreviation attrs := (gmap string Attr).

Definition DroppedAttrs : list string := [
  "result_type"; "timestamp"; "sampled_packet_size"; "lat/long_dest"; "member_id"; "dst_eth_mac";
  "src_eth_mac"; "Manufacturer"; "error_cause/trace_route"; "hop_data"; "str01"; "ult_exit_port";
  "app_protocol"; "kt_functional_testing"; "client_nw_latency_ms"; "appl_latency_ms";
  "server_nw_latency_ms"; "connection_id"; "service_name"]%string.

Definition dropped (k : string) : bool := existsb (String.eqb k) DroppedAttrs.

Definition FORCE_MATCH_TOKEN : string := "!".
Definition OR_TOKEN : string := "||".
Definition MAX_ATTR_FOR_SNMP : nat := 64.
Definition NEGATE_MATCH_TOKEN : string := "DOES_NOT_MATCH".
Definition AdminStatus : string := "if_AdminStatus".
Definition DeviceTagTable : string := "KT_Device_Tag".

(** ** Metadata of a device *)

Record LastMetadata := mkLastMetadata {
  DeviceInfo : attrs;
  InterfaceInfo : gmap Z attrs;
  Tables : option (gmap string (gmap string MetaValue));
  MatchAttr : option (gmap string (string -> bool));
  XtraInfo : option (gmap string MetricInfo)
}.

(** [LastMetadata.Size]. *)
Definition Size (lm : option LastMetadata) : Z :=
  match lm with
  | None => 0
  | Some lm => Z.of_nat (size (DeviceInfo lm)) + Z.of_nat (size (InterfaceInfo lm))
  end.

(** [LastMetadata.Missing], for range orders of the keys. *)
Definition Missing (devs : list string) (ifs : list Z) (new : LastMetadata) : list string :=
  filter (fun k => DeviceInfo new !! k = None) devs ++
  map Itoa (filter (fun ifn => InterfaceInfo new !! ifn = None) ifs).

(** [LastMetadata.GetTableName]. *)
Definition GetTableName (lm : option LastMetadata) (key : string) : string * option (gmap string bool) * bool :=
  match lm with
  | None => ("", None, false)
  | Some lm =>
      match gomap_find (XtraInfo lm) key with
      | Some i => (mi_Table i, mi_Tables i, true)
      | None => ("", None, false)
      end
  end.

(** One string of a record: on an interface, [if.<number>.<name>], or on the device. *)
Definition put_metadata (keep : bool) (v : Attr) (k : string) (lm : attrs * gmap Z attrs) : attrs * gmap Z attrs :=
  let '(dev, ifs) := lm in
  if dropped k then lm
  else if HasPrefix k "if." then
    match strings_SplitN k "." 3 with
    | [_; p1; p2] =>
        match Atoi p1 with
        | Some ifint =>
            let port := (uint64 ifint)%go in
            let info := default ∅ (ifs !! port) in
            (dev, <[port := if keep then <[p2 := v]> info else info]> ifs)
        | None => lm
        end
    | _ => lm
    end
  else if keep then (<[k := v]> dev, ifs) else lm.

(** [SetMetadata]: the maps of strings and of integers in their range orders; the tables and
    the filters are fields of the record that [JCHF] leaves out. *)
Definition SetMetadata (strs : list (string * string)) (ints : list (string * Z))
    (tables : option (gmap string (gmap string MetaValue))) (matchAttr : option (gmap string (string -> bool)))
    (in_ : JCHF) : LastMetadata :=
  let lm := foldl (fun lm '(k, v) => put_metadata (negb (String.eqb v "")) (TStr v) k lm) (∅, ∅) strs in
  let lm := foldl (fun lm '(k, v) => put_metadata true (TInt32 v) k lm) lm ints in
  mkLastMetadata lm.1 lm.2 tables matchAttr (CustomMetrics in_).

(** ** The attributes of a record *)

(** [vt > 0] of a [float32]: neither zero, nor negative, nor no number. *)
Definition float32_pos (bits : Z) : bool := (0 <? bits) && (bits <=? 0x7f800000).

(** The attribute of a flat field, if it shows. A provider is compared to a string, which it
    never equals, so an empty one shows as well. *)
Definition attr_of (v : Avro) : outcome (option Attr) :=
  match v with
  | AStr s => Ok (if String.eqb s "" || String.eqb s "-" || String.eqb s "--" then None else Some (TStr s))
  | AProvider s => Ok (Some (TProvider s))
  | AInt z => Ok (if 0 <? z then Some (TInt z) else None)
  | AInt32 z => Ok (if 0 <? z then Some (TInt z) else None)
  | AFloat32 b => Ok (if float32_pos b then Some (TFloat32 b) else None)
  | AMapStr _ | AMapInt32 _ | AMapInt64 _ | AMapFloat32 _ => Panic "Unknown type for key"
  end.

Definition is_metric (metrics : gmap string MetricInfo) (k : string) : bool :=
  match metrics !! k with Some _ => true | None => false end.

Definition set_attr (metrics : gmap string MetricInfo) (stripMetrics : bool) (attr : attrs) (kv : string * Avro) :
    outcome attrs :=
  let '(k, v) := kv in
  if dropped k then Ok attr
  else if is_metric metrics k then Ok attr
  else if stripMetrics && HasPrefix k StringPrefix && is_metric metrics (sdrop (String.length StringPrefix) k)
  then Ok attr
  else
    a ← attr_of v;
    Ok (match a with Some a => <[k := a]> attr | None => attr end).

(** What a script may do to the attributes. *)
Class MibEnricher := EnrichMib : string -> string -> string -> LastMetadata -> attrs -> attrs.

Definition meta_attr (v : MetaValue) : Attr :=
  match GetValue v with MetaInt z => TInt64 z | MetaStr s => TStr s end.

(** The index of a record, less a leading dot, and the index of the table around it. *)
Definition index_of (in_ : JCHF) : string :=
  let idx := gomap_get "" (CustomStr in_) IndexVar in
  if HasPrefix idx "." then sdrop 1 idx else idx.
Definition parent_of (idx : string) : option string :=
  let pts := strings_Split idx "." in
  if (1 <? length pts)%nat then Some (strings_Join (take (length pts - 1) pts) ".") else None.

(** The rows of the tables that an index is in. *)
Definition tables_of (lm : LastMetadata) (idx : string) : list (gmap string MetaValue) :=
  let find k := match gomap_find (Tables lm) k with Some t => [t] | None => [] end in
  find idx ++ match parent_of idx with Some p => find p | None => [] end.

Definition customs_attrs (attr : attrs) (t : gmap string MetaValue) : attrs := (meta_attr <$> t) ∪ attr.

(** The information on an interface, under a prefix; an empty string does not show. *)
Definition interface_attrs (prefix : string) (ii : option attrs) (attr : attrs) : attrs :=
  match ii with
  | None => attr
  | Some ii =>
      map_fold (fun k v attr => match v with
                                | TStr "" => attr
                                | _ => <[(prefix +:+ k) := v]> attr
                                end) attr ii
  end.

(** [SetAttr]; [flat] is the order in which the fields are flattened, [scripts] the range order
    of a table's columns. *)
Definition SetAttr `{MibEnricher} (flat : list string) (scripts : gmap string MetaValue -> list (string * MetaValue))
    (attr : attrs) (in_ : JCHF) (metrics : gmap string MetricInfo) (lm : option LastMetadata) (stripMetrics : bool) :
    outcome attrs :=
  '(mapr, _) ← Flatten flat in_;
  attr ← fold_out (set_attr metrics stripMetrics) attr (map_to_list (default ∅ mapr));
  match lm with
  | None => Ok attr
  | Some lm =>
      let attr := DeviceInfo lm ∪ attr in
      let raw := gomap_get "" (CustomStr in_) IndexVar in
      let idx := index_of in_ in
      let attr := if String.eqb raw "" then attr else foldl customs_attrs attr (tables_of lm idx) in
      let ifs := InterfaceInfo lm in
      let attr :=
        if OutputPort in_ =? InputPort in_ then interface_attrs "if_" (ifs !! OutputPort in_) attr
        else interface_attrs "output_if_" (ifs !! OutputPort in_)
               (interface_attrs "input_if_" (ifs !! InputPort in_) attr) in
      Ok (if String.eqb idx "" then attr
          else foldl (fun attr t =>
                 foldl (fun attr '(k, v) => match GetScript v with
                                            | Some s => EnrichMib s idx k lm attr
                                            | None => attr
                                            end) attr (scripts t))
               attr (tables_of lm idx))
  end.

(** ** Filters on attributes *)

Record FilterState := mkFilterState {
  dropOnAdminStatus : bool;
  keepForOtherMatch : bool;
  seenNonAdmin : Z
}.

(** Attributes of interfaces. *)
Definition of_interface (k : string) : bool :=
  String.eqb k AdminStatus || HasPrefix k "if_" || HasPrefix k "input_if_" || HasPrefix k "output_if_".

(** [checkFilter]: the new state and the flags [cont] and [br]. *)
Definition checkFilter (attr : attrs) (k : string) (re : string -> bool) (forceMatch seenAny isIfMetric : bool)
    (st : FilterState) : FilterState * bool * bool :=
  if negb isIfMetric && of_interface k then (st, true, false)
  else
    match attr !! k with
    | Some (TStr strv) =>
        if String.eqb k AdminStatus then
          let drop := negb (re strv) in
          (mkFilterState drop (keepForOtherMatch st) (seenNonAdmin st), false, drop)
        else
          let seen := seenNonAdmin st + 1 in
          if keepForOtherMatch st then (mkFilterState (dropOnAdminStatus st) true seen, false, false)
          else
            let keep := re strv in
            (mkFilterState (dropOnAdminStatus st) keep seen, false, negb keep && (forceMatch && negb seenAny))
    | Some _ => (st, false, false)
    | None =>
        if forceMatch && negb seenAny
        then (mkFilterState (dropOnAdminStatus st) false (seenNonAdmin st + 1), false, true)
        else (st, false, false)
    end.

Definition strip_parens (k : string) : string :=
  if HasPrefix k "(" && HasSuffix k ")" then String.substring 1 (String.length k - 2) k else k.

(** The keys of a filter: one, or several with the token for or. *)
Definition check_keys (attr : attrs) (keyCheck : list string) (re : string -> bool) (forceMatch isIfMetric : bool)
    (st : FilterState) : FilterState * bool * bool :=
  let seenAny := forceMatch && existsb (fun key => match attr !! key with Some _ => true | None => false end) keyCheck in
  foldl (fun '(st, _, _) key => checkFilter attr key re forceMatch seenAny isIfMetric st) (st, false, false) keyCheck.

(** The loop over the filters, in a range order, with whether the match is negated. *)
Fixpoint filter_loop (attr : attrs) (isIfMetric : bool) (filters : list (string * (string -> bool)))
    (negate : bool) (st : FilterState) : FilterState * bool :=
  match filters with
  | [] => (st, negate)
  | (k, re) :: filters =>
      let '(k, forceMatch) := if HasPrefix k FORCE_MATCH_TOKEN then (sdrop 1 k, true) else (k, false) in
      if String.eqb k NEGATE_MATCH_TOKEN then filter_loop attr isIfMetric filters true st
      else
        let '(st, cont, br) := check_keys attr (strings_Split (strip_parens k) OR_TOKEN) re forceMatch isIfMetric st in
        if negb cont && br then (st, negate)
        else filter_loop attr isIfMetric filters negate st
  end.

(** [DropOnFilter]; [range] is the order of the range over the filters. *)
Definition DropOnFilter (range : gmap string (string -> bool) -> list (string * (string -> bool)))
    (attr : attrs) (lm : option LastMetadata) (isIfMetric : bool) : bool :=
  match lm ≫= MatchAttr with
  | None => false
  | Some m =>
      let '(st, negateMatch) := filter_loop attr isIfMetric (range m) false (mkFilterState false false 0) in
      if dropOnAdminStatus st then true
      else if 0 <? seenNonAdmin st then
        if negateMatch then keepForOtherMatch st else negb (keepForOtherMatch st)
      else negateMatch
  end.

(** ** Attributes of a metric *)

Definition removeAttrForSnmp : list string := [
  "Uptime"; "if_LastChange"; "SysServices"; "if_Mtu"; "if_ConnectorPresent"; "output_port"; "input_port";
  "DropMetric"; "sysoid_vendor"]%string.
Definition keepAcrossTables : list string :=
  ["device_name"; "eventType"; "provider"; "sysoid_profile"; IndexVar; "if_Index"; "src_addr"]%string.
Definition allowSysAttr : list string := [
  "Uptime"; "MinRttMs"; "MaxRttMs"; "AvgRttMs"; "StdDevRtt"; "PacketsSent"; "PacketsRecv"; "PacketLossPct"]%string.

Definition listed (k : string) (l : list string) : bool := existsb (String.eqb k) l.

(** [time.Duration.Seconds]. *)
Definition Seconds (d : Z) : float64 :=
  SFadd 53 1024 (float64_of (Z.quot d 1000000000))
    (float64_div (float64_of (Z.rem d 1000000000)) (float64_of 1000000000)).

(** The attributes that say what a metric is. *)
Definition identity (name : MetricInfo) (attr : attrs) : attrs :=
  <["instrumentation.name" := TStr (mi_Profile name)]>
  (<["mib-name" := TStr (mi_Mib name)]> (<["objectIdentifier" := TStr (mi_Oid name)]> attr)).

(** Whether an attribute belongs to the table of the metric. *)
Definition in_table (name : MetricInfo) (lm : option LastMetadata) (newKey : string) : bool :=
  let '(tableName, allNames, ok) := GetTableName lm newKey in
  let member := default false (allNames ≫= lookup (mi_Table name)) || String.eqb tableName DeviceTagTable in
  if ok && negb (Nat.eqb (size (default ∅ allNames)) 0) then member
  else HasPrefix newKey (mi_Table name) || member.

(** The body of the loop of [CopyAttrForSnmp]. *)
Definition copy_attr (metricName : string) (name : MetricInfo) (lm : option LastMetadata) (dropSrcAddr : bool)
    (attrNew : attrs) (kv : string * Attr) : attrs :=
  let '(k, v) := kv in
  if negb (listed metricName allowSysAttr) && (HasPrefix k "Sys" || dropSrcAddr && String.eqb k "src_addr") then attrNew
  else
    let newKey := if HasPrefix k StringPrefix then sdrop (String.length StringPrefix) k else k in
    let other := negb (String.eqb (mi_Table name) "") && negb (String.eqb metricName newKey) &&
                 negb (listed newKey keepAcrossTables) in
    let attrNew := if other then <["mib-table" := TStr (mi_Table name)]> attrNew else attrNew in
    if other && negb (in_table name lm newKey) then attrNew
    else if String.eqb (mi_Table name) "" &&
            (let '(tableName, _, ok) := GetTableName lm newKey in
             ok && negb (String.eqb tableName "") && negb (String.eqb tableName DeviceTagTable))
    then attrNew
    else <[newKey := v]> attrNew.

Definition delete_all (ks : list string) (m : attrs) : attrs := foldl (fun m k => delete k m) m ks.

(** [sort.Strings]. *)
Definition str_le (a b : string) : Prop := String.leb a b = true.
#[export] Instance str_le_dec a b : Decision (str_le a b).
Proof. unfold str_le. apply _. Defined.
Definition sort_Strings (l : list string) : list string := merge_sort str_le l.

(** The attributes a metric may have, when there is a limit to them. *)
Definition cut_attrs (name : MetricInfo) (m : attrs) : attrs :=
  if (MAX_ATTR_FOR_SNMP <? size m)%nat then
    let keys := sort_Strings (map_to_list m).*1 in
    identity name (delete_all (drop (MAX_ATTR_FOR_SNMP - 3) keys) m)
  else m.

(** [CopyAttrForSnmp]; [attr] is listed in its range order. *)
Definition CopyAttrForSnmp (attr : list (string * Attr)) (metricName : string) (name : MetricInfo)
    (lm : option LastMetadata) (gentleCardinality dropSrcAddr : bool) : attrs :=
  let attrNew := identity name ∅ in
  let durSec := Seconds (mi_PollDur name) in
  let attrNew := if SFltb (float64_of 0) durSec
                 then <["poll_duration_sec" := TFloat64 (SFadd 53 1024 durSec (float64_of PollAdjustTime))]> attrNew
                 else attrNew in
  let attrNew := foldl (copy_attr metricName name lm dropSrcAddr) attrNew attr in
  let attrNew := if gentleCardinality then cut_attrs name (delete_all removeAttrForSnmp attrNew) else attrNew in
  match attrNew !! "mib-name" with
  | Some (TStr "") => delete "mib-name"%string attrNew
  | _ => attrNew
  end.

(** ** Synthetic tests *)

Definition syn (name : string) : MetricInfo := mkMetricInfo "" "" name "" "" "" "" 0 None.
Definition names (l : list (string * string)) : gmap string MetricInfo :=
  list_to_map (map (fun kv => (kv.1, syn kv.2)) l).

Definition sent : string := "fetch_status_|_ping_sent_|_trace_time".
Definition ttlb : string := "fetch_ttlb_|_ping_lost".
Definition fsize : string := "fetch_size_|_ping_min_rtt".
Definition ping_rtts : list (string * string) :=
  [(sent, "sent"); (ttlb, "lost"); (fsize, "min_rtt"); ("ping_max_rtt", "max_rtt"); ("ping_avg_rtt", "avg_rtt");
   ("ping_std_rtt", "std_rtt"); ("ping_jit_rtt", "jit_rtt")]%string.

(** [GetSynMetricNameSet], the metrics of a type of test. *)
Definition GetSynMetricNameSet (rt : Z) : option (gmap string MetricInfo) :=
  names <$> match rt with
  | 0 => Some (("error", "error") :: ping_rtts)
  | 1 => Some (("timeout", "timeout") :: ping_rtts)
  | 2 | 5 => Some ping_rtts
  | 3 => Some [(sent, "status"); (ttlb, "ttlb"); (fsize, "size")]
  | 4 => Some [(sent, "time")]
  | 6 => Some [(sent, "time"); (ttlb, "code")]
  | 7 => Some [(sent, "time"); ("lat/long_dest", "port")]
  | 8 => Some [(sent, "status"); (fsize, "size"); (ttlb, "ttlb")]
  | 9 => Some [(sent, "status"); (ttlb, "trx_time")]
  | 10 => Some [(sent, "time"); (ttlb, "validation")]
  | _ => None
  end%string.

(** [GetSynthOutcome]. *)
Definition GetSynthOutcome (rt : Z) : Z * string :=
  match rt with
  | 0 => (2, "error")
  | 1 => (1, "timeout")
  | _ => (0, "ok")
  end%string.

Definition GetSyngestMetricNameSet : gmap string MetricInfo :=
  names (map (fun k => (k, k)) ["avg_jitter"; "avg_latency"; "rolling_avg_jitter"; "rolling_avg_latency";
    "rolling_stddev_jitter"; "rolling_stddev_latency"; "size"; "status"]%string).

(** ** Properties of the filters *)

(** A filter on one attribute, without the marks of forced, negated, grouped or alternative
    matches. *)
Record plain_filter (f : string * (string -> bool)) : Prop := {
  pf_force : HasPrefix f.1 FORCE_MATCH_TOKEN = false;
  pf_negate : f.1 <> NEGATE_MATCH_TOKEN;
  pf_parens : strip_parens f.1 = f.1;
  pf_or : strings_Split f.1 OR_TOKEN = [f.1]
}.

(** The text that a filter is about, if the record has one and the filter is for its kind. *)
Definition subject (attr : attrs) (isIfMetric : bool) (f : string * (string -> bool)) : option string :=
  if negb isIfMetric && of_interface f.1 then None
  else match attr !! f.1 with Some (TStr v) => Some v | _ => None end.
Definition matches (attr : attrs) (isIfMetric : bool) (f : string * (string -> bool)) : bool :=
  match subject attr isIfMetric f with Some v => f.2 v | None => false end.
Definition admin (f : string * (string -> bool)) : bool := String.eqb f.1 AdminStatus.

(** The administrative status fails its filter. *)
Definition admin_fails (attr : attrs) (isIfMetric : bool) (fs : list (string * (string -> bool))) : bool :=
  existsb (fun f => admin f && match subject attr isIfMetric f with Some v => negb (f.2 v) | None => false end) fs.
(** Some other filter has its attribute, or matches it. *)
Definition others_apply (attr : attrs) (isIfMetric : bool) (fs : list (string * (string -> bool))) : bool :=
  existsb (fun f => negb (admin f) && match subject attr isIfMetric f with Some _ => true | None => false end) fs.
Definition others_match (attr : attrs) (isIfMetric : bool) (fs : list (string * (string -> bool))) : bool :=
  existsb (fun f => negb (admin f) && matches attr isIfMetric f) fs.

Lemma check_plain attr isIfMetric k re st :
  let f := (k, re) in
  check_keys attr [k] re false isIfMetric st =
    if admin f then
      match subject attr isIfMetric f with
      | Some v => (mkFilterState (negb (re v)) (keepForOtherMatch st) (seenNonAdmin st), false, negb (re v))
      | None => (st, negb isIfMetric, false)
      end
    else
      match subject attr isIfMetric f with
      | Some v => (mkFilterState (dropOnAdminStatus st) (keepForOtherMatch st || re v) (seenNonAdmin st + 1), false, false)
      | None => (st, negb isIfMetric && of_interface k, false)
      end.
Proof.
  unfold check_keys, checkFilter, subject, admin. cbn [foldl fst snd andb].
  destruct (String.eqb_spec k AdminStatus) as [->|Hk].
  - assert (of_interface AdminStatus = true) as -> by reflexivity. rewrite andb_true_r.
    destruct (negb isIfMetric) eqn:E; [done|]. destruct (attr !! AdminStatus) as [[]|]; done.
  - destruct (negb isIfMetric && of_interface k); [done|].
    destruct (attr !! k) as [[]|]; try done. rewrite andb_false_r. by destruct (keepForOtherMatch st).
Qed.

(** What the loop knows after plain filters. *)
Lemma filter_loop_plain attr isIfMetric fs st :
  Forall plain_filter fs -> NoDup fs.*1 -> dropOnAdminStatus st = false ->
  let '(st', negate) := filter_loop attr isIfMetric fs false st in
  negate = false /\ dropOnAdminStatus st' = admin_fails attr isIfMetric fs /\
  (admin_fails attr isIfMetric fs = false ->
    keepForOtherMatch st' = keepForOtherMatch st || others_match attr isIfMetric fs /\
    seenNonAdmin st <= seenNonAdmin st' /\
    (0 <? seenNonAdmin st' - seenNonAdmin st) = others_apply attr isIfMetric fs).
Proof.
  revert st. induction fs as [|[k re] fs IH]; intros st Hp Hnd Hd.
  { cbn. rewrite orb_false_r, Z.sub_diag. split_and!; [done..|]. intros _. by split_and!. }
  apply Forall_cons in Hp as [[H1 H2 H3 H4] Hp]. cbn [fst snd] in *. rewrite fmap_cons in Hnd.
  apply NoDup_cons in Hnd as [Hk Hnd]. cbn [filter_loop fst]. rewrite H1.
  destruct (String.eqb_spec k NEGATE_MATCH_TOKEN) as [|_]; [done|]. rewrite H3, H4.
  rewrite check_plain. unfold admin_fails, others_match, others_apply. cbn [existsb].
  fold (admin_fails attr isIfMetric fs) (others_match attr isIfMetric fs) (others_apply attr isIfMetric fs).
  unfold matches. cbn [fst snd].
  destruct (admin (k, re)) eqn:Ha, (subject attr isIfMetric (k, re)) as [v|] eqn:Es; cbn [fst snd negb andb orb].
  - destruct (re v) eqn:Er; cbn [negb andb orb].
    + apply (IH (mkFilterState false (keepForOtherMatch st) (seenNonAdmin st)) Hp Hnd eq_refl).
    + by cbn.
  - rewrite andb_false_r. by apply IH.
  - specialize (IH (mkFilterState (dropOnAdminStatus st) (keepForOtherMatch st || re v) (seenNonAdmin st + 1)) Hp Hnd Hd).
    destruct (filter_loop _ _ _ _ _) as [st' negate]. destruct IH as (-> & -> & IH). split; [done|]. split; [done|].
    intros Haf. destruct (IH Haf) as (-> & Hle & _). cbn in *. rewrite orb_assoc. split; [done|]. split; [lia|].
    apply Z.ltb_lt. lia.
  - rewrite andb_false_r. specialize (IH st Hp Hnd Hd). destruct (filter_loop _ _ _ _ _) as [st' negate]. done.
Qed.

(** Filters on single attributes mean what the documentation of the configuration says,
    in whatever order the map of filters is ranged over: a record is dropped when its
    administrative status fails its filter, or when some filter is about an attribute that it
    has and no filter matches. *)
Lemma DropOnFilter_means range attr lm m isIfMetric :
  MatchAttr lm = Some m -> range m ≡ₚ map_to_list m -> Forall plain_filter (range m) ->
  DropOnFilter range attr (Some lm) isIfMetric =
    admin_fails attr isIfMetric (map_to_list m) ||
    others_apply attr isIfMetric (map_to_list m) && negb (others_match attr isIfMetric (map_to_list m)).
Proof.
  intros Hm Hr Hp. unfold DropOnFilter. cbn [mbind option_bind]. rewrite Hm.
  assert (forall P, existsb P (range m) = existsb P (map_to_list m)) as Hex.
  { intros P. apply eq_true_iff_eq. rewrite !existsb_exists. setoid_rewrite <- list_elem_of_In. by setoid_rewrite Hr. }
  pose proof (filter_loop_plain attr isIfMetric (range m) (mkFilterState false false 0) Hp) as H.
  destruct (filter_loop _ _ _ _ _) as [st negate].
  destruct H as (-> & Hd & Hk); [rewrite Hr; apply NoDup_fst_map_to_list|done|].
  unfold admin_fails, others_apply, others_match in *. rewrite Hd, !Hex in *.
  destruct (existsb _ (map_to_list m)) eqn:Ha; [done|]. destruct (Hk eq_refl) as (-> & Hle & Hs). cbn in *.
  rewrite Z.sub_0_r in Hs. rewrite Hs. by destruct (existsb _ _).
Qed.

(** ** Properties of the attributes of a metric *)

Lemma delete_all_lookup ks m k : delete_all ks m !! k = if decide (k ∈ ks) then None else m !! k.
Proof.
  unfold delete_all. revert m. induction ks as [|k0 ks IH]; intros m; cbn.
  { by rewrite decide_False by apply not_elem_of_nil. }
  rewrite IH. destruct (decide (k ∈ ks)) as [H|H]; [by rewrite decide_True by (by right)|].
  destruct (decide (k = k0)) as [->|Hne]; [rewrite lookup_delete_eq; by rewrite decide_True by (by left)|].
  rewrite lookup_delete_ne by done. rewrite decide_False; [done|]. rewrite elem_of_cons. tauto.
Qed.

Lemma identity_size name m : (size (identity name m) <= size m + 3)%nat.
Proof.
  assert (forall k (v : Attr) (m : attrs), (size (<[k := v]> m) <= size m + 1)%nat) as Hi.
  { intros k v m0. rewrite map_size_insert. destruct (m0 !! k); unfold id; lia. }
  unfold identity. etrans; [apply Hi|].
  pose proof (Hi "mib-name"%string (TStr (mi_Mib name)) (<["objectIdentifier" := TStr (mi_Oid name)]> m)).
  pose proof (Hi "objectIdentifier"%string (TStr (mi_Oid name)) m). lia.
Qed.

(** Deleting all keys but the first [n] of an enumeration leaves at most [n]. *)
Lemma delete_rest_size n keys m :
  keys ≡ₚ (map_to_list m).*1 -> (size (delete_all (drop n keys) m) <= n)%nat.
Proof.
  intros Hp. assert (length (take n keys) <= n)%nat as Hn by (rewrite length_take; lia). etrans; [|exact Hn]. rewrite <- size_dom.
  transitivity (size (list_to_set (take n keys) : gset string)).
  2:{ rewrite size_list_to_set; [done|]. apply (NoDup_app _ (drop n keys)). rewrite take_drop, Hp.
      apply NoDup_fst_map_to_list. }
  apply subseteq_size. intros k Hk. apply elem_of_dom in Hk as [v Hv]. rewrite delete_all_lookup in Hv.
  destruct (decide (k ∈ drop n keys)) as [|Hnot]; [done|]. apply elem_of_list_to_set.
  assert (k ∈ keys) as Hin.
  { rewrite Hp. apply list_elem_of_fmap. exists (k, v). split; [done|]. by apply elem_of_map_to_list. }
  rewrite <- (take_drop n keys) in Hin. apply elem_of_app in Hin as [?|?]; done.
Qed.

Lemma cut_attrs_size name m : (size (cut_attrs name m) <= MAX_ATTR_FOR_SNMP)%nat.
Proof.
  unfold cut_attrs. destruct (Nat.ltb_spec MAX_ATTR_FOR_SNMP (size m)); [|done].
  etrans; [apply identity_size|]. unfold MAX_ATTR_FOR_SNMP. change (64 - 3)%nat with 61%nat.
  pose proof (delete_rest_size 61 (sort_Strings (map_to_list m).*1) m (merge_sort_Permutation _ _)). lia.
Qed.

Lemma cut_attrs_identity name m k v :
  cut_attrs name m !! k = Some v ->
  m !! k = Some v \/ identity name ∅ !! k = Some v.
Proof.
  unfold cut_attrs. destruct (_ <? _)%nat; [|by left]. unfold identity.
  assert (forall k' (v' : Attr) (a b : attrs), (forall v, a !! k = Some v -> m !! k = Some v \/ b !! k = Some v) ->
    forall v, <[k' := v']> a !! k = Some v -> m !! k = Some v \/ <[k' := v']> b !! k = Some v) as Hi.
  { intros k' v' a b Hab v0. destruct (decide (k = k')) as [->|Hne]; [rewrite !lookup_insert_eq; by right|].
    rewrite !lookup_insert_ne by done. apply Hab. }
  revert v. do 3 apply Hi. intros v. rewrite delete_all_lookup. destruct (decide _); [done|]. by left.
Qed.

(** Where an attribute of a metric comes from. *)
Definition source_of (attr : list (string * Attr)) (name : MetricInfo) (k : string) (v : Attr) : Prop :=
  identity name ∅ !! k = Some v \/ k = "poll_duration_sec" \/ k = "mib-table" /\ v = TStr (mi_Table name) \/
  exists k0, (k0, v) ∈ attr /\ (k = k0 \/ StringPrefix +:+ k = k0).

Lemma copy_attrs_source metricName name lm d attr l m k v :
  l ⊆ attr ->
  (forall v, m !! k = Some v -> source_of attr name k v) ->
  foldl (copy_attr metricName name lm d) m l !! k = Some v -> source_of attr name k v.
Proof.
  revert m v. induction l as [|[k0 v0] l IH]; intros m v Hl Hm; [apply Hm|]. cbn [foldl]. apply IH.
  { intros x Hx. apply Hl. by right. }
  clear v. intros v. unfold copy_attr. destruct (_ && _); [apply Hm|].
  set (newKey := if HasPrefix k0 StringPrefix then _ else _). 
  set (other := negb (String.eqb (mi_Table name) "") && negb (String.eqb metricName newKey) &&
                negb (listed newKey keepAcrossTables)).
  assert (forall v, (if other then <["mib-table" := TStr (mi_Table name)]> m else m) !! k = Some v -> source_of attr name k v) as Hm'.
  { intros v1. destruct other; [|apply Hm]. destruct (decide (k = "mib-table")) as [->|Hne].
    - rewrite lookup_insert_eq. intros [= <-]. right. right. by left.
    - rewrite lookup_insert_ne by done. apply Hm. }
  destruct (other && _); [apply Hm'|]. destruct (_ && _) in |- *; [apply Hm'|].
  destruct (decide (k = newKey)) as [->|Hne]; [|rewrite lookup_insert_ne by done; apply Hm'].
  rewrite lookup_insert_eq. intros [= <-]. do 3 right. exists k0. split; [apply Hl; by left|].
  unfold newKey. destruct (HasPrefix k0 StringPrefix) eqn:E; [|by left]. right.
  apply prefix_spec in E as [r ->]. by rewrite sdrop_app.
Qed.

(** Whatever a record carries, a metric goes out with at most the number of attributes that
    the service takes, and none is made up: each says what the metric is, how often it is polled
    or which table it is in, or is an attribute of the record, with its prefix for strings cut
    off. *)
Lemma CopyAttrForSnmp_bound attr metricName name lm dropSrcAddr :
  let out := CopyAttrForSnmp attr metricName name lm true dropSrcAddr in
  (size out <= MAX_ATTR_FOR_SNMP)%nat /\ map_Forall (source_of attr name) out.
Proof.
  unfold CopyAttrForSnmp. set (a0 := if SFltb _ _ then _ else _). set (a1 := foldl _ a0 attr).
  set (a2 := cut_attrs name _).
  assert (forall k v, a2 !! k = Some v -> source_of attr name k v) as Hs.
  { intros k v Hk. apply cut_attrs_identity in Hk as [Hk|Hk]; [|by left]. rewrite delete_all_lookup in Hk.
    destruct (decide _); [done|]. unfold a1 in Hk. eapply copy_attrs_source; [done| |exact Hk].
    intros v0. unfold a0. destruct (SFltb _ _); [|by left].
    destruct (decide (k = "poll_duration_sec")) as [->|Hne]; [by right; left|].
    rewrite lookup_insert_ne by done. by left. }
  pose proof (cut_attrs_size name (delete_all removeAttrForSnmp a1)) as Hsz. fold a2 in Hsz.
  assert ((size (delete "mib-name"%string a2) <= size a2)%nat) as Hd by (rewrite map_size_delete; destruct (a2 !! _); unfold id; lia).
  assert (map_Forall (source_of attr name) (delete "mib-name"%string a2)) as Hf.
  { intros k v Hk. apply lookup_delete_Some in Hk as [_ Hk]. by apply Hs. }
  destruct (a2 !! "mib-name") as [[s| | | | | |]|]; try done. destruct s; [|done]. split; [lia|done].
Qed.

(** ** Witnesses *)

Definition sample_filters : gmap string (string -> bool) :=
  {[ "if_AdminStatus" := fun v => String.eqb v "up"; "if_Alias" := fun v => HasPrefix v "core" ]}%string.
Definition sample_attrs (alias : string) : attrs :=
  {[ "if_AdminStatus" := TStr "up"; "if_Alias" := TStr alias; "provider" := TProvider "p" ]}%string.
Definition sample_lm (m : gmap string (string -> bool)) : LastMetadata := mkLastMetadata ∅ ∅ None (Some m) None.

Lemma DropOnFilter_means_witness :
  let attr := sample_attrs "edge" in
  DropOnFilter map_to_list attr (Some (sample_lm sample_filters)) true =
    admin_fails attr true (map_to_list sample_filters) ||
    others_apply attr true (map_to_list sample_filters) &&
      negb (others_match attr true (map_to_list sample_filters)) /\
  DropOnFilter map_to_list attr (Some (sample_lm sample_filters)) true = true.
Proof.
  split; [|vm_compute; reflexivity].
  refine (DropOnFilter_means map_to_list (sample_attrs "edge") (sample_lm sample_filters) sample_filters true _ _ _).
  - done.
  - done.
  - assert (map_to_list sample_filters ≡ₚ
      [("if_AdminStatus", fun v => String.eqb v "up"); ("if_Alias", fun v => HasPrefix v "core")]%string) as ->.
    { unfold sample_filters. rewrite map_to_list_insert, map_to_list_singleton; [done|vm_compute; reflexivity]. }
    repeat constructor; vm_compute; try reflexivity; discriminate.
Defined.

(** With the mark for negation next to a forced attribute that is missing, what is decided
    depends on the order of the range. *)
Example negation_depends_on_order :
  let fs := [("!site", fun _ => true); (NEGATE_MATCH_TOKEN, fun _ => true)]%string in
  (DropOnFilter (fun _ => fs) (sample_attrs "a") (Some (sample_lm ∅)) true,
   DropOnFilter (fun _ => rev fs) (sample_attrs "a") (Some (sample_lm ∅)) true) = (true, false).
Proof. vm_compute. reflexivity. Qed.

(** A filter on the provider is never about anything: the attribute is no string. *)
Example provider_filter :
  DropOnFilter (fun _ => [("provider", fun v => String.eqb v "other")]%string) (sample_attrs "a") (Some (sample_lm ∅)) true
  = false.
Proof. vm_compute. reflexivity. Qed.

Example sample_copy :
  let name := mkMetricInfo "1.2" "" "" "prof" "if" "" "" 0 None in
  map_to_list (CopyAttrForSnmp [("ks_state", TStr "up"); ("if_Alias", TStr "a"); ("other", TStr "b"); ("SysName", TStr "s")]%string
    "state" name (Some (sample_lm ∅)) true false) ≡ₚ
  [("objectIdentifier", TStr "1.2"); ("instrumentation.name", TStr "prof"); ("mib-table", TStr "if");
   ("state", TStr "up"); ("if_Alias", TStr "a")]%string.
Proof. cbv zeta. match goal with |- ?l ≡ₚ _ => let x := eval vm_compute in l in change l with x end. solve_Permutation. Qed.
