(* ===== verification/Utf8.v ===== *)
(** * Valid UTF-8 (src/pkg/kt/utf8.go)

    Texts of devices need not be UTF-8, and encoders drop a whole batch for one such text, so
    it is replaced by the hexadecimal digits of its bytes. *)
From S2P Require Import Prelude GoStrings GoAddr.

(** [utf8.Valid]: no overlong forms, surrogates or code points out of range. *)
Definition cont (b : Z) : bool := (128 <=? b) && (b <=? 191).
Definition between (lo b hi : Z) : bool := (lo <=? b) && (b <=? hi).

Definition lead3 (b0 b1 : Z) : bool :=
  if b0 =? 224 then between 160 b1 191
  else if b0 =? 237 then between 128 b1 159
  else between 225 b0 239 && cont b1.
Definition lead4 (b0 b1 : Z) : bool :=
  if b0 =? 240 then between 144 b1 191
  else if b0 =? 244 then between 128 b1 143
  else between 241 b0 243 && cont b1.

Fixpoint utf8_Valid (bs : bytes) : bool :=
  match bs with
  | [] => true
  | b0 :: r0 =>
      if b0 <? 128 then utf8_Valid r0
      else
        match r0 with
        | [] => false
        | b1 :: r1 =>
            if between 194 b0 223 then cont b1 && utf8_Valid r1
            else
              match r1 with
              | [] => false
              | b2 :: r2 =>
                  if lead3 b0 b1 then cont b2 && utf8_Valid r2
                  else
                    match r2 with
                    | [] => false
                    | b3 :: r3 => lead4 b0 b1 && cont b2 && cont b3 && utf8_Valid r3
                    end
              end
        end
  end.

Definition bytes_of (s : string) : bytes := map byte_of (String.list_ascii_of_string s).
Definition ValidString (s : string) : bool := utf8_Valid (bytes_of s).

(** [hex.EncodeToString]. *)
Fixpoint hex_EncodeToString (bs : bytes) : string :=
  match bs with
  | [] => ""
  | b :: bs => hex2 b +:+ hex_EncodeToString bs
  end.

Definition SanitizeUTF8 (s : string) : string :=
  if String.eqb s "" || ValidString s then s else hex_EncodeToString (bytes_of s).

Definition SanitizeUTF8WithHint (s : string) : string * bool :=
  if String.eqb s "" || ValidString s then (s, false) else (hex_EncodeToString (bytes_of s), true).

Lemma ascii_Valid bs : Forall (fun b => b < 128) bs -> utf8_Valid bs = true.
Proof.
  induction bs as [|b bs IH]; intros H; [done|]. apply Forall_cons in H as [H1 H2]. cbn [utf8_Valid].
  destruct (Z.ltb_spec b 128); [by apply IH|lia].
Qed.

Lemma bytes_of_app a b : bytes_of (a +:+ b) = bytes_of a ++ bytes_of b.
Proof.
  induction a as [|c a IH]; [done|]. change (bytes_of (String c (a +:+ b)) = byte_of c :: bytes_of a ++ bytes_of b).
  rewrite <- IH. done.
Qed.

Lemma byte_of_range c : in_range 8 (byte_of c).
Proof.
  unfold in_range, byte_of. destruct c as [b0 b1 b2 b3 b4 b5 b6 b7].
  by destruct b0, b1, b2, b3, b4, b5, b6, b7.
Qed.

Lemma hexDigit_ascii n : 0 <= n < 16 -> byte_of (hexDigit n) < 128.
Proof.
  intros Hn. assert (forallb (fun k => byte_of (hexDigit (Z.of_nat k)) <? 128) (seq 0 16) = true) as H
    by (vm_compute; reflexivity).
  rewrite forallb_forall in H. specialize (H (Z.to_nat n) ltac:(apply in_seq; lia)).
  rewrite Z2Nat.id in H by lia. by apply Z.ltb_lt.
Qed.

Lemma hex_ascii bs : bytes_ok bs -> Forall (fun b => b < 128) (bytes_of (hex_EncodeToString bs)).
Proof.
  induction bs as [|b bs IH]; intros H; [constructor|]. apply Forall_cons in H as [Hb H].
  cbn [hex_EncodeToString]. rewrite bytes_of_app. apply Forall_app. split; [|by apply IH].
  unfold in_range in Hb. unfold hex2. repeat constructor; apply hexDigit_ascii.
  - rewrite Z.shiftr_div_pow2 by lia. split; [apply Z.div_pos; lia|]. apply Z.div_lt_upper_bound; lia.
  - change 15 with (Z.ones 4). rewrite Z.land_ones by lia. apply Z.mod_pos_bound. lia.
Qed.

(** What is sanitized is valid, and what is valid stays as it is. *)
Lemma SanitizeUTF8_Valid s : ValidString (SanitizeUTF8 s) = true.
Proof.
  unfold SanitizeUTF8. destruct (String.eqb_spec s "") as [->|_]; [done|]. cbn [orb].
  destruct (ValidString s) eqn:E; [done|]. apply ascii_Valid, hex_ascii. unfold bytes_of.
  apply Forall_forall. intros b Hb. apply list_elem_of_In, in_map_iff in Hb as (c & <- & _). apply byte_of_range.
Qed.

Lemma SanitizeUTF8_id s : ValidString s = true -> SanitizeUTF8 s = s.
Proof. intros H. unfold SanitizeUTF8. rewrite H. by rewrite orb_true_r. Qed.

Example utf8_1 : map utf8_Valid [[0xc3; 0xa9]; [0xc0; 0x80]; [0xe2; 0x82; 0xac]; [0xed; 0xa0; 0x80];
  [0xf0; 0x9f; 0x98; 0x80]; [0xf4; 0x90; 0x80; 0x80]; [0x80]; [0xe2; 0x82]] =
  [true; false; true; false; true; false; false; false].
Proof. reflexivity. Qed.

(** ** Runes *)

Definition RuneError : Z := 65533.

(** [utf8.DecodeRune] of [b0] and what follows: the code point, and how many more bytes it takes;
    a byte that starts no encoding is [RuneError] by itself. *)
Definition DecodeRune (b0 : Z) (r0 : bytes) : Z * nat :=
  if b0 <? 128 then (b0, 0%nat)
  else
    match r0 with
    | [] => (RuneError, 0%nat)
    | b1 :: r1 =>
        if between 194 b0 223 && cont b1 then ((b0 - 192) * 64 + (b1 - 128), 1%nat)
        else
          match r1 with
          | [] => (RuneError, 0%nat)
          | b2 :: r2 =>
              if lead3 b0 b1 && cont b2 then (((b0 - 224) * 64 + (b1 - 128)) * 64 + (b2 - 128), 2%nat)
              else
                match r2 with
                | [] => (RuneError, 0%nat)
                | b3 :: _ =>
                    if lead4 b0 b1 && cont b2 && cont b3
                    then ((((b0 - 240) * 64 + (b1 - 128)) * 64 + (b2 - 128)) * 64 + (b3 - 128), 3%nat)
                    else (RuneError, 0%nat)
                end
          end
    end.

(** The runes a [range] over a string goes through, [skip] bytes of the last one being left. *)
Fixpoint runes (skip : nat) (bs : bytes) : list Z :=
  match bs with
  | [] => []
  | b0 :: r0 =>
      match skip with
      | S k => runes k r0
      | O => let '(c, w) := DecodeRune b0 r0 in c :: runes w r0
      end
  end.

(** [WriteRune]; what is no code point is written as [RuneError]. *)
Definition is_rune (c : Z) : bool := between 0 c 0x10ffff && negb (between 0xd800 c 0xdfff).
Definition WriteRune (c : Z) : bytes :=
  let c := if is_rune c then c else RuneError in
  if c <? 0x80 then [c]
  else if c <? 0x800 then [192 + c / 64; 128 + c mod 64]
  else if c <? 0x10000 then [224 + c / 64 / 64; 128 + c / 64 mod 64; 128 + c mod 64]
  else [240 + c / 64 / 64 / 64; 128 + c / 64 / 64 mod 64; 128 + c / 64 mod 64; 128 + c mod 64].
Definition encode_runes (cs : list Z) : bytes := concat (map WriteRune cs).

Ltac bools := repeat match goal with
  | H : (_ && _) = true |- _ => apply andb_prop in H as [? ?]
  | H : (_ <=? _) = true |- _ => apply Z.leb_le in H
  | H : (_ <? _) = true |- _ => apply Z.ltb_lt in H
  | H : (_ <? _) = false |- _ => apply Z.ltb_ge in H
  end.

(** What is written is always valid, whatever the runes. *)
Lemma Valid_app2 a b r : between 194 a 223 = true -> cont b = true -> utf8_Valid (a :: b :: r) = utf8_Valid r.
Proof.
  intros Ha Hb. cbn. rewrite Ha, Hb. unfold between in Ha. bools. destruct (Z.ltb_spec a 128); [lia|done].
Qed.

Lemma Valid_app3 a b c r : lead3 a b = true -> cont c = true -> utf8_Valid (a :: b :: c :: r) = utf8_Valid r.
Proof.
  intros Ha Hb. cbn. rewrite Ha, Hb. assert (224 <= a <= 239) as Hr.
  { unfold lead3, between in Ha. destruct (Z.eqb_spec a 224), (Z.eqb_spec a 237); bools; lia. }
  unfold between. destruct (Z.ltb_spec a 128), (Z.leb_spec 194 a), (Z.leb_spec a 223); lia || done.
Qed.

Lemma Valid_app4 a b c d r :
  lead4 a b = true -> cont c = true -> cont d = true -> utf8_Valid (a :: b :: c :: d :: r) = utf8_Valid r.
Proof.
  intros Ha Hb Hc. cbn. rewrite Ha, Hb, Hc. assert (240 <= a <= 244) as Hr.
  { unfold lead4, between in Ha. destruct (Z.eqb_spec a 240), (Z.eqb_spec a 244); bools; lia. }
  assert (lead3 a b = false) as ->.
  { unfold lead3, between. destruct (Z.eqb_spec a 224), (Z.eqb_spec a 237); [lia..|].
    destruct (Z.leb_spec a 239); [lia|]. by rewrite andb_false_r. }
  unfold between. destruct (Z.ltb_spec a 128), (Z.leb_spec 194 a), (Z.leb_spec a 223); lia || done.
Qed.

Lemma cont_low z : cont (128 + z mod 64) = true.
Proof. unfold cont. pose proof (Z.mod_pos_bound z 64 ltac:(lia)). apply andb_true_intro. split; apply Z.leb_le; lia. Qed.

Lemma is_rune_spec c : is_rune c = true <-> 0 <= c < 0xd800 \/ 0xdfff < c <= 0x10ffff.
Proof.
  unfold is_rune, between. destruct (Z.leb_spec 0 c), (Z.leb_spec c 0x10ffff), (Z.leb_spec 0xd800 c), (Z.leb_spec c 0xdfff);
    cbn; split; intros; try done; lia.
Qed.

Lemma WriteRune_Valid c r : utf8_Valid (WriteRune c ++ r) = utf8_Valid r.
Proof.
  unfold WriteRune. set (d := if is_rune c then c else RuneError).
  assert (0 <= d < 0xd800 \/ 0xdfff < d <= 0x10ffff) as Hd.
  { unfold d, RuneError. destruct (is_rune c) eqn:E; [by apply is_rune_spec|lia]. }
  clearbody d. destruct (Z.ltb_spec d 0x80) as [H1|H1].
  - cbn. destruct (Z.ltb_spec d 128); [done|lia].
  - destruct (Z.ltb_spec d 0x800) as [H2|H2]; [|destruct (Z.ltb_spec d 0x10000) as [H3|H3]].
    + apply Valid_app2; [|apply cont_low]. unfold between. apply andb_true_intro. split; apply Z.leb_le;
        Z.to_euclidean_division_equations; lia.
    + apply Valid_app3; [|apply cont_low].
      unfold lead3, between. assert (d / 64 / 64 = d / 4096) as -> by (by rewrite Z.div_div by lia).
      assert (d / 64 mod 64 = d / 64 - 64 * (d / 4096)) as ->.
      { rewrite Z.mod_eq by lia. by rewrite Z.div_div by lia. }
      destruct (Z.eqb_spec (224 + d / 4096) 224), (Z.eqb_spec (224 + d / 4096) 237);
        rewrite ?andb_true_iff; unfold cont; rewrite ?andb_true_iff, ?Z.leb_le;
        Z.to_euclidean_division_equations; lia.
    + apply Valid_app4; [|apply cont_low..].
      unfold lead4, between. assert (d / 64 / 64 = d / 4096) as -> by (by rewrite Z.div_div by lia).
      assert (d / 4096 mod 64 = d / 4096 - 64 * (d / 4096 / 64)) as -> by (by rewrite Z.mod_eq by lia).
      assert (d / 4096 / 64 = d / 262144) as -> by (by rewrite Z.div_div by lia).
      destruct (Z.eqb_spec (240 + d / 262144) 240), (Z.eqb_spec (240 + d / 262144) 244);
        rewrite ?andb_true_iff; unfold cont; rewrite ?andb_true_iff, ?Z.leb_le;
        Z.to_euclidean_division_equations; lia.
Qed.

Lemma encode_runes_Valid cs : utf8_Valid (encode_runes cs) = true.
Proof.
  induction cs as [|c cs IH]; [done|]. unfold encode_runes. cbn. by rewrite WriteRune_Valid.
Qed.

(** A valid text is read back as it was written. *)
Lemma DecodeRune_Valid b0 r0 :
  0 <= b0 -> utf8_Valid (b0 :: r0) = true ->
  let '(c, w) := DecodeRune b0 r0 in
  WriteRune c = b0 :: take w r0 /\ utf8_Valid (drop w r0) = true /\ (w <= length r0)%nat.
Proof.
  intros H0 HV. cbn [utf8_Valid] in HV. unfold DecodeRune. destruct (Z.ltb_spec b0 128) as [H1|H1].
  { split; [|split; [done|lia]]. unfold WriteRune. assert (is_rune b0 = true) as -> by (apply is_rune_spec; lia).
    by destruct (Z.ltb_spec b0 0x80); [|lia]. }
  destruct r0 as [|b1 r1]; [done|]. destruct (between 194 b0 223) eqn:E2; cbn [andb] in *.
  { apply andb_prop in HV as [Hc HV]. rewrite Hc. split; [|split; [done|cbn; lia]]. cbn [take].
    unfold between, cont in *. bools. unfold WriteRune. assert (is_rune ((b0 - 192) * 64 + (b1 - 128)) = true) as ->
      by (apply is_rune_spec; lia).
    destruct (Z.ltb_spec ((b0 - 192) * 64 + (b1 - 128)) 0x80); [lia|].
    destruct (Z.ltb_spec ((b0 - 192) * 64 + (b1 - 128)) 0x800); [|lia].
    repeat (f_equal; try (Z.to_euclidean_division_equations; lia)). }
  destruct r1 as [|b2 r2]; [done|]. destruct (lead3 b0 b1) eqn:E3; cbn [andb] in *.
  { apply andb_prop in HV as [Hc HV]. rewrite Hc. split; [|split; [done|cbn; lia]]. cbn [take].
    assert (224 <= b0 <= 239 /\ 128 <= b1 <= 191 /\ (b0 = 224 -> 160 <= b1) /\ (b0 = 237 -> b1 <= 159)) as Hr.
    { unfold lead3, between, cont in E3. destruct (Z.eqb_spec b0 224), (Z.eqb_spec b0 237); bools; lia. }
    unfold cont in Hc. bools. set (c := ((b0 - 224) * 64 + (b1 - 128)) * 64 + (b2 - 128)).
    unfold WriteRune. assert (is_rune c = true) as -> by (apply is_rune_spec; unfold c; lia).
    destruct (Z.ltb_spec c 0x80); [unfold c in *; lia|]. destruct (Z.ltb_spec c 0x800); [unfold c in *; lia|].
    destruct (Z.ltb_spec c 0x10000); [|unfold c in *; lia]. unfold c.
    rewrite Z.div_add_l, (Z.div_small (b2 - 128)), Z.add_0_r by lia.
    rewrite Z.div_add_l, (Z.div_small (b1 - 128)), Z.add_0_r by lia.
    rewrite !(Z.add_comm (_ * 64)), !Z.mod_add, !Z.mod_small by lia. repeat (f_equal; try lia). }
  destruct r2 as [|b3 r3]; [done|]. apply andb_prop in HV as [[[Ha Hb]%andb_prop Hc]%andb_prop HV].
  rewrite Ha, Hb, Hc. cbn [andb]. split; [|split; [done|cbn; lia]]. cbn [take].
  assert (240 <= b0 <= 244 /\ 128 <= b1 <= 191 /\ (b0 = 240 -> 144 <= b1) /\ (b0 = 244 -> b1 <= 143)) as Hr.
  { unfold lead4, between, cont in Ha. destruct (Z.eqb_spec b0 240), (Z.eqb_spec b0 244); bools; lia. }
  unfold cont in *. bools. set (c := (((b0 - 240) * 64 + (b1 - 128)) * 64 + (b2 - 128)) * 64 + (b3 - 128)).
  unfold WriteRune. assert (is_rune c = true) as -> by (apply is_rune_spec; unfold c; lia).
  destruct (Z.ltb_spec c 0x80); [unfold c in *; lia|]. destruct (Z.ltb_spec c 0x800); [unfold c in *; lia|].
  destruct (Z.ltb_spec c 0x10000); [unfold c in *; lia|]. unfold c.
  rewrite Z.div_add_l, (Z.div_small (b3 - 128)), Z.add_0_r by lia.
  rewrite Z.div_add_l, (Z.div_small (b2 - 128)), Z.add_0_r by lia.
  rewrite Z.div_add_l, (Z.div_small (b1 - 128)), Z.add_0_r by lia.
  rewrite !(Z.add_comm (_ * 64)), !Z.mod_add, !Z.mod_small by lia. repeat (f_equal; try lia).
Qed.

Lemma runes_skip w bs : (w <= length bs)%nat -> runes w bs = runes 0 (drop w bs).
Proof. revert bs. induction w as [|w IH]; intros [|b bs] H; cbn in *; try done; try lia. apply IH. lia. Qed.

Lemma runes_Valid bs : Forall (fun b => 0 <= b) bs -> utf8_Valid bs = true -> encode_runes (runes 0 bs) = bs.
Proof.
  remember (length bs) as n eqn:Hn. revert bs Hn. induction (lt_wf n) as [n _ IH]. intros [|b0 r0] -> H HV; [done|].
  apply Forall_cons in H as [H0 H]. pose proof (DecodeRune_Valid b0 r0 H0 HV) as HD. cbn [runes].
  destruct (DecodeRune b0 r0) as [c w]. destruct HD as (HW & HV' & Hl).
  rewrite runes_skip by done. unfold encode_runes. cbn [map concat]. rewrite HW.
  change (concat (map WriteRune (runes 0 (drop w r0)))) with (encode_runes (runes 0 (drop w r0))).
  rewrite (IH (length (drop w r0))); [by rewrite <- app_comm_cons, take_drop|..]; try done.
  - rewrite length_drop. cbn. lia.
  - by apply Forall_drop.
Qed.

(** [strings.Map], for a mapping that drops no rune. *)
Definition strings_Map (f : Z -> Z) (bs : bytes) : bytes := encode_runes (map f (runes 0 bs)).

Definition string_of (bs : bytes) : string := String.string_of_list_ascii (map (fun b => Ascii.ascii_of_N (Z.to_N b)) bs).

Lemma string_of_bytes_of s : string_of (bytes_of s) = s.
Proof.
  unfold string_of, bytes_of. rewrite map_map. rewrite <- (String.string_of_list_ascii_of_string s) at 2. f_equal.
  rewrite <- (map_id (String.list_ascii_of_string s)) at 2. apply map_ext. intros c. unfold byte_of.
  by rewrite N2Z.id, Ascii.ascii_N_embedding.
Qed.

Lemma bytes_of_string_of bs : bytes_ok bs -> bytes_of (string_of bs) = bs.
Proof.
  intros H. unfold string_of, bytes_of. rewrite String.list_ascii_of_string_of_list_ascii, map_map.
  rewrite <- (map_id bs) at 2. apply map_ext_in. intros b Hb. rewrite Forall_forall in H. apply list_elem_of_In, H in Hb.
  unfold in_range in Hb. unfold byte_of. rewrite Ascii.N_ascii_embedding by lia. lia.
Qed.
