(* ===== verification/DeviceMetadata.v ===== *)
(** * Metadata of devices (src/pkg/inputs/snmp/metadata/device_metadata.go)

    What a device says of itself: the seven objects every device has, and those its profile asks
    for, one by one or as cells of tables.  The walks of the SNMP library, its conversion of values
    to integers, the clock and the order of the range over the objects are arguments; the log,
    which is all the names of missing objects are for, is left out, but not their set.  Values are
    those of [SnmpTypes.Value], so none is a [net.IP]. *)
From S2P Require Import Prelude GoIO GoStrings KT SnmpTypes SnmpUtil SnmpConv InterfaceMetrics InterfaceMetadata Utf8.

Definition SNMP_sysDescr : string := "sysDescr".
Definition SNMP_sysObjectID : string := "sysObjectID".
Definition SNMP_sysContact : string := "sysContact".
Definition SNMP_sysName : string := "sysName".
Definition SNMP_sysLocation : string := "sysLocation".
Definition SNMP_sysServices : string := "sysServices".
Definition SNMP_engineID : string := "sysEngineID".

Definition CONV_ENGINE_ID : string := "engine_id".

Definition SNMP_device_metadata_oids : list (string * string) := [
  (".1.3.6.1.2.1.1.1.0", SNMP_sysDescr);
  (".1.3.6.1.2.1.1.2.0", SNMP_sysObjectID);
  (".1.3.6.1.2.1.1.4.0", SNMP_sysContact);
  (".1.3.6.1.2.1.1.5.0", SNMP_sysName);
  (".1.3.6.1.2.1.1.6.0", SNMP_sysLocation);
  (".1.3.6.1.2.1.1.7.0", SNMP_sysServices);
  (".1.3.6.1.6.3.10.2.1.1.0", SNMP_engineID)]%string.

(** A table is its cells by their columns. *)
Record DeviceMetricsMetadata := mkDeviceMetricsMetadata {
  SysName : string;
  SysObjectID : string;
  SysDescr : string;
  SysLocation : string;
  SysContact : string;
  SysServices : Z;
  md_EngineID : string;
  md_Customs : gmap string string;
  md_CustomInts : gmap string Z;
  md_Tables : gmap string (gmap string MetaValue)
}.
Definition empty_metadata : DeviceMetricsMetadata := mkDeviceMetricsMetadata "" "" "" "" "" 0 "" ∅ ∅ ∅.

(** The fields of the system. *)
Definition set_system (name value : string) (md : DeviceMetricsMetadata) : DeviceMetricsMetadata :=
  let at_ (n old : string) := if String.eqb n name then value else old in
  mkDeviceMetricsMetadata (at_ SNMP_sysName (SysName md)) (at_ SNMP_sysObjectID (SysObjectID md)) (at_ SNMP_sysDescr (SysDescr md))
    (at_ SNMP_sysLocation (SysLocation md)) (at_ SNMP_sysContact (SysContact md)) (SysServices md)
    (at_ SNMP_engineID (md_EngineID md)) (md_Customs md) (md_CustomInts md) (md_Tables md).
Definition set_SysServices (z : Z) (md : DeviceMetricsMetadata) : DeviceMetricsMetadata :=
  mkDeviceMetricsMetadata (SysName md) (SysObjectID md) (SysDescr md) (SysLocation md) (SysContact md) z (md_EngineID md)
    (md_Customs md) (md_CustomInts md) (md_Tables md).
Definition set_customs (strs : gmap string string) (ints : gmap string Z) (md : DeviceMetricsMetadata) : DeviceMetricsMetadata :=
  mkDeviceMetricsMetadata (SysName md) (SysObjectID md) (SysDescr md) (SysLocation md) (SysContact md) (SysServices md)
    (md_EngineID md) strs ints (md_Tables md).
Definition put_custom (k v : string) (md : DeviceMetricsMetadata) : DeviceMetricsMetadata :=
  set_customs (<[k := v]> (md_Customs md)) (md_CustomInts md) md.
Definition put_custom_int (k : string) (v : Z) (md : DeviceMetricsMetadata) : DeviceMetricsMetadata :=
  set_customs (md_Customs md) (<[k := v]> (md_CustomInts md)) md.
Definition set_tables (t : gmap string (gmap string MetaValue)) (md : DeviceMetricsMetadata) : DeviceMetricsMetadata :=
  mkDeviceMetricsMetadata (SysName md) (SysObjectID md) (SysDescr md) (SysLocation md) (SysContact md) (SysServices md)
    (md_EngineID md) (md_Customs md) (md_CustomInts md) t.

(** The objects to poll, of which the built-in ones come without a mib; the meters are counts. *)
Record DeviceMetadata := mkDeviceMetadata {
  dv_mibs : gmap string (option Mib);
  dv_basic : gmap string string;
  dv_missing : gset string;
  dv_Errors : Z;
  dv_MissingMeta : Z
}.
Definition set_dv_mib (oid : string) (mib : option Mib) (dm : DeviceMetadata) : DeviceMetadata :=
  mkDeviceMetadata (<[oid := mib]> (dv_mibs dm)) (dv_basic dm) (dv_missing dm) (dv_Errors dm) (dv_MissingMeta dm).
Definition mark_error (dm : DeviceMetadata) : DeviceMetadata :=
  mkDeviceMetadata (dv_mibs dm) (dv_basic dm) (dv_missing dm) (dv_Errors dm + 1) (dv_MissingMeta dm).
Definition add_missing_oid (oid : string) (dm : DeviceMetadata) : DeviceMetadata :=
  mkDeviceMetadata (dv_mibs dm) (dv_basic dm) ({[oid]} ∪ dv_missing dm) (dv_Errors dm) (dv_MissingMeta dm).
Definition set_MissingMeta (n : Z) (dm : DeviceMetadata) : DeviceMetadata :=
  mkDeviceMetadata (dv_mibs dm) (dv_basic dm) (dv_missing dm) (dv_Errors dm) n.

(** [NewDeviceMetadata]. *)
Definition NewDeviceMetadata (NoDeviceHardcodedOids : bool) (deviceMetadataMibs : gmap string Mib) : DeviceMetadata :=
  mkDeviceMetadata
    (if (0 <? size deviceMetadataMibs)%nat then Some <$> deviceMetadataMibs
     else list_to_map (map (fun o => (o.1, None)) SNMP_device_metadata_oids))
    (if NoDeviceHardcodedOids then ∅ else list_to_map SNMP_device_metadata_oids) ∅ 0 0.

(** A variable of a walk with the object that was walked. *)
Record wrapper := mkwrapper { w_variable : SnmpPDU; w_mib : option Mib; w_oid : string }.

Definition tail_name (v : SnmpPDU) : outcome string :=
  match pdu_Name v with
  | String _ name => Ok name
  | ""%string => Panic "slice bounds out of range [1:0]"
  end.

Section Poll.
  Context `{Regexps, BigInts} (walk : string -> outcome answer) (now : string -> Z).

(** One object: when it is time for it, and what its walk answers, less the other columns of a
    table that was walked for it. *)
Definition keep_result (walked : bool) (mib : option Mib) (oid : string) (results : list wrapper) (v : SnmpPDU) :
    outcome (list wrapper) :=
  if walked
  then name ← tail_name v;
       Ok (if HasPrefix name oid then results ++ [mkwrapper v mib oid] else results)
  else Ok (results ++ [mkwrapper v mib oid]).
Definition ready_mib (oid : string) (mib : option Mib) : bool * option Mib :=
  match mib with
  | None => (true, None)
  | Some mb => let '(r, mb) := IsPollReady (now oid) mb in (r, Some mb)
  end.
Definition is_walked (mib : option Mib) : bool := match mib with Some mb => mb_WalkTable mb | None => false end.
Definition walk_oid (oid : string) (mib : option Mib) : string :=
  match mib with Some mb => if mb_WalkTable mb then mb_TableOid mb else oid | None => oid end.
Definition walk_mib (st : DeviceMetadata * list wrapper * Z) (oid : string) : outcome (DeviceMetadata * list wrapper * Z) :=
  let '(dm, results, missing) := st in
  match dv_mibs dm !! oid with
  | None => Ok st
  | Some mib =>
      let ready := ready_mib oid mib in
      let mib := ready.2 in
      let dm := set_dv_mib oid mib dm in
      if negb ready.1 then Ok (dm, results, missing)
      else
        a ← walk (walk_oid oid mib);
        match a with
        | None => Ok (mark_error dm, results, missing)
        | Some vs =>
            results ← fold_out (keep_result (is_walked mib) mib oid) results vs;
            match vs with
            | [] => Ok (add_missing_oid oid dm, results, missing + 1)
            | _ => Ok (dm, results, missing)
            end
        end
  end.

(** [handleTable]: a cell of a table. *)
Definition put_cell (idx oidName : string) (mib : option Mib) (sv : string) (iv : Z) (md : DeviceMetricsMetadata) :
    outcome DeviceMetricsMetadata :=
  v ← NewMetaValue mib sv iv;
  Ok (set_tables (<[idx := <[oidName := v]> (default ∅ (md_Tables md !! idx))]> (md_Tables md)) md).
Definition conversion_of (mib : option Mib) : string := match mib with Some mb => mb_Conversion mb | None => "" end.
Definition converted (w : wrapper) (val : string) : string :=
  let c := conversion_of (w_mib w) in
  if String.eqb c "" then val else (GetFromConv (w_variable w) c).1.2.
Definition handleTable (idx : string) (w : wrapper) (oidName : string) (md : DeviceMetricsMetadata) : outcome DeviceMetricsMetadata :=
  let idx := if HasPrefix idx "." then sdrop 1 idx else idx in
  let md := match md_Tables md !! idx with
            | Some _ => md
            | None => set_tables (<[idx := ∅]> (md_Tables md)) md
            end in
  match pdu_Type (w_variable w) with
  | OctetString =>
      val ← bytes_value (w_variable w);
      let val := converted w val in
      if ValidString val then put_cell idx oidName (w_mib w) val 0 md else Ok md
  | IPAddress =>
      match pdu_Value (w_variable w) with
      | VString val => put_cell idx oidName (w_mib w) val 0 md
      | VBytes val => put_cell idx oidName (w_mib w) (str_of val) 0 md
      | _ => Ok md
      end
  | ObjectIdentifier =>
      val ← string_value (w_variable w);
      let val := converted w val in
      if ValidString val then put_cell idx oidName (w_mib w) val 0 md else Ok md
  | _ => put_cell idx oidName (w_mib w) "" ((int64 (big_value (w_variable w)))%go) md
  end.

(** A value that is of no table. *)
Definition put_scalar (oidName : string) (v : SnmpPDU) (mb : Mib) (md : DeviceMetricsMetadata) : DeviceMetricsMetadata :=
  match pdu_Value v with
  | VString vt => put_custom oidName vt md
  | VBytes vt =>
      if String.eqb (mb_Conversion mb) "" then put_custom oidName (str_of vt) md
      else
        let '(ival, sval, mval) := GetFromConv v (mb_Conversion mb) in
        if 0 <? ival then put_custom (StringPrefix +:+ oidName) sval (put_custom_int oidName ival md)
        else match mval with
             | Some m => if (0 <? size m)%nat then set_customs (m ∪ md_Customs md) (md_CustomInts md) md else put_custom oidName sval md
             | None => put_custom oidName sval md
             end
  | value =>
      let val := ToInt64 value in
      match mb_EnumRev mb ≫= (.!! val) with
      | Some ev => put_custom oidName ev md
      | None => put_custom_int oidName val md
      end
  end.

(** The objects of the system. *)
Definition is_system (oidName : string) : bool := existsb (fun o => String.eqb o.2 oidName) SNMP_device_metadata_oids.
Definition put_system (oidName : string) (v : SnmpPDU) (md : DeviceMetricsMetadata) : outcome DeviceMetricsMetadata :=
  if String.eqb oidName SNMP_sysObjectID then
    match pdu_Value v with
    | VString sd => Ok (set_system oidName sd md)
    | VBytes sd => Ok (set_system oidName (str_of sd) md)
    | _ => match pdu_Type v with
           | ObjectIdentifier => Panic "interface conversion"
           | _ => Ok md
           end
    end
  else if String.eqb oidName SNMP_sysServices then Ok (set_SysServices (ToInt64 (pdu_Value v)) md)
  else if String.eqb oidName SNMP_engineID then Ok (set_system oidName (GetFromConv v CONV_ENGINE_ID).1.2 md)
  else s ← bytes_value v; Ok (set_system oidName s md).

Definition put_result (basic : gmap string string) (md : DeviceMetricsMetadata) (w : wrapper) : outcome DeviceMetricsMetadata :=
  match pdu_Value (w_variable w) with
  | VNil => Ok md
  | _ =>
      name ← tail_name (w_variable w);
      let idx := GetIndex name (w_oid w) in
      let oidName := match basic !! pdu_Name (w_variable w), w_mib w with
                     | Some n, _ => n
                     | None, Some mb => GetName (Some mb)
                     | None, None => ""%string
                     end in
      if String.eqb oidName "" then Ok md
      else if is_system oidName then put_system oidName (w_variable w) md
      else match w_mib w with
           | None => Ok md
           | Some mb =>
               if String.eqb idx "" then Ok (put_scalar oidName (w_variable w) mb md)
               else handleTable idx w oidName md
           end
  end.

(** [poll]; [range] is the order of the range over the objects. *)
Definition Device_poll (range : list string) (dm : DeviceMetadata) : outcome (DeviceMetricsMetadata * DeviceMetadata) :=
  st ← fold_out walk_mib (dm, [], 0) range;
  let dm := set_MissingMeta st.2 st.1.1 in
  md ← fold_out (put_result (dv_basic dm)) empty_metadata st.1.2;
  Ok (md, dm).

(** [GetBasicDeviceMetadata]. *)
Definition basic_row (no_such : SnmpPDU -> bool) (md : DeviceMetricsMetadata) (v : SnmpPDU) : outcome DeviceMetricsMetadata :=
  match pdu_Value v with
  | VNil => Ok md
  | _ =>
      if no_such v then Ok md
      else match (list_to_map SNMP_device_metadata_oids : gmap string string) !! pdu_Name v with
           | Some oidName => put_system oidName v md
           | None => Ok md
           end
  end.
Definition basic_walk (no_such : SnmpPDU -> bool) (md : DeviceMetricsMetadata) (o : string * string) : outcome DeviceMetricsMetadata :=
  a ← walk o.1;
  match a with
  | None => Err walk_error
  | Some vs => fold_out (basic_row no_such) md vs
  end.
Definition GetBasicDeviceMetadata (no_such : SnmpPDU -> bool) : outcome DeviceMetricsMetadata :=
  fold_out (basic_walk no_such) empty_metadata SNMP_device_metadata_oids.
End Poll.

(** ** Properties: the cells of the tables are the last results *)

Section Reports.
  Context `{Regexps, BigInts} (walk : string -> outcome answer) (now : string -> Z).

(** The name of a variable. *)
Definition name_of (basic : gmap string string) (w : wrapper) : string :=
  match basic !! pdu_Name (w_variable w), w_mib w with
  | Some n, _ => n
  | None, Some mb => GetName (Some mb)
  | None, None => ""%string
  end.

(** Values have the Go types that the library gives to those types of variables, and the texts of
    the system are octets. *)
Definition typed_value (v : SnmpPDU) : bool :=
  match pdu_Type v, pdu_Value v with
  | _, VNil => true
  | OctetString, VBytes _ => true
  | OctetString, _ => false
  | ObjectIdentifier, VString _ => true
  | ObjectIdentifier, _ => false
  | _, _ => true
  end.
Definition system_text (name : string) : bool :=
  is_system name && negb (String.eqb name SNMP_sysObjectID) && negb (String.eqb name SNMP_sysServices) && negb (String.eqb name SNMP_engineID).
Definition typed_result (basic : gmap string string) (w : wrapper) : bool :=
  negb (String.eqb (pdu_Name (w_variable w)) "") && typed_value (w_variable w) &&
  (negb (system_text (name_of basic w)) || match pdu_Value (w_variable w) with VBytes _ | VNil => true | _ => false end).

(** What a cell shows, if it shows anything: a text, or a number for an enumeration to name. *)
Definition shown (w : wrapper) : option (string * Z) :=
  match pdu_Type (w_variable w), pdu_Value (w_variable w) with
  | OctetString, VBytes bs => let s := converted w (str_of bs) in if ValidString s then Some (s, 0) else None
  | ObjectIdentifier, VString s => let s := converted w s in if ValidString s then Some (s, 0) else None
  | OctetString, _ | ObjectIdentifier, _ => None
  | IPAddress, VString s => Some (s, 0)
  | IPAddress, VBytes bs => Some (str_of bs, 0)
  | IPAddress, _ => None
  | _, _ => Some (""%string, (int64 (big_value (w_variable w)))%go)
  end.
Definition row_of (w : wrapper) : string :=
  let idx := GetIndex (sdrop 1 (pdu_Name (w_variable w))) (w_oid w) in if HasPrefix idx "." then sdrop 1 idx else idx.
Definition in_a_row (w : wrapper) : bool := negb (String.eqb (GetIndex (sdrop 1 (pdu_Name (w_variable w))) (w_oid w)) "").
(** The cell of a row and a column that a result is. *)
Definition cell_at (basic : gmap string string) (idx name : string) (w : wrapper) : option MetaValue :=
  match pdu_Value (w_variable w), w_mib w with
  | VNil, _ | _, None => None
  | _, Some mb =>
      if negb (String.eqb name "") && String.eqb (name_of basic w) name && negb (is_system name) && in_a_row w && String.eqb (row_of w) idx
      then match shown w with
           | Some (s, z) => match NewMetaValue (Some mb) s z with Ok v => Some v | _ => None end
           | None => None
           end
      else None
  end.
Definition cell (md : DeviceMetricsMetadata) (idx name : string) : option MetaValue := md_Tables md !! idx ≫= (.!! name).

Lemma cell_put idx name v t md i n :
  md_Tables md = <[idx := <[name := v]> (default ∅ (t !! idx))]> t ->
  cell md i n = if String.eqb idx i && String.eqb name n then Some v else t !! i ≫= (.!! n).
Proof using Type.
  intros E. unfold cell. rewrite E. destruct (String.eqb_spec idx i) as [->|Hi]; cbn.
  - rewrite lookup_insert_eq. cbn. destruct (String.eqb_spec name n) as [->|Hn]; [by rewrite lookup_insert_eq|].
    rewrite lookup_insert_ne by done. destruct (t !! i); cbn; [done|by rewrite lookup_empty].
  - by rewrite lookup_insert_ne.
Qed.

Lemma new_value mb s z : exists v, NewMetaValue (Some mb) s z = Ok v.
Proof using Type. unfold NewMetaValue. destruct (match mb_EnumRev mb with Some _ => _ | None => _ end). by eexists. Qed.

(** [handleTable] writes the cell, and makes the row in any case. *)
Lemma handleTable_ok idx w name md mb : w_mib w = Some mb -> typed_value (w_variable w) = true -> pdu_Value (w_variable w) <> VNil ->
  exists md', handleTable idx w name md = Ok md' /\
    forall i n, cell md' i n =
      match shown w with
      | Some (s, z) => if String.eqb (if HasPrefix idx "." then sdrop 1 idx else idx) i && String.eqb name n
                       then match NewMetaValue (Some mb) s z with Ok v => Some v | _ => None end else cell md i n
      | None => cell md i n
      end.
Proof using Type.
  intros Hm Ht Hv. unfold handleTable. cbv zeta. set (i0 := if HasPrefix idx "." then _ else idx).
  set (md1 := match md_Tables md !! i0 with Some _ => md | None => _ end).
  assert (forall i n, cell md1 i n = cell md i n) as H1.
  { intros i n. unfold md1, cell. destruct (md_Tables md !! i0) eqn:E; [done|]. cbn [md_Tables set_tables].
    destruct (decide (i0 = i)) as [<-|Hi]; [rewrite lookup_insert_eq, E; cbn; by rewrite lookup_empty|by rewrite lookup_insert_ne]. }
  assert (forall s z, exists md', put_cell i0 name (w_mib w) s z md1 = Ok md' /\ forall i n, cell md' i n =
    if String.eqb i0 i && String.eqb name n then match NewMetaValue (Some mb) s z with Ok v => Some v | _ => None end else cell md i n) as Hput.
  { intros s z. unfold put_cell. rewrite Hm. destruct (new_value mb s z) as [v ->]. cbn [mbind outcome_bind]. eexists. split; [done|].
    intros i n. rewrite <-(H1 i n). by apply cell_put. }
  unfold shown, typed_value, bytes_value, string_value in *. destruct (pdu_Type (w_variable w)), (pdu_Value (w_variable w)); try done;
    cbn [mbind outcome_bind]; try destruct (ValidString _); first [apply Hput | by exists md1].
Qed.

Lemma put_system_ok name v md : system_text name = false \/ (exists bs, pdu_Value v = VBytes bs) -> typed_value v = true -> pdu_Value v <> VNil ->
  is_system name = true -> exists md', put_system name v md = Ok md' /\ md_Tables md' = md_Tables md.
Proof using Type.
  intros Hs Ht Hv Hn. unfold put_system. destruct (String.eqb name SNMP_sysObjectID) eqn:E1.
  - unfold typed_value in Ht. destruct (pdu_Value v); try done; try by eexists.
    + destruct (pdu_Type v); try done; by eexists.
    + destruct (pdu_Type v); try done; by eexists.
  - destruct (String.eqb name SNMP_sysServices) eqn:E2; [by eexists|].
    destruct (String.eqb name SNMP_engineID) eqn:E3; [by eexists|]. destruct Hs as [Hs|[bs Hb]].
    + unfold system_text in Hs. by rewrite Hn, E1, E2, E3 in Hs.
    + unfold bytes_value. rewrite Hb. by eexists.
Qed.
Lemma put_scalar_tables name v mb md : md_Tables (put_scalar name v mb md) = md_Tables md.
Proof using Type.
  unfold put_scalar. destruct (pdu_Value v); try (by destruct (mb_EnumRev mb ≫= _)); [done|].
  destruct (String.eqb _ _); [done|]. destruct (GetFromConv v (mb_Conversion mb)) as [[ival sval] mval].
  destruct (0 <? ival); [done|]. destruct mval as [m|]; [|done]. by destruct (_ <? _)%nat.
Qed.

Lemma cell_same md md' : md_Tables md' = md_Tables md -> forall i n, cell md' i n = cell md i n.
Proof using Type. intros E i n. unfold cell. by rewrite E. Qed.

Lemma put_result_some basic md w c nm : pdu_Value (w_variable w) <> VNil -> pdu_Name (w_variable w) = String c nm ->
  put_result basic md w =
    (if String.eqb (name_of basic w) "" then Ok md
     else if is_system (name_of basic w) then put_system (name_of basic w) (w_variable w) md
     else match w_mib w with
          | None => Ok md
          | Some mb => if negb (in_a_row w) then Ok (put_scalar (name_of basic w) (w_variable w) mb md)
                       else handleTable (GetIndex nm (w_oid w)) w (name_of basic w) md
          end).
Proof using Type.
  intros Hv En. unfold put_result, tail_name, in_a_row, name_of. rewrite negb_involutive, En. cbn [sdrop mbind outcome_bind].
  by destruct (pdu_Value (w_variable w)).
Qed.
Lemma cell_at_some basic w i n : pdu_Value (w_variable w) <> VNil ->
  cell_at basic i n w =
    match w_mib w with
    | Some mb =>
        if negb (String.eqb n "") && String.eqb (name_of basic w) n && negb (is_system n) && in_a_row w && String.eqb (row_of w) i
        then match shown w with
             | Some (s, z) => match NewMetaValue (Some mb) s z with Ok v => Some v | _ => None end
             | None => None
             end
        else None
    | None => None
    end.
Proof using Type. intros Hv. unfold cell_at. by destruct (pdu_Value (w_variable w)). Qed.
Lemma typed_text basic w : typed_result basic w = true -> pdu_Value (w_variable w) <> VNil ->
  system_text (name_of basic w) = false \/ exists bs, pdu_Value (w_variable w) = VBytes bs.
Proof using Type.
  unfold typed_result. rewrite !andb_true_iff. intros [_ Hs] Hv. destruct (system_text (name_of basic w)); [right|by left].
  destruct (pdu_Value (w_variable w)); try done. by eexists.
Qed.
Lemma no_cell basic w i n : String.eqb (name_of basic w) "" || is_system (name_of basic w) || negb (in_a_row w) = true ->
  cell_at basic i n w = None.
Proof using Type.
  intros Hno. unfold cell_at.
  assert (negb (String.eqb n "") && String.eqb (name_of basic w) n && negb (is_system n) && in_a_row w = false) as ->.
  { destruct (String.eqb_spec (name_of basic w) n) as [<-|]; [|by rewrite andb_false_r].
    destruct (String.eqb _ ""), (is_system _), (in_a_row w); try done; discriminate Hno. }
  by destruct (pdu_Value (w_variable w)), (w_mib w).
Qed.

Lemma put_result_ok basic md w : typed_result basic w = true ->
  exists md', put_result basic md w = Ok md' /\ forall i n, cell md' i n = from_option Some (cell md i n) (cell_at basic i n w).
Proof using Type.
  intros Ht. pose proof Ht as Hb. unfold typed_result in Hb. rewrite !andb_true_iff in Hb. destruct Hb as [[Hname Hval] _].
  destruct (decide (pdu_Value (w_variable w) = VNil)) as [Hv|Hv].
  { exists md. unfold put_result, cell_at. by rewrite Hv. }
  destruct (pdu_Name (w_variable w)) as [|c nm] eqn:En; [discriminate Hname|]. rewrite (put_result_some basic md w c nm Hv En).
  destruct (String.eqb (name_of basic w) "") eqn:E0; [exists md; split; [done|]; intros i n; by rewrite no_cell by (by rewrite E0)|].
  destruct (is_system (name_of basic w)) eqn:Es.
  { destruct (put_system_ok (name_of basic w) (w_variable w) md (typed_text _ _ Ht Hv) Hval Hv Es) as (md' & -> & Htab).
    exists md'. split; [done|]. intros i n. rewrite (cell_same md md' Htab), no_cell; [done|]. by rewrite E0, Es. }
  destruct (w_mib w) as [mb|] eqn:Em.
  2: { exists md. split; [done|]. intros i n. rewrite cell_at_some by done. by rewrite Em. }
  destruct (in_a_row w) eqn:Er; cbn [negb].
  2: { eexists. split; [done|]. intros i n. rewrite (cell_same md _ (put_scalar_tables _ _ _ _)), no_cell; [done|]. by rewrite Er, orb_true_r. }
  destruct (handleTable_ok (GetIndex nm (w_oid w)) w (name_of basic w) md mb Em Hval Hv) as (md' & -> & Hc).
  exists md'. split; [done|]. intros i n. rewrite Hc, cell_at_some, Em, Er, andb_true_r by done.
  unfold row_of. rewrite En. cbn [sdrop]. destruct (String.eqb_spec (name_of basic w) n) as [<-|Hn].
  - rewrite E0, Es. cbn [negb andb]. destruct (shown w) as [[s z]|]; [|by destruct (String.eqb _ i)].
    destruct (new_value mb s z) as [v ->]. rewrite andb_true_r. by destruct (String.eqb _ i).
  - rewrite !andb_false_r. cbn [andb]. by destruct (shown w) as [[? ?]|].
Qed.

(** What the walk for an object answers, when it is time for it, and what is kept of it. *)
Definition answer_of (dm : DeviceMetadata) (oid : string) : option answer :=
  match dv_mibs dm !! oid with
  | Some mib => if (ready_mib now oid mib).1 then match walk (walk_oid oid (ready_mib now oid mib).2) with Ok a => Some a | _ => None end else None
  | None => None
  end.
Definition results_of (dm : DeviceMetadata) (oid : string) : list wrapper :=
  match dv_mibs dm !! oid, answer_of dm oid with
  | Some mib, Some (Some vs) =>
      let mib := (ready_mib now oid mib).2 in
      map (fun v => mkwrapper v mib oid)
        (List.filter (fun v => negb (is_walked mib) || HasPrefix (sdrop 1 (pdu_Name v)) oid) vs)
  | _, _ => []
  end.
Definition failed (dm : DeviceMetadata) (oid : string) : bool := match answer_of dm oid with Some None => true | _ => false end.
Definition silent (dm : DeviceMetadata) (oid : string) : bool := match answer_of dm oid with Some (Some []) => true | _ => false end.

(** Every walk ends, with an error or with variables that have names and the types of their values. *)
Definition answers_well (dm : DeviceMetadata) : Prop :=
  (forall oid, exists a, walk oid = Ok a /\ Forall (fun v => pdu_Name v <> ""%string) (default [] a)) /\
  forall oid, Forall (fun w => typed_result (dv_basic dm) w = true) (results_of dm oid).

Lemma keep_results walked mib oid vs results : Forall (fun v => pdu_Name v <> ""%string) vs ->
  fold_out (keep_result walked mib oid) results vs =
  Ok (results ++ map (fun v => mkwrapper v mib oid) (List.filter (fun v => negb walked || HasPrefix (sdrop 1 (pdu_Name v)) oid) vs)).
Proof using Type.
  intros Hvs. revert results. induction Hvs as [|v vs Hv _ IH]; intros results; cbn [fold_out]; [by rewrite app_nil_r|].
  assert (keep_result walked mib oid results v =
    Ok (if negb walked || HasPrefix (sdrop 1 (pdu_Name v)) oid then results ++ [mkwrapper v mib oid] else results)) as ->.
  { unfold keep_result, tail_name. by destruct walked, (pdu_Name v). }
  cbn [mbind outcome_bind List.filter]. rewrite IH. destruct (negb walked || _); [by rewrite <-app_assoc|done].
Qed.

Lemma walk_mib_ok dm0 dm rs m oid : answers_well dm0 -> dv_mibs dm !! oid = dv_mibs dm0 !! oid ->
  exists dm', walk_mib walk now (dm, rs, m) oid = Ok (dm', rs ++ results_of dm0 oid, m + Z.b2z (silent dm0 oid)) /\
    dv_basic dm' = dv_basic dm /\ dv_Errors dm' = dv_Errors dm + Z.b2z (failed dm0 oid) /\
    forall q, q <> oid -> dv_mibs dm' !! q = dv_mibs dm !! q.
Proof using Type.
  intros [Hw _] E. unfold walk_mib, results_of, silent, failed, answer_of. rewrite E.
  destruct (dv_mibs dm0 !! oid) as [mib|]; [|exists dm; rewrite app_nil_r, !Z.add_0_r; done].
  set (r := ready_mib now oid mib). destruct r.1; cbn [negb].
  2: { eexists. rewrite app_nil_r, !Z.add_0_r. split; [done|]. split; [done|]. split; [done|]. intros q Hq. cbn. by rewrite lookup_insert_ne. }
  destruct (Hw (walk_oid oid r.2)) as (a & -> & Ha). cbn [mbind outcome_bind].
  destruct a as [vs|]; cbn [Z.b2z].
  - rewrite keep_results by done. cbn [mbind outcome_bind].
    destruct vs as [|v vs]; cbn [Z.b2z]; rewrite ?Z.add_0_r; eexists; (split; [done|]); (split; [done|]); (split; [cbn; lia|]);
      intros q Hq; cbn; by rewrite lookup_insert_ne.
  - rewrite app_nil_r, Z.add_0_r. eexists. split; [done|]. split; [done|]. split; [cbn; lia|]. intros q Hq. cbn. by rewrite lookup_insert_ne.
Qed.

Definition count (f : string -> bool) (l : list string) : Z := foldr (fun oid n => Z.b2z (f oid) + n) 0 l.

Lemma walks_ok dm0 range : answers_well dm0 -> NoDup range -> forall dm rs m,
  (forall oid, In oid range -> dv_mibs dm !! oid = dv_mibs dm0 !! oid) ->
  exists dm', fold_out (walk_mib walk now) (dm, rs, m) range = Ok (dm', rs ++ flat_map (results_of dm0) range, m + count (silent dm0) range) /\
    dv_basic dm' = dv_basic dm /\ dv_Errors dm' = dv_Errors dm + count (failed dm0) range.
Proof using Type.
  intros Ha Hn. induction Hn as [|oid range Hni _ IH]; intros dm rs m Hdm.
  { exists dm. cbn. by rewrite app_nil_r, !Z.add_0_r. }
  destruct (walk_mib_ok dm0 dm rs m oid Ha (Hdm oid (or_introl eq_refl))) as (dm1 & E1 & Hb1 & He1 & Ho1).
  destruct (IH dm1 (rs ++ results_of dm0 oid) (m + Z.b2z (silent dm0 oid))) as (dm2 & E2 & Hb2 & He2).
  { intros q Hq. rewrite Ho1; [apply Hdm; by right|]. intros ->. by apply Hni, list_elem_of_In. }
  exists dm2. cbn [fold_out]. rewrite E1. cbn [mbind outcome_bind]. rewrite E2. cbn [flat_map count foldr]. rewrite app_assoc.
  fold (count (silent dm0) range). fold (count (failed dm0) range). split; [f_equal; f_equal; lia|]. split; [congruence|lia].
Qed.

Lemma puts_ok basic ws : Forall (fun w => typed_result basic w = true) ws -> forall md,
  exists md', fold_out (put_result basic) md ws = Ok md' /\
    forall i n, cell md' i n = from_option Some (cell md i n) (last (omap (cell_at basic i n) ws)).
Proof using Type.
  induction 1 as [|w ws Hw _ IH]; intros md; [by exists md|]. cbn [fold_out].
  destruct (put_result_ok basic md w Hw) as (md1 & -> & H1). cbn [mbind outcome_bind].
  destruct (IH md1) as (md2 & -> & H2). exists md2. split; [done|]. intros i n. rewrite H2, H1. cbn [omap list_omap].
  destruct (cell_at basic i n w) as [v|]; [|done]. rewrite last_cons. by destruct (last _).
Qed.
End Reports.

(** C37: A poll of a device whose variables have the types of their values ends without an error or a
    panic, whatever walks fail; each cell of the tables is the last of the results for its row and
    column, in whatever order the objects are polled; and the walks that failed, and the objects
    without an answer, are counted. *)
Theorem Device_poll_reports `{Regexps, BigInts} walk now range dm :
  NoDup range -> answers_well walk now dm ->
  exists md dm', Device_poll walk now range dm = Ok (md, dm') /\
    (forall idx name, cell md idx name = last (omap (cell_at (dv_basic dm) idx name) (flat_map (results_of walk now dm) range))) /\
    dv_Errors dm' = dv_Errors dm + count (failed walk now dm) range /\
    dv_MissingMeta dm' = count (silent walk now dm) range.
Proof.
  intros Hn Ha. unfold Device_poll. destruct (walks_ok walk now dm range Ha Hn dm [] 0 (fun _ _ => eq_refl)) as (dm' & -> & Hb & He).
  cbn [mbind outcome_bind fst snd app]. cbn [dv_basic set_MissingMeta]. rewrite Hb.
  destruct (puts_ok (dv_basic dm) (flat_map (results_of walk now dm) range)) with (md := empty_metadata) as (md & -> & Hc).
  { clear Hn He. induction range as [|oid range IH]; [constructor|]. cbn [flat_map]. apply Forall_app. split; [apply (proj2 Ha)|exact IH]. }
  cbn [mbind outcome_bind]. exists md, (set_MissingMeta (0 + count (silent walk now dm) range) dm'). split; [done|]. split; [|by split].
  intros idx name. rewrite Hc. unfold cell, empty_metadata. cbn [md_Tables]. rewrite lookup_empty. cbn. by destruct (last _).
Qed.

(** ** A device with a table of two rows, of which one object is asked for twice *)

Definition sample_temp : Mib := mkMib "1.3.6.1.9.1" "temp" "" None (Some {[2 := "hot"%string]}) "" "M" "T" 0 0 None "" None None false "".
Definition sample_walk (oid : string) : outcome answer :=
  if String.eqb oid "1.3.6.1.9.1"
  then Ok (Some [mkPDU ".1.3.6.1.9.1.7" OtherType (VInt 2); mkPDU ".1.3.6.1.9.1.8" OtherType (VInt 2); mkPDU ".1.3.6.1.9.1.7" OtherType (VInt 5)])
  else Ok None.

#[local] Instance no_regexps : Regexps := fun _ => inl "bad"%string.
#[local] Instance plain_ints : BigInts := fun v => match v with VInt z => z | _ => 0 end.

Lemma Device_poll_reports_witness :
  let dm := NewDeviceMetadata false {["1.3.6.1.9.1"%string := sample_temp; "1.3.6.1.9.2"%string := zero_Mib]} in
  exists md dm', Device_poll sample_walk (fun _ => 0) ["1.3.6.1.9.2"; "1.3.6.1.9.1"]%string dm = Ok (md, dm') /\
    mv_StringVal <$> cell md "7" "temp" = Some InvalidEnum /\ mv_StringVal <$> cell md "8" "temp" = Some "hot"%string /\
    dv_Errors dm' = 1 /\ dv_MissingMeta dm' = 0.
Proof.
  intros dm. destruct (Device_poll_reports sample_walk (fun _ => 0) ["1.3.6.1.9.2"; "1.3.6.1.9.1"]%string dm) as (md & dm' & E & Hc & He & Hm).
  - apply (bool_decide_unpack _). vm_compute. exact I.
  - split.
    + intros oid. unfold sample_walk. destruct (String.eqb oid "1.3.6.1.9.1"); eexists; (split; [reflexivity|]); repeat constructor; discriminate.
    + intros oid. unfold results_of, answer_of. destruct (dv_mibs dm !! oid) as [mib|] eqn:Em; [|constructor].
      change (dv_mibs dm) with (Some <$> ({["1.3.6.1.9.1" := sample_temp; "1.3.6.1.9.2" := zero_Mib]}%string : gmap string Mib)) in Em.
      rewrite lookup_fmap, lookup_insert in Em. case_decide as Hd.
      * subst oid. injection Em as <-. vm_compute. repeat constructor.
      * rewrite lookup_singleton in Em. case_decide as Hd2; [|discriminate]. subst oid. injection Em as <-. vm_compute. constructor.
  - exists md, dm'. split; [exact E|]. rewrite !Hc, He, Hm. vm_compute. repeat split.
Defined.

(** A device that gives its name as a number stops the poll. *)
Example number_as_name_panics :
  Device_poll (fun oid => Ok (Some (if String.eqb oid ".1.3.6.1.2.1.1.5.0" then [mkPDU oid Integer (VInt 7)] else []))) (fun _ => 0)
    (map fst SNMP_device_metadata_oids) (NewDeviceMetadata false ∅) = Panic "interface conversion".
Proof. vm_compute. reflexivity. Qed.
