(* ===== verification/MetadataPoller.v ===== *)
(** * Polling of metadata (src/pkg/inputs/snmp/metadata/poll.go)

    The loop that asks a device for its interfaces and for itself and makes one record of what it
    says, with its user tags, what is known of each attribute, and, when this is asked for, what
    earlier polls had and this one lacks.  What a poll meets (walks, clocks, orders of ranges) is a
    value for each poll; a regular expression is its text, or nil when it does not compile. *)
From S2P Require Import Prelude GoIO GoStrings KT SnmpTypes SnmpConfig Profiles SnmpUtil SnmpConv InterfaceMetrics.
From S2P Require Import InterfaceMetadata FormatUtil Utf8 DeviceMetadata.

(** ** Durations *)

(** [fmtFrac]: the digits of a fraction without the zeros at its end. *)
Fixpoint frac_digits (prec : nat) (v : Z) (print : bool) (acc : string) : string :=
  match prec with
  | O => if print then "." +:+ acc else acc
  | S prec =>
      let digit := v mod 10 in
      let print := print || negb (digit =? 0) in
      frac_digits prec (v / 10) print (if print then Itoa digit +:+ acc else acc)
  end.

(** [Duration.String]. *)
Definition Duration_String (d : Z) : string :=
  let u := Z.abs d in
  let sign := if d <? 0 then "-"%string else ""%string in
  let part prec unit := Itoa (u / 10 ^ Z.of_nat prec) +:+ frac_digits prec u false "" +:+ unit in
  if u =? 0 then "0s"
  else if u <? 1000 then sign +:+ part 0%nat "ns"%string
  else if u <? 1000000 then sign +:+ part 3%nat "µs"%string
  else if u <? Second then sign +:+ part 6%nat "ms"%string
  else
    let secs := u / Second in
    let mins := secs / 60 in
    let text := Itoa (secs mod 60) +:+ frac_digits 9 u false "" +:+ "s" in
    let text := if 0 <? mins then Itoa (mins mod 60) +:+ "m" +:+ text else text in
    sign +:+ (if 0 <? mins / 60 then Itoa (mins / 60) +:+ "h" +:+ text else text).

(** ** State *)

Definition vendorPrefix : string := ".1.3.6.1.4.1.".
Definition TagValuePrefix : string := "$".

Record MetadataPoller := mkMetadataPoller {
  mp_conf : SnmpDeviceConfig;
  mp_SaveCache : bool;
  mp_interface : InterfaceMetadata;
  mp_device : DeviceMetadata;
  mp_deviceMibs : gmap string Mib;
  mp_interfaceMibs : gmap string Mib;
  mp_matchAttr : gmap string (option string);
  mp_counterTimeSec : string;
  mp_scache : gmap string string;
  mp_tcache : gmap string (gmap string MetaValue)
}.
Definition set_mp_device (dm : DeviceMetadata) (p : MetadataPoller) : MetadataPoller :=
  mkMetadataPoller (mp_conf p) (mp_SaveCache p) (mp_interface p) dm (mp_deviceMibs p) (mp_interfaceMibs p) (mp_matchAttr p)
    (mp_counterTimeSec p) (mp_scache p) (mp_tcache p).
Definition set_caches (s : gmap string string) (t : gmap string (gmap string MetaValue)) (p : MetadataPoller) : MetadataPoller :=
  mkMetadataPoller (mp_conf p) (mp_SaveCache p) (mp_interface p) (mp_device p) (mp_deviceMibs p) (mp_interfaceMibs p)
    (mp_matchAttr p) (mp_counterTimeSec p) s t.

(** What [NewPoller] takes of the global configuration. *)
Record PollGlobals := mkPollGlobals {
  pg_MibsEnabled : list string;
  pg_SaveCache : bool;
  pg_NoDeviceHardcodedOids : bool;
  pg_PollTimeSec : Z
}.

Section New.
  Context (ToLower : string -> string) (NewEnricher CompileOk : string -> bool).
  Context (range_enum : gmap string Z -> list (string * Z)) (range_mibs : gmap string ProfileMib -> list (string * ProfileMib)).
  Context (sorted : gmap string ProfileMib -> list (string * ProfileMib)) (speed : string).

(** The expressions of objects, the last one of the range for an attribute. *)
Definition mib_attrs (mibs : gmap string ProfileMib) (attrs : gmap string (option string)) : gmap string (option string) :=
  foldl (fun attrs (od : string * ProfileMib) => (Some <$> default ∅ (pm_MatchAttr od.2)) ∪ attrs) attrs (range_mibs mibs).
Definition conf_attrs (conf : SnmpDeviceConfig) (attrs : gmap string (option string)) : gmap string (option string) :=
  let attrs := ((fun re => if CompileOk re then Some re else None) <$> default ∅ (dc_MatchAttr conf)) ∪ attrs in
  if dc_MonitorAdminShut conf then attrs else <[AdminStatus := Some "up"%string]> attrs.

(** [NewPoller]. *)
Definition NewMetadataPoller (gconf : PollGlobals) (conf : SnmpDeviceConfig) (profile : option Profile) : MetadataPoller :=
  let '(dev, ifs) := match profile with
                     | Some p => GetMetadata ToLower NewEnricher CompileOk range_enum range_mibs p (pg_MibsEnabled gconf)
                     | None => (∅, ∅)
                     end in
  let comment := match profile with Some p => GetDeviceSysComment p (dc_OID conf) | None => ""%string end in
  let conf := if String.eqb comment "" then conf else AddUserTag "kentik.model" comment conf in
  mkMetadataPoller conf (pg_SaveCache gconf)
    (NewInterfaceMetadata speed (map (fun od : string * ProfileMib => (od.1, pm_Mib od.2)) (sorted ifs)))
    (NewDeviceMetadata (pg_NoDeviceHardcodedOids gconf) (pm_Mib <$> dev)) (pm_Mib <$> dev) (pm_Mib <$> ifs)
    (conf_attrs conf (mib_attrs ifs (mib_attrs dev ∅)))
    (Duration_String ((int64 (GetPollRate (Some (pg_PollTimeSec gconf)) (Some (dc_PollTimeSec conf)) * Second))%go)) ∅ ∅.
End New.

(** ** Polls *)

(** What a poll meets. [pw_mibs] is a range over the objects for the look-up of an attribute. *)
Record PollWorld := mkPollWorld {
  pw_walk : string -> outcome answer;
  pw_manufacturer : string;
  pw_huawei : answer;
  pw_now : string -> Z;
  pw_unix : Z;
  pw_loglevel : string;
  pw_lines : gmap string InterfaceData -> list string;
  pw_interfaces : gmap string InterfaceData -> list (string * InterfaceData);
  pw_oids : gmap string (option Mib) -> list string;
  pw_cells : gmap string (gmap string MetaValue) -> list (string * string);
  pw_tags : gmap string string -> list (string * string);
  pw_mibs : string -> gmap string Mib -> list (string * Mib)
}.

Record DeviceData := mkDeviceData {
  dd_Manufacturer : string;
  dd_InterfaceData : gmap string InterfaceData;
  dd_Metrics : DeviceMetricsMetadata
}.

Section Poll.
  Context `{Regexps, BigInts} (isIfSpeed : bool) (ToLower : string -> string).

(** [PollSNMPMetadata]. *)
Definition PollSNMPMetadata (p : MetadataPoller) (w : PollWorld) : outcome (DeviceData * MetadataPoller) :=
  intLine ← Interface_Poll isIfSpeed (pw_walk w) ToLower (pw_lines w) (pw_manufacturer w) (mp_interface p);
  intLine ← (if isBrokenHuawei (pw_manufacturer w) then UpdateForHuawei (pw_huawei w) (pw_interfaces w) intLine else Ok intLine);
  '(md, dm) ← Device_poll (pw_walk w) (pw_now w) (pw_oids w (dv_mibs (mp_device p))) (mp_device p);
  Ok (mkDeviceData (pw_manufacturer w) intLine md, set_mp_device dm p).
End Poll.

(** [lookupMib] over a range of the objects. *)
Definition names_mib (isInterface : bool) (key : string) (mb : Mib) : bool :=
  let same := fun s => String.eqb s key || (isInterface && String.eqb s ("if_" +:+ key)) in
  same (mb_Name mb) || same (mb_Tag mb).
Definition lookupMib (isInterface : bool) (key : string) (mibs : list (string * Mib)) : option Mib :=
  snd <$> List.find (fun om : string * Mib => names_mib isInterface key om.2) mibs.
Definition mib_info (mb : Mib) : MetricInfo := mkMetricInfo (mb_Oid mb) (mb_Mib mb) "" "" (mb_Table mb) "" "" 0 (mb_OtherTables mb).
Definition table_info (table : string) (tables : option (gmap string bool)) : MetricInfo := mkMetricInfo "" "" "" "" table "" "" 0 tables.

(** The maps of the record that is being made. *)
Record FlowMaps := mkFlowMaps {
  fl_strs : gmap string string;
  fl_ints : gmap string Z;
  fl_metrics : gmap string MetricInfo
}.
Definition put_str (k v : string) (f : FlowMaps) : FlowMaps := mkFlowMaps (<[k := v]> (fl_strs f)) (fl_ints f) (fl_metrics f).
Definition put_int (k : string) (v : Z) (f : FlowMaps) : FlowMaps := mkFlowMaps (fl_strs f) (<[k := v]> (fl_ints f)) (fl_metrics f).
Definition put_info (k : string) (i : MetricInfo) (f : FlowMaps) : FlowMaps := mkFlowMaps (fl_strs f) (fl_ints f) (<[k := i]> (fl_metrics f)).

(** A cell of a table says which tables its column is of.  The first cell of a column lends its set
    of tables to the record, so that the tables of other cells go to both. *)
Record Columns := mkColumns {
  co_metrics : gmap string MetricInfo;
  co_tables : gmap string (gmap string MetaValue);
  co_owner : gmap string string
}.
Definition set_TableNames (t : gmap string bool) (v : MetaValue) : MetaValue :=
  mkMetaValue (mv_TableName v) t (mv_StringVal v) (mv_IntVal v) (mv_Mib v).
Definition column_cell (st : Columns) (ik : string * string) : Columns :=
  let '(idx, k) := ik in
  match co_tables st !! idx ≫= (.!! k) with
  | None => st
  | Some v =>
      match co_metrics st !! k with
      | None => mkColumns (<[k := table_info (mv_TableName v) (Some (mv_TableNames v))]> (co_metrics st)) (co_tables st)
                  (<[k := idx]> (co_owner st))
      | Some info =>
          let all := ((fun _ => true) <$> mv_TableNames v) ∪ default ∅ (mi_Tables info) in
          mkColumns (<[k := table_info (mi_Table info) (Some all)]> (co_metrics st))
            (match co_owner st !! k with
             | Some o => alter (alter (set_TableNames all) k) o (co_tables st)
             | None => co_tables st
             end) (co_owner st)
      end
  end.

(** The number of the vendor in the object identifier of the system. *)
Definition sysoid_vendor (sysoid : string) : option Z :=
  if HasPrefix sysoid vendorPrefix
  then match strings_SplitN (sdrop (String.length vendorPrefix) sysoid) "." 2 with
       | first :: _ => Atoi first
       | [] => None
       end
  else None.

Section Flows.
  Context (p : MetadataPoller) (w : PollWorld).

Definition system_flow (dd : DeviceData) : FlowMaps :=
  let md := dd_Metrics dd in
  let strs : gmap string string := {["Manufacturer" := dd_Manufacturer dd; "SysName" := SysName md; "SysObjectID" := SysObjectID md;
    "SysDescr" := SysDescr md; "SysLocation" := SysLocation md; "SysContact" := SysContact md]}%string in
  mkFlowMaps (filter (fun kv => ValidString kv.2 = true) (md_Customs md) ∪ strs)
    (((fun v => (int32 v)%go) <$> md_CustomInts md) ∪ {["SysServices"%string := (int32 (SysServices md))%go]}) ∅.
Definition with_columns (dd : DeviceData) (f : FlowMaps) : FlowMaps * option (gmap string (gmap string MetaValue)) :=
  let tables := md_Tables (dd_Metrics dd) in
  if (0 <? size tables)%nat
  then let st := foldl column_cell (mkColumns (fl_metrics f) tables ∅) (pw_cells w tables) in
       (mkFlowMaps (fl_strs f) (fl_ints f) (co_metrics st), Some (co_tables st))
  else (f, None).
Definition with_vendor (f : FlowMaps) : FlowMaps :=
  if String.eqb (dc_Provider (mp_conf p)) ProviderDefault then
    let f := match sysoid_vendor (default ""%string (fl_strs f !! "SysObjectID"%string)) with
             | Some v => put_int "sysoid_vendor" ((int32 v)%go) f
             | None => f
             end in
    put_str "sysoid_profile" (dc_MibProfile (mp_conf p)) f
  else f.

(** What is known of the attributes; a name of both an integer and a text gets that of the integer. *)
Definition with_infos (f : FlowMaps) : FlowMaps :=
  let info {A} (kind : string) (m : gmap string A) : gmap string MetricInfo :=
    map_imap (fun k _ => mib_info <$> lookupMib false k (pw_mibs w (kind +:+ k) (mp_deviceMibs p))) m in
  mkFlowMaps (fl_strs f) (fl_ints f) (info "int "%string (fl_ints f) ∪ (info "str "%string (fl_strs f) ∪ fl_metrics f)).

(** User tags, of which a value "$a" stands for the attribute a. *)
Definition tag_value (strs : gmap string string) (v : string) : string :=
  if HasPrefix v TagValuePrefix && (1 <? String.length v)%nat then default v (strs !! sdrop 1 v) else v.
Definition put_tag (f : FlowMaps) (kv : string * string) : FlowMaps :=
  put_info kv.1 (table_info DeviceTagTable None) (put_str kv.1 (tag_value (fl_strs f) kv.2) f).
Definition with_tags (f : FlowMaps) : FlowMaps :=
  let cs := put_user_tags (mp_conf p) {["SysLogLevel" := pw_loglevel w; "SysPollInterval" := mp_counterTimeSec p]}%string in
  foldl put_tag f (pw_tags w cs).

Definition if_key (intr k : string) : string := "if." +:+ intr +:+ "." +:+ k.
Definition put_extra_info (intr : string) (f : FlowMaps) (kv : string * string) : FlowMaps :=
  let '(k, v) := kv in
  if ValidString v then
    let f := put_str (if_key intr k) v f in
    match lookupMib true k (pw_mibs w (if_key intr k) (mp_interfaceMibs p)) with
    | Some mb => put_info ("if_" +:+ k) (mib_info mb) f
    | None => f
    end
  else f.
Definition put_interface (f : FlowMaps) (id : string * InterfaceData) : FlowMaps :=
  let '(intr, d) := id in
  let f := put_str (if_key intr "Address") (ia_Address (id_IPAddr d)) f in
  let f := put_str (if_key intr "Netmask") (ia_Netmask (id_IPAddr d)) f in
  let f := put_str (if_key intr "Index") (id_Index d) f in
  let f := put_int (if_key intr "Speed") ((int32 (id_Speed d))%go) f in
  let f := put_str (if_key intr "Description") (id_Description d) f in
  let f := put_str (if_key intr "Alias") (id_Alias d) f in
  let f := put_str (if_key intr "Type") (id_Type d) f in
  foldl (put_extra_info intr) f (map_to_list (id_ExtraInfo d)).

(** A record with the fields of its device. *)
Record MetadataFlow := mkMetadataFlow {
  mf_record : JCHF;
  mf_Tables : option (gmap string (gmap string MetaValue));
  mf_MatchAttr : option (gmap string (option string))
}.
Definition metadata_record (name : string) (strs : gmap string string) (f : FlowMaps) : JCHF :=
  set_CustomMetrics (Some (fl_metrics f)) (set_Timestamp (pw_unix w)
  (set_SrcAddr (dc_DeviceIP (mp_conf p)) (set_DeviceName name
  (set_Provider (dc_Provider (mp_conf p)) (set_EventType KENTIK_EVENT_SNMP_METADATA
  (set_CustomBigInt (Some ∅) (set_CustomInt (Some (fl_ints f)) (set_CustomStr (Some strs) NewJCHF)))))))).

(** The tables of earlier polls; an absent map of tables cannot be written to. *)
Definition cached_tables (tables : option (gmap string (gmap string MetaValue))) : outcome (option (gmap string (gmap string MetaValue))) :=
  match tables with
  | Some t => Ok (Some (t ∪ mp_tcache p))
  | None => if (0 <? size (mp_tcache p))%nat then Panic "assignment to entry in nil map" else Ok None
  end.

(** [toFlows]. *)
Definition attributes (dd : DeviceData) : FlowMaps * option (gmap string (gmap string MetaValue)) :=
  let '(f, tables) := with_columns dd (system_flow dd) in
  (foldl put_interface (with_tags (with_infos (with_vendor f))) (pw_interfaces w (dd_InterfaceData dd)), tables).
Definition toFlows (dd : DeviceData) : outcome (MetadataFlow * MetadataPoller) :=
  let '(f, tables) := attributes dd in
  let name := if String.eqb (dc_DeviceName (mp_conf p)) "" then SysName (dd_Metrics dd) else dc_DeviceName (mp_conf p) in
  let attrs := if (0 <? size (mp_matchAttr p))%nat then Some (mp_matchAttr p) else None in
  if mp_SaveCache p
  then
    let strs := fl_strs f ∪ mp_scache p in
    tables ← cached_tables tables;
    Ok (mkMetadataFlow (metadata_record name strs f) tables attrs, set_caches strs (default ∅ tables) p)
  else Ok (mkMetadataFlow (metadata_record name (fl_strs f) f) tables attrs, p).
End Flows.

(** ** The loop *)

Record LoopState := mkLoopState {
  ls_poller : MetadataPoller;
  ls_Metadata : Z;
  ls_sent : list MetadataFlow
}.

Section Loop.
  Context `{Regexps, BigInts} (isIfSpeed : bool) (ToLower : string -> string).

(** [runPoll]: an error is counted and nothing is sent. *)
Definition runPoll (s : LoopState) (w : PollWorld) : outcome LoopState :=
  match PollSNMPMetadata isIfSpeed ToLower (ls_poller s) w with
  | Ok (dd, p) =>
      '(flow, p) ← toFlows p w dd;
      Ok (mkLoopState p (ls_Metadata s + 1) (ls_sent s ++ [flow]))
  | Err _ => Ok (mkLoopState (set_mp_device (mark_error (mp_device (ls_poller s))) (ls_poller s)) (ls_Metadata s) (ls_sent s))
  | Panic why => Panic why
  | OutOfFuel => OutOfFuel
  end.
(** [StartLoop], over the polls that are made. *)
Definition Metadata_StartLoop (p : MetadataPoller) (ws : list PollWorld) : outcome LoopState :=
  fold_out runPoll (mkLoopState p 0 []) ws.
End Loop.

(** ** Properties: the cache is the history *)

(** The texts and tables that are kept, and what a poll said, before any cache: these and integers. *)
Abbreviation said_maps := (gmap string string * option (gmap string (gmap string MetaValue)))%type.
Abbreviation said_poll := (said_maps * gmap string Z)%type.

Section History.
  Context `{Regexps, BigInts} (isIfSpeed : bool) (ToLower : string -> string).

(** What the polls of a run say, one after the other, as if there were no cache. *)
Fixpoint said (p : MetadataPoller) (ws : list PollWorld) : outcome (list said_poll) :=
  match ws with
  | [] => Ok []
  | w :: ws =>
      match PollSNMPMetadata isIfSpeed ToLower p w with
      | Ok (dd, p') =>
          l ← said p' ws;
          let a := attributes p' w dd in Ok ((fl_strs a.1, a.2, fl_ints a.1) :: l)
      | Err _ => said (set_mp_device (mark_error (mp_device p)) p) ws
      | Panic why => Panic why
      | OutOfFuel => OutOfFuel
      end
  end.

(** For each attribute that is a text, and each row of a table, what was said of it last. *)
Definition say (acc : said_maps) (a : said_poll) : said_maps :=
  (a.1.1 ∪ acc.1, match a.1.2 with Some t => Some (t ∪ default ∅ acc.2) | None => acc.2 end).
(** Once there are tables there always are. *)
Fixpoint tables_stay (had : bool) (l : list said_poll) : bool :=
  match l with
  | [] => true
  | a :: l => (bool_decide (is_Some a.1.2) || negb had) && tables_stay (bool_decide (is_Some a.1.2)) l
  end.

Lemma poll_caches s t p w :
  PollSNMPMetadata isIfSpeed ToLower (set_caches s t p) w =
  ('(dd, p') ← PollSNMPMetadata isIfSpeed ToLower p w; Ok (dd, set_caches s t p')).
Proof using Type.
  unfold PollSNMPMetadata. cbn [mp_interface mp_device set_caches].
  destruct (Interface_Poll _ _ _ _ _ _); [|done..]. cbn [mbind outcome_bind].
  destruct (if isBrokenHuawei _ then _ else _); [|done..]. cbn [mbind outcome_bind].
  by destruct (Device_poll _ _ _ _) as [[]| | |].
Qed.

Lemma said_caches s t ws p : said (set_caches s t p) ws = said p ws.
Proof using Type.
  revert p. induction ws as [|w ws IH]; intros p; [done|]. cbn [said]. rewrite poll_caches.
  destruct (PollSNMPMetadata isIfSpeed ToLower p w) as [[dd p']| | |]; cbn [mbind outcome_bind]; [|by rewrite <-(IH (set_mp_device _ p))|done..].
  by rewrite IH.
Qed.

Lemma poll_keeps p w dd p' : PollSNMPMetadata isIfSpeed ToLower p w = Ok (dd, p') ->
  mp_SaveCache p' = mp_SaveCache p /\ mp_scache p' = mp_scache p /\ mp_tcache p' = mp_tcache p.
Proof using Type.
  unfold PollSNMPMetadata. destruct (Interface_Poll _ _ _ _ _ _); [|done..]. cbn [mbind outcome_bind].
  destruct (if isBrokenHuawei _ then _ else _); [|done..]. cbn [mbind outcome_bind].
  destruct (Device_poll _ _ _ _) as [[]| | |]; [|done..]. by intros [= _ <-].
Qed.

(** One conversion of what a poll said. *)
Lemma toFlows_cached p w dd acc : mp_SaveCache p = true -> mp_scache p = acc.1 -> mp_tcache p = default ∅ acc.2 ->
  let a := attributes p w dd in
  (is_Some a.2 \/ acc.2 = None) ->
  let said := say acc (fl_strs a.1, a.2, fl_ints a.1) in
  exists f, toFlows p w dd = Ok (f, set_caches said.1 (default ∅ said.2) p) /\
    CustomStr (mf_record f) = Some said.1 /\ mf_Tables f = said.2 /\ CustomInt (mf_record f) = Some (fl_ints a.1).
Proof using Type.
  intros Hc Hs Ht a Ha. unfold toFlows. subst a. destruct (attributes p w dd) as [f tables]. cbn [fst snd] in *.
  rewrite Hc, Hs. unfold cached_tables, say. cbn [fst snd]. rewrite Ht. destruct tables as [t|].
  - cbn [mbind outcome_bind default]. eexists. by split.
  - destruct Ha as [[? ?]| ->]; [done|]. cbn. eexists. by split.
Qed.

Lemma runPoll_ok p n sent w dd p' f p2 : PollSNMPMetadata isIfSpeed ToLower p w = Ok (dd, p') -> toFlows p' w dd = Ok (f, p2) ->
  runPoll isIfSpeed ToLower (mkLoopState p n sent) w = Ok (mkLoopState p2 (n + 1) (sent ++ [f])).
Proof using Type. intros E1 E2. unfold runPoll. cbn [ls_poller]. rewrite E1. cbn beta iota. by rewrite E2. Qed.
Lemma runPoll_err p n sent w e : PollSNMPMetadata isIfSpeed ToLower p w = Err e ->
  runPoll isIfSpeed ToLower (mkLoopState p n sent) w = Ok (mkLoopState (set_mp_device (mark_error (mp_device p)) p) n sent).
Proof using Type. intros E. unfold runPoll. cbn [ls_poller]. by rewrite E. Qed.

Lemma loop_history ws : forall p n sent acc l,
  said p ws = Ok l -> mp_SaveCache p = true -> mp_scache p = acc.1 -> mp_tcache p = default ∅ acc.2 ->
  tables_stay (bool_decide (is_Some acc.2)) l = true ->
  exists p' m flows, fold_out (runPoll isIfSpeed ToLower) (mkLoopState p n sent) ws = Ok (mkLoopState p' m (sent ++ flows)) /\
    length flows = length l /\
    forall j f, flows !! j = Some f ->
      CustomStr (mf_record f) = Some (foldl say acc (take (S j) l)).1 /\ mf_Tables f = (foldl say acc (take (S j) l)).2 /\
      CustomInt (mf_record f) = snd <$> l !! j.
Proof using Type.
  induction ws as [|w ws IH]; intros p n sent acc l Hl Hc Hs Ht Hst; cbn [said] in Hl.
  - injection Hl as <-. exists p, n, []. rewrite app_nil_r. by split.
  - cbn [fold_out]. destruct (PollSNMPMetadata isIfSpeed ToLower p w) as [[dd p']|e| |] eqn:E; [| |done..].
    + destruct (said p' ws) as [l'| | |] eqn:El; [|done..]. cbn [mbind outcome_bind] in Hl. injection Hl as <-.
      destruct (poll_keeps _ _ _ _ E) as (Hc' & Hs' & Ht'). cbn [tables_stay] in Hst. apply andb_true_iff in Hst as [Ha Hst].
      destruct (toFlows_cached p' w dd acc) as (f & Ef & Hf1 & Hf2 & Hf3); [congruence..| |].
      { apply orb_true_iff in Ha as [Ha|Ha]; [left; by apply bool_decide_eq_true in Ha|right].
        apply negb_true_iff, bool_decide_eq_false in Ha. by apply eq_None_not_Some. }
      rewrite (runPoll_ok p n sent w dd p' f _ E Ef). cbn [mbind outcome_bind]. set (acc' := say acc _) in *.
      destruct (IH (set_caches acc'.1 (default ∅ acc'.2) p') (n + 1) (sent ++ [f]) acc' l') as (p2 & m & flows & -> & Hlen & Hflows).
      { by rewrite said_caches. } { cbn. congruence. } { done. } { done. }
      { replace (bool_decide (is_Some acc'.2)) with (bool_decide (is_Some (attributes p' w dd).2)); [exact Hst|].
        unfold acc', say. cbn [snd]. destruct (attributes p' w dd).2; cbn; [done|].
        destruct acc.2; [discriminate Ha|done]. }
      exists p2, m, (f :: flows). rewrite <-app_assoc. split; [done|]. split; [by cbn; rewrite Hlen|].
      intros [|j] g; cbn [lookup list_lookup]; [|exact (Hflows j g)]. intros [= <-]. by repeat split.
    + rewrite (runPoll_err p n sent w e E). exact (IH _ n sent acc l Hl Hc Hs Ht Hst).
Qed.
End History.

(** C39: With the cache, each record of a run has for every attribute that is a text what the polls up
    to it said of it last, and so for every row of a table, as a whole; integers are not cached, and
    each record has just those of its own poll.  Every poll that succeeds gives one record, and a
    poll that fails gives none and changes nothing of this.  (The run must not lose all tables again
    after it had some, which panics.) *)
Theorem metadata_cache_is_history `{Regexps, BigInts} isIfSpeed ToLower p ws l :
  said isIfSpeed ToLower p ws = Ok l -> mp_SaveCache p = true -> mp_scache p = ∅ -> mp_tcache p = ∅ -> tables_stay false l = true ->
  exists s, Metadata_StartLoop isIfSpeed ToLower p ws = Ok s /\ length (ls_sent s) = length l /\
    forall j f, ls_sent s !! j = Some f ->
      CustomStr (mf_record f) = Some (foldl say (∅, None) (take (S j) l)).1 /\
      mf_Tables f = (foldl say (∅, None) (take (S j) l)).2 /\
      CustomInt (mf_record f) = snd <$> l !! j.
Proof.
  intros Hl Hc Hs Ht Hst. destruct (loop_history isIfSpeed ToLower ws p 0 [] (∅, None) l) as (p' & m & flows & E & Hlen & Hf); [done..|].
  exists (mkLoopState p' m flows). by split.
Qed.

(** ** A device whose object "temp" has a text at first, and a table *)

Definition sample_mib : Mib := mkMib "1.3.6.1.9" "temp" "" None None "" "M" "T" 0 0 None "" None None false "".
Definition sample_poller : MetadataPoller :=
  mkMetadataPoller (named_device "sw1") true (NewInterfaceMetadata ifHighSpeed []) (NewDeviceMetadata false {["1.3.6.1.9"%string := sample_mib]})
    {["1.3.6.1.9"%string := sample_mib]} ∅ ∅ "5m0s" ∅ ∅.
Definition sample_world (rows : list SnmpPDU) : PollWorld :=
  mkPollWorld (fun oid => Ok (Some (if String.eqb oid "1.3.6.1.9" then rows else []))) "" None (fun _ => 0) 0 "info"
    (fun m => map fst (map_to_list m)) map_to_list (fun m => map fst (map_to_list m))
    (fun t => concat (map (fun it : string * gmap string MetaValue => map (fun kv : string * MetaValue => (it.1, kv.1)) (map_to_list it.2)) (map_to_list t)))
    map_to_list (fun _ => map_to_list).
Definition text_row : SnmpPDU := mkPDU ".1.3.6.1.9" OctetString (VBytes (bytes_of "hot")).
Definition table_row : SnmpPDU := mkPDU ".1.3.6.1.9.7" OtherType (VInt 5).

#[local] Instance no_regexps : Regexps := fun _ => inl "bad"%string.
#[local] Instance plain_ints : BigInts := fun v => match v with VInt z => z | _ => 0 end.

Lemma metadata_cache_is_history_witness :
  let ws := [sample_world [text_row; table_row]; sample_world [table_row]] in
  exists l s, said false id sample_poller ws = Ok l /\ (l !! 1%nat ≫= fun a => a.1.1 !! "temp"%string) = None /\
    Metadata_StartLoop false id sample_poller ws = Ok s /\
    exists f strs, ls_sent s !! 1%nat = Some f /\ CustomStr (mf_record f) = Some strs /\ strs !! "temp"%string = Some "hot"%string.
Proof.
  intros ws. set (facts := fun l : list said_poll => tables_stay false l && (length l =? 2)%nat &&
    bool_decide ((l !! 1%nat ≫= fun a => a.1.1 !! "temp"%string) = None) &&
    bool_decide ((foldl say (∅, None) (take 2 l)).1 !! "temp"%string = Some "hot"%string)).
  assert (match said false id sample_poller ws with Ok l => facts l | _ => false end = true) as Hfacts by (vm_compute; reflexivity).
  destruct (said false id sample_poller ws) as [l| | |] eqn:E; [|discriminate Hfacts..]. unfold facts in Hfacts.
  repeat rewrite andb_true_iff in Hfacts. destruct Hfacts as [[[Ht Hl] Hn] Hv]. apply Nat.eqb_eq in Hl.
  apply bool_decide_eq_true in Hn, Hv.
  destruct (metadata_cache_is_history false id sample_poller ws l E) as (s & Es & Hlen & Hf); [reflexivity..|exact Ht|].
  exists l, s. split; [done|]. split; [exact Hn|]. split; [exact Es|].
  destruct (ls_sent s !! 1%nat) as [f|] eqn:El.
  - exists f, (foldl say (∅, None) (take 2 l)).1. destruct (Hf 1%nat f El) as (-> & _ & _). split; [done|]. split; [done|]. exact Hv.
  - exfalso. apply lookup_ge_None in El. rewrite Hlen, Hl in El. lia.
Defined.

(** A poll without any table after one with a table writes to a nil map. *)
Example cache_panics :
  Metadata_StartLoop false id sample_poller [sample_world [table_row]; sample_world []] = Panic "assignment to entry in nil map".
Proof. vm_compute. reflexivity. Qed.

(** An integer that a later poll does not get is gone from the record, where a text stays. *)
Definition count_row : SnmpPDU := mkPDU ".1.3.6.1.9" OtherType (VInt 5).
Example integers_not_cached :
  match Metadata_StartLoop false id sample_poller [sample_world [count_row]; sample_world []] with
  | Ok s => map (fun f => CustomInt (mf_record f) ≫= (.!! "temp"%string)) (ls_sent s) = [Some 5; None]
  | _ => False
  end.
Proof. vm_compute. reflexivity. Qed.

(** Without the cache the same polls are fine. *)
Example no_cache_no_panic :
  exists s, Metadata_StartLoop false id (mkMetadataPoller (mp_conf sample_poller) false (mp_interface sample_poller) (mp_device sample_poller)
    (mp_deviceMibs sample_poller) ∅ ∅ "5m0s" ∅ ∅) [sample_world [table_row]; sample_world []] = Ok s /\ length (ls_sent s) = 2%nat.
Proof. eexists. split; vm_compute; reflexivity. Qed.
