(* ===== verification/Traps.v ===== *)
(** * SNMP traps (src/pkg/inputs/snmp/traps/traps.go)

    A trap becomes a record: who sent it, which trap it is, and its variables under the names that
    the database of objects gives them.  The listener of the SNMP library, names by address and the
    orders of maps are arguments. *)
From S2P Require Import Prelude GoIO GoStrings Decimal GoNet GoAddr KT ToJCHF SnmpTypes SnmpConfig SnmpUtil SnmpConv Profiles MibDB.
From S2P Require Import Utf8.

Definition snmpTrapOID : string := ".1.3.6.1.6.3.1.1.4.1".
Definition snmpTrapOID_0 : string := ".1.3.6.1.6.3.1.1.4.1.0".

(** The names of the generic traps; the last is written with a ligature. *)
Definition v1TrapEnum (n : Z) : string :=
  match n with
  | 0 => "coldStart"
  | 1 => "warmStart"
  | 2 => "linkDown"
  | 3 => "linkUp"
  | 4 => "authenticationFailure"
  | 5 => "egpNeighborLoss"
  | 6 => "enterpriseSpeci" +:+ str_of [239; 172; 129] +:+ "c"
  | _ => ""
  end.

(** ** State *)

Record TrapDevice := mkTrapDevice {
  td_DeviceName : string;
  td_DeviceIP : string;
  td_Provider : string;
  td_EngineID : string;
  td_allUserTags : gmap string string
}.
Record SnmpTrapConfig := mkSnmpTrapConfig { tc_TrapOnly : bool; tc_DropUndefined : bool }.
Record SnmpTrap := mkSnmpTrap {
  st_deviceMap : gmap string TrapDevice;
  st_baseTags : gmap string string;
  st_conf : SnmpTrapConfig;
  st_mibdb : MibDB
}.

(** The tags of senders that are no devices. *)
Definition base_tags (range : gmap string string -> list (string * string)) (serviceName : string) (globalTags : gmap string string) :
    gmap string string :=
  foldl (fun m kv => <[tag_key kv.1 := kv.2]> m)
    (if String.eqb serviceName "" then ∅ else {[UserTagPrefix +:+ "container_service" := serviceName]}) (range globalTags).
(** [NewSnmpTrapListener], less the library's listener; [devices] in the order of a range. *)
Definition NewSnmpTrapListener (range : gmap string string -> list (string * string)) (conf : SnmpTrapConfig) (db : MibDB)
    (devices : list TrapDevice) (serviceName : string) (globalTags : gmap string string) : SnmpTrap :=
  mkSnmpTrap (foldl (fun m d => <[td_DeviceIP d := d]> m) ∅ devices) (base_tags range serviceName globalTags) conf db.

(** ** Packets *)

Inductive TrapType :=
| TrapOctetString
| TrapNumber
| TrapObjectIdentifier
| TrapOther.
Record TrapPDU := mkTrapPDU { tv_Name : string; tv_Type : TrapType; tv_Value : Value }.
Definition pdu_of (v : TrapPDU) : SnmpPDU :=
  mkPDU (tv_Name v) (match tv_Type v with
                     | TrapOctetString => OctetString
                     | TrapNumber => Integer
                     | TrapObjectIdentifier => ObjectIdentifier
                     | TrapOther => OtherType
                     end) (tv_Value v).

Inductive SnmpVersion := Version1 | Version2c | Version3.
Record SnmpPacket := mkSnmpPacket {
  sp_Version : SnmpVersion;
  sp_ContextEngineID : bytes;
  sp_Variables : list TrapPDU;
  sp_GenericTrap : Z;
  sp_SpecificTrap : Z;
  sp_Enterprise : string;
  sp_Timestamp : Z
}.

(** The custom maps of the record that is made. *)
Record TrapMaps := mkTrapMaps { tm_strs : gmap string string; tm_ints : gmap string Z; tm_bigs : gmap string Z }.
Definition put_str (k v : string) (m : TrapMaps) : TrapMaps := mkTrapMaps (<[k := v]> (tm_strs m)) (tm_ints m) (tm_bigs m).
Definition put_big (k : string) (v : Z) (m : TrapMaps) : TrapMaps := mkTrapMaps (tm_strs m) (tm_ints m) (<[k := v]> (tm_bigs m)).

Section Handle.
  Context `{Regexps, BigInts} (resolv : option (string -> string)).
  Context (range_devices : gmap string TrapDevice -> list (string * TrapDevice)).
  Context (range_vars : VarSet -> list (string * (Z * Z))) (Get : option (string -> outcome (option string))).
  Context (s : SnmpTrap).

(** The device of an address or, for version 3, of an engine. *)
Definition engine_of (p : SnmpPacket) : outcome string :=
  match sp_Version p, sp_ContextEngineID p with
  | Version3, ((_ :: _) as id) => '(_, eid, _) ← EngineID id; Ok eid
  | _, _ => Ok ""%string
  end.
Definition find_device (addr engineID : string) : option TrapDevice :=
  match st_deviceMap s !! addr with
  | Some d => Some d
  | None => if String.eqb engineID "" then None
            else snd <$> List.find (fun kd => String.eqb (td_EngineID kd.2) engineID) (range_devices (st_deviceMap s))
  end.

(** Name, provider and tags of the sender. *)
Definition sender (addr engineID : string) : string * string * gmap string string :=
  match find_device addr engineID with
  | Some d => (td_DeviceName d, if tc_TrapOnly (st_conf s) then ProviderTrapUnknown else td_Provider d, td_allUserTags d)
  | None =>
      let name := match resolv with
                  | Some f => let dm := f addr in if String.eqb dm "" then addr else dm
                  | None => addr
                  end in
      (name, ProviderTrapUnknown, st_baseTags s)
  end.

Definition is_trap_oid (v : TrapPDU) : bool := String.eqb (tv_Name v) snmpTrapOID || String.eqb (tv_Name v) snmpTrapOID_0.

(** The loop that looks for the trap's identifier. *)
Definition which_trap (st : TrapMaps * option Trap * bool) (v : TrapPDU) : outcome (TrapMaps * option Trap * bool) :=
  let '(m, trap, found) := st in
  match is_trap_oid v, tv_Type v with
  | true, TrapObjectIdentifier =>
      match tv_Value v with
      | VString toid =>
          let m := put_str "TrapOID" toid m in
          match GetTrap (st_mibdb s) toid with
          | Some t =>
              let m := put_str "TrapName" (tr_Name t) m in
              let idx := GetIndex toid (tr_Oid t) in
              Ok (if String.eqb idx "" then m else put_str "Index" idx m, Some t, true)
          | None => Ok (m, None, found)
          end
      | _ => Panic "interface conversion"
      end
  | _, _ => Ok st
  end.

Definition v1_fields (p : SnmpPacket) (m : TrapMaps) : TrapMaps :=
  match sp_Version p with
  | Version1 =>
      let m := put_str "GenericTrap" (v1TrapEnum (sp_GenericTrap p) +:+ " (" +:+ Itoa (sp_GenericTrap p) +:+ ")") m in
      let m := mkTrapMaps (tm_strs m) (<["SpecificTrap"%string := (int32 (sp_SpecificTrap p))%go]> (tm_ints m)) (tm_bigs m) in
      put_big "Timestamp" ((int64 (sp_Timestamp p))%go) (put_str "Enterprise" (sp_Enterprise p) m)
  | _ => m
  end.

(** The 64-bit integer that is reported of a number. *)
Definition big_Int64 `{BigInts} (v : TrapPDU) : Z := (int64 (ToBigInt (tv_Value v)))%go.

(** The name a value goes under: that of the object, or its identifier. *)
Definition value_key (res : option ProfileMib) (v : TrapPDU) : string :=
  match res with Some r => pm_Name r | None => tv_Name v end.
Definition conversion (res : option ProfileMib) : option string :=
  r ← res; if String.eqb (mb_Conversion (pm_Mib r)) "" then None else Some (mb_Conversion (pm_Mib r)).

Definition report_value (res : option ProfileMib) (v : TrapPDU) (m : TrapMaps) : outcome TrapMaps :=
  match tv_Type v with
  | TrapOctetString =>
      '(value, ok) ← ReadOctetString (pdu_of v) false;
      Ok (if (ok : bool)
          then match conversion res with
               | Some c =>
                   let '(_, sval, mval) := GetFromConv (pdu_of v) c in
                   match mval with
                   | Some mv => if (0 <? size mv)%nat then mkTrapMaps (mv ∪ tm_strs m) (tm_ints m) (tm_bigs m)
                                else put_str (value_key res v) sval m
                   | None => put_str (value_key res v) sval m
                   end
               | None => put_str (value_key res v) (SanitizeUTF8 value) m
               end
          else m)
  | TrapNumber => Ok (put_big (value_key res v) (big_Int64 v) m)
  | TrapObjectIdentifier =>
      match tv_Value v with
      | VString value =>
          let value := match conversion res with Some c => (GetFromConv (pdu_of v) c).1.2 | None => value end in
          Ok (put_str (value_key res v) (SanitizeUTF8 value) m)
      | _ => Panic "interface conversion"
      end
  | TrapOther => Ok m
  end.

(** A failed look-up is logged, and the object is then unknown. *)
Definition look_up (oid : string) : outcome (option ProfileMib * gmap string string) :=
  match GetForKey Get range_vars (st_mibdb s) oid with
  | Err _ => Ok (None, ∅)
  | r => r
  end.

Definition drops (trap : option Trap) : bool := tc_DropUndefined (st_conf s) || DropUndefinedVars trap.

Definition trap_variable (trap : option Trap) (m : TrapMaps) (v : TrapPDU) : outcome TrapMaps :=
  if is_trap_oid v then Ok m
  else
    '(res, vars) ← look_up (tv_Name v);
    match res with
    | None => if drops trap then Ok m else report_value None v (mkTrapMaps (vars ∪ tm_strs m) (tm_ints m) (tm_bigs m))
    | Some _ => report_value res v (mkTrapMaps (vars ∪ tm_strs m) (tm_ints m) (tm_bigs m))
    end.

Definition trap_record (addr name provider : string) (m : TrapMaps) : JCHF :=
  set_CustomBigInt (Some (tm_bigs m)) (set_CustomInt (Some (tm_ints m)) (set_CustomStr (Some (tm_strs m))
    (set_Provider provider (set_DeviceName name (set_SrcAddr addr (set_EventType KENTIK_EVENT_SNMP_TRAP NewJCHF)))))).

(** [handle]: the record that is sent, if one is. *)
Definition handle (p : SnmpPacket) (addr : IP) : outcome (option JCHF) :=
  let addr := IP_String addr in
  engineID ← engine_of p;
  let '(name, provider, tags) := sender addr engineID in
  '(m, trap, found) ← fold_out which_trap (mkTrapMaps tags ∅ ∅, None, false) (sp_Variables p);
  m ← fold_out (trap_variable trap) (v1_fields p m) (sp_Variables p);
  Ok (if drops trap && negb found then None else Some (trap_record addr name provider m)).

(** ** What a packet reports *)

(** The value of a variable has the form that the decoder of packets gives its type. *)
Definition typed (v : TrapPDU) : Prop :=
  match tv_Type v with
  | TrapOctetString => exists bs, tv_Value v = VBytes bs
  | TrapObjectIdentifier => exists o, tv_Value v = VString o
  | TrapNumber | TrapOther => True
  end.

(** The traps that a packet names, in order; the last of them counts. *)
Definition named_trap (v : TrapPDU) : list (option Trap) :=
  match is_trap_oid v, tv_Type v, tv_Value v with
  | true, TrapObjectIdentifier, VString o => [GetTrap (st_mibdb s) o]
  | _, _, _ => []
  end.
Definition named_traps (vs : list TrapPDU) : list (option Trap) := flat_map named_trap vs.
Definition the_trap (vs : list TrapPDU) : option Trap := List.last (named_traps vs) None.
Definition trap_found (vs : list TrapPDU) : bool := existsb (fun t => bool_decide (is_Some t)) (named_traps vs).

(** The object of a variable. *)
Definition object_of (v : TrapPDU) : option ProfileMib :=
  match look_up (tv_Name v) with Ok (res, _) => res | _ => None end.
(** The custom number that a variable sets. *)
Definition number_key (trap : option Trap) (v : TrapPDU) : option string :=
  match is_trap_oid v, tv_Type v, object_of v, drops trap with
  | true, _, _, _ | _, _, None, true => None
  | false, TrapNumber, res, _ => Some (value_key res v)
  | _, _, _, _ => None
  end.

Section Total.
  Context (Hrange : forall v, range_vars v ≡ₚ map_to_list v).
  Context (Hget : forall get o, Get = Some get -> (exists r, get o = Ok r) \/ exists e, get o = Err e).
  Context (Hplaces : map_Forall (fun _ m => map_Forall (fun _ p => 0 <= p.1 < 2 ^ 62 /\ 0 <= p.2 < 2 ^ 62) (pm_VarSet m))
                       (db_trapMibs (st_mibdb s))).

Lemma read_var_total pts attrs name p : 0 <= p.1 < 2 ^ 62 /\ 0 <= p.2 < 2 ^ 62 ->
  exists attrs', read_var pts attrs (name, p) = Ok attrs'.
Proof.
  destruct p as [pos len]. cbn [fst snd]. intros [Hp Hl]. unfold read_var, slice.
  rewrite swrap_id by (try done; unfold in_srange; change (64 - 1) with 63; lia).
  destruct (Z.ltb_spec (Z.of_nat (length pts)) (pos + len)); [by eexists|].
  destruct (Z.eqb_spec len 0) as [->|].
  - destruct (Z.leb_spec 0 pos); [|lia]. destruct (Z.leb_spec pos (Z.of_nat (length pts))); [|lia].
    rewrite Z.leb_refl. cbn. by eexists.
  - destruct (Z.leb_spec 0 pos); [|lia]. destruct (Z.leb_spec pos (pos + len)); [|lia].
    destruct (Z.leb_spec (pos + len) (Z.of_nat (length pts))); [|lia]. cbn. by eexists.
Qed.

Lemma read_vars_total pts m : map_Forall (fun _ p => 0 <= p.1 < 2 ^ 62 /\ 0 <= p.2 < 2 ^ 62) (pm_VarSet m) ->
  exists attrs, read_vars range_vars pts m = Ok attrs.
Proof.
  intros Hm. unfold read_vars.
  assert (Forall (fun x => 0 <= x.2.1 < 2 ^ 62 /\ 0 <= x.2.2 < 2 ^ 62) (range_vars (pm_VarSet m))) as Hf.
  { apply Forall_forall. intros [k p]. rewrite (Hrange _), elem_of_map_to_list. apply Hm. }
  assert (exists a, fold_out (read_var pts) ∅ (range_vars (pm_VarSet m)) = Ok a) as [a ->]; [|by eexists].
  generalize (∅ : gmap string string). induction Hf as [|[k p] l Hx _ IH]; intros attrs; [by eexists|].
  cbn [fold_out]. destruct (read_var_total pts attrs k p Hx) as [attrs' ->]. apply IH.
Qed.

Lemma look_up_total oid : exists r, look_up oid = Ok r.
Proof.
  unfold look_up, GetForKey. destruct (_ !! oid); [by eexists|].
  destruct (find_wildcard _ oid) as [m|] eqn:E.
  - destruct (find_wildcard_found _ _ _ E) as [k Hk].
    destruct (read_vars_total (strings_Split oid ".") m (Hplaces _ _ Hk)) as [a ->]. by eexists.
  - destruct Get as [get|]; [|by eexists]. destruct (Hget get oid eq_refl) as [[r ->]|[e ->]]; by eexists.
Qed.

Lemma which_trap_step v m t f : typed v -> exists m',
  which_trap (m, t, f) v = Ok (m', List.last (t :: named_trap v) None, f || existsb (fun t => bool_decide (is_Some t)) (named_trap v)) /\
  tm_bigs m' = tm_bigs m.
Proof.
  intros Hv. unfold which_trap, named_trap, typed in *.
  destruct (is_trap_oid v); [destruct (tv_Type v)|]; try (exists m; by rewrite orb_false_r).
  destruct Hv as [o ->]. destruct (GetTrap _ o) as [tr|]; eexists; cbn; rewrite ?orb_false_r, ?orb_true_r; (split; [done|]).
  - by case_match.
  - done.
Qed.

Lemma which_trap_fold vs : Forall typed vs -> forall m t f, exists m',
  fold_out which_trap (m, t, f) vs = Ok (m', List.last (t :: named_traps vs) None, f || trap_found vs) /\ tm_bigs m' = tm_bigs m.
Proof.
  induction 1 as [|v vs Hv _ IH]; intros m t f.
  - exists m. by rewrite orb_false_r.
  - cbn [fold_out]. destruct (which_trap_step v m t f Hv) as (m1 & -> & Hb). cbn [mbind outcome_bind].
    destruct (IH m1 (List.last (t :: named_trap v) None) (f || existsb (fun t => bool_decide (is_Some t)) (named_trap v)))
      as (m2 & -> & Hb'). exists m2. split; [|congruence]. unfold trap_found, named_traps. cbn [flat_map].
    rewrite existsb_app, orb_assoc. do 3 f_equal.
    unfold named_trap. by repeat case_match.
Qed.

(** One variable: no panic, and the numbers stay but for the one that it sets. *)
Lemma trap_variable_total trap m v : typed v -> exists m', trap_variable trap m v = Ok m' /\
  match number_key trap v with
  | Some k => tm_bigs m' = <[k := big_Int64 v]> (tm_bigs m)
  | None => tm_bigs m' = tm_bigs m
  end.
Proof.
  intros Hv. unfold trap_variable, number_key, object_of. destruct (is_trap_oid v); [by exists m|].
  destruct (look_up_total (tv_Name v)) as [[res vars] ->]. cbn [mbind outcome_bind].
  set (m1 := mkTrapMaps _ _ _).
  assert (exists m', report_value res v m1 = Ok m' /\
    match tv_Type v with
    | TrapNumber => tm_bigs m' = <[value_key res v := big_Int64 v]> (tm_bigs m)
    | _ => tm_bigs m' = tm_bigs m
    end) as (m' & Hm & Hb).
  { unfold report_value, typed in *. destruct (tv_Type v) eqn:Ht; [| | |by eexists].
    - destruct Hv as [bs Hbs]. unfold ReadOctetString, pdu_of. rewrite Ht, Hbs. cbn. eexists. split; [done|].
      repeat case_match; done.
    - by eexists.
    - destruct Hv as [o ->]. by eexists. }
  destruct res; [|destruct (drops trap); [by exists m; destruct (tv_Type v)|]];
    rewrite Hm; exists m'; (split; [done|]); by destruct (tv_Type v).
Qed.

Lemma trap_variables_total trap vs : Forall typed vs -> forall m, exists m', fold_out (trap_variable trap) m vs = Ok m' /\
  (forall k, Forall (fun v => number_key trap v <> Some k) vs -> tm_bigs m' !! k = tm_bigs m !! k) /\
  (forall pre v post k, vs = pre ++ v :: post -> number_key trap v = Some k -> Forall (fun w => number_key trap w <> Some k) post ->
     tm_bigs m' !! k = Some (big_Int64 v)).
Proof.
  induction 1 as [|v vs Hv _ IH]; intros m.
  - exists m. split; [done|]. split; [done|]. by intros [].
  - destruct (trap_variable_total trap m v Hv) as (m1 & E & Hb). cbn [fold_out]. rewrite E. cbn [mbind outcome_bind].
    destruct (IH m1) as (m2 & -> & Hkeep & Hset). exists m2. split; [done|]. split.
    + intros k [Hk Hks]%Forall_cons. rewrite Hkeep by done. destruct (number_key trap v) as [k'|]; rewrite Hb; [|done].
      apply lookup_insert_ne. congruence.
    + intros [|w pre] w' post k [= <- ->] Hk Hpost; [|by eapply Hset].
      rewrite Hk in Hb. rewrite Hkeep, Hb by done. apply lookup_insert_eq.
Qed.
End Total.
End Handle.

(** ** Properties *)

Lemma engine_of_total p : exists e, engine_of p = Ok e.
Proof.
  unfold engine_of. destruct (sp_Version p); [by eexists..|]. destruct (sp_ContextEngineID p) as [|b id]; [by eexists|].
  rewrite EngineID_in_place by done. by eexists.
Qed.

(** C40: The handler of traps does not panic, whoever sends the trap and whatever it names, when its
    variables have the values their types announce and the places of the database's variables are
    not negative.  Exactly one record is sent, unless undefined traps are dropped and none of the
    packet's traps is known; each number that is reported stands in the record under the name of
    its object, or under its identifier, the last one where several share a name. *)
Theorem handle_reports `{Regexps, BigInts} resolv range_devices range_vars Get s p addr :
  (forall v, range_vars v ≡ₚ map_to_list v) ->
  (forall get o, Get = Some get -> (exists r, get o = Ok r) \/ exists e, get o = Err e) ->
  map_Forall (fun _ m => map_Forall (fun _ place => 0 <= place.1 < 2 ^ 62 /\ 0 <= place.2 < 2 ^ 62) (pm_VarSet m))
    (db_trapMibs (st_mibdb s)) ->
  Forall typed (sp_Variables p) ->
  let trap := the_trap s (sp_Variables p) in
  exists m e, engine_of p = Ok e /\
    handle resolv range_devices range_vars Get s p addr =
      Ok (if drops s trap && negb (trap_found s (sp_Variables p)) then None
          else let '(name, provider, _) := sender resolv range_devices s (IP_String addr) e in
               Some (trap_record (IP_String addr) name provider m)) /\
    forall pre v post k, sp_Variables p = pre ++ v :: post ->
      number_key range_vars Get s trap v = Some k ->
      Forall (fun w => number_key range_vars Get s trap w <> Some k) post ->
      tm_bigs m !! k = Some (big_Int64 v).
Proof.
  intros Hrange Hget Hplaces Ht trap. destruct (engine_of_total p) as [e He]. unfold handle. rewrite He. cbn [mbind outcome_bind].
  destruct (sender resolv range_devices s (IP_String addr) e) as [[name provider] tags] eqn:Hs.
  destruct (which_trap_fold s (sp_Variables p) Ht (mkTrapMaps tags ∅ ∅) None false) as (m1 & -> & _). cbn [mbind outcome_bind orb].
  assert (List.last (None :: named_traps s (sp_Variables p)) None = trap) as ->.
  { subst trap. unfold the_trap. by destruct (named_traps _ _). }
  destruct (trap_variables_total range_vars Get s Hrange Hget Hplaces trap (sp_Variables p) Ht (v1_fields p m1))
    as (m & -> & _ & Hset).
  exists m, e. rewrite Hs. split; [done|]. split; [done|]. exact Hset.
Qed.

(** ** Witnesses *)

Definition hsrp_conf : SnmpTrapConfig := mkSnmpTrapConfig false true.
Definition hsrp_listener : SnmpTrap :=
  NewSnmpTrapListener map_to_list hsrp_conf hsrp_db
    [mkTrapDevice "core" "10.0.0.1" "kentik-router" "" {["tags.site" := "a"]}%string] "" ∅.
Definition hsrp_packet : SnmpPacket :=
  mkSnmpPacket Version2c [] [
    mkTrapPDU snmpTrapOID_0 TrapObjectIdentifier (VString ".1.3.8");
    mkTrapPDU ".1.3.9.66.99.333" TrapNumber (VInt 4);
    mkTrapPDU ".1.3.7" TrapNumber (VInt 5)] 0 0 "" 0.

Lemma hsrp_places : map_Forall (fun _ m => map_Forall (fun _ place => 0 <= place.1 < 2 ^ 62 /\ 0 <= place.2 < 2 ^ 62) (pm_VarSet m))
  (db_trapMibs (st_mibdb hsrp_listener)).
Proof. apply (bool_decide_unpack _). vm_compute. exact I. Defined.

Lemma handle_reports_witness :
  let _ : Regexps := fun _ => inl "bad"%string in
  let _ : BigInts := fun v => match v with VInt z => z | _ => 0 end in
  exists m, handle None map_to_list map_to_list None hsrp_listener hsrp_packet [10; 0; 0; 1] =
      Ok (Some (trap_record "10.0.0.1" "core" "kentik-router" m)) /\
    tm_bigs m !! "hsrp"%string = Some 4.
Proof.
  intros R B. destruct (handle_reports None map_to_list map_to_list None hsrp_listener hsrp_packet [10; 0; 0; 1])
    as (m & e & He & E & Hn).
  - intros v. reflexivity.
  - discriminate.
  - exact hsrp_places.
  - apply Forall_cons. split; [by eexists|]. by repeat constructor.
  - exists m. split.
    + assert (e = ""%string) as -> by (vm_compute in He; congruence). rewrite E. vm_compute. reflexivity.
    + apply (Hn [mkTrapPDU snmpTrapOID_0 TrapObjectIdentifier (VString ".1.3.8")] (mkTrapPDU ".1.3.9.66.99.333" TrapNumber (VInt 4))
               [mkTrapPDU ".1.3.7" TrapNumber (VInt 5)] "hsrp"%string).
      * reflexivity.
      * vm_compute. reflexivity.
      * repeat constructor. vm_compute. discriminate.
Defined.
