(* ===== verification/Nrm.v ===== *)
(** * New Relic metrics (src/pkg/formats/nrm)

    Records become metrics of the Metric API: flows, polls of devices and interfaces, synthetic
    tests, the program's own meters, and rollups.  Metadata of devices are kept, and later
    metrics take their attributes from there.  JSON, gzip and the conversion of events are
    arguments, and so are the range orders of maps.  The demonstration mode is left out. *)
From Stdlib Require Import SpecFloat.
From S2P Require Import Prelude GoIO GoStrings KT Customs GoFloat Rollup ToJCHF FlowInput SnmpTypes.
From S2P Require Import InterfaceMetrics DeviceMetrics FormatUtil Utf8.

Definition KENTIK_EVENT_EXT : string := "KExtEvent".
Definition KENTIK_EVENT_KTRANS_METRIC : string := "KTranslateMetric".
Definition InstProvider : string := "kentik".
Definition CollectorName : string := "network-agent".

Inductive NRType := NR_GAUGE_TYPE | NR_SUMMARY_TYPE.
Inductive NRValue :=
| NVInt (z : Z)
| NVFloat (f : float64)
| NVSummary (count sum min max : Z).

Record NRMetric := mkNRMetric {
  nr_Name : string;
  nr_Type : NRType;
  nr_Value : NRValue;
  nr_Interval : Z;
  nr_Attributes : attrs
}.

Definition gauge (name : string) (v : NRValue) (attr : attrs) : NRMetric := mkNRMetric name NR_GAUGE_TYPE v 0 attr.

Record NRMFormat := mkNRMFormat {
  nf_doGz : bool;
  nf_lastMetadata : gmap string LastMetadata;
  nf_invalids : gmap string bool;
  nf_CustomAttributes : gmap string string;
  nf_EventChan : list bytes;
  nf_seenInvalid : bool
}.

Definition reservedNRAttributeKeys : list string := ["instrumentation.provider"; "collector.name"].

(** [NewFormat] with a configuration, without the demonstration mode; [None] for a compression it
    does not support. *)
Definition NewFormat (compression : string) (attributes : gmap string string) : option NRMFormat :=
  let attributes := foldl (fun m k => delete k m) attributes reservedNRAttributeKeys in
  if String.eqb compression "none" then Some (mkNRMFormat false ∅ ∅ attributes [] false)
  else if String.eqb compression "gzip" then Some (mkNRMFormat true ∅ ∅ attributes [] false)
  else None.

Record NRCommon := mkNRCommon { nc_Timestamp : Z; nc_Attributes : gmap string string }.

(** [newNRCommon], at [now] nanoseconds. *)
Definition newNRCommon (now : Z) (f : NRMFormat) : NRCommon :=
  mkNRCommon (now ÷ 1000000)
    (nf_CustomAttributes f ∪
     {[ "instrumentation.provider"%string := InstProvider; "collector.name"%string := CollectorName ]}).

Definition set_lastMetadata (m : gmap string LastMetadata) (f : NRMFormat) : NRMFormat :=
  mkNRMFormat (nf_doGz f) m (nf_invalids f) (nf_CustomAttributes f) (nf_EventChan f) (nf_seenInvalid f).
Definition set_invalids (m : gmap string bool) (f : NRMFormat) : NRMFormat :=
  mkNRMFormat (nf_doGz f) (nf_lastMetadata f) m (nf_CustomAttributes f) (nf_EventChan f) (nf_seenInvalid f).
Definition set_EventChan (l : list bytes) (f : NRMFormat) : NRMFormat :=
  mkNRMFormat (nf_doGz f) (nf_lastMetadata f) (nf_invalids f) (nf_CustomAttributes f) l (nf_seenInvalid f).
Definition set_seenInvalid (f : NRMFormat) : NRMFormat :=
  mkNRMFormat (nf_doGz f) (nf_lastMetadata f) (nf_invalids f) (nf_CustomAttributes f) (nf_EventChan f) true.

Definition synthWLAttr : list string := [
  "agent_id"; "agent_name"; "dst_addr"; "dst_cdn_int"; "dst_geo"; "provider"; "src_addr"; "src_cdn_int";
  "src_as_name"; "src_geo"; "test_id"; "test_name"; "test_type"; "test_url"; "result_type_str"; "src_host";
  "dst_host"; "src_cloud_region"; "src_cloud_provider"; "src_site"; "dst_cloud_region"; "dst_cloud_provider";
  "dst_site"; "https_validity"; "https_expiry_timestamp"; "dest_ip"; "statusMessage"; "statusEncoding";
  "connectEnd"; "connectStart"; "decodedBodySize"; "domComplete"; "domContentLoadedEventEnd";
  "domContentLoadedEventStart"; "domInteractive"; "domainLookupEnd"; "domainLookupStart"; "duration";
  "fetchStart"; "loadEventEnd"; "loadEventStart"; "redirectCount"; "requestStart"; "responseEnd";
  "responseStart"; "secureConnectionStart"; "tlsProtocol"; "har_file"]%string.

(** What is ranged over, and in which order. *)
Record FormatRanges := mkFormatRanges {
  fr_flat : list string;
  fr_scripts : gmap string MetaValue -> list (string * MetaValue);
  fr_metrics : gmap string MetricInfo -> list (string * MetricInfo);
  fr_attrs : attrs -> list (string * Attr);
  fr_filters : gmap string (string -> bool) -> list (string * (string -> bool));
  fr_strs : gmap string string -> list (string * string);
  fr_ints : gmap string Z -> list (string * Z)
}.

(** The fields of a record that [JCHF] leaves out: the tables and the filters of its device. *)
Record DeviceFields := mkDeviceFields {
  CustomTables : option (gmap string (gmap string MetaValue));
  DeviceMatchAttr : option (gmap string (string -> bool))
}.

Section Format.
  Context `{MibEnricher} (r : FormatRanges) (f : NRMFormat).

Definition metadata_of (in_ : JCHF) : option LastMetadata := nf_lastMetadata f !! DeviceName in_.

(** The attributes of a record, without those that are metrics. *)
Definition attributes_of (in_ : JCHF) (metrics : gmap string MetricInfo) : outcome attrs :=
  SetAttr (fr_flat r) (fr_scripts r) ∅ in_ metrics (metadata_of in_) false.

(** ** Flows *)

Definition flow_metrics : gmap string MetricInfo :=
  list_to_map (map (fun k => (k, zero_info)) ["in_bytes"; "out_bytes"; "in_pkts"; "out_pkts"; "latency_ms"]%string).

Definition kflow_value (in_ : JCHF) (m : string) : Z :=
  let rated v := (int64 (uint64 (v * SampleRate in_)))%go in
  if String.eqb m "in_bytes" then rated (InBytes in_)
  else if String.eqb m "out_bytes" then rated (OutBytes in_)
  else if String.eqb m "in_pkts" then rated (InPkts in_)
  else if String.eqb m "out_pkts" then rated (OutPkts in_)
  else if String.eqb m "latency_ms" then gomap_get 0 (CustomInt in_) "appl_latency_ms" else 0.

Definition fromKflow (in_ : JCHF) : outcome (list NRMetric) :=
  attr ← attributes_of in_ flow_metrics;
  let attr := <["instrumentation.name" := TStr "netflow-metrics"]> attr in
  Ok (omap (fun '(m, _) =>
        let value := kflow_value in_ m in
        if 0 <? value then Some (gauge ("kentik.flow." +:+ m) (NVInt value) attr) else None)
      (fr_metrics r flow_metrics)).

(** ** Synthetic tests *)

(** The loop over the attributes: what is not listed goes, and a number becomes text. *)
Definition white_list (gest : bool) (attr : attrs) : attrs :=
  let attr := filter (fun kv => listed kv.1 synthWLAttr && negb (gest && String.eqb kv.1 "har_file") = true) attr in
  match attr !! "test_id" with
  | Some (TInt vi) => <["test_id" := TStr (Itoa vi)]> attr
  | _ => attr
  end.

Definition synth_attributes (gest : bool) (in_ : JCHF) (metrics : gmap string MetricInfo) : outcome attrs :=
  attr ← attributes_of in_ metrics;
  let attr := <["instrumentation.name" := default (TStr "synthetic") (attr !! "test_type")]> attr in
  Ok (white_list gest attr).

Definition fromKSyngest (in_ : JCHF) : outcome (list NRMetric) :=
  attr ← synth_attributes true in_ GetSyngestMetricNameSet;
  Ok (omap (fun '(m, name) =>
        let v := gomap_get 0 (CustomInt in_) m in
        if 0 <? v then Some (gauge ("kentik.syngest." +:+ mi_Name name) (NVInt v) attr) else None)
      (fr_metrics r GetSyngestMetricNameSet)).

Definition synth_gauges : list string :=
  ["avg_rtt"; "jit_rtt"; "time"; "code"; "port"; "status"; "ttlb"; "size"; "trx_time"; "validation"]%string.

(** The value of the metric that has this name in the set, or zero. *)
Definition synth_value (in_ : JCHF) (metrics : list (string * MetricInfo)) (name : string) : Z :=
  foldl (fun v '(m, i) => if String.eqb (mi_Name i) name then gomap_get 0 (CustomInt in_) m else v) 0 metrics.

(** [uint64] of a [float64] that holds an [int32], on amd64. *)
Definition fromKSynth (in_ : JCHF) : outcome (list NRMetric) :=
  let rt := gomap_get 0 (CustomInt in_) "result_type" in
  let metrics := default ∅ (GetSynMetricNameSet rt) in
  attr ← synth_attributes false in_ metrics;
  let l := fr_metrics r metrics in
  let gauges := omap (fun '(m, name) =>
      if listed (mi_Name name) synth_gauges
      then Some (gauge ("kentik.synth." +:+ mi_Name name) (NVInt (gomap_get 0 (CustomInt in_) m)) attr) else None) l in
  let sent := synth_value in_ l "sent" in
  let lost := (uint64 (synth_value in_ l "lost"))%go in
  let summary := if 0 <? sent
                 then [mkNRMetric "kentik.synth.lost" NR_SUMMARY_TYPE (NVSummary sent lost lost lost) (60 * 1000000) attr]
                 else [] in
  Ok (gauges ++ summary ++ [gauge "kentik.synth.outcome" (NVInt (GetSynthOutcome rt).1) attr]).

(** ** SNMP *)

(** The attributes of one metric, unless a filter drops it. *)
Definition metric_attrs (in_ : JCHF) (attr : attrs) (m : string) (name : MetricInfo) (isIf : bool) : option attrs :=
  let attrNew := CopyAttrForSnmp (fr_attrs r attr) m name (metadata_of in_) true false in
  if DropOnFilter (fr_filters r) attrNew (metadata_of in_) isIf then None else Some attrNew.

Definition fromSnmpDeviceMetric (in_ : JCHF) : outcome (list NRMetric) :=
  let metrics := default ∅ (CustomMetrics in_) in
  attr ← attributes_of in_ metrics;
  Ok (omap (fun '(m, name) =>
        if String.eqb m "" then None
        else
          v ← gomap_find (CustomBigInt in_) m;
          attrNew ← metric_attrs in_ attr m name false;
          let value := if String.eqb (mi_Format name) FloatMS
                       then NVFloat (float64_div (float64_of v) (float64_of 1000)) else NVInt v in
          Some (gauge ("kentik." +:+ GetType name +:+ "." +:+ m) value attrNew))
      (fr_metrics r metrics)).

(** A metric of an interface. *)
Definition interface_metric (in_ : JCHF) (attr : attrs) (mn : string * MetricInfo) : option NRMetric :=
  let '(m, name) := mn in
  if String.eqb m "" || HasSuffix m "_counter" then None
  else
    v ← gomap_find (CustomBigInt in_) m;
    attrNew ← metric_attrs in_ attr m name true;
    Some (mkNRMetric ("kentik.snmp." +:+ m) NR_GAUGE_TYPE (NVInt v)
            ((int64 (gomap_get 0 (CustomBigInt in_) Uptime * 10))%go) attrNew).

(** The profile of the last metric in the range that is looked at. *)
Definition profile_of (l : list (string * MetricInfo)) : string :=
  foldl (fun p '(m, name) => if String.eqb m "" || HasSuffix m "_counter" then p else mi_Profile name) "snmp" l.

(** The utilization of one direction, from the speed in the metadata of a port. *)
Definition utilization (in_ : JCHF) (attr : attrs) (profileName : string) (port : Z) (octets name : string) :
    list NRMetric :=
  match metadata_of in_ with
  | None => []
  | Some lm =>
      match InterfaceInfo lm !! port ≫= lookup "Speed"%string with
      | Some (TInt32 ispeed) =>
          let uptimeSpeed := (int64 (gomap_get 0 (CustomBigInt in_) Uptime * (ispeed * 10000)))%go in
          if 0 <? uptimeSpeed then
            match gomap_find (CustomBigInt in_) octets,
                  metric_attrs in_ attr name (mkMetricInfo "computed" "computed" "" profileName "if" "" "" 0 None) true with
            | Some bytes, Some attrNew =>
                [gauge ("kentik.snmp." +:+ name)
                   (NVFloat (float64_div (float64_of (int64 (bytes * 8 * 100))%go) (float64_of uptimeSpeed))) attrNew]
            | _, _ => []
            end
          else []
      | _ => []
      end
  end.

Definition fromSnmpInterfaceMetric (in_ : JCHF) : outcome (list NRMetric) :=
  let metrics := default ∅ (CustomMetrics in_) in
  attr ← attributes_of in_ metrics;
  let l := fr_metrics r metrics in
  let profileName := profile_of l in
  Ok (omap (interface_metric in_ attr) l ++
      utilization in_ attr profileName (InputPort in_) "ifHCInOctets" "IfInUtilization" ++
      utilization in_ attr profileName (OutputPort in_) "ifHCOutOctets" "IfOutUtilization").

(** ** The program's own meters *)

Definition ktranslate_metrics : gmap string MetricInfo :=
  list_to_map (map (fun k => (k, zero_info)) ["name"; "value"; "count"; "one-minute"; "95-percentile"; "du"]%string).

(** The field that a type of meter reports. *)
Definition meter_field (typ : string) : option string :=
  if String.eqb typ "counter" then Some "count"
  else if String.eqb typ "gauge" then Some "value"
  else if String.eqb typ "histogram" then Some "95-percentile"
  else if String.eqb typ "meter" then Some "one-minute"
  else if String.eqb typ "timer" then Some "95-percentile"
  else None.

Definition fromKtranslate (in_ : JCHF) : outcome (list NRMetric) :=
  attr ← attributes_of in_ ktranslate_metrics;
  let attr := <["instrumentation.name" := TStr "heartbeat"]> attr in
  let str := gomap_get "" (CustomStr in_) in
  match meter_field (str "type"%string) with
  | None => Ok []
  | Some k =>
      let v := gomap_get 0 (CustomBigInt in_) k in
      if String.eqb (str "force"%string) "true" || (0 <? v)
      then Ok [gauge ("kentik.ktranslate." +:+ str "name"%string)
                 (NVFloat (float64_div (float64_of v) (float64_of 100))) attr]
      else Ok []
  end.
End Format.

(** ** Metadata *)

(** What is known of a device is replaced unless it would shrink. *)
Definition fromSnmpMetadata (r : FormatRanges) (d : DeviceFields) (in_ : JCHF) (f : NRMFormat) : NRMFormat :=
  if String.eqb (DeviceName in_) "" then f
  else
    let lm := SetMetadata (fr_strs r (default ∅ (CustomStr in_))) (fr_ints r (default ∅ (CustomInt in_)))
                (CustomTables d) (DeviceMatchAttr d) in_ in
    match nf_lastMetadata f !! DeviceName in_ with
    | None => set_lastMetadata (<[DeviceName in_ := lm]> (nf_lastMetadata f)) f
    | Some old =>
        if Size (Some old) <=? Size (Some lm)
        then set_lastMetadata (<[DeviceName in_ := lm]> (nf_lastMetadata f)) f else f
    end.

(** ** Events (src/pkg/formats/nrm/events/events.go) *)

Definition InstNameSnmpTrapEvent : string := "snmp-trap-events".
Definition event_cap : nat := 100.

(** [strip]: empty values go, and the event says where it comes from. *)
Definition empty_value (v : Avro) : bool :=
  match v with
  | AStr s => String.eqb s "" || String.eqb s "-" || String.eqb s "--"
  | AInt z | AInt32 z => z =? 0
  | _ => false
  end.
Definition strip (m : gmap string Avro) : gmap string Avro :=
  <["collector.name" := AStr CollectorName]>
    (<["instrumentation.name" := AStr InstNameSnmpTrapEvent]>
      (<["instrumentation.provider" := AStr InstProvider]> (filter (fun kv => empty_value kv.2 = false) m))).

Section Encode.
  Context `{MibEnricher} (r : FormatRanges) (fields : JCHF -> DeviceFields).
  Context (Marshal : list NRMetric -> NRCommon -> outcome bytes).
  Context (MarshalEvent : gmap string Avro -> outcome bytes) (gzip : bytes -> outcome bytes).

(** [toRawJson]; a record whose map is nil panics before. *)
Definition toRawJson (msg : JCHF) (doGz : bool) : outcome bytes :=
  '(m, _) ← Flatten (fr_flat r) msg;
  target ← MarshalEvent (strip (default ∅ m));
  if doGz then gzip target else Ok target.

(** [SendEvent]: the channel holds 100 events, and what does not fit is dropped. An error is
    only logged. *)
Definition SendEvent (msg : JCHF) (f : NRMFormat) : outcome NRMFormat :=
  match toRawJson msg (nf_doGz f) with
  | Ok res => Ok (if (length (nf_EventChan f) <? event_cap)%nat then set_EventChan (nf_EventChan f ++ [res]) f else f)
  | Err _ => Ok f
  | Panic why => Panic why
  | OutOfFuel => OutOfFuel
  end.

(** ** Every type of record *)

Definition toNRMetric (f : NRMFormat) (in_ : JCHF) : outcome (list NRMetric * NRMFormat) :=
  let pure ms := ms ← ms; Ok (ms, f) in
  let ev := EventType in_ in
  if String.eqb ev KENTIK_EVENT_TYPE then pure (fromKflow r f in_)
  else if String.eqb ev KENTIK_EVENT_SNMP_DEV_METRIC then pure (fromSnmpDeviceMetric r f in_)
  else if String.eqb ev KENTIK_EVENT_SNMP_INT_METRIC then pure (fromSnmpInterfaceMetric r f in_)
  else if String.eqb ev KENTIK_EVENT_SYNTH then pure (fromKSynth r f in_)
  else if String.eqb ev KENTIK_EVENT_SYNTH_GEST then pure (fromKSyngest r f in_)
  else if String.eqb ev KENTIK_EVENT_SNMP_METADATA then Ok ([], fromSnmpMetadata r (fields in_) in_ f)
  else if String.eqb ev KENTIK_EVENT_KTRANS_METRIC then pure (fromKtranslate r f in_)
  else if String.eqb ev KENTIK_EVENT_SNMP_TRAP || String.eqb ev KENTIK_EVENT_EXT
  then f ← SendEvent in_ f; Ok ([], f)
  else Ok ([], set_invalids (<[ev := true]> (nf_invalids f)) f).

Definition toNRMetrics (f : NRMFormat) (msgs : list JCHF) : outcome (list NRMetric * NRMFormat) :=
  fold_out (fun '(ms, f) m => '(ms', f) ← toNRMetric f m; Ok (ms ++ ms', f)) ([], f) msgs.

(** [sanitizeMetricsUTF8]; no value is a string. *)
Definition sanitize_attr (a : Attr) : Attr := match a with TStr s => TStr (SanitizeUTF8 s) | _ => a end.
Definition sanitize_metric (m : NRMetric) : NRMetric :=
  mkNRMetric (nr_Name m) (nr_Type m) (nr_Value m) (nr_Interval m) (sanitize_attr <$> nr_Attributes m).
Definition sanitizeMetricsUTF8 (metrics : list NRMetric) : list NRMetric := map sanitize_metric metrics.

(** [handleInvalid]; the text of the error, and the output when it is the first. *)
Definition handleInvalid (in_ : list JCHF) (output : bytes) (f : NRMFormat) : (string * option bytes) * NRMFormat :=
  let msg := "Invalid utf8 char found in new relic output." in
  let msg := match in_ with
             | m :: _ => "device=" +:+ DeviceName m +:+ " provider=" +:+ Provider m +:+ ": " +:+ msg
             | [] => msg
             end in
  ((msg, if nf_seenInvalid f then None else Some output), set_seenInvalid f).

Inductive encoded :=
| NoOutput
| Out (o : Output)
| Invalid (e : string * option bytes)
| Failed (e : error).

(** An error of an encoder is returned. *)
Definition encoding (x : outcome bytes) (k : bytes -> outcome (encoded * NRMFormat)) (f : NRMFormat) :
    outcome (encoded * NRMFormat) :=
  match x with
  | Ok b => k b
  | Err e => Ok (Failed e, f)
  | Panic why => Panic why
  | OutOfFuel => OutOfFuel
  end.

(** [To], at [now] nanoseconds. *)
Definition To (now : Z) (f : NRMFormat) (msgs : list JCHF) : outcome (encoded * NRMFormat) :=
  let common := newNRCommon now f in
  '(ms, f) ← toNRMetrics f msgs;
  if (length ms =? 0)%nat then Ok (NoOutput, f)
  else
    encoding (Marshal (sanitizeMetricsUTF8 ms) common) (fun target =>
      if negb (utf8_Valid target)
      then let '(e, f) := handleInvalid msgs target f in Ok (Invalid e, f)
      else
        let send body := match msgs with
                         | m :: _ => Ok (Out (NewOutputWithProviderAndCompanySender body (Provider m) (CompanyId m)
                                                MetricOutput ""), f)
                         | [] => Panic "index out of range"
                         end in
        if nf_doGz f then encoding (gzip target) send f else send target) f.
End Encode.

(** [From] reads nothing back. *)
Definition From (raw : Output) : list (gmap string Avro) := [].

(** ** Rollups *)

Definition toInstName (prov : string) : string :=
  if strings_Contains prov "vpc" then "vpc-logs-metrics" else "netflow-metrics".

Definition rollupMap : gmap string string := list_to_map [
  ("source_account", "vpc_account"); ("source_region", "vpc_region"); ("source_vpc", "vpc_name");
  ("src_addr", "ip_address"); ("src_as", "asn_name"); ("src_as_name", "asn_name"); ("src_geo", "country");
  ("l4_src_port", "port"); ("dest_account", "vpc_account"); ("dest_region", "vpc_region"); ("dest_vpc", "vpc_name");
  ("dst_addr", "ip_address"); ("dst_as", "asn_name"); ("dst_as_name", "asn_name"); ("dst_geo", "country");
  ("l4_dst_port", "port") ]%string.

(** One part of the key: named by its dimension, or by the name that is mapped to. *)
Definition roll_attr (dims : list string) (attr : attrs) (ip : nat * string) : outcome attrs :=
  let '(i, pt) := ip in
  match dims !! i with
  | None => Panic "index out of range"
  | Some d =>
      let aname := default d (rollupMap !! d) in
      let attr := <[aname := TStr pt]> attr in
      let attr := if listed pt ["0"; ""; "-"; "--"]%string then delete aname attr else attr in
      Ok (if String.eqb aname "port" && (32768 <? Atoi_value pt) then <[aname := TInt 32768]> attr else attr)
  end.

Definition vpc_identification (attr : attrs) : attrs :=
  match attr !! "vpc_account"%string, attr !! "vpc_name"%string with
  | Some (TStr acct), Some (TStr name) =>
      if String.eqb acct "" || String.eqb name "" then attr
      else <["vpc_identification" := TStr (acct +:+ ":" +:+ name)]> attr
  | _, _ => attr
  end.

(** [uint64] of a [float64], on amd64. *)
Definition uint64_of_float (f : float64) : Z :=
  let half := float64_of (2 ^ 63) in
  if SFltb f half then (uint64 (int64_of_float f))%go
  else (uint64 (int64_of_float (SFsub 53 1024 f half) + 2 ^ 63))%go.

Definition roll_metric (roll : Rollup) : outcome NRMetric :=
  let p := r_Provider roll in
  let attr : attrs := {[ "provider"%string := TProvider (if String.eqb p ProviderRouter then ProviderFlowDevice else p);
                         "instrumentation.name"%string := TStr (toInstName p) ]} in
  let pts := strings_Split (r_Dimension roll) (r_KeyJoin roll) in
  attr ← fold_out (roll_attr (r_dims roll)) attr (zip (seq 0 (length pts)) pts);
  Ok (mkNRMetric ("kentik.rollup." +:+ r_Name roll) NR_SUMMARY_TYPE
        (NVSummary (r_Count roll) (uint64_of_float (r_Metric roll)) (r_Min roll) (r_Max roll))
        (r_Interval roll ÷ 1000) (vpc_identification attr)).

Definition toNRMetricRollup (rolls : list Rollup) : outcome (list NRMetric) :=
  fold_out (fun ms roll => if SFeqb (r_Metric roll) (S754_zero false) then Ok ms else m ← roll_metric roll; Ok (ms ++ [m]))
    [] rolls.

Section EncodeRollup.
  Context (Marshal : list NRMetric -> NRCommon -> outcome bytes) (gzip : bytes -> outcome bytes).

(** [Rollup]. *)
Definition RollupOut (now : Z) (f : NRMFormat) (rolls : list Rollup) : outcome (option Output) :=
  ms ← toNRMetricRollup rolls;
  if (length ms =? 0)%nat then Ok None
  else
    target ← Marshal ms (newNRCommon now f);
    body ← (if nf_doGz f then gzip target else Ok target);
    match rolls with
    | roll :: _ => Ok (Some (NewOutputWithProvider body (r_Provider roll) RollupOutput))
    | [] => Panic "index out of range"
    end.
End EncodeRollup.

(** ** Properties *)

(** How a batch may change the format: what is known of a device never shrinks and changes for
    its own metadata only, events stay queued in order and are at most 100, and the settings
    stay. *)
Record grows (msgs : list JCHF) (f f' : NRMFormat) : Prop := {
  gr_metadata d lm : nf_lastMetadata f !! d = Some lm ->
    exists lm', nf_lastMetadata f' !! d = Some lm' /\ Size (Some lm) <= Size (Some lm');
  gr_others d :
    (forall m, In m msgs -> EventType m = KENTIK_EVENT_SNMP_METADATA -> DeviceName m <> d) ->
    nf_lastMetadata f' !! d = nf_lastMetadata f !! d;
  gr_events : nf_EventChan f `prefix_of` nf_EventChan f';
  gr_bound : (length (nf_EventChan f) <= event_cap -> length (nf_EventChan f') <= event_cap)%nat;
  gr_settings : nf_doGz f' = nf_doGz f /\ nf_CustomAttributes f' = nf_CustomAttributes f
}.

Lemma grows_same msgs f f' :
  nf_lastMetadata f' = nf_lastMetadata f -> nf_EventChan f' = nf_EventChan f -> nf_doGz f' = nf_doGz f ->
  nf_CustomAttributes f' = nf_CustomAttributes f -> grows msgs f f'.
Proof.
  intros H1 H2 H3 H4. constructor; rewrite ?H1, ?H2; try done. intros d lm Hd. exists lm. split; [done|lia].
Qed.

Lemma grows_trans l l' f g h : grows l f g -> grows l' g h -> grows (l ++ l') f h.
Proof.
  intros G H. constructor.
  - intros d lm Hd. destruct (gr_metadata _ _ _ G d lm Hd) as (lm1 & Hd1 & Hs1).
    destruct (gr_metadata _ _ _ H d lm1 Hd1) as (lm2 & Hd2 & Hs2). exists lm2. split; [done|lia].
  - intros d Hd. rewrite (gr_others _ _ _ H), (gr_others _ _ _ G); [done|..]; intros m Hm; apply Hd, in_or_app; tauto.
  - etrans; [apply (gr_events _ _ _ G)|apply (gr_events _ _ _ H)].
  - intros Hb. by apply (gr_bound _ _ _ H), (gr_bound _ _ _ G).
  - pose proof (gr_settings _ _ _ G). pose proof (gr_settings _ _ _ H). intuition congruence.
Qed.

Lemma fromSnmpMetadata_grows r d in_ f :
  EventType in_ = KENTIK_EVENT_SNMP_METADATA -> grows [in_] f (fromSnmpMetadata r d in_ f).
Proof.
  intros He. unfold fromSnmpMetadata. destruct (String.eqb _ _); [by apply grows_same|].
  set (lm := SetMetadata _ _ _ _ _).
  assert (forall old, nf_lastMetadata f !! DeviceName in_ = old ->
            (forall o, old = Some o -> Size (Some o) <= Size (Some lm)) ->
            grows [in_] f (set_lastMetadata (<[DeviceName in_ := lm]> (nf_lastMetadata f)) f)) as Hset.
  { intros old Hold Hle. constructor; try done.
    - intros k o Hk. cbn [nf_lastMetadata set_lastMetadata]. destruct (decide (DeviceName in_ = k)) as [<-|Hne].
      + rewrite lookup_insert_eq. exists lm. split; [done|]. apply Hle. congruence.
      + rewrite lookup_insert_ne by done. exists o. split; [done|lia].
    - intros k Hk. cbn [nf_lastMetadata set_lastMetadata]. apply lookup_insert_ne, Hk; [by left|done]. }
  destruct (nf_lastMetadata f !! DeviceName in_) as [old|] eqn:E; [|by apply (Hset None)].
  destruct (Z.leb_spec (Size (Some old)) (Size (Some lm))) as [Hle|]; [|by apply grows_same].
  apply (Hset (Some old)); [done|]. intros o [= <-]. done.
Qed.

Section Properties.
  Context `{MibEnricher} (r : FormatRanges) (fields : JCHF -> DeviceFields).
  Context (Marshal : list NRMetric -> NRCommon -> outcome bytes).
  Context (MarshalEvent : gmap string Avro -> outcome bytes) (gzip : bytes -> outcome bytes).

Lemma SendEvent_grows msg f f' : SendEvent r MarshalEvent gzip msg f = Ok f' -> grows [msg] f f'.
Proof.
  unfold SendEvent. destruct (toRawJson _ _ _ _ _) as [res|e|w|]; try done; intros [= <-]; [|by apply grows_same].
  destruct (Nat.ltb_spec (length (nf_EventChan f)) event_cap) as [Hlt|]; [|by apply grows_same]. constructor; try done.
  - intros d lm Hd. exists lm. split; [done|lia].
  - cbn. by apply prefix_app_r.
  - intros _. cbn. rewrite length_app. cbn. lia.
Qed.

Lemma toNRMetric_grows f in_ ms f' :
  toNRMetric r fields MarshalEvent gzip f in_ = Ok (ms, f') -> grows [in_] f f'.
Proof.
  assert (forall x : outcome (list NRMetric), x ≫= (fun ms => Ok (ms, f)) = Ok (ms, f') -> grows [in_] f f') as Hpure.
  { intros [x| | |] [= _ <-]. by apply grows_same. }
  unfold toNRMetric. repeat (case_match; [by apply Hpure|]).
  destruct (String.eqb_spec (EventType in_) KENTIK_EVENT_SNMP_METADATA) as [He|_].
  { intros [= _ <-]. by apply fromSnmpMetadata_grows. }
  case_match; [by apply Hpure|]. case_match.
  - destruct (SendEvent _ _ _ _ _) as [g| | |] eqn:E; try done. intros [= _ <-]. by eapply SendEvent_grows.
  - intros [= _ <-]. by apply grows_same.
Qed.

Lemma toNRMetrics_grows msgs : forall f ms ms' f',
  fold_out (fun '(ms, f) m => '(ms', f) ← toNRMetric r fields MarshalEvent gzip f m; Ok (ms ++ ms', f)) (ms, f) msgs
    = Ok (ms', f') -> grows msgs f f'.
Proof.
  induction msgs as [|m msgs IH]; intros f ms ms' f'; cbn [fold_out].
  - intros [= _ <-]. by apply grows_same.
  - destruct (toNRMetric _ _ _ _ f m) as [[ms1 f1]| | |] eqn:E; try done. cbn. intros Hr.
    apply (grows_trans [m] msgs _ f1); [by eapply toNRMetric_grows|]. by eapply IH, Hr.
Qed.

(** Encoding a batch never shrinks what is known of a device and changes it for the device's
    own metadata only; queued events stay in order and are never more than 100. *)
Lemma To_grows now f msgs e f' :
  To r fields Marshal MarshalEvent gzip now f msgs = Ok (e, f') -> grows msgs f f'.
Proof.
  unfold To. destruct (toNRMetrics _ _ _ _ f msgs) as [[ms f1]| | |] eqn:E; try done.
  apply toNRMetrics_grows in E. intros Hr.
  assert (grows [] f1 f') as G; [|rewrite <- (app_nil_r msgs); by eapply grows_trans].
  revert Hr. cbn. case_match; [intros [= _ <-]; by apply grows_same|].
  destruct (Marshal _ _) as [target| | |]; cbn [encoding]; try done; [|intros [= _ <-]; by apply grows_same].
  destruct (utf8_Valid target); cbn.
  - destruct (nf_doGz f1); [destruct (gzip target) as [b| | |]; cbn [encoding]; try done|];
      destruct msgs; try done; intros [= _ <-]; by apply grows_same.
  - intros [= _ <-]. by apply grows_same.
Qed.

(** What is not sanitized: names of metrics and attributes, providers, and the attributes of the
    batch. *)
Definition named (m : NRMetric) : bool :=
  ValidString (nr_Name m) &&
  bool_decide (map_Forall (fun k v => ValidString k && match v with TProvider s => ValidString s | _ => true end = true)
                 (nr_Attributes m)).
Definition valid_values (m : NRMetric) : Prop :=
  map_Forall (fun _ v => match v with TStr s => ValidString s = true | _ => True end) (nr_Attributes m).
Definition valid_common (c : NRCommon) : bool :=
  bool_decide (map_Forall (fun k v => ValidString k && ValidString v = true) (nc_Attributes c)).

Lemma sanitize_named m : named (sanitize_metric m) = named m.
Proof using Type.
  unfold named. cbn. f_equal. apply bool_decide_ext. unfold sanitize_attr. split; intros Hf k v Hk.
  - specialize (Hf k (sanitize_attr v)). rewrite lookup_fmap, Hk in Hf. specialize (Hf eq_refl). by destruct v.
  - rewrite lookup_fmap in Hk. destruct (nr_Attributes m !! k) as [a|] eqn:E; [|done]. injection Hk as <-.
    specialize (Hf k a E). by destruct a.
Qed.

Lemma sanitize_values m : valid_values (sanitize_metric m).
Proof using Type.
  intros k v Hk. cbn in Hk. rewrite lookup_fmap in Hk. destruct (nr_Attributes m !! k) as [a|]; [|done].
  injection Hk as <-. destruct a; try done. apply SanitizeUTF8_Valid.
Qed.

(** With an encoder that copies texts, a batch is only ever refused as invalid UTF-8 for a
    name or a provider: what devices say in values of attributes never costs a batch. *)
Lemma values_never_invalid now f msgs e f' :
  (forall ms c b, forallb named ms = true -> Forall valid_values ms -> valid_common c = true ->
     Marshal ms c = Ok b -> utf8_Valid b = true) ->
  To r fields Marshal MarshalEvent gzip now f msgs = Ok (Invalid e, f') ->
  exists ms f1, toNRMetrics r fields MarshalEvent gzip f msgs = Ok (ms, f1) /\
    (forallb named ms = false \/ valid_common (newNRCommon now f) = false).
Proof.
  intros HM. unfold To. destruct (toNRMetrics _ _ _ _ f msgs) as [[ms f1]| | |] eqn:E; try done.
  intros Hr. exists ms, f1. split; [done|]. revert Hr. cbn. case_match; [done|].
  destruct (Marshal _ _) as [target| | |] eqn:Em; cbn [encoding]; try done.
  destruct (utf8_Valid target) eqn:Ev; cbn.
  - destruct (nf_doGz f1); [destruct (gzip target) as [b| | |]; cbn [encoding]; try done|]; by destruct msgs.
  - intros _. destruct (forallb named ms) eqn:En; [|by left]. destruct (valid_common _) eqn:Ec; [|by right].
    assert (utf8_Valid target = true); [|congruence]. eapply HM, Em; [|..|exact Ec].
    + rewrite <- En. unfold sanitizeMetricsUTF8. clear. induction ms as [|m ms IH]; [done|]. cbn. by rewrite sanitize_named, IH.
    + apply Forall_map, Forall_true. exact sanitize_values.
Qed.
End Properties.

(** ** Witnesses *)

#[local] Instance plain_enricher : MibEnricher := fun _ _ _ _ attr => attr.
Definition nrm_ranges : FormatRanges :=
  mkFormatRanges ["custom_str"; "custom_int"; "custom_bigint"; "custom_float"] map_to_list map_to_list map_to_list
    map_to_list map_to_list map_to_list.
Definition no_fields (_ : JCHF) : DeviceFields := mkDeviceFields None None.

(** An encoder that only says whether all is valid. *)
Definition sample_Marshal (ms : list NRMetric) (c : NRCommon) : outcome bytes :=
  Ok (if forallb named ms && valid_common c then [65] else [128]).
Definition sample_event (m : gmap string Avro) : outcome bytes := Ok [Z.of_nat (size m)].
Definition sample_format : NRMFormat := mkNRMFormat false ∅ ∅ ∅ [] false.
Definition sample_meta (s : gmap string string) : JCHF :=
  set_EventType KENTIK_EVENT_SNMP_METADATA (set_DeviceName "r1" (set_CustomStr (Some s) (SetMap NewJCHF))).
Definition sample_trap : JCHF := set_EventType KENTIK_EVENT_SNMP_TRAP (SetMap NewJCHF).
Definition nrm_device (name value : string) : JCHF :=
  set_EventType KENTIK_EVENT_SNMP_DEV_METRIC (set_DeviceName "r1" (set_CustomStr (Some {["SysLocation"%string := value]})
    (set_CustomMetrics (Some {[name := zero_info]}) (set_CustomBigInt (Some {[name := 7]}) (SetMap NewJCHF))))).
Definition bad_utf8 : string := String (Ascii.ascii_of_nat 255) "".
Definition sample_To (f : NRMFormat) (msgs : list JCHF) : outcome (encoded * NRMFormat) :=
  To nrm_ranges no_fields sample_Marshal sample_event Ok 0 f msgs.

Definition nrm_msgs : list JCHF :=
  [sample_meta {["a" := "1"; "b" := "2"]}%string; sample_trap; sample_meta {["c" := "3"]}%string].

(** A shrunk metadata record is ignored, and a trap becomes an event. *)
Lemma To_grows_witness :
  match sample_To sample_format nrm_msgs with
  | Ok (_, f') => (Size (nf_lastMetadata f' !! "r1"%string), length (nf_EventChan f')) = (2, 1%nat) /\
                  grows nrm_msgs sample_format f'
  | _ => False
  end.
Proof.
  assert (match sample_To sample_format nrm_msgs with
          | Ok (_, f') => (Size (nf_lastMetadata f' !! "r1"%string), length (nf_EventChan f')) = (2, 1%nat)
          | _ => False
          end) as Hc by (vm_compute; reflexivity).
  destruct (sample_To sample_format nrm_msgs) as [[e f']| | |] eqn:E; [|contradiction Hc..]. split; [exact Hc|].
  unfold sample_To in E. exact (To_grows _ _ _ _ _ _ _ _ _ _ E).
Defined.

(** A bad value passes, a bad name costs the batch. *)
Lemma values_never_invalid_witness :
  (match sample_To sample_format [nrm_device "cpu" bad_utf8] with Ok (Out _, _) => true | _ => false end) = true /\
  match sample_To sample_format [nrm_device bad_utf8 "here"] with
  | Ok (Invalid e, f') =>
      exists ms f1, toNRMetrics nrm_ranges no_fields sample_event Ok sample_format [nrm_device bad_utf8 "here"] = Ok (ms, f1) /\
        (forallb named ms = false \/ valid_common (newNRCommon 0 sample_format) = false)
  | _ => False
  end.
Proof.
  split; [vm_compute; reflexivity|].
  assert ((match sample_To sample_format [nrm_device bad_utf8 "here"] with Ok (Invalid _, _) => true | _ => false end) = true)
    as Hc by (vm_compute; reflexivity).
  destruct (sample_To sample_format [nrm_device bad_utf8 "here"]) as [[[|o|e|e] f']| | |] eqn:E; try (discriminate Hc).
  unfold sample_To in E. refine (values_never_invalid _ _ _ _ _ _ _ _ e f' _ E).
  intros ms c b Hn _ Hc'. unfold sample_Marshal. rewrite Hn, Hc'. intros [= <-]. reflexivity.
Defined.

(** Source and destination go by one name, so the one that comes last hides the other, and an
    empty one removes it. *)
Definition sample_roll (dimension : string) : Rollup :=
  mkRollup dimension (float64_of 3) "KFlow" "^" 60000000000 ["src_addr"; "dst_addr"] "bytes" 1 3 3 ProviderRouter.
Example rollup_collides :
  map (fun d => match roll_metric (sample_roll d) with
                | Ok m => (nr_Attributes m !! "ip_address"%string, nr_Interval m)
                | _ => (None, 0)
                end) ["10.0.0.1^10.0.0.2"; "10.0.0.1^0"]%string =
  [(Some (TStr "10.0.0.2"), 60000000); (None, 60000000)].
Proof. vm_compute. reflexivity. Qed.

(** A test's name for its instrumentation is not in the list and goes with the rest. *)
Example synth_loses_its_name :
  match synth_attributes nrm_ranges sample_format false
          (set_CustomStr (Some {["test_type" := "ping"]}%string) (SetMap NewJCHF)) ∅ with
  | Ok attr => (attr !! "test_type"%string, attr !! "instrumentation.name"%string)
  | _ => (None, None)
  end = (Some (TStr "ping"), None).
Proof. vm_compute. reflexivity. Qed.
