(* ===== verification/Influx.v ===== *)
(** * InfluxDB lines (src/pkg/formats/influx)

    Records become points of tags and fields.  Before they are written the points are sorted by
    name, and those with the same name and tags are merged.  The encoder of the line protocol
    is an interface; the orders of map ranges and the sort are arguments. *)
From Stdlib Require Import SpecFloat.
From S2P Require Import Prelude GoIO GoStrings KT Customs GoFloat Rollup ToJCHF SnmpTypes InterfaceMetrics.
From S2P Require Import DeviceMetrics FormatUtil Utf8 Nrm.

Record InfluxData := mkInfluxData {
  id_Name : string;
  FieldsFloat : gmap string float64;
  Fields : gmap string Z;
  FieldsString : gmap string string;
  id_Tags : attrs;
  id_Timestamp : Z
}.

Record InfluxFormat := mkInfluxFormat {
  xf_invalids : gmap string bool;
  xf_lastMetadata : gmap string LastMetadata;
  EncoderErrors : Z;
  MeasurementPrefix : string
}.

Definition NewInfluxFormat (prefix : string) : InfluxFormat := mkInfluxFormat ∅ ∅ 0 prefix.
Definition set_xf_invalids (m : gmap string bool) (n : Z) (f : InfluxFormat) : InfluxFormat :=
  mkInfluxFormat m (xf_lastMetadata f) n (MeasurementPrefix f).

(** ** Texts *)

Definition invalidTagChars : bytes := map Z.of_nat (seq 0 32) ++ [0x7f].
Definition invalid_char (c : Z) : bool := existsb (Z.eqb c) invalidTagChars.
Definition ContainsAny_invalid (bs : bytes) : bool := existsb invalid_char bs.

(** [prepareTagValue], rune by rune. *)
Definition prepareTagValue (s : string) : string :=
  if ContainsAny_invalid (bytes_of s)
  then string_of (foldl (fun clean c => clean ++ WriteRune (if invalid_char c then 32 else c)) [] (runes 0 (bytes_of s)))
  else s.

(** [prepareTagValueMap], what is used. *)
Definition swap_invalid (r : Z) : Z :=
  if (0 <=? r) && (r <=? 0x1f) then 32 else if r =? 0x7f then 32 else r.
Definition prepareTagValueMap (s : string) : string :=
  if ContainsAny_invalid (bytes_of s) then string_of (strings_Map swap_invalid (bytes_of s)) else s.

(** ** Points *)

Section Texts.
  Context (fmt_float : Attr -> string).

(** [%v] of an attribute; floats are formatted by an argument. *)
Definition fmt_attr (a : Attr) : string :=
  match a with
  | TStr s | TProvider s => s
  | TInt z | TInt32 z | TInt64 z => Itoa z
  | TFloat32 _ | TFloat64 _ => fmt_float a
  end.

Definition GetTags (d : InfluxData) : string :=
  strings_Join (sort_Strings (map (fun kv => strings_ReplaceByte kv.1 (Ascii.ascii_of_nat 32) "_" +:+ "=" +:+ fmt_attr kv.2)
                                (map_to_list (id_Tags d)))) ",".
Definition Prefix (d : InfluxData) : string := id_Name d +:+ "," +:+ GetTags d.

(** [NewMergedInfluxData]: the name, tags and time of the first point, and the fields of all. *)
Definition NewMergedInfluxData (s : list InfluxData) : option InfluxData :=
  match s with
  | [] => None
  | d :: _ =>
      Some (mkInfluxData (id_Name d) (foldl (fun m f => FieldsFloat f ∪ m) ∅ s) (foldl (fun m f => Fields f ∪ m) ∅ s)
              (foldl (fun m f => FieldsString f ∪ m) ∅ s) (id_Tags d) (id_Timestamp d))
  end.

(** The points of each prefix. *)
Definition group (s : list InfluxData) : gmap string (list InfluxData) :=
  foldl (fun m l => <[Prefix l := default [] (m !! Prefix l) ++ [l]]> m) ∅ s.

Definition merge_points (sort : list InfluxData -> list InfluxData)
    (range : gmap string (list InfluxData) -> list (string * list InfluxData)) (s : list InfluxData) : list InfluxData :=
  omap (fun kl => NewMergedInfluxData kl.2) (range (group (sort s))).

(** ** Lines *)

(** The encoder of the line protocol; [FloatValue] and [StringValue] refuse some values. *)
Class LineEncoder (E : Type) := mkLineEncoder {
  le_new : E;
  StartLine : string -> E -> E;
  AddTag : string -> string -> E -> E;
  AddInt : string -> Z -> E -> E;
  AddFloat : string -> float64 -> E -> E;
  AddString : string -> string -> E -> E;
  EndLine : Z -> E -> E;
  le_Err : E -> bool;
  le_Bytes : E -> bytes;
  FloatValue : float64 -> bool;
  StringValue : string -> bool
}.

Section Lines.
  Context `{LineEncoder E} (fmt_g : float64 -> string).
  Context (range_ints : gmap string Z -> list (string * Z)) (range_floats : gmap string float64 -> list (string * float64)).
  Context (range_strs : gmap string string -> list (string * string)).

(** [report]. *)
Definition report (str : string) (f : InfluxFormat) : InfluxFormat :=
  set_xf_invalids (<[str := true]> (xf_invalids f)) (EncoderErrors f + 1) f.

Definition quoted (kind k v : string) : string := kind +:+ " '" +:+ k +:+ "'='" +:+ v +:+ "'".

(** The calls of the encoder for a point, each with what is reported when it fails. *)
Definition line_calls (l : InfluxData) : list ((E -> E) * string) :=
  [(StartLine (id_Name l), "measurement '" +:+ id_Name l +:+ "'")] ++
  omap (fun k => v ← id_Tags l !! k;
                 let s := fmt_attr v in
                 if String.eqb s "" then None else Some (AddTag k (prepareTagValueMap s), quoted "tag" k s))
    (sort_Strings (map fst (map_to_list (id_Tags l)))) ++
  map (fun kv => (AddInt kv.1 kv.2, quoted "int field" kv.1 (Itoa kv.2))) (range_ints (Fields l)) ++
  omap (fun kv => if FloatValue kv.2 then Some (AddFloat kv.1 kv.2, quoted "float field" kv.1 (fmt_g kv.2)) else None)
    (range_floats (FieldsFloat l)) ++
  omap (fun kv => if StringValue (prepareTagValueMap kv.2)
                  then Some (AddString kv.1 (prepareTagValueMap kv.2), quoted "string field" kv.1 kv.2) else None)
    (range_strs (FieldsString l)) ++
  [(EndLine (id_Timestamp l * 1000000000), "end of line on measurement '" +:+ id_Name l +:+ "'")].

(** A line up to its first error. *)
Fixpoint run_calls (calls : list ((E -> E) * string)) (ef : E * InfluxFormat) : E * InfluxFormat :=
  match calls with
  | [] => ef
  | (call, str) :: calls =>
      let enc := call ef.1 in
      if le_Err enc then (enc, report str ef.2) else run_calls calls (enc, ef.2)
  end.

Definition Influx_Bytes (sort : list InfluxData -> list InfluxData)
    (range : gmap string (list InfluxData) -> list (string * list InfluxData)) (s : list InfluxData) (f : InfluxFormat) :
    bytes * InfluxFormat :=
  let ef := foldl (fun ef l => run_calls (line_calls l) ef) (le_new, f) (merge_points sort range s) in
  (le_Bytes ef.1, ef.2).

(** [Rollup], at [ts] nanoseconds. *)
Definition roll_tags (roll : Rollup) : outcome (gmap string string) :=
  let pts := strings_Split (r_Dimension roll) (r_KeyJoin roll) in
  fold_out (fun tags '(i, pt) => match r_dims roll !! i with
                                 | Some d => Ok (<[d := pt]> tags)
                                 | None => Panic "index out of range"
                                 end) ∅ (zip (seq 0 (length pts)) pts).

Definition roll_calls (ts : Z) (roll : Rollup) : outcome (list ((E -> E) * string)) :=
  if SFeqb (r_Metric roll) (S754_zero false) then Ok []
  else
    match strings_Split (r_EventType roll) ":" with
    | _ :: met :: _ :: _ =>
        tags ← roll_tags roll;
        let name := r_Name roll in
        Ok ([(StartLine name, "rollup measurement '" +:+ name +:+ "'")] ++
            omap (fun k => v ← tags !! k; Some (AddTag k v, quoted "rollup tag" k v)) (sort_Strings (map fst (map_to_list tags))) ++
            [(AddInt met (int64_of_float (r_Metric roll)), "rollup int field '" +:+ met +:+ "'");
             (AddInt "count" ((int64 (r_Count roll))%go), "rollup count field");
             (EndLine ts, "rollup end of line on measurement '" +:+ name +:+ "'")])
    | _ => Ok []
    end.

Definition Influx_Rollup (ts : Z) (rolls : list Rollup) (f : InfluxFormat) : outcome (Output * InfluxFormat) :=
  ef ← fold_out (fun ef roll => calls ← roll_calls ts roll; Ok (run_calls calls ef)) (le_new, f) rolls;
  Ok (NewOutput (le_Bytes ef.1), ef.2).
End Lines.
End Texts.

(** ** Records to points *)

(** [strings.ReplaceAll] of a non-empty text. *)
Definition strings_ReplaceAll (s old new : string) : string := strings_Join (strings_Split s old) new.

Definition dropFields : list string :=
  ["objectIdentifier"; "eventType"; "provider"; "SysServices"; "instrumentation.name"]%string.

Fixpoint trim_left_slash (s : string) : string :=
  match s with
  | String c s' => if Ascii.eqb c (Ascii.ascii_of_nat 47) then trim_left_slash s' else s
  | "" => ""
  end.
Definition trim_right_slash (s : string) : string := srev (trim_left_slash (srev s)).

Section Points.
  (** [namespaceTokenSep], which is not empty. *)
  Context `{MibEnricher} (r : FormatRanges) (fields : JCHF -> DeviceFields) (sep : string).

(** What follows the separator. *)
Definition after_sep (k : string) : string := List.nth 1 (strings_SplitN k sep 2) "".

(** [getMib]: one attribute. *)
Definition mib_attr (attr : attrs) (k : string) : attrs :=
  match attr !! k with
  | None => attr
  | Some v =>
      let attr := if listed k dropFields then delete k attr else attr in
      let attr := if String.eqb k "Index" then <["index" := v]> (delete k attr) else attr in
      if strings_Contains k sep then <[after_sep k := v]> (delete k attr) else attr
  end.

(** [getMib]; [order] has the keys that the range visits, new ones that it happens to see as well. *)
Definition getMib (order : list string) (attr : attrs) (ip : option Attr) : string * attrs :=
  let attr := foldl mib_attr attr order in
  let attr := match ip with Some ip => <["device_ip" := ip]> attr | None => attr end in
  match attr !! "mib-name"%string with
  | Some (TStr mib) =>
      let attr := delete "mib-name"%string attr in
      let mib := if String.eqb mib "" then "device"%string else mib in
      match attr !! "mib-table"%string with
      | Some (TStr mibTable) =>
          let mib := if HasPrefix mib "/" || HasSuffix mib "/"
                     then trim_right_slash mib +:+ "/" +:+ trim_left_slash mibTable
                     else mib +:+ "::" +:+ mibTable in
          (mib, delete "mib-table"%string attr)
      | _ => (mib, attr)
      end
  | _ => ("device"%string, attr)
  end.

Context (keys : attrs -> list string).

Section OneFormat.
  Context (f : InfluxFormat).

Definition xf_metadata_of (in_ : JCHF) : option LastMetadata := xf_lastMetadata f !! DeviceName in_.
Definition xf_attributes_of (in_ : JCHF) (metrics : gmap string MetricInfo) : outcome attrs :=
  SetAttr (fr_flat r) (fr_scripts r) ∅ in_ metrics (xf_metadata_of in_) true.
Definition xf_metric_attrs (in_ : JCHF) (attr : attrs) (m : string) (name : MetricInfo) (isIf : bool) : option attrs :=
  let attrNew := CopyAttrForSnmp (fr_attrs r attr) m name (xf_metadata_of in_) false true in
  if DropOnFilter (fr_filters r) attrNew (xf_metadata_of in_) isIf then None else Some attrNew.

Definition int_point (name : string) (m : gmap string Z) (in_ : JCHF) (attr : attrs) : InfluxData :=
  mkInfluxData (MeasurementPrefix f +:+ name) ∅ m ∅ attr (Timestamp in_).
Definition float_point (name : string) (k : string) (v : float64) (in_ : JCHF) (attr : attrs) : InfluxData :=
  mkInfluxData (MeasurementPrefix f +:+ name) {[k := v]} ∅ ∅ attr (Timestamp in_).

Definition xf_fromKflow (in_ : JCHF) : outcome (list InfluxData) :=
  attr ← xf_attributes_of in_ flow_metrics;
  Ok [int_point "flow" (map_imap (fun m _ => Some (kflow_value in_ m)) flow_metrics) in_ attr].

Definition xf_fromKSynth (in_ : JCHF) : outcome (list InfluxData) :=
  let rt := gomap_get 0 (CustomInt in_) "result_type" in
  let metrics := default ∅ (GetSynMetricNameSet rt) in
  attr ← xf_attributes_of in_ metrics;
  let ms := foldl (fun ms '(m, name) =>
      if String.eqb m "error" || String.eqb m "timeout" then <[mi_Name name := 1]> ms
      else if 1 <? rt then <[mi_Name name := gomap_get 0 (CustomInt in_) m]> ms else ms) ∅ (fr_metrics r metrics) in
  Ok [int_point "ksynth" (<["outcome" := (GetSynthOutcome rt).1]> ms) in_ attr].

Definition xf_fromKtranslate (in_ : JCHF) : outcome (list InfluxData) :=
  attr ← xf_attributes_of in_ ktranslate_metrics;
  let str := gomap_get ""%string (CustomStr in_) in
  let name := strings_ReplaceAll (str "name"%string) "chf.kkc." "" in
  match meter_field (str "type"%string) with
  | None => Ok []
  | Some k =>
      let v := gomap_get 0 (CustomBigInt in_) k in
      if String.eqb (str "force"%string) "true" || (0 <? v)
      then Ok [float_point "ktranslate" name (float64_div (float64_of v) (float64_of 100)) in_ attr]
      else Ok []
  end.

(** A metric of a device, without its namespace. *)
Definition metric_name (m : string) : string := if strings_Contains m sep then after_sep m else m.
Definition metric_point (in_ : JCHF) (m : string) (name : MetricInfo) (v : Z) (ip : option Attr) (attrNew : attrs) :
    InfluxData :=
  let '(mib, attrNew) := getMib (keys attrNew) attrNew ip in
  if String.eqb (mi_Format name) FloatMS
  then float_point mib (metric_name m) (float64_div (float64_of v) (float64_of 1000)) in_ attrNew
  else int_point mib {[metric_name m := v]} in_ attrNew.

Definition xf_fromSnmpDeviceMetric (in_ : JCHF) : outcome (list InfluxData) :=
  let metrics := default ∅ (CustomMetrics in_) in
  attr ← xf_attributes_of in_ metrics;
  Ok (omap (fun '(m, name) =>
        if String.eqb m "" then None
        else
          v ← gomap_find (CustomBigInt in_) m;
          attrNew ← xf_metric_attrs in_ attr m name false;
          Some (metric_point in_ m name v (attr !! "src_addr"%string) attrNew))
      (fr_metrics r metrics)).

(** The text of an enumerated metric, next to its number. *)
Definition with_text (in_ : JCHF) (m : string) (name : MetricInfo) (d : InfluxData) : InfluxData :=
  if String.eqb (mi_Format name) FloatMS then d
  else match gomap_find (CustomStr in_) (StringPrefix +:+ m) with
       | Some sv => mkInfluxData (id_Name d) (FieldsFloat d) (Fields d) {[(m +:+ "_str") := sv]} (id_Tags d) (id_Timestamp d)
       | None => d
       end.

Definition computed (profileName : string) : MetricInfo := mkMetricInfo "computed" "computed" "" profileName "if" "" "" 0 None.

(** [setRates]: what it adds for one direction. *)
Definition setRates (direction : string) (in_ : JCHF) (attr : attrs) (profileName : string) (ip : option Attr) :
    list InfluxData :=
  let port := if String.eqb direction "In" then InputPort in_ else OutputPort in_ in
  let big k := gomap_get 0 (CustomBigInt in_) k in
  let totalBytes := big ("ifHC" +:+ direction +:+ "Octets") in
  let totalPkts := (int64 (big ("ifHC" +:+ direction +:+ "UcastPkts") + big ("ifHC" +:+ direction +:+ "MulticastPkts") +
                          big ("ifHC" +:+ direction +:+ "BroadcastPkts")))%go in
  match xf_metadata_of in_ with
  | None => []
  | Some lm =>
      match InterfaceInfo lm !! port ≫= lookup "Speed"%string with
      | Some (TInt32 ispeed) =>
          let uptime := big Uptime in
          let uptimeSpeed := (int64 (uptime * (ispeed * 10000)))%go in
          let utilName := "If" +:+ direction +:+ "Utilization" in
          if 0 <? uptimeSpeed then
            match xf_metric_attrs in_ attr utilName (computed profileName) true with
            | None => []
            | Some attrNew =>
                let attrNew := (getMib (keys attrNew) attrNew ip).2 in
                let bits := float64_of (int64 (totalBytes * 8 * 100))%go in
                (if 0 <? totalBytes
                 then [float_point "IF-MIB::if" utilName (float64_div bits (float64_of uptimeSpeed)) in_ attrNew;
                       float_point "IF-MIB::if" ("If" +:+ direction +:+ "BitRate") (float64_div bits (float64_of uptime)) in_ attrNew]
                 else []) ++
                (if 0 <? totalPkts
                 then [float_point "IF-MIB::if" ("If" +:+ direction +:+ "PktRate")
                         (float64_div (float64_of (int64 (totalPkts * 100))%go) (float64_of uptime)) in_ attrNew]
                 else [])
            end
          else []
      | _ => []
      end
  end.

Definition xf_fromSnmpInterfaceMetric (in_ : JCHF) : outcome (list InfluxData) :=
  let metrics := default ∅ (CustomMetrics in_) in
  attr ← xf_attributes_of in_ metrics;
  let ip := attr !! "src_ip"%string in
  let l := fr_metrics r metrics in
  let profileName := foldl (fun p '(m, name) => if String.eqb m "" then p else mi_Profile name) "snmp"%string l in
  Ok (omap (fun '(m, name) =>
        if String.eqb m "" then None
        else
          v ← gomap_find (CustomBigInt in_) m;
          attrNew ← xf_metric_attrs in_ attr m name true;
          Some (with_text in_ m name (metric_point in_ m name v ip attrNew))) l ++
      setRates "In" in_ attr profileName ip ++ setRates "Out" in_ attr profileName ip).
End OneFormat.

Definition xf_fromSnmpMetadata (in_ : JCHF) (f : InfluxFormat) : InfluxFormat :=
  if String.eqb (DeviceName in_) "" then f
  else
    let d := fields in_ in
    let lm := SetMetadata (fr_strs r (default ∅ (CustomStr in_))) (fr_ints r (default ∅ (CustomInt in_)))
                (CustomTables d) (DeviceMatchAttr d) in_ in
    mkInfluxFormat (xf_invalids f) (<[DeviceName in_ := lm]> (xf_lastMetadata f)) (EncoderErrors f) (MeasurementPrefix f).

Definition toInfluxMetric (f : InfluxFormat) (in_ : JCHF) : outcome (list InfluxData * InfluxFormat) :=
  let pure ms := ms ← ms; Ok (ms, f) in
  let ev := EventType in_ in
  if String.eqb ev KENTIK_EVENT_TYPE then pure (xf_fromKflow f in_)
  else if String.eqb ev KENTIK_EVENT_SNMP_DEV_METRIC then pure (xf_fromSnmpDeviceMetric f in_)
  else if String.eqb ev KENTIK_EVENT_SNMP_INT_METRIC then pure (xf_fromSnmpInterfaceMetric f in_)
  else if String.eqb ev KENTIK_EVENT_SYNTH then pure (xf_fromKSynth f in_)
  else if String.eqb ev KENTIK_EVENT_SNMP_METADATA then Ok ([], xf_fromSnmpMetadata in_ f)
  else if String.eqb ev KENTIK_EVENT_KTRANS_METRIC then pure (xf_fromKtranslate f in_)
  else Ok ([], set_xf_invalids (<[ev := true]> (xf_invalids f)) (EncoderErrors f) f).

(** [To]; [encode] is [Influx_Bytes] with its orders. *)
Definition Influx_To (encode : list InfluxData -> InfluxFormat -> bytes * InfluxFormat) (f : InfluxFormat) (msgs : list JCHF) :
    outcome (option Output * InfluxFormat) :=
  '(res, f) ← fold_out (fun '(res, f) m => '(ms, f) ← toInfluxMetric f m; Ok (res ++ ms, f)) ([], f) msgs;
  if (length res =? 0)%nat then Ok (None, f)
  else let '(b, f) := encode res f in Ok (Some (NewOutput b), f).
End Points.

(** ** Properties *)

(** The two ways of cleaning agree on every text. *)
Lemma invalid_char_spec c : invalid_char c = ((0 <=? c) && (c <=? 0x1f)) || (c =? 0x7f).
Proof.
  unfold invalid_char, invalidTagChars. rewrite existsb_app. cbn [existsb]. rewrite orb_false_r. f_equal.
  apply eq_true_iff_eq. rewrite existsb_exists, andb_true_iff, !Z.leb_le. split.
  - intros (x & Hx & He). apply in_map_iff in Hx as (n & <- & Hn). apply in_seq in Hn. apply Z.eqb_eq in He. lia.
  - intros Hc. exists c. split; [|apply Z.eqb_refl]. apply in_map_iff. exists (Z.to_nat c). split; [lia|]. apply in_seq. lia.
Qed.

Lemma swap_invalid_char c : swap_invalid c = if invalid_char c then 32 else c.
Proof. rewrite invalid_char_spec. unfold swap_invalid. by destruct (_ && _), (c =? 0x7f). Qed.

Lemma clean_loop cs : forall acc,
  foldl (fun clean c => clean ++ WriteRune (if invalid_char c then 32 else c)) acc cs =
  acc ++ encode_runes (map swap_invalid cs).
Proof.
  induction cs as [|c cs IH]; intros acc; [by rewrite app_nil_r|]. cbn [foldl]. rewrite IH, <- swap_invalid_char.
  unfold encode_runes. cbn. by rewrite app_assoc.
Qed.

Lemma WriteRune_clean c : invalid_char c = false -> existsb invalid_char (WriteRune c) = false.
Proof.
  intros Hc. assert (forall b, 128 <= b -> invalid_char b = false) as Hb.
  { intros b Hb. rewrite invalid_char_spec. destruct (Z.leb_spec b 0x1f), (Z.eqb_spec b 0x7f); lia. }
  unfold WriteRune. set (d := if is_rune c then c else RuneError). assert (invalid_char d = false /\ 0 <= d) as [Hd H0].
  { unfold d. destruct (is_rune c) eqn:E; [|done]. apply is_rune_spec in E. split; [done|lia]. }
  clearbody d. repeat case_match; bools; cbn [existsb]; rewrite ?Hd, ?Hb; try done; Z.to_euclidean_division_equations; lia.
Qed.

Lemma encode_clean cs : existsb invalid_char (encode_runes (map swap_invalid cs)) = false.
Proof.
  induction cs as [|c cs IH]; [done|]. unfold encode_runes. cbn [map concat]. rewrite existsb_app.
  apply orb_false_intro; [|exact IH]. rewrite swap_invalid_char. destruct (invalid_char c) eqn:E; apply WriteRune_clean; done.
Qed.

Lemma encode_bytes_ok cs : bytes_ok (encode_runes cs).
Proof.
  induction cs as [|c cs IH]; [constructor|]. unfold encode_runes. cbn [map concat]. apply Forall_app. split; [|exact IH].
  unfold WriteRune. set (d := if is_rune c then c else RuneError). assert (0 <= d <= 0x10ffff) as H0.
  { unfold d, RuneError. destruct (is_rune c) eqn:E; [apply is_rune_spec in E|]; lia. }
  clearbody d. repeat case_match; bools; repeat constructor; unfold in_range; Z.to_euclidean_division_equations; lia.
Qed.

(** The two ways to clean a text agree; what is written has no control characters, is valid
    UTF-8 when it was changed, and is the text itself when it had none. *)
Lemma prepareTagValueMap_clean s :
  prepareTagValueMap s = prepareTagValue s /\
  existsb invalid_char (bytes_of (prepareTagValueMap s)) = false /\
  (prepareTagValueMap s = s \/ ValidString (prepareTagValueMap s) = true).
Proof.
  unfold prepareTagValueMap, prepareTagValue, ContainsAny_invalid, ValidString.
  destruct (existsb invalid_char (bytes_of s)) eqn:E; [|tauto]. rewrite clean_loop. unfold strings_Map.
  rewrite bytes_of_string_of by apply encode_bytes_ok. split; [done|]. split; [apply encode_clean|]. right. apply encode_runes_Valid.
Qed.

(** ** Merging *)

Section Merge.
  Context (fmt_float : Attr -> string).

Lemma group_spec s p :
  default [] (group fmt_float s !! p) = List.filter (fun d => String.eqb (Prefix fmt_float d) p) s /\
  (group fmt_float s !! p <> Some []).
Proof.
  induction s as [|l s [IH1 IH2]] using rev_ind; [done|]. unfold group in *. rewrite foldl_app, List.filter_app.
  cbn [foldl List.filter]. destruct (String.eqb_spec (Prefix fmt_float l) p) as [<-|Hne].
  - rewrite lookup_insert_eq. cbn. rewrite IH1. split; [done|]. intros [= Hn]. by destruct (List.filter _ _).
  - rewrite lookup_insert_ne by done. by rewrite app_nil_r.
Qed.

(** The last of a union has the say. *)
Lemma merged_fields {A} (g : InfluxData -> gmap string A) s k v :
  (exists d, In d s /\ g d !! k = Some v) -> (forall d v', In d s -> g d !! k = Some v' -> v' = v) ->
  foldl (fun m f => g f ∪ m) ∅ s !! k = Some v.
Proof.
  induction s as [|d s IH] using rev_ind; intros (x & Hx & Hv) Hu; [done|]. rewrite foldl_app. cbn [foldl].
  destruct (g d !! k) as [w|] eqn:E.
  - rewrite (Hu d w) in E by (try apply in_or_app; cbn; tauto). by apply lookup_union_Some_l.
  - rewrite lookup_union_r by done. apply IH.
    + exists x. split; [|done]. apply in_app_or in Hx as [Hx|[<-|[]]]; [done|]. congruence.
    + intros y v' Hy. apply Hu, in_or_app. by left.
Qed.

Lemma merged_fields_from {A} (g : InfluxData -> gmap string A) s k v :
  foldl (fun m f => g f ∪ m) ∅ s !! k = Some v -> exists d, In d s /\ g d !! k = Some v.
Proof.
  induction s as [|d s IH] using rev_ind; [done|]. rewrite foldl_app. cbn [foldl].
  intros [H|[_ H]]%lookup_union_Some_raw.
  - exists d. split; [apply in_or_app; cbn; tauto|done].
  - apply IH in H as (x & Hx & Hv). exists x. split; [apply in_or_app; by left|done].
Qed.

Context (sort : list InfluxData -> list InfluxData) (range : gmap string (list InfluxData) -> list (string * list InfluxData)).
Context (Hsort : forall s, sort s ≡ₚ s) (Hrange : forall m, range m ≡ₚ map_to_list m).

Lemma merged_group s l :
  In l (merge_points fmt_float sort range s) <->
  exists p g, group fmt_float (sort s) !! p = Some g /\ NewMergedInfluxData g = Some l.
Proof using Hrange.
  unfold merge_points. rewrite <- list_elem_of_In, list_elem_of_omap. split.
  - intros ((p & g) & Hin & Hm). rewrite Hrange in Hin. apply elem_of_map_to_list in Hin. by exists p, g.
  - intros (p & g & Hg & Hm). exists (p, g). split; [|done]. rewrite Hrange. by apply elem_of_map_to_list.
Qed.

Lemma in_group s p g d :
  group fmt_float (sort s) !! p = Some g -> In d g <-> In d s /\ Prefix fmt_float d = p.
Proof using Hsort.
  intros Hg. destruct (group_spec (sort s) p) as [Hs _]. rewrite Hg in Hs. cbn in Hs. subst g.
  rewrite filter_In, String.eqb_eq. by rewrite <- !list_elem_of_In, Hsort.
Qed.

Lemma merged_Prefix s p g l :
  group fmt_float (sort s) !! p = Some g -> NewMergedInfluxData g = Some l -> Prefix fmt_float l = p.
Proof using Hsort.
  intros Hg Hm. destruct g as [|d g]; [done|]. injection Hm as <-.
  destruct (in_group s p (d :: g) d Hg) as [[_ Hp] _]; [by left|]. exact Hp.
Qed.

(** The fields of a point, with their names. *)
Inductive point_field := FInt (z : Z) | FFloat (f : float64) | FText (s : string).
Definition kind_of (x : point_field) : nat := match x with FInt _ => 0 | FFloat _ => 1 | FText _ => 2 end.
Definition has (d : InfluxData) (k : string) (x : point_field) : Prop :=
  match x with
  | FInt z => Fields d !! k = Some z
  | FFloat f => FieldsFloat d !! k = Some f
  | FText s => FieldsString d !! k = Some s
  end.

Lemma merged_is g l :
  NewMergedInfluxData g = Some l ->
  Fields l = foldl (fun m f => Fields f ∪ m) ∅ g /\ FieldsFloat l = foldl (fun m f => FieldsFloat f ∪ m) ∅ g /\
  FieldsString l = foldl (fun m f => FieldsString f ∪ m) ∅ g.
Proof using Type. destruct g as [|d g]; [done|]. by intros [= <-]. Qed.

Lemma merged_has g l k x :
  NewMergedInfluxData g = Some l -> has l k x -> exists d, In d g /\ has d k x.
Proof using Type.
  intros (H1 & H2 & H3)%merged_is. destruct x; unfold has; rewrite ?H1, ?H2, ?H3; apply merged_fields_from.
Qed.

Lemma has_merged g l d k x :
  NewMergedInfluxData g = Some l -> In d g -> has d k x ->
  (forall d' x', In d' g -> has d' k x' -> kind_of x' = kind_of x -> x' = x) -> has l k x.
Proof using Type.
  intros (H1 & H2 & H3)%merged_is Hd Hx Hu. destruct x as [z|f|s]; unfold has in *; rewrite ?H1, ?H2, ?H3.
  - apply (merged_fields Fields); [by exists d|]. intros d' v' Hd' Hv. by injection (Hu d' (FInt v') Hd' Hv eq_refl).
  - apply (merged_fields FieldsFloat); [by exists d|]. intros d' v' Hd' Hv. by injection (Hu d' (FFloat v') Hd' Hv eq_refl).
  - apply (merged_fields FieldsString); [by exists d|]. intros d' v' Hd' Hv. by injection (Hu d' (FText v') Hd' Hv eq_refl).
Qed.

Lemma merged_NoDup_aux (l : list (string * list InfluxData)) :
  NoDup (map fst l) ->
  (forall p g, In (p, g) l -> forall d, NewMergedInfluxData g = Some d -> Prefix fmt_float d = p) ->
  NoDup (map (Prefix fmt_float) (omap (fun kl => NewMergedInfluxData kl.2) l)).
Proof using Type.
  induction l as [|(p & g) l IH]; intros Hn Hp; [constructor|]. cbn in *. apply NoDup_cons in Hn as [Hnin Hn].
  assert (NoDup (map (Prefix fmt_float) (omap (fun kl => NewMergedInfluxData kl.2) l))) as Hl.
  { apply IH; [done|]. intros q h Hin. apply Hp. by right. }
  destruct (NewMergedInfluxData g) as [d|] eqn:E; [|done]. cbn. apply NoDup_cons. split; [|done].
  rewrite (Hp p g) by (try done; by left). intros (x & Hx & Hin)%list_elem_of_fmap.
  apply list_elem_of_omap in Hin as ((q & h) & Hin & Hm). apply list_elem_of_In in Hin. apply Hnin.
  rewrite Hx, (Hp q h); [|by right|done]. apply list_elem_of_In, in_map_iff. by exists (q, h).
Qed.

(** However points are sorted and maps are ranged over, each prefix of name and tags gives one
    line, a line only has fields of its points, and a point's field is on the line unless another
    point of the prefix has a different value for it. *)
Lemma Bytes_merges s :
  let lines := merge_points fmt_float sort range s in
  NoDup (map (Prefix fmt_float) lines) /\
  (forall l k x, In l lines -> has l k x -> exists d, In d s /\ Prefix fmt_float d = Prefix fmt_float l /\ has d k x) /\
  (forall d, In d s -> exists l, In l lines /\ Prefix fmt_float l = Prefix fmt_float d /\
     forall k x, has d k x ->
       (forall d' x', In d' s -> Prefix fmt_float d' = Prefix fmt_float d -> has d' k x' -> kind_of x' = kind_of x -> x' = x) ->
       has l k x).
Proof using Hsort Hrange.
  intros lines. split; [|split].
  - apply merged_NoDup_aux.
    + change (NoDup (range (group fmt_float (sort s))).*1). rewrite Hrange. apply NoDup_fst_map_to_list.
    + intros p g Hin d. apply list_elem_of_In in Hin. rewrite Hrange in Hin. apply elem_of_map_to_list in Hin.
      by apply merged_Prefix with (s := s).
  - intros l k x (p & g & Hg & Hm)%merged_group Hx. destruct (merged_has _ _ _ _ Hm Hx) as (d & Hd & Hdx).
    apply (in_group s p g d Hg) in Hd as [Hd Hp]. exists d. rewrite (merged_Prefix s p g l Hg Hm). done.
  - intros d Hd. destruct (group fmt_float (sort s) !! Prefix fmt_float d) as [g|] eqn:Hg.
    + assert (In d g) as Hdg by (apply (in_group s _ g d Hg); done).
      destruct (NewMergedInfluxData g) as [l|] eqn:Hm; [|by destruct g].
      exists l. split; [apply merged_group; by exists (Prefix fmt_float d), g|]. split; [by apply (merged_Prefix s _ g)|].
      intros k x Hx Hu. apply (has_merged g l d k x Hm Hdg Hx). intros d' x' Hd'. apply (in_group s _ g d' Hg) in Hd' as [Hd' Hp].
      by apply Hu.
    + destruct (group_spec (sort s) (Prefix fmt_float d)) as [Hs _]. rewrite Hg in Hs. cbn in Hs.
      assert (In d (List.filter (fun x => String.eqb (Prefix fmt_float x) (Prefix fmt_float d)) (sort s))) as Hin.
      { apply filter_In. split; [|apply String.eqb_refl]. by rewrite <- list_elem_of_In, Hsort, list_elem_of_In. }
      rewrite <- Hs in Hin. destruct Hin.
Qed.
End Merge.

(** ** Witnesses *)

(** An insertion of a point before the first one of a greater name. *)
Fixpoint by_name (d : InfluxData) (l : list InfluxData) : list InfluxData :=
  match l with
  | [] => [d]
  | x :: l' => if String.leb (id_Name d) (id_Name x) then d :: l else x :: by_name d l'
  end.
Definition sort_by_name (l : list InfluxData) : list InfluxData := foldr by_name [] l.

Lemma by_name_perm d l : by_name d l ≡ₚ d :: l.
Proof. induction l as [|x l IH]; [done|]. cbn. destruct (String.leb _ _); [done|]. rewrite IH. constructor. Qed.
Lemma sort_by_name_perm l : sort_by_name l ≡ₚ l.
Proof. induction l as [|x l IH]; [done|]. cbn. by rewrite by_name_perm, IH. Qed.

Definition influx_point (tag k : string) (v ts : Z) : InfluxData :=
  mkInfluxData "flow" ∅ {[k := v]} ∅ {["src_addr"%string := TStr tag]} ts.
Definition influx_points : list InfluxData :=
  [influx_point "a" "in_bytes" 1 5; influx_point "b" "in_bytes" 2 5; influx_point "a" "in_pkts" 3 5].

Lemma Bytes_merges_witness :
  let lines := merge_points (fun _ => ""%string) sort_by_name map_to_list influx_points in
  NoDup (map (Prefix (fun _ => ""%string)) lines) /\ length lines = 2%nat /\
  exists l, In l lines /\ has l "in_bytes" (FInt 1) /\ has l "in_pkts" (FInt 3).
Proof.
  intros lines.
  destruct (Bytes_merges (fun _ => ""%string) sort_by_name map_to_list sort_by_name_perm (fun m => reflexivity _) influx_points)
    as (Hn & _ & _).
  split; [exact Hn|]. split; [vm_compute; reflexivity|].
  exists (mkInfluxData "flow" ∅ {["in_bytes" := 1; "in_pkts" := 3]}%string ∅ {["src_addr"%string := TStr "a"]} 5).
  split; [|split; vm_compute; reflexivity]. vm_compute. tauto.
Defined.

(** Two flows with the same attributes are one line, which keeps the bytes of one and forgets the
    time of the other. *)
Example merging_loses :
  map (fun d => (map_to_list (Fields d), id_Timestamp d))
    (merge_points (fun _ => ""%string) sort_by_name map_to_list
       [influx_point "a" "in_bytes" 100 5; influx_point "a" "in_bytes" 7 65]) = [([("in_bytes"%string, 7)], 5)].
Proof. vm_compute. reflexivity. Qed.

Example sample_getMib :
  let run l := let '(mib, attr) := getMib ":" (map fst l) (list_to_map l) None in (mib, size attr) in
  (run [("Index", TStr "11"); ("bgp:foo", TStr "22")]%string,
   run [("mib-table", TStr "mytable"); ("mib-name", TStr "myname")]%string,
   run [("mib-table", TStr "mytable"); ("mib-name", TStr "/myname")]%string) =
  (("device", 2%nat), ("myname::mytable", 0%nat), ("/myname/mytable", 0%nat))%string.
Proof. vm_compute. reflexivity. Qed.
