(* ===== verification/Carbon.v ===== *)
(** * Carbon lines (src/pkg/formats/carbon)

    Flows and synthetic tests as lines of metrics 2.0, with the tags that make the metric and
    those that describe it.  The order of the tags is that of a map, an argument here. *)
From S2P Require Import Prelude GoIO GoStrings KT Customs GoFloat ToJCHF SnmpTypes InterfaceMetrics FormatUtil Nrm Influx.

Record CarbonData := mkCarbonData {
  cd_Type : string;
  cd_Name : string;
  cd_Value : Z;
  cd_Unit : string;
  IntrinsicTags : attrs;
  MetaTags : attrs;
  cd_Timestamp : Z
}.

Definition underscored (s : string) : string := strings_ReplaceByte s (Ascii.ascii_of_nat 32) "_".

(** A tag that is set when it is not empty. *)
Definition put_tag (k v : string) (m : attrs) : attrs := if String.eqb v "" then m else <[k := TStr v]> m.
Definition put_customs (in_ : JCHF) (m : attrs) : attrs :=
  map_fold (fun k v m => put_tag k v m) m (default ∅ (CustomStr in_)).

Section Carbon.
  Context `{MibEnricher} (r : FormatRanges) (fmt_float : Attr -> string).

Definition parseTags (tags : attrs) : list string :=
  map (fun kv => underscored kv.1 +:+ "=" +:+ match kv.2 with TStr t => underscored t | v => fmt_attr fmt_float v end)
    (fr_attrs r tags).

Definition CarbonData_String (d : CarbonData) : string :=
  "metric=" +:+ cd_Name d +:+ " mtype=" +:+ cd_Type d +:+ " unit=" +:+ cd_Unit d +:+ " " +:+
  strings_Join (parseTags (IntrinsicTags d)) " " +:+ "  " +:+ strings_Join (parseTags (MetaTags d)) " " +:+ " " +:+
  Itoa (cd_Value d) +:+ " " +:+ Itoa (cd_Timestamp d).

Definition CarbonDataSet_Bytes (s : list CarbonData) : string :=
  strings_Join (map CarbonData_String s) (String (Ascii.ascii_of_nat 10) "").

Definition flow_type (m : string) : string := if String.eqb m "latency_ms" then "gauge" else "rate".
Definition flow_unit (m : string) : string :=
  if String.eqb m "in_bytes" || String.eqb m "out_bytes" then "B/s"
  else if String.eqb m "in_pkts" || String.eqb m "out_pkts" then "pckt/s" else "ms".

Definition flow_intrinsic (in_ : JCHF) : attrs :=
  put_tag "protocol" (Protocol in_) (put_tag "src_addr" (SrcAddr in_) (put_tag "dst_addr" (DstAddr in_)
    {["device"%string := TStr (Itoa (DeviceId in_))]})).
Definition flow_meta (in_ : JCHF) : attrs :=
  put_customs in_ (put_tag "src_bgp_as_path" (SrcBgpAsPath in_) (put_tag "dst_bgp_as_path" (DstBgpAsPath in_)
    (put_tag "src_geo" (SrcGeo in_) (put_tag "dst_geo" (DstGeo in_)
      {[ "l4_dst_port"%string := TInt (L4DstPort in_); "l4_src_port"%string := TInt (L4SrcPort in_);
         "src_as"%string := TInt (SrcAs in_); "dst_as"%string := TInt (DstAs in_);
         "tcp_retransmit"%string := TInt (TcpRetransmit in_); "vlan_in"%string := TInt (VlanIn in_);
         "vlan_out"%string := TInt (VlanOut in_) ]})))).

(** [fromKflow]; the attributes it collects first are not used, but may panic. *)
Definition Carbon_fromKflow (in_ : JCHF) : outcome (list CarbonData) :=
  _ ← SetAttr (fr_flat r) (fr_scripts r) ∅ in_ flow_metrics None false;
  Ok (map (fun '(m, _) => mkCarbonData (flow_type m) m (kflow_value in_ m) (flow_unit m) (flow_intrinsic in_) (flow_meta in_)
                            (Timestamp in_)) (fr_metrics r flow_metrics)).

Definition synth_intrinsic (in_ : JCHF) : attrs :=
  put_tag "src_addr" (SrcAddr in_) (put_tag "dst_addr" (DstAddr in_)
    (put_tag "application_type" (gomap_get "" (CustomStr in_) "application_type") ∅)).
Definition synth_meta (in_ : JCHF) : attrs :=
  put_customs in_ (put_tag "dst_geo_city" (DstGeoCity in_) (put_tag "src_geo_city" (SrcGeoCity in_)
    (put_tag "dst_geo_region" (DstGeoRegion in_) (put_tag "src_geo_region" (SrcGeoRegion in_)
      (put_tag "src_geo" (SrcGeo in_) (put_tag "dst_geo" (DstGeo in_)
        {[ "src_as"%string := TInt (SrcAs in_); "dst_as"%string := TInt (DstAs in_) ]})))))).
Definition mu : string := String (Ascii.ascii_of_nat 206) (String (Ascii.ascii_of_nat 188) "").

Definition Carbon_fromKsynth (in_ : JCHF) : list CarbonData :=
  map (fun m => mkCarbonData "gauge" m (gomap_get 0 (CustomInt in_) m) mu (synth_intrinsic in_) (synth_meta in_) (Timestamp in_))
    ["ping_avg_rtt"; "ping_jit_rtt"; "ping_max_rtt"; "ping_std_rtt"]%string.

(** [toCarbonMetric]; the format is the event types it has complained about. *)
Definition toCarbonMetric (invalids : gmap string bool) (in_ : JCHF) : outcome (list CarbonData * gmap string bool) :=
  let ev := EventType in_ in
  if String.eqb ev KENTIK_EVENT_SYNTH || String.eqb ev KENTIK_EVENT_TRACE then Ok (Carbon_fromKsynth in_, invalids)
  else if String.eqb ev KENTIK_EVENT_TYPE then ms ← Carbon_fromKflow in_; Ok (ms, invalids)
  else Ok ([], <[ev := true]> invalids).

Definition Carbon_To (invalids : gmap string bool) (msgs : list JCHF) : outcome (option Output * gmap string bool) :=
  '(res, invalids) ← fold_out (fun '(res, i) m => '(ms, i) ← toCarbonMetric i m; Ok (res ++ ms, i)) ([], invalids) msgs;
  if (length res =? 0)%nat then Ok (None, invalids)
  else Ok (Some (NewOutput (Utf8.bytes_of (CarbonDataSet_Bytes res))), invalids).
End Carbon.

Example carbon_line :
  CarbonData_String nrm_ranges (fun _ => ""%string)
    (mkCarbonData "rate" "in_bytes" 7 "B/s" {["device"%string := TStr "1"]} {["src geo"%string := TStr "a b"]} 9) =
  "metric=in_bytes mtype=rate unit=B/s device=1  src_geo=a_b 7 9"%string.
Proof. vm_compute. reflexivity. Qed.
