(* ===== verification/Prom.v ===== *)
(** * Prometheus gauges (src/pkg/formats/prom/prom.go)

    Records become samples of gauges.  The labels of a gauge are those of its first samples;
    then the gauge is registered, and later samples are set under the values of these labels.
    The client library is an interface: a vector of gauges panics when it is not given as
    many values as it has labels. *)
From Stdlib Require Import SpecFloat.
From S2P Require Import Prelude GoIO GoStrings KT Customs GoFloat Rollup ToJCHF SnmpTypes InterfaceMetrics.
From S2P Require Import DeviceMetrics FormatUtil Utf8 Nrm Influx.

Record PromData := mkPromData { pd_Name : string; pd_Value : float64; pd_Tags : attrs }.

Abbreviation tagVec := (gmap string (gmap string nat)).

(** [^\d+$]. *)
Definition invalidTag (k : string) : bool :=
  negb (String.eqb k "") && forallb (fun b => (48 <=? b) && (b <=? 57)) (bytes_of k).

(** The interface of the client library. *)
Class Prometheus (V R : Type) := mkPrometheus {
  NewGaugeVec : string -> list string -> V;
  MustRegister : V -> R -> outcome R;
  SetWithLabelValues : list string -> float64 -> V -> outcome V
}.

Record PromFormat (V R : Type) := mkPromFormat {
  vecs : gmap string V;
  pf_invalids : gmap string bool;
  pf_lastMetadata : gmap string LastMetadata;
  vecTags : tagVec;
  seen : gmap string Z;
  FlowsNeeded : Z;
  registry : R
}.
Arguments mkPromFormat {V R}.
Arguments vecs {V R}. Arguments pf_invalids {V R}. Arguments pf_lastMetadata {V R}. Arguments vecTags {V R}.
Arguments seen {V R}. Arguments FlowsNeeded {V R}. Arguments registry {V R}.

Section Tags.
  Context (fmt_float : Attr -> string) (range : attrs -> list (string * Attr)).

Definition add_label (labels : gmap string nat) (kv : string * Attr) : gmap string nat :=
  let '(k, _) := kv in
  if invalidTag k then labels
  else match labels !! k with Some _ => labels | None => <[k := size labels]> labels end.

(** [AddTagLabels]. *)
Definition AddTagLabels (d : PromData) (vt : tagVec) : tagVec :=
  <[pd_Name d := foldl add_label (default ∅ (vt !! pd_Name d)) (range (pd_Tags d))]> vt.

(** An assignment to an element of a slice. *)
Definition set_at (l : list string) (i : nat) (v : string) : outcome (list string) :=
  if (i <? length l)%nat then Ok (<[i := v]> l) else Panic "index out of range".

(** [GetTagValues]. *)
Definition GetTagValues (d : PromData) (vt : tagVec) : outcome (list string) :=
  let labels := default ∅ (vt !! pd_Name d) in
  fold_out (fun tags '(k, v) => match labels !! k with
                                | None => Ok tags
                                | Some posit => set_at tags posit (fmt_attr fmt_float v)
                                end) (replicate (size labels) ""%string) (range (pd_Tags d)).

(** [toLabels]; [ranget] is the range order of the labels. *)
Definition makeSafe (r : Z) : Z := if (r =? 46) || (r =? 32) then 95 else r.
Definition safe_label (k : string) : string := string_of (strings_Map makeSafe (bytes_of k)).
Definition toLabels (ranget : gmap string nat -> list (string * nat)) (vt : tagVec) (name : string) : outcome (list string) :=
  let labels := default ∅ (vt !! name) in
  fold_out (fun res '(k, v) => set_at res v (safe_label k)) (replicate (size labels) ""%string) (ranget labels).
End Tags.

Section Prom.
  Context `{Prometheus V R} `{MibEnricher}.
  Context (fmt_float : Attr -> string) (r : FormatRanges) (fields : JCHF -> DeviceFields).
  Context (ranget : gmap string nat -> list (string * nat)) (rangez : gmap string Z -> list (string * Z)).
  Context (rangef : gmap string float64 -> list (string * float64)).
  (** The first element of a JSON list, when it is an object. *)
  Context (str00 : string -> attrs).

Definition NewPromFormat (needed : Z) (reg : R) : PromFormat V R := mkPromFormat ∅ ∅ ∅ ∅ ∅ needed reg.

(** ** Samples to gauges *)

(** A sample: its labels are learned until enough were seen; then it is set. *)
Definition publish (f : PromFormat V R) (m : PromData) : outcome (PromFormat V R) :=
  let n := default 0 (seen f !! pd_Name m) in
  if n <? FlowsNeeded f
  then Ok (mkPromFormat (vecs f) (pf_invalids f) (pf_lastMetadata f) (AddTagLabels (fr_attrs r) m (vecTags f))
             (<[pd_Name m := n + 1]> (seen f)) (FlowsNeeded f) (registry f))
  else
    '(v, reg) ← match vecs f !! pd_Name m with
                | Some v => Ok (v, registry f)
                | None =>
                    labels ← toLabels ranget (vecTags f) (pd_Name m);
                    let v := NewGaugeVec (pd_Name m) labels in
                    reg ← MustRegister v (registry f);
                    Ok (v, reg)
                end;
    values ← GetTagValues fmt_float (fr_attrs r) m (vecTags f);
    v ← SetWithLabelValues values (pd_Value m) v;
    Ok (mkPromFormat (<[pd_Name m := v]> (vecs f)) (pf_invalids f) (pf_lastMetadata f) (vecTags f) (seen f) (FlowsNeeded f) reg).

(** [Rollup]: the gauges of rollups, by the type of event. *)
Definition roll_gauge (f : PromFormat V R) (roll : Rollup) : outcome (PromFormat V R) :=
  if SFeqb (r_Metric roll) (S754_zero false) then Ok f
  else
    '(v, reg) ← match vecs f !! r_EventType roll with
                | Some v => Ok (v, registry f)
                | None =>
                    let v := NewGaugeVec (strings_ReplaceAll (r_Name roll) "." ":") (r_dims roll) in
                    reg ← MustRegister v (registry f);
                    Ok (v, reg)
                end;
    v ← SetWithLabelValues (strings_Split (r_Dimension roll) (r_KeyJoin roll)) (r_Metric roll) v;
    Ok (mkPromFormat (<[r_EventType roll := v]> (vecs f)) (pf_invalids f) (pf_lastMetadata f) (vecTags f) (seen f)
          (FlowsNeeded f) reg).
Definition Prom_Rollup (f : PromFormat V R) (rolls : list Rollup) : outcome (PromFormat V R) := fold_out roll_gauge f rolls.

(** ** Records to samples *)

Definition prom_synthWLAttr : list string := [
  "agent_id"; "agent_name"; "dst_addr"; "dst_cdn_int"; "dst_geo"; "provider"; "src_addr"; "src_cdn_int";
  "src_as_name"; "src_geo"; "test_id"; "test_name"; "test_type"; "test_url"; "result_type_str"; "src_host";
  "dst_host"; "src_cloud_region"; "src_cloud_provider"; "src_site"; "dst_cloud_region"; "dst_cloud_provider";
  "dst_site"; "statusMessage"; "statusEncoding"; "https_validity"; "https_expiry_timestamp"; "dest_ip"]%string.
Definition synthAttrKeys : list string :=
  ["statusMessage"; "statusEncoding"; "https_validity"; "https_expiry_timestamp"]%string.

(** The loop over the attributes: what is not listed goes, and a number becomes text. *)
Definition prom_white_list (attr : attrs) : attrs :=
  let attr := filter (fun kv => listed kv.1 prom_synthWLAttr = true) attr in
  match attr !! "test_id"%string with
  | Some (TInt vi) => <["test_id"%string := TStr (Itoa vi)]> attr
  | _ => attr
  end.

Section OneFormat.
  Context (f : PromFormat V R).

Definition pf_metadata_of (in_ : JCHF) : option LastMetadata := pf_lastMetadata f !! DeviceName in_.
Definition pf_attributes_of (in_ : JCHF) (metrics : gmap string MetricInfo) : outcome attrs :=
  SetAttr (fr_flat r) (fr_scripts r) ∅ in_ metrics (pf_metadata_of in_) false.

Definition pf_fromKSyngest (in_ : JCHF) : outcome (list PromData) :=
  attr ← pf_attributes_of in_ GetSyngestMetricNameSet;
  let attr := prom_white_list attr in
  Ok (omap (fun '(m, name) =>
        let v := gomap_get 0 (CustomInt in_) m in
        if 0 <? v then Some (mkPromData ("kentik:syngest:" +:+ mi_Name name) (float64_of v) attr) else None)
      (fr_metrics r GetSyngestMetricNameSet)).

Definition prom_synth_gauges : list string := synth_gauges ++ ["lost"; "sent"]%string.

Definition pf_fromKSynth (in_ : JCHF) : outcome (list PromData) :=
  let rawStr := gomap_get ""%string (CustomStr in_) "error_cause/trace_route" in
  let rt := gomap_get 0 (CustomInt in_) "result_type" in
  let metrics := default ∅ (GetSynMetricNameSet rt) in
  attr ← pf_attributes_of in_ metrics;
  let attr := if String.eqb rawStr "" then attr
              else filter (fun kv => listed kv.1 synthAttrKeys = true) (str00 rawStr) ∪ attr in
  let attr := prom_white_list attr in
  Ok (omap (fun '(m, name) =>
        if listed (mi_Name name) prom_synth_gauges
        then Some (mkPromData ("kentik:synth:" +:+ mi_Name name) (float64_of (gomap_get 0 (CustomInt in_) m)) attr) else None)
      (fr_metrics r metrics) ++
      [mkPromData "kentik:synth:outcome" (float64_of (GetSynthOutcome rt).1) attr]).

Definition pf_fromKflow (in_ : JCHF) : outcome (list PromData) :=
  attr ← pf_attributes_of in_ flow_metrics;
  let ms := map_imap (fun m _ => Some (kflow_value in_ m)) flow_metrics in
  Ok (omap (fun '(k, v) => if v =? 0 then None else Some (mkPromData ("kentik:flow:" +:+ k) (float64_of v) attr)) (rangez ms)).

(** The metrics of a record that have a value. *)
Definition metric_values (in_ : JCHF) : gmap string Z :=
  map_imap (fun m _ => gomap_find (CustomBigInt in_) m) (default ∅ (CustomMetrics in_)).
Definition snmp_samples (in_ : JCHF) (attr : attrs) : list PromData :=
  map (fun '(k, v) => mkPromData ("kentik:snmp:" +:+ k) (float64_of v) attr) (rangez (metric_values in_)).

Definition pf_fromSnmpDeviceMetric (in_ : JCHF) : outcome (list PromData) :=
  attr ← pf_attributes_of in_ (default ∅ (CustomMetrics in_));
  Ok (snmp_samples in_ attr).

(** The utilization of a direction, from the speed in the metadata of its port. *)
Definition prom_utilization (in_ : JCHF) (port : Z) (octets name : string) : gmap string float64 :=
  match pf_metadata_of in_ with
  | None => ∅
  | Some lm =>
      match InterfaceInfo lm !! port ≫= lookup "Speed"%string with
      | Some (TInt32 ispeed) =>
          let uptimeSpeed := (int64 (gomap_get 0 (CustomBigInt in_) Uptime * (ispeed * 1000000)))%go in
          if 0 <? uptimeSpeed
          then {[name := float64_div (float64_of (int64 (gomap_get 0 (CustomBigInt in_) octets * 8 * 100))%go)
                           (float64_of uptimeSpeed)]}
          else ∅
      | _ => ∅
      end
  end.

Definition pf_fromSnmpInterfaceMetric (in_ : JCHF) : outcome (list PromData) :=
  attr ← pf_attributes_of in_ (default ∅ (CustomMetrics in_));
  let msF := prom_utilization in_ (InputPort in_) "ifHCInOctets" "IfInUtilization" ∪
             prom_utilization in_ (OutputPort in_) "ifHCOutOctets" "IfOutUtilization" in
  Ok (snmp_samples in_ attr ++ map (fun '(k, v) => mkPromData ("kentik:snmp:" +:+ k) v attr) (rangef msF)).
End OneFormat.

Definition pf_fromSnmpMetadata (in_ : JCHF) (f : PromFormat V R) : PromFormat V R :=
  if String.eqb (DeviceName in_) "" then f
  else
    let d := fields in_ in
    let lm := SetMetadata (fr_strs r (default ∅ (CustomStr in_))) (fr_ints r (default ∅ (CustomInt in_)))
                (CustomTables d) (DeviceMatchAttr d) in_ in
    mkPromFormat (vecs f) (pf_invalids f) (<[DeviceName in_ := lm]> (pf_lastMetadata f)) (vecTags f) (seen f)
      (FlowsNeeded f) (registry f).

Definition toPromMetric (f : PromFormat V R) (in_ : JCHF) : outcome (list PromData * PromFormat V R) :=
  let pure ms := ms ← ms; Ok (ms, f) in
  let ev := EventType in_ in
  if String.eqb ev KENTIK_EVENT_TYPE then pure (pf_fromKflow f in_)
  else if String.eqb ev KENTIK_EVENT_SNMP_DEV_METRIC then pure (pf_fromSnmpDeviceMetric f in_)
  else if String.eqb ev KENTIK_EVENT_SNMP_INT_METRIC then pure (pf_fromSnmpInterfaceMetric f in_)
  else if String.eqb ev KENTIK_EVENT_SYNTH then pure (pf_fromKSynth f in_)
  else if String.eqb ev KENTIK_EVENT_SYNTH_GEST then pure (pf_fromKSyngest f in_)
  else if String.eqb ev KENTIK_EVENT_SNMP_METADATA then Ok ([], pf_fromSnmpMetadata in_ f)
  else Ok ([], mkPromFormat (vecs f) (<[ev := true]> (pf_invalids f)) (pf_lastMetadata f) (vecTags f) (seen f)
                 (FlowsNeeded f) (registry f)).

Definition toPromMetrics (f : PromFormat V R) (msgs : list JCHF) : outcome (list PromData * PromFormat V R) :=
  fold_out (fun '(res, f) m => '(ms, f) ← toPromMetric f m; Ok (res ++ ms, f)) ([], f) msgs.

(** [To]: nothing is sent, the gauges are scraped. *)
Definition Prom_To (f : PromFormat V R) (msgs : list JCHF) : outcome (PromFormat V R) :=
  '(res, f) ← toPromMetrics f msgs;
  fold_out publish f res.
End Prom.

(** ** Properties *)

(** Labels have the positions [0] to [n - 1], each once. *)
Definition labels_ok (m : gmap string nat) : Prop :=
  (forall k i, m !! k = Some i -> (i < size m)%nat) /\
  (forall k k' i, m !! k = Some i -> m !! k' = Some i -> k = k').

Lemma labels_ok_empty : labels_ok ∅.
Proof. split; intros *; by rewrite lookup_empty. Qed.

Lemma add_label_ok labels kv : labels_ok labels -> labels_ok (add_label labels kv).
Proof.
  intros [Hlt Hinj]. destruct kv as [k a]. cbn. destruct (invalidTag k); [done|].
  destruct (labels !! k) as [i|] eqn:E; [done|]. split.
  - intros q i Hq. rewrite map_size_insert_None by done. destruct (decide (k = q)) as [<-|Hne].
    + rewrite lookup_insert_eq in Hq. injection Hq as <-. lia.
    + rewrite lookup_insert_ne in Hq by done. apply Hlt in Hq. lia.
  - intros q q' i. rewrite !lookup_insert_Some. intros [[<- <-]|[_ Hq]] [[<- Hi]|[_ Hq']]; try done.
    + apply Hlt in Hq'. lia.
    + subst i. apply Hlt in Hq. lia.
    + by eapply Hinj.
Qed.

Lemma AddTagLabels_ok range d vt n m :
  (forall n m, vt !! n = Some m -> labels_ok m) -> AddTagLabels range d vt !! n = Some m -> labels_ok m.
Proof.
  intros Hvt. unfold AddTagLabels. destruct (decide (pd_Name d = n)) as [<-|Hne].
  - rewrite lookup_insert_eq. intros [= <-]. set (m0 := default ∅ _). assert (labels_ok m0) as H0.
    { unfold m0. destruct (vt !! pd_Name d) eqn:E; [by apply (Hvt (pd_Name d))|apply labels_ok_empty]. }
    clearbody m0. revert m0 H0. induction (range (pd_Tags d)) as [|kv l IH]; intros m0 H0; [done|]. cbn. apply IH.
    by apply add_label_ok.
  - rewrite lookup_insert_ne by done. apply Hvt.
Qed.

(** Writing each value at the position of its key. *)
Lemma set_all {X} (labels : gmap string nat) (g : string -> X -> string) (l : list (string * X)) :
  labels_ok labels -> NoDup l.*1 -> forall acc, length acc = size labels ->
  exists res,
    fold_out (fun tags '(k, v) => match labels !! k with
                                  | None => Ok tags
                                  | Some posit => set_at tags posit (g k v)
                                  end) acc l = Ok res /\
    length res = size labels /\
    (forall k i v, labels !! k = Some i -> In (k, v) l -> res !! i = Some (g k v)) /\
    (forall k i, labels !! k = Some i -> ~ In k l.*1 -> res !! i = acc !! i).
Proof.
  intros [Hlt Hinj]. induction l as [|(k & v) l IH]; intros Hn acc Hacc.
  - exists acc. cbn. done.
  - cbn in Hn. apply NoDup_cons in Hn as [Hk Hn]. cbn [fold_out].
    assert (forall q i v', labels !! q = Some i -> In (q, v') l -> q <> k) as Hne.
    { intros q i v' _ Hin ->. apply Hk, list_elem_of_fmap. exists (k, v'). split; [done|by apply list_elem_of_In]. }
    destruct (labels !! k) as [p|] eqn:E.
    + unfold set_at. destruct (Nat.ltb_spec p (length acc)) as [Hp|Hp]; [|apply Hlt in E; lia].
      destruct (IH Hn (<[p := g k v]> acc)) as (res & Hr & Hl & Hin & Hnin); [by rewrite length_insert|].
      exists res. split; [exact Hr|]. split; [done|]. split.
      * intros q i v' Hq [[= <- <-]|Hi]; [|by eapply Hin]. rewrite E in Hq. injection Hq as <-.
        rewrite (Hnin k p E); [by apply list_lookup_insert_eq|]. intros HI. by apply Hk, list_elem_of_In.
      * intros q i Hq Hni. cbn in Hni. rewrite (Hnin q i Hq) by tauto. apply list_lookup_insert_ne. intros <-.
        apply Hni. left. by apply (Hinj k q p).
    + destruct (IH Hn acc Hacc) as (res & Hr & Hl & Hin & Hnin). exists res. split; [exact Hr|]. split; [done|]. split.
      * intros q i v' Hq [[= <- <-]|Hi]; [congruence|by eapply Hin].
      * intros q i Hq Hni. apply (Hnin q i Hq). intros HI. apply Hni. by right.
Qed.

Section Aligned.
  Context `{Prometheus V R} `{MibEnricher}.
  Context (fmt_float : Attr -> string) (r : FormatRanges) (ranget : gmap string nat -> list (string * nat)).
  Context (Hr : forall m, fr_attrs r m ≡ₚ map_to_list m) (Hrt : forall m, ranget m ≡ₚ map_to_list m).

Lemma GetTagValues_spec d vt :
  labels_ok (default ∅ (vt !! pd_Name d)) ->
  exists values, GetTagValues fmt_float (fr_attrs r) d vt = Ok values /\
    length values = size (default ∅ (vt !! pd_Name d)) /\
    forall k i, default ∅ (vt !! pd_Name d) !! k = Some i ->
      values !! i = Some (match pd_Tags d !! k with Some a => fmt_attr fmt_float a | None => "" end).
Proof using Hr.
  intros Hok. unfold GetTagValues. set (labels := default ∅ (vt !! pd_Name d)) in *.
  destruct (set_all labels (fun _ => fmt_attr fmt_float) (fr_attrs r (pd_Tags d)) Hok) with (acc := replicate (size labels) ""%string)
    as (res & Heq & Hl & Hin & Hnin).
  - rewrite Hr. apply NoDup_fst_map_to_list.
  - apply length_replicate.
  - exists res. split; [exact Heq|]. split; [done|]. intros k i Hk. destruct (pd_Tags d !! k) as [a|] eqn:E.
    + apply (Hin k i a Hk). apply list_elem_of_In. rewrite Hr. by apply elem_of_map_to_list.
    + rewrite (Hnin k i Hk); [apply lookup_replicate_2; by apply (proj1 Hok k)|].
      intros HI. apply list_elem_of_In in HI. rewrite Hr in HI. apply list_elem_of_fmap in HI as ((q & a) & -> & HI).
      apply elem_of_map_to_list in HI. cbn in E. congruence.
Qed.

Lemma labels_loop (m : gmap string nat) l : forall acc,
  (forall p, p ∈ l -> m !! p.1 = Some p.2) ->
  fold_out (fun res '(k, v) => set_at res v (safe_label k)) acc l =
  fold_out (fun res '(k, _) => match m !! k with
                               | None => Ok res
                               | Some posit => set_at res posit (safe_label k)
                               end) acc l.
Proof using Type.
  induction l as [|(k & i) l IH]; intros acc Hm; [done|]. cbn [fold_out].
  pose proof (Hm (k, i) ltac:(by left)) as Hk. cbn in Hk. rewrite Hk. destruct (set_at acc i _) as [acc'| | |]; [|done..].
  apply (IH acc'). intros p Hp. apply Hm. by right.
Qed.

Lemma toLabels_spec vt name :
  labels_ok (default ∅ (vt !! name)) ->
  exists labels, toLabels ranget vt name = Ok labels /\ length labels = size (default ∅ (vt !! name)) /\
    forall k i, default ∅ (vt !! name) !! k = Some i -> labels !! i = Some (safe_label k).
Proof using Hrt.
  intros Hok. unfold toLabels. set (m := default ∅ (vt !! name)) in *.
  destruct (set_all m (fun k _ => safe_label k) (ranget m) Hok) with (acc := replicate (size m) ""%string)
    as (res & Heq & Hl & Hin & _).
  - rewrite Hrt. apply NoDup_fst_map_to_list.
  - apply length_replicate.
  - exists res. split; [|split; [done|]].
    + rewrite <- Heq. apply labels_loop. intros [k i] Hp. rewrite Hrt in Hp. by apply elem_of_map_to_list in Hp.
    + intros k i Hk. apply (Hin k i i Hk). apply list_elem_of_In. rewrite Hrt. by apply elem_of_map_to_list.
Qed.

(** The client library: a vector has the labels it was made with, and takes as many values. *)
Context (nlabels : V -> nat).
Context (HNew : forall n labels, nlabels (NewGaugeVec n labels) = length labels).
Context (HSet : forall values x v, length values = nlabels v ->
  exists v', SetWithLabelValues values x v = Ok v' /\ nlabels v' = nlabels v).

(** A registered gauge learns no more labels. *)
Record gauges_ok (f : PromFormat V R) : Prop := {
  al_tags n m : vecTags f !! n = Some m -> labels_ok m;
  al_vecs n v : vecs f !! n = Some v ->
    FlowsNeeded f <= default 0 (seen f !! n) /\ nlabels v = size (default ∅ (vecTags f !! n))
}.

Lemma aligned_labels f n : gauges_ok f -> labels_ok (default ∅ (vecTags f !! n)).
Proof using Type.
  intros Ha. destruct (vecTags f !! n) eqn:E; [by eapply al_tags|apply labels_ok_empty].
Qed.

(** What a sample does: it is counted, or its value is set under the texts of its tags, each at
    the place of its label; or its gauge cannot be registered. *)
Definition refused (f : PromFormat V R) (m : PromData) : Prop :=
  exists labels, forall reg, MustRegister (NewGaugeVec (pd_Name m) labels) (registry f) <> Ok reg.
Definition set_under_tags (f f' : PromFormat V R) (m : PromData) : Prop :=
  exists values v v', SetWithLabelValues values (pd_Value m) v = Ok v' /\ vecs f' !! pd_Name m = Some v' /\
    length values = nlabels v /\
    forall k i, default ∅ (vecTags f !! pd_Name m) !! k = Some i ->
      values !! i = Some (match pd_Tags m !! k with Some a => fmt_attr fmt_float a | None => "" end).

Lemma publish_counts f m :
  gauges_ok f -> default 0 (seen f !! pd_Name m) < FlowsNeeded f ->
  exists f', publish fmt_float r ranget f m = Ok f' /\ gauges_ok f'.
Proof using Type.
  intros [Ht Hv] Hn. unfold publish. destruct (Z.ltb_spec (default 0 (seen f !! pd_Name m)) (FlowsNeeded f)); [|lia].
  eexists. split; [done|]. split; cbn.
  - intros n labels. by apply AddTagLabels_ok.
  - intros n v Hf. destruct (Hv n v Hf) as [Hs Hl]. destruct (decide (pd_Name m = n)) as [<-|Hne]; [lia|].
    unfold AddTagLabels. by rewrite !lookup_insert_ne.
Qed.

Lemma publish_sets f m :
  gauges_ok f -> FlowsNeeded f <= default 0 (seen f !! pd_Name m) ->
  refused f m \/ exists f', publish fmt_float r ranget f m = Ok f' /\ gauges_ok f' /\ set_under_tags f f' m.
Proof using Hr Hrt HNew HSet.
  intros Ha Hn. pose proof (aligned_labels f (pd_Name m) Ha) as Hok. unfold publish.
  destruct (Z.ltb_spec (default 0 (seen f !! pd_Name m)) (FlowsNeeded f)); [lia|].
  destruct (GetTagValues_spec m (vecTags f) Hok) as (values & Hgv & Hlv & Hvals).
  assert (forall v reg, nlabels v = length values ->
    exists f', (v' ← SetWithLabelValues values (pd_Value m) v;
                Ok (mkPromFormat (<[pd_Name m := v']> (vecs f)) (pf_invalids f) (pf_lastMetadata f) (vecTags f) (seen f)
                      (FlowsNeeded f) reg)) = Ok f' /\ gauges_ok f' /\ set_under_tags f f' m) as Hset.
  { intros v reg Hl. destruct (HSet values (pd_Value m) v ltac:(done)) as (v' & Hs & Hl').
    eexists. rewrite Hs. split; [done|]. split; [|exists values, v, v'; cbn; rewrite lookup_insert_eq; done].
    split; cbn; [apply Ha|]. intros n w. destruct (decide (pd_Name m = n)) as [<-|Hne].
    - rewrite lookup_insert_eq. intros [= <-]. split; [done|congruence].
    - rewrite lookup_insert_ne by done. apply Ha. }
  destruct (vecs f !! pd_Name m) as [v|] eqn:Ev; cbn.
  - right. rewrite Hgv. cbn. apply Hset. destruct (al_vecs f Ha _ _ Ev). congruence.
  - destruct (toLabels_spec (vecTags f) (pd_Name m) Hok) as (labels & -> & Hll & _). cbn.
    destruct (MustRegister (NewGaugeVec (pd_Name m) labels) (registry f)) as [reg| | |] eqn:Er;
      try (left; exists labels; intros reg; by rewrite Er).
    right. cbn. rewrite Hgv. cbn. apply Hset. rewrite HNew. congruence.
Qed.

(** Converting records leaves the gauges alone. *)
Lemma toPromMetric_gauges_ok fields rangez rangef str00 f in_ ms f' :
  gauges_ok f -> toPromMetric r fields rangez rangef str00 f in_ = Ok (ms, f') -> gauges_ok f'.
Proof using Type.
  intros Ha. assert (forall x : outcome (list PromData), x ≫= (fun ms => Ok (ms, f)) = Ok (ms, f') -> gauges_ok f') as Hpure.
  { intros [x| | |] [= _ <-]. done. }
  unfold toPromMetric. repeat (case_match; [by apply Hpure|]). case_match.
  - intros [= _ <-]. unfold pf_fromSnmpMetadata. case_match; [done|]. by destruct Ha.
  - intros [= _ <-]. by destruct Ha.
Qed.

Lemma toPromMetrics_gauges_ok fields rangez rangef str00 f msgs x :
  gauges_ok f -> toPromMetrics r fields rangez rangef str00 f msgs = Ok x -> gauges_ok x.2.
Proof using Type.
  unfold toPromMetrics. intros Ha. change f with (([] : list PromData), f).2 in Ha. revert Ha.
  generalize (([] : list PromData), f). induction msgs as [|m msgs IH]; intros [ms g] Ha; [by intros [= <-]|].
  cbn [fold_out]. destruct (toPromMetric _ _ _ _ _ g m) as [[ms1 g1]| | |] eqn:E; [|done..].
  apply (IH (ms ++ ms1, g1)). by eapply toPromMetric_gauges_ok.
Qed.

Lemma publish_all res : forall g, gauges_ok g ->
  (exists f', fold_out (publish fmt_float r ranget) g res = Ok f' /\ gauges_ok f') \/ (exists g m, gauges_ok g /\ refused g m).
Proof using Hr Hrt HNew HSet.
  induction res as [|m res IH]; intros g Hg; [left; by exists g|]. cbn [fold_out].
  destruct (Z_lt_le_dec (default 0 (seen g !! pd_Name m)) (FlowsNeeded g)) as [Hlt|Hle].
  - destruct (publish_counts g m Hg Hlt) as (g' & -> & Hg'). by apply IH.
  - destruct (publish_sets g m Hg Hle) as [Href|(g' & -> & Hg' & _)]; [right; by exists g, m|by apply IH].
Qed.

(** Whatever records come, and in whatever order tags are ranged over, no gauge is ever set
    with the wrong number of values: encoding ends in a state of that kind again, unless a record
    cannot be converted or the library refuses a new gauge. *)
Lemma Prom_To_gauges_ok fields rangez rangef str00 f msgs :
  gauges_ok f ->
  (exists f', Prom_To fmt_float r fields ranget rangez rangef str00 f msgs = Ok f' /\ gauges_ok f') \/
  (forall x, toPromMetrics r fields rangez rangef str00 f msgs <> Ok x) \/
  (exists g m, gauges_ok g /\ refused g m).
Proof using Hr Hrt HNew HSet.
  intros Ha. unfold Prom_To. destruct (toPromMetrics _ _ _ _ _ f msgs) as [[res g]| | |] eqn:E; try (right; left; done).
  apply toPromMetrics_gauges_ok in E as Hg; [|done]. destruct (publish_all res g Hg) as [Hf|Hf]; [by left|by right; right].
Qed.
End Aligned.

(** ** Witnesses *)

(** A library that only looks at the number of values, and registers every gauge once. *)
#[local] Instance counting_library : Prometheus nat nat :=
  mkPrometheus nat nat (fun _ labels => length labels) (fun _ reg => Ok (S reg))
    (fun values _ v => if (length values =? v)%nat then Ok v else Panic "inconsistent label cardinality").
#[local] Instance prom_enricher : MibEnricher := fun _ _ _ _ attr => attr.

Lemma counting_library_sets values (x : float64) (v : nat) :
  length values = v -> exists v', SetWithLabelValues values x v = Ok v' /\ v' = v.
Proof. intros H. exists v. cbn. by rewrite H, Nat.eqb_refl. Qed.

Lemma counting_library_new (n : string) (l : list string) : (NewGaugeVec n l : nat) = length l.
Proof. done. Qed.

Definition prom_flow (src : string) : JCHF :=
  set_EventType KENTIK_EVENT_TYPE (set_SrcAddr src (set_InBytes 7 (set_SampleRate 1 (SetMap NewJCHF)))).
Definition prom_msgs : list JCHF := [prom_flow "a"; prom_flow "b"; prom_flow "c"].
Definition prom_start : PromFormat nat nat := NewPromFormat 1 0%nat.

Lemma prom_start_gauges_ok : gauges_ok (fun v => v) prom_start.
Proof. split; intros n m; cbn; by rewrite lookup_empty. Qed.

Lemma Prom_To_gauges_ok_witness :
  match Prom_To (fun _ => ""%string) nrm_ranges no_fields map_to_list map_to_list map_to_list (fun _ => ∅) prom_start prom_msgs with
  | Ok f' => size (vecs f') = 1%nat /\ gauges_ok (fun v => v) f'
  | _ => False
  end.
Proof.
  assert (match Prom_To (fun _ => ""%string) nrm_ranges no_fields map_to_list map_to_list map_to_list (fun _ => ∅) prom_start
            prom_msgs with Ok f' => size (vecs f') = 1%nat | _ => False end) as Hc by (vm_compute; reflexivity).
  destruct (Prom_To_gauges_ok (fun _ => ""%string) nrm_ranges map_to_list (fun m => reflexivity _) (fun m => reflexivity _) (fun v => v)
    counting_library_new counting_library_sets no_fields map_to_list map_to_list (fun _ => ∅) prom_start prom_msgs
    prom_start_gauges_ok) as [(f' & Hf & Ha)|[Hno|(g & m & _ & labels & Hno)]].
  - rewrite Hf in *. split; [exact Hc|exact Ha].
  - destruct (toPromMetrics nrm_ranges no_fields map_to_list map_to_list (fun _ => ∅) prom_start prom_msgs) as [x| | |] eqn:E;
      [by destruct (Hno x)|exfalso; unfold Prom_To in Hc; rewrite E in Hc; exact Hc..].
  - by destruct (Hno (S (registry g))).
Defined.

(** Two keys can make the same label. *)
Example labels_collide :
  toLabels map_to_list {["kentik:flow:in_bytes"%string := {["a.b" := 0%nat; "a b" := 1%nat]}%string]} "kentik:flow:in_bytes" =
  Ok ["a_b"; "a_b"]%string.
Proof. vm_compute. reflexivity. Qed.

(** A value of a rollup with the join in it is too many values. *)
Example rollup_mismatch :
  roll_gauge prom_start (sample_roll "10.0.0.1^a^b") = Panic "inconsistent label cardinality".
Proof. vm_compute. reflexivity. Qed.
