(* ===== verification/Kflow.v ===== *)
(** * Kflow format (src/pkg/formats/kflow/kflow.go)

    A batch becomes the flows that Kentik's intake takes, after a first message that says which
    name the number of each custom column stands for.  The capnproto encoding, gzip and the
    orders of map ranges are arguments; the checksums that number the columns are computed. *)
From Stdlib Require Import Ascii.
From S2P Require Import Prelude GoIO GoStrings GoNet GoAddr IC KT Customs ToJCHF Utf8.

Definition MSG_KEY_PREFIX : nat := 80.
Definition NETWORK_AGENT_PROTO : Z := 0.
Definition NETWORK_AGENT_MAP_PROTO : Z := 101.

(** [crc32.ChecksumIEEE]. *)
Definition crc_bit (c : Z) : Z := if Z.testbit c 0 then Z.lxor (Z.shiftr c 1) 0xedb88320 else Z.shiftr c 1.
Definition crc_byte (c b : Z) : Z := Nat.iter 8 crc_bit (Z.lxor c b).
Definition ChecksumIEEE (bs : bytes) : Z := Z.lxor (foldl crc_byte 0xffffffff bs) 0xffffffff.

Example crc_check : ChecksumIEEE (bytes_of "123456789") = 0xcbf43926.
Proof. vm_compute. reflexivity. Qed.

(** [patricia.PackGeo]. *)
Definition PackGeo (cnty : bytes) : Z := match cnty with [a; b] => a * 256 + b | _ => 0 end.

(** A message of the batch: what the setters of the capnproto message were given. *)
Record KMessage := mkKMessage { m_AppProtocol : Z; m_Timestamp : Z; m_Flow : CHF }.

Definition no_text : Text := ("", None).
Definition customs_only (l : list (Z * Custom_value)) : CHF :=
  mkCHF 0 0 0 0 0 0 0 0 0 0 0 0 0 0 0 0 0 0 0 0 0 0 0 0 0 0 0 0 0 0 0 0 0 0 0 0
    no_text no_text no_text no_text no_text no_text 0 [] 0 [] 0 0 0 [] 0 [] l.

(** The four bytes of an address, or its sixteen. *)
Definition addr_v4 (s : string) : Z :=
  match ParseIP s with [] => 0 | ip => match To4 ip with Some p4 => be_combine p4 | None => 0 end end.
Definition addr_v6 (s : string) : bytes :=
  match ParseIP s with [] => [] | ip => match To4 ip with Some _ => [] | None => ip end end.

(** Orders of ranges. *)
Record KflowRanges := mkKflowRanges {
  kr_str : gmap string string -> list (string * string);
  kr_int : gmap string Z -> list (string * Z)
}.

Section Kflow.
  Context (nums : gmap string Z) (r : KflowRanges).

(** The custom columns of a record, by the numbers of their names. *)
Definition custom_list (ids : gmap string Z) (f : JCHF) : list (Z * Custom_value) :=
  let id k := default 0 (ids !! k) in
  map (fun kv => (id kv.1, StrVal kv.2)) (kr_str r (default ∅ (CustomStr f))) ++
  map (fun kv => (id kv.1, Uint32Val ((uint32 kv.2)%go))) (kr_int r (default ∅ (CustomInt f))) ++
  map (fun kv => (id kv.1, Uint64Val ((uint64 kv.2)%go))) (kr_int r (default ∅ (CustomBigInt f))).

(** [pack]. *)
Definition pack (ids : gmap string Z) (f : JCHF) : KMessage :=
  mkKMessage NETWORK_AGENT_PROTO (Timestamp f)
    (mkCHF (DstAs f) (PackGeo (bytes_of (DstGeo f))) 0 0 (HeaderLen f)
       (InBytes f) (InPkts f) ((uint32 (InputPort f))%go) (IpSize f) (L4DstPort f)
       (L4SrcPort f) ((uint32 (OutputPort f))%go) (default 0 (nums !! Protocol f)) (SampledPacketSize f)
       (SrcAs f) (PackGeo (bytes_of (SrcGeo f))) 0 0 (TcpFlags f)
       (Tos f) (VlanIn f) (VlanOut f) (MplsType f) (OutBytes f)
       (OutPkts f) (TcpRetransmit f) (SampleRate f) ((uint32 (DeviceId f))%go)
       (SrcNextHopAs f) (DstNextHopAs f) (SrcSecondAsn f) (DstSecondAsn f)
       (SrcThirdAsn f) (DstThirdAsn f) 0 0
       no_text no_text no_text no_text no_text no_text
       (addr_v4 (DstAddr f)) (addr_v6 (DstAddr f)) (addr_v4 (SrcAddr f)) (addr_v6 (SrcAddr f))
       0 0 0 [] 0 [] (custom_list ids f)).

(** [getIds]: the number of every custom name of the batch, and the message that says so. *)
Definition custom_names (f : JCHF) : list string :=
  map fst (kr_str r (default ∅ (CustomStr f))) ++ map fst (kr_int r (default ∅ (CustomInt f))) ++
  map fst (kr_int r (default ∅ (CustomBigInt f))).
Definition put_id (ids : gmap string Z) (key : string) : gmap string Z :=
  match ids !! key with Some _ => ids | None => <[key := ChecksumIEEE (bytes_of key)]> ids end.
Definition get_ids (flows : list JCHF) : gmap string Z :=
  foldl (fun ids f => foldl put_id ids (custom_names f)) ∅ flows.
Definition ids_message (ids : gmap string Z) : KMessage :=
  mkKMessage NETWORK_AGENT_MAP_PROTO 0 (customs_only (map (fun kv => (kv.2, StrVal kv.1)) (kr_int r ids))).

(** The key of a batch, and the 80 bytes before the flows. *)
Definition batch_key (f : JCHF) : string :=
  Itoa (CompanyId f) +:+ ":" +:+ DeviceName f +:+ ":" +:+ Itoa (DeviceId f) +:+ "^".
Definition key_prefix (key : string) : bytes :=
  let zeros n := replicate n 0 in
  if (String.length key <? MSG_KEY_PREFIX)%nat
  then bytes_of key ++ zeros (MSG_KEY_PREFIX - String.length key)%nat else zeros MSG_KEY_PREFIX.

Context (Encode : list KMessage -> outcome bytes) (Decode : bytes -> outcome (list KMessage)).
Context (gzip : bytes -> bytes) (gunzip : bytes -> outcome bytes).

Definition Kflow_To (flows : list JCHF) (serBuf : bytes) : outcome (option Output) :=
  match flows with
  | [] => Ok None
  | f0 :: _ =>
      let ids := get_ids flows in
      let key := batch_key f0 in
      enc ← Encode (ids_message ids :: map (pack ids) flows);
      Ok (Some (NewOutputWithProviderAndCompanySender (serBuf ++ gzip (key_prefix key ++ enc)) (Provider f0) (CompanyId f0)
                  EventOutput (String.substring 0 (String.length key - 1) key)))
  end.

(** ** Reading *)

(** The dynamic values of what is read. *)
Inductive KValue :=
| KInt64 (z : Z)
| KStr (s : string)
| KBytes (b : bytes)
| KUint32 (z : Z)
| KUint64 (z : Z).

Definition int2ip (nn : Z) : IP := be_split 4 nn.

(** [%c%c] of the two bytes of a country. *)
Definition geo_read (g : Z) : string := string_of (WriteRune (Z.shiftr g 8) ++ WriteRune (Z.land g 0xff)).
Definition addr_read (v4 : Z) (v6 : bytes) : string := IP_String (if 0 <? v4 then int2ip v4 else v6).

(** What stands before the first [^] of the prefix, if there is one. *)
Fixpoint before_caret (b : bytes) : option bytes :=
  match b with
  | [] => None
  | c :: b' => if c =? 94 then Some [] else cons c <$> before_caret b'
  end.

Definition base_flow (server : bytes) (m : KMessage) : gmap string KValue :=
  let c := m_Flow m in
  {[ "timestamp"%string := KInt64 (m_Timestamp m);
     "protocol"%string := KStr (default "" (PROTO_NAMES !! (uint16 (chf_Protocol c))%go));
     "src_geo"%string := KStr (geo_read (chf_SrcGeo c));
     "server_id"%string := KBytes server;
     "dst_addr"%string := KStr (addr_read (chf_Ipv4DstAddr c) (chf_Ipv6DstAddr c));
     "src_addr"%string := KStr (addr_read (chf_Ipv4SrcAddr c) (chf_Ipv6SrcAddr c)) ]}.

Definition read_custom (customMap : gmap Z string) (flow : gmap string KValue) (cust : Z * Custom_value) : gmap string KValue :=
  match customMap !! cust.1 with
  | None => flow
  | Some key =>
      match cust.2 with
      | Uint32Val v => <[key := KUint32 v]> flow
      | Uint64Val v => <[key := KUint64 v]> flow
      | StrVal s => <[key := KStr s]> flow
      | _ => flow
      end
  end.

(** The text of a custom value, empty when it has none. *)
Definition StrVal_of (v : Custom_value) : string := match v with StrVal s => s | _ => "" end.

(** The loop over the messages: flows, and names of custom columns. *)
Fixpoint read_messages (server : bytes) (customMap : gmap Z string) (ms : list KMessage) : list (gmap string KValue) :=
  match ms with
  | [] => []
  | m :: ms =>
      if m_AppProtocol m =? NETWORK_AGENT_PROTO
      then foldl (read_custom customMap) (base_flow server m) (chf_Custom (m_Flow m)) :: read_messages server customMap ms
      else if m_AppProtocol m =? NETWORK_AGENT_MAP_PROTO
      then read_messages server (foldl (fun cm c => <[c.1 := StrVal_of c.2]> cm) customMap (chf_Custom (m_Flow m))) ms
      else read_messages server customMap ms
  end.

(** [From]. A short body is cut from the zeros behind it in its buffer. *)
Definition Kflow_From (raw : Output) : outcome (list (gmap string KValue)) :=
  evt ← gunzip (Body raw);
  let prefix := take MSG_KEY_PREFIX evt ++ replicate (MSG_KEY_PREFIX - length evt)%nat 0 in
  match before_caret prefix with
  | None => Err (Errorf "Invalid prefix found for kflow: %s" prefix)
  | Some server =>
      if (length evt <? MSG_KEY_PREFIX)%nat then Panic "slice bounds out of range"
      else ms ← Decode (drop MSG_KEY_PREFIX evt); Ok (read_messages server ∅ ms)
  end.
End Kflow.

(** ** Properties *)

(** Setting the entries of a map one by one, in any order. *)
Lemma foldl_inserts {A B} (conv : A -> B) (l : list (string * A)) (m : gmap string A) (base : gmap string B) :
  l ≡ₚ map_to_list m -> foldl (fun b kv => <[kv.1 := conv kv.2]> b) base l = (conv <$> m) ∪ base.
Proof.
  revert m. induction l as [|[k v] l IH] using rev_ind; intros m Hp.
  - apply Permutation_nil_l in Hp. symmetry in Hp. apply map_to_list_empty_iff in Hp as ->. by rewrite fmap_empty, (left_id_L ∅ _).
  - assert (m !! k = Some v) as Hk by (apply elem_of_map_to_list; rewrite <- Hp; set_solver).
    rewrite foldl_app. cbn. rewrite (IH (delete k m)).
    + rewrite insert_union_l. f_equal. rewrite fmap_delete, insert_delete_eq. apply map_eq. intros q.
      destruct (decide (k = q)) as [<-|Hne]; [|by rewrite lookup_insert_ne].
      by rewrite lookup_insert_eq, lookup_fmap, Hk.
    + apply (Permutation_cons_inv (a := (k, v))). rewrite <- map_to_list_insert by apply lookup_delete_eq.
      rewrite insert_delete_id by done. by rewrite <- Hp, Permutation_app_comm.
Qed.

(** What a record is read back as, in terms of the texts that it has: a protocol that is known, a
    country of two letters (each byte as the rune of its number), the canonical text of an address,
    where zeros and no address are both nil, and the custom columns. *)
Definition kflow_protocol (p : string) : string := if decide (p ∈ PROTO_NAMES_entries.*2) then p else "HOPOPT".
Definition kflow_country (c : string) : string :=
  string_of (if (String.length c =? 2)%nat then encode_runes (bytes_of c) else [0; 0]).
Definition kflow_addr (s : string) : string :=
  let t := IP_String (ParseIP s) in if String.eqb t "0.0.0.0" then "<nil>" else t.
Definition read_customs (f : JCHF) (base : gmap string KValue) : gmap string KValue :=
  ((fun z => KUint64 ((uint64 z)%go)) <$> default ∅ (CustomBigInt f)) ∪
  (((fun z => KUint32 ((uint32 z)%go)) <$> default ∅ (CustomInt f)) ∪
   ((KStr <$> default ∅ (CustomStr f)) ∪ base)).
(** The sender of a batch: its company, device and number. *)
Definition server_text (f : JCHF) : string := Itoa (CompanyId f) +:+ ":" +:+ DeviceName f +:+ ":" +:+ Itoa (DeviceId f).
Definition read_back (f0 f : JCHF) : gmap string KValue :=
  read_customs f
    {[ "timestamp"%string := KInt64 (Timestamp f);
       "protocol"%string := KStr (kflow_protocol (Protocol f));
       "src_geo"%string := KStr (kflow_country (SrcGeo f));
       "server_id"%string := KBytes (bytes_of (server_text f0));
       "dst_addr"%string := KStr (kflow_addr (DstAddr f));
       "src_addr"%string := KStr (kflow_addr (SrcAddr f)) ]}.

(** A record of which nothing is lost on the way, and what it is then read back as. *)
Record plain_record (f : JCHF) : Prop := {
  pr_protocol : Protocol f ∈ PROTO_NAMES_entries.*2;
  pr_country : String.length (SrcGeo f) = 2%nat /\ Forall (fun b => b < 0x80) (bytes_of (SrcGeo f));
  pr_src : IP_String (ParseIP (SrcAddr f)) = SrcAddr f /\ SrcAddr f <> "0.0.0.0"%string;
  pr_dst : IP_String (ParseIP (DstAddr f)) = DstAddr f /\ DstAddr f <> "0.0.0.0"%string
}.
Definition as_it_was (f0 f : JCHF) : gmap string KValue :=
  read_customs f
    {[ "timestamp"%string := KInt64 (Timestamp f);
       "protocol"%string := KStr (Protocol f);
       "src_geo"%string := KStr (SrcGeo f);
       "server_id"%string := KBytes (bytes_of (server_text f0));
       "dst_addr"%string := KStr (DstAddr f);
       "src_addr"%string := KStr (SrcAddr f) ]}.

(** ** Texts that are packed *)

Lemma bytes_of_ok s : bytes_ok (bytes_of s).
Proof. apply Forall_map, Forall_forall. intros c _. apply byte_of_range. Qed.

Lemma geo_roundtrip c : geo_read (PackGeo (bytes_of c)) = kflow_country c.
Proof.
  unfold kflow_country. destruct c as [|a [|b [|x c]]]; [reflexivity..| |reflexivity].
  cbn [String.length Nat.eqb]. unfold geo_read, PackGeo. pose proof (bytes_of_ok (String a (String b ""))) as Hok.
  change (bytes_of (String a (String b ""))) with [byte_of a; byte_of b] in *.
  apply Forall_cons in Hok as [Ha Hok]. apply Forall_cons in Hok as [Hb _]. unfold in_range in Ha, Hb. change (2 ^ 8) with 256 in *.
  assert (Z.shiftr (byte_of a * 256 + byte_of b) 8 = byte_of a) as ->.
  { rewrite Z.shiftr_div_pow2 by lia. change (2 ^ 8) with 256. rewrite Z.div_add_l, Z.div_small by lia. lia. }
  assert (Z.land (byte_of a * 256 + byte_of b) 0xff = byte_of b) as ->.
  { change 0xff with (Z.ones 8). rewrite Z.land_ones by lia. change (2 ^ 8) with 256. rewrite Z.add_comm, Z.mod_add, Z.mod_small by lia. done. }
  unfold encode_runes. cbn [map concat]. by rewrite app_nil_r.
Qed.

Lemma country_plain c : String.length c = 2%nat -> Forall (fun b => b < 0x80) (bytes_of c) -> kflow_country c = c.
Proof.
  intros Hl Hc. unfold kflow_country. rewrite Hl. cbn [Nat.eqb].
  assert (encode_runes (bytes_of c) = bytes_of c) as ->; [|apply string_of_bytes_of].
  pose proof (bytes_of_ok c) as Hok. induction Hc as [|b bs Hb _ IH]; [done|]. apply Forall_cons in Hok as [Hr Hok].
  unfold encode_runes in *. cbn [map concat]. rewrite IH by done. unfold WriteRune, in_range in *.
  assert (is_rune b = true) as -> by (unfold is_rune, between; change (2 ^ 8) with 256 in Hr; destruct (Z.leb_spec 0 b), (Z.leb_spec b 0x10ffff), (Z.leb_spec 0xd800 b); [lia|done|lia..]).
  by rewrite (proj2 (Z.ltb_lt b 0x80)).
Qed.

Lemma IP_String_v4 ip b : length ip = 16%nat -> To4 ip = Some b -> length b = 4%nat -> IP_String ip = v4_text b /\ IP_String b = v4_text b.
Proof.
  intros Hl E Hb. split.
  - unfold IP_String. destruct ip; [done|]. rewrite decide_False by lia. by rewrite E.
  - unfold IP_String. destruct b as [|y b]; [done|]. rewrite decide_False by (rewrite Hb; lia). unfold To4. by rewrite decide_True.
Qed.

Lemma addr_roundtrip s : addr_read (addr_v4 s) (addr_v6 s) = kflow_addr s.
Proof.
  unfold addr_read, addr_v4, addr_v6, kflow_addr. destruct (ParseIP_ok s) as [Hok Hl].
  destruct (ParseIP s) as [|x ip]; [reflexivity|]. destruct Hl as [|Hl]; [done|]. destruct (To4 (x :: ip)) as [b|] eqn:E.
  - destruct (To4_ok _ _ Hok E) as [Hb Hbok]. destruct (IP_String_v4 _ _ Hl E Hb) as [-> Hv].
    destruct (Z.ltb_spec 0 (be_combine b)) as [Hp|Hz].
    + unfold int2ip. rewrite <-Hb, be_split_combine, Hv by done. destruct (String.eqb_spec (v4_text b) "0.0.0.0") as [He|]; [|done].
      exfalso. assert (b = [0; 0; 0; 0]) as Hz; [|by rewrite Hz in Hp].
      pose proof (ParseIP_v4 b Hb Hbok) as Hb1. rewrite He in Hb1. change (ParseIP "0.0.0.0") with (v4InV6Prefix ++ [0; 0; 0; 0]) in Hb1. symmetry in Hb1.
      by apply app_inv_head in Hb1.
    + assert (b = be_split 4 0) as ->; [|reflexivity]. rewrite <-Hb, <-(be_split_combine b) at 1 by done. f_equal.
      pose proof (be_combine_range b Hbok) as Hr. unfold in_range in Hr. lia.
  - destruct (Z.ltb_spec 0 0); [lia|]. destruct (String.eqb_spec (IP_String (x :: ip)) "0.0.0.0") as [He|]; [|done]. exfalso.
    unfold IP_String in He. rewrite decide_False, E in He by (rewrite Hl; lia).
    assert (forall a r, lacks ":" (a +:+ String ":" r) = false) as Hcolon by (intros; rewrite lacks_app; cbn [lacks]; by rewrite andb_false_r).
    assert (lacks ":" (v6_text (x :: ip)) = false) as Hc.
    { unfold v6_text. destruct (longest_zeros _) as [[? ?]|]; apply Hcolon. }
    by rewrite He in Hc.
Qed.

Lemma plain_as_it_was f0 f : plain_record f -> read_back f0 f = as_it_was f0 f.
Proof.
  intros [Hp [Hc Ha] [Hs Hs0] [Hd Hd0]]. unfold read_back, as_it_was, kflow_protocol, kflow_addr. rewrite decide_True by done.
  rewrite country_plain, Hs, Hd by done. apply String.eqb_neq in Hs0, Hd0. by rewrite Hs0, Hd0.
Qed.

(** The numbers of the custom names are all different. *)
Definition distinct_ids (names : list string) : Prop :=
  forall k k', In k names -> In k' names -> ChecksumIEEE (bytes_of k) = ChecksumIEEE (bytes_of k') -> k = k'.

Section Properties.
  Context (order : list (Z * string)) (Hp : order ≡ₚ PROTO_NAMES_entries) (r : KflowRanges).
  Context (Hs : forall m, kr_str r m ≡ₚ map_to_list m) (Hi : forall m, kr_int r m ≡ₚ map_to_list m).

Lemma put_id_lookup ids k q :
  put_id ids k !! q = if decide (q = k) then Some (default (ChecksumIEEE (bytes_of k)) (ids !! k)) else ids !! q.
Proof using Type.
  unfold put_id. destruct (ids !! k) as [i|] eqn:E; case_decide as Hq; subst; try done.
  - by rewrite lookup_insert_eq.
  - by rewrite lookup_insert_ne.
Qed.

Lemma get_ids_lookup names : forall ids k i,
  (forall q i, ids !! q = Some i -> i = ChecksumIEEE (bytes_of q)) ->
  foldl put_id ids names !! k = Some i <-> (In k names \/ is_Some (ids !! k)) /\ i = ChecksumIEEE (bytes_of k).
Proof using Type.
  induction names as [|n names IH]; intros ids k i Hids; cbn [foldl].
  - split; [|intros [[[]|[j Hj]] ->]; rewrite Hj; f_equal; by apply Hids]. intros Hk. split; [right; by exists i|by apply Hids].
  - rewrite IH.
    + rewrite put_id_lookup. case_decide as Hk; [subst|].
      * split; intros [_ ->]; (split; [|done]); [left; by left|right; by eexists].
      * split; intros [[Hi'|Hi'] ->]; (split; [|done]); [left; by right|by right| |by right]. destruct Hi'; [congruence|by left].
    + intros q j. rewrite put_id_lookup. case_decide as Hq; [|by apply Hids]. subst. intros [= <-].
      destruct (ids !! n) eqn:E; [by apply Hids|done].
Qed.

Lemma get_ids_spec flows k i :
  get_ids r flows !! k = Some i <-> In k (flat_map (custom_names r) flows) /\ i = ChecksumIEEE (bytes_of k).
Proof using Type.
  assert (get_ids r flows = foldl put_id ∅ (flat_map (custom_names r) flows)) as ->.
  { unfold get_ids. generalize (∅ : gmap string Z). induction flows as [|f flows IH]; intros ids; [done|]. cbn.
    by rewrite foldl_app, IH. }
  rewrite get_ids_lookup by (intros q j; by rewrite lookup_empty). rewrite lookup_empty.
  split; intros [Hk ->]; (split; [|done]); [by destruct Hk as [|[? [=]]]|by left].
Qed.

(** Reading the columns of a record, when the names of its numbers are known. *)
Lemma read_custom_list cm ids f base :
  (forall k, In k (custom_names r f) -> exists i, ids !! k = Some i /\ cm !! i = Some k) ->
  foldl (read_custom cm) base (custom_list r ids f) = read_customs f base.
Proof using Hs Hi.
  intros Hcm. unfold custom_list. rewrite !foldl_app.
  assert (forall {A} (c : A -> Custom_value) (kv : A -> KValue) (l : list (string * A)) base,
    (forall k, In k (map fst l) -> In k (custom_names r f)) ->
    (forall m i key a, cm !! i = Some key -> read_custom cm m (i, c a) = <[key := kv a]> m) ->
    foldl (read_custom cm) base (map (fun kv => (default 0 (ids !! kv.1), c kv.2)) l) =
    foldl (fun b x => <[x.1 := kv x.2]> b) base l) as Hone.
  { intros A c kv l. induction l as [|[k v] l IH]; intros b Hn Hc; [done|]. cbn.
    destruct (Hcm k) as (i & Hik & Hki); [apply Hn; by left|]. rewrite Hik. cbn. rewrite (Hc _ i k v Hki). apply IH; [|done].
    intros q Hq. apply Hn. by right. }
  unfold read_customs. unfold custom_names in Hone.
  rewrite (Hone _ StrVal KStr), (Hone _ (fun z => Uint32Val ((uint32 z)%go)) (fun z => KUint32 ((uint32 z)%go))),
    (Hone _ (fun z => Uint64Val ((uint64 z)%go)) (fun z => KUint64 ((uint64 z)%go))).
  - rewrite (foldl_inserts KStr _ _ _ (Hs _)),
      (foldl_inserts (fun z => KUint32 ((uint32 z)%go)) _ _ _ (Hi (default ∅ (CustomInt f)))),
      (foldl_inserts (fun z => KUint64 ((uint64 z)%go)) _ _ _ (Hi (default ∅ (CustomBigInt f)))). done.
  - intros k Hk. apply in_or_app. right. apply in_or_app. by right.
  - intros m i key a Hk. unfold read_custom. cbn. by rewrite Hk.
  - intros k Hk. apply in_or_app. right. apply in_or_app. by left.
  - intros m i key a Hk. unfold read_custom. cbn. by rewrite Hk.
  - intros k Hk. apply in_or_app. by left.
  - intros m i key a Hk. unfold read_custom. cbn. by rewrite Hk.
Qed.

(** The names of the columns after the first message. *)
Lemma names_lookup (l : list (string * Z)) (cm : gmap Z string) k i :
  In (k, i) l -> (forall q, In (q, i) l -> q = k) ->
  foldl (fun cm c => <[c.1 := StrVal_of c.2]> cm) cm (map (fun kv => (kv.2, StrVal kv.1)) l) !! i = Some k.
Proof using Type.
  induction l as [|[q j] l IH] using rev_ind; intros Hin Hu; [done|]. rewrite map_app, foldl_app. cbn.
  destruct (decide (j = i)) as [->|Hne].
  - rewrite lookup_insert_eq. f_equal. apply Hu, in_or_app. right. by left.
  - rewrite lookup_insert_ne by done. apply IH.
    + apply in_app_or in Hin as [Hin|[[= -> ->]|[]]]; [done|congruence].
    + intros p Hq. apply Hu, in_or_app. by left.
Qed.

Lemma kflow_protocol_spec p : default "" (PROTO_NAMES !! default 0 (PROTO_NUMS_from order !! p)) = kflow_protocol p.
Proof using Hp.
  unfold kflow_protocol. case_decide as Hin.
  - apply list_elem_of_fmap in Hin as ([k v] & -> & Hin). cbn [snd]. apply PROTO_NAMES_lookup in Hin.
    destruct (PROTO_NUMS_complete order Hp k v Hin) as [k' Hk']. rewrite Hk'. unfold default, from_option, id. by rewrite (PROTO_NUMS_sound order Hp _ _ Hk').
  - destruct (PROTO_NUMS_from order !! p) as [k|] eqn:E; [|vm_compute; reflexivity].
    exfalso. apply Hin. apply (PROTO_NUMS_sound order Hp), PROTO_NAMES_lookup in E. apply list_elem_of_fmap. by exists (k, p).
Qed.

Lemma read_flows cm f0 ids flows :
  (forall f k, In f flows -> In k (custom_names r f) -> exists i, ids !! k = Some i /\ cm !! i = Some k) ->
  read_messages (bytes_of (server_text f0)) cm (map (pack (PROTO_NUMS_from order) r ids) flows) = map (read_back f0) flows.
Proof using Hp Hs Hi.
  induction flows as [|f flows IH]; intros Hcm; [done|]. cbn [map read_messages pack m_AppProtocol].
  change (NETWORK_AGENT_PROTO =? NETWORK_AGENT_PROTO) with true. cbv iota. f_equal.
  - cbn [m_Flow chf_Custom]. rewrite (read_custom_list cm ids f) by (intros k Hk; apply (Hcm f k); [by left|done]).
    unfold read_back, base_flow. cbn [pack m_Flow m_Timestamp chf_Protocol chf_SrcGeo chf_Ipv4DstAddr chf_Ipv6DstAddr
      chf_Ipv4SrcAddr chf_Ipv6SrcAddr]. rewrite (wrap_id 16).
    + by rewrite kflow_protocol_spec, geo_roundtrip, !addr_roundtrip.
    + pose proof (PROTO_NUMS_byte order Hp (Protocol f)) as Hb. unfold in_range in *. change (2 ^ 8) with 256 in Hb. change (2 ^ 16) with 65536. lia.
  - apply IH. intros g k Hg. apply Hcm. by right.
Qed.

Lemma before_caret_app a b s : before_caret a = Some s -> before_caret (a ++ b) = Some s.
Proof using Type.
  revert s. induction a as [|c a IH]; intros s; [done|]. cbn. destruct (c =? 94); [done|].
  destruct (before_caret a) as [t|]; [|done]. intros [= <-]. by rewrite (IH t).
Qed.

Lemma before_caret_key f : lacks "^" (server_text f) = true -> before_caret (bytes_of (batch_key f)) = Some (bytes_of (server_text f)).
Proof using Type.
  intros Hl. assert (batch_key f = server_text f +:+ "^") as -> by (unfold batch_key, server_text; by rewrite !sapp_assoc).
  induction (server_text f) as [|c t IH]; [done|]. cbn [lacks] in Hl. apply andb_prop in Hl as [Hc%negb_true_iff%Ascii.eqb_neq Hl].
  change (bytes_of (String c t +:+ "^")) with (byte_of c :: bytes_of (t +:+ "^")). cbn [before_caret].
  destruct (Z.eqb_spec (byte_of c) 94) as [He|]; [|by rewrite IH]. exfalso. apply Hc.
  rewrite <-(Ascii.ascii_N_embedding c). unfold byte_of in He. by replace (Ascii.N_of_ascii c) with 94%N by lia.
Qed.

Lemma length_bytes_of s : length (bytes_of s) = String.length s.
Proof using Type. unfold bytes_of. rewrite length_map. induction s as [|c s IH]; [done|]. cbn. by rewrite IH. Qed.

Context (Encode : list KMessage -> outcome bytes) (Decode : bytes -> outcome (list KMessage)).
Context (gzip : bytes -> bytes) (gunzip : bytes -> outcome bytes).
Context (HDecode : forall ms b, Encode ms = Ok b -> Decode b = Ok ms) (Hgzip : forall b, gunzip (gzip b) = Ok b).

(** C27: What a batch is encoded to is read back as its records, in order: the time, the protocol
    (HOPOPT for an unknown one), the country of two letters (zeros for any other), the canonical
    texts of the addresses (nil for none and for zeros), the sender of the batch and every custom
    column under its name, the numbers at the width of the encoding; records with known protocols,
    countries of two ASCII letters and canonical addresses are read back as they were.  (The key of
    the batch must fit its 80 bytes, its sender have no caret, and no two columns share a number.) *)
Theorem kflow_roundtrip f0 flows o :
  (String.length (batch_key f0) < MSG_KEY_PREFIX)%nat -> lacks "^" (server_text f0) = true ->
  distinct_ids (flat_map (custom_names r) (f0 :: flows)) ->
  Kflow_To (PROTO_NUMS_from order) r Encode gzip (f0 :: flows) [] = Ok (Some o) ->
  Kflow_From Decode gunzip o = Ok (map (read_back f0) (f0 :: flows)) /\
  (Forall plain_record (f0 :: flows) -> Kflow_From Decode gunzip o = Ok (map (as_it_was f0) (f0 :: flows))).
Proof using Hp Hs Hi HDecode Hgzip.
  intros Hlen Hcaret Hids Hto. assert (Kflow_From Decode gunzip o = Ok (map (read_back f0) (f0 :: flows))) as Hfrom.
  2: { split; [exact Hfrom|]. intros Hplain. rewrite Hfrom. f_equal. apply map_ext_in. intros f Hf. apply plain_as_it_was.
       by apply (proj1 (List.Forall_forall _ _) Hplain). }
  pose proof (before_caret_key f0 Hcaret) as Hserver. revert Hto. unfold Kflow_To. set (ids := get_ids r (f0 :: flows)).
  destruct (Encode _) as [enc| | |] eqn:E; [|done..]. cbn [mbind outcome_bind]. intros [= <-].
  unfold Kflow_From. cbn [Body NewOutputWithProviderAndCompanySender app]. rewrite Hgzip. cbn [mbind outcome_bind].
  assert (length (key_prefix (batch_key f0)) = MSG_KEY_PREFIX) as Hl.
  { unfold key_prefix. destruct (Nat.ltb_spec (String.length (batch_key f0)) MSG_KEY_PREFIX); [|lia].
    rewrite length_app, length_replicate, length_bytes_of. lia. }
  rewrite <- Hl at 1. rewrite take_app_length.
  assert (before_caret (key_prefix (batch_key f0) ++
            replicate (MSG_KEY_PREFIX - length (key_prefix (batch_key f0) ++ enc)) 0) = Some (bytes_of (server_text f0))) as ->.
  { apply before_caret_app. unfold key_prefix. apply Nat.ltb_lt in Hlen. rewrite Hlen. by apply before_caret_app. }
  destruct (Nat.ltb_spec (length (key_prefix (batch_key f0) ++ enc)) MSG_KEY_PREFIX) as [Hshort|_];
    [rewrite length_app in Hshort; lia|].
  rewrite <- Hl, drop_app_length. rewrite (HDecode _ _ E). cbn [mbind outcome_bind]. f_equal.
  cbn [read_messages m_AppProtocol ids_message]. change (NETWORK_AGENT_MAP_PROTO =? NETWORK_AGENT_PROTO) with false.
  change (NETWORK_AGENT_MAP_PROTO =? NETWORK_AGENT_MAP_PROTO) with true. cbv iota.
  cbn [m_Flow customs_only chf_Custom]. apply read_flows. intros f k Hf Hk.
  assert (In k (flat_map (custom_names r) (f0 :: flows))) as Hin by (apply in_flat_map; by exists f).
  assert (ids !! k = Some (ChecksumIEEE (bytes_of k))) as Hik by (by apply get_ids_spec).
  eexists. split; [exact Hik|]. apply names_lookup.
  - apply list_elem_of_In. rewrite Hi. by apply elem_of_map_to_list.
  - intros q Hq. apply list_elem_of_In in Hq. rewrite Hi in Hq. apply elem_of_map_to_list, get_ids_spec in Hq as [Hq He].
    by apply Hids.
Qed.
End Properties.

(** ** Witnesses *)

Definition kflow_ranges : KflowRanges := mkKflowRanges map_to_list map_to_list.
Definition kflow_nums : gmap string Z := PROTO_NUMS_from PROTO_NAMES_entries.
Definition kflow_record : JCHF :=
  set_Timestamp 1700000000 (set_SrcAddr "10.0.0.1" (set_DstAddr "2001:db8::1" (set_Protocol "TCP" (set_SrcGeo "US"
    (set_CustomStr (Some {["app" := "web"]}%string) (set_CustomInt (Some {["delta" := -1]}%string)
      (set_DeviceName "r1" (SetMap NewJCHF)))))))).
Definition kflow_messages : list KMessage :=
  let ids := get_ids kflow_ranges [kflow_record] in [ids_message kflow_ranges ids; pack kflow_nums kflow_ranges ids kflow_record].

#[local] Instance Custom_value_eq_dec : EqDecision Custom_value.
Proof. solve_decision. Defined.
#[local] Instance CHF_eq_dec : EqDecision CHF.
Proof. solve_decision. Defined.
#[local] Instance KMessage_eq_dec : EqDecision KMessage.
Proof. solve_decision. Defined.

(** An encoder of this one batch. *)
Definition one_Encode (ms : list KMessage) : outcome bytes := if decide (ms = kflow_messages) then Ok [1] else Err ErrShortBuffer.
Definition one_Decode (b : bytes) : outcome (list KMessage) := if decide (b = [1]) then Ok kflow_messages else Err ErrShortBuffer.

Lemma one_Decode_Encode ms b : one_Encode ms = Ok b -> one_Decode b = Ok ms.
Proof. unfold one_Encode, one_Decode. case_decide as H; [|done]. intros [= <-]. by subst. Qed.

Definition kflow_body : bytes := key_prefix (batch_key kflow_record) ++ [1].

Lemma kflow_roundtrip_witness :
  let o := NewOutputWithProviderAndCompanySender kflow_body "" 0 EventOutput "0:r1:0" in
  Kflow_To kflow_nums kflow_ranges one_Encode id [kflow_record] [] = Ok (Some o) /\
  Kflow_From one_Decode Ok o = Ok [as_it_was kflow_record kflow_record] /\
  map (fun k => as_it_was kflow_record kflow_record !! k) ["protocol"; "src_geo"; "src_addr"; "dst_addr"; "app"; "delta"; "server_id"]%string =
  [Some (KStr "TCP"); Some (KStr "US"); Some (KStr "10.0.0.1"); Some (KStr "2001:db8::1"); Some (KStr "web");
   Some (KUint32 0xffffffff); Some (KBytes (bytes_of "0:r1:0"))].
Proof.
  intros o. split; [vm_compute; reflexivity|]. split; [|vm_compute; reflexivity].
  assert (plain_record kflow_record) as Hplain.
  { split; [apply (bool_decide_unpack _); vm_compute; exact I|split; [done|repeat constructor]|split; [vm_compute; reflexivity|done]..]. }
  refine (proj2 (kflow_roundtrip PROTO_NAMES_entries (reflexivity _) kflow_ranges (fun m => reflexivity _) (fun m => reflexivity _)
    one_Encode one_Decode id Ok one_Decode_Encode (fun b => eq_refl) kflow_record [] o _ _ _ _) _).
  - vm_compute. lia.
  - vm_compute. reflexivity.
  - intros k k' Hk Hk'. assert (forall q, In q (flat_map (custom_names kflow_ranges) [kflow_record]) -> q = "app" \/ q = "delta")%string as Hq.
    { intros q. vm_compute. intuition. }
    destruct (Hq k Hk) as [-> | ->], (Hq k' Hk') as [-> | ->]; try reflexivity; vm_compute; discriminate.
  - vm_compute. reflexivity.
  - by constructor.
Defined.

(** An address of zeros and a missing one are both read back as nil, and a missing country as two
    zero bytes. *)
Example kflow_nil :
  map (fun s => addr_read (addr_v4 s) (addr_v6 s)) ["0.0.0.0"; ""]%string = ["<nil>"; "<nil>"]%string /\ bytes_of (geo_read (PackGeo (bytes_of ""))) = [0; 0].
Proof. vm_compute. split; reflexivity. Qed.

(** A long name leaves a prefix that cannot be read. *)
Example kflow_long_name :
  before_caret (key_prefix (batch_key (set_DeviceName (String.concat "" (replicate 80 "x"%string)) kflow_record))) = None.
Proof. vm_compute. reflexivity. Qed.
