(* ===== verification/Events.v ===== *)
(** * Formats of flattened records (src/pkg/formats/json, elasticsearch, snmp and redis)

    Records as JSON events, as the bulk lines of Elasticsearch, as SNMP traps whose objects are
    numbered by a hash of the field, and as the hashes of Redis that name servers read.  JSON,
    gzip, the libraries of SNMP and Redis, the clock and the orders of maps are arguments. *)
From S2P Require Import Prelude GoIO GoStrings Decimal GoNet GoAddr GoFloat KT Customs Rollup ToJCHF SnmpTypes.
From S2P Require Import InterfaceMetrics Scanner FormatUtil Utf8 Nrm.

(** The empty values that every format takes out of a record. *)
Definition without_empty (m : gmap string Avro) : gmap string Avro := filter (fun kv => empty_value kv.2 = false) m.

(** ** JSON *)

Module Json.

Record JsonFormat := mkJsonFormat { doGz : bool; doFlatten : bool }.
Definition NewJsonFormat (compression : string) (doFlatten : bool) : option JsonFormat :=
  if String.eqb compression "none" then Some (mkJsonFormat false doFlatten)
  else if String.eqb compression "gzip" then Some (mkJsonFormat true doFlatten)
  else None.

Definition ProviderHttpDevice : string := "kentik-http".
Definition FromLambda : string := "awslambda".

Definition json_strip (m : gmap string Avro) : gmap string Avro :=
  let m := filter (fun kv => dropped kv.1 = false) (without_empty m) in
  let m := <["instrumentation.provider"%string := AStr InstProvider]> m in
  let name := match m !! "provider"%string with
              | Some (AProvider p) =>
                  if String.eqb p ProviderVPC
                  then match m !! "kt.from"%string with
                       | Some (AStr from) => if String.eqb from FromLambda then "aws-vpc-flow-events" else "vpc-flow-events"
                       | _ => "vpc-flow-events"
                       end
                  else if String.eqb p ProviderHttpDevice then "http-events" else "netflow-events"
              | _ => "netflow-events"
              end%string in
  <["collector.name"%string := AStr CollectorName]> (<["instrumentation.name"%string := AStr name]> m).

Section Json.
  Context (flat : list string).
  Context (MarshalMaps : list (gmap string Avro) -> outcome bytes) (MarshalRecords : list JCHF -> outcome bytes).
  Context (MarshalRolls : list Rollup -> outcome bytes) (gzip : bytes -> outcome bytes).
  (** What [Unmarshal] and a [Decoder] put into a list, also when they fail, and the error. *)
  Context (Unmarshal Decode : bytes -> list JCHF * option error) (gunzip : bytes -> outcome bytes).

Definition flatten_all (msgs : list JCHF) : outcome (list (gmap string Avro)) :=
  fold_out (fun acc msg =>
      if String.eqb (EventType msg) KENTIK_EVENT_SNMP then Ok acc
      else '(m, _) ← Flatten flat msg; Ok (acc ++ [json_strip (default ∅ m)])) [] msgs.

Definition json_output (body : bytes) (provider : option string) (stype : string) : outcome Output :=
  match provider with Some p => Ok (NewOutputWithProvider body p stype) | None => Panic "index out of range" end.

Definition Json_To (f : JsonFormat) (msgs : list JCHF) : outcome Output :=
  target ← (if doFlatten f then ms ← flatten_all msgs; MarshalMaps ms else MarshalRecords msgs);
  body ← (if doGz f then gzip target else Ok target);
  json_output body (Provider <$> head msgs) EventOutput.

(** [SetMap] and [ToMap] of each record. *)
Definition maps_of (msgs : list JCHF) : outcome (list (gmap string Avro)) :=
  fold_out (fun acc m => '(v, _) ← ToMap (SetMap m); Ok (acc ++ [default ∅ v])) [] msgs.

(** [Json_From]; the error of decoding a compressed body is lost. *)
Definition Json_From (f : JsonFormat) (raw : Output) : outcome (list (gmap string Avro)) :=
  if doGz f
  then body ← gunzip (Body raw); maps_of (Decode body).1
  else match Unmarshal (Body raw) with
       | (msgs, None) => maps_of msgs
       | (_, Some e) => Err e
       end.

Definition Json_Rollup (f : JsonFormat) (rolls : list Rollup) : outcome Output :=
  if doGz f
  then b ← MarshalRolls rolls; body ← gzip b; json_output body (r_Provider <$> head rolls) RollupOutput
  else match MarshalRolls rolls with
       | Err e => match rolls with [] => Panic "index out of range" | _ => Err e end
       | Ok res => json_output res (r_Provider <$> head rolls) RollupOutput
       | Panic w => Panic w
       | OutOfFuel => OutOfFuel
       end.
End Json.
End Json.

(** ** Elasticsearch *)

Module Elastic.

Record ElasticsearchFormat := mkElasticsearchFormat { useGzip : bool; action : string }.
Definition quote : string := String (Ascii.ascii_of_nat 34) "".
Definition NewElasticsearchFormat (compression cfg_action : string) : option ElasticsearchFormat :=
  let action := "{" +:+ quote +:+ cfg_action +:+ quote +:+ ":{}}" in
  if String.eqb compression "none" then Some (mkElasticsearchFormat false action)
  else if String.eqb compression "gzip" then Some (mkElasticsearchFormat true action)
  else None.

Definition ElasticDroppedAttrs : list string := [
  "sampled_packet_size"; "lat/long_dest"; "member_id"; "dst_eth_mac"; "src_eth_mac"; "ult_exit_port"; "app_protocol";
  "dst_route_prefix"; "src_route_prefix"; "trf_termination"; "simple_trf_prof"]%string.
Definition KeepAttrs : list string :=
  ["lost"; "sent"; "src_geo_city"; "src_geo_region"; "dst_geo_city"; "dst_geo_region"]%string.

Section Elastic.
  (** A time in RFC 3339. *)
  Context (rfc3339 : Z -> string) (flat : list string) (synth_range : gmap string MetricInfo -> list (string * MetricInfo)).

Definition keeps (kv : string * Avro) : bool :=
  negb (listed kv.1 ElasticDroppedAttrs) &&
  (listed kv.1 KeepAttrs || String.eqb kv.1 "timestamp" || negb (empty_value kv.2)).

Definition elastic_strip (m : gmap string Avro) : gmap string Avro :=
  let m' := filter (fun kv => keeps kv = true) m in
  let m' := match m !! "timestamp"%string with
            | Some (AInt ts) => <["timestamp_str"%string := AStr (rfc3339 ts)]> m'
            | _ => m'
            end in
  <["collector.name"%string := AStr CollectorName]> (<["instrumentation.provider"%string := AStr InstProvider]> m').

(** The loop that renames the metrics of a test. *)
Definition rename_metric (attr : gmap string Avro) (mn : string * MetricInfo) : gmap string Avro :=
  match attr !! mn.1 with
  | Some v => delete mn.1 (<[mi_Name mn.2 := v]> attr)
  | None => attr
  end.

(** [handleSynth]: the attributes, and the trace if there is one to read; a trace that is no text
    panics. *)
Definition handleSynth {Trace} (parse : string -> option Trace) (in_ : JCHF) : outcome (gmap string Avro * option Trace) :=
  let rt := gomap_get 0 (CustomInt in_) "result_type" in
  '(m, _) ← Flatten flat in_;
  let attr := foldl rename_metric (default ∅ m) (synth_range (default ∅ (GetSynMetricNameSet rt))) in
  let finish attr trace := Ok (<["synth_outcome"%string := AInt (GetSynthOutcome rt).1]> (elastic_strip attr), trace) in
  match attr !! "error_cause/trace_route"%string with
  | Some (AStr raw) =>
      match parse raw with
      | Some trace => finish (delete "error_cause/trace_route"%string attr) (Some trace)
      | None => finish attr None
      end
  | Some _ => Panic "interface conversion"
  | None => finish attr None
  end.

Context {Trace : Type} (parse : string -> option Trace).
Context (Marshal : gmap string Avro * option Trace -> outcome string) (MarshalRoll : Rollup -> outcome string).
Context (gzip : bytes -> outcome bytes) (gunzip : bytes -> outcome bytes) (Unmarshal : string -> outcome JCHF).

Definition message (msg : JCHF) : outcome (gmap string Avro * option Trace) :=
  if String.eqb (EventType msg) KENTIK_EVENT_SYNTH || String.eqb (EventType msg) KENTIK_EVENT_TRACE
  then handleSynth parse msg
  else '(m, _) ← Flatten flat msg; Ok (elastic_strip (default ∅ m), None).

(** [serialize_bulk]: the action on a line, and the object on a line. *)
Definition serialize_bulk {A} (marshal : A -> outcome string) (action : string) (o : A) : outcome string :=
  data ← marshal o; Ok (action +:+ newline +:+ data +:+ newline).

Definition Elastic_To (f : ElasticsearchFormat) (msgs : list JCHF) : outcome Output :=
  msgsNew ← fold_out (fun acc m => x ← message m; Ok (acc ++ [x])) [] msgs;
  lines ← fold_out (fun acc m => s ← serialize_bulk Marshal (action f) m; Ok (acc +:+ s)) "" msgsNew;
  body ← (if useGzip f then gzip (bytes_of lines) else Ok (bytes_of lines));
  match msgs with
  | m :: _ => Ok (NewOutputWithProvider body (Provider m) EventOutput)
  | [] => Panic "index out of range"
  end.

(** [Elastic_From]: every line that is not the action is a record; the error of the scanner is not
    looked at. *)
Definition Elastic_From (f : ElasticsearchFormat) (raw : Output) : outcome (list (gmap string Avro)) :=
  body ← (if useGzip f then gunzip (Body raw) else Ok (Body raw));
  msgs ← fold_out (fun acc v => if String.eqb v (action f) then Ok acc else m ← Unmarshal v; Ok (acc ++ [m])) []
    (scanned (lines_of (string_of body)));
  fold_out (fun acc m => '(v, _) ← ToMap (SetMap m); Ok (acc ++ [default ∅ v])) [] msgs.

Definition Elastic_Rollup (f : ElasticsearchFormat) (rolls : list Rollup) : outcome Output :=
  lines ← fold_out (fun acc m => s ← serialize_bulk MarshalRoll (action f) m; Ok (acc +:+ s)) "" rolls;
  match rolls with
  | m :: _ => Ok (NewOutputWithProvider (bytes_of lines) (r_Provider m) RollupOutput)
  | [] => Panic "index out of range"
  end.
End Elastic.
End Elastic.

(** ** SNMP traps *)

Module Trap.

Definition snmpTrapOID_0 : string := ".1.3.6.1.6.3.1.1.4.1.0".
Definition KTransTrapIdent : string := ".1.3.6.1.4.1.41263.6169".

Inductive TrapValue :=
| TrapOid (s : string)
| TrapOctets (s : string)
| TrapGauge32 (z : Z)
| TrapCounter64 (z : Z).

(** [fnv.New32a]. *)
Definition fnv32a (bs : bytes) : Z := foldl (fun h b => (uint32 (Z.lxor h b * 16777619))%go) 2166136261 bs.

(** [formatKeyOid]: the digits from the right, a dot after every third but the last. *)
Fixpoint group_digits (k : nat) (ds : list Ascii.ascii) : list Ascii.ascii :=
  match ds with
  | [] => []
  | [d] => [d]
  | d :: ds => if (k =? 2)%nat then d :: Ascii.ascii_of_nat 46 :: group_digits 0 ds else d :: group_digits (S k) ds
  end.
Definition formatKeyOid (n : Z) : string :=
  String.string_of_list_ascii (rev (group_digits 0 (rev (String.list_ascii_of_string (Itoa n))))).
Definition getKeyOid (s : string) : string := KTransTrapIdent +:+ "." +:+ formatKeyOid (fnv32a (bytes_of s)).

Definition trap_strip (m : gmap string Avro) : gmap string Avro :=
  <["collector.name"%string := AStr CollectorName]> (<["instrumentation.provider"%string := AStr InstProvider]> (without_empty m)).

Definition variable (kv : string * Avro) : option (string * TrapValue) :=
  match kv.2 with
  | AStr tv => Some (getKeyOid kv.1, TrapOctets tv)
  | AInt32 tv => Some (getKeyOid kv.1, TrapGauge32 ((uint32 tv)%go))
  | AInt tv => Some (getKeyOid kv.1, TrapCounter64 ((uint64 tv)%go))
  | _ => None
  end.

(** [To]: the traps it sends; an error of sending is only logged. *)
Definition traps (flat : list string) (range : gmap string Avro -> list (string * Avro)) (msgs : list JCHF) :
    outcome (list (list (string * TrapValue))) :=
  fold_out (fun acc m =>
      '(v, _) ← Flatten flat m;
      Ok (acc ++ [(snmpTrapOID_0, TrapOid KTransTrapIdent) :: omap variable (range (trap_strip (default ∅ v)))])) [] msgs.
End Trap.

(** ** Redis *)

Module Redis.

Record RedisData := mkRedisData { rd_IP : IP; Latency : float64; Is6 : bool }.
Record RedisFormat := mkRedisFormat {
  rf_lastMetadata : gmap string LastMetadata;
  rf_invalids : gmap string bool;
  KeyPrefix : string;
  keyTTL : Z
}.

(** The commands of a pipeline. *)
Inductive Command :=
| HSet (key : string) (values : gmap string float64)
| HExpire (key : string) (ttl : Z) (fields : list string).

Section Redis.
  Context `{MibEnricher} (r : FormatRanges) (fields : JCHF -> DeviceFields).
  Context (range : gmap string (list RedisData) -> list (string * list RedisData)).

(** [fromKSynth]: the latency of a test's address, under the test's name. *)
Definition redis_fromKSynth (f : RedisFormat) (in_ : JCHF) : outcome (option (string * list RedisData)) :=
  let rt := gomap_get 0 (CustomInt in_) "result_type" in
  if rt <=? 1 then Ok None
  else
    let metrics := default ∅ (GetSynMetricNameSet rt) in
    attr ← SetAttr (fr_flat r) (fr_scripts r) ∅ in_ metrics (rf_lastMetadata f !! DeviceName in_) false;
    match attr !! "test_name"%string, attr !! "dst_addr"%string with
    | Some (TStr fqdn), Some (TStr da) =>
        match ParseIP da with
        | [] => Ok None
        | ip =>
            Ok (Some (fqdn, omap (fun '(m, name) =>
              if String.eqb (mi_Name name) "avg_rtt"
              then Some (mkRedisData ip (float64_of (gomap_get 0 (CustomInt in_) m))
                           (match To4 ip with None => true | Some _ => false end))
              else None) (fr_metrics r metrics)))
        end
    | _, _ => Ok None
    end.

Definition redis_fromSnmpMetadata (in_ : JCHF) (f : RedisFormat) : RedisFormat :=
  if String.eqb (DeviceName in_) "" then f
  else
    let d := fields in_ in
    let lm := SetMetadata (fr_strs r (default ∅ (CustomStr in_))) (fr_ints r (default ∅ (CustomInt in_)))
                (CustomTables d) (DeviceMatchAttr d) in_ in
    let set := mkRedisFormat (<[DeviceName in_ := lm]> (rf_lastMetadata f)) (rf_invalids f) (KeyPrefix f) (keyTTL f) in
    match rf_lastMetadata f !! DeviceName in_ with
    | None => set
    | Some old => if Size (Some old) <=? Size (Some lm) then set else f
    end.

Definition toRedisMetric (f : RedisFormat) (in_ : JCHF) : outcome (option (string * list RedisData) * RedisFormat) :=
  if String.eqb (EventType in_) KENTIK_EVENT_SYNTH then x ← redis_fromKSynth f in_; Ok (x, f)
  else if String.eqb (EventType in_) KENTIK_EVENT_SNMP_METADATA then Ok (None, redis_fromSnmpMetadata in_ f)
  else Ok (None, mkRedisFormat (rf_lastMetadata f) (<[EventType in_ := true]> (rf_invalids f)) (KeyPrefix f) (keyTTL f)).

(** The commands of one name for one family of addresses. *)
Definition family (key : string) (ttl : Z) (results : list RedisData) (is6 : bool) : list Command :=
  let rs := List.filter (fun d => Bool.eqb (Is6 d) is6) results in
  let values := foldl (fun m d => <[IP_String (rd_IP d) := Latency d]> m) ∅ rs in
  let fs := foldl (fun l d => let k := IP_String (rd_IP d) in if listed k l then l else l ++ [k]) [] rs in
  if (0 <? size values)%nat then [HSet key values; HExpire key ttl fs] else [].

Definition name_commands (f : RedisFormat) (nr : string * list RedisData) : list Command :=
  let key := KeyPrefix f +:+ nr.1 in
  family (key +:+ ":A") (keyTTL f) nr.2 false ++ family (key +:+ ":AAAA") (keyTTL f) nr.2 true.

(** [To]: the commands of its pipeline, if it runs one. *)
Definition Redis_To (f : RedisFormat) (msgs : list JCHF) : outcome (option (list Command) * RedisFormat) :=
  '(res, f) ← fold_out (fun '(res, f) m =>
      '(x, f) ← toRedisMetric f m;
      Ok (match x with
          | Some (fqdn, l) => <[fqdn := default [] (res !! fqdn) ++ l]> res
          | None => res
          end, f)) (∅ : gmap string (list RedisData), f) msgs;
  if (size res =? 0)%nat then Ok (None, f) else Ok (Some (concat (map (name_commands f) (range res))), f).
End Redis.
End Redis.

(** ** Properties *)

(** The digits of a number are those of its object, less the dots, so no two numbers share an
    object. *)
Definition is_dot (c : Ascii.ascii) : bool := Ascii.eqb c (Ascii.ascii_of_nat 46).
Definition undotted (s : string) : list Ascii.ascii :=
  List.filter (fun c => negb (is_dot c)) (String.list_ascii_of_string s).

Lemma group_digits_undotted ds : forall k,
  forallb (fun c => negb (is_dot c)) ds = true ->
  List.filter (fun c => negb (is_dot c)) (Trap.group_digits k ds) = ds.
Proof.
  induction ds as [|d ds IH]; intros k H; [done|]. cbn [forallb] in H. apply andb_prop in H as [Hd H].
  cbn [Trap.group_digits]. destruct ds as [|e ds]; [cbn; by rewrite Hd|].
  destruct (k =? 2)%nat; cbn [List.filter]; rewrite Hd; [|by rewrite IH].
  change (negb (is_dot (Ascii.ascii_of_nat 46))) with false. cbv iota. by rewrite IH.
Qed.

Lemma digit_not_dot c : 48 <= byte_of c <= 57 -> negb (is_dot c) = true.
Proof.
  intros H. unfold is_dot. destruct (Ascii.eqb_spec c (Ascii.ascii_of_nat 46)) as [->|]; [|done].
  change (byte_of (Ascii.ascii_of_nat 46)) with 46 in H. lia.
Qed.

Lemma digits_from_chars s : forall a v, digits_from a s = Some v ->
  forallb (fun c => negb (is_dot c)) (String.list_ascii_of_string s) = true.
Proof.
  induction s as [|c s IH]; intros a v; [done|]. cbn. unfold digit.
  destruct ((48 <=? byte_of c) && (byte_of c <=? 57)) eqn:E; [|done]. cbn. intros Hs.
  apply andb_prop in E as [H1%Z.leb_le H2%Z.leb_le]. rewrite digit_not_dot by done. by eapply IH.
Qed.

Lemma formatKeyOid_undotted n : 0 <= n < 10 ^ 20 -> undotted (Trap.formatKeyOid n) = String.list_ascii_of_string (Itoa n).
Proof.
  intros Hn. unfold undotted, Trap.formatKeyOid. rewrite String.list_ascii_of_string_of_list_ascii.
  rewrite List.filter_rev, group_digits_undotted; [apply rev_involutive|].
  rewrite forallb_forall. intros c Hc%in_rev. pose proof (digits_from_chars _ _ _ (digits_Itoa n Hn)) as Hall.
  rewrite forallb_forall in Hall. by apply Hall.
Qed.

Lemma formatKeyOid_inj n m :
  0 <= n < 10 ^ 20 -> 0 <= m < 10 ^ 20 -> Trap.formatKeyOid n = Trap.formatKeyOid m -> n = m.
Proof.
  intros Hn Hm He. assert (String.list_ascii_of_string (Itoa n) = String.list_ascii_of_string (Itoa m)) as Hs
    by (rewrite <- !formatKeyOid_undotted by done; by rewrite He).
  apply (f_equal String.string_of_list_ascii) in Hs. rewrite !String.string_of_list_ascii_of_string in Hs.
  pose proof (digits_Itoa n Hn) as H1. pose proof (digits_Itoa m Hm) as H2. rewrite Hs in H1. congruence.
Qed.

Example sample_keys : map Trap.formatKeyOid [0; 12; 123; 1000; 4294967295] = ["0"; "12"; "123"; "1.000"; "4.294.967.295"]%string.
Proof. vm_compute. reflexivity. Qed.
Example sample_fnv : Trap.fnv32a (bytes_of "foobar") = 0xbf9cf968.
Proof. vm_compute. reflexivity. Qed.

(** Reading JSON back makes the custom maps of every record anew, so their columns are lost. *)
Definition custom_record : JCHF := set_CustomStr (Some {["app" := "web"]}%string) (SetMap NewJCHF).
Example json_loses_customs :
  Json.maps_of [custom_record] = Json.maps_of [SetMap custom_record] /\
  match Json.maps_of [custom_record] with
  | Ok [m] => m !! "custom_str"%string = Some (AMapStr (Some ∅))
  | _ => False
  end.
Proof. split; vm_compute; reflexivity. Qed.

(** A body that is cut off is read as what came before, without the error. *)
Example json_ignores_errors :
  Json.Json_From (fun _ => ([], None)) (fun _ => ([], Some EOF)) Ok (Json.mkJsonFormat true true) (NewOutput []) = Ok [].
Proof. reflexivity. Qed.

(** The mark of a failed test is removed when it is renamed to itself. *)
Example elastic_loses_error :
  Elastic.rename_metric {["error"%string := AInt32 1]} ("error"%string, syn "error") !! "error"%string = None.
Proof. vm_compute. reflexivity. Qed.
