(* ===== verification/Otel.v ===== *)
(** * OpenTelemetry (src/pkg/formats/otel)

    The samples of a gauge wait in a channel until the library asks for them; any number of
    senders and the callbacks of the library are steps that interleave.  Flows are written as logs, and traps go to a
    channel of log lines.  The library, JSON and the orders of maps are arguments. *)
From Stdlib Require Import SpecFloat.
From S2P Require Import Prelude GoIO GoStrings KT Customs GoFloat Rollup ToJCHF SnmpTypes InterfaceMetrics.
From S2P Require Import DeviceMetrics FormatUtil Utf8 Nrm Influx Prom.

Record OtelData := mkOtelData { ot_Name : string; ot_Value : float64; ot_Tags : attrs }.

Definition CHAN_SLACK : nat := Z.to_nat 10000.

Record OtelFormat := mkOtelFormat {
  of_lastMetadata : gmap string LastMetadata;
  of_invalids : gmap string bool;
  NoBlockExport : bool;
  of_vecs : gmap string unit;
  inputs : gmap string nat;
  warnFull : gmap string bool;
  ExportDrops : gmap string Z;
  trapLog : list (gmap string Avro);
  logTee : list bytes
}.
Definition NewOtelFormat (noBlock : bool) : OtelFormat := mkOtelFormat ∅ ∅ noBlock ∅ ∅ ∅ ∅ [] [].

Definition set_of_lastMetadata (m : gmap string LastMetadata) (f : OtelFormat) : OtelFormat :=
  mkOtelFormat m (of_invalids f) (NoBlockExport f) (of_vecs f) (inputs f) (warnFull f) (ExportDrops f) (trapLog f) (logTee f).
Definition set_of_invalids (m : gmap string bool) (f : OtelFormat) : OtelFormat :=
  mkOtelFormat (of_lastMetadata f) m (NoBlockExport f) (of_vecs f) (inputs f) (warnFull f) (ExportDrops f) (trapLog f) (logTee f).
Definition set_of_logs (l : list (gmap string Avro)) (t : list bytes) (f : OtelFormat) : OtelFormat :=
  mkOtelFormat (of_lastMetadata f) (of_invalids f) (NoBlockExport f) (of_vecs f) (inputs f) (warnFull f) (ExportDrops f) l t.
Definition set_of_gauges (v : gmap string unit) (i : gmap string nat) (f : OtelFormat) : OtelFormat :=
  mkOtelFormat (of_lastMetadata f) (of_invalids f) (NoBlockExport f) v i (warnFull f) (ExportDrops f) (trapLog f) (logTee f).
Definition set_of_drops (w : gmap string bool) (d : gmap string Z) (f : OtelFormat) : OtelFormat :=
  mkOtelFormat (of_lastMetadata f) (of_invalids f) (NoBlockExport f) (of_vecs f) (inputs f) w d (trapLog f) (logTee f).

(** ** Senders

    [To] and [Rollup] end with the same loop over samples, which any number of senders run,
    under a lock that they read-hold but for two moments: to store the channel of a gauge that
    was not there, and to note that a channel is full.  Neither looks again at what it saw
    before it let go of the lock. *)

(** A channel, with the gauge it was made for. *)
Record OtelChan := mkOtelChan { ch_gauge : string; ch_queue : list OtelData }.

(** What the senders share: the format, every channel that was made, by its address, and what
    became of the samples, with the channel that they went through. *)
Record OtelShared := mkOtelShared {
  s_format : OtelFormat;
  s_chans : list OtelChan;
  accepted : list (nat * OtelData);
  observed : list (nat * OtelData);
  lost : list OtelData
}.
Definition set_format (f : OtelFormat) (s : OtelShared) : OtelShared :=
  mkOtelShared f (s_chans s) (accepted s) (observed s) (lost s).
Definition lose (l : list OtelData) (s : OtelShared) : OtelShared :=
  mkOtelShared (s_format s) (s_chans s) (accepted s) (observed s) (lost s ++ l).

(** Where a sender is. *)
Inductive goroutine :=
| Idle
| Start (ms : list OtelData)                     (* about to lock for reading *)
| Loop (ms : list OtelData)                      (* at the head of the loop, reading *)
| Make (m : OtelData) (ms : list OtelData)       (* made a gauge, about to lock for writing *)
| Made (m : OtelData) (ms : list OtelData)       (* stored it, about to lock for reading *)
| Push (m : OtelData) (ms : list OtelData)       (* about to send, reading *)
| Full (m : OtelData) (ms : list OtelData)       (* found the channel full, about to lock for writing *)
| Warned (m : OtelData) (ms : list OtelData).    (* noted it, about to lock for reading *)

Definition samples_of (p : goroutine) : list OtelData :=
  match p with
  | Idle => []
  | Start ms | Loop ms => ms
  | Make m ms | Made m ms | Push m ms | Full m ms | Warned m ms => m :: ms
  end.
Definition reading (p : goroutine) : bool := match p with Loop _ | Push _ _ => true | _ => false end.
Definition to_write (p : goroutine) : bool := match p with Make _ _ | Full _ _ => true | _ => false end.

Section Send.
  (** The error of making a gauge, if any. *)
  Context (Float64ObservableGauge : string -> option error).

(** The gauge of a sample is looked for, and made when it is not there. *)
Definition observe_gauge (m : OtelData) (ms : list OtelData) (s : OtelShared) : OtelShared * goroutine :=
  match of_vecs (s_format s) !! ot_Name m with
  | Some _ => (s, Push m ms)
  | None =>
      match Float64ObservableGauge (ot_Name m) with
      | Some e => (lose (m :: ms) s, Idle)
      | None => (s, Make m ms)
      end
  end.

(** A gauge is stored with a fresh channel, whatever is there by now. *)
Definition store_gauge (n : string) (s : OtelShared) : OtelShared :=
  mkOtelShared
    (set_of_gauges (<[n := tt]> (of_vecs (s_format s))) (<[n := length (s_chans s)]> (inputs (s_format s))) (s_format s))
    (s_chans s ++ [mkOtelChan n []]) (accepted s) (observed s) (lost s).

Definition put_queue (c : nat) (n : string) (q : list OtelData) (m : OtelData) (s : OtelShared) : OtelShared :=
  mkOtelShared (s_format s) (<[c := mkOtelChan n q]> (s_chans s)) (accepted s ++ [(c, m)]) (observed s) (lost s).

(** A sample for which there is no room, in a channel that is full or nil: it is lost or blocks. *)
Definition send_full (m : OtelData) (ms : list OtelData) (s : OtelShared) : option (OtelShared * goroutine) :=
  if NoBlockExport (s_format s) then
    if default false (warnFull (s_format s) !! ot_Name m) then Some (lose [m] s, Loop ms) else Some (s, Full m ms)
  else None.
Definition send_sample (m : OtelData) (ms : list OtelData) (s : OtelShared) : option (OtelShared * goroutine) :=
  match inputs (s_format s) !! ot_Name m with
  | Some c =>
      match s_chans s !! c with
      | Some (mkOtelChan n q) =>
          if (length q <? CHAN_SLACK)%nat then Some (put_queue c n (q ++ [m]) m s, Loop ms) else send_full m ms s
      | None => send_full m ms s
      end
  | None => send_full m ms s
  end.

(** The meter of the drops of a metric is made by the first that notes it, and marked by all that
    saw it missing. *)
Definition note_full (m : OtelData) (f : OtelFormat) : OtelFormat :=
  if default false (warnFull f !! ot_Name m) then f
  else set_of_drops (<[ot_Name m := true]> (warnFull f))
         (<[ot_Name m := default 0 (ExportDrops f !! ot_Name m)]> (ExportDrops f)) f.
Definition count_drop (m : OtelData) (f : OtelFormat) : OtelFormat :=
  set_of_drops (warnFull f) (<[ot_Name m := default 0 (ExportDrops f !! ot_Name m) + 1]> (ExportDrops f)) f.

(** A move of a sender, when it has one: [held] says that the lock is held for reading, and
    [refused] that it cannot be got for reading. *)
Definition run_sender (held refused : bool) (p : goroutine) (s : OtelShared) : option (OtelShared * goroutine) :=
  match p with
  | Idle => None
  | Start ms => if refused then None else Some (s, Loop ms)
  | Loop [] => Some (s, Idle)
  | Loop (m :: ms) => Some (observe_gauge m ms s)
  | Make m ms => if held then None else Some (store_gauge (ot_Name m) s, Made m ms)
  | Made m ms => if refused then None else Some (s, Push m ms)
  | Push m ms => send_sample m ms s
  | Full m ms => if held then None else Some (set_format (note_full m (s_format s)) s, Warned m ms)
  | Warned m ms =>
      if refused then None else Some (lose [m] (set_format (count_drop m (s_format s)) s), Loop ms)
  end.

Record OtelSystem := mkOtelSystem {
  shared : OtelShared;
  senders : list goroutine;
  arrived : list OtelData
}.
Definition otel_start (noBlock : bool) (k : nat) : OtelSystem :=
  mkOtelSystem (mkOtelShared (NewOtelFormat noBlock) [] [] [] []) (replicate k Idle) [].

(** A sender moves.  Whether one that waits to write keeps others from locking for reading is left
    open by [prefer]: Go's lock does from some moment of the call on. *)
Definition sender_step (prefer : bool) (i : nat) (s s' : OtelSystem) : Prop :=
  exists p sh' p', senders s !! i = Some p /\
    run_sender (existsb reading (senders s)) (prefer && existsb to_write (senders s)) p (shared s) = Some (sh', p') /\
    s' = mkOtelSystem sh' (<[i := p']> (senders s)) (arrived s).

(** A batch comes to a sender, a sender moves, or the callback of a gauge takes a sample: from any
    channel that was made, as it reads the channel, without the lock, before it takes from it. *)
Inductive otel_step (prefer : bool) : OtelSystem -> OtelSystem -> Prop :=
| S_arrive i ms s :
    senders s !! i = Some Idle -> ms <> [] ->
    otel_step prefer s (mkOtelSystem (shared s) (<[i := Start ms]> (senders s)) (arrived s ++ ms))
| S_sender i s s' : sender_step prefer i s s' -> otel_step prefer s s'
| S_export c n m q s :
    s_chans (shared s) !! c = Some (mkOtelChan n (m :: q)) ->
    otel_step prefer s (mkOtelSystem
      (mkOtelShared (s_format (shared s)) (<[c := mkOtelChan n q]> (s_chans (shared s))) (accepted (shared s))
         (observed (shared s) ++ [(c, m)]) (lost (shared s)))
      (senders s) (arrived s)).
End Send.

(** The attributes that a sample is observed with. *)
Inductive OtelValue :=
| OString (s : string)
| OInt64 (z : Z)
| OFloat64 (f : float64).

Definition tag_value (fmt_float : Attr -> string) (kv : string * Attr) : string * OtelValue :=
  (SanitizeUTF8 kv.1,
   match kv.2 with
   | TStr s => OString (SanitizeUTF8 s)
   | TInt64 z | TInt32 z => OInt64 z
   | TFloat64 f => OFloat64 f
   | v => OString (SanitizeUTF8 (fmt_attr fmt_float v))
   end).
Definition otel_GetTagValues (fmt_float : Attr -> string) (range : attrs -> list (string * Attr)) (d : OtelData) :
    list (string * OtelValue) := map (tag_value fmt_float) (range (ot_Tags d)).

(** ** Records to samples *)

Section Otel.
  Context `{MibEnricher} (r : FormatRanges) (fields : JCHF -> DeviceFields) (str00 : string -> attrs).
  Context (Marshal : gmap string Avro -> bytes) (tee_cap : nat).

Section OneFormat.
  Context (f : OtelFormat).

Definition of_metadata_of (in_ : JCHF) : option LastMetadata := of_lastMetadata f !! DeviceName in_.
Definition of_attributes_of (in_ : JCHF) (metrics : gmap string MetricInfo) : outcome attrs :=
  SetAttr (fr_flat r) (fr_scripts r) ∅ in_ metrics (of_metadata_of in_) false.
Definition of_metric_attrs (in_ : JCHF) (attr : attrs) (m : string) (name : MetricInfo) (isIf : bool) : option attrs :=
  let attrNew := CopyAttrForSnmp (fr_attrs r attr) m name (of_metadata_of in_) true false in
  if DropOnFilter (fr_filters r) attrNew (of_metadata_of in_) isIf then None else Some attrNew.

Definition of_fromKSyngest (in_ : JCHF) : outcome (list OtelData) :=
  attr ← of_attributes_of in_ GetSyngestMetricNameSet;
  let attr := prom_white_list attr in
  Ok (omap (fun '(m, name) =>
        let v := gomap_get 0 (CustomInt in_) m in
        if 0 <? v then Some (mkOtelData ("kentik.syngest." +:+ mi_Name name) (float64_of v) attr) else None)
      (fr_metrics r GetSyngestMetricNameSet)).

Definition of_fromKSynth (in_ : JCHF) : outcome (list OtelData) :=
  let rawStr := gomap_get ""%string (CustomStr in_) "error_cause/trace_route" in
  let rt := gomap_get 0 (CustomInt in_) "result_type" in
  let metrics := default ∅ (GetSynMetricNameSet rt) in
  attr ← of_attributes_of in_ metrics;
  let attr := if String.eqb rawStr "" then attr
              else filter (fun kv => listed kv.1 synthAttrKeys = true) (str00 rawStr) ∪ attr in
  let attr := prom_white_list attr in
  Ok (omap (fun '(m, name) =>
        if listed (mi_Name name) prom_synth_gauges
        then Some (mkOtelData ("kentik.synth." +:+ mi_Name name) (float64_of (gomap_get 0 (CustomInt in_) m)) attr) else None)
      (fr_metrics r metrics) ++
      [mkOtelData "kentik.synth.outcome" (float64_of (GetSynthOutcome rt).1) attr]).

Definition of_fromSnmpDeviceMetric (in_ : JCHF) : outcome (list OtelData) :=
  let metrics := default ∅ (CustomMetrics in_) in
  attr ← of_attributes_of in_ metrics;
  Ok (omap (fun '(m, name) =>
        if String.eqb m "" then None
        else
          v ← gomap_find (CustomBigInt in_) m;
          attrNew ← of_metric_attrs in_ attr m name false;
          let value := if String.eqb (mi_Format name) FloatMS
                       then float64_div (float64_of v) (float64_of 1000) else float64_of v in
          Some (mkOtelData ("kentik." +:+ GetType name +:+ "." +:+ m) value attrNew))
      (fr_metrics r metrics)).

(** The utilization of one direction, from the speed in the metadata of a port. *)
Definition of_utilization (in_ : JCHF) (attr : attrs) (profileName : string) (port : Z) (octets name : string) :
    list OtelData :=
  match of_metadata_of in_ with
  | None => []
  | Some lm =>
      match InterfaceInfo lm !! port ≫= lookup "Speed"%string with
      | Some (TInt32 ispeed) =>
          let uptimeSpeed := (int64 (gomap_get 0 (CustomBigInt in_) Uptime * (ispeed * 10000)))%go in
          if 0 <? uptimeSpeed then
            match gomap_find (CustomBigInt in_) octets, of_metric_attrs in_ attr name (computed profileName) true with
            | Some bytes, Some attrNew =>
                [mkOtelData ("kentik.snmp." +:+ name)
                   (float64_div (float64_of (int64 (bytes * 8 * 100))%go) (float64_of uptimeSpeed)) attrNew]
            | _, _ => []
            end
          else []
      | _ => []
      end
  end.

Definition of_fromSnmpInterfaceMetric (in_ : JCHF) : outcome (list OtelData) :=
  let metrics := default ∅ (CustomMetrics in_) in
  attr ← of_attributes_of in_ metrics;
  let l := fr_metrics r metrics in
  Ok (omap (fun '(m, name) =>
        if String.eqb m "" || HasSuffix m "_counter" then None
        else
          v ← gomap_find (CustomBigInt in_) m;
          attrNew ← of_metric_attrs in_ attr m name true;
          Some (mkOtelData ("kentik.snmp." +:+ m) (float64_of v) attrNew)) l ++
      of_utilization in_ attr (profile_of l) (InputPort in_) "ifHCInOctets" "IfInUtilization" ++
      of_utilization in_ attr (profile_of l) (OutputPort in_) "ifHCOutOctets" "IfOutUtilization").

Definition of_fromKtranslate (in_ : JCHF) : outcome (list OtelData) :=
  attr ← of_attributes_of in_ ktranslate_metrics;
  let str := gomap_get ""%string (CustomStr in_) in
  match meter_field (str "type"%string) with
  | None => Ok []
  | Some k =>
      let v := gomap_get 0 (CustomBigInt in_) k in
      if String.eqb (str "force"%string) "true" || (0 <? v)
      then Ok [mkOtelData ("kentik.ktranslate." +:+ str "name"%string) (float64_div (float64_of v) (float64_of 100)) attr]
      else Ok []
  end.
End OneFormat.

Definition of_fromSnmpMetadata (in_ : JCHF) (f : OtelFormat) : OtelFormat :=
  if String.eqb (DeviceName in_) "" then f
  else
    let d := fields in_ in
    let lm := SetMetadata (fr_strs r (default ∅ (CustomStr in_))) (fr_ints r (default ∅ (CustomInt in_)))
                (CustomTables d) (DeviceMatchAttr d) in_ in
    let set := set_of_lastMetadata (<[DeviceName in_ := lm]> (of_lastMetadata f)) f in
    match of_lastMetadata f !! DeviceName in_ with
    | None => set
    | Some old => if Size (Some old) <=? Size (Some lm) then set else f
    end.

(** The file's own copy of the function that takes out the empty values: flows get the name of the
    events of traps too. *)
Definition otel_strip (m : gmap string Avro) : gmap string Avro := strip m.

(** [RecordLog]: a flow as the attributes of a log record. *)
Definition RecordLog (msg : JCHF) (f : OtelFormat) : outcome OtelFormat :=
  '(flat, _) ← Flatten (fr_flat r) msg;
  Ok (set_of_logs (trapLog f ++ [otel_strip (default ∅ flat)]) (logTee f) f).

(** A trap or an outside event as a line of the log, if there is room for it. *)
Definition tee_event (msg : JCHF) (f : OtelFormat) : outcome OtelFormat :=
  '(flat, _) ← Flatten (fr_flat r) msg;
  let b := Marshal (otel_strip (default ∅ flat)) in
  Ok (if (length (logTee f) <? tee_cap)%nat then set_of_logs (trapLog f) (logTee f ++ [b]) f else f).

Definition toOtelMetric (f : OtelFormat) (in_ : JCHF) : outcome (list OtelData * OtelFormat) :=
  let pure ms := ms ← ms; Ok (ms, f) in
  let ev := EventType in_ in
  if String.eqb ev KENTIK_EVENT_TYPE then f ← RecordLog in_ f; Ok ([], f)
  else if String.eqb ev KENTIK_EVENT_SYNTH then pure (of_fromKSynth f in_)
  else if String.eqb ev KENTIK_EVENT_SYNTH_GEST then pure (of_fromKSyngest f in_)
  else if String.eqb ev KENTIK_EVENT_SNMP_DEV_METRIC then pure (of_fromSnmpDeviceMetric f in_)
  else if String.eqb ev KENTIK_EVENT_SNMP_INT_METRIC then pure (of_fromSnmpInterfaceMetric f in_)
  else if String.eqb ev KENTIK_EVENT_SNMP_METADATA then Ok ([], of_fromSnmpMetadata in_ f)
  else if String.eqb ev KENTIK_EVENT_KTRANS_METRIC then pure (of_fromKtranslate f in_)
  else if String.eqb ev KENTIK_EVENT_SNMP_TRAP || String.eqb ev KENTIK_EVENT_EXT then f ← tee_event in_ f; Ok ([], f)
  else Ok ([], set_of_invalids (<[ev := true]> (of_invalids f)) f).

(** What [To] gives to the sender: the samples of a batch, under sanitized names. *)
Definition sanitize_name (d : OtelData) : OtelData := mkOtelData (SanitizeUTF8 (ot_Name d)) (ot_Value d) (ot_Tags d).
Definition to_send (f : OtelFormat) (msgs : list JCHF) : outcome (list OtelData * OtelFormat) :=
  '(res, f) ← fold_out (fun '(res, f) m => '(ms, f) ← toOtelMetric f m; Ok (res ++ ms, f)) ([], f) msgs;
  Ok (map sanitize_name res, f).
End Otel.

(** [toOtelDataRollup]: a rollup with an empty dimension is left out. *)
Definition otel_rollupMap : gmap string string := list_to_map
  [("src_geo", "src_country"); ("l4_src_port", "src_port"); ("dst_geo", "dst_country"); ("l4_dst_port", "dst_port")]%string.
Definition otel_roll_attr (dims : list string) (st : attrs * bool) (ip : nat * string) : outcome (attrs * bool) :=
  let '(attr, bad) := st in
  let '(i, pt) := ip in
  match dims !! i with
  | None => Panic "index out of range"
  | Some d =>
      let aname := default d (otel_rollupMap !! d) in
      let attr := <[aname := TStr pt]> attr in
      let bad := bad || listed pt ["0"; ""; "-"; "--"]%string in
      Ok (if (String.eqb aname "src_port" || String.eqb aname "dst_port") && (32768 <? Atoi_value pt)
          then <[aname := TStr "32768"]> attr else attr, bad)
  end.
Definition toOtelDataRollup (rolls : list Rollup) : outcome (list OtelData) :=
  fold_out (fun ms roll =>
      let pts := strings_Split (r_Dimension roll) (r_KeyJoin roll) in
      '(attr, bad) ← fold_out (otel_roll_attr (r_dims roll)) (∅, false) (zip (seq 0 (length pts)) pts);
      Ok (if (bad : bool) then ms else ms ++ [mkOtelData ("kentik.rollup." +:+ r_Name roll) (r_Metric roll) attr])) [] rolls.

(** ** Properties of the channels *)

Definition of_chan (c : nat) (l : list (nat * OtelData)) : list OtelData := map snd (filter (fun x => x.1 = c) l).
Definition of_gauge (n : string) (l : list (nat * OtelData)) : list OtelData :=
  map snd (filter (fun x => ot_Name x.2 = n) l).
Definition queue (s : OtelShared) (c : nat) : list OtelData := default [] (ch_queue <$> s_chans s !! c).
(** What waits where the callback of a gauge looks for it. *)
Definition waiting (s : OtelShared) (n : string) : list OtelData :=
  default [] (queue s <$> inputs (s_format s) !! n).
Definition making (n : string) (p : goroutine) : bool := match p with Make m _ => String.eqb (ot_Name m) n | _ => false end.

(** What is left to do: a sample has up to five moves before it is in a channel, and one there. *)
Definition sender_work (p : goroutine) : nat :=
  match p with
  | Idle => 0
  | Start ms => 2 + 8 * length ms
  | Loop ms => 1 + 8 * length ms
  | Make _ ms => 8 + 8 * length ms
  | Made _ ms => 7 + 8 * length ms
  | Push _ ms => 6 + 8 * length ms
  | Full _ ms => 5 + 8 * length ms
  | Warned _ ms => 4 + 8 * length ms
  end.
Definition otel_work (s : OtelSystem) : nat :=
  sum_list_with sender_work (senders s) + sum_list_with (fun ch => length (ch_queue ch)) (s_chans (shared s)).

Record shared_ok (s : OtelShared) : Prop := {
  sh_log c : of_chan c (accepted s) = of_chan c (observed s) ++ queue s c;
  sh_bound c : (length (queue s c) <= CHAN_SLACK)%nat;
  sh_inputs n c : inputs (s_format s) !! n = Some c -> exists q, s_chans s !! c = Some (mkOtelChan n q);
  sh_own c m : (c, m) ∈ accepted s -> exists q, s_chans s !! c = Some (mkOtelChan (ot_Name m) q);
  sh_vecs n : is_Some (of_vecs (s_format s) !! n) <-> is_Some (inputs (s_format s) !! n)
}.

Lemma of_chan_app c l l' : of_chan c (l ++ l') = of_chan c l ++ of_chan c l'.
Proof. unfold of_chan. by rewrite filter_app, map_app. Qed.

Lemma of_chan_one c c' m : of_chan c [(c', m)] = if decide (c' = c) then [m] else [].
Proof. unfold of_chan. rewrite filter_cons. cbn [fst]. by destruct (decide (c' = c)). Qed.

Lemma of_gauge_app n l l' : of_gauge n (l ++ l') = of_gauge n l ++ of_gauge n l'.
Proof. unfold of_gauge. by rewrite filter_app, map_app. Qed.

Lemma CHAN_SLACK_pos : (0 < CHAN_SLACK)%nat.
Proof. unfold CHAN_SLACK. lia. Qed.

Lemma of_chan_in c m l : m ∈ of_chan c l <-> (c, m) ∈ l.
Proof.
  unfold of_chan. rewrite list_elem_of_fmap. setoid_rewrite list_elem_of_filter. split.
  - by intros ([c' m'] & -> & [= <-] & H).
  - intros H. by exists (c, m).
Qed.

#[local] Opaque CHAN_SLACK.

(** The queue of a channel when one is written, and when one is added. *)
Lemma queue_put s c n q c' : is_Some (s_chans s !! c) ->
  queue (mkOtelShared (s_format s) (<[c := mkOtelChan n q]> (s_chans s)) (accepted s) (observed s) (lost s)) c' =
  if decide (c = c') then q else queue s c'.
Proof.
  intros Hc%lookup_lt_is_Some. unfold queue. cbn [s_chans]. destruct (decide (c = c')) as [<-|Hne].
  - by rewrite list_lookup_insert_eq.
  - by rewrite list_lookup_insert_ne.
Qed.

Section Channels.
  Context (Float64ObservableGauge : string -> option error).

(** *** What a move does to the channels *)

Lemma store_ok n s : shared_ok s -> shared_ok (store_gauge n s).
Proof using Type.
  intros [Hl Hb Hi Ho Hv].
  assert (forall c, queue (store_gauge n s) c = queue s c) as Hq.
  { intros c. unfold queue. cbn [store_gauge s_chans]. destruct (s_chans s !! c) as [ch|] eqn:E.
    - by rewrite (lookup_app_l_Some _ _ _ _ E).
    - destruct (decide (c = length (s_chans s))) as [->|Hne].
      + by rewrite list_lookup_middle.
      + rewrite lookup_ge_None_2; [done|]. apply lookup_ge_None in E. rewrite length_app. cbn. lia. }
  split.
  - intros c. rewrite Hq. apply Hl.
  - intros c. rewrite Hq. apply Hb.
  - intros n' c. cbn. destruct (decide (n = n')) as [<-|Hne].
    + rewrite lookup_insert_eq. intros [= <-]. exists []. by rewrite list_lookup_middle.
    + rewrite lookup_insert_ne by done. intros (q & E)%Hi. exists q. by apply lookup_app_l_Some.
  - intros c m (q & E)%Ho. exists q. by apply lookup_app_l_Some.
  - intros n'. cbn. destruct (decide (n = n')) as [<-|Hne].
    + rewrite !lookup_insert_eq. split; by eexists.
    + rewrite !lookup_insert_ne by done. apply Hv.
Qed.

Lemma put_ok m s c q :
  shared_ok s -> inputs (s_format s) !! ot_Name m = Some c -> s_chans s !! c = Some (mkOtelChan (ot_Name m) q) ->
  (length q < CHAN_SLACK)%nat -> shared_ok (put_queue c (ot_Name m) (q ++ [m]) m s).
Proof using Type.
  intros [Hl Hb Hi Ho Hv] Hc Hq Hlen.
  assert (forall c', queue (put_queue c (ot_Name m) (q ++ [m]) m s) c' = if decide (c = c') then q ++ [m] else queue s c') as Hqs.
  { intros c'. apply queue_put. by rewrite Hq. }
  assert (forall c' n' q', s_chans s !! c' = Some (mkOtelChan n' q') -> exists q'', (<[c := mkOtelChan (ot_Name m) (q ++ [m])]> (s_chans s)) !! c' = Some (mkOtelChan n' q'')) as Hk.
  { intros c' n' q' E. destruct (decide (c = c')) as [<-|Hne].
    - rewrite list_lookup_insert_eq by (by eapply lookup_lt_Some). rewrite Hq in E. injection E as <- <-. by eexists.
    - rewrite list_lookup_insert_ne by done. by exists q'. }
  assert (queue s c = q) as Hqc by (unfold queue; by rewrite Hq).
  split.
  - intros c'. rewrite Hqs. cbn [put_queue accepted observed]. rewrite of_chan_app, of_chan_one, Hl.
    destruct (decide (c = c')) as [<-|Hne]; [by rewrite Hqc, app_assoc|by rewrite app_nil_r].
  - intros c'. rewrite Hqs. destruct (decide _); [rewrite length_app; cbn; lia|apply Hb].
  - intros n' c' (q' & E)%Hi. by eapply Hk.
  - intros c' m'. cbn [put_queue accepted]. intros [(q' & E)%Ho|[= -> ->]%list_elem_of_singleton]%elem_of_app; [by eapply Hk|].
    by eapply Hk.
  - exact Hv.
Qed.

Lemma otel_export_ok s c n m q :
  shared_ok s -> s_chans s !! c = Some (mkOtelChan n (m :: q)) ->
  shared_ok (mkOtelShared (s_format s) (<[c := mkOtelChan n q]> (s_chans s)) (accepted s) (observed s ++ [(c, m)]) (lost s)).
Proof using Type.
  intros [Hl Hb Hi Ho Hv] Hc.
  pose proof (fun c' => queue_put s c n q c' ltac:(by rewrite Hc)) as Hqs. unfold queue at 1 in Hqs. cbn [s_chans] in Hqs.
  assert (forall c' n' q', s_chans s !! c' = Some (mkOtelChan n' q') -> exists q'', (<[c := mkOtelChan n q]> (s_chans s)) !! c' = Some (mkOtelChan n' q'')) as Hk.
  { intros c' n' q' E. destruct (decide (c = c')) as [<-|Hne].
    - rewrite list_lookup_insert_eq by (by eapply lookup_lt_Some). rewrite Hc in E. injection E as <- <-. by eexists.
    - rewrite list_lookup_insert_ne by done. by exists q'. }
  assert (queue s c = m :: q) as Hqc by (unfold queue; by rewrite Hc).
  split; unfold queue; cbn [s_format s_chans accepted observed].
  - intros c'. rewrite Hqs, of_chan_app, of_chan_one, Hl. destruct (decide (c = c')) as [<-|Hne].
    + by rewrite Hqc, <-app_assoc.
    + by rewrite app_nil_r.
  - intros c'. rewrite Hqs. destruct (decide _); [|apply Hb]. pose proof (Hb c) as H. rewrite Hqc in H. cbn in H. lia.
  - intros n' c' (q' & E)%Hi. by eapply Hk.
  - intros c' m' (q' & E)%Ho. by eapply Hk.
  - exact Hv.
Qed.

(** *** The moves *)

(** Every move of a sender is one of seven: nothing that is shared changes, the gauge is refused, it
    is stored, the sample is put, it is lost, the full channel is noted or the drop is marked. *)
Inductive move : OtelShared -> goroutine -> OtelShared -> goroutine -> Prop :=
| M_quiet p p' s :
    samples_of p' = samples_of p -> (sender_work p' < sender_work p)%nat ->
    (forall n, making n p' = true -> of_vecs (s_format s) !! n = None) ->
    (forall m ms, p' = Push m ms -> p = Made m ms \/ is_Some (of_vecs (s_format s) !! ot_Name m)) ->
    (forall m ms, p' = Full m ms -> NoBlockExport (s_format s) = true) ->
    (forall m ms, p' <> Made m ms /\ p' <> Warned m ms) -> move s p s p'
| M_refuse m ms e s :
    Float64ObservableGauge (ot_Name m) = Some e -> move s (Loop (m :: ms)) (lose (m :: ms) s) Idle
| M_store m ms s : move s (Make m ms) (store_gauge (ot_Name m) s) (Made m ms)
| M_put m ms c n q s :
    inputs (s_format s) !! ot_Name m = Some c -> s_chans s !! c = Some (mkOtelChan n q) ->
    (length q < CHAN_SLACK)%nat -> move s (Push m ms) (put_queue c n (q ++ [m]) m s) (Loop ms)
| M_drop m ms s : NoBlockExport (s_format s) = true -> move s (Push m ms) (lose [m] s) (Loop ms)
| M_note m ms s : move s (Full m ms) (set_format (note_full m (s_format s)) s) (Warned m ms)
| M_mark m ms s : move s (Warned m ms) (lose [m] (set_format (count_drop m (s_format s)) s)) (Loop ms).

Lemma send_full_move m ms s s' p' : send_full m ms s = Some (s', p') -> move s (Push m ms) s' p'.
Proof using Type.
  unfold send_full. destruct (NoBlockExport (s_format s)) eqn:En; [|done].
  destruct (default false _); intros [= <- <-]; [by apply M_drop|]. by apply M_quiet; cbn; intros; try lia.
Qed.

Lemma run_sender_move held refused p s s' p' :
  run_sender Float64ObservableGauge held refused p s = Some (s', p') -> move s p s' p'.
Proof using Type.
  destruct p as [|ms|[|m ms]|m ms|m ms|m ms|m ms|m ms]; cbn [run_sender]; try done.
  - destruct refused; [done|]. intros [= <- <-]. apply M_quiet; cbn; try done; lia.
  - intros [= <- <-]. apply M_quiet; cbn; try done; lia.
  - unfold observe_gauge. destruct (of_vecs (s_format s) !! ot_Name m) eqn:Ev.
    + intros [= <- <-]. apply M_quiet; cbn; try done; try lia. intros m' ms' [= <- <-]. right. by rewrite Ev.
    + destruct (Float64ObservableGauge (ot_Name m)) eqn:Ef; intros [= <- <-]; [by eapply M_refuse|].
      apply M_quiet; cbn; try done; try lia. by intros n <-%String.eqb_eq.
  - destruct held; [done|]. intros [= <- <-]. constructor.
  - destruct refused; [done|]. intros [= <- <-]. apply M_quiet; cbn; try done; try lia. naive_solver.
  - unfold send_sample. destruct (inputs _ !! _) as [c|] eqn:Ei; [|apply send_full_move].
    destruct (s_chans s !! c) as [[n q]|] eqn:Ec; [|apply send_full_move].
    destruct (Nat.ltb_spec (length q) CHAN_SLACK); [|apply send_full_move].
    intros [= <- <-]. by apply M_put.
  - destruct held; [done|]. intros [= <- <-]. constructor.
  - destruct refused; [done|]. intros [= <- <-]. constructor.
Qed.

(** What a sender knows: that the gauge is there when it is about to send, and that samples may be
    dropped when it found a channel full. *)
Definition sender_ok (s : OtelShared) (p : goroutine) : Prop :=
  match p with
  | Made m _ | Push m _ => is_Some (inputs (s_format s) !! ot_Name m)
  | Full _ _ | Warned _ _ => NoBlockExport (s_format s) = true
  | _ => True
  end.

Lemma sender_ok_mono s s' p :
  (forall n, is_Some (inputs (s_format s) !! n) -> is_Some (inputs (s_format s') !! n)) ->
  NoBlockExport (s_format s') = NoBlockExport (s_format s) -> sender_ok s p -> sender_ok s' p.
Proof using Type. intros Hi Hn. destruct p; cbn; rewrite ?Hn; auto. Qed.

Lemma shared_ok_format f s :
  inputs f = inputs (s_format s) -> of_vecs f = of_vecs (s_format s) -> shared_ok s -> shared_ok (set_format f s).
Proof using Type. intros Hi Hv [H1 H2 H3 H4 H5]. split; cbn; rewrite ?Hi, ?Hv; done. Qed.

Lemma shared_ok_lose l s : shared_ok s -> shared_ok (lose l s).
Proof using Type. by intros [H1 H2 H3 H4 H5]. Qed.

Lemma note_full_same m f : inputs (note_full m f) = inputs f /\ of_vecs (note_full m f) = of_vecs f /\
  NoBlockExport (note_full m f) = NoBlockExport f.
Proof using Type. unfold note_full. by destruct (default false _). Qed.

Lemma move_inputs s p s' p' : move s p s' p' ->
  (NoBlockExport (s_format s') = NoBlockExport (s_format s)) /\ observed s' = observed s /\
  (inputs (s_format s') = inputs (s_format s) \/
   exists m ms, p = Make m ms /\ inputs (s_format s') = <[ot_Name m := length (s_chans s)]> (inputs (s_format s))).
Proof using Type.
  destruct 1; cbn; try by (split_and!; try done; left).
  - split_and!; [done..|]. right. by eexists _, _.
  - destruct (note_full_same m (s_format s)) as (-> & _ & ->). by split_and!; try left.
Qed.

Lemma move_keeps s p s' p' n : move s p s' p' ->
  is_Some (inputs (s_format s) !! n) -> is_Some (inputs (s_format s') !! n).
Proof using Type.
  intros (_ & _ & [->|(m & ms & _ & ->)])%move_inputs; [done|].
  destruct (decide (ot_Name m = n)) as [<-|Hne]; [rewrite lookup_insert_eq; by eexists|by rewrite lookup_insert_ne].
Qed.

Lemma move_ok s p s' p' : move s p s' p' -> shared_ok s -> sender_ok s p -> shared_ok s' /\ sender_ok s' p'.
Proof using Type.
  intros Hm Hs Hp. pose proof (fun n => move_keeps _ _ _ _ n Hm) as Hk. destruct Hm as
    [p p' s Hsm Hw Hmk Hpu Hfu Hno|m ms e s He|m ms s|m ms c n q s Hi Hc Hlen|m ms s Hn|m ms s|m ms s].
  - split; [done|]. destruct p' as [| | | |m ms|m ms|m ms|m ms]; cbn; try done; try (by destruct (Hno m ms)).
    + destruct (Hpu m ms eq_refl) as [->|Hv]; [done|]. by apply (sh_vecs _ Hs).
    + by eapply Hfu.
  - split; [by apply shared_ok_lose|done].
  - split; [by apply store_ok|]. cbn. rewrite lookup_insert_eq. by eexists.
  - split; [|done]. destruct (sh_inputs _ Hs _ _ Hi) as (q' & E). rewrite Hc in E. injection E as -> <-. by apply put_ok.
  - split; [by apply shared_ok_lose|done].
  - destruct (note_full_same m (s_format s)) as (H1 & H2 & H3). split; [by apply shared_ok_format|]. cbn. by rewrite H3.
  - split; [|done]. by apply shared_ok_lose, shared_ok_format.
Qed.

(** A sample is nowhere lost from sight. *)
Lemma move_conserves s p s' p' : move s p s' p' ->
  map snd (accepted s') ++ lost s' ++ samples_of p' ≡ₚ map snd (accepted s) ++ lost s ++ samples_of p.
Proof using Type.
  destruct 1; cbn [lose store_gauge put_queue set_format accepted lost samples_of].
  - by rewrite H.
  - by rewrite app_nil_r, <-?app_assoc.
  - done.
  - rewrite map_app. cbn. rewrite <-app_assoc. apply Permutation_app_head. cbn. apply Permutation_middle.
  - by rewrite <-app_assoc.
  - done.
  - by rewrite <-app_assoc.
Qed.

Lemma move_lost s p s' p' : move s p s' p' -> sender_ok s p -> NoBlockExport (s_format s) = false ->
  (forall n, Float64ObservableGauge n = None) -> lost s' = lost s.
Proof using Type. destruct 1; cbn; intros Hp Hn Hf; try done; congruence. Qed.

Definition chans_work (s : OtelShared) : nat := sum_list_with (fun ch => length (ch_queue ch)) (s_chans s).

Lemma chans_work_insert l c n q n' q' : l !! c = Some (mkOtelChan n q) ->
  (sum_list_with (fun ch => length (ch_queue ch)) (<[c := mkOtelChan n' q']> l) + length q =
   sum_list_with (fun ch => length (ch_queue ch)) l + length q')%nat.
Proof using Type.
  intros Hc. rewrite <-(list_insert_id l c _ Hc) at 2. apply lookup_lt_Some in Hc.
  rewrite !insert_take_drop, !sum_list_with_app by done. cbn. lia.
Qed.

Lemma move_work s p s' p' : move s p s' p' ->
  (sender_work p' + chans_work s' < sender_work p + chans_work s)%nat.
Proof using Type.
  unfold chans_work. destruct 1; cbn; try lia.
  - rewrite sum_list_with_app. cbn. lia.
  - pose proof (chans_work_insert _ c n q n (q ++ [m]) H0) as E. rewrite length_app in E. cbn in E. lia.
Qed.

(** A sample is accepted by the channel that its gauge has. *)
Lemma move_accepted s p s' p' : move s p s' p' ->
  accepted s' = accepted s \/
  exists c m, inputs (s_format s) !! ot_Name m = Some c /\ inputs (s_format s') = inputs (s_format s) /\
    accepted s' = accepted s ++ [(c, m)].
Proof using Type. destruct 1; cbn; try by left. right. by eexists _, _. Qed.

(** A sender gets to make only a gauge that is not there. *)
Lemma move_making s p s' p' n : move s p s' p' -> shared_ok s ->
  making n p' = true -> inputs (s_format s) !! n = None /\ inputs (s_format s') = inputs (s_format s).
Proof using Type.
  destruct 1; cbn; try done. intros Hs Hn%H1. split; [|done]. apply eq_None_not_Some. intros Hi%(sh_vecs _ Hs).
  by rewrite Hn in Hi; destruct Hi.
Qed.

(** *** The system *)

Lemma senders_split (l : list goroutine) i p : l !! i = Some p ->
  exists l1 l2, l = l1 ++ p :: l2 /\ forall p', <[i := p']> l = l1 ++ p' :: l2.
Proof using Type.
  intros Hi. exists (take i l), (drop (S i) l). split; [by rewrite take_drop_middle|].
  intros p'. apply insert_take_drop. by eapply lookup_lt_Some.
Qed.

Definition held_by (l : list goroutine) : list OtelData := flat_map samples_of l.

Record system_ok (noBlock : bool) (s : OtelSystem) : Prop := {
  sys_shared : shared_ok (shared s);
  sys_senders : Forall (sender_ok (shared s)) (senders s);
  sys_block : NoBlockExport (s_format (shared s)) = noBlock;
  sys_arrived : arrived s ≡ₚ map snd (accepted (shared s)) ++ lost (shared s) ++ held_by (senders s);
  sys_lost : noBlock = false -> (forall n, Float64ObservableGauge n = None) -> lost (shared s) = []
}.

Lemma sender_step_move prefer i s s' : sender_step Float64ObservableGauge prefer i s s' ->
  exists p p' l1 l2, senders s = l1 ++ p :: l2 /\ senders s' = l1 ++ p' :: l2 /\
    move (shared s) p (shared s') p' /\ arrived s' = arrived s.
Proof using Type.
  intros (p & sh' & p' & Hi & Hr & ->). destruct (senders_split _ _ _ Hi) as (l1 & l2 & E1 & E2).
  exists p, p', l1, l2. cbn. rewrite E2. split_and!; try done. by eapply run_sender_move.
Qed.

Lemma held_by_one l1 p l2 : held_by (l1 ++ p :: l2) ≡ₚ samples_of p ++ held_by (l1 ++ l2).
Proof using Type. unfold held_by. rewrite !flat_map_app. cbn. by rewrite Permutation_app_swap_app. Qed.

Lemma otel_step_ok noBlock prefer s s' :
  otel_step Float64ObservableGauge prefer s s' -> system_ok noBlock s -> system_ok noBlock s'.
Proof using Type.
  intros Hst [Hs Hp Hb Ha Hl]. destruct Hst as [i ms s Hi Hne|i s s' Hm|c n m q s Hc].
  - destruct (senders_split _ _ _ Hi) as (l1 & l2 & E1 & E2). rewrite E2. split; cbn; try done.
    + rewrite E1 in Hp. apply Forall_app in Hp as [H1 H2]. apply Forall_app. split; [done|].
      apply Forall_cons in H2 as [_ H2]. by constructor.
    + rewrite Ha, E1, !held_by_one. cbn. solve_Permutation.
  - destruct (sender_step_move _ _ _ _ Hm) as (p & p' & l1 & l2 & E1 & E2 & Hmv & Ea). rewrite E1 in Hp.
    apply Forall_app in Hp as [H1 [H2 H3]%Forall_cons]. destruct (move_ok _ _ _ _ Hmv Hs H2) as [Hs' H2'].
    destruct (move_inputs _ _ _ _ Hmv) as [Hn _].
    assert (forall x, sender_ok (shared s) x -> sender_ok (shared s') x) as Hmono.
    { intros x. apply sender_ok_mono; [|done]. intros k. by eapply move_keeps. }
    split.
    + done.
    + rewrite E2. apply Forall_app. split; [|constructor]; [by eapply Forall_impl|done|by eapply Forall_impl].
    + congruence.
    + rewrite Ea, Ha, E1, E2, !held_by_one. pose proof (move_conserves _ _ _ _ Hmv) as Hc.
      rewrite !app_assoc in *. by rewrite Hc.
    + intros Hf Hno. rewrite (move_lost _ _ _ _ Hmv) by (done || congruence). by apply Hl.
  - split; cbn; try done; by apply otel_export_ok.
Qed.

Lemma otel_start_ok noBlock k : system_ok noBlock (otel_start noBlock k).
Proof using Type.
  split; cbn; try done.
  - split; cbn; try done; try (intros ? ?; by rewrite lookup_empty); try (intros ?; rewrite !lookup_empty; done).
    + intros c. unfold queue. cbn. rewrite lookup_nil. cbn. lia.
    + intros c m H%elem_of_nil. done.
  - by apply Forall_replicate.
  - unfold held_by. by induction k.
Qed.

Lemma otel_reach_ok noBlock prefer k s :
  rtc (otel_step Float64ObservableGauge prefer) (otel_start noBlock k) s -> system_ok noBlock s.
Proof using Type.
  intros Hr. apply (rtc_ind_r (fun x => system_ok noBlock x) _ (otel_start_ok noBlock k)) in Hr; [done|].
  intros y z _ Hst. by apply (otel_step_ok noBlock prefer).
Qed.

(** *** Gauges that nobody makes any more *)

Definition settled (n : string) (c : nat) (s : OtelSystem) : Prop :=
  inputs (s_format (shared s)) !! n = Some c /\ existsb (making n) (senders s) = false.

Lemma making_split n l1 p l2 :
  existsb (making n) (l1 ++ p :: l2) = false <->
  making n p = false /\ existsb (making n) (l1 ++ l2) = false.
Proof using Type. 
  rewrite !existsb_app. cbn [existsb].
  destruct (existsb _ l1), (making n p), (existsb _ l2); split; try done; by intros [].
 Qed.

Lemma settled_step n c noBlock prefer s s' :
  otel_step Float64ObservableGauge prefer s s' -> system_ok noBlock s -> settled n c s ->
  settled n c s' /\ exists new, accepted (shared s') = accepted (shared s) ++ new /\
    forall c' m, (c', m) ∈ new -> ot_Name m = n -> c' = c.
Proof using Type.
  intros Hst Hok [Hi Hmk]. destruct Hst as [i ms s Hidle Hne|i s s' Hm|c' n' m q s Hc].
  - destruct (senders_split _ _ _ Hidle) as (l1 & l2 & E1 & E2). rewrite E1 in Hmk. apply making_split in Hmk as [_ Hmk].
    rewrite E2. split; [split; [done|]; by apply making_split|]. exists []. rewrite app_nil_r. split; [done|].
    by intros ? ? ?%elem_of_nil.
  - destruct (sender_step_move _ _ _ _ Hm) as (p & p' & l1 & l2 & E1 & E2 & Hmv & _). rewrite E1 in Hmk.
    apply making_split in Hmk as [Hp Hmk]. split; [split|].
    + destruct (move_inputs _ _ _ _ Hmv) as (_ & _ & [->|(m & ms & -> & ->)]); [done|].
      apply String.eqb_neq in Hp. by rewrite lookup_insert_ne.
    + rewrite E2. apply making_split. split; [|done]. destruct (making n p') eqn:E; [|done].
      destruct (move_making _ _ _ _ n Hmv (sys_shared _ _ Hok) E) as [E' _]. congruence.
    + destruct (move_accepted _ _ _ _ Hmv) as [->|(c' & m & Hc' & _ & ->)].
      * exists []. rewrite app_nil_r. split; [done|]. by intros ? ? ?%elem_of_nil.
      * eexists. split; [done|]. intros c2 m2 [= -> ->]%list_elem_of_singleton <-. congruence.
  - split; [done|]. exists []. cbn. rewrite app_nil_r. split; [done|]. by intros ? ? ?%elem_of_nil.
Qed.

Lemma settled_stays n c noBlock prefer s s' :
  rtc (otel_step Float64ObservableGauge prefer) s s' -> system_ok noBlock s -> settled n c s ->
  settled n c s' /\ exists new, accepted (shared s') = accepted (shared s) ++ new /\
    forall c' m, (c', m) ∈ new -> ot_Name m = n -> c' = c.
Proof using Type.
  induction 1 as [s|s s1 s' Hst _ IH]; intros Hok Hset.
  - split; [done|]. exists []. rewrite app_nil_r. split; [done|]. by intros ? ? ?%elem_of_nil.
  - destruct (settled_step _ _ _ _ _ _ Hst Hok Hset) as [Hset1 (new1 & E1 & H1)].
    destruct (IH (otel_step_ok _ _ _ _ Hst Hok) Hset1) as [Hset2 (new2 & E2 & H2)]. split; [done|].
    exists (new1 ++ new2). rewrite E2, E1, app_assoc. split; [done|]. intros c' m [H|H]%elem_of_app; eauto.
Qed.

(** *** One sender *)

Definition alone (s : OtelSystem) : Prop :=
  (exists p, senders s = [p] /\ forall n, making n p = true -> inputs (s_format (shared s)) !! n = None) /\
  forall c m, (c, m) ∈ accepted (shared s) -> inputs (s_format (shared s)) !! ot_Name m = Some c.

Lemma alone_step noBlock prefer s s' :
  otel_step Float64ObservableGauge prefer s s' -> system_ok noBlock s -> alone s -> alone s'.
Proof using Type.
  intros Hst Hok [(p0 & Hp0 & Hmk) Hacc]. destruct Hst as [i ms s Hidle Hne|i s s' Hm|c' n' m q s Hc]; [|
    destruct (sender_step_move _ _ _ _ Hm) as (p & p' & l1 & l2 & E1 & E2 & Hmv & _)|by split; [exists p0|]].
  - split; [|done]. rewrite Hp0 in *. destruct i; [|done]. cbn. by eexists.
  - rewrite Hp0 in E1. destruct l1 as [|? [|? ?]]; try done. injection E1 as <- <-. split.
    + exists p'. split; [done|]. intros n Hn. by destruct (move_making _ _ _ _ n Hmv (sys_shared _ _ Hok) Hn) as [? ->].
    + intros c m. destruct (move_accepted _ _ _ _ Hmv) as [->|(c1 & m1 & Hc1 & -> & ->)].
      * intros Hin. destruct (move_inputs _ _ _ _ Hmv) as (_ & _ & [->|(m' & ms & -> & ->)]); [by apply Hacc|].
        rewrite lookup_insert_ne; [by apply Hacc|]. intros E. specialize (Hmk (ot_Name m')). cbn in Hmk.
        rewrite String.eqb_refl, E, (Hacc _ _ Hin) in Hmk. by specialize (Hmk eq_refl).
      * intros [Hin|[= -> ->]%list_elem_of_singleton]%elem_of_app; [by apply Hacc|done].
Qed.

Lemma otel_reach_alone noBlock prefer s :
  rtc (otel_step Float64ObservableGauge prefer) (otel_start noBlock 1) s -> alone s.
Proof using Type.
  intros Hr. cut (alone s /\ system_ok noBlock s); [by intros []|].
  apply (rtc_ind_r (fun x => alone x /\ system_ok noBlock x) (otel_start noBlock 1)) in Hr; [done| |].
  - split; [|apply otel_start_ok]. split; [by exists Idle|]. by intros ? ? ?%elem_of_nil.
  - intros y z _ Hst [Ha Hok]. split; [by eapply alone_step|by eapply otel_step_ok].
Qed.

Lemma of_gauge_chan n c l :
  (forall x, x ∈ l -> (ot_Name x.2 = n <-> x.1 = c)) -> of_gauge n l = of_chan c l.
Proof using Type.
  unfold of_gauge, of_chan. induction l as [|x l IH]; intros H; [done|]. rewrite !filter_cons.
  specialize (IH ltac:(intros y Hy; apply H; by right)). pose proof (H x ltac:(by left)) as Hx.
  destruct (decide (ot_Name x.2 = n)) as [E|E], (decide (x.1 = c)) as [E'|E']; [cbn; by rewrite IH|by apply Hx in E|by apply Hx in E'|done].
Qed.

Lemma alone_exact noBlock s n : system_ok noBlock s -> alone s ->
  of_gauge n (accepted (shared s)) = of_gauge n (observed (shared s)) ++ waiting (shared s) n.
Proof using Type.
  intros Hok [_ Hacc]. pose proof (sys_shared _ _ Hok) as Hs.
  assert (forall c m, (c, m) ∈ observed (shared s) -> (c, m) ∈ accepted (shared s)) as Hobs.
  { intros c m. rewrite <-!of_chan_in, (sh_log _ Hs). intros H. apply elem_of_app. by left. }
  unfold waiting. destruct (inputs (s_format (shared s)) !! n) as [c|] eqn:Ei; cbn.
  - destruct (sh_inputs _ Hs _ _ Ei) as (q & Eq).
    assert (forall x, x ∈ accepted (shared s) -> (ot_Name x.2 = n <-> x.1 = c)) as Hx.
    { intros [c' m] Hin. cbn. split; intros <-.
      - apply Hacc in Hin. congruence.
      - destruct (sh_own _ Hs _ _ Hin) as (q' & E). rewrite Eq in E. by injection E. }
    rewrite !(of_gauge_chan n c); [by apply sh_log| |done]. intros [c' m] Hin. by apply Hx, Hobs.
  - assert (forall x, x ∈ accepted (shared s) -> ot_Name x.2 <> n) as Hx.
    { intros [c' m] Hin%Hacc <-. cbn in Ei. congruence. }
    assert (forall l, (forall x, x ∈ l -> ot_Name x.2 <> n) -> of_gauge n l = []) as Hnil.
    { intros l Hl. unfold of_gauge. induction l as [|x l IH]; [done|]. rewrite filter_cons_False by (apply Hl; by left).
      apply IH. intros y Hy. apply Hl. by right. }
    rewrite !Hnil; [done| |done]. intros [c' m] Hin. by apply Hx, Hobs.
Qed.


(** *** Progress *)

Lemma existsb_in {A} (f : A -> bool) l : existsb f l = true -> exists i x, l !! i = Some x /\ f x = true.
Proof using Type.
  intros (x & Hx & Hf)%existsb_exists. apply list_elem_of_In, list_elem_of_lookup in Hx as [i Hi]. by exists i, x.
Qed.

Lemma sender_can prefer s i p : senders s !! i = Some p ->
  run_sender Float64ObservableGauge (existsb reading (senders s)) (prefer && existsb to_write (senders s)) p (shared s) <> None ->
  exists i s', sender_step Float64ObservableGauge prefer i s s'.
Proof using Type.
  intros Hi Hr. destruct (run_sender _ _ _ _ _) as [[sh' p']|] eqn:E; [|done]. eexists i, _. by exists p, sh', p'.
Qed.

(** While one is not idle a sender moves, or a gauge has a sample to export. *)
Lemma otel_progress noBlock prefer s i p :
  system_ok noBlock s -> senders s !! i = Some p -> p <> Idle ->
  (exists i s', sender_step Float64ObservableGauge prefer i s s') \/ exists n, waiting (shared s) n <> [].
Proof using Type.
  intros Hok Hi Hp. destruct (existsb reading (senders s)) eqn:Er.
  { destruct (existsb_in _ _ Er) as (j & q & Hj & Hq). destruct q as [| |[|m ms]| | |m ms| |]; try done.
    - left. by eapply (sender_can prefer s j).
    - left. by eapply (sender_can prefer s j).
    - destruct (send_sample m ms (shared s)) eqn:Es; [left; eapply (sender_can prefer s j); [done|]; cbn; by rewrite Es|].
      right. pose proof (proj1 (Forall_lookup _ _) (sys_senders _ _ Hok) _ _ Hj) as [c Hc]. exists (ot_Name m).
      destruct (sh_inputs _ (sys_shared _ _ Hok) _ _ Hc) as (q & Eq). unfold waiting, queue. rewrite Hc. cbn. rewrite Eq. cbn.
      intros ->. unfold send_sample in Es. rewrite Hc, Eq in Es. cbn [length] in Es.
      destruct (Nat.ltb_spec 0 CHAN_SLACK) as [H|H]; [done|]. pose proof CHAN_SLACK_pos. lia. }
  left. destruct (existsb to_write (senders s)) eqn:Ew.
  { destruct (existsb_in _ _ Ew) as (j & q & Hj & Hq). eapply (sender_can prefer s j q Hj). rewrite Er. by destruct q. }
  eapply (sender_can prefer s i p Hi). rewrite Er, Ew, andb_false_r. destruct p as [| |[]| | |m ms| |]; try done.
  assert (existsb reading (senders s) = true) as H; [|by rewrite Er in H].
  apply existsb_exists. exists (Push m ms). split; [|done]. apply list_elem_of_In. by eapply list_elem_of_lookup_2.
Qed.

(** What is not an arrival leaves less to do. *)
Lemma otel_step_work prefer s s' :
  otel_step Float64ObservableGauge prefer s s' -> arrived s' = arrived s -> (otel_work s' < otel_work s)%nat.
Proof using Type.
  intros Hst Ha. unfold otel_work. destruct Hst as [i ms s Hidle Hne|i s s' Hm|c n m q s Hc].
  - cbn in Ha. apply (f_equal length) in Ha. rewrite length_app in Ha. destruct ms; [done|]. cbn in Ha. lia.
  - destruct (sender_step_move _ _ _ _ Hm) as (p & p' & l1 & l2 & E1 & E2 & Hmv & _).
    pose proof (move_work _ _ _ _ Hmv) as Hw. unfold chans_work in Hw. rewrite E1, E2, !sum_list_with_app. cbn. lia.
  - cbn. pose proof (chans_work_insert _ c n (m :: q) n q Hc) as E. cbn in E. lia.
Qed.

(** C28: Any number of senders run the loop of [To] and [Rollup] while callbacks take samples, in
    any interleaving, whether or not a waiting writer keeps readers out.  Every sample of the
    batches that came is accepted by a channel, lost, or still with its sender; what a channel
    accepted is what was observed through it, in order, and then what waits in it, at most 10000;
    without the option to drop, and when gauges can be made, none is lost.  With one sender, what
    was accepted for a gauge is what was observed and then what waits where its callback looks.
    With several, two that both saw a gauge missing each store a channel, and what waits in the
    first stays behind; but once a gauge has a channel and no sender is making it, all that is
    accepted for it from then on goes to that channel.  While a sender is busy a sender moves or a
    gauge has a sample to export, and what is not the arrival of a batch leaves less to do. *)
Theorem otel_keeps_samples noBlock prefer k s :
  rtc (otel_step Float64ObservableGauge prefer) (otel_start noBlock k) s ->
  (arrived s ≡ₚ map snd (accepted (shared s)) ++ lost (shared s) ++ held_by (senders s)) /\
  (forall c, of_chan c (accepted (shared s)) = of_chan c (observed (shared s)) ++ queue (shared s) c /\
     (length (queue (shared s) c) <= CHAN_SLACK)%nat) /\
  (noBlock = false -> (forall n, Float64ObservableGauge n = None) -> lost (shared s) = []) /\
  (k = 1%nat -> forall n, of_gauge n (accepted (shared s)) = of_gauge n (observed (shared s)) ++ waiting (shared s) n) /\
  (forall n c s', settled n c s -> rtc (otel_step Float64ObservableGauge prefer) s s' ->
     settled n c s' /\ exists new, accepted (shared s') = accepted (shared s) ++ new /\
       forall c' m, (c', m) ∈ new -> ot_Name m = n -> c' = c) /\
  (forall i p, senders s !! i = Some p -> p <> Idle ->
     (exists i s', sender_step Float64ObservableGauge prefer i s s') \/ exists n, waiting (shared s) n <> []) /\
  (forall s', otel_step Float64ObservableGauge prefer s s' -> arrived s' = arrived s -> (otel_work s' < otel_work s)%nat).
Proof using Type.
  intros Hr. pose proof (otel_reach_ok _ _ _ _ Hr) as Hok. pose proof (sys_shared _ _ Hok) as Hs.
  split_and!.
  - apply (sys_arrived _ _ Hok).
  - intros c. split; [apply (sh_log _ Hs)|apply (sh_bound _ Hs)].
  - apply (sys_lost _ _ Hok).
  - intros -> n. eapply alone_exact; [exact Hok|]. by eapply otel_reach_alone.
  - intros n c s' Hset Hr'. by eapply settled_stays.
  - intros i p. by eapply otel_progress.
  - intros s'. apply otel_step_work.
Qed.
End Channels.

#[local] Transparent CHAN_SLACK.

(** ** Witnesses *)

(** A schedule, and the state that it leads to. *)
Inductive act := Arrive (i : nat) (ms : list OtelData) | Move (i : nat) | Export (c : nat).

Definition otel_act (F : string -> option error) (prefer : bool) (s : OtelSystem) (a : act) : option OtelSystem :=
  match a with
  | Arrive i ms =>
      match senders s !! i, ms with
      | Some Idle, _ :: _ => Some (mkOtelSystem (shared s) (<[i := Start ms]> (senders s)) (arrived s ++ ms))
      | _, _ => None
      end
  | Move i =>
      p ← senders s !! i;
      '(sh, p) ← run_sender F (existsb reading (senders s)) (prefer && existsb to_write (senders s)) p (shared s);
      Some (mkOtelSystem sh (<[i := p]> (senders s)) (arrived s))
  | Export c =>
      match s_chans (shared s) !! c with
      | Some (mkOtelChan n (m :: q)) =>
          Some (mkOtelSystem (mkOtelShared (s_format (shared s)) (<[c := mkOtelChan n q]> (s_chans (shared s)))
            (accepted (shared s)) (observed (shared s) ++ [(c, m)]) (lost (shared s))) (senders s) (arrived s))
      | _ => None
      end
  end.
Definition otel_run (F : string -> option error) (prefer : bool) (l : list act) (s : OtelSystem) : OtelSystem :=
  foldl (fun s a => default s (otel_act F prefer s a)) s l.

Lemma otel_run_reaches F prefer l s : rtc (otel_step F prefer) s (otel_run F prefer l s).
Proof.
  revert s. induction l as [|a l IH]; intros s; [apply rtc_refl|]. unfold otel_run. cbn [foldl]. fold (otel_run F prefer l).
  destruct (otel_act F prefer s a) as [s'|] eqn:E; cbn [default]; [|apply IH].
  eapply rtc_l; [|apply IH]. destruct a as [i ms|i|c]; cbn in E.
  - destruct (senders s !! i) as [[]|] eqn:Ei; try done. destruct ms as [|m ms]; [done|]. injection E as <-. by constructor.
  - destruct (senders s !! i) as [p|] eqn:Ei; [|done]. cbn in E. destruct (run_sender _ _ _ _ _) as [[sh p']|] eqn:Er; [|done].
    cbn in E. injection E as <-. eapply S_sender. by exists p, sh, p'.
  - destruct (s_chans (shared s) !! c) as [[n [|m q]]|] eqn:Ec; try done. injection E as <-. by apply S_export.
Qed.

Definition otel_sample (n : string) (v : Z) : OtelData := mkOtelData n (float64_of v) ∅.
Definition no_refusal (_ : string) : option error := None.
#[local] Abbreviation cpu := "cpu"%string.

(** One sender sends two samples, and the first is exported. *)
Definition cpu_after : OtelSystem :=
  otel_run no_refusal true ([Arrive 0 [otel_sample cpu 1; otel_sample cpu 2]] ++ repeat (Move 0) 5 ++ [Export 0; Move 0; Move 0])
    (otel_start false 1).

Lemma otel_keeps_samples_witness :
  of_gauge cpu (accepted (shared cpu_after)) = of_gauge cpu (observed (shared cpu_after)) ++ [otel_sample cpu 2] /\
  map snd (observed (shared cpu_after)) = [otel_sample cpu 1] /\ lost (shared cpu_after) = [].
Proof.
  destruct (otel_keeps_samples no_refusal false true 1 cpu_after (otel_run_reaches _ _ _ _)) as (_ & _ & Hl & H1 & _).
  split; [|split].
  - rewrite (H1 eq_refl cpu). vm_compute. reflexivity.
  - vm_compute. reflexivity.
  - apply Hl; reflexivity.
Defined.

(** Two senders see that a gauge is not there; the first stores a channel, sends a sample to it and
    is done, and then the second stores its own: the sample that was accepted waits where no
    callback looks, and nothing counts it. *)
Definition race : OtelSystem :=
  otel_run no_refusal false ([Arrive 0 [otel_sample cpu 1]; Arrive 1 [otel_sample cpu 2]; Move 0; Move 1; Move 0; Move 1] ++
    repeat (Move 0) 4 ++ [Move 1]) (otel_start false 2).
Example otel_race :
  rtc (otel_step no_refusal false) (otel_start false 2) race /\
  accepted (shared race) = [(0%nat, otel_sample cpu 1)] /\ observed (shared race) = [] /\
  waiting (shared race) cpu = [] /\ queue (shared race) 0 = [otel_sample cpu 1] /\
  senders race = [Idle; Made (otel_sample cpu 2) []] /\ ExportDrops (s_format (shared race)) = ∅.
Proof. split; [apply otel_run_reaches|by vm_compute]. Qed.

(** With the option to drop, a sample for which there is no room is noted and marked the first
    time; the next one is only lost. *)
Definition full_shared : OtelShared :=
  mkOtelShared (set_of_gauges {[cpu := tt]} {[cpu := 0%nat]} (NewOtelFormat true))
    [mkOtelChan cpu (repeat (otel_sample cpu 0) CHAN_SLACK)] [] [] [].
Fixpoint run_alone (fuel : nat) (p : goroutine) (s : OtelShared) : OtelShared :=
  match fuel with
  | O => s
  | S fuel => match run_sender no_refusal false false p s with Some (s, p) => run_alone fuel p s | None => s end
  end.
Example drops_counted :
  let s := run_alone 20 (Loop [otel_sample cpu 1; otel_sample cpu 2; otel_sample cpu 3]) full_shared in
  (length (lost s), ExportDrops (s_format s) !! cpu) = (3%nat, Some 1).
Proof. vm_compute. reflexivity. Qed.
