(* ===== verification/Remote.v ===== *)
(** * Prometheus remote writes (src/pkg/formats/prom/remote.go)

    Records become series of labels and samples.  The protocol buffers, snappy and the
    timestamps of the library are arguments. *)
From S2P Require Import Prelude GoIO GoStrings KT Customs GoFloat ToJCHF SnmpTypes InterfaceMetrics.
From S2P Require Import DeviceMetrics FormatUtil Nrm Prom.

Record Sample := mkSample { sm_Timestamp : Z; sm_Value : float64 }.
Record TimeSeries := mkTimeSeries { Labels : list (string * string); Samples : list Sample }.
Record RemotePromFormat := mkRemotePromFormat {
  rp_lastMetadata : gmap string LastMetadata;
  rp_invalids : gmap string bool
}.

(** [NewRemoteFormat]: only snappy. *)
Definition NewRemoteFormat (compression : string) : option RemotePromFormat :=
  if String.eqb compression "snappy" then Some (mkRemotePromFormat ∅ ∅) else None.

Section Remote.
  Context `{MibEnricher} (r : FormatRanges) (fields : JCHF -> DeviceFields) (FromFloatSeconds : float64 -> Z).

(** The text of a label: an [int] is no text in a series of polls and of flows. *)
Definition label_text (ints : bool) (v : Attr) : option string :=
  match v with
  | TStr s => Some s
  | TInt64 z | TInt32 z => Some (Itoa z)
  | TInt z => if ints then Some (Itoa z) else None
  | _ => None
  end.

Definition at_time (in_ : JCHF) (v : float64) : Sample := mkSample (FromFloatSeconds (float64_of (Timestamp in_))) v.

(** The value of a metric of a poll. *)
Definition poll_sample (in_ : JCHF) (name : MetricInfo) (v : Z) : Sample :=
  at_time in_ (if String.eqb (mi_Format name) FloatMS then float64_div (float64_of v) (float64_of 1000) else float64_of v).

Section OneFormat.
  Context (f : RemotePromFormat).

Definition rp_metadata_of (in_ : JCHF) : option LastMetadata := rp_lastMetadata f !! DeviceName in_.

(** One series for each metric of a poll that has a value and that no filter drops. *)
Definition poll_series (in_ : JCHF) (attr : attrs) (isIf dropSrcAddr keep : bool) (full : string -> MetricInfo -> string) :
    list TimeSeries :=
  omap (fun '(m, name) =>
      if String.eqb m "" then None
      else
        v ← gomap_find (CustomBigInt in_) m;
        let attrNew := CopyAttrForSnmp (fr_attrs r attr) m name (rp_metadata_of in_) dropSrcAddr keep in
        if DropOnFilter (fr_filters r) attrNew (rp_metadata_of in_) isIf then None
        else
          Some (mkTimeSeries
                  (("name", full m name) :: omap (fun '(k, a) => t ← label_text false a; Some (k, t)) (fr_attrs r attrNew))%string
                  [poll_sample in_ name v]))
    (fr_metrics r (default ∅ (CustomMetrics in_))).

Definition rp_fromSnmpDeviceMetric (in_ : JCHF) : outcome (list TimeSeries) :=
  attr ← SetAttr (fr_flat r) (fr_scripts r) ∅ in_ (default ∅ (CustomMetrics in_)) (rp_metadata_of in_) false;
  Ok (poll_series in_ attr false true false (fun m name => "kentik." +:+ GetType name +:+ "." +:+ m)).

Definition rp_fromSnmpInterfaceMetric (in_ : JCHF) : outcome (list TimeSeries) :=
  attr ← SetAttr (fr_flat r) (fr_scripts r) ∅ in_ (default ∅ (CustomMetrics in_)) (rp_metadata_of in_) true;
  Ok (poll_series in_ attr true false true (fun m _ => "kentik.snmp." +:+ m)).

(** The labels of a test: no empty ones. *)
Definition base_labels (attr : attrs) : list (string * string) :=
  omap (fun '(k, a) => let t := default ""%string (label_text true a) in if String.eqb t "" then None else Some (k, t))
    (fr_attrs r attr).
Definition mkSeries (in_ : JCHF) (attr : attrs) (name : string) (v : Z) : TimeSeries :=
  mkTimeSeries (("name"%string, name) :: base_labels attr) [at_time in_ (float64_of v)].

Definition rp_fromKSynth (in_ : JCHF) : outcome (list TimeSeries) :=
  let rt := gomap_get 0 (CustomInt in_) "result_type" in
  let metrics := default ∅ (GetSynMetricNameSet rt) in
  attr ← SetAttr (fr_flat r) (fr_scripts r) ∅ in_ metrics (rp_metadata_of in_) false;
  let attr := prom_white_list attr in
  Ok (omap (fun '(m, name) =>
        if listed (mi_Name name) prom_synth_gauges
        then Some (mkSeries in_ attr ("kentik.synth." +:+ mi_Name name) (gomap_get 0 (CustomInt in_) m)) else None)
      (fr_metrics r metrics) ++
      [mkSeries in_ attr "kentik.synth.outcome" (GetSynthOutcome rt).1]).

Definition rp_fromKSyngest (in_ : JCHF) : outcome (list TimeSeries) :=
  attr ← SetAttr (fr_flat r) (fr_scripts r) ∅ in_ GetSyngestMetricNameSet (rp_metadata_of in_) false;
  let attr := prom_white_list attr in
  Ok (omap (fun '(m, name) =>
        let v := gomap_get 0 (CustomInt in_) m in
        if 0 <? v then Some (mkSeries in_ attr ("kentik.syngest." +:+ mi_Name name) v) else None)
      (fr_metrics r GetSyngestMetricNameSet)).

(** [fromKflow]: one series of all the volumes of a flow. *)
Definition rp_fromKflow (in_ : JCHF) : outcome (list TimeSeries) :=
  attr ← SetAttr (fr_flat r) (fr_scripts r) ∅ in_ flow_metrics (rp_metadata_of in_) false;
  Ok [mkTimeSeries (map (fun '(k, a) => (k, default ""%string (label_text false a))) (fr_attrs r attr))
        (omap (fun '(m, _) => let v := kflow_value in_ m in if 0 <? v then Some (at_time in_ (float64_of v)) else None)
           (fr_metrics r flow_metrics))].
End OneFormat.

Definition rp_fromSnmpMetadata (in_ : JCHF) (f : RemotePromFormat) : RemotePromFormat :=
  if String.eqb (DeviceName in_) "" then f
  else
    let d := fields in_ in
    let lm := SetMetadata (fr_strs r (default ∅ (CustomStr in_))) (fr_ints r (default ∅ (CustomInt in_)))
                (CustomTables d) (DeviceMatchAttr d) in_ in
    let set := mkRemotePromFormat (<[DeviceName in_ := lm]> (rp_lastMetadata f)) (rp_invalids f) in
    match rp_lastMetadata f !! DeviceName in_ with
    | None => set
    | Some old => if Size (Some old) <=? Size (Some lm) then set else f
    end.

Definition rp_toMetric (f : RemotePromFormat) (in_ : JCHF) : outcome (list TimeSeries * RemotePromFormat) :=
  let pure ms := ms ← ms; Ok (ms, f) in
  let ev := EventType in_ in
  if String.eqb ev KENTIK_EVENT_TYPE then pure (rp_fromKflow f in_)
  else if String.eqb ev KENTIK_EVENT_SNMP_DEV_METRIC then pure (rp_fromSnmpDeviceMetric f in_)
  else if String.eqb ev KENTIK_EVENT_SNMP_INT_METRIC then pure (rp_fromSnmpInterfaceMetric f in_)
  else if String.eqb ev KENTIK_EVENT_SYNTH then pure (rp_fromKSynth f in_)
  else if String.eqb ev KENTIK_EVENT_SYNTH_GEST then pure (rp_fromKSyngest f in_)
  else if String.eqb ev KENTIK_EVENT_SNMP_METADATA then Ok ([], rp_fromSnmpMetadata in_ f)
  else Ok ([], mkRemotePromFormat (rp_lastMetadata f) (<[ev := true]> (rp_invalids f))).

(** [To]; the other compressions are never configured. *)
Definition Remote_To (Marshal : list TimeSeries -> outcome bytes) (snappy : bytes -> bytes) (f : RemotePromFormat)
    (msgs : list JCHF) : outcome (option Output * RemotePromFormat) :=
  '(res, f) ← fold_out (fun '(res, f) m => '(ms, f) ← rp_toMetric f m; Ok (res ++ ms, f)) ([], f) msgs;
  if (length res =? 0)%nat then Ok (None, f)
  else
    pbBytes ← Marshal res;
    match msgs with
    | m :: _ => Ok (Some (NewOutputWithProviderAndCompanySender (snappy pbBytes) (Provider m) (CompanyId m) MetricOutput ""), f)
    | [] => Panic "index out of range"
    end.
End Remote.

(** A flow's series has no label that says which volume a sample is, and all have one time. *)
Example remote_flow_unnamed :
  let flow := set_OutBytes 9 (prom_flow "a") in
  match @rp_fromKflow (fun _ _ _ _ attr => attr) nrm_ranges (fun _ => 5) (mkRemotePromFormat ∅ ∅) flow with
  | Ok [s] => (existsb (fun kv => String.eqb kv.1 "name") (Labels s), map sm_Timestamp (Samples s))
  | _ => (true, [])
  end = (false, [5; 5]).
Proof. vm_compute. reflexivity. Qed.
